(* ===== verification/_CoqProject ===== *)
-Q . S2P
Prelude.v
Clock.v
Audio.v
Console.v
BlockDevice.v
Bus.v
SoftUart.v
Terminal.v
Video.v
Input.v
Trace.v
Options.v
Harness.v
Mouse.v
Main.v
Toolbox.v
ScsiHps.v
ScsiRuns.v
ScsiCd.v
ScsiTb.v
ScsiMain.v
Preboot.v
Display.v
DiskCopy.v
Drives.v
DiskBench.v
DiskRun.v
StepTests.v
KeyTest.v
CpuBench.v
CpuTests.v
CpuRun.v
PmmuBench.v
PmmuTests.v
Amiga.v
AdbBench.v
WalkBench.v
PmmuUnit.v
