(* ===== verification/Prelude.v ===== *)
(** * Verification of the MacIIvi_MiSTer simulation host

    The repository holds a Macintosh IIvi core for the MiSTer board.  Its hardware
    sources run in a simulation: Verilator turns them into a C++ class, and the
    program under src/verilator drives that class, plays the host processor of the
    board (disks, downloads, keyboard, mouse, serial line) and shows the screen.
    This development models that program, the benches for single units of the core -
    that of the SCSI controller has a host model of its own -, and the instruction and
    disk tests under src/SingleStepTests: the runner that plays a corpus on the core, and
    the programs that run on a real machine before its system is loaded.

    ** The parts and their files

    The simulation (src/verilator/sim and sim_main.cpp):
    - [Clock] (sim_clock.cpp): the divider that paces the other parts;
    - [Audio] (sim_audio.cpp): the plot ring and the output file;
    - [Console] (sim_console.cpp and two text edit primitives of
      imgui_widgets.cpp): log, history, completion;
    - [BlockDevice] (sim_blkdevice.cpp): mounting and the sector protocol, with
      the disk streams; the four parts of [BeforeEval] are [serve],
      [mount_phase], [start_phase] and [ack_phase];
    - [Bus] (sim_bus.cpp): the download queue and the words of a file;
    - [SoftUart], [Terminal] (sim_serial.cpp): the UART at the level of the wire
      and the window behind it;
    - [Video] (sim_video.cpp): blanking and sync to the texture;
    - [Input] (sim_input.cpp): key table, scan and the ps2_key pin;
    - [Trace] (sim_main.cpp, m68k_dasm_stubs.cpp): fetches to logged instructions;
    - [Options] (sim_main.cpp): the command line, with [std::stoi] and
      [std::getline];
    - [Harness] (sim_main.cpp, [verilate] and [resetSim]): one half period of the
      system clock, calling [Input], [Bus], [Trace], [Audio], [Video] and
      [Terminal] in the order of the code;
    - [Mouse] (sim_main.cpp): events to the ps2_mouse packet;
    - [Main] (sim_main.cpp, [main] and [save_screenshot]): startup, the loop
      without a window and a frame of the loop with one.

    The SCSI bench (src/verilator/scsi_bench/scsi_bench.cpp):
    - [Toolbox] ([TbHps]): the file service, its request and response blocks;
    - [ScsiHps] ([Hps], [tick]): the state machine that serves the disk and
      Toolbox slots, with the stalls the bench injects;
    - [ScsiRuns]: the bus cycles of the initiator, programmed transfer, and the
      read and write runs;
    - [ScsiCd]: the runs of the CD, its volume page and its commands;
    - [ScsiTb]: the client of the Toolbox service and its five runs;
    - [ScsiMain]: the options, the choice of the run, the sweep and its exit code.

    The other benches (src/verilator):
    - [AdbBench] (adb_bench): the line of the ADB device;
    - [WalkBench] (ksw_bench, berr_bench): programs planted for the processor and its
      translation unit;
    - [PmmuUnit] (pmmu_bench): the translation unit alone.

    The test programs (src/SingleStepTests; P is preboot):
    - [Preboot] (P/common/runtime): byte loops, decimal output, the eject call and
      the line writer [JsonlWriter] with its batches;
    - [Display] (P/common/display/display_1bpp.c): text in the frame buffer;
    - [DiskCopy] (P/diskcopy): the floppy duplicator, and the machine [Mach] with
      its keyboard, screen and exception barrier that [DiskRun] and [KeyTest]
      share;
    - [Drives] (P/iotest/drive_enum.c, scsi_probe.c, scsi_sense.c): the drive and
      volume queues, the register dump, the sense request;
    - [DiskBench], [DiskRun] (P/iotest/timing.c, sizes.c, diskio_main.c): the parts
      of the disk bench, and its main program;
    - [KeyTest] (P/keytest): the keyboard diagnostic;
    - [StepTests] (tg68k/sim_main.cpp, sim_main_maclc.cpp): the runner on the core;
    - [CpuBench], [CpuRun] (P/supervisor_bench/bench_main.c,
      gen/cpu_test_macii.c, macos_bench/cpu_bench.c): the programs of machine code
      that the three CPU benches build, and their main loops;
    - [PmmuBench] (P/supervisor_bench/pmmu_bench_main.c): the corpus moved to other
      addresses, the set-up of a test and the run with the ROM's translation saved,
      switched off and restored;
    - [CpuTests], [PmmuTests] (gen/cpu_tests.h, gen/pmmu_tests.h): the rows of the
      two corpora;
    - [Amiga] (P/amiga): the gate and the batch writer of the port to the Amiga.

    This file holds what they share: record update, integers at their width, and
    a few lemmas and tactics.

    ** How the code is modelled

    A class or a group of globals is a record with the names of its members, an
    operation a function from the state to the state; the bodies follow the order
    of the code, its guards and early returns.  A C++ integer is a [Z] and its
    conversions [uwrap] and [swrap] are written where the code has them.  Undefined
    behaviour, a failed assertion and an uncaught exception are the result [None],
    or a constructor of their own where the code tells them apart ([Options]).
    Where the code shares a global between two parts (the console, the bus pins),
    it is threaded through both.

    What is not C++ of the repository is an argument: the core (the class [Core] of
    [Harness] and that of [ScsiHps], [Dut] of [ScsiRuns], [AdbDevice], [WalkCore],
    [Pmmu] of the other benches), the file system, the
    allocator, the clock of the host, the key state, the disassembler, the user's
    actions.  Of the core nothing is assumed, except in three groups of theorems: the
    class [Handshake] of [ScsiHps] states the request and acknowledge protocol, the
    class [Stream] of [ScsiRuns] that a device delivers bytes in order, and the class
    [Target] of [ScsiCd] that a target answers the commands of the CD runs; each has an
    instance at the end of its file.

    The programs that run on a real machine work on its memory, a function from
    addresses to bytes, and call its ROM.  The traps are classes: [Driver] (_Write),
    [DeviceManager] (_Read, _Write, _Control, which may raise an exception),
    [ScsiManager], and [TrackDevice] on the Amiga; what they do to the disks is stated by
    [Disk], [Floppies], [RawDisk] and [TrackLaws], what the timer chip does by [Via], what the processor does with the
    instructions the benches emit by [M68030].  A look at the keyboard takes the next
    sample of a list, and a program that has used them up waits ([Waits]); an
    exception behind the barrier is an error number, in front of it control is lost
    ([Lost]).  The calls of paint_string are recorded in order; [Display] gives their
    effect on the frame buffer.

    ** What the theorems show

    - Delivery: a ROM queued at startup reaches the core word by word
      ([Main.boot_delivers_rom], [Bus.bus_download]); sectors are read and written
      exactly ([BlockDevice.sector_read], [BlockDevice.sector_write]); keys arrive
      in order ([Input.Input_events_in_order]); the mouse packet decodes to what
      was put in ([Mouse.mouse_packet_decodes]).
    - Round trips: transmitter against receiver ([SoftUart.uart_loopback]), printed
      against parsed options ([Options.parse_print]), files through the Toolbox
      service ([Toolbox.send_file], [Toolbox.get_file]), and the same over the
      wire, through stalls ([ScsiHps.wire_send]).
    - Refinement: the harness runs each component as the component alone would run
      ([Harness.harness_components]); the state machine of the bench implements a
      host that serves a request in one step ([ScsiHps.hps_refines_host]).
    - Safety and bounds: a run without a window never faults
      ([Main.headless_safe]); the machine of the bench neither overflows nor leaves
      its block ([ScsiHps.hps_safe]); addresses of the texture, lines of the
      terminal and the trace buffer stay within their limits.
    - Termination: the headless loop stops where it is asked to
      ([Main.headless_stops]); every run of the bench and its sweep end, whatever the
      device does ([ScsiRuns.runs_end], [ScsiCd.cd_runs_end], [ScsiMain.sweep_ends]), and
      so do the other benches ([WalkBench.walk_benches_end], [PmmuUnit.translate_ends],
      [AdbBench.bench_clocks]).
    - Verdicts: in every mix of access widths a run reads the same bytes and reports
      exactly the wrong ones ([ScsiRuns.reads_exact]); the runs of the CD, of the Toolbox
      and of the alias end with 0 exactly if what they test is so
      ([ScsiCd.gapcmds_verdict], [ScsiCd.cdvol_verdict], [ScsiTb.toolbox_passes],
      [WalkBench.ksw_passes]); the bench of the translation unit ends with 0 in any case
      ([PmmuUnit.bench_returns_zero]).
    - Types: every row of both corpora fits the arrays, buffers and address ranges of
      every program that uses it ([CpuTests.cpu_rows_typed], [PmmuTests.pmmu_rows_typed]).
    - Planted memory: the set-up of a PMMU test puts every long in its place, moved
      ([PmmuBench.apply_holds], [PmmuBench.patch_tokens]); what the benches of the
      processor plant does not overlap ([WalkBench.planted], [WalkBench.berr_lands]).
    - Bracketing: the ROM's translation is back before anything is shown or written
      ([PmmuBench.pm_run_trace]); on the Amiga the system is called only while it has the
      machine ([Amiga.brackets_close]).
    - Copies and files: a floppy copy that completes is exact and the source is never
      changed ([DiskCopy.copy_exact], [DiskCopy.source_untouched]); the line writer
      leaves its text on the disk, in batches ([Preboot.jw_file]); the disk bench
      reports a working disk as working and writes nowhere else
      ([DiskRun.iotest_reports], [DiskRun.iotest_confined]).
    - Tests: a test passes exactly if the states agree ([StepTests.verdict_agrees]);
      the state is captured at the first fetch and write of the dump
      ([StepTests.capture_first]); the code that dumps it on a real machine stores
      every register and disturbs none ([CpuBench.dump_captures]).
    - Errors: what a lost tail block leaves behind ([Toolbox.lost_tail_block]) and
      when a deferred write is counted as lost ([ScsiHps.deferred_write]); every way
      the command line can fail ([Options.parse_args_config]).
    The remaining theorems of each file give the functional behaviour of its
    operations, and the divergences and defects met while modelling.

    ** Bounds and fuel

    Loops over data are structural.  A fuel is used where the code loops on a
    condition, each with a lemma that it is enough: the walk over the trace buffer
    (its length), the loops of a read run (the number of bytes, of which each access
    takes at least one), the wait for DREQ (the code's own limit of 500000 clocks),
    the retry loops of the duplicator (a failed attempt takes a sample of the keys),
    the wraps of the timer (two looks), the queues of drives and volumes (the code's
    limit of 32 hops), the capture of a test (its limit of 5000 cycles), the pieces of an
    upload (the length of the file), the looks at a translation (the code's 400) and the
    cycles of the processor's benches (200000 and 300000).  The
    counts of [Main] are the numbers of calls and passes the code is asked for.

    ** Not modelled

    - Third-party code: Dear ImGui, ImPlot, the file dialog, the PNG writer, the JSON
      library, the waveform writers and the Musashi disassembler.
    - The hardware description, which is not C++, and the class generated from it.
    - The debug printouts of [verilate] (exception frames, program counter ring,
      memory and peripheral probes): they read pins and write text.
    - The drawing calls of the windows and the DirectInput device handling.
    - Of the benches, the texts and traces they print, the waveform files, and of the
      SCSI bench the ring of read records and the report of [tb_get_diag].
    - Of SingleStepTests, the generator of the first corpus (gen.c), the build of the
      PMMU bench for the emulator, and assembly files. *)

From Stdlib Require Export ZArith Lia Bool.
From stdpp Require Export base tactics option numbers list.
From stdpp Require Export strings.

#[global] Open Scope Z_scope.
#[global] Set Default Goal Selector "!".

(** ** Record update

    [r <| f := v |>] is [r] with the field [f] replaced by [v], the C++
    assignment [r.f = v].  An [Eta] instance lists the fields of a record once;
    the setter of a field is derived from it. *)

Class Eta (R : Type) := eta_expand : R -> R.
Class Setter {R E : Type} (get : R -> E) := modify_field : (E -> E) -> R -> R.
#[global] Hint Mode Eta ! : typeclass_instances.

Ltac head_of t := lazymatch t with ?f _ => head_of f | _ => t end.

Ltac derive_setter :=
  lazymatch goal with
  | |- @Setter ?R ?E ?get =>
      let i := lazymatch constr:(@eta_expand R _) with @eta_expand _ ?i => i end in
      let h := head_of i in
      let body := eval cbv beta delta [h] in i in
      exact (fun (upd : E -> E) (r : R) =>
        ltac:(let b := eval cbv beta in (body r) in
              lazymatch (eval pattern (get r) in b) with
              | (fun _ => ?same) _ => fail
              | ?k _ => let b' := eval cbv beta in (k (upd (get r))) in exact b'
              end))
  end.

#[global] Hint Extern 0 (Setter _) => derive_setter : typeclass_instances.

Declare Scope update_scope.
Delimit Scope update_scope with update.
Notation "r <| f := v |>" :=
  (modify_field (get := f) (fun _ => v) r)
  (at level 1, f at level 1, v at level 99, left associativity,
   format "r  <|  f  :=  v  |>") : update_scope.
Notation "r <| f ::= g |>" :=
  (modify_field (get := f) g r)
  (at level 1, f at level 1, g at level 99, left associativity,
   format "r  <|  f  ::=  g  |>") : update_scope.
#[global] Open Scope update_scope.

(** ** Integers at their width

    A C++ integer is a [Z]; the conversions to a [w]-bit type are the functions
    below.  Signed conversion is the two's complement one. *)

Definition uwrap (w x : Z) : Z := x `mod` 2 ^ w.
Definition swrap (w x : Z) : Z := (x + 2 ^ (w - 1)) `mod` 2 ^ w - 2 ^ (w - 1).

Abbreviation u8 := (uwrap 8).
Abbreviation u16 := (uwrap 16).
Abbreviation u32 := (uwrap 32).
Abbreviation u64 := (uwrap 64).
Abbreviation s8 := (swrap 8).
Abbreviation s32 := (swrap 32).

Lemma uwrap_range (w x : Z) : 0 <= w -> 0 <= uwrap w x < 2 ^ w.
Proof. intros Hw. apply Z.mod_pos_bound. lia. Qed.

Lemma uwrap_small (w x : Z) : 0 <= x < 2 ^ w -> uwrap w x = x.
Proof. apply Z.mod_small. Qed.

Lemma swrap_range (w x : Z) : 0 < w -> - 2 ^ (w - 1) <= swrap w x < 2 ^ (w - 1).
Proof.
  intros Hw. unfold swrap.
  assert (Hp : 2 ^ w = 2 * 2 ^ (w - 1)) by (rewrite <- Z.pow_succ_r by lia; f_equal; lia).
  pose proof (Z.mod_pos_bound (x + 2 ^ (w - 1)) (2 ^ w)). lia.
Qed.

Lemma swrap_small (w x : Z) : 0 < w -> - 2 ^ (w - 1) <= x < 2 ^ (w - 1) -> swrap w x = x.
Proof.
  intros Hw Hx. unfold swrap.
  assert (Hp : 2 ^ w = 2 * 2 ^ (w - 1)) by (rewrite <- Z.pow_succ_r by lia; f_equal; lia).
  rewrite Z.mod_small by lia. lia.
Qed.

(** The result of signed arithmetic on an [int]: overflow is undefined. *)
Definition INT_MAX : Z := 2147483647.
Definition checked_int (x : Z) : option Z := if (- INT_MAX - 1 <=? x) && (x <=? INT_MAX) then Some x else None.

Lemma checked_int_small x : 0 <= x <= INT_MAX -> checked_int x = Some x.
Proof.
  intros Hx. unfold checked_int. rewrite (proj2 (Z.leb_le _ _)) by (unfold INT_MAX in *; lia).
  by rewrite (proj2 (Z.leb_le _ _)) by lia.
Qed.

Lemma checked_int_Some x y : checked_int x = Some y -> y = x /\ - 2 ^ 31 <= x < 2 ^ 31.
Proof.
  unfold checked_int, INT_MAX. intros H. destruct (_ && _) eqn:E; [|done]. injection H as <-.
  apply andb_prop in E as [E1%Z.leb_le E2%Z.leb_le]. split; [done|].
  change (2 ^ 31) with 2147483648. lia.
Qed.

(** ** Tactics and arithmetic shared by the components *)

(** Case analysis on the integer tests of the goal. *)
Ltac zcases :=
  repeat match goal with
  | |- context [?a =? ?b] => destruct (Z.eqb_spec a b)
  | |- context [?a <? ?b] => destruct (Z.ltb_spec a b)
  | |- context [?a <=? ?b] => destruct (Z.leb_spec a b)
  end.

(** Integer goals with constants divided by: [lia] after the division equations. *)
Ltac div_lia := Z.to_euclidean_division_equations; lia.

(** The counter that wraps at [m]: adding one to a remainder. *)
Lemma mod_succ (n m : Z) :
  0 < m -> (n + 1) `mod` m = if n `mod` m + 1 =? m then 0 else n `mod` m + 1.
Proof.
  intros Hm. pose proof (Z.mod_pos_bound n m Hm).
  rewrite <- Z.add_mod_idemp_l by lia.
  zcases.
  - replace (n `mod` m + 1) with m by lia. apply Z.mod_same. lia.
  - apply Z.mod_small. lia.
Qed.

(** Bit fields: a value shifted over a field that holds [b]. *)
Lemma lor_shiftl_add (a b n : Z) :
  0 <= n -> 0 <= b < 2 ^ n -> Z.lor (Z.shiftl a n) b = a * 2 ^ n + b.
Proof.
  intros Hn Hb. rewrite <- Z.shiftl_mul_pow2 by done.
  assert (Hl : Z.land (Z.shiftl a n) b = 0).
  { apply Z.bits_inj'. intros m Hm. rewrite Z.land_spec, Z.bits_0.
    destruct (Z.lt_ge_cases m n).
    - by rewrite Z.shiftl_spec_low.
    - rewrite <- (Z.mod_small b (2 ^ n)) by done.
      rewrite Z.mod_pow2_bits_high by lia. by rewrite andb_false_r. }
  rewrite <- (Z.lxor_lor _ _ Hl). symmetry. by apply Z.add_nocarry_lxor.
Qed.

Lemma land_ones_mod (a n : Z) : 0 <= n -> Z.land a (2 ^ n - 1) = a `mod` 2 ^ n.
Proof. intros Hn. rewrite <- Z.land_ones by done. by rewrite Z.ones_equiv, Z.sub_1_r. Qed.

Lemma land_255 (a : Z) : Z.land a 255 = a `mod` 256.
Proof. exact (land_ones_mod a 8 ltac:(lia)). Qed.

(** [iterate n f x] is [f] applied [n] times: [n] calls of a handler. *)
Fixpoint iterate {A} (n : nat) (f : A -> A) (x : A) : A :=
  match n with O => x | S k => f (iterate k f x) end.

Lemma iterate_add {A} (n m : nat) (f : A -> A) (x : A) :
  iterate (n + m)%nat f x = iterate n f (iterate m f x).
Proof. induction n as [|n IH]; cbn; [done | by rewrite IH]. Qed.

Lemma iterate_invariant {A} (P : A -> Prop) (f : A -> A) (n : nat) (x : A) :
  (forall y, P y -> P (f y)) -> P x -> P (iterate n f x).
Proof. intros Hf Hx. induction n as [|n IH]; cbn; [done | by apply Hf]. Qed.

(** Bytes, and checking all the elements of a table. *)
Definition is_byte (b : Z) : Prop := 0 <= b < 256.
Definition byteb (x : Z) : bool := (0 <=? x) && (x <? 256).

Lemma byteb_spec x : byteb x = true -> is_byte x.
Proof. unfold byteb, is_byte. rewrite andb_true_iff, Z.leb_le, Z.ltb_lt. lia. Qed.

Lemma forallb_Forall_impl {A} (f : A -> bool) (P : A -> Prop) (l : list A) :
  (forall x, f x = true -> P x) -> forallb f l = true -> Forall P l.
Proof. intros Hf Hl. rewrite forallb_forall in Hl. apply List.Forall_forall. auto. Qed.
