(* ===== verification/Clock.v ===== *)
(** * The clock divider of the simulation (sim/sim_clock.cpp)

    [SimClock] divides the ticks of the main loop: [SimClock_Tick] counts up to
    [ratio] and drives [clk] high for the one tick in which the counter wraps.
    The theorem gives the rising edges in closed form: one every [ratio + 1]
    ticks, the rate every other component of the host is paced by. *)

From S2P Require Import Prelude.

Record SimClock := MkSimClock { clk : bool; old : bool; ratio : Z; count : Z }.

#[export] Instance eta_SimClock : Eta SimClock :=
  fun c => MkSimClock (clk c) (old c) (ratio c) (count c).

Definition SimClock_default : SimClock := MkSimClock false false 1 0.
Definition SimClock_new (r : Z) : SimClock := MkSimClock false false r 0.

Definition SimClock_Tick (c : SimClock) : SimClock :=
  let c := c <| old := clk c |> in
  let c := c <| count := count c + 1 |> in
  let c := if ratio c <? count c then c <| count := 0 |> else c in
  c <| clk := count c =? 0 |>.

Definition SimClock_Reset (c : SimClock) : SimClock :=
  c <| count := 0 |> <| clk := false |> <| old := false |>.

Definition SimClock_IsRising (c : SimClock) : bool := clk c && negb (old c).

(** ** The state after [n] ticks *)

Definition at_tick (r : Z) (n : nat) (c : SimClock) : Prop :=
  ratio c = r /\ count c = Z.of_nat n `mod` (r + 1) /\
  clk c = (Nat.ltb 0 n && (count c =? 0)) /\
  old c = (Nat.ltb 1 n && (Z.of_nat (n - 1) `mod` (r + 1) =? 0)).

Lemma at_tick_start r c :
  0 <= r -> ratio c = r -> at_tick r 0 (SimClock_Reset c).
Proof. intros Hr Hc. unfold at_tick. cbn. by rewrite Z.mod_0_l by lia. Qed.

Lemma at_tick_step r n c : 0 <= r -> at_tick r n c -> at_tick r (S n) (SimClock_Tick c).
Proof.
  intros Hr (Hrat & Hcnt & Hclk & _).
  assert (Hn : Z.of_nat (S n) `mod` (r + 1) =
               if count c + 1 =? r + 1 then 0 else count c + 1).
  { rewrite Hcnt, <- mod_succ by lia. f_equal. lia. }
  pose proof (Z.mod_pos_bound (Z.of_nat n) (r + 1)).
  unfold at_tick, SimClock_Tick; cbn.
  rewrite Hn, Hclk, Nat.sub_0_r, <- Hcnt, Hrat.
  destruct (Z.ltb_spec r (count c + 1)), (Z.eqb_spec (count c + 1) (r + 1));
    cbn; try lia; (split; [done|]); split; [lia| |lia|]; (split; [|by destruct n]);
    zcases; lia.
Qed.

Lemma at_tick_iterate r n c :
  0 <= r -> at_tick r 0 c -> at_tick r n (iterate n SimClock_Tick c).
Proof. intros Hr Hc. induction n as [|n IH]; cbn; [done | by apply at_tick_step]. Qed.

(** The rising edges, for the components that are paced by a clock. *)
Lemma clock_rising_from_reset (r : Z) (c : SimClock) (n : nat) :
  1 <= r -> ratio c = r ->
  SimClock_IsRising (iterate n SimClock_Tick (SimClock_Reset c)) = true <->
  (0 < n)%nat /\ Z.of_nat n `mod` (r + 1) = 0.
Proof.
  intros Hr Hc. set (c' := iterate n SimClock_Tick (SimClock_Reset c)).
  destruct (at_tick_iterate r n (SimClock_Reset c)) as (Hrat & Hcnt & Hclk & Hold);
    [lia | apply at_tick_start; lia |].
  fold c' in Hrat, Hcnt, Hclk, Hold.
  unfold SimClock_IsRising. rewrite Hclk, Hold, Hcnt.
  destruct n as [|n]; [cbn; split; [done | lia]|].
  replace (S n - 1)%nat with n by lia.
  rewrite Nat2Z.inj_succ. unfold Z.succ. rewrite mod_succ by lia.
  pose proof (Z.mod_pos_bound (Z.of_nat n) (r + 1)).
  destruct n as [|n]; [|cbn [Nat.ltb Nat.leb]]; zcases; cbn; split; intros; try done; lia.
Qed.

(** After a reset, a clock of ratio [r >= 1] has a rising edge exactly at
    the ticks that are a positive multiple of [r + 1]; and its counter stays
    within [0, r], so the increment never leaves the range of the ratio. *)
Theorem SimClock_rising_edges (r : Z) (c : SimClock) (n : nat) :
  1 <= r -> ratio c = r ->
  let c' := iterate n SimClock_Tick (SimClock_Reset c) in
  (SimClock_IsRising c' = true <-> (0 < n)%nat /\ Z.of_nat n `mod` (r + 1) = 0) /\
  0 <= count c' <= r.
Proof.
  intros Hr Hc c'. split; [by apply clock_rising_from_reset|].
  destruct (at_tick_iterate r n (SimClock_Reset c)) as (_ & Hcnt & _);
    [lia | apply at_tick_start; lia |].
  fold c' in Hcnt. rewrite Hcnt.
  pose proof (Z.mod_pos_bound (Z.of_nat n) (r + 1)). lia.
Qed.

Lemma SimClock_rising_edges_witness :
  SimClock_IsRising (iterate 4 SimClock_Tick (SimClock_Reset (SimClock_new 1))) = true.
Proof.
  apply (SimClock_rising_edges 1 (SimClock_new 1) 4);
    [lia | reflexivity | split; [lia | reflexivity]].
Defined.
