(* ===== verification/Audio.v ===== *)
(** * The audio tap of the simulation (sim/sim_audio.cpp)

    [SimAudio_Clock] writes one sample of the left channel to the output file at
    every rising edge of a clock of its own; [SimAudio_CollectDebug] keeps the
    last 600 samples of both channels in a ring for the plot window.

    A sample is [left / 32768.0f].  The quotient of a 16-bit integer by [2^15] is
    exact in single precision, so it is the rational number itself here; a
    position of the plot axis is the rational that the code rounds to a
    [float].  The output file is [None] while it is not open, and the list of the
    samples written otherwise. *)

From Stdlib Require Import QArith.
From S2P Require Import Prelude Clock.
#[local] Open Scope Z_scope.

Definition debug_max_samples : Z := 600.

Record SimAudio := MkSimAudio {
  debug_positions : list Q;
  debug_wave_l : list Q;
  debug_wave_r : list Q;
  debug_pos : Z;
  audio_clk : SimClock;           (* the file's global [clk] *)
  outputToFile : bool;
  audioFile : option (list Q) }.

#[export] Instance eta_SimAudio : Eta SimAudio := fun a =>
  MkSimAudio (debug_positions a) (debug_wave_l a) (debug_wave_r a) (debug_pos a)
    (audio_clk a) (outputToFile a) (audioFile a).

Definition to_sample (v : Z) : Q := v # 32768.

(** The object is a global: its arrays start as zeros. *)
Definition SimAudio_new (systemClockFrequency : Z) (saveToFile : bool) : SimAudio :=
  let zeros := repeat 0%Q (Z.to_nat debug_max_samples) in
  MkSimAudio zeros zeros zeros 0
    (SimClock_new (systemClockFrequency ÷ 44100)) saveToFile None.

Definition SimAudio_Clock (left right : Z) (a : SimAudio) : SimAudio :=
  let a := a <| audio_clk ::= SimClock_Tick |> in
  if SimClock_IsRising (audio_clk a) then
    let l := to_sample left in
    if outputToFile a
    then a <| audioFile := option_map (fun out => out ++ [l]) (audioFile a) |>
    else a
  else a.

Definition SimAudio_CollectDebug (left right : Z) (a : SimAudio) : SimAudio :=
  let vol_l := to_sample left in
  let vol_r := to_sample right in
  let a := a <| debug_pos := debug_pos a + 1 |> in
  let a := if debug_pos a =? debug_max_samples then a <| debug_pos := 0 |> else a in
  a <| debug_wave_l ::= <[Z.to_nat (debug_pos a) := vol_l]> |>
    <| debug_wave_r ::= <[Z.to_nat (debug_pos a) := vol_r]> |>.

Definition SimAudio_Initialise (a : SimAudio) : SimAudio :=
  let n := Z.to_nat debug_max_samples in
  let a := a <| debug_wave_l := repeat 0%Q n |> <| debug_wave_r := repeat 0%Q n |>
             <| debug_positions := map (fun c => Z.of_nat c # 600) (seq 0 n) |> in
  if outputToFile a then a <| audioFile := Some [] |> else a.

Definition SimAudio_CleanUp (a : SimAudio) : SimAudio :=
  if outputToFile a then a <| audioFile := None |> else a.

(** ** The ring of the debug window *)

Definition audio_ring_ok (a : SimAudio) : Prop :=
  0 <= debug_pos a < debug_max_samples /\
  length (debug_wave_l a) = Z.to_nat debug_max_samples /\
  length (debug_wave_r a) = Z.to_nat debug_max_samples.

Lemma CollectDebug_pos l r a :
  audio_ring_ok a ->
  debug_pos (SimAudio_CollectDebug l r a) = (debug_pos a + 1) `mod` debug_max_samples.
Proof.
  intros (Hp & _). unfold SimAudio_CollectDebug. cbn.
  rewrite mod_succ by done. rewrite (Z.mod_small (debug_pos a)) by done.
  by destruct (_ =? _).
Qed.

Lemma CollectDebug_ring_ok l r a :
  audio_ring_ok a -> audio_ring_ok (SimAudio_CollectDebug l r a).
Proof.
  intros Ha. unfold audio_ring_ok. rewrite CollectDebug_pos by done.
  split; [by apply Z.mod_pos_bound|]. destruct Ha as (_ & Hl & Hr).
  unfold SimAudio_CollectDebug. destruct (_ =? _); cbn; by rewrite !length_insert.
Qed.

Lemma CollectDebug_wave_l l r a :
  debug_wave_l (SimAudio_CollectDebug l r a) =
  <[Z.to_nat (debug_pos (SimAudio_CollectDebug l r a)) := to_sample l]> (debug_wave_l a).
Proof. unfold SimAudio_CollectDebug. by destruct (_ =? _). Qed.

Definition collect_all (samples : list (Z * Z)) (a : SimAudio) : SimAudio :=
  fold_left (fun a lr => SimAudio_CollectDebug lr.1 lr.2 a) samples a.

Lemma collect_all_snoc samples l r a :
  collect_all (samples ++ [(l, r)]) a = SimAudio_CollectDebug l r (collect_all samples a).
Proof. unfold collect_all. by rewrite fold_left_app. Qed.

Lemma collect_all_pos samples a :
  audio_ring_ok a ->
  audio_ring_ok (collect_all samples a) /\
  debug_pos (collect_all samples a) =
    (debug_pos a + Z.of_nat (length samples)) `mod` debug_max_samples.
Proof.
  intros Ha. induction samples as [|[l r] samples [IHok IHpos]] using rev_ind.
  - cbn. rewrite Z.add_0_r. split; [done|]. symmetry. apply Z.mod_small, Ha.
  - rewrite collect_all_snoc, CollectDebug_pos by done.
    split; [by apply CollectDebug_ring_ok|].
    rewrite IHpos, length_app, Nat2Z.inj_add, Z.add_mod_idemp_l by done.
    f_equal. cbn. lia.
Qed.

(** The plot ring holds the last 600 samples: after any sequence of
    [CollectDebug] calls on a well-formed ring, the sample of [k] calls ago
    ([k < 600]) is at index [debug_pos - k] modulo 600 of the left wave. *)
Theorem CollectDebug_ring (a : SimAudio) (samples : list (Z * Z)) (k : nat) (l r : Z) :
  audio_ring_ok a ->
  (k < Z.to_nat debug_max_samples)%nat ->
  reverse samples !! k = Some (l, r) ->
  let a' := collect_all samples a in
  debug_wave_l a' !! Z.to_nat ((debug_pos a' - Z.of_nat k) `mod` debug_max_samples)
    = Some (to_sample l).
Proof.
  intros Ha. revert k.
  induction samples as [|[l' r'] samples IH] using rev_ind; intros k Hk Hlook; [done|].
  rewrite reverse_snoc in Hlook. cbn zeta.
  destruct (collect_all_pos samples a Ha) as [Hok Hpos].
  rewrite collect_all_snoc, CollectDebug_wave_l, CollectDebug_pos by done.
  set (a1 := collect_all samples a) in *.
  destruct Hok as (Hp & Hl & Hr).
  assert (Hm : 0 <= (debug_pos a1 + 1) `mod` debug_max_samples < debug_max_samples)
    by by apply Z.mod_pos_bound.
  destruct k as [|k].
  - injection Hlook as -> ->.
    rewrite Z.sub_0_r, Z.mod_mod by done. apply list_lookup_insert_eq. lia.
  - rewrite Zminus_mod_idemp_l.
    replace (debug_pos a1 + 1 - Z.of_nat (S k)) with (debug_pos a1 - Z.of_nat k) by lia.
    rewrite list_lookup_insert_ne; [apply IH; [lia|done]|].
    unfold debug_max_samples in *. div_lia.
Qed.

Lemma CollectDebug_ring_witness :
  let a' := collect_all [(16384, 0); (-32768, 0)] (SimAudio_new 32000000 false) in
  debug_wave_l a' !! Z.to_nat ((debug_pos a' - 1) `mod` debug_max_samples)
    = Some (to_sample 16384).
Proof.
  apply (CollectDebug_ring (SimAudio_new 32000000 false) [(16384, 0); (-32768, 0)] 1 16384 0);
    [by vm_compute | vm_compute; lia | reflexivity].
Defined.

(** ** The output file *)

Definition clock_all (lefts : list Z) (a : SimAudio) : SimAudio :=
  fold_left (fun a l => SimAudio_Clock l 0 a) lefts a.

Lemma SimAudio_Clock_clk l r a :
  audio_clk (SimAudio_Clock l r a) = SimClock_Tick (audio_clk a).
Proof. unfold SimAudio_Clock. cbn. by destruct (SimClock_IsRising _), (outputToFile a). Qed.

Lemma SimAudio_Clock_file l r a out :
  outputToFile a = true -> audioFile a = Some out ->
  outputToFile (SimAudio_Clock l r a) = true /\
  audioFile (SimAudio_Clock l r a) =
    Some (if SimClock_IsRising (SimClock_Tick (audio_clk a))
          then out ++ [to_sample l] else out).
Proof.
  intros Ho Hf. unfold SimAudio_Clock. cbn.
  destruct (SimClock_IsRising _); cbn; rewrite ?Ho; cbn; by rewrite Hf.
Qed.

(** One sample in [p], the last of each group. *)
Definition decimate (p : Z) (lefts : list Z) : list Q :=
  concat (imap (fun i l => if Z.of_nat (S i) `mod` p =? 0 then [to_sample l] else []) lefts).

Lemma decimate_snoc p lefts l :
  decimate p (lefts ++ [l]) =
  decimate p lefts ++
    (if Z.of_nat (S (length lefts)) `mod` p =? 0 then [to_sample l] else []).
Proof.
  unfold decimate. rewrite imap_app, concat_app. cbn. by rewrite Nat.add_0_r, app_nil_r.
Qed.

(** With the output file open, a run of the system clock writes exactly the
    left samples of every [ratio + 1]-th tick, in order, at [freq / 44100 + 1]
    system ticks per sample. *)
Theorem SimAudio_output (freq : Z) (lefts : list Z) :
  44100 <= freq ->
  let a := SimAudio_Initialise (SimAudio_new freq true) in
  audioFile (clock_all lefts a) = Some (decimate (freq ÷ 44100 + 1) lefts).
Proof.
  intros Hfreq a. set (q := freq ÷ 44100).
  assert (Hq : 1 <= q) by (unfold q; div_lia).
  assert (Hinv : audio_clk (clock_all lefts a) =
      iterate (length lefts) SimClock_Tick (SimClock_Reset (SimClock_new q)) /\
    outputToFile (clock_all lefts a) = true /\
    audioFile (clock_all lefts a) = Some (decimate (q + 1) lefts)); [|by apply Hinv].
  induction lefts as [|l lefts (Hc & Ho & Hf)] using rev_ind; [done|].
  unfold clock_all in *. rewrite fold_left_app. cbn [fold_left].
  set (a1 := fold_left _ lefts a) in *.
  destruct (SimAudio_Clock_file l 0 a1 _ Ho Hf) as [Ho' Hf'].
  rewrite SimAudio_Clock_clk, Hc, length_app, Nat.add_comm, Ho', Hf', Hc, decimate_snoc.
  split; [done|]. split; [done|]. f_equal.
  destruct (clock_rising_from_reset q (SimClock_new q) (S (length lefts))) as [Hr Hr'];
    [done | done |].
  clear Hf'. cbn [iterate] in Hr, Hr'.
  set (c := SimClock_Tick _) in *.
  destruct (SimClock_IsRising c) eqn:E;
    destruct (Z.eqb_spec (Z.of_nat (S (length lefts)) `mod` (q + 1)) 0) as [H0|H0];
    rewrite ?app_nil_r; try done; exfalso.
  - by apply H0, Hr.
  - assert (false = true) by (apply Hr'; split; [lia | done]). done.
Qed.

Lemma SimAudio_output_witness :
  audioFile (clock_all [1; 2; 3; 4] (SimAudio_Initialise (SimAudio_new 44100 true)))
    = Some [to_sample 2; to_sample 4].
Proof. apply (SimAudio_output 44100 [1; 2; 3; 4]). lia. Defined.
