(* ===== verification/Console.v ===== *)
(** * The debug console of the simulation (sim/sim_console.cpp)

    The console keeps a log of lines, a command history and a list of command
    names, and edits the input line through ImGui's text callback data.  All of
    it lives in file-level globals, so every [DebugConsole] object shares the one
    record [Console] below.

    A C string is the list of its characters before the terminating NUL.
    [DeleteChars] and [InsertChars] are ImGui's (sim/imgui/imgui_widgets.cpp): an
    assertion that fails there, or in [ImVector::erase], is [None]. *)

From Stdlib Require Import Ascii.
From stdpp Require Import pretty.
From S2P Require Import Prelude.

Abbreviation cstr := (list ascii).
Definition lit (s : String.string) : cstr := String.list_ascii_of_string s.
Definition NUL : ascii := Ascii.zero.
Definition LF : cstr := [Ascii.ascii_of_nat 10].
Definition dquote : cstr := [Ascii.ascii_of_nat 34].

(** The value of a [char], signed on the hosts the simulation is built for. *)
Definition char_val (c : ascii) : Z := s8 (Z.of_N (N_of_ascii c)).

Definition toupper (c : ascii) : Z :=
  let v := char_val c in if (97 <=? v) && (v <=? 122) then v - 32 else v.

Definition at_char (s : cstr) (i : nat) : ascii := nth i s NUL.

Fixpoint Stricmp (str1 str2 : cstr) : Z :=
  let d := toupper (at_char str2 0) - toupper (at_char str1 0) in
  match str1 with
  | [] => d
  | _ :: str1' => if d =? 0 then Stricmp str1' (tail str2) else d
  end.

Fixpoint Strnicmp (str1 str2 : cstr) (n : nat) : Z :=
  match n with
  | O => 0
  | S n' =>
      let d := toupper (at_char str2 0) - toupper (at_char str1 0) in
      match str1 with
      | [] => d
      | _ :: str1' => if d =? 0 then Strnicmp str1' (tail str2) n' else d
      end
  end.

Definition is_space (c : ascii) : bool := bool_decide (c = Ascii.ascii_of_nat 32).

Fixpoint drop_spaces (s : cstr) : cstr :=
  match s with
  | c :: s' => if is_space c then drop_spaces s' else s
  | [] => []
  end.

Definition Strtrim (s : cstr) : cstr := reverse (drop_spaces (reverse s)).

(** ** The shared state *)

Record Console := MkConsole {
  InputBuf : cstr;
  Commands : list cstr;
  History : list cstr;
  HistoryPos : Z;                 (* -1: new line, otherwise browsing *)
  AutoScroll : bool;
  ScrollToBottom : bool;
  Items : list cstr }.

#[export] Instance eta_Console : Eta Console := fun c =>
  MkConsole (InputBuf c) (Commands c) (History c) (HistoryPos c) (AutoScroll c)
    (ScrollToBottom c) (Items c).

(** The zero-initialised globals, before any constructor runs. *)
Definition Console_zero : Console := MkConsole [] [] [] 0 false false [].

Definition LOG_BUF : nat := 1024.
Definition LOG_KEEP : nat := 100.

Fixpoint keep_last (items : list cstr) : list cstr :=
  match items with
  | [] => []
  | _ :: rest => if Nat.ltb LOG_KEEP (length items) then keep_last rest else items
  end.

(** [AddLog] of the formatted line. *)
Definition AddLog (line : cstr) (c : Console) : Console :=
  c <| Items := keep_last (Items c ++ [take (LOG_BUF - 1) line]) |>.

Definition ClearLog (c : Console) : Console := c <| Items := [] |>.

Fixpoint erase_first (n : nat) (items : list cstr) : option (list cstr) :=
  match n, items with
  | O, _ => Some items
  | S n', _ :: rest => erase_first n' rest
  | S _, [] => None
  end.

Definition ClearLogTop (n : Z) (c : Console) : option Console :=
  items ← erase_first (Z.to_nat n) (Items c); Some (c <| Items := items |>).

Definition DebugConsole_new (c : Console) : Console :=
  let c := ClearLog c in
  let c := c <| InputBuf := [] |> <| HistoryPos := -1 |> in
  let c := c <| Commands := Commands c ++ [lit "HELP"; lit "HISTORY"; lit "CLEAR"] |> in
  let c := c <| AutoScroll := true |> <| ScrollToBottom := false |> in
  AddLog (lit "") (AddLog (lit "Sim start") c).

(** ** Commands *)

(** The scan from the back of the history, and the erasure of its match. *)
Fixpoint find_last (line : cstr) (h : list cstr) (i : nat) : option nat :=
  match i with
  | O => None
  | S i' => if Stricmp (default [] (h !! i')) line =? 0 then Some i' else find_last line h i'
  end.

Definition history_push (line : cstr) (h : list cstr) : list cstr :=
  match find_last line h (length h) with
  | Some i => delete i h ++ [line]
  | None => h ++ [line]
  end.

(** [%3d] *)
Definition fmt_3d (i : Z) : cstr :=
  let s := lit (pretty i) in repeat (Ascii.ascii_of_nat 32) (3 - length s) ++ s.

Definition list_history (first : nat) (c : Console) : Console :=
  fold_left (fun c i =>
      AddLog (fmt_3d (Z.of_nat i) ++ lit ": " ++ default [] (History c !! i) ++ LF) c)
    (seq first (length (History c) - first)) c.

Definition ExecCommand (line : cstr) (c : Console) : Console :=
  let c := AddLog (lit "# " ++ line ++ LF) c in
  let c := c <| HistoryPos := -1 |> in
  let c := c <| History ::= history_push line |> in
  let c :=
    if Stricmp line (lit "CLEAR") =? 0 then ClearLog c
    else if Stricmp line (lit "HELP") =? 0 then
      fold_left (fun c cmd => AddLog (lit "- " ++ cmd) c) (Commands c)
        (AddLog (lit "Commands:") c)
    else if Stricmp line (lit "HISTORY") =? 0 then
      list_history (length (History c) - 10) c
    else AddLog (lit "Unknown command: '" ++ line ++ lit "'" ++ LF) c in
  c <| ScrollToBottom := true |>.

(** ** The text callback *)

Record TextData := MkTextData {
  Buf : cstr;                     (* up to the NUL: BufTextLen is its length *)
  CursorPos : nat;
  BufSize : nat;
  BufDirty : bool }.

#[export] Instance eta_TextData : Eta TextData := fun d =>
  MkTextData (Buf d) (CursorPos d) (BufSize d) (BufDirty d).

Definition DeleteChars (pos bytes_count : nat) (d : TextData) : option TextData :=
  if Nat.leb (pos + bytes_count) (length (Buf d)) then
    Some (d <| Buf := take pos (Buf d) ++ drop (pos + bytes_count) (Buf d) |>
            <| CursorPos :=
                 if Nat.leb (pos + bytes_count) (CursorPos d) then (CursorPos d - bytes_count)%nat
                 else if Nat.leb pos (CursorPos d) then pos else CursorPos d |>
            <| BufDirty := true |>)
  else None.

Definition InsertChars (pos : nat) (new_text : cstr) (d : TextData) : TextData :=
  if Nat.leb (BufSize d) (length new_text + length (Buf d)) then d
  else d <| Buf := take pos (Buf d) ++ new_text ++ drop pos (Buf d) |>
         <| CursorPos :=
              if Nat.leb pos (CursorPos d) then (CursorPos d + length new_text)%nat
              else CursorPos d |>
         <| BufDirty := true |>.

Inductive EditEvent := CallbackCompletion | HistoryUp | HistoryDown | HistoryOther | OtherEvent.

Definition is_separator (c : ascii) : bool :=
  bool_decide (c ∈ [Ascii.ascii_of_nat 32; Ascii.ascii_of_nat 9; Ascii.ascii_of_nat 44;
                    Ascii.ascii_of_nat 59]).

Fixpoint word_start (buf : cstr) (p : nat) : nat :=
  match p with
  | O => O
  | S p' => if is_separator (at_char buf p') then p else word_start buf p'
  end.

(** One round of the loop that extends a partial match. *)
Definition all_candidates_match (candidates : list cstr) (match_len : nat) : bool :=
  match candidates with
  | [] => true
  | cand0 :: rest =>
      let c := toupper (at_char cand0 match_len) in
      forallb (fun cand => negb ((c =? 0) || negb (c =? toupper (at_char cand match_len)))) rest
  end.

Fixpoint extend_match (fuel : nat) (candidates : list cstr) (match_len : nat) : option nat :=
  match fuel with
  | O => None
  | S fuel' =>
      if all_candidates_match candidates match_len
      then extend_match fuel' candidates (S match_len)
      else Some match_len
  end.

Definition match_fuel (candidates : list cstr) : nat := S (length (default [] (head candidates))).

(** The commands that start with the [len] characters of the word at [start]. *)
Definition word_candidates (d : TextData) (c : Console) : list cstr :=
  let start := word_start (Buf d) (CursorPos d) in
  let word := drop start (Buf d) in
  let len := (CursorPos d - start)%nat in
  List.filter (fun cmd => Strnicmp cmd word len =? 0) (Commands c).

Definition complete (d : TextData) (c : Console) : option (TextData * Console) :=
  let word_end := CursorPos d in
  let start := word_start (Buf d) word_end in
  let word := drop start (Buf d) in
  let len := (word_end - start)%nat in
  let candidates := word_candidates d c in
  match candidates with
  | [] => Some (d, AddLog (lit "No match for " ++ dquote ++ take len word ++ dquote
                             ++ lit "!" ++ LF) c)
  | [cand] =>
      d ← DeleteChars start len d;
      let d := InsertChars (CursorPos d) cand d in
      Some (InsertChars (CursorPos d) (lit " ") d, c)
  | cand0 :: _ =>
      match_len ← extend_match (match_fuel candidates) candidates len;
      d ← (if Nat.ltb 0 match_len then
             d ← DeleteChars start len d;
             Some (InsertChars (CursorPos d) (take match_len cand0) d)
           else Some d);
      let c := AddLog (lit "Possible matches:" ++ LF) c in
      Some (d, fold_left (fun c cand => AddLog (lit "- " ++ cand ++ LF) c) candidates c)
  end.

Definition history_move (ev : EditEvent) (c : Console) : Z :=
  let size := Z.of_nat (length (History c)) in
  match ev with
  | HistoryUp =>
      if HistoryPos c =? -1 then size - 1
      else if 0 <? HistoryPos c then HistoryPos c - 1 else HistoryPos c
  | HistoryDown =>
      if negb (HistoryPos c =? -1)
      then if size <=? HistoryPos c + 1 then -1 else HistoryPos c + 1
      else HistoryPos c
  | _ => HistoryPos c
  end.

Definition TextEditCallback (ev : EditEvent) (d : TextData) (c : Console)
    : option (TextData * Console) :=
  match ev with
  | CallbackCompletion => complete d c
  | HistoryUp | HistoryDown | HistoryOther =>
      let prev_history_pos := HistoryPos c in
      let c := c <| HistoryPos := history_move ev c |> in
      if negb (prev_history_pos =? HistoryPos c) then
        history_str ← (if 0 <=? HistoryPos c then History c !! Z.to_nat (HistoryPos c)
                       else Some []);
        d ← DeleteChars 0 (length (Buf d)) d;
        Some (InsertChars 0 history_str d, c)
      else Some (d, c)
  | OtherEvent => Some (d, c)
  end.

(** ** One frame of the window

    What the user and ImGui report in a frame is [ConsoleUI]; the frame returns
    the lines it draws, with their colour.  While the input field is active,
    ImGui edits a copy of its text: [ui_line] is that copy and the cursor after
    the characters of the frame; Tab and the arrows call [TextEditCallback] on it,
    and it is written back to [InputBuf]. *)

Inductive LineColor := ColorError | ColorCommand | ColorNormal.

Record ConsoleUI := MkConsoleUI {
  ui_open : bool;                 (* ImGui::Begin *)
  ui_clear_top : bool;            (* the button "Clear 10,000" *)
  ui_clear : bool;                (* the button "Clear" *)
  ui_autoscroll : option bool;    (* the checkbox, when it is set *)
  ui_popup_clear : bool;          (* "Clear" of the popup of the log *)
  ui_filter : cstr -> bool;       (* Filter.PassFilter *)
  ui_at_bottom : bool;            (* the scroll bar is at its end *)
  ui_line : option TextData;      (* the input line, while the field is active *)
  ui_key : option EditEvent;      (* Tab or an arrow, when one is pressed *)
  ui_enter : bool }.              (* Enter is pressed *)

Fixpoint is_prefix (p s : cstr) : bool :=
  match p, s with
  | [], _ => true
  | a :: p', b :: s' => bool_decide (a = b) && is_prefix p' s'
  | _ :: _, [] => false
  end.

Fixpoint strstr (s p : cstr) : bool :=
  is_prefix p s || match s with [] => false | _ :: s' => strstr s' p end.

Definition item_color (item : cstr) : LineColor :=
  if strstr item (lit "[error]") then ColorError
  else if is_prefix (lit "# ") item then ColorCommand
  else ColorNormal.

(** [ImGui::InputText] with the callback of the console. *)
Definition Draw_input (ui : ConsoleUI) (c : Console) : option Console :=
  match ui_line ui with
  | None => Some c
  | Some d =>
      '(d, c) ← match ui_key ui with
                | Some ev => TextEditCallback ev d c
                | None => Some (d, c)
                end;
      Some (c <| InputBuf := Buf d |>)
  end.

Definition Draw_enter (c : Console) : Console :=
  let s := Strtrim (InputBuf c) in
  let c := match s with [] => c | _ :: _ => ExecCommand s c end in
  c <| InputBuf := [] |>.

Definition Draw (ui : ConsoleUI) (c : Console)
    : option (Console * list (cstr * LineColor) * bool) :=
  if negb (ui_open ui) then Some (c, [], false)
  else
    c ← (if ui_clear_top ui then ClearLogTop 10000 c else Some c);
    let c := if ui_clear ui then ClearLog c else c in
    let c := match ui_autoscroll ui with Some b => c <| AutoScroll := b |> | None => c end in
    let c := if ui_popup_clear ui then ClearLog c else c in
    let lines := map (fun item => (item, item_color item)) (List.filter (ui_filter ui) (Items c)) in
    let scroll := ScrollToBottom c || (AutoScroll c && ui_at_bottom ui) in
    let c := c <| ScrollToBottom := false |> in
    c ← Draw_input ui c;
    let c := if ui_enter ui then Draw_enter c else c in
    Some (c, lines, scroll).

(** ** Case folding *)

Definition fold_case (s : cstr) : list Z := map toupper s.
Definition no_nul (s : cstr) : Prop := Forall (fun c => c <> NUL) s.

Lemma toupper_nul c : toupper c = 0 <-> c = NUL.
Proof.
  split; [|by intros ->].
  destruct c as [[] [] [] [] [] [] [] []]; vm_compute; congruence.
Qed.

Lemma toupper_NUL : toupper NUL = 0.
Proof. by apply toupper_nul. Qed.

Lemma Stricmp_eq s1 s2 :
  no_nul s1 -> no_nul s2 -> Stricmp s1 s2 = 0 <-> fold_case s1 = fold_case s2.
Proof.
  intros H1. revert s2. induction H1 as [|a s1 Ha H1 IH]; intros s2 H2.
  - destruct H2 as [|b s2 Hb H2]; cbn; [done|].
    rewrite toupper_NUL. split; [|done].
    intros ?. exfalso. apply Hb, toupper_nul. lia.
  - destruct H2 as [|b s2 Hb H2]; cbn.
    + rewrite toupper_NUL.
      assert (toupper a <> 0) by by rewrite toupper_nul.
      zcases; split; intros; try done; lia.
    + destruct (Z.eqb_spec (toupper b - toupper a) 0).
      * rewrite IH by done. unfold fold_case. split; [|by intros [=]].
        intros ->. f_equal. lia.
      * split; [done|]. intros [=]. lia.
Qed.

Lemma Stricmp_eqb s1 s2 :
  no_nul s1 -> no_nul s2 -> (Stricmp s1 s2 =? 0) = bool_decide (fold_case s1 = fold_case s2).
Proof.
  intros H1 H2. case_bool_decide as H; rewrite <- Stricmp_eq in H by done.
  - by apply Z.eqb_eq.
  - by apply Z.eqb_neq.
Qed.

(** ** The log *)

Lemma keep_last_spec items : keep_last items = drop (length items - LOG_KEEP) items.
Proof.
  induction items as [|a items IH]; [done|].
  cbn [keep_last]. destruct (Nat.ltb_spec LOG_KEEP (length (a :: items))).
  - rewrite IH. cbn [length] in *.
    by replace (S (length items) - LOG_KEEP)%nat with (S (length items - LOG_KEEP)) by lia.
  - by replace (length (a :: items) - LOG_KEEP)%nat with 0%nat by lia.
Qed.

Lemma AddLog_items line c :
  let all := Items c ++ [take (LOG_BUF - 1) line] in
  Items (AddLog line c) = drop (length all - LOG_KEEP) all.
Proof. apply keep_last_spec. Qed.

Definition AddLog_all (lines : list cstr) (c : Console) : Console :=
  fold_left (fun c line => AddLog line c) lines c.

Lemma AddLog_all_rest lines c :
  AddLog_all lines c = c <| Items := Items (AddLog_all lines c) |>.
Proof.
  unfold AddLog_all. revert c.
  induction lines as [|l lines IH]; intros c; [by destruct c|].
  cbn [fold_left]. rewrite IH. reflexivity.
Qed.

Lemma drop_keep {A} n (l k : list A) :
  drop (length (drop (length l - n) l ++ k) - n) (drop (length l - n) l ++ k) =
  drop (length (l ++ k) - n) (l ++ k).
Proof.
  rewrite !length_app, length_drop.
  destruct (Nat.le_gt_cases (length l) n).
  - replace (length l - n)%nat with 0%nat by lia. rewrite drop_0. f_equal. lia.
  - rewrite <- (drop_app_le _ k (length l - n)) by lia.
    rewrite drop_drop. f_equal. lia.
Qed.

Lemma AddLog_all_items lines c :
  (length (Items c) <= LOG_KEEP)%nat ->
  let all := Items c ++ map (take (LOG_BUF - 1)) lines in
  Items (AddLog_all lines c) = drop (length all - LOG_KEEP) all.
Proof.
  intros Hc all. subst all. unfold AddLog_all.
  induction lines as [|l lines IH] using rev_ind.
  - cbn. rewrite app_nil_r. by replace (length (Items c) - LOG_KEEP)%nat with 0%nat by lia.
  - rewrite fold_left_app, map_app, app_assoc. cbn [fold_left map].
    rewrite AddLog_items, IH. apply drop_keep.
Qed.

(** What only writes to the log, and leaves it well-formed. *)
Definition log_ok (c : Console) : Prop :=
  (length (Items c) <= LOG_KEEP)%nat /\ Forall (fun l => (length l < LOG_BUF)%nat) (Items c).

Definition log_only (c c' : Console) : Prop :=
  c' = c <| Items := Items c' |> /\ (log_ok c -> log_ok c').

Lemma log_only_refl c : log_only c c.
Proof. split; [by destruct c | done]. Qed.

Lemma log_only_trans c1 c2 c3 : log_only c1 c2 -> log_only c2 c3 -> log_only c1 c3.
Proof. intros [H1 ?] [H2 ?]. split; [|by auto]. rewrite H2, H1. reflexivity. Qed.

Lemma AddLog_log_only line c : log_only c (AddLog line c).
Proof.
  split; [reflexivity|]. intros [Hl Hf]. split; rewrite AddLog_items.
  - rewrite length_drop. lia.
  - apply Forall_drop, Forall_app. split; [done|].
    constructor; [rewrite length_take; unfold LOG_BUF; lia | done].
Qed.

Lemma fold_log_only {A} (g : Console -> A -> Console) (l : list A) c :
  (forall c x, log_only c (g c x)) -> log_only c (fold_left g l c).
Proof.
  intros Hg. revert c. induction l as [|x l IH]; intros c; cbn; [apply log_only_refl|].
  eapply log_only_trans; [apply Hg | apply IH].
Qed.

Lemma log_only_fields c c' :
  log_only c c' ->
  Commands c' = Commands c /\ History c' = History c /\ HistoryPos c' = HistoryPos c /\
  InputBuf c' = InputBuf c.
Proof. intros [-> _]. done. Qed.

(** ** The history *)

Definition same_cmd (line h : cstr) : bool := Stricmp h line =? 0.

Definition history_ok (h : list cstr) : Prop := Forall no_nul h /\ NoDup (map fold_case h).

Lemma find_last_Some line h n i :
  (n <= length h)%nat -> find_last line h n = Some i ->
  exists x, h !! i = Some x /\ same_cmd line x = true.
Proof.
  intros Hn. induction n as [|n IH]; cbn; [done|].
  destruct (lookup_lt_is_Some_2 h n) as [x Hx]; [lia|]. rewrite Hx. cbn.
  destruct (Stricmp x line =? 0) eqn:E; [intros [= <-]; by exists x | apply IH; lia].
Qed.

Lemma find_last_None line h n i x :
  find_last line h n = None -> (i < n)%nat -> h !! i = Some x -> same_cmd line x = false.
Proof.
  intros Hf Hi Hx. induction n as [|n IH]; [lia|]. cbn in Hf.
  destruct (decide (i = n)) as [->|].
  - rewrite Hx in Hf. cbn in Hf. unfold same_cmd. by destruct (Stricmp x line =? 0).
  - destruct (_ =? 0) in Hf; [done|]. apply IH; [done | lia].
Qed.

Lemma filter_keep_all {A} (f : A -> bool) l :
  (forall x, x ∈ l -> f x = true) -> List.filter f l = l.
Proof.
  induction l as [|a l IH]; intros H; cbn; [done|].
  rewrite H by by left. rewrite IH; [done|]. intros x Hx. apply H. by right.
Qed.

Lemma history_push_spec line h :
  history_ok h -> no_nul line ->
  history_push line h = List.filter (fun x => negb (same_cmd line x)) h ++ [line].
Proof.
  intros [Hn Hd] Hline. unfold history_push.
  destruct (find_last line h (length h)) as [i|] eqn:E; f_equal.
  - destruct (find_last_Some _ _ _ _ (Nat.le_refl _) E) as (x & Hx & Hs).
    destruct (list_elem_of_split_length _ _ _ Hx) as (l1 & l2 & -> & ->).
    apply Forall_app in Hn as (Hn1 & Hn2). apply Forall_cons in Hn2 as (Hnx & Hn2).
    unfold same_cmd in Hs. rewrite Stricmp_eqb, bool_decide_eq_true in Hs by done.
    rewrite map_app in Hd. cbn in Hd.
    apply NoDup_app in Hd as (_ & H1 & Hd). apply NoDup_cons in Hd as (H2 & _).
    assert (Hne : forall y, no_nul y -> fold_case y <> fold_case x -> negb (same_cmd line y) = true).
    { intros y Hy Hyx. unfold same_cmd. rewrite Stricmp_eqb by done.
      apply negb_true_iff, bool_decide_eq_false. congruence. }
    assert (Hx' : negb (same_cmd line x) = false).
    { unfold same_cmd. rewrite Stricmp_eqb by done.
      apply negb_false_iff, bool_decide_eq_true. congruence. }
    rewrite delete_middle, List.filter_app. cbn. rewrite Hx'.
    rewrite Forall_forall in Hn1, Hn2.
    rewrite !filter_keep_all; [done| |].
    + intros y Hy. apply Hne; [by apply Hn2|]. intros He. apply H2. rewrite <- He.
      by apply list_elem_of_fmap_2.
    + intros y Hy. apply Hne; [by apply Hn1|]. intros He.
      apply (H1 (fold_case y)); [by apply list_elem_of_fmap_2 | rewrite He; by left].
  - symmetry. apply filter_keep_all. intros x (i & Hi)%list_elem_of_lookup.
    rewrite (find_last_None line h _ i x E); [done| |done].
    by apply lookup_lt_Some in Hi.
Qed.

Lemma history_push_ok line h :
  history_ok h -> no_nul line -> history_ok (history_push line h).
Proof.
  intros Hok Hl. pose proof Hok as [Hn Hd]. rewrite history_push_spec by done.
  split.
  - apply Forall_app. split; [|by constructor].
    apply Forall_forall. intros x Hx. rewrite Forall_forall in Hn. apply Hn.
    apply list_elem_of_In in Hx. apply filter_In in Hx as [Hx _]. by apply list_elem_of_In.
  - rewrite map_app. apply NoDup_app. split; [|split; [|apply NoDup_singleton]].
    + clear Hok Hn. induction h as [|x h IH]; [done|]. cbn in *.
      apply NoDup_cons in Hd as [Hx Hd].
      destruct (negb _); [|by apply IH]. cbn. apply NoDup_cons. split; [|by apply IH].
      intros (y & Hy & Hin)%list_elem_of_fmap. apply Hx. rewrite Hy.
      apply list_elem_of_fmap_2. apply list_elem_of_In in Hin.
      apply filter_In in Hin as [Hin _]. by apply list_elem_of_In.
    + intros z (y & -> & Hin)%list_elem_of_fmap [= Hz]%list_elem_of_singleton.
      apply list_elem_of_In, filter_In in Hin as [Hin Hs].
      unfold same_cmd in Hs. rewrite Stricmp_eqb in Hs; [|rewrite Forall_forall in Hn;
        by apply Hn, list_elem_of_In | done].
      rewrite bool_decide_eq_true_2 in Hs by done. done.
Qed.

(** ** The edit line *)

Definition text_ok (d : TextData) : Prop :=
  (CursorPos d <= length (Buf d) < BufSize d)%nat /\ no_nul (Buf d).

Definition console_ok (c : Console) : Prop :=
  log_ok c /\ Forall no_nul (Commands c) /\ history_ok (History c) /\
  -1 <= HistoryPos c < Z.of_nat (length (History c)).

Lemma log_only_ok c c' : log_only c c' -> console_ok c -> console_ok c'.
Proof.
  intros Hl (H1 & H2 & H3 & H4). destruct (log_only_fields _ _ Hl) as (E1 & E2 & E3 & _).
  unfold console_ok. rewrite E1, E2, E3. split_and!; try done; [by apply Hl | lia | lia].
Qed.

Lemma word_start_le buf p : (word_start buf p <= p)%nat.
Proof. induction p as [|p IH]; cbn; [lia|]. destruct (is_separator _); lia. Qed.

Lemma DeleteChars_spec pos n d :
  text_ok d -> (pos + n <= length (Buf d))%nat ->
  exists d', DeleteChars pos n d = Some d' /\ text_ok d' /\ BufSize d' = BufSize d /\
    Buf d' = take pos (Buf d) ++ drop (pos + n) (Buf d) /\
    (CursorPos d = pos + n -> CursorPos d' = pos)%nat.
Proof.
  intros [Hc Hn] Hle. unfold DeleteChars. destruct (Nat.leb_spec (pos + n) (length (Buf d))); [|lia].
  eexists. split; [done|]. unfold text_ok. cbn [Buf CursorPos BufSize modify_field].
  rewrite length_app, length_take, length_drop.
  split_and!; try done; zcases; try lia.
  - destruct (Nat.leb_spec (pos + n) (CursorPos d)), (Nat.leb_spec pos (CursorPos d)); lia.
  - apply Forall_app. split; [by apply Forall_take | by apply Forall_drop].
  - destruct (Nat.leb_spec (pos + n) (CursorPos d)); lia.
Qed.

Lemma InsertChars_ok pos new_text d :
  text_ok d -> no_nul new_text -> (pos <= length (Buf d))%nat ->
  text_ok (InsertChars pos new_text d) /\ BufSize (InsertChars pos new_text d) = BufSize d.
Proof.
  intros [Hc Hn] Hnew Hp. unfold InsertChars.
  destruct (Nat.leb_spec (BufSize d) (length new_text + length (Buf d))); [done|].
  unfold text_ok. cbn [Buf CursorPos BufSize modify_field].
  rewrite !length_app, length_take, length_drop. split_and!; try done; try lia.
  - destruct (Nat.leb_spec pos (CursorPos d)); lia.
  - apply Forall_app; split; [by apply Forall_take|]. apply Forall_app.
    split; [done | by apply Forall_drop].
Qed.

Lemma InsertChars_fits pos new_text d :
  (length new_text + length (Buf d) < BufSize d)%nat ->
  Buf (InsertChars pos new_text d) = take pos (Buf d) ++ new_text ++ drop pos (Buf d) /\
  (CursorPos d = pos -> CursorPos (InsertChars pos new_text d) = pos + length new_text)%nat.
Proof.
  intros Hfit. unfold InsertChars.
  destruct (Nat.leb_spec (BufSize d) (length new_text + length (Buf d))); [lia|].
  split; [done|]. cbn. intros ->. by rewrite Nat.leb_refl.
Qed.

(** ** Completion *)

Lemma at_char_fold s i : toupper (at_char s i) = default 0 (fold_case s !! i).
Proof.
  unfold at_char, fold_case. rewrite list_lookup_fmap.
  destruct (s !! i) as [x|] eqn:E; cbn.
  - by rewrite (nth_lookup_Some _ _ _ _ E).
  - rewrite nth_overflow by by apply lookup_ge_None_1. apply toupper_NUL.
Qed.

Lemma fold_case_pos s i v : no_nul s -> fold_case s !! i = Some v -> v <> 0.
Proof.
  intros Hs (x & -> & Hx)%list_lookup_fmap_Some. rewrite toupper_nul.
  by apply (Forall_lookup_1 _ _ _ _ Hs Hx).
Qed.

Lemma Strnicmp_eq s1 s2 n :
  no_nul s1 -> no_nul s2 -> (n <= length s2)%nat ->
  Strnicmp s1 s2 n = 0 <-> take n (fold_case s1) = take n (fold_case s2).
Proof.
  intros H1 H2. unfold fold_case. revert s2 n H2.
  induction H1 as [|a s1 Ha H1 IH]; intros s2 n H2 Hn.
  - destruct n as [|n]; [done|]. destruct H2 as [|b s2 Hb H2]; cbn in *; [lia|].
    rewrite toupper_NUL. split; [|done]. intros ?. exfalso. apply Hb, toupper_nul. lia.
  - destruct n as [|n]; [done|]. destruct H2 as [|b s2 Hb H2]; cbn in *; [lia|].
    destruct (Z.eqb_spec (toupper b - toupper a) 0).
    + rewrite IH by (done || lia). split; [|by intros [=]]. intros ->. f_equal. lia.
    + split; [done|]. intros [=]. lia.
Qed.

(** All candidates have the same character, and one, at [i]. *)
Definition agree_at (candidates : list cstr) (cand0 : cstr) (i : nat) : Prop :=
  forall cand, cand ∈ candidates -> fold_case cand !! i = fold_case cand0 !! i.

Lemma all_candidates_match_spec cand0 cand1 rest i :
  Forall no_nul (cand0 :: cand1 :: rest) ->
  all_candidates_match (cand0 :: cand1 :: rest) i = true <->
  (i < length cand0)%nat /\ agree_at (cand0 :: cand1 :: rest) cand0 i.
Proof.
  intros Hn. unfold all_candidates_match. rewrite forallb_forall.
  assert (Hlen : forall s v, fold_case s !! i = Some v -> (i < length s)%nat).
  { intros s v Hv. apply lookup_lt_Some in Hv. unfold fold_case in Hv. by rewrite length_map in Hv. }
  split.
  - intros H.
    assert (Hc : forall cand, cand ∈ cand1 :: rest ->
      fold_case cand0 !! i = fold_case cand !! i /\ (i < length cand0)%nat).
    { intros cand Hin. specialize (H cand (proj1 (list_elem_of_In _ _) Hin)).
      rewrite negb_true_iff, orb_false_iff, negb_false_iff in H.
      destruct H as [H0 He]. rewrite !at_char_fold in *.
      destruct (fold_case cand0 !! i) as [v0|] eqn:E0; [|done]. split; [|by eapply Hlen].
      destruct (fold_case cand !! i) as [v|] eqn:E; cbn in *; f_equal; lia. }
    split; [apply (Hc cand1); by left|].
    intros cand [->|Hin]%elem_of_cons; [done|]. symmetry. by apply Hc.
  - intros [Hi Ha] cand Hin%list_elem_of_In.
    rewrite !at_char_fold. rewrite (Ha cand) by by right.
    destruct (fold_case cand0 !! i) as [v|] eqn:E.
    + cbn. rewrite Z.eqb_refl.
      pose proof (fold_case_pos cand0 i v (Forall_inv Hn) E). zcases; done.
    + apply lookup_ge_None_1 in E. unfold fold_case in E. rewrite length_map in E. lia.
Qed.

Lemma extend_match_spec cand0 cand1 rest fuel m :
  let cands := cand0 :: cand1 :: rest in
  Forall no_nul cands -> (length cand0 < fuel + m)%nat ->
  (m <= length cand0)%nat ->
  exists m', extend_match fuel cands m = Some m' /\ (m <= m' <= length cand0)%nat /\
    (forall i, (m <= i < m')%nat -> agree_at cands cand0 i) /\
    ~ ((m' < length cand0)%nat /\ agree_at cands cand0 m').
Proof.
  intros cands Hn. revert m. induction fuel as [|fuel IH]; intros m Hf Hm; [lia|].
  cbn [extend_match].
  destruct (all_candidates_match cands m) eqn:E.
  - apply all_candidates_match_spec in E; [|done]. destruct E as [Hlt Hag].
    destruct (IH (S m)) as (m' & He & Hm' & Hr & Hmax); [lia | lia |].
    exists m'. split_and!; try done; try lia. intros i Hi.
    destruct (decide (i = m)) as [->|]; [done | apply Hr; lia].
  - exists m. split_and!; try done; try lia.
    intros Hag. apply (all_candidates_match_spec cand0 cand1 rest m Hn) in Hag.
    unfold cands in E. congruence.
Qed.

Lemma word_candidates_spec d c cand :
  text_ok d -> Forall no_nul (Commands c) -> cand ∈ word_candidates d c ->
  let start := word_start (Buf d) (CursorPos d) in
  let len := (CursorPos d - start)%nat in
  no_nul cand /\ take len (fold_case cand) = take len (fold_case (drop start (Buf d))).
Proof.
  intros [Hc Hn] Hcmds Hin start len.
  apply list_elem_of_In, filter_In in Hin as [Hin Hs].
  assert (Hcand : no_nul cand).
  { rewrite Forall_forall in Hcmds. by apply Hcmds, list_elem_of_In. }
  split; [done|]. apply Strnicmp_eq; [done | by apply Forall_drop | | by apply Z.eqb_eq].
  rewrite length_drop. pose proof (word_start_le (Buf d) (CursorPos d)).
  unfold len, start. lia.
Qed.

Lemma word_candidates_nul d c :
  text_ok d -> Forall no_nul (Commands c) -> Forall no_nul (word_candidates d c).
Proof. intros Hd Hc. apply Forall_forall. intros x Hx. by eapply word_candidates_spec. Qed.

Lemma take_lookup_eq {A} n (l k : list A) i :
  take n l = take n k -> (i < n)%nat -> l !! i = k !! i.
Proof. intros H Hi. rewrite <- (lookup_take_lt l n i), <- (lookup_take_lt k n i) by lia. by rewrite H. Qed.

(** The partial completion, for the theorems below. *)
Lemma complete_many d c cand0 cand1 rest :
  text_ok d -> Forall no_nul (Commands c) ->
  word_candidates d c = cand0 :: cand1 :: rest ->
  let start := word_start (Buf d) (CursorPos d) in
  exists m d1 c',
    complete d c = Some (if Nat.ltb 0 m then InsertChars (CursorPos d1) (take m cand0) d1 else d, c') /\
    log_only c c' /\
    (m = 0%nat \/ DeleteChars start (CursorPos d - start) d = Some d1) /\
    (CursorPos d - start <= m <= length cand0)%nat /\
    (forall i, (i < m)%nat -> agree_at (word_candidates d c) cand0 i) /\
    ~ ((m < length cand0)%nat /\ agree_at (word_candidates d c) cand0 m).
Proof.
  intros Hd Hc Hw start. set (len := (CursorPos d - start)%nat).
  pose proof (word_candidates_nul d c Hd Hc) as Hn.
  assert (Hpre : forall cand, cand ∈ word_candidates d c ->
      take len (fold_case cand) = take len (fold_case (drop start (Buf d)))).
  { intros cand Hin. by apply (word_candidates_spec d c cand Hd Hc Hin). }
  pose proof (word_start_le (Buf d) (CursorPos d)) as Hs. fold start in Hs.
  assert (Hlen : (len <= length cand0)%nat).
  { assert (Hl := Hpre cand0 ltac:(rewrite Hw; by left)).
    apply (f_equal length) in Hl. rewrite !length_take in Hl. unfold fold_case in Hl.
    rewrite !length_map, length_drop in Hl. destruct Hd as [Hd _]. unfold len in *. lia. }
  rewrite Hw in Hn.
  destruct (extend_match_spec cand0 cand1 rest (match_fuel (word_candidates d c)) len Hn)
    as (m & He & Hm & Hr & Hmax); [rewrite Hw; cbn; lia | done |].
  destruct (DeleteChars_spec start len d Hd) as (d1 & Hdel & _);
    [destruct Hd as [Hd _]; unfold len; lia|].
  exists m, d1. eexists. split; [|split; [|split_and!]].
  - unfold complete. fold start len. rewrite Hw in *. rewrite He. cbn [option_bind mbind].
    destruct (Nat.ltb 0 m); cbn [option_bind mbind]; [rewrite Hdel|]; reflexivity.
  - eapply log_only_trans; [apply AddLog_log_only|].
    apply fold_log_only. intros c0 x. apply AddLog_log_only.
  - by right.
  - lia.
  - lia.
  - rewrite Hw. intros i Hi. destruct (decide (i < len)%nat) as [Hil|]; [|apply Hr; lia].
    intros cand Hin. rewrite <- Hw in Hin.
    apply (take_lookup_eq len); [|done].
    rewrite (Hpre cand Hin). symmetry. apply Hpre. rewrite Hw. by left.
  - by rewrite Hw.
Qed.

Lemma complete_ok d c :
  text_ok d -> console_ok c ->
  exists d' c', complete d c = Some (d', c') /\ text_ok d' /\ BufSize d' = BufSize d /\ log_only c c'.
Proof.
  intros Hd (Hlog & Hcmds & Hh & Hp).
  pose proof (word_candidates_nul d c Hd Hcmds) as Hn.
  pose proof (word_start_le (Buf d) (CursorPos d)) as Hs.
  pose proof Hd as [[Hcur _] _].
  destruct (word_candidates d c) as [|cand0 [|cand1 rest]] eqn:Hw.
  - unfold complete. rewrite Hw. do 2 eexists. split_and!; [done..|].
    apply AddLog_log_only.
  - unfold complete. rewrite Hw.
    destruct (DeleteChars_spec (word_start (Buf d) (CursorPos d))
      (CursorPos d - word_start (Buf d) (CursorPos d)) d Hd) as (d1 & -> & Hd1 & Hsz & _); [lia|].
    cbn [option_bind mbind]. do 2 eexists. split; [done|].
    destruct (InsertChars_ok (CursorPos d1) cand0 d1 Hd1) as [Hd2 Hsz2];
      [by apply Forall_inv in Hn | apply Hd1 |].
    destruct (InsertChars_ok (CursorPos (InsertChars (CursorPos d1) cand0 d1)) (lit " ")
      (InsertChars (CursorPos d1) cand0 d1) Hd2) as [Hd3 Hsz3]; [repeat constructor; done|apply Hd2|].
    split_and!; [apply Hd3..|congruence|apply log_only_refl].
  - destruct (complete_many d c cand0 cand1 rest Hd Hcmds Hw)
      as (m & d1 & c' & -> & Hl & Hdel & _).
    do 2 eexists. split; [done|]. cut (text_ok (if Nat.ltb 0 m then InsertChars (CursorPos d1) (take m cand0) d1 else d) /\
      BufSize (if Nat.ltb 0 m then InsertChars (CursorPos d1) (take m cand0) d1 else d) = BufSize d);
      [by intros [??]|].
    destruct (Nat.ltb_spec 0 m); [|done].
    destruct Hdel as [?|Hdel]; [lia|].
    destruct (DeleteChars_spec (word_start (Buf d) (CursorPos d))
      (CursorPos d - word_start (Buf d) (CursorPos d)) d Hd) as (d2 & Hdel' & Hd1 & Hsz & _); [lia|].
    assert (d2 = d1) as -> by congruence. rewrite <- Hsz.
    apply InsertChars_ok; [done | apply Forall_take; by apply Forall_inv in Hn | apply Hd1].
Qed.

(** ** Invariants *)

Lemma ExecCommand_fields line c :
  History (ExecCommand line c) = history_push line (History c) /\
  HistoryPos (ExecCommand line c) = -1 /\ Commands (ExecCommand line c) = Commands c /\
  (log_ok c -> log_ok (ExecCommand line c)).
Proof.
  unfold ExecCommand.
  set (c1 := AddLog _ c). assert (H1 : log_only c c1) by apply AddLog_log_only.
  set (c2 := c1 <| HistoryPos := -1 |> <| History ::= history_push line |>).
  set (c3 := if Stricmp line (lit "CLEAR") =? 0 then _ else _).
  assert (H3 : History c3 = History c2 /\ HistoryPos c3 = -1 /\ Commands c3 = Commands c2 /\
               (log_ok c2 -> log_ok c3)).
  { assert (Hlog : forall c', log_only c2 c' -> History c' = History c2 /\ HistoryPos c' = -1 /\
               Commands c' = Commands c2 /\ (log_ok c2 -> log_ok c')).
    { intros c' Hl. pose proof (log_only_fields _ _ Hl) as (-> & -> & -> & _).
      split_and!; try done. apply Hl. }
    unfold c3. destruct (_ =? 0).
    - split_and!; try done. intros _. split; [cbn; lia | constructor].
    - destruct (_ =? 0); [|destruct (_ =? 0)]; apply Hlog.
      + eapply log_only_trans; [apply AddLog_log_only|].
        apply fold_log_only. intros; apply AddLog_log_only.
      + unfold list_history. apply fold_log_only. intros; apply AddLog_log_only.
      + apply AddLog_log_only. }
  destruct (log_only_fields _ _ H1) as (Hc & Hh & _ & _).
  destruct H3 as (E1 & E2 & E3 & E4).
  change (History c2) with (history_push line (History c1)) in E1.
  change (Commands c2) with (Commands c1) in E3. rewrite Hh in E1. rewrite Hc in E3.
  split_and!; [exact E1 | exact E2 | exact E3 |].
  intros Hl. change (log_ok c3). by apply E4, H1.
Qed.

Lemma ExecCommand_ok line c :
  no_nul line -> console_ok c -> console_ok (ExecCommand line c).
Proof.
  intros Hl (H1 & H2 & H3 & H4).
  destruct (ExecCommand_fields line c) as (E1 & E2 & E3 & E4).
  unfold console_ok. rewrite E1, E2, E3.
  split_and!; [by apply E4 | done | by apply history_push_ok | lia | lia].
Qed.

Lemma drop_spaces_sub s x : x ∈ drop_spaces s -> x ∈ s.
Proof.
  induction s as [|a s IH]; cbn; [done|]. destruct (is_space a); [|done].
  intros Hx. right. by apply IH.
Qed.

Lemma Strtrim_no_nul s : no_nul s -> no_nul (Strtrim s).
Proof.
  unfold no_nul. rewrite !Forall_forall. intros H x Hx. apply H.
  unfold Strtrim in Hx. rewrite elem_of_reverse in Hx.
  apply drop_spaces_sub in Hx. by rewrite elem_of_reverse in Hx.
Qed.

Definition input_ok (c : Console) : Prop := no_nul (InputBuf c) /\ (length (InputBuf c) < 256)%nat.

Lemma Draw_enter_ok c : no_nul (InputBuf c) -> console_ok c -> console_ok (Draw_enter c) /\ input_ok (Draw_enter c).
Proof.
  intros Hl Hc. split; [|by split; [constructor|cbn; lia]].
  unfold Draw_enter. pose proof (Strtrim_no_nul (InputBuf c) Hl) as Ht.
  destruct (Strtrim (InputBuf c)) as [|a s]; [exact Hc|].
  exact (ExecCommand_ok (a :: s) c Ht Hc).
Qed.

Lemma DeleteChars_all d : text_ok d ->
  exists d', DeleteChars 0 (length (Buf d)) d = Some d' /\ text_ok d' /\ BufSize d' = BufSize d /\ Buf d' = [].
Proof.
  intros Hd. destruct (DeleteChars_spec 0 (length (Buf d)) d Hd) as (d' & H1 & H2 & H3 & H4 & _); [lia|].
  exists d'. split_and!; try done. rewrite H4. apply drop_all.
Qed.

(** The position in the history stays within it. *)
Lemma history_move_range ev c :
  -1 <= HistoryPos c < Z.of_nat (length (History c)) ->
  -1 <= history_move ev c < Z.of_nat (length (History c)).
Proof.
  intros Hp. destruct ev; cbn -[Z.of_nat]; try lia.
  - destruct (Z.eqb_spec (HistoryPos c) (-1)), (Z.ltb_spec 0 (HistoryPos c)); lia.
  - destruct (Z.eqb_spec (HistoryPos c) (-1)); cbn [negb]; [lia|].
    destruct (Z.leb_spec (Z.of_nat (length (History c))) (HistoryPos c + 1)); lia.
Qed.

(** The callback is defined on every event, and keeps the line and the console. *)
Lemma TextEditCallback_ok ev d c :
  text_ok d -> console_ok c ->
  exists d' c', TextEditCallback ev d c = Some (d', c') /\ text_ok d' /\ BufSize d' = BufSize d /\ console_ok c'.
Proof.
  intros Hd Hc. pose proof Hc as (_ & _ & [Hn _] & Hp).
  assert (Hhist : exists d' c', (let c1 := c <| HistoryPos := history_move ev c |> in
      if negb (HistoryPos c =? HistoryPos c1) then
        history_str ← (if 0 <=? HistoryPos c1 then History c1 !! Z.to_nat (HistoryPos c1) else Some []);
        d ← DeleteChars 0 (length (Buf d)) d;
        Some (InsertChars 0 history_str d, c1)
      else Some (d, c1)) = Some (d', c') /\ text_ok d' /\ BufSize d' = BufSize d /\ console_ok c').
  { pose proof (history_move_range ev c Hp) as Hm. cbn zeta.
    assert (Hc1 : console_ok (c <| HistoryPos := history_move ev c |>)).
    { destruct Hc as (H1 & H2 & H3 & _). exact (conj H1 (conj H2 (conj H3 Hm))). }
    cbn [HistoryPos History modify_field]. destruct (negb _); [|by eexists _, _].
    destruct (DeleteChars_all d Hd) as (d1 & -> & Hd1 & Hsz & Hb1).
    destruct (Z.leb_spec 0 (history_move ev c)) as [Hge|Hlt].
    - destruct (lookup_lt_is_Some_2 (History c) (Z.to_nat (history_move ev c))) as [s Hs]; [lia|].
      rewrite Hs. cbn [mbind option_bind]. eexists _, _. split; [done|].
      destruct (InsertChars_ok 0 s d1 Hd1) as [H1 H2]; [by apply (Forall_lookup_1 _ _ _ _ Hn Hs)|lia|].
      exact (conj H1 (conj (eq_trans H2 Hsz) Hc1)).
    - cbn [mbind option_bind]. eexists _, _. split; [done|].
      destruct (InsertChars_ok 0 [] d1 Hd1) as [H1 H2]; [constructor|lia|].
      exact (conj H1 (conj (eq_trans H2 Hsz) Hc1)). }
  destruct ev; try exact Hhist; [|by exists d, c].
  destruct (complete_ok d c Hd Hc) as (d' & c' & E & Hd' & Hsz & Hl). exists d', c'.
  pose proof (log_only_ok c c' Hl Hc) as Hc'. exact (conj E (conj Hd' (conj Hsz Hc'))).
Qed.

Lemma erase_first_None n items : erase_first n items = None <-> (length items < n)%nat.
Proof.
  revert items. induction n as [|n IH]; intros [|x items]; cbn; try (split; [done|lia]).
  - split; [lia | done].
  - rewrite IH. lia.
Qed.

Definition start_console : Console := DebugConsole_new Console_zero.

Lemma start_console_ok : console_ok start_console.
Proof.
  unfold console_ok, log_ok, history_ok, no_nul. vm_compute.
  split_and!; repeat constructor; try done; lia.
Qed.

Lemma filter_same line h :
  Forall no_nul h -> no_nul line ->
  List.filter (fun x => negb (same_cmd line x)) h =
  List.filter (fun x => bool_decide (fold_case x <> fold_case line)) h.
Proof.
  intros Hn Hl. apply filter_ext_in. intros x Hx%list_elem_of_In.
  rewrite Forall_forall in Hn. unfold same_cmd. rewrite Stricmp_eqb by auto.
  by do 2 case_bool_decide.
Qed.

(** A command moves to the end of the history: [ExecCommand] removes the
    entry equal to the line up to case, if there is one, appends the line and
    leaves browsing mode. *)
Theorem ExecCommand_history (line : cstr) (c : Console) :
  console_ok c -> no_nul line ->
  History (ExecCommand line c) =
    List.filter (fun h => bool_decide (fold_case h <> fold_case line)) (History c) ++ [line] /\
  HistoryPos (ExecCommand line c) = -1.
Proof.
  intros (_ & _ & Hh & _) Hl. destruct (ExecCommand_fields line c) as (E1 & E2 & _).
  split; [|done]. rewrite E1, history_push_spec by done. f_equal.
  apply filter_same; [apply Hh | done].
Qed.

Lemma ExecCommand_history_witness :
  History (ExecCommand (lit "help") (ExecCommand (lit "Help") start_console)) = [lit "help"].
Proof.
  refine (eq_trans (proj1 (ExecCommand_history (lit "help")
    (ExecCommand (lit "Help") start_console) _ _)) _).
  - apply ExecCommand_ok; [repeat constructor; discriminate | apply start_console_ok].
  - repeat constructor; discriminate.
  - vm_compute. reflexivity.
Defined.

(** The log is the last hundred of the lines logged, each cut to the 1023
    characters of the format buffer. *)
Theorem AddLog_keeps_last (lines : list cstr) (c : Console) :
  log_ok c ->
  let all := Items c ++ map (take 1023) lines in
  Items (AddLog_all lines c) = drop (length all - 100) all /\
  AddLog_all lines c = c <| Items := Items (AddLog_all lines c) |>.
Proof.
  intros [Hc _] all. split; [by apply AddLog_all_items | apply AddLog_all_rest].
Qed.

Lemma AddLog_keeps_last_witness :
  Items (AddLog_all (repeat (lit "x") 99) start_console) = lit "" :: repeat (lit "x") 99.
Proof.
  refine (eq_trans (proj1 (AddLog_keeps_last (repeat (lit "x") 99) start_console _)) _).
  - apply start_console_ok.
  - vm_compute. reflexivity.
Defined.

(** Tab with two or more matching commands replaces the word before the
    cursor by the longest common prefix, up to case, of the matches, in the
    casing of the first; the text around the word is kept and the cursor is at
    the end of the completion (when the line still fits the buffer). *)
Theorem complete_common_prefix (d : TextData) (c : Console) (cand0 cand1 : cstr) (rest : list cstr) :
  text_ok d -> console_ok c ->
  word_candidates d c = cand0 :: cand1 :: rest ->
  (length cand0 + length (Buf d) < BufSize d)%nat ->
  (0 < CursorPos d - word_start (Buf d) (CursorPos d))%nat ->
  exists m d' c', TextEditCallback CallbackCompletion d c = Some (d', c') /\
    Buf d' = take (word_start (Buf d) (CursorPos d)) (Buf d) ++ take m cand0
               ++ drop (CursorPos d) (Buf d) /\
    (CursorPos d' = word_start (Buf d) (CursorPos d) + m)%nat /\
    (m <= length cand0)%nat /\
    (forall i, (i < m)%nat -> agree_at (word_candidates d c) cand0 i) /\
    ~ ((m < length cand0)%nat /\ agree_at (word_candidates d c) cand0 m).
Proof.
  intros Hd (_ & Hcmds & _) Hw Hfit Hpos.
  destruct (complete_many d c cand0 cand1 rest Hd Hcmds Hw)
    as (m & d1 & c' & Hres & _ & Hdel & Hm & Hag & Hmax).
  cbn [TextEditCallback]. rewrite Hres. exists m. do 2 eexists. split; [done|].
  destruct (Nat.ltb_spec 0 m); [|lia]. destruct Hdel as [?|Hdel]; [lia|].
  pose proof (word_start_le (Buf d) (CursorPos d)) as Hs.
  set (start := word_start (Buf d) (CursorPos d)) in *.
  pose proof Hd as [[Hcur _] _].
  destruct (DeleteChars_spec start (CursorPos d - start) d Hd)
    as (d2 & Hdel' & _ & Hsz & Hb & Hcp); [lia|].
  assert (d2 = d1) as -> by congruence.
  rewrite Hcp by lia.
  replace (start + (CursorPos d - start))%nat with (CursorPos d) in Hb by lia.
  assert (Hlb : (length (Buf d1) <= length (Buf d))%nat).
  { rewrite Hb, length_app, length_take, length_drop. lia. }
  destruct (InsertChars_fits start (take m cand0) d1) as [Hb2 Hcp2].
  { rewrite length_take. lia. }
  split_and!; [|rewrite Hcp2, length_take by (apply Hcp; lia); lia | lia | done | done].
  rewrite Hb2, Hb.
  assert (Hlt : length (take start (Buf d)) = start) by (rewrite length_take; lia).
  by rewrite take_app_length', drop_app_length' by done.
Qed.

Lemma complete_common_prefix_witness :
  exists m d' c', TextEditCallback CallbackCompletion
      (MkTextData (lit "x h y") 3 256 false) start_console = Some (d', c') /\
    Buf d' = lit "x " ++ take m (lit "HELP") ++ lit " y" /\ (m <= 4)%nat.
Proof.
  destruct (complete_common_prefix (MkTextData (lit "x h y") 3 256 false) start_console
              (lit "HELP") (lit "HISTORY") []) as (m & d' & c' & H1 & H2 & _ & H3 & _).
  - split; [vm_compute; lia | repeat constructor; discriminate].
  - apply start_console_ok.
  - reflexivity.
  - vm_compute; lia.
  - vm_compute; lia.
  - exists m, d', c'. split; [exact H1 | split; [exact H2 | exact H3]].
Defined.

(** The commands are registered again by every console object, so with two
    or more objects (the program has four) no word has exactly one match: the
    branch that replaces the word and adds a space is never taken. *)
Theorem second_console_ambiguous (c : Console) (d : TextData) (cand : cstr) :
  Commands c = [] ->
  word_candidates d (DebugConsole_new (DebugConsole_new c)) <> [cand].
Proof.
  intros Hc. unfold word_candidates.
  replace (Commands _) with ([lit "HELP"; lit "HISTORY"; lit "CLEAR"]
    ++ [lit "HELP"; lit "HISTORY"; lit "CLEAR"]).
  - rewrite List.filter_app. intros H%(f_equal length).
    rewrite length_app in H. cbn [length] in H. lia.
  - unfold DebugConsole_new. cbn. by rewrite Hc.
Qed.

Lemma second_console_ambiguous_witness :
  word_candidates (MkTextData (lit "c") 1 256 false) (DebugConsole_new (DebugConsole_new Console_zero))
    <> [lit "CLEAR"].
Proof. by apply (second_console_ambiguous Console_zero). Defined.

(** ** Browsing *)

Fixpoint press (evs : list EditEvent) (d : TextData) (c : Console) : option (TextData * Console) :=
  match evs with
  | [] => Some (d, c)
  | ev :: evs => '(d, c) ← TextEditCallback ev d c; press evs d c
  end.

Lemma press_snoc evs ev d c :
  press (evs ++ [ev]) d c = '(d, c) ← press evs d c; TextEditCallback ev d c.
Proof.
  revert d c. induction evs as [|e evs IH]; intros d c; cbn.
  - by destruct (TextEditCallback ev d c) as [[]|].
  - destruct (TextEditCallback e d c) as [[d1 c1]|]; cbn; [apply IH | done].
Qed.

(** One step of the history that moves to the entry [p]. *)
Lemma history_step ev d c p s :
  (ev = HistoryUp \/ ev = HistoryDown) -> text_ok d ->
  history_move ev c = Z.of_nat p -> HistoryPos c <> Z.of_nat p ->
  History c !! p = Some s -> no_nul s -> (length s < BufSize d)%nat ->
  exists d', TextEditCallback ev d c = Some (d', c <| HistoryPos := Z.of_nat p |>) /\
    Buf d' = s /\ text_ok d' /\ BufSize d' = BufSize d.
Proof.
  intros Hev Hd Hp Hne Hs Hns Hfit.
  destruct (DeleteChars_spec 0 (length (Buf d)) d Hd) as (d1 & Hdel & Hd1 & Hsz & Hb & _); [lia|].
  change (Buf d1 = drop (length (Buf d)) (Buf d)) in Hb. rewrite drop_all in Hb.
  exists (InsertChars 0 s d1).
  destruct (InsertChars_ok 0 s d1 Hd1 Hns) as [Hok Hsz2]; [lia|].
  destruct (InsertChars_fits 0 s d1) as [Hb2 _]; [rewrite Hb, Hsz; cbn [length]; lia|].
  split; [|split_and!; [by rewrite Hb2, Hb, app_nil_r | done | congruence]].
  assert (TextEditCallback ev d c =
    if negb (HistoryPos c =? history_move ev c) then
      history_str ← (if 0 <=? history_move ev c then History c !! Z.to_nat (history_move ev c)
                     else Some []);
      d ← DeleteChars 0 (length (Buf d)) d;
      Some (InsertChars 0 history_str d, c <| HistoryPos := history_move ev c |>)
    else Some (d, c <| HistoryPos := history_move ev c |>)) as ->
    by (destruct Hev as [-> | ->]; reflexivity).
  rewrite Hp, Nat2Z.id, Hs, Hdel.
  destruct (Z.eqb_spec (HistoryPos c) (Z.of_nat p)); [done|].
  destruct (Z.leb_spec 0 (Z.of_nat p)); [done | lia].
Qed.

(** [k] presses of the up arrow on a new line bring back the [k]-th last
    command, for every [k] up to the length of the history, without reading
    outside the history. *)
Theorem history_browse (k : nat) (d : TextData) (c : Console) :
  console_ok c -> HistoryPos c = -1 -> text_ok d ->
  Forall (fun s => (length s < BufSize d)%nat) (History c) ->
  (1 <= k <= length (History c))%nat ->
  let i := (length (History c) - k)%nat in
  exists d', press (repeat HistoryUp k) d c = Some (d', c <| HistoryPos := Z.of_nat i |>) /\
    Some (Buf d') = History c !! i.
Proof.
  intros (_ & _ & [Hn _] & _) Hpos Hd Hfit Hk i.
  cut (exists d', press (repeat HistoryUp k) d c = Some (d', c <| HistoryPos := Z.of_nat i |>) /\
    Some (Buf d') = History c !! i /\ text_ok d' /\ BufSize d' = BufSize d);
    [intros (d' & H1 & H2 & _); by exists d'|].
  subst i. induction k as [|k IH]; [lia|].
  cbn [repeat]. rewrite repeat_cons, press_snoc.
  set (p := (length (History c) - S k)%nat).
  destruct (lookup_lt_is_Some_2 (History c) p) as [s Hs]; [lia|]. rewrite Hs.
  pose proof (Forall_lookup_1 _ _ _ _ Hn Hs) as Hns.
  pose proof (Forall_lookup_1 _ _ _ _ Hfit Hs) as Hls. cbn beta in Hns, Hls.
  destruct (decide (k = 0)%nat) as [->|Hk0].
  - cbn [repeat press mbind option_bind].
    destruct (history_step HistoryUp d c p s) as (d' & -> & Hb & Hok & Hsz); auto.
    + cbn. rewrite Hpos. cbn. unfold p. lia.
    + lia.
    + exists d'. rewrite Hb. by split_and!.
  - destruct IH as (d0 & -> & _ & Hd0 & Hsz0); [lia|]. cbn [mbind option_bind].
    set (c0 := c <| HistoryPos := Z.of_nat (length (History c) - k) |>).
    destruct (history_step HistoryUp d0 c0 p s) as (d' & -> & Hb & Hok & Hsz); auto.
    + cbn. zcases; lia.
    + cbn. lia.
    + lia.
    + exists d'. rewrite Hb. split_and!; try done. congruence.
Qed.

Lemma history_browse_witness :
  exists d', press [HistoryUp; HistoryUp] (MkTextData (lit "z") 1 256 false)
      (ExecCommand (lit "b") (ExecCommand (lit "a") start_console)) = Some (d',
        (ExecCommand (lit "b") (ExecCommand (lit "a") start_console)) <| HistoryPos := 0 |>) /\
    Some (Buf d') = Some (lit "a").
Proof.
  apply (history_browse 2 (MkTextData (lit "z") 1 256 false)
           (ExecCommand (lit "b") (ExecCommand (lit "a") start_console))).
  - do 2 (apply ExecCommand_ok; [repeat constructor; discriminate|]). apply start_console_ok.
  - reflexivity.
  - split; [vm_compute; lia | repeat constructor; discriminate].
  - vm_compute. repeat constructor; lia.
  - vm_compute. lia.
Defined.

(** ** A frame *)

(** The characters that end a word. *)
Definition separators : list ascii := map Ascii.ascii_of_nat [32; 9; 44; 59]%nat.

(** The word at the cursor: it holds no separator and starts the line or follows one. *)
Definition word_between (before word : cstr) : Prop :=
  Forall (fun a => a ∉ separators) word /\
  (before = [] \/ exists b a, before = b ++ [a] /\ a ∈ separators).

(** The commands that begin with the word, up to case. *)
Definition matches (word : cstr) (cmds : list cstr) : list cstr :=
  List.filter (fun cmd => bool_decide (take (length word) (fold_case cmd) = fold_case word)) cmds.

(** What Tab makes of the line: nothing without a match; a single match and a
    space; the longest common beginning of several, in the casing of the first. *)
Definition completed (before word after : cstr) (cands : list cstr) (line : cstr) : Prop :=
  match cands with
  | [] => line = before ++ word ++ after
  | [cand] => line = before ++ cand ++ lit " " ++ after
  | cand0 :: _ => exists m, line = before ++ take m cand0 ++ after /\ (m <= length cand0)%nat /\
      (forall i, (i < m)%nat -> agree_at cands cand0 i) /\
      ~ ((m < length cand0)%nat /\ agree_at cands cand0 m)
  end.

Lemma at_char_app l a k : at_char (l ++ a :: k) (length l) = a.
Proof. unfold at_char. rewrite app_nth2 by lia. by rewrite Nat.sub_diag. Qed.

Lemma word_start_between before word after :
  word_between before word -> word_start (before ++ word ++ after) (length before + length word) = length before.
Proof.
  intros [Hw Hb]. revert after. induction word as [|x word IH] using rev_ind; intros after.
  - rewrite Nat.add_0_r. destruct Hb as [->|(b & a & -> & Ha)]; [done|].
    rewrite length_app. cbn [length]. rewrite Nat.add_1_r. cbn [word_start].
    rewrite <- app_assoc. cbn [app]. rewrite at_char_app. unfold is_separator. by rewrite bool_decide_eq_true_2.
  - apply Forall_app in Hw as [Hw [Hx _]%Forall_cons]. rewrite length_app. cbn [length].
    rewrite Nat.add_1_r, Nat.add_succ_r. cbn [word_start].
    rewrite <- app_assoc. rewrite app_assoc at 1. rewrite <- length_app. cbn [app]. rewrite at_char_app.
    unfold is_separator at 1. rewrite bool_decide_eq_false_2 by exact Hx.
    rewrite length_app. by apply IH.
Qed.

Section Completion.
Context (d : TextData) (c : Console) (before word after : cstr).
Context (Hd : text_ok d) (Hc : console_ok c) (Hw : word_between before word).
Context (Hbuf : Buf d = before ++ word ++ after) (Hcur : CursorPos d = (length before + length word)%nat).

Lemma completion_start : word_start (Buf d) (CursorPos d) = length before.
Proof. rewrite Hbuf, Hcur. by apply word_start_between. Qed.

Lemma completion_candidates : word_candidates d c = matches word (Commands c).
Proof.
  unfold word_candidates, matches. rewrite completion_start, Hbuf, drop_app_length, Hcur.
  replace (length before + length word - length before)%nat with (length word) by lia.
  apply filter_ext_in. intros cmd Hin. destruct Hc as (_ & Hcmds & _). rewrite Forall_forall in Hcmds.
  assert (Hn : no_nul (word ++ after)).
  { destruct Hd as [_ Hn]. rewrite Hbuf in Hn. by apply Forall_app in Hn as [_ Hn]. }
  assert (E := Strnicmp_eq cmd (word ++ after) (length word) (Hcmds cmd (proj2 (list_elem_of_In _ _) Hin)) Hn
    ltac:(rewrite length_app; lia)).
  unfold fold_case in E at 2. rewrite map_app, take_app_length' in E by (by rewrite length_map).
  destruct (Z.eqb_spec (Strnicmp cmd (word ++ after) (length word)) 0); case_bool_decide; try done; tauto.
Qed.

Lemma completion_word (new : cstr) :
  (length (Buf d) + length new + 1 < BufSize d)%nat ->
  exists d1, DeleteChars (length before) (length word) d = Some d1 /\ text_ok d1 /\
    let d2 := InsertChars (CursorPos d1) new d1 in
    Buf d2 = before ++ new ++ after /\
    Buf (InsertChars (CursorPos d2) (lit " ") d2) = before ++ new ++ lit " " ++ after.
Proof.
  intros Hfit. destruct (DeleteChars_spec (length before) (length word) d Hd)
    as (d1 & -> & Hd1 & Hsz & Hb & Hcp); [rewrite Hbuf, !length_app; lia|].
  exists d1. split; [done|]. split; [done|]. cbn zeta. rewrite (Hcp Hcur). rewrite Hbuf in Hb.
  rewrite take_app_length, app_assoc, drop_app_length' in Hb by (by rewrite length_app).
  rewrite Hbuf, !length_app in Hfit.
  destruct (InsertChars_fits (length before) new d1) as [E1 E2]; [rewrite Hb, Hsz, length_app; lia|].
  rewrite Hb, take_app_length, drop_app_length in E1. specialize (E2 (Hcp Hcur)). split; [done|].
  rewrite E2. set (d2 := InsertChars _ new d1) in *.
  assert (Hsz2 : BufSize d2 = BufSize d) by (unfold d2, InsertChars; destruct (Nat.leb _ _); exact Hsz).
  destruct (InsertChars_fits (length before + length new) (lit " ") d2) as [E3 _].
  { rewrite E1, Hsz2, !length_app. cbn [length lit String.list_ascii_of_string]. lia. }
  rewrite E3, E1. rewrite (app_assoc before new after).
  rewrite take_app_length', drop_app_length' by (by rewrite length_app).
  by rewrite <- app_assoc.
Qed.

(** Tab, in terms of the parts of the line. *)
Lemma completion_ok :
  Forall (fun cand => (length (Buf d) + length cand + 1 < BufSize d)%nat) (matches word (Commands c)) ->
  exists d' c', TextEditCallback CallbackCompletion d c = Some (d', c') /\
    completed before word after (matches word (Commands c)) (Buf d').
Proof.
  intros Hfit. rewrite <- completion_candidates in *. cbn [TextEditCallback].
  destruct (word_candidates d c) as [|cand0 [|cand1 rest]] eqn:Hcand.
  - unfold complete. rewrite Hcand. by eexists _, _.
  - apply Forall_cons in Hfit as [Hfit _]. destruct (completion_word cand0 Hfit) as (d1 & Hdel & _ & _ & Hb).
    unfold complete. rewrite Hcand, completion_start, Hcur.
    replace (length before + length word - length before)%nat with (length word) by lia.
    rewrite Hdel. cbn [mbind option_bind]. eexists _, _. split; [done|]. exact Hb.
  - destruct Hc as (_ & Hcmds & _). destruct (complete_many d c cand0 cand1 rest Hd Hcmds Hcand)
      as (m & d1 & c' & Hres & _ & Hdel & Hm & Hag & Hmax).
    rewrite Hres. eexists _, c'. split; [done|]. rewrite completion_start, Hcur, Hcand in *.
    replace (length before + length word - length before)%nat with (length word) in * by lia.
    exists m. split_and!; [|lia|done|done].
    destruct (Nat.ltb_spec 0 m) as [Hm0|Hm0].
    + destruct Hdel as [?|Hdel]; [lia|]. apply Forall_cons in Hfit as [Hfit _].
      destruct (completion_word (take m cand0)) as (d2 & Hdel' & _ & Hb & _); [rewrite length_take; lia|].
      assert (d2 = d1) as -> by congruence. exact Hb.
    + assert (m = 0%nat) as -> by lia. destruct word; [exact Hbuf|cbn in Hm; lia].
Qed.

End Completion.

(** A frame that does not press Clear 10,000, up to its input field. *)
Lemma Draw_front ui c :
  console_ok c -> ui_open ui = true -> ui_clear_top ui = false ->
  exists c1 lines scroll,
    Draw ui c = (c2 ← Draw_input ui c1; Some (if ui_enter ui then Draw_enter c2 else c2, lines, scroll)) /\
    console_ok c1 /\ Commands c1 = Commands c /\ History c1 = History c /\ HistoryPos c1 = HistoryPos c /\
    InputBuf c1 = InputBuf c.
Proof.
  intros Hc Ho Ht. unfold Draw. rewrite Ho, Ht. cbn [negb mbind option_bind].
  set (c1 := if ui_popup_clear ui then _ else _). eexists (c1 <| ScrollToBottom := false |>), _, _.
  split; [reflexivity|].
  assert (Hclr : forall b c0, console_ok c0 -> console_ok (if b : bool then ClearLog c0 else c0)).
  { intros [] c0 (H1 & H2); [|done]. split; [split; [cbn; lia | constructor] | done]. }
  split.
  - change (console_ok c1). apply Hclr. destruct (ui_autoscroll ui) as [b|]; [|by apply Hclr].
    exact (Hclr (ui_clear ui) c Hc).
  - unfold c1. by destruct (ui_popup_clear ui), (ui_autoscroll ui), (ui_clear ui).
Qed.

Lemma Draw_input_ok ui c :
  console_ok c -> input_ok c -> (forall d, ui_line ui = Some d -> text_ok d /\ BufSize d = 256%nat) ->
  exists c', Draw_input ui c = Some c' /\ console_ok c' /\ input_ok c'.
Proof.
  intros Hc Hi Hui. unfold Draw_input. destruct (ui_line ui) as [d|]; [|by exists c].
  destruct (Hui d eq_refl) as [Hd Hsz].
  assert (H : exists d' c', (match ui_key ui with Some ev => TextEditCallback ev d c | None => Some (d, c) end)
    = Some (d', c') /\ text_ok d' /\ BufSize d' = BufSize d /\ console_ok c').
  { destruct (ui_key ui) as [ev|]; [by apply TextEditCallback_ok|]. by exists d, c. }
  destruct H as (d' & c' & -> & [Hl Hn] & Hsz' & Hc'). cbn [mbind option_bind]. eexists. split; [done|].
  split; [exact Hc'|]. split; [exact Hn|]. cbn. lia.
Qed.

(** The entry that an arrow moves to. *)
Definition arrow_moves (key : option EditEvent) (c : Console) (p : nat) : Prop :=
  (key = Some HistoryUp /\ (HistoryPos c = -1 /\ S p = length (History c) \/ HistoryPos c = Z.of_nat p + 1)) \/
  (key = Some HistoryDown /\ 0 <= HistoryPos c /\ HistoryPos c + 1 = Z.of_nat p).

Lemma arrow_input ui c d p s :
  console_ok c -> ui_line ui = Some d -> text_ok d -> arrow_moves (ui_key ui) c p ->
  History c !! p = Some s -> (length s < BufSize d)%nat ->
  exists c', Draw_input ui c = Some c' /\ InputBuf c' = s /\ HistoryPos c' = Z.of_nat p.
Proof.
  intros (_ & _ & [Hn _] & Hp) Hl Hd Hkey Hs Hfit. assert (Hns := Forall_lookup_1 _ _ _ _ Hn Hs).
  pose proof (lookup_lt_Some _ _ _ Hs) as Hlt.
  assert (Hev : exists ev, ui_key ui = Some ev /\ (ev = HistoryUp \/ ev = HistoryDown) /\
    history_move ev c = Z.of_nat p /\ HistoryPos c <> Z.of_nat p).
  { destruct Hkey as [[-> H]|(-> & H1 & H2)]; eexists; (split; [done|]); (split; [auto|]).
    - cbn -[Z.of_nat]. destruct (Z.eqb_spec (HistoryPos c) (-1)); [lia|].
      destruct (Z.ltb_spec 0 (HistoryPos c)); lia.
    - cbn -[Z.of_nat]. destruct (Z.eqb_spec (HistoryPos c) (-1)); cbn [negb]; [lia|].
      destruct (Z.leb_spec (Z.of_nat (length (History c))) (HistoryPos c + 1)); lia. }
  destruct Hev as (ev & Hk & Hev & Hm & Hne).
  destruct (history_step ev d c p s Hev Hd Hm Hne Hs Hns Hfit) as (d' & E & Hb & _ & _).
  unfold Draw_input. rewrite Hl, Hk, E. cbn [mbind option_bind]. eexists. split; [done|]. by rewrite Hb.
Qed.

(** C32: a frame of the console window keeps the state well-formed - at most 100
    log lines of at most 1023 characters, a history without two entries that
    differ only in case, the browsing position within the history, an input line
    that fits its 256 bytes - and it
    completes unless the button Clear 10,000 is pressed.  That button always
    fails: it erases from an empty vector, since 100 lines at most are kept.  Tab
    on a line replaces the word before the cursor by its completion among the
    commands and leaves the text around it (when the result fits the buffer); an
    arrow puts the entry of the history it moves to on the line. *)
Theorem Draw_wellformed (ui : ConsoleUI) (c : Console) :
  console_ok c -> input_ok c ->
  (forall d, ui_line ui = Some d -> text_ok d /\ BufSize d = 256%nat) ->
  (Draw ui c = None <-> ui_open ui = true /\ ui_clear_top ui = true) /\
  (forall c' lines scroll, Draw ui c = Some (c', lines, scroll) -> console_ok c' /\ input_ok c') /\
  (ui_open ui = true -> ui_clear_top ui = false -> ui_enter ui = false ->
   forall d, ui_line ui = Some d ->
   (forall before word after, ui_key ui = Some CallbackCompletion -> word_between before word ->
      Buf d = before ++ word ++ after -> CursorPos d = (length before + length word)%nat ->
      Forall (fun cand => (length (Buf d) + length cand + 1 < 256)%nat) (matches word (Commands c)) ->
      exists c' lines scroll, Draw ui c = Some (c', lines, scroll) /\
        completed before word after (matches word (Commands c)) (InputBuf c')) /\
   (forall p s, arrow_moves (ui_key ui) c p -> History c !! p = Some s -> (length s < 256)%nat ->
      exists c' lines scroll, Draw ui c = Some (c', lines, scroll) /\
        InputBuf c' = s /\ HistoryPos c' = Z.of_nat p)).
Proof.
  intros Hc Hin Hui. split; [|split].
  - split.
    + intros HD. destruct (ui_open ui) eqn:Ho; [|unfold Draw in HD; rewrite Ho in HD; done].
      destruct (ui_clear_top ui) eqn:Ht; [done|].
      destruct (Draw_front ui c Hc Ho Ht) as (c1 & lines & scroll & E & Hc1 & _ & _ & _ & E5).
      destruct (Draw_input_ok ui c1 Hc1) as (c' & E' & _); [by unfold input_ok; rewrite E5|done|].
      by rewrite E, E' in HD.
    + intros [Ho Ht]. unfold Draw. rewrite Ho, Ht. cbn [negb]. unfold ClearLogTop.
      replace (erase_first _ _) with (@None (list cstr)); [done|].
      symmetry. apply erase_first_None. destruct Hc as [[Hl _] _]. unfold LOG_KEEP in Hl. lia.
  - intros c' lines scroll HD. destruct (ui_open ui) eqn:Ho.
    2: { unfold Draw in HD. rewrite Ho in HD. by injection HD as <- <- <-. }
    destruct (ui_clear_top ui) eqn:Ht.
    { exfalso. unfold Draw in HD. rewrite Ho, Ht in HD. cbn [negb] in HD. unfold ClearLogTop in HD.
      destruct (erase_first (Z.to_nat 10000) (Items c)) as [items|] eqn:E; [|done].
      destruct (decide (length (Items c) < Z.to_nat 10000)%nat) as [Hlt|Hge].
      - by rewrite (proj2 (erase_first_None _ _) Hlt) in E.
      - destruct Hc as [[Hl _] _]. unfold LOG_KEEP in Hl. lia. }
    destruct (Draw_front ui c Hc Ho Ht) as (c1 & lines' & scroll' & E & Hc1 & _ & _ & _ & E5).
    destruct (Draw_input_ok ui c1 Hc1) as (c2 & E2 & Hc2 & Hi2); [by unfold input_ok; rewrite E5|done|].
    rewrite E, E2 in HD. cbn [mbind option_bind] in HD. injection HD as <- _ _.
    destruct (ui_enter ui); [|done]. by apply Draw_enter_ok; [apply Hi2|].
  - intros Ho Ht He d Hl. destruct (Hui d Hl) as [Hd Hsz].
    destruct (Draw_front ui c Hc Ho Ht) as (c1 & lines & scroll & E & Hc1 & E2 & E3 & E4 & E5).
    rewrite E, He, <- E2, <- E3. split.
    + intros before word after Hk Hw Hb Hcur Hfit. rewrite <- Hsz in Hfit.
      destruct (completion_ok d c1 before word after Hd Hc1 Hw Hb Hcur Hfit) as (d' & c' & Hcb & Hcomp).
      unfold Draw_input. rewrite Hl, Hk, Hcb. cbn [mbind option_bind]. by eexists _, lines, scroll.
    + intros p s Hkey Hs Hlen. rewrite <- Hsz in Hlen.
      assert (Hkey1 : arrow_moves (ui_key ui) c1 p) by (unfold arrow_moves; by rewrite E3, E4).
      destruct (arrow_input ui c1 d p s Hc1 Hl Hd Hkey1 Hs Hlen) as (c' & -> & H1 & H2).
      cbn [mbind option_bind]. by exists c', lines, scroll.
Qed.

Definition test_line : TextData := MkTextData (lit "x cl y") 4 256 false.

Definition test_ui (clear_top : bool) (key : EditEvent) : ConsoleUI :=
  MkConsoleUI true clear_top false None false (fun _ => true) true (Some test_line) (Some key) false.

Definition test_history : Console := ExecCommand (lit "b") (ExecCommand (lit "a") start_console).

Lemma Draw_wellformed_witness :
  Draw (test_ui true CallbackCompletion) test_history = None /\
  (exists c' lines scroll, Draw (test_ui false CallbackCompletion) test_history = Some (c', lines, scroll) /\
     InputBuf c' = lit "x CLEAR  y") /\
  (exists c' lines scroll, Draw (test_ui false HistoryUp) test_history = Some (c', lines, scroll) /\
     InputBuf c' = lit "b" /\ HistoryPos c' = 1).
Proof.
  assert (Hc : console_ok test_history).
  { do 2 (apply ExecCommand_ok; [repeat constructor; discriminate|]). apply start_console_ok. }
  assert (Hi : input_ok test_history) by (split; [constructor|vm_compute; lia]).
  assert (Hl : forall t key d, ui_line (test_ui t key) = Some d -> text_ok d /\ BufSize d = 256%nat).
  { intros t key d [= <-]. split; [|done]. split; [vm_compute; lia|repeat constructor; discriminate]. }
  split_and!.
  - by apply (Draw_wellformed (test_ui true CallbackCompletion) test_history Hc Hi (Hl _ _)).
  - destruct (Draw_wellformed (test_ui false CallbackCompletion) test_history Hc Hi (Hl _ _)) as (_ & _ & H).
    destruct (H eq_refl eq_refl eq_refl test_line eq_refl) as [Ht _].
    apply (Ht (lit "x ") (lit "cl") (lit " y")); try reflexivity.
    + split; [apply (bool_decide_unpack (Forall (fun a => a ∉ separators) (lit "cl"))); by vm_compute|]. right. exists (lit "x"), (Ascii.ascii_of_nat 32).
      split; [done|]. by left.
    + vm_compute. repeat constructor; lia.
  - destruct (Draw_wellformed (test_ui false HistoryUp) test_history Hc Hi (Hl _ _)) as (_ & _ & H).
    destruct (H eq_refl eq_refl eq_refl test_line eq_refl) as [_ Ha].
    apply (Ha 1%nat (lit "b")); [left; split; [done|left; by vm_compute]|reflexivity|vm_compute; lia].
Defined.
