(* ===== verification/BlockDevice.v ===== *)
(** * The block device of the simulation (sim/sim_blkdevice.cpp)

    [SimBlockDevice] plays the HPS side of the SD interface: it mounts disk
    images, and serves the sector reads and writes that the core requests with
    [sd_rd] / [sd_wr], one 16-bit word per handshake.  [BeforeEval] is called once
    per system clock; it visits the ten drives in order, and the four parts of
    its loop body are the definitions [serve], [mount_phase], [start_phase] and
    [ack_phase].

    A disk is a [std::fstream]: its bytes, one position shared by reading and
    writing, and its error state.  The pins are the variables of the generated
    model that the device has pointers to; a null pointer is [None], and
    dereferencing one is the result [None] of an operation. *)

From S2P Require Import Prelude.

Definition kVDNUM : nat := 10.
Definition kBLKSZ : Z := 512.

(** ** Files *)

Record FStream := MkFStream {
  fs_data : list Z;
  fs_pos : Z;
  fs_open : bool;
  fs_writable : bool;
  fs_fail : bool }.

#[export] Instance eta_FStream : Eta FStream := fun f =>
  MkFStream (fs_data f) (fs_pos f) (fs_open f) (fs_writable f) (fs_fail f).

Definition FStream_closed : FStream := MkFStream [] 0 false false false.

Definition fs_size (f : FStream) : Z := Z.of_nat (length (fs_data f)).

(** [open] for reading (and writing), positioned at the end: what the file
    system holds is [contents], with the permission to write. *)
Definition fs_open_ate (for_writing : bool) (contents : option (list Z * bool)) (f : FStream)
    : FStream :=
  match contents with
  | Some (bytes, writable) =>
      if fs_open f || (for_writing && negb writable) then f <| fs_fail := true |>
      else MkFStream bytes (Z.of_nat (length bytes)) true for_writing false
  | None => f <| fs_fail := true |>
  end.

Definition fs_clear (f : FStream) : FStream := f <| fs_fail := false |>.

Definition fs_tellg (f : FStream) : Z := if fs_fail f then -1 else fs_pos f.

Definition fs_seek (p : Z) (f : FStream) : FStream :=
  if fs_fail f then f
  else if negb (fs_open f) || (p <? 0) then f <| fs_fail := true |>
  else f <| fs_pos := p |>.

Definition fs_get (f : FStream) : Z * FStream :=
  if fs_fail f then (-1, f)
  else match (if fs_open f then fs_data f !! Z.to_nat (fs_pos f) else None) with
       | Some b => (b, f <| fs_pos := fs_pos f + 1 |>)
       | None => (-1, f <| fs_fail := true |>)
       end.

(** A write past the end fills the gap with zeros. *)
Definition write_byte (p : nat) (b : Z) (bytes : list Z) : list Z :=
  take p (bytes ++ replicate (p - length bytes) 0) ++ b :: drop (S p) bytes.

Definition fs_put (b : Z) (f : FStream) : FStream :=
  if fs_fail f then f
  else if fs_open f && fs_writable f then
    f <| fs_data ::= write_byte (Z.to_nat (fs_pos f)) (u8 b) |> <| fs_pos := fs_pos f + 1 |>
  else f <| fs_fail := true |>.

(** ** The device *)

Record BlkPins := MkBlkPins {
  sd_lba : list (option Z);
  sd_rd : Z;
  sd_wr : Z;
  sd_ack : Z;
  sd_buff_addr : Z;
  sd_buff_dout : Z;
  sd_buff_din : list (option Z);
  sd_buff_wr : Z;
  img_mounted : Z;
  img_readonly : option Z;
  img_size : Z }.

#[export] Instance eta_BlkPins : Eta BlkPins := fun p =>
  MkBlkPins (sd_lba p) (sd_rd p) (sd_wr p) (sd_ack p) (sd_buff_addr p) (sd_buff_dout p)
    (sd_buff_din p) (sd_buff_wr p) (img_mounted p) (img_readonly p) (img_size p).

Record BlkDev := MkBlkDev {
  pins : BlkPins;
  bytecnt : Z;
  disk_size : list Z;
  reading : bool;
  writing : bool;
  ack_delay : Z;
  current_disk : Z;
  mountQueue : list bool;
  disk : list FStream }.

#[export] Instance eta_BlkDev : Eta BlkDev := fun d =>
  MkBlkDev (pins d) (bytecnt d) (disk_size d) (reading d) (writing d) (ack_delay d)
    (current_disk d) (mountQueue d) (disk d).

(** The bit macros on a [CData] pin. *)
Definition bitset (byte : Z) (nbit : nat) : Z := u8 (Z.lor byte (Z.shiftl 1 (Z.of_nat nbit))).
Definition bitclear (byte : Z) (nbit : nat) : Z :=
  u8 (Z.land byte (Z.lnot (Z.shiftl 1 (Z.of_nat nbit)))).
Definition bitcheck (byte : Z) (nbit : nat) : bool :=
  negb (Z.land byte (Z.shiftl 1 (Z.of_nat nbit)) =? 0).

Definition set_pin {A} (f : BlkPins -> A) `{!Setter f} (v : A) (d : BlkDev) : BlkDev :=
  d <| pins ::= modify_field (get := f) (fun _ => v) |>.

Definition the_disk (d : BlkDev) (i : nat) : FStream := default FStream_closed (disk d !! i).

Definition set_disk (i : nat) (f : FStream) (d : BlkDev) : BlkDev := d <| disk ::= <[i := f]> |>.

(** The constructor; the pointers to single pins that it clears as well are set before
    they are used, and have no null in the model. *)
Definition SimBlockDevice_new (d : BlkDev) : BlkDev :=
  let d := d <| current_disk := -1 |> in
  let d := d <| pins ::= (fun p => p <| sd_lba := replicate kVDNUM None |> <| sd_buff_din := replicate kVDNUM None |>) |> in
  let d := d <| mountQueue := replicate kVDNUM false |> in
  set_pin img_readonly None d.

(** [MountDisk], given what the file system holds under the name. *)
Definition MountDisk (contents : option (list Z * bool)) (index : nat) (d : BlkDev) : BlkDev :=
  let f := fs_open_ate true contents (the_disk d index) in
  let f := if fs_fail f then fs_open_ate false contents (fs_clear f) else f in
  let d := set_disk index f d in
  if fs_fail f then d
  else
    let d := d <| disk_size ::= <[index := fs_tellg f]> |> in
    let d := set_disk index (fs_seek 0 f) d in
    d <| mountQueue ::= <[index := true]> |>.

Section Operations.

(** The command line: the latency of a sector in ticks (16000 unless the
    argument [+blkdev_latency=] is given) and [+ignore_scsi_writes]. *)
Context (latency : Z) (ignore_writes : bool).

Definition serve (i : nat) (d : BlkDev) : option BlkDev :=
  if current_disk d =? Z.of_nat i then
    if ack_delay d =? 1 then
      if reading d && (sd_buff_wr (pins d) =? 0) && (bytecnt d <? kBLKSZ) then
        let '(byte1, f) := fs_get (the_disk d i) in
        let '(byte2, f) := fs_get f in
        let d := set_disk i f d in
        let d := set_pin sd_buff_dout (u16 (Z.lor (Z.shiftl byte1 8) (Z.land byte2 255))) d in
        let d := set_pin sd_buff_addr (u8 (bytecnt d ÷ 2)) d in
        let d := d <| bytecnt := bytecnt d + 2 |> in
        Some (set_pin sd_buff_wr 1 d)
      else if writing d && (bytecnt d <? kBLKSZ) then
        word ← mjoin (sd_buff_din (pins d) !! i);
        let d :=
          if ignore_writes then d
          else set_disk i (fs_put (Z.land word 255)
                 (fs_put (Z.land (Z.shiftr word 8) 255) (the_disk d i))) d in
        let d := d <| bytecnt := bytecnt d + 2 |> in
        Some (set_pin sd_buff_addr
                (if bytecnt d <? kBLKSZ then u8 (bytecnt d ÷ 2) else 0) d)
      else if writing d then
        Some (set_pin sd_buff_addr 0 d <| writing := false |>)
      else
        let d := set_pin sd_buff_wr 0 d in
        Some (if reading d then
                (if kBLKSZ <=? bytecnt d then d <| reading := false |> else d)
              else d)
    else Some (set_pin sd_buff_wr 0 d)
  else Some d.

Definition mount_phase (i : nat) (d : BlkDev) : BlkDev :=
  if negb (reading d) && negb (writing d) && default false (mountQueue d !! i)
     && (img_mounted (pins d) =? 0)
  then
    let d := d <| mountQueue ::= <[i := false]> |> in
    let d := set_pin img_size (u64 (default 0 (disk_size d !! i))) d in
    let d := set_pin img_readonly (option_map (fun _ => 1) (img_readonly (pins d))) d in
    let d := set_disk i (fs_seek 0 (the_disk d i)) d in
    let d := set_pin img_mounted (bitset (img_mounted (pins d)) i) d in
    d <| ack_delay := 1200 |>
  else if (ack_delay d =? 1) && bitcheck (img_mounted (pins d)) i then
    set_pin img_mounted (bitclear (img_mounted (pins d)) i) d
  else if negb (reading d) && negb (writing d) && (0 <? ack_delay d) then
    d <| ack_delay := ack_delay d - 1 |>
  else d.

Definition start_phase (i : nat) (d : BlkDev) : option BlkDev :=
  if ((current_disk d =? -1) || (current_disk d =? Z.of_nat i))
     && (bitcheck (sd_rd (pins d)) i || bitcheck (sd_wr (pins d)) i)
  then
    let d := d <| current_disk := Z.of_nat i |> in
    if ack_delay d =? 0 then
      lba ← mjoin (sd_lba (pins d) !! i);
      let lba := s32 lba in
      let d := if bitcheck (sd_rd (pins d)) i then d <| reading := true |> else d in
      let d := if bitcheck (sd_wr (pins d)) i then d <| writing := true |> else d in
      offset ← checked_int (lba * kBLKSZ);
      let d := set_disk i (fs_seek offset (fs_seek offset (fs_clear (the_disk d i)))) d in
      let d := d <| bytecnt := 0 |> in
      let d := set_pin sd_buff_addr 0 d in
      Some (d <| ack_delay := latency |>)
    else Some d
  else Some d.

Definition ack_phase (i : nat) (d : BlkDev) : BlkDev :=
  if current_disk d =? Z.of_nat i then
    let d := set_pin sd_ack (if ack_delay d =? 1 then bitset (sd_ack (pins d)) i
                             else bitclear (sd_ack (pins d)) i) d in
    let d := if (1 <? ack_delay d) || ((ack_delay d =? 1) && negb (reading d) && negb (writing d))
             then d <| ack_delay := ack_delay d - 1 |> else d in
    if (ack_delay d =? 0) && negb (reading d) && negb (writing d)
    then d <| current_disk := -1 |> else d
  else d.

Definition slot (i : nat) (d : BlkDev) : option BlkDev :=
  d ← serve i d;
  d ← start_phase i (mount_phase i d);
  Some (ack_phase i d).

Fixpoint slots (drives : list nat) (d : BlkDev) : option BlkDev :=
  match drives with
  | [] => Some d
  | i :: drives => d ← slot i d; slots drives d
  end.

Definition BlkDev_BeforeEval (cycles : Z) (d : BlkDev) : option BlkDev :=
  if cycles <? 2000 then Some d else slots (seq 0 kVDNUM) d.

(** The call of the main loop: the 64-bit time becomes an [int]. *)
Definition BlkDev_tick (main_time : Z) (d : BlkDev) : option BlkDev :=
  BlkDev_BeforeEval (s32 main_time) d.

End Operations.

(** ** Files *)

(** The stream delivers the bytes of the file from [p] on. *)
Definition fs_at (f : FStream) (bytes : list Z) (p : Z) : Prop :=
  fs_data f = bytes /\ fs_open f = true /\ 0 <= p /\
  (fs_fail f = false /\ fs_pos f = p \/ fs_fail f = true /\ Z.of_nat (length bytes) <= p).

Lemma fs_get_at f bytes p :
  fs_at f bytes p ->
  (fs_get f).1 = default (-1) (bytes !! Z.to_nat p) /\ fs_at (fs_get f).2 bytes (p + 1).
Proof.
  intros (Hd & Ho & Hp & [[Hf Hpos]|[Hf Hlen]]); unfold fs_get, fs_at; rewrite Hf.
  - rewrite Ho, Hd, Hpos. destruct (bytes !! Z.to_nat p) as [b|] eqn:E; cbn.
    + rewrite ?Hd, ?Ho, ?Hf, ?Hpos. split; [done|]. split_and!; try done; [lia|]. left. done.
    + rewrite ?Hd, ?Ho. split; [done|]. split_and!; try done; [lia|]. right. split; [done|].
      apply lookup_ge_None_1 in E. lia.
  - cbn. rewrite lookup_ge_None_2 by lia. rewrite Hd, Ho, Hf.
    split; [done|]. split_and!; try done; [lia|]. right. split; [done | lia].
Qed.

(** A missing byte reads as 255. *)
Definition file_byte (bytes : list Z) (p : Z) : Z := default 255 (bytes !! Z.to_nat p).
Definition file_word (bytes : list Z) (p : Z) : Z :=
  file_byte bytes p * 256 + file_byte bytes (p + 1).

Lemma file_word_bits bytes p :
  Forall is_byte bytes ->
  u16 (Z.lor (Z.shiftl (default (-1) (bytes !! Z.to_nat p)) 8)
         (Z.land (default (-1) (bytes !! Z.to_nat (p + 1))) 255)) = file_word bytes p.
Proof.
  intros Hb. rewrite land_255, lor_shiftl_add by (try done; by apply Z.mod_pos_bound).
  unfold file_word, file_byte, uwrap.
  assert (forall q b, bytes !! q = Some b -> 0 <= b < 256)
    by (intros q b; apply (Forall_lookup_1 _ _ _ _ Hb)).
  destruct (bytes !! Z.to_nat p) eqn:E1, (bytes !! Z.to_nat (p + 1)) eqn:E2;
    repeat match goal with E : bytes !! _ = Some _ |- _ => apply H in E end;
    cbn; change (2 ^ 8) with 256; change (2 ^ 16) with 65536; div_lia.
Qed.

(** ** Drives that do not hold the transaction *)

Definition busy (i : nat) (d : BlkDev) : Prop :=
  current_disk d = Z.of_nat i /\ reading d || writing d = true.

(** Two states that differ at most in [img_mounted]. *)
Definition same_but_mounted (d d' : BlkDev) : Prop :=
  exists m, d' = set_pin img_mounted m d.

Lemma same_but_mounted_refl d : same_but_mounted d d.
Proof. exists (img_mounted (pins d)). by destruct d as [[] ? ? ? ? ? ? ? ?]. Qed.

Lemma same_but_mounted_trans d1 d2 d3 :
  same_but_mounted d1 d2 -> same_but_mounted d2 d3 -> same_but_mounted d1 d3.
Proof. intros [m1 ->] [m2 ->]. by exists m2. Qed.

Lemma same_but_mounted_busy i d d' : same_but_mounted d d' -> busy i d -> busy i d'.
Proof. by intros [m ->] [H1 H2]. Qed.

Lemma slots_app latency ignore_writes l1 l2 d :
  slots latency ignore_writes (l1 ++ l2) d =
  (d1 ← slots latency ignore_writes l1 d; slots latency ignore_writes l2 d1).
Proof.
  revert d. induction l1 as [|j l1 IH]; intros d; [done|]. cbn.
  destruct (slot latency ignore_writes j d); [apply IH | done].
Qed.

(** The ten drives, around one of them. *)
Lemma seq_drives i : (i < kVDNUM)%nat -> seq 0 kVDNUM = seq 0 i ++ i :: seq (S i) (kVDNUM - S i).
Proof.
  intros Hi. change (i :: _) with (seq i (S (kVDNUM - S i))).
  replace kVDNUM with (i + S (kVDNUM - S i))%nat at 1 by lia. apply seq_app.
Qed.

Section Transactions.
Context (latency : Z) (ignore_writes : bool).

#[local] Abbreviation slot := (slot latency ignore_writes).
#[local] Abbreviation slots := (slots latency ignore_writes).

Lemma slot_other i j d :
  busy i d -> i <> j -> exists d', slot j d = Some d' /\ same_but_mounted d d'.
Proof.
  intros [Hc Hb] Hij. unfold BlockDevice.slot, serve.
  assert (Hj : (current_disk d =? Z.of_nat j) = false) by (apply Z.eqb_neq; lia).
  rewrite Hj. cbn [mbind option_bind].
  assert (Hm : same_but_mounted d (mount_phase j d)).
  { unfold mount_phase.
    replace (negb (reading d) && negb (writing d)) with false
      by (rewrite <- negb_orb, Hb; reflexivity). cbn [andb].
    destruct (_ && _); [by eexists | apply same_but_mounted_refl]. }
  set (d1 := mount_phase j d) in *.
  assert (Hc1 : current_disk d1 = Z.of_nat i) by (destruct Hm as [m ->]; exact Hc).
  unfold start_phase, ack_phase.
  replace ((current_disk d1 =? -1) || (current_disk d1 =? Z.of_nat j)) with false
    by (symmetry; apply orb_false_iff; split; apply Z.eqb_neq; lia).
  cbn [andb mbind option_bind].
  replace (current_disk d1 =? Z.of_nat j) with false by (symmetry; apply Z.eqb_neq; lia).
  by eexists.
Qed.

Lemma slots_other i js d :
  busy i d -> i ∉ js -> exists d', slots js d = Some d' /\ same_but_mounted d d'.
Proof.
  revert d. induction js as [|j js IH]; intros d Hb Hi.
  - eexists. split; [done | apply same_but_mounted_refl].
  - apply not_elem_of_cons in Hi as [Hij Hi].
    destruct (slot_other i j d Hb Hij) as (d1 & Hs & Hd1).
    destruct (IH d1) as (d2 & Hs2 & Hd2); [by eapply same_but_mounted_busy | done |].
    exists d2. split; [cbn; rewrite Hs; exact Hs2 | by eapply same_but_mounted_trans].
Qed.

(** A tick of a busy device is the visit of its drive. *)
Lemma tick_busy i t d (Q : BlkDev -> Prop) :
  busy i d -> (i < kVDNUM)%nat -> 2000 <= s32 t ->
  (forall d1 d2, same_but_mounted d1 d2 -> Q d1 -> Q d2) ->
  (forall d1, same_but_mounted d d1 -> exists d2, slot i d1 = Some d2 /\ busy i d2 /\ Q d2) ->
  exists d', BlkDev_tick latency ignore_writes t d = Some d' /\ busy i d' /\ Q d'.
Proof.
  intros Hb Hi Ht HQ Hslot. unfold BlkDev_tick, BlkDev_BeforeEval.
  destruct (Z.ltb_spec (s32 t) 2000); [lia|].
  rewrite (seq_drives i Hi).
  rewrite slots_app.
  destruct (slots_other i (seq 0 i) d Hb) as (d1 & -> & Hd1); [rewrite elem_of_seq; lia|].
  destruct (Hslot d1 Hd1) as (d2 & Hs2 & Hb2 & HQ2).
  cbn [mbind option_bind BlockDevice.slots]. rewrite Hs2. cbn [mbind option_bind].
  destruct (slots_other i (seq (S i) (kVDNUM - S i)) d2 Hb2) as (d3 & -> & Hd3);
    [rewrite elem_of_seq; lia|].
  exists d3. split; [done|]. split; [by eapply same_but_mounted_busy | by eapply HQ].
Qed.

(** *** The visit of the drive of the transaction *)

(** The wait for the latency. *)
Lemma slot_wait i d :
  busy i d -> 2 <= ack_delay d ->
  exists d', slot i d = Some d' /\ busy i d' /\
    ack_delay d' = ack_delay d - 1 /\ sd_buff_wr (pins d') = 0 /\
    bytecnt d' = bytecnt d /\ the_disk d' i = the_disk d i /\ length (disk d') = length (disk d) /\
    reading d' = reading d /\ writing d' = writing d /\
    sd_buff_addr (pins d') = sd_buff_addr (pins d).
Proof.
  intros [Hc Hb] Ha. unfold BlockDevice.slot, serve, busy.
  rewrite Hc, Z.eqb_refl.
  replace (ack_delay d =? 1) with false by (symmetry; apply Z.eqb_neq; lia).
  cbn [mbind option_bind]. unfold mount_phase. cbn.
  replace (negb (reading d) && negb (writing d)) with false
    by (rewrite <- negb_orb, Hb; reflexivity). cbn [andb].
  replace (ack_delay d =? 1) with false by (symmetry; apply Z.eqb_neq; lia). cbn [andb].
  unfold start_phase. cbn. rewrite Hc, Z.eqb_refl.
  replace (ack_delay d =? 0) with false by (symmetry; apply Z.eqb_neq; lia).
  assert (Hba : negb (reading d) && negb (writing d) = false)
    by (rewrite <- negb_orb, Hb; reflexivity).
  destruct (_ && (_ || _)); cbn [mbind option_bind]; (eexists; split; [done|]);
    unfold ack_phase; cbn; rewrite ?Hc, ?Z.eqb_refl; cbn;
    (destruct (Z.ltb_spec 1 (ack_delay d)); [|lia]); cbn;
    rewrite <- andb_assoc, Hba, andb_false_r; cbn; rewrite ?Hc; done.
Qed.

(** What is left of the visit after [serve], while the words are transferred. *)
Lemma tail_busy i d :
  busy i d -> ack_delay d = 1 ->
  exists m, (d1 ← start_phase latency i (mount_phase i d); Some (ack_phase i d1)) =
    Some (set_pin sd_ack (bitset (sd_ack (pins d)) i) (set_pin img_mounted m d)).
Proof.
  intros [Hc Hb] Ha.
  assert (Hba : negb (reading d) && negb (writing d) = false)
    by (rewrite <- negb_orb, Hb; reflexivity).
  assert (Hm : exists m, mount_phase i d = set_pin img_mounted m d).
  { unfold mount_phase. rewrite Hba. cbn [andb].
    destruct ((ack_delay d =? 1) && _); [by eexists | apply same_but_mounted_refl]. }
  destruct Hm as [m ->]. exists m. unfold start_phase. cbn. rewrite Hc, Ha, Z.eqb_refl. cbn.
  assert (Hd : d = d <| current_disk := Z.of_nat i |>) by (rewrite <- Hc; by destruct d).
  destruct (_ && (_ || _)); cbn [mbind option_bind]; unfold ack_phase; cbn; rewrite ?Hc, Z.eqb_refl, ?Ha;
    cbn; rewrite ?Hba; cbn; rewrite ?Ha; cbn; [|done].
  rewrite Hd. done.
Qed.

Lemma slot_word i d bytes p :
  busy i d -> (i < length (disk d))%nat -> ack_delay d = 1 -> reading d = true ->
  sd_buff_wr (pins d) = 0 -> 0 <= bytecnt d < kBLKSZ ->
  fs_at (the_disk d i) bytes p -> Forall is_byte bytes ->
  exists d', slot i d = Some d' /\ busy i d' /\
    ack_delay d' = 1 /\ reading d' = true /\ writing d' = writing d /\
    bytecnt d' = bytecnt d + 2 /\ length (disk d') = length (disk d) /\
    fs_at (the_disk d' i) bytes (p + 2) /\
    sd_buff_wr (pins d') = 1 /\ sd_buff_addr (pins d') = bytecnt d ÷ 2 /\
    sd_buff_dout (pins d') = file_word bytes p /\
    sd_ack (pins d') = bitset (sd_ack (pins d)) i.
Proof.
  intros [Hc Hb] Hi Ha Hr Hw Hcnt Hf Hbytes. unfold BlockDevice.slot, serve.
  rewrite Hc, Z.eqb_refl, Ha, Hr, Hw. cbn [Z.eqb Pos.eqb andb].
  destruct (Z.ltb_spec (bytecnt d) kBLKSZ); [|lia].
  destruct (fs_get_at _ _ _ Hf) as [H1 Hf1].
  destruct (fs_get (the_disk d i)) as [b1 f1]. cbn in H1, Hf1.
  destruct (fs_get_at _ _ _ Hf1) as [H2 Hf2].
  destruct (fs_get f1) as [b2 f2]. cbn in H2, Hf2.
  cbn [mbind option_bind].
  match goal with |- context [mount_phase i ?x] => set (d1 := x) end.
  destruct (tail_busy i d1) as [m ->]; [by split | exact Ha |].
  eexists. split; [done|]. unfold busy. cbn. rewrite Hc, Hb, Ha.
  rewrite length_insert. subst b1 b2.
  split_and!; try done.
  - unfold the_disk. cbn. rewrite list_lookup_insert_eq by done. cbn.
    by replace (p + 2) with (p + 1 + 1) by lia.
  - rewrite uwrap_small; [done|]. unfold kBLKSZ in *. change (2 ^ 8) with 256. div_lia.
  - by apply file_word_bits.
Qed.

Lemma slot_gap i d :
  busy i d -> ack_delay d = 1 -> reading d = true -> writing d = false ->
  sd_buff_wr (pins d) = 1 -> bytecnt d < kBLKSZ ->
  exists d', slot i d = Some d' /\ busy i d' /\
    ack_delay d' = 1 /\ reading d' = true /\ writing d' = false /\ bytecnt d' = bytecnt d /\
    disk d' = disk d /\ sd_buff_wr (pins d') = 0.
Proof.
  intros [Hc Hb] Ha Hr Hwr Hw Hcnt. unfold BlockDevice.slot, serve.
  rewrite Hc, Z.eqb_refl, Ha, Hr, Hw, Hwr. cbn [Z.eqb Pos.eqb andb].
  cbn [bytecnt reading set_pin modify_field]. rewrite Hr. destruct (Z.leb_spec kBLKSZ (bytecnt d)); [lia|].
  cbn [mbind option_bind].
  match goal with |- context [mount_phase i ?x] => set (d1 := x) end.
  destruct (tail_busy i d1) as [m ->]; [by split | exact Ha |].
  eexists. split; [done|]. unfold busy. cbn. rewrite Hc, Hr, Hwr, Ha. by split_and!.
Qed.

Lemma slot_writing d i w :
  busy i d -> ack_delay d = 1 -> reading d = false -> writing d = true ->
  0 <= bytecnt d < kBLKSZ -> sd_buff_din (pins d) !! i = Some (Some w) ->
  exists d', slot i d = Some d' /\ busy i d' /\
    ack_delay d' = 1 /\ reading d' = false /\ writing d' = true /\ bytecnt d' = bytecnt d + 2 /\
    disk d' = (if ignore_writes then disk d else
      <[i := fs_put (Z.land w 255) (fs_put (Z.land (Z.shiftr w 8) 255) (the_disk d i))]> (disk d)) /\
    sd_buff_addr (pins d') = (if bytecnt d + 2 <? kBLKSZ then (bytecnt d + 2) ÷ 2 else 0) /\
    sd_ack (pins d') = bitset (sd_ack (pins d)) i.
Proof.
  intros [Hc Hb] Ha Hr Hwr Hcnt Hdin. unfold BlockDevice.slot, serve.
  rewrite Hc, Z.eqb_refl, Ha, Hr, Hwr, Hdin. cbn [Z.eqb Pos.eqb andb mjoin option_join].
  destruct (Z.ltb_spec (bytecnt d) kBLKSZ); [|lia]. cbn [mbind option_bind].
  match goal with |- context [mount_phase i ?x] => set (d1 := x) end.
  assert (Hd1 : busy i d1 /\ ack_delay d1 = 1 /\ reading d1 = false /\ writing d1 = true)
    by (unfold d1, busy; destruct ignore_writes; cbn; rewrite Hb, Hwr, Hr; done).
  destruct Hd1 as (Hb1 & Ha1 & Hr1 & Hw1).
  destruct (tail_busy i d1 Hb1 Ha1) as [m ->].
  exists (set_pin sd_ack (bitset (sd_ack (pins d1)) i) (set_pin img_mounted m d1)).
  split; [done|]. split; [exact Hb1|].
  split; [exact Ha1|]. split; [exact Hr1|]. split; [exact Hw1|].
  split_and!; try (unfold d1; destruct ignore_writes; cbn; done).
  - unfold d1. destruct ignore_writes; cbn; unfold kBLKSZ in *;
      (destruct (Z.ltb_spec (bytecnt d + 2) 512); [|done]);
      rewrite uwrap_small; try done; change (2 ^ 8) with 256; div_lia.
Qed.

(** ** Runs

    What the core drives before a tick: the time, the request bits, the sector
    numbers and the data words.  The theorems hold for every sequence of them, so
    for whatever the core does with the outputs of the device. *)

Record BlkInputs := MkBlkInputs {
  in_time : Z;
  in_rd : Z;
  in_wr : Z;
  in_lba : list (option Z);
  in_din : list (option Z) }.

Definition drive (x : BlkInputs) (d : BlkDev) : BlkDev :=
  d <| pins ::= fun p => p <| sd_rd := in_rd x |> <| sd_wr := in_wr x |>
                           <| sd_lba := in_lba x |> <| sd_buff_din := in_din x |> |>.

Definition tick (x : BlkInputs) (d : BlkDev) : option BlkDev :=
  BlkDev_tick latency ignore_writes (in_time x) (drive x d).

Fixpoint run (xs : list BlkInputs) (d : BlkDev) : option BlkDev :=
  match xs with
  | [] => Some d
  | x :: xs => d ← tick x d; run xs d
  end.

Lemma run_app xs ys d : run (xs ++ ys) d = d ← run xs d; run ys d.
Proof.
  revert d. induction xs as [|x xs IH]; intros d; [done|]. cbn.
  destruct (tick x d); [apply IH | done].
Qed.

Definition booted (x : BlkInputs) : Prop := 2000 <= s32 (in_time x).

Lemma bitset_check b i : (i < 8)%nat -> bitcheck (bitset b i) i = true.
Proof.
  intros Hi. unfold bitcheck, bitset. apply negb_true_iff, Z.eqb_neq. intros H.
  apply (f_equal (fun z => Z.testbit z (Z.of_nat i))) in H.
  unfold uwrap in H. rewrite Z.land_spec, Z.mod_pow2_bits_low, Z.lor_spec, Z.bits_0 in H by lia.
  rewrite Z.shiftl_1_l, Z.pow2_bits_true, orb_true_r in H by lia. done.
Qed.

Lemma bitcheck_pow i j : bitcheck (2 ^ Z.of_nat i) j = bool_decide (i = j).
Proof.
  unfold bitcheck. rewrite Z.shiftl_1_l. case_bool_decide as Hij.
  - subst j. rewrite Z.land_diag. apply negb_true_iff, Z.eqb_neq. lia.
  - apply negb_false_iff, Z.eqb_eq, Z.bits_inj'. intros n Hn.
    rewrite Z.land_spec, Z.bits_0, !Z.pow2_bits_eqb by lia.
    destruct (Z.eqb_spec (Z.of_nat i) n), (Z.eqb_spec (Z.of_nat j) n); try done. lia.
Qed.

Lemma bitcheck_0 j : bitcheck 0 j = false.
Proof. done. Qed.

(** *** The start of a transaction *)

Definition idle (d : BlkDev) : Prop :=
  current_disk d = -1 /\ reading d = false /\ writing d = false /\ ack_delay d = 0 /\
  mountQueue d = replicate kVDNUM false.

Lemma slot_idle i d :
  idle d -> (i < kVDNUM)%nat -> bitcheck (sd_rd (pins d)) i = false ->
  bitcheck (sd_wr (pins d)) i = false -> slot i d = Some d.
Proof.
  intros (Hc & Hr & Hw & Ha & Hm) Hi Hrd Hwr.
  unfold BlockDevice.slot, serve, mount_phase, start_phase, ack_phase.
  assert (Hn : (-1 =? Z.of_nat i) = false) by (apply Z.eqb_neq; lia).
  rewrite Hc, Hn. cbn [mbind option_bind]. rewrite Hr, Hw, Ha, Hm.
  rewrite lookup_replicate_2 by done.
  cbn.
  rewrite Hrd, Hwr, andb_false_r. cbn [mbind option_bind]. by rewrite Hc, Hn.
Qed.

(** The visit that starts a transfer, at the sector [lba]. *)
Lemma slot_start i d lba offset (is_read : bool) :
  idle d -> (i < kVDNUM)%nat -> checked_int (s32 lba * kBLKSZ) = Some offset ->
  bitcheck (sd_rd (pins d)) i = is_read -> bitcheck (sd_wr (pins d)) i = negb is_read ->
  sd_lba (pins d) !! i = Some (Some lba) ->
  3 <= latency ->
  exists d', slot i d = Some d' /\ busy i d' /\
    ack_delay d' = latency - 1 /\ reading d' = is_read /\ writing d' = negb is_read /\
    bytecnt d' = 0 /\ sd_buff_addr (pins d') = 0 /\
    disk d' = <[i := fs_seek offset (fs_seek offset (fs_clear (the_disk d i)))]> (disk d).
Proof.
  intros (Hc & Hr & Hw & Ha & Hm) Hi Hoff Hrd Hwr Hlba HL.
  unfold BlockDevice.slot, serve, mount_phase, start_phase.
  assert (Hn : (-1 =? Z.of_nat i) = false) by (apply Z.eqb_neq; lia).
  rewrite Hc, Hn. cbn [mbind option_bind]. rewrite Hr, Hw, Ha, Hm.
  rewrite lookup_replicate_2 by done.
  cbn [negb andb from_option id Z.eqb Pos.eqb Z.ltb Z.compare orb].
  rewrite Hrd, Hwr, Hc. replace (is_read || negb is_read) with true by by destruct is_read.
  cbn [andb orb Z.eqb Pos.eqb].
  cbn [ack_delay pins modify_field sd_lba]. rewrite Ha, Hlba. cbn [Z.eqb mjoin option_join mbind option_bind id].
  rewrite Hoff. cbn [mbind option_bind].
  destruct is_read; cbn [negb sd_rd sd_wr pins modify_field]; rewrite ?Hrd, ?Hwr;
    cbn [negb]; eexists; (split; [done|]); unfold ack_phase, busy; cbn;
    rewrite ?Hrd, ?Hwr; cbn; rewrite ?Z.eqb_refl, ?Hr, ?Hw; cbn;
    (destruct (Z.ltb_spec 1 latency); [|lia]); cbn; rewrite ?Hr, ?Hw, ?andb_false_r; cbn;
    rewrite ?andb_false_r; cbn; split_and!; try done; lia.
Qed.

Lemma slot_overflow i d lba (is_read : bool) :
  idle d -> (i < kVDNUM)%nat -> checked_int (s32 lba * kBLKSZ) = None ->
  bitcheck (sd_rd (pins d)) i = is_read -> bitcheck (sd_wr (pins d)) i = negb is_read ->
  sd_lba (pins d) !! i = Some (Some lba) -> slot i d = None.
Proof.
  intros (Hc & Hr & Hw & Ha & Hm) Hi Hoff Hrd Hwr Hlba.
  unfold BlockDevice.slot, serve, mount_phase, start_phase.
  assert (Hn : (-1 =? Z.of_nat i) = false) by (apply Z.eqb_neq; lia).
  rewrite Hc, Hn. cbn [mbind option_bind]. rewrite Hr, Hw, Ha, Hm.
  rewrite lookup_replicate_2 by done.
  cbn [negb andb from_option id Z.eqb Pos.eqb Z.ltb Z.compare orb].
  rewrite Hrd, Hwr, Hc. replace (is_read || negb is_read) with true by by destruct is_read.
  cbn [andb orb Z.eqb Pos.eqb].
  cbn [ack_delay pins modify_field sd_lba]. rewrite Ha, Hlba. cbn [Z.eqb mjoin option_join mbind option_bind id].
  by rewrite Hoff.
Qed.

(** The drives before the one that is requested do nothing. *)
Lemma tick_to_slot x i d (is_read : bool) :
  idle d -> booted x -> (i < kVDNUM)%nat ->
  in_rd x = (if is_read then 2 ^ Z.of_nat i else 0) ->
  in_wr x = (if is_read then 0 else 2 ^ Z.of_nat i) ->
  bitcheck (in_rd x) i = is_read /\ bitcheck (in_wr x) i = negb is_read /\
  tick x d = d1 ← slot i (drive x d); slots (seq (S i) (kVDNUM - S i)) d1.
Proof.
  intros Hd Ht Hi Hrd Hwr. unfold tick, BlkDev_tick, BlkDev_BeforeEval.
  destruct (Z.ltb_spec (s32 (in_time x)) 2000); [unfold booted in Ht; lia|].
  assert (Hbits : forall j, bitcheck (in_rd x) j = is_read && bool_decide (i = j) /\
                            bitcheck (in_wr x) j = negb is_read && bool_decide (i = j)).
  { intros j. rewrite Hrd, Hwr.
    destruct is_read; rewrite ?bitcheck_pow, ?bitcheck_0; done. }
  destruct (Hbits i) as [H1 H2]. rewrite bool_decide_eq_true_2, andb_true_r in H1, H2 by done.
  split; [done|]. split; [done|].
  assert (Hpre : forall js, i ∉ js -> Forall (fun j => (j < kVDNUM)%nat) js ->
            slots js (drive x d) = Some (drive x d)).
  { intros js Hn Hf. induction Hf as [|j js Hj Hf IH]; [done|].
    apply not_elem_of_cons in Hn as [Hij Hn]. cbn [BlockDevice.slots].
    destruct (Hbits j) as [B1 B2]. rewrite bool_decide_eq_false_2, andb_false_r in B1, B2 by done.
    rewrite slot_idle by (done || exact Hd). cbn [mbind option_bind]. by apply IH. }
  rewrite (seq_drives i Hi), slots_app, Hpre; [done| |].
  - rewrite elem_of_seq. lia.
  - apply Forall_forall. intros j Hj%elem_of_seq. lia.
Qed.

Lemma tick_overflow x i d lba (is_read : bool) :
  idle d -> booted x -> (i < kVDNUM)%nat -> checked_int (s32 lba * kBLKSZ) = None ->
  in_rd x = (if is_read then 2 ^ Z.of_nat i else 0) ->
  in_wr x = (if is_read then 0 else 2 ^ Z.of_nat i) ->
  in_lba x !! i = Some (Some lba) -> tick x d = None.
Proof.
  intros Hd Ht Hi Hoff Hrd Hwr Hlba. destruct (tick_to_slot x i d is_read Hd Ht Hi Hrd Hwr) as (H1 & H2 & ->).
  by rewrite (slot_overflow i (drive x d) lba is_read Hd Hi Hoff H1 H2 Hlba).
Qed.

(** The drives after it wait. *)
Lemma tick_start x i d lba offset (is_read : bool) :
  idle d -> booted x -> (i < kVDNUM)%nat -> checked_int (s32 lba * kBLKSZ) = Some offset -> 3 <= latency ->
  in_rd x = (if is_read then 2 ^ Z.of_nat i else 0) ->
  in_wr x = (if is_read then 0 else 2 ^ Z.of_nat i) ->
  in_lba x !! i = Some (Some lba) ->
  exists d', tick x d = Some d' /\ busy i d' /\
    ack_delay d' = latency - 1 /\ reading d' = is_read /\ writing d' = negb is_read /\
    bytecnt d' = 0 /\ sd_buff_addr (pins d') = 0 /\
    disk d' = <[i := fs_seek offset (fs_seek offset (fs_clear (the_disk d i)))]> (disk d).
Proof.
  intros Hd Ht Hi Hoff HL Hrd Hwr Hlba. destruct (tick_to_slot x i d is_read Hd Ht Hi Hrd Hwr) as (H1 & H2 & ->).
  destruct (slot_start i (drive x d) lba offset is_read Hd Hi Hoff H1 H2 Hlba HL)
    as (d1 & -> & Hb & Hrest).
  cbn [mbind option_bind].
  destruct (slots_other i (seq (S i) (kVDNUM - S i)) d1 Hb) as (d2 & -> & [m ->]);
    [rewrite elem_of_seq; lia|].
  eexists. split; [done|]. split; [exact Hb | exact Hrest].
Qed.

Lemma run_wait xs i d n :
  busy i d -> (i < kVDNUM)%nat -> Forall booted xs ->
  ack_delay d = 1 + Z.of_nat (length xs) -> length xs = S n ->
  exists d', run xs d = Some d' /\ busy i d' /\
    ack_delay d' = 1 /\ sd_buff_wr (pins d') = 0 /\ bytecnt d' = bytecnt d /\
    the_disk d' i = the_disk d i /\ length (disk d') = length (disk d) /\
    reading d' = reading d /\ writing d' = writing d /\
    sd_buff_addr (pins d') = sd_buff_addr (pins d).
Proof.
  intros Hb Hi Hx. revert d n Hb. induction Hx as [|x xs Hbx Hx IH]; intros d n Hb Ha Hn; [done|].
  cbn [length] in Ha, Hn.
  destruct (tick_busy i (in_time x) (drive x d)
    (fun d' => ack_delay d' = ack_delay d - 1 /\ sd_buff_wr (pins d') = 0 /\
      bytecnt d' = bytecnt d /\ the_disk d' i = the_disk d i /\
      length (disk d') = length (disk d) /\
      reading d' = reading d /\ writing d' = writing d /\
      sd_buff_addr (pins d') = sd_buff_addr (pins d))) as (d1 & Hrun & Hb1 & Hd1);
    [exact Hb | done | exact Hbx | intros ? ? [m ->] H; exact H | |].
  { intros d0 [m ->].
    destruct (slot_wait i (set_pin img_mounted m (drive x d)) Hb) as (d1 & Hs & Hb1 & Hrest);
      [cbn; lia | by exists d1]. }
  destruct Hd1 as (Ha1 & Hw1 & Hc1 & Hdk1 & Hl1 & Hr1 & Hwr1 & Had1).
  cbn [run]. unfold tick. rewrite Hrun. cbn [mbind option_bind].
  destruct n as [|n].
  - destruct xs; [|done]. exists d1. cbn [length] in Ha. split_and!; done || lia.
  - destruct (IH d1 n Hb1) as (d2 & -> & Hb2 & Ha2 & Hw2 & Hc2 & Hdk2 & Hl2 & Hr2 & Hwr2 & Had2);
      [lia | lia |].
    exists d2. split_and!; try done; congruence.
Qed.

(** *** Reading *)

(** [k] words have been delivered and the next one can be. *)
Definition read_ready (i : nat) (bytes : list Z) (base k : Z) (d : BlkDev) : Prop :=
  busy i d /\ (i < length (disk d))%nat /\ ack_delay d = 1 /\ reading d = true /\
  writing d = false /\ sd_buff_wr (pins d) = 0 /\ bytecnt d = 2 * k /\
  fs_at (the_disk d i) bytes (base + 2 * k).

(** A word is on the pins. *)
Definition word_on_pins (i : nat) (k word : Z) (d : BlkDev) : Prop :=
  sd_buff_wr (pins d) = 1 /\ sd_buff_addr (pins d) = k /\ sd_buff_dout (pins d) = word /\
  bitcheck (sd_ack (pins d)) i = true.

Lemma tick_word x i bytes base k d :
  read_ready i bytes base k d -> (i < 8)%nat -> booted x -> 0 <= k < 256 -> Forall is_byte bytes ->
  exists d', tick x d = Some d' /\ word_on_pins i k (file_word bytes (base + 2 * k)) d' /\
    busy i d' /\ (i < length (disk d'))%nat /\ ack_delay d' = 1 /\ reading d' = true /\
    writing d' = false /\ bytecnt d' = 2 * (k + 1) /\
    fs_at (the_disk d' i) bytes (base + 2 * (k + 1)).
Proof.
  intros (Hb & Hl & Ha & Hr & Hw & Hwr & Hc & Hf) Hi Hx Hk Hbytes.
  destruct (tick_busy i (in_time x) (drive x d)
    (fun d' => word_on_pins i k (file_word bytes (base + 2 * k)) d' /\
      (i < length (disk d'))%nat /\ ack_delay d' = 1 /\ reading d' = true /\
      writing d' = false /\ bytecnt d' = 2 * (k + 1) /\
      fs_at (the_disk d' i) bytes (base + 2 * (k + 1)))) as (d1 & Hrun & Hb1 & H1 & H2);
    [exact Hb | unfold kVDNUM; lia | exact Hx | intros ? ? [m ->] H; exact H | |
     exists d1; by repeat split; try apply H1; try apply H2; try apply Hb1].
  intros d0 [m ->].
  destruct (slot_word i (set_pin img_mounted m (drive x d)) bytes (base + 2 * k))
    as (d2 & Hs & Hb2 & Ha2 & Hr2 & Hw2 & Hc2 & Hl2 & Hf2 & Hwr2 & Had2 & Hdo2 & Hk2);
    try done; [cbn; unfold kBLKSZ; lia|].
  exists d2. unfold word_on_pins. rewrite Hk2, Hl2.
  replace (base + 2 * (k + 1)) with (base + 2 * k + 2) by lia.
  split_and!; try done.
  - rewrite Had2. cbn. rewrite Hc. div_lia.
  - by apply bitset_check.
  - by rewrite Hw2.
  - rewrite Hc2. cbn. lia.
Qed.

Lemma tick_gap x i bytes base k d :
  busy i d -> (i < length (disk d))%nat -> ack_delay d = 1 -> reading d = true ->
  writing d = false -> sd_buff_wr (pins d) = 1 -> bytecnt d = 2 * k ->
  fs_at (the_disk d i) bytes (base + 2 * k) ->
  (i < 8)%nat -> booted x -> k < 256 ->
  exists d', tick x d = Some d' /\ read_ready i bytes base k d'.
Proof.
  intros Hb Hl Ha Hr Hw Hwr Hc Hf Hi Hx Hk.
  destruct (tick_busy i (in_time x) (drive x d) (read_ready i bytes base k)) as (d1 & Hrun & _ & H1);
    [exact Hb | unfold kVDNUM; lia | exact Hx | intros ? ? [m ->] H; exact H | |by exists d1].
  intros d0 [m ->].
  destruct (slot_gap i (set_pin img_mounted m (drive x d)))
    as (d2 & Hs & Hb2 & Ha2 & Hr2 & Hw2 & Hc2 & Hd2 & Hwr2); try done.
  { cbn. unfold kBLKSZ. lia. }
  exists d2. unfold read_ready, the_disk. rewrite Hd2. split_and!; try done.
  by rewrite Hc2.
Qed.

Lemma run_words xs i bytes base k d (j : nat) :
  read_ready i bytes base k d -> (i < 8)%nat -> Forall booted xs -> Forall is_byte bytes ->
  length xs = (2 * j + 1)%nat -> 0 <= k -> k + Z.of_nat j < 256 ->
  exists d', run xs d = Some d' /\
    word_on_pins i (k + Z.of_nat j) (file_word bytes (base + 2 * (k + Z.of_nat j))) d'.
Proof.
  revert xs k d. induction j as [|j IH]; intros xs k d Hd Hi Hx Hb Hl Hk Hkj.
  - destruct xs as [|x [|]]; try done. rewrite Z.add_0_r.
    destruct (tick_word x i bytes base k d) as (d1 & Hrun & Hw & _);
      [done | done | by apply Forall_inv in Hx | lia | done |].
    exists d1. cbn. by rewrite Hrun.
  - destruct xs as [|x1 [|x2 xs]]; cbn in Hl; try lia.
    apply Forall_cons in Hx as [Hx1 Hx]. apply Forall_cons in Hx as [Hx2 Hx].
    destruct (tick_word x1 i bytes base k d)
      as (d1 & Hr1 & Hw & Hb1 & Hl1 & Ha1 & Hrd1 & Hwr1 & Hc1 & Hf1); try done; [lia|].
    destruct (tick_gap x2 i bytes base (k + 1) d1) as (d2 & Hr2 & Hd2); try done;
      [apply Hw | lia |].
    destruct (IH xs (k + 1) d2) as (d3 & Hr3 & Hw3); try done; [lia | lia | lia |].
    exists d3. cbn. rewrite Hr1. cbn. rewrite Hr2. cbn.
    by replace (k + Z.of_nat (S j)) with (k + 1 + Z.of_nat j) by lia.
Qed.

Lemma seek_start f p :
  fs_open f = true -> 0 <= p ->
  let f' := fs_seek p (fs_seek p (fs_clear f)) in
  f' = MkFStream (fs_data f) p true (fs_writable f) false.
Proof.
  intros Ho Hp. destruct f as [data pos op wr fl]. cbn in Ho. subst op.
  unfold fs_seek, fs_clear. cbn. destruct (Z.ltb_spec p 0); [lia | done].
Qed.

(** *** Writing *)

(** [bs] written over [data] from [p] on, the gap before [p] filled with zeros. *)
Definition splice (p : nat) (bs data : list Z) : list Z :=
  take p (data ++ replicate (p - length data) 0) ++ bs ++ drop (p + length bs) data.

Definition word_bytes (w : Z) : list Z := [(w / 256) `mod` 256; w `mod` 256].

Lemma write_byte_splice p bs b data :
  bs <> [] \/ (p <= length data)%nat ->
  write_byte (p + length bs) b (splice p bs data) = splice p (bs ++ [b]) data.
Proof.
  intros Hgap. unfold write_byte, splice.
  set (h := take p (data ++ replicate (p - length data) 0)).
  assert (Hh : length h = p) by (unfold h; rewrite length_take, length_app, length_replicate; lia).
  assert (Hl : (p + length bs - length (h ++ bs ++ drop (p + length bs) data) = 0)%nat)
    by (rewrite !length_app, Hh; lia).
  rewrite Hl. cbn [replicate]. rewrite app_nil_r, (assoc_L (++) h bs).
  rewrite take_app_length' by (rewrite length_app; lia).
  rewrite <- (assoc_L (++) h bs), <- !(assoc_L (++)). do 2 f_equal. cbn [app]. f_equal.
  rewrite (assoc_L (++)), drop_app_ge by (rewrite length_app; lia).
  rewrite length_app, drop_drop, length_app. f_equal. cbn [length]. lia.
Qed.

Lemma splice_nil p data : (p <= length data)%nat -> splice p [] data = data.
Proof.
  intros Hp. unfold splice. replace (p - length data)%nat with 0%nat by lia.
  cbn. rewrite app_nil_r, Nat.add_0_r. apply take_drop.
Qed.

(** A file open for writing, with its position at [p]. *)
Definition fs_writing (f : FStream) (data : list Z) (p : Z) : Prop :=
  f = MkFStream data p true true false.

Lemma fs_put_splice f p bs b data :
  (p <= length data)%nat ->
  fs_writing f (splice p bs data) (Z.of_nat (p + length bs)) -> 0 <= b < 256 ->
  fs_writing (fs_put b f) (splice p (bs ++ [b]) data) (Z.of_nat (p + length (bs ++ [b]))).
Proof.
  intros Hp -> Hb. unfold fs_writing, fs_put.
  cbn [fs_fail fs_open fs_writable andb fs_pos].
  change (MkFStream (write_byte (Z.to_nat (Z.of_nat (p + length bs))) (u8 b) (splice p bs data))
            (Z.of_nat (p + length bs) + 1) true true false =
          MkFStream (splice p (bs ++ [b]) data) (Z.of_nat (p + length (bs ++ [b]))) true true false).
  rewrite Nat2Z.id, uwrap_small, write_byte_splice by (done || by right).
  f_equal. rewrite length_app. cbn. lia.
Qed.

Lemma fs_put_word f p bs w data :
  (p <= length data)%nat ->
  fs_writing f (splice p bs data) (Z.of_nat (p + length bs)) ->
  fs_writing (fs_put (Z.land w 255) (fs_put (Z.land (Z.shiftr w 8) 255) f))
    (splice p (bs ++ word_bytes w) data) (Z.of_nat (p + length (bs ++ word_bytes w))).
Proof.
  intros Hp Hf. rewrite !land_255, Z.shiftr_div_pow2 by done. change (2 ^ 8) with 256.
  assert (H1 := fs_put_splice f p bs ((w / 256) `mod` 256) data Hp Hf
                  (Z.mod_pos_bound _ 256 eq_refl)).
  assert (H2 := fs_put_splice _ p _ (w `mod` 256) data Hp H1 (Z.mod_pos_bound _ 256 eq_refl)).
  by rewrite <- !(assoc_L (++)) in H2.
Qed.

Definition sector_bytes (words : list Z) : list Z := concat (map word_bytes words).

Lemma sector_bytes_snoc words w : sector_bytes (words ++ [w]) = sector_bytes words ++ word_bytes w.
Proof. unfold sector_bytes. rewrite map_app, concat_app. cbn. done. Qed.

(** The words taken so far are in the file, unless writes are ignored. *)
Definition write_state (i p : nat) (data words : list Z) (d : BlkDev) : Prop :=
  busy i d /\ (i < length (disk d))%nat /\ ack_delay d = 1 /\ reading d = false /\
  writing d = true /\ bytecnt d = 2 * Z.of_nat (length words) /\
  sd_buff_addr (pins d) = (if Z.of_nat (length words) <? 256 then Z.of_nat (length words) else 0) /\
  if ignore_writes then fs_data (the_disk d i) = data
  else fs_writing (the_disk d i) (splice p (sector_bytes words) data)
         (Z.of_nat (p + length (sector_bytes words))).

Lemma tick_write x i p data words w d :
  write_state i p data words d -> (i < 8)%nat -> booted x -> (p <= length data)%nat ->
  (length words < 256)%nat -> in_din x !! i = Some (Some w) ->
  exists d', tick x d = Some d' /\ write_state i p data (words ++ [w]) d'.
Proof.
  intros (Hb & Hl & Ha & Hr & Hw & Hc & Had & Hf) Hi Hx Hp Hn Hdin.
  destruct (tick_busy i (in_time x) (drive x d) (write_state i p data (words ++ [w])))
    as (d1 & Hrun & _ & H1);
    [exact Hb | unfold kVDNUM; lia | exact Hx | intros ? ? [m ->] H; exact H | |by exists d1].
  intros d0 [m ->].
  destruct (slot_writing (set_pin img_mounted m (drive x d)) i w)
    as (d2 & Hs & Hb2 & Ha2 & Hr2 & Hw2 & Hc2 & Hd2 & Had2 & _); try done;
    [cbn; unfold kBLKSZ; lia|].
  exists d2. split; [done|]. split; [done|]. unfold write_state, the_disk.
  rewrite Hd2, Hc2, Had2, length_app, sector_bytes_snoc. cbn [length bytecnt set_pin modify_field drive].
  rewrite Hc. split_and!; try done.
  - destruct ignore_writes; cbn; rewrite ?length_insert; done.
  - lia.
  - unfold kBLKSZ. zcases; try lia. div_lia.
  - destruct ignore_writes; [exact Hf|]. cbn. rewrite list_lookup_insert_eq by done. cbn.
    by apply fs_put_word.
Qed.

Lemma run_writes xs i p data words ws d :
  write_state i p data words d -> (i < 8)%nat -> Forall booted xs -> (p <= length data)%nat ->
  (length words + length ws <= 256)%nat ->
  Forall2 (fun x w => in_din x !! i = Some (Some w)) xs ws ->
  exists d', run xs d = Some d' /\ write_state i p data (words ++ ws) d'.
Proof.
  intros Hd Hi Hx Hp Hn Hdin. revert words d Hd Hn Hx.
  induction Hdin as [|x w xs ws Hw Hdin IH]; intros words d Hd Hn Hx.
  - exists d. by rewrite app_nil_r.
  - apply Forall_cons in Hx as [Hbx Hx]. cbn [length] in Hn.
    destruct (tick_write x i p data words w d) as (d1 & Hr1 & Hd1); try done; [lia|].
    destruct (IH (words ++ [w]) d1) as (d2 & Hr2 & Hd2); [done | rewrite length_app; cbn; lia | done |].
    exists d2. cbn. rewrite Hr1. cbn. split; [done|].
    by rewrite <- (assoc_L (++)) in Hd2.
Qed.

End Transactions.

(** ** Sector transfers *)

(** Below 2 GB the offset is an [int]. *)
Lemma lba_offset lba : 0 <= lba < 2 ^ 22 -> checked_int (s32 lba * kBLKSZ) = Some (512 * lba).
Proof.
  intros Hl. change (2 ^ 22) with 4194304 in Hl.
  rewrite swrap_small by (try (change (2 ^ (32 - 1)) with 2147483648); lia).
  unfold kBLKSZ. rewrite checked_int_small; [f_equal; lia|unfold INT_MAX; lia].
Qed.

(** The state when the first word can be delivered. *)
Lemma read_started latency ignore_writes d i lba offset x0 waits bytes p :
  idle d -> (i < 8)%nat -> (i < length (disk d))%nat -> 3 <= latency ->
  Forall booted (x0 :: waits) -> Z.of_nat (length waits) = latency - 2 ->
  in_rd x0 = 2 ^ Z.of_nat i -> in_wr x0 = 0 -> in_lba x0 !! i = Some (Some lba) ->
  checked_int (s32 lba * kBLKSZ) = Some offset ->
  fs_at (fs_seek offset (fs_seek offset (fs_clear (the_disk d i)))) bytes p ->
  exists d', run latency ignore_writes (x0 :: waits) d = Some d' /\ read_ready i bytes p 0 d'.
Proof.
  intros Hd Hi Hl HL Hx Hn Hrd Hwr Hlba Hoff Hf. apply Forall_cons in Hx as [Hx0 Hx].
  destruct (tick_start latency ignore_writes x0 i d lba offset true)
    as (d1 & Hr1 & Hb1 & Ha1 & Hrd1 & Hwr1 & Hc1 & Had1 & Hdk1); try done; [unfold kVDNUM; lia|].
  destruct (run_wait latency ignore_writes waits i d1 (Nat.pred (length waits)))
    as (d2 & Hr2 & Hb2 & Ha2 & Hw2 & Hc2 & Hdk2 & Hl2 & Hrd2 & Hwr2 & _);
    try done; [unfold kVDNUM; lia | lia | lia |].
  exists d2. cbn. rewrite Hr1. split; [exact Hr2|]. unfold read_ready.
  assert (Hl1 : length (disk d1) = length (disk d)) by (rewrite Hdk1; apply length_insert).
  rewrite Hdk2, Z.add_0_r. unfold the_disk at 1. rewrite Hdk1, list_lookup_insert_eq by done.
  split_and!; try done; try congruence; rewrite ?Hl2, ?Hl1, ?Hrd2, ?Hwr2, ?Hc2; done || lia.
Qed.

(** C6: a sector read delivers the sector.  From an idle device and a request on
    drive [i] only, whatever the core drives afterwards, word [k] of the sector
    is on the pins - strobe, word address, data, acknowledge - [2 k + 1] ticks
    after the latency has passed, for each of the 256 words.  Bytes that the
    image does not have read as 255; the byte offset is an [int], which holds the
    sectors of the first 2 GB ([sector_overflow] is about the others). *)
Theorem sector_read (latency : Z) (ignore_writes : bool) (d : BlkDev) (i : nat) (lba : Z)
    (x0 : BlkInputs) (waits reads : list BlkInputs) (k : nat) :
  idle d -> (i < 8)%nat -> (i < length (disk d))%nat -> fs_open (the_disk d i) = true ->
  Forall is_byte (fs_data (the_disk d i)) -> 3 <= latency ->
  in_rd x0 = 2 ^ Z.of_nat i -> in_wr x0 = 0 -> in_lba x0 !! i = Some (Some lba) ->
  0 <= lba < 2 ^ 22 ->
  Forall booted (x0 :: waits ++ reads) ->
  Z.of_nat (length waits) = latency - 2 -> length reads = (2 * k + 1)%nat -> (k < 256)%nat ->
  exists d', run latency ignore_writes (x0 :: waits ++ reads) d = Some d' /\
    word_on_pins i (Z.of_nat k)
      (file_word (fs_data (the_disk d i)) (512 * lba + 2 * Z.of_nat k)) d'.
Proof.
  intros Hd Hi Hl Ho Hb HL Hrd Hwr Hlba Hrange Hx Hn Hk Hk256.
  rewrite app_comm_cons in *. apply Forall_app in Hx as [Hx Hxr].
  destruct (read_started latency ignore_writes d i lba (512 * lba) x0 waits (fs_data (the_disk d i))
              (512 * lba)) as (d1 & Hr1 & Hd1); try done.
  { by apply lba_offset. }
  { rewrite seek_start by (done || lia). split_and!; try done; [lia|by left]. }
  destruct (run_words latency ignore_writes reads i (fs_data (the_disk d i))
              (512 * lba) 0 d1 k) as (d2 & Hr2 & Hd2); try done; [lia|].
  exists d2. rewrite run_app, Hr1. by split.
Qed.

Definition test_disk (bytes : list Z) : FStream := MkFStream bytes 0 true true false.

Definition test_device (bytes : list Z) : BlkDev :=
  MkBlkDev (MkBlkPins [None] 0 0 0 0 0 [None] 0 0 None 0) 0 [0] false false 0 (-1)
    (replicate kVDNUM false) [test_disk bytes].

Lemma test_device_idle bytes : idle (test_device bytes).
Proof. by repeat split. Qed.

Lemma sector_read_witness :
  exists d', run 3 false
      (MkBlkInputs 5000 1 0 [Some 0] [None] :: [MkBlkInputs 5001 1 0 [Some 0] [None]]
         ++ [MkBlkInputs 5002 0 0 [Some 0] [None]]) (test_device [18; 52]) = Some d' /\
    word_on_pins 0 0 (18 * 256 + 52) d'.
Proof.
  apply (sector_read 3 false (test_device [18; 52]) 0 0 (MkBlkInputs 5000 1 0 [Some 0] [None])
           [MkBlkInputs 5001 1 0 [Some 0] [None]] [MkBlkInputs 5002 0 0 [Some 0] [None]] 0);
    try reflexivity; try (cbn; lia).
  - apply test_device_idle.
  - repeat constructor; cbn; lia.
  - repeat constructor; vm_compute; discriminate.
Defined.

(** The sectors beyond 2 GB.  From an idle device a request for a sector whose offset is
    not an [int] makes the product in the call to [seekg] overflow: the behaviour of the
    program is undefined. *)
Theorem sector_overflow (latency : Z) (ignore_writes is_read : bool) (d : BlkDev) (i : nat) (lba : Z) (x0 : BlkInputs) :
  idle d -> (i < 8)%nat -> booted x0 ->
  in_rd x0 = (if is_read then 2 ^ Z.of_nat i else 0) -> in_wr x0 = (if is_read then 0 else 2 ^ Z.of_nat i) ->
  in_lba x0 !! i = Some (Some lba) ->
  ~ (- 2 ^ 22 <= s32 lba < 2 ^ 22) -> run latency ignore_writes [x0] d = None.
Proof.
  intros Hd Hi Ht Hrd Hwr Hlba Hbig. cbn [run].
  rewrite tick_overflow with (i := i) (lba := lba) (is_read := is_read); try done; [unfold kVDNUM; lia|].
  destruct (checked_int _) as [v|] eqn:E; [|done]. apply checked_int_Some in E as [-> E].
  unfold kBLKSZ in E. change (2 ^ 31) with 2147483648 in E. change (2 ^ 22) with 4194304 in Hbig. lia.
Qed.

Lemma sector_overflow_witness :
  run 3 false [MkBlkInputs 5000 1 0 [Some 4194304] [None]] (test_device [18; 52]) = None.
Proof.
  apply (sector_overflow 3 false true (test_device [18; 52]) 0 4194304 (MkBlkInputs 5000 1 0 [Some 4194304] [None]));
    try reflexivity; try (cbn; lia).
  - apply test_device_idle.
  - vm_compute. discriminate.
  - intros [_ H]. by vm_compute in H.
Defined.

(** C7: a sector write stores the sector.  After the latency, each tick takes one
    word from the core, at the word address on the pins - the number of words
    taken so far, so a core that answers [sd_buff_addr] from its buffer sends the
    buffer - and after [k] words the image is the old one with these words, high
    byte first, at the sector's offset (unless writes are ignored). *)
Theorem sector_write (latency : Z) (ignore_writes : bool) (d : BlkDev) (i : nat) (lba : Z)
    (x0 : BlkInputs) (waits writes : list BlkInputs) (words : list Z) (f : FStream) :
  idle d -> (i < 8)%nat -> disk d !! i = Some f -> fs_open f = true -> fs_writable f = true ->
  3 <= latency ->
  in_rd x0 = 0 -> in_wr x0 = 2 ^ Z.of_nat i -> in_lba x0 !! i = Some (Some lba) ->
  0 <= lba < 2 ^ 22 -> (Z.to_nat (512 * lba) <= length (fs_data f))%nat ->
  Forall booted (x0 :: waits ++ writes) -> Z.of_nat (length waits) = latency - 2 ->
  (length words <= 256)%nat ->
  Forall2 (fun x w => in_din x !! i = Some (Some w)) writes words ->
  exists d', run latency ignore_writes (x0 :: waits ++ writes) d = Some d' /\
    sd_buff_addr (pins d') =
      (if Z.of_nat (length words) <? 256 then Z.of_nat (length words) else 0) /\
    fs_data (the_disk d' i) =
      (if ignore_writes then fs_data f
       else splice (Z.to_nat (512 * lba)) (sector_bytes words) (fs_data f)).
Proof.
  intros Hd Hi Hf Ho Hwf HL Hrd Hwr Hlba Hrange Hp Hx Hn Hk Hdin.
  rewrite app_comm_cons in *. apply Forall_app in Hx as [Hx Hxw].
  apply Forall_cons in Hx as [Hx0 Hx].
  assert (Hl : (i < length (disk d))%nat) by by eapply lookup_lt_Some.
  set (p := Z.to_nat (512 * lba)) in *.
  destruct (tick_start latency ignore_writes x0 i d lba (512 * lba) false)
    as (d1 & Hr1 & Hb1 & Ha1 & Hrd1 & Hwr1 & Hc1 & Had1 & Hdk1); try done; [unfold kVDNUM; lia|by apply lba_offset|].
  destruct (run_wait latency ignore_writes waits i d1 (Nat.pred (length waits)))
    as (d2 & Hr2 & Hb2 & Ha2 & Hw2 & Hc2 & Hdk2 & Hl2 & Hrd2 & Hwr2 & Had2);
    try done; [unfold kVDNUM; lia | lia | lia |].
  assert (Hl1 : length (disk d1) = length (disk d)) by (rewrite Hdk1; apply length_insert).
  assert (Hfile : the_disk d2 i = MkFStream (fs_data f) (Z.of_nat p) true true false).
  { rewrite Hdk2. unfold the_disk at 1. rewrite Hdk1, list_lookup_insert_eq by done.
    unfold the_disk. rewrite Hf. cbn [from_option id].
    rewrite seek_start, Hwf by (done || lia). f_equal. lia. }
  destruct (run_writes latency ignore_writes writes i p (fs_data f) [] words d2)
    as (d3 & Hr3 & Hd3); try done.
  { unfold write_state. rewrite Hfile. cbn [length sector_bytes map concat].
    split_and!; try done; try congruence; rewrite ?Hl2, ?Hl1, ?Hrd2, ?Hwr2, ?Hc2; try (done || lia).
    - by rewrite Had2, Had1.
    - destruct ignore_writes; [done|]. unfold fs_writing.
      rewrite splice_nil by done. by rewrite Nat.add_0_r. }
  exists d3. split; [by cbn; rewrite Hr1; cbn; rewrite run_app, Hr2|].
  destruct Hd3 as (_ & _ & _ & _ & _ & _ & Had & Hdata). split; [exact Had|].
  destruct ignore_writes; [done|]. by rewrite Hdata.
Qed.

Lemma sector_write_witness :
  exists d', run 3 false
      (MkBlkInputs 5000 0 1 [Some 0] [None] :: [MkBlkInputs 5001 0 1 [Some 0] [None]]
         ++ [MkBlkInputs 5002 0 0 [Some 0] [Some 4660]]) (test_device [1; 2; 3]) = Some d' /\
    sd_buff_addr (pins d') = 1 /\ fs_data (the_disk d' 0) = [18; 52; 3].
Proof.
  apply (sector_write 3 false (test_device [1; 2; 3]) 0 0 (MkBlkInputs 5000 0 1 [Some 0] [None])
           [MkBlkInputs 5001 0 1 [Some 0] [None]] [MkBlkInputs 5002 0 0 [Some 0] [Some 4660]]
           [4660] (test_disk [1; 2; 3])); try reflexivity; try (cbn; lia).
  - apply test_device_idle.
  - repeat constructor; vm_compute; discriminate.
  - repeat constructor.
Defined.

(** The time of the main loop is narrowed to an [int], so in the upper half of
    every 2^32 ticks the device does nothing: no mount, no data, no acknowledge. *)
Theorem device_frozen (latency : Z) (ignore_writes : bool) (main_time : Z) (d : BlkDev) :
  2 ^ 31 <= main_time `mod` 2 ^ 32 ->
  BlkDev_tick latency ignore_writes main_time d = Some d.
Proof.
  intros Ht. unfold BlkDev_tick, BlkDev_BeforeEval, swrap.
  change (2 ^ (32 - 1)) with 2147483648.
  change (2 ^ 32) with 4294967296 in *. change (2 ^ 31) with 2147483648 in Ht.
  destruct (Z.ltb_spec ((main_time + 2147483648) `mod` 4294967296 - 2147483648) 2000); [done|].
  exfalso. div_lia.
Qed.

Lemma device_frozen_witness :
  BlkDev_tick 16000 false (2 ^ 31) (test_device []) = Some (test_device []).
Proof. apply (device_frozen 16000 false (2 ^ 31)). vm_compute. discriminate. Defined.

(** ** The mount pulse *)

Section Mounting.
Context (latency : Z) (ignore_writes : bool).

#[local] Abbreviation slot := (slot latency ignore_writes).
#[local] Abbreviation slots := (slots latency ignore_writes).

Fixpoint run_times (times : list Z) (d : BlkDev) : option BlkDev :=
  match times with
  | [] => Some d
  | t :: times => d ← BlkDev_tick latency ignore_writes t d; run_times times d
  end.

Lemma run_times_slots times d :
  Forall (fun t => 2000 <= s32 t) times ->
  run_times times d = slots (concat (replicate (length times) (seq 0 kVDNUM))) d.
Proof.
  intros Ht. revert d. induction Ht as [|t times Ht _ IH]; intros d; [done|].
  cbn [length replicate concat run_times]. rewrite slots_app.
  unfold BlkDev_tick at 1, BlkDev_BeforeEval. destruct (Z.ltb_spec (s32 t) 2000); [lia|].
  destruct (slots (seq 0 kVDNUM) d); [apply IH | done].
Qed.

(** No transfer and no request; nothing left to mount. *)
Definition quiet (d : BlkDev) : Prop :=
  current_disk d = -1 /\ reading d = false /\ writing d = false /\
  mountQueue d = replicate kVDNUM false /\ sd_rd (pins d) = 0 /\ sd_wr (pins d) = 0.

(** Only the delay counter is at work. *)
Lemma slot_no_request j d :
  current_disk d = -1 -> bitcheck (sd_rd (pins (mount_phase j d))) j = false ->
  bitcheck (sd_wr (pins (mount_phase j d))) j = false ->
  current_disk (mount_phase j d) = -1 ->
  slot j d = Some (mount_phase j d).
Proof.
  intros Hc Hrd Hwr Hc'. unfold BlockDevice.slot, serve, start_phase, ack_phase.
  assert (Hn : (-1 =? Z.of_nat j) = false) by (apply Z.eqb_neq; lia).
  rewrite Hc, Hn. cbn [mbind option_bind]. rewrite Hrd, Hwr, andb_false_r.
  cbn [mbind option_bind]. by rewrite Hc', Hn.
Qed.

Lemma slot_quiet j d :
  quiet d -> (j < kVDNUM)%nat ->
  slot j d = Some
    (if (ack_delay d =? 1) && bitcheck (img_mounted (pins d)) j
     then set_pin img_mounted (bitclear (img_mounted (pins d)) j) d
     else if 0 <? ack_delay d then d <| ack_delay := ack_delay d - 1 |> else d).
Proof.
  intros (Hc & Hr & Hw & Hm & Hrd & Hwr) Hj.
  assert (Hmp : mount_phase j d =
    (if (ack_delay d =? 1) && bitcheck (img_mounted (pins d)) j
     then set_pin img_mounted (bitclear (img_mounted (pins d)) j) d
     else if 0 <? ack_delay d then d <| ack_delay := ack_delay d - 1 |> else d)).
  { unfold mount_phase. by rewrite Hr, Hw, Hm, lookup_replicate_2 by done. }
  rewrite <- Hmp. apply slot_no_request; rewrite ?Hmp; [done | | |];
    (destruct ((ack_delay d =? 1) && _); [|destruct (0 <? ack_delay d)]);
    cbn; by rewrite ?Hrd, ?Hwr, ?bitcheck_0.
Qed.

(** The pulse of drive [i] is on, for [a] more visits. *)
Definition mounting (i : nat) (size a : Z) (d : BlkDev) : Prop :=
  quiet d /\ img_mounted (pins d) = 2 ^ Z.of_nat i /\ img_size (pins d) = size /\ ack_delay d = a.

Lemma slots_mounting i size a js d :
  mounting i size a d -> Forall (fun j => (j < kVDNUM)%nat) js -> Z.of_nat (length js) < a ->
  exists d', slots js d = Some d' /\ mounting i size (a - Z.of_nat (length js)) d'.
Proof.
  intros Hd Hjs. revert a d Hd. induction Hjs as [|j js Hj Hjs IH]; intros a d Hd Ha.
  - exists d. split; [done|]. cbn [length]. change (Z.of_nat 0) with 0. by rewrite Z.sub_0_r.
  - cbn [length] in Ha. destruct Hd as (Hq & Hm & Hs & Had). cbn [BlockDevice.slots].
    rewrite slot_quiet by done. rewrite Hm, Had.
    replace (a =? 1) with false by (symmetry; apply Z.eqb_neq; lia). cbn [andb].
    destruct (Z.ltb_spec 0 a); [|lia]. cbn [mbind option_bind].
    destruct (IH (a - 1) (d <| ack_delay := a - 1 |>)) as (d' & Hrun & Hd'); [by split | lia |].
    exists d'. split; [exact Hrun|]. cbn [length].
    by replace (a - Z.of_nat (S (length js))) with (a - 1 - Z.of_nat (length js)) by lia.
Qed.

Lemma slots_unmounted js d :
  quiet d -> img_mounted (pins d) = 0 -> Forall (fun j => (j < kVDNUM)%nat) js ->
  exists d', slots js d = Some d' /\ img_mounted (pins d') = 0.
Proof.
  intros Hq Hm Hjs. revert d Hq Hm. induction Hjs as [|j js Hj Hjs IH]; intros d Hq Hm.
  - by exists d.
  - cbn [BlockDevice.slots]. rewrite slot_quiet, Hm, bitcheck_0, andb_false_r by done.
    cbn [mbind option_bind]. destruct (0 <? ack_delay d); by apply IH.
Qed.

(** One image is queued and nothing else is going on. *)
Definition queued (i : nat) (d : BlkDev) : Prop :=
  current_disk d = -1 /\ reading d = false /\ writing d = false /\
  mountQueue d = <[i := true]> (replicate kVDNUM false) /\
  sd_rd (pins d) = 0 /\ sd_wr (pins d) = 0 /\ img_mounted (pins d) = 0 /\ ack_delay d = 0.

Lemma slot_before i j d :
  queued i d -> (j < kVDNUM)%nat -> i <> j -> slot j d = Some d.
Proof.
  intros (Hc & Hr & Hw & Hm & Hrd & Hwr & Him & Ha) Hj Hij.
  assert (Hmp : mount_phase j d = d).
  { unfold mount_phase. rewrite Hr, Hw, Hm, Ha.
    by rewrite list_lookup_insert_ne, lookup_replicate_2 by done. }
  rewrite slot_no_request; rewrite ?Hmp, ?Hrd, ?Hwr; done.
Qed.

Lemma slot_mounts i d size :
  queued i d -> (i < 8)%nat -> disk_size d !! i = Some size -> 0 <= size < 2 ^ 64 ->
  exists d', slot i d = Some d' /\ mounting i size 1200 d'.
Proof.
  intros (Hc & Hr & Hw & Hm & Hrd & Hwr & Him & Ha) Hi Hs Hsz.
  exists (mount_phase i d).
  assert (Hm' : mounting i size 1200 (mount_phase i d)).
  { unfold mount_phase. rewrite Hr, Hw, Hm, Him.
    rewrite list_lookup_insert_eq by (rewrite length_replicate; unfold kVDNUM; lia).
    cbn [negb andb from_option id Z.eqb]. unfold mounting, quiet. cbn -[replicate].
    rewrite Hm, Hs, uwrap_small by done. split_and!; try done.
  - rewrite list_insert_insert_eq. apply list_insert_id, lookup_replicate_2. unfold kVDNUM. lia.
  - rewrite Him. unfold bitset. rewrite Z.lor_0_l, Z.shiftl_1_l. apply uwrap_small.
    split; [lia | apply Z.pow_lt_mono_r; lia]. }
  split; [|done]. destruct Hm' as ((Hc' & _ & _ & _ & Hrd' & Hwr') & _).
  apply slot_no_request; rewrite ?Hrd', ?Hwr'; done.
Qed.

Lemma bitclear_pow i : (i < 8)%nat -> bitclear (2 ^ Z.of_nat i) i = 0.
Proof. intros Hi. unfold bitclear. rewrite Z.shiftl_1_l, Z.land_lnot_diag. done. Qed.

Lemma Forall_visits n : Forall (fun j => (j < kVDNUM)%nat) (concat (replicate n (seq 0 kVDNUM))).
Proof.
  induction n as [|n IH]; [constructor|]. apply Forall_app. split; [|done].
  apply Forall_forall. intros j Hj%elem_of_seq. lia.
Qed.

Lemma length_visits n : length (concat (replicate n (seq 0 kVDNUM))) = (10 * n)%nat.
Proof. induction n as [|n IH]; [done|]. cbn [replicate concat]. rewrite length_app, IH. cbn. lia. Qed.

(** The visits of [n] ticks, from the visit of drive [i] in the first on. *)
Lemma visits_split i n :
  (i < kVDNUM)%nat ->
  exists js, concat (replicate (S n) (seq 0 kVDNUM)) = seq 0 i ++ i :: js /\
    length js = (10 * n + 9 - i)%nat /\ Forall (fun j => (j < kVDNUM)%nat) js.
Proof.
  intros Hi. exists (seq (S i) (kVDNUM - S i) ++ concat (replicate n (seq 0 kVDNUM))).
  split; [|split].
  - cbn [replicate concat].
    rewrite (seq_drives i Hi) at 1. by rewrite <- (assoc_L (++)).
  - rewrite length_app, length_seq, length_visits. unfold kVDNUM in *. lia.
  - apply Forall_app. split; [|apply Forall_visits].
    apply Forall_forall. intros j Hj%elem_of_seq. lia.
Qed.

Lemma slots_before i js d :
  queued i d -> Forall (fun j => (j < kVDNUM)%nat) js -> i ∉ js -> slots js d = Some d.
Proof.
  intros Hd Hjs. induction Hjs as [|j js Hj Hjs IH]; intros Hi; [done|].
  apply not_elem_of_cons in Hi as [Hij Hi]. cbn [BlockDevice.slots].
  rewrite (slot_before i) by done. by apply IH.
Qed.

Lemma mount_visits i d size n :
  queued i d -> (i < 8)%nat -> disk_size d !! i = Some size -> 0 <= size < 2 ^ 64 ->
  (n < 120)%nat ->
  exists d', slots (concat (replicate (S n) (seq 0 kVDNUM))) d = Some d' /\
    mounting i size (1191 + Z.of_nat i - 10 * Z.of_nat n) d'.
Proof.
  intros Hd Hi Hs Hsz Hn. assert (Hi10 : (i < kVDNUM)%nat) by (unfold kVDNUM; lia).
  destruct (visits_split i n Hi10) as (js & -> & Hl & Hjs).
  rewrite slots_app, (slots_before i (seq 0 i) d Hd).
  2: { apply Forall_forall. intros j Hj%elem_of_seq. lia. }
  2: { rewrite elem_of_seq. lia. }
  cbn [mbind option_bind BlockDevice.slots].
  destruct (slot_mounts i d size) as (d1 & -> & Hd1); try done. cbn [mbind option_bind].
  destruct (slots_mounting i size 1200 js d1) as (d2 & -> & Hd2); [done | done | lia |].
  exists d2. split; [done|]. rewrite Hl in Hd2.
  by replace (1191 + Z.of_nat i - 10 * Z.of_nat n)
    with (1200 - Z.of_nat (10 * n + 9 - i)) by lia.
Qed.

End Mounting.

(** Mounting.  A queued image is announced on the first tick - its bit alone in
    [img_mounted], its size in [img_size] - and the pulse lasts 120 ticks: it is
    cleared in the next one, since the delay of 1200 counts down once per drive
    and meets 1 exactly at the drive that set the bit (ten divides 1200). *)
Theorem mount_pulse (latency : Z) (ignore_writes : bool) (d : BlkDev) (i : nat) (size : Z)
    (times : list Z) :
  queued i d -> (i < 8)%nat -> disk_size d !! i = Some size -> 0 <= size < 2 ^ 64 ->
  Forall (fun t => 2000 <= s32 t) times -> (1 <= length times <= 121)%nat ->
  exists d', run_times latency ignore_writes times d = Some d' /\
    (if (length times <=? 120)%nat
     then img_mounted (pins d') = 2 ^ Z.of_nat i /\ img_size (pins d') = size
     else img_mounted (pins d') = 0).
Proof.
  intros Hd Hi Hs Hsz Ht Hn. rewrite run_times_slots by done.
  destruct (length times) as [|n]; [lia|].
  destruct (Nat.leb_spec (S n) 120).
  - destruct (mount_visits latency ignore_writes i d size n) as (d1 & -> & Hd1); try done.
    exists d1. split; [done|]. by destruct Hd1 as (_ & H1 & H2 & _).
  - assert (n = 120)%nat as -> by lia.
    destruct (mount_visits latency ignore_writes i d size 119) as (d1 & Hr1 & Hd1); try done; [lia|].
    assert (Hi10 : (i < kVDNUM)%nat) by (unfold kVDNUM; lia).
    assert (Hrep : concat (replicate 121 (seq 0 kVDNUM)) =
              concat (replicate 120 (seq 0 kVDNUM)) ++ seq 0 kVDNUM) by reflexivity.
    rewrite Hrep, slots_app, Hr1. cbn [mbind option_bind].
    destruct (visits_split i 0 Hi10) as (js & Hsplit & _ & Hjs).
    cbn [replicate concat] in Hsplit. rewrite app_nil_r in Hsplit. rewrite Hsplit, slots_app.
    destruct (slots_mounting latency ignore_writes i size (1 + Z.of_nat i) (seq 0 i) d1)
      as (d2 & -> & Hd2).
    { by replace (1 + Z.of_nat i) with (1191 + Z.of_nat i - 10 * Z.of_nat 119) by lia. }
    { apply Forall_forall. intros j Hj%elem_of_seq. lia. }
    { rewrite length_seq. lia. }
    rewrite length_seq in Hd2. destruct Hd2 as (Hq & Hm & _ & Ha).
    cbn [mbind option_bind slots]. rewrite slot_quiet by done.
    rewrite Ha, Hm, bitcheck_pow, bool_decide_eq_true_2 by done.
    replace (1 + Z.of_nat i - Z.of_nat i =? 1) with true by (symmetry; apply Z.eqb_eq; lia).
    cbn [andb mbind option_bind]. rewrite bitclear_pow by done.
    apply slots_unmounted; done.
Qed.

Lemma mount_pulse_witness :
  exists d', run_times 16000 false [5000] (MountDisk (Some ([1; 2; 3], true)) 0
      (SimBlockDevice_new (MkBlkDev (pins (test_device [])) 0 [0] false false 0 0 [] [FStream_closed])))
      = Some d' /\ img_mounted (pins d') = 1 /\ img_size (pins d') = 3.
Proof.
  apply (mount_pulse 16000 false (MountDisk (Some ([1; 2; 3], true)) 0
      (SimBlockDevice_new (MkBlkDev (pins (test_device [])) 0 [0] false false 0 0 [] [FStream_closed])))
      0 3 [5000]); try reflexivity.
  - by repeat split.
  - lia.
  - lia.
  - repeat constructor. vm_compute. discriminate.
  - cbn. lia.
Defined.

(** ** Attached drives

    The harness attaches the pins of the first three drives; the other pointers
    are null.  While the core only requests these drives, no null pointer is read. *)

Section Attached.
Context (latency : Z) (ignore_writes : bool).

(** The sectors whose offset is an [int]: those of the first 2 GB, and those before them. *)
Definition lba_fits (lba : Z) : Prop := - 2 ^ 22 <= s32 lba < 2 ^ 22.

Lemma lba_fits_offset lba : lba_fits lba -> exists offset, checked_int (s32 lba * kBLKSZ) = Some offset.
Proof.
  unfold lba_fits, kBLKSZ. change (2 ^ 22) with 4194304. intros Hl. unfold checked_int, INT_MAX.
  rewrite (proj2 (Z.leb_le _ _)), (proj2 (Z.leb_le _ _)) by lia. by eexists.
Qed.

Definition attached_pins (n : nat) (p : BlkPins) : Prop :=
  (forall i, (i < n)%nat ->
     (exists lba, mjoin (sd_lba p !! i) = Some lba /\ lba_fits lba) /\ is_Some (mjoin (sd_buff_din p !! i))) /\
  0 <= sd_rd p < 2 ^ Z.of_nat n /\ 0 <= sd_wr p < 2 ^ Z.of_nat n.

Definition attached (n : nat) (d : BlkDev) : Prop :=
  attached_pins n (pins d) /\ -1 <= current_disk d < Z.of_nat n.

Lemma bitcheck_below n v i :
  0 <= v < 2 ^ Z.of_nat n -> bitcheck v i = true -> (i < n)%nat.
Proof.
  intros Hv Hb. unfold bitcheck in Hb. apply negb_true_iff, Z.eqb_neq in Hb.
  destruct (decide (i < n)%nat) as [|Hn]; [done|]. exfalso. apply Hb.
  apply Z.bits_inj'. intros k Hk. rewrite Z.land_spec, Z.bits_0, Z.shiftl_1_l.
  rewrite Z.pow2_bits_eqb by lia. destruct (Z.eqb_spec (Z.of_nat i) k) as [<-|]; [|by rewrite andb_false_r].
  rewrite <- (Z.mod_small v (2 ^ Z.of_nat n)) by done. by rewrite Z.mod_pow2_bits_high by lia.
Qed.

(** The pins the core drives, and the drive in use. *)
Definition same_request (d d' : BlkDev) : Prop :=
  sd_lba (pins d') = sd_lba (pins d) /\ sd_buff_din (pins d') = sd_buff_din (pins d) /\
  sd_rd (pins d') = sd_rd (pins d) /\ sd_wr (pins d') = sd_wr (pins d).

Lemma same_request_attached n d d' :
  same_request d d' -> current_disk d' = current_disk d -> attached n d -> attached n d'.
Proof. intros (H1 & H2 & H3 & H4) Hc [Hp Hd]. unfold attached, attached_pins. by rewrite H1, H2, H3, H4, Hc. Qed.

#[local] Ltac same_pins := eexists; split; [reflexivity | repeat split].

Lemma serve_total n i d :
  attached n d -> exists d', serve ignore_writes i d = Some d' /\
    same_request d d' /\ current_disk d' = current_disk d.
Proof.
  intros [(Hp & _) Hc]. unfold serve.
  destruct (Z.eqb_spec (current_disk d) (Z.of_nat i)) as [Hi|]; [|by exists d].
  destruct (ack_delay d =? 1); [|same_pins].
  destruct (_ && (bytecnt d <? kBLKSZ)).
  { destruct (fs_get (the_disk d i)) as [b1 f1]. destruct (fs_get f1) as [b2 f2]. same_pins. }
  destruct (writing d && _).
  { destruct (Hp i) as [_ [word ->]]; [lia|]. cbn [mbind option_bind].
    eexists. split; [reflexivity|]. destruct ignore_writes; repeat split. }
  destruct (writing d); [same_pins|].
  unfold set_pin. cbn [reading bytecnt modify_field].
  destruct (reading d); [|same_pins]. destruct (kBLKSZ <=? bytecnt d); same_pins.
Qed.

Lemma mount_same i d : same_request d (mount_phase i d) /\ current_disk (mount_phase i d) = current_disk d.
Proof.
  unfold mount_phase. destruct (_ && (img_mounted (pins d) =? 0)); [repeat split|].
  destruct (_ && bitcheck _ i); [repeat split|]. destruct (_ && (0 <? ack_delay d)); repeat split.
Qed.

Lemma start_total n i d :
  attached n d -> exists d', start_phase latency i d = Some d' /\ attached n d'.
Proof.
  intros [(Hp & Hrd & Hwr) Hc]. unfold start_phase.
  destruct (_ && (bitcheck (sd_rd (pins d)) i || _)) eqn:Hreq.
  2: { by exists d. }
  apply andb_true_iff in Hreq as [_ Hreq].
  assert (Hi : (i < n)%nat)
    by (apply orb_true_iff in Hreq as [Hb|Hb]; by apply (bitcheck_below n) in Hb).
  cbn [ack_delay pins modify_field]. destruct (ack_delay d =? 0).
  2: { eexists. split; [reflexivity|]. split; [exact (conj Hp (conj Hrd Hwr))|cbn; lia]. }
  destruct (Hp i Hi) as [(lba & Hlba & Hfit) _]. rewrite Hlba. cbn [mbind option_bind].
  destruct (lba_fits_offset lba Hfit) as [offset ->]. cbn [mbind option_bind].
  eexists. split; [reflexivity|].
  destruct (bitcheck (sd_rd (pins d)) i); cbn [pins modify_field];
    destruct (bitcheck (sd_wr (pins d)) i);
    (split; [exact (conj Hp (conj Hrd Hwr))|cbn; lia]).
Qed.

Lemma ack_attached n i d : attached n d -> attached n (ack_phase i d).
Proof.
  intros [Hp Hc]. unfold ack_phase. destruct (current_disk d =? Z.of_nat i); [|done].
  repeat (case_match; cbn [ack_delay reading writing current_disk pins modify_field set_pin] in *);
    (split; [exact Hp|cbn; lia]).
Qed.

Lemma slot_total n i d :
  attached n d -> exists d', slot latency ignore_writes i d = Some d' /\ attached n d'.
Proof.
  intros Ha. unfold slot. destruct (serve_total n i d Ha) as (d1 & -> & Hs & Hc).
  cbn [mbind option_bind]. destruct (mount_same i d1) as [Hs2 Hc2].
  assert (Ha2 : attached n (mount_phase i d1))
    by (apply (same_request_attached n d1); [done|done|by apply (same_request_attached n d)]).
  destruct (start_total n i _ Ha2) as (d3 & -> & Ha3). cbn [mbind option_bind].
  eexists. split; [reflexivity|]. by apply ack_attached.
Qed.

Lemma tick_total n main_time d :
  attached n d -> exists d', BlkDev_tick latency ignore_writes main_time d = Some d' /\ attached n d'.
Proof.
  intros Ha. unfold BlkDev_tick, BlkDev_BeforeEval.
  destruct (s32 main_time <? 2000); [by exists d|].
  generalize (seq 0 kVDNUM). intros drives. revert d Ha.
  induction drives as [|i drives IH]; intros d Ha; [by exists d|].
  destruct (slot_total n i d Ha) as (d1 & H1 & Ha1). cbn [slots]. rewrite H1.
  cbn [mbind option_bind]. by apply IH.
Qed.

End Attached.
