(* ===== verification/Bus.v ===== *)
(** * The download bus of the simulation (sim/sim_bus.cpp, sim/sim_bus.h)

    [SimBus] plays the HPS side of the ioctl interface: files queued with
    [QueueDownload] are streamed into the core, one 16-bit word per call of
    [BeforeEval] in which the core does not hold [ioctl_wait].

    A file opened for reading is its bytes, the read position and the
    end-of-file flag, which only a read past the end sets.  What the file system
    holds is the parameter [fs].

    [ioctl_next_addr] is an [int]: it counts on as an integer here, and the step
    of the harness checks that the count is one of [int] after each call.
    [bus_total] bounds what the queued files can add to it. *)

From stdpp Require Import pretty.
From S2P Require Import Prelude Console.

Record CFile := MkCFile { cf_data : list Z; cf_pos : nat; cf_eof : bool }.

#[export] Instance eta_CFile : Eta CFile := fun f => MkCFile (cf_data f) (cf_pos f) (cf_eof f).

Definition EOF : Z := -1.

Definition fgetc (f : CFile) : Z * CFile :=
  if cf_eof f then (EOF, f)
  else match cf_data f !! cf_pos f with
       | Some b => (b, f <| cf_pos := S (cf_pos f) |>)
       | None => (EOF, f <| cf_eof := true |>)
       end.

Record SimBus_DownloadChunk := MkChunk { ch_file : cstr; ch_index : Z; ch_restart : bool }.

(** The constructor with three arguments. *)
Definition SimBus_DownloadChunk_new3 (file : cstr) (index : Z) (restart : bool)
    : SimBus_DownloadChunk := MkChunk file index restart.

(** The constructor with two arguments builds a temporary chunk and discards it:
    the members of the object itself are default-initialised, so its [index] and
    [restart] are whatever the memory holds. *)
Definition SimBus_DownloadChunk_new2 (memory : Z * bool) (file : cstr) (index : Z)
    : SimBus_DownloadChunk :=
  let _ := SimBus_DownloadChunk_new3 file index false in
  MkChunk [] memory.1 memory.2.

Record SimBus := MkSimBus {
  ioctl_addr : Z;
  ioctl_index : Z;
  ioctl_wait : Z;
  ioctl_download : Z;
  ioctl_wr : Z;
  ioctl_dout : Z;
  ioctl_file : option CFile;
  ioctl_next_addr : Z;
  nextword : Z;
  downloadQueue : list SimBus_DownloadChunk;
  currentDownload : SimBus_DownloadChunk;
  bus_log : Console }.

#[export] Instance eta_SimBus : Eta SimBus := fun b =>
  MkSimBus (ioctl_addr b) (ioctl_index b) (ioctl_wait b) (ioctl_download b) (ioctl_wr b)
    (ioctl_dout b) (ioctl_file b) (ioctl_next_addr b) (nextword b) (downloadQueue b)
    (currentDownload b) (bus_log b).

Definition QueueDownload2 (memory : Z * bool) (file : cstr) (index : Z) (b : SimBus) : SimBus :=
  b <| downloadQueue := downloadQueue b ++ [SimBus_DownloadChunk_new2 memory file index] |>.

Definition QueueDownload3 (file : cstr) (index : Z) (restart : bool) (b : SimBus) : SimBus :=
  b <| downloadQueue := downloadQueue b ++ [SimBus_DownloadChunk_new3 file index restart] |>.

Definition HasQueue (b : SimBus) : bool := Nat.ltb 0 (length (downloadQueue b)).

Section Transfer.

(** The files of the host, by name. *)
Context (fs : cstr -> option (list Z)).

Definition bus_open (b : SimBus) : SimBus :=
  match ioctl_file b, downloadQueue b with
  | None, chunk :: queue =>
      let b := b <| currentDownload := chunk |> <| downloadQueue := queue |> in
      let b := if negb (ch_index chunk =? ioctl_index b) then b <| ioctl_next_addr := 0 |> else b in
      let b := if ch_restart chunk then b <| ioctl_next_addr := 0 |> else b in
      let b := b <| ioctl_addr := u32 (ioctl_next_addr b) |> in
      let b := b <| ioctl_index := u8 (ch_index chunk) |> in
      let b := b <| ioctl_file := option_map (fun data => MkCFile data 0 false)
                                    (fs (ch_file chunk)) |> in
      match ioctl_file b with
      | None => b <| bus_log ::= AddLog (lit "Cannot open file for download "
                                           ++ ch_file chunk ++ LF) |>
      | Some _ => b <| bus_log ::= AddLog (lit "Starting download: " ++ ch_file chunk
                                             ++ lit " " ++ lit (pretty (ioctl_next_addr b))) |>
      end
  | _, _ => b
  end.

Definition bus_transfer (b : SimBus) : SimBus :=
  match ioctl_file b with
  | Some f =>
      if ioctl_wait b =? 0 then
        let b := b <| ioctl_download := 1 |> in
        if cf_eof f then
          let b := b <| ioctl_file := None |> <| ioctl_download := 0 |> <| ioctl_wr := 0 |> in
          let b := b <| ioctl_addr := u32 (ioctl_next_addr b) |> in
          b <| bus_log ::= AddLog (lit "ioctl_download complete "
                                     ++ lit (pretty (ioctl_next_addr b))) |>
        else
          let '(byte1, f) := fgetc f in
          if negb (cf_eof f) then
            let '(byte2, f) := fgetc f in
            let byte2 := if cf_eof f then 0 else byte2 in
            let b := b <| ioctl_file := Some f |> in
            let b := b <| nextword := Z.lor (Z.shiftl byte1 8) (Z.land byte2 255) |> in
            let b := b <| ioctl_addr := u32 (ioctl_next_addr b) |> in
            let b := b <| ioctl_dout := u16 (nextword b) |> <| ioctl_wr := 1 |> in
            b <| ioctl_next_addr := ioctl_next_addr b + 2 |>
          else b <| ioctl_file := Some f |>
      else b
  | None => b <| ioctl_download := 0 |> <| ioctl_wr := 0 |>
  end.

Definition Bus_BeforeEval (b : SimBus) : SimBus := bus_transfer (bus_open b).

(** A run of the main loop: [ioctl_wait] as the core drives it before each call. *)
Definition bus_run (waits : list Z) (b : SimBus) : SimBus :=
  fold_left (fun b w => Bus_BeforeEval (b <| ioctl_wait := w |>)) waits b.

End Transfer.

(** ** One download *)

Definition bus_word (data : list Z) (k : nat) : Z :=
  default 0 (data !! (2 * k)%nat) * 256 + default 0 (data !! (2 * k + 1)%nat).

Definition word_count (data : list Z) : nat := (length data + 1) / 2.

(** The word [k] is on the pins. *)
Definition presents (data : list Z) (base : Z) (k : nat) (b : SimBus) : Prop :=
  ioctl_download b = 1 /\ ioctl_wr b = 1 /\ ioctl_addr b = base + 2 * Z.of_nat k /\
  ioctl_dout b = bus_word data k.

(** The file is open and [z] words of it have been taken. *)
Definition transferred (data : list Z) (base : Z) (z : nat) (b : SimBus) : Prop :=
  (exists f, ioctl_file b = Some f /\ cf_data f = data /\
     if (2 * z <=? length data)%nat then cf_eof f = false /\ cf_pos f = (2 * z)%nat
     else cf_eof f = true) /\
  ioctl_next_addr b = base + 2 * Z.of_nat z /\
  (z <> 0%nat -> presents data base (z - 1) b).

(** The end of the file has been met and the last word is still on the pins. *)
Definition at_end (data : list Z) (base : Z) (b : SimBus) : Prop :=
  (exists f, ioctl_file b = Some f /\ cf_eof f = true) /\
  ioctl_next_addr b = base + 2 * Z.of_nat (word_count data) /\
  (data <> [] -> presents data base (word_count data - 1) b).

Definition closed (data : list Z) (base : Z) (b : SimBus) : Prop :=
  ioctl_file b = None /\ ioctl_download b = 0 /\ ioctl_wr b = 0 /\
  ioctl_addr b = base + 2 * Z.of_nat (word_count data).

Section Download.
Context (fs : cstr -> option (list Z)) (data : list Z) (base : Z).
Context (Hdata : Forall (fun b => 0 <= b < 256) data).
Context (Hbase : 0 <= base /\ base + Z.of_nat (length data) + 3 < 2 ^ 31).

Lemma bus_word_range k : 0 <= bus_word data k < 2 ^ 16.
Proof.
  assert (H : forall q, 0 <= default 0 (data !! q) < 256).
  { intros q. destruct (data !! q) as [b|] eqn:E; cbn; [|lia].
    exact (Forall_lookup_1 _ _ _ _ Hdata E). }
  unfold bus_word. pose proof (H (2 * k)%nat). pose proof (H (2 * k + 1)%nat).
  change (2 ^ 16) with 65536. lia.
Qed.

Lemma bus_word_bits k b1 :
  data !! (2 * k)%nat = Some b1 ->
  u16 (Z.lor (Z.shiftl b1 8) (Z.land (default 0 (data !! (2 * k + 1)%nat)) 255)) = bus_word data k.
Proof.
  intros H1. rewrite land_255, lor_shiftl_add by (done || by apply Z.mod_pos_bound).
  pose proof (bus_word_range k). unfold bus_word in *. rewrite H1 in *. cbn [from_option id] in *.
  rewrite (Z.mod_small _ 256); [by apply uwrap_small|].
  destruct (data !! (2 * k + 1)%nat) as [b2|] eqn:E; cbn; [|lia].
  exact (Forall_lookup_1 _ _ _ _ Hdata E).
Qed.

Lemma bus_open_busy b f : ioctl_file b = Some f -> bus_open fs b = b.
Proof. intros Hf. unfold bus_open. by rewrite Hf. Qed.

Lemma bus_wait w b f :
  w <> 0 -> ioctl_file b = Some f ->
  Bus_BeforeEval fs (b <| ioctl_wait := w |>) = b <| ioctl_wait := w |>.
Proof.
  intros Hw Hf. unfold Bus_BeforeEval. rewrite (bus_open_busy _ f) by exact Hf.
  unfold bus_transfer. cbn. rewrite Hf. by destruct (Z.eqb_spec w 0).
Qed.

Lemma u32_addr k : 0 <= k -> 2 * k <= Z.of_nat (length data) + 2 -> u32 (base + 2 * k) = base + 2 * k.
Proof.
  intros H1 H2. apply uwrap_small. change (2 ^ 32) with 4294967296.
  change (2 ^ 31) with 2147483648 in Hbase. lia.
Qed.

Lemma word_count_bounds : (2 * word_count data <= length data + 1 <= 2 * word_count data + 1)%nat.
Proof.
  unfold word_count. pose proof (Nat.div_mod (length data + 1) 2).
  pose proof (Nat.mod_upper_bound (length data + 1) 2). lia.
Qed.

(** A call that takes a word. *)
Lemma bus_word_step b z :
  transferred data base z b -> (z < word_count data)%nat ->
  transferred data base (S z) (Bus_BeforeEval fs (b <| ioctl_wait := 0 |>)).
Proof.
  intros ((f & Hf & Hd & Hpos) & Hn & _) Hz. pose proof word_count_bounds.
  destruct (Nat.leb_spec (2 * z) (length data)); [|lia]. destruct Hpos as [He Hp].
  unfold Bus_BeforeEval. rewrite (bus_open_busy _ f) by exact Hf.
  unfold bus_transfer. cbn [ioctl_file ioctl_wait modify_field]. rewrite Hf. cbn [Z.eqb].
  rewrite He. unfold fgetc at 1. rewrite He, Hd, Hp.
  destruct (lookup_lt_is_Some_2 data (2 * z)%nat) as [b1 Hb1]; [lia|]. rewrite Hb1.
  cbn [cf_eof modify_field]. rewrite He. cbn [negb].
  unfold fgetc. cbn [cf_eof cf_data cf_pos modify_field]. rewrite He, Hd, ?Hp.
  replace (S (2 * z)) with (2 * z + 1)%nat by lia.
  pose proof (bus_word_bits z b1 Hb1) as Hw.
  assert (Hs : base + 2 * Z.of_nat z + 2 = base + 2 * Z.of_nat (S z)) by lia.
  destruct (data !! (2 * z + 1)%nat) as [b2|] eqn:Hb2; cbn [from_option id] in Hw;
    cbn [cf_eof modify_field]; rewrite ?He; cbn -[Nat.mul Nat.leb u16 u32 s32 Z.mul Z.add Z.of_nat Z.lor Z.land];
    (split; [eexists; split; [reflexivity|]|split; [by cbn -[Z.mul Z.add Z.of_nat]; rewrite Hn|intros _; split_and!; cbn]]);
    rewrite ?Nat.sub_0_r, ?Hn; try done; try (by apply u32_addr; lia).
  - split; [exact Hd|]. apply lookup_lt_Some in Hb2.
    destruct (Nat.leb_spec (2 * S z) (length data)); [|lia]. split; [exact He | cbn; lia].
  - split; [exact Hd|]. apply lookup_ge_None_1 in Hb2.
    destruct (Nat.leb_spec (2 * S z) (length data)); [lia | done].
Qed.

Lemma transferred_wait z b w :
  transferred data base z b -> transferred data base z (b <| ioctl_wait := w |>).
Proof. intros H. exact H. Qed.

Lemma transferred_file z b : transferred data base z b -> exists f, ioctl_file b = Some f.
Proof. intros ((f & Hf & _) & _). by exists f. Qed.

(** After the last word of a file of odd length. *)
Lemma bus_odd_end b :
  Nat.Odd (length data) -> transferred data base (word_count data) b -> at_end data base b.
Proof.
  intros [m Hm] ((f & Hf & _ & He) & Hn & Hp). pose proof word_count_bounds.
  destruct (Nat.leb_spec (2 * word_count data) (length data)); [lia|].
  split; [by exists f|]. split; [done|]. intros _. apply Hp. lia.
Qed.

(** The call that meets the end of a file of even length holds the last word. *)
Lemma bus_even_end b :
  Nat.Even (length data) -> transferred data base (word_count data) b ->
  at_end data base (Bus_BeforeEval fs (b <| ioctl_wait := 0 |>)).
Proof.
  intros [m Hm] ((f & Hf & Hd & He) & Hn & Hp). pose proof word_count_bounds.
  destruct (Nat.leb_spec (2 * word_count data) (length data)); [|lia]. destruct He as [He Hpos].
  unfold Bus_BeforeEval. rewrite (bus_open_busy _ f) by exact Hf.
  unfold bus_transfer. cbn [ioctl_file ioctl_wait modify_field]. rewrite Hf. cbn [Z.eqb].
  rewrite He. unfold fgetc. rewrite He, Hd, Hpos.
  rewrite lookup_ge_None_2 by lia. cbn.
  split; [by eexists|]. split; [exact Hn|]. intros Hne.
  destruct Hp as (_ & H1 & H2 & H3); [|by repeat split].
  destruct data; [done | cbn in *; lia].
Qed.

Lemma bus_close b :
  at_end data base b -> closed data base (Bus_BeforeEval fs (b <| ioctl_wait := 0 |>)).
Proof.
  intros ((f & Hf & He) & Hn & _). unfold Bus_BeforeEval. rewrite (bus_open_busy _ f) by exact Hf.
  unfold bus_transfer. cbn [ioctl_file ioctl_wait modify_field]. rewrite Hf. cbn [Z.eqb].
  rewrite He. unfold closed. cbn -[word_count]. rewrite Hn. pose proof word_count_bounds.
  split_and!; try done. apply u32_addr; lia.
Qed.

Definition zeros (ws : list Z) : nat := length (List.filter (fun w => w =? 0) ws).

Lemma bus_run_snoc ws w b :
  bus_run fs (ws ++ [w]) b = Bus_BeforeEval fs ((bus_run fs ws b) <| ioctl_wait := w |>).
Proof. unfold bus_run. by rewrite fold_left_app. Qed.

Lemma zeros_snoc ws w : zeros (ws ++ [w]) = (zeros ws + (if (w =? 0)%Z then 1 else 0))%nat.
Proof. unfold zeros. rewrite List.filter_app, length_app. cbn. by destruct (w =? 0). Qed.

Lemma bus_run_words ws b :
  transferred data base 0 b -> (zeros ws <= word_count data)%nat ->
  transferred data base (zeros ws) (bus_run fs ws b).
Proof.
  intros Hb. induction ws as [|w ws IH] using rev_ind; [done|].
  rewrite zeros_snoc, bus_run_snoc. intros Hz.
  destruct (Z.eqb_spec w 0) as [->|Hw].
  - rewrite Nat.add_1_r. apply bus_word_step; [apply IH|]; lia.
  - rewrite Nat.add_0_r in *. specialize (IH Hz).
    destruct (transferred_file _ _ IH) as [f Hf]. by rewrite (bus_wait w _ f).
Qed.

(** The calls after the last word: a file of even length takes one more. *)
Definition call_count : nat := (word_count data + if Nat.even (length data) then 2 else 1)%nat.

Lemma bus_run_at_end ws b :
  transferred data base 0 b -> (S (zeros ws) = call_count)%nat -> at_end data base (bus_run fs ws b).
Proof.
  intros Hb. unfold call_count.
  destruct (Nat.even (length data)) eqn:Heven.
  2: { intros Hz. apply bus_odd_end.
       - by rewrite <- Nat.odd_spec, <- Nat.negb_even, Heven.
       - replace (word_count data) with (zeros ws) by lia. apply bus_run_words; [done | lia]. }
  apply Nat.even_spec in Heven.
  induction ws as [|w ws IH] using rev_ind; [cbn; lia|].
  rewrite zeros_snoc, bus_run_snoc. destruct (Z.eqb_spec w 0) as [->|Hw]; intros Hz.
  - apply bus_even_end; [done|]. replace (word_count data) with (zeros ws) by lia.
    apply bus_run_words; [done | lia].
  - rewrite Nat.add_0_r in *. specialize (IH Hz). destruct IH as ((f & Hf & He) & Hrest).
    rewrite (bus_wait w _ f) by done. split; [by exists f | exact Hrest].
Qed.

End Download.

(** The start address of a download. *)
Definition start_addr (chunk : SimBus_DownloadChunk) (b : SimBus) : Z :=
  if ch_restart chunk || negb (ch_index chunk =? ioctl_index b) then 0 else ioctl_next_addr b.

Lemma bus_open_transferred fs b chunk queue data :
  ioctl_file b = None -> downloadQueue b = chunk :: queue -> fs (ch_file chunk) = Some data ->
  transferred data (start_addr chunk b) 0 (bus_open fs b) /\
  bus_open fs (bus_open fs b) = bus_open fs b.
Proof.
  intros Hf Hq Hfs.
  assert (H : transferred data (start_addr chunk b) 0 (bus_open fs b)).
  { unfold bus_open, start_addr. rewrite Hf, Hq, Hfs. cbn.
    destruct (ch_restart chunk), (ch_index chunk =? ioctl_index b); cbn;
      (split; [by eexists|]); (split; [cbn; lia | done]). }
  split; [exact H|]. destruct H as ((f & Hf' & _) & _). by apply (bus_open_busy fs _ f).
Qed.

Lemma bus_run_open fs b ws :
  bus_open fs (bus_open fs b) = bus_open fs b ->
  (forall w, bus_open fs (b <| ioctl_wait := w |>) = (bus_open fs b) <| ioctl_wait := w |>) ->
  (forall w, bus_open fs ((bus_open fs b) <| ioctl_wait := w |>)
             = (bus_open fs (bus_open fs b)) <| ioctl_wait := w |>) ->
  ws <> [] -> bus_run fs ws b = bus_run fs ws (bus_open fs b).
Proof.
  intros H H1 H2 Hw. destruct ws as [|w ws]; [done|]. unfold bus_run. cbn [fold_left].
  unfold Bus_BeforeEval at 2 4. by rewrite H2, H1, H.
Qed.

Lemma bus_open_wait fs b w :
  bus_open fs (b <| ioctl_wait := w |>) = (bus_open fs b) <| ioctl_wait := w |>.
Proof.
  unfold bus_open. cbn. destruct (ioctl_file b); [done|].
  destruct (downloadQueue b) as [|chunk queue]; [done|]. cbn.
  destruct (fs (ch_file chunk)), (ch_restart chunk), (ch_index chunk =? ioctl_index b); done.
Qed.

(** The words, from the call that opens the file on. *)
Lemma download_words (fs : cstr -> option (list Z)) (b : SimBus) (chunk : SimBus_DownloadChunk)
    (queue : list SimBus_DownloadChunk) (data : list Z) (waits : list Z) :
  ioctl_file b = None -> downloadQueue b = chunk :: queue -> fs (ch_file chunk) = Some data ->
  Forall (fun x => 0 <= x < 256) data ->
  0 <= start_addr chunk b /\ start_addr chunk b + Z.of_nat (length data) + 3 < 2 ^ 31 ->
  waits <> [] ->
  ((zeros waits <= word_count data)%nat ->
     transferred data (start_addr chunk b) (zeros waits) (bus_run fs waits b)) /\
  (S (zeros waits) = call_count data -> at_end data (start_addr chunk b) (bus_run fs waits b)).
Proof.
  intros Hf Hq Hfs Hdata Hbase Hne.
  destruct (bus_open_transferred fs b chunk queue data Hf Hq Hfs) as [Ht Hopen].
  rewrite bus_run_open by (done || intros w; apply bus_open_wait).
  split; intros Hz; [by apply bus_run_words | by apply bus_run_at_end].
Qed.

(** C28: a download delivers the file.  From an idle bus with a queued file that
    exists, and however the core drives [ioctl_wait], the [z]-th call that is not
    held presents word [z - 1]: strobe and download flag on, the byte address
    [start + 2 (z - 1)], the two bytes high byte first, and a zero for the missing
    byte of a file of odd length.  The call number [call_count] closes the file
    with the strobe off and the address one past the end. *)
Theorem bus_download (fs : cstr -> option (list Z)) (b : SimBus) (chunk : SimBus_DownloadChunk)
    (queue : list SimBus_DownloadChunk) (data : list Z) (waits : list Z) :
  ioctl_file b = None -> downloadQueue b = chunk :: queue -> fs (ch_file chunk) = Some data ->
  Forall (fun x => 0 <= x < 256) data ->
  0 <= start_addr chunk b /\ start_addr chunk b + Z.of_nat (length data) + 3 < 2 ^ 31 ->
  ((1 <= zeros waits <= word_count data)%nat ->
     presents data (start_addr chunk b) (zeros waits - 1) (bus_run fs waits b)) /\
  (S (zeros waits) = call_count data ->
     closed data (start_addr chunk b) (bus_run fs (waits ++ [0]) b)).
Proof.
  intros Hf Hq Hfs Hdata Hbase. split; intros Hz.
  - destruct (download_words fs b chunk queue data waits) as [Hw _]; try done.
    { intros ->. change (zeros []) with 0%nat in Hz. lia. }
    destruct Hw as (_ & _ & Hp); [lia | apply Hp; lia].
  - rewrite bus_run_snoc. apply bus_close; [done|].
    destruct waits as [|w ws].
    { unfold call_count in Hz. change (zeros []) with 0%nat in Hz.
      pose proof (word_count_bounds data). destruct data as [|x data]; [done|].
      cbn [length] in *. destruct (Nat.even _); lia. }
    destruct (download_words fs b chunk queue data (w :: ws)) as [_ He]; try done. by apply He.
Qed.

Definition test_bus (queue : list SimBus_DownloadChunk) : SimBus :=
  MkSimBus 0 0 0 0 0 0 None 0 0 queue (MkChunk [] (-1) false) Console_zero.

Lemma bus_download_witness :
  presents [1; 2; 3] 0 1
    (bus_run (fun _ => Some [1; 2; 3]) [0; 1; 0] (QueueDownload3 (lit "rom") 1 true (test_bus [])))
  /\ closed [1; 2; 3] 0
    (bus_run (fun _ => Some [1; 2; 3]) ([0; 1; 0] ++ [0]) (QueueDownload3 (lit "rom") 1 true (test_bus []))).
Proof.
  destruct (bus_download (fun _ => Some [1; 2; 3]) (QueueDownload3 (lit "rom") 1 true (test_bus []))
              (MkChunk (lit "rom") 1 true) [] [1; 2; 3] [0; 1; 0]) as [H1 H2];
    try reflexivity.
  - repeat constructor; lia.
  - vm_compute. split; [discriminate | reflexivity].
  - split; [apply H1; vm_compute; lia | apply H2; reflexivity].
Defined.

(** The call after the last word of a file of even, positive length still
    presents that word with the strobe on: the core is offered it twice. *)
Theorem bus_last_word_twice (fs : cstr -> option (list Z)) (b : SimBus)
    (chunk : SimBus_DownloadChunk) (queue : list SimBus_DownloadChunk) (data : list Z)
    (waits : list Z) :
  ioctl_file b = None -> downloadQueue b = chunk :: queue -> fs (ch_file chunk) = Some data ->
  Forall (fun x => 0 <= x < 256) data ->
  0 <= start_addr chunk b /\ start_addr chunk b + Z.of_nat (length data) + 3 < 2 ^ 31 ->
  Nat.Even (length data) -> data <> [] -> zeros waits = word_count data ->
  presents data (start_addr chunk b) (word_count data - 1) (bus_run fs waits b) /\
  presents data (start_addr chunk b) (word_count data - 1) (bus_run fs (waits ++ [0]) b).
Proof.
  intros Hf Hq Hfs Hdata Hbase Heven Hne Hz.
  assert (Hw : (1 <= word_count data)%nat).
  { pose proof (word_count_bounds data). assert (length data <> 0%nat) by by destruct data. lia. }
  destruct (download_words fs b chunk queue data waits) as [HW _]; try done.
  { intros ->. change (zeros []) with 0%nat in Hz. lia. }
  rewrite Hz in HW. specialize (HW ltac:(lia)). split; [apply HW; lia|].
  rewrite bus_run_snoc.
  by destruct (bus_even_end fs data (start_addr chunk b) Hdata Hbase _ Heven HW) as (_ & _ & Hp); auto.
Qed.

Lemma bus_last_word_twice_witness :
  presents [1; 2] 0 0
    (bus_run (fun _ => Some [1; 2]) ([0] ++ [0]) (QueueDownload3 (lit "rom") 1 true (test_bus []))).
Proof.
  apply (bus_last_word_twice (fun _ => Some [1; 2]) (QueueDownload3 (lit "rom") 1 true (test_bus []))
           (MkChunk (lit "rom") 1 true) [] [1; 2] [0]); try reflexivity.
  - repeat constructor; lia.
  - vm_compute. split; [discriminate | reflexivity].
  - by exists 1%nat.
  - discriminate.
Defined.

(** A file that does not exist is dropped: the request leaves the queue, no
    strobe is raised, the log says so, and the bus is ready for the next one. *)
Theorem bus_missing_file (fs : cstr -> option (list Z)) (b : SimBus)
    (chunk : SimBus_DownloadChunk) (queue : list SimBus_DownloadChunk) :
  ioctl_file b = None -> downloadQueue b = chunk :: queue -> fs (ch_file chunk) = None ->
  let b' := Bus_BeforeEval fs b in
  ioctl_file b' = None /\ downloadQueue b' = queue /\ ioctl_wr b' = 0 /\ ioctl_download b' = 0 /\
  bus_log b' = AddLog (lit "Cannot open file for download " ++ ch_file chunk ++ LF) (bus_log b).
Proof.
  intros Hf Hq Hfs. cbn zeta. unfold Bus_BeforeEval, bus_open. rewrite Hf, Hq. cbn.
  destruct (ch_restart chunk), (ch_index chunk =? ioctl_index b); cbn; rewrite Hfs; done.
Qed.

Lemma bus_missing_file_witness :
  downloadQueue (Bus_BeforeEval (fun _ => None) (QueueDownload3 (lit "rom") 1 true (test_bus []))) = [].
Proof.
  apply (bus_missing_file (fun _ => None) (QueueDownload3 (lit "rom") 1 true (test_bus []))
           (MkChunk (lit "rom") 1 true) []); reflexivity.
Defined.

(** The two-argument [QueueDownload] loses its arguments: whatever file and
    index are given, and whatever files exist under a non-empty name, the next
    call tries to open the empty name and transfers nothing. *)
Theorem QueueDownload2_loses_file (fs : cstr -> option (list Z)) (memory : Z * bool)
    (file : cstr) (index : Z) (b : SimBus) :
  ioctl_file b = None -> downloadQueue b = [] -> fs [] = None ->
  let b' := Bus_BeforeEval fs (QueueDownload2 memory file index b) in
  ioctl_file b' = None /\ ioctl_download b' = 0 /\ ioctl_wr b' = 0 /\
  ch_file (currentDownload b') = [].
Proof.
  intros Hf Hq Hfs. cbn zeta. unfold QueueDownload2, Bus_BeforeEval, bus_open. cbn.
  rewrite Hf, Hq. cbn.
  destruct memory.2, (memory.1 =? ioctl_index b); cbn; rewrite Hfs; done.
Qed.

Lemma QueueDownload2_loses_file_witness :
  ioctl_file (Bus_BeforeEval (fun name => match name with [] => None | _ => Some [1; 2] end)
    (QueueDownload2 (7, true) (lit "rom") 1 (test_bus []))) = None.
Proof.
  apply (QueueDownload2_loses_file
           (fun name => match name with [] => None | _ => Some [1; 2] end) (7, true) (lit "rom") 1
           (test_bus [])); reflexivity.
Defined.

(** The bus only adds lines to the log. *)
Lemma Bus_log fs b : log_only (bus_log b) (bus_log (Bus_BeforeEval fs b)).
Proof.
  assert (Ho : log_only (bus_log b) (bus_log (bus_open fs b))).
  { unfold bus_open. destruct (ioctl_file b); [apply log_only_refl|].
    destruct (downloadQueue b) as [|chunk queue]; [apply log_only_refl|].
    cbn -[AddLog]. destruct (fs (ch_file chunk)), (ch_restart chunk), (ch_index chunk =? ioctl_index b);
      apply AddLog_log_only. }
  eapply log_only_trans; [exact Ho|]. unfold Bus_BeforeEval, bus_transfer.
  generalize (bus_open fs b). clear. intros b. destruct (ioctl_file b) as [f|]; [|apply log_only_refl].
  destruct (ioctl_wait b =? 0); [|apply log_only_refl].
  destruct (cf_eof f); [apply AddLog_log_only|].
  destruct (fgetc f) as [b1 f1]. destruct (negb (cf_eof f1)); [|apply log_only_refl].
  destruct (fgetc f1) as [b2 f2]. apply log_only_refl.
Qed.

(** Two buses that differ in the log only. *)
Definition bus_eq (b b' : SimBus) : Prop :=
  b <| bus_log := Console_zero |> = b' <| bus_log := Console_zero |>.

#[export] Instance bus_eq_equivalence : Equivalence bus_eq.
Proof. split; unfold bus_eq; [done | by intros b b' -> | by intros b b' b'' -> ->]. Qed.

Lemma bus_eq_log b b' : bus_eq b b' -> b' = b <| bus_log := bus_log b' |>.
Proof.
  destruct b, b'. unfold bus_eq. cbn. intros H. by injection H as -> -> -> -> -> -> -> -> -> -> ->.
Qed.

Lemma bus_open_log fs b l : bus_eq (bus_open fs (b <| bus_log := l |>)) (bus_open fs b).
Proof.
  destruct b as [a1 a2 a3 a4 a5 a6 [f|] a8 a9 [|chunk queue] c lg]; [done..|].
  unfold bus_open, bus_eq. cbn -[AddLog u32 u8 lit].
  by destruct (fs (ch_file chunk)), (ch_restart chunk), (ch_index chunk =? a2).
Qed.

Lemma bus_transfer_log b l : bus_eq (bus_transfer (b <| bus_log := l |>)) (bus_transfer b).
Proof.
  destruct b as [a1 a2 a3 a4 a5 a6 [f|] a8 a9 q c lg]; [|done].
  unfold bus_transfer, bus_eq. cbn -[AddLog u32 u16 s32 lit fgetc].
  destruct (a3 =? 0); [|done]. destruct (cf_eof f); [done|].
  destruct (fgetc f) as [b1 f1]. destruct (negb (cf_eof f1)); [|done]. by destruct (fgetc f1).
Qed.

#[export] Instance Bus_BeforeEval_proper fs : Proper (bus_eq ==> bus_eq) (Bus_BeforeEval fs).
Proof.
  intros b b' ->%bus_eq_log. generalize (bus_log b'). clear b'. intros l. symmetry.
  unfold Bus_BeforeEval.
  assert (Ho := bus_open_log fs b l). symmetry in Ho. apply bus_eq_log in Ho. rewrite Ho.
  apply bus_transfer_log.
Qed.

#[export] Instance presents_proper data base k : Proper (bus_eq ==> iff) (presents data base k).
Proof. by intros b b' ->%bus_eq_log. Qed.

(** ** A core that never waits *)

Lemma zeros_replicate j : zeros (replicate j 0) = j.
Proof. unfold zeros. induction j as [|j IH]; [done|]. cbn. by rewrite IH. Qed.

Lemma BeforeEval_queue fs b :
  downloadQueue (Bus_BeforeEval fs b) =
  match ioctl_file b with None => tl (downloadQueue b) | Some _ => downloadQueue b end.
Proof.
  assert (Ht : forall b, downloadQueue (bus_transfer b) = downloadQueue b).
  { clear. intros b. unfold bus_transfer. destruct (ioctl_file b) as [f|]; [|done].
    destruct (ioctl_wait b =? 0); [|done]. destruct (cf_eof f); [done|].
    destruct (fgetc f) as [b1 f1]. destruct (negb (cf_eof f1)); [|done]. by destruct (fgetc f1). }
  unfold Bus_BeforeEval. rewrite Ht. unfold bus_open.
  destruct (ioctl_file b); [done|]. destruct (downloadQueue b) as [|chunk queue] eqn:Hq; [done|].
  cbn -[AddLog]. by destruct (fs (ch_file chunk)), (ch_restart chunk), (ch_index chunk =? ioctl_index b).
Qed.

Lemma bus_run_S fs j b :
  bus_run fs (replicate (S j) 0) b = Bus_BeforeEval fs ((bus_run fs (replicate j 0) b) <| ioctl_wait := 0 |>).
Proof. rewrite replicate_S_end. apply bus_run_snoc. Qed.

Lemma bus_run_queue fs b chunk j :
  ioctl_file b = None -> downloadQueue b = [chunk] ->
  (1 <= j)%nat -> downloadQueue (bus_run fs (replicate j 0) b) = [].
Proof.
  intros Hf Hq. induction j as [|j IH]; intros Hj; [lia|]. rewrite bus_run_S, BeforeEval_queue.
  destruct j as [|j].
  { change (bus_run fs (replicate 0 0) b) with b. cbn [ioctl_file downloadQueue modify_field].
    by rewrite Hf, Hq. } cbn [ioctl_file downloadQueue modify_field].
  rewrite IH by lia. by case_match.
Qed.

Lemma closed_stays fs data base b :
  closed data base b -> downloadQueue b = [] ->
  closed data base (Bus_BeforeEval fs (b <| ioctl_wait := 0 |>)).
Proof.
  intros (H1 & H2 & H3 & H4) Hq. unfold Bus_BeforeEval, bus_open.
  cbn [ioctl_file downloadQueue modify_field]. rewrite H1, Hq.
  unfold bus_transfer. cbn [ioctl_file modify_field]. by rewrite H1.
Qed.

Lemma bus_free_run fs b chunk data j :
  ioctl_file b = None -> downloadQueue b = [chunk] -> fs (ch_file chunk) = Some data ->
  Forall (fun x => 0 <= x < 256) data ->
  0 <= start_addr chunk b /\ start_addr chunk b + Z.of_nat (length data) + 3 < 2 ^ 31 ->
  (1 <= j)%nat ->
  ((j < call_count data)%nat -> data <> [] ->
    presents data (start_addr chunk b) (Nat.min (j - 1) (word_count data - 1)) (bus_run fs (replicate j 0) b)) /\
  ((call_count data <= j)%nat -> closed data (start_addr chunk b) (bus_run fs (replicate j 0) b)).
Proof.
  intros Hf Hq Hfs Hdata Hbase Hj.
  assert (Hrun := fun j Hne => download_words fs b chunk [] data (replicate j 0) Hf Hq Hfs Hdata Hbase Hne).
  split.
  - intros Hlt Hdne. destruct (Hrun j) as [H1 H2]; [destruct j; [lia|discriminate]|].
    rewrite zeros_replicate in H1, H2. destruct (Nat.leb_spec j (word_count data)) as [Hle|Hgt].
    + destruct (H1 Hle) as (_ & _ & Hp). rewrite Nat.min_l by lia. apply Hp. lia.
    + rewrite Nat.min_r by lia. apply H2; [|done]. unfold call_count in *. destruct (Nat.even _); lia.
  - induction 1 as [|m Hm IH].
    + assert (Hc : (2 <= call_count data)%nat).
      { unfold call_count. pose proof (word_count_bounds data).
        destruct (Nat.even (length data)) eqn:E; [lia|]. destruct data; [done|]. cbn [length] in *. lia. }
      destruct (call_count data) as [|n] eqn:E; [lia|]. rewrite bus_run_S. apply bus_close; [done|].
      destruct (Hrun n) as [_ H]; [destruct n; [lia|discriminate]|]. apply H. by rewrite zeros_replicate.
    + destruct (decide (m = 0%nat)) as [->|Hm0].
      { unfold call_count in Hm. destruct (Nat.even (length data)); lia. }
      rewrite bus_run_S. apply closed_stays; [apply IH; lia|].
      apply (bus_run_queue fs b chunk); lia || done.
Qed.

(** ** The range of the address

    What is open and queued can add no more to the address than its bytes and
    one byte for a file of odd length. *)

Definition file_rest (f : CFile) : Z :=
  if cf_eof f then 0 else Z.of_nat (length (cf_data f) - cf_pos f) + 1.

Definition chunk_rest (fs : cstr -> option (list Z)) (chunk : SimBus_DownloadChunk) : Z :=
  match fs (ch_file chunk) with Some data => Z.of_nat (length data) + 1 | None => 0 end.

Definition bus_total (fs : cstr -> option (list Z)) (b : SimBus) : Z :=
  ioctl_next_addr b + match ioctl_file b with Some f => file_rest f | None => 0 end
  + foldr (fun chunk n => chunk_rest fs chunk + n) 0 (downloadQueue b).

(** The address cannot leave [int] before the queue is empty. *)
Definition bus_room (fs : cstr -> option (list Z)) (b : SimBus) : Prop :=
  0 <= ioctl_next_addr b /\ bus_total fs b <= INT_MAX.

Lemma file_rest_nonneg f : 0 <= file_rest f.
Proof. unfold file_rest. destruct (cf_eof f); lia. Qed.

Lemma chunks_rest_nonneg fs l : 0 <= foldr (fun chunk n => chunk_rest fs chunk + n) 0 l.
Proof.
  induction l as [|chunk l IH]; [done|]. cbn [foldr]. unfold chunk_rest at 1. destruct (fs _); lia.
Qed.

Lemma bus_room_addr fs b : bus_room fs b -> 0 <= ioctl_next_addr b <= INT_MAX.
Proof.
  intros [H1 H2]. split; [done|]. unfold bus_total in H2.
  pose proof (chunks_rest_nonneg fs (downloadQueue b)).
  destruct (ioctl_file b) as [f|]; [pose proof (file_rest_nonneg f)|]; lia.
Qed.

Lemma open_room fs b : bus_room fs b -> bus_room fs (bus_open fs b).
Proof.
  intros [H1 H2]. unfold bus_open. destruct (ioctl_file b) eqn:Hf; [by split|].
  destruct (downloadQueue b) as [|chunk queue] eqn:Hq; [by split|].
  unfold bus_total in H2. rewrite Hf, Hq in H2. cbn [foldr] in H2. unfold chunk_rest at 1 in H2.
  unfold bus_room, bus_total. cbn -[AddLog lit foldr].
  destruct (negb (ch_index chunk =? ioctl_index b)), (ch_restart chunk), (fs (ch_file chunk)) as [data|] eqn:Hd;
    cbn -[AddLog lit foldr Z.of_nat] in *; unfold file_rest; cbn [cf_eof cf_data cf_pos]; rewrite ?Hf; lia.
Qed.

Lemma fgetc_rest f : cf_eof f = false ->
  let f' := (fgetc f).2 in
  if cf_eof f' then file_rest f' = 0 /\ 1 <= file_rest f else file_rest f' + 1 = file_rest f.
Proof.
  intros He. cbn zeta. unfold fgetc. rewrite He. destruct (cf_data f !! cf_pos f) as [b|] eqn:Hb; cbn [snd cf_eof modify_field].
  - unfold file_rest. cbn. rewrite He. apply lookup_lt_Some in Hb. lia.
  - unfold file_rest. cbn. rewrite He. lia.
Qed.

Lemma transfer_room fs b : bus_room fs b -> bus_room fs (bus_transfer b).
Proof.
  intros [H1 H2]. unfold bus_transfer. unfold bus_total in H2.
  destruct (ioctl_file b) as [f|] eqn:Hf; [|unfold bus_room, bus_total; cbn; rewrite Hf; by split].
  destruct (ioctl_wait b =? 0); [|unfold bus_room, bus_total; rewrite Hf; by split].
  pose proof (file_rest_nonneg f) as Hn.
  destruct (cf_eof f) eqn:He.
  { unfold bus_room, bus_total. cbn -[AddLog lit]. split; [done|lia]. }
  pose proof (fgetc_rest f He) as Hg. destruct (fgetc f) as [b1 f1]. cbn [snd] in Hg.
  destruct (cf_eof f1) eqn:He1; cbn [negb].
  { unfold bus_room, bus_total. cbn. split; [done|lia]. }
  pose proof (fgetc_rest f1 He1) as Hg1. destruct (fgetc f1) as [b2 f2]. cbn [snd] in Hg1.
  unfold bus_room, bus_total. cbn -[u32 u16 Z.lor Z.land Z.shiftl foldr].
  destruct (cf_eof f2); lia.
Qed.

(** A call leaves the address in the range of [int]. *)
Lemma BeforeEval_room fs b : bus_room fs b -> bus_room fs (Bus_BeforeEval fs b).
Proof. intros Hb. by apply transfer_room, open_room. Qed.

Lemma bus_room_queue fs b : 
  ioctl_next_addr b = 0 -> ioctl_file b = None ->
  foldr (fun chunk n => chunk_rest fs chunk + n) 0 (downloadQueue b) <= INT_MAX -> bus_room fs b.
Proof. intros H1 H2 H3. unfold bus_room, bus_total. rewrite H1, H2. lia. Qed.
