(* ===== verification/SoftUart.v ===== *)
(** * The soft UART of the simulation (sim/sim_serial.cpp, sim/sim_serial.h)

    [SoftUART] sends and receives serial frames at the level of the wire, one
    tick per system clock.  The receiver and the transmitter are state machines
    with a down counter; both are modelled whole, one definition per tick. *)

From S2P Require Import Prelude.

Inductive RxState := RX_IDLE | RX_START | RX_DATA | RX_PARITY | RX_STOP.
Inductive TxState := TX_IDLE | TX_START | TX_DATA | TX_PARITY | TX_STOP.

Record SoftUART := MkSoftUART {
  m_clocks_per_baud : Z;
  m_data_bits : Z;
  m_stop_bits : Z;
  m_parity_en : bool;
  m_parity_even : bool;
  m_rx_state : RxState;
  m_rx_counter : Z;
  m_rx_bit_index : Z;
  m_rx_shift : Z;
  m_rx_byte : Z;
  m_rx_ready : bool;
  m_rx_frame_error : bool;
  m_rx_last_pin : bool;
  m_tx_state : TxState;
  m_tx_counter : Z;
  m_tx_bit_index : Z;
  m_tx_shift : Z;
  m_tx_pin : bool;
  m_tx_stop_count : Z;
  m_tx_queue : list Z }.

#[export] Instance eta_SoftUART : Eta SoftUART := fun u =>
  MkSoftUART (m_clocks_per_baud u) (m_data_bits u) (m_stop_bits u) (m_parity_en u)
    (m_parity_even u) (m_rx_state u) (m_rx_counter u) (m_rx_bit_index u) (m_rx_shift u)
    (m_rx_byte u) (m_rx_ready u) (m_rx_frame_error u) (m_rx_last_pin u) (m_tx_state u)
    (m_tx_counter u) (m_tx_bit_index u) (m_tx_shift u) (m_tx_pin u) (m_tx_stop_count u)
    (m_tx_queue u).

Definition SoftUART_new : SoftUART :=
  MkSoftUART 3385 8 1 false false RX_IDLE 0 0 0 0 false false true TX_IDLE 0 0 0 true 0 [].

Definition Configure (clocks_per_baud data_bits stop_bits : Z) (parity_en parity_even : bool)
    (u : SoftUART) : SoftUART :=
  u <| m_clocks_per_baud := if 0 <? clocks_per_baud then clocks_per_baud else 1 |>
    <| m_data_bits := data_bits |> <| m_stop_bits := stop_bits |>
    <| m_parity_en := parity_en |> <| m_parity_even := parity_even |>.

Definition ConfigureFromSetup (setup_reg : Z) (u : SoftUART) : SoftUART :=
  let cpb := Z.land setup_reg 0xFFFFFF in
  let even := Z.testbit setup_reg 24 in
  let par_en := Z.testbit setup_reg 26 in
  let two_st := Z.testbit setup_reg 27 in
  let dbits_code := Z.land (Z.shiftr setup_reg 28) 3 in
  let dbits := 8 - dbits_code in
  Configure cpb dbits (if two_st then 2 else 1) par_en even u.

Definition RxTick (txd_pin : bool) (u : SoftUART) : SoftUART :=
  let u := u <| m_rx_ready := false |> in
  let u :=
    match m_rx_state u with
    | RX_IDLE =>
        if m_rx_last_pin u && negb txd_pin then
          u <| m_rx_state := RX_START |> <| m_rx_counter := m_clocks_per_baud u / 2 |>
            <| m_rx_shift := 0 |> <| m_rx_bit_index := 0 |> <| m_rx_frame_error := false |>
        else u
    | RX_START =>
        if 0 <? m_rx_counter u then u <| m_rx_counter := m_rx_counter u - 1 |>
        else if txd_pin then u <| m_rx_state := RX_IDLE |>
        else u <| m_rx_state := RX_DATA |> <| m_rx_counter := m_clocks_per_baud u |>
    | RX_DATA =>
        if 0 <? m_rx_counter u then u <| m_rx_counter := m_rx_counter u - 1 |>
        else
          let u := if txd_pin
                   then u <| m_rx_shift := u8 (Z.lor (m_rx_shift u) (Z.shiftl 1 (m_rx_bit_index u))) |>
                   else u in
          let u := u <| m_rx_bit_index := m_rx_bit_index u + 1 |> in
          let u := if m_data_bits u <=? m_rx_bit_index u
                   then u <| m_rx_state := if m_parity_en u then RX_PARITY else RX_STOP |>
                   else u in
          u <| m_rx_counter := m_clocks_per_baud u |>
    | RX_PARITY =>
        if 0 <? m_rx_counter u then u <| m_rx_counter := m_rx_counter u - 1 |>
        else u <| m_rx_state := RX_STOP |> <| m_rx_counter := m_clocks_per_baud u |>
    | RX_STOP =>
        if 0 <? m_rx_counter u then u <| m_rx_counter := m_rx_counter u - 1 |>
        else
          let u := if negb txd_pin then u <| m_rx_frame_error := true |> else u in
          u <| m_rx_byte := m_rx_shift u |> <| m_rx_ready := true |> <| m_rx_state := RX_IDLE |>
    end in
  u <| m_rx_last_pin := txd_pin |>.

Definition TxEnqueue (byte : Z) (u : SoftUART) : SoftUART :=
  u <| m_tx_queue := m_tx_queue u ++ [byte] |>.

(** The loop that counts the ones of the data bits. *)
Fixpoint count_ones (n : nat) (v : Z) : Z :=
  match n with
  | O => 0
  | S n' => count_ones n' v + (if Z.testbit v (Z.of_nat n') then 1 else 0)
  end.

(** One tick; the pin driven is [m_tx_pin] of the result. *)
Definition TxTick (u : SoftUART) : SoftUART :=
  match m_tx_state u with
  | TX_IDLE =>
      match m_tx_queue u with
      | byte :: queue =>
          u <| m_tx_shift := byte |> <| m_tx_queue := queue |> <| m_tx_state := TX_START |>
            <| m_tx_counter := m_clocks_per_baud u |> <| m_tx_pin := false |>
            <| m_tx_bit_index := 0 |>
      | [] => u
      end
  | TX_START =>
      if 0 <? m_tx_counter u then u <| m_tx_counter := m_tx_counter u - 1 |>
      else
        u <| m_tx_state := TX_DATA |>
          <| m_tx_pin := Z.testbit (m_tx_shift u) (m_tx_bit_index u) |>
          <| m_tx_counter := m_clocks_per_baud u |>
  | TX_DATA =>
      if 0 <? m_tx_counter u then u <| m_tx_counter := m_tx_counter u - 1 |>
      else
        let u := u <| m_tx_bit_index := m_tx_bit_index u + 1 |> in
        let u :=
          if m_data_bits u <=? m_tx_bit_index u then
            if m_parity_en u then
              let ones := count_ones (Z.to_nat (m_data_bits u)) (m_tx_shift u) in
              u <| m_tx_state := TX_PARITY |>
                <| m_tx_pin := if m_parity_even u then Z.odd ones else negb (Z.odd ones) |>
            else
              u <| m_tx_state := TX_STOP |> <| m_tx_pin := true |> <| m_tx_stop_count := 0 |>
          else u <| m_tx_pin := Z.testbit (m_tx_shift u) (m_tx_bit_index u) |> in
        u <| m_tx_counter := m_clocks_per_baud u |>
  | TX_PARITY =>
      if 0 <? m_tx_counter u then u <| m_tx_counter := m_tx_counter u - 1 |>
      else
        u <| m_tx_state := TX_STOP |> <| m_tx_pin := true |> <| m_tx_stop_count := 0 |>
          <| m_tx_counter := m_clocks_per_baud u |>
  | TX_STOP =>
      if 0 <? m_tx_counter u then u <| m_tx_counter := m_tx_counter u - 1 |>
      else
        let u := u <| m_tx_stop_count := m_tx_stop_count u + 1 |> in
        if m_stop_bits u <=? m_tx_stop_count u
        then u <| m_tx_state := TX_IDLE |> <| m_tx_pin := true |>
        else u <| m_tx_counter := m_clocks_per_baud u |>
  end.

Definition TxBusy (u : SoftUART) : bool :=
  match m_tx_state u, m_tx_queue u with TX_IDLE, [] => false | _, _ => true end.

(** ** Runs

    [rx_run w t n u] feeds the levels [w t .. w (t + n - 1)] to the receiver; the
    bytes received come with their frame error flag.  [tx_run n u] is the list
    of the levels driven in [n] ticks. *)

Fixpoint rx_run (w : nat -> bool) (t n : nat) (u : SoftUART) : SoftUART * list (Z * bool) :=
  match n with
  | O => (u, [])
  | S n' =>
      let u := RxTick (w t) u in
      let '(u', out) := rx_run w (S t) n' u in
      (u', (if m_rx_ready u then [(m_rx_byte u, m_rx_frame_error u)] else []) ++ out)
  end.

Fixpoint tx_run (n : nat) (u : SoftUART) : SoftUART * list bool :=
  match n with
  | O => (u, [])
  | S n' =>
      let u := TxTick u in
      let '(u', pins) := tx_run n' u in (u', m_tx_pin u :: pins)
  end.

Lemma rx_run_add w t n m u :
  rx_run w t (n + m) u =
  let '(u1, o1) := rx_run w t n u in
  let '(u2, o2) := rx_run w (t + n) m u1 in (u2, o1 ++ o2).
Proof.
  revert t u. induction n as [|n IH]; intros t u; cbn.
  - rewrite Nat.add_0_r. by destruct (rx_run w t m u).
  - rewrite IH. destruct (rx_run w (S t) n _) as [u1 o1].
    rewrite <- Nat.add_succ_comm. destruct (rx_run w (S t + n) m u1) as [u2 o2].
    by rewrite (assoc_L (++)).
Qed.

Lemma tx_run_add n m u :
  tx_run (n + m) u =
  let '(u1, o1) := tx_run n u in let '(u2, o2) := tx_run m u1 in (u2, o1 ++ o2).
Proof.
  revert u. induction n as [|n IH]; intros u; cbn; [by destruct (tx_run m u)|].
  rewrite IH. destruct (tx_run n _) as [u1 o1]. by destruct (tx_run m u1).
Qed.

(** ** The receiver *)

(** [u] with its receiver in the given state. *)
Definition rx_set (st : RxState) (counter index shift byte : Z) (ready ferr last : bool)
    (u : SoftUART) : SoftUART :=
  u <| m_rx_state := st |> <| m_rx_counter := counter |> <| m_rx_bit_index := index |>
    <| m_rx_shift := shift |> <| m_rx_byte := byte |> <| m_rx_ready := ready |>
    <| m_rx_frame_error := ferr |> <| m_rx_last_pin := last |>.

Lemma rx_set_self u :
  u = rx_set (m_rx_state u) (m_rx_counter u) (m_rx_bit_index u) (m_rx_shift u) (m_rx_byte u)
        (m_rx_ready u) (m_rx_frame_error u) (m_rx_last_pin u) u.
Proof. by destruct u. Qed.

Lemma rx_tick_count st c i s b f l p u :
  st <> RX_IDLE -> 0 < c ->
  RxTick p (rx_set st c i s b false f l u) = rx_set st (c - 1) i s b false f p u.
Proof.
  intros Hst Hc. unfold RxTick. destruct st; [done| | | |]; cbn -[Z.sub Z.ltb];
    (destruct (Z.ltb_spec 0 c); [reflexivity | lia]).
Qed.

(** A wait: the levels in between do not matter. *)
Lemma rx_skip w t n k st i s b f l u :
  st <> RX_IDLE ->
  exists l', rx_run w t n (rx_set st (Z.of_nat (n + k)) i s b false f l u) =
    (rx_set st (Z.of_nat k) i s b false f l' u, []).
Proof.
  intros Hst. revert t l. induction n as [|n IH]; intros t l; [by exists l|].
  cbn [rx_run]. rewrite rx_tick_count by (done || lia).
  replace (Z.of_nat (S n + k) - 1) with (Z.of_nat (n + k)) by lia.
  destruct (IH (S t) (w t)) as [l' ->]. by exists l'.
Qed.

(** A wait and the tick that follows it. *)
Lemma rx_wait_tick w t C st i s b f l u :
  st <> RX_IDLE ->
  exists l', rx_run w t (S C) (rx_set st (Z.of_nat C) i s b false f l u) =
    let u' := RxTick (w (t + C)%nat) (rx_set st 0 i s b false f l' u) in
    (u', if m_rx_ready u' then [(m_rx_byte u', m_rx_frame_error u')] else []).
Proof.
  intros Hst. replace (S C) with (C + 1)%nat by lia. rewrite rx_run_add.
  destruct (rx_skip w t C 0 st i s b f l u Hst) as [l' Hs].
  rewrite Nat.add_0_r in Hs. change (Z.of_nat 0) with 0 in Hs.
  exists l'. rewrite Hs. cbn [rx_run]. rewrite app_nil_r. reflexivity.
Qed.

Definition from_bits (l : list bool) : Z := fold_right (fun b v => Z.b2z b + 2 * v) 0 l.

Lemma from_bits_app l k : from_bits (l ++ k) = from_bits l + 2 ^ Z.of_nat (length l) * from_bits k.
Proof.
  induction l as [|b l IH]; [change (from_bits k = 0 + 1 * from_bits k); lia|]. cbn [app from_bits fold_right length].
  fold (from_bits (l ++ k)) (from_bits l). rewrite IH, Nat2Z.inj_succ, Z.pow_succ_r by lia. lia.
Qed.

Lemma from_bits_range l : 0 <= from_bits l < 2 ^ Z.of_nat (length l).
Proof.
  induction l as [|b l IH]; [done|]. cbn [from_bits fold_right length].
  fold (from_bits l). rewrite Nat2Z.inj_succ, Z.pow_succ_r by lia. destruct b; cbn; lia.
Qed.

Lemma from_bits_snoc bits (p : bool) :
  (length bits < 8)%nat ->
  from_bits (bits ++ [p]) =
    if p then u8 (Z.lor (from_bits bits) (Z.shiftl 1 (Z.of_nat (length bits)))) else from_bits bits.
Proof.
  intros Hl. rewrite from_bits_app. pose proof (from_bits_range bits).
  destruct p; [change (from_bits [true]) with 1 | change (from_bits [false]) with 0; lia].
  rewrite Z.lor_comm, lor_shiftl_add by lia.
  rewrite uwrap_small; [lia|]. split; [lia|].
  apply Z.lt_le_trans with (2 ^ Z.of_nat (S (length bits)));
    [rewrite Nat2Z.inj_succ, Z.pow_succ_r by lia; lia | apply Z.pow_le_mono_r; lia].
Qed.

Section Receiver.
Context (C n : nat) (parity : bool).
Context (Hn : (1 <= n <= 8)%nat).

(** The configuration of the receiver: [C] clocks per baud, [n] data bits. *)
Definition rx_config (u : SoftUART) : Prop :=
  m_clocks_per_baud u = Z.of_nat C /\ m_data_bits u = Z.of_nat n /\ m_parity_en u = parity.

Lemma rx_config_set st c i s b r f l u :
  rx_config u -> rx_config (rx_set st c i s b r f l u).
Proof. done. Qed.

Definition after_data : RxState := if parity then RX_PARITY else RX_STOP.

Lemma rx_data_bit w t l u b f (bits : list bool) :
  rx_config u -> (length bits < n)%nat ->
  let p := w (t + C)%nat in
  rx_run w t (S C)
    (rx_set RX_DATA (Z.of_nat C) (Z.of_nat (length bits)) (from_bits bits) b false f l u) =
  (rx_set (if (S (length bits) =? n)%nat then after_data else RX_DATA) (Z.of_nat C)
     (Z.of_nat (S (length bits))) (from_bits (bits ++ [p])) b false f p u, []).
Proof.
  intros (Hcpb & Hbits & Hpar) Hlt p.
  destruct (rx_wait_tick w t C RX_DATA (Z.of_nat (length bits)) (from_bits bits) b f l u)
    as [l' ->]; [done|]. cbn zeta. fold p.
  rewrite from_bits_snoc, Nat2Z.inj_succ by lia. clearbody p. unfold Z.succ.
  destruct u. cbn in Hcpb, Hbits, Hpar. subst. unfold RxTick.
  destruct p; cbn -[Z.add Z.leb from_bits uwrap Z.shiftl Z.lor Z.of_nat Nat.eqb];
    (destruct (Z.leb_spec (Z.of_nat n) (Z.of_nat (length bits) + 1)),
       (Nat.eqb_spec (S (length bits)) n); try lia); try done; by destruct parity.
Qed.

Lemma rx_data_bits w t l u b f (k : nat) (bits : list bool) :
  rx_config u -> (length bits + S k = n)%nat ->
  let samples := map (fun j => w (t + C + j * S C)%nat) (seq 0 (S k)) in
  exists l',
  rx_run w t (S k * S C)
    (rx_set RX_DATA (Z.of_nat C) (Z.of_nat (length bits)) (from_bits bits) b false f l u) =
  (rx_set after_data (Z.of_nat C) (Z.of_nat n) (from_bits (bits ++ samples)) b false f l' u, []).
Proof.
  intros Hu. revert t l bits. induction k as [|k IH]; intros t l bits Hlen samples.
  - exists (w (t + C)%nat). rewrite Nat.mul_1_l, rx_data_bit by (done || lia).
    destruct (Nat.eqb_spec (S (length bits)) n); [|lia]. subst samples. cbn [map seq].
    rewrite Nat.mul_0_l, Nat.add_0_r. do 2 f_equal. lia.
  - change (S (S k) * S C)%nat with (S C + S k * S C)%nat.
    rewrite rx_run_add, rx_data_bit by (done || lia).
    destruct (Nat.eqb_spec (S (length bits)) n); [lia|].
    specialize (IH (t + S C)%nat (w (t + C)%nat) (bits ++ [w (t + C)%nat])).
    rewrite length_app in IH. cbn [length] in IH. rewrite Nat.add_1_r in IH.
    destruct IH as [l' ->]; [lia|]. exists l'. do 2 f_equal.
    rewrite <- (assoc_L (++)). cbn [app]. do 2 f_equal. subst samples.
    change (seq 0 (S (S k))) with (0%nat :: seq 1 (S k)).
    rewrite <- (fmap_S_seq 0 (S k)). cbn [map]. rewrite map_map.
    rewrite Nat.mul_0_l, Nat.add_0_r. f_equal. apply map_ext. intros j. f_equal. lia.
Qed.

(** The sampling times of a frame whose falling edge is at [t]. *)
Definition mid : nat := (C / 2 + 1)%nat.
Definition parity_bits : nat := if parity then 1 else 0.
Definition rx_ticks : nat := (1 + mid + (n + parity_bits + 1) * S C)%nat.
Definition data_samples (w : nat -> bool) (t : nat) : list bool :=
  map (fun j => w (t + mid + S j * S C)%nat) (seq 0 n).
Definition stop_sample (w : nat -> bool) (t : nat) : bool :=
  w (t + mid + (n + parity_bits + 1) * S C)%nat.

Definition rx_idle (last : bool) (u : SoftUART) : Prop :=
  m_rx_state u = RX_IDLE /\ m_rx_last_pin u = last.

Lemma rx_edge (w : nat -> bool) t u :
  rx_config u -> rx_idle true u -> w t = false ->
  RxTick (w t) u =
    rx_set RX_START (Z.of_nat (C / 2)) 0 0 (m_rx_byte u) false false false u.
Proof.
  intros (Hcpb & _ & _) [Hst Hlast] Hw. destruct u. cbn in Hcpb, Hst, Hlast. subst.
  rewrite Hw. unfold RxTick. cbn -[Z.div Nat.div]. unfold rx_set. cbn -[Nat.div].
  by rewrite Nat2Z.inj_div.
Qed.

Lemma rx_start w t u b :
  rx_config u -> w (t + C / 2)%nat = false ->
  rx_run w t mid (rx_set RX_START (Z.of_nat (C / 2)) 0 0 b false false false u) =
  (rx_set RX_DATA (Z.of_nat C) 0 0 b false false false u, []).
Proof.
  intros (Hcpb & _ & _) Hw. unfold mid. rewrite rx_run_add.
  destruct (rx_skip w t (C / 2) 0 RX_START 0 0 b false false u) as [l' Hs]; [done|].
  rewrite Nat.add_0_r in Hs. rewrite Hs. cbn [rx_run]. rewrite Hw.
  destruct u. cbn in Hcpb. subst. reflexivity.
Qed.

(** The parity bit, if there is one, and the stop bit. *)
Lemma rx_finish w t u i s b f l :
  rx_config u ->
  exists u', rx_run w t ((parity_bits + 1) * S C)
      (rx_set after_data (Z.of_nat C) i s b false f l u) =
    (u', [(s, f || negb (w (t + (parity_bits + 1) * S C - 1)%nat))]) /\
    rx_config u' /\ rx_idle (w (t + (parity_bits + 1) * S C - 1)%nat) u'.
Proof.
  intros Hu.
  assert (Hstop : forall t0 l0, exists u',
    rx_run w t0 (S C) (rx_set RX_STOP (Z.of_nat C) i s b false f l0 u) =
      (u', [(s, f || negb (w (t0 + C)%nat))]) /\ rx_config u' /\ rx_idle (w (t0 + C)%nat) u').
  { intros t0 l0.
    destruct (rx_wait_tick w t0 C RX_STOP i s b f l0 u) as [l' ->]; [done|]. cbn zeta. destruct u, (w (t0 + C)%nat); cbn;
      (eexists; split; [by rewrite ?orb_false_r, ?orb_true_r|]; split; [exact Hu | done]). }
  unfold after_data, parity_bits. destruct parity eqn:Hp.
  - replace ((1 + 1) * S C)%nat with (S C + S C)%nat by lia. rewrite rx_run_add.
    destruct (rx_wait_tick w t C RX_PARITY i s b f l u) as [l' ->]; [done|].
    assert (Hq : RxTick (w (t + C)%nat) (rx_set RX_PARITY 0 i s b false f l' u) =
      rx_set RX_STOP (Z.of_nat C) i s b false f (w (t + C)%nat) u).
    { destruct Hu as (Hcpb & _ & _). destruct u. cbn in Hcpb. subst. reflexivity. }
    cbn zeta. rewrite Hq. cbn [m_rx_ready rx_set modify_field].
    destruct (Hstop (t + S C)%nat (w (t + C)%nat)) as (u' & Hr & Hrest).
    rewrite Hr. exists u'. replace (t + (S C + S C) - 1)%nat with (t + S C + C)%nat by lia. done.
  - rewrite Nat.mul_1_l. destruct (Hstop t l) as (u' & Hr & Hrest).
    rewrite Hr. exists u'. replace (t + S C - 1)%nat with (t + C)%nat by lia. done.
Qed.

Lemma rx_frame w t u :
  rx_config u -> rx_idle true u -> w t = false -> w (t + mid)%nat = false ->
  exists u', rx_run w t rx_ticks u =
    (u', [(from_bits (data_samples w t), negb (stop_sample w t))]) /\
    rx_config u' /\ rx_idle (stop_sample w t) u'.
Proof.
  intros Hu Hidle Hw Hmid. unfold rx_ticks.
  replace (1 + mid + (n + parity_bits + 1) * S C)%nat
    with (S (mid + (n * S C + (parity_bits + 1) * S C)))%nat by lia.
  cbn [rx_run]. rewrite (rx_edge w t u) by done. cbn [m_rx_ready rx_set modify_field].
  rewrite rx_run_add. fold (rx_set RX_START (Z.of_nat (C / 2)) 0 0 (m_rx_byte u) false false false u).
  rewrite rx_start; [|done|by rewrite <- Hmid; unfold mid; f_equal; lia].
  rewrite rx_run_add.
  assert (En : S (Nat.pred n) = n) by lia.
  destruct (rx_data_bits w (S t + mid) false u (m_rx_byte u) false (Nat.pred n) [] Hu) as [l' Hbits];
    [cbn [length]; lia|].
  rewrite En in Hbits. change (Z.of_nat (length [])) with 0 in Hbits.
  change (from_bits []) with 0 in Hbits. cbn [app] in Hbits. rewrite Hbits.
  destruct (rx_finish w (S t + mid + n * S C) u (Z.of_nat n)
    (from_bits (map (fun j => w (S t + mid + C + j * S C)%nat) (seq 0 n)))
    (m_rx_byte u) false l' Hu) as (u' & Hf & Hrest).
  rewrite Hf. exists u'. cbn [app orb] in *.
  assert (Hs : w (S t + mid + n * S C + (parity_bits + 1) * S C - 1)%nat = stop_sample w t)
    by (unfold stop_sample; f_equal; lia).
  rewrite Hs in *. split; [|done]. do 3 f_equal. f_equal. unfold data_samples.
  apply map_ext. intros j. f_equal. lia.
Qed.

(** A line that stays high is ignored. *)
Lemma rx_quiet w t k u :
  rx_config u -> rx_idle true u -> (forall j, (j < k)%nat -> w (t + j)%nat = true) ->
  exists u', rx_run w t k u = (u', []) /\ rx_config u' /\ rx_idle true u'.
Proof.
  revert t u. induction k as [|k IH]; intros t u Hu Hi Hw; [by exists u|].
  cbn [rx_run]. assert (Hw0 := Hw 0%nat ltac:(lia)). rewrite Nat.add_0_r in Hw0. rewrite Hw0.
  set (u1 := RxTick true u).
  assert (H1 : rx_config u1 /\ rx_idle true u1 /\ m_rx_ready u1 = false).
  { destruct Hu as (H1 & H2 & H3), Hi as [Hs Hl]. unfold u1, RxTick. cbn. rewrite Hs, Hl. cbn.
    by repeat split. }
  destruct H1 as (Hc1 & Hi1 & Hr1). rewrite Hr1.
  destruct (IH (S t) u1 Hc1 Hi1) as (u' & -> & Hrest).
  { intros j Hj. rewrite <- (Hw (S j)) by lia. f_equal. lia. }
  by exists u'.
Qed.

End Receiver.

(** ** The transmitter *)

Definition tx_set (st : TxState) (counter index shift : Z) (pin : bool) (stops : Z)
    (queue : list Z) (u : SoftUART) : SoftUART :=
  u <| m_tx_state := st |> <| m_tx_counter := counter |> <| m_tx_bit_index := index |>
    <| m_tx_shift := shift |> <| m_tx_pin := pin |> <| m_tx_stop_count := stops |>
    <| m_tx_queue := queue |>.

Lemma tx_set_self u :
  u = tx_set (m_tx_state u) (m_tx_counter u) (m_tx_bit_index u) (m_tx_shift u) (m_tx_pin u)
        (m_tx_stop_count u) (m_tx_queue u) u.
Proof. by destruct u. Qed.

Lemma tx_tick_count st c i s p k q u :
  st <> TX_IDLE -> 0 < c -> TxTick (tx_set st c i s p k q u) = tx_set st (c - 1) i s p k q u.
Proof.
  intros Hst Hc. unfold TxTick. destruct st; [done| | | |]; cbn -[Z.sub Z.ltb];
    (destruct (Z.ltb_spec 0 c); [reflexivity | lia]).
Qed.

Lemma tx_skip n m st i s p k q u :
  st <> TX_IDLE ->
  tx_run n (tx_set st (Z.of_nat (n + m)) i s p k q u) =
    (tx_set st (Z.of_nat m) i s p k q u, replicate n p).
Proof.
  intros Hst. induction n as [|n IH]; [done|].
  cbn [tx_run replicate]. rewrite tx_tick_count by (done || lia).
  replace (Z.of_nat (S n + m) - 1) with (Z.of_nat (n + m)) by lia. by rewrite IH.
Qed.

Lemma tx_wait_tick C st i s p k q u :
  st <> TX_IDLE ->
  tx_run (S C) (tx_set st (Z.of_nat C) i s p k q u) =
    let u' := TxTick (tx_set st 0 i s p k q u) in (u', replicate C p ++ [m_tx_pin u']).
Proof.
  intros Hst. replace (S C) with (C + 1)%nat by lia. rewrite tx_run_add.
  pose proof (tx_skip C 0 st i s p k q u Hst) as Hs.
  rewrite Nat.add_0_r in Hs. change (Z.of_nat 0) with 0 in Hs. rewrite Hs. reflexivity.
Qed.

Section Transmitter.
Context (C n stops : nat) (parity even : bool).
Context (Hstops : (1 <= stops)%nat) (Hn : (1 <= n)%nat).

Definition tx_config (u : SoftUART) : Prop :=
  m_clocks_per_baud u = Z.of_nat C /\ m_data_bits u = Z.of_nat n /\
  m_stop_bits u = Z.of_nat stops /\ m_parity_en u = parity /\ m_parity_even u = even.

Definition tx_idle (queue : list Z) (u : SoftUART) : Prop :=
  m_tx_state u = TX_IDLE /\ m_tx_pin u = true /\ m_tx_queue u = queue.

Definition parity_bit (byte : Z) : bool :=
  if even then Z.odd (count_ones n byte) else negb (Z.odd (count_ones n byte)).

Definition data_bits (byte : Z) : list bool := map (fun j => Z.testbit byte (Z.of_nat j)) (seq 0 n).

(** The levels of a frame, one per bit time of [C + 1] ticks. *)
Definition tx_frame (byte : Z) : list bool :=
  false :: data_bits byte ++ (if parity then [parity_bit byte] else []) ++ replicate stops true.

(** What is driven after the first tick of the level [p] when [l] is still to come. *)
Definition tx_rest (p : bool) (l : list bool) : list bool :=
  replicate C p ++ concat (map (replicate (S C)) l) ++ [true].

Lemma tx_rest_cons p q l : tx_rest p (q :: l) = (replicate C p ++ [q]) ++ tx_rest q l.
Proof. unfold tx_rest. cbn [map concat replicate app]. by rewrite <- !(assoc_L (++)). Qed.

(** From a state that drives [p], the rest of the frame and back to idle. *)
Definition tx_sends (queue : list Z) (p : bool) (l : list bool) (u : SoftUART) : Prop :=
  exists u', tx_run (S C * S (length l)) u = (u', tx_rest p l) /\ tx_config u' /\ tx_idle queue u'.

Lemma tx_sends_step st i s p k queue q l u u' :
  st <> TX_IDLE -> TxTick (tx_set st 0 i s p k queue u) = u' -> m_tx_pin u' = q ->
  tx_sends queue q l u' -> tx_sends queue p (q :: l) (tx_set st (Z.of_nat C) i s p k queue u).
Proof.
  intros Hst <- Hq (u2 & Hr & Hrest). exists u2.
  replace (S C * S (length (q :: l)))%nat with (S C + S C * S (length l))%nat by (cbn [length]; lia).
  rewrite tx_run_add, tx_wait_tick by done. cbn beta iota zeta. rewrite Hr, Hq, <- tx_rest_cons. done.
Qed.

(** *** The transitions *)

#[local] Ltac tx_transition u Hu :=
  destruct Hu as (H1 & H2 & H3 & H4 & H5); destruct u; cbn in H1, H2, H3, H4, H5; subst;
  unfold TxTick; cbn -[Z.add Z.leb Z.of_nat count_ones Z.odd Z.testbit].

Lemma tick_stop_more i s p (k : nat) queue u :
  tx_config u -> (S k < stops)%nat ->
  TxTick (tx_set TX_STOP 0 i s p (Z.of_nat k) queue u) =
  tx_set TX_STOP (Z.of_nat C) i s p (Z.of_nat (S k)) queue u.
Proof.
  intros Hu Hk. tx_transition u Hu.
  destruct (Z.leb_spec (Z.of_nat stops) (Z.of_nat k + 1)); [lia|].
  rewrite Nat2Z.inj_succ. reflexivity.
Qed.

Lemma tick_stop_last i s p (k : nat) queue u :
  tx_config u -> (stops <= S k)%nat ->
  TxTick (tx_set TX_STOP 0 i s p (Z.of_nat k) queue u) =
  tx_set TX_IDLE 0 i s true (Z.of_nat k + 1) queue u.
Proof.
  intros Hu Hk. tx_transition u Hu.
  destruct (Z.leb_spec (Z.of_nat stops) (Z.of_nat k + 1)); [reflexivity | lia].
Qed.

Lemma tick_parity i s p k queue u :
  tx_config u ->
  TxTick (tx_set TX_PARITY 0 i s p k queue u) = tx_set TX_STOP (Z.of_nat C) i s true 0 queue u.
Proof. intros Hu. tx_transition u Hu. reflexivity. Qed.

Lemma tick_data_more (i : nat) s p k queue u :
  tx_config u -> (S i < n)%nat ->
  TxTick (tx_set TX_DATA 0 (Z.of_nat i) s p k queue u) =
  tx_set TX_DATA (Z.of_nat C) (Z.of_nat (S i)) s (Z.testbit s (Z.of_nat (S i))) k queue u.
Proof.
  intros Hu Hi. tx_transition u Hu.
  destruct (Z.leb_spec (Z.of_nat n) (Z.of_nat i + 1)); [lia|].
  rewrite Nat2Z.inj_succ. reflexivity.
Qed.

Lemma tick_data_last (i : nat) s p k queue u :
  tx_config u -> (n <= S i)%nat ->
  TxTick (tx_set TX_DATA 0 (Z.of_nat i) s p k queue u) =
  if parity
  then tx_set TX_PARITY (Z.of_nat C) (Z.of_nat i + 1) s (parity_bit s) k queue u
  else tx_set TX_STOP (Z.of_nat C) (Z.of_nat i + 1) s true 0 queue u.
Proof.
  intros Hu Hi. unfold parity_bit. rewrite <- (Nat2Z.id n). tx_transition u Hu.
  rewrite Nat2Z.id. destruct (Z.leb_spec (Z.of_nat n) (Z.of_nat i + 1)); [|lia].
  destruct parity; reflexivity.
Qed.

Lemma uart_tick_start i s p k queue u :
  tx_config u ->
  TxTick (tx_set TX_START 0 i s p k queue u) =
  tx_set TX_DATA (Z.of_nat C) i s (Z.testbit s i) k queue u.
Proof. intros Hu. tx_transition u Hu. reflexivity. Qed.

Lemma tick_dequeue byte queue u :
  tx_config u -> tx_idle (byte :: queue) u ->
  TxTick u = tx_set TX_START (Z.of_nat C) 0 byte false (m_tx_stop_count u) queue u.
Proof.
  intros Hu (Hs & Hp & Hq). destruct Hu as (H1 & _). unfold TxTick. rewrite Hs, Hq, H1.
  by destruct u.
Qed.

(** *** The phases of a frame *)

Lemma tx_stop i s k queue u :
  tx_config u -> (k < stops)%nat ->
  tx_sends queue true (replicate (stops - k - 1) true)
    (tx_set TX_STOP (Z.of_nat C) i s true (Z.of_nat k) queue u).
Proof.
  intros Hu Hk. remember (stops - k - 1)%nat as r eqn:Hr.
  revert k Hk Hr. induction r as [|r IH]; intros k Hk Hr.
  - eexists. cbn [length replicate]. rewrite Nat.mul_1_r, tx_wait_tick by done.
    cbn beta iota zeta. rewrite (tick_stop_last i s true k) by (done || lia).
    split; [reflexivity|]. split; [exact Hu | done].
  - cbn [replicate].
    eapply tx_sends_step; [done | by apply (tick_stop_more i s true k); [|lia] | done |].
    apply IH; lia.
Qed.

Lemma tx_stop_first i s queue u :
  tx_config u ->
  tx_sends queue true (replicate (stops - 1) true)
    (tx_set TX_STOP (Z.of_nat C) i s true 0 queue u).
Proof.
  intros Hu. pose proof (tx_stop i s 0 queue u Hu) as H.
  rewrite Nat.sub_0_r in H. apply H. lia.
Qed.

Definition tail_levels (byte : Z) : list bool :=
  (if parity then [parity_bit byte] else []) ++ replicate stops true.

Lemma replicate_stops : replicate stops true = true :: replicate (stops - 1) true.
Proof. destruct stops as [|m] eqn:E; [lia|]. cbn. by rewrite Nat.sub_0_r. Qed.

(** From the last data bit on. *)
Lemma tx_after_data (i : nat) s p k queue u :
  tx_config u -> (S i = n)%nat ->
  tx_sends queue p (tail_levels s) (tx_set TX_DATA (Z.of_nat C) (Z.of_nat i) s p k queue u).
Proof.
  intros Hu Hi. pose proof (tick_data_last i s p k queue u Hu ltac:(lia)) as Ht.
  unfold tail_levels. rewrite replicate_stops.
  destruct parity; cbn [app]; (eapply tx_sends_step; [done | exact Ht | done |]).
  - eapply tx_sends_step; [done | by apply tick_parity | done |]. by apply tx_stop_first.
  - by apply tx_stop_first.
Qed.

Lemma tx_data (r i : nat) s p k queue u :
  tx_config u -> (i + S r = n)%nat ->
  tx_sends queue p (map (fun j => Z.testbit s (Z.of_nat j)) (seq (S i) r) ++ tail_levels s)
    (tx_set TX_DATA (Z.of_nat C) (Z.of_nat i) s p k queue u).
Proof.
  intros Hu. revert i p. induction r as [|r IH]; intros i p Hi; cbn [seq map app].
  - apply tx_after_data; [done | lia].
  - eapply tx_sends_step; [done | apply tick_data_more; [done | lia] | done |]. apply IH. lia.
Qed.

Lemma tx_one_frame byte queue u :
  tx_config u -> tx_idle (byte :: queue) u ->
  exists u', tx_run (S C * length (tx_frame byte) + 1) u =
    (u', concat (map (replicate (S C)) (tx_frame byte)) ++ [true]) /\
    tx_config u' /\ tx_idle queue u'.
Proof.
  intros Hu Hi. rewrite Nat.add_1_r. cbn [tx_run].
  rewrite (tick_dequeue byte queue u Hu Hi).
  set (u1 := tx_set TX_START _ _ _ _ _ _ _).
  assert (H : tx_sends queue false (data_bits byte ++ tail_levels byte) u1).
  { unfold data_bits. replace n with (S (n - 1)) at 1 by lia. cbn [seq map app].
    eapply tx_sends_step; [done | by apply uart_tick_start | done |].
    apply (tx_data (n - 1) 0); [exact Hu | lia]. }
  destruct H as (u' & Hr & Hrest). exists u'. unfold tx_frame.
  fold (tail_levels byte). cbn [length]. rewrite Hr. split; [|exact Hrest].
  unfold tx_rest. cbn [map concat replicate app]. by rewrite <- (assoc_L (++)).
Qed.

End Transmitter.

(** ** Frames on the wire *)

Lemma concat_replicate_lookup {A} (P : nat) (l : list A) (t : nat) :
  concat (map (replicate (S P)) l) !! t = l !! (t / S P)%nat.
Proof.
  revert t. induction l as [|x l IH]; intros t; [by rewrite !lookup_nil|].
  cbn [map concat]. destruct (Nat.lt_ge_cases t (S P)).
  - rewrite lookup_app_l by (rewrite length_replicate; lia).
    rewrite Nat.div_small by lia. by rewrite lookup_replicate_2 by lia.
  - rewrite lookup_app_r by (rewrite length_replicate; lia).
    rewrite length_replicate, IH.
    replace t with (t - S P + 1 * S P)%nat at 2 by lia.
    rewrite Nat.div_add by lia. rewrite Nat.add_1_r. done.
Qed.

Lemma from_data_bits n byte : from_bits (data_bits n byte) = byte `mod` 2 ^ Z.of_nat n.
Proof.
  unfold data_bits. induction n as [|n IH]; [by rewrite Z.mod_1_r|].
  rewrite seq_S, map_app, from_bits_app, IH, length_map, length_seq. cbn [map Nat.add].
  rewrite Nat2Z.inj_succ, Z.pow_succ_r, (Z.mul_comm 2) by lia.
  rewrite Z.rem_mul_r by lia. f_equal. f_equal.
  unfold from_bits. cbn [fold_right]. rewrite Z.mul_0_r, Z.add_0_r.
  rewrite Z.testbit_spec' by lia. done.
Qed.

Section Frames.
Context (C n stops : nat) (parity even : bool).
Context (HC : (1 <= C)%nat) (Hn : (1 <= n <= 8)%nat) (Hstops : (1 <= stops)%nat).

#[local] Abbreviation frame := (tx_frame n stops parity even).

Lemma frame_data byte j : (j < n)%nat -> frame byte !! S j = Some (Z.testbit byte (Z.of_nat j)).
Proof.
  intros Hj. unfold tx_frame. cbn [lookup list_lookup].
  change ((data_bits n byte ++ (if parity then [parity_bit n even byte] else []) ++
    replicate stops true) !! j = Some (Z.testbit byte (Z.of_nat j))).
  unfold data_bits. rewrite lookup_app_l by (rewrite length_map, length_seq; done).
  rewrite list_lookup_fmap, lookup_seq_lt by done. done.
Qed.

Lemma frame_stop byte j :
  (n + parity_bits parity + 1 <= j)%nat -> default true (frame byte !! j) = true.
Proof.
  intros Hj. unfold tx_frame. destruct j as [|j]; [lia|].
  change (default true ((data_bits n byte ++ (if parity then [parity_bit n even byte] else []) ++
    replicate stops true) !! j) = true).
  unfold data_bits, parity_bits in *.
  rewrite lookup_app_r by (rewrite length_map, length_seq; lia).
  rewrite length_map, length_seq.
  rewrite lookup_app_r by (destruct parity; cbn; lia).
  destruct (replicate stops true !! _) as [b|] eqn:E; [|done].
  by apply lookup_replicate in E as [-> _].
Qed.

Lemma frame_length byte : length (frame byte) = (1 + n + parity_bits parity + stops)%nat.
Proof.
  unfold tx_frame, data_bits, parity_bits. cbn [length].
  rewrite !length_app, length_map, length_seq, length_replicate. destruct parity; cbn; lia.
Qed.

(** A frame of bit time [P], when every sampling time falls in its bit. *)
Lemma frame_decode (P : nat) (w : nat -> bool) (t0 : nat) (byte : Z) (u : SoftUART) :
  rx_config C n parity u -> rx_idle true u ->
  (forall t, (t < rx_ticks C n parity)%nat ->
     w (t0 + t)%nat = default true (frame byte !! (t / P)%nat)) ->
  (forall j, (j <= n + parity_bits parity + 1)%nat -> ((mid C + j * S C) / P)%nat = j) ->
  exists u', rx_run w t0 (rx_ticks C n parity) u =
    (u', [(byte `mod` 2 ^ Z.of_nat n, false)]) /\ rx_config C n parity u' /\ rx_idle true u'.
Proof.
  intros Hu Hi Hw Hs.
  assert (Hat : forall j, (j <= n + parity_bits parity + 1)%nat ->
    w (t0 + mid C + j * S C)%nat = default true (frame byte !! j)).
  { intros j Hj. rewrite <- (Nat.add_assoc t0), Hw.
    - by rewrite Hs.
    - unfold rx_ticks. assert (j * S C <= (n + parity_bits parity + 1) * S C)%nat
        by (apply Nat.mul_le_mono_r; lia). lia. }
  assert (H0 : w t0 = false).
  { rewrite <- (Nat.add_0_r t0), Hw by (unfold rx_ticks; lia).
    by rewrite Nat.Div0.div_0_l by (specialize (Hs 1%nat ltac:(lia)); destruct P; cbn in Hs; lia). }
  assert (Hm : w (t0 + mid C)%nat = false).
  { specialize (Hat 0%nat ltac:(lia)). rewrite Nat.mul_0_l, Nat.add_0_r in Hat. by rewrite Hat. }
  destruct (rx_frame C n parity Hn w t0 u Hu Hi H0 Hm) as (u' & Hr & Hu' & Hi').
  assert (Hstop : stop_sample C n parity w t0 = true).
  { unfold stop_sample. rewrite Hat by lia. by apply frame_stop. }
  rewrite Hstop in *. exists u'. split; [|done]. rewrite Hr. do 2 f_equal.
  assert (Hd : data_samples C n w t0 = data_bits n byte).
  { unfold data_samples, data_bits. apply map_ext_in. intros j Hj%in_seq.
    rewrite Hat by lia. by rewrite frame_data by lia. }
  rewrite Hd, from_data_bits. done.
Qed.

Lemma mid_small : (mid C <= C)%nat.
Proof.
  unfold mid. pose proof (Nat.div_lt C 2).
  assert (C / 2 < C)%nat by (apply Nat.div_lt; lia). lia.
Qed.

Definition frame_ticks : nat := (S C * (1 + n + parity_bits parity + stops) + 1)%nat.

(** The whole time of a frame of the transmitter, the idle tick included. *)
Lemma frame_receive (w : nat -> bool) (t0 : nat) (byte : Z) (u : SoftUART) :
  rx_config C n parity u -> rx_idle true u ->
  (forall t, (t < frame_ticks)%nat ->
     w (t0 + t)%nat = default true (frame byte !! (t / S C)%nat)) ->
  exists u', rx_run w t0 frame_ticks u = (u', [(byte `mod` 2 ^ Z.of_nat n, false)]) /\
    rx_config C n parity u' /\ rx_idle true u'.
Proof.
  intros Hu Hi Hw. pose proof mid_small as Hmid.
  assert (Hle : (rx_ticks C n parity <= frame_ticks)%nat) by (unfold rx_ticks, frame_ticks; nia).
  destruct (frame_decode (S C) w t0 byte u Hu Hi) as (u1 & Hr1 & Hu1 & Hi1).
  { intros t Ht. apply Hw. lia. }
  { intros j Hj. rewrite Nat.div_add by lia. by rewrite Nat.div_small by lia. }
  destruct (rx_quiet C n parity Hn w (t0 + rx_ticks C n parity)
              (frame_ticks - rx_ticks C n parity) u1 Hu1 Hi1)
    as (u2 & Hr2 & Hu2 & Hi2).
  { intros j Hj. rewrite <- Nat.add_assoc, Hw by lia. apply frame_stop.
    apply Nat.div_le_lower_bound; [lia|]. unfold rx_ticks. lia. }
  exists u2. split; [|done].
  replace frame_ticks with (rx_ticks C n parity + (frame_ticks - rx_ticks C n parity))%nat by lia.
  by rewrite rx_run_add, Hr1, Hr2.
Qed.

(** The levels of a sequence of frames. *)
Definition wire (bytes : list Z) : list bool :=
  concat (map (fun byte => concat (map (replicate (S C)) (frame byte)) ++ [true]) bytes).

Lemma tx_frames bytes u :
  tx_config C n stops parity even u -> tx_idle bytes u ->
  exists u', tx_run (length bytes * frame_ticks) u = (u', wire bytes) /\
    tx_config C n stops parity even u' /\ tx_idle [] u'.
Proof.
  revert u. induction bytes as [|byte bytes IH]; intros u Hu Hi; [by exists u|].
  change (length (byte :: bytes) * frame_ticks)%nat
    with (frame_ticks + length bytes * frame_ticks)%nat.
  destruct (tx_one_frame C n stops parity even Hstops ltac:(lia) byte bytes u Hu Hi)
    as (u1 & Hr1 & Hu1 & Hi1). rewrite frame_length in Hr1.
  destruct (IH u1 Hu1 Hi1) as (u2 & Hr2 & Hrest).
  exists u2. rewrite tx_run_add. unfold frame_ticks at 1. rewrite Hr1, Hr2. done.
Qed.

Lemma frame_levels byte rest t :
  (t < frame_ticks)%nat ->
  default true (((concat (map (replicate (S C)) (frame byte)) ++ [true]) ++ rest) !! t) =
  default true (frame byte !! (t / S C)%nat).
Proof.
  intros Ht.
  assert (Hl : length (concat (map (replicate (S C)) (frame byte))) = (frame_ticks - 1)%nat).
  { unfold frame_ticks. rewrite <- (frame_length byte).
    induction (frame byte) as [|b l IH]; [cbn; lia|].
    cbn [map concat length]. rewrite length_app, length_replicate, IH. lia. }
  rewrite <- (assoc_L (++)). destruct (decide (t < frame_ticks - 1)%nat).
  - rewrite lookup_app_l by lia. by rewrite concat_replicate_lookup.
  - rewrite lookup_app_r by lia. rewrite Hl.
    replace (t - (frame_ticks - 1))%nat with 0%nat by lia. cbn [app lookup list_lookup].
    symmetry. apply frame_stop. apply Nat.div_le_lower_bound; [lia|].
    unfold frame_ticks in *. nia.
Qed.

Lemma wire_receive (bytes : list Z) (w : nat -> bool) (t0 : nat) (u : SoftUART) :
  rx_config C n parity u -> rx_idle true u ->
  (forall t, (t < length bytes * frame_ticks)%nat ->
     w (t0 + t)%nat = default true (wire bytes !! t)) ->
  exists u', rx_run w t0 (length bytes * frame_ticks) u =
    (u', map (fun byte => (byte `mod` 2 ^ Z.of_nat n, false)) bytes) /\
    rx_config C n parity u' /\ rx_idle true u'.
Proof.
  revert t0 u. induction bytes as [|byte bytes IH]; intros t0 u Hu Hi Hw; [by exists u|].
  change (length (byte :: bytes) * frame_ticks)%nat
    with (frame_ticks + length bytes * frame_ticks)%nat in *.
  set (one := concat (map (replicate (S C)) (frame byte)) ++ [true]).
  assert (Hone : length one = frame_ticks).
  { unfold one, frame_ticks. rewrite length_app, <- (frame_length byte). f_equal.
    induction (frame byte) as [|b l IHl]; [cbn; lia|].
    cbn [map concat length]. rewrite length_app, length_replicate, IHl. lia. }
  destruct (frame_receive w t0 byte u Hu Hi) as (u1 & Hr1 & Hu1 & Hi1).
  { intros t Ht. rewrite Hw by lia. by apply frame_levels. }
  destruct (IH (t0 + frame_ticks)%nat u1 Hu1 Hi1) as (u2 & Hr2 & Hrest).
  { intros t Ht. rewrite <- Nat.add_assoc, Hw by lia. cbn [wire map concat]. fold one.
    rewrite lookup_app_r by lia. rewrite Hone. do 2 f_equal. lia. }
  exists u2. split; [|done]. by rewrite rx_run_add, Hr1, Hr2.
Qed.

End Frames.

(** The transmitter sends the queue.  From idle, it drives one frame per queued
    byte - start bit, data bits from the least significant, parity bit, stop
    bits - every bit for [clocks_per_baud + 1] ticks, with one idle tick after
    each frame, and is idle again with an empty queue. *)
Theorem uart_transmit (C n stops : nat) (parity even : bool) (bytes : list Z) (u : SoftUART) :
  (1 <= C)%nat -> (1 <= n <= 8)%nat -> (1 <= stops)%nat ->
  tx_config C n stops parity even u -> tx_idle bytes u ->
  exists u', tx_run (length bytes * frame_ticks C n stops parity) u =
    (u', concat (map (fun byte =>
           concat (map (replicate (S C)) (tx_frame n stops parity even byte)) ++ [true]) bytes)) /\
    TxBusy u' = false.
Proof.
  intros HC Hn Hs Hu Hi.
  destruct (tx_frames C n stops parity even HC Hn Hs bytes u Hu Hi) as (u' & Hr & _ & Hi').
  exists u'. split; [exact Hr|]. destruct Hi' as (H1 & _ & H3). unfold TxBusy. by rewrite H1, H3.
Qed.

Lemma uart_transmit_witness :
  exists u', tx_run (1 * 25) (TxEnqueue 5 (Configure 2 5 1 true true SoftUART_new)) =
    (u', concat (map (replicate 3) [false; true; false; true; false; false; false; true]) ++ [true]) /\
    TxBusy u' = false.
Proof.
  apply (uart_transmit 2 5 1 true true [5] (TxEnqueue 5 (Configure 2 5 1 true true SoftUART_new)));
    [lia | lia | lia | by repeat split | by repeat split].
Defined.

(** C5: two soft UARTs with one configuration understand each other: whatever
    bytes are queued, and for every baud rate, number of data bits, parity and
    number of stop bits, the receiver on the transmitter's line delivers the
    bytes, cut to the data bits, in order and without a frame error. *)
Theorem uart_loopback (C n stops : nat) (parity even : bool) (bytes : list Z)
    (sender receiver : SoftUART) :
  (1 <= C)%nat -> (1 <= n <= 8)%nat -> (1 <= stops)%nat ->
  tx_config C n stops parity even sender -> tx_idle bytes sender ->
  rx_config C n parity receiver -> rx_idle true receiver ->
  let ticks := (length bytes * frame_ticks C n stops parity)%nat in
  let pins := (tx_run ticks sender).2 in
  (rx_run (fun t => default true (pins !! t)) 0 ticks receiver).2 =
    map (fun byte => (byte `mod` 2 ^ Z.of_nat n, false)) bytes.
Proof.
  intros HC Hn Hs Hu Hi Hru Hri ticks pins.
  destruct (tx_frames C n stops parity even HC Hn Hs bytes sender Hu Hi) as (u' & Hr & _).
  destruct (wire_receive C n stops parity even HC Hn Hs bytes
              (fun t => default true (pins !! t)) 0 receiver Hru Hri) as (u2 & Hr2 & _).
  { intros t Ht. cbn [Nat.add]. unfold pins, ticks. by rewrite Hr. }
  unfold ticks. by rewrite Hr2.
Qed.

Lemma uart_loopback_witness :
  let sender := TxEnqueue 255 (TxEnqueue 65 (Configure 3 7 2 true false SoftUART_new)) in
  let receiver := Configure 3 7 2 true false SoftUART_new in
  let pins := (tx_run (2 * frame_ticks 3 7 2 true) sender).2 in
  (rx_run (fun t => default true (pins !! t)) 0 (2 * frame_ticks 3 7 2 true) receiver).2 =
    [(65, false); (127, false)].
Proof.
  apply (uart_loopback 3 7 2 true false [65; 255]
    (TxEnqueue 255 (TxEnqueue 65 (Configure 3 7 2 true false SoftUART_new)))
    (Configure 3 7 2 true false SoftUART_new));
    [lia | lia | lia | by repeat split | by repeat split | by repeat split | by repeat split].
Defined.

(** The receiver tolerates the drift of its own timing.  It samples every
    [clocks_per_baud + 1] ticks, so against a sender whose bits last exactly
    [clocks_per_baud] ticks it falls behind by one tick per bit; when the bit
    time exceeds twice the length of the frame, it still decodes every byte. *)
Theorem uart_exact_baud (C n stops : nat) (parity even : bool) (w : nat -> bool) (t0 : nat)
    (byte : Z) (u : SoftUART) :
  (1 <= n <= 8)%nat -> (1 <= stops)%nat ->
  (n + parity_bits parity + 2 < C - C / 2)%nat ->
  rx_config C n parity u -> rx_idle true u ->
  (forall t, (t < rx_ticks C n parity)%nat ->
     w (t0 + t)%nat = default true (tx_frame n stops parity even byte !! (t / C)%nat)) ->
  (rx_run w t0 (rx_ticks C n parity) u).2 = [(byte `mod` 2 ^ Z.of_nat n, false)].
Proof.
  intros Hn Hs HC Hu Hi Hw.
  destruct (frame_decode C n stops parity even ltac:(lia) Hn Hs C w t0 byte u Hu Hi Hw) as (u' & -> & _); [|done].
  intros j Hj. unfold mid. replace (C / 2 + 1 + j * S C)%nat with (C / 2 + 1 + j + j * C)%nat by lia.
  rewrite Nat.div_add by lia. rewrite Nat.div_small by lia. lia.
Qed.

Lemma uart_exact_baud_witness :
  (rx_run (fun t => default true (tx_frame 8 1 false false 90 !! (t / 24)%nat)) 0 239
     (Configure 24 8 1 false false SoftUART_new)).2 = [(90, false)].
Proof.
  apply (uart_exact_baud 24 8 1 false false
    (fun t => default true (tx_frame 8 1 false false 90 !! (t / 24)%nat)) 0 90
    (Configure 24 8 1 false false SoftUART_new));
    [lia | lia | vm_compute; lia | by repeat split | by repeat split | intros t _; reflexivity].
Defined.

(** A setup register of 32 bits always gives a usable configuration: at least
    one clock per baud and at most 2^24 - 1, five to eight data bits as the code
    in bits 29:28 says, one or two stop bits. *)
Theorem ConfigureFromSetup_fields (setup_reg : Z) (u : SoftUART) :
  0 <= setup_reg < 2 ^ 32 ->
  let u' := ConfigureFromSetup setup_reg u in
  1 <= m_clocks_per_baud u' < 2 ^ 24 /\
  m_clocks_per_baud u' = Z.max 1 (setup_reg `mod` 2 ^ 24) /\
  5 <= m_data_bits u' <= 8 /\ m_data_bits u' = 8 - (setup_reg / 2 ^ 28) `mod` 4 /\
  1 <= m_stop_bits u' <= 2 /\ m_rx_state u' = m_rx_state u /\ m_tx_state u' = m_tx_state u.
Proof.
  intros Hr. cbn zeta. unfold ConfigureFromSetup, Configure.
  cbn [m_clocks_per_baud m_data_bits m_stop_bits m_rx_state m_tx_state modify_field].
  pose proof (land_ones_mod setup_reg 24 ltac:(lia)) as Hl. change (2 ^ 24 - 1) with 16777215 in Hl.
  pose proof (land_ones_mod (Z.shiftr setup_reg 28) 2 ltac:(lia)) as Hd. change (2 ^ 2 - 1) with 3 in Hd.
  rewrite Z.shiftr_div_pow2 in * by lia. rewrite Hl, Hd. change (2 ^ 2) with 4.
  pose proof (Z.mod_pos_bound setup_reg (2 ^ 24) eq_refl).
  pose proof (Z.mod_pos_bound (setup_reg / 2 ^ 28) 4 eq_refl).
  change (2 ^ 24) with 16777216 in *.
  destruct (Z.ltb_spec 0 (setup_reg `mod` 16777216)), (Z.testbit setup_reg 27);
    split_and!; lia || done.
Qed.

Lemma ConfigureFromSetup_fields_witness :
  m_data_bits (ConfigureFromSetup 0x10000000 SoftUART_new) = 7.
Proof.
  destruct (ConfigureFromSetup_fields 0x10000000 SoftUART_new) as (_ & _ & _ & H & _);
    [lia | exact H].
Defined.
