(* ===== verification/Terminal.v ===== *)
(** * The serial terminal of the simulation (sim/sim_serial.cpp)

    [SimSerialTerminal] puts a soft UART behind a text window: the bytes received
    become lines, runs of zero bytes are muted, and the input line is queued for
    sending.  A [std::string] is the list of its characters. *)

From Stdlib Require Import Ascii.
From stdpp Require Import pretty.
From S2P Require Import Prelude Console SoftUart.

Inductive LineEnding := LE_CR | LE_LF | LE_CRLF.
Inductive NoiseMute := Mute_Off | Mute_Auto | Mute_On.

Record SimSerialTerminal := MkTerminal {
  m_uart : SoftUART;
  m_lines : list cstr;
  m_current_line : cstr;
  m_auto_scroll : bool;
  m_scroll_to_bottom : bool;
  m_input_buf : cstr;
  m_rx_byte_count : Z;
  m_tx_byte_count : Z;
  m_frame_error_count : Z;
  m_hex_mode : bool;
  m_last_was_cr : bool;
  m_line_ending : LineEnding;
  m_scc_wr3 : Z; m_scc_wr4 : Z; m_scc_wr5 : Z; m_scc_wr9 : Z; m_scc_wr14 : Z;
  m_noise_mute : NoiseMute;
  m_is_sync_mode : bool;
  m_null_run_count : Z;
  m_suppressed_count : Z;
  m_suppressing : bool }.

#[export] Instance eta_Terminal : Eta SimSerialTerminal := fun t =>
  MkTerminal (m_uart t) (m_lines t) (m_current_line t) (m_auto_scroll t) (m_scroll_to_bottom t)
    (m_input_buf t) (m_rx_byte_count t) (m_tx_byte_count t) (m_frame_error_count t)
    (m_hex_mode t) (m_last_was_cr t) (m_line_ending t) (m_scc_wr3 t) (m_scc_wr4 t) (m_scc_wr5 t)
    (m_scc_wr9 t) (m_scc_wr14 t) (m_noise_mute t) (m_is_sync_mode t) (m_null_run_count t)
    (m_suppressed_count t) (m_suppressing t).

Definition MAX_LINES : nat := 1000.
Definition NULL_RUN_THRESHOLD : Z := 8.

Definition Terminal_new : SimSerialTerminal :=
  MkTerminal SoftUART_new [lit "[Serial terminal ready]"] [] true false [] 0 0 0 false false LE_CR
    0 0 0 0 0 Mute_Auto false 0 0 false.

(** The character of a byte, and the [%02X] of one. *)
Definition byte_char (c : Z) : ascii := ascii_of_N (Z.to_N c).

Definition hex_digit (d : Z) : ascii :=
  byte_char (if d <? 10 then 48 + d else 55 + d).

Definition fmt_02X (c : Z) : cstr := [hex_digit (c / 16); hex_digit (c `mod` 16)].

Fixpoint trim_lines (lines : list cstr) : list cstr :=
  match lines with
  | [] => []
  | _ :: rest => if Nat.ltb MAX_LINES (length lines) then trim_lines rest else lines
  end.

Definition end_line (t : SimSerialTerminal) : SimSerialTerminal :=
  t <| m_lines := m_lines t ++ [m_current_line t] |> <| m_current_line := [] |>.

Definition AddReceivedChar (c : Z) (t : SimSerialTerminal) : SimSerialTerminal :=
  let t :=
    if m_hex_mode t then
      let t := t <| m_current_line := m_current_line t ++ fmt_02X c ++ lit " " |> in
      if Nat.ltb 72 (length (m_current_line t)) then end_line t else t
    else if c =? 13 then end_line t <| m_last_was_cr := true |>
    else if c =? 10 then
      (if negb (m_last_was_cr t) then end_line t else t) <| m_last_was_cr := false |>
    else if (c =? 8) || (c =? 127) then
      t <| m_current_line := removelast (m_current_line t) |> <| m_last_was_cr := false |>
    else if (32 <=? c) && (c <? 127) then
      t <| m_current_line := m_current_line t ++ [byte_char c] |> <| m_last_was_cr := false |>
    else
      t <| m_current_line := m_current_line t ++ lit "<" ++ fmt_02X c ++ lit ">" |>
        <| m_last_was_cr := false |> in
  t <| m_lines ::= trim_lines |> <| m_scroll_to_bottom := true |>.

(** A marker of the noise suppression ends the current line. *)
Definition push_marker (msg : cstr) (t : SimSerialTerminal) : SimSerialTerminal :=
  end_line (t <| m_current_line := m_current_line t ++ msg |>) <| m_scroll_to_bottom := true |>.

(** What [Tick] does with a received byte.  The run of nulls is counted in an [int]; that it
    stays one is checked where the terminal is used ([Harness]). *)
Definition receive (byte : Z) (frame_error : bool) (t : SimSerialTerminal) : SimSerialTerminal :=
  let t := t <| m_rx_byte_count := u64 (m_rx_byte_count t + 1) |> in
  let t := if frame_error then t <| m_frame_error_count := u32 (m_frame_error_count t + 1) |> else t in
  match m_noise_mute t with
  | Mute_On => t <| m_suppressed_count := u64 (m_suppressed_count t + 1) |>
  | Mute_Auto =>
      if byte =? 0 then
        let t := t <| m_null_run_count := m_null_run_count t + 1 |> in
        if NULL_RUN_THRESHOLD <=? m_null_run_count t then
          let t := if negb (m_suppressing t)
                   then push_marker (lit "[muted: sync/null noise]") (t <| m_suppressing := true |>)
                   else t in
          t <| m_suppressed_count := u64 (m_suppressed_count t + 1) |>
        else AddReceivedChar byte t
      else
        let t := if m_suppressing t && (0 <? m_suppressed_count t)
                 then push_marker (lit "[" ++ lit (pretty (m_suppressed_count t))
                                     ++ lit " bytes suppressed]") t
                 else t in
        let t := t <| m_null_run_count := 0 |> <| m_suppressed_count := 0 |>
                   <| m_suppressing := false |> in
        AddReceivedChar byte t
  | Mute_Off => AddReceivedChar byte t
  end.

(** One tick; the pin driven into the core is [m_tx_pin] of the UART. *)
Definition Terminal_Tick (fpga_txd_pin : bool) (t : SimSerialTerminal) : SimSerialTerminal :=
  let t := t <| m_uart ::= RxTick fpga_txd_pin |> in
  let t := if m_rx_ready (m_uart t)
           then receive (m_rx_byte (m_uart t)) (m_rx_frame_error (m_uart t)) t else t in
  t <| m_uart ::= TxTick |>.

Definition UpdateConfig (uart_setup_reg : Z) (t : SimSerialTerminal) : SimSerialTerminal :=
  t <| m_uart ::= ConfigureFromSetup uart_setup_reg |>.

Definition UpdateConfigDirect (clocks_per_baud data_bits stop_bits : Z) (parity_en parity_even : bool)
    (t : SimSerialTerminal) : SimSerialTerminal :=
  t <| m_uart ::= Configure clocks_per_baud data_bits stop_bits parity_en parity_even |>.

Definition char_byte (c : ascii) : Z := Z.of_N (N_of_ascii c).

Definition send_byte (c : Z) (t : SimSerialTerminal) : SimSerialTerminal :=
  t <| m_uart ::= TxEnqueue c |> <| m_tx_byte_count := u64 (m_tx_byte_count t + 1) |>.

Definition SendInput (t : SimSerialTerminal) : SimSerialTerminal :=
  let t := fold_left (fun t c => send_byte (char_byte c) t) (m_input_buf t) t in
  let t := match m_line_ending t with
           | LE_CR => send_byte 13 t
           | LE_LF => send_byte 10 t
           | LE_CRLF => send_byte 10 (send_byte 13 t)
           end in
  t <| m_input_buf := [] |>.

Definition UpdateSCCStatus (wr3 wr4 wr5 wr9 wr14 : Z) (t : SimSerialTerminal) : SimSerialTerminal :=
  t <| m_scc_wr3 := wr3 |> <| m_scc_wr4 := wr4 |> <| m_scc_wr5 := wr5 |> <| m_scc_wr9 := wr9 |>
    <| m_scc_wr14 := wr14 |> <| m_is_sync_mode := Z.land wr4 12 =? 0 |>.

(** ** One frame of the window

    What the user does in a frame, and what the window shows. *)

Record TerminalUI := MkTerminalUI {
  tui_open : bool;
  tui_clear : bool;
  tui_copy : bool;
  tui_hex : option bool;             (* the checkboxes, when they are set *)
  tui_auto_scroll : option bool;
  tui_mute : option NoiseMute;
  tui_at_bottom : bool;
  tui_enter : option cstr;           (* the input field, when Enter is pressed *)
  tui_line_ending : option LineEnding }.

Record TerminalView := MkTerminalView {
  tv_ready : bool;
  tv_sync : bool;
  tv_rx : bool; tv_tx : bool; tv_brg : bool; tv_mie : bool;
  tv_baud : Z;
  tv_text : list cstr;
  tv_clipboard : option cstr;
  tv_scroll : bool }.

Definition scc_ready (t : SimSerialTerminal) : bool :=
  let rx_en := negb (Z.land (m_scc_wr3 t) 1 =? 0) in
  let tx_en := negb (Z.land (m_scc_wr5 t) 8 =? 0) in
  let brg_en := negb (Z.land (m_scc_wr14 t) 1 =? 0) in
  let has_traffic := (0 <? m_rx_byte_count t) || (0 <? m_tx_byte_count t) in
  (rx_en && tx_en && brg_en) || (brg_en && has_traffic) || has_traffic.

Definition set_opt {A B} (f : A -> B) `{!Setter f} (v : option B) (a : A) : A :=
  match v with Some v => modify_field (get := f) (fun _ => v) a | None => a end.

Definition is_empty {A} (l : list A) : bool := match l with [] => true | _ => false end.

Definition Terminal_Draw (ui : TerminalUI) (t : SimSerialTerminal)
    : SimSerialTerminal * option TerminalView :=
  if negb (tui_open ui) then (t, None)
  else
    let ready := scc_ready t in
    let cpb := m_clocks_per_baud (m_uart t) in
    let baud := if 0 <? cpb then 32500000 / cpb else 0 in
    let t := if tui_clear ui
             then t <| m_lines := [] |> <| m_current_line := [] |> <| m_rx_byte_count := 0 |>
                    <| m_tx_byte_count := 0 |> <| m_frame_error_count := 0 |>
             else t in
    let clipboard :=
      if tui_copy ui
      then Some (concat (map (fun line => line ++ LF) (m_lines t)) ++ m_current_line t)
      else None in
    let t := set_opt m_hex_mode (tui_hex ui) t in
    let t := set_opt m_auto_scroll (tui_auto_scroll ui) t in
    let t := set_opt m_noise_mute (tui_mute ui) t in
    let text := m_lines t ++
      (if is_empty (m_current_line t) then [] else [m_current_line t ++ lit "_"]) in
    let scroll := m_scroll_to_bottom t || (m_auto_scroll t && tui_at_bottom ui) in
    let view := MkTerminalView ready (m_is_sync_mode t)
      (negb (Z.land (m_scc_wr3 t) 1 =? 0)) (negb (Z.land (m_scc_wr5 t) 8 =? 0))
      (negb (Z.land (m_scc_wr14 t) 1 =? 0)) (negb (Z.land (m_scc_wr9 t) 8 =? 0))
      baud text clipboard scroll in
    let t := t <| m_scroll_to_bottom := false |> in
    let t := match tui_enter ui with
             | Some line => SendInput (t <| m_input_buf := line |>)
             | None => t
             end in
    (set_opt m_line_ending (tui_line_ending ui) t, Some view).

(** ** The number of lines *)

Definition terminal_ok (t : SimSerialTerminal) : Prop :=
  (length (m_lines t) <= MAX_LINES + if m_suppressing t then 1 else 0)%nat.

Lemma trim_lines_spec lines : trim_lines lines = drop (length lines - MAX_LINES) lines.
Proof.
  induction lines as [|a lines IH]; [done|].
  cbn [trim_lines]. destruct (Nat.ltb_spec MAX_LINES (length (a :: lines))).
  - rewrite IH. cbn [length] in *.
    by replace (S (length lines) - MAX_LINES)%nat with (S (length lines - MAX_LINES)) by lia.
  - by replace (length (a :: lines) - MAX_LINES)%nat with 0%nat by lia.
Qed.

Lemma trim_lines_le lines : (length (trim_lines lines) <= MAX_LINES)%nat.
Proof. rewrite trim_lines_spec, length_drop. lia. Qed.

Lemma trim_lines_id lines : (length lines <= MAX_LINES)%nat -> trim_lines lines = lines.
Proof. intros H. rewrite trim_lines_spec. by replace (length lines - MAX_LINES)%nat with 0%nat by lia. Qed.

Lemma AddReceivedChar_le c t : (length (m_lines (AddReceivedChar c t)) <= MAX_LINES)%nat.
Proof. apply trim_lines_le. Qed.

Lemma AddReceivedChar_suppressing c t :
  m_suppressing (AddReceivedChar c t) = m_suppressing t /\
  m_uart (AddReceivedChar c t) = m_uart t.
Proof.
  unfold AddReceivedChar. destruct (m_hex_mode t).
  { cbn [m_suppressing m_uart modify_field]. by destruct (Nat.ltb _ (length _)). }
  destruct (c =? 13); [done|]. destruct (c =? 10); [by destruct (m_last_was_cr t)|].
  destruct (_ || _); [done|]. by destruct (_ && _).
Qed.

Lemma receive_ok byte f t : terminal_ok t -> terminal_ok (receive byte f t).
Proof.
  intros Ht. unfold receive.
  set (t1 := if f then _ else _).
  assert (H1 : terminal_ok t1 /\ m_noise_mute t1 = m_noise_mute t) by by destruct f.
  destruct H1 as [H1 _]. clearbody t1. clear t Ht.
  assert (Hadd : forall c t, terminal_ok (AddReceivedChar c t)).
  { intros c t. unfold terminal_ok. pose proof (AddReceivedChar_le c t). destruct (m_suppressing _); lia. }
  destruct (m_noise_mute t1); [apply Hadd| |exact H1].
  destruct (byte =? 0); [|apply Hadd].
  destruct (_ <=? _); [|apply Hadd]. cbn [m_suppressing modify_field].
  unfold terminal_ok in *. destruct (m_suppressing t1) eqn:E;
    cbn [negb m_lines m_suppressing modify_field]; rewrite ?E; [done|].
  change (length (m_lines t1 ++ [m_current_line t1 ++ lit "[muted: sync/null noise]"]) <= MAX_LINES + 1)%nat.
  rewrite length_app. cbn [length]. lia.
Qed.

Lemma send_byte_lines c t :
  m_lines (send_byte c t) = m_lines t /\ m_suppressing (send_byte c t) = m_suppressing t.
Proof. done. Qed.

Lemma SendInput_lines t :
  m_lines (SendInput t) = m_lines t /\ m_suppressing (SendInput t) = m_suppressing t.
Proof.
  unfold SendInput. set (t1 := fold_left _ _ t).
  assert (H : m_lines t1 = m_lines t /\ m_suppressing t1 = m_suppressing t).
  { unfold t1. generalize (m_input_buf t). intros l. clear t1. revert t.
    induction l as [|c l IH]; intros t; [done|]. cbn [fold_left].
    destruct (IH (send_byte (char_byte c) t)) as [-> ->]. done. }
  destruct H as [<- <-]. by destruct (m_line_ending t1).
Qed.

Lemma Tick_ok pin t : terminal_ok t -> terminal_ok (Terminal_Tick pin t).
Proof.
  intros Ht. unfold Terminal_Tick. set (t1 := t <| m_uart ::= RxTick pin |>).
  assert (H1 : terminal_ok t1) by exact Ht.
  assert (H2 : terminal_ok (if m_rx_ready (m_uart t1)
    then receive (m_rx_byte (m_uart t1)) (m_rx_frame_error (m_uart t1)) t1 else t1)).
  { destruct (m_rx_ready _); [by apply receive_ok | done]. }
  exact H2.
Qed.

(** The scroll buffer is bounded.  It holds at most 1000 lines, and one more
    only while a run of zero bytes is muted, whatever the core sends and the
    user does. *)
Theorem Terminal_bounded (t : SimSerialTerminal) (pin : bool) (ui : TerminalUI) :
  terminal_ok t ->
  terminal_ok (Terminal_Tick pin t) /\ terminal_ok (Terminal_Draw ui t).1.
Proof.
  intros Ht. split.
  - by apply Tick_ok.
  - unfold Terminal_Draw. destruct (tui_open ui); [|done]. cbn [negb fst].
    set (t1 := if tui_clear ui then _ else t).
    assert (H1 : terminal_ok t1) by (unfold t1; destruct (tui_clear ui); [|done];
      unfold terminal_ok; cbn; lia).
    unfold terminal_ok in *. unfold set_opt.
    destruct (tui_hex ui), (tui_auto_scroll ui), (tui_mute ui), (tui_enter ui) as [line|],
      (tui_line_ending ui); cbn [m_lines m_suppressing modify_field]; try exact H1;
      match goal with |- context [SendInput ?x] => destruct (SendInput_lines x) as [-> ->] end;
      exact H1.
Qed.

Lemma Terminal_bounded_witness : terminal_ok (Terminal_Tick false Terminal_new).
Proof.
  apply (Terminal_bounded Terminal_new false
    (MkTerminalUI false false false None None None false None None)). unfold terminal_ok. cbn. lia.
Defined.

(** ** Received text *)

Definition receive_all (l : list (Z * bool)) (t : SimSerialTerminal) : SimSerialTerminal :=
  fold_left (fun t bf => receive bf.1 bf.2 t) l t.

Definition is_printable (c : Z) : bool := (32 <=? c) && (c <? 127).
Definition text_of (bytes : list Z) : cstr := map byte_char bytes.

(** The mode in which received bytes become text. *)
Definition text_mode (t : SimSerialTerminal) : Prop :=
  m_hex_mode t = false /\ m_noise_mute t <> Mute_On /\ m_suppressing t = false.

(** [t] with other lines, as far as the text is concerned. *)
Definition shows (lines : list cstr) (current : cstr) (cr : bool) (t : SimSerialTerminal) : Prop :=
  m_lines t = lines /\ m_current_line t = current /\ m_last_was_cr t = cr.

Lemma receive_char byte t lines current cr :
  text_mode t -> shows lines current cr t -> (length lines < MAX_LINES)%nat ->
  byte <> 0 -> byte <> 8 -> byte <> 127 ->
  let t' := receive byte false t in
  text_mode t' /\
  (byte = 13 -> shows (lines ++ [current]) [] true t') /\
  (byte = 10 -> shows (if cr then lines else lines ++ [current]) (if cr then current else []) false t') /\
  (is_printable byte = true -> shows lines (current ++ [byte_char byte]) false t').
Proof.
  intros (Hh & Hm & Hs) (Hl & Hc & Hcr) Hlen H0 H8 H127 t'.
  assert (Ht' : exists t0, t' = AddReceivedChar byte t0 /\ text_mode t0 /\ shows lines current cr t0).
  { unfold t', receive. cbn [m_noise_mute modify_field].
    destruct (m_noise_mute t) eqn:Em; [| |done].
    - eexists. split; [reflexivity|]. split; [split_and!; cbn; rewrite ?Em; done | done].
    - destruct (Z.eqb_spec byte 0); [done|]. cbn [m_suppressing modify_field]. rewrite Hs. cbn [andb].
      eexists. split; [reflexivity|]. split; [split_and!; cbn; rewrite ?Em; done | done]. }
  clearbody t'. destruct Ht' as (t0 & -> & (Hh0 & Hm0 & Hs0) & Hl0 & Hc0 & Hcr0).
  clear t Hh Hm Hs Hl Hc Hcr.
  assert (Htrim : trim_lines (lines ++ [current]) = lines ++ [current])
    by (apply trim_lines_id; rewrite length_app; cbn; lia).
  assert (Htrim0 : trim_lines lines = lines) by (apply trim_lines_id; lia).
  unfold AddReceivedChar, shows, text_mode, is_printable, end_line. rewrite Hh0.
  destruct (Z.eqb_spec byte 13) as [->|]; [|destruct (Z.eqb_spec byte 10) as [->|];
    [|destruct (Z.eqb_spec byte 8); [done|]; destruct (Z.eqb_spec byte 127); [done|];
      destruct ((32 <=? byte) && (byte <? 127)) eqn:Ep]];
    cbn [orb]; rewrite ?Hcr0; try destruct cr; cbn; rewrite ?Hl0, ?Hc0, ?Htrim, ?Htrim0, ?Hh0, ?Hs0;
    split_and!; intros; try done.
Qed.

Definition received (bytes : list Z) : list (Z * bool) := map (fun b => (b, false)) bytes.

Lemma receive_all_app l k t : receive_all (l ++ k) t = receive_all k (receive_all l t).
Proof. unfold receive_all. apply fold_left_app. Qed.

Lemma receive_text text t lines current cr :
  text_mode t -> shows lines current cr t -> (length lines < MAX_LINES)%nat ->
  Forall (fun c => is_printable c = true) text ->
  exists cr', text_mode (receive_all (received text) t) /\
    shows lines (current ++ text_of text) cr' (receive_all (received text) t) /\
    (text = [] /\ cr' = cr \/ text <> [] /\ cr' = false).
Proof.
  intros Ht Hs Hlen Htext. revert t current cr Ht Hs.
  induction Htext as [|c text Hc Htext IH]; intros t current cr Ht Hs.
  - exists cr. cbn. rewrite app_nil_r. by auto.
  - cbn [received map receive_all fold_left fst snd].
    destruct (receive_char c t lines current cr Ht Hs Hlen) as (Ht1 & _ & _ & Hp);
      [unfold is_printable in Hc; lia.. |].
    specialize (Hp Hc). destruct (IH _ _ _ Ht1 Hp) as (cr' & Ht' & Hs' & Hcr').
    exists cr'. split; [exact Ht'|].
    rewrite <- (assoc_L (++)) in Hs'. split; [exact Hs'|].
    right. split; [done|]. by destruct Hcr' as [[_ ->]|[_ ->]].
Qed.

Definition terminator (le : LineEnding) : list Z :=
  match le with LE_CR => [13] | LE_LF => [10] | LE_CRLF => [13; 10] end.

Lemma receive_line le text t lines cr :
  text_mode t -> shows lines [] cr t -> (length lines < MAX_LINES)%nat ->
  Forall (fun c => is_printable c = true) text -> (le = LE_LF -> cr = false) ->
  exists cr', text_mode (receive_all (received (text ++ terminator le)) t) /\
    shows (lines ++ [text_of text]) [] cr' (receive_all (received (text ++ terminator le)) t) /\
    (le = LE_LF -> cr' = false).
Proof.
  intros Ht Hs Hlen Htext Hcr.
  destruct (receive_text text t lines [] cr Ht Hs Hlen Htext) as (cr1 & Ht1 & Hs1 & Hcr1).
  cbn [app] in Hs1.
  unfold received. rewrite map_app, receive_all_app. fold (received text).
  set (t1 := receive_all (received text) t) in *.
  destruct (receive_char 13 t1 lines (text_of text) cr1 Ht1 Hs1 Hlen) as (Ht2 & H13 & _ & _); [lia..|].
  specialize (H13 eq_refl).
  destruct le; cbn [terminator map receive_all fold_left fst snd].
  - exists true. by split.
  - assert (cr1 = false) as -> by (destruct Hcr1 as [[_ ->]|[_ ->]]; auto).
    destruct (receive_char 10 t1 lines (text_of text) false Ht1 Hs1 Hlen) as (Ht3 & _ & H10 & _); [lia..|].
    exists false. split; [exact Ht3|]. split; [exact (H10 eq_refl) | done].
  - exists false.
    assert (H10 : let t' := receive 10 false (receive 13 false t1) in
      text_mode t' /\ shows (lines ++ [text_of text]) [] false t').
    { destruct Ht2 as (Hh & Hm & Hsp), H13 as (Hl & Hc & Hlc).
      set (t2 := receive 13 false t1) in *. cbn zeta.
      unfold receive. cbn [m_noise_mute modify_field Z.eqb].
      unfold text_mode, shows.
      destruct (m_noise_mute t2) eqn:Em; [| |done]; cbn [m_suppressing modify_field]; rewrite ?Hsp; cbn [andb];
        unfold AddReceivedChar; cbn [m_hex_mode modify_field]; rewrite Hh; cbn [Z.eqb Pos.eqb];
        cbn -[trim_lines]; rewrite Hlc; cbn -[trim_lines]; rewrite ?Hl, ?Hc, ?Hh, ?Hsp, ?Em;
        (rewrite trim_lines_id; [|rewrite length_app; cbn; lia]); done. }
    by destruct H10.
Qed.

(** Received text becomes its lines.  Lines of printable characters, each
    followed by the same terminator - CR, LF or CR LF - are appended to the
    buffer one by one, and a CR LF pair ends one line, not two. *)
Theorem Terminal_lines (le : LineEnding) (texts : list (list Z)) (t : SimSerialTerminal) :
  text_mode t -> m_current_line t = [] -> m_last_was_cr t = false ->
  (length (m_lines t) + length texts <= MAX_LINES)%nat ->
  Forall (Forall (fun c => is_printable c = true)) texts ->
  let t' := receive_all (received (concat (map (fun text => text ++ terminator le) texts))) t in
  m_lines t' = m_lines t ++ map text_of texts /\ m_current_line t' = [].
Proof.
  intros Ht Hc Hcr Hlen Htexts t'.
  cut (exists cr, text_mode t' /\ shows (m_lines t ++ map text_of texts) [] cr t' /\
         (le = LE_LF -> cr = false)).
  { by intros (cr & _ & (H1 & H2 & _) & _). }
  subst t'. rewrite <- (rev_involutive texts) in *. induction (rev texts) as [|text rest IH].
  - exists false. cbn. rewrite app_nil_r. split; [exact Ht|]. by repeat split.
  - cbn [rev] in *. rewrite length_app in Hlen. cbn [length] in Hlen.
    apply Forall_app in Htexts as [Hrest Htext]. apply Forall_inv in Htext.
    destruct IH as (cr & Ht1 & Hs1 & Hcr1); [lia | done |].
    rewrite map_app, concat_app. unfold received. rewrite map_app, receive_all_app.
    fold (received (concat (map (fun text => text ++ terminator le) (rev rest)))).
    cbn [map concat]. rewrite app_nil_r.
    destruct (receive_line le text _ _ cr Ht1 Hs1) as (cr' & Ht2 & Hs2 & Hcr2);
      [rewrite length_app, length_map; lia | done | done |].
    exists cr'. unfold received in *. split; [exact Ht2|]. split; [|exact Hcr2].
    rewrite map_app, (assoc_L (++)). exact Hs2.
Qed.

Lemma Terminal_lines_witness :
  m_lines (receive_all (received [72; 105; 13; 10; 33; 13; 10]) Terminal_new) =
    [lit "[Serial terminal ready]"; lit "Hi"; lit "!"].
Proof.
  apply (Terminal_lines LE_CRLF [[72; 105]; [33]] Terminal_new);
    [by repeat split | reflexivity | reflexivity | vm_compute; lia | repeat constructor].
Defined.

(** ** The noise filter *)

(** [k] zero bytes in a row. *)
Lemma receive_nulls (k : nat) (t : SimSerialTerminal) :
  m_hex_mode t = false -> m_noise_mute t = Mute_Auto -> m_suppressing t = false ->
  m_null_run_count t = 0 -> m_suppressed_count t = 0 -> (length (m_lines t) < MAX_LINES)%nat ->
  Z.of_nat k < 2 ^ 31 ->
  let t' := receive_all (received (repeat 0 k)) t in
  m_hex_mode t' = false /\ m_noise_mute t' = Mute_Auto /\
  m_null_run_count t' = Z.of_nat k /\
  let shown := m_current_line t ++ concat (repeat (lit "<00>") (Nat.min k 7)) in
  if (k <=? 7)%nat then
    m_lines t' = m_lines t /\ m_current_line t' = shown /\
    m_suppressing t' = false /\ m_suppressed_count t' = 0
  else
    m_lines t' = m_lines t ++ [shown ++ lit "[muted: sync/null noise]"] /\ m_current_line t' = [] /\
    m_suppressing t' = true /\ m_suppressed_count t' = Z.of_nat k - 7.
Proof.
  intros Hh Hm Hs Hn Hc Hl Hk.
  induction k as [|k IH].
  - cbn. rewrite app_nil_r. by repeat split.
  - cbn [repeat] in *. rewrite repeat_cons. unfold received. rewrite map_app, receive_all_app.
    fold (received (repeat 0 k)). cbn [map receive_all fold_left fst snd].
    destruct IH as (Hh1 & Hm1 & Hn1 & Hrest); [lia|]. unfold receive_all in *.
    set (t1 := fold_left _ (received (repeat 0 k)) t) in *. clearbody t1.
    assert (Hrun : Z.of_nat k + 1 = Z.of_nat (S k)) by lia.
    unfold receive. cbn [m_noise_mute modify_field]. rewrite Hm1. cbn [Z.eqb].
    cbn [m_null_run_count modify_field]. rewrite Hn1, Hrun.
    unfold NULL_RUN_THRESHOLD. destruct (Z.leb_spec 8 (Z.of_nat (S k))).
    + destruct (Nat.leb_spec (S k) 7); [lia|]. cbn [m_suppressing modify_field].
      destruct (Nat.leb_spec k 7).
      * destruct Hrest as (R1 & R2 & R3 & R4). rewrite R3. cbn [negb].
        cbn -[Nat.min u64 repeat]. rewrite R1, R2, R4. split_and!; try done.
        { replace k with 7%nat by lia. done. }
        rewrite uwrap_small by lia. lia.
      * destruct Hrest as (R1 & R2 & R3 & R4). rewrite R3. cbn [negb].
        cbn -[Nat.min u64 repeat]. rewrite R1, R2, R3, R4. split_and!; try done.
        { by replace (Nat.min (S k) 7) with (Nat.min k 7) by lia. }
        rewrite uwrap_small by (change (2 ^ 31) with 2147483648 in Hk; change (2 ^ 64) with 18446744073709551616; lia).
        lia.
    + destruct (Nat.leb_spec (S k) 7); [|lia]. destruct (Nat.leb_spec k 7); [|lia].
      destruct Hrest as (R1 & R2 & R3 & R4).
      unfold AddReceivedChar. cbn [m_hex_mode modify_field]. rewrite Hh1.
      cbn -[Nat.min trim_lines repeat]. rewrite R1, R2, R3, R4, ?Hh1, ?Hm1.
      rewrite trim_lines_id by lia. split_and!; try done.
      rewrite <- (assoc_L (++)). f_equal.
      replace (Nat.min (S k) 7) with (S (Nat.min k 7)) by lia.
      cbn [repeat]. rewrite repeat_cons, concat_app. done.
Qed.

Lemma AddReceivedChar_printable c t :
  m_hex_mode t = false -> is_printable c = true ->
  let t' := AddReceivedChar c t in
  m_lines t' = trim_lines (m_lines t) /\ m_current_line t' = m_current_line t ++ [byte_char c] /\
  m_null_run_count t' = m_null_run_count t /\ m_suppressing t' = m_suppressing t /\
  m_suppressed_count t' = m_suppressed_count t.
Proof.
  intros Hh Hp. unfold AddReceivedChar, is_printable in *. rewrite Hh.
  destruct (Z.eqb_spec c 13); [by subst c|]. destruct (Z.eqb_spec c 10); [by subst c|].
  destruct (Z.eqb_spec c 8); [by subst c|]. destruct (Z.eqb_spec c 127); [by subst c|].
  cbn [orb]. by rewrite Hp.
Qed.

(** The noise filter.  In automatic mode a run of [k >= 8] zero bytes shows
    seven of them, then one marker line and nothing more; the next other byte
    reports exactly the [k - 7] bytes that were not shown, and is shown itself. *)
Theorem Terminal_null_run (k : nat) (c : Z) (t : SimSerialTerminal) :
  m_hex_mode t = false -> m_noise_mute t = Mute_Auto -> m_suppressing t = false ->
  m_null_run_count t = 0 -> m_suppressed_count t = 0 ->
  (length (m_lines t) + 2 <= MAX_LINES)%nat -> (8 <= k)%nat -> Z.of_nat k < 2 ^ 31 ->
  is_printable c = true ->
  let t' := receive_all (received (repeat 0 k ++ [c])) t in
  m_lines t' = m_lines t ++
    [m_current_line t ++ concat (repeat (lit "<00>") 7) ++ lit "[muted: sync/null noise]";
     lit "[" ++ lit (pretty (Z.of_nat k - 7)) ++ lit " bytes suppressed]"] /\
  m_current_line t' = [byte_char c] /\ m_null_run_count t' = 0 /\ m_suppressing t' = false /\
  m_suppressed_count t' = 0.
Proof.
  intros Hh Hm Hs Hn Hc Hl Hk8 Hk Hp t'. unfold t', received.
  rewrite map_app, receive_all_app. fold (received (repeat 0 k)).
  destruct (receive_nulls k t Hh Hm Hs Hn Hc ltac:(lia) Hk) as (Hh1 & Hm1 & Hn1 & Hrest).
  destruct (Nat.leb_spec k 7); [lia|]. destruct Hrest as (H1 & H2 & H3 & H4).
  rewrite Nat.min_r in H1 by lia.
  set (t1 := receive_all (received (repeat 0 k)) t) in *. clearbody t1.
  cbn [map receive_all fold_left fst snd].
  unfold receive. cbn [m_noise_mute modify_field]. rewrite Hm1.
  unfold is_printable in Hp.
  destruct (Z.eqb_spec c 0); [subst c; done|].
  cbn [m_suppressing m_suppressed_count modify_field]. rewrite H3, H4.
  destruct (Z.ltb_spec 0 (Z.of_nat k - 7)); [|lia]. cbn [andb].
  match goal with |- context [AddReceivedChar c ?x] =>
    destruct (AddReceivedChar_printable c x Hh1 Hp) as (-> & -> & -> & -> & ->) end.
  cbn -[trim_lines repeat pretty]. rewrite H1, H2.
  rewrite trim_lines_id by (rewrite !length_app; cbn [length]; lia).
  rewrite <- !(assoc_L (++)). done.
Qed.

Lemma Terminal_null_run_witness :
  m_lines (receive_all (received (repeat 0 10 ++ [65])) Terminal_new) =
    [lit "[Serial terminal ready]";
     lit "<00><00><00><00><00><00><00>[muted: sync/null noise]"; lit "[3 bytes suppressed]"].
Proof.
  refine (eq_trans (proj1 (Terminal_null_run 10 65 Terminal_new _ _ _ _ _ _ _ _ _)) _);
    try reflexivity; vm_compute; lia.
Defined.

(** ** Sending *)

Lemma send_bytes_queue (bytes : list Z) (t : SimSerialTerminal) :
  let t' := fold_left (fun t c => send_byte c t) bytes t in
  m_uart t' = (m_uart t) <| m_tx_queue := m_tx_queue (m_uart t) ++ bytes |> /\
  m_line_ending t' = m_line_ending t.
Proof.
  revert t. induction bytes as [|c bytes IH]; intros t.
  - cbn. split; [|done]. rewrite app_nil_r. by destruct (m_uart t).
  - cbn [fold_left]. destruct (IH (send_byte c t)) as [-> ->]. split; [|done].
    cbn. by rewrite <- (assoc_L (++)).
Qed.

Lemma SendInput_uart t :
  m_uart (SendInput t) = (m_uart t) <| m_tx_queue :=
    m_tx_queue (m_uart t) ++ map char_byte (m_input_buf t) ++ terminator (m_line_ending t) |>.
Proof.
  assert (H : SendInput t = (fold_left (fun t c => send_byte c t)
    (map char_byte (m_input_buf t) ++ terminator (m_line_ending t)) t) <| m_input_buf := [] |>).
  { unfold SendInput. rewrite fold_left_app.
    assert (Hm : forall l t0, fold_left (fun t c => send_byte (char_byte c) t) l t0 =
              fold_left (fun t c => send_byte c t) (map char_byte l) t0).
    { intros l. induction l as [|c l IH]; intros t0; [done|]. cbn. apply IH. }
    rewrite Hm.
    destruct (send_bytes_queue (map char_byte (m_input_buf t)) t) as [_ Hle].
    rewrite Hle. by destruct (m_line_ending t). }
  rewrite H. cbn [m_uart modify_field]. by destruct (send_bytes_queue
    (map char_byte (m_input_buf t) ++ terminator (m_line_ending t)) t) as [-> _].
Qed.

Fixpoint terminal_run (w : nat -> bool) (t0 n : nat) (t : SimSerialTerminal) : SimSerialTerminal :=
  match n with
  | O => t
  | S n' => terminal_run w (S t0) n' (Terminal_Tick (w t0) t)
  end.

(** The run of nulls grows by one at most. *)
Lemma AddReceivedChar_null c t : m_null_run_count (AddReceivedChar c t) = m_null_run_count t.
Proof.
  unfold AddReceivedChar. destruct (m_hex_mode t); [by destruct (Nat.ltb 72 _)|].
  destruct (c =? 13); [done|]. destruct (c =? 10); [by destruct (m_last_was_cr t)|].
  destruct (_ || _); [done|]. by destruct (_ && _).
Qed.

Lemma receive_null byte f t k :
  0 <= m_null_run_count t <= k -> 0 <= m_null_run_count (receive byte f t) <= k + 1.
Proof.
  intros Hk. unfold receive. destruct f; cbn [m_noise_mute modify_field];
    (destruct (m_noise_mute t); [rewrite AddReceivedChar_null; cbn; lia| |cbn; lia]);
    (destruct (byte =? 0);
     [cbn [m_null_run_count m_suppressing modify_field];
      destruct (NULL_RUN_THRESHOLD <=? m_null_run_count t + 1);
        [destruct (m_suppressing t); cbn; lia|rewrite AddReceivedChar_null; cbn; lia]
     |rewrite AddReceivedChar_null; cbn; lia]).
Qed.

Lemma Tick_null p t k :
  0 <= m_null_run_count t <= k -> 0 <= m_null_run_count (Terminal_Tick p t) <= k + 1.
Proof.
  intros Hk. unfold Terminal_Tick. destruct (m_rx_ready _); [|cbn; lia].
  change (0 <= m_null_run_count (receive (m_rx_byte (m_uart (t <| m_uart ::= RxTick p |>)))
    (m_rx_frame_error (m_uart (t <| m_uart ::= RxTick p |>))) (t <| m_uart ::= RxTick p |>)) <= k + 1).
  by apply receive_null.
Qed.

Lemma AddReceivedChar_uart c t u :
  AddReceivedChar c (t <| m_uart := u |>) = (AddReceivedChar c t) <| m_uart := u |>.
Proof.
  unfold AddReceivedChar. cbn [m_hex_mode m_current_line m_last_was_cr modify_field].
  destruct (m_hex_mode t); [by destruct (Nat.ltb 72 (length (_ ++ _)))|].
  destruct (c =? 13); [done|]. destruct (c =? 10); [by destruct (m_last_was_cr t)|].
  destruct (_ || _); [done|]. by destruct (_ && _).
Qed.

Lemma receive_uart byte f t u :
  receive byte f (t <| m_uart := u |>) = (receive byte f t) <| m_uart := u |>.
Proof.
  unfold receive. destruct f; cbn [m_noise_mute modify_field];
    (destruct (m_noise_mute t);
     [etransitivity; [|apply AddReceivedChar_uart]; reflexivity| |reflexivity]);
    (destruct (byte =? 0);
     [destruct (NULL_RUN_THRESHOLD <=? m_null_run_count t + 1) eqn:E;
        cbn [m_null_run_count m_suppressing modify_field]; rewrite E;
        [by destruct (m_suppressing t)
        |etransitivity; [|apply AddReceivedChar_uart]; reflexivity]
     |]);
    (etransitivity; [|apply AddReceivedChar_uart]);
    cbn [m_suppressing m_suppressed_count modify_field];
    by destruct (m_suppressing t && (0 <? m_suppressed_count t)).
Qed.

Lemma RxTick_tx p u :
  m_tx_state (RxTick p u) = m_tx_state u /\ m_tx_pin (RxTick p u) = m_tx_pin u /\
  m_tx_queue (RxTick p u) = m_tx_queue u.
Proof.
  unfold RxTick. cbn [m_rx_state modify_field].
  destruct (m_rx_state u); [destruct (_ && _)|..]; try destruct (0 <? _); try destruct p; try done;
    cbn; by destruct (_ <=? _).
Qed.

(** The terminal is its receiver and what it does with the bytes. *)
Lemma terminal_run_receive w t0 n t :
  tx_idle [] (m_uart t) ->
  terminal_run w t0 n t =
    (receive_all (rx_run w t0 n (m_uart t)).2 t) <| m_uart := (rx_run w t0 n (m_uart t)).1 |>.
Proof.
  revert t0 t. induction n as [|n IH]; intros t0 t Hi; [by destruct t|].
  cbn [terminal_run rx_run]. set (u1 := RxTick (w t0) (m_uart t)).
  assert (Hi1 : tx_idle [] u1).
  { unfold u1, tx_idle. by destruct (RxTick_tx (w t0) (m_uart t)) as (-> & -> & ->). }
  assert (Htx : TxTick u1 = u1).
  { destruct Hi1 as (H1 & _ & H3). unfold TxTick. by rewrite H1, H3. }
  set (t1 := if m_rx_ready u1 then receive (m_rx_byte u1) (m_rx_frame_error u1) t else t).
  assert (Ht : Terminal_Tick (w t0) t = t1 <| m_uart := u1 |>).
  { unfold Terminal_Tick, t1. cbn [m_uart modify_field].
    fold u1. destruct (m_rx_ready u1).
    - change (t <| m_uart ::= RxTick (w t0) |>) with (t <| m_uart := u1 |>).
      rewrite receive_uart. cbn [m_uart modify_field].
      transitivity ((receive (m_rx_byte u1) (m_rx_frame_error u1) t) <| m_uart := TxTick u1 |>);
        [reflexivity | by rewrite Htx].
    - transitivity (t <| m_uart := TxTick u1 |>); [reflexivity | by rewrite Htx]. }
  rewrite Ht, IH by exact Hi1. cbn [m_uart modify_field].
  destruct (rx_run w (S t0) n u1) as [u2 out]. cbn [fst snd].
  assert (Hall : forall l t2 u, receive_all l (t2 <| m_uart := u |>) = (receive_all l t2) <| m_uart := u |>).
  { intros l. induction l as [|[b f] l IHl]; intros t2 u; [done|].
    cbn [receive_all fold_left fst snd]. rewrite receive_uart. apply IHl. }
  rewrite Hall, receive_all_app. cbn [modify_field]. unfold t1.
  by destruct (m_rx_ready u1).
Qed.

Lemma byte_char_byte c : byte_char (char_byte c) = c.
Proof. unfold byte_char, char_byte. by rewrite N2Z.id, ascii_N_embedding. Qed.

Lemma char_byte_range c : 0 <= char_byte c < 256.
Proof.
  unfold char_byte. pose proof (N_ascii_bounded c). lia.
Qed.

(** C30: a line typed into one terminal appears in the other.  [SendInput] on the
    first, its UART driving the line for the time of the frames, and the
    second one ticking on the levels: the second shows exactly the typed line as
    its next line, for every baud rate, parity, stop bits and line ending. *)
Theorem Terminal_to_terminal (C stops : nat) (parity even : bool) (a b : SimSerialTerminal) :
  (1 <= C)%nat -> (1 <= stops)%nat ->
  tx_config C 8 stops parity even (m_uart a) -> tx_idle [] (m_uart a) ->
  rx_config C 8 parity (m_uart b) -> rx_idle true (m_uart b) -> tx_idle [] (m_uart b) ->
  text_mode b -> m_current_line b = [] -> m_last_was_cr b = false ->
  (length (m_lines b) < MAX_LINES)%nat ->
  Forall (fun c => is_printable (char_byte c) = true) (m_input_buf a) ->
  let ticks := ((length (m_input_buf a) + length (terminator (m_line_ending a)))
                  * frame_ticks C 8 stops parity)%nat in
  let pins := (tx_run ticks (m_uart (SendInput a))).2 in
  let b' := terminal_run (fun t => default true (pins !! t)) 0 ticks b in
  m_lines b' = m_lines b ++ [m_input_buf a] /\ m_current_line b' = [].
Proof.
  intros HC Hs Hta Hia Hrb Hib Htb Ht Hc Hcr Hlen Hp ticks pins b'.
  set (bytes := map char_byte (m_input_buf a) ++ terminator (m_line_ending a)).
  assert (Hbytes : length bytes =
    (length (m_input_buf a) + length (terminator (m_line_ending a)))%nat)
    by (unfold bytes; by rewrite length_app, length_map).
  assert (Hia' : tx_idle bytes (m_uart (SendInput a))).
  { rewrite SendInput_uart. destruct Hia as (H1 & H2 & H3). rewrite H3. by repeat split. }
  assert (Hta' : tx_config C 8 stops parity even (m_uart (SendInput a)))
    by (rewrite SendInput_uart; exact Hta).
  destruct (tx_frames C 8 stops parity even HC ltac:(lia) Hs bytes _ Hta' Hia') as (u' & Hr & _).
  rewrite Hbytes in Hr. fold ticks in Hr.
  destruct (wire_receive C 8 stops parity even HC ltac:(lia) Hs bytes
              (fun t => default true (pins !! t)) 0 (m_uart b) Hrb Hib) as (u2 & Hr2 & _).
  { intros t _. cbn [Nat.add]. unfold pins. by rewrite Hr. }
  rewrite Hbytes in Hr2. fold ticks in Hr2.
  unfold b'. rewrite terminal_run_receive, Hr2 by done. cbn [fst snd m_lines m_current_line modify_field].
  assert (Hmod : map (fun byte => (byte `mod` 2 ^ Z.of_nat 8, false)) bytes = received bytes).
  { apply map_ext_in. intros z Hz. f_equal. apply Z.mod_small. change (2 ^ Z.of_nat 8) with 256.
    unfold bytes in Hz. apply in_app_iff in Hz as [(c & <- & _)%in_map_iff|Hz].
    - apply char_byte_range.
    - destruct (m_line_ending a); cbn in Hz; lia. }
  rewrite Hmod. unfold bytes.
  destruct (receive_line (m_line_ending a) (map char_byte (m_input_buf a)) b (m_lines b) false)
    as (cr' & _ & (H1 & H2 & _) & _); try done.
  { by apply Forall_map. }
  split; [|done]. rewrite H1. do 2 f_equal. unfold text_of. rewrite map_map.
  rewrite <- (map_id (m_input_buf a)) at 2. apply map_ext. intros c. apply byte_char_byte.
Qed.

Definition test_receiver : SimSerialTerminal := UpdateConfigDirect 1 8 1 false false Terminal_new.
Definition test_sender : SimSerialTerminal := test_receiver <| m_input_buf := lit "Hi" |>.

Lemma Terminal_to_terminal_witness :
  let ticks := ((length (m_input_buf test_sender) + length (terminator (m_line_ending test_sender)))
                  * frame_ticks 1 8 1 false)%nat in
  let pins := (tx_run ticks (m_uart (SendInput test_sender))).2 in
  m_lines (terminal_run (fun t => default true (pins !! t)) 0 ticks test_receiver)
    = m_lines test_receiver ++ [m_input_buf test_sender].
Proof.
  refine (proj1 (Terminal_to_terminal 1 1 false false test_sender test_receiver _ _ _ _ _ _ _ _ _ _ _ _)).
  - lia.
  - lia.
  - by repeat split.
  - by repeat split.
  - by repeat split.
  - by repeat split.
  - by repeat split.
  - by repeat split.
  - reflexivity.
  - reflexivity.
  - vm_compute. lia.
  - repeat constructor.
Defined.
