(* ===== verification/Video.v ===== *)
(** * The video output of the simulation (sim/sim_video.cpp)

    [SimVideo_Clock] follows the blanking and sync signals of the core, one call
    per pixel clock, and writes the visible pixels to the texture memory.  The
    texture is the list of its 32-bit pixels; the members of the object and the
    file's globals are one record.  The host clock is an input, in milliseconds;
    times are whole numbers of milliseconds, which a [double] holds exactly, and
    the frame rate is the exact quotient.  The window and the upload of the
    texture are not part of the model. *)

From Stdlib Require Import QArith.
From S2P Require Import Prelude.

Record VideoIn := MkVideoIn {
  hblank : bool; vblank : bool; hsync : bool; vsync : bool; colour : Z;
  host_ms : Z (* what [gettimeofday] says during the call *) }.

Record SimVideo := MkSimVideo {
  output_width : Z;
  output_height : Z;
  output_rotate : Z;
  output_vflip : bool;
  output_ptr : list Z;
  count_pixel : Z;
  count_line : Z;
  count_frame : Z;
  last_hblank : bool;
  last_vblank : bool;
  last_hsync : bool;
  last_vsync : bool;
  frame_ready : bool;
  old_time : Z;
  stats_frameTime : Z;
  stats_fps : option Q (* [None]: a division by zero *);
  stats_xMax : Z; stats_yMax : Z; stats_xMin : Z; stats_yMin : Z;
  dbg_de : Z; dbg_cmin : Z; dbg_cmax : Z; dbg_hbf : Z }.

#[export] Instance eta_SimVideo : Eta SimVideo := fun v =>
  MkSimVideo (output_width v) (output_height v) (output_rotate v) (output_vflip v) (output_ptr v)
    (count_pixel v) (count_line v) (count_frame v) (last_hblank v) (last_vblank v)
    (last_hsync v) (last_vsync v) (frame_ready v) (old_time v)
    (stats_frameTime v) (stats_fps v) (stats_xMax v) (stats_yMax v) (stats_xMin v)
    (stats_yMin v) (dbg_de v) (dbg_cmin v) (dbg_cmax v) (dbg_hbf v).

(** The constructor; the texture is not allocated yet. *)
Definition SimVideo_new (width height rotate : Z) : SimVideo :=
  MkSimVideo width height rotate false [] 0 0 0 false false false false true
    0 0 (Some 0%Q) (-1000) (-1000) 1000 1000 0 0xFFFFFFFF 0 0.

(** The texture memory, filled with 0xAA bytes. *)
Definition SimVideo_Initialise (v : SimVideo) : SimVideo :=
  v <| output_ptr := replicate (Z.to_nat (output_width v * output_height v)) 0xAAAAAAAA |>.

Definition SimVideo_UpdateTexture (v : SimVideo) : SimVideo := v <| frame_ready := false |>.

Definition clamp (x hi : Z) : Z :=
  let x := if x <? 0 then 0 else x in
  if hi <? x then hi else x.

(** The texture address of the current pixel. *)
Definition vga_addr (v : SimVideo) : Z :=
  let ox := count_pixel v - 1 in
  let oy := count_line v - 1 in
  let '(x, y) := (ox, oy) in
  let '(x, y) := if output_rotate v =? -1 then (oy, output_height v - ox) else (x, y) in
  let '(x, y) := if output_rotate v =? 1 then (output_width v - oy, ox) else (x, y) in
  let y := if output_vflip v then output_height v - y else y in
  let x := clamp x (output_width v - 1) in
  let y := clamp y (output_height v - 1) in
  u32 (y * output_width v + x).

(** The five parts of [Clock]: the counters, the end of the frame, the pixel, the
    bounds, and the per-frame summary. *)

(** [++] of an [int]. *)
Definition increment (f : SimVideo -> Z) `{!Setter f} (v : SimVideo) : option SimVideo :=
  n ← checked_int (f v + 1); Some (modify_field (get := f) (fun _ => n) v).

Definition count_phase (i : VideoIn) (v : SimVideo) : option SimVideo :=
  let de := negb (hblank i || vblank i) in
  let hb_falling := negb (hblank i) && last_hblank v in
  if negb (vblank i) then
    v ← (if hb_falling then v ← increment count_line v; Some (v <| count_pixel := 0 |>) else Some v);
    if de then increment count_pixel v else Some v
  else Some v.

Definition fps (frame_time : Z) : option Q :=
  if frame_time =? 0 then None else Some (1000 / inject_Z frame_time)%Q.

Definition frame_phase (i : VideoIn) (v : SimVideo) : option SimVideo :=
  if last_vsync v && negb (vsync i) then
    v ← increment count_frame v;
    let v := v <| count_line := 0 |> <| frame_ready := true |> in
    let v := v <| stats_frameTime := host_ms i - old_time v |> in
    let v := v <| old_time := host_ms i |> in
    Some (v <| stats_fps := fps (stats_frameTime v) |>)
  else Some v.

(** A write out of the texture is a fault. *)
Definition draw_phase (i : VideoIn) (v : SimVideo) : option SimVideo :=
  let de := negb (hblank i || vblank i) in
  if de then
    if vga_addr v <? Z.of_nat (length (output_ptr v))
    then Some (v <| output_ptr ::= <[Z.to_nat (vga_addr v) := u32 (colour i)]> |>) else None
  else Some v.

Definition bounds_phase (v : SimVideo) : SimVideo :=
  v <| stats_xMax := if stats_xMax v <? count_pixel v then count_pixel v else stats_xMax v |>
    <| stats_yMax := if stats_yMax v <? count_line v then count_line v else stats_yMax v |>
    <| stats_xMin := if count_pixel v <? stats_xMin v then count_pixel v else stats_xMin v |>
    <| stats_yMin := if count_line v <? stats_yMin v then count_line v else stats_yMin v |>.

Definition summary_phase (i : VideoIn) (v : SimVideo) : option SimVideo :=
  let de := negb (hblank i || vblank i) in
  let hb_falling := negb (hblank i) && last_hblank v in
  let vs_rising := vsync i && negb (last_vsync v) in
  let v := if de then
             v <| dbg_de := u64 (dbg_de v + 1) |>
               <| dbg_cmin := if colour i <? dbg_cmin v then colour i else dbg_cmin v |>
               <| dbg_cmax := if dbg_cmax v <? colour i then colour i else dbg_cmax v |>
           else v in
  v ← (if hb_falling then increment dbg_hbf v else Some v);
  Some (if vs_rising then
          v <| dbg_de := 0 |> <| dbg_cmin := 0xFFFFFFFF |> <| dbg_cmax := 0 |> <| dbg_hbf := 0 |>
        else v).

Definition SimVideo_Clock (i : VideoIn) (v : SimVideo) : option SimVideo :=
  v ← count_phase i v;
  v ← frame_phase i v;
  v ← draw_phase i v;
  v ← summary_phase i (bounds_phase v);
  Some (v <| last_hblank := hblank i |> <| last_vblank := vblank i |>
          <| last_hsync := hsync i |> <| last_vsync := vsync i |>).

(** *** The values of a call

    What a call computes when nothing overflows and the pixel is in the texture. *)

Definition count_next (i : VideoIn) (v : SimVideo) : SimVideo :=
  let v1 := if negb (hblank i) && last_hblank v
            then v <| count_line := count_line v + 1 |> <| count_pixel := 0 |> else v in
  if vblank i then v else if hblank i then v1 else v1 <| count_pixel := count_pixel v1 + 1 |>.

Definition sync_next (i : VideoIn) (v : SimVideo) : SimVideo :=
  if last_vsync v && negb (vsync i) then
    v <| count_frame := count_frame v + 1 |> <| count_line := 0 |> <| frame_ready := true |>
      <| stats_frameTime := host_ms i - old_time v |> <| old_time := host_ms i |>
      <| stats_fps := fps (host_ms i - old_time v) |>
  else v.

Definition draw_next (i : VideoIn) (v : SimVideo) : SimVideo :=
  if hblank i || vblank i then v
  else v <| output_ptr ::= <[Z.to_nat (vga_addr v) := u32 (colour i)]> |>.

Definition summary_next (i : VideoIn) (v : SimVideo) : SimVideo :=
  let de := negb (hblank i || vblank i) in
  if vsync i && negb (last_vsync v) then
    v <| dbg_de := 0 |> <| dbg_cmin := 0xFFFFFFFF |> <| dbg_cmax := 0 |> <| dbg_hbf := 0 |>
  else
    v <| dbg_de := if de then u64 (dbg_de v + 1) else dbg_de v |>
      <| dbg_cmin := if de && (colour i <? dbg_cmin v) then colour i else dbg_cmin v |>
      <| dbg_cmax := if de && (dbg_cmax v <? colour i) then colour i else dbg_cmax v |>
      <| dbg_hbf := if negb (hblank i) && last_hblank v then dbg_hbf v + 1 else dbg_hbf v |>.

Definition Clock_next (i : VideoIn) (v : SimVideo) : SimVideo :=
  let v := summary_next i (bounds_phase (draw_next i (sync_next i (count_next i v)))) in
  v <| last_hblank := hblank i |> <| last_vblank := vblank i |>
    <| last_hsync := hsync i |> <| last_vsync := vsync i |>.

(** ** The texture address *)

Definition video_ok (v : SimVideo) : Prop :=
  1 <= output_width v /\ 1 <= output_height v /\
  output_width v * output_height v < 2 ^ 31 /\
  length (output_ptr v) = Z.to_nat (output_width v * output_height v).

Lemma clamp_range x hi : 0 <= hi -> 0 <= clamp x hi <= hi.
Proof. intros H. unfold clamp. cbn zeta. zcases; lia. Qed.

Lemma clamp_id x hi : 0 <= x <= hi -> clamp x hi = x.
Proof.
  intros H. unfold clamp. rewrite (proj2 (Z.ltb_ge x 0)) by lia.
  by rewrite (proj2 (Z.ltb_ge hi x)) by lia.
Qed.

Lemma addr_range w h x y :
  0 <= x < w -> 0 <= y < h -> w * h < 2 ^ 31 -> 0 <= y * w + x < w * h.
Proof. intros Hx Hy Hwh. nia. Qed.

Lemma vga_addr_range v : video_ok v -> 0 <= vga_addr v < output_width v * output_height v.
Proof.
  intros (Hw & Hh & Hwh & _). unfold vga_addr.
  destruct (output_rotate v =? -1), (output_rotate v =? 1), (output_vflip v); cbn beta iota zeta;
    match goal with |- context [clamp ?y (output_height v - 1) * _ + clamp ?x (output_width v - 1)] =>
      pose proof (clamp_range x (output_width v - 1) ltac:(lia));
      pose proof (clamp_range y (output_height v - 1) ltac:(lia));
      pose proof (addr_range (output_width v) (output_height v)
        (clamp x (output_width v - 1)) (clamp y (output_height v - 1)) ltac:(lia) ltac:(lia) Hwh) end;
    (rewrite uwrap_small; [done|]); change (2 ^ 31) with 2147483648 in Hwh;
    change (2 ^ 32) with 4294967296; lia.
Qed.

(** The bounds and the summary leave the picture alone. *)
Definition same_picture (v v' : SimVideo) : Prop :=
  output_width v' = output_width v /\ output_height v' = output_height v /\
  output_rotate v' = output_rotate v /\ output_vflip v' = output_vflip v /\
  output_ptr v' = output_ptr v /\ count_pixel v' = count_pixel v /\ count_line v' = count_line v.

Lemma finish_picture i v : same_picture v (summary_next i (bounds_phase v)).
Proof. unfold summary_next. destruct (vsync i && _); by repeat split. Qed.

Lemma count_next_setup i v :
  let v' := sync_next i (count_next i v) in
  output_width v' = output_width v /\ output_height v' = output_height v /\
  output_rotate v' = output_rotate v /\ output_vflip v' = output_vflip v /\
  output_ptr v' = output_ptr v.
Proof.
  assert (H : forall v, let v' := count_next i v in
    output_width v' = output_width v /\ output_height v' = output_height v /\
    output_rotate v' = output_rotate v /\ output_vflip v' = output_vflip v /\
    output_ptr v' = output_ptr v).
  { intros w. unfold count_next. by destruct (vblank i), (hblank i), (last_hblank w). }
  cbn zeta. unfold sync_next. destruct (H v) as (<- & <- & <- & <- & <-).
  by destruct (last_vsync _ && negb (vsync i)).
Qed.

Lemma video_ok_eq v v' :
  output_width v' = output_width v -> output_height v' = output_height v ->
  length (output_ptr v') = length (output_ptr v) -> video_ok v -> video_ok v'.
Proof. unfold video_ok. by intros -> -> ->. Qed.

(** The pixel of a call: the list update is at an index of the texture. *)
Lemma Clock_draws i v :
  let v1 := sync_next i (count_next i v) in
  output_ptr (Clock_next i v) =
    (if hblank i || vblank i then output_ptr v
     else <[Z.to_nat (vga_addr v1) := u32 (colour i)]> (output_ptr v)) /\
  count_pixel (Clock_next i v) = count_pixel v1 /\ count_line (Clock_next i v) = count_line v1.
Proof.
  destruct (count_next_setup i v) as (_ & _ & _ & _ & Hp). cbn zeta in *.
  set (v1 := sync_next i (count_next i v)) in *.
  destruct (finish_picture i (draw_next i v1)) as (_ & _ & _ & _ & Hp2 & Hx & Hy).
  unfold Clock_next. cbn zeta. fold v1. cbn [output_ptr count_pixel count_line modify_field].
  rewrite Hp2, Hx, Hy. unfold draw_next. destruct (hblank i || vblank i); cbn; by rewrite Hp.
Qed.

Lemma Clock_setup i v :
  output_width (Clock_next i v) = output_width v /\
  output_height (Clock_next i v) = output_height v /\
  output_rotate (Clock_next i v) = output_rotate v /\
  output_vflip (Clock_next i v) = output_vflip v.
Proof.
  destruct (count_next_setup i v) as (H1 & H2 & H3 & H4 & _). cbn zeta in *.
  set (v1 := sync_next i (count_next i v)) in *.
  destruct (finish_picture i (draw_next i v1)) as (E1 & E2 & E3 & E4 & _).
  unfold Clock_next. cbn zeta. fold v1.
  cbn [output_width output_height output_rotate output_vflip modify_field].
  rewrite E1, E2, E3, E4. unfold draw_next. by destruct (hblank i || vblank i).
Qed.

Lemma Clock_ok i v : video_ok v -> video_ok (Clock_next i v).
Proof.
  destruct (Clock_setup i v) as (H1 & H2 & _).
  apply video_ok_eq; [done | done |].
  destruct (Clock_draws i v) as [-> _]. destruct (_ || _); [done | by rewrite length_insert].
Qed.

(** *** When a call is defined *)

Definition call_fits (i : VideoIn) (v : SimVideo) : Prop :=
  let falls := negb (hblank i) && last_hblank v in
  (falls = true -> 0 <= count_line v < INT_MAX /\ 0 <= dbg_hbf v < INT_MAX) /\
  (falls = false -> hblank i = false -> 0 <= count_pixel v < INT_MAX) /\
  (last_vsync v && negb (vsync i) = true -> 0 <= count_frame v < INT_MAX).

Lemma increment_fits f `{!Setter f} (v : SimVideo) :
  0 <= f v < INT_MAX -> increment f v = Some (modify_field (get := f) (fun _ => f v + 1) v).
Proof. intros Hf. unfold increment. by rewrite checked_int_small by lia. Qed.

Lemma count_defined i v : call_fits i v -> count_phase i v = Some (count_next i v).
Proof.
  intros (H1 & H2 & _). unfold count_phase, count_next. destruct (vblank i); [done|].
  rewrite orb_false_r. destruct (hblank i) eqn:Eh; cbn [negb andb] in *; [done|].
  destruct (last_hblank v).
  - rewrite increment_fits by (by apply H1). cbn [mbind option_bind]. by rewrite increment_fits.
  - cbn [mbind option_bind]. rewrite increment_fits; [done|]. by apply H2.
Qed.

Lemma count_keeps i v :
  let v' := count_next i v in
  last_vsync v' = last_vsync v /\ last_hblank v' = last_hblank v /\ count_frame v' = count_frame v /\ dbg_hbf v' = dbg_hbf v.
Proof. cbn zeta. unfold count_next. by destruct (vblank i), (hblank i), (last_hblank v) eqn:E; cbn; rewrite ?E; repeat split. Qed.

Lemma sync_defined i v :
  (last_vsync v && negb (vsync i) = true -> 0 <= count_frame v < INT_MAX) -> frame_phase i v = Some (sync_next i v).
Proof.
  intros Hf. unfold frame_phase, sync_next. destruct (_ && _); [|done].
  by rewrite increment_fits by (by apply Hf).
Qed.

Lemma sync_keeps i v : last_hblank (sync_next i v) = last_hblank v /\ dbg_hbf (sync_next i v) = dbg_hbf v.
Proof. unfold sync_next. by destruct (_ && _). Qed.

Lemma draw_defined i v : video_ok v -> draw_phase i v = Some (draw_next i v).
Proof.
  intros Hok. unfold draw_phase, draw_next. pose proof (vga_addr_range v Hok) as Ha.
  destruct Hok as (_ & _ & _ & Hl). destruct (_ || _); [done|]. cbn [negb].
  rewrite Hl, Z2Nat.id by lia. by rewrite (proj2 (Z.ltb_lt _ _)) by lia.
Qed.

Lemma draw_keeps i v : let v' := bounds_phase (draw_next i v) in last_hblank v' = last_hblank v /\ dbg_hbf v' = dbg_hbf v.
Proof. cbn zeta. unfold draw_next. by destruct (_ || _). Qed.

Lemma summary_defined i v :
  (negb (hblank i) && last_hblank v = true -> 0 <= dbg_hbf v < INT_MAX) -> summary_phase i v = Some (summary_next i v).
Proof.
  intros Hd. unfold summary_phase. cbv zeta. set (de := negb (hblank i || vblank i)).
  set (v1 := if de then _ else v).
  assert (E : dbg_hbf v1 = dbg_hbf v) by (unfold v1; by destruct de).
  destruct (negb (hblank i) && last_hblank v) eqn:Eh.
  - rewrite increment_fits by (rewrite E; by apply Hd). cbn [mbind option_bind]. rewrite E.
    unfold summary_next, v1. fold de. rewrite Eh. destruct v, de, (vsync i && _) eqn:Ev; cbn in Ev |- *; rewrite ?Ev; done.
  - cbn [mbind option_bind]. unfold summary_next, v1. fold de. rewrite Eh.
    destruct v, de, (vsync i && _) eqn:Ev; cbn in Ev |- *; rewrite ?Ev; done.
Qed.

Lemma Clock_defined i v : video_ok v -> call_fits i v -> SimVideo_Clock i v = Some (Clock_next i v).
Proof.
  intros Hok Hf. unfold SimVideo_Clock. rewrite (count_defined i v Hf). cbn [mbind option_bind].
  destruct Hf as (H1 & _ & H3). destruct (count_keeps i v) as (E1 & E2 & E3 & E4).
  rewrite sync_defined by (by rewrite E1, E3). cbn [mbind option_bind].
  destruct (count_next_setup i v) as (D1 & D2 & _ & _ & D5). cbn zeta in *.
  rewrite draw_defined by (by apply (video_ok_eq v); [..|rewrite D5|]). cbn [mbind option_bind].
  destruct (draw_keeps i (sync_next i (count_next i v))) as [F1 F2].
  destruct (sync_keeps i (count_next i v)) as [G1 G2].
  rewrite summary_defined; [done|]. rewrite F1, F2, G1, G2, E2, E4. apply H1.
Qed.

(** All the counters are at most [k]. *)
Definition counters (k : Z) (v : SimVideo) : Prop :=
  0 <= count_pixel v <= k /\ 0 <= count_line v <= k /\ 0 <= count_frame v <= k /\ 0 <= dbg_hbf v <= k.

Lemma counters_le k k' v : counters k v -> k <= k' -> counters k' v.
Proof. unfold counters. lia. Qed.

Lemma counters_fit k i v : counters k v -> k < INT_MAX -> call_fits i v.
Proof. unfold counters, call_fits. intros. split_and!; lia. Qed.

Lemma Clock_counters k i v : counters k v -> counters (k + 1) (Clock_next i v).
Proof.
  unfold counters. intros (H1 & H2 & H3 & H4). destruct (Clock_draws i v) as (_ & -> & ->).
  assert (Hc : 0 <= count_pixel (count_next i v) <= k + 1 /\ 0 <= count_line (count_next i v) <= k + 1).
  { unfold count_next. destruct (vblank i), (hblank i), (last_hblank v); cbn; lia. }
  destruct (count_keeps i v) as (_ & K2 & K3 & K4). set (w := count_next i v) in *.
  assert (Hs : 0 <= count_pixel (sync_next i w) <= k + 1 /\ 0 <= count_line (sync_next i w) <= k + 1 /\
               0 <= count_frame (sync_next i w) <= k + 1).
  { unfold sync_next. destruct (_ && _); cbn; lia. }
  destruct (sync_keeps i w) as [G1 G2].
  assert (Hn : count_frame (Clock_next i v) = count_frame (sync_next i w) /\ 0 <= dbg_hbf (Clock_next i v) <= k + 1).
  { unfold Clock_next. fold w. destruct (draw_keeps i (sync_next i w)) as [F1 F2].
    assert (Ef : count_frame (bounds_phase (draw_next i (sync_next i w))) = count_frame (sync_next i w))
      by (unfold draw_next; by destruct (_ || _)).
    set (u := bounds_phase _) in *. clearbody u. unfold summary_next.
    destruct (vsync i && _); cbn; [lia|]. rewrite F2, G2, K4. destruct (_ && _); lia. }
  lia.
Qed.

Lemma Initialise_ok width height rotate :
  1 <= width -> 1 <= height -> width * height < 2 ^ 31 ->
  video_ok (SimVideo_Initialise (SimVideo_new width height rotate)).
Proof. intros Hw Hh Hwh. split_and!; try done. apply length_replicate. Qed.

Fixpoint clock_frame (ins : list VideoIn) (v : SimVideo) : option SimVideo :=
  match ins with [] => Some v | i :: ins => v ← SimVideo_Clock i v; clock_frame ins v end.

Lemma clock_frame_app ins ins' v : clock_frame (ins ++ ins') v = v1 ← clock_frame ins v; clock_frame ins' v1.
Proof.
  revert v. induction ins as [|i ins IH]; intros v; [done|]. cbn [app clock_frame].
  destruct (SimVideo_Clock i v); [apply IH|done].
Qed.

Lemma clock_frame_counters ins k v :
  video_ok v -> counters k v -> k + Z.of_nat (length ins) <= INT_MAX ->
  exists v', clock_frame ins v = Some v' /\ video_ok v' /\ counters (k + Z.of_nat (length ins)) v' /\
    output_width v' = output_width v /\ output_height v' = output_height v.
Proof.
  revert k v. induction ins as [|i ins IH]; intros k v Hok Hc Hk.
  - exists v. split_and!; try done. by apply (counters_le k); [|lia].
  - cbn [clock_frame length] in *. rewrite Clock_defined by (done || apply (counters_fit k); done || lia).
    cbn [mbind option_bind]. destruct (IH (k + 1) (Clock_next i v)) as (v' & -> & H1 & H2 & H3 & H4);
      [by apply Clock_ok|by apply Clock_counters|lia|].
    destruct (Clock_setup i v) as (E1 & E2 & _). exists v'.
    split_and!; [done|done| |congruence|congruence]. apply (counters_le _ _ _ H2). lia.
Qed.

(** No access outside the texture and no overflow.  Whatever the core's video signals do -
    any number of lines and pixels, any rotation, with or without flip - in fewer than
    [2 ^ 31] calls no counter leaves its [int], every pixel goes to an address inside the
    texture, and the size of the texture never changes. *)
Theorem video_address_in_bounds (width height rotate : Z) (ins : list VideoIn) :
  1 <= width -> 1 <= height -> width * height < 2 ^ 31 -> Z.of_nat (length ins) < 2 ^ 31 ->
  exists v, clock_frame ins (SimVideo_Initialise (SimVideo_new width height rotate)) = Some v /\
    length (output_ptr v) = Z.to_nat (width * height).
Proof.
  intros Hw Hh Hwh Hn. change (2 ^ 31) with 2147483648 in Hn.
  destruct (clock_frame_counters ins 0 (SimVideo_Initialise (SimVideo_new width height rotate)))
    as (v & -> & (_ & _ & _ & Hl) & _ & E1 & E2).
  - by apply Initialise_ok.
  - unfold counters. cbn. lia.
  - unfold INT_MAX. lia.
  - exists v. split; [done|]. by rewrite Hl, E1, E2.
Qed.

Lemma video_address_in_bounds_witness :
  exists v, clock_frame [MkVideoIn false false false false 0 0] (SimVideo_Initialise (SimVideo_new 3 2 0)) = Some v /\
    length (output_ptr v) = 6%nat.
Proof. apply (video_address_in_bounds 3 2 0 [MkVideoIn false false false false 0 0]); cbn; lia. Defined.

(** ** The picture *)

Lemma Clock_latches i v :
  last_hblank (Clock_next i v) = hblank i /\ last_vsync (Clock_next i v) = vsync i.
Proof. done. Qed.

(** A call in the horizontal blank of a visible line. *)
Lemma blank_step i v :
  hblank i = true -> vblank i = false -> last_vsync v = vsync i -> video_ok v ->
  let v' := Clock_next i v in
  SimVideo_Clock i v = Some v' /\
  output_ptr v' = output_ptr v /\ count_line v' = count_line v /\ last_hblank v' = true /\
  dbg_hbf v' = dbg_hbf v.
Proof.
  intros Hh Hv Hs Hok. cbn zeta. split.
  { apply Clock_defined; [done|]. unfold call_fits. rewrite Hh, Hs. split_and!; [done..|]. by destruct (vsync i). }
  destruct (Clock_draws i v) as (-> & _ & ->). rewrite Hh. split; [done|].
  unfold Clock_next. cbn [last_hblank dbg_hbf modify_field]. split_and!; [|done|].
  - unfold sync_next, count_next. rewrite Hh, Hv. cbn. rewrite Hs. by destruct (vsync i).
  - destruct (draw_keeps i (sync_next i (count_next i v))) as [_ F2].
    destruct (sync_keeps i (count_next i v)) as [_ G2]. destruct (count_keeps i v) as (K1 & _ & _ & K4).
    assert (Hl : last_vsync (bounds_phase (draw_next i (sync_next i (count_next i v)))) = vsync i).
    { rewrite <- Hs, <- K1. unfold draw_next, sync_next. by destruct (_ && _), (_ || _). }
    set (u := bounds_phase _) in *. clearbody u. unfold summary_next. rewrite Hl, Hh. destruct (vsync i); cbn; by rewrite F2, G2, K4.
Qed.

(** The call for pixel [p] of line [k]. *)
Definition at_pixel (k p d : Z) (v : SimVideo) : Prop :=
  if last_hblank v then p = 0 /\ count_line v = k /\ dbg_hbf v = d
  else count_pixel v = p /\ count_line v = k + 1 /\ dbg_hbf v = d + 1.

Lemma pixel_counts i v k p d :
  hblank i = false -> vblank i = false -> last_vsync v = vsync i -> at_pixel k p d v ->
  let v' := sync_next i (count_next i v) in
  count_pixel v' = p + 1 /\ count_line v' = k + 1 /\ dbg_hbf (Clock_next i v) = d + 1.
Proof.
  intros Hh Hv Hs Hat. unfold at_pixel in Hat. cbn zeta.
  assert (Ec : sync_next i (count_next i v) = count_next i v).
  { destruct (count_keeps i v) as (K1 & _). unfold sync_next. rewrite K1, Hs. by destruct (vsync i). }
  destruct (count_keeps i v) as (K1 & K2 & _ & K4). rewrite Ec.
  assert (Hc : count_pixel (count_next i v) = p + 1 /\ count_line (count_next i v) = k + 1).
  { unfold count_next. rewrite Hh, Hv. cbn [negb andb].
    destruct (last_hblank v); destruct Hat as (Ha & Hb & _); cbn; lia. }
  split; [apply Hc|]. split; [apply Hc|].
  unfold Clock_next. rewrite Ec. cbn [dbg_hbf modify_field].
  destruct (draw_keeps i (count_next i v)) as [F1 F2].
  assert (Hl : last_vsync (bounds_phase (draw_next i (count_next i v))) = vsync i).
  { rewrite <- Hs, <- K1. unfold draw_next. by destruct (_ || _). }
  set (u := bounds_phase _) in *. clearbody u. unfold summary_next. rewrite Hl, F1, F2, K2, K4, Hh.
  destruct (vsync i); cbn; destruct (last_hblank v); destruct Hat as (_ & _ & Hd); lia.
Qed.

Lemma pixel_step i v k p d :
  hblank i = false -> vblank i = false -> last_vsync v = vsync i ->
  output_rotate v = 0 -> output_vflip v = false -> video_ok v ->
  at_pixel k p d v -> 0 <= p < output_width v -> 0 <= k < output_height v -> 0 <= d < INT_MAX ->
  let v' := Clock_next i v in
  SimVideo_Clock i v = Some v' /\
  output_ptr v' = <[Z.to_nat (k * output_width v + p) := u32 (colour i)]> (output_ptr v) /\
  at_pixel k (p + 1) d v' /\ last_hblank v' = false.
Proof.
  intros Hh Hv Hs Hrot Hflip Hok Hat Hp Hk Hd. cbn zeta.
  pose proof Hok as (Hw & Hht & Hwh & _). change (2 ^ 31) with 2147483648 in Hwh.
  split.
  { apply Clock_defined; [done|]. unfold call_fits, at_pixel in *. rewrite Hh, Hs. cbn [negb andb].
    assert (output_height v <= INT_MAX /\ output_width v <= INT_MAX) by (unfold INT_MAX; nia).
    destruct (last_hblank v); split_and!; try (intros; lia); by destruct (vsync i). }
  destruct (pixel_counts i v k p d Hh Hv Hs Hat) as (Hc1 & Hc2 & Hc3).
  destruct (Clock_draws i v) as (-> & Hcp & Hcl).
  unfold at_pixel. rewrite Hcp, Hcl, Hc3. destruct (Clock_latches i v) as [-> _].
  destruct (count_next_setup i v) as (E1 & E2 & E3 & E4 & _). cbn zeta in *.
  set (v1 := sync_next i (count_next i v)) in *. clearbody v1.
  assert (Haddr : vga_addr v1 = k * output_width v + p).
  { unfold vga_addr. rewrite E1, E2, E3, E4, Hrot, Hflip, Hc1, Hc2. cbn [Z.eqb].
    rewrite !clamp_id by lia.
    pose proof (addr_range (output_width v) (output_height v) p k Hp Hk Hwh).
    rewrite uwrap_small; [lia|]. change (2 ^ 32) with 4294967296. lia. }
  rewrite Hh, Hv, Haddr. by repeat split.
Qed.

Definition is_blank (s : bool) (i : VideoIn) : Prop :=
  hblank i = true /\ vblank i = false /\ vsync i = s.
Definition is_pixel (s : bool) (i : VideoIn) : Prop :=
  hblank i = false /\ vblank i = false /\ vsync i = s.
Definition pixels (ins : list VideoIn) : list Z := map (fun i => u32 (colour i)) ins.

(** The set-up of a plain picture, and the signals that stay the same in it. *)
Definition plain (s : bool) (w h : Z) (v : SimVideo) : Prop :=
  video_ok v /\ output_rotate v = 0 /\ output_vflip v = false /\ last_vsync v = s /\
  output_width v = w /\ output_height v = h.

Lemma plain_step s w h i v : vsync i = s -> plain s w h v -> plain s w h (Clock_next i v).
Proof.
  intros Hi (H1 & H2 & H3 & H4 & H5 & H6). destruct (Clock_setup i v) as (E1 & E2 & E3 & E4).
  split_and!; [by apply Clock_ok | congruence | congruence | done | congruence | congruence].
Qed.

Lemma blanks_run s w h ins v :
  Forall (is_blank s) ins -> ins <> [] -> plain s w h v ->
  exists v', clock_frame ins v = Some v' /\
  plain s w h v' /\ output_ptr v' = output_ptr v /\ count_line v' = count_line v /\
  last_hblank v' = true /\ dbg_hbf v' = dbg_hbf v.
Proof.
  intros Hins Hne Hp. revert v Hp.
  induction Hins as [|i ins (H1 & H2 & H3) Hins IH]; intros v Hp; [done|].
  destruct (blank_step i v H1 H2) as (E0 & E1 & E2 & E3 & E4);
    [by destruct Hp as (_ & _ & _ & -> & _)|apply Hp|].
  pose proof (plain_step s w h i v H3 Hp) as Hp1. cbn [clock_frame]. rewrite E0. cbn [mbind option_bind].
  destruct ins as [|j ins]; [eexists; by split_and!|].
  destruct (IH ltac:(done) _ Hp1) as (v' & -> & Hp2 & F1 & F2 & F3 & F4). exists v'.
  split_and!; try done; congruence.
Qed.

Lemma pixels_run s w h ins v k d (p : nat) (above rest : list Z) :
  Forall (is_pixel s) ins -> plain s w h v -> at_pixel k (Z.of_nat p) d v -> 0 <= k < h -> 0 <= d < INT_MAX ->
  (p + length ins <= Z.to_nat w)%nat ->
  output_ptr v = above ++ rest -> length above = Z.to_nat (k * w + Z.of_nat p) ->
  (length ins <= length rest)%nat ->
  exists v', clock_frame ins v = Some v' /\
  plain s w h v' /\ output_ptr v' = above ++ pixels ins ++ drop (length ins) rest /\
  at_pixel k (Z.of_nat (p + length ins)) d v' /\ (ins <> [] -> last_hblank v' = false).
Proof.
  intros Hins. revert v p above rest.
  induction Hins as [|i ins (H1 & H2 & H3) Hins IH];
    intros v p above rest Hp Hat Hk Hd Hlen Hptr Hab Hrest.
  - exists v. cbn [length pixels map app drop]. rewrite Nat.add_0_r. by split_and!.
  - cbn [length] in *. pose proof Hp as (Hok & Hrot & Hfl & Hvs & Hw & Hh).
    destruct (pixel_step i v k (Z.of_nat p) d H1 H2 ltac:(congruence) Hrot Hfl Hok Hat)
      as (E0 & E1 & E2 & E3); [lia|lia|lia|].
    cbn [clock_frame]. rewrite E0. cbn [mbind option_bind].
    destruct rest as [|x rest]; [cbn in Hrest; lia|].
    destruct (IH (Clock_next i v) (S p) (above ++ [u32 (colour i)]) rest)
      as (v' & -> & Hp2 & F1 & F2 & F3).
    + by apply plain_step.
    + by replace (Z.of_nat (S p)) with (Z.of_nat p + 1) by lia.
    + done.
    + done.
    + lia.
    + rewrite E1, Hptr, Hw, <- Hab, <- (Nat.add_0_r (length above)), insert_app_r.
      by rewrite <- (assoc_L (++)).
    + rewrite length_app, Hab. cbn [length]. pose proof (Z.mul_nonneg_nonneg k w). lia.
    + cbn [length] in Hrest. lia.
    + exists v'. split; [done|]. split; [done|]. split; [by rewrite F1, <- (assoc_L (++))|].
      split; [by replace (p + S (length ins))%nat with (S p + length ins)%nat by lia|].
      intros _. destruct ins as [|j ins]; [|by apply F3]. 
      unfold at_pixel in F2, E2. rewrite Nat.add_0_r in F2. destruct (last_hblank v') eqn:El; [lia|done].
Qed.

(** A line of a frame: some horizontal blank followed by one call per pixel. *)
Definition line_ok (s : bool) (w : Z) (l : list VideoIn * list VideoIn) : Prop :=
  l.1 <> [] /\ Forall (is_blank s) l.1 /\ Forall (is_pixel s) l.2 /\ Z.of_nat (length l.2) = w.

Definition rows (lines : list (list VideoIn * list VideoIn)) : list Z :=
  concat (map (fun l => pixels l.2) lines).

Lemma rows_length s w lines :
  0 <= w -> Forall (line_ok s w) lines -> length (rows lines) = Z.to_nat (Z.of_nat (length lines) * w).
Proof.
  intros Hw Hl. induction Hl as [|l lines (_ & _ & _ & Hlen) _ IH]; [done|].
  unfold rows in *. cbn [map concat length]. rewrite length_app, IH. unfold pixels. rewrite length_map. lia.
Qed.

Lemma rows_snoc lines l : rows (lines ++ [l]) = rows lines ++ pixels l.2.
Proof. unfold rows. rewrite map_app, concat_app. cbn. by rewrite app_nil_r. Qed.

(** The first lines are drawn over the old texture. *)
Definition drawn (s : bool) (w h d : Z) (lines : list (list VideoIn * list VideoIn)) (old : list Z)
    (v : SimVideo) : Prop :=
  plain s w h v /\ count_line v = Z.of_nat (length lines) /\ dbg_hbf v = d + Z.of_nat (length lines) /\
  output_ptr v = rows lines ++ drop (Z.to_nat (Z.of_nat (length lines) * w)) old.

Lemma line_drawn s w h d lines l old v :
  1 <= w -> length old = Z.to_nat (w * h) -> Z.of_nat (length lines) < h -> 0 <= d -> d + h <= INT_MAX ->
  Forall (line_ok s w) lines -> line_ok s w l -> drawn s w h d lines old v ->
  exists v', clock_frame (l.1 ++ l.2) v = Some v' /\ drawn s w h d (lines ++ [l]) old v'.
Proof.
  intros Hwpos Hsize Hn Hd Hdh Hlines (H1 & H2 & H3 & H4) (Hp & Hc & Hhbf & Hptr). rewrite clock_frame_app.
  destruct (blanks_run s w h l.1 v H2 H1 Hp) as (v2 & -> & Hp2 & Hptr2 & Hc2 & Hhb & Hd2). cbn [mbind option_bind].
  set (n := length lines) in *.
  destruct (pixels_run s w h l.2 v2 (Z.of_nat n) (d + Z.of_nat n) 0 (rows lines)
    (drop (Z.to_nat (Z.of_nat n * w)) old)) as (v3 & -> & Hp3 & Hptr3 & Hat3 & Hhb3); try done; try lia.
  - unfold at_pixel. rewrite Hhb. split_and!; [done|congruence..].
  - congruence.
  - rewrite (rows_length s w) by (done || lia). fold n. f_equal. lia.
  - rewrite length_drop, Hsize. nia.
  - exists v3. split; [done|]. split; [done|]. rewrite length_app, rows_snoc. fold n. cbn [length].
    unfold at_pixel in Hat3. rewrite Hhb3 in Hat3 by (intros E; rewrite E in H4; cbn in H4; lia).
    split; [lia|]. split; [lia|].
    rewrite Hptr3, <- (assoc_L (++)). do 2 f_equal. rewrite drop_drop. f_equal. nia.
Qed.

(** C31: a frame is drawn as it is sent.  With no rotation and no flip, the lines of
    a frame - each some horizontal blank followed by one call per pixel - end up
    in the texture row by row, whatever was there before, and no call faults; the debug
    counter of the lines is the only one that could overflow. *)
Theorem video_frame_drawn (s : bool) (v : SimVideo) (lines : list (list VideoIn * list VideoIn)) :
  video_ok v -> output_rotate v = 0 -> output_vflip v = false ->
  last_vsync v = s -> count_line v = 0 -> 0 <= dbg_hbf v -> dbg_hbf v + output_height v <= INT_MAX ->
  Z.of_nat (length lines) = output_height v -> Forall (line_ok s (output_width v)) lines ->
  exists v', clock_frame (concat (map (fun l => l.1 ++ l.2) lines)) v = Some v' /\ output_ptr v' = rows lines.
Proof.
  intros Hok Hrot Hfl Hvs Hcl Hd0 Hd Hlen Hlines.
  assert (Hwpos : 1 <= output_width v) by apply Hok.
  assert (Hsize : length (output_ptr v) = Z.to_nat (output_width v * output_height v)) by apply Hok.
  cut (exists v', clock_frame (concat (map (fun l => l.1 ++ l.2) lines)) v = Some v' /\
         drawn s (output_width v) (output_height v) (dbg_hbf v) lines (output_ptr v) v').
  { intros (v' & E & _ & _ & _ & Hp). exists v'. split; [done|].
    rewrite Hp, drop_ge, app_nil_r; [done|]. rewrite Hsize. nia. }
  assert (Hle : Z.of_nat (length lines) <= output_height v) by lia. clear Hlen.
  induction lines as [|l lines IH] using rev_ind.
  { exists v. split; [done|]. split_and!; try done. cbn. lia. }
  rewrite length_app in Hle. cbn [length] in Hle.
  apply Forall_app in Hlines as [Hlines Hl]. inversion_clear Hl.
  rewrite map_app, concat_app, clock_frame_app. cbn [map concat]. rewrite app_nil_r.
  destruct IH as (v1 & -> & H1); [done|lia|]. cbn [mbind option_bind].
  apply line_drawn; try done. lia.
Qed.

Lemma video_frame_drawn_witness :
  let b := MkVideoIn true false false false 0 0 in
  let p c := MkVideoIn false false false false c 0 in
  exists v, clock_frame ([b; p 1; p 2] ++ [b; b; p 3; p 4])
    (SimVideo_Initialise (SimVideo_new 2 2 0)) = Some v /\ output_ptr v = [1; 2; 3; 4].
Proof.
  apply (video_frame_drawn false (SimVideo_Initialise (SimVideo_new 2 2 0))
    [([MkVideoIn true false false false 0 0],
      [MkVideoIn false false false false 1 0; MkVideoIn false false false false 2 0]);
     ([MkVideoIn true false false false 0 0; MkVideoIn true false false false 0 0],
      [MkVideoIn false false false false 3 0; MkVideoIn false false false false 4 0])]);
    try reflexivity; try (cbn; discriminate).
  - apply Initialise_ok; lia.
  - repeat constructor; discriminate.
Defined.

(** The vertical flip is off by one.  With [output_vflip] set and no rotation,
    no visible line is drawn to row 0, and the first two lines of the frame are
    both drawn to the last row. *)
Theorem video_vflip_rows (v : SimVideo) (line : Z) :
  video_ok v -> 2 <= output_height v -> output_rotate v = 0 -> output_vflip v = true ->
  1 <= line <= output_height v ->
  let at_line l := vga_addr (v <| count_line := l |>) in
  output_width v <= at_line line /\ at_line 1 = at_line 2.
Proof.
  intros (Hw & Hh & Hwh & _) Hh2 Hrot Hflip Hl at_line.
  assert (Hat : forall l, at_line l =
    u32 (clamp (output_height v - (l - 1)) (output_height v - 1) * output_width v
         + clamp (count_pixel v - 1) (output_width v - 1))).
  { intros l. unfold at_line, vga_addr.
    cbn [count_pixel count_line output_rotate output_width output_height output_vflip modify_field].
    by rewrite Hrot, Hflip. }
  rewrite !Hat. pose proof (clamp_range (count_pixel v - 1) (output_width v - 1) ltac:(lia)) as Hx.
  assert (Hy : 1 <= clamp (output_height v - (line - 1)) (output_height v - 1) <= output_height v - 1).
  { unfold clamp. rewrite (proj2 (Z.ltb_ge _ 0)) by lia. zcases; lia. }
  split.
  - pose proof (addr_range (output_width v) (output_height v)
      (clamp (count_pixel v - 1) (output_width v - 1))
      (clamp (output_height v - (line - 1)) (output_height v - 1)) ltac:(lia) ltac:(lia) Hwh) as Hr.
    rewrite uwrap_small; [nia|]. change (2 ^ 31) with 2147483648 in Hwh.
    change (2 ^ 32) with 4294967296. lia.
  - do 3 f_equal. unfold clamp.
    rewrite (proj2 (Z.ltb_ge (output_height v - (1 - 1)) 0)) by lia.
    rewrite (proj2 (Z.ltb_ge (output_height v - (2 - 1)) 0)) by lia. zcases; lia.
Qed.

Definition flipped_video : SimVideo :=
  (SimVideo_Initialise (SimVideo_new 3 4 0)) <| output_vflip := true |>.

Lemma video_vflip_rows_witness : 3 <= vga_addr (flipped_video <| count_line := 4 |>).
Proof.
  refine (proj1 (video_vflip_rows flipped_video 4 _ _ _ _ _)).
  - apply (Initialise_ok 3 4 0); lia.
  - cbn. lia.
  - reflexivity.
  - reflexivity.
  - cbn. lia.
Defined.
