(* ===== verification/Input.v ===== *)
(** * The keyboard of the simulation (sim/sim_input.cpp, sim/sim_input.h)

    [Read] compares the keyboard state of the host with the last one and queues
    an event per changed key; [BeforeEval] puts one event at a time on the
    [ps2_key] pin of the core, with a pause after each.  The two builds of the
    file, SDL and DirectInput, differ in the key table and in the scan; both are
    modelled.  A read outside a table or outside the keyboard state is the result
    [None]. *)

From S2P Require Import Prelude.

Definition NONE : Z := 0xFF.
Definition OSD : Z := 0x010000.
Definition OSD_OPEN : Z := 0x020000.
Definition CAPS_TOGGLE : Z := 0x040000.
Definition EXT : Z := 0x080000.
Definition EMU_SWITCH_1 : Z := 0x100000.
Definition EMU_SWITCH_2 : Z := 0x200000.

(** The key tables, in two halves each. *)

Definition ev2ps2_win32_0 : list Z := [
  NONE; 0x76; 0x16; 0x1e; 0x26; 0x25; 0x2e; 0x36; 0x3d; 0x3e; 0x46; 0x45; 0x4e; 0x55; 0x66;
  0x0d; 0x15; 0x1d; 0x24; 0x2d; 0x2c; 0x35; 0x3c; 0x43; 0x44; 0x4d; 0x54; 0x5b; 0x5a; 0x14;
  0x1c; 0x1b; 0x23; 0x2b; 0x34; 0x33; 0x3b; 0x42; 0x4b; 0x4c; 0x52; 0x0e; 0x12; 0x5d; 0x1a;
  0x22; 0x21; 0x2a; 0x32; 0x31; 0x3a; 0x41; 0x49; 0x4a; 0x59; 0x7c; 0x11; 0x29; 0x58; 0x05;
  0x06; 0x04; 0x0c; 0x03; 0x0b; 0x83; 0x0a; 0x01; 0x09; Z.lor EMU_SWITCH_2 0x77;
  Z.lor EMU_SWITCH_1 0x7E; 0x6c; 0x75; 0x7d; 0x7b; 0x6b; 0x73; 0x74; 0x79; 0x69; 0x72; 0x7a;
  0x70; 0x71; NONE; NONE; 0x61; 0x78; 0x07; NONE; NONE; NONE; NONE; NONE; NONE; NONE;
  Z.lor EXT 0x5a; Z.lor EXT 0x14; Z.lor EXT 0x4a; 0xE2; Z.lor EXT 0x11; NONE; Z.lor EXT 0x6c;
  Z.lor EXT 0x75; Z.lor EXT 0x7d; Z.lor EXT 0x6b; Z.lor EXT 0x74; Z.lor EXT 0x69;
  Z.lor EXT 0x72; Z.lor EXT 0x7a; Z.lor EXT 0x70; Z.lor EXT 0x71; NONE; NONE; NONE; NONE; NONE;
  NONE; NONE; 0xE1; NONE; NONE; NONE; NONE; NONE; Z.lor EXT 0x1f; Z.lor EXT 0x27; NONE].

Definition ev2ps2_win32_1 : list Z := [
  NONE; NONE; NONE; NONE; NONE; NONE; NONE; NONE; NONE; NONE; NONE; NONE; NONE; NONE; NONE;
  NONE; NONE; NONE; NONE; NONE; NONE; NONE; NONE; NONE; NONE; NONE; NONE; NONE; NONE; NONE;
  NONE; NONE; NONE; NONE; NONE; NONE; NONE; NONE; NONE; NONE; NONE; NONE; NONE; NONE; NONE;
  NONE; NONE; NONE; NONE; NONE; NONE; NONE; NONE; NONE; NONE; NONE; NONE; NONE; NONE;
  Z.lor EMU_SWITCH_1 1; Z.lor EMU_SWITCH_1 2; Z.lor EMU_SWITCH_1 3; Z.lor EMU_SWITCH_1 4; NONE;
  NONE; NONE; 0x5D; NONE; NONE; NONE; NONE; NONE; Z.lor EXT 0x75; NONE; NONE; Z.lor EXT 0x6b;
  NONE; Z.lor EXT 0x74; NONE; NONE; Z.lor EXT 0x72; NONE; NONE; NONE; NONE; NONE; NONE; NONE;
  NONE; NONE; NONE; NONE; NONE; NONE; NONE; NONE; NONE; NONE; NONE; NONE; NONE; NONE; NONE;
  NONE; NONE; NONE; NONE; NONE; NONE; NONE; NONE; NONE; NONE; NONE; NONE; NONE; NONE; NONE;
  NONE; NONE; NONE; NONE; NONE; NONE; NONE; NONE; NONE; NONE].

Definition ev2ps2_win32 : list Z := ev2ps2_win32_0 ++ ev2ps2_win32_1.

Definition ev2ps2_sdl_0 : list Z := [
  NONE; NONE; NONE; NONE; 0x1c; 0x32; 0x21; 0x23; 0x24; 0x2b; 0x34; 0x33; 0x43; 0x3b; 0x42;
  0x4b; 0x3a; 0x31; 0x44; 0x4d; 0x15; 0x2d; 0x1b; 0x2c; 0x3c; 0x2a; 0x1d; 0x22; 0x35; 0x1a;
  0x16; 0x1e; 0x26; 0x25; 0x2e; 0x36; 0x3d; 0x3e; 0x46; 0x45; 0x5a; 0x76; 0x66; 0x0d; 0x29;
  0x4e; 0x55; 0x54; 0x5b; 0x5d; NONE; 0x4c; 0x52; 0x0e; 0x41; 0x49; 0x4a; 0x58; 0x05; 0x06;
  0x04; 0x0c; 0x03; 0x0b; 0x83; 0x0a; 0x01; 0x09; 0x78; 0x07; NONE; Z.lor EMU_SWITCH_1 0x7E;
  0xE1; Z.lor EXT 0x70; Z.lor EXT 0x6c; Z.lor EXT 0x7d; Z.lor EXT 0x71; Z.lor EXT 0x69;
  Z.lor EXT 0x7a; Z.lor EXT 0x74; Z.lor EXT 0x6b; Z.lor EXT 0x72; Z.lor EXT 0x75;
  Z.lor EMU_SWITCH_2 0x77; Z.lor EXT 0x4a; 0x7c; 0x7b; 0x79; Z.lor EXT 0x5a; 0x69; 0x72; 0x7a;
  0x6b; 0x73; 0x74; 0x6c; 0x75; 0x7d; 0x70; 0x71; NONE; NONE; NONE; NONE; NONE; NONE; NONE;
  NONE; Z.lor EMU_SWITCH_1 1; Z.lor EMU_SWITCH_1 2; Z.lor EMU_SWITCH_1 3; Z.lor EMU_SWITCH_1 4;
  NONE; NONE; NONE; NONE].

Definition ev2ps2_sdl_1 : list Z := [
  NONE; NONE; NONE; NONE; NONE; NONE; NONE; NONE; NONE; NONE; NONE; NONE; NONE; NONE; NONE;
  NONE; NONE; NONE; NONE; NONE; NONE; NONE; NONE; NONE; NONE; NONE; NONE; NONE; NONE; NONE;
  NONE; NONE; NONE; NONE; NONE; NONE; NONE; NONE; NONE; NONE; NONE; NONE; NONE; NONE; NONE;
  NONE; NONE; NONE; NONE; NONE; NONE; NONE; NONE; NONE; NONE; NONE; NONE; NONE; NONE; NONE;
  NONE; NONE; NONE; NONE; NONE; NONE; NONE; NONE; NONE; NONE; NONE; NONE; NONE; NONE; NONE;
  NONE; NONE; NONE; NONE; NONE; NONE; NONE; NONE; NONE; NONE; NONE; NONE; NONE; NONE; NONE;
  NONE; NONE; NONE; NONE; NONE; NONE; NONE; NONE; NONE; NONE; NONE; NONE; NONE; NONE; NONE;
  NONE; NONE; NONE; NONE; 0x12; 0x11; NONE; Z.lor EXT 0x14; 0x59; Z.lor EXT 0x11].

Definition ev2ps2 : list Z := ev2ps2_sdl_0 ++ ev2ps2_sdl_1.

Record SimInput_PS2KeyEvent := MkEvent {
  ev_code : Z; ev_pressed : bool; ev_extended : bool; ev_mapped : Z }.

Record SimInput := MkSimInput {
  inputCount : nat;
  inputs : list bool;
  mappings : list Z;
  ps2_key : Z;
  keyEvents : list SimInput_PS2KeyEvent;
  keyEventTimer : Z;
  keyEventWait : Z;
  ps2_clock : bool;
  keyboardState_last : option (list Z) }.

#[export] Instance eta_SimInput : Eta SimInput := fun s =>
  MkSimInput (inputCount s) (inputs s) (mappings s) (ps2_key s) (keyEvents s) (keyEventTimer s)
    (keyEventWait s) (ps2_clock s) (keyboardState_last s).

Definition SimInput_new (count : nat) : SimInput :=
  MkSimInput count (replicate 16 false) (replicate 16 0) 0 [] 0 50000 true None.

Definition SetMapping (index : nat) (code : Z) (s : SimInput) : SimInput :=
  s <| mappings ::= <[index := if code <? 256 then code else 0]> |>.

Definition byte_at (kb : list Z) (k : Z) : option Z :=
  if k <? 0 then None else kb !! Z.to_nat k.

Definition is_set (v : Z) : bool := negb (v =? 0).

(** The loop over the mapped inputs: [test] is how a build reads a key. *)
Fixpoint read_inputs (test : Z -> bool) (kb : list Z) (n i : nat) (s : SimInput) : option SimInput :=
  match n with
  | O => Some s
  | S n' =>
      m ← mappings s !! i;
      v ← byte_at kb m;
      read_inputs test kb n' (S i) (s <| inputs ::= <[i := test v]> |>)
  end.

(** The loop over the keys, from [k] on: a changed key is queued. *)
Fixpoint scan_keys (event : nat -> Z -> option SimInput_PS2KeyEvent) (n k : nat)
    (kb last : list Z) : option (list SimInput_PS2KeyEvent * list Z) :=
  match n with
  | O => Some ([], last)
  | S n' =>
      now ← kb !! k;
      was ← last !! k;
      evs ← (if was =? now then Some [] else evt ← event k now; Some [evt]);
      '(evs', last) ← scan_keys event n' (S k) kb (<[k := now]> last);
      Some (evs ++ evs', last)
  end.

Definition sdl_event (k : nat) (now : Z) : option SimInput_PS2KeyEvent :=
  mapped ← ev2ps2 !! k;
  Some (MkEvent (s8 (Z.of_nat k)) (is_set now) false mapped).

Definition win32_event (k : nat) (now : Z) : option SimInput_PS2KeyEvent :=
  mapped ← ev2ps2_win32 !! k;
  Some (MkEvent (s8 (Z.of_nat k)) (is_set now) (is_set (Z.land mapped EXT)) mapped).

(** [Read] of the SDL build: [kb] is the keyboard state of the host. *)
Definition Read (kb : list Z) (s : SimInput) : option SimInput :=
  let last := default (replicate (length kb) 0) (keyboardState_last s) in
  s ← read_inputs is_set kb (inputCount s) 0 s;
  '(evs, last) ← scan_keys sdl_event (length kb) 0 kb last;
  Some (s <| keyEvents := keyEvents s ++ evs |> <| keyboardState_last := Some last |>).

(** [Read] of the DirectInput build: 256 keys, of which 220 are scanned. *)
Definition Read_win32 (kb : list Z) (s : SimInput) : option SimInput :=
  let last := default (replicate 256 0) (keyboardState_last s) in
  s ← read_inputs (fun v => is_set (Z.land v 0x80)) kb (inputCount s) 0 s;
  '(evs, last) ← scan_keys win32_event 220 0 kb last;
  Some (s <| keyEvents := keyEvents s ++ evs |> <| keyboardState_last := Some last |>).

Definition ps2_key_value (evt : SimInput_PS2KeyEvent) (clock : bool) : Z :=
  let temp := ev_mapped evt in
  let temp := if ev_extended evt then Z.lor temp (Z.shiftl 1 8) else temp in
  let temp := if ev_pressed evt then Z.lor temp (Z.shiftl 1 9) else temp in
  if clock then Z.lor temp (Z.shiftl 1 10) else temp.

Definition Input_BeforeEval (s : SimInput) : SimInput :=
  if keyEventTimer s =? 0 then
    match keyEvents s with
    | evt :: events =>
        let s := s <| keyEvents := events |> in
        let temp := ps2_key_value evt (ps2_clock s) in
        let s := s <| ps2_clock := negb (ps2_clock s) |> in
        let s := s <| ps2_key := u16 temp |> in
        s <| keyEventTimer := keyEventWait s |>
    | [] => s
    end
  else s <| keyEventTimer := keyEventTimer s - 1 |>.

(** ** The scan *)

(** The events of the changed keys among [ks], in order. *)
Definition changed_events (event : nat -> Z -> option SimInput_PS2KeyEvent) (kb last : list Z)
    (ks : list nat) : list SimInput_PS2KeyEvent :=
  omap (fun k => if default 0 (last !! k) =? default 0 (kb !! k) then None
                 else event k (default 0 (kb !! k))) ks.

(** The keys that differ from the last state. *)
Definition changed (kb last : list Z) (k : nat) : Prop := default 0 (last !! k) <> default 0 (kb !! k).

Lemma changed_events_cons event kb last k ks :
  changed_events event kb last (k :: ks) =
  match (if default 0 (last !! k) =? default 0 (kb !! k) then None
         else event k (default 0 (kb !! k))) with
  | Some evt => evt :: changed_events event kb last ks
  | None => changed_events event kb last ks
  end.
Proof. done. Qed.

Lemma scan_keys_spec event n k (kb last : list Z) :
  (k + n <= length kb)%nat -> length last = length kb ->
  (forall j, (k <= j < k + n)%nat -> changed kb last j -> event j (default 0 (kb !! j)) <> None) ->
  scan_keys event n k kb last =
    Some (changed_events event kb last (seq k n), take k last ++ take n (drop k kb) ++ drop (k + n) last).
Proof.
  revert k last. induction n as [|n IH]; intros k last Hk Hlen Hev.
  - cbn [scan_keys seq]. rewrite Nat.add_0_r, take_0. cbn [app]. by rewrite take_drop.
  - destruct (lookup_lt_is_Some_2 kb k) as [now Hnow]; [lia|].
    destruct (lookup_lt_is_Some_2 last k) as [was Hwas]; [lia|].
    cbn [scan_keys]. rewrite Hnow, Hwas. cbn [mbind option_bind].
    assert (Hrest : scan_keys event n (S k) kb (<[k:=now]> last) =
      Some (changed_events event kb last (seq (S k) n),
            take k last ++ take (S n) (drop k kb) ++ drop (k + S n) last)).
    { rewrite IH.
      - f_equal. f_equal.
        + unfold changed_events. apply list_omap_ext, Forall_Forall2_diag, Forall_forall.
          intros j Hj%elem_of_seq. by rewrite list_lookup_insert_ne by lia.
        + rewrite (drop_S _ _ _ Hnow). cbn [take].
          rewrite (take_S_r _ k now) by (apply list_lookup_insert_eq; lia).
          rewrite take_insert_ge by lia. rewrite drop_insert_lt by lia.
          rewrite <- !(assoc_L (++)). cbn [app]. do 4 f_equal. lia.
      - lia.
      - by rewrite length_insert.
      - intros j Hj Hch. apply Hev; [lia|]. unfold changed in *.
        by rewrite list_lookup_insert_ne in Hch by lia. }
    rewrite Hrest. cbn [seq]. rewrite changed_events_cons, Hnow, Hwas. cbn [from_option id].
    destruct (Z.eqb_spec was now) as [->|Hne]; [done|].
    destruct (event k now) as [evt|] eqn:He; [done|].
    exfalso. apply (Hev k); [lia| |by rewrite Hnow].
    unfold changed. by rewrite Hnow, Hwas.
Qed.

(** A changed key without an event makes the scan fail. *)
Lemma scan_keys_fails event n k (kb last : list Z) j :
  (k + n <= length kb)%nat -> length last = length kb -> (k <= j < k + n)%nat ->
  changed kb last j -> event j (default 0 (kb !! j)) = None ->
  scan_keys event n k kb last = None.
Proof.
  revert k last. induction n as [|n IH]; intros k last Hk Hlen Hj Hch Hev; [lia|].
  destruct (lookup_lt_is_Some_2 kb k) as [now Hnow]; [lia|].
  destruct (lookup_lt_is_Some_2 last k) as [was Hwas]; [lia|].
  cbn [scan_keys]. rewrite Hnow, Hwas. cbn [mbind option_bind].
  destruct (decide (j = k)) as [->|Hne].
  - unfold changed in Hch. rewrite Hnow, Hwas in Hch. rewrite Hnow in Hev.
    cbn [from_option id] in *. destruct (Z.eqb_spec was now); [done|]. by rewrite Hev.
  - rewrite IH; [|lia|by rewrite length_insert|lia| |done].
    + destruct (if was =? now then _ else _); done.
    + unfold changed in *. by rewrite list_lookup_insert_ne by lia.
Qed.

(** The mapped inputs only need a key number below the number of keys. *)
Definition mappings_ok (count : nat) (s : SimInput) : Prop :=
  Forall (fun m => 0 <= m < Z.of_nat count) (mappings s) /\ (inputCount s <= length (mappings s))%nat.

Lemma read_inputs_ok test kb n i s :
  Forall (fun m => 0 <= m < Z.of_nat (length kb)) (mappings s) -> (i + n <= length (mappings s))%nat ->
  exists ins, read_inputs test kb n i s = Some (s <| inputs := ins |>).
Proof.
  revert i s. induction n as [|n IH]; intros i s Hm Hl; [exists (inputs s); by destruct s|].
  destruct (lookup_lt_is_Some_2 (mappings s) i) as [m Hi]; [lia|].
  pose proof (Forall_lookup_1 _ _ _ _ Hm Hi) as Hr. cbn beta in Hr.
  destruct (lookup_lt_is_Some_2 kb (Z.to_nat m)) as [v Hv]; [lia|].
  cbn [read_inputs]. rewrite Hi. cbn [mbind option_bind]. unfold byte_at.
  rewrite (proj2 (Z.ltb_ge m 0)), Hv by lia. cbn [mbind option_bind].
  destruct (IH (S i) (s <| inputs ::= <[i:=test v]> |>)) as [ins ->]; [done | cbn; lia |].
  by exists ins.
Qed.

Lemma SetMapping_ok count index code s :
  (1 <= count)%nat -> 0 <= code -> (256 <= count)%nat ->
  mappings_ok count s -> mappings_ok count (SetMapping index code s).
Proof.
  intros Hc Hcode H256 [Hm Hl]. split; cbn; [|by rewrite length_insert].
  apply Forall_insert; [done|]. destruct (Z.ltb_spec code 256); lia.
Qed.

Lemma Read_unchanged kb s s' :
  keyboardState_last s = Some kb -> mappings_ok (length kb) s ->
  Read kb s = Some s' -> keyEvents s' = keyEvents s.
Proof.
  intros Hlast [Hm Hn]. unfold Read. rewrite Hlast. cbn [from_option id].
  destruct (read_inputs_ok is_set kb (inputCount s) 0 s Hm) as [ins ->]; [lia|].
  cbn [mbind option_bind].
  rewrite scan_keys_spec; [|lia|done|intros j _ Hc; by destruct Hc].
  cbn [mbind option_bind]. intros [= <-]. cbn [keyEvents modify_field].
  assert (Hnone : forall ks, changed_events sdl_event kb kb ks = []).
  { intros ks. induction ks as [|k ks IH]; [done|]. by rewrite changed_events_cons, Z.eqb_refl. }
  by rewrite Hnone, app_nil_r.
Qed.

(** A scan queues the changes.  When every changed key has an entry in the
    table, [Read] appends one event per changed key in the order of the keys -
    with the key's new state and its table entry - and remembers the new state,
    so that an unchanged keyboard queues nothing. *)
Theorem Read_events (kb : list Z) (s : SimInput) :
  let last := default (replicate (length kb) 0) (keyboardState_last s) in
  mappings_ok (length kb) s -> length last = length kb ->
  (forall k, (k < length kb)%nat -> changed kb last k -> (k < length ev2ps2)%nat) ->
  exists s', Read kb s = Some s' /\
    keyEvents s' = keyEvents s ++ changed_events sdl_event kb last (seq 0 (length kb)) /\
    keyboardState_last s' = Some kb /\
    (forall s'', Read kb s' = Some s'' -> keyEvents s'' = keyEvents s').
Proof.
  intros last [Hm Hn] Hlen Hch.
  destruct (read_inputs_ok is_set kb (inputCount s) 0 s Hm) as [ins Hins]; [lia|].
  unfold Read at 1. fold last. rewrite Hins. cbn [mbind option_bind].
  assert (Hs : scan_keys sdl_event (length kb) 0 kb last =
    Some (changed_events sdl_event kb last (seq 0 (length kb)), kb)).
  { rewrite scan_keys_spec; [|lia|done|].
    - cbn [take drop app Nat.add]. rewrite drop_0, firstn_all.
      rewrite drop_ge by lia. by rewrite app_nil_r.
    - intros j Hj Hc. unfold sdl_event.
      destruct (lookup_lt_is_Some_2 ev2ps2 j) as [v Hv]; [apply Hch; [lia | done]|].
      by rewrite Hv. }
  rewrite Hs. eexists. split; [reflexivity|]. split; [done|]. split; [done|].
  intros s''. apply (Read_unchanged kb); [done | split; [exact Hm | exact Hn]].
Qed.

Definition key_down (n k : nat) : list Z := <[k := 1]> (replicate n 0).

Lemma Read_events_witness :
  exists s', Read (key_down 256 4) (SimInput_new 0) = Some s' /\
    keyEvents s' = [MkEvent 4 true false 0x1c] /\ keyboardState_last s' = Some (key_down 256 4).
Proof.
  destruct (Read_events (key_down 256 4) (SimInput_new 0)) as (s' & H1 & H2 & H3 & _).
  - split; [apply Forall_replicate; split; [lia | reflexivity] | cbn; lia].
  - reflexivity.
  - intros k Hk Hch. destruct (decide (k = 4)%nat) as [->|Hne]; [apply Nat.ltb_lt; reflexivity|].
    exfalso. apply Hch. unfold key_down. rewrite list_lookup_insert_ne by lia. reflexivity.
  - exists s'. split; [exact H1 | split; [exact H2 | exact H3]].
Defined.

(** The table is shorter than the keyboard.  SDL reports 512 scan codes; a
    change of any key from 231 on makes the scan read past the end of the table. *)
Theorem Read_past_table (kb : list Z) (s : SimInput) (k : nat) :
  let last := default (replicate (length kb) 0) (keyboardState_last s) in
  length last = length kb -> (length ev2ps2 <= k < length kb)%nat -> changed kb last k ->
  Read kb s = None.
Proof.
  intros last Hlen Hk Hch. unfold Read. fold last.
  destruct (read_inputs is_set kb (inputCount s) 0 s) as [s1|]; [|done].
  cbn [mbind option_bind]. rewrite (scan_keys_fails _ _ _ _ _ k); try done; [lia|].
  unfold sdl_event. by rewrite (lookup_ge_None_2 ev2ps2 k) by lia.
Qed.

Lemma Read_past_table_witness : Read (key_down 512 231) (SimInput_new 0) = None.
Proof.
  apply (Read_past_table (key_down 512 231) (SimInput_new 0) 231);
    [reflexivity | split; [apply Nat.leb_le | apply Nat.ltb_lt]; reflexivity | vm_compute; discriminate].
Defined.

(** ** The pin *)

(** [n] calls. *)
Definition Input_run (n : nat) (s : SimInput) : SimInput := iterate n Input_BeforeEval s.

Lemma Input_wait (n : nat) s :
  Z.of_nat n <= keyEventTimer s ->
  Input_run n s = s <| keyEventTimer := keyEventTimer s - Z.of_nat n |>.
Proof.
  intros Hn. induction n as [|n IH].
  - cbn. rewrite Z.sub_0_r. by destruct s.
  - unfold Input_run in *. cbn [iterate]. rewrite IH by lia. unfold Input_BeforeEval.
    cbn [keyEventTimer modify_field]. destruct (Z.eqb_spec (keyEventTimer s - Z.of_nat n) 0); [lia|].
    by replace (keyEventTimer s - Z.of_nat (S n)) with (keyEventTimer s - Z.of_nat n - 1) by lia.
Qed.

Lemma Input_event evt events s :
  keyEventTimer s = 0 -> keyEvents s = evt :: events ->
  Input_BeforeEval s = s <| keyEvents := events |> <| ps2_clock := negb (ps2_clock s) |>
    <| ps2_key := u16 (ps2_key_value evt (ps2_clock s)) |> <| keyEventTimer := keyEventWait s |>.
Proof. intros Ht He. unfold Input_BeforeEval. rewrite Ht, He. reflexivity. Qed.

Lemma Input_run_add n m s : Input_run (n + m) s = Input_run n (Input_run m s).
Proof. apply iterate_add. Qed.

(** C40: events reach the core one by one.  With [keyEventWait = w] and a free pin,
    event [j] of the queue is put on [ps2_key] at call [j (w + 1) + 1], in queue
    order and with the strobe bit inverted from one event to the next, and the
    pin keeps it for the [w] calls that follow. *)
Theorem Input_events_in_order (s : SimInput) (events : list SimInput_PS2KeyEvent) (w j m : nat)
    (evt : SimInput_PS2KeyEvent) :
  keyEventTimer s = 0 -> keyEventWait s = Z.of_nat w -> keyEvents s = events ->
  events !! j = Some evt -> (m <= w)%nat ->
  let s' := Input_run (j * (w + 1) + 1 + m) s in
  ps2_key s' = u16 (ps2_key_value evt (xorb (ps2_clock s) (Nat.odd j))) /\
  keyEvents s' = drop (S j) events.
Proof.
  intros Ht Hw He Hj Hm.
  cut (forall j evt, events !! j = Some evt ->
    Input_run (j * (w + 1) + 1) s =
      s <| keyEvents := drop (S j) events |> <| ps2_clock := negb (xorb (ps2_clock s) (Nat.odd j)) |>
        <| ps2_key := u16 (ps2_key_value evt (xorb (ps2_clock s) (Nat.odd j))) |>
        <| keyEventTimer := Z.of_nat w |>).
  { intros H. cbn zeta. rewrite Nat.add_comm, Input_run_add, (H j evt Hj).
    rewrite Input_wait by (cbn; lia). done. }
  clear j evt Hj m Hm. induction j as [|j IH]; intros evt Hj.
  - destruct events as [|e events]; [done|]. injection Hj as ->.
    cbn [Nat.mul Nat.add Input_run iterate]. unfold Input_run. cbn [iterate].
    rewrite (Input_event evt events) by done. rewrite Hw. cbn [Nat.odd Nat.even drop].
    by rewrite xorb_false_r, drop_0.
  - destruct (lookup_lt_is_Some_2 events j) as [e Hlt]; [apply lookup_lt_Some in Hj; lia|].
    replace (S j * (w + 1) + 1)%nat with (1 + (w + (j * (w + 1) + 1)))%nat by lia.
    rewrite 2!Input_run_add, (IH e Hlt), (Input_wait w) by (cbn; lia).
    unfold Input_run. cbn [iterate]. rewrite (Input_event evt (drop (S (S j)) events)); [|cbn; lia|cbn; by apply drop_S].
    cbn. rewrite Hw, Nat.odd_succ, <- Nat.negb_odd.
    destruct (ps2_clock s), (Nat.odd j); reflexivity.
Qed.

Lemma Input_events_in_order_witness :
  let e1 := MkEvent 4 true false 0x1c in let e2 := MkEvent 4 false false 0x1c in
  let s := (SimInput_new 0) <| keyEventWait := 3 |> <| keyEvents := [e1; e2] |> in
  ps2_key (Input_run (1 * (3 + 1) + 1 + 0) s) = 0x1c.
Proof.
  exact (proj1 (Input_events_in_order
    ((SimInput_new 0) <| keyEventWait := 3 |>
       <| keyEvents := [MkEvent 4 true false 0x1c; MkEvent 4 false false 0x1c] |>)
    [MkEvent 4 true false 0x1c; MkEvent 4 false false 0x1c] 3 1 0
    (MkEvent 4 false false 0x1c) eq_refl eq_refl eq_refl eq_refl ltac:(lia))).
Defined.

Definition key_check (v : Z) (pressed clock : bool) : bool :=
  let key := u16 (ps2_key_value (MkEvent 0 pressed false v) clock) in
  (key =? v `mod` 256 + (if pressed then 512 else 0) + (if clock then 1024 else 0))
  && negb (Z.testbit key 8).

Lemma key_check_spec code v p c :
  key_check v p c = true ->
  let key := u16 (ps2_key_value (MkEvent code p false v) c) in
  key = v `mod` 256 + (if p then 512 else 0) + (if c then 1024 else 0) /\ Z.testbit key 8 = false.
Proof. intros [H1%Z.eqb_eq H2%negb_true_iff]%andb_true_iff. done. Qed.

Lemma table_keys :
  forallb (fun v => (key_check v true true && key_check v true false) &&
                    (key_check v false true && key_check v false false)) ev2ps2 = true.
Proof. vm_compute. reflexivity. Qed.

(** What the core sees of an event.  For every key of the SDL table the low
    byte of [ps2_key] is the low byte of the table entry, bit 9 is the key state,
    bit 10 the strobe and bit 8, the extended flag, is always 0: the EXT mark of
    the table is lost, and an extended key sends the code of its twin. *)
Theorem ps2_key_encoding (k : nat) (now : Z) (evt : SimInput_PS2KeyEvent) (clock : bool) :
  sdl_event k now = Some evt ->
  let key := u16 (ps2_key_value evt clock) in
  key = ev_mapped evt `mod` 256 + (if ev_pressed evt then 512 else 0) + (if clock then 1024 else 0) /\
  Z.testbit key 8 = false.
Proof.
  intros He. unfold sdl_event in He.
  destruct (ev2ps2 !! k) as [v|] eqn:Hv; [|done]. injection He as <-.
  assert (Hall := table_keys).
  rewrite forallb_forall in Hall. specialize (Hall v).
  rewrite andb_true_iff, !andb_true_iff in Hall.
  destruct Hall as [[H1 H2] [H3 H4]];
    [by apply list_elem_of_In, (list_elem_of_lookup_2 _ _ _ Hv)|].
  apply (key_check_spec (s8 (Z.of_nat k)) v (is_set now) clock).
  by destruct (is_set now), clock.
Qed.

Lemma ps2_key_encoding_witness :
  u16 (ps2_key_value (MkEvent 79 true false (Z.lor EXT 0x74)) true) = 0x674 /\
  u16 (ps2_key_value (MkEvent 94 true false 0x74) true) = 0x674.
Proof.
  split.
  - exact (proj1 (ps2_key_encoding 79 1 (MkEvent 79 true false (Z.lor EXT 0x74)) true eq_refl)).
  - exact (proj1 (ps2_key_encoding 94 1 (MkEvent 94 true false 0x74) true eq_refl)).
Defined.
