(* ===== verification/Trace.v ===== *)
(** * The instruction trace (sim_main.cpp, sim/m68k_dasm_stubs.cpp)

    The core fetches every word of code, extension words included.  The harness
    keeps the last consecutive fetches in a small buffer and logs one line per
    instruction, using the length the disassembler reports to step over the
    extension words.

    The disassembler itself (Musashi, sim/m68kdasm.c) is a parameter: the text and
    the length it gives for a program counter and 16 bytes.  The buffer and its
    length are the list of its live entries; the console and the trace file are
    the ones the harness writes to. *)

From Stdlib Require Import Ascii.
From stdpp Require Import pretty.
From S2P Require Import Prelude Console Terminal.

(** ** Formats *)

(** The hexadecimal digits of a value of at most 4 [n] bits. *)
Fixpoint hex_digits (n : nat) (v : Z) : cstr :=
  match n with
  | O => []
  | S n' => if v <? 16 then [hex_digit v] else hex_digits n' (v / 16) ++ [hex_digit (v `mod` 16)]
  end.

(** [%0wX] of an unsigned value of 32 bits. *)
Definition fmt_0X (w : nat) (v : Z) : cstr :=
  let s := hex_digits 8 v in repeat (hex_digit 0) (w - length s) ++ s.

(** ** The state *)

Record FetchEntry := MkFetch { fe_pc : Z; fe_word : Z; fe_frame : Z; fe_data_addr : Z }.

Definition FETCH_BUF_SIZE : nat := 8.
Definition cpu_trace_max : Z := 0.

Record Tracer := MkTracer {
  cpu_trace_enable : bool;
  cpu_trace_file : option (list cstr);
  cpu_trace_count : Z;
  cpu_trace_last_pc : Z;
  cpu_trace_last_frame : Z;
  trace_from_frame : Z;
  trace_to_frame : Z;
  fetch_buf : list FetchEntry;
  trace_console : Console;
  trace_creatable : bool (* the host lets the log file be created *) }.

#[export] Instance eta_Tracer : Eta Tracer := fun t =>
  MkTracer (cpu_trace_enable t) (cpu_trace_file t) (cpu_trace_count t) (cpu_trace_last_pc t)
    (cpu_trace_last_frame t) (trace_from_frame t) (trace_to_frame t) (fetch_buf t)
    (trace_console t) (trace_creatable t).

Definition Tracer_new (console : Console) : Tracer :=
  MkTracer false None 0 0xFFFFFFFF (-1) 0 0x7FFFFFFF [] console true.

(** The line of an instruction. *)
Definition trace_line (e : FetchEntry) (disasm : cstr) : cstr :=
  lit "[F" ++ lit (pretty (fe_frame e)) ++ lit "] " ++ fmt_0X 8 (fe_pc e) ++ lit ": "
    ++ fmt_0X 4 (fe_word e) ++ lit "  " ++ disasm ++ lit "  @" ++ fmt_0X 6 (fe_data_addr e).

(** One instruction goes to the console, and to the file within the frames asked
    for, with a header line at each new frame. *)
Definition trace_emit (e : FetchEntry) (disasm : cstr) (t : Tracer) : Tracer :=
  let t := t <| cpu_trace_count := cpu_trace_count t + 1 |> in
  let t := t <| trace_console ::= AddLog (trace_line e disasm) |> in
  match cpu_trace_file t with
  | Some out =>
      if (trace_from_frame t <=? fe_frame e) && (fe_frame e <=? trace_to_frame t) then
        let '(out, t) :=
          if negb (fe_frame e =? cpu_trace_last_frame t) then
            (out ++ [lit "--- frame " ++ lit (pretty (fe_frame e)) ++ lit " ---" ++ LF],
             t <| cpu_trace_last_frame := fe_frame e |>)
          else (out, t) in
        t <| cpu_trace_file := Some (out ++ [trace_line e disasm ++ LF]) |>
      else t
  | None => t
  end.

Section Fetches.

(** [m68k_disassemble_raw]: from a program counter and 16 bytes, the text and the
    length in bytes, as an [unsigned int]. *)
Context (m68k_disassemble_raw : Z -> list Z -> cstr * Z).

(** [dst[0..]] overwritten by the start of [src]. *)
Definition overwrite (src dst : list Z) : list Z := src ++ drop (length src) dst.

(** The two big-endian bytes of a word. *)
Definition opword_bytes (word : Z) : list Z :=
  [Z.land (Z.shiftr word 8) 255; Z.land word 255].

Definition disassemble_68k_ext_len (pc : Z) (opwords : list Z) (num_words : nat) : cstr * Z :=
  let opdata := replicate 16 0 in
  let opdata := overwrite (concat (map opword_bytes (take (Nat.min num_words 5) opwords))) opdata in
  let '(text, len) := m68k_disassemble_raw pc opdata in (text, u32 len).

(** The five words given to the disassembler: entries of the buffer, then zeros. *)
Definition opwords (buf : list FetchEntry) : list Z :=
  overwrite (map fe_word (take 5 buf)) (replicate 5 0).

(** The number of words of an instruction of [len] bytes. *)
Definition len_words (len : Z) : nat := Z.to_nat ((if len <? 2 then 2 else len) / 2).

(** The loop that empties the buffer at a break of the sequence; [None] is a loop
    that does not end within [fuel] rounds. *)
Fixpoint trace_flush (fuel : nat) (buf : list FetchEntry) (t : Tracer) : option Tracer :=
  match buf with
  | [] => Some t
  | e :: _ =>
      match fuel with
      | O => None
      | S fuel' =>
          let avail := length buf in
          let '(disasm, len) := disassemble_68k_ext_len (fe_pc e) (opwords buf) avail in
          trace_flush fuel' (drop (len_words len) buf) (trace_emit e disasm t)
      end
  end.

(** The full buffer: the oldest instruction is logged and removed. *)
Definition trace_shift (t : Tracer) : Tracer :=
  match fetch_buf t with
  | [] => t
  | e :: _ =>
      let '(disasm, len) := disassemble_68k_ext_len (fe_pc e) (opwords (fetch_buf t)) 5 in
      let words := Nat.min (len_words len) FETCH_BUF_SIZE in
      let t := trace_emit e disasm t in
      t <| fetch_buf ::= drop words |>
  end.

(** A fetch of the core. *)
Definition trace_fetch (pc opcode cur_frame dataAddr : Z) (t : Tracer) : option Tracer :=
  if negb (pc =? cpu_trace_last_pc t) then
    let t := t <| cpu_trace_last_pc := pc |> in
    let sequential := match last (fetch_buf t) with
                      | Some e => pc =? u32 (fe_pc e + 2)
                      | None => false
                      end in
    t ← (if negb sequential && Nat.ltb 0 (length (fetch_buf t)) then
           t ← trace_flush (length (fetch_buf t)) (fetch_buf t) t;
           Some (t <| fetch_buf := [] |>)
         else Some t);
    let t := if Nat.ltb (length (fetch_buf t)) FETCH_BUF_SIZE then t else trace_shift t in
    let t := t <| fetch_buf ::= (fun buf => buf ++ [MkFetch pc opcode cur_frame dataAddr]) |> in
    if (0 <? cpu_trace_max) && (cpu_trace_max <=? cpu_trace_count t)
       && match cpu_trace_file t with Some _ => true | None => false end
    then Some (t <| cpu_trace_file := None |>)
    else Some t
  else Some t.

(** The part of a clock edge: nothing is traced while a file is downloaded.  The count of
    the instructions is an [int] that only grows; its overflow shows at the end of the call. *)
Definition trace_sample (ioctl_download : bool) (debug_fetch_valid : bool)
    (pc opcode cur_frame dataAddr : Z) (t : Tracer) : option Tracer :=
  if cpu_trace_enable t && debug_fetch_valid && negb ioctl_download
  then t ← trace_fetch pc opcode cur_frame dataAddr t; _ ← checked_int (cpu_trace_count t); Some t
  else Some t.

End Fetches.

(** ** The reference: stepping through a run of consecutive fetches

    [walk] looks at a whole run at once, as the disassembler would step through
    memory: one line per instruction, at most eight words at a time. *)

Section Walk.

Context (raw : Z -> list Z -> cstr * Z).

#[local] Abbreviation decode := (disassemble_68k_ext_len raw).

Fixpoint walk_fuel (fuel : nat) (run : list FetchEntry) : list (FetchEntry * cstr) :=
  match fuel, run with
  | S fuel', e :: _ =>
      let '(disasm, len) := decode (fe_pc e) (opwords run) 5 in
      (e, disasm) :: walk_fuel fuel' (drop (Nat.min (len_words len) FETCH_BUF_SIZE) run)
  | _, _ => []
  end.

Definition walk (run : list FetchEntry) : list (FetchEntry * cstr) := walk_fuel (length run) run.

Definition emit_all (lines : list (FetchEntry * cstr)) (t : Tracer) : Tracer :=
  fold_left (fun t l => trace_emit l.1 l.2 t) lines t.

Fixpoint fetch_all (fetches : list FetchEntry) (t : Tracer) : option Tracer :=
  match fetches with
  | [] => Some t
  | e :: fetches =>
      t ← trace_fetch raw (fe_pc e) (fe_word e) (fe_frame e) (fe_data_addr e) t;
      fetch_all fetches t
  end.

Lemma len_words_pos len : 0 <= len -> (1 <= len_words len)%nat.
Proof. intros Hl. unfold len_words. destruct (Z.ltb_spec len 2); [done|]. div_lia. Qed.

Lemma decode_len_nonneg pc ws n : 0 <= (decode pc ws n).2.
Proof.
  unfold disassemble_68k_ext_len. destruct (raw _ _) as [text len]. cbn [snd].
  destruct (uwrap_range 32 len); [lia|done].
Qed.

Lemma walk_fuel_enough n run : (length run <= n)%nat -> walk_fuel n run = walk run.
Proof.
  unfold walk. remember (length run) as m eqn:Hm.
  assert (Hrun : (length run <= m)%nat) by lia. clear Hm. revert m run Hrun.
  assert (H : forall n m run, (length run <= m)%nat -> (m <= n)%nat ->
    walk_fuel n run = walk_fuel m run); [|intros; by apply H].
  clear n. intros n. induction n as [|n IH]; intros m run Hrun Hmn.
  { destruct m; [done|lia]. }
  destruct m as [|m]; destruct run as [|e run]; cbn in Hrun; try lia; [done..|].
  cbn [walk_fuel]. pose proof (decode_len_nonneg (fe_pc e) (opwords (e :: run)) 5) as Hl.
  destruct (decode _ _ _) as [text len]. cbn in Hl. f_equal. apply IH; [|lia].
  rewrite length_drop. pose proof (len_words_pos len Hl). unfold FETCH_BUF_SIZE.
  cbn [length]. lia.
Qed.

Lemma walk_cons e run :
  walk (e :: run) =
    let '(disasm, len) := decode (fe_pc e) (opwords (e :: run)) 5 in
    (e, disasm) :: walk (drop (Nat.min (len_words len) FETCH_BUF_SIZE) (e :: run)).
Proof.
  unfold walk at 1. cbn [length walk_fuel].
  pose proof (decode_len_nonneg (fe_pc e) (opwords (e :: run)) 5) as Hl.
  destruct (decode _ _ _) as [text len]. cbn in Hl. f_equal. apply walk_fuel_enough.
  rewrite length_drop. pose proof (len_words_pos len Hl). unfold FETCH_BUF_SIZE. cbn [length]. lia.
Qed.

(** The disassembler looks at five words at most, and sees zeros past the end. *)
Lemma opwords_app buf rest : (5 <= length buf)%nat -> opwords (buf ++ rest) = opwords buf.
Proof. intros Hl. unfold opwords. by rewrite take_app_le. Qed.

Lemma overwrite_zeros n k (ws : list Z) :
  (length ws <= n)%nat -> (n <= k)%nat -> (k <= 8)%nat ->
  overwrite (concat (map opword_bytes (take n (overwrite ws (replicate k 0))))) (replicate 16 0) =
  overwrite (concat (map opword_bytes (take k (overwrite ws (replicate k 0))))) (replicate 16 0).
Proof.
  intros Hw Hn Hk. unfold overwrite at 2 4. rewrite drop_replicate, !take_app.
  rewrite (take_ge ws n), (take_ge ws k) by lia. rewrite !take_replicate, !map_app, !concat_app.
  rewrite !(fmap_replicate opword_bytes : forall n x, map opword_bytes (replicate n x) = _).
  unfold overwrite.
  assert (Hz : forall j, concat (replicate j (opword_bytes 0)) = replicate (2 * j) 0).
  { intros j. induction j as [|j IH]; [done|]. cbn [replicate concat]. rewrite IH.
    by replace (2 * S j)%nat with (S (S (2 * j))) by lia. }
  rewrite !Hz. rewrite <- !(assoc_L (++)). f_equal.
  rewrite !length_app, !length_replicate, !drop_replicate, <- !replicate_add. f_equal.
  assert (Hc : length (concat (map opword_bytes ws)) = (2 * length ws)%nat).
  { clear. induction ws as [|w ws IH]; [done|]. cbn. lia. }
  rewrite !Hc. lia.
Qed.

Lemma decode_avail e buf :
  decode (fe_pc e) (opwords buf) (length buf) = decode (fe_pc e) (opwords buf) 5.
Proof.
  unfold disassemble_68k_ext_len. rewrite Nat.min_id.
  assert (H : overwrite (concat (map opword_bytes (take (Nat.min (length buf) 5) (opwords buf))))
    (replicate 16 0) = overwrite (concat (map opword_bytes (take 5 (opwords buf)))) (replicate 16 0));
    [|by rewrite H].
  unfold opwords. apply overwrite_zeros; [|lia..]. rewrite length_map, length_take. lia.
Qed.

Lemma emit_buffer e disasm buf pc t :
  trace_emit e disasm (t <| fetch_buf := buf |> <| cpu_trace_last_pc := pc |>) =
  (trace_emit e disasm t) <| fetch_buf := buf |> <| cpu_trace_last_pc := pc |>.
Proof.
  destruct t as [en [out|] n lpc lf from to b c w]; [|done].
  unfold trace_emit. cbn -[trace_line]. destruct (_ && _); [|done]. by destruct (negb _).
Qed.

Lemma emit_all_app l1 l2 t : emit_all (l1 ++ l2) t = emit_all l2 (emit_all l1 t).
Proof. unfold emit_all. by rewrite fold_left_app. Qed.

Lemma emit_buf e disasm t : fetch_buf (trace_emit e disasm t) = fetch_buf t.
Proof.
  destruct t as [en [out|] n lpc lf from to b c w]; [|done].
  unfold trace_emit. cbn -[trace_line]. destruct (_ && _); [|done]. by destruct (negb _).
Qed.

(** The flush logs what the reference logs, in at most one round per entry. *)
Lemma flush_walk n buf t :
  (length buf <= n)%nat -> (length buf <= FETCH_BUF_SIZE)%nat ->
  trace_flush raw n buf t = Some (emit_all (walk buf) t).
Proof.
  revert buf t. induction n as [|n IH]; intros buf t Hn Hb; destruct buf as [|e buf];
    cbn [length] in Hn; try lia; [done..|].
  cbn [trace_flush]. rewrite decode_avail, walk_cons.
  pose proof (decode_len_nonneg (fe_pc e) (opwords (e :: buf)) 5) as Hl.
  destruct (decode _ _ _) as [text len]. cbn [snd] in Hl. pose proof (len_words_pos len Hl).
  assert (Hd : drop (Nat.min (len_words len) FETCH_BUF_SIZE) (e :: buf) =
               drop (len_words len) (e :: buf)).
  { destruct (decide (len_words len <= FETCH_BUF_SIZE)%nat); [by rewrite Nat.min_l|].
    rewrite !drop_ge; [done|lia..]. }
  rewrite Hd, IH; [done|rewrite length_drop; cbn [length] in *; lia..].
Qed.

(** The buffer [buf] after the fetches [p] of a run: the rest of the run is logged
    from the buffer as it would be from the start. *)
Definition buffers (p : list FetchEntry) (t0 t : Tracer) : Prop :=
  exists lines buf e,
    t = (emit_all lines t0) <| fetch_buf := buf |> <| cpu_trace_last_pc := fe_pc e |> /\
    last p = Some e /\ last buf = Some e /\ (length buf <= FETCH_BUF_SIZE)%nat /\
    (forall rest, walk (p ++ rest) = lines ++ walk (buf ++ rest)).

(** Two fetches that follow each other in memory, and two that do not. *)
Definition follows (e e' : FetchEntry) : Prop := fe_pc e' = u32 (fe_pc e + 2).
Definition jumps (e e' : FetchEntry) : Prop :=
  fe_pc e' <> u32 (fe_pc e + 2) /\ fe_pc e' <> fe_pc e.

#[local] Abbreviation fetch e := (trace_fetch raw (fe_pc e) (fe_word e) (fe_frame e) (fe_data_addr e)).

Lemma fetch_eta e : MkFetch (fe_pc e) (fe_word e) (fe_frame e) (fe_data_addr e) = e.
Proof. by destruct e. Qed.

(** The first fetch of a run, with an empty buffer. *)
Lemma fetch_first e t :
  fetch_buf t = [] -> fe_pc e <> cpu_trace_last_pc t ->
  exists t', fetch e t = Some t' /\ buffers [e] t t'.
Proof.
  intros Hb Hpc. destruct t as [en f n lpc lf from to b c w]. cbn in Hb, Hpc. subst b.
  unfold trace_fetch. cbn [cpu_trace_last_pc]. destruct (Z.eqb_spec (fe_pc e) lpc); [done|].
  rewrite fetch_eta. eexists. split; [reflexivity|]. exists [], [e], e.
  split_and!; [reflexivity..|unfold FETCH_BUF_SIZE; cbn; lia|reflexivity].
Qed.

Lemma fetch_follows p e0 e t0 t :
  buffers p t0 t -> last p = Some e0 -> follows e0 e -> fe_pc e <> fe_pc e0 ->
  exists t', fetch e t = Some t' /\ buffers (p ++ [e]) t0 t'.
Proof.
  intros (lines & buf & e1 & -> & Hp & Hbuf & Hlen & Hw) Hp0 Hf Hne.
  assert (e1 = e0) as -> by congruence.
  unfold trace_fetch.
  destruct (emit_all lines t0) as [en f n0 lpc lf from to b0 c w] eqn:Ht.
  cbn [fetch_buf cpu_trace_last_pc modify_field].
  destruct (Z.eqb_spec (fe_pc e) (fe_pc e0)); [done|]. cbn [negb].
  rewrite Hbuf, <- Hf, Z.eqb_refl, fetch_eta. cbn [negb andb mbind option_bind fetch_buf modify_field].
  destruct (Nat.ltb_spec (length buf) FETCH_BUF_SIZE) as [Hlt|Hge].
  - eexists. split; [reflexivity|]. exists lines, (buf ++ [e]), e. rewrite Ht, !last_snoc.
    split_and!; [reflexivity..| |].
    + rewrite length_app. cbn [length]. lia.
    + intros rest. by rewrite <- !(assoc_L (++)), Hw.
  - assert (Hfull : length buf = FETCH_BUF_SIZE) by lia.
    destruct buf as [|b buf]; [done|].
    unfold trace_shift. cbn [fetch_buf modify_field].
    pose proof (decode_len_nonneg (fe_pc b) (opwords (b :: buf)) 5) as Hl.
    destruct (decode (fe_pc b) (opwords (b :: buf)) 5) as [text len] eqn:Hdec. cbn [snd] in Hl.
    set (words := Nat.min (len_words len) FETCH_BUF_SIZE).
    assert (Hwords : (1 <= words)%nat).
    { pose proof (len_words_pos len Hl). unfold words, FETCH_BUF_SIZE. lia. }
    eexists. split; [reflexivity|].
    exists (lines ++ [(b, text)]), (drop words (b :: buf) ++ [e]), e.
    rewrite !last_snoc. split_and!; [|reflexivity..| |].
    + rewrite emit_all_app, Ht. cbn [emit_all fold_left fst snd].
      match goal with |- context [trace_emit b text (?r <| cpu_trace_last_pc := ?x |>)] =>
        change (r <| cpu_trace_last_pc := x |>) with
          ((MkTracer en f n0 lpc lf from to b0 c w) <| fetch_buf := b :: buf |>
             <| cpu_trace_last_pc := x |>) end.
      rewrite emit_buffer. by destruct (trace_emit b text (MkTracer en f n0 lpc lf from to b0 c w)).
    + rewrite length_app, length_drop, Hfull. cbn [length]. unfold FETCH_BUF_SIZE. lia.
    + intros rest. rewrite <- (assoc_L (++)), Hw, <- (assoc_L (++)). f_equal.
      cbn [app]. rewrite walk_cons.
      change (b :: buf ++ e :: rest) with ((b :: buf) ++ (e :: rest)).
      rewrite opwords_app, Hdec by (rewrite Hfull; unfold FETCH_BUF_SIZE; lia).
      cbn [app]. f_equal. fold words.
      change (b :: buf ++ e :: rest) with ((b :: buf) ++ (e :: rest)).
      rewrite drop_app_le by (rewrite Hfull; unfold words; lia). by rewrite <- (assoc_L (++)).
Qed.

Lemma buffers_start e t :
  buffers [e] t (t <| fetch_buf := [e] |> <| cpu_trace_last_pc := fe_pc e |>).
Proof.
  exists [], [e], e. split_and!; [reflexivity..|unfold FETCH_BUF_SIZE; cbn; lia|reflexivity].
Qed.

Lemma emit_all_buffer lines t b pc :
  emit_all lines (t <| fetch_buf := b |> <| cpu_trace_last_pc := pc |>) =
  (emit_all lines t) <| fetch_buf := b |> <| cpu_trace_last_pc := pc |>.
Proof.
  revert t. induction lines as [|[e d] lines IH]; intros t; [done|].
  unfold emit_all. cbn [fold_left fst snd]. rewrite emit_buffer. apply IH.
Qed.

(** The first fetch after a jump empties the buffer. *)
Lemma fetch_jumps p e0 e t0 t :
  buffers p t0 t -> last p = Some e0 -> jumps e0 e ->
  fetch e t = Some ((emit_all (walk p) t0) <| fetch_buf := [e] |> <| cpu_trace_last_pc := fe_pc e |>).
Proof.
  intros (lines & buf & e1 & -> & Hp & Hbuf & Hlen & Hw) Hp0 [Hj Hne].
  assert (e1 = e0) as -> by congruence.
  unfold trace_fetch. cbn [cpu_trace_last_pc fetch_buf modify_field].
  destruct (Z.eqb_spec (fe_pc e) (fe_pc e0)); [done|]. cbn [negb].
  rewrite Hbuf. destruct (Z.eqb_spec (fe_pc e) (u32 (fe_pc e0 + 2))); [done|].
  destruct (Nat.ltb_spec 0 (length buf)); [|destruct buf; cbn in *; [done|lia]].
  cbn [negb andb]. rewrite flush_walk by lia. cbn [mbind option_bind].
  specialize (Hw []). rewrite !app_nil_r in Hw. rewrite Hw, emit_all_app, fetch_eta.
  change ((emit_all lines t0) <| fetch_buf := buf |> <| cpu_trace_last_pc := fe_pc e0 |>
    <| cpu_trace_last_pc := fe_pc e |>) with
    ((emit_all lines t0) <| fetch_buf := buf |> <| cpu_trace_last_pc := fe_pc e |>).
  rewrite emit_all_buffer. by destruct (emit_all (walk buf) (emit_all lines t0)).
Qed.

(** A run of code is its first fetch and the fetches that follow it in memory; a
    program is a sequence of runs, each starting with a jump. *)
Fixpoint consecutive (e0 : FetchEntry) (rest : list FetchEntry) : Prop :=
  match rest with
  | [] => True
  | e :: rest => follows e0 e /\ consecutive e rest
  end.

Definition run_fetches (run : FetchEntry * list FetchEntry) : list FetchEntry := run.1 :: run.2.
Definition run_end (run : FetchEntry * list FetchEntry) : FetchEntry := default run.1 (last run.2).

Fixpoint program (e0 : FetchEntry) (runs : list (FetchEntry * list FetchEntry)) : Prop :=
  match runs with
  | [] => True
  | run :: runs => jumps e0 run.1 /\ consecutive run.1 run.2 /\ program (run_end run) runs
  end.

Lemma follows_ne e e' : follows e e' -> fe_pc e' <> fe_pc e.
Proof.
  unfold follows, uwrap. intros -> H.
  pose proof (Z.mod_pos_bound (fe_pc e + 2) (2 ^ 32) ltac:(lia)).
  div_lia.
Qed.

Lemma fetch_run p e0 rest t0 t :
  buffers p t0 t -> last p = Some e0 -> consecutive e0 rest ->
  exists t', fetch_all rest t = Some t' /\ buffers (p ++ rest) t0 t'.
Proof.
  revert p e0 t. induction rest as [|e rest IH]; intros p e0 t Hb Hp Hc.
  { exists t. by rewrite app_nil_r. }
  destruct Hc as [Hf Hc].
  destruct (fetch_follows p e0 e t0 t Hb Hp Hf (follows_ne e0 e Hf)) as (t1 & H1 & Hb1).
  destruct (IH (p ++ [e]) e t1 Hb1 (last_snoc _ _) Hc) as (t2 & H2 & Hb2).
  exists t2. cbn [fetch_all]. rewrite H1. split; [exact H2|].
  by rewrite <- (assoc_L (++)) in Hb2.
Qed.

Lemma fetch_all_app l1 l2 t : fetch_all (l1 ++ l2) t = t ← fetch_all l1 t; fetch_all l2 t.
Proof.
  revert t. induction l1 as [|e l1 IH]; intros t; [done|]. cbn [app fetch_all].
  destruct (trace_fetch _ _ _ _ _ t); [apply IH|done].
Qed.

Lemma run_end_last run : last (run_fetches run) = Some (run_end run).
Proof. destruct run as [e rest]. unfold run_fetches, run_end. cbn [fst snd]. rewrite last_cons.
  by destruct (last rest). Qed.

Lemma fetch_program p e0 runs t0 t :
  buffers p t0 t -> last p = Some e0 -> program e0 runs ->
  exists t', fetch_all (concat (map run_fetches runs)) t = Some t' /\
    buffers (default p (last (map run_fetches runs)))
      (emit_all (concat (map walk (removelast (p :: map run_fetches runs)))) t0) t'.
Proof.
  revert p e0 t0 t. induction runs as [|run runs IH]; intros p e0 t0 t Hb Hp Hprog.
  { exists t. cbn. split; [done|]. exact Hb. }
  destruct Hprog as (Hj & Hc & Hprog).
  pose proof (fetch_jumps p e0 run.1 t0 t Hb Hp Hj) as H1.
  destruct (fetch_run [run.1] run.1 run.2 _ _ (buffers_start run.1 (emit_all (walk p) t0)) eq_refl Hc) as (t2 & H2 & Hb2).
  destruct (IH (run_fetches run) (run_end run) _ t2 Hb2 (run_end_last run) Hprog)
    as (t3 & H3 & Hb3).
  exists t3. split.
  - cbn [map concat]. unfold run_fetches at 1. cbn [app fetch_all]. rewrite H1. cbn [mbind option_bind].
    rewrite fetch_all_app, H2. exact H3.
  - rewrite <- emit_all_app in Hb3. cbn [map].
    rewrite last_cons. by destruct (last (map run_fetches runs)).
Qed.

Lemma program_snoc e0 runs run :
  program e0 (runs ++ [run]) ->
  program e0 runs /\ jumps (default e0 (run_end <$> last runs)) run.1.
Proof.
  revert e0. induction runs as [|r runs IH]; intros e0; cbn [app program].
  - intros (Hj & _). done.
  - intros (Hj & Hc & Hp). destruct (IH _ Hp) as [Hp' Hj']. split; [done|].
    rewrite last_cons. by destruct (last runs).
Qed.

Lemma last_run first runs :
  last (default (run_fetches first) (last (map run_fetches runs))) =
    Some (default (run_end first) (run_end <$> last runs)).
Proof.
  assert (H : last (map run_fetches runs) = run_fetches <$> last runs) by apply fmap_last.
  rewrite H. destruct (last runs) as [r|]; apply run_end_last.
Qed.

Lemma walk_runs first (runs : list (FetchEntry * list FetchEntry)) :
  concat (map walk (removelast (run_fetches first :: map run_fetches runs))) ++
    walk (default (run_fetches first) (last (map run_fetches runs))) =
  concat (map walk (map run_fetches (first :: runs))).
Proof.
  change (run_fetches first :: map run_fetches runs) with (map run_fetches (first :: runs)).
  assert (Hl : last (map run_fetches (first :: runs)) =
               Some (default (run_fetches first) (last (map run_fetches runs)))).
  { cbn [map]. rewrite last_cons. by destruct (last (map run_fetches runs)). }
  apply last_Some in Hl as [l Hl]. rewrite Hl, removelast_last, map_app, concat_app.
  cbn [map concat]. by rewrite app_nil_r.
Qed.

(** C29: the trace logs instructions, not words.  For any sequence of runs of code,
    however long, the lines logged are those of stepping through each run from
    its first word by the lengths the disassembler reports: one line per
    instruction, none for an extension word, with the operands' words (up to
    five) at hand; and the buffer of eight entries changes nothing. *)
Theorem trace_program (first : FetchEntry * list FetchEntry)
    (runs : list (FetchEntry * list FetchEntry)) (brk : FetchEntry) (t : Tracer) :
  fetch_buf t = [] -> fe_pc first.1 <> cpu_trace_last_pc t ->
  consecutive first.1 first.2 -> program (run_end first) (runs ++ [(brk, [])]) ->
  let fetched := map run_fetches (first :: runs) in
  fetch_all (concat fetched ++ [brk]) t =
    Some ((emit_all (concat (map walk fetched)) t)
            <| fetch_buf := [brk] |> <| cpu_trace_last_pc := fe_pc brk |>).
Proof.
  intros Hb Hpc Hc Hprog fetched.
  destruct (fetch_first first.1 t Hb Hpc) as (t1 & H1 & Hb1).
  destruct (fetch_run [first.1] first.1 first.2 t t1 Hb1 eq_refl Hc) as (t2 & H2 & Hb2).
  destruct (program_snoc _ _ _ Hprog) as [Hruns Hbrk].
  destruct (fetch_program (run_fetches first) _ _ t t2 Hb2 (run_end_last first) Hruns)
    as (t3 & H3 & Hb3).
  pose proof (fetch_jumps _ _ brk _ t3 Hb3 (last_run first runs) Hbrk) as H4.
  rewrite <- emit_all_app, walk_runs in H4. unfold fetched.
  cbn [map concat]. unfold run_fetches at 1. cbn [app fetch_all]. rewrite H1.
  cbn [mbind option_bind]. rewrite !fetch_all_app, H2. cbn [mbind option_bind].
  rewrite H3. cbn [mbind option_bind fetch_all]. by rewrite H4.
Qed.

Lemma emit_log e disasm t : log_only (trace_console t) (trace_console (trace_emit e disasm t)).
Proof.
  destruct t as [en [out|] n lpc lf from to b c w]; cbn -[trace_line AddLog];
    [|apply AddLog_log_only].
  unfold trace_emit. cbn -[trace_line AddLog].
  destruct (_ && _); [destruct (negb _)|]; apply AddLog_log_only.
Qed.

Lemma emit_all_log lines t : log_only (trace_console t) (trace_console (emit_all lines t)).
Proof.
  revert t. induction lines as [|[e d] lines IH]; intros t; [apply log_only_refl|].
  eapply log_only_trans; [apply (emit_log e d)|]. apply IH.
Qed.

Lemma emit_count e disasm t : cpu_trace_count (trace_emit e disasm t) = cpu_trace_count t + 1.
Proof.
  destruct t as [en [out|] n lpc lf from to b c w]; [|done].
  unfold trace_emit. cbn -[trace_line]. destruct (_ && _); [|done]. by destruct (negb _).
Qed.

Lemma emit_all_count lines t : cpu_trace_count (emit_all lines t) = cpu_trace_count t + Z.of_nat (length lines).
Proof.
  revert t. induction lines as [|l lines IH]; intros t; [cbn; lia|].
  change (emit_all (l :: lines) t) with (emit_all lines (trace_emit l.1 l.2 t)). rewrite IH, emit_count. cbn. lia.
Qed.

Lemma walk_length run : (length (walk run) <= length run)%nat.
Proof.
  unfold walk. generalize (length run) at 1 as n. intros n. revert run. induction n as [|n IH]; intros run; [cbn; lia|].
  destruct run as [|e run]; [done|]. cbn [walk_fuel].
  pose proof (decode_len_nonneg (fe_pc e) (opwords (e :: run)) 5) as Hd.
  destruct (decode _ _ _) as [text len]. cbn [snd] in Hd. pose proof (len_words_pos len Hd).
  cbn [length]. specialize (IH (drop (Nat.min (len_words len) FETCH_BUF_SIZE) (e :: run))).
  rewrite length_drop in IH. cbn [length] in IH. unfold FETCH_BUF_SIZE in *. lia.
Qed.

(** What is logged, and what waits in the buffer. *)
Definition trace_used (t : Tracer) : Z := cpu_trace_count t + Z.of_nat (length (fetch_buf t)).

(** The shift of a full buffer: at least one entry goes. *)
Lemma shift_ok t :
  length (fetch_buf t) = FETCH_BUF_SIZE ->
  (length (fetch_buf (trace_shift raw t)) < FETCH_BUF_SIZE)%nat /\
  log_only (trace_console t) (trace_console (trace_shift raw t)) /\
  cpu_trace_count (trace_shift raw t) = cpu_trace_count t + 1 /\ trace_used (trace_shift raw t) <= trace_used t.
Proof.
  intros Hfull. unfold trace_shift, trace_used. destruct (fetch_buf t) as [|b buf] eqn:Hb; [done|].
  pose proof (decode_len_nonneg (fe_pc b) (opwords (b :: buf)) 5) as Hd.
  destruct (decode _ _ _) as [text len]. cbn [snd] in Hd. pose proof (len_words_pos len Hd).
  cbn [fetch_buf trace_console cpu_trace_count modify_field]. rewrite emit_buf, emit_count, Hb, length_drop, Hfull.
  unfold FETCH_BUF_SIZE in *. split; [lia|]. split; [apply emit_log|]. lia.
Qed.

Lemma fetch_ok (pc opcode cur_frame dataAddr : Z) (t : Tracer) :
  (length (fetch_buf t) <= FETCH_BUF_SIZE)%nat -> 0 <= cpu_trace_count t ->
  exists t', trace_fetch raw pc opcode cur_frame dataAddr t = Some t' /\
    (length (fetch_buf t') <= FETCH_BUF_SIZE)%nat /\ log_only (trace_console t) (trace_console t') /\
    0 <= cpu_trace_count t' <= trace_used t /\ trace_used t' <= trace_used t + 1.
Proof.
  intros Hl Hc. unfold trace_fetch, trace_used.
  destruct (negb (pc =? _)); [|exists t; split_and!; [done|done|apply log_only_refl|done|lia|lia]].
  cbn [fetch_buf modify_field]. set (t1 := t <| cpu_trace_last_pc := pc |>).
  destruct (_ && Nat.ltb 0 _).
  - rewrite flush_walk by done. pose proof (walk_length (fetch_buf t)) as Hw.
    pose proof (emit_all_count (walk (fetch_buf t)) t1) as Hn. change (cpu_trace_count t1) with (cpu_trace_count t) in Hn.
    cbn [mbind option_bind andb Z.ltb cpu_trace_max Z.compare].
    exists ((emit_all (walk (fetch_buf t)) t1) <| fetch_buf := [MkFetch pc opcode cur_frame dataAddr] |>).
    split; [reflexivity|]. cbn [fetch_buf cpu_trace_count trace_console modify_field]. rewrite Hn.
    split; [unfold FETCH_BUF_SIZE; cbn; lia|]. split; [|cbn [length]; lia].
    change (trace_console t) with (trace_console t1). apply emit_all_log.
  - cbn [mbind option_bind andb Z.ltb cpu_trace_max Z.compare fetch_buf modify_field].
    eexists. split; [reflexivity|]. cbn [fetch_buf trace_console cpu_trace_count modify_field].
    change (fetch_buf t1) with (fetch_buf t). rewrite length_app. cbn [length].
    destruct (Nat.ltb_spec (length (fetch_buf t)) FETCH_BUF_SIZE) as [Hlt|Hge].
    + change (fetch_buf t1) with (fetch_buf t). change (cpu_trace_count t1) with (cpu_trace_count t).
      split_and!; [lia|apply log_only_refl|done|lia|lia].
    + destruct (shift_ok t1) as (Hs & Hlog & Hn & Hu); [change (fetch_buf t1) with (fetch_buf t); lia|].
      unfold trace_used in Hu. change (fetch_buf t1) with (fetch_buf t) in Hu.
      change (cpu_trace_count t1) with (cpu_trace_count t) in Hu, Hn. unfold FETCH_BUF_SIZE in *.
      split_and!; [lia|exact Hlog|lia|lia|lia].
Qed.

(** A sample whose counts fit is defined, and uses at most one more. *)
Lemma sample_ok (ioctl_download debug_fetch_valid : bool) (pc opcode cur_frame dataAddr : Z) (t : Tracer) :
  (length (fetch_buf t) <= FETCH_BUF_SIZE)%nat -> 0 <= cpu_trace_count t -> trace_used t <= INT_MAX ->
  exists t', trace_sample raw ioctl_download debug_fetch_valid pc opcode cur_frame dataAddr t = Some t' /\
    (length (fetch_buf t') <= FETCH_BUF_SIZE)%nat /\ log_only (trace_console t) (trace_console t') /\
    0 <= cpu_trace_count t' /\ trace_used t' <= trace_used t + 1.
Proof.
  intros Hl Hc Hu. unfold trace_sample.
  destruct (_ && negb ioctl_download); [|exists t; split_and!; [done|done|apply log_only_refl|done|lia]].
  destruct (fetch_ok pc opcode cur_frame dataAddr t Hl Hc) as (t' & -> & H1 & H2 & H3 & H4).
  cbn [mbind option_bind]. rewrite checked_int_small by lia. exists t'. split_and!; [done|done|done|lia|lia].
Qed.

(** No fetch stops the harness or overruns the buffer.  Whatever the core
    fetches and whatever length the disassembler reports, the loop that empties
    the buffer ends, and at most eight entries are in use. *)
Theorem trace_total (ioctl_download debug_fetch_valid : bool)
    (pc opcode cur_frame dataAddr : Z) (t : Tracer) :
  (length (fetch_buf t) <= FETCH_BUF_SIZE)%nat -> 0 <= cpu_trace_count t -> trace_used t <= INT_MAX ->
  exists t', trace_sample raw ioctl_download debug_fetch_valid pc opcode cur_frame dataAddr t = Some t' /\
    (length (fetch_buf t') <= FETCH_BUF_SIZE)%nat.
Proof.
  intros Hl Hc Hu. destruct (sample_ok ioctl_download debug_fetch_valid pc opcode cur_frame dataAddr t Hl Hc Hu)
    as (t' & Ht & Hl' & _). by exists t'.
Qed.

(** An instruction is the words the disassembler says it is, whatever follows. *)
Definition decodes (instr : list FetchEntry) (text : cstr) : Prop :=
  (1 <= length instr <= FETCH_BUF_SIZE)%nat /\
  forall e rest, head instr = Some e ->
    decode (fe_pc e) (opwords (instr ++ rest)) 5 = (text, 2 * Z.of_nat (length instr)).

Definition opcode_lines (instrs : list (list FetchEntry * cstr)) : list (FetchEntry * cstr) :=
  omap (fun i => e ← head i.1; Some (e, i.2)) instrs.

Lemma walk_instructions instrs :
  Forall (fun i => decodes i.1 i.2) instrs ->
  walk (concat (map fst instrs)) = opcode_lines instrs.
Proof.
  induction 1 as [|[instr text] instrs [Hl Hd] _ IH]; [done|].
  destruct instr as [|e instr]; [cbn in Hl; lia|].
  cbn [map concat fst app]. rewrite walk_cons.
  change (e :: instr ++ ?l) with ((e :: instr) ++ l).
  cbn [fst snd] in Hd, Hl. rewrite (Hd e _ eq_refl).
  assert (Hw : len_words (2 * Z.of_nat (length (e :: instr))) = length (e :: instr)).
  { unfold len_words. destruct (Z.ltb_spec (2 * Z.of_nat (length (e :: instr))) 2); [lia|].
    rewrite Z.mul_comm, Z.div_mul by lia. lia. }
  rewrite Hw, Nat.min_l by lia. rewrite drop_app_length. unfold opcode_lines. cbn. f_equal. exact IH.
Qed.

(** Extension words are skipped.  A run of instructions of one to eight words
    each is logged as one line per instruction, at the address and with the word
    of its opcode, when the code jumps away. *)
Theorem trace_opcodes (instrs : list (list FetchEntry * cstr)) (first : FetchEntry)
    (rest : list FetchEntry) (brk : FetchEntry) (t : Tracer) :
  Forall (fun i => decodes i.1 i.2) instrs -> concat (map fst instrs) = first :: rest ->
  fetch_buf t = [] -> fe_pc first <> cpu_trace_last_pc t ->
  consecutive first rest -> jumps (run_end (first, rest)) brk ->
  fetch_all (first :: rest ++ [brk]) t =
    Some ((emit_all (opcode_lines instrs) t)
            <| fetch_buf := [brk] |> <| cpu_trace_last_pc := fe_pc brk |>).
Proof.
  intros Hi He Hb Hpc Hc Hj.
  destruct (fetch_first first t Hb Hpc) as (t1 & H1 & Hb1).
  destruct (fetch_run [first] first rest t t1 Hb1 eq_refl Hc) as (t2 & H2 & Hb2).
  pose proof (fetch_jumps _ _ brk _ t2 Hb2 (run_end_last (first, rest)) Hj) as H3.
  cbn [app] in H3. rewrite <- He, walk_instructions in H3 by done.
  cbn [fetch_all]. rewrite H1. cbn [mbind option_bind]. rewrite fetch_all_app, H2.
  cbn [mbind option_bind fetch_all]. by rewrite H3.
Qed.

End Walk.

(** ** Witnesses

    A disassembler for two instructions: [nop], and [move.l #n,d0] of six bytes. *)

Definition toy_raw (pc : Z) (opdata : list Z) : cstr * Z :=
  if default 0 (head opdata) =? 0x20 then (lit "move.l", 6) else (lit "nop", 2).

Definition toy_word (pc word : Z) : FetchEntry := MkFetch pc word 7 0.

Lemma trace_program_witness :
  let run := (toy_word 0x100 0x4E71, [toy_word 0x102 0x203C; toy_word 0x104 1; toy_word 0x106 2]) in
  option_map cpu_trace_count
    (fetch_all toy_raw (run_fetches run ++ [toy_word 0x100 0x4E71]) (Tracer_new Console_zero))
  = Some 2.
Proof.
  intros run.
  refine (eq_trans (f_equal (option_map cpu_trace_count)
    (trace_program toy_raw run [] (toy_word 0x100 0x4E71) (Tracer_new Console_zero) _ _ _ _)) _);
    try reflexivity.
  - vm_compute. discriminate.
  - vm_compute. done.
  - vm_compute. repeat split; discriminate.
Defined.

Lemma trace_total_witness :
  exists t', trace_sample toy_raw false true 0x100 0x4E71 7 0 (Tracer_new Console_zero) = Some t' /\
    (length (fetch_buf t') <= FETCH_BUF_SIZE)%nat.
Proof. apply (trace_total toy_raw); vm_compute; try discriminate; lia. Defined.

Lemma trace_opcodes_witness :
  let move := [toy_word 0x102 0x203C; toy_word 0x104 1; toy_word 0x106 2] in
  option_map cpu_trace_count
    (fetch_all toy_raw (toy_word 0x100 0x4E71 :: move ++ [toy_word 0x200 0x4E71])
       (Tracer_new Console_zero))
  = Some 2.
Proof.
  intros move.
  refine (eq_trans (f_equal (option_map cpu_trace_count)
    (trace_opcodes toy_raw [([toy_word 0x100 0x4E71], lit "nop"); (move, lit "move.l")]
       (toy_word 0x100 0x4E71) move (toy_word 0x200 0x4E71) (Tracer_new Console_zero) _ _ _ _ _ _)) _);
    try reflexivity.
  - repeat constructor; try (cbn; lia); intros e rest [= <-]; reflexivity.
  - vm_compute. discriminate.
  - vm_compute. done.
  - vm_compute. split; discriminate.
Defined.
