(* ===== verification/Options.v ===== *)
(** * The command line of the simulation (sim_main.cpp, [main])

    The options are globals set by a scan of [argv]; the scan either ends with the
    options, or [main] returns an exit code, or [std::stoi] throws, which nothing
    catches.  [atoi]-like conversions are [std::stoi]'s: leading blanks, a sign,
    digits, and the rest ignored. *)

From Stdlib Require Import Ascii.
From S2P Require Import Prelude Console.

(** ** The standard library's conversions *)

Definition is_blank_char (c : ascii) : bool :=
  let v := char_val c in (v =? 32) || ((9 <=? v) && (v <=? 13)).

Definition is_digit (c : ascii) : bool := let v := char_val c in (48 <=? v) && (v <=? 57).

Fixpoint skip_blanks (s : cstr) : cstr :=
  match s with
  | c :: rest => if is_blank_char c then skip_blanks rest else s
  | [] => []
  end.

(** The value of the leading digits, continued from [acc]. *)
Fixpoint digits_value (s : cstr) (acc : Z) : Z :=
  match s with
  | c :: rest => if is_digit c then digits_value rest (10 * acc + (char_val c - 48)) else acc
  | [] => acc
  end.

(** [std::stoi]; [None] is a throw: no digits, or a value that is not an [int]. *)
Definition stoi (s : cstr) : option Z :=
  let s := skip_blanks s in
  let '(sign, s) := match s with
                    | c :: rest => if char_val c =? 45 then (-1, rest)
                                   else if char_val c =? 43 then (1, rest) else (1, s)
                    | [] => (1, s)
                    end in
  match s with
  | c :: _ =>
      if is_digit c then
        let v := sign * digits_value s 0 in
        if (- 2 ^ 31 <=? v) && (v <? 2 ^ 31) then Some v else None
      else None
  | [] => None
  end.

Definition COMMA : ascii := Ascii.ascii_of_nat 44.

(** The string before the first comma, and the one after it if there is one. *)
Fixpoint split_comma (s : cstr) : cstr * option cstr :=
  match s with
  | [] => ([], None)
  | c :: rest =>
      if bool_decide (c = COMMA) then ([], Some rest)
      else let '(a, b) := split_comma rest in (c :: a, b)
  end.

(** The loop of [std::getline] with a comma; at the end of the text no further
    line is read. *)
Fixpoint getlines (fuel : nat) (s : cstr) : list cstr :=
  match fuel, s with
  | S fuel', _ :: _ =>
      match split_comma s with
      | (a, Some rest) => a :: getlines fuel' rest
      | (a, None) => [a]
      end
  | _, _ => []
  end.

(** ** The options *)

Record Options := MkOptions {
  headless : bool;
  screenshot_mode : bool;
  screenshot_frames : list Z;
  stop_at_frame : Z;
  stop_at_frame_enabled : bool;
  reset_at_frame : Z;
  nmi_at_frame : Z;
  cpu_trace_disabled : bool;
  opt_trace_from : Z;
  opt_trace_to : Z;
  verbose_diag : bool;
  scsi_disk_files : list cstr;
  cdrom_file : cstr;
  floppy_disk_files : list cstr;
  rom_file_override : cstr;
  cfg_cpuType : Z;
  cfg_memSize : Z;
  cfg_sdramMod : Z;
  pc_heartbeat : bool;
  mouse_inject_from : Z;
  mouse_inject_to : Z }.

#[export] Instance eta_Options : Eta Options := fun o =>
  MkOptions (headless o) (screenshot_mode o) (screenshot_frames o) (stop_at_frame o)
    (stop_at_frame_enabled o) (reset_at_frame o) (nmi_at_frame o) (cpu_trace_disabled o)
    (opt_trace_from o) (opt_trace_to o) (verbose_diag o) (scsi_disk_files o) (cdrom_file o)
    (floppy_disk_files o) (rom_file_override o) (cfg_cpuType o) (cfg_memSize o) (cfg_sdramMod o)
    (pc_heartbeat o) (mouse_inject_from o) (mouse_inject_to o).

(** The values the globals start with. *)
Definition default_options : Options :=
  MkOptions false false [] (-1) false (-1) (-1) false 0 0x7FFFFFFF false [[]; []] [] [[]; []] []
    2 0 3 false (-1) 0x7FFFFFFF.

Definition ram_mb_table : list Z := [4; 8; 20; 36; 48; 68].

(** What an argument leads to. *)
Inductive Parsed :=
  | Continue (o : Options)
  | Exit (code : Z)
  | Uncaught.

Definition arg_is (a : cstr) (name : String.string) : bool := bool_decide (a = lit name).

(** [let x = std::stoi(v)] and go on with [x]. *)
Definition with_stoi (v : cstr) (k : Z -> Parsed) : Parsed :=
  match stoi v with Some n => k n | None => Uncaught end.

Fixpoint push_frames (frames : list cstr) (o : Options) : Parsed :=
  match frames with
  | [] => Continue o
  | f :: frames => with_stoi f (fun n =>
      push_frames frames (o <| screenshot_frames := screenshot_frames o ++ [n] |>))
  end.

(** The last index of the table that holds [mb], or -1. *)
Definition find_ram (mb : Z) : Z :=
  fold_left (fun found k => if default 0 (ram_mb_table !! k) =? mb then Z.of_nat k else found)
    (seq 0 6) (-1).

(** The arguments without a value. *)
Definition parse_flag (a : cstr) (o : Options) : option Parsed :=
  if arg_is a "-h" || arg_is a "--help" then Some (Exit 0)
  else if arg_is a "--headless" || arg_is a "--no-gui" then Some (Continue (o <| headless := true |>))
  else if arg_is a "--no-cpu-trace" then Some (Continue (o <| cpu_trace_disabled := true |>))
  else if arg_is a "--verbose" || arg_is a "-v" then Some (Continue (o <| verbose_diag := true |>))
  else if arg_is a "--heartbeat" then Some (Continue (o <| pc_heartbeat := true |>))
  else None.

(** The arguments with a value, the next argument. *)
Definition parse_value (a v : cstr) (o : Options) : option Parsed :=
  if arg_is a "--screenshot" then
    Some (push_frames (getlines (length v) v) (o <| screenshot_mode := true |>))
  else if arg_is a "--stop-at-frame" then Some (with_stoi v (fun n =>
    Continue (o <| stop_at_frame := n |> <| stop_at_frame_enabled := true |>)))
  else if arg_is a "--reset-at-frame" then
    Some (with_stoi v (fun n => Continue (o <| reset_at_frame := n |>)))
  else if arg_is a "--nmi-at-frame" then
    Some (with_stoi v (fun n => Continue (o <| nmi_at_frame := n |>)))
  else if arg_is a "--trace-frames" then
    let '(before, after) := split_comma v in
    Some (with_stoi before (fun from =>
      match after with
      | None => Continue (o <| opt_trace_from := from |> <| opt_trace_to := from |>)
      | Some rest => with_stoi rest (fun to =>
          Continue (o <| opt_trace_from := from |> <| opt_trace_to := to |>))
      end))
  else if arg_is a "--scsi0" then Some (Continue (o <| scsi_disk_files ::= <[0%nat := v]> |>))
  else if arg_is a "--scsi1" then Some (Continue (o <| scsi_disk_files ::= <[1%nat := v]> |>))
  else if arg_is a "--cdrom" then Some (Continue (o <| cdrom_file := v |>))
  else if arg_is a "--floppy0" then Some (Continue (o <| floppy_disk_files ::= <[0%nat := v]> |>))
  else if arg_is a "--floppy1" then Some (Continue (o <| floppy_disk_files ::= <[1%nat := v]> |>))
  else if arg_is a "--rom" then Some (Continue (o <| rom_file_override := v |>))
  else if arg_is a "--ram" then Some (with_stoi v (fun mb =>
    let o := o <| cfg_memSize := find_ram mb |> in
    if cfg_memSize o <? 0 then Exit 1 else Continue o))
  else if arg_is a "--sdram-module" then Some (with_stoi v (fun mb =>
    let o := o <| cfg_sdramMod := if mb =? 32 then 1 else if mb =? 64 then 2
                                  else if mb =? 128 then 3 else -1 |> in
    if cfg_sdramMod o <? 0 then Exit 1 else Continue o))
  else if arg_is a "--mouse-from" then
    Some (with_stoi v (fun n => Continue (o <| mouse_inject_from := n |>)))
  else if arg_is a "--mouse-to" then
    Some (with_stoi v (fun n => Continue (o <| mouse_inject_to := n |>)))
  else None.

(** The scan of the arguments after the program's name.  An argument that is none
    of these, or lacks its value at the end of the line, is skipped. *)
Fixpoint parse_args (args : list cstr) (o : Options) : Parsed :=
  match args with
  | [] => Continue o
  | a :: rest =>
      match parse_flag a o with
      | Some (Continue o) => parse_args rest o
      | Some r => r
      | None =>
          match rest with
          | [] => Continue o
          | v :: rest' =>
              match parse_value a v o with
              | Some (Continue o) => parse_args rest' o
              | Some r => r
              | None => parse_args rest o
              end
          end
      end
  end.

(** ** Valid configurations *)

(** What the machine needs of its options: the memory sizes index their tables and
    each bus has two file names. *)
Definition config_ok (o : Options) : Prop :=
  0 <= cfg_memSize o < Z.of_nat (length ram_mb_table) /\ 1 <= cfg_sdramMod o <= 3 /\
  length (scsi_disk_files o) = 2%nat /\ length (floppy_disk_files o) = 2%nat /\ cfg_cpuType o = 2.

Definition parsed_ok (r : Parsed) : Prop :=
  match r with Continue o => config_ok o | Exit code => code = 0 \/ code = 1 | Uncaught => True end.

Lemma find_ram_spec mb :
  -1 <= find_ram mb < 6 /\ (0 <= find_ram mb -> ram_mb_table !! Z.to_nat (find_ram mb) = Some mb).
Proof.
  unfold find_ram. cbn [seq fold_left ram_mb_table lookup list_lookup default from_option].
  zcases; subst; cbn; split; try lia; intros; reflexivity.
Qed.

Lemma with_stoi_ok v k : (forall n, parsed_ok (k n)) -> parsed_ok (with_stoi v k).
Proof. intros Hk. unfold with_stoi. by destruct (stoi v). Qed.

Lemma push_frames_ok frames o : config_ok o -> parsed_ok (push_frames frames o).
Proof.
  revert o. induction frames as [|f frames IH]; intros o Ho; [done|].
  apply with_stoi_ok. intros n. by apply IH.
Qed.

Lemma parse_flag_ok a o r : config_ok o -> parse_flag a o = Some r -> parsed_ok r.
Proof.
  intros Ho. unfold parse_flag. repeat case_match; intros [= <-]; try done. by left.
Qed.

Lemma parse_value_ok a v o r : config_ok o -> parse_value a v o = Some r -> parsed_ok r.
Proof.
  intros Ho. unfold parse_value.
  destruct (split_comma v) as [before after].
  repeat (match goal with |- (if ?b then _ else _) = _ -> _ => destruct b end);
    intros [= <-]; try (apply with_stoi_ok; intros n); try done.
  all: try (cbn [parsed_ok]; unfold config_ok in *; cbn [cfg_memSize cfg_sdramMod scsi_disk_files
    floppy_disk_files cfg_cpuType modify_field]; by rewrite ?length_insert).
  - by apply push_frames_ok.
  - destruct after as [rest|]; [|done]. by apply with_stoi_ok.
  - cbn [cfg_memSize modify_field parsed_ok]. pose proof (proj1 (find_ram_spec n)).
    destruct (Z.ltb_spec (find_ram n) 0); [by right|]. cbn [parsed_ok]. unfold config_ok in *. cbn -[find_ram]. lia.
  - cbn [cfg_sdramMod modify_field parsed_ok]. unfold config_ok in *.
    change (Z.of_nat (length ram_mb_table)) with 6 in *.
    zcases; cbn [parsed_ok]; unfold config_ok; cbn; try lia; by right.
Qed.

(** A configuration is always valid.  Whatever the command line, [main] goes on
    with a memory size of the table and a known module, or returns 0 (help) or 1
    (a size that does not exist), or ends in the exception of [std::stoi]. *)
Theorem parse_args_config (args : list cstr) :
  parsed_ok (parse_args args default_options).
Proof.
  assert (H : forall n args o, (length args <= n)%nat -> config_ok o -> parsed_ok (parse_args args o)).
  { clear args. intros n. induction n as [|n IH]; intros args o Hn Ho;
      destruct args as [|a rest]; cbn [length] in Hn; try done; [lia|].
    cbn [parse_args]. destruct (parse_flag a o) as [r|] eqn:Hf.
    - pose proof (parse_flag_ok a o r Ho Hf). destruct r; [|done..]. apply IH; [lia|done].
    - destruct rest as [|v rest']; [done|].
      destruct (parse_value a v o) as [r|] eqn:Hv.
      + pose proof (parse_value_ok a v o r Ho Hv). cbn [length] in Hn.
        destruct r; [|done..]. apply IH; [lia|done].
      + apply IH; [lia|done]. }
  apply (H (length args)); [done|]. unfold config_ok. cbn. lia.
Qed.

(** ** Printing and parsing *)

Fixpoint dec_digits (n : nat) (v : Z) : cstr :=
  match n with
  | O => []
  | S n' =>
      let digit d := ascii_of_N (Z.to_N (48 + d)) in
      if v <? 10 then [digit v] else dec_digits n' (v / 10) ++ [digit (v `mod` 10)]
  end.

Definition dec (v : Z) : cstr := if v <? 0 then lit "-" ++ dec_digits 10 (- v) else dec_digits 10 v.

Lemma digit_char d :
  0 <= d < 10 -> char_val (ascii_of_N (Z.to_N (48 + d))) = 48 + d.
Proof.
  intros Hd. assert (Hc : In d [0;1;2;3;4;5;6;7;8;9]) by (cbn; lia).
  cbn in Hc. repeat destruct Hc as [<-|Hc]; [reflexivity..|done].
Qed.

Lemma digits_value_app s1 s2 acc :
  forallb is_digit s1 = true ->
  digits_value (s1 ++ s2) acc = digits_value s2 (digits_value s1 acc).
Proof.
  revert acc. induction s1 as [|c s1 IH]; intros acc; [done|].
  cbn [forallb app digits_value]. destruct (is_digit c); [|done]. intros. by apply IH.
Qed.

Lemma is_digit_char d : 0 <= d < 10 -> is_digit (ascii_of_N (Z.to_N (48 + d))) = true.
Proof. intros Hd. unfold is_digit. rewrite digit_char by done. zcases; cbn; try lia; done. Qed.

Lemma dec_digits_ok n v :
  0 <= v < 10 ^ Z.of_nat n ->
  forallb is_digit (dec_digits n v) = true /\
  ((1 <= n)%nat -> dec_digits n v <> []) /\
  digits_value (dec_digits n v) 0 = v.
Proof.
  revert v. induction n as [|n IH]; intros v Hv.
  { cbn in *. split_and!; [done|lia|lia]. }
  rewrite Nat2Z.inj_succ, Z.pow_succ_r in Hv by lia. cbn [dec_digits].
  destruct (Z.ltb_spec v 10) as [Hs|Hs].
  - cbn [forallb digits_value]. rewrite is_digit_char, digit_char by lia.
    split_and!; [done|done|lia].
  - destruct (IH (v / 10)) as (H1 & _ & H3); [div_lia|].
    pose proof (Z.mod_pos_bound v 10 ltac:(lia)).
    rewrite forallb_app, H1. cbn [forallb]. rewrite is_digit_char by lia.
    split_and!; [done|intros _ E; by apply app_nil in E as [_ E]|].
    rewrite digits_value_app, H3 by done. cbn [digits_value].
    rewrite is_digit_char, digit_char by lia. div_lia.
Qed.

Definition is_int (v : Z) : Prop := - 2 ^ 31 <= v < 2 ^ 31.

(** No digit follows. *)
Definition stops (s : cstr) : Prop := match s with c :: _ => is_digit c = false | [] => True end.

Lemma digit_not_blank c : is_digit c = true -> is_blank_char c = false /\ char_val c <> 45 /\ char_val c <> 43.
Proof. unfold is_digit, is_blank_char. zcases; cbn; try done; lia. Qed.

Lemma stoi_digits s rest :
  s <> [] -> forallb is_digit s = true -> stops rest -> is_int (digits_value s 0) ->
  stoi (s ++ rest) = Some (digits_value s 0).
Proof.
  intros Hne Hd Hr Hi. destruct s as [|c s]; [done|].
  assert (Hc : is_digit c = true) by (cbn in Hd; by destruct (is_digit c)).
  destruct (digit_not_blank c Hc) as (Hb & H1 & H2).
  unfold stoi. cbn [app skip_blanks]. rewrite Hb.
  destruct (Z.eqb_spec (char_val c) 45); [done|]. destruct (Z.eqb_spec (char_val c) 43); [done|].
  rewrite Hc. change (c :: s ++ rest) with ((c :: s) ++ rest).
  rewrite digits_value_app by done.
  assert (Hs : forall v, digits_value rest v = v).
  { intros v. destruct rest as [|r rest]; [done|]. cbn in *. by rewrite Hr. }
  rewrite Hs, Z.mul_1_l. unfold is_int in Hi.
  destruct (Z.leb_spec (- 2 ^ 31) (digits_value (c :: s) 0)); [|lia].
  destruct (Z.ltb_spec (digits_value (c :: s) 0) (2 ^ 31)); [done|lia].
Qed.

Lemma stoi_dec v rest : is_int v -> stops rest -> stoi (dec v ++ rest) = Some v.
Proof.
  intros Hv Hr. unfold is_int in Hv. unfold dec. destruct (Z.ltb_spec v 0) as [Hn|Hn].
  - destruct (dec_digits_ok 10 (- v)) as (H1 & H2 & H3); [lia|].
    specialize (H2 ltac:(lia)). destruct (dec_digits 10 (- v)) as [|c s] eqn:Hs; [done|].
    change (stoi (lit "-" ++ (c :: s) ++ rest) = Some v).
    unfold stoi. cbn [app lit String.list_ascii_of_string skip_blanks].
    change (is_blank_char "-") with false. cbv iota.
    change (char_val "-" =? 45) with true. cbv iota.
    assert (Hc : is_digit c = true) by (cbn in H1; by destruct (is_digit c)).
    rewrite Hc. change (c :: s ++ rest) with ((c :: s) ++ rest).
    rewrite digits_value_app, H3 by done.
    assert (Hstop : forall w, digits_value rest w = w).
    { intros w. destruct rest as [|r rest]; [done|]. cbn in *. by rewrite Hr. }
    rewrite Hstop. replace (-1 * - v) with v by lia.
    destruct (Z.leb_spec (- 2 ^ 31) v); [|lia]. destruct (Z.ltb_spec v (2 ^ 31)); [done|lia].
  - destruct (dec_digits_ok 10 v) as (H1 & H2 & H3); [lia|].
    rewrite stoi_digits; [by rewrite H3|by apply H2; lia|done|done|unfold is_int; lia].
Qed.

Fixpoint join (frames : list Z) : cstr :=
  match frames with
  | [] => []
  | [n] => dec n
  | n :: frames => dec n ++ COMMA :: join frames
  end.

Definition flag (b : bool) (name : String.string) : list cstr := if b then [lit name] else [].

(** A command line for the options. *)
Definition print_args (o : Options) : list cstr :=
  flag (headless o) "--headless" ++
  (if screenshot_mode o then [lit "--screenshot"; join (screenshot_frames o)] else []) ++
  (if stop_at_frame_enabled o then [lit "--stop-at-frame"; dec (stop_at_frame o)] else []) ++
  [lit "--reset-at-frame"; dec (reset_at_frame o)] ++
  [lit "--nmi-at-frame"; dec (nmi_at_frame o)] ++
  flag (cpu_trace_disabled o) "--no-cpu-trace" ++
  [lit "--trace-frames"; dec (opt_trace_from o) ++ COMMA :: dec (opt_trace_to o)] ++
  flag (verbose_diag o) "--verbose" ++
  [lit "--scsi0"; default [] (scsi_disk_files o !! 0%nat)] ++
  [lit "--scsi1"; default [] (scsi_disk_files o !! 1%nat)] ++
  [lit "--cdrom"; cdrom_file o] ++
  [lit "--floppy0"; default [] (floppy_disk_files o !! 0%nat)] ++
  [lit "--floppy1"; default [] (floppy_disk_files o !! 1%nat)] ++
  [lit "--rom"; rom_file_override o] ++
  [lit "--ram"; dec (default 0 (ram_mb_table !! Z.to_nat (cfg_memSize o)))] ++
  [lit "--sdram-module"; dec (32 * 2 ^ (cfg_sdramMod o - 1))] ++
  flag (pc_heartbeat o) "--heartbeat" ++
  [lit "--mouse-from"; dec (mouse_inject_from o)] ++
  [lit "--mouse-to"; dec (mouse_inject_to o)].

Definition options_ok (o : Options) : Prop :=
  config_ok o /\ Forall is_int (screenshot_frames o) /\
  (screenshot_mode o = false -> screenshot_frames o = []) /\
  is_int (stop_at_frame o) /\ (stop_at_frame_enabled o = false -> stop_at_frame o = -1) /\
  is_int (reset_at_frame o) /\ is_int (nmi_at_frame o) /\
  is_int (opt_trace_from o) /\ is_int (opt_trace_to o) /\
  is_int (mouse_inject_from o) /\ is_int (mouse_inject_to o).

Lemma dec_no_comma v : is_int v -> Forall (fun c => c <> COMMA) (dec v).
Proof.
  intros Hv. unfold is_int in Hv.
  assert (Hd : forall s, forallb is_digit s = true -> Forall (fun c => c <> COMMA) s).
  { intros s Hs. apply List.Forall_forall. intros c Hc ->. rewrite forallb_forall in Hs.
    by apply Hs in Hc. }
  unfold dec. destruct (Z.ltb_spec v 0).
  - constructor; [done|]. apply Hd, dec_digits_ok. lia.
  - apply Hd, dec_digits_ok. lia.
Qed.

Lemma dec_nonempty v : is_int v -> dec v <> [].
Proof.
  unfold is_int, dec. intros Hv. destruct (Z.ltb_spec v 0); [done|].
  apply dec_digits_ok; lia.
Qed.

Lemma split_comma_some s rest :
  Forall (fun c => c <> COMMA) s -> split_comma (s ++ COMMA :: rest) = (s, Some rest).
Proof.
  induction 1 as [|c s Hc _ IH]; [done|]. cbn [app split_comma].
  rewrite bool_decide_eq_false_2 by done. by rewrite IH.
Qed.

Lemma split_comma_none s : Forall (fun c => c <> COMMA) s -> split_comma s = (s, None).
Proof.
  induction 1 as [|c s Hc _ IH]; [done|]. cbn [split_comma].
  rewrite bool_decide_eq_false_2 by done. by rewrite IH.
Qed.

Lemma getlines_join frames n :
  Forall is_int frames -> (length frames <= n)%nat -> getlines n (join frames) = map dec frames.
Proof.
  intros Hf. revert n. induction Hf as [|f frames Hi Hf IH]; intros n Hn; [by destruct n|].
  destruct n as [|n]; cbn [length] in Hn; [lia|].
  assert (Hne := dec_nonempty f Hi). destruct frames as [|g frames].
  - cbn [join map getlines]. destruct (dec f) as [|c s] eqn:Hd; [done|].
    rewrite <- Hd, split_comma_none by by apply dec_no_comma. done.
  - change (join (f :: g :: frames)) with (dec f ++ COMMA :: join (g :: frames)).
    cbn [getlines]. rewrite split_comma_some by by apply dec_no_comma.
    rewrite IH by lia. cbn [map]. by destruct (dec f).
Qed.

Lemma join_length frames : Forall is_int frames -> (length frames <= length (join frames))%nat.
Proof.
  induction 1 as [|f frames Hi Hf IH]; [done|]. assert (Hne := dec_nonempty f Hi).
  destruct frames as [|g frames].
  - cbn [join]. destruct (dec f); [done|cbn; lia].
  - change (join (f :: g :: frames)) with (dec f ++ COMMA :: join (g :: frames)).
    rewrite length_app. cbn [length] in *. lia.
Qed.

Lemma stoi_dec_end v : is_int v -> stoi (dec v) = Some v.
Proof. intros Hv. rewrite <- (app_nil_r (dec v)). by apply stoi_dec. Qed.

Lemma push_frames_dec frames o :
  Forall is_int frames ->
  push_frames (map dec frames) o = Continue (o <| screenshot_frames := screenshot_frames o ++ frames |>).
Proof.
  intros Hf. revert o. induction Hf as [|f frames Hi Hf IH]; intros o.
  - cbn. rewrite app_nil_r. by destruct o.
  - cbn [map push_frames]. unfold with_stoi. rewrite stoi_dec_end by done. rewrite IH.
    cbn. by rewrite <- (assoc_L (++)).
Qed.

Lemma find_ram_table k :
  0 <= k < 6 -> find_ram (default 0 (ram_mb_table !! Z.to_nat k)) = k.
Proof.
  intros Hk. assert (Hc : In k [0;1;2;3;4;5]) by (cbn; lia).
  cbn in Hc. repeat destruct Hc as [<-|Hc]; [reflexivity..|done].
Qed.

Lemma flag_step b name (o o' : Options) rest :
  parse_flag (lit name) o = Some (Continue o') ->
  parse_args (flag b name ++ rest) o = parse_args rest (if b then o' else o).
Proof. intros H. destruct b; [|done]. cbn [flag app parse_args]. by rewrite H. Qed.

Lemma value_step a v o o' rest :
  parse_flag a o = None -> parse_value a v o = Some (Continue o') ->
  parse_args (a :: v :: rest) o = parse_args rest o'.
Proof. intros H1 H2. cbn [parse_args]. by rewrite H1, H2. Qed.

Lemma int_step a n (k : Z -> Options) o rest :
  parse_flag a o = None ->
  (forall v, parse_value a v o = Some (with_stoi v (fun n => Continue (k n)))) ->
  is_int n -> parse_args (a :: dec n :: rest) o = parse_args rest (k n).
Proof.
  intros H1 H2 Hn. apply value_step; [done|]. rewrite H2. unfold with_stoi.
  by rewrite stoi_dec_end.
Qed.

Lemma screenshot_step sm sf o rest :
  Forall is_int sf -> (sm = false -> sf = []) ->
  screenshot_mode o = false -> screenshot_frames o = [] ->
  parse_args ((if sm then [lit "--screenshot"; join sf] else []) ++ rest) o =
  parse_args rest (o <| screenshot_mode := sm |> <| screenshot_frames := sf |>).
Proof.
  intros Hsf Hsm Hm Hf. destruct sm.
  - apply value_step; [reflexivity|].
    change (parse_value (lit "--screenshot") (join sf) o) with
      (Some (push_frames (getlines (length (join sf)) (join sf)) (o <| screenshot_mode := true |>))).
    rewrite getlines_join by (try done; by apply join_length).
    rewrite push_frames_dec by done. cbn [screenshot_frames modify_field]. by rewrite Hf.
  - rewrite (Hsm eq_refl). destruct o. cbn in *. by subst.
Qed.

Lemma stop_step ste st o rest :
  is_int st -> (ste = false -> st = -1) -> stop_at_frame_enabled o = false -> stop_at_frame o = -1 ->
  parse_args ((if ste then [lit "--stop-at-frame"; dec st] else []) ++ rest) o =
  parse_args rest (o <| stop_at_frame := st |> <| stop_at_frame_enabled := ste |>).
Proof.
  intros Hi Hst He Ho. destruct ste.
  - cbn [app]. by rewrite (int_step (lit "--stop-at-frame") st
      (fun n => o <| stop_at_frame := n |> <| stop_at_frame_enabled := true |>)).
  - rewrite (Hst eq_refl). destruct o. cbn in *. by subst.
Qed.

Lemma frames_step from to o rest :
  is_int from -> is_int to ->
  parse_args (lit "--trace-frames" :: (dec from ++ COMMA :: dec to) :: rest) o =
  parse_args rest (o <| opt_trace_from := from |> <| opt_trace_to := to |>).
Proof.
  intros Hf Ht. apply value_step; [reflexivity|].
  unfold parse_value. rewrite split_comma_some by by apply dec_no_comma.
  cbn -[dec with_stoi]. unfold with_stoi. by rewrite !stoi_dec_end.
Qed.

Lemma ram_step mem o rest :
  0 <= mem < 6 ->
  parse_args (lit "--ram" :: dec (default 0 (ram_mb_table !! Z.to_nat mem)) :: rest) o =
  parse_args rest (o <| cfg_memSize := mem |>).
Proof.
  intros Hm. apply value_step; [reflexivity|].
  assert (Hi : is_int (default 0 (ram_mb_table !! Z.to_nat mem))).
  { assert (Hc : In mem [0;1;2;3;4;5]) by (cbn; lia). unfold is_int.
    cbn in Hc. repeat destruct Hc as [<-|Hc]; cbn; try lia; done. }
  change (parse_value (lit "--ram") ?v o) with (Some (with_stoi v (fun mb =>
    let o := o <| cfg_memSize := find_ram mb |> in
    if cfg_memSize o <? 0 then Exit 1 else Continue o))).
  unfold with_stoi. rewrite stoi_dec_end, find_ram_table by done.
  cbn [cfg_memSize modify_field]. destruct (Z.ltb_spec mem 0); [lia|done].
Qed.

Lemma module_step m o rest :
  1 <= m <= 3 ->
  parse_args (lit "--sdram-module" :: dec (32 * 2 ^ (m - 1)) :: rest) o =
  parse_args rest (o <| cfg_sdramMod := m |>).
Proof.
  intros Hm. apply value_step; [reflexivity|].
  assert (Hc : In m [1;2;3]) by (cbn; lia).
  cbn in Hc. repeat destruct Hc as [<-|Hc]; [reflexivity..|done].
Qed.

(** C33: the command line can say everything.  For every valid set of options, the
    printed command line is parsed back to exactly these options. *)
Theorem parse_print (o : Options) :
  options_ok o -> parse_args (print_args o) default_options = Continue o.
Proof.
  destruct o as [hl sm sf st ste ra na ntd tf tt vd scsi cd fl rom cpu mem mod_ hb mf mt].
  unfold options_ok, config_ok. cbn.
  intros ((Hmem & Hmod & Hscsi & Hfl & ->) & Hsf & Hsm & Hst & Hste & Hra & Hna & Htf & Htt & Hmf & Hmt).
  destruct scsi as [|s0 [|s1 [|? ?]]]; try done. destruct fl as [|f0 [|f1 [|? ?]]]; try done.
  unfold print_args. cbn -[dec join lit ram_mb_table].
  rewrite (flag_step hl "--headless" _ _ _ eq_refl).
  rewrite screenshot_step by (done || by destruct hl).
  rewrite stop_step by (done || by destruct hl).
  rewrite (int_step (lit "--reset-at-frame") ra (fun n => _ <| reset_at_frame := n |>) _ _ eq_refl
    (fun v => eq_refl)) by done.
  rewrite (int_step (lit "--nmi-at-frame") na (fun n => _ <| nmi_at_frame := n |>) _ _ eq_refl
    (fun v => eq_refl)) by done.
  rewrite (flag_step ntd "--no-cpu-trace" _ _ _ eq_refl), frames_step by done.
  rewrite (flag_step vd "--verbose" _ _ _ eq_refl).
  rewrite (value_step (lit "--scsi0") s0 _ _ _ eq_refl eq_refl).
  rewrite (value_step (lit "--scsi1") s1 _ _ _ eq_refl eq_refl).
  rewrite (value_step (lit "--cdrom") cd _ _ _ eq_refl eq_refl).
  rewrite (value_step (lit "--floppy0") f0 _ _ _ eq_refl eq_refl).
  rewrite (value_step (lit "--floppy1") f1 _ _ _ eq_refl eq_refl).
  rewrite (value_step (lit "--rom") rom _ _ _ eq_refl eq_refl).
  rewrite ram_step, module_step by lia.
  rewrite (flag_step hb "--heartbeat" _ _ _ eq_refl).
  rewrite (int_step (lit "--mouse-from") mf (fun n => _ <| mouse_inject_from := n |>) _ _ eq_refl
    (fun v => eq_refl)) by done.
  rewrite (int_step (lit "--mouse-to") mt (fun n => _ <| mouse_inject_to := n |>) _ _ eq_refl
    (fun v => eq_refl)) by done.
  cbn [parse_args]. by destruct hl, ntd, vd, hb.
Qed.

Definition sample_options : Options :=
  MkOptions true true [5; 70] 100 true (-1) 12 true 3 9 false [lit "a.img"; []] (lit "c.iso")
    [[]; lit "f.dsk"] [] 2 1 3 false (-1) 0x7FFFFFFF.

Lemma parse_print_witness :
  parse_args (print_args sample_options) default_options = Continue sample_options.
Proof.
  apply parse_print. unfold options_ok, config_ok, is_int. cbn. split_and!; try lia; try done.
  repeat constructor; lia.
Defined.
