(* ===== verification/Harness.v ===== *)
(** * The simulation step (sim_main.cpp, [verilate] and [resetSim])

    One call of [verilate] is half a period of the system clock: it sequences the
    reset and the NMI, drives the core's inputs from the components, evaluates
    the core and hands its outputs back.

    The core is the C++ class that Verilator generates from the hardware sources;
    it is the interface [Core] below: a state, an evaluation and its output pins,
    of which nothing else is assumed.  The console is one file-level global that
    the bus and the trace share; it is threaded through both. *)

From Stdlib Require Import QArith.
From S2P Require Import Prelude Clock Audio Console BlockDevice Bus SoftUart.
From S2P Require Import Terminal Video Input Trace Options.

#[local] Open Scope Z_scope.

(** ** The core *)

(** The pins the harness drives. *)
Record CoreIn := MkCoreIn {
  ci_reset : bool;
  ci_nmi_pulse : bool;
  ci_clk_sys : bool;
  ci_cfg_cpuType : Z; ci_cfg_memSize : Z; ci_cfg_sdramMod : Z;
  ci_ioctl_addr : Z; ci_ioctl_index : Z; ci_ioctl_download : Z; ci_ioctl_wr : Z; ci_ioctl_dout : Z;
  ci_ps2_key : Z; ci_ps2_mouse : Z;
  ci_sd_ack : Z; ci_sd_buff_addr : Z; ci_sd_buff_dout : Z; ci_sd_buff_wr : Z;
  ci_img_mounted : Z; ci_img_size : Z;
  ci_serial_rxd : bool }.

(** The pins it reads. *)
Record CoreOut := MkCoreOut {
  co_ioctl_wait : Z;
  co_sd_lba : list Z; co_sd_rd : Z; co_sd_wr : Z; co_sd_buff_din : list Z;
  co_vga_r : Z; co_vga_g : Z; co_vga_b : Z;
  co_vga_hb : bool; co_vga_vb : bool; co_vga_hs : bool; co_vga_vs : bool; co_ce_pixel : bool;
  co_audio_l : Z; co_audio_r : Z;
  co_serial_txd : bool; co_baud_div : Z;
  co_fetch_valid : bool; co_pc : Z; co_opcode : Z; co_data_addr : Z }.

Class Core (C : Type) := {
  eval : CoreIn -> C -> C;
  out : C -> CoreOut;
  gotFinish : C -> bool }.

Section Step.

Context {C : Type} `{Core C}.
Context (raw : Z -> list Z -> cstr * Z).          (* the disassembler *)
Context (fs : cstr -> option (list Z)).           (* the files of the host *)
Context (latency : Z) (ignore_writes : bool).     (* the plus-arguments of the block device *)
Context (o : Options).

Definition initialReset : Z := 48.
Definition WARM_RESET_LEN : Z := 4000.

Record Sim := MkSim {
  top : C;
  main_time : Z;
  clk_sys : SimClock;
  reset : bool;
  nmi_pulse : bool;
  clk_pin : bool;
  ps2_mouse : Z;
  serial_rxd : bool;
  warm_reset_start : Z;
  nmi_start : Z;
  last_baud_div : Z;
  last_download : bool;
  console : Console;
  bus : SimBus;
  blockdevice : BlkDev;
  input : SimInput;
  audio : SimAudio;
  video : SimVideo;
  serialTerminal : SimSerialTerminal;
  tracer : Tracer }.

#[export] Instance eta_Sim : Eta Sim := fun s =>
  MkSim (top s) (main_time s) (clk_sys s) (reset s) (nmi_pulse s) (clk_pin s) (ps2_mouse s)
    (serial_rxd s) (warm_reset_start s) (nmi_start s) (last_baud_div s) (last_download s)
    (console s) (bus s) (blockdevice s) (input s) (audio s) (video s) (serialTerminal s) (tracer s).

Definition resetSim (s : Sim) : Sim :=
  s <| main_time := 0 |> <| reset := true |> <| clk_sys ::= SimClock_Reset |>.

(** The input pins: the components write through pointers to them. *)
Definition core_in (s : Sim) : CoreIn :=
  let b := bus s in
  let p := pins (blockdevice s) in
  MkCoreIn (reset s) (nmi_pulse s) (clk_pin s) (cfg_cpuType o) (cfg_memSize o) (cfg_sdramMod o)
    (ioctl_addr b) (ioctl_index b) (ioctl_download b) (ioctl_wr b) (ioctl_dout b)
    (ps2_key (input s)) (ps2_mouse s)
    (sd_ack p) (sd_buff_addr p) (sd_buff_dout p) (sd_buff_wr p) (img_mounted p) (img_size p)
    (serial_rxd s).

(** The first three drives are attached, the other pointers are null. *)
Definition attach (l : list Z) : list (option Z) := map Some (take 3 l) ++ replicate (kVDNUM - 3) None.

(** [top->eval()]: the outputs are visible to the bus and the block device. *)
Definition top_eval (s : Sim) : Sim :=
  let s := s <| top := eval (core_in s) (top s) |> in
  let x := out (top s) in
  s <| bus ::= (fun b => b <| ioctl_wait := co_ioctl_wait x |>) |>
    <| blockdevice ::= (fun d => d <| pins ::= (fun p =>
         p <| sd_lba := attach (co_sd_lba x) |> <| sd_rd := co_sd_rd x |> <| sd_wr := co_sd_wr x |>
           <| sd_buff_din := attach (co_sd_buff_din x) |>) |>) |>.

(** The reset at the start and the warm reset. *)
Definition reset_phase (s : Sim) : Sim :=
  let s := if main_time s <? initialReset then s <| reset := true |> else s in
  let s := if main_time s =? initialReset then s <| reset := false |> else s in
  if 0 <=? reset_at_frame o then
    let s := if (warm_reset_start s <? 0) && (reset_at_frame o <=? count_frame (video s))
             then s <| warm_reset_start := main_time s |> else s in
    if (0 <=? warm_reset_start s) && (main_time s <? warm_reset_start s + WARM_RESET_LEN)
    then s <| reset := true |>
    else if (0 <=? warm_reset_start s) && (main_time s =? warm_reset_start s + WARM_RESET_LEN)
    then s <| reset := false |>
    else s
  else s.

Definition nmi_phase (s : Sim) : Sim :=
  if 0 <=? nmi_at_frame o then
    let s := if (nmi_start s <? 0) && (nmi_at_frame o <=? count_frame (video s))
             then s <| nmi_start := main_time s |> else s in
    s <| nmi_pulse := (0 <=? nmi_start s) && (main_time s <? nmi_start s + WARM_RESET_LEN) |>
  else s.

(** [bus.BeforeEval()], logging to the shared console; the address it counts is
    an [int]. *)
Definition bus_step (s : Sim) : option Sim :=
  let b := Bus_BeforeEval fs ((bus s) <| bus_log := console s |>) in
  _ ← checked_int (ioctl_next_addr b);
  Some (s <| bus := b |> <| console := bus_log b |>).

(** The trace of the last evaluation, logging to the shared console. *)
Definition trace_step (s : Sim) : option Sim :=
  let x := out (top s) in
  t ← trace_sample raw (negb (ioctl_download (bus s) =? 0)) (co_fetch_valid x) (co_pc x)
        (co_opcode x) (count_frame (video s)) (co_data_addr x)
        ((tracer s) <| trace_console := console s |>);
  Some (s <| tracer := t |> <| console := trace_console t |>).

(** Both edges of the clock evaluate the core; the components run before the
    rising one, the block device only while nothing is downloaded. *)
Definition edge_phase (s : Sim) : option Sim :=
  if negb (Bool.eqb (clk (clk_sys s)) (old (clk_sys s))) then
    s ← (if SimClock_IsRising (clk_sys s) && negb (ioctl_download (bus s) =? 1) then
           d ← BlkDev_tick latency ignore_writes (main_time s) (blockdevice s);
           Some (s <| blockdevice := d |>)
         else Some s);
    s ← (if clk (clk_sys s) then bus_step (s <| input ::= Input_BeforeEval |>) else Some s);
    trace_step (top_eval s)
  else Some s.

Definition s16 (v : Z) : Z := swrap 16 v.

Definition audio_phase (s : Sim) : Sim :=
  if SimClock_IsRising (clk_sys s) then
    let x := out (top s) in
    s <| audio ::= SimAudio_Clock (s16 (co_audio_l x)) (s16 (co_audio_r x)) |>
  else s.

(** The pixel of the core's pins, red in the low byte. *)
Definition core_colour (x : CoreOut) : Z :=
  Z.lor 0xFF000000 (Z.lor (Z.shiftl (co_vga_b x) 16) (Z.lor (Z.shiftl (co_vga_g x) 8) (co_vga_r x))).

Definition core_video (now : Z) (x : CoreOut) : VideoIn :=
  MkVideoIn (co_vga_hb x) (co_vga_vb x) (co_vga_hs x) (co_vga_vs x) (u32 (core_colour x)) now.

(** [now] is the host clock, which the video reads at the end of a frame. *)
Definition video_phase (now : Z) (s : Sim) : option Sim :=
  let x := out (top s) in
  if SimClock_IsRising (clk_sys s) && co_ce_pixel x
  then v ← SimVideo_Clock (core_video now x) (video s); Some (s <| video := v |>) else Some s.

(** The trace file, opened if it is not yet and can be created. *)
Definition open_trace (t : Tracer) : Tracer :=
  t <| cpu_trace_file ::= (fun f =>
    match f with None => if trace_creatable t then Some [] else None | Some _ => f end) |>.

(** At the end of a download the trace starts, unless it is disabled. *)
Definition trace_start (download_ends : bool) (t : Tracer) : Tracer :=
  if download_ends && negb (cpu_trace_enable t) && negb (cpu_trace_disabled o)
  then open_trace (t <| cpu_trace_enable := true |>)
  else t.

(** The serial terminal, whose count of nulls is an [int], the time and the start
    of the trace. *)
Definition rising_phase (s : Sim) : option Sim :=
  if SimClock_IsRising (clk_sys s) then
    let x := out (top s) in
    let t := Terminal_Tick (co_serial_txd x) (serialTerminal s) in
    _ ← checked_int (m_null_run_count t);
    let s := s <| serialTerminal := t |> <| serial_rxd := m_tx_pin (m_uart t) |> in
    let s := if negb (co_baud_div x =? last_baud_div s)
             then s <| serialTerminal := UpdateConfigDirect (co_baud_div x) 8 1 false false t |>
                    <| last_baud_div := co_baud_div x |>
             else s in
    let s := s <| main_time := u64 (main_time s + 1) |> in
    let t := trace_start (last_download s && (ioctl_download (bus s) =? 0)) (tracer s) in
    Some (s <| tracer := t |> <| last_download := negb (ioctl_download (bus s) =? 0) |>)
  else Some s.

(** What a call leaves: the next state, or the end of the process when the model
    of the core has executed [$finish]. *)
Inductive Outcome := Running (s : Sim) | Finished.

Definition verilate (now : Z) (s : Sim) : option Outcome :=
  if gotFinish (top s) then Some Finished else
  let s := nmi_phase (reset_phase s) in
  let s := s <| clk_sys ::= SimClock_Tick |> in
  let s := s <| clk_pin := clk (clk_sys s) |> in
  s ← edge_phase s;
  s ← video_phase now (audio_phase s);
  s ← rising_phase s;
  Some (Running s).

(** A run of calls, each with the host clock at its time. *)
Fixpoint verilate_all (nows : list Z) (s : Sim) : option Outcome :=
  match nows with
  | [] => Some (Running s)
  | now :: nows =>
      r ← verilate now s;
      match r with Running s => verilate_all nows s | Finished => Some Finished end
  end.

End Step.

(** ** The clock of the harness

    With ratio 1 the clock is high on every other tick.  [low]: the next tick
    rises.  [high]: the next tick falls, or is the first one. *)

Definition low (c : SimClock) : Prop := ratio c = 1 /\ count c = 1 /\ clk c = false.
Definition high (c : SimClock) : Prop := ratio c = 1 /\ count c = 0.

Lemma tick_low c : low c ->
  high (SimClock_Tick c) /\ clk (SimClock_Tick c) = true /\ old (SimClock_Tick c) = false.
Proof.
  destruct c as [cl od ra co]. intros (H1 & H2 & H3). cbn in H1, H2, H3. subst. by repeat split.
Qed.

Lemma tick_high c : high c ->
  low (SimClock_Tick c) /\ old (SimClock_Tick c) = clk c /\ SimClock_IsRising (SimClock_Tick c) = false.
Proof.
  destruct c as [cl od ra co]. intros (H1 & H2). cbn in H1, H2. subst. by repeat split.
Qed.

(** ** No fault

    The widths of the core's pins: three drives, with a request bit each.  The
    block device multiplies the sector by its size in an [int], so the sectors are
    those of images below 2 GB. *)
Class CoreWidths (C : Type) `{Core C} : Prop := {
  sd_rd_width : forall c, 0 <= co_sd_rd (out c) < 2 ^ 3;
  sd_wr_width : forall c, 0 <= co_sd_wr (out c) < 2 ^ 3;
  sd_lba_width : forall c, length (co_sd_lba (out c)) = 3%nat;
  sd_lba_range : forall c, Forall lba_fits (co_sd_lba (out c));
  sd_din_width : forall c, length (co_sd_buff_din (out c)) = 3%nat }.

Lemma attach_lookup l i : length l = 3%nat -> (i < 3)%nat -> is_Some (mjoin (attach l !! i)).
Proof.
  intros Hl Hi. unfold attach. rewrite lookup_app_l by (rewrite length_map, length_take; lia).
  rewrite list_lookup_fmap, lookup_take by lia.
  destruct (lookup_lt_is_Some_2 l i) as [v Hv]; [lia|]. rewrite Hv. rewrite decide_True by done. by exists v.
Qed.

Lemma attach_fits l i : length l = 3%nat -> Forall lba_fits l -> (i < 3)%nat ->
  exists lba, mjoin (attach l !! i) = Some lba /\ lba_fits lba.
Proof.
  intros Hl Hf Hi. unfold attach. rewrite lookup_app_l by (rewrite length_map, length_take; lia).
  rewrite list_lookup_fmap, lookup_take by lia. rewrite decide_True by done.
  destruct (lookup_lt_is_Some_2 l i) as [v Hv]; [lia|]. rewrite Hv. exists v. split; [done|].
  by apply (Forall_lookup_1 _ _ _ _ Hf Hv).
Qed.

Section Run.

Context {C : Type} `{Hcore : Core C} {Hwidths : CoreWidths C}.
Context (raw : Z -> list Z -> cstr * Z) (fs : cstr -> option (list Z)).
Context (latency : Z) (ignore_writes : bool) (o : Options).

#[local] Abbreviation Sim := (@Sim C).
#[local] Abbreviation verilate := (verilate raw fs latency ignore_writes o).
#[local] Abbreviation verilate_all := (verilate_all raw fs latency ignore_writes o).
#[local] Abbreviation edge_phase := (edge_phase raw fs latency ignore_writes o).

Definition parts_ok (s : Sim) : Prop :=
  (low (clk_sys s) \/ high (clk_sys s)) /\ attached 3 (blockdevice s) /\ video_ok (video s) /\
  terminal_ok (serialTerminal s) /\ (length (fetch_buf (tracer s)) <= FETCH_BUF_SIZE)%nat /\
  log_ok (console s).

(** The [int] counters: those of the video and the terminal are at most [k], that
    of the trace will not pass [j], and the address of the bus has room. *)
Definition counts_ok (k j : Z) (s : Sim) : Prop :=
  counters k (video s) /\ 0 <= m_null_run_count (serialTerminal s) <= k /\
  0 <= cpu_trace_count (tracer s) /\ trace_used (tracer s) <= j /\ bus_room fs (bus s).

(** The invariant, at a state in which no counter has passed [k]. *)
Definition sim_ok (k : Z) (s : Sim) : Prop := parts_ok s /\ counts_ok k k s.

Lemma top_eval_ok (s : Sim) : parts_ok s -> parts_ok (top_eval o s).
Proof.
  intros (Hc & [Hp Hd] & Hrest). split; [exact Hc|]. split; [|exact Hrest].
  split; [|exact Hd]. unfold top_eval. set (s1 := s <| top := _ |>).
  change (attached_pins 3 ((pins (blockdevice s1)) <| sd_lba := attach (co_sd_lba (out (top s1))) |>
    <| sd_rd := co_sd_rd (out (top s1)) |> <| sd_wr := co_sd_wr (out (top s1)) |>
    <| sd_buff_din := attach (co_sd_buff_din (out (top s1))) |>)).
  split; [|split; [apply sd_rd_width|apply sd_wr_width]]. intros i Hi. split.
  - apply attach_fits; (apply sd_lba_width || apply sd_lba_range || done).
  - apply attach_lookup; (apply sd_din_width || done).
Qed.

Lemma bus_step_ok k j (s : Sim) : parts_ok s -> counts_ok k j s ->
  bus_step fs s = Some (s <| bus := Bus_BeforeEval fs ((bus s) <| bus_log := console s |>) |>
    <| console := bus_log (Bus_BeforeEval fs ((bus s) <| bus_log := console s |>)) |>) /\
  parts_ok (s <| bus := Bus_BeforeEval fs ((bus s) <| bus_log := console s |>) |>
    <| console := bus_log (Bus_BeforeEval fs ((bus s) <| bus_log := console s |>)) |>) /\
  counts_ok k j (s <| bus := Bus_BeforeEval fs ((bus s) <| bus_log := console s |>) |>
    <| console := bus_log (Bus_BeforeEval fs ((bus s) <| bus_log := console s |>)) |>).
Proof.
  intros (H1 & H2 & H3 & H4 & H5 & H6) (C1 & C2 & C3 & C4 & C5).
  assert (Hr : bus_room fs (Bus_BeforeEval fs ((bus s) <| bus_log := console s |>))) by by apply BeforeEval_room.
  split; [|split; [|exact (conj C1 (conj C2 (conj C3 (conj C4 Hr))))]].
  - unfold bus_step. cbn zeta. pose proof (bus_room_addr fs _ Hr). by rewrite checked_int_small by (unfold INT_MAX in *; lia).
  - split_and!; try done. by apply (Bus_log fs ((bus s) <| bus_log := console s |>)).
Qed.

Lemma trace_step_ok k j (s : Sim) : parts_ok s -> counts_ok k j s -> j <= INT_MAX ->
  exists s', trace_step raw s = Some s' /\ parts_ok s' /\ counts_ok k (j + 1) s' /\
  s' = s <| tracer := tracer s' |> <| console := console s' |>.
Proof.
  intros (H1 & H2 & H3 & H4 & H5 & H6) (C1 & C2 & C3 & C4 & C5) Hj. unfold trace_step.
  destruct (sample_ok raw (negb (ioctl_download (bus s) =? 0)) (co_fetch_valid (out (top s)))
    (co_pc (out (top s))) (co_opcode (out (top s))) (count_frame (video s))
    (co_data_addr (out (top s))) ((tracer s) <| trace_console := console s |>))
    as (t & Ht & Hl & Hlog & Hc & Hu); [exact H5|exact C3| |].
  { unfold trace_used in *. cbn. lia. }
  rewrite Ht. cbn [mbind option_bind].
  eexists. split; [reflexivity|]. split; [|split; [|by destruct s]].
  - split_and!; try done. by apply Hlog.
  - split_and!; try done; cbn; try apply Hc; try apply C2; try apply C5.
    unfold trace_used in *. cbn in *. lia.
Qed.

(** The first two phases touch the reset and NMI pins only. *)
Definition pins_only (s s' : Sim) : Prop := exists r w p n,
  s' = s <| reset := r |> <| warm_reset_start := w |> <| nmi_pulse := p |> <| nmi_start := n |>.

Lemma pins_only_refl s : pins_only s s.
Proof. exists (reset s), (warm_reset_start s), (nmi_pulse s), (nmi_start s). by destruct s. Qed.

Lemma pins_only_reset s s' r : pins_only s s' -> pins_only s (s' <| reset := r |>).
Proof. intros (r' & w' & p' & n' & ->). destruct s. by exists r, w', p', n'. Qed.

Lemma pins_only_warm s s' w : pins_only s s' -> pins_only s (s' <| warm_reset_start := w |>).
Proof. intros (r' & w' & p' & n' & ->). destruct s. by exists r', w, p', n'. Qed.

Lemma pins_only_nmi s s' p : pins_only s s' -> pins_only s (s' <| nmi_pulse := p |>).
Proof. intros (r' & w' & p' & n' & ->). destruct s. by exists r', w', p, n'. Qed.

Lemma pins_only_nmi_start s s' n : pins_only s s' -> pins_only s (s' <| nmi_start := n |>).
Proof. intros (r' & w' & p' & n' & ->). destruct s. by exists r', w', p', n. Qed.

#[local] Ltac pins_solve :=
  cbn zeta; repeat case_match; 
  repeat (apply pins_only_reset || apply pins_only_warm || apply pins_only_nmi
          || apply pins_only_nmi_start);
  apply pins_only_refl.

Lemma reset_phase_pins s : pins_only s (reset_phase o s).
Proof. unfold reset_phase. pins_solve. Qed.

Lemma nmi_phase_pins s : pins_only s (nmi_phase o s).
Proof. unfold nmi_phase. pins_solve. Qed.



(** What an edge may change, and what it does to the bus and the input. *)
Definition set_edge (t : C) (b : SimBus) (d : BlkDev) (i : SimInput) (tr : Tracer) (c : Console)
    (s : Sim) : Sim :=
  MkSim t (main_time s) (clk_sys s) (reset s) (nmi_pulse s) (clk_pin s) (ps2_mouse s)
    (serial_rxd s) (warm_reset_start s) (nmi_start s) (last_baud_div s) (last_download s)
    c b d i (audio s) (video s) (serialTerminal s) tr.

Definition edge_of (c : SimClock) : Prop := clk c = false \/ SimClock_IsRising c = true.

Lemma device_phase_ok (s : Sim) : parts_ok s -> exists d,
  (if SimClock_IsRising (clk_sys s) && negb (ioctl_download (bus s) =? 1) then
     d ← BlkDev_tick latency ignore_writes (main_time s) (blockdevice s);
     Some (s <| blockdevice := d |>)
   else Some s) = Some (s <| blockdevice := d |>) /\ parts_ok (s <| blockdevice := d |>).
Proof.
  intros (H1 & H2 & Hr). destruct (_ && _).
  - destruct (tick_total latency ignore_writes 3 (main_time s) (blockdevice s) H2) as (d & Hd & Ha).
    exists d. rewrite Hd. split; [done|]. exact (conj H1 (conj Ha Hr)).
  - exists (blockdevice s). split; [by destruct s|]. exact (conj H1 (conj H2 Hr)).
Qed.

(** The state after the bus has been called at a rising edge. *)
Definition bus_called (s : Sim) : Sim :=
  let b := if clk (clk_sys s) then Bus_BeforeEval fs ((bus s) <| bus_log := console s |>) else bus s in
  s <| input := if clk (clk_sys s) then Input_BeforeEval (input s) else input s |>
    <| bus := b |> <| console := if clk (clk_sys s) then bus_log b else console s |>.

Lemma bus_called_ok k j (s : Sim) : parts_ok s -> counts_ok k j s ->
  (if clk (clk_sys s) then bus_step fs (s <| input ::= Input_BeforeEval |>) else Some s)
    = Some (bus_called s) /\ parts_ok (bus_called s) /\ counts_ok k j (bus_called s).
Proof.
  intros Hp Hc. unfold bus_called. destruct (clk (clk_sys s)) eqn:Hclk.
  - pose proof (bus_step_ok k j (s <| input ::= Input_BeforeEval |>)) as H.
    destruct (H Hp Hc) as (E & Hp' & Hc').
    split; [exact E|]. by split.
  - split; [by destruct s|]. split; [exact Hp|exact Hc].
Qed.

Lemma bus_called_eq (s : Sim) w :
  bus_eq ((bus (bus_called s)) <| ioctl_wait := w |>)
    ((if clk (clk_sys s) then Bus_BeforeEval fs (bus s) else bus s) <| ioctl_wait := w |>).
Proof.
  unfold bus_called. cbn [bus modify_field]. destruct (clk (clk_sys s)); [|done].
  assert (Hb : bus_eq (Bus_BeforeEval fs ((bus s) <| bus_log := console s |>)) (Bus_BeforeEval fs (bus s))).
  { apply Bus_BeforeEval_proper. unfold bus_eq. by destruct (bus s). }
  symmetry in Hb. apply bus_eq_log in Hb. rewrite Hb. reflexivity.
Qed.

Definition has_edge (c : SimClock) : bool := negb (Bool.eqb (clk c) (old c)).

(** The pins of a call that has an edge. *)
Definition evaluated (s : Sim) (t : C) (b : SimBus) (d : BlkDev) (i : SimInput) (tr : Tracer) (c : Console) : Prop :=
  t = eval (core_in o (set_edge t b d i tr c s)) (top s) /\ ioctl_wait b = co_ioctl_wait (out t).

Lemma edge_ok k j (s : Sim) :
  parts_ok s -> counts_ok k j s -> j < INT_MAX -> edge_of (clk_sys s) ->
  exists t b d i tr c, edge_phase s = Some (set_edge t b d i tr c s) /\
    parts_ok (set_edge t b d i tr c s) /\ counts_ok k (j + 1) (set_edge t b d i tr c s) /\
    i = (if clk (clk_sys s) then Input_BeforeEval (input s) else input s) /\
    (has_edge (clk_sys s) = true -> evaluated s t b d i tr c) /\
    exists w, (w = ioctl_wait (bus s) \/ w = co_ioctl_wait (out t)) /\
      bus_eq b ((if clk (clk_sys s) then Bus_BeforeEval fs (bus s) else bus s) <| ioctl_wait := w |>).
Proof.
  intros Hok Hcok Hj He. unfold Harness.edge_phase. fold (has_edge (clk_sys s)).
  destruct (has_edge (clk_sys s)) eqn:Hedge.
  2: { exists (top s), (bus s), (blockdevice s), (input s), (tracer s), (console s).
       assert (Hs : set_edge (top s) (bus s) (blockdevice s) (input s) (tracer s) (console s) s = s)
         by by destruct s.
       assert (Hc : clk (clk_sys s) = false).
       { destruct He as [Hc|Hr]; [done|]. unfold SimClock_IsRising, has_edge in *.
         by destruct (clk (clk_sys s)), (old (clk_sys s)). }
       rewrite Hs, Hc. split_and!; try done.
       { destruct Hcok as (C1 & C2 & C3 & C4 & C5). split_and!; try done; try apply C2. lia. }
       exists (ioctl_wait (bus s)). split; [by left|]. unfold bus_eq. by destruct (bus s). }
  destruct (device_phase_ok s Hok) as (d & Hd & Hok1). rewrite Hd. cbn [mbind option_bind].
  set (s1 := s <| blockdevice := d |>) in *.
  destruct (bus_called_ok k j s1 Hok1 Hcok) as (Hs2 & Hok2 & Hcok2).
  rewrite Hs2. cbn [mbind option_bind]. set (s2 := bus_called s1) in *.
  destruct (trace_step_ok k j (top_eval o s2) (top_eval_ok s2 Hok2) Hcok2 ltac:(lia))
    as (s3 & Hs3 & Hok3 & Hcok3 & Heq).
  rewrite Hs3.
  exists (top (top_eval o s2)), (bus (top_eval o s2)), (blockdevice (top_eval o s2)), (input s2),
    (tracer s3), (console s3).
  assert (Hs : set_edge (top (top_eval o s2)) (bus (top_eval o s2)) (blockdevice (top_eval o s2))
    (input s2) (tracer s3) (console s3) s = s3).
  { rewrite Heq at 3. reflexivity. }
  rewrite Hs. split_and!; [done|done|done|done| |].
  - intros _. split; [|reflexivity]. rewrite Hs, Heq. reflexivity.
  - exists (co_ioctl_wait (out (top (top_eval o s2)))). split; [by right|].
    apply (bus_called_eq s1).
Qed.
Implicit Types s : Sim.

Lemma nmi_phase_keeps s :
  reset (nmi_phase o s) = reset s /\ warm_reset_start (nmi_phase o s) = warm_reset_start s.
Proof. unfold nmi_phase. cbn zeta. by repeat case_match. Qed.

(** The state at the edge: the pins are sequenced and the clock has ticked. *)
Definition before_edge (s : Sim) : Sim :=
  let s := nmi_phase o (reset_phase o s) in
  let s := s <| clk_sys ::= SimClock_Tick |> in
  s <| clk_pin := clk (clk_sys s) |>.

Definition after_edge (now : Z) (s : Sim) : option Sim :=
  s ← video_phase now (audio_phase s); rising_phase o s.

(** What one call does to each part of the harness. *)
Record step_spec (now : Z) (s s' : Sim) : Prop := {
  spec_clk : clk_sys s' = SimClock_Tick (clk_sys s);
  spec_reset : reset s' = reset (reset_phase o s);
  spec_warm : warm_reset_start s' = warm_reset_start (reset_phase o s);
  spec_time : main_time s' =
    if SimClock_IsRising (clk_sys s') then u64 (main_time s + 1) else main_time s;
  spec_video : Some (video s') =
    if SimClock_IsRising (clk_sys s') && co_ce_pixel (out (top s'))
    then SimVideo_Clock (core_video now (out (top s'))) (video s) else Some (video s);
  spec_audio : audio s' =
    if SimClock_IsRising (clk_sys s')
    then SimAudio_Clock (s16 (co_audio_l (out (top s')))) (s16 (co_audio_r (out (top s')))) (audio s)
    else audio s;
  spec_input : input s' =
    if SimClock_IsRising (clk_sys s') then Input_BeforeEval (input s) else input s;
  spec_core : has_edge (clk_sys s') = true ->
    top s' = eval (core_in o (s' <| serial_rxd := serial_rxd s |>)) (top s) /\
    ioctl_wait (bus s') = co_ioctl_wait (out (top s'));
  spec_bus : exists w, (w = ioctl_wait (bus s) \/ w = co_ioctl_wait (out (top s'))) /\
    bus_eq (bus s') ((if SimClock_IsRising (clk_sys s') then Bus_BeforeEval fs (bus s) else bus s)
                       <| ioctl_wait := w |>) }.

Lemma pins_only_ok k s s' : pins_only s s' -> sim_ok k s -> sim_ok k s'.
Proof. intros (r & w & p & n & ->) Hok. exact Hok. Qed.

Lemma tick_edge c : low c \/ high c ->
  (low (SimClock_Tick c) \/ high (SimClock_Tick c)) /\ edge_of (SimClock_Tick c) /\
  clk (SimClock_Tick c) = SimClock_IsRising (SimClock_Tick c).
Proof.
  intros [Hc|Hc].
  - destruct (tick_low c Hc) as (H1 & H2 & H3).
    unfold edge_of, SimClock_IsRising. rewrite H2, H3. by split_and!; [right|right|].
  - destruct (tick_high c Hc) as (H1 & _ & H3). rewrite H3.
    destruct H1 as (H1 & H2 & H4). split_and!; [by left|by left|done].
Qed.

Lemma before_edge_ok k s : sim_ok k s ->
  sim_ok k (before_edge s) /\ edge_of (clk_sys (before_edge s)) /\
  clk (clk_sys (before_edge s)) = SimClock_IsRising (clk_sys (before_edge s)).
Proof.
  intros Hok. unfold before_edge.
  assert (Hp : sim_ok k (nmi_phase o (reset_phase o s))).
  { eapply pins_only_ok; [apply nmi_phase_pins|]. eapply pins_only_ok; [apply reset_phase_pins|done]. }
  generalize dependent (nmi_phase o (reset_phase o s)). intros s1 Hp.
  destruct Hp as ((Hc & Hrest) & Hcounts). destruct (tick_edge _ Hc) as (H1 & H2 & H3).
  exact (conj (conj (conj H1 Hrest) Hcounts) (conj H2 H3)).
Qed.

(** The phases after the edge, field by field. *)
Definition next_audio (s : Sim) : SimAudio :=
  if SimClock_IsRising (clk_sys s)
  then SimAudio_Clock (s16 (co_audio_l (out (top s)))) (s16 (co_audio_r (out (top s)))) (audio s)
  else audio s.

Definition next_video (now : Z) (s : Sim) : SimVideo :=
  if SimClock_IsRising (clk_sys s) && co_ce_pixel (out (top s))
  then Clock_next (core_video now (out (top s))) (video s) else video s.

Definition next_time (s : Sim) : Z :=
  if SimClock_IsRising (clk_sys s) then u64 (main_time s + 1) else main_time s.

Lemma audio_phase_eq s : audio_phase s = s <| audio := next_audio s |>.
Proof. unfold audio_phase, next_audio. destruct (SimClock_IsRising _); [reflexivity|by destruct s]. Qed.

Lemma next_video_defined k now s : video_ok (video s) -> counters k (video s) -> k < INT_MAX ->
  Some (next_video now s) =
    (if SimClock_IsRising (clk_sys s) && co_ce_pixel (out (top s))
     then SimVideo_Clock (core_video now (out (top s))) (video s) else Some (video s)) /\
  video_ok (next_video now s) /\ counters (k + 1) (next_video now s).
Proof.
  intros Hv Hc Hk. unfold next_video. destruct (_ && _).
  - rewrite Clock_defined by (done || by apply (counters_fit k)). split; [done|].
    split; [by apply Clock_ok|by apply Clock_counters].
  - split_and!; [done|done|]. apply (counters_le k); [done|lia].
Qed.

Lemma video_phase_eq k now s : video_ok (video s) -> counters k (video s) -> k < INT_MAX ->
  video_phase now s = Some (s <| video := next_video now s |>).
Proof.
  intros Hv Hc Hk. destruct (next_video_defined k now s Hv Hc Hk) as [E _].
  unfold video_phase, next_video in *. cbn zeta.
  destruct (SimClock_IsRising _ && _); [by rewrite <- E|by destruct s].
Qed.

(** What the last phase does to the terminal and the trace. *)
Definition rising_keeps (k : Z) (s : Sim) (ter : SimSerialTerminal) (tr : Tracer) : Prop :=
  (terminal_ok (serialTerminal s) -> terminal_ok ter) /\ 0 <= m_null_run_count ter <= k + 1 /\
  fetch_buf tr = fetch_buf (tracer s) /\ cpu_trace_count tr = cpu_trace_count (tracer s).

Lemma trace_start_keeps e t :
  fetch_buf (trace_start o e t) = fetch_buf t /\ cpu_trace_count (trace_start o e t) = cpu_trace_count t.
Proof. unfold trace_start. by destruct (_ && _). Qed.

Lemma rising_phase_eq k s : 0 <= m_null_run_count (serialTerminal s) <= k -> k < INT_MAX ->
  exists ter rxd baud tr ld,
  rising_phase o s = Some (s <| serialTerminal := ter |> <| serial_rxd := rxd |> <| last_baud_div := baud |>
    <| main_time := next_time s |> <| tracer := tr |> <| last_download := ld |>) /\
  rising_keeps k s ter tr.
Proof.
  intros Hn Hk. unfold rising_phase, next_time, rising_keeps. destruct (SimClock_IsRising (clk_sys s)).
  2: { exists (serialTerminal s), (serial_rxd s), (last_baud_div s), (tracer s), (last_download s).
       split; [by destruct s|]. split_and!; [done|lia|lia|done..]. }
  cbn zeta. pose proof (Tick_ok (co_serial_txd (out (top s))) (serialTerminal s)) as Ht.
  pose proof (Tick_null (co_serial_txd (out (top s))) (serialTerminal s) k Hn) as Hn'.
  generalize dependent (Terminal_Tick (co_serial_txd (out (top s))) (serialTerminal s)). intros t1 Ht Hn'.
  rewrite checked_int_small by lia. cbn [mbind option_bind].
  generalize (m_tx_pin (m_uart t1)). intros rxd.
  set (cfg := UpdateConfigDirect (co_baud_div (out (top s))) 8 1 false false t1).
  assert (Hc : (terminal_ok (serialTerminal s) -> terminal_ok cfg) /\ 0 <= m_null_run_count cfg <= k + 1)
    by (split; [exact Ht|exact Hn']). clearbody cfg.
  pose proof trace_start_keeps as Htr. generalize dependent (trace_start o). intros start Htr.
  destruct s as [t mt cs re nm cp pm rx wr ns bd ld c b d i a v ter tr].
  cbn [out top serialTerminal last_baud_div] in *.
  match goal with |- context [if negb ?x then _ else _] =>
    change x with (co_baud_div (out t) =? bd) end.
  destruct (negb (co_baud_div (out t) =? bd));
    [exists cfg, rxd, (co_baud_div (out t))|exists t1, rxd, bd];
    exists (start (ld && (ioctl_download b =? 0)) tr), (negb (ioctl_download b =? 0));
    (split; [reflexivity|]); (split_and!; [|lia|lia|apply Htr|apply Htr]); apply Hc || exact Ht.
Qed.

Definition set_after (a : SimAudio) (v : SimVideo) (mt : Z) (ter : SimSerialTerminal) (rxd : bool)
    (baud : Z) (tr : Tracer) (ld : bool) (s : Sim) : Sim :=
  MkSim (top s) mt (clk_sys s) (reset s) (nmi_pulse s) (clk_pin s) (ps2_mouse s) rxd
    (warm_reset_start s) (nmi_start s) baud ld (console s) (bus s) (blockdevice s) (input s)
    a v ter tr.

(** What the phases after the edge leave alone, and what they set. *)
Lemma after_edge_eq k j now s : parts_ok s -> counts_ok k j s -> k < INT_MAX ->
  exists ter rxd baud tr ld,
  after_edge now s =
    Some (set_after (next_audio s) (next_video now s) (next_time s) ter rxd baud tr ld s) /\
  rising_keeps k s ter tr.
Proof.
  intros (_ & _ & Hv & _) (Hc & Hn & _) Hk. unfold after_edge. rewrite audio_phase_eq.
  rewrite (video_phase_eq k) by done. cbn [mbind option_bind].
  assert (Hv' : next_video now (s <| audio := next_audio s |>) = next_video now s) by by destruct s.
  rewrite Hv'. generalize (next_video now s) (next_audio s). intros v a.
  pose proof (rising_phase_eq k (s <| audio := a |> <| video := v |>)) as Hrise.
  destruct (Hrise Hn Hk) as (ter & rxd & baud & tr & ld & H & Hr).
  exists ter, rxd, baud, tr, ld. rewrite H. destruct s. split; [reflexivity|exact Hr].
Qed.

Definition set_before (r : bool) (w : Z) (p : bool) (n : Z) (s : Sim) : Sim :=
  MkSim (top s) (main_time s) (SimClock_Tick (clk_sys s)) r p (clk (SimClock_Tick (clk_sys s)))
    (ps2_mouse s) (serial_rxd s) w n (last_baud_div s) (last_download s) (console s) (bus s)
    (blockdevice s) (input s) (audio s) (video s) (serialTerminal s) (tracer s).

Lemma before_edge_eq s : exists p n,
  before_edge s = set_before (reset (reset_phase o s)) (warm_reset_start (reset_phase o s)) p n s.
Proof.
  destruct (reset_phase_pins s) as (r1 & w1 & p1 & n1 & H1).
  destruct (nmi_phase_pins (reset_phase o s)) as (r2 & w2 & p2 & n2 & H2).
  destruct (nmi_phase_keeps (reset_phase o s)) as [Er Ew].
  unfold before_edge. cbn zeta. rewrite H2 in *. clear H2. cbn in Er, Ew. subst r2 w2.
  exists p2, n2. rewrite H1. reflexivity.
Qed.

Lemma verilate_eq now s : gotFinish (top s) = false ->
  verilate now s = s1 ← edge_phase (before_edge s); s2 ← after_edge now s1; Some (Running s2).
Proof.
  intros Hfin. unfold Harness.verilate, after_edge, before_edge. rewrite Hfin. cbn zeta.
  destruct (edge_phase _) as [s1|]; [|done]. cbn [mbind option_bind].
  by destruct (video_phase now (audio_phase s1)).
Qed.

(** What the edge and the phases after it do to the state before the edge. *)
Record call_spec (now : Z) (s s' : Sim) : Prop := {
  call_clk : clk_sys s' = clk_sys s;
  call_pins : reset s' = reset s /\ warm_reset_start s' = warm_reset_start s;
  call_time : main_time s' = next_time s;
  call_video : Some (video s') =
    if SimClock_IsRising (clk_sys s) && co_ce_pixel (out (top s'))
    then SimVideo_Clock (core_video now (out (top s'))) (video s) else Some (video s);
  call_audio : audio s' =
    if SimClock_IsRising (clk_sys s)
    then SimAudio_Clock (s16 (co_audio_l (out (top s')))) (s16 (co_audio_r (out (top s')))) (audio s)
    else audio s;
  call_input : input s' = if clk (clk_sys s) then Input_BeforeEval (input s) else input s;
  call_core : has_edge (clk_sys s) = true ->
    top s' = eval (core_in o (s' <| serial_rxd := serial_rxd s |>)) (top s) /\
    ioctl_wait (bus s') = co_ioctl_wait (out (top s'));
  call_bus : exists w, (w = ioctl_wait (bus s) \/ w = co_ioctl_wait (out (top s'))) /\
    bus_eq (bus s') ((if clk (clk_sys s) then Bus_BeforeEval fs (bus s) else bus s) <| ioctl_wait := w |>) }.

Lemma call_ok k now s : parts_ok s -> counts_ok k k s -> k < INT_MAX -> edge_of (clk_sys s) ->
  exists s1 s', edge_phase s = Some s1 /\ after_edge now s1 = Some s' /\ sim_ok (k + 1) s' /\ call_spec now s s'.
Proof.
  intros Hp1 Hc1 Hk He.
  destruct (edge_ok k k s Hp1 Hc1 Hk He)
    as (t & b & d & i & tr & c & Hedge & Hok2 & Hc2 & Hi & Hev & w & Hw & Hb).
  destruct (after_edge_eq k (k + 1) now _ Hok2 Hc2 Hk) as (ter & rxd & baud & tr2 & ld & Heq & Hter & Hn & Hf & Hct).
  eexists _, _. split; [exact Hedge|]. split; [exact Heq|]. clear Hp1 Hc1 Hedge He Heq.
  destruct Hok2 as (K1 & K2 & K3 & K4 & K5 & K6). destruct Hc2 as (N1 & N2 & N3 & N4 & N5).
  destruct (next_video_defined k now _ K3 N1 Hk) as (Ev & Kv & Nv).
  assert (Kt := Hter K4). rewrite <- Hf in K5. unfold trace_used in N4. rewrite <- Hf, <- Hct in N4. rewrite <- Hct in N3.
  split; [split|].
  - exact (conj K1 (conj K2 (conj Kv (conj Kt (conj K5 K6))))).
  - exact (conj Nv (conj Hn (conj N3 (conj N4 N5)))).
  - split; [reflexivity|by split|reflexivity|exact Ev|reflexivity|exact Hi|exact Hev|].
    exists w. split; [exact Hw|exact Hb].
Qed.

Lemma before_edge_keeps s :
  let s1 := before_edge s in
  clk_sys s1 = SimClock_Tick (clk_sys s) /\ reset s1 = reset (reset_phase o s) /\
  warm_reset_start s1 = warm_reset_start (reset_phase o s) /\ main_time s1 = main_time s /\
  video s1 = video s /\ audio s1 = audio s /\ input s1 = input s /\ bus s1 = bus s /\
  top s1 = top s /\ serial_rxd s1 = serial_rxd s.
Proof. cbn zeta. destruct (before_edge_eq s) as (p & n & ->). by split_and!. Qed.

(** One call, from any state of the harness: it does not fault, keeps the
    invariant and does to each part what the specification says. *)
Lemma verilate_step k now s :
  sim_ok k s -> k < INT_MAX -> gotFinish (top s) = false ->
  exists s', verilate now s = Some (Running s') /\ sim_ok (k + 1) s' /\ step_spec now s s'.
Proof.
  intros Hok Hk Hfin. rewrite verilate_eq by done.
  destruct (before_edge_ok k s Hok) as ([Hp1 Hc1] & He & Hclk).
  destruct (call_ok k now _ Hp1 Hc1 Hk He) as (s1 & s' & -> & Ha & Hok' & Hs).
  cbn [mbind option_bind]. rewrite Ha. cbn [mbind option_bind].
  exists s'. split; [done|]. split; [done|].
  destruct (before_edge_keeps s) as (E1 & E2 & E3 & E4 & E5 & E6 & E7 & E8 & E9 & E10).
  destruct Hs as [S1 [S2 S3] S4 S5 S6 S7 S8 S9]. unfold next_time in S4.
  rewrite <- S1 in *. rewrite Hclk in *. clear Hclk.
  rewrite E2 in S2. rewrite E3 in S3. rewrite E4 in S4. rewrite E5 in S5. rewrite E6 in S6. rewrite E7 in S7.
  rewrite E8 in S9. rewrite E9, E10 in S8. by split.
Qed.

(** ** Runs *)

(** A property of the calls made so far that every call keeps, while the core
    does not finish and the counters fit. *)
Lemma run_invariant (P : list Z -> Sim -> Prop) k nows s :
  (forall c, gotFinish c = false) -> k + Z.of_nat (length nows) <= INT_MAX ->
  (forall pre now s s', (length pre < length nows)%nat -> P pre s ->
     verilate now s = Some (Running s') -> step_spec now s s' -> P (pre ++ [now]) s') ->
  sim_ok k s -> P [] s ->
  exists s', verilate_all nows s = Some (Running s') /\ P nows s' /\ sim_ok (k + Z.of_nat (length nows)) s'.
Proof.
  intros Hfin Hroom Hstep.
  cut (forall post pre s, nows = pre ++ post -> sim_ok (k + Z.of_nat (length pre)) s -> P pre s ->
    exists s', verilate_all post s = Some (Running s') /\ P nows s' /\ sim_ok (k + Z.of_nat (length nows)) s').
  { intros H Hok HP. apply (H nows []); [done| |done]. by rewrite Z.add_0_r. }
  clear s. induction post as [|now post IH]; intros pre s Hn Hok HP.
  { exists s. rewrite Hn, app_nil_r. by split_and!. }
  assert (Hlen : length nows = (length pre + S (length post))%nat) by (by rewrite Hn, length_app).
  destruct (verilate_step _ now s Hok ltac:(lia) (Hfin _)) as (s1 & H1 & Hok1 & Hspec).
  cbn [Harness.verilate_all]. rewrite H1. cbn [mbind option_bind].
  apply (IH (pre ++ [now])); [by rewrite <- app_assoc| |].
  - rewrite length_app. cbn [length]. by replace (k + Z.of_nat (length pre + 1)) with (k + Z.of_nat (length pre) + 1) by lia.
  - apply (Hstep pre now s s1); [lia|done..].
Qed.

(** The same by the number of the call. *)
Lemma run_indexed (P : nat -> Sim -> Prop) k nows s :
  (forall c, gotFinish c = false) -> k + Z.of_nat (length nows) <= INT_MAX ->
  (forall n now s s', (n < length nows)%nat -> P n s -> step_spec now s s' -> P (S n) s') ->
  sim_ok k s -> P 0%nat s ->
  exists s', verilate_all nows s = Some (Running s') /\ P (length nows) s'.
Proof.
  intros Hfin Hroom Hstep Hok HP.
  destruct (run_invariant (fun pre => P (length pre)) k nows s) as (s' & H1 & H2 & _); try done.
  - intros pre now s1 s2 Hk HP1 _ Hspec. rewrite length_app, Nat.add_1_r. by apply (Hstep _ now s1).
  - by exists s'.
Qed.

(** The phase of the clock after [k] calls from a [low] state. *)
Definition phase (k : nat) (c : SimClock) : Prop := if Nat.even k then low c else high c.

Lemma phase_step k c c' :
  phase k c -> c' = SimClock_Tick c -> phase (S k) c' /\ SimClock_IsRising c' = Nat.even k.
Proof.
  intros Hp ->. unfold phase in *. rewrite Nat.even_succ, <- Nat.negb_even.
  destruct (Nat.even k); cbn [negb].
  - destruct (tick_low c Hp) as (H1 & H2 & H3). unfold SimClock_IsRising. by rewrite H2, H3.
  - by destruct (tick_high c Hp) as (H1 & _ & H3).
Qed.

Lemma half_step k :
  Z.of_nat (S (S k) / 2) = Z.of_nat (S k / 2) + (if Nat.even k then 1 else 0).
Proof.
  destruct (Nat.even k) eqn:He.
  - apply Nat.even_spec in He as [m ->].
    replace (S (S (2 * m)) / 2)%nat with (S m) by (apply Nat.div_unique with 0%nat; lia).
    replace (S (2 * m) / 2)%nat with m by (apply Nat.div_unique with 1%nat; lia). lia.
  - rewrite <- Nat.negb_odd in He. apply negb_false_iff, Nat.odd_spec in He as [m ->].
    replace (S (S (2 * m + 1)) / 2)%nat with (S m) by (apply Nat.div_unique with 1%nat; lia).
    replace (S (2 * m + 1) / 2)%nat with (S m) by (apply Nat.div_unique with 0%nat; lia). lia.
Qed.

(** The time advances by one at each rising edge. *)
Definition at_time (T : Z) (k : nat) (s : Sim) : Prop :=
  phase k (clk_sys s) /\ main_time s = T + Z.of_nat (S k / 2).

Lemma time_step T k now s s' :
  0 <= T -> T + Z.of_nat k < 2 ^ 63 -> at_time T k s -> step_spec now s s' -> at_time T (S k) s'.
Proof.
  intros HT Hk [Hp Hm] Hs. destruct (phase_step _ _ _ Hp (spec_clk _ _ _ Hs)) as [Hp' Hr].
  split; [done|]. rewrite (spec_time _ _ _ Hs), Hr, half_step, Hm.
  assert (Hd : Z.of_nat (S k / 2) <= Z.of_nat (S k)) by (apply inj_le, Nat.Div0.div_le_upper_bound; lia).
  destruct (Nat.even k); [|lia]. rewrite uwrap_small by lia. lia.
Qed.

(** Whatever the core drives on its pins, of their widths, and for every number of
    calls whose counts are of [int]: no null pin pointer is read, no pixel is drawn
    outside the texture, the trace buffer, the log and the terminal keep their
    bounds; a run ends only when the core executes [$finish]. *)
Lemma run_ok k nows s :
  sim_ok k s -> k + Z.of_nat (length nows) <= INT_MAX -> exists r, verilate_all nows s = Some r /\
    match r with Running s' => sim_ok (k + Z.of_nat (length nows)) s' | Finished => True end.
Proof.
  revert k s. induction nows as [|now nows IH]; intros k s Hok Hroom.
  { exists (Running s). by rewrite Z.add_0_r. }
  cbn [Harness.verilate_all length] in *. destruct (gotFinish (top s)) eqn:Hfin.
  - exists Finished. unfold Harness.verilate. by rewrite Hfin.
  - destruct (verilate_step k now s Hok ltac:(lia) Hfin) as (s' & -> & Hok' & _). cbn [mbind option_bind].
    destruct (IH (k + 1) s' Hok' ltac:(lia)) as (r & Hr & Hrok). exists r. split; [done|].
    by replace (k + Z.of_nat (S (length nows))) with (k + 1 + Z.of_nat (length nows)) by lia.
Qed.

Lemma verilate_all_app l1 l2 s :
  verilate_all (l1 ++ l2) s =
  r ← verilate_all l1 s; match r with Running s' => verilate_all l2 s' | Finished => Some Finished end.
Proof.
  revert s. induction l1 as [|now l1 IH]; intros s; [done|]. cbn [app Harness.verilate_all].
  destruct (verilate now s) as [[s'|]|]; [apply IH|reflexivity..].
Qed.

Lemma reset_phase_cold s :
  reset_at_frame o < 0 ->
  reset (reset_phase o s) = if main_time s <? 48 then true else if main_time s =? 48 then false else reset s.
Proof.
  intros Hf. unfold reset_phase, initialReset. cbn zeta.
  destruct (Z.leb_spec 0 (reset_at_frame o)); [lia|].
  destruct (Z.ltb_spec (main_time s) 48).
  - change (main_time (s <| reset := true |>)) with (main_time s).
    destruct (Z.eqb_spec (main_time s) 48); [lia|done].
  - by destruct (Z.eqb_spec (main_time s) 48).
Qed.

(** The reset at the start.  Without a warm reset, the core is evaluated with
    the reset asserted in the calls up to number 96, and released in every call
    after it: 48 periods of the clock, and the time counts the periods. *)
Theorem reset_sequence (k : Z) (nows : list Z) (s : Sim) :
  (forall c, gotFinish c = false) -> reset_at_frame o < 0 ->
  sim_ok k s -> 0 <= k -> high (clk_sys s) -> main_time s = 0 ->
  nows <> [] -> k + Z.of_nat (length nows) <= INT_MAX ->
  exists s', verilate_all nows s = Some (Running s') /\
    reset s' = Nat.leb (length nows) 96 /\ main_time s' = Z.of_nat (length nows / 2).
Proof.
  intros Hfin Hf Hok Hk0 Hh Ht Hne Hlen. destruct nows as [|now nows]; [done|]. clear Hne.
  assert (Hmax : INT_MAX < 2 ^ 62) by done.
  cbn [length] in *. cbn [Harness.verilate_all].
  destruct (verilate_step k now s Hok ltac:(lia) (Hfin _)) as (s1 & -> & Hok1 & Hs1). cbn [mbind option_bind].
  destruct (tick_high _ Hh) as (Hl & _ & Hr). rewrite <- (spec_clk _ _ _ Hs1) in Hl, Hr.
  set (P k s := at_time 0 k s /\ reset s = Nat.leb (S k) 96).
  destruct (run_indexed P (k + 1) nows s1 Hfin) as (s' & Hrun & Ht' & Hr'); [lia|..].
  - intros n now' s2 s2' Hk [Ha Hreset] Hs2. split; [apply (time_step 0 n now' s2); [lia..|done|done]|].
    rewrite (spec_reset _ _ _ Hs2), reset_phase_cold, Hreset by done.
    destruct Ha as [_ Hm]. rewrite Hm.
    assert (Hd := Nat.div_mod_eq (S n) 2). assert (Hb := Nat.mod_upper_bound (S n) 2 ltac:(lia)).
    destruct (Z.ltb_spec (0 + Z.of_nat (S n / 2)) 48); [symmetry; apply Nat.leb_le; lia|].
    destruct (Z.eqb_spec (0 + Z.of_nat (S n / 2)) 48);
      [symmetry; apply Nat.leb_gt; lia|].
    transitivity false; [apply Nat.leb_gt; lia|symmetry; apply Nat.leb_gt; lia].
  - done.
  - split; [split; [exact Hl|]|].
    + rewrite (spec_time _ _ _ Hs1), Hr, Ht. done.
    + rewrite (spec_reset _ _ _ Hs1), reset_phase_cold, Ht by done. done.
  - exists s'. split; [done|]. cbn [Nat.add] in *. destruct Ht' as [_ Ht']. by rewrite Ht'.
Qed.

(** ** The warm reset *)

Lemma reset_phase_warm s :
  0 <= reset_at_frame o -> 48 < main_time s ->
  (warm_reset_start s < 0 -> reset_at_frame o <= count_frame (video s)) ->
  let start := if warm_reset_start s <? 0 then main_time s else warm_reset_start s in
  warm_reset_start (reset_phase o s) = start /\
  reset (reset_phase o s) =
    if main_time s <? start + 4000 then true else if main_time s =? start + 4000 then false else reset s.
Proof.
  intros Hf Ht Hc. cbn zeta. unfold reset_phase, initialReset, WARM_RESET_LEN. cbn zeta.
  destruct (Z.ltb_spec (main_time s) 48); [lia|]. destruct (Z.eqb_spec (main_time s) 48); [lia|].
  destruct (Z.leb_spec 0 (reset_at_frame o)); [|lia].
  destruct (Z.ltb_spec (warm_reset_start s) 0) as [Hw|Hw].
  - destruct (Z.leb_spec (reset_at_frame o) (count_frame (video s))); [|lia]. cbn [andb].
    change (warm_reset_start (s <| warm_reset_start := main_time s |>)) with (main_time s).
    change (main_time (s <| warm_reset_start := main_time s |>)) with (main_time s).
    destruct (Z.leb_spec 0 (main_time s)); [|lia]. destruct (Z.ltb_spec (main_time s) (main_time s + 4000)); [|lia].
    done.
  - cbn [andb]. destruct (Z.leb_spec 0 (warm_reset_start s)); [|lia]. cbn [andb].
    destruct (Z.ltb_spec (main_time s) (warm_reset_start s + 4000)); [done|].
    by destruct (Z.eqb_spec (main_time s) (warm_reset_start s + 4000)).
Qed.

(** The warm reset is one pulse.  When the frame counter has reached the
    frame of [--reset-at], the reset is asserted for 4000 periods of the clock,
    released at the end of them and never asserted again, whatever the frame
    counter and the core do meanwhile. *)
Theorem warm_reset_pulse (bound : Z) (nows : list Z) (s : Sim) :
  (forall c, gotFinish c = false) -> 0 <= reset_at_frame o ->
  sim_ok bound s -> bound + Z.of_nat (length nows) <= INT_MAX -> low (clk_sys s) -> 48 < main_time s -> main_time s + Z.of_nat (length nows) < 2 ^ 63 ->
  warm_reset_start s < 0 -> reset_at_frame o <= count_frame (video s) -> nows <> [] ->
  exists s', verilate_all nows s = Some (Running s') /\
    warm_reset_start s' = main_time s /\ reset s' = Nat.ltb (length nows / 2) 4000.
Proof.
  intros Hfin Hf Hok Hroom Hl Ht Hlen Hw Hc Hne.
  set (P k s' := at_time (main_time s) k s' /\
    if k is O then warm_reset_start s' < 0 /\ reset_at_frame o <= count_frame (video s')
    else warm_reset_start s' = main_time s /\ reset s' = Nat.ltb (k / 2) 4000).
  destruct (run_indexed P bound nows s Hfin Hroom) as (s' & Hrun & _ & HP).
  - intros k now s1 s2 Hk [Ha HP] Hs2.
    split; [apply (time_step (main_time s) k now s1); [lia..|done|done]|].
    rewrite (spec_warm _ _ _ Hs2), (spec_reset _ _ _ Hs2). destruct Ha as [_ Hm].
    destruct (reset_phase_warm s1) as [E1 E2]; [done|lia|by destruct k; lia|].
    rewrite E1, E2, Hm. clear E1 E2 Hs2. destruct k as [|k].
    + destruct HP as [HP _]. destruct (Z.ltb_spec (warm_reset_start s1) 0); [|lia].
      cbn [Nat.div]. rewrite Z.add_0_r.
      destruct (Z.ltb_spec (main_time s) (main_time s + 4000)); [done|lia].
    + destruct HP as [-> ->]. destruct (Z.ltb_spec (main_time s) 0); [lia|]. split; [done|].
      assert (Hd := Nat.div_mod_eq (S k) 2). assert (Hb := Nat.mod_upper_bound (S k) 2 ltac:(lia)).
      assert (Hd' := Nat.div_mod_eq (S (S k)) 2).
      assert (Hb' := Nat.mod_upper_bound (S (S k)) 2 ltac:(lia)).
      destruct (Nat.ltb_spec (S (S k) / 2) 4000), (Nat.ltb_spec (S k / 2) 4000); zcases; reflexivity || lia.
  - done.
  - split; [split; [exact Hl|]|]; [cbn; lia|done].
  - exists s'. split; [done|]. by destruct nows.
Qed.

(** ** The components under the harness

    The [k]-th rising edge is call [2 k + 1] after a [low] state; what the core
    drives there is what the components see. *)

(** The elements at the even positions. *)
Fixpoint evens {A} (l : list A) : list A :=
  match l with
  | x :: l => x :: match l with [] => [] | _ :: l => evens l end
  | [] => []
  end.

Lemma evens_length {A} (l : list A) : length (evens l) = (S (length l) / 2)%nat.
Proof.
  induction l as [l IH] using (induction_ltof1 _ length).
  destruct l as [|x [|y l]]; [done..|]. cbn [evens length]. rewrite IH by (unfold ltof; cbn; lia).
  change (S (S (S (length l)))) with (2 + S (length l))%nat.
  by replace (2 + S (length l))%nat with (1 * 2 + S (length l))%nat by lia; rewrite Nat.div_add_l by lia.
Qed.

Lemma evens_snoc {A} (l : list A) (x : A) :
  evens (l ++ [x]) = if Nat.even (length l) then evens l ++ [x] else evens l.
Proof.
  induction l as [l IH] using (induction_ltof1 _ length).
  destruct l as [|y [|z l]]; [done..|]. cbn [app evens length Nat.even].
  rewrite IH by (unfold ltof; cbn; lia). by destruct (Nat.even (length l)).
Qed.

Definition video_run (ins : list (Z * CoreOut)) (v : SimVideo) : option SimVideo :=
  fold_left (fun acc '(now, x) =>
    v ← acc; if co_ce_pixel x then SimVideo_Clock (core_video now x) v else Some v) ins (Some v).

Definition audio_run (ins : list CoreOut) (a : SimAudio) : SimAudio :=
  fold_left (fun a x => SimAudio_Clock (s16 (co_audio_l x)) (s16 (co_audio_r x)) a) ins a.

(** The bus as the core has answered it, up to its log. *)
Definition bus_runs (waits : list Z) (b b' : SimBus) : Prop :=
  forall w, bus_eq (b' <| ioctl_wait := w |>) ((bus_run fs waits b) <| ioctl_wait := w |>).

(** The state after the first [n] calls of a run. *)
Definition after_calls (nows : list Z) (s : Sim) (n : nat) : Sim :=
  match verilate_all (take n nows) s with Some (Running s') => s' | _ => s end.

(** What the core drives at the rising edges, and the wait pin before each. *)
Definition edge_outs (nows : list Z) (s : Sim) : list CoreOut :=
  map (fun j => out (top (after_calls nows s (2 * j + 1)))) (seq 0 (length (evens nows))).

Definition edge_waits (nows : list Z) (s : Sim) : list Z :=
  map (fun j => ioctl_wait (bus (after_calls nows s (2 * j)))) (seq 0 (length (evens nows))).

(** A call evaluates the core on the pins that the harness drives, the serial line
    as the call before left it, and the bus sees the wait pin it answers with. *)
Definition core_call (s s' : Sim) : Prop :=
  top s' = eval (core_in o (s' <| serial_rxd := serial_rxd s |>)) (top s) /\
  ioctl_wait (bus s') = co_ioctl_wait (out (top s')).

Record components (nows : list Z) (s s' : Sim) : Prop := {
  comp_runs : forall n, (n <= length nows)%nat ->
    verilate_all (take n nows) s = Some (Running (after_calls nows s n));
  comp_last : after_calls nows s (length nows) = s';
  comp_core : forall n, (n < length nows)%nat -> core_call (after_calls nows s n) (after_calls nows s (S n));
  comp_video : video_run (zip (evens nows) (edge_outs nows s)) (video s) = Some (video s');
  comp_audio : audio s' = audio_run (edge_outs nows s) (audio s);
  comp_input : input s' = iterate (length (evens nows)) Input_BeforeEval (input s);
  comp_bus : bus_runs (edge_waits nows s) (bus s) (bus s') }.

Lemma bus_eq_wait b b' w : bus_eq b b' -> bus_eq (b <| ioctl_wait := w |>) (b' <| ioctl_wait := w |>).
Proof. by intros ->%bus_eq_log. Qed.

Lemma bus_runs_wait waits b b' b1 w :
  bus_runs waits b b' -> bus_eq b1 (b' <| ioctl_wait := w |>) -> bus_runs waits b b1.
Proof. intros Hb H1 v. rewrite (bus_eq_wait _ _ v H1). apply Hb. Qed.

Lemma bus_runs_eval waits b b' b1 w :
  bus_runs waits b b' -> bus_eq b1 ((Bus_BeforeEval fs b') <| ioctl_wait := w |>) ->
  bus_runs (waits ++ [ioctl_wait b']) b b1.
Proof.
  intros Hb H1 v. rewrite (bus_eq_wait _ _ v H1), bus_run_snoc.
  change (bus_eq ((Bus_BeforeEval fs b') <| ioctl_wait := v |>)
    ((Bus_BeforeEval fs ((bus_run fs waits b) <| ioctl_wait := ioctl_wait b' |>)) <| ioctl_wait := v |>)).
  apply bus_eq_wait. rewrite <- (Hb (ioctl_wait b')). by destruct b'.
Qed.

Lemma iterate_S {A} n (f : A -> A) x : iterate (n + 1) f x = f (iterate n f x).
Proof. by rewrite Nat.add_1_r. Qed.

(** One more call leaves the states before it. *)
Lemma after_calls_app pre now s n :
  (n <= length pre)%nat -> after_calls (pre ++ [now]) s n = after_calls pre s n.
Proof. intros Hn. unfold after_calls. by rewrite take_app_le. Qed.

Lemma evens_half {A} (l : list A) j : (j < length (evens l))%nat -> (2 * j + 1 <= length l)%nat.
Proof.
  rewrite evens_length. intros Hj. assert (Hd := Nat.div_mod_eq (S (length l)) 2).
  assert (Hm := Nat.mod_upper_bound (S (length l)) 2 ltac:(lia)). lia.
Qed.

(** The lists over the rising edges grow by one element at every other call. *)
Lemma edges_snoc {A} (f : Sim -> A) (d : nat) pre now s :
  (d <= 1)%nat ->
  map (fun j => f (after_calls (pre ++ [now]) s (2 * j + d))) (seq 0 (length (evens (pre ++ [now])))) =
  map (fun j => f (after_calls pre s (2 * j + d))) (seq 0 (length (evens pre))) ++
  (if Nat.even (length pre) then [f (after_calls (pre ++ [now]) s (length pre + d))] else []).
Proof.
  intros Hd. rewrite evens_snoc.
  assert (Hold : map (fun j => f (after_calls (pre ++ [now]) s (2 * j + d))) (seq 0 (length (evens pre))) =
                 map (fun j => f (after_calls pre s (2 * j + d))) (seq 0 (length (evens pre)))).
  { apply map_ext_in. intros j [_ Hj]%in_seq. pose proof (evens_half pre j Hj).
    by rewrite after_calls_app by lia. }
  destruct (Nat.even (length pre)) eqn:He; [|by rewrite Hold, app_nil_r].
  rewrite length_app. cbn [length]. rewrite Nat.add_1_r, seq_S, map_app, Hold. cbn [map Nat.add]. do 4 f_equal.
  rewrite evens_length. apply Nat.even_spec in He as [m Hm]. rewrite Hm.
  replace (S (2 * m) / 2)%nat with m by (apply Nat.div_unique with 1%nat; lia). lia.
Qed.

Lemma edge_outs_snoc pre now s :
  edge_outs (pre ++ [now]) s = edge_outs pre s ++
    (if Nat.even (length pre) then [out (top (after_calls (pre ++ [now]) s (S (length pre))))] else []).
Proof.
  pose proof (edges_snoc (fun s => out (top s)) 1 pre now s ltac:(lia)) as H. rewrite (Nat.add_1_r (length pre)) in H.
  exact H.
Qed.

Lemma edge_waits_snoc pre now s :
  edge_waits (pre ++ [now]) s = edge_waits pre s ++
    (if Nat.even (length pre) then [ioctl_wait (bus (after_calls pre s (length pre)))] else []).
Proof.
  pose proof (edges_snoc (fun s => ioctl_wait (bus s)) 0 pre now s ltac:(lia)) as H.
  rewrite Nat.add_0_r, after_calls_app in H by lia. unfold edge_waits.
  rewrite (map_ext _ (fun j => ioctl_wait (bus (after_calls (pre ++ [now]) s (2 * j + 0))))) by
    (intros j; by rewrite Nat.add_0_r).
  rewrite H. f_equal. apply map_ext. intros j. by rewrite Nat.add_0_r.
Qed.

Lemma video_run_snoc ins now x v v' : video_run ins v = Some v' ->
  video_run (ins ++ [(now, x)]) v = (if co_ce_pixel x then SimVideo_Clock (core_video now x) v' else Some v').
Proof. unfold video_run. rewrite fold_left_app. by intros ->. Qed.

(** From a falling edge every call has an edge. *)
Definition running_clock (k : nat) (c : SimClock) : Prop :=
  phase k c /\ (Nat.even k = false -> clk c = true).

Lemma running_step k c : running_clock k c ->
  running_clock (S k) (SimClock_Tick c) /\ SimClock_IsRising (SimClock_Tick c) = Nat.even k /\
  has_edge (SimClock_Tick c) = true.
Proof.
  intros [Hp Hc]. destruct (phase_step k c _ Hp eq_refl) as [Hp' Hr]. unfold phase, running_clock in *.
  split; [|split; [done|]].
  - split; [done|]. rewrite Nat.even_succ, <- Nat.negb_even. intros He%negb_false_iff. rewrite He in Hp.
    by destruct (tick_low c Hp) as (_ & -> & _).
  - unfold has_edge. destruct (Nat.even k).
    + by destruct (tick_low c Hp) as (_ & -> & ->).
    + destruct (tick_high c Hp) as ((_ & _ & ->) & -> & _). by rewrite Hc.
Qed.

Lemma components_step pre now s s1 s2 :
  running_clock (length pre) (clk_sys s1) -> components pre s s1 ->
  verilate now s1 = Some (Running s2) -> step_spec now s1 s2 -> components (pre ++ [now]) s s2.
Proof.
  intros Hp [Hr Hlast Hev Hv Ha Hi Hb] Hcall Hs.
  destruct (running_step _ _ Hp) as (_ & Hrise & Hedge). rewrite <- (spec_clk _ _ _ Hs) in Hrise, Hedge.
  destruct (spec_bus _ _ _ Hs) as (w & _ & Hbus). rewrite Hrise in Hbus.
  assert (Hpre : verilate_all pre s = Some (Running s1)).
  { rewrite <- Hlast, <- Hr, firstn_all by lia. done. }
  assert (Hrun : verilate_all (pre ++ [now]) s = Some (Running s2)).
  { rewrite verilate_all_app, Hpre. cbn [mbind option_bind Harness.verilate_all]. by rewrite Hcall. }
  assert (Hall : after_calls (pre ++ [now]) s (S (length pre)) = s2).
  { unfold after_calls. rewrite take_ge by (rewrite length_app; cbn; lia). by rewrite Hrun. }
  assert (Hlen : length (pre ++ [now]) = S (length pre)) by (rewrite length_app; cbn; lia).
  pose proof (spec_video _ _ _ Hs) as Hvid. pose proof (spec_audio _ _ _ Hs) as Haud.
  pose proof (spec_input _ _ _ Hs) as Hinp. rewrite Hrise in Hvid, Haud, Hinp.
  split; rewrite ?Hlen, ?edge_outs_snoc, ?edge_waits_snoc, ?Hall, ?Hlast, ?evens_snoc; [|done|..].
  - intros n Hn. destruct (decide (n = S (length pre))) as [->|Hne].
    + rewrite Hall, take_ge by (rewrite length_app; cbn; lia). done.
    + rewrite after_calls_app, take_app_le by lia. apply Hr. lia.
  - intros n Hn. destruct (decide (n = length pre)) as [->|Hne].
    + rewrite Hall, after_calls_app, Hlast by lia. by apply (spec_core _ _ _ Hs).
    + rewrite !after_calls_app by lia. apply Hev. lia.
  - destruct (Nat.even (length pre)); cbn [andb] in Hvid.
    + rewrite zip_with_app by (unfold edge_outs; by rewrite length_map, length_seq).
      cbn [zip zip_with]. erewrite video_run_snoc by done. by rewrite Hvid.
    + rewrite app_nil_r, Hvid. done.
  - unfold audio_run in *. rewrite fold_left_app, <- Ha, Haud. by destruct (Nat.even (length pre)).
  - rewrite Hinp, Hi. destruct (Nat.even (length pre)); [|done]. rewrite length_app. cbn [length].
    by rewrite iterate_S.
  - destruct (Nat.even (length pre)); [by eapply bus_runs_eval|]. rewrite app_nil_r. by eapply bus_runs_wait.
Qed.

Lemma components_run k nows s :
  (forall c, gotFinish c = false) -> sim_ok k s -> k + Z.of_nat (length nows) <= INT_MAX -> low (clk_sys s) ->
  exists s', verilate_all nows s = Some (Running s') /\ components nows s s'.
Proof.
  intros Hfin Hok Hroom Hl.
  destruct (run_invariant (fun pre s' => running_clock (length pre) (clk_sys s') /\ components pre s s') k nows s Hfin Hroom)
    as (s' & Hrun & [_ HP] & _); [|done| |by exists s'].
  - intros pre now s1 s2 _ [Hp HP] Hcall Hs. split; [|by apply (components_step pre now s s1)].
    rewrite length_app, Nat.add_1_r, (spec_clk _ _ _ Hs). by destruct (running_step _ _ Hp).
  - split; [by split|]. split; try done; [|intros n Hn; cbn in Hn; lia..].
    intros n Hn. by destruct n; [|cbn in Hn; lia].
Qed.

(** C2: the harness implements its components.  Over any number of calls from a
    falling edge, and for any core, as long as the counts are of [int]: every call
    evaluates the core once, on the pins that the harness drives, and the bus sees
    the wait pin of that evaluation; and the video, the audio, the input and the
    bus are in the states of the components run on their own, one step of each per
    rising edge: the video and the audio on what the core drives there (the video
    only where it enables the pixel clock, and with the host clock of that call),
    the bus with the wait pin as it is before the edge. *)
Theorem harness_components (k : Z) (nows : list Z) (s : Sim) :
  (forall c, gotFinish c = false) -> sim_ok k s -> k + Z.of_nat (length nows) <= INT_MAX -> low (clk_sys s) ->
  let at_call := after_calls nows s in
  let s' := at_call (length nows) in
  let periods := seq 0 ((length nows + 1) / 2) in
  let outs := map (fun j => out (top (at_call (2 * j + 1)%nat))) periods in
  let waits := map (fun j => ioctl_wait (bus (at_call (2 * j)%nat))) periods in
  (forall n, (n <= length nows)%nat -> verilate_all (take n nows) s = Some (Running (at_call n))) /\
  (forall n, (n < length nows)%nat ->
     top (at_call (S n)) =
       eval (core_in o ((at_call (S n)) <| serial_rxd := serial_rxd (at_call n) |>)) (top (at_call n)) /\
     ioctl_wait (bus (at_call (S n))) = co_ioctl_wait (out (top (at_call (S n))))) /\
  video_run (zip (evens nows) outs) (video s) = Some (video s') /\
  audio s' = audio_run outs (audio s) /\
  input s' = iterate ((length nows + 1) / 2) Input_BeforeEval (input s) /\
  bus_runs waits (bus s) (bus s').
Proof.
  intros Hfin Hok Hroom Hl. cbn zeta.
  destruct (components_run k nows s Hfin Hok Hroom Hl) as (s' & _ & [Hr Hlast Hev Hv Ha Hi Hb]).
  unfold edge_outs, edge_waits in *. rewrite evens_length in *. rewrite (Nat.add_1_r (length nows)), Hlast.
  split_and!; [exact Hr|exact Hev|exact Hv|exact Ha|exact Hi|exact Hb].
Qed.

Lemma waits_replicate nows s :
  (forall n, (n < length nows)%nat -> core_call (after_calls nows s n) (after_calls nows s (S n))) ->
  (forall c, co_ioctl_wait (out c) = 0) -> ioctl_wait (bus s) = 0 ->
  edge_waits nows s = replicate (length (evens nows)) 0.
Proof.
  intros Hev Hwait H0.
  assert (Hz : forall n, (n <= length nows)%nat -> ioctl_wait (bus (after_calls nows s n)) = 0).
  { intros [|n] Hn; [exact H0|]. destruct (Hev n) as [_ ->]; [lia|apply Hwait]. }
  unfold edge_waits.
  rewrite (map_ext_in _ (fun _ => 0)).
  - rewrite map_const, length_seq. generalize (length (evens nows)). intros n.
    induction n as [|n IH]; [done|]. cbn. by rewrite IH.
  - intros j [_ Hj]%in_seq. pose proof (evens_half nows j Hj). apply Hz. lia.
Qed.

(** A download under the harness.  From a falling edge, with one file queued
    and a core that never waits, each word of the file is on the pins of the core
    for two calls, one period of the clock: word [k] after the calls [2 k + 1] and
    [2 k + 2], the last word of a file of even length for two periods.  From call
    [2 call_count - 1] the download has ended, and it stays closed for every call
    after. *)
Lemma run_delivers (k : Z) (nows : list Z) (s : Sim) (chunk : SimBus_DownloadChunk) (data : list Z) :
  (forall c, gotFinish c = false) -> (forall c, co_ioctl_wait (out c) = 0) ->
  sim_ok k s -> k + Z.of_nat (length nows) <= INT_MAX -> low (clk_sys s) -> ioctl_wait (bus s) = 0 ->
  ioctl_file (bus s) = None -> downloadQueue (bus s) = [chunk] -> fs (ch_file chunk) = Some data ->
  Forall (fun x => 0 <= x < 256) data ->
  0 <= start_addr chunk (bus s) /\ start_addr chunk (bus s) + Z.of_nat (length data) + 3 < 2 ^ 31 ->
  nows <> [] ->
  exists s', verilate_all nows s = Some (Running s') /\
    ((S (length nows) < 2 * call_count data)%nat -> data <> [] ->
      presents data (start_addr chunk (bus s)) (Nat.min ((length nows - 1) / 2) (word_count data - 1)) (bus s')) /\
    ((2 * call_count data <= S (length nows))%nat ->
      ioctl_download (bus s') = 0 /\ ioctl_wr (bus s') = 0 /\
      ioctl_addr (bus s') = start_addr chunk (bus s) + 2 * Z.of_nat (word_count data)).
Proof.
  intros Hfin Hwait Hok Hroom Hl H0 Hf Hq Hfs Hdata Hbase Hne.
  destruct (components_run k nows s Hfin Hok Hroom Hl) as (s' & Hrun & [_ _ Hev _ _ _ Hb]).
  exists s'. split; [done|]. rewrite (waits_replicate nows s Hev Hwait H0) in Hb.
  assert (HJ : exists j, length (evens nows) = S j /\ ((length nows - 1) / 2 = j)%nat /\
    (2 * j + 1 <= length nows <= 2 * S j)%nat).
  { rewrite evens_length. destruct nows as [|x nows]; [done|]. cbn [length].
    rewrite Nat.sub_succ, Nat.sub_0_r. exists (length nows / 2)%nat.
    assert (Hd := Nat.div_mod_eq (length nows) 2). assert (Hm := Nat.mod_upper_bound (length nows) 2 ltac:(lia)).
    change (S (S (length nows))) with (1 * 2 + length nows)%nat. rewrite Nat.div_add_l by lia. lia. }
  destruct HJ as (j & HJ1 & -> & HJ3). rewrite HJ1 in Hb. clear HJ1.
  destruct (bus_free_run fs (bus s) chunk data (S j) Hf Hq Hfs Hdata Hbase ltac:(lia)) as [HP HC].
  specialize (Hb (ioctl_wait (bus s'))).
  assert (Hb' : bus_eq (bus s') ((bus_run fs (replicate (S j) 0) (bus s)) <| ioctl_wait := ioctl_wait (bus s') |>)).
  { rewrite <- Hb. by destruct (bus s'). }
  split.
  - intros Hj Hdne. rewrite Hb'. rewrite Nat.sub_succ, Nat.sub_0_r in HP. apply HP; [lia|done].
  - intros Hj. destruct HC as (_ & C2 & C3 & C4); [lia|].
    symmetry in Hb'. apply bus_eq_log in Hb'. rewrite Hb'. done.
Qed.
End Run.

(** ** A core for the examples

    It keeps the pins of its last evaluation, shows them on the video and never
    asks for a sector. *)

Record Latch := MkLatch { latched : CoreIn }.

Definition latch_out (c : Latch) : CoreOut :=
  let i := latched c in
  MkCoreOut 0 [0; 0; 0] 0 0 [0; 0; 0] (ci_ioctl_dout i mod 256) (ci_ps2_mouse i mod 256) 0
    false false false false true (ci_ioctl_dout i) 0 true 100 false 0 0 0.

#[export] Instance latch_core : Core Latch := {
  eval i _ := MkLatch i; out := latch_out; gotFinish _ := false }.

Lemma no_sectors : Forall lba_fits [0; 0; 0].
Proof. assert (H : lba_fits 0) by (split; [discriminate|reflexivity]). by repeat apply Forall_cons_2. Qed.

#[export] Instance latch_widths : CoreWidths Latch.
Proof. split; intros c; [cbn; lia..|done|apply no_sectors|done]. Qed.

Definition latch_pins : CoreIn :=
  MkCoreIn true false false 2 0 3 0 0 0 0 0 0 0 0 0 0 0 0 0 true.

Definition test_core : Latch := MkLatch latch_pins.

Definition test_sim {C} (c : C) (clock : SimClock) (time : Z) (queue : list SimBus_DownloadChunk) : Sim (C := C) :=
  MkSim c time clock true false false 0 true (-1) (-1) 0 false Console_zero
    (test_bus queue)
    (MkBlkDev (MkBlkPins (attach [0; 0; 0]) 0 0 0 0 0 (attach [0; 0; 0]) 0 0 None 0) 0
       (replicate kVDNUM 0) false false 0 (-1) (replicate kVDNUM false) (replicate kVDNUM FStream_closed))
    (SimInput_new 13) (SimAudio_new 44100 false) (SimVideo_Initialise (SimVideo_new 4 4 0))
    Terminal_new (Tracer_new Console_zero).

Definition low_clock : SimClock := SimClock_Tick (SimClock_new 1).

Lemma test_sim_ok {C} (fs : cstr -> option (list Z)) (c : C) clock time queue :
  low clock \/ high clock -> foldr (fun chunk n => chunk_rest fs chunk + n) 0 queue <= INT_MAX ->
  sim_ok fs 0 (test_sim c clock time queue).
Proof.
  intros Hc Hq. split.
  - split; [exact Hc|]. split_and!.
    + split; [|cbn; lia]. split; [|cbn; lia].
      intros i Hi. split; [apply attach_fits; [done|apply no_sectors|done]|by apply attach_lookup].
    + vm_compute. by repeat split.
    + apply Nat.leb_le. reflexivity.
    + apply Nat.leb_le. reflexivity.
    + vm_compute. split; [lia|constructor].
  - split; [by vm_compute; repeat split|]. split; [done|]. split; [done|]. split; [done|]. by apply bus_room_queue.
Qed.

Lemma reset_sequence_witness :
  exists s', verilate_all toy_raw (fun _ => None) 3 false default_options (replicate 100 0)
    (test_sim test_core (SimClock_new 1) 0 []) = Some (Running s') /\ reset s' = false /\ main_time s' = 50.
Proof.
  apply (reset_sequence toy_raw (fun _ => None) 3 false default_options 0 (replicate 100 0)
    (test_sim test_core (SimClock_new 1) 0 [])); try reflexivity; try discriminate.
  - apply test_sim_ok; [right; by vm_compute|done].
  - by vm_compute.
Defined.

Lemma warm_reset_pulse_witness :
  exists s', verilate_all toy_raw (fun _ => None) 3 false (default_options <| reset_at_frame := 0 |>)
    (replicate 10 0) (test_sim test_core low_clock 100 []) = Some (Running s') /\
    warm_reset_start s' = 100 /\ reset s' = true.
Proof.
  apply (warm_reset_pulse toy_raw (fun _ => None) 3 false (default_options <| reset_at_frame := 0 |>) 0
    (replicate 10 0) (test_sim test_core low_clock 100 [])); try reflexivity; try (cbn; lia); try discriminate.
  - apply test_sim_ok; [left; by vm_compute|done].
  - by vm_compute.
Defined.

Definition test_rom : SimBus_DownloadChunk := MkChunk (lit "rom") 0 true.

Lemma harness_components_witness :
  let s := test_sim test_core low_clock 100 [test_rom] in
  let at_call := after_calls toy_raw (fun _ => Some [1; 2; 3]) 3 false default_options [5; 6; 7] s in
  video_run [(5, out (top (at_call 1%nat))); (7, out (top (at_call 3%nat)))] (video s) = Some (video (at_call 3%nat)) /\
  audio (at_call 3%nat) = audio_run [out (top (at_call 1%nat)); out (top (at_call 3%nat))] (audio s) /\
  bus_runs (fun _ => Some [1; 2; 3]) [ioctl_wait (bus (at_call 0%nat)); ioctl_wait (bus (at_call 2%nat))]
    (bus s) (bus (at_call 3%nat)).
Proof.
  destruct (harness_components toy_raw (fun _ => Some [1; 2; 3]) 3 false default_options 0 [5; 6; 7]
    (test_sim test_core low_clock 100 [test_rom])) as (_ & _ & Hv & Ha & _ & Hb);
    [done| |done|by vm_compute|by split_and!].
  apply test_sim_ok; [left; by vm_compute|done].
Defined.
