(* ===== verification/Mouse.v ===== *)
(** * The mouse (sim_main.cpp, the SDL events and the ps2_mouse packet)

    The main loop turns the motion of the host mouse, the arrow keys or a
    synthetic movement into one packet of the [ps2_mouse] pin per frame: the
    buttons and the signs in the low byte, the deltas in the next two and a
    strobe that toggles with every packet.

    The theorems: the packet decodes to the clamped deltas with their signs, the
    motion of a frame is the sum of its events, and the synthetic movement gives
    the core an event with every packet and no drift over four of them. *)

From S2P Require Import Prelude Options.

(** ** SDL events *)

Definition SDLK_ESCAPE : Z := 27.
Definition SDLK_F1 : Z := 0x4000003A.
Definition SDL_BUTTON_LEFT : Z := 1.

(** The events the loop looks at; the others go to the user interface only. *)
Inductive SdlEvent :=
  | SDL_QUIT
  | SDL_MOUSEMOTION (xrel yrel : Z)
  | SDL_MOUSEBUTTONDOWN (button : Z)
  | SDL_MOUSEBUTTONUP (button : Z)
  | SDL_KEYDOWN (sym : Z)
  | SDL_OTHER.

Record Mouse := MkMouse {
  mouse_clock : bool;
  mouse_captured : bool;
  sdl_mouse_dx : Z;
  sdl_mouse_dy : Z;
  sdl_mouse_btn : Z;
  last_inject_frame : Z }.

#[export] Instance eta_Mouse : Eta Mouse := fun m =>
  MkMouse (mouse_clock m) (mouse_captured m) (sdl_mouse_dx m) (sdl_mouse_dy m) (sdl_mouse_btn m)
    (last_inject_frame m).

Definition Mouse_zero : Mouse := MkMouse false false 0 0 0 (-1).

(** One event; the flag says that the loop is to end. *)
Definition sdl_event_step (e : SdlEvent) (m : Mouse) : Mouse * bool :=
  match e with
  | SDL_QUIT => (m, true)
  | SDL_MOUSEMOTION xrel yrel =>
      (if mouse_captured m then
         m <| sdl_mouse_dx := s32 (sdl_mouse_dx m + xrel) |>
           <| sdl_mouse_dy := s32 (sdl_mouse_dy m + yrel) |>
       else m, false)
  | SDL_MOUSEBUTTONDOWN b =>
      (if mouse_captured m && (b =? SDL_BUTTON_LEFT) then m <| sdl_mouse_btn := 1 |> else m, false)
  | SDL_MOUSEBUTTONUP b =>
      (if mouse_captured m && (b =? SDL_BUTTON_LEFT) then m <| sdl_mouse_btn := 0 |> else m, false)
  | SDL_KEYDOWN sym =>
      (if mouse_captured m && ((sym =? SDLK_ESCAPE) || (sym =? SDLK_F1))
       then m <| mouse_captured := false |> else m, false)
  | SDL_OTHER => (m, false)
  end.

(** The events of one frame: the deltas start from zero. *)
Definition poll_step (acc : Mouse * bool) (e : SdlEvent) : Mouse * bool :=
  let '(m, quit) := acc in let '(m, q) := sdl_event_step e m in (m, quit || q).

Definition poll_events (events : list SdlEvent) (m : Mouse) : Mouse * bool :=
  fold_left poll_step events (m <| sdl_mouse_dx := 0 |> <| sdl_mouse_dy := 0 |>, false).

(** ** The packet *)

Definition clamp127 (d : Z) : Z :=
  let d := if 127 <? d then 127 else d in
  if d <? -127 then -127 else d.

Definition status_byte (btn dx dy : Z) : Z :=
  let s := u8 (Z.lor (u8 (Z.land btn 7)) 8) in
  let s := if dx <? 0 then u8 (Z.lor s 16) else s in
  if dy <? 0 then u8 (Z.lor s 32) else s.

Definition mouse_packet (clock : bool) (btn dx dy : Z) : Z :=
  let t := status_byte btn dx dy in
  let t := Z.lor t (Z.shiftl (u8 dx) 8) in
  let t := Z.lor t (Z.shiftl (u8 dy) 16) in
  if clock then Z.lor t (Z.shiftl 1 24) else t.

(** The synthetic movement: right, down, left, up. *)
Definition wig : list (Z * Z) := [(2, 0); (0, 2); (-2, 0); (0, -2)].
Definition wiggle (frame : Z) : Z * Z := default (0, 0) (wig !! Z.to_nat (Z.land frame 3)).

(** The keys of the fallback, in the order of the mapped inputs. *)
Definition input_right : nat := 0.
Definition input_left : nat := 1.
Definition input_down : nat := 2.
Definition input_up : nat := 3.
Definition input_a : nat := 4.
Definition input_b : nat := 5.

Definition pressed (inputs : list bool) (i : nat) : bool := default false (inputs !! i).

(** What the packet of a frame is made of: buttons and deltas before clamping. *)
Definition gui_motion (o : Options) (frame : Z) (inputs : list bool) (m : Mouse) : Z * Z * Z :=
  if mouse_captured m then
    (if sdl_mouse_btn m =? 0 then 0 else 1, sdl_mouse_dx m, s32 (- sdl_mouse_dy m))
  else if (0 <=? mouse_inject_from o) && (mouse_inject_from o <=? frame) && (frame <=? mouse_inject_to o)
  then (0, (wiggle frame).1, (wiggle frame).2)
  else
    let dx := if pressed inputs input_left then -2 else 0 in
    let dx := if pressed inputs input_right then 2 else dx in
    let dy := if pressed inputs input_up then 2 else 0 in
    let dy := if pressed inputs input_down then -2 else dy in
    let btn := if pressed inputs input_a then 1 else 0 in
    let btn := if pressed inputs input_b then Z.lor btn 2 else btn in
    (btn, dx, dy).

(** The packet of a frame of the user interface. *)
Definition gui_mouse (o : Options) (frame : Z) (inputs : list bool) (m : Mouse) : Z * Mouse :=
  let '(btn, dx, dy) := gui_motion o frame inputs m in
  (mouse_packet (mouse_clock m) btn (clamp127 dx) (clamp127 dy), m <| mouse_clock ::= negb |>).

(** Without the user interface only the synthetic movement exists: one packet per
    frame in which the loop passes. *)
Definition headless_mouse (o : Options) (frame : Z) (m : Mouse) : option Z * Mouse :=
  if 0 <=? mouse_inject_from o then
    if negb (frame =? last_inject_frame m) && (mouse_inject_from o <=? frame)
       && (frame <=? mouse_inject_to o)
    then
      let m := m <| last_inject_frame := frame |> in
      (Some (mouse_packet (mouse_clock m) 0 (wiggle frame).1 (wiggle frame).2), m <| mouse_clock ::= negb |>)
    else (None, m)
  else (None, m).

(** ** The packet as the core reads it

    The core takes the strobe from bit 24, the buttons from the low bits and each
    delta as a 9-bit two's complement number whose sign is a bit of the status. *)

Definition field (p lo n : Z) : Z := (p / 2 ^ lo) `mod` 2 ^ n.
Definition axis (p sign lo : Z) : Z := field p lo 8 - 256 * field p sign 1.

Lemma lor_low (a b n : Z) : 0 <= n -> 0 <= b < 2 ^ n -> Z.lor b (Z.shiftl a n) = b + a * 2 ^ n.
Proof. intros Hn Hb. rewrite Z.lor_comm, lor_shiftl_add by done. lia. Qed.

Lemma status_byte_sum btn dx dy :
  0 <= btn < 8 ->
  status_byte btn dx dy = btn + 8 + (if dx <? 0 then 16 else 0) + (if dy <? 0 then 32 else 0).
Proof.
  intros Hb. unfold status_byte.
  assert (H : btn = 0 \/ btn = 1 \/ btn = 2 \/ btn = 3 \/ btn = 4 \/ btn = 5 \/ btn = 6 \/ btn = 7) by lia.
  destruct (dx <? 0), (dy <? 0); destruct_or!; subst btn; reflexivity.
Qed.

Lemma mouse_packet_sum clock btn dx dy :
  0 <= btn < 8 ->
  mouse_packet clock btn dx dy =
    status_byte btn dx dy + u8 dx * 2 ^ 8 + u8 dy * 2 ^ 16 + (if clock then 2 ^ 24 else 0).
Proof.
  intros Hb. unfold mouse_packet.
  pose proof (uwrap_range 8 dx ltac:(lia)) as Hx. pose proof (uwrap_range 8 dy ltac:(lia)) as Hy.
  assert (Hs : 0 <= status_byte btn dx dy < 2 ^ 8).
  { rewrite status_byte_sum by done. destruct (dx <? 0), (dy <? 0); lia. }
  cbn zeta. rewrite (lor_low (u8 dx) _ 8) by lia. rewrite (lor_low (u8 dy) _ 16) by lia.
  destruct clock; [rewrite lor_low by lia|]; lia.
Qed.

Lemma clamp127_spec d : clamp127 d = Z.max (-127) (Z.min 127 d).
Proof. unfold clamp127. cbn zeta. destruct (Z.ltb_spec 127 d); zcases; lia. Qed.

Lemma clamp127_range d : -127 <= clamp127 d <= 127.
Proof. rewrite clamp127_spec. lia. Qed.

Lemma mouse_packet_range clock btn dx dy :
  0 <= btn < 8 -> 0 <= mouse_packet clock btn dx dy < 2 ^ 25.
Proof.
  intros Hb. rewrite mouse_packet_sum, status_byte_sum by done.
  pose proof (uwrap_range 8 dx ltac:(lia)). pose proof (uwrap_range 8 dy ltac:(lia)).
  destruct clock, (dx <? 0), (dy <? 0); lia.
Qed.

Lemma packet_fields clock btn dx dy :
  0 <= btn < 8 -> -128 <= dx < 128 -> -128 <= dy < 128 ->
  let p := mouse_packet clock btn dx dy in
  field p 0 3 = btn /\ axis p 4 8 = dx /\ axis p 5 16 = dy /\
  field p 24 1 = if clock then 1 else 0.
Proof.
  intros Hb Hx Hy. cbn zeta. rewrite mouse_packet_sum, status_byte_sum by done.
  unfold axis, field, uwrap. change (2 ^ 0) with 1. change (2 ^ 1) with 2. change (2 ^ 3) with 8.
  change (2 ^ 4) with 16. change (2 ^ 5) with 32. change (2 ^ 8) with 256.
  change (2 ^ 16) with 65536. change (2 ^ 24) with 16777216.
  destruct clock; destruct (Z.ltb_spec dx 0), (Z.ltb_spec dy 0);
    split_and!; Z.to_euclidean_division_equations; lia.
Qed.

(** The mouse packet round trip.  Whatever the motion of a frame, the core
    reads from the packet exactly the buttons, the deltas clamped to 127 in
    either direction with their signs, and the strobe; the packet fits the 25
    bits of the pin. *)
Theorem mouse_packet_decodes (clock : bool) (btn dx dy : Z) :
  0 <= btn < 8 ->
  let p := mouse_packet clock btn (clamp127 dx) (clamp127 dy) in
  0 <= p < 2 ^ 25 /\ field p 0 3 = btn /\
  axis p 4 8 = Z.max (-127) (Z.min 127 dx) /\ axis p 5 16 = Z.max (-127) (Z.min 127 dy) /\
  (field p 24 1 = 1 <-> clock = true).
Proof.
  intros Hb. cbn zeta. split; [by apply mouse_packet_range|].
  pose proof (clamp127_range dx). pose proof (clamp127_range dy).
  destruct (packet_fields clock btn (clamp127 dx) (clamp127 dy)) as (H1 & H2 & H3 & H4); [lia..|].
  rewrite H1, H2, H3, H4, !clamp127_spec. by destruct clock.
Qed.

Lemma mouse_packet_decodes_witness : axis (mouse_packet true 1 (clamp127 (-300)) (clamp127 5)) 4 8 = -127.
Proof. apply (mouse_packet_decodes true 1 (-300) 5). lia. Defined.

(** ** The motion of a frame *)

Definition event_xrel (e : SdlEvent) : Z := match e with SDL_MOUSEMOTION x _ => x | _ => 0 end.
Definition event_yrel (e : SdlEvent) : Z := match e with SDL_MOUSEMOTION _ y => y | _ => 0 end.
Definition releases (e : SdlEvent) : bool :=
  match e with SDL_KEYDOWN k => (k =? SDLK_ESCAPE) || (k =? SDLK_F1) | _ => false end.
Definition is_quit (e : SdlEvent) : bool := match e with SDL_QUIT => true | _ => false end.

Definition total (f : SdlEvent -> Z) (events : list SdlEvent) : Z := foldr (fun e s => f e + s) 0 events.

Lemma total_app f l1 l2 : total f (l1 ++ l2) = total f l1 + total f l2.
Proof. unfold total. induction l1 as [|e l1 IH]; [done|]. cbn [app foldr]. rewrite IH. lia. Qed.

Lemma s32_add a b : s32 (s32 a + b) = s32 (a + b).
Proof.
  unfold swrap. f_equal. change (2 ^ 32) with 4294967296. change (2 ^ (32 - 1)) with 2147483648.
  rewrite <- (Z.add_mod_idemp_l (_ - _ + b)) by lia.
  div_lia.
Qed.

Lemma poll_captured events m :
  mouse_captured m = true -> Forall (fun e => releases e = false) events ->
  - 2 ^ 31 <= sdl_mouse_dx m < 2 ^ 31 -> - 2 ^ 31 <= sdl_mouse_dy m < 2 ^ 31 ->
  let m' := (fold_left poll_step events (m, false)).1 in
  mouse_captured m' = true /\ mouse_clock m' = mouse_clock m /\
  sdl_mouse_dx m' = s32 (sdl_mouse_dx m + total event_xrel events) /\
  sdl_mouse_dy m' = s32 (sdl_mouse_dy m + total event_yrel events).
Proof.
  intros Hc Hf Hx Hy. cbn zeta. induction events as [|e events IH] using rev_ind.
  - cbn. rewrite !Z.add_0_r, !swrap_small by lia. done.
  - apply Forall_app in Hf as [Hf He]. inversion_clear He as [|? ? Hr _].
    destruct (IH Hf) as (H1 & H2 & H3 & H4). clear IH. rewrite fold_left_app. cbn [fold_left].
    destruct (fold_left poll_step events (m, false)) as [m1 q]. cbn [fst] in *.
    rewrite !total_app. destruct e as [|x y|b|b|k|]; cbn [poll_step sdl_event_step fst releases] in *;
      rewrite ?H1, ?Hr; cbn [andb total foldr event_xrel event_yrel fst];
      try (destruct (b =? SDL_BUTTON_LEFT)); cbn; rewrite ?H1, ?H2, ?H3, ?H4, ?s32_add, ?Z.add_0_r, ?Z.add_assoc;
      done.
Qed.

Lemma poll_quit events m :
  (fold_left poll_step events (m, false)).2 = existsb is_quit events.
Proof.
  induction events as [|e events IH] using rev_ind; [done|].
  rewrite fold_left_app, existsb_app. cbn [fold_left existsb].
  destruct (fold_left poll_step events (m, false)) as [m1 q]. cbn [snd] in IH. subst q.
  by destruct e; cbn; rewrite ?orb_false_r.
Qed.

(** A captured mouse moves by the sum of the motion events of the frame.
    Unless an event releases it, the core reads the sum of the relative motions,
    clamped, with the vertical axis turned round; no button of a key gets in; and
    the strobe has toggled for the next packet. *)
Theorem captured_mouse (o : Options) (frame : Z) (inputs : list bool) (events : list SdlEvent) (m : Mouse) :
  mouse_captured m = true -> Forall (fun e => releases e = false) events ->
  - 2 ^ 31 < total event_xrel events < 2 ^ 31 -> - 2 ^ 31 < total event_yrel events < 2 ^ 31 ->
  let '(m1, quit) := poll_events events m in
  let '(p, m2) := gui_mouse o frame inputs m1 in
  axis p 4 8 = Z.max (-127) (Z.min 127 (total event_xrel events)) /\
  axis p 5 16 = Z.max (-127) (Z.min 127 (- total event_yrel events)) /\
  field p 0 3 = (if sdl_mouse_btn m1 =? 0 then 0 else 1) /\
  mouse_clock m2 = negb (mouse_clock m) /\ quit = existsb is_quit events.
Proof.
  intros Hc Hf Hx Hy. unfold poll_events.
  set (m0 := m <| sdl_mouse_dx := 0 |> <| sdl_mouse_dy := 0 |>).
  pose proof (poll_quit events m0) as Hq.
  destruct (poll_captured events m0) as (H1 & H2 & H3 & H4); [done|done|cbn; lia..|].
  destruct (fold_left poll_step events (m0, false)) as [m1 quit]. cbn [fst snd] in *.
  unfold gui_mouse, gui_motion. rewrite H1.
  pose proof (clamp127_range (sdl_mouse_dx m1)). pose proof (clamp127_range (s32 (- sdl_mouse_dy m1))).
  destruct (packet_fields (mouse_clock m1) (if sdl_mouse_btn m1 =? 0 then 0 else 1)
    (clamp127 (sdl_mouse_dx m1)) (clamp127 (s32 (- sdl_mouse_dy m1)))) as (P1 & P2 & P3 & _);
    [by destruct (sdl_mouse_btn m1 =? 0)|lia..|].
  rewrite P1, P2, P3, !clamp127_spec, H3, H4. change (sdl_mouse_dx m0) with 0. change (sdl_mouse_dy m0) with 0.
  rewrite !Z.add_0_l, !(swrap_small 32 (total _ _)) by lia.
  rewrite (swrap_small 32 (- _)) by lia. cbn [mouse_clock modify_field]. by rewrite H2.
Qed.

Lemma captured_mouse_witness :
  let m := MkMouse false true 0 0 0 (-1) in
  let '(m1, quit) := poll_events [SDL_MOUSEMOTION 100 7; SDL_OTHER; SDL_MOUSEMOTION 50 (-3)] m in
  let '(p, m2) := gui_mouse default_options 0 [] m1 in
  axis p 4 8 = 127 /\ axis p 5 16 = -4 /\ field p 0 3 = 0 /\ mouse_clock m2 = true /\ quit = false.
Proof.
  apply (captured_mouse default_options 0 []
    [SDL_MOUSEMOTION 100 7; SDL_OTHER; SDL_MOUSEMOTION 50 (-3)] (MkMouse false true 0 0 0 (-1)));
    [done|by repeat constructor|cbn; lia..].
Defined.

(** ** The synthetic movement *)

(** The packets of a run, given the frame of each pass of the loop. *)
Fixpoint headless_packets (o : Options) (frames : list Z) (m : Mouse) : list Z :=
  match frames with
  | [] => []
  | f :: frames =>
      let '(p, m) := headless_mouse o f m in
      match p with Some p => p :: headless_packets o frames m | None => headless_packets o frames m end
  end.

(** The frames without the repetitions of the passes. *)
Fixpoint distinct (last : Z) (frames : list Z) : list Z :=
  match frames with
  | [] => []
  | f :: frames => if f =? last then distinct last frames else f :: distinct f frames
  end.

(** What the core reads. *)
Definition core_view (p : Z) : Z * Z * Z := (axis p 4 8, axis p 5 16, field p 0 3).

Fixpoint alternating (b : bool) (n : nat) : list Z :=
  match n with O => [] | S n => (if b then 1 else 0) :: alternating (negb b) n end.

Lemma wiggle_cases f : In (wiggle f) wig.
Proof.
  unfold wiggle. assert (H : 0 <= Z.land f 3 < 4).
  { change 3 with (2 ^ 2 - 1). rewrite land_ones_mod by lia. apply Z.mod_pos_bound. lia. }
  assert (Hc : Z.land f 3 = 0 \/ Z.land f 3 = 1 \/ Z.land f 3 = 2 \/ Z.land f 3 = 3) by lia.
  destruct Hc as [-> | [-> | [-> | ->]]]; cbn; tauto.
Qed.

Lemma wiggle_packet clock f :
  core_view (mouse_packet clock 0 (wiggle f).1 (wiggle f).2) = (wiggle f, 0) /\
  field (mouse_packet clock 0 (wiggle f).1 (wiggle f).2) 24 1 = if clock then 1 else 0.
Proof.
  pose proof (wiggle_cases f) as Hw. destruct (wiggle f) as [dx dy].
  assert (Hr : -128 <= dx < 128 /\ -128 <= dy < 128).
  { cbn in Hw. destruct_or?; simplify_eq; try lia. all: by destruct Hw. }
  destruct (packet_fields clock 0 dx dy) as (H1 & H2 & H3 & H4); [lia..|].
  unfold core_view. cbn [fst snd]. by rewrite H1, H2, H3, H4.
Qed.

Lemma wiggle_drift f :
  (wiggle f).1 + (wiggle (f + 1)).1 + (wiggle (f + 2)).1 + (wiggle (f + 3)).1 = 0 /\
  (wiggle f).2 + (wiggle (f + 1)).2 + (wiggle (f + 2)).2 + (wiggle (f + 3)).2 = 0.
Proof.
  unfold wiggle. change 3 with (2 ^ 2 - 1) at 1 2 3 5 6 7 8 10. rewrite !land_ones_mod by lia.
  change (2 ^ 2) with 4.
  assert (Hc : exists k r, f = 4 * k + r /\ (r = 0 \/ r = 1 \/ r = 2 \/ r = 3)).
  { exists (f / 4), (f mod 4). split; [apply Z.div_mod; lia|].
    pose proof (Z.mod_pos_bound f 4). lia. }
  assert (Hm : forall k r, (4 * k + r) `mod` 4 = r `mod` 4).
  { intros k r. rewrite Z.add_comm, Z.mul_comm. apply Z.mod_add. lia. }
  destruct Hc as (k & r & -> & Hr). rewrite <- !Z.add_assoc, !Hm.
  destruct Hr as [-> | [-> | [-> | ->]]]; done.
Qed.

(** The synthetic movement.  However often the loop passes in a frame, each
    frame of the range gives one packet; the core reads from it the step of that
    frame, which is never zero, and no button; the strobe alternates, so that the
    core sees every packet; and any four successive frames cancel out. *)
Theorem headless_wiggle (o : Options) (frames : list Z) (m : Mouse) :
  0 <= mouse_inject_from o ->
  Forall (fun f => mouse_inject_from o <= f <= mouse_inject_to o) frames ->
  let ps := headless_packets o frames m in
  map core_view ps = map (fun f => (wiggle f, 0)) (distinct (last_inject_frame m) frames) /\
  map (fun p => field p 24 1) ps = alternating (mouse_clock m) (length ps) /\
  (forall f, wiggle f <> (0, 0)) /\
  (forall f, (wiggle f).1 + (wiggle (f + 1)).1 + (wiggle (f + 2)).1 + (wiggle (f + 3)).1 = 0 /\
             (wiggle f).2 + (wiggle (f + 1)).2 + (wiggle (f + 2)).2 + (wiggle (f + 3)).2 = 0).
Proof.
  intros H0 Hf. cbn zeta.
  cut (map core_view (headless_packets o frames m)
         = map (fun f => (wiggle f, 0)) (distinct (last_inject_frame m) frames) /\
       map (fun p => field p 24 1) (headless_packets o frames m)
         = alternating (mouse_clock m) (length (headless_packets o frames m))).
  { intros [H1 H2]. split_and!; [done|done| |exact wiggle_drift].
    intros f Hw. pose proof (wiggle_cases f) as Hc. rewrite Hw in Hc. cbn in Hc. intuition done. }
  revert m. induction Hf as [|f frames [Hf1 Hf2] _ IH]; intros m; [done|].
  cbn [headless_packets distinct]. unfold headless_mouse at 1 2 3.
  destruct (Z.leb_spec 0 (mouse_inject_from o)); [|lia].
  destruct (Z.leb_spec (mouse_inject_from o) f); [|lia].
  destruct (Z.leb_spec f (mouse_inject_to o)); [|lia].
  destruct (Z.eqb_spec f (last_inject_frame m)) as [->|Hne]; cbn [negb andb]; [apply IH|].
  cbn [map length alternating].
  destruct (wiggle_packet (mouse_clock m) f) as [W1 W2].
  change (mouse_clock (m <| last_inject_frame := f |>)) with (mouse_clock m). rewrite W1, W2.
  destruct (IH (m <| last_inject_frame := f |> <| mouse_clock ::= negb |>)) as [I1 I2].
  change (mouse_clock (m <| last_inject_frame := f |> <| mouse_clock ::= negb |>))
    with (negb (mouse_clock m)) in I2.
  change (last_inject_frame (m <| last_inject_frame := f |> <| mouse_clock ::= negb |>)) with f in I1.
  by rewrite I1, I2.
Qed.

Lemma headless_wiggle_witness :
  let o := default_options <| mouse_inject_from := 2 |> in
  map core_view (headless_packets o [4; 4; 5; 6; 6] Mouse_zero) =
    [((2, 0), 0); ((0, 2), 0); ((-2, 0), 0)].
Proof.
  intros o. apply (headless_wiggle o [4; 4; 5; 6; 6] Mouse_zero); [done|].
  repeat constructor; done.
Defined.
