(* ===== verification/Main.v ===== *)
(** * The main program (sim_main.cpp, [main] and [save_screenshot])

    Startup attaches the components, mounts the disks and queues the ROM and the
    floppies; the loop without a window takes the screenshots asked for, stops at
    the frame asked for and runs a batch of [verilate] calls per pass; the loop
    with the window does the same once per frame of the user interface, after the
    user's actions of that frame, which are the record [Gui].

    [malloc] is the allocator; the PNG writer is third-party code, and a
    screenshot is what is handed to it. *)

From stdpp Require Import pretty.
From S2P Require Import Prelude Clock Audio Console BlockDevice Bus SoftUart.
From S2P Require Import Terminal Video Input Trace Options Harness Mouse.

#[local] Open Scope Z_scope.

(** ** Screenshots *)

(** What is handed to [stbi_write_png]. *)
Record Png := MkPng { png_frame : Z; png_name : cstr; png_width : Z; png_height : Z; png_rgb : list Z }.

Definition pad_zeros (n : nat) (s : cstr) : cstr := repeat (Ascii.ascii_of_nat 48) (n - length s) ++ s.

(** [%04d] *)
Definition fmt_04d (i : Z) : cstr :=
  if i <? 0 then lit "-" ++ pad_zeros 3 (lit (pretty (- i))) else pad_zeros 4 (lit (pretty i)).

Definition screenshot_name (frame : Z) : cstr := lit "screenshot_frame_" ++ fmt_04d frame ++ lit ".png".

(** A [for] loop whose body can fault. *)
Definition for_each {A} (f : nat -> A -> option A) (l : list nat) (a : A) : option A :=
  fold_left (fun acc i => acc ≫= f i) l (Some a).

(** The bytes of a pixel, red first. *)
Definition rgb_pixel (pixel : Z) : list Z :=
  [Z.land pixel 0xFF; Z.land (Z.shiftr pixel 8) 0xFF; Z.land (Z.shiftr pixel 16) 0xFF].

(** A write out of the allocated bytes is a fault. *)
Definition put_bytes (dst : nat) (bytes : list Z) (rgb : list Z) : option (list Z) :=
  if (dst + length bytes <=? length rgb)%nat
  then Some (take dst rgb ++ bytes ++ drop (dst + length bytes) rgb) else None.

Definition copy_pixel (v : SimVideo) (y x : nat) (rgb : list Z) : option (list Z) :=
  let i := (y * Z.to_nat (output_width v) + x)%nat in
  pixel ← output_ptr v !! i;
  put_bytes (i * 3) (rgb_pixel pixel) rgb.

Definition copy_frame (v : SimVideo) (rgb : list Z) : option (list Z) :=
  for_each (fun y => for_each (copy_pixel v y) (seq 0 (Z.to_nat (output_width v))))
    (seq 0 (Z.to_nat (output_height v))) rgb.

Section Program.

Context {C : Type} `{Core C}.
Context (raw : Z -> list Z -> cstr * Z) (fs : cstr -> option (list Z)).
Context (latency : Z) (ignore_writes : bool).
Context (malloc : nat -> option (list Z)).          (* the contents of the new block *)
Context (mount : cstr -> option (list Z * bool)).   (* the disk images, and whether they are writable *)

#[local] Abbreviation Sim := (@Sim C).

(** Without a buffer, or without memory, there is only a message. *)
Definition save_screenshot (frame : Z) (v : SimVideo) : option (option Png) :=
  if is_empty (output_ptr v) then Some None
  else match malloc (Z.to_nat (output_width v * output_height v * 3)) with
       | None => Some None
       | Some rgb =>
           rgb ← copy_frame v rgb;
           Some (Some (MkPng frame (screenshot_name frame) (output_width v) (output_height v) rgb))
       end.

(** ** The state of the program *)

Record Host := MkHost {
  sim : Sim;
  mouse : Mouse;
  run_enable : bool;
  batchSize : Z;
  single_step : bool;
  multi_step : bool;
  multi_step_amount : Z;
  shots : list Z;             (* [screenshot_frames], those not taken yet *)
  pngs : list Png }.

#[export] Instance eta_Host : Eta Host := fun h =>
  MkHost (sim h) (mouse h) (run_enable h) (batchSize h) (single_step h) (multi_step h)
    (multi_step_amount h) (shots h) (pngs h).

(** ** Startup *)

(** The globals, and the core as it is constructed; [creatable]: the trace file can
    be created. *)
Definition Sim_globals (creatable : bool) (c : C) (con : Console) (o : Options) : Sim :=
  MkSim c 0 (SimClock_new 1) false false false 0 false (-1) (-1) 0 false con
    (MkSimBus 0 0 0 0 0 0 None 0 0 [] (MkChunk [] (-1) false) con)
    (SimBlockDevice_new
      (MkBlkDev (MkBlkPins (attach [0; 0; 0]) 0 0 0 0 0 (attach [0; 0; 0]) 0 0 None 0) 0
         (replicate kVDNUM 0) false false 0 (-1) [] (replicate kVDNUM FStream_closed)))
    (SimInput_new 13) (SimAudio_new 32000000 false) (SimVideo_new 640 480 0) Terminal_new
    ((Tracer_new con) <| trace_from_frame := opt_trace_from o |> <| trace_to_frame := opt_trace_to o |>
       <| trace_creatable := creatable |>).

Definition mount_file (file : cstr) (index : nat) (d : BlkDev) : BlkDev :=
  if is_empty file then d else MountDisk (mount file) index d.

(** The pointers of the three drives, which the constructor has left null. *)
Definition attach_drives (x : CoreOut) (d : BlkDev) : BlkDev :=
  d <| pins ::= (fun p =>
    p <| sd_lba := attach (co_sd_lba x) |> <| sd_buff_din := attach (co_sd_buff_din x) |>
      <| sd_rd := co_sd_rd x |> <| sd_wr := co_sd_wr x |>) |>.

(** The two hard disks and the CD-ROM. *)
Definition mount_disks (o : Options) (d : BlkDev) : BlkDev :=
  let d := fold_left (fun d i => mount_file (nth i (scsi_disk_files o) []) i d) (seq 0 2) d in
  mount_file (cdrom_file o) 2 d.

(** The SDL scancodes of the keys. *)
Definition key_codes : list Z := [79; 80; 81; 82; 4; 5; 27; 28; 15; 8; 31; 30; 16].

Definition map_keys (i : SimInput) : SimInput :=
  fold_left (fun i k => SetMapping k (nth k key_codes 0) i) (seq 0 13) i.

Definition queue_floppy (file : cstr) (index : Z) (b : SimBus) : SimBus :=
  if is_empty file then b else QueueDownload3 file index true b.

Definition queue_files (o : Options) (b : SimBus) : SimBus :=
  let rom := if is_empty (rom_file_override o) then lit "../releases/boot0.rom" else rom_file_override o in
  let b := QueueDownload3 rom 0 true b in
  let b := queue_floppy (nth 0 (floppy_disk_files o) []) 1 b in
  queue_floppy (nth 1 (floppy_disk_files o) []) 2 b.

(** The 32-bit word [k] of a block of bytes. *)
Definition word_at (bytes : list Z) (k : nat) : Z :=
  foldr (fun i w => default 0 (bytes !! (4 * k + i)%nat) + 256 * w) 0 (seq 0 4).

(** [None]: there is no memory for the frame buffer and [main] returns 1. *)
Definition setup_video (o : Options) (v : SimVideo) : option SimVideo :=
  let size := Z.to_nat (output_width v * output_height v) in
  if headless o then
    bytes ← malloc (size * 4);
    Some (v <| output_ptr := map (word_at bytes) (seq 0 size) |>)
  else Some (SimVideo_Initialise v).

(** An enabled trace whose file cannot be created is disabled. *)
Definition startup_trace (t : Tracer) : Tracer :=
  if cpu_trace_enable t then
    let t := t <| cpu_trace_file := if trace_creatable t then Some [] else None |> in
    match cpu_trace_file t with Some _ => t | None => t <| cpu_trace_enable := false |> end
  else t.

Definition startup (o : Options) (s : Sim) : option Sim :=
  let s := s <| blockdevice ::= attach_drives (out (top s)) |> in
  let s := s <| blockdevice ::= mount_disks o |> in
  let s := if headless o then s else s <| audio ::= SimAudio_Initialise |> in
  let s := s <| input ::= map_keys |> in
  v ← setup_video o (video s);
  let s := s <| video := v |> in
  let s := s <| tracer ::= startup_trace |> in
  let s := s <| bus ::= queue_files o |> in
  let s := s <| clk_pin := false |> <| reset := true |> in
  Some (top_eval o s).

Definition Host_start (o : Options) (s : Sim) : Host :=
  MkHost s Mouse_zero true 150000 false false 1024 (screenshot_frames o) [].

(** ** The loops *)

(** How a pass of a loop ends. *)
Inductive Pass := Looping (h : Host) | Stopped (h : Host) | Exited.

(** [n] calls of [verilate], with the host clock at each. *)
Definition calls (o : Options) (n : nat) (now : nat -> Z) (h : Host) : option Pass :=
  r ← verilate_all raw fs latency ignore_writes o (map now (seq 0 n)) (sim h);
  Some match r with Running s => Looping (h <| sim := s |>) | Finished => Exited end.

(** [std::find] and [erase]. *)
Fixpoint erase_shot (f : Z) (l : list Z) : list Z :=
  match l with x :: l => if x =? f then l else x :: erase_shot f l | [] => [] end.

Definition is_shot (f : Z) (l : list Z) : bool := existsb (fun x => x =? f) l.

Definition screenshot_phase (o : Options) (h : Host) : option Host :=
  let frame := count_frame (video (sim h)) in
  if screenshot_mode o && is_shot frame (shots h) then
    png ← save_screenshot frame (video (sim h));
    Some (h <| pngs ::= (fun l => l ++ option_list png) |> <| shots ::= erase_shot frame |>)
  else Some h.

Definition stop_now (o : Options) (h : Host) : bool :=
  stop_at_frame_enabled o && (stop_at_frame o <=? count_frame (video (sim h))).

(** A pass of the loop without a window. *)
Definition headless_pass (o : Options) (now : nat -> Z) (h : Host) : option Pass :=
  h ← screenshot_phase o h;
  if stop_now o h then Some (Stopped h)
  else
    let '(packet, m) := headless_mouse o (count_frame (video (sim h))) (mouse h) in
    let h := h <| mouse := m |> in
    let h := match packet with
             | Some p => h <| sim ::= (fun s => s <| ps2_mouse := p |>) |>
             | None => h
             end in
    if run_enable h then calls o (Z.to_nat (batchSize h)) now h else Some (Looping h).

Fixpoint headless_main (o : Options) (nows : list (nat -> Z)) (h : Host) : option Pass :=
  match nows with
  | [] => Some (Looping h)
  | now :: nows =>
      p ← headless_pass o now h;
      match p with Looping h => headless_main o nows h | p => Some p end
  end.

(** ** The loop with the window *)

(** The user's actions of a frame; an optional value is that of a control that is
    set.  [g_scc] is the registers WR3, WR4, WR5, WR9 and WR14 of the core's SCC. *)
Record Gui := MkGui {
  g_events : list SdlEvent;
  g_keyboard : list Z;
  g_reset : bool; g_start : bool; g_stop : bool;
  g_run : option bool; g_batch : option Z;
  g_single : bool; g_multi : bool; g_multi_amount : option Z;
  g_trace : option bool;
  g_console : ConsoleUI;
  g_rotate : option Z; g_vflip : option bool; g_capture : bool;
  g_scc : Z * Z * Z * Z * Z;
  g_terminal : TerminalUI;
  g_rom : option cstr }.

(** The buttons and sliders of the control window. *)
Definition control_window (g : Gui) (h : Host) : Host :=
  let h := if g_reset g then h <| sim ::= resetSim |> else h in
  let h := if g_start g then h <| run_enable := true |> else h in
  let h := if g_stop g then h <| run_enable := false |> else h in
  let h := set_opt run_enable (g_run g) h in
  let h := set_opt batchSize (g_batch g) h in
  let h := h <| single_step := false |> in
  let h := if g_single g then h <| run_enable := false |> <| single_step := true |> else h in
  let h := h <| multi_step := false |> in
  let h := if g_multi g then h <| run_enable := false |> <| multi_step := true |> else h in
  let h := set_opt multi_step_amount (g_multi_amount g) h in
  match g_trace g with
  | Some b => h <| sim ::= (fun s => s <| tracer ::= (fun t => t <| cpu_trace_enable := b |>) |>) |>
  | None => h
  end.

(** The debug log, the video window, the serial terminal, the ROM dialog and the
    audio plot. *)
Definition windows (g : Gui) (running : bool) (s : Sim) : option Sim :=
  '(con, _, _) ← Draw (g_console g) (console s);
  let s := s <| console := con |> in
  let s := s <| video ::= (fun v => set_opt output_vflip (g_vflip g) (set_opt output_rotate (g_rotate g) v)) |> in
  let '(wr3, wr4, wr5, wr9, wr14) := g_scc g in
  let s := s <| serialTerminal ::= (fun t => (Terminal_Draw (g_terminal g) (UpdateSCCStatus wr3 wr4 wr5 wr9 wr14 t)).1) |> in
  let s := match g_rom g with Some f => s <| bus ::= QueueDownload3 f 0 true |> | None => s end in
  let x := out (top s) in
  Some (if running
        then s <| audio ::= SimAudio_CollectDebug (s16 (co_audio_l x)) (s16 (co_audio_r x)) |> else s).

(** The calls at the end of a frame. *)
Definition run_phase (o : Options) (now : nat -> Z) (h : Host) : option Pass :=
  if run_enable h then calls o (Z.to_nat (batchSize h)) now h
  else
    p ← (if single_step h then calls o 1 now h else Some (Looping h));
    match p with
    | Looping h =>
        if multi_step h
        then calls o (Z.to_nat (multi_step_amount h)) (fun i => now (i + if single_step h then 1 else 0)%nat) h
        else Some (Looping h)
    | p => Some p
    end.

(** A frame; the loop ends after it when an event has asked so. *)
Definition gui_pass (o : Options) (now : nat -> Z) (g : Gui) (h : Host) : option Pass :=
  let '(m, quit) := poll_events (g_events g) (mouse h) in
  let h := h <| mouse := m |> in
  i ← Read (g_keyboard g) (input (sim h));
  let h := h <| sim ::= (fun s => s <| input := i |>) |> in
  let h := control_window g h in
  s ← windows g (run_enable h) (sim h);
  let h := h <| sim := s |> in
  let h := if g_capture g then h <| mouse ::= (fun m => m <| mouse_captured := true |>) |> else h in
  let h := h <| sim ::= (fun s => s <| video ::= SimVideo_UpdateTexture |>) |> in
  h ← screenshot_phase o h;
  if stop_now o h then Some (Stopped h)
  else
    let '(p, m) := gui_mouse o (count_frame (video (sim h))) (inputs (input (sim h))) (mouse h) in
    let h := h <| mouse := m |> <| sim ::= (fun s => s <| ps2_mouse := p |>) |> in
    r ← run_phase o now h;
    Some match r with Looping h => if quit then Stopped h else Looping h | r => r end.

End Program.

(** ** Screenshots are exact *)

Lemma for_each_ok {A} (P : nat -> A -> Prop) f len start (a : A) :
  (forall i a, (start <= i < start + len)%nat -> P i a -> exists a', f i a = Some a' /\ P (S i) a') ->
  P start a -> exists a', for_each f (seq start len) a = Some a' /\ P (start + len)%nat a'.
Proof.
  unfold for_each. revert start a. induction len as [|len IH]; intros start a Hf Ha.
  { exists a. by rewrite Nat.add_0_r. }
  cbn [seq fold_left mbind option_bind]. destruct (Hf start a) as (a' & -> & Ha'); [lia|done|].
  rewrite Nat.add_succ_r. apply (IH (S start)); [|done]. intros i b Hi. apply Hf. lia.
Qed.

(** The first [n] pixels have been copied. *)
Definition copied (v : SimVideo) (n : nat) (rgb : list Z) : Prop :=
  length rgb = (length (output_ptr v) * 3)%nat /\
  take (n * 3) rgb = flat_map rgb_pixel (take n (output_ptr v)).

Lemma copy_pixel_ok v y x rgb :
  (y * Z.to_nat (output_width v) + x < length (output_ptr v))%nat ->
  copied v (y * Z.to_nat (output_width v) + x) rgb ->
  exists rgb', copy_pixel v y x rgb = Some rgb' /\ copied v (S (y * Z.to_nat (output_width v) + x)) rgb'.
Proof.
  unfold copy_pixel. set (i := (y * Z.to_nat (output_width v) + x)%nat). intros Hi [Hl Ht].
  destruct (lookup_lt_is_Some_2 (output_ptr v) i Hi) as [p Hp]. rewrite Hp. cbn [mbind option_bind].
  unfold put_bytes. change (length (rgb_pixel p)) with 3%nat.
  destruct (Nat.leb_spec (i * 3 + 3) (length rgb)); [|lia].
  eexists. split; [done|]. split.
  - rewrite !length_app, length_take, length_drop. cbn. lia.
  - rewrite (take_S_r _ _ p Hp), flat_map_app. cbn [flat_map]. rewrite app_nil_r, <- Ht, app_assoc.
    rewrite take_app_length'; [done|]. rewrite length_app, length_take. cbn. lia.
Qed.

Lemma copy_frame_ok v rgb :
  video_ok v -> length rgb = (length (output_ptr v) * 3)%nat ->
  copy_frame v rgb = Some (flat_map rgb_pixel (output_ptr v)).
Proof.
  intros (Hw & Hh & _ & Hlen) Hl. unfold copy_frame.
  set (w := Z.to_nat (output_width v)) in *. set (h := Z.to_nat (output_height v)).
  assert (Hsize : length (output_ptr v) = (h * w)%nat).
  { rewrite Hlen, Z2Nat.inj_mul by lia. unfold h, w. lia. }
  destruct (for_each_ok (fun y => copied v (y * w))
    (fun y => for_each (copy_pixel v y) (seq 0 w)) h 0 rgb) as (rgb' & -> & Hl' & Ht').
  - intros y a Hy Ha.
    destruct (for_each_ok (fun x => copied v (y * w + x)) (copy_pixel v y) w 0 a) as (a' & Ha' & HP).
    + intros x b Hx Hb. rewrite Nat.add_succ_r. apply copy_pixel_ok; [|exact Hb].
      change (Z.to_nat (output_width v)) with w. nia.
    + by rewrite Nat.add_0_r.
    + exists a'. split; [done|]. rewrite Nat.add_0_l in HP. by replace (S y * w)%nat with (y * w + w)%nat by lia.
  - split; [done|]. done.
  - cbn [Nat.add] in *. rewrite <- Hsize in *. rewrite take_ge in Ht' by lia.
    by rewrite firstn_all in Ht'; rewrite Ht'.
Qed.

Lemma byte_field p n : 0 <= n -> Z.land (Z.shiftr p n) 0xFF = (p / 2 ^ n) `mod` 256.
Proof. intros Hn. by rewrite land_255, Z.shiftr_div_pow2. Qed.

(** The pixel that the core's pins make, read back. *)
Lemma rgb_pixel_core x :
  0 <= co_vga_r x < 256 -> 0 <= co_vga_g x < 256 -> 0 <= co_vga_b x < 256 ->
  rgb_pixel (u32 (core_colour x)) = [co_vga_r x; co_vga_g x; co_vga_b x].
Proof.
  intros Hr Hg Hb. unfold core_colour.
  rewrite (lor_shiftl_add (co_vga_g x) _ 8) by lia. rewrite (lor_shiftl_add (co_vga_b x) _ 16) by lia.
  change 0xFF000000 with (Z.shiftl 255 24). rewrite lor_shiftl_add by lia.
  unfold rgb_pixel. rewrite !byte_field, land_255 by lia. rewrite uwrap_small by lia.
  f_equal; [|f_equal; [|f_equal]]; change (2 ^ 8) with 256; change (2 ^ 16) with 65536;
    change (2 ^ 24) with 16777216; div_lia.
Qed.

Lemma save_screenshot_ok malloc frame v block :
  video_ok v ->
  malloc (Z.to_nat (output_width v * output_height v * 3)) = Some block ->
  length block = Z.to_nat (output_width v * output_height v * 3) ->
  save_screenshot malloc frame v =
    Some (Some (MkPng frame (screenshot_name frame) (output_width v) (output_height v)
                  (flat_map rgb_pixel (output_ptr v)))).
Proof.
  intros Hv Hm Hl. unfold save_screenshot.
  assert (Hlen : length (output_ptr v) = Z.to_nat (output_width v * output_height v)) by apply Hv.
  assert (Hpos : (0 < length (output_ptr v))%nat) by (rewrite Hlen; destruct Hv as (? & ? & _); nia).
  destruct (is_empty (output_ptr v)) eqn:He; [by destruct (output_ptr v); cbn in *; lia|].
  rewrite Hm, copy_frame_ok; [done|done|]. rewrite Hl, Hlen. destruct Hv as (? & ? & _). lia.
Qed.

(** A screenshot is the picture.  When there is memory for it, the bytes
    handed to the PNG writer are the pixels of the frame buffer in order, three
    bytes each, for any size of picture, and no byte is read or written out of
    the buffers; and the three bytes of a pixel are the red, green and blue pins
    of the core when the pixel was drawn. *)
Theorem screenshot_exact (malloc : nat -> option (list Z)) (frame : Z) (v : SimVideo) (block : list Z) :
  video_ok v ->
  malloc (Z.to_nat (output_width v * output_height v * 3)) = Some block ->
  length block = Z.to_nat (output_width v * output_height v * 3) ->
  save_screenshot malloc frame v =
    Some (Some (MkPng frame (screenshot_name frame) (output_width v) (output_height v)
                  (flat_map rgb_pixel (output_ptr v)))) /\
  forall x, 0 <= co_vga_r x < 256 -> 0 <= co_vga_g x < 256 -> 0 <= co_vga_b x < 256 ->
    rgb_pixel (u32 (core_colour x)) = [co_vga_r x; co_vga_g x; co_vga_b x].
Proof.
  intros Hv Hm Hl. split; [by apply (save_screenshot_ok _ _ _ block)|exact rgb_pixel_core].
Qed.

Definition two_pixels : SimVideo :=
  (SimVideo_new 2 1 0) <| output_ptr := [0xFF332211; 0xFF665544] |>.

Lemma screenshot_exact_witness :
  save_screenshot (fun n => Some (repeat 0 n)) 7 two_pixels =
    Some (Some (MkPng 7 (lit "screenshot_frame_0007.png") 2 1 [0x11; 0x22; 0x33; 0x44; 0x55; 0x66])).
Proof.
  apply (screenshot_exact (fun n => Some (repeat 0 n)) 7 two_pixels (repeat 0 6)); [|done..].
  by repeat split.
Defined.

(** ** Startup *)

Definition malloc_ok (malloc : nat -> option (list Z)) : Prop :=
  forall n, exists block, malloc n = Some block /\ length block = n.

Section Loops.

Context {C : Type} `{Hcore : Core C} {Hwidths : CoreWidths C}.
Context (raw : Z -> list Z -> cstr * Z) (fs : cstr -> option (list Z)).
Context (latency : Z) (ignore_writes : bool).
Context (malloc : nat -> option (list Z)) (mount : cstr -> option (list Z * bool)).

Implicit Types (h : Host (C := C)) (s : Sim (C := C)).

#[local] Abbreviation startup := (startup malloc mount).
#[local] Abbreviation headless_pass := (headless_pass raw fs latency ignore_writes malloc).
#[local] Abbreviation headless_main := (headless_main raw fs latency ignore_writes malloc).
#[local] Abbreviation calls := (calls raw fs latency ignore_writes).

Lemma MountDisk_keeps contents i d :
  pins (MountDisk contents i d) = pins d /\ current_disk (MountDisk contents i d) = current_disk d.
Proof.
  unfold MountDisk. cbn zeta. unfold set_disk. by repeat case_match.
Qed.

Lemma mount_disks_keeps o d :
  pins (mount_disks mount o d) = pins d /\ current_disk (mount_disks mount o d) = current_disk d.
Proof.
  assert (Hf : forall f i d, pins (mount_file mount f i d) = pins d /\
                             current_disk (mount_file mount f i d) = current_disk d).
  { intros f i d'. unfold mount_file. destruct (is_empty f); [done|]. apply MountDisk_keeps. }
  unfold mount_disks. cbn [seq fold_left]. cbn zeta.
  destruct (Hf (cdrom_file o) 2%nat (mount_file mount (nth 1 (scsi_disk_files o) []) 1
    (mount_file mount (nth 0 (scsi_disk_files o) []) 0 d))) as [-> ->].
  destruct (Hf (nth 1 (scsi_disk_files o) []) 1%nat (mount_file mount (nth 0 (scsi_disk_files o) []) 0 d))
    as [-> ->]. apply Hf.
Qed.

(** The files of a startup, in the order in which they are downloaded. *)
Definition boot_files (o : Options) : list SimBus_DownloadChunk :=
  MkChunk (if is_empty (rom_file_override o) then lit "../releases/boot0.rom" else rom_file_override o) 0 true
  :: (if is_empty (nth 0 (floppy_disk_files o) []) then []
      else [MkChunk (nth 0 (floppy_disk_files o) []) 1 true])
  ++ (if is_empty (nth 1 (floppy_disk_files o) []) then []
      else [MkChunk (nth 1 (floppy_disk_files o) []) 2 true]).

Lemma queue_files_ok o b :
  downloadQueue b = [] -> downloadQueue (queue_files o b) = boot_files o /\
  bus_log (queue_files o b) = bus_log b /\ ioctl_file (queue_files o b) = ioctl_file b /\
  ioctl_next_addr (queue_files o b) = ioctl_next_addr b.
Proof.
  intros Hb. unfold queue_files, queue_floppy, boot_files, QueueDownload3. cbn zeta.
  destruct (is_empty (nth 0 _ _)), (is_empty (nth 1 _ _)); cbn; by rewrite Hb.
Qed.

Lemma setup_video_ok o v :
  malloc_ok malloc -> 1 <= output_width v -> 1 <= output_height v ->
  output_width v * output_height v < 2 ^ 31 ->
  exists v', setup_video malloc o v = Some v' /\ video_ok v' /\ count_frame v' = count_frame v /\
    forall k, counters k v -> counters k v'.
Proof.
  intros Hm Hw Hh Hs. unfold setup_video. cbn zeta. destruct (headless o).
  - destruct (Hm (Z.to_nat (output_width v * output_height v) * 4)%nat) as (block & -> & _).
    cbn [mbind option_bind]. eexists. split; [done|]. split; [|by split].
    split_and!; try done. cbn. by rewrite length_map, length_seq.
  - eexists. split; [done|]. split; [|by split]. split_and!; try done. cbn. apply length_replicate.
Qed.

(** What startup does to a state in which no trace is enabled. *)
Definition set_start (d : BlkDev) (a : SimAudio) (i : SimInput) (v : SimVideo) (b : SimBus) s : Sim :=
  MkSim (top s) (main_time s) (clk_sys s) true (nmi_pulse s) false (ps2_mouse s) (serial_rxd s)
    (warm_reset_start s) (nmi_start s) (last_baud_div s) (last_download s) (console s) b d i a v
    (serialTerminal s) (tracer s).

Lemma startup_eq o s :
  cpu_trace_enable (tracer s) = false ->
  exists a, startup o s = v ← setup_video malloc o (video s);
    Some (top_eval o (set_start (mount_disks mount o (attach_drives (out (top s)) (blockdevice s))) a (map_keys (input s)) v
                        (queue_files o (bus s)) s)).
Proof.
  intros Ht. destruct s as [t mt cs re nm cp pm rx wr ns bd ld c b d i a v ter tr]. cbn in Ht.
  assert (Hs : startup_trace tr = tr) by (unfold startup_trace; by rewrite Ht).
  exists (if headless o then a else SimAudio_Initialise a).
  unfold Main.startup, set_start. cbn [video blockdevice input bus console serialTerminal tracer top main_time
    clk_sys nmi_pulse ps2_mouse serial_rxd warm_reset_start nmi_start last_baud_div last_download].
  destruct (headless o); cbn [video modify_field];
    (destruct (setup_video malloc o v) as [v'|]; [|done]); cbn [mbind option_bind];
    match goal with |- _ = Some (top_eval o ?x) =>
      transitivity (Some (top_eval o (x <| tracer := startup_trace tr |>))) end;
    [reflexivity|by rewrite Hs|reflexivity|by rewrite Hs].
Qed.

(** Startup from the globals: the harness is in its invariant, when the sizes of
    the queued files fit the address of the bus. *)
Lemma startup_run o creatable (c : C) con :
  malloc_ok malloc -> log_ok con ->
  foldr (fun chunk n => chunk_rest fs chunk + n) 0 (boot_files o) <= INT_MAX ->
  exists s, startup o (Sim_globals creatable c con o) = Some s /\ sim_ok fs 0 s /\ high (clk_sys s) /\
    main_time s = 0 /\ reset s = true /\ count_frame (video s) = 0 /\
    ioctl_file (bus s) = None /\ downloadQueue (bus s) = boot_files o /\
    ioctl_wait (bus s) = co_ioctl_wait (out (top s)).
Proof.
  intros Hm Hlog Hsize.
  destruct (setup_video_ok o (SimVideo_new 640 480 0) Hm) as (v & Hv & Hok & Hc & Hk); [cbn; lia..|].
  destruct (startup_eq o (Sim_globals creatable c con o) eq_refl) as (a & ->).
  change (video (Sim_globals creatable c con o)) with (SimVideo_new 640 480 0). rewrite Hv.
  cbn [mbind option_bind]. eexists. split; [reflexivity|].
  destruct (mount_disks_keeps o (attach_drives (out (top (Sim_globals creatable c con o)))
    (blockdevice (Sim_globals creatable c con o)))) as [Hp Hd].
  destruct (queue_files_ok o (bus (Sim_globals creatable c con o)) eq_refl) as (Hq & _ & Hf & Hn).
  set (d := mount_disks mount o _) in *. set (b := queue_files o _) in *. clearbody d b.
  set (i := map_keys _). clearbody i.
  split; [|by split_and!]. split.
  - apply top_eval_ok. split; [right; by vm_compute|]. split_and!.
    + change (attached 3 d). unfold attached. rewrite Hp, Hd. split; [|cbn; lia].
      split; [|split; [apply sd_rd_width|apply sd_wr_width]].
      intros k Hlt. split; [apply attach_fits|apply attach_lookup]; apply sd_lba_width || apply sd_lba_range ||
        apply sd_din_width || done.
    + exact Hok.
    + apply Nat.leb_le. reflexivity.
    + cbn. lia.
    + exact Hlog.
  - split; [apply Hk; by vm_compute; repeat split|]. split; [done|]. split; [done|]. split; [done|].
    assert (Hr : bus_room fs b) by (apply bus_room_queue; [exact Hn|exact Hf|by rewrite Hq]). exact Hr.
Qed.

(** ** The boot *)


(** ** The loop without a window *)

Definition frame_of h : Z := count_frame (video (sim h)).

(** [verilate] does not read the options of the loop. *)
Lemma core_in_stop o b s : core_in (o <| stop_at_frame_enabled := b |>) s = core_in o s.
Proof. by destruct o. Qed.

Lemma top_eval_stop o b s : top_eval (o <| stop_at_frame_enabled := b |>) s = top_eval o s.
Proof. unfold top_eval. by rewrite core_in_stop. Qed.

Lemma reset_phase_stop o b s : reset_phase (o <| stop_at_frame_enabled := b |>) s = reset_phase o s.
Proof. by destruct o. Qed.

Lemma nmi_phase_stop o b s : nmi_phase (o <| stop_at_frame_enabled := b |>) s = nmi_phase o s.
Proof. by destruct o. Qed.

Lemma rising_phase_stop o b s : rising_phase (o <| stop_at_frame_enabled := b |>) s = rising_phase o s.
Proof.
  unfold rising_phase.
  change (trace_start (o <| stop_at_frame_enabled := b |>)) with (trace_start o). done.
Qed.

Lemma verilate_stop o b now s :
  verilate raw fs latency ignore_writes (o <| stop_at_frame_enabled := b |>) now s =
  verilate raw fs latency ignore_writes o now s.
Proof.
  unfold verilate. rewrite reset_phase_stop, nmi_phase_stop. destruct (gotFinish (top s)); [done|].
  set (s1 := _ <| clk_pin := _ |>). clearbody s1. unfold edge_phase.
  assert (Hr : forall s2, (s3 ← video_phase now (audio_phase s2);
      s4 ← rising_phase (o <| stop_at_frame_enabled := b |>) s3; Some (Running s4)) =
    (s3 ← video_phase now (audio_phase s2); s4 ← rising_phase o s3; Some (Running s4))).
  { intros s2. destruct (video_phase now _) as [s3|]; [|done]. cbn [mbind option_bind].
    by rewrite rising_phase_stop. }
  destruct (negb _); [|cbn [mbind option_bind]; apply Hr].
  destruct (if SimClock_IsRising (clk_sys s1) && _ then _ else _) as [s2|]; [|done].
  cbn [mbind option_bind]. destruct (if clk (clk_sys s2) then _ else _) as [s3|]; [|done].
  cbn [mbind option_bind]. rewrite top_eval_stop. destruct (trace_step raw _) as [s4|]; [|done].
  cbn [mbind option_bind]. apply Hr.
Qed.

Lemma verilate_all_stop o b nows s :
  verilate_all raw fs latency ignore_writes (o <| stop_at_frame_enabled := b |>) nows s =
  verilate_all raw fs latency ignore_writes o nows s.
Proof.
  revert s. induction nows as [|now nows IH]; intros s; [done|]. cbn [verilate_all].
  rewrite verilate_stop. apply option_bind_ext_fun. intros [s'|]; [apply IH|reflexivity].
Qed.

(** The bytes handed to the writer fill the picture, under the name of its frame. *)
Definition png_ok (p : Png) : Prop :=
  png_name p = screenshot_name (png_frame p) /\
  length (png_rgb p) = Z.to_nat (png_width p * png_height p * 3).

(** A frame is a screenshot taken or one still to take. *)
Definition accounted h h' : Prop :=
  map png_frame (pngs h') ++ shots h' ≡ₚ map png_frame (pngs h) ++ shots h /\
  (Forall png_ok (pngs h) -> Forall png_ok (pngs h')).

#[local] Instance accounted_trans : Transitive accounted.
Proof. intros h1 h2 h3 [P1 F1] [P2 F2]. split; [by rewrite P2|auto]. Qed.

Lemma accounted_refl h : accounted h h.
Proof. done. Qed.

Lemma erase_first_perm f l : is_shot f l = true -> f :: erase_shot f l ≡ₚ l.
Proof.
  induction l as [|x l IH]; [done|]. cbn [is_shot existsb erase_shot].
  destruct (Z.eqb_spec x f) as [->|Hne]; [done|]. cbn [orb]. intros Hl.
  rewrite Permutation_swap. by rewrite IH.
Qed.

Lemma flat_map_rgb_length l : length (flat_map rgb_pixel l) = (length l * 3)%nat.
Proof. induction l as [|p l IH]; [done|]. cbn. rewrite IH. lia. Qed.

Lemma screenshot_phase_ok o h :
  malloc_ok malloc -> parts_ok (sim h) ->
  exists h', screenshot_phase malloc o h = Some h' /\ accounted h h' /\
    sim h' = sim h /\ mouse h' = mouse h /\ batchSize h' = batchSize h.
Proof.
  intros Hm Hok. unfold screenshot_phase. cbn zeta.
  destruct (screenshot_mode o); cbn [andb]; [|by exists h].
  destruct (is_shot _ _) eqn:Hs; [|by exists h].
  destruct Hok as (_ & _ & Hv & _).
  destruct (Hm (Z.to_nat (output_width (video (sim h)) * output_height (video (sim h)) * 3))) as (block & Hb & Hl).
  rewrite (save_screenshot_ok malloc _ _ block) by done. cbn [mbind option_bind].
  eexists. split; [done|]. split; [|done]. split.
  - cbn. rewrite map_app, <- app_assoc. cbn. by rewrite (erase_first_perm _ _ Hs).
  - intros Hf. cbn. apply Forall_app. split; [done|]. constructor; [|constructor]. split; [done|].
    cbn. destruct Hv as (Hw & Hh & _ & Hlen). rewrite flat_map_rgb_length, Hlen. lia.
Qed.

Lemma calls_ok k o n now h : sim_ok fs k (sim h) -> k + Z.of_nat n <= INT_MAX ->
  exists p, calls o n now h = Some p /\
  match p with
  | Looping h' => sim_ok fs (k + Z.of_nat n) (sim h') /\ accounted h h' /\ batchSize h' = batchSize h
  | Stopped _ => False
  | Exited => True
  end.
Proof.
  intros Hok Hroom. unfold Main.calls. assert (Hl : length (map now (seq 0 n)) = n) by (by rewrite length_map, length_seq).
  destruct (run_ok raw fs latency ignore_writes o k (map now (seq 0 n)) (sim h) Hok) as (r & -> & Hr); [by rewrite Hl|].
  cbn [mbind option_bind]. eexists. split; [done|]. rewrite Hl in Hr. by destruct r.
Qed.

Lemma sim_ok_le k k' s : sim_ok fs k s -> k <= k' -> sim_ok fs k' s.
Proof.
  intros [Hp (C1 & C2 & C3 & C4 & C5)] Hle. split; [done|].
  split_and!; try done; try lia. by apply (counters_le k).
Qed.

(** The calls of a pass. *)
Definition pass_calls h : Z := Z.of_nat (Z.to_nat (batchSize h)).

(** A pass: what it leaves, and when it stops. *)
Lemma headless_pass_ok k o now h :
  malloc_ok malloc -> sim_ok fs k (sim h) -> k + pass_calls h <= INT_MAX ->
  exists p, headless_pass o now h = Some p /\
    match p with
    | Looping h' => sim_ok fs (k + pass_calls h) (sim h') /\ accounted h h' /\ batchSize h' = batchSize h
    | Stopped h' => screenshot_phase malloc o h = Some h' /\ sim_ok fs k (sim h') /\ accounted h h' /\
                    stop_now o h' = true
    | Exited => True
    end.
Proof.
  intros Hm Hok Hroom. unfold Main.headless_pass.
  destruct (screenshot_phase_ok o h Hm (proj1 Hok)) as (h1 & -> & Ha & Hs & _ & Hb). cbn [mbind option_bind].
  assert (Hok1 : sim_ok fs k (sim h1)) by by rewrite Hs.
  destruct (stop_now o h1) eqn:Hstop.
  { eexists. split; [done|]. done. }
  destruct (headless_mouse o (count_frame (video (sim h1))) (mouse h1)) as [packet m].
  set (h2 := match packet with Some p => _ | None => _ end).
  assert (Hok2 : sim_ok fs k (sim h2) /\ accounted h1 h2 /\ batchSize h2 = batchSize h1) by (by unfold h2; destruct packet).
  clearbody h2. destruct Hok2 as (Hok2 & Ha2 & Hb2). unfold pass_calls in *. rewrite <- Hb, <- Hb2 in *.
  destruct (run_enable h2).
  - destruct (calls_ok k o (Z.to_nat (batchSize h2)) now h2 Hok2 Hroom) as (p & -> & Hp). exists p. split; [done|].
    destruct p as [h3|h3|]; [|done|done]. destruct Hp as (Hp1 & Hp2 & Hp3). split_and!; [done| |done].
    by do 2 (etrans; [done|]).
  - exists (Looping h2). split_and!; [done| |by etrans|done]. apply (sim_ok_le k); [done|lia].
Qed.


Lemma pass_no_stop o now h h1 :
  screenshot_phase malloc o h = Some h1 -> frame_of h1 < stop_at_frame o ->
  headless_pass o now h = headless_pass (o <| stop_at_frame_enabled := false |>) now h.
Proof.
  intros Hs Hf. unfold Main.headless_pass.
  change (screenshot_phase malloc (o <| stop_at_frame_enabled := false |>) h) with (screenshot_phase malloc o h).
  rewrite Hs. cbn [mbind option_bind]. unfold stop_now.
  unfold frame_of in Hf. destruct (Z.leb_spec (stop_at_frame o) (count_frame (video (sim h1)))); [lia|].
  rewrite andb_false_r. change (stop_at_frame_enabled (o <| stop_at_frame_enabled := false |>)) with false.
  cbn [andb]. change (headless_mouse (o <| stop_at_frame_enabled := false |>)) with (headless_mouse o).
  destruct (headless_mouse o _ (mouse h1)) as [packet m]. case_match; [|done].
  unfold Main.calls. by rewrite verilate_all_stop.
Qed.

(** The run ends.  When the run without [--stop-at] comes to the frame asked
    for, the run with it stops, and at the first pass that finds the frame
    reached: up to it the two runs are the same, it takes the screenshot of the
    frame if one is asked for, and nothing is run after it. *)
Theorem headless_stops (k0 : Z) (o : Options) (nows : list (nat -> Z)) h h' (last : nat -> Z) :
  malloc_ok malloc -> sim_ok fs k0 (sim h) ->
  k0 + Z.of_nat (length nows * Z.to_nat (batchSize h)) <= INT_MAX -> stop_at_frame_enabled o = true ->
  let free := o <| stop_at_frame_enabled := false |> in
  headless_main free nows h = Some (Looping h') -> stop_at_frame o <= frame_of h' ->
  exists k hk hs, (k <= length nows)%nat /\
    headless_main free (take k nows) h = Some (Looping hk) /\ stop_at_frame o <= frame_of hk /\
    (forall j, (j < k)%nat -> exists hj, headless_main free (take j nows) h = Some (Looping hj) /\
       frame_of hj < stop_at_frame o) /\
    screenshot_phase malloc o hk = Some hs /\ sim hs = sim hk /\
    headless_main o (nows ++ [last]) h = Some (Stopped hs).
Proof.
  intros Hm Hok Hroom Hen free. revert k0 h Hok Hroom.
  induction nows as [|now nows IH]; intros k0 h Hok Hroom Hrun Hf;
    destruct (screenshot_phase_ok o h Hm (proj1 Hok)) as (h1 & Hs1 & _ & Hsim & _);
    assert (Hf1 : frame_of h1 = frame_of h) by (by unfold frame_of; rewrite Hsim).
  all: assert (Hstop : forall now, stop_at_frame o <= frame_of h -> headless_pass o now h = Some (Stopped h1)).
  1, 3: intros n Hle; unfold Main.headless_pass; rewrite Hs1; cbn [mbind option_bind]; unfold stop_now;
    rewrite Hen; fold (frame_of h1); rewrite Hf1; by destruct (Z.leb_spec (stop_at_frame o) (frame_of h)); [|lia].
  - cbn in Hrun. injection Hrun as ->. exists 0%nat, h', h1. cbn [app Main.headless_main take].
    rewrite Hstop by done. split_and!; try done; lia.
  - destruct (Z.leb_spec (stop_at_frame o) (frame_of h)) as [Hle|Hlt].
    + exists 0%nat, h, h1. cbn [app Main.headless_main take]. rewrite Hstop by done.
      split_and!; try done; cbn; lia.
    + cbn [app Main.headless_main length] in *. rewrite (pass_no_stop o now h h1) by (done || lia). fold free.
      destruct (headless_pass_ok k0 free now h Hm Hok) as (p & Hp & Hpok); [unfold pass_calls; lia|]. rewrite Hp in *.
      cbn [mbind option_bind] in *. destruct p as [h2|h2|]; [|done|done]. destruct Hpok as (Hok2 & _ & Hb2).
      unfold pass_calls in Hok2. rewrite <- Hb2 in Hok2, Hroom.
      destruct (IH _ h2 Hok2 ltac:(lia) Hrun Hf) as (k & hk & hs & Hk & Hrk & Hfk & Hj & Hsk & Hsim2 & Hmain).
      exists (S k), hk, hs. cbn [take Main.headless_main]. rewrite Hp. cbn [mbind option_bind].
      split_and!; try done; [lia|].
      intros [|j] Hlt2; [by exists h|]. destruct (Hj j) as (hj & Hrj & Hfj); [lia|]. exists hj. split; [|done].
      cbn [take Main.headless_main]. by rewrite Hp.
Qed.

(** ** The controls of the window *)

Lemma calls_add o n m now h :
  calls o (n + m) now h =
  p ← calls o n now h;
  match p with Looping h' => calls o m (fun i => now (n + i)%nat) h' | p => Some p end.
Proof.
  unfold Main.calls. rewrite seq_app, map_app, verilate_all_app. cbn [Nat.add].
  destruct (verilate_all raw fs latency ignore_writes o (map now (seq 0 n)) (sim h)) as [[s|]|]; [|done..].
  cbn [mbind option_bind]. change (sim (h <| sim := s |>)) with s.
  replace (map now (seq n m)) with (map (fun i => now (n + i)%nat) (seq 0 m)).
  - destruct (verilate_all raw fs latency ignore_writes o _ s) as [[s'|]|]; done.
  - assert (Hs : seq n m = map (Nat.add n) (seq 0 m)).
    { transitivity (seq (n + 0) m); [by rewrite Nat.add_0_r|symmetry; apply fmap_add_seq]. }
    by rewrite Hs, map_map.
Qed.

Lemma calls_ext o n now now' h : (forall i, now i = now' i) -> calls o n now h = calls o n now' h.
Proof. intros He. unfold Main.calls. by rewrite (map_ext now now' He). Qed.

Lemma calls_0 o now h : calls o 0 now h = Some (Looping h).
Proof. unfold Main.calls. cbn. by destruct h. Qed.

(** The number of calls that the state of the controls asks for. *)
Definition call_total h : nat :=
  if run_enable h then Z.to_nat (batchSize h)
  else ((if single_step h then 1 else 0) + (if multi_step h then Z.to_nat (multi_step_amount h) else 0))%nat.

Lemma control_window_eq g h :
  control_window g h =
  MkHost (let s := if g_reset g then resetSim (sim h) else sim h in
          match g_trace g with
          | Some b => s <| tracer ::= (fun t => t <| cpu_trace_enable := b |>) |>
          | None => s
          end)
    (mouse h)
    (if g_single g || g_multi g then false
     else default (negb (g_stop g) && (g_start g || run_enable h)) (g_run g))
    (default (batchSize h) (g_batch g)) (g_single g) (g_multi g)
    (default (multi_step_amount h) (g_multi_amount g)) (shots h) (pngs h).
Proof.
  destruct h as [s m run batch ss ms amount sh ps], g as [ev kb rs st sp rn bt sg mu ma tr co ro vf ca sc te ro'].
  unfold control_window, set_opt. cbn.
  destruct rs, st, sp, rn, sg, mu, bt, ma, tr; reflexivity.
Qed.

(** The controls of the window.  The calls of a frame are one sequence of
    calls: a batch while the simulation runs; otherwise one for "Single Step" and
    the set amount for "Multi Step", which both stop the run and last one frame;
    the checkbox wins over "Start" and "Stop"; and no other part of the state is
    changed, but by "Reset" and the trace checkbox. *)
Theorem control_calls (o : Options) (now : nat -> Z) (g : Gui) h :
  let h' := control_window g h in
  run_phase raw fs latency ignore_writes o now h' = calls o (call_total h') now h' /\
  call_total h' =
    (let single := if g_single g then 1%nat else 0%nat in
     let multi := if g_multi g then Z.to_nat (default (multi_step_amount h) (g_multi_amount g)) else 0%nat in
     let running := default (negb (g_stop g) && (g_start g || run_enable h)) (g_run g) in
     if g_single g || g_multi g then (single + multi)%nat
     else if running then Z.to_nat (default (batchSize h) (g_batch g)) else 0%nat) /\
  mouse h' = mouse h /\ shots h' = shots h /\ pngs h' = pngs h /\
  (g_reset g = false -> g_trace g = None -> sim h' = sim h).
Proof.
  cbn zeta. split.
  - generalize (control_window g h). clear h. intros h. unfold run_phase, call_total.
    destruct (run_enable h); [done|]. destruct (single_step h) eqn:Hs.
    + fold calls. rewrite calls_add. destruct (calls o 1 now h) as [[h1|h1|]|] eqn:Hc; [|done..].
      cbn [mbind option_bind]. assert (Hm : multi_step h1 = multi_step h /\
        multi_step_amount h1 = multi_step_amount h /\ single_step h1 = single_step h).
      { unfold Main.calls in Hc. destruct (verilate_all _ _ _ _ _ _ _) as [[s|]|]; [|done..].
        by injection Hc as <-. }
      destruct Hm as (-> & -> & ->). destruct (multi_step h); [|by rewrite calls_0].
      rewrite Hs. apply calls_ext. intros i. by rewrite Nat.add_comm.
    + cbn [mbind option_bind Nat.add]. destruct (multi_step h); [|by rewrite calls_0].
      rewrite Hs. apply calls_ext. intros i. by rewrite Nat.add_0_r.
  - rewrite control_window_eq. unfold call_total. cbn.
    split_and!; [|done..|by intros -> ->]. by destruct (g_single g), (g_multi g).
Qed.

End Loops.

(** ** Examples *)

(** A core that counts the rising edges and raises the vertical sync on every other one. *)
Record Ticker := MkTicker { ticks : nat; clock_was : bool }.

Definition ticker_out (c : Ticker) : CoreOut :=
  MkCoreOut 0 [0; 0; 0] 0 0 [0; 0; 0] 1 2 3 false false false (Nat.even (ticks c)) true
    0 0 true 100 false 0 0 0.

#[export] Instance ticker_core : Core Ticker := {
  eval i c := MkTicker (if ci_clk_sys i && negb (clock_was c) then S (ticks c) else ticks c) (ci_clk_sys i);
  out := ticker_out;
  gotFinish _ := false }.

#[export] Instance ticker_widths : CoreWidths Ticker.
Proof. split; intros c; [cbn; lia..|done|apply no_sectors|done]. Qed.

Definition zero_malloc (n : nat) : option (list Z) := Some (repeat 0 n).

Lemma zero_malloc_ok : malloc_ok zero_malloc.
Proof. intros n. exists (repeat 0 n). split; [done|apply repeat_length]. Qed.

Definition test_options : Options :=
  default_options <| headless := true |> <| screenshot_mode := true |> <| screenshot_frames := [2; 9] |>
    <| stop_at_frame_enabled := true |> <| stop_at_frame := 2 |>.

Definition test_host : Host :=
  (Host_start test_options (test_sim (MkTicker 0 false) low_clock 100 [])) <| batchSize := 8 |>.

Definition test_main (o : Options) (n : nat) : option Pass :=
  headless_main toy_raw (fun _ => None) 3 false zero_malloc o (repeat (fun _ => 0) n) test_host.

Lemma test_host_ok : sim_ok (fun _ => None) 0 (sim test_host).
Proof. apply test_sim_ok; [left; by vm_compute|done]. Qed.


Definition free_end : Host :=
  match test_main (test_options <| stop_at_frame_enabled := false |>) 3 with
  | Some (Looping h) => h
  | _ => test_host
  end.

Lemma headless_stops_witness :
  exists hs, test_main test_options 4 = Some (Stopped hs).
Proof.
  destruct (headless_stops toy_raw (fun _ => None) 3 false zero_malloc 0 test_options (repeat (fun _ => 0) 3)
    test_host free_end (fun _ => 0)) as (k & hk & hs & _ & _ & _ & _ & _ & _ & Hmain).
  - apply zero_malloc_ok.
  - apply test_host_ok.
  - vm_compute. discriminate.
  - reflexivity.
  - vm_compute. reflexivity.
  - vm_compute. discriminate.
  - exists hs. exact Hmain.
Defined.

