(* ===== verification/Toolbox.v ===== *)
(** * The Toolbox service of the host (scsi_bench.cpp, [TbHps])

    The bench of the SCSI core contains a model of the host's file service: the
    core hands over request blocks of 512 bytes and fetches response blocks of
    512 bytes.  Request block 0 holds a command and the first 496 bytes of its
    payload, the blocks 1 to 128 the rest of it; response block 0 holds the
    status and the length, the blocks from 1 on the data.

    The theorems: a file sent in chunks is stored exactly, a file fetched in
    chunks is returned exactly, the response blocks carry the response and its
    length, and a tail block that is lost leaves the bytes of an earlier chunk in
    its place. *)

From S2P Require Import Prelude.

(** ** Bytes *)

Definition byte (buf : list Z) (i : nat) : Z := default 0 (buf !! i).

(** [memcpy] into a buffer. *)
Definition overlay (pos : nat) (bytes : list Z) (l : list Z) : list Z :=
  take pos l ++ bytes ++ drop (pos + length bytes) l.

(** A block of [n] bytes that starts with [l]. *)
Definition pad (n : nat) (l : list Z) : list Z := l ++ replicate (n - length l) 0.

Definition be16 (buf : list Z) (i : nat) : Z := Z.lor (Z.shiftl (byte buf i) 8) (byte buf (i + 1)).
Definition be24 (buf : list Z) (i : nat) : Z :=
  Z.lor (Z.lor (Z.shiftl (byte buf i) 16) (Z.shiftl (byte buf (i + 1)) 8)) (byte buf (i + 2)).
Definition be32 (buf : list Z) (i : nat) : Z :=
  Z.lor (Z.lor (Z.lor (Z.shiftl (byte buf i) 24) (Z.shiftl (byte buf (i + 1)) 16))
    (Z.shiftl (byte buf (i + 2)) 8)) (byte buf (i + 3)).

(** ** The state *)

Record TbFile := MkTbFile { tf_name : list Z; tf_data : list Z }.

Definition TB_SIG : Z := 0xB5.
Definition CHUNK_MAX : Z := 65536.
Definition TAIL_BLKS : Z := (CHUNK_MAX + 16 - 1) / 512.

Record TbHps := MkTbHps {
  files : list TbFile;
  resp : list Z;
  status : Z;
  get_idx : Z;
  upload : list Z;
  upload_name : list Z;
  upload_open : bool;
  tail : list Z;
  reqs : Z;
  fills : Z;
  tail_seen : list bool;
  last_missing : Z;
  last_missing_cnt : Z }.

#[export] Instance eta_TbHps : Eta TbHps := fun t =>
  MkTbHps (files t) (resp t) (status t) (get_idx t) (upload t) (upload_name t) (upload_open t)
    (tail t) (reqs t) (fills t) (tail_seen t) (last_missing t) (last_missing_cnt t).

Definition tail_bytes : nat := Z.to_nat (TAIL_BLKS * 512).

Definition TbHps_new (fs : list TbFile) : TbHps :=
  MkTbHps fs [] 2 (-1) [] [] false (replicate tail_bytes 0) 0 0
    (replicate (Z.to_nat (TAIL_BLKS + 1)) false) (-1) 0.

Definition TbHps_reset (t : TbHps) : TbHps :=
  t <| resp := [] |> <| status := 2 |> <| get_idx := -1 |> <| upload := [] |> <| upload_name := [] |>
    <| upload_open := false |> <| tail := replicate tail_bytes 0 |> <| reqs := 0 |> <| fills := 0 |>.

(** ** The commands *)

Definition op_count (t : TbHps) : TbHps :=
  t <| resp ::= (fun r => r ++ [u8 (Z.of_nat (length (files t)))]) |> <| status := 0 |>.

(** The 40 bytes of a directory entry. *)
Definition file_entry (i : nat) (f : TbFile) : list Z :=
  let sz := u32 (Z.of_nat (length (tf_data f))) in
  [u8 (Z.of_nat i); 1] ++ pad 34 (take 32 (tf_name f))
  ++ [Z.shiftr sz 24; u8 (Z.shiftr sz 16); u8 (Z.shiftr sz 8); u8 sz].

Definition op_list (t : TbHps) : TbHps :=
  t <| resp ::= (fun r => r ++ concat (imap file_entry (files t))) |> <| status := 0 |>.

(** A read of a file.  An iterator past the end of the data is undefined
    behaviour: [None]. *)
Definition op_get (cdb : list Z) (t : TbHps) : option TbHps :=
  let BLOCK := 4096 in
  let offset := be32 cdb 2 in
  let blocks := if byte cdb 6 =? 0 then 1 else byte cdb 6 in
  let want := blocks * BLOCK in
  let want := if CHUNK_MAX <? want then CHUNK_MAX else want in
  let t := if offset =? 0
           then t <| get_idx := if byte cdb 1 <? Z.of_nat (length (files t)) then byte cdb 1 else -1 |>
           else t in
  if get_idx t <? 0 then Some (t <| status := 2 |>)
  else
    f ← files t !! Z.to_nat (get_idx t);
    let d := tf_data f in
    let size := Z.of_nat (length d) in
    let base := offset * BLOCK in
    let got := if size <=? base then 0 else u32 (Z.min want (size - base)) in
    if size <? base then None
    else
      let t := t <| resp := take (Z.to_nat got) (drop (Z.to_nat base) d) |> in
      let t := if got =? 0 then t <| get_idx := -1 |> else t in
      Some (t <| status := 0 |>).

(** The bytes before the first zero. *)
Fixpoint before_nul (l : list Z) : list Z :=
  match l with c :: l => if c =? 0 then [] else c :: before_nul l | [] => [] end.

Definition op_send_prep (buf : list Z) (t : TbHps) : TbHps :=
  let name := before_nul (take 32 (drop 16 buf)) in
  match name with
  | [] => t <| status := 2 |>
  | _ :: _ => t <| upload_name := name |> <| upload := [] |> <| upload_open := true |> <| status := 0 |>
  end.

(** The number of payload bytes of a chunk. *)
Definition chunk_bytes (buf : list Z) : Z :=
  let nb := if byte buf 6 =? 0 then be16 buf 1 else byte buf 6 * 512 in
  if CHUNK_MAX <? nb then CHUNK_MAX else nb.

(** The search for tail blocks that did not arrive. *)
Definition seek_missing (t : TbHps) (k : nat) : TbHps :=
  if default false (tail_seen t !! k) then t
  else
    let t := if last_missing t <? 0 then t <| last_missing := Z.of_nat k |> else t in
    t <| last_missing_cnt := last_missing_cnt t + 1 |>.

Definition diagnose (buf : list Z) (t : TbHps) : TbHps :=
  let nb := chunk_bytes buf in
  let need := if 496 <? nb then (nb - 496 + 511) / 512 else 0 in
  let t := t <| last_missing := -1 |> <| last_missing_cnt := 0 |> in
  let t := fold_left seek_missing (seq 1 (Z.to_nat need)) t in
  t <| tail_seen := replicate (Z.to_nat (TAIL_BLKS + 1)) false |>.

Definition op_send_data (buf : list Z) (t : TbHps) : TbHps :=
  if negb (upload_open t) then t <| status := 2 |>
  else
    let t := diagnose buf t in
    let off := be24 buf 3 in
    let bytes := Z.to_nat (chunk_bytes buf) in
    let head := Nat.min bytes 496 in
    let chunk := take head (drop 16 buf) ++ take (bytes - 496) (tail t) in
    let pos := Z.to_nat (off * 512) in
    let t := if (length (upload t) <? pos + bytes)%nat
             then t <| upload ::= (fun u => u ++ replicate (pos + bytes - length u) 0) |> else t in
    t <| upload ::= overlay pos chunk |> <| status := 0 |>.

Definition op_send_end (t : TbHps) : TbHps :=
  if negb (upload_open t) then t <| status := 2 |>
  else t <| upload_open := false |> <| status := 0 |>.

(** A request block. *)
Definition request (lba : Z) (buf : list Z) (t : TbHps) : option TbHps :=
  let t := t <| reqs := u64 (reqs t + 1) |> in
  if (1 <=? lba) && (lba <=? TAIL_BLKS) then
    Some (t <| tail ::= overlay (Z.to_nat ((lba - 1) * 512)) (take 512 buf) |>
            <| tail_seen ::= <[Z.to_nat lba := true]> |>)
  else if negb (lba =? 0) then Some t
  else
    let t := t <| resp := [] |> <| status := 2 |> in
    let op := byte buf 0 in
    if op =? 0xD2 then Some (op_count t)
    else if op =? 0xD0 then Some (op_list t)
    else if op =? 0xD1 then op_get buf t
    else if op =? 0xD3 then Some (op_send_prep buf t)
    else if op =? 0xD4 then Some (op_send_data buf t)
    else if op =? 0xD5 then Some (op_send_end t)
    else Some (t <| status := 2 |>).

(** The length that the status block gives. *)
Definition full_length (t : TbHps) : Z :=
  if 0x1FFFF <? Z.of_nat (length (resp t)) then 0x1FFFF else Z.of_nat (length (resp t)).

(** A response block. *)
Definition fill (lba : Z) (t : TbHps) : list Z * TbHps :=
  let block :=
    if lba =? 0 then
      let len := u16 (full_length t) in
      pad 512 [status t; TB_SIG; Z.shiftr len 8; Z.land len 0xFF; Z.land (Z.shiftr (full_length t) 16) 1]
    else
      let off := Z.to_nat ((lba - 1) * 512) in
      if (off <? length (resp t))%nat then pad 512 (take 512 (drop off (resp t))) else replicate 512 0 in
  (block, t <| fills := u64 (fills t + 1) |>).

(** ** Buffers *)

Lemma overlay_length pos bytes l : (pos + length bytes <= length l)%nat -> length (overlay pos bytes l) = length l.
Proof. intros H. unfold overlay. rewrite !length_app, length_take, length_drop. lia. Qed.

Lemma overlay_append bytes l k :
  k = length bytes -> overlay (length l) bytes (l ++ replicate k 0) = l ++ bytes.
Proof.
  intros ->. unfold overlay. rewrite take_app_length, drop_ge, app_nil_r; [done|].
  rewrite length_app, length_replicate. lia.
Qed.

Lemma take_overlay pos bytes l n :
  (n <= pos)%nat -> (pos <= length l)%nat -> take n (overlay pos bytes l) = take n l.
Proof.
  intros H1 H2. unfold overlay. rewrite take_app_le by (rewrite length_take; lia).
  by rewrite take_take, Nat.min_l by lia.
Qed.

Lemma take_overlay_all pos bytes l :
  (pos <= length l)%nat -> take (pos + length bytes) (overlay pos bytes l) = take pos l ++ bytes.
Proof.
  intros H. unfold overlay. rewrite app_assoc, take_app_length'; [done|].
  rewrite length_app, length_take. lia.
Qed.

Lemma pad_length n l : (length l <= n)%nat -> length (pad n l) = n.
Proof. intros H. unfold pad. rewrite length_app, length_replicate. lia. Qed.

Lemma take_pad n l k : (k <= length l)%nat -> take k (pad n l) = take k l.
Proof. intros H. unfold pad. by rewrite take_app_le. Qed.

Lemma take_add {A} (n m : nat) (l : list A) : take (n + m) l = take n l ++ take m (drop n l).
Proof. revert l. induction n as [|n IH]; intros [|x l]; cbn; [done..|by rewrite take_nil|by rewrite IH]. Qed.

(** ** Big-endian fields *)

Definition enc16 (v : Z) : list Z := [v / 256; v `mod` 256].
Definition enc24 (v : Z) : list Z := [v / 65536; (v / 256) `mod` 256; v `mod` 256].
Definition enc32 (v : Z) : list Z := [v / 16777216; (v / 65536) `mod` 256; (v / 256) `mod` 256; v `mod` 256].

Lemma be_join a b : 0 <= b < 256 -> Z.lor (Z.shiftl a 8) b = a * 256 + b.
Proof. intros H. exact (lor_shiftl_add a b 8 ltac:(lia) H). Qed.

Lemma dec16 v : 0 <= v < 2 ^ 16 -> Z.lor (Z.shiftl (v / 256) 8) (v `mod` 256) = v.
Proof. intros H. rewrite be_join by (apply Z.mod_pos_bound; lia). div_lia. Qed.

Lemma dec24 v : 0 <= v < 2 ^ 24 ->
  Z.lor (Z.lor (Z.shiftl (v / 65536) 16) (Z.shiftl ((v / 256) `mod` 256) 8)) (v `mod` 256) = v.
Proof.
  intros H. change 16 with (8 + 8) at 1. rewrite <- Z.shiftl_shiftl, <- Z.shiftl_lor by lia.
  rewrite (be_join (v / 65536)), be_join by (apply Z.mod_pos_bound; lia). div_lia.
Qed.

Lemma dec32 v : 0 <= v < 2 ^ 32 ->
  Z.lor (Z.lor (Z.lor (Z.shiftl (v / 16777216) 24) (Z.shiftl ((v / 65536) `mod` 256) 16))
    (Z.shiftl ((v / 256) `mod` 256) 8)) (v `mod` 256) = v.
Proof.
  intros H. change 24 with (16 + 8). change 16 with (8 + 8) at 2. rewrite <- !Z.shiftl_shiftl, <- !Z.shiftl_lor by lia.
  rewrite <- (Z.shiftl_shiftl _ 8 8), <- !Z.shiftl_lor by lia.
  rewrite (be_join (v / 16777216)), (be_join (_ + _)), be_join by (apply Z.mod_pos_bound; lia). div_lia.
Qed.

(** ** The client's requests

    A chunk of a file: the tail blocks, then the command block that runs the
    handler.  [blocks] is byte 6 of the command, which gives the length in blocks
    of 512 bytes, or 0 when the length is in the bytes 1 and 2. *)

Definition send_cdb (blocks len off : Z) : list Z :=
  [0xD4] ++ enc16 len ++ enc24 off ++ [blocks] ++ replicate 9 0.

Definition tail_count (payload : list Z) : nat := ((length payload - 496 + 511) / 512)%nat.

Definition tail_block (payload : list Z) (k : nat) : Z * list Z :=
  (Z.of_nat k, pad 512 (take 512 (drop (512 * (k - 1)) (drop 496 payload)))).

Definition chunk_requests (blocks off : Z) (payload : list Z) : list (Z * list Z) :=
  map (tail_block payload) (seq 1 (tail_count payload)) ++
  [(0, pad 512 (send_cdb blocks (if blocks =? 0 then Z.of_nat (length payload) else 0) off
                ++ take 496 payload))].

(** The length of the payload as the command gives it. *)
Definition length_field (blocks : Z) (payload : list Z) : Prop :=
  (blocks = 0 /\ Z.of_nat (length payload) < 65536) \/
  (1 <= blocks <= 128 /\ Z.of_nat (length payload) = blocks * 512).

Fixpoint run_requests (rs : list (Z * list Z)) (t : TbHps) : option TbHps :=
  match rs with
  | [] => Some t
  | (lba, buf) :: rs => t ← request lba buf t; run_requests rs t
  end.

Lemma run_requests_app rs rs' t :
  run_requests (rs ++ rs') t = t ← run_requests rs t; run_requests rs' t.
Proof.
  revert t. induction rs as [|[lba buf] rs IH]; intros t; [done|]. cbn [app run_requests].
  destruct (request lba buf t) as [t1|]; [apply IH|done].
Qed.

(** ** One chunk *)

(** What every chunk needs: an open upload and the buffers at their sizes. *)
Definition tb_ok (t : TbHps) : Prop :=
  length (tail t) = tail_bytes /\ length (tail_seen t) = Z.to_nat (TAIL_BLKS + 1).

Lemma TbHps_new_ok fs : tb_ok (TbHps_new fs).
Proof. split; apply length_replicate. Qed.

Lemma tail_bytes_eq : tail_bytes = (512 * 128)%nat.
Proof. reflexivity. Qed.

(** The first [m] tail blocks have arrived. *)
Definition tails_in (payload : list Z) (m : nat) (t t' : TbHps) : Prop :=
  t' = t <| tail := tail t' |> <| tail_seen := tail_seen t' |> <| reqs := reqs t' |> /\ tb_ok t' /\
  take (512 * m) (tail t') = pad (512 * m) (take (512 * m) (drop 496 payload)) /\
  (forall k, (1 <= k <= m)%nat -> tail_seen t' !! k = Some true).

Lemma tail_request payload m t t' :
  (S m <= tail_count payload)%nat -> Z.of_nat (length payload) <= CHUNK_MAX -> tails_in payload m t t' ->
  exists t2, request (Z.of_nat (S m)) (tail_block payload (S m)).2 t' = Some t2 /\
    tails_in payload (S m) t t2.
Proof.
  intros Hm Hlen (Heq & [Hl1 Hl2] & Htake & Hseen). unfold CHUNK_MAX in Hlen.
  assert (Hb := Nat.div_mod_eq (length payload - 496 + 511) 512).
  assert (Hb' := Nat.mod_upper_bound (length payload - 496 + 511) 512 ltac:(lia)).
  unfold tail_count in Hm. set (q := ((length payload - 496 + 511) / 512)%nat) in *.
  unfold request. change TAIL_BLKS with 128.
  destruct (Z.leb_spec 1 (Z.of_nat (S m))); [|lia]. destruct (Z.leb_spec (Z.of_nat (S m)) 128); [|lia].
  cbn [andb]. eexists. split; [reflexivity|].
  set (block := (tail_block payload (S m)).2).
  assert (Hblock : length block = 512%nat).
  { apply pad_length. rewrite length_take. lia. }
  rewrite (take_ge block) by lia.
  replace (Z.to_nat ((Z.of_nat (S m) - 1) * 512)) with (512 * m)%nat by lia.
  rewrite Nat2Z.id. rewrite tail_bytes_eq in Hl1.
  split; [|split; [|split]].
  - rewrite Heq. reflexivity.
  - split; cbn [tail tail_seen modify_field]; [|by rewrite length_insert].
    rewrite overlay_length, tail_bytes_eq; rewrite ?Hblock; lia.
  - cbn [tail modify_field]. replace (512 * S m)%nat with (512 * m + length block)%nat at 1 by lia.
    rewrite take_overlay_all, Htake by lia. unfold block, tail_block. cbn [snd].
    rewrite Nat.sub_succ, Nat.sub_0_r. set (P := drop 496 payload).
    replace (512 * S m)%nat with (512 * m + 512)%nat by lia. rewrite take_add.
    destruct (Nat.le_gt_cases (512 * m) (length P)).
    + unfold pad. rewrite (length_take_le P) by lia. rewrite Nat.sub_diag, app_nil_r, <- app_assoc.
      do 2 f_equal. rewrite length_app, (length_take_le P) by lia. f_equal. lia.
    + exfalso. unfold P in *. rewrite length_drop in *. lia.
  - intros k Hk. cbn [tail_seen modify_field].
    destruct (decide (k = S m)) as [->|]; [|rewrite list_lookup_insert_ne by lia; apply Hseen; lia].
    apply list_lookup_insert_eq. rewrite Hl2. change (Z.to_nat (TAIL_BLKS + 1)) with 129%nat. lia.
Qed.

Lemma tail_requests payload m t :
  (m <= tail_count payload)%nat -> Z.of_nat (length payload) <= CHUNK_MAX -> tb_ok t ->
  exists t', run_requests (map (tail_block payload) (seq 1 m)) t = Some t' /\ tails_in payload m t t'.
Proof.
  intros Hm Hlen Hok. induction m as [|m IH].
  - exists t. split; [done|]. split; [by destruct t|]. split; [done|]. split; [done|]. lia.
  - destruct IH as (t' & Hrun & Ht'); [lia|]. rewrite seq_S, map_app, run_requests_app, Hrun.
    cbn [mbind option_bind map run_requests Nat.add].
    destruct (tail_request payload m t t' Hm Hlen Ht') as (t2 & Hr & Ht2).
    unfold tail_block at 1. unfold tail_block in Hr. cbn [snd] in Hr. rewrite Hr.
    cbn [mbind option_bind]. by exists t2.
Qed.

Lemma byte_app l r i : (i < length l)%nat -> byte (l ++ r) i = byte l i.
Proof. intros H. unfold byte. by rewrite lookup_app_l. Qed.

Section Chunk.
Context (blocks off : Z) (payload : list Z).
Context (Hfield : length_field blocks payload) (Hoff : 0 <= off < 2 ^ 24).

Let len : Z := if blocks =? 0 then Z.of_nat (length payload) else 0.
Let cdb : list Z := send_cdb blocks len off.
Let block0 : list Z := pad 512 (cdb ++ take 496 payload).

#[local] Lemma cdb_sixteen : length cdb = 16%nat.
Proof. reflexivity. Qed.

#[local] Lemma block0_byte i : (i < 16)%nat -> byte block0 i = byte cdb i.
Proof. intros Hi. unfold block0, pad. rewrite <- app_assoc. apply byte_app. by rewrite cdb_sixteen. Qed.

Lemma chunk_bytes_ok : chunk_bytes block0 = Z.of_nat (length payload) /\ Z.of_nat (length payload) <= CHUNK_MAX.
Proof.
  unfold chunk_bytes, be16. rewrite !block0_byte by lia. cbn [cdb send_cdb enc16 enc24 byte app].
  unfold byte, cdb, send_cdb, enc16, enc24. cbn [app lookup list_lookup default].
  cbn -[Z.div Z.modulo Z.mul CHUNK_MAX]. unfold len, CHUNK_MAX.
  destruct Hfield as [[-> H]|[H1 H2]].
  - cbn [Z.eqb]. rewrite dec16 by lia. destruct (Z.ltb_spec 65536 (Z.of_nat (length payload))); lia.
  - destruct (Z.eqb_spec blocks 0); [lia|].
    destruct (Z.ltb_spec 65536 (blocks * 512)); lia.
Qed.

Lemma chunk_off_ok : be24 block0 3 = off.
Proof.
  unfold be24. rewrite !block0_byte by lia. unfold byte, cdb, send_cdb, enc16, enc24. cbn -[Z.div Z.modulo].
  by apply dec24.
Qed.

Lemma chunk_head n : (n <= 496)%nat -> (n <= length payload)%nat -> take n (drop 16 block0) = take n payload.
Proof.
  intros H1 H2. unfold block0, pad. rewrite <- app_assoc. rewrite drop_app_length' by apply cdb_sixteen.
  rewrite take_app_le by (rewrite length_take; lia). by rewrite take_take, Nat.min_l by lia.
Qed.

Lemma seek_keeps ks t :
  let t' := fold_left seek_missing ks t in
  tail t' = tail t /\ upload t' = upload t /\ upload_open t' = upload_open t /\
  upload_name t' = upload_name t /\ files t' = files t /\ tail_seen t' = tail_seen t.
Proof.
  revert t. induction ks as [|k ks IH]; intros t; [done|]. cbn [fold_left]. cbn zeta in *.
  destruct (IH (seek_missing t k)) as (-> & -> & -> & -> & -> & ->).
  unfold seek_missing. destruct (default false _); [done|]. by destruct (last_missing t <? 0).
Qed.

Lemma seek_same ks t t' :
  tail_seen t = tail_seen t' -> last_missing t = last_missing t' -> last_missing_cnt t = last_missing_cnt t' ->
  last_missing (fold_left seek_missing ks t) = last_missing (fold_left seek_missing ks t') /\
  last_missing_cnt (fold_left seek_missing ks t) = last_missing_cnt (fold_left seek_missing ks t').
Proof.
  revert t t'. induction ks as [|k ks IH]; intros t t' H1 H2 H3; [done|]. cbn [fold_left].
  apply IH; unfold seek_missing; rewrite H1; destruct (default false _); try done;
    rewrite H2; destruct (last_missing t' <? 0); cbn; congruence.
Qed.

Lemma diagnose_keeps t :
  let t' := diagnose block0 t in
  tail t' = tail t /\ upload t' = upload t /\ upload_open t' = upload_open t /\
  upload_name t' = upload_name t /\ files t' = files t /\
  tail_seen t' = replicate (Z.to_nat (TAIL_BLKS + 1)) false.
Proof.
  cbn zeta. unfold diagnose. set (need := if 496 <? _ then _ else 0). cbn zeta.
  destruct (seek_keeps (seq 1 (Z.to_nat need)) (t <| last_missing := -1 |> <| last_missing_cnt := 0 |>))
    as (H1 & H2 & H3 & H4 & H5 & _).
  split_and!; [exact H1|exact H2|exact H3|exact H4|exact H5|reflexivity].
Qed.

Lemma diagnose_seen t t' :
  tail_seen t = tail_seen t' ->
  last_missing (diagnose block0 t) = last_missing (diagnose block0 t') /\
  last_missing_cnt (diagnose block0 t) = last_missing_cnt (diagnose block0 t').
Proof.
  intros Hs. unfold diagnose. set (need := if 496 <? _ then _ else 0). cbn zeta.
  apply seek_same; [exact Hs|reflexivity|reflexivity].
Qed.

(** The search finds every tail block in place. *)
Lemma diagnose_ok t m :
  (tail_count payload <= m)%nat -> (forall k, (1 <= k <= m)%nat -> tail_seen t !! k = Some true) ->
  last_missing (diagnose block0 t) = -1 /\ last_missing_cnt (diagnose block0 t) = 0 /\
  diagnose block0 t = t <| last_missing := -1 |> <| last_missing_cnt := 0 |>
    <| tail_seen := replicate (Z.to_nat (TAIL_BLKS + 1)) false |>.
Proof.
  intros Hm Hseen. unfold diagnose. rewrite (proj1 chunk_bytes_ok).
  set (need := if 496 <? _ then _ else 0).
  assert (Hneed : (Z.to_nat need <= m)%nat).
  { unfold need. destruct (Z.ltb_spec 496 (Z.of_nat (length payload))); [|lia].
    unfold tail_count in Hm. assert (E : (Z.of_nat (length payload) - 496 + 511) / 512 =
      Z.of_nat ((length payload - 496 + 511) / 512)) by (rewrite Nat2Z.inj_div; f_equal; lia).
    rewrite E. lia. }
  set (t0 := t <| last_missing := -1 |> <| last_missing_cnt := 0 |>).
  assert (Hfold : forall n, (n <= m)%nat -> fold_left seek_missing (seq 1 n) t0 = t0).
  { induction n as [|n IH]; intros Hn; [done|]. rewrite seq_S, fold_left_app, IH by lia. cbn [fold_left].
    unfold seek_missing. change (tail_seen t0) with (tail_seen t). rewrite Hseen by lia. done. }
  cbn zeta. rewrite Hfold by done. done.
Qed.

(** What the chunk does to the file. *)
Definition store (pos : nat) (u : list Z) : list Z :=
  overlay pos payload (u ++ replicate (pos + length payload - length u) 0).

(** The command block, whatever the tail holds. *)
Lemma command_stored t :
  tb_ok t -> upload_open t = true ->
  let chunk := take 496 payload ++ take (length payload - 496) (tail t) in
  exists t', request 0 block0 t = Some t' /\ tb_ok t' /\ length chunk = length payload /\
    upload t' = overlay (Z.to_nat (off * 512)) chunk
                  (upload t ++ replicate (Z.to_nat (off * 512) + length payload - length (upload t)) 0) /\
    status t' = 0 /\ upload_open t' = true /\ upload_name t' = upload_name t /\ files t' = files t /\
    tail t' = tail t /\ tail_seen t' = replicate (Z.to_nat (TAIL_BLKS + 1)) false /\
    (forall s, tail_seen s = tail_seen t -> last_missing t' = last_missing (diagnose block0 s) /\
      last_missing_cnt t' = last_missing_cnt (diagnose block0 s)).
Proof.
  intros [Hl1 Hl2] Hopen chunk. destruct chunk_bytes_ok as [Hbytes Hmax].
  unfold request. change (1 <=? 0) with false. cbn [andb Z.eqb negb].
  rewrite block0_byte by lia. change (byte cdb 0) with 0xD4. cbn [Z.eqb Pos.eqb].
  set (t2 := t <| reqs := _ |> <| resp := [] |> <| status := 2 |>).
  unfold op_send_data. change (upload_open t2) with (upload_open t). rewrite Hopen. cbn [negb].
  rewrite Hbytes, chunk_off_ok, Nat2Z.id.
  assert (Hd : tail (diagnose block0 t2) = tail t /\ upload (diagnose block0 t2) = upload t /\
    upload_open (diagnose block0 t2) = true /\ upload_name (diagnose block0 t2) = upload_name t /\
    files (diagnose block0 t2) = files t /\
    tail_seen (diagnose block0 t2) = replicate (Z.to_nat (TAIL_BLKS + 1)) false).
  { destruct (diagnose_keeps t2) as (-> & -> & -> & -> & -> & ->). by split_and!. }
  destruct Hd as (Hd1 & Hd2 & Hd3 & Hd4 & Hd5 & Hd6).
  assert (Hdiag : forall s, tail_seen s = tail_seen t ->
    last_missing (diagnose block0 t2) = last_missing (diagnose block0 s) /\
    last_missing_cnt (diagnose block0 t2) = last_missing_cnt (diagnose block0 s)).
  { intros s Hs. apply diagnose_seen. by rewrite Hs. }
  set (t3 := diagnose block0 t2) in *. clearbody t3.
  set (n := length payload) in *.
  assert (Hchunk : take (Nat.min n 496) (drop 16 block0) ++ take (n - 496) (tail t3) = chunk).
  { rewrite chunk_head, Hd1 by lia. unfold chunk. fold n. f_equal.
    destruct (Nat.le_gt_cases n 496); [rewrite !take_ge by (fold n; lia)|rewrite Nat.min_r by lia]; done. }
  assert (Hlen : length chunk = n).
  { unfold chunk. rewrite length_app, !length_take, Hl1, tail_bytes_eq. fold n. unfold CHUNK_MAX in Hmax. lia. }
  rewrite Hchunk. eexists. split; [reflexivity|].
  assert (Hst : upload (if (length (upload t3) <? Z.to_nat (off * 512) + n)%nat
      then t3 <| upload ::= (fun u => u ++ replicate (Z.to_nat (off * 512) + n - length u) 0) |> else t3)
      = upload t3 ++ replicate (Z.to_nat (off * 512) + n - length (upload t3)) 0).
  { destruct (Nat.ltb_spec (length (upload t3)) (Z.to_nat (off * 512) + n)); [done|].
    rewrite (proj2 (Nat.sub_0_le _ _)) by lia. by rewrite app_nil_r. }
  set (t4 := if (_ <? _)%nat then _ else _) in *.
  assert (Ht4 : tail t4 = tail t3 /\ upload_open t4 = upload_open t3 /\ upload_name t4 = upload_name t3 /\
    files t4 = files t3 /\ tail_seen t4 = tail_seen t3 /\ last_missing t4 = last_missing t3 /\
    last_missing_cnt t4 = last_missing_cnt t3) by (by unfold t4; destruct (_ <? _)%nat).
  clearbody t4. destruct Ht4 as (E1 & E2 & E3 & E4 & E5 & E6 & E7).
  cbn [upload status upload_open upload_name files tail tail_seen modify_field]. unfold tb_ok.
  rewrite <- Hd2, <- Hst. cbn [tail tail_seen upload upload_open upload_name files last_missing last_missing_cnt modify_field].
  rewrite E1, E2, E3, E4, E5, Hd1, Hd3, Hd4, Hd5, Hd6. split_and!; try done.
  intros s Hs. cbn [last_missing last_missing_cnt modify_field]. rewrite E6, E7. by apply Hdiag.
Qed.

Lemma chunk_stored t :
  tb_ok t -> upload_open t = true ->
  exists t', run_requests (chunk_requests blocks off payload) t = Some t' /\ tb_ok t' /\
    upload t' = store (Z.to_nat (off * 512)) (upload t) /\ status t' = 0 /\ last_missing t' = -1 /\
    upload_open t' = true /\ upload_name t' = upload_name t /\ files t' = files t /\
    take (length payload - 496) (tail t') = drop 496 payload /\
    tail_seen t' = replicate (Z.to_nat (TAIL_BLKS + 1)) false.
Proof.
  intros Hok Hopen. unfold chunk_requests. rewrite run_requests_app.
  destruct chunk_bytes_ok as [Hbytes Hmax].
  destruct (tail_requests payload (tail_count payload) t) as (t1 & -> & Heq & Hok1 & Htake & Hseen); [done..|].
  cbn [mbind option_bind run_requests]. fold len. fold cdb. fold block0.
  assert (Hopen1 : upload_open t1 = true) by by rewrite Heq.
  destruct (command_stored t1 Hok1 Hopen1) as (t2 & -> & Hok2 & _ & Hup & Hst & Ho & Hn & Hf & Htl & Hts & Hmiss).
  cbn [mbind option_bind]. exists t2.
  destruct (diagnose_ok t1 (tail_count payload) ltac:(done) Hseen) as (Hd & _).
  set (n := length payload) in *.
  assert (Hm : (n - 496 <= 512 * tail_count payload)%nat).
  { unfold tail_count. fold n. assert (Hb := Nat.div_mod_eq (n - 496 + 511) 512).
    assert (Hb' := Nat.mod_upper_bound (n - 496 + 511) 512 ltac:(lia)). lia. }
  assert (Htl1 : take (n - 496) (tail t1) = drop 496 payload).
  { replace (take (n - 496) (tail t1)) with (take (n - 496) (take (512 * tail_count payload) (tail t1)))
      by (rewrite take_take; f_equal; unfold tail_count in *; lia).
    rewrite Htake, take_pad by (rewrite length_take, length_drop; fold n; lia).
    rewrite take_take, Nat.min_l by lia. apply take_ge. rewrite length_drop. fold n. lia. }
  assert (Hup1 : upload t1 = upload t) by by rewrite Heq.
  split_and!; try done; [|by rewrite (proj1 (Hmiss t1 eq_refl))|by rewrite Hn, Heq|by rewrite Hf, Heq|by rewrite Htl].
  rewrite Hup, Hup1. unfold store. f_equal. rewrite Htl1. apply take_drop.
Qed.

End Chunk.

(** ** A whole file *)

(** The pieces of [c] blocks of a file; the last one may be shorter. *)
Definition piece (c : nat) (data : list Z) (k : nat) : list Z := take (c * 512) (drop (k * (c * 512)) data).
Definition piece_count (c : nat) (data : list Z) : nat := ((length data + (c * 512 - 1)) / (c * 512))%nat.

Definition piece_requests (c : nat) (data : list Z) (k : nat) : list (Z * list Z) :=
  let p := piece c data k in
  chunk_requests (if (length p =? c * 512)%nat then Z.of_nat c else 0) (Z.of_nat (k * c)) p.

Definition prep_block (name : list Z) : list Z := pad 512 ([0xD3] ++ replicate 15 0 ++ name).
Definition end_block : list Z := pad 512 [0xD5].

(** The requests that send a file. *)
Definition send_requests (name : list Z) (c : nat) (data : list Z) : list (Z * list Z) :=
  (0, prep_block name) :: concat (map (piece_requests c data) (seq 0 (piece_count c data))) ++ [(0, end_block)].

Lemma piece_length c data k : length (piece c data k) = Nat.min (c * 512) (length data - k * (c * 512)).
Proof. unfold piece. by rewrite length_take, length_drop. Qed.

Lemma piece_field c data k :
  (1 <= c <= 128)%nat ->
  length_field (if (length (piece c data k) =? c * 512)%nat then Z.of_nat c else 0) (piece c data k).
Proof.
  intros Hc. destruct (Nat.eqb_spec (length (piece c data k)) (c * 512)) as [E|E].
  - right. rewrite E. lia.
  - left. split; [done|]. rewrite piece_length in *. lia.
Qed.

Lemma store_append payload u : store payload (length u) u = u ++ payload.
Proof. unfold store. apply overlay_append. lia. Qed.

Lemma piece_count_spec c data : (1 <= c)%nat ->
  (piece_count c data * (c * 512) < length data + c * 512 /\ length data <= piece_count c data * (c * 512))%nat.
Proof.
  intros Hc. unfold piece_count.
  assert (Hb := Nat.div_mod_eq (length data + (c * 512 - 1)) (c * 512)).
  assert (Hb' := Nat.mod_upper_bound (length data + (c * 512 - 1)) (c * 512) ltac:(lia)).
  set (q := ((length data + (c * 512 - 1)) / (c * 512))%nat) in *. nia.
Qed.

(** The first [k] pieces have arrived. *)
Definition sent (data : list Z) (name : list Z) (n : nat) (t : TbHps) : Prop :=
  tb_ok t /\ upload_open t = true /\ upload t = take n data /\ upload_name t = name /\
  last_missing t = -1.

Lemma pieces_sent c data name k t :
  (1 <= c <= 128)%nat -> Z.of_nat (length data) < 2 ^ 31 -> (k <= piece_count c data)%nat ->
  sent data name 0 t ->
  exists t', run_requests (concat (map (piece_requests c data) (seq 0 k))) t = Some t' /\
    sent data name (k * (c * 512)) t'.
Proof.
  intros Hc Hlen Hk H0. destruct (piece_count_spec c data ltac:(lia)) as [HN1 HN2].
  induction k as [|k IH]; [by exists t|]. destruct IH as (t1 & Hrun & Hok & Hopen & Hup & Hname & Hmiss); [lia|].
  rewrite seq_S, map_app, concat_app, run_requests_app, Hrun. cbn [mbind option_bind map concat Nat.add].
  rewrite app_nil_r. unfold piece_requests. cbn zeta.
  assert (Hstart : (k * (c * 512) < length data)%nat) by nia.
  destruct (chunk_stored _ (Z.of_nat (k * c)) (piece c data k) (piece_field c data k Hc)
    ltac:(change (2 ^ 24) with 16777216; change (2 ^ 31) with 2147483648 in Hlen; nia) t1 Hok Hopen)
    as (t2 & -> & Hok2 & Hup2 & _ & Hmiss2 & Hopen2 & Hname2 & _ & _).
  exists t2. split; [done|]. split_and!; try done; [|by rewrite Hname2].
  assert (Hpos : Z.to_nat (Z.of_nat (k * c) * 512) = length (upload t1)).
  { rewrite Hup, length_take. nia. }
  rewrite Hup2, Hpos, store_append, Hup. unfold piece. rewrite <- take_add. f_equal. lia.
Qed.

(** A file name of the protocol: 1 to 32 bytes, none of them zero. *)
Definition name_ok (name : list Z) : Prop :=
  (1 <= length name <= 32)%nat /\ Forall (fun c => c <> 0) name.

Lemma before_nul_name name n : Forall (fun c => c <> 0) name -> before_nul (name ++ replicate n 0) = name.
Proof.
  intros H. induction H as [|c name Hc _ IH]; [by destruct n|]. cbn [app before_nul].
  destruct (Z.eqb_spec c 0); [done|]. by rewrite IH.
Qed.

Lemma prep_request name t :
  name_ok name -> tb_ok t -> last_missing t = -1 -> exists t', request 0 (prep_block name) t = Some t' /\
    (forall data, sent data name 0 t') /\ files t' = files t.
Proof.
  intros [Hl Hn] Hok Hmiss.
  unfold request. change (1 <=? 0) with false. cbn [andb Z.eqb negb].
  change (byte (prep_block name) 0) with 0xD3. cbn [Z.eqb Pos.eqb].
  assert (E : before_nul (take 32 (drop 16 (prep_block name))) = name).
  { unfold prep_block, pad. rewrite <- app_assoc.
    change (drop 16 ([0xD3] ++ (replicate 15 0 ++ name) ++ ?l)) with (drop 16 ([0xD3] ++ (replicate 15 0 ++ name) ++ l)).
    rewrite (app_assoc [0xD3]), (app_assoc [0xD3]), <- app_assoc, drop_app_length' by done.
    rewrite take_app_ge, take_replicate by lia. by apply before_nul_name. }
  unfold op_send_prep. rewrite E.
  destruct name as [|x name]; [cbn in Hl; lia|]. eexists. split; [reflexivity|].
  split; [|done]. intros data. split; [exact Hok|]. by split_and!.
Qed.

Lemma send_stored (t : TbHps) (name data : list Z) (c : nat) :
  tb_ok t -> last_missing t = -1 -> name_ok name -> (1 <= c <= 128)%nat -> Z.of_nat (length data) < 2 ^ 31 ->
  exists t', run_requests (send_requests name c data) t = Some t' /\
    upload_name t' = name /\ upload t' = data /\ upload_open t' = false /\ status t' = 0 /\
    last_missing t' = -1.
Proof.
  intros Hok Hmiss Hname Hc Hlen. unfold send_requests. cbn [run_requests].
  destruct (prep_request name t Hname Hok Hmiss) as (t1 & -> & Hs & _). cbn [mbind option_bind].
  rewrite run_requests_app.
  destruct (pieces_sent c data name (piece_count c data) t1 Hc Hlen ltac:(lia) (Hs data))
    as (t2 & -> & Hok2 & Hopen & Hup & Hn & Hm).
  cbn [mbind option_bind run_requests]. unfold request. change (1 <=? 0) with false. cbn [andb Z.eqb negb].
  change (byte end_block 0) with 0xD5. cbn [Z.eqb Pos.eqb]. unfold op_send_end.
  change (upload_open (t2 <| reqs := _ |> <| resp := [] |> <| status := 2 |>)) with (upload_open t2).
  rewrite Hopen. cbn [negb mbind option_bind]. eexists. split; [reflexivity|].
  split_and!; try done. cbn. rewrite Hup. apply take_ge.
  destruct (piece_count_spec c data ltac:(lia)) as [_ H]. exact H.
Qed.

(** A file sent in chunks is stored exactly.  For any file up to 2 GB, any
    name of the protocol and any size of chunk from one block to 128, the
    requests of the client - the preparation, for each chunk the tail blocks and
    the command, the end - leave the service with exactly that name and those
    bytes, whatever its buffers held before, every tail block found in its place,
    and the upload closed without an error. *)
Theorem send_file (t : TbHps) (name data : list Z) (c : nat) :
  tb_ok t -> last_missing t = -1 -> name_ok name -> (1 <= c <= 128)%nat -> Z.of_nat (length data) < 2 ^ 31 ->
  exists t', run_requests (send_requests name c data) t = Some t' /\
    upload_name t' = name /\ upload t' = data /\ upload_open t' = false /\ status t' = 0 /\
    last_missing t' = -1.
Proof. intros Hok Hmiss Hname Hc Hlen. by apply send_stored. Qed.

(** ** A lost tail block *)

Lemma lookup_overlay pos bytes l i :
  (pos + length bytes <= length l)%nat ->
  overlay pos bytes l !! i =
    if (i <? pos)%nat then l !! i else if (i <? pos + length bytes)%nat then bytes !! (i - pos)%nat else l !! i.
Proof.
  intros H. unfold overlay. destruct (Nat.ltb_spec i pos).
  - rewrite lookup_app_l by (rewrite length_take; lia). by rewrite lookup_take_lt.
  - rewrite lookup_app_r, length_take, Nat.min_l by (rewrite ?length_take; lia).
    destruct (Nat.ltb_spec i (pos + length bytes)).
    + by rewrite lookup_app_l by lia.
    + rewrite lookup_app_r, lookup_drop by lia. f_equal. lia.
Qed.

(** The requests of a chunk of which the tail block [j] does not arrive. *)
Definition lossy_requests (j : nat) (blocks off : Z) (payload : list Z) : list (Z * list Z) :=
  map (tail_block payload) (seq 1 (j - 1) ++ seq (S j) (tail_count payload - j)) ++
  [(0, pad 512 (send_cdb blocks (if blocks =? 0 then Z.of_nat (length payload) else 0) off
                ++ take 496 payload))].

Definition untouched (j : nat) (t t' : TbHps) : Prop :=
  tb_ok t' /\ upload_open t' = upload_open t /\ upload t' = upload t /\
  (forall i, (i < 512)%nat -> tail t' !! (512 * (j - 1) + i)%nat = tail t !! (512 * (j - 1) + i)%nat) /\
  tail_seen t' !! j = tail_seen t !! j.

Lemma tails_untouched j payload ks t :
  (1 <= j)%nat -> Forall (fun k => 1 <= k <= 128 /\ k <> j)%nat ks -> tb_ok t ->
  exists t', run_requests (map (tail_block payload) ks) t = Some t' /\ untouched j t t' /\
    forall k, (1 <= k)%nat -> k ∈ ks \/ tail_seen t !! k = Some true -> tail_seen t' !! k = Some true.
Proof.
  intros Hj Hks. revert t. induction Hks as [|k ks [Hk Hne] _ IH]; intros t Hok.
  { exists t. split; [done|]. split; [by split_and!|]. intros k _ [Hk|Hk]; [by apply elem_of_nil in Hk|done]. }
  cbn [map run_requests]. unfold tail_block at 1. cbn [run_requests]. unfold request.
  change TAIL_BLKS with 128. destruct (Z.leb_spec 1 (Z.of_nat k)); [|lia].
  destruct (Z.leb_spec (Z.of_nat k) 128); [|lia]. cbn [andb mbind option_bind].
  set (block := pad 512 _). assert (Hb : length block = 512%nat) by (apply pad_length; rewrite length_take; lia).
  rewrite (take_ge block) by lia. rewrite Nat2Z.id.
  replace (Z.to_nat ((Z.of_nat k - 1) * 512)) with (512 * (k - 1))%nat by lia.
  destruct Hok as [Hl1 Hl2]. rewrite tail_bytes_eq in Hl1.
  match goal with |- context [run_requests _ ?x] => set (t1 := x) end.
  assert (Hok1 : tb_ok t1).
  { split; unfold t1; cbn [tail tail_seen modify_field]; [|by rewrite length_insert].
    rewrite overlay_length, tail_bytes_eq; rewrite ?Hb; lia. }
  destruct (IH t1 Hok1) as (t' & Hrun & (H1 & H2 & H3 & H4 & H5) & Hseen). exists t'. split; [done|].
  split; [split; [done|]; split; [done|]; split; [done|]; split|].
  - intros i Hi. rewrite H4 by done. unfold t1. cbn [tail modify_field].
    rewrite lookup_overlay by lia. destruct (Nat.ltb_spec (512 * (j - 1) + i) (512 * (k - 1))); [done|].
    destruct (Nat.ltb_spec (512 * (j - 1) + i) (512 * (k - 1) + length block)); [lia|done].
  - rewrite H5. unfold t1. cbn [tail_seen modify_field]. by rewrite list_lookup_insert_ne.
  - assert (Hlen : length (tail_seen t) = 129%nat) by exact Hl2.
    intros k' Hk' Hin. apply Hseen; [done|]. unfold t1. cbn [tail_seen modify_field].
    destruct (decide (k' = k)) as [->|Hkk]; [right; apply list_lookup_insert_eq; change (k < length (tail_seen t))%nat; lia|].
    rewrite list_lookup_insert_ne by done. destruct Hin as [Hin|Hin]; [|by right].
    apply elem_of_cons in Hin as [->|Hin]; [done|by left].
Qed.

Lemma seek_found ks t :
  (forall k, k ∈ ks -> tail_seen t !! k = Some true) -> fold_left seek_missing ks t = t.
Proof.
  intros H. induction ks as [|k ks IH]; [done|]. cbn [fold_left]. unfold seek_missing at 2.
  rewrite H by (by apply elem_of_cons; left). apply IH. intros k' Hk'. apply H. by apply elem_of_cons; right.
Qed.

Lemma seek_lost j n t :
  (1 <= j <= n)%nat -> last_missing t = -1 -> last_missing_cnt t = 0 -> tail_seen t !! j = Some false ->
  (forall k, (1 <= k <= n)%nat -> k <> j -> tail_seen t !! k = Some true) ->
  last_missing (fold_left seek_missing (seq 1 n) t) = Z.of_nat j /\
  last_missing_cnt (fold_left seek_missing (seq 1 n) t) = 1.
Proof.
  intros Hj Hm Hc Hlost Hseen.
  replace (seq 1 n) with (seq 1 (j - 1) ++ j :: seq (S j) (n - j)).
  2: { replace n with (j - 1 + (1 + (n - j)))%nat at 2 by lia. rewrite !seq_app. cbn [seq app].
       f_equal; f_equal; [lia|]. f_equal. lia. }
  rewrite fold_left_app, (seek_found (seq 1 (j - 1)) t).
  2: { intros k Hk. apply elem_of_seq in Hk. apply Hseen; lia. }
  cbn [fold_left]. unfold seek_missing at 2 4. rewrite Hlost, Hm. cbn [default from_option id Z.ltb Z.compare].
  rewrite seek_found.
  2: { intros k Hk. apply elem_of_seq in Hk. cbn [tail_seen modify_field]. apply Hseen; lia. }
  cbn. by rewrite Hc.
Qed.

(** C39: a lost tail block is silent and leaves old data.  When a chunk that was
    stored is followed by one of at least the same length of which the tail block
    [j] does not arrive, the service reports success; but the file holds, in the
    place of that block, the bytes of the chunk before it; and the search, and
    only the search, names the block and counts one. *)
Theorem lost_tail_block (t : TbHps) (blocks0 blocks1 off0 off1 : Z) (p0 p1 : list Z) (j : nat) :
  tb_ok t -> upload_open t = true ->
  length_field blocks0 p0 -> length_field blocks1 p1 -> 0 <= off0 < 2 ^ 24 -> 0 <= off1 < 2 ^ 24 ->
  (length p1 <= length p0)%nat -> (1 <= j <= tail_count p1)%nat ->
  exists t', run_requests (chunk_requests blocks0 off0 p0 ++ lossy_requests j blocks1 off1 p1) t = Some t' /\
    status t' = 0 /\ last_missing t' = Z.of_nat j /\ last_missing_cnt t' = 1 /\
    forall i, (i < 512)%nat -> (496 + 512 * (j - 1) + i < length p1)%nat ->
      upload t' !! (Z.to_nat (off1 * 512) + (496 + 512 * (j - 1) + i))%nat = p0 !! (496 + 512 * (j - 1) + i)%nat.
Proof.
  intros Hok Hopen Hf0 Hf1 Ho0 Ho1 Hlen Hj. rewrite run_requests_app.
  destruct (chunk_stored blocks0 off0 p0 Hf0 Ho0 t Hok Hopen)
    as (t1 & -> & Hok1 & _ & _ & _ & Hopen1 & _ & _ & Htail & Hseen).
  cbn [mbind option_bind]. unfold lossy_requests. rewrite run_requests_app.
  pose proof (chunk_bytes_ok blocks1 off1 p1 Hf1) as [Hbytes Hmax].
  assert (Htc : (tail_count p1 <= 128)%nat).
  { unfold tail_count, CHUNK_MAX in *. assert (Hb := Nat.div_mod_eq (length p1 - 496 + 511) 512). lia. }
  destruct (tails_untouched j p1 (seq 1 (j - 1) ++ seq (S j) (tail_count p1 - j)) t1)
    as (t2 & -> & (Hok2 & Hopen2 & _ & Hkeep & Hsj) & Hall); [lia| |done|].
  { apply Forall_app. split; apply Forall_forall; intros k Hk; apply elem_of_seq in Hk; lia. }
  cbn [mbind option_bind run_requests]. rewrite Hopen1 in Hopen2.
  destruct (command_stored blocks1 off1 p1 Hf1 Ho1 t2 Hok2 Hopen2)
    as (t' & -> & _ & Hcl & Hup & Hst & _ & _ & _ & _ & _ & Hmiss). cbn [mbind option_bind].
  exists t'. destruct (Hmiss t2 eq_refl) as [-> ->]. split; [done|]. split; [done|].
  rewrite Hseen in Hsj. rewrite lookup_replicate_2 in Hsj by (change (Z.to_nat (TAIL_BLKS + 1)) with 129%nat; lia).
  assert (Hd : forall A B D : Prop, A /\ B -> D -> A /\ B /\ D) by tauto. apply Hd; clear Hd.
  - unfold diagnose. rewrite Hbytes. cbn zeta. unfold tail_count in *.
    set (n := ((length p1 - 496 + 511) / 512)%nat) in *.
    assert (Hb := Nat.div_mod_eq (length p1 - 496 + 511) 512). fold n in Hb.
    assert (Hb' := Nat.mod_upper_bound (length p1 - 496 + 511) 512 ltac:(lia)).
    destruct (Z.ltb_spec 496 (Z.of_nat (length p1))); [|lia].
    replace (Z.to_nat ((Z.of_nat (length p1) - 496 + 511) / 512)) with n
      by (unfold n; rewrite <- (Nat2Z.id (_ / _)), Nat2Z.inj_div; f_equal; f_equal; lia).
    apply seek_lost; try done.
    intros k Hk Hkj. apply Hall; [lia|]. left. apply elem_of_app. rewrite !elem_of_seq. lia.
  - intros i Hi Hin. rewrite Hup, lookup_overlay.
    2: { rewrite Hcl, length_app, length_replicate. lia. }
    rewrite Hcl. destruct (Nat.ltb_spec (Z.to_nat (off1 * 512) + (496 + 512 * (j - 1) + i)) (Z.to_nat (off1 * 512))); [lia|].
    destruct (Nat.ltb_spec (Z.to_nat (off1 * 512) + (496 + 512 * (j - 1) + i)) (Z.to_nat (off1 * 512) + length p1)); [|lia].
    replace (Z.to_nat (off1 * 512) + (496 + 512 * (j - 1) + i) - Z.to_nat (off1 * 512))%nat
      with (496 + 512 * (j - 1) + i)%nat by lia.
    rewrite lookup_app_r, length_take, Nat.min_l by (rewrite ?length_take; lia).
    replace (496 + 512 * (j - 1) + i - 496)%nat with (512 * (j - 1) + i)%nat by lia.
    rewrite lookup_take_lt, Hkeep by lia.
    transitivity (take (length p0 - 496) (tail t1) !! (512 * (j - 1) + i)%nat); [by rewrite lookup_take_lt by lia|].
    by rewrite Htail, lookup_drop, Nat.add_assoc.
Qed.

(** ** Fetching a file *)

Definition get_request (idx : Z) (blocks k : nat) : Z * list Z :=
  (0, pad 512 ([0xD1; idx] ++ enc32 (Z.of_nat (k * blocks)) ++ [Z.of_nat blocks])).

(** The responses of a series of requests. *)
Fixpoint run_gets (rs : list (Z * list Z)) (t : TbHps) : option (list (list Z) * TbHps) :=
  match rs with
  | [] => Some ([], t)
  | (lba, buf) :: rs =>
      t ← request lba buf t;
      '(answers, t') ← run_gets rs t;
      Some (resp t :: answers, t')
  end.

Lemma run_gets_snoc rs r t :
  run_gets (rs ++ [r]) t =
  '(answers, t1) ← run_gets rs t; t2 ← request r.1 r.2 t1; Some (answers ++ [resp t2], t2).
Proof.
  revert t. induction rs as [|[lba buf] rs IH]; intros t; cbn [app run_gets].
  - destruct r as [lba buf]. cbn [fst snd mbind option_bind]. by destruct (request lba buf t).
  - destruct (request lba buf t) as [t1|]; [|done]. cbn [mbind option_bind]. rewrite IH.
    destruct (run_gets rs t1) as [[answers t2]|]; [|done]. cbn [mbind option_bind].
    by destruct (request r.1 r.2 t2).
Qed.

Section Get.
Context (f : TbFile) (idx : nat) (blocks : nat).
Context (Hidx : (idx < 256)%nat) (Hblocks : (1 <= blocks <= 16)%nat).
Context (Hsize : Z.of_nat (length (tf_data f)) < 2 ^ 31).

Let d : list Z := tf_data f.
Let step : nat := (blocks * 4096)%nat.

(** The handler on a request of the series. *)
Lemma get_step k t :
  files t !! idx = Some f -> (k = 0%nat \/ get_idx t = Z.of_nat idx) -> Z.of_nat (k * step) < 2 ^ 32 ->
  (get_request (Z.of_nat idx) blocks k).1 = 0 /\
  (((k * step <= length d)%nat -> exists t',
      request 0 (get_request (Z.of_nat idx) blocks k).2 t = Some t' /\ files t' = files t /\
      resp t' = take step (drop (k * step) d) /\ status t' = 0 /\
      get_idx t' = if (k * step =? length d)%nat then -1 else Z.of_nat idx) /\
   ((length d < k * step)%nat -> request 0 (get_request (Z.of_nat idx) blocks k).2 t = None)).
Proof.
  intros Hfile Hk Hk32. split; [done|].
  assert (Hlen : (idx < length (files t))%nat) by (by apply lookup_lt_Some in Hfile).
  assert (Hko : 0 <= Z.of_nat (k * blocks) < 2 ^ 32).
  { change (2 ^ 32) with 4294967296. change (2 ^ 32) with 4294967296 in Hk32. unfold step in Hk32. lia. }
  assert (Hop : request 0 (get_request (Z.of_nat idx) blocks k).2 t =
    op_get (get_request (Z.of_nat idx) blocks k).2 (t <| reqs := u64 (reqs t + 1) |> <| resp := [] |> <| status := 2 |>)).
  { unfold request. by change (byte (get_request (Z.of_nat idx) blocks k).2 0) with 0xD1. }
  rewrite Hop. unfold op_get. clear Hop.
  assert (Hoff : be32 (get_request (Z.of_nat idx) blocks k).2 2 = Z.of_nat (k * blocks)).
  { unfold be32, get_request, pad, byte, enc32. cbn [snd app lookup list_lookup Nat.add default from_option id].
    by apply dec32. }
  rewrite Hoff. change (byte (get_request (Z.of_nat idx) blocks k).2 6) with (Z.of_nat blocks).
  change (byte (get_request (Z.of_nat idx) blocks k).2 1) with (Z.of_nat idx).
  destruct (Z.eqb_spec (Z.of_nat blocks) 0); [lia|].
  destruct (Z.ltb_spec CHUNK_MAX (Z.of_nat blocks * 4096)); [unfold CHUNK_MAX in *; lia|].
  set (t0 := t <| reqs := _ |> <| resp := [] |> <| status := 2 |>).
  change (files t0) with (files t). destruct (Z.ltb_spec (Z.of_nat idx) (Z.of_nat (length (files t)))); [|lia].
  set (t1 := if Z.of_nat (k * blocks) =? 0 then _ else _).
  assert (Ht1 : files t1 = files t /\ get_idx t1 = Z.of_nat idx).
  { unfold t1. destruct (Z.eqb_spec (Z.of_nat (k * blocks)) 0); [done|].
    destruct Hk as [->|Hk]; [lia|]. by split. }
  clearbody t1. destruct Ht1 as [Hf1 Hg1]. rewrite Hg1. destruct (Z.ltb_spec (Z.of_nat idx) 0); [lia|].
  rewrite Hf1, Nat2Z.id, Hfile. cbn [mbind option_bind]. fold d.
  replace (Z.of_nat (k * blocks) * 4096) with (Z.of_nat (k * step)) by (unfold step; lia).
  split; intros Hle; [|by destruct (Z.ltb_spec (Z.of_nat (length d)) (Z.of_nat (k * step))); [|lia]].
  destruct (Z.ltb_spec (Z.of_nat (length d)) (Z.of_nat (k * step))); [lia|].
  destruct (Z.leb_spec (Z.of_nat (length d)) (Z.of_nat (k * step))) as [Hend|Hend].
  - assert (E : (k * step = length d)%nat) by lia. cbn [Z.eqb]. eexists. split; [reflexivity|].
    split; [done|]. split; [|split; [done|]].
    + rewrite (drop_ge d (k * step)) by lia. by rewrite take_nil.
    + destruct (Nat.eqb_spec (k * step) (length d)); [done|lia].
  - rewrite uwrap_small by (unfold d, step in *; lia).
    destruct (Z.eqb_spec (Z.min (Z.of_nat blocks * 4096) (Z.of_nat (length d) - Z.of_nat (k * step))) 0); [lia|].
    eexists. split; [reflexivity|]. split; [done|]. split; [|split; [done|]].
    + cbn [resp modify_field]. rewrite Nat2Z.id.
      destruct (Z.le_ge_cases (Z.of_nat blocks * 4096) (Z.of_nat (length d) - Z.of_nat (k * step))).
      * rewrite Z.min_l by done. f_equal. unfold step. lia.
      * rewrite Z.min_r by done. rewrite !take_ge; [done|rewrite length_drop; unfold step in *; lia..].
    + destruct (Nat.eqb_spec (k * step) (length d)); [lia|done].
Qed.

Lemma gets_run n t :
  files t !! idx = Some f -> ((n - 1) * step <= length d)%nat -> (forall j, (j < n - 1)%nat -> (j * step < length d)%nat) ->
  exists t', run_gets (map (get_request (Z.of_nat idx) blocks) (seq 0 n)) t =
      Some (map (fun k => take step (drop (k * step) d)) (seq 0 n), t') /\
    files t' = files t /\ (n <> 0%nat -> status t' = 0 /\
      get_idx t' = if ((n - 1) * step =? length d)%nat then -1 else Z.of_nat idx).
Proof.
  intros Hfile. induction n as [|n IH]; intros Hn Hj; [by exists t|].
  rewrite Nat.sub_succ, Nat.sub_0_r in *.
  destruct IH as (t1 & Hrun & Hf1 & Hst).
  { destruct n; [lia|]. rewrite Nat.sub_succ, Nat.sub_0_r. specialize (Hj n). lia. }
  { intros j Hj'. apply Hj. lia. }
  rewrite seq_S, !map_app. cbn [map Nat.add]. rewrite run_gets_snoc, Hrun. cbn [mbind option_bind].
  assert (Hlim : Z.of_nat (n * step) < 2 ^ 32).
  { change (2 ^ 32) with 4294967296. unfold d in Hn. change (2 ^ 31) with 2147483648 in Hsize. lia. }
  destruct (get_step n t1) as (-> & Hok & _); [by rewrite Hf1| |done|].
  { destruct n; [by left|right]. destruct Hst as [_ ->]; [done|]. rewrite Nat.sub_succ, Nat.sub_0_r.
    destruct (Nat.eqb_spec (n * step) (length d)) as [E|]; [|done]. specialize (Hj n). lia. }
  destruct (Hok Hn) as (t2 & -> & Hf2 & Hr2 & Hs2 & Hg2). cbn [mbind option_bind]. rewrite Hr2.
  exists t2. split; [done|]. split; [by rewrite Hf2, Hf1|]. done.
Qed.

End Get.

Lemma pieces_concat {A} (step n : nat) (d : list A) :
  concat (map (fun k => take step (drop (k * step) d)) (seq 0 n)) = take (n * step) d.
Proof.
  induction n as [|n IH]; [done|]. rewrite seq_S, map_app, concat_app, IH. cbn [map concat Nat.add].
  rewrite app_nil_r, <- take_add. f_equal. lia.
Qed.

(** A file fetched in chunks is returned exactly.  For any file up to 2 GB and
    any chunk of 1 to 16 blocks of 4096 bytes, the requests at successive offsets
    up to the first short answer return the file: every answer but the last is a
    full chunk, all succeed, and together they are its bytes.  A client that asks
    once more after a last answer that was short, but not empty, makes the
    service read past the end of the data. *)
Theorem get_file (t : TbHps) (f : TbFile) (idx blocks : nat) :
  files t !! idx = Some f -> (idx < 256)%nat -> (1 <= blocks <= 16)%nat ->
  Z.of_nat (length (tf_data f)) < 2 ^ 31 ->
  let last := (length (tf_data f) / (blocks * 4096))%nat in
  exists answers t',
    run_gets (map (get_request (Z.of_nat idx) blocks) (seq 0 (S last))) t = Some (answers, t') /\
    concat answers = tf_data f /\ status t' = 0 /\
    (forall k a, answers !! k = Some a -> if (k =? last)%nat
       then (length a < blocks * 4096)%nat else length a = (blocks * 4096)%nat) /\
    (get_idx t' = -1 <-> answers !! last = Some []) /\
    (answers !! last <> Some [] ->
       request 0 (get_request (Z.of_nat idx) blocks (S last)).2 t' = None).
Proof.
  intros Hfile Hidx Hb Hsize last. set (step := (blocks * 4096)%nat) in *. set (d := tf_data f) in *.
  assert (Hq := Nat.div_mod_eq (length d) step).
  assert (Hq' := Nat.mod_upper_bound (length d) step ltac:(unfold step; lia)). fold last in Hq.
  destruct (gets_run f idx blocks Hidx Hb Hsize (S last) t Hfile) as (t' & Hrun & Hf' & Hst).
  { fold d step. rewrite Nat.sub_succ, Nat.sub_0_r. nia. }
  { fold d step. intros j Hj. nia. }
  fold d step in Hrun, Hst. destruct Hst as [Hs Hg]; [done|]. rewrite Nat.sub_succ, Nat.sub_0_r in Hg.
  set (answers := map (fun k => take step (drop (k * step) d)) (seq 0 (S last))) in Hrun.
  assert (Hlk : forall k, (k <= last)%nat -> answers !! k = Some (take step (drop (k * step) d))).
  { intros k Hk. unfold answers. rewrite list_lookup_fmap, lookup_seq_lt by lia. done. }
  assert (Hempty : answers !! last = Some [] <-> (last * step = length d)%nat).
  { rewrite Hlk by lia. split; [intros [= E]|intros E; by rewrite drop_ge, take_nil by lia].
    apply (f_equal length) in E. rewrite length_take, length_drop in E. cbn in E. nia. }
  exists answers, t'. split; [done|]. split; [|split; [done|split; [|split]]].
  - unfold answers. rewrite pieces_concat. apply take_ge. nia.
  - intros k a Hk. assert (Hkl : (k <= last)%nat).
    { apply lookup_lt_Some in Hk. unfold answers in Hk. rewrite length_map, length_seq in Hk. lia. }
    rewrite Hlk in Hk by done. injection Hk as <-. rewrite length_take, length_drop.
    destruct (Nat.eqb_spec k last); nia.
  - rewrite Hempty, Hg. destruct (Nat.eqb_spec (last * step) (length d)); [done|]. split; [lia|done].
  - rewrite Hempty. intros Hne. destruct (get_step f idx blocks Hidx Hb Hsize (S last) t') as (_ & _ & Hub).
    + by rewrite Hf'.
    + right. rewrite Hg. by destruct (Nat.eqb_spec (last * step) (length d)).
    + fold d step. change (2 ^ 32) with 4294967296. change (2 ^ 31) with 2147483648 in Hsize.
      unfold d in *. unfold step in *. lia.
    + apply Hub. fold d step. nia.
Qed.

(** ** The response blocks *)

Definition response_length (block : list Z) : Z := be16 block 2 + 65536 * byte block 4.

Definition data_blocks (t : TbHps) (n : nat) : list Z :=
  concat (map (fun k => (fill (Z.of_nat (S k)) t).1) (seq 0 n)).

Lemma fill_data k t : exists m, (fill (Z.of_nat (S k)) t).1 = take 512 (drop (k * 512) (resp t)) ++ replicate m 0 /\
  length (fill (Z.of_nat (S k)) t).1 = 512%nat.
Proof.
  unfold fill. cbn [fst]. destruct (Z.eqb_spec (Z.of_nat (S k)) 0); [lia|].
  replace (Z.to_nat ((Z.of_nat (S k) - 1) * 512)) with (k * 512)%nat by lia.
  destruct (Nat.ltb_spec (k * 512) (length (resp t))).
  - eexists. split; [reflexivity|]. apply pad_length. rewrite length_take. lia.
  - exists 512%nat. rewrite drop_ge, take_nil by done. split; [done|apply length_replicate].
Qed.

Lemma data_blocks_prefix t n :
  exists m, data_blocks t n = take (n * 512) (resp t) ++ replicate m 0 /\ length (data_blocks t n) = (n * 512)%nat.
Proof.
  induction n as [|n IH]; [by exists 0%nat|]. destruct IH as (m & E & Hl).
  unfold data_blocks in *. rewrite seq_S, map_app, concat_app. cbn [map concat Nat.add]. rewrite app_nil_r.
  destruct (fill_data n t) as (m2 & E2 & Hl2). rewrite length_app, Hl, Hl2.
  destruct (Nat.le_gt_cases (n * 512) (length (resp t))) as [Hle|Hgt].
  - exists m2. split; [|lia]. rewrite E, E2.
    assert (m = 0%nat) as ->.
    { apply (f_equal length) in E. rewrite Hl, length_app, length_take_le, length_replicate in E by done. lia. }
    cbn [replicate]. rewrite app_nil_r, app_assoc, <- take_add. do 2 f_equal. lia.
  - exists (m + m2)%nat. split; [|lia]. rewrite E, E2, drop_ge, take_nil by lia. cbn [app].
    rewrite !take_ge by lia. by rewrite <- app_assoc, <- replicate_add.
Qed.

(** The response blocks carry the response.  For a response of up to 0x1FFFF
    bytes - which a chunk of 65536 bytes needs, and 16 bits do not express - the
    status block gives the status, the signature and the length, and the data
    blocks up to that length give its bytes, padded with zeros to whole blocks. *)
Theorem response_blocks (t : TbHps) (n : nat) :
  0 <= status t < 256 -> Z.of_nat (length (resp t)) <= 0x1FFFF -> (length (resp t) <= n * 512)%nat ->
  let block := (fill 0 t).1 in
  length block = 512%nat /\ byte block 0 = status t /\ byte block 1 = TB_SIG /\
  Forall (fun b => 0 <= b < 256) block /\
  response_length block = Z.of_nat (length (resp t)) /\
  take (Z.to_nat (response_length block)) (data_blocks t n) = resp t.
Proof.
  intros Hs Hl Hn. cbn zeta. set (len := Z.of_nat (length (resp t))) in *.
  assert (Hfull : full_length t = len).
  { unfold full_length. fold len. destruct (Z.ltb_spec 0x1FFFF len); lia. }
  assert (H2 : Z.shiftr (u16 len) 8 = len `mod` 65536 / 256).
  { rewrite Z.shiftr_div_pow2 by lia. done. }
  assert (H3 : Z.land (u16 len) 0xFF = (len `mod` 65536) `mod` 256) by (rewrite land_255; done).
  assert (H4 : Z.land (Z.shiftr len 16) 1 = (len / 65536) `mod` 2).
  { rewrite Z.shiftr_div_pow2 by lia. exact (land_ones_mod (len / 65536) 1 ltac:(lia)). }
  assert (Hblock : (fill 0 t).1 = pad 512 [status t; TB_SIG; (len `mod` 65536) / 256; (len `mod` 65536) `mod` 256;
                                          (len / 65536) `mod` 2]).
  { unfold fill. cbn [Z.eqb fst]. by rewrite Hfull, H2, H3, H4. }
  rewrite Hblock.
  assert (Hr : response_length (pad 512 [status t; TB_SIG; (len `mod` 65536) / 256; (len `mod` 65536) `mod` 256;
                                          (len / 65536) `mod` 2]) = len).
  { unfold response_length, be16, byte, pad. cbn [app lookup list_lookup default from_option id Nat.add].
    rewrite be_join by (apply Z.mod_pos_bound; lia). unfold len in *. div_lia. }
  rewrite Hr. split_and!; try done.
  - apply Forall_app. split; [|apply Forall_replicate; lia].
    repeat (constructor; [unfold TB_SIG, len in *; done || div_lia|]). constructor.
  - unfold len. rewrite Nat2Z.id. destruct (data_blocks_prefix t n) as (m & -> & _).
    rewrite (take_ge (resp t)) by done. by rewrite take_app_length.
Qed.

(** ** The directory *)

(** A client's reading of an entry: index, type, name and size. *)
Definition read_entry (e : list Z) : Z * Z * list Z * Z :=
  (byte e 0, byte e 1, before_nul (take 34 (drop 2 e)), be32 e 36).

Lemma file_entry_length i f : length (file_entry i f) = 40%nat.
Proof.
  unfold file_entry. cbn zeta. rewrite !length_app, pad_length by (rewrite length_take; lia). done.
Qed.

Lemma be32_ext l l' i j : (forall k, byte l (i + k) = byte l' (j + k)) -> be32 l i = be32 l' j.
Proof.
  intros H. pose proof (H 0%nat) as H0. rewrite !Nat.add_0_r in H0. unfold be32. by rewrite H0, !H.
Qed.

Lemma read_file_entry i f :
  (i < 256)%nat -> Forall (fun c => c <> 0) (tf_name f) -> Z.of_nat (length (tf_data f)) < 2 ^ 32 ->
  read_entry (file_entry i f) = (Z.of_nat i, 1, take 32 (tf_name f), Z.of_nat (length (tf_data f))).
Proof.
  intros Hi Hn Hs. unfold read_entry.
  assert (Hp : length (pad 34 (take 32 (tf_name f))) = 34%nat) by (apply pad_length; rewrite length_take; lia).
  set (size := Z.of_nat (length (tf_data f))) in *.
  set (sz := [size / 16777216; (size / 65536) `mod` 256; (size / 256) `mod` 256; size `mod` 256]).
  assert (He : file_entry i f = [Z.of_nat i; 1] ++ pad 34 (take 32 (tf_name f)) ++ sz).
  { unfold file_entry, sz. fold size. cbn zeta. rewrite (uwrap_small 8) by lia.
    rewrite (uwrap_small 32 size) by (unfold size; lia). rewrite !Z.shiftr_div_pow2 by lia. done. }
  rewrite He. apply f_equal2; [apply f_equal2; [done|]|].
  - rewrite drop_app_length' by done.
    rewrite take_app_length' by done. apply before_nul_name. by apply Forall_take.
  - assert (Hb : forall k, byte ([Z.of_nat i; 1] ++ pad 34 (take 32 (tf_name f)) ++ sz) (36 + k) = byte sz k).
    { intros k. unfold byte. rewrite app_assoc, lookup_app_r by (rewrite length_app, Hp; cbn; lia).
      rewrite length_app, Hp. cbn [length]. by replace (36 + k - (2 + 34))%nat with k by lia. }
    transitivity (be32 sz 0); [|apply dec32; unfold size in *; lia].
    by apply be32_ext.
Qed.

Lemma entries_slice fs j i f :
  fs !! i = Some f -> take 40 (drop (40 * i) (concat (imap (fun k => file_entry (j + k)) fs))) = file_entry (j + i) f.
Proof.
  revert j i. induction fs as [|g fs IH]; intros j i Hf; [done|].
  rewrite imap_cons. cbn [concat].
  replace (imap ((fun k => file_entry (j + k)%nat) ∘ S) fs) with (imap (fun k => file_entry (S j + k)%nat) fs).
  2: { apply imap_ext. intros k x _. cbn. by rewrite Nat.add_succ_r. }
  destruct i as [|i]; cbn [lookup list_lookup] in Hf.
  - injection Hf as ->. rewrite Nat.mul_0_r, Nat.add_0_r. change (drop 0 ?l) with l.
    by rewrite take_app_length' by (by rewrite file_entry_length).
  - replace (40 * S i)%nat with (length (file_entry (j + 0) g) + 40 * i)%nat by (rewrite file_entry_length; lia).
    rewrite drop_app_add, (IH (S j) i Hf). by rewrite Nat.add_succ_r.
Qed.

Lemma entries_length fs : length (concat (imap file_entry fs)) = (40 * length fs)%nat.
Proof.
  induction fs as [|f fs IH] using rev_ind; [done|].
  rewrite imap_app, concat_app, !length_app, IH. cbn [imap concat].
  rewrite app_nil_r, file_entry_length. cbn. lia.
Qed.

(** The directory lists the files.  The answer to the list command is one entry
    of 40 bytes per file, in order, from which a client reads the index that the
    read command takes, the type, the name up to 32 bytes and the exact size; the
    count command gives their number modulo 256. *)
Theorem list_files (t : TbHps) (i : nat) (f : TbFile) :
  files t !! i = Some f -> (i < 256)%nat -> Forall (fun c => c <> 0) (tf_name f) ->
  Z.of_nat (length (tf_data f)) < 2 ^ 32 ->
  exists t1 t2, request 0 (pad 512 [0xD0]) t = Some t1 /\ request 0 (pad 512 [0xD2]) t = Some t2 /\
    length (resp t1) = (40 * length (files t))%nat /\
    read_entry (take 40 (drop (40 * i) (resp t1)))
      = (Z.of_nat i, 1, take 32 (tf_name f), Z.of_nat (length (tf_data f))) /\
    status t1 = 0 /\ resp t2 = [Z.of_nat (length (files t)) `mod` 256] /\ status t2 = 0.
Proof.
  intros Hf Hi Hn Hs. eexists _, _. split; [reflexivity|]. split; [reflexivity|].
  cbn [op_list resp status files modify_field app]. split.
  - apply entries_length.
  - pose proof (entries_slice (files t) 0 i f Hf) as He. cbn [Nat.add] in He.
    change (fun k => file_entry k) with file_entry in He. rewrite He. by rewrite read_file_entry.
Qed.

(** ** Examples *)

Definition test_service : TbHps := TbHps_new [MkTbFile [65; 66] [1; 2; 3]; MkTbFile [67] []].

Lemma send_file_witness :
  exists t', run_requests (send_requests [65] 1 [7; 8; 9]) test_service = Some t' /\
    upload_name t' = [65] /\ upload t' = [7; 8; 9] /\ upload_open t' = false /\ status t' = 0 /\
    last_missing t' = -1.
Proof.
  apply (send_file test_service [65] [7; 8; 9] 1); [apply TbHps_new_ok|done| |lia|done].
  split; [cbn; lia|]. repeat constructor; discriminate.
Defined.

Lemma lost_tail_block_witness :
  exists t', run_requests (chunk_requests 0 0 (replicate 600 1) ++ lossy_requests 1 0 2 (replicate 600 2))
      (test_service <| upload_open := true |>) = Some t' /\
    status t' = 0 /\ last_missing t' = 1 /\ upload t' !! (1024 + 500)%nat = Some 1.
Proof.
  destruct (lost_tail_block (test_service <| upload_open := true |>) 0 0 0 2 (replicate 600 1) (replicate 600 2) 1)
    as (t' & Hrun & Hs & Hm & _ & Hup).
  - apply TbHps_new_ok.
  - reflexivity.
  - left. by vm_compute.
  - left. by vm_compute.
  - by vm_compute.
  - by vm_compute.
  - reflexivity.
  - vm_compute. lia.
  - exists t'. split; [exact Hrun|]. split; [exact Hs|]. split; [exact Hm|].
    refine (eq_trans _ (eq_trans (Hup 4%nat _ _) _)); [reflexivity|lia|apply Nat.ltb_lt; reflexivity|reflexivity].
Defined.

Lemma get_file_witness :
  exists answers t', run_gets (map (get_request 0 1) (seq 0 1)) test_service = Some (answers, t') /\
    concat answers = [1; 2; 3].
Proof.
  destruct (get_file test_service (MkTbFile [65; 66] [1; 2; 3]) 0 1) as (answers & t' & Hrun & Hc & _);
    [reflexivity|lia|lia|reflexivity|]. exists answers, t'. split; [exact Hrun|exact Hc].
Defined.

Lemma response_blocks_witness :
  let t := test_service <| resp := [1; 2; 3] |> in
  take (Z.to_nat (response_length (fill 0 t).1)) (data_blocks t 1) = [1; 2; 3].
Proof.
  destruct (response_blocks (test_service <| resp := [1; 2; 3] |>) 1) as (_ & _ & _ & _ & _ & H);
    [done|done|cbn; lia|exact H].
Defined.

Lemma list_files_witness :
  exists t1 t2, request 0 (pad 512 [0xD0]) test_service = Some t1 /\
    request 0 (pad 512 [0xD2]) test_service = Some t2 /\
    length (resp t1) = 80%nat /\ read_entry (take 40 (resp t1)) = (0, 1, [65; 66], 3) /\ resp t2 = [2].
Proof.
  destruct (list_files test_service 0 (MkTbFile [65; 66] [1; 2; 3]))
    as (t1 & t2 & H1 & H2 & H3 & H4 & _ & H5 & _); [reflexivity|lia|by repeat constructor|reflexivity|].
  exists t1, t2. split_and!; [exact H1|exact H2|exact H3|exact H4|exact H5].
Defined.
