(* ===== verification/ScsiHps.v ===== *)
(** * The block device of the SCSI bench (scsi_bench.cpp, [Hps])

    The bench stands in for the host processor: it serves the disk slots and the
    Toolbox slot of the core, one request at a time.  A request waits for a
    latency, then an acknowledge goes up, 256 words are streamed to the core or
    captured from it, and the acknowledge falls.  [service] is called once per
    clock; it sees the output pins of the core ([CorePins]) and drives the input
    pins ([Pins]).  The core itself is a parameter.

    The theorems: whatever the core does, the machine stays within its bounds and
    returns to the idle state; and against a core that keeps the handshake, the
    machine implements an abstract host that serves a list of requests, each in
    one step, whatever stalls are injected. *)

From S2P Require Import Prelude Toolbox.

(** ** The data *)

(** The content of the disk. *)
Definition ramp (off : Z) : Z :=
  u8 (Z.lxor (Z.lxor (Z.land off 0xff) (Z.land (Z.shiftr off 8) 0xff)) (Z.land (Z.shiftr off 16) 0xff)).

(** A 16-bit word of two bytes, the first one in the high half. *)
Definition pack (b0 b1 : Z) : Z := Z.lor (Z.shiftl b0 8) b1.

(** ** The state *)

Inductive St :=
  | IDLE | WAIT | STREAM | WWAIT | WCAP | FINISH
  | TBWWAIT | TBWCAP | TBRWAIT | TBRSTREAM | TBFINISH | TBAHOLD | TBRDEFER | TBWDEFER.

#[export] Instance St_eq_dec : EqDecision St.
Proof. solve_decision. Defined.

(** The settings of a run. *)
Record Config := MkConfig {
  latency : Z;
  tb_slow_every : Z;
  tb_slow_latency : Z;
  tb_defer_every : Z;
  tb_defer_latency : Z;
  tb_wdefer_every : Z;
  tb_wdefer_latency : Z;
  tb_ack_hold : Z }.

Definition Config_new : Config := MkConfig 600 0 0 0 0 0 0 0.

Record Hps := MkHps {
  st : St;
  t : Z;
  wi : Z;
  tgt : Z;
  was_write : bool;
  lba : Z;
  fetches : Z;
  flushes : Z;
  written : list Z;
  tbblk : list Z;
  tb_reads : Z;
  cur_tb_latency : Z;
  tb_defers : Z;
  tb_writes : Z;
  tb_wdefers : Z;
  tb_wlost : Z;
  lba_at_defer : Z }.

#[export] Instance eta_Hps : Eta Hps := fun h =>
  MkHps (st h) (t h) (wi h) (tgt h) (was_write h) (lba h) (fetches h) (flushes h) (written h) (tbblk h)
    (tb_reads h) (cur_tb_latency h) (tb_defers h) (tb_writes h) (tb_wdefers h) (tb_wlost h) (lba_at_defer h).

Definition Hps_new : Hps := MkHps IDLE 0 0 0 false 0 0 0 [] (replicate 512 0) 0 600 0 0 0 0 0.

Definition Hps_reset (c : Config) (h : Hps) : Hps :=
  MkHps IDLE 0 0 0 false (lba h) 0 0 [] (tbblk h) 0 (latency c) 0 0 0 0 (lba_at_defer h).

(** The output pins of the core that the machine reads. *)
Record CorePins := MkCorePins {
  io_rd : Z;
  io_wr : Z;
  io_lba_0 : Z;
  io_lba_1 : Z;
  sd_buff_din_0 : Z;
  sd_buff_din_1 : Z;
  tb_rd : bool;
  tb_wr : bool;
  tb_lba : Z;
  tb_buff_din : Z }.

(** The input pins of the core that the machine drives. *)
Record Pins := MkPins {
  sd_buff_wr : bool;
  sd_buff_addr : Z;
  sd_buff_dout : Z;
  io_ack : Z;
  tb_ack : bool }.

#[export] Instance eta_Pins : Eta Pins := fun p =>
  MkPins (sd_buff_wr p) (sd_buff_addr p) (sd_buff_dout p) (io_ack p) (tb_ack p).

Definition Pins_zero : Pins := MkPins false 0 0 0 false.

Record Bench := MkBench { hps : Hps; pins : Pins; tbx : TbHps }.

#[export] Instance eta_Bench : Eta Bench := fun b => MkBench (hps b) (pins b) (tbx b).

(** ** One call of [service] *)

(** [++n] on an [int]: an overflow is undefined behaviour. *)
Definition incr (n : Z) : option Z := if n <? 2 ^ 31 - 1 then Some (n + 1) else None.

(** [if (++t >= limit) { ... }]. *)
Definition wait_for (limit : Z) (go : Hps -> option Bench) (b : Bench) : option Bench :=
  n ← incr (t (hps b));
  let h := (hps b) <| t := n |> in
  if limit <=? n then go h else Some (b <| hps := h |>).

(** [every && (count % every) == 0]. *)
Definition every_th (every count : Z) : bool := negb (every =? 0) && (count `mod` u64 every =? 0).

(** The two disk slots. *)
Fixpoint poll_disks (i : CorePins) (ks : list Z) (h : Hps) : Hps :=
  match ks with
  | [] => h
  | k :: ks =>
    if Z.land (Z.shiftr (io_rd i) k) 1 =? 1 then
      h <| tgt := k |> <| lba := if k =? 0 then io_lba_0 i else io_lba_1 i |> <| was_write := false |>
        <| st := WAIT |> <| t := 0 |>
    else if Z.land (Z.shiftr (io_wr i) k) 1 =? 1 then
      h <| tgt := k |> <| lba := if k =? 0 then io_lba_0 i else io_lba_1 i |> <| was_write := true |>
        <| st := WWAIT |> <| t := 0 |>
    else poll_disks i ks h
  end.

(** The Toolbox slot, when no disk slot asked. *)
Definition poll_tb (c : Config) (i : CorePins) (h : Hps) (x : TbHps) : Hps * TbHps :=
  if bool_decide (st h = IDLE) && tb_wr i then
    let h := h <| tb_writes := u64 (tb_writes h + 1) |> in
    if every_th (tb_wdefer_every c) (tb_writes h) then
      (h <| tb_wdefers := u64 (tb_wdefers h + 1) |> <| lba_at_defer := tb_lba i |> <| st := TBWDEFER |> <| t := 0 |>, x)
    else (h <| lba := tb_lba i |> <| st := TBWWAIT |> <| t := 0 |>, x)
  else if bool_decide (st h = IDLE) && tb_rd i then
    let h := h <| tb_reads := u64 (tb_reads h + 1) |> in
    if every_th (tb_defer_every c) (tb_reads h) then
      (h <| tb_defers := u64 (tb_defers h + 1) |> <| st := TBRDEFER |> <| t := 0 |>, x)
    else
      let h := h <| lba := tb_lba i |> <| tbblk := (fill (tb_lba i) x).1 |> in
      (h <| cur_tb_latency := if every_th (tb_slow_every c) (tb_reads h) then tb_slow_latency c else latency c |>
         <| st := TBRWAIT |> <| t := 0 |>, (fill (tb_lba i) x).2)
  else (h, x).

(** One sub-cycle of a stream: the word on the even ones, the strobe down on the
    odd ones. *)
Definition stream_step (word : Z) (finish : St) (b : Bench) : option Bench :=
  let h := hps b in
  n ← incr (t h);
  if Z.land (t h) 1 =? 0 then
    Some (b <| hps := (h <| t := n |>) |>
            <| pins ::= (fun p => p <| sd_buff_addr := u8 (wi h) |> <| sd_buff_dout := word |> <| sd_buff_wr := true |>) |>)
  else
    let h := h <| wi := wi h + 1 |> in
    let h := if wi h =? 256 then h <| st := finish |> else h in
    Some (b <| hps := (h <| t := n |>) |> <| pins ::= (fun p => p <| sd_buff_wr := false |>) |>).

Definition disk_word (h : Hps) : Z :=
  pack (ramp (lba h * 512 + wi h * 2)) (ramp (lba h * 512 + wi h * 2 + 1)).

(** The store of a captured word in the image of the disk. *)
Definition store_word (off : nat) (w : Z) (img : list Z) : list Z :=
  let img := if (length img <? off + 2)%nat then img ++ replicate (off + 2 - length img) 0xEE else img in
  <[(off + 1)%nat := Z.land w 0xff]> (<[off := u8 (Z.shiftr w 8)]> img).

(** One sub-cycle of a capture: the address, a pause, the word. *)
Definition capture_step (take_word : Hps -> option (Hps * TbHps)) (b : Bench) : option Bench :=
  let h := hps b in
  n ← incr (t h);
  if t h `mod` 3 =? 0 then
    Some (b <| hps := (h <| t := n |>) |> <| pins ::= (fun p => p <| sd_buff_addr := u8 (wi h) |>) |>)
  else if t h `mod` 3 =? 2 then
    '(h, x) ← take_word h;
    Some (b <| hps := (h <| t := n |>) |> <| tbx := x |>)
  else Some (b <| hps := (h <| t := n |>) |>).

Definition take_disk_word (i : CorePins) (x : TbHps) (h : Hps) : option (Hps * TbHps) :=
  let w := if tgt h =? 0 then sd_buff_din_0 i else sd_buff_din_1 i in
  let off := Z.to_nat (lba h * 512 + wi h * 2) in
  let h := h <| written ::= store_word off w |> in
  let h := h <| wi := wi h + 1 |> in
  Some (if wi h =? 256 then h <| st := FINISH |> else h, x).

(** A store past the end of the block is undefined behaviour. *)
Definition take_tb_word (i : CorePins) (x : TbHps) (h : Hps) : option (Hps * TbHps) :=
  let w := tb_buff_din i in
  if 256 <=? wi h then None
  else
    let k := Z.to_nat (wi h * 2) in
    let h := h <| tbblk ::= (fun l => <[(k + 1)%nat := Z.land w 0xff]> (<[k := u8 (Z.shiftr w 8)]> l)) |> in
    let h := h <| wi := wi h + 1 |> in
    if wi h =? 256 then x ← request (lba h) (tbblk h) x; Some (h <| st := TBFINISH |>, x)
    else Some (h, x).

Definition start (s : St) (h : Hps) : Hps := h <| st := s |> <| wi := 0 |> <| t := 0 |>.

Definition service (c : Config) (i : CorePins) (b : Bench) : option Bench :=
  let h := hps b in
  match st h with
  | IDLE =>
    let p := (pins b) <| sd_buff_wr := false |> <| io_ack := 0 |> <| tb_ack := false |> in
    let '(h, x) := poll_tb c i (poll_disks i [0; 1] h) (tbx b) in
    Some (MkBench h p x)
  | WAIT => wait_for (latency c)
      (fun h => Some (MkBench (start STREAM h) ((pins b) <| io_ack := Z.shiftl 1 (tgt h) |>) (tbx b))) b
  | STREAM => stream_step (disk_word h) FINISH b
  | WWAIT => wait_for (latency c)
      (fun h => Some (MkBench (start WCAP h) ((pins b) <| io_ack := Z.shiftl 1 (tgt h) |>) (tbx b))) b
  | WCAP => capture_step (take_disk_word i (tbx b)) b
  | FINISH =>
    let h := if was_write h then h <| flushes := u64 (flushes h + 1) |> else h <| fetches := u64 (fetches h + 1) |> in
    Some (MkBench (h <| st := IDLE |>) ((pins b) <| sd_buff_wr := false |> <| io_ack := 0 |>) (tbx b))
  | TBWWAIT => wait_for (latency c)
      (fun h => Some (MkBench (start TBWCAP h) ((pins b) <| tb_ack := true |>) (tbx b))) b
  | TBWCAP => capture_step (take_tb_word i (tbx b)) b
  | TBRWAIT => wait_for (cur_tb_latency h)
      (fun h => Some (MkBench (start TBRSTREAM h) ((pins b) <| tb_ack := true |>) (tbx b))) b
  | TBRSTREAM =>
    if (Z.land (t h) 1 =? 0) && (256 <=? wi h) then None
    else stream_step (pack (byte (tbblk h) (Z.to_nat (wi h * 2))) (byte (tbblk h) (Z.to_nat (wi h * 2 + 1)))) TBFINISH b
  | TBFINISH =>
    let p := (pins b) <| sd_buff_wr := false |> in
    if negb (tb_ack_hold c =? 0) then Some (MkBench (h <| st := TBAHOLD |> <| t := 0 |>) p (tbx b))
    else Some (MkBench (h <| st := IDLE |>) (p <| tb_ack := false |>) (tbx b))
  | TBAHOLD => wait_for (tb_ack_hold c)
      (fun h => Some (MkBench (h <| st := IDLE |>) ((pins b) <| tb_ack := false |>) (tbx b))) b
  | TBRDEFER => wait_for (tb_defer_latency c)
      (fun h =>
         if negb (tb_rd i) then Some (b <| hps := (h <| st := IDLE |>) |>)
         else Some (MkBench (h <| lba := tb_lba i |> <| tbblk := (fill (tb_lba i) (tbx b)).1 |>
                               <| cur_tb_latency := latency c |> <| st := TBRWAIT |> <| t := 0 |>)
                      (pins b) (fill (tb_lba i) (tbx b)).2)) b
  | TBWDEFER => wait_for (tb_wdefer_latency c)
      (fun h =>
         if negb (tb_wr i) then
           Some (b <| hps := (h <| tb_wlost := u64 (tb_wlost h + 1) |> <| st := IDLE |>) |>)
         else
           let h := if negb (tb_lba i =? lba_at_defer h) then h <| tb_wlost := u64 (tb_wlost h + 1) |> else h in
           Some (b <| hps := (h <| lba := tb_lba i |> <| st := TBWWAIT |> <| t := 0 |>) |>)) b
  end.

(** ** The invariant *)

#[local] Arguments fill : simpl never.
#[local] Arguments request : simpl never.

Definition int (n : Z) : Prop := - 2 ^ 31 <= n < 2 ^ 31.

(** The settings are C++ integers. *)
Definition settings_ok (c : Config) : Prop :=
  int (latency c) /\ int (tb_slow_latency c) /\ int (tb_defer_latency c) /\ int (tb_wdefer_latency c) /\
  int (tb_ack_hold c).

(** The calls that a wait takes. *)
Definition span (limit : Z) : Z := Z.max 1 limit.

(** The acknowledges and the strobe. *)
Definition acks (io : Z) (tb wr : bool) (p : Pins) : Prop := io_ack p = io /\ tb_ack p = tb /\ sd_buff_wr p = wr.

(** The sub-cycle counter of a stream or a capture of [n] sub-cycles per word. *)
Definition counts (n : Z) (h : Hps) : Prop := 0 <= wi h < 256 /\ n * wi h <= t h < n * (wi h + 1).

Definition waiting (limit : Z) (h : Hps) : Prop := 0 <= t h < span limit.

Definition phase_ok (c : Config) (h : Hps) (p : Pins) : Prop :=
  let io := Z.shiftl 1 (tgt h) in
  match st h with
  | IDLE => acks 0 false false p
  | WAIT | WWAIT => waiting (latency c) h /\ acks 0 false false p
  | TBWWAIT => waiting (latency c) h /\ acks 0 false false p
  | TBRWAIT => waiting (cur_tb_latency h) h /\ acks 0 false false p
  | TBRDEFER => waiting (tb_defer_latency c) h /\ acks 0 false false p
  | TBWDEFER => waiting (tb_wdefer_latency c) h /\ acks 0 false false p
  | STREAM => counts 2 h /\ acks io false (Z.odd (t h)) p
  | WCAP => counts 3 h /\ acks io false false p
  | FINISH => acks io false false p
  | TBWCAP => counts 3 h /\ acks 0 true false p
  | TBRSTREAM => counts 2 h /\ acks 0 true (Z.odd (t h)) p
  | TBFINISH => acks 0 true false p
  | TBAHOLD => waiting (tb_ack_hold c) h /\ acks 0 true false p
  end.

Definition good (c : Config) (b : Bench) : Prop :=
  length (tbblk (hps b)) = 512%nat /\ tgt (hps b) ∈ [0; 1] /\ int (cur_tb_latency (hps b)) /\
  phase_ok c (hps b) (pins b).

(** The calls after the end of a Toolbox block. *)
Definition hold_span (c : Config) : Z := if tb_ack_hold c =? 0 then 1 else 1 + span (tb_ack_hold c).

(** The calls that are left to the idle state. *)
Definition left_calls (c : Config) (h : Hps) : Z :=
  match st h with
  | IDLE => 0
  | WAIT => span (latency c) - t h + 513
  | WWAIT => span (latency c) - t h + 769
  | STREAM => 513 - t h
  | WCAP => 769 - t h
  | FINISH => 1
  | TBWWAIT => span (latency c) - t h + 768 + hold_span c
  | TBWCAP => 768 - t h + hold_span c
  | TBRWAIT => span (cur_tb_latency h) - t h + 512 + hold_span c
  | TBRSTREAM => 512 - t h + hold_span c
  | TBFINISH => hold_span c
  | TBAHOLD => span (tb_ack_hold c) - t h
  | TBRDEFER => span (tb_defer_latency c) - t h + span (latency c) + 512 + hold_span c
  | TBWDEFER => span (tb_wdefer_latency c) - t h + span (latency c) + 768 + hold_span c
  end.

(** The block is complete and its command is the undefined one. *)
Definition undefined_request (i : CorePins) (b : Bench) : Prop :=
  st (hps b) = TBWCAP /\ wi (hps b) = 255 /\
  request (lba (hps b)) (<[511%nat := Z.land (tb_buff_din i) 0xff]> (<[510%nat := u8 (Z.shiftr (tb_buff_din i) 8)]>
    (tbblk (hps b)))) (tbx b) = None.

Lemma incr_small n : n < 2 ^ 31 - 1 -> incr n = Some (n + 1).
Proof. intros H. unfold incr. destruct (Z.ltb_spec n (2 ^ 31 - 1)); [done|lia]. Qed.

Lemma fill_length l x : length (fill l x).1 = 512%nat.
Proof.
  unfold fill. cbn [fst]. destruct (l =? 0); [done|].
  destruct (_ <? _)%nat; [|apply length_replicate]. apply pad_length. rewrite length_take. lia.
Qed.

(** What a call does in the invariant: a good successor, nearer to idle. *)
Definition step_ok (c : Config) (i : CorePins) (b : Bench) (r : option Bench) : Prop :=
  match r with
  | Some b' => good c b' /\ (st (hps b) <> IDLE -> left_calls c (hps b') < left_calls c (hps b))
  | None => undefined_request i b
  end.

Lemma wait_ok (P : option Bench -> Prop) b limit go :
  int limit -> 0 <= t (hps b) < 2 ^ 31 - 1 ->
  (forall n, t (hps b) < n < span limit -> P (Some (b <| hps := ((hps b) <| t := n |>) |>))) ->
  (forall n, P (go ((hps b) <| t := n |>))) ->
  P (wait_for limit go b).
Proof.
  intros [_ Hl] [H0 H1] Hstay Hgo. unfold span in *. unfold wait_for. rewrite incr_small by lia.
  cbn [mbind option_bind]. destruct (Z.leb_spec limit (t (hps b) + 1)); [apply Hgo|].
  apply Hstay. lia.
Qed.

Lemma even_test n : (Z.land n 1 =? 0) = Z.even n.
Proof.
  rewrite (land_ones_mod n 1 ltac:(lia) : Z.land n 1 = n `mod` 2), Zmod_even. by destruct (Z.even n).
Qed.

Lemma stream_ok (P : option Bench -> Prop) b word finish io tb :
  counts 2 (hps b) -> acks io tb (Z.odd (t (hps b))) (pins b) ->
  (forall h' p', tbblk h' = tbblk (hps b) -> tgt h' = tgt (hps b) -> cur_tb_latency h' = cur_tb_latency (hps b) ->
     t h' = t (hps b) + 1 ->
     (st h' = st (hps b) /\ counts 2 h' /\ acks io tb (Z.odd (t h')) p' \/
      st h' = finish /\ t (hps b) = 511 /\ acks io tb false p') ->
     P (Some (MkBench h' p' (tbx b)))) ->
  P (stream_step word finish b).
Proof.
  intros [Hw Ht] (Ha1 & Ha2 & Ha3) Hok. unfold stream_step. rewrite incr_small, even_test by lia.
  cbn [mbind option_bind]. rewrite <- Z.negb_odd.
  assert (Hd := Z.div2_odd (t (hps b))).
  destruct (Z.odd (t (hps b))) eqn:Hodd; cbn [negb Z.b2z] in *.
  - destruct (Z.eqb_spec (wi ((hps b) <| wi := wi (hps b) + 1 |>)) 256) as [E|E]; cbn in E;
      apply Hok; try done; [right|left]; cbn.
    + split; [done|]. split; [lia|by split].
    + split; [done|]. split; [split; cbn; lia|]. split; [done|]. split; [done|]. cbn.
      rewrite Z.add_1_r, Z.odd_succ, <- Z.negb_odd, Hodd. done.
  - apply Hok; try done. left. cbn. split; [done|]. split; [split; cbn; lia|]. split; [done|]. split; [done|]. cbn.
    rewrite Z.add_1_r, Z.odd_succ, <- Z.negb_odd, Hodd. done.
Qed.

Lemma capture_ok (P : option Bench -> Prop) b take_word io tb :
  counts 3 (hps b) -> acks io tb false (pins b) ->
  (forall h' p', tbblk h' = tbblk (hps b) -> tgt h' = tgt (hps b) -> cur_tb_latency h' = cur_tb_latency (hps b) ->
     st h' = st (hps b) -> t h' = t (hps b) + 1 -> counts 3 h' -> acks io tb false p' ->
     P (Some (MkBench h' p' (tbx b)))) ->
  (t (hps b) = 3 * wi (hps b) + 2 ->
     P ('(h, x) ← take_word (hps b); Some (MkBench (h <| t := t (hps b) + 1 |>) (pins b) x))) ->
  P (capture_step take_word b).
Proof.
  intros [Hw Ht] Ha Hstay Htake. unfold capture_step. rewrite incr_small by lia. cbn [mbind option_bind].
  assert (Hm : t (hps b) `mod` 3 = t (hps b) - 3 * wi (hps b))
    by (symmetry; apply (Z.mod_unique _ _ (wi (hps b))); lia).
  destruct (Z.eqb_spec (t (hps b) `mod` 3) 0); [|destruct (Z.eqb_spec (t (hps b) `mod` 3) 2)].
  - apply Hstay; try done. split; cbn; lia.
  - apply Htake. lia.
  - apply Hstay; try done. split; cbn; lia.
Qed.

Lemma poll_disks_ok c i ks h p :
  settings_ok c -> acks 0 false false p -> st h = IDLE -> length (tbblk h) = 512%nat -> tgt h ∈ [0; 1] ->
  int (cur_tb_latency h) -> (forall k, k ∈ ks -> k ∈ [0; 1]) ->
  let h' := poll_disks i ks h in
  length (tbblk h') = 512%nat /\ tgt h' ∈ [0; 1] /\ int (cur_tb_latency h') /\ phase_ok c h' p.
Proof.
  intros Hc Hp Hs Hb Ht Hl. induction ks as [|k ks IH]; intros Hks; cbn [poll_disks].
  { cbn zeta. unfold phase_ok. by rewrite Hs. }
  destruct (_ =? 1); [|destruct (_ =? 1)].
  3: { apply IH. intros k' Hk'. apply Hks. by apply elem_of_cons; right. }
  all: cbn zeta; split_and!; [done|apply Hks; by apply elem_of_cons; left|done|];
    (split; [unfold waiting, span; cbn; lia|exact Hp]).
Qed.

Lemma every_latency c r : settings_ok c -> int (if every_th (tb_slow_every c) r then tb_slow_latency c else latency c).
Proof. intros (H1 & H2 & _). by destruct (every_th _ _). Qed.

Lemma poll_tb_ok c i h p x :
  settings_ok c -> length (tbblk h) = 512%nat -> tgt h ∈ [0; 1] -> int (cur_tb_latency h) -> phase_ok c h p ->
  acks 0 false false p ->
  good c (MkBench (poll_tb c i h x).1 p (poll_tb c i h x).2).
Proof.
  intros Hc Hb Ht Hl Hph Hp. unfold poll_tb.
  destruct (bool_decide (st h = IDLE) && tb_wr i); [|destruct (bool_decide (st h = IDLE) && tb_rd i); [|done]];
    destruct (every_th _ _); cbn zeta; (split_and!; cbn [fst snd hps pins tbx]; try done);
    try (unfold phase_ok; cbn; split; [unfold waiting, span; cbn; lia|exact Hp]).
  - apply fill_length.
  - by apply every_latency.
Qed.

Lemma hold_pos c : 1 <= hold_span c.
Proof. unfold hold_span, span. destruct (_ =? 0); lia. Qed.

(** The call is a wait: the states before its end. *)
Ltac wait_step Hint Hs Hph :=
  apply wait_ok;
  [exact Hint|unfold int, waiting, span in *; cbn [hps] in *; lia
  |intros n Hn; split;
    [do 3 (split; [try done|]); unfold phase_ok; cbn [hps pins st modify_field]; rewrite Hs;
       split; [unfold waiting in *; cbn in *; lia|exact (proj2 Hph)]
    |intros _; unfold left_calls; cbn [hps pins st modify_field]; rewrite Hs; unfold waiting in *; cbn in *; lia]
  |intros n; cbv beta].

(** The successor is a state with its phase given. *)
Ltac good_step Hs Hph :=
  split; [split; [try done|split; [try done|split; [try done|]]]; unfold phase_ok; cbn [hps pins st start modify_field]; rewrite ?Hs; cbn; rewrite ?length_insert; try done
         |intros _; unfold left_calls; cbn [hps pins st start modify_field]; rewrite Hs; cbn; unfold waiting, counts, span in *; cbn in *; try lia].

(** A word goes out: the state stays, or its successor begins. *)
Ltac stream_step Hs :=
  let h' := fresh "h" in let p1 := fresh "p" in let E1 := fresh "E1" in let E2 := fresh "E2" in let E3 := fresh "E3" in let E5 := fresh "E5" in
  intros h' p1 E1 E2 E3 ? Hor; cbn [hps pins tbx] in *;
  assert (length (tbblk h') = 512%nat /\ tgt h' ∈ [0; 1] /\ int (cur_tb_latency h')) as (? & ? & ?) by (by rewrite E1, E2, E3);
  destruct Hor as [(E5 & ? & ?)|(E5 & ? & ?)]; (split; [do 3 (split; [done|])|]);
  [unfold phase_ok; cbn [hps pins]; rewrite E5, Hs, ?E2; done
  |intros _; unfold left_calls; cbn [hps]; rewrite E5, Hs; lia
  |unfold phase_ok; cbn [hps pins]; rewrite E5, ?E2; done
  |intros _; unfold left_calls; cbn [hps]; rewrite E5, Hs; lia].

(** A call of a capture between two words. *)
Ltac capture_step Hs Hb Ht Hl :=
  let E1 := fresh "E1" in let E2 := fresh "E2" in let E3 := fresh "E3" in let E4 := fresh "E4" in
  intros ? ? E1 E2 E3 E4 ? ? ?; cbn [hps pins tbx] in *;
  rewrite <- E1 in Hb; rewrite <- E2 in Ht; rewrite <- E3 in Hl; split; [do 3 (split; [done|])|];
  [unfold phase_ok; cbn [hps pins]; by rewrite E4, Hs, ?E2
  |intros _; unfold left_calls; cbn [hps]; rewrite E4, Hs; lia].

Lemma service_ok c i b : settings_ok c -> good c b -> step_ok c i b (service c i b).
Proof.
  intros Hc (Hb & Ht & Hl & Hph). pose proof (hold_pos c) as Hhold.
  pose proof Hc as (Hi1 & Hi2 & Hi3 & Hi4 & Hi5).
  destruct b as [h p x]. cbn [hps pins] in *.
  unfold service. cbn [hps pins tbx]. unfold phase_ok in Hph. destruct (st h) eqn:Hs.
  - set (p' := p <| sd_buff_wr := false |> <| io_ack := 0 |> <| tb_ack := false |>).
    assert (Hp' : acks 0 false false p') by done.
    destruct (poll_disks_ok c i [0; 1] h p' ltac:(done) Hp' Hs Hb Ht Hl ltac:(done)) as (G1 & G2 & G3 & G4).
    destruct (poll_tb c i (poll_disks i [0; 1] h) x) as [h1 x1] eqn:E.
    pose proof (poll_tb_ok c i (poll_disks i [0; 1] h) p' x ltac:(done) G1 G2 G3 G4 Hp') as G. rewrite E in G.
    split; [exact G|]. cbn. by rewrite Hs.
  - wait_step Hi1 Hs Hph. good_step Hs Hph. destruct Hph as (_ & ? & ? & ?). by split; [split; cbn; lia|].
  - destruct Hph as [Hct Ha]. apply (stream_ok (step_ok c i (MkBench h p x)) (MkBench h p x) _ _ _ _ Hct Ha).
    stream_step Hs.
  - wait_step Hi1 Hs Hph. good_step Hs Hph. destruct Hph as (_ & ? & ? & ?). by split; [split; cbn; lia|].
  - destruct Hph as [Hct Ha]. apply (capture_ok (step_ok c i (MkBench h p x)) (MkBench h p x) _ _ _ Hct Ha).
    + capture_step Hs Hb Ht Hl.
    + cbn [hps pins tbx]. intros Ht3. unfold take_disk_word. cbn [mbind option_bind]. destruct Hct as [Hw _].
      destruct (Z.eqb_spec (wi h + 1) 256) as [E|E]; cbn [wi modify_field]; rewrite (proj2 (Z.eqb_eq _ _) E) || rewrite (proj2 (Z.eqb_neq _ _) E).
      * good_step Hs Hph.
      * good_step Hs Hph. split; [split; cbn; lia|done].
  - destruct (was_write h); good_step Hs Hph; destruct Hph as (? & ? & ?); by split_and!.
  - wait_step Hi1 Hs Hph. good_step Hs Hph. destruct Hph as (_ & ? & ? & ?). by split; [split; cbn; lia|].
  - destruct Hph as [Hct Ha]. apply (capture_ok (step_ok c i (MkBench h p x)) (MkBench h p x) _ _ _ Hct Ha).
    + capture_step Hs Hb Ht Hl.
    + cbn [hps pins tbx]. intros Ht3. unfold take_tb_word. destruct Hct as [Hw _].
      destruct (Z.leb_spec 256 (wi h)); [lia|].
      destruct (Z.eqb_spec (wi h + 1) 256) as [E|E]; cbn [wi modify_field]; rewrite (proj2 (Z.eqb_eq _ _) E) || rewrite (proj2 (Z.eqb_neq _ _) E).
      * assert (Ew : wi h = 255) by lia. cbn [lba tbblk modify_field]. rewrite Ew.
        change (Z.to_nat (255 * 2)) with 510%nat. change (510 + 1)%nat with 511%nat.
        destruct (request _ _ x) as [x'|] eqn:Er; cbn [mbind option_bind]; [|done].
        good_step Hs Hph. 
      * cbn [mbind option_bind]. good_step Hs Hph. split; [split; cbn; lia|done].
  - wait_step Hl Hs Hph. good_step Hs Hph. destruct Hph as (_ & ? & ? & ?). by split; [split; cbn; lia|].
  - destruct Hph as [Hct Ha]. destruct ((Z.land (t h) 1 =? 0) && (256 <=? wi h)) eqn:Hub.
    { apply andb_prop in Hub as [_ Hub]. apply Z.leb_le in Hub. destruct Hct. lia. }
    apply (stream_ok (step_ok c i (MkBench h p x)) (MkBench h p x) _ _ _ _ Hct Ha).
    stream_step Hs.
  - unfold negb. destruct (Z.eqb_spec (tb_ack_hold c) 0) as [E|E]; good_step Hs Hph.
    + by destruct Hph as (? & ? & ?).
    + destruct Hph as (? & ? & ?). split; [unfold waiting, span; cbn; lia|by split_and!].
    + unfold hold_span in *. destruct (Z.eqb_spec (tb_ack_hold c) 0); unfold span; lia.
  - wait_step Hi5 Hs Hph. good_step Hs Hph. destruct Hph as (_ & ? & ? & ?). by split_and!.
  - wait_step Hi3 Hs Hph. destruct (tb_rd i); cbn [negb]; good_step Hs Hph.
    + apply fill_length.
    + destruct Hph as (_ & ?). split; [unfold waiting, span; cbn; lia|done].
    + exact (proj2 Hph).
  - wait_step Hi4 Hs Hph. destruct (tb_wr i); cbn [negb]; [destruct (tb_lba i =? _); cbn [negb]|]; good_step Hs Hph.
    all: destruct Hph as (_ & ?); (split; [unfold waiting, span; cbn; lia|done]) || done.
Qed.

Fixpoint service_all (c : Config) (ins : list CorePins) (b : Bench) : option Bench :=
  match ins with
  | [] => Some b
  | i :: ins => b ← service c i b; service_all c ins b
  end.

(** Where a run ends: in a state with [P], or in the undefined command. *)
Definition ends (c : Config) (ins : list CorePins) (b : Bench) (P : Bench -> Prop) : Prop :=
  match service_all c ins b with
  | Some b' => P b'
  | None => exists ins1 i ins2 b', ins = ins1 ++ i :: ins2 /\ service_all c ins1 b = Some b' /\ undefined_request i b'
  end.

Lemma ends_cons c i ins b P :
  match service c i b with Some b' => ends c ins b' P | None => undefined_request i b end -> ends c (i :: ins) b P.
Proof.
  unfold ends. cbn [service_all]. destruct (service c i b) as [b'|] eqn:E; cbn [mbind option_bind].
  - destruct (service_all c ins b') as [b''|] eqn:E2; [done|].
    intros (ins1 & j & ins2 & b1 & -> & H1 & H2). exists (i :: ins1), j, ins2, b1.
    split; [done|]. split; [|done]. cbn [service_all]. by rewrite E.
  - intros H. by exists [], i, ins, b.
Qed.

Lemma ends_good c ins b : settings_ok c -> good c b -> ends c ins b (good c).
Proof.
  intros Hc. revert b. induction ins as [|i ins IH]; intros b Hg; [done|].
  apply ends_cons. pose proof (service_ok c i b Hc Hg) as H.
  destruct (service c i b) as [b'|]; [|exact H]. apply IH, H.
Qed.

Lemma left_pos c b : good c b -> st (hps b) <> IDLE -> 0 < left_calls c (hps b).
Proof.
  intros (_ & _ & _ & Hph) Hs. pose proof (hold_pos c). unfold phase_ok in Hph. unfold left_calls.
  destruct (st (hps b)); try done; unfold waiting, counts, span in *; lia.
Qed.

(** The wait for the idle state. *)
Lemma returns_idle c (f : nat -> CorePins) n b :
  settings_ok c -> good c b -> left_calls c (hps b) <= Z.of_nat n ->
  exists m, (m <= n)%nat /\ ends c (map f (seq 0 m)) b (fun b' => st (hps b') = IDLE).
Proof.
  intros Hc. revert f b. induction n as [|n IH]; intros f b Hg Hn;
    (destruct (decide (st (hps b) = IDLE)) as [Hs|Hs]; [by exists 0%nat; split; [lia|]|]).
  { pose proof (left_pos c b Hg Hs). lia. }
  pose proof (service_ok c (f 0%nat) b Hc Hg) as H. destruct (service c (f 0%nat) b) as [b'|] eqn:E.
  - destruct H as [Hg' Hlt]. specialize (Hlt Hs).
    destruct (IH (f ∘ S) b' Hg') as (m & Hm & Hend); [lia|]. exists (S m). split; [lia|].
    cbn [seq map]. rewrite <- seq_shift, map_map. apply ends_cons. rewrite E. exact Hend.
  - exists 1%nat. split; [lia|]. apply ends_cons. by rewrite E.
Qed.

Lemma good_reset c h p x :
  settings_ok c -> length (tbblk h) = 512%nat -> acks 0 false false p -> good c (MkBench (Hps_reset c h) p x).
Proof. intros Hc Hb Hp. split; [done|]. split; [by apply elem_of_cons; left|]. split; [apply Hc|done]. Qed.

(** C38: the machine is safe and answers every request, whatever the core does.
    From a reset, over any sequence of values on the core's pins, no counter
    overflows, no store leaves the block, the two acknowledges are never up
    together, one of a disk slot only names the slot that is served; and from
    every state that is reached the machine is idle again within the number of
    calls that [left_calls] gives.  The only undefined behaviour is that of the
    read command of the Toolbox service. *)
Theorem hps_safe (c : Config) (h : Hps) (x : TbHps) (ins : list CorePins) :
  settings_ok c -> length (tbblk h) = 512%nat ->
  ends c ins (MkBench (Hps_reset c h) Pins_zero x) (fun b =>
    (io_ack (pins b) = 0 \/ tb_ack (pins b) = false /\ io_ack (pins b) = Z.shiftl 1 (tgt (hps b))) /\
    length (tbblk (hps b)) = 512%nat /\
    forall f, exists n, Z.of_nat n <= Z.max 0 (left_calls c (hps b)) /\
      ends c (map f (seq 0 n)) b (fun b' => st (hps b') = IDLE /\ io_ack (pins b') = 0 /\ tb_ack (pins b') = false)).
Proof.
  intros Hc Hb. pose proof (ends_good c ins _ Hc (good_reset c h Pins_zero x Hc Hb ltac:(done))) as H.
  unfold ends at 1. unfold ends in H. destruct (service_all c ins _) as [b|]; [|exact H].
  split; [|split; [apply H|]].
  - destruct H as (_ & _ & _ & Hph). unfold phase_ok in Hph. destruct (st (hps b));
      (match type of Hph with _ /\ _ => destruct Hph as [_ Hph] | _ => idtac end);
      destruct Hph as (E1 & E2 & _); auto.
  - intros f. destruct (returns_idle c f (Z.to_nat (left_calls c (hps b))) b Hc H ltac:(lia)) as (n & Hn & He).
    exists n. split; [lia|]. pose proof (ends_good c (map f (seq 0 n)) b Hc H) as Hg.
    unfold ends in *. destruct (service_all c (map f (seq 0 n)) b) as [b'|]; [|done].
    split; [exact He|]. destruct Hg as (_ & _ & _ & Hph). unfold phase_ok in Hph. rewrite He in Hph.
    destruct Hph as (? & ? & _). done.
Qed.

(** ** The clock of the bench

    The core is a parameter: its state after a rising and after a falling edge of
    the clock, as a function of its input pins, and its output pins. *)

Class Core (C : Type) := {
  posedge : Pins -> C -> C;
  negedge : Pins -> C -> C;
  core_pins : C -> CorePins }.

Record World (C : Type) := MkWorld { core : C; bench : Bench; cyc : Z }.
Arguments MkWorld {C}.
Arguments core {C}.
Arguments bench {C}.
Arguments cyc {C}.

Definition tick {C} `{Core C} (c : Config) (w : World C) : option (World C) :=
  let k := posedge (pins (bench w)) (core w) in
  b ← service c (core_pins k) (bench w);
  Some (MkWorld (negedge (pins b) k) b (u64 (cyc w + 1))).

(** What the core can store at a rising edge: the acknowledges, the address and
    the word, when the strobe is up. *)
Definition Strobe : Type := Z * bool * Z * Z.

Definition strobe (p : Pins) : list Strobe :=
  if sd_buff_wr p then [(io_ack p, tb_ack p, sd_buff_addr p, sd_buff_dout p)] else [].

Fixpoint ticks {C} `{Core C} (c : Config) (n : nat) (w : World C) : option (list Strobe * World C) :=
  match n with
  | O => Some ([], w)
  | S n => w1 ← tick c w; '(o, w2) ← ticks c n w1; Some (strobe (pins (bench w)) ++ o, w2)
  end.

(** ** The handshake of the core

    A request of the core, with the block it sends. *)

Inductive Req :=
  | DiskRead (slot l : Z)
  | DiskWrite (slot l : Z) (blk : list Z)
  | TbWrite (l : Z) (blk : list Z)
  | TbRead (l : Z).

Definition bytes_ok (blk : list Z) : Prop := length blk = 512%nat /\ Forall (fun v => 0 <= v < 256) blk.

Definition req_ok (r : Req) : Prop :=
  match r with
  | DiskRead s l => s ∈ [0; 1] /\ 0 <= l < 2 ^ 32
  | DiskWrite s l blk => s ∈ [0; 1] /\ 0 <= l < 2 ^ 32 /\ bytes_ok blk
  | TbWrite l blk => 0 <= l < 2 ^ 32 /\ bytes_ok blk
  | TbRead l => 0 <= l < 2 ^ 32
  end.

Definition word (blk : list Z) (k : Z) : Z :=
  pack (byte blk (Z.to_nat (k * 2))) (byte blk (Z.to_nat (k * 2 + 1))).

(** The acknowledge that a request waits for, and none. *)
Definition acked (r : Req) (p : Pins) : Prop :=
  match r with
  | DiskRead s _ | DiskWrite s _ _ => io_ack p = Z.shiftl 1 s /\ tb_ack p = false
  | TbWrite _ _ | TbRead _ => io_ack p = 0 /\ tb_ack p = true
  end.

Definition quiet (p : Pins) : Prop := io_ack p = 0 /\ tb_ack p = false.

Definition io_lba (s : Z) (i : CorePins) : Z := if s =? 0 then io_lba_0 i else io_lba_1 i.
Definition sd_buff_din (s : Z) (i : CorePins) : Z := if s =? 0 then sd_buff_din_0 i else sd_buff_din_1 i.

(** The output pins while the first of the requests waits: one request at a time. *)
Definition asks (rs : list Req) (i : CorePins) : Prop :=
  match rs with
  | [] => io_rd i = 0 /\ io_wr i = 0 /\ tb_rd i = false /\ tb_wr i = false
  | DiskRead s l :: _ => io_rd i = Z.shiftl 1 s /\ io_wr i = 0 /\ io_lba s i = l
  | DiskWrite s l _ :: _ => io_rd i = 0 /\ io_wr i = Z.shiftl 1 s /\ io_lba s i = l
  | TbWrite l _ :: _ => io_rd i = 0 /\ io_wr i = 0 /\ tb_wr i = true /\ tb_lba i = l
  | TbRead l :: _ => io_rd i = 0 /\ io_wr i = 0 /\ tb_wr i = false /\ tb_rd i = true /\ tb_lba i = l
  end.

(** The output pins that show the word at an address of the buffer. *)
Definition shows (r : Req) (a : Z) (i : CorePins) : Prop :=
  match r with
  | DiskWrite s _ blk => 0 <= a < 256 -> sd_buff_din s i = word blk a
  | TbWrite _ blk => 0 <= a < 256 -> tb_buff_din i = word blk a
  | _ => True
  end.

(** A core that keeps the handshake: it holds a request until the acknowledge
    rises, shows the word whose address it saw at the last edge while the
    acknowledge is up, and goes on to the next request when it falls. *)
Class Handshake (C : Type) `{Core C} := {
  ready : list Req -> C -> Prop;
  busy : Req -> list Req -> C -> Prop;
  ready_asks rs k : ready rs k -> asks rs (core_pins k);
  ready_quiet rs p k : ready rs k -> quiet p -> ready rs (posedge p k);
  ready_acked r rs p k : ready (r :: rs) k -> acked r p -> busy r rs (posedge p k);
  busy_acked r rs p k : busy r rs k -> acked r p -> busy r rs (posedge p k);
  busy_shows r rs p k : busy r rs k -> acked r p -> shows r (sd_buff_addr p) (core_pins (posedge p k));
  busy_quiet r rs p k : busy r rs k -> quiet p -> ready rs (posedge p k);
  ready_negedge rs p k : ready rs k -> ready rs (negedge p k);
  busy_negedge r rs p k : busy r rs k -> busy r rs (negedge p k) }.

(** ** The abstract host

    It serves a request in one step. *)

Record AbsHost := MkAbsHost { image : list Z; n_fetches : Z; n_flushes : Z; toolbox : TbHps }.

Definition abs (b : Bench) : AbsHost := MkAbsHost (written (hps b)) (fetches (hps b)) (flushes (hps b)) (tbx b).

(** The 256 words of a block that goes to the core. *)
Definition block_strobes (io : Z) (tb : bool) (f : Z -> Z) : list Strobe :=
  map (fun k => (io, tb, Z.of_nat k, f (Z.of_nat k))) (seq 0 256).

(** A block in the image, which grows with bytes 0xEE. *)
Definition put_block (off : nat) (blk : list Z) (img : list Z) : list Z :=
  overlay off blk (img ++ replicate (off + length blk - length img) 0xEE).

Definition serve_req (r : Req) (a : AbsHost) : option (list Strobe * AbsHost) :=
  match r with
  | DiskRead s l =>
    Some (block_strobes (Z.shiftl 1 s) false (fun k => pack (ramp (l * 512 + k * 2)) (ramp (l * 512 + k * 2 + 1))),
          MkAbsHost (image a) (u64 (n_fetches a + 1)) (n_flushes a) (toolbox a))
  | DiskWrite s l blk =>
    Some ([], MkAbsHost (put_block (Z.to_nat (l * 512)) blk (image a)) (n_fetches a) (u64 (n_flushes a + 1)) (toolbox a))
  | TbWrite l blk => x ← request l blk (toolbox a); Some ([], MkAbsHost (image a) (n_fetches a) (n_flushes a) x)
  | TbRead l =>
    Some (block_strobes 0 true (word (fill l (toolbox a)).1),
          MkAbsHost (image a) (n_fetches a) (n_flushes a) (fill l (toolbox a)).2)
  end.

Fixpoint serve_all (rs : list Req) (a : AbsHost) : option (list Strobe * AbsHost) :=
  match rs with
  | [] => Some ([], a)
  | r :: rs => '(o, a) ← serve_req r a; '(o', a) ← serve_all rs a; Some (o ++ o', a)
  end.

(** ** The captured bytes *)

Lemma pack_split b0 b1 : 0 <= b0 < 256 -> 0 <= b1 < 256 ->
  u8 (Z.shiftr (pack b0 b1) 8) = b0 /\ Z.land (pack b0 b1) 0xff = b1.
Proof.
  intros H0 H1. unfold pack. rewrite be_join by done. rewrite land_255, Z.shiftr_div_pow2 by lia.
  change (2 ^ 8) with 256. split.
  - rewrite Z.div_add_l, (Z.div_small b1), Z.add_0_r by lia. by apply uwrap_small.
  - rewrite Z.add_comm, Z_mod_plus_full. by apply Z.mod_small.
Qed.

Lemma insert_pair o a b (l : list Z) :
  (o + 2 <= length l)%nat -> <[(o + 1)%nat := b]> (<[o := a]> l) = overlay o [a; b] l.
Proof.
  intros Hl. apply list_eq. intros i. rewrite lookup_overlay by (cbn; lia). cbn [length].
  destruct (decide (i = (o + 1)%nat)) as [->|].
  { rewrite list_lookup_insert_eq by (rewrite length_insert; lia).
    destruct (Nat.ltb_spec (o + 1) o); [lia|]. destruct (Nat.ltb_spec (o + 1) (o + 2)); [|lia].
    by replace (o + 1 - o)%nat with 1%nat by lia. }
  rewrite list_lookup_insert_ne by done. destruct (decide (i = o)) as [->|].
  { rewrite list_lookup_insert_eq by lia. rewrite Nat.ltb_irrefl.
    destruct (Nat.ltb_spec o (o + 2)); [|lia]. by rewrite Nat.sub_diag. }
  rewrite list_lookup_insert_ne by done.
  destruct (Nat.ltb_spec i o); [done|]. destruct (Nat.ltb_spec i (o + 2)); [lia|done].
Qed.

Lemma overlay_overlay pos a b (l : list Z) :
  (pos + length a + length b <= length l)%nat ->
  overlay (pos + length a) b (overlay pos a l) = overlay pos (a ++ b) l.
Proof.
  intros Hl. apply list_eq. intros i.
  rewrite !lookup_overlay by (rewrite ?overlay_length, ?length_app; lia). rewrite length_app.
  destruct (Nat.ltb_spec i (pos + length a)).
  - destruct (Nat.ltb_spec i pos); [done|]. destruct (Nat.ltb_spec i (pos + (length a + length b))); [|lia].
    by rewrite lookup_app_l by lia.
  - destruct (Nat.ltb_spec i pos); [lia|]. rewrite Nat.add_assoc.
    destruct (Nat.ltb_spec i (pos + length a + length b)); [|done].
    rewrite lookup_app_r by lia. f_equal. lia.
Qed.

Lemma overlay_grow pos a (l : list Z) n v :
  (pos + length a <= length l)%nat -> overlay pos a l ++ replicate n v = overlay pos a (l ++ replicate n v).
Proof.
  intros Hl. unfold overlay. rewrite take_app_le, drop_app_le by lia. by rewrite <- !app_assoc.
Qed.

Lemma overlay_full (l l' : list Z) : length l = length l' -> overlay 0 l l' = l.
Proof. intros E. unfold overlay. cbn [take Nat.add app]. rewrite drop_ge by lia. by rewrite app_nil_r. Qed.

Lemma word_next blk k :
  bytes_ok blk -> 0 <= k < 256 -> exists a b, take (Z.to_nat (2 * (k + 1))) blk = take (Z.to_nat (2 * k)) blk ++ [a; b] /\
    u8 (Z.shiftr (word blk k) 8) = a /\ Z.land (word blk k) 0xff = b.
Proof.
  intros [Hl Hb] Hk. set (n := Z.to_nat (2 * k)).
  destruct (lookup_lt_is_Some_2 blk n ltac:(lia)) as [a Ea].
  destruct (lookup_lt_is_Some_2 blk (S n) ltac:(lia)) as [b Eb]. exists a, b.
  pose proof (proj1 (Forall_lookup _ _) Hb) as Hr.
  assert (Ew : word blk k = pack a b).
  { unfold word, byte. replace (Z.to_nat (k * 2)) with n by lia. replace (Z.to_nat (k * 2 + 1)) with (S n) by lia.
    by rewrite Ea, Eb. }
  rewrite Ew. destruct (pack_split a b (Hr _ _ Ea) (Hr _ _ Eb)) as [-> ->]. split; [|done].
  replace (Z.to_nat (2 * (k + 1))) with (S (S n)) by lia.
  rewrite (take_S_r _ _ _ Eb), (take_S_r _ _ _ Ea), <- app_assoc. done.
Qed.

(** The block after [k] words. *)
Definition blk_at (blk old : list Z) (k : Z) : list Z := overlay 0 (take (Z.to_nat (2 * k)) blk) old.

Lemma blk_at_next blk old k :
  bytes_ok blk -> length old = 512%nat -> 0 <= k < 256 ->
  <[(Z.to_nat (k * 2) + 1)%nat := Z.land (word blk k) 0xff]>
    (<[Z.to_nat (k * 2) := u8 (Z.shiftr (word blk k) 8)]> (blk_at blk old k)) = blk_at blk old (k + 1).
Proof.
  intros Hblk Hold Hk. pose proof Hblk as [Hl _]. unfold blk_at.
  destruct (word_next blk k Hblk Hk) as (a & b & -> & -> & ->).
  assert (Hn : length (take (Z.to_nat (2 * k)) blk) = Z.to_nat (2 * k)) by (rewrite length_take; lia).
  rewrite insert_pair by (rewrite overlay_length, Hold; rewrite ?Hn; lia).
  rewrite <- (overlay_overlay 0) by (rewrite Hn; cbn [length]; lia). rewrite Hn. f_equal. lia.
Qed.

Lemma blk_at_0 blk old : blk_at blk old 0 = old.
Proof. done. Qed.

Lemma blk_at_256 blk old : bytes_ok blk -> length old = 512%nat -> blk_at blk old 256 = blk.
Proof.
  intros [Hl _] Hold. unfold blk_at. change (Z.to_nat (2 * 256)) with 512%nat.
  rewrite take_ge by lia. apply overlay_full. by rewrite Hl, Hold.
Qed.

(** The image after [k] words. *)
Definition image_at (off : nat) (blk img : list Z) (k : Z) : list Z :=
  if k =? 0 then img
  else overlay off (take (Z.to_nat (2 * k)) blk) (img ++ replicate (off + Z.to_nat (2 * k) - length img) 0xEE).

Lemma store_word_overlay o w img :
  store_word o w img =
    overlay o [u8 (Z.shiftr w 8); Z.land w 0xff] (img ++ replicate (o + 2 - length img) 0xEE).
Proof.
  unfold store_word. rewrite <- insert_pair.
  - destruct (Nat.ltb_spec (length img) (o + 2)); [done|]. rewrite (proj2 (Nat.sub_0_le _ _)) by lia.
    by rewrite app_nil_r.
  - rewrite length_app, length_replicate. lia.
Qed.

Lemma image_at_next off blk img k :
  bytes_ok blk -> 0 <= k < 256 ->
  store_word (off + Z.to_nat (2 * k)) (word blk k) (image_at off blk img k) = image_at off blk img (k + 1).
Proof.
  intros Hblk Hk. pose proof Hblk as [Hl _]. rewrite store_word_overlay. unfold image_at.
  destruct (word_next blk k Hblk Hk) as (a & b & -> & -> & ->).
  destruct (Z.eqb_spec (k + 1) 0) as [?|_]; [lia|].
  replace (Z.to_nat (2 * (k + 1))) with (Z.to_nat (2 * k) + 2)%nat by lia.
  destruct (Z.eqb_spec k 0) as [->|Hk0].
  { cbn [Z.mul Z.to_nat take app Nat.add]. by rewrite !Nat.add_0_r. }
  set (n := Z.to_nat (2 * k)) in *.
  assert (Hn : length (take n blk) = n) by (rewrite length_take; unfold n; lia).
  assert (Hfit : (off + length (take n blk) <= length (img ++ replicate (off + n - length img) 238%Z))%nat)
    by (rewrite Hn, length_app, length_replicate; lia).
  rewrite overlay_grow, overlay_length, <- app_assoc, <- replicate_add by exact Hfit.
  rewrite <- Hn at 1. rewrite overlay_overlay.
  - f_equal. do 2 f_equal. rewrite length_app, length_replicate. lia.
  - rewrite Hn, !length_app, !length_replicate. cbn [length]. lia.
Qed.

Lemma image_at_256 off blk img : bytes_ok blk -> image_at off blk img 256 = put_block off blk img.
Proof.
  intros [Hl _]. unfold image_at, put_block. cbn [Z.eqb]. change (Z.to_nat (2 * 256)) with 512%nat.
  by rewrite take_ge, Hl by lia.
Qed.

(** ** The phases of a request *)

Section Phases.
Context {C : Type} `{Handshake C} (c : Config).

Lemma ticks_app n m (w w1 w2 : World C) o1 o2 :
  ticks c n w = Some (o1, w1) -> ticks c m w1 = Some (o2, w2) -> ticks c (n + m) w = Some (o1 ++ o2, w2).
Proof.
  revert w o1. induction n as [|n IH]; intros w o1 H1 H2; cbn [ticks Nat.add] in *.
  - injection H1 as <- <-. exact H2.
  - destruct (tick c w) as [w'|]; cbn [mbind option_bind] in *; [|done].
    destruct (ticks c n w') as [[o w'']|] eqn:E; cbn [mbind option_bind] in H1; [|done].
    injection H1 as <- <-. rewrite (IH w' o E H2). cbn [mbind option_bind]. by rewrite app_assoc.
Qed.

(** The core after a call. *)
Definition next (w : World C) (b : Bench) : World C :=
  MkWorld (negedge (pins b) (posedge (pins (bench w)) (core w))) b (u64 (cyc w + 1)).

(** It is ready for its requests after the next rising edge. *)
Definition fresh (rs : list Req) (k : C) : Prop := forall p, quiet p -> ready rs (posedge p k).

(** It has a request that is acknowledged, or is about to see it. *)
Definition live (r : Req) (rs : list Req) (k : C) : Prop := ready (r :: rs) k \/ busy r rs k.

Lemma tick_one w b' :
  service c (core_pins (posedge (pins (bench w)) (core w))) (bench w) = Some b' ->
  ticks c 1 w = Some (strobe (pins (bench w)), next w b').
Proof. intros E. cbn [ticks]. unfold tick. rewrite E. cbn [mbind option_bind]. by rewrite app_nil_r. Qed.

Lemma tick_quiet rs w b' :
  fresh rs (core w) -> quiet (pins (bench w)) -> (forall i, asks rs i -> service c i (bench w) = Some b') ->
  ticks c 1 w = Some (strobe (pins (bench w)), next w b') /\ ready rs (core (next w b')).
Proof.
  intros Hf Hq Hs. pose proof (Hf _ Hq) as Hr. split.
  - apply tick_one, Hs. by apply ready_asks.
  - by apply ready_negedge.
Qed.

Lemma tick_live r rs w b' :
  live r rs (core w) -> acked r (pins (bench w)) -> (forall i, service c i (bench w) = Some b') ->
  ticks c 1 w = Some (strobe (pins (bench w)), next w b') /\ busy r rs (core (next w b')).
Proof.
  intros [Hr|Hb] Ha Hs; (split; [apply tick_one, Hs|apply busy_negedge]); [by apply ready_acked|by apply busy_acked].
Qed.

Lemma tick_shown r rs w b' :
  busy r rs (core w) -> acked r (pins (bench w)) ->
  (forall i, shows r (sd_buff_addr (pins (bench w))) i -> service c i (bench w) = Some b') ->
  ticks c 1 w = Some (strobe (pins (bench w)), next w b') /\ busy r rs (core (next w b')).
Proof.
  intros Hb Ha Hs. split; [apply tick_one, Hs; by eapply busy_shows|by apply busy_negedge, busy_acked].
Qed.

Lemma ready_fresh rs k : ready rs k -> fresh rs k.
Proof. intros Hr p Hp. by apply ready_quiet. Qed.

Lemma busy_fresh r rs k : busy r rs k -> fresh rs k.
Proof. intros Hr p Hp. by eapply busy_quiet. Qed.

(** The counters of a state. *)
Definition at_t (h : Hps) (j : Z) : Hps :=
  MkHps (st h) j (wi h) (tgt h) (was_write h) (lba h) (fetches h) (flushes h) (written h) (tbblk h)
    (tb_reads h) (cur_tb_latency h) (tb_defers h) (tb_writes h) (tb_wdefers h) (tb_wlost h) (lba_at_defer h).

Lemma at_t_set h j : h <| t := j |> = at_t h j.
Proof. reflexivity. Qed.

Lemma at_t_twice h j j' : at_t (at_t h j) j' = at_t h j'.
Proof. reflexivity. Qed.

Lemma at_t_self h : at_t h (t h) = h.
Proof. by destruct h. Qed.

(** A wait. *)
Lemma wait_ticks limit go rs h p x w b' :
  int limit -> quiet p -> sd_buff_wr p = false ->
  (forall i j, service c i (MkBench (at_t h j) p x) = wait_for limit (go i) (MkBench (at_t h j) p x)) ->
  (forall i j, asks rs i -> go i (at_t h j) = Some b') ->
  forall n j, 0 <= j -> j + Z.of_nat (S n) = span limit -> fresh rs (core w) -> bench w = MkBench (at_t h j) p x ->
  exists w', ticks c (S n) w = Some ([], w') /\ bench w' = b' /\ ready rs (core w').
Proof.
  intros Hl Hq Hwr Hsvc Hgo n. unfold int, span in *. revert w.
  induction n as [|n IH]; intros w j Hj Hn Hf Hb.
  - destruct (tick_quiet rs w b') as [Ht Hr]; [done|by rewrite Hb| |].
    + intros i Hi. rewrite Hb, Hsvc. unfold wait_for. cbn [hps t at_t]. rewrite incr_small by lia.
      cbn [mbind option_bind]. destruct (Z.leb_spec limit (j + 1)); [|lia]. rewrite at_t_set. by apply Hgo.
    + rewrite Hb in Ht. cbn [pins] in Ht. unfold strobe in Ht. rewrite Hwr in Ht. eexists. split; [exact Ht|]. by split.
  - destruct (tick_quiet rs w (MkBench (at_t h (j + 1)) p x)) as [Ht Hr]; [done|by rewrite Hb| |].
    + intros i Hi. rewrite Hb, Hsvc. unfold wait_for. cbn [hps t at_t]. rewrite incr_small by lia.
      cbn [mbind option_bind]. destruct (Z.leb_spec limit (j + 1)); [lia|done].
    + destruct (IH (next w (MkBench (at_t h (j + 1)) p x)) (j + 1)) as (w' & Hw' & Hb' & Hr');
        [lia|lia|by apply ready_fresh|done|].
      exists w'. split; [|done]. change (S (S n)) with (1 + S n)%nat.
      rewrite (ticks_app 1 (S n) w _ w' _ [] Ht Hw'). rewrite Hb. cbn [pins]. unfold strobe. by rewrite Hwr.
Qed.

(** The word and the sub-cycle of a stream. *)
Definition at_w (h : Hps) (k j : Z) : Hps :=
  MkHps (st h) j k (tgt h) (was_write h) (lba h) (fetches h) (flushes h) (written h) (tbblk h)
    (tb_reads h) (cur_tb_latency h) (tb_defers h) (tb_writes h) (tb_wdefers h) (tb_wlost h) (lba_at_defer h).

Definition with_st (s : St) (h : Hps) : Hps :=
  MkHps s (t h) (wi h) (tgt h) (was_write h) (lba h) (fetches h) (flushes h) (written h) (tbblk h)
    (tb_reads h) (cur_tb_latency h) (tb_defers h) (tb_writes h) (tb_wdefers h) (tb_wlost h) (lba_at_defer h).

Definition silent (p p0 : Pins) : Prop := io_ack p = io_ack p0 /\ tb_ack p = tb_ack p0 /\ sd_buff_wr p = false.

Lemma acked_same r p p0 : io_ack p = io_ack p0 -> tb_ack p = tb_ack p0 -> acked r p0 -> acked r p.
Proof. intros E1 E2. unfold acked. by rewrite E1, E2. Qed.

Lemma stream_even h k p x f fin :
  0 <= k < 256 ->
  stream_step f fin (MkBench (at_w h k (2 * k)) p x) =
    Some (MkBench (at_w h k (2 * k + 1)) (MkPins true k f (io_ack p) (tb_ack p)) x).
Proof.
  intros Hk. unfold stream_step. cbn [hps t wi at_w]. rewrite incr_small, even_test, Z.even_mul by lia.
  cbn [mbind option_bind Z.even orb]. rewrite (uwrap_small 8 k) by lia. done.
Qed.

Lemma stream_odd h k p x f fin :
  0 <= k < 256 ->
  stream_step f fin (MkBench (at_w h k (2 * k + 1)) p x) =
    Some (MkBench (if k =? 255 then with_st fin (at_w h 256 512) else at_w h (k + 1) (2 * (k + 1)))
            (p <| sd_buff_wr := false |>) x).
Proof.
  intros Hk. unfold stream_step. cbn [hps t wi at_w]. rewrite incr_small, even_test, Z.even_add, Z.even_mul by lia.
  cbn [mbind option_bind Z.even orb Bool.eqb wi modify_field].
  destruct (Z.eqb_spec k 255) as [->|Hn]; [done|]. destruct (Z.eqb_spec (k + 1) 256); [lia|].
  replace (2 * k + 1 + 1) with (2 * (k + 1)) by lia. done.
Qed.

(** A stream: the words [f 0] to [f 255], each strobed once. *)
Lemma stream_ticks r rs h x p0 f fin :
  acked r p0 ->
  (forall i k j p, 0 <= k < 256 -> service c i (MkBench (at_w h k j) p x) = stream_step (f k) fin (MkBench (at_w h k j) p x)) ->
  forall n (w : World C) k p, 0 <= k -> k + Z.of_nat (S n) = 256 -> live r rs (core w) -> silent p p0 ->
  bench w = MkBench (at_w h k (2 * k)) p x ->
  exists w' p', ticks c (2 * S n) w =
      Some (map (fun j => (io_ack p0, tb_ack p0, Z.of_nat j, f (Z.of_nat j))) (seq (Z.to_nat k) (S n)), w') /\
    bench w' = MkBench (with_st fin (at_w h 256 512)) p' x /\ silent p' p0 /\ busy r rs (core w').
Proof.
  intros Ha Hsvc n. induction n as [|n IH]; intros w k p Hk Hn Hl (Hp1 & Hp2 & Hp3) Hb.
  all: assert (Hap : acked r p) by (by eapply acked_same).
  all: set (p1 := MkPins true k (f k) (io_ack p) (tb_ack p)).
  all: destruct (tick_live r rs w (MkBench (at_w h k (2 * k + 1)) p1 x) Hl) as [Ht1 Hb1];
    [by rewrite Hb|intros i; rewrite Hb, Hsvc by lia; apply stream_even; lia|].
  all: set (w1 := next w _) in *.
  all: destruct (tick_live r rs w1 (MkBench (if k =? 255 then with_st fin (at_w h 256 512) else at_w h (k + 1) (2 * (k + 1)))
         (p1 <| sd_buff_wr := false |>) x)) as [Ht2 Hb2];
    [by right|exact Hap|intros i; unfold w1 at 1; cbn [bench next]; rewrite Hsvc by lia; apply stream_odd; lia|].
  all: set (w2 := next w1 _) in *; pose proof (ticks_app 1 1 w w1 w2 _ _ Ht1 Ht2) as Ht.
  all: rewrite Hb in Ht; unfold strobe at 1 in Ht; cbn [pins] in Ht; rewrite Hp3 in Ht.
  all: change (strobe (pins (bench w1))) with [(io_ack p, tb_ack p, k, f k)] in Ht; rewrite Hp1, Hp2 in Ht.
  - exists w2, (p1 <| sd_buff_wr := false |>). cbn [seq map]. rewrite Z2Nat.id by lia.
    split; [exact Ht|]. split; [|split; [done|exact Hb2]]. unfold w2. cbn [bench next].
    destruct (Z.eqb_spec k 255); [done|lia].
  - destruct (IH w2 (k + 1) (p1 <| sd_buff_wr := false |>)) as (w' & p' & Hw' & Hrest);
      [lia|lia|by right|done|unfold w2; cbn [bench next]; destruct (Z.eqb_spec k 255); [lia|done]|].
    exists w', p'. split; [|exact Hrest]. replace (2 * S (S n))%nat with (1 + 1 + 2 * S n)%nat by lia.
    rewrite (ticks_app _ _ _ _ _ _ _ Ht Hw'). cbn [app]. f_equal. f_equal.
    replace (Z.to_nat (k + 1)) with (S (Z.to_nat k)) by lia. cbn [seq map]. rewrite Z2Nat.id by lia. done.
Qed.

Lemma capture_0 tw h k p x :
  0 <= k < 256 -> wi h = k ->
  capture_step tw (MkBench (at_t h (3 * k)) p x) =
    Some (MkBench (at_t h (3 * k + 1)) (p <| sd_buff_addr := k |>) x).
Proof.
  intros Hk Hw. unfold capture_step. cbn [hps t wi at_t]. rewrite incr_small by lia. cbn [mbind option_bind].
  rewrite Z.mul_comm, Z_mod_mult. cbn [Z.eqb]. rewrite Hw, (uwrap_small 8 k) by lia. done.
Qed.

Lemma capture_1 tw h k p x :
  0 <= k < 256 ->
  capture_step tw (MkBench (at_t h (3 * k + 1)) p x) = Some (MkBench (at_t h (3 * k + 2)) p x).
Proof.
  intros Hk. unfold capture_step. cbn [hps t at_t]. rewrite incr_small by lia. cbn [mbind option_bind].
  replace ((3 * k + 1) `mod` 3) with 1 by (apply (Z.mod_unique _ _ k); lia). cbn [Z.eqb Pos.eqb].
  replace (3 * k + 1 + 1) with (3 * k + 2) by lia. done.
Qed.

Lemma capture_2 tw h k p x h' x' :
  0 <= k < 256 -> tw (at_t h (3 * k + 2)) = Some (h', x') ->
  capture_step tw (MkBench (at_t h (3 * k + 2)) p x) = Some (MkBench (at_t h' (3 * (k + 1))) p x').
Proof.
  intros Hk E. unfold capture_step. cbn [hps t at_t]. rewrite incr_small by lia. cbn [mbind option_bind].
  replace ((3 * k + 2) `mod` 3) with 2 by (apply (Z.mod_unique _ _ k); lia). cbn [Z.eqb Pos.eqb].
  change (hps (MkBench (at_t h (3 * k + 2)) p x)) with (at_t h (3 * k + 2)). rewrite E. cbn [mbind option_bind].
  replace (3 * k + 2 + 1) with (3 * (k + 1)) by lia. done.
Qed.

(** A capture: 256 words into the states [G 0] to [G 256]. *)
Lemma capture_ticks r rs p0 (G : Z -> Hps) (X : Z -> TbHps) tw :
  acked r p0 ->
  (forall k, 0 <= k < 256 -> wi (G k) = k) ->
  (forall i k j p, 0 <= k < 256 ->
     service c i (MkBench (at_t (G k) j) p (X k)) = capture_step (tw i k) (MkBench (at_t (G k) j) p (X k))) ->
  (forall i k, 0 <= k < 256 -> shows r k i -> exists h',
     tw i k (at_t (G k) (3 * k + 2)) = Some (h', X (k + 1)) /\
     at_t h' (3 * (k + 1)) = at_t (G (k + 1)) (3 * (k + 1))) ->
  forall n (w : World C) k p, 0 <= k -> k + Z.of_nat (S n) = 256 -> live r rs (core w) -> silent p p0 ->
  bench w = MkBench (at_t (G k) (3 * k)) p (X k) ->
  exists w' p', ticks c (3 * S n) w = Some ([], w') /\
    bench w' = MkBench (at_t (G 256) 768) p' (X 256) /\ silent p' p0 /\ busy r rs (core w').
Proof.
  intros Ha Hwi Hsvc Htw n. induction n as [|n IH]; intros w k p Hk Hn Hl Hp Hb;
    pose proof Hp as (Hp1 & Hp2 & Hp3).
  all: assert (Hap : acked r p) by (by eapply acked_same).
  all: set (p1 := p <| sd_buff_addr := k |>).
  all: destruct (tick_live r rs w (MkBench (at_t (G k) (3 * k + 1)) p1 (X k)) Hl) as [Ht1 Hb1];
    [by rewrite Hb|intros i; rewrite Hb, Hsvc by lia; apply capture_0; [lia|apply Hwi; lia]|].
  all: set (w1 := next w _) in *.
  all: destruct (tick_live r rs w1 (MkBench (at_t (G k) (3 * k + 2)) p1 (X k)) (or_intror Hb1)) as [Ht2 Hb2];
    [exact Hap|intros i; unfold w1 at 1; cbn [bench next]; rewrite Hsvc by lia; apply capture_1; lia|].
  all: set (w2 := next w1 _) in *.
  all: destruct (tick_shown r rs w2 (MkBench (at_t (G (k + 1)) (3 * (k + 1))) p1 (X (k + 1))) Hb2) as [Ht3 Hb3];
    [exact Hap|intros i Hi; unfold w2 at 1; cbn [bench next]; rewrite Hsvc by lia;
       destruct (Htw i k ltac:(lia) Hi) as (h' & E1 & E2); rewrite (capture_2 (tw i k) (G k) k p1 (X k) h' (X (k + 1)) ltac:(lia) E1), E2; done|].
  all: set (w3 := next w2 _) in *.
  all: pose proof (ticks_app 1 2 w w1 w3 _ _ Ht1 (ticks_app 1 1 w1 w2 w3 _ _ Ht2 Ht3)) as Ht.
  all: assert (Hsil : strobe (pins (bench w)) ++ strobe (pins (bench w1)) ++ strobe (pins (bench w2)) = [])
    by (unfold w1, w2, strobe; rewrite Hb; cbn [bench next pins]; unfold p1; cbn [sd_buff_wr modify_field]; by rewrite Hp3).
  all: rewrite Hsil in Ht.
  - exists w3, p1. split; [exact Ht|]. assert (E : k = 255) by lia.
    split; [unfold w3; cbn [bench next]; by rewrite E|]. split; [exact Hp|exact Hb3].
  - destruct (IH w3 (k + 1) p1) as (w' & p' & Hw' & Hrest); [lia|lia|by right|exact Hp|done|].
    exists w', p'. split; [|exact Hrest]. replace (3 * S (S n))%nat with (1 + 2 + 3 * S n)%nat by lia.
    by rewrite (ticks_app _ _ _ _ _ _ _ Ht Hw').
Qed.

(** ** Each request *)

Definition reaches (N : Z) (w : World C) (o : list Strobe) (w' : World C) : Prop :=
  exists n, Z.of_nat n <= N /\ ticks c n w = Some (o, w').

Lemma reaches_ticks n w o w' : ticks c n w = Some (o, w') -> reaches (Z.of_nat n) w o w'.
Proof. intros E. by exists n. Qed.

Lemma reaches_trans N1 N2 w w1 w2 o1 o2 :
  reaches N1 w o1 w1 -> reaches N2 w1 o2 w2 -> reaches (N1 + N2) w (o1 ++ o2) w2.
Proof.
  intros (n1 & H1 & E1) (n2 & H2 & E2). exists (n1 + n2)%nat. split; [lia|]. by eapply ticks_app.
Qed.

Lemma reaches_le N1 N2 w o w' : N1 <= N2 -> reaches N1 w o w' -> reaches N2 w o w'.
Proof. intros HN (n & Hn & E). exists n. split; [lia|done]. Qed.

Definition idle (b : Bench) : Prop :=
  st (hps b) = IDLE /\ quiet (pins b) /\ sd_buff_wr (pins b) = false /\ length (tbblk (hps b)) = 512%nat.

(** The end of a request. *)
Definition served (rs : list Req) (a : AbsHost) (lost : Z) (w : World C) : Prop :=
  idle (bench w) /\ fresh rs (core w) /\ abs (bench w) = a /\ tb_wlost (hps (bench w)) = lost.

Definition asked (h : Hps) (s l : Z) (ww : bool) (S : St) : Hps :=
  MkHps S 0 (wi h) s ww l (fetches h) (flushes h) (written h) (tbblk h)
    (tb_reads h) (cur_tb_latency h) (tb_defers h) (tb_writes h) (tb_wdefers h) (tb_wlost h) (lba_at_defer h).

Lemma slot_cases s : s ∈ [0; 1] -> s = 0 \/ s = 1.
Proof. intros H1. repeat (apply elem_of_cons in H1 as [->|H1]; [by auto|]). by apply elem_of_nil in H1. Qed.

Lemma poll_read i h x s l rs :
  st h = IDLE -> s ∈ [0; 1] -> asks (DiskRead s l :: rs) i ->
  poll_tb c i (poll_disks i [0; 1] h) x = (asked h s l false WAIT, x).
Proof.
  intros Hs Hslot (H1 & H2 & H3). unfold io_lba in H3. cbn [poll_disks]. rewrite H1, H2.
  destruct (slot_cases s Hslot) as [->| ->]; cbn in H3 |- *; rewrite H3; done.
Qed.

Lemma poll_write i h x s l blk rs :
  st h = IDLE -> s ∈ [0; 1] -> asks (DiskWrite s l blk :: rs) i ->
  poll_tb c i (poll_disks i [0; 1] h) x = (asked h s l true WWAIT, x).
Proof.
  intros Hs Hslot (H1 & H2 & H3). unfold io_lba in H3. cbn [poll_disks]. rewrite H1, H2.
  destruct (slot_cases s Hslot) as [->| ->]; cbn in H3 |- *; rewrite H3; done.
Qed.

Lemma idle_pins p : quiet p -> sd_buff_wr p = false -> p <| sd_buff_wr := false |> <| io_ack := 0 |> <| tb_ack := false |> = p.
Proof. destruct p as [sw a d io tb]. intros [E1 E2] E3. cbn in *. by subst. Qed.

(** The poll of an idle machine. *)
Lemma idle_tick w r rs h' x' :
  idle (bench w) -> fresh (r :: rs) (core w) ->
  (forall i, asks (r :: rs) i ->
     poll_tb c i (poll_disks i [0; 1] (hps (bench w))) (tbx (bench w)) = (h', x')) ->
  exists w', reaches 1 w [] w' /\ bench w' = MkBench h' (pins (bench w)) x' /\ ready (r :: rs) (core w').
Proof.
  intros (Hs & Hq & Hwr & Hl) Hf Hpoll.
  destruct (tick_quiet (r :: rs) w (MkBench h' (pins (bench w)) x') Hf Hq) as [Ht Hr].
  - intros i Hi. unfold service. rewrite Hs, idle_pins, (Hpoll i Hi) by done. done.
  - unfold strobe in Ht. rewrite Hwr in Ht. eexists. split; [exact (reaches_ticks 1 _ _ _ Ht)|]. by split.
Qed.

(** A wait from its first call. *)
Lemma wait_run limit go rs h p x w b' :
  int limit -> quiet p -> sd_buff_wr p = false -> t h = 0 ->
  (forall i j, service c i (MkBench (at_t h j) p x) = wait_for limit (go i) (MkBench (at_t h j) p x)) ->
  (forall i j, asks rs i -> go i (at_t h j) = Some b') ->
  ready rs (core w) -> bench w = MkBench h p x ->
  exists w', reaches (span limit) w [] w' /\ bench w' = b' /\ ready rs (core w').
Proof.
  intros Hl Hq Hwr Ht0 Hsvc Hgo Hr Hb. unfold span in *.
  assert (Hn : exists n, 0 + Z.of_nat (S n) = Z.max 1 limit) by (exists (Z.to_nat (Z.max 1 limit - 1)); lia).
  destruct Hn as [n Hn].
  destruct (wait_ticks limit go rs h p x w b' Hl Hq Hwr Hsvc Hgo n 0) as (w' & Ht & Hrest); [lia|exact Hn|by apply ready_fresh| |].
  { rewrite <- Ht0, at_t_self. exact Hb. }
  exists w'. split; [|exact Hrest]. rewrite <- Hn. exact (reaches_ticks _ _ _ _ Ht).
Qed.

Lemma run_disk_read s l rs w :
  settings_ok c -> s ∈ [0; 1] -> idle (bench w) -> fresh (DiskRead s l :: rs) (core w) ->
  exists o a w', serve_req (DiskRead s l) (abs (bench w)) = Some (o, a) /\
    reaches (span (latency c) + 514) w o w' /\ served rs a (tb_wlost (hps (bench w))) w'.
Proof.
  intros (Hlat & _) Hs Hid Hf. pose proof Hid as (Hst & Hq & Hwr & Hl).
  destruct (bench w) as [h p x] eqn:Hb. cbn [hps pins tbx] in *. rewrite <- Hb in Hid.
  destruct (idle_tick w (DiskRead s l) rs (asked h s l false WAIT) x Hid Hf) as (w1 & R1 & Hb1 & Hr1).
  { intros i Hi. rewrite Hb. by eapply poll_read. }
  rewrite Hb in Hb1. cbn [pins] in Hb1. set (h1 := asked h s l false WAIT) in *.
  set (p2 := p <| io_ack := Z.shiftl 1 s |>). set (h2 := with_st STREAM (at_w h1 0 0)).
  destruct (wait_run (latency c) (fun _ h => Some (MkBench (start STREAM h) p2 x)) (DiskRead s l :: rs) h1 p x w1
              (MkBench h2 p2 x)) as (w2 & R2 & Hb2 & Hr2); try done.
  set (f := fun k => pack (ramp (l * 512 + k * 2)) (ramp (l * 512 + k * 2 + 1))).
  destruct (stream_ticks (DiskRead s l) rs h2 x p2 f FINISH) with (n := 255%nat) (w := w2) (k := 0) (p := p2)
    as (w3 & p3 & R3 & Hb3 & (P1 & P2 & P3) & Hbusy); try done.
  { split; [done|apply Hq]. }
  { by left. }
  destruct (tick_live (DiskRead s l) rs w3 (MkBench (with_st IDLE (with_st FINISH (at_w h2 256 512)) <| fetches := u64 (fetches h + 1) |>)
      (p3 <| sd_buff_wr := false |> <| io_ack := 0 |>) x)) as [R4 Hbusy4].
  { by right. }
  { rewrite Hb3. cbn [pins]. split; [by rewrite P1|by rewrite P2; apply Hq]. }
  { intros i. by rewrite Hb3. }
  eexists _, _, _. split; [reflexivity|]. split; [|split; [|split; [by apply busy_fresh in Hbusy4|done]]].
  - assert (R := reaches_trans _ _ _ _ _ _ _ R1 (reaches_trans _ _ _ _ _ _ _ R2
       (reaches_trans _ _ _ _ _ _ _ (reaches_ticks _ _ _ _ R3) (reaches_ticks _ _ _ _ R4)))).
    rewrite Hb3 in R. cbn [pins] in R. unfold strobe at 1 in R. rewrite P3, app_nil_r in R. cbn [app] in R.
    eapply reaches_le; [|unfold block_strobes; unfold p2 in R; cbn [io_ack tb_ack modify_field] in R; destruct Hq as [_ Hq]; rewrite Hq in R; exact R]. lia.
  - split; [done|]. split; [|done]. split; [done|]. cbn. by rewrite P2; apply Hq.
Qed.

(** The state of a capture after [k] words. *)
Definition captured (s1 s2 : St) (h : Hps) (k : Z) (img bl : list Z) : Hps :=
  MkHps (if k =? 256 then s2 else s1) 0 k (tgt h) (was_write h) (lba h) (fetches h) (flushes h) img bl
    (tb_reads h) (cur_tb_latency h) (tb_defers h) (tb_writes h) (tb_wdefers h) (tb_wlost h) (lba_at_defer h).

Lemma take_disk_ok i x h k blk img s l :
  bytes_ok blk -> 0 <= k < 256 -> 0 <= l -> sd_buff_din s i = word blk k -> tgt h = s -> lba h = l ->
  let off := Z.to_nat (l * 512) in
  exists h', take_disk_word i x (at_t (captured WCAP FINISH h k (image_at off blk img k) (tbblk h)) (3 * k + 2)) = Some (h', x) /\
    at_t h' (3 * (k + 1)) =
      at_t (captured WCAP FINISH h (k + 1) (image_at off blk img (k + 1)) (tbblk h)) (3 * (k + 1)).
Proof.
  intros Hblk Hk Hl Hdin Htgt Hlba. cbn zeta. unfold take_disk_word.
  cbn [tgt lba wi at_t captured]. rewrite Htgt, Hlba. change (if s =? 0 then _ else _) with (sd_buff_din s i).
  rewrite Hdin. eexists. split; [reflexivity|].
  rewrite <- image_at_next by done.
  replace (Z.to_nat (l * 512 + k * 2)) with (Z.to_nat (l * 512) + Z.to_nat (2 * k))%nat by lia.
  unfold captured. rewrite (proj2 (Z.eqb_neq k 256)) by lia. cbn [wi at_t modify_field]. by destruct (k + 1 =? 256).
Qed.

Lemma run_disk_write s l blk rs w :
  settings_ok c -> s ∈ [0; 1] -> 0 <= l -> bytes_ok blk -> idle (bench w) -> fresh (DiskWrite s l blk :: rs) (core w) ->
  exists o a w', serve_req (DiskWrite s l blk) (abs (bench w)) = Some (o, a) /\
    reaches (span (latency c) + 770) w o w' /\ served rs a (tb_wlost (hps (bench w))) w'.
Proof.
  intros (Hlat & _) Hs Hl0 Hblk Hid Hf. pose proof Hid as (Hst & Hq & Hwr & Hl).
  destruct (bench w) as [h p x] eqn:Hb. cbn [hps pins tbx] in *. rewrite <- Hb in Hid.
  destruct (idle_tick w (DiskWrite s l blk) rs (asked h s l true WWAIT) x Hid Hf) as (w1 & R1 & Hb1 & Hr1).
  { intros i Hi. rewrite Hb. by eapply poll_write. }
  rewrite Hb in Hb1. cbn [pins] in Hb1. set (h1 := asked h s l true WWAIT) in *.
  set (p2 := p <| io_ack := Z.shiftl 1 s |>). set (off := Z.to_nat (l * 512)).
  set (G := fun k => captured WCAP FINISH h1 k (image_at off blk (written h) k) (tbblk h1)).
  destruct (wait_run (latency c) (fun _ h => Some (MkBench (start WCAP h) p2 x)) (DiskWrite s l blk :: rs) h1 p x w1
              (MkBench (at_t (G 0) (3 * 0)) p2 x)) as (w2 & R2 & Hb2 & Hr2); try done.
  destruct (capture_ticks (DiskWrite s l blk) rs p2 G (fun _ => x) (fun i _ => take_disk_word i x))
    with (n := 255%nat) (w := w2) (k := 0) (p := p2) as (w3 & p3 & R3 & Hb3 & (P1 & P2 & P3) & Hbusy); try done.
  { split; [done|apply Hq]. }
  { intros i k j q Hk. unfold service, G. cbn [hps st at_t captured]. by destruct (Z.eqb_spec k 256); [lia|]. }
  { intros i k Hk Hsh. apply (take_disk_ok i x h1 k blk (written h) s l); try done. by apply Hsh. }
  { by left. }
  destruct (tick_live (DiskWrite s l blk) rs w3 (MkBench (with_st IDLE (at_t (G 256) 768) <| flushes := u64 (flushes h + 1) |>)
      (p3 <| sd_buff_wr := false |> <| io_ack := 0 |>) x)) as [R4 Hbusy4].
  { by right. }
  { rewrite Hb3. cbn [pins]. split; [by rewrite P1|by rewrite P2; apply Hq]. }
  { intros i. by rewrite Hb3. }
  eexists _, _, _. split; [reflexivity|]. split; [|split; [|split; [by apply busy_fresh in Hbusy4|split; [|done]]]].
  - assert (R := reaches_trans _ _ _ _ _ _ _ R1 (reaches_trans _ _ _ _ _ _ _ R2
       (reaches_trans _ _ _ _ _ _ _ (reaches_ticks _ _ _ _ R3) (reaches_ticks _ _ _ _ R4)))).
    rewrite Hb3 in R. cbn [pins] in R. unfold strobe at 1 in R. rewrite P3 in R.
    eapply reaches_le; [|exact R]. lia.
  - split; [done|]. split; [|done]. split; [done|]. cbn. by rewrite P2; apply Hq.
  - unfold abs. cbn [bench next hps tbx]. unfold G. rewrite image_at_256 by done. done.
Qed.

(** The acknowledge held up. *)
Lemma hold_ticks r rs h p x w b' :
  tb_ack_hold c < 2 ^ 31 -> st h = TBAHOLD -> acked r p -> sd_buff_wr p = false ->
  b' = MkBench (with_st IDLE (at_t h (span (tb_ack_hold c)))) (p <| tb_ack := false |>) x ->
  forall n j, 0 <= j -> j + Z.of_nat (S n) = span (tb_ack_hold c) -> busy r rs (core w) -> bench w = MkBench (at_t h j) p x ->
  exists w', ticks c (S n) w = Some ([], w') /\ bench w' = b' /\ busy r rs (core w').
Proof.
  intros Hl Hst Ha Hwr -> n. unfold span in *. revert w.
  assert (Hsvc : forall i j, 0 <= j < Z.max 1 (tb_ack_hold c) -> service c i (MkBench (at_t h j) p x) =
    if tb_ack_hold c <=? j + 1 then Some (MkBench (with_st IDLE (at_t h (j + 1))) (p <| tb_ack := false |>) x)
    else Some (MkBench (at_t h (j + 1)) p x)).
  { intros i j Hj. unfold service, wait_for. cbn [hps pins tbx st t at_t]. rewrite Hst, incr_small by lia.
    cbn [mbind option_bind]. by destruct (tb_ack_hold c <=? j + 1). }
  induction n as [|n IH]; intros w j Hj Hn Hbusy Hb.
  - edestruct (tick_live r rs w) as [Ht Hr]; [by right|by rewrite Hb|intros i; rewrite Hb, Hsvc by lia|].
    { destruct (Z.leb_spec (tb_ack_hold c) (j + 1)); [reflexivity|lia]. }
    rewrite Hb in Ht. cbn [pins] in Ht. unfold strobe in Ht. rewrite Hwr in Ht.
    eexists. split; [exact Ht|]. split; [|exact Hr]. cbn [bench next]. by replace (Z.max 1 (tb_ack_hold c)) with (j + 1) by lia.
  - edestruct (tick_live r rs w) as [Ht Hr]; [by right|by rewrite Hb|intros i; rewrite Hb, Hsvc by lia|].
    { destruct (Z.leb_spec (tb_ack_hold c) (j + 1)); [lia|reflexivity]. }
    set (w1 := next w _) in *.
    destruct (IH w1 (j + 1)) as (w' & Hw' & Hrest); [lia|lia|done|done|].
    exists w'. split; [|exact Hrest]. change (S (S n)) with (1 + S n)%nat.
    rewrite (ticks_app 1 (S n) w _ w' _ [] Ht Hw'). rewrite Hb. cbn [pins]. unfold strobe. by rewrite Hwr.
Qed.

(** The end of a Toolbox block. *)
Lemma run_finish r rs w h p x :
  settings_ok c -> bench w = MkBench h p x -> st h = TBFINISH -> acked r p -> io_ack p = 0 -> sd_buff_wr p = false ->
  length (tbblk h) = 512%nat -> busy r rs (core w) ->
  exists w', reaches (hold_span c) w [] w' /\
    served rs (MkAbsHost (written h) (fetches h) (flushes h) x) (tb_wlost h) w'.
Proof.
  intros (_ & _ & _ & _ & Hh) Hb Hst Ha Hio Hwr Hl Hbusy. unfold hold_span.
  assert (Ep : p <| sd_buff_wr := false |> = p) by (destruct p; cbn in *; by subst).
  destruct (Z.eqb_spec (tb_ack_hold c) 0) as [E|E].
  - destruct (tick_live r rs w (MkBench (with_st IDLE h) (p <| tb_ack := false |>) x)) as [R Hb4].
    + by right.
    + by rewrite Hb.
    + intros i. rewrite Hb. unfold service. cbn [hps pins tbx]. by rewrite Hst, Ep, E.
    + rewrite Hb in R. cbn [pins] in R. unfold strobe in R. rewrite Hwr in R.
      eexists. split; [exact (reaches_ticks _ _ _ _ R)|]. split; [by split_and!|].
      split; [by apply busy_fresh in Hb4|]. by split.
  - destruct (tick_live r rs w (MkBench (with_st TBAHOLD (at_t h 0)) p x)) as [R Hb4].
    + by right.
    + by rewrite Hb.
    + intros i. rewrite Hb. unfold service. cbn [hps pins tbx]. rewrite Hst, Ep.
      by destruct (Z.eqb_spec (tb_ack_hold c) 0).
    + rewrite Hb in R. cbn [pins] in R. unfold strobe in R. rewrite Hwr in R.
      assert (Hn : exists n, 0 + Z.of_nat (S n) = span (tb_ack_hold c))
        by (unfold span; exists (Z.to_nat (Z.max 1 (tb_ack_hold c) - 1)); lia).
      destruct Hn as [n Hn]. set (w1 := next w _) in *.
      destruct (hold_ticks r rs (with_st TBAHOLD (at_t h 0)) p x w1 _ ltac:(apply Hh) eq_refl Ha Hwr eq_refl n 0)
        as (w2 & R2 & Hb2 & Hr2); [lia|exact Hn|exact Hb4|done|].
      exists w2. split.
      * rewrite <- Hn. exact (reaches_trans _ _ _ _ _ _ _ (reaches_ticks _ _ _ _ R) (reaches_ticks _ _ _ _ R2)).
      * unfold served. rewrite Hb2. split; [by split_and!|]. split; [by apply busy_fresh in Hr2|]. by split.
Qed.

(** A Toolbox slot latched with its counters. *)
Definition tb_asked (h : Hps) (S : St) (l : Z) (bl : list Z) (reads writes defers wdefers cur ld : Z) : Hps :=
  MkHps S 0 (wi h) (tgt h) (was_write h) l (fetches h) (flushes h) (written h) bl
    reads cur defers writes wdefers (tb_wlost h) ld.

Lemma poll_disks_none i ks h : io_rd i = 0 -> io_wr i = 0 -> poll_disks i ks h = h.
Proof. intros H1 H2. induction ks as [|k ks IH]; [done|]. cbn [poll_disks]. by rewrite H1, H2, !Z.shiftr_0_l. Qed.

Lemma take_tb_ok i x x' h k blk old l :
  bytes_ok blk -> length old = 512%nat -> 0 <= k < 256 -> tb_buff_din i = word blk k -> lba h = l ->
  request l blk x = Some x' ->
  exists h', take_tb_word i x (at_t (captured TBWCAP TBFINISH h k (written h) (blk_at blk old k)) (3 * k + 2)) =
      Some (h', if k + 1 =? 256 then x' else x) /\
    at_t h' (3 * (k + 1)) =
      at_t (captured TBWCAP TBFINISH h (k + 1) (written h) (blk_at blk old (k + 1))) (3 * (k + 1)).
Proof.
  intros Hblk Hold Hk Hdin Hlba Hreq. unfold take_tb_word. cbn [wi at_t captured].
  rewrite Hdin. destruct (Z.leb_spec 256 k); [lia|]. cbn [wi at_t captured modify_field].
  destruct (Z.eqb_spec (k + 1) 256) as [E|E].
  - assert (Hr : request (lba h) (<[(Z.to_nat (k * 2) + 1)%nat := Z.land (word blk k) 0xff]>
      (<[Z.to_nat (k * 2) := u8 (Z.shiftr (word blk k) 8)]> (blk_at blk old k))) x = Some x')
      by (rewrite blk_at_next, E, blk_at_256, Hlba; done).
    cbn [lba tbblk at_t captured modify_field]. rewrite Hr. cbn [mbind option_bind].
    eexists. split; [reflexivity|]. rewrite <- (blk_at_next blk old k) by done.
    unfold captured. rewrite (proj2 (Z.eqb_neq k 256)), (proj2 (Z.eqb_eq (k + 1) 256)) by lia. done.
  - eexists. split; [reflexivity|]. rewrite <- (blk_at_next blk old k) by done.
    unfold captured. rewrite (proj2 (Z.eqb_neq k 256)), (proj2 (Z.eqb_neq (k + 1) 256)) by lia. done.
Qed.

(** A Toolbox block from its latch. *)
Lemma run_tb_capture l blk rs h p x x' w :
  settings_ok c -> bytes_ok blk -> request l blk x = Some x' ->
  st h = TBWWAIT -> t h = 0 -> lba h = l -> length (tbblk h) = 512%nat -> quiet p -> sd_buff_wr p = false ->
  bench w = MkBench h p x -> ready (TbWrite l blk :: rs) (core w) ->
  exists w', reaches (span (latency c) + 768 + hold_span c) w [] w' /\
    served rs (MkAbsHost (written h) (fetches h) (flushes h) x') (tb_wlost h) w'.
Proof.
  intros Hc Hblk Hreq Hst Ht Hlba Hl Hq Hwr Hb Hr. pose proof Hc as (Hlat & _).
  set (p2 := p <| tb_ack := true |>).
  set (G := fun k => captured TBWCAP TBFINISH h k (written h) (blk_at blk (tbblk h) k)).
  set (X := fun k : Z => if k =? 256 then x' else x).
  destruct (wait_run (latency c) (fun _ h => Some (MkBench (start TBWCAP h) p2 x)) (TbWrite l blk :: rs) h p x w
              (MkBench (at_t (G 0) (3 * 0)) p2 (X 0))) as (w2 & R2 & Hb2 & Hr2); try done.
  { intros i j. unfold service. cbn [hps st at_t]. by rewrite Hst. }
  destruct (capture_ticks (TbWrite l blk) rs p2 G X (fun i k => take_tb_word i (X k)))
    with (n := 255%nat) (w := w2) (k := 0) (p := p2) as (w3 & p3 & R3 & Hb3 & (P1 & P2 & P3) & Hbusy); try done.
  { split; [apply Hq|done]. }
  { intros i k j q Hk. unfold service, G. cbn [hps st at_t captured]. by destruct (Z.eqb_spec k 256); [lia|]. }
  { intros i k Hk Hsh. unfold X at 1. rewrite (proj2 (Z.eqb_neq k 256)) by lia.
    apply (take_tb_ok i x x' h k blk (tbblk h) l); try done. by apply Hsh. }
  { by left. }
  destruct (run_finish (TbWrite l blk) rs w3 (at_t (G 256) 768) p3 (X 256) Hc Hb3) as (w4 & R4 & Hs4); try done.
  { split; [by rewrite P1; apply Hq|by rewrite P2]. }
  { by rewrite P1; apply Hq. }
  { unfold G. cbn [tbblk at_t captured]. rewrite blk_at_256 by done. apply Hblk. }
  exists w4. split; [|exact Hs4].
  eapply reaches_le; [|exact (reaches_trans _ _ _ _ _ _ _ R2 (reaches_trans _ _ _ _ _ _ _ (reaches_ticks _ _ _ _ R3) R4))].
  lia.
Qed.

Lemma run_tb_write l blk rs w x' :
  settings_ok c -> bytes_ok blk -> request l blk (tbx (bench w)) = Some x' ->
  idle (bench w) -> fresh (TbWrite l blk :: rs) (core w) ->
  exists o a w', serve_req (TbWrite l blk) (abs (bench w)) = Some (o, a) /\
    reaches (span (tb_wdefer_latency c) + span (latency c) + 769 + hold_span c) w o w' /\
    served rs a (tb_wlost (hps (bench w))) w'.
Proof.
  intros Hc Hblk Hreq Hid Hf. pose proof Hid as (Hst & Hq & Hwr & Hl). pose proof Hc as (Hlat & _ & _ & Hwd & _).
  destruct (bench w) as [h p x] eqn:Hb. cbn [hps pins tbx] in *. rewrite <- Hb in Hid.
  unfold serve_req, abs. cbn [hps pins tbx toolbox image n_fetches n_flushes]. rewrite Hreq. cbn [mbind option_bind].
  eexists _, _. set (W := u64 (tb_writes h + 1)).
  destruct (every_th (tb_wdefer_every c) W) eqn:Hev.
  - set (h1 := tb_asked h TBWDEFER (lba h) (tbblk h) (tb_reads h) W (tb_defers h) (u64 (tb_wdefers h + 1)) (cur_tb_latency h) l).
    destruct (idle_tick w (TbWrite l blk) rs h1 x Hid Hf) as (w1 & R1 & Hb1 & Hr1).
    { intros i (E1 & E2 & E3 & E4). rewrite Hb. cbn [hps tbx]. rewrite poll_disks_none by done.
      unfold poll_tb. rewrite bool_decide_true, E3 by done. cbn [andb tb_writes modify_field]. fold W. by rewrite Hev, E4. }
    rewrite Hb in Hb1. cbn [pins] in Hb1.
    set (h2 := tb_asked h TBWWAIT l (tbblk h) (tb_reads h) W (tb_defers h) (u64 (tb_wdefers h + 1)) (cur_tb_latency h) l).
    destruct (wait_run (tb_wdefer_latency c) (fun i h =>
         if negb (tb_wr i) then Some (MkBench (h <| tb_wlost := u64 (tb_wlost h + 1) |> <| st := IDLE |>) p x)
         else
           let h := if negb (tb_lba i =? lba_at_defer h) then h <| tb_wlost := u64 (tb_wlost h + 1) |> else h in
           Some (MkBench (h <| lba := tb_lba i |> <| st := TBWWAIT |> <| t := 0 |>) p x))
        (TbWrite l blk :: rs) h1 p x w1 (MkBench h2 p x)) as (w2 & R2 & Hb2 & Hr2); try done.
    { intros i j (E1 & E2 & E3 & E4). rewrite E3, E4. cbn [negb]. unfold h1. cbn [lba_at_defer at_t tb_asked].
      by rewrite Z.eqb_refl. }
    destruct (run_tb_capture l blk rs h2 p x x' w2) as (w3 & R3 & Hs3); try done.
    exists w3. split; [done|]. split; [|exact Hs3].
    eapply reaches_le; [|exact (reaches_trans _ _ _ _ _ _ _ R1 (reaches_trans _ _ _ _ _ _ _ R2 R3))]. lia.
  - set (h1 := tb_asked h TBWWAIT l (tbblk h) (tb_reads h) W (tb_defers h) (tb_wdefers h) (cur_tb_latency h) (lba_at_defer h)).
    destruct (idle_tick w (TbWrite l blk) rs h1 x Hid Hf) as (w1 & R1 & Hb1 & Hr1).
    { intros i (E1 & E2 & E3 & E4). rewrite Hb. cbn [hps tbx]. rewrite poll_disks_none by done.
      unfold poll_tb. rewrite bool_decide_true, E3 by done. cbn [andb tb_writes modify_field]. fold W. by rewrite Hev, E4. }
    rewrite Hb in Hb1. cbn [pins] in Hb1.
    destruct (run_tb_capture l blk rs h1 p x x' w1) as (w3 & R3 & Hs3); try done.
    exists w3. split; [done|]. split; [|exact Hs3].
    eapply reaches_le; [|exact (reaches_trans _ _ _ _ _ _ _ R1 R3)]. unfold span. lia.
Qed.

(** A response block from its latch. *)
Lemma run_tb_stream l rs h p x w :
  settings_ok c -> st h = TBRWAIT -> t h = 0 -> length (tbblk h) = 512%nat -> int (cur_tb_latency h) ->
  quiet p -> sd_buff_wr p = false -> bench w = MkBench h p x -> ready (TbRead l :: rs) (core w) ->
  exists w', reaches (span (cur_tb_latency h) + 512 + hold_span c) w (block_strobes 0 true (word (tbblk h))) w' /\
    served rs (MkAbsHost (written h) (fetches h) (flushes h) x) (tb_wlost h) w'.
Proof.
  intros Hc Hst Ht Hl Hlat Hq Hwr Hb Hr. set (p2 := p <| tb_ack := true |>).
  set (h2 := with_st TBRSTREAM (at_w h 0 0)).
  destruct (wait_run (cur_tb_latency h) (fun _ h => Some (MkBench (start TBRSTREAM h) p2 x)) (TbRead l :: rs) h p x w
              (MkBench h2 p2 x)) as (w2 & R2 & Hb2 & Hr2); try done.
  { intros i j. unfold service. cbn [hps st at_t]. by rewrite Hst. }
  destruct (stream_ticks (TbRead l) rs h2 x p2 (word (tbblk h)) TBFINISH) with (n := 255%nat) (w := w2) (k := 0) (p := p2)
    as (w3 & p3 & R3 & Hb3 & (P1 & P2 & P3) & Hbusy); try done.
  { split; [apply Hq|done]. }
  { intros i k j q Hk. unfold service. cbn [hps st wi t tbblk at_w with_st h2].
    destruct (Z.leb_spec 256 k); [lia|]. by rewrite andb_false_r. }
  { by left. }
  destruct (run_finish (TbRead l) rs w3 (with_st TBFINISH (at_w h2 256 512)) p3 x Hc Hb3) as (w4 & R4 & Hs4); try done.
  { split; [by rewrite P1; apply Hq|by rewrite P2]. }
  { by rewrite P1; apply Hq. }
  exists w4. split; [|exact Hs4].
  assert (R := reaches_trans _ _ _ _ _ _ _ R2 (reaches_trans _ _ _ _ _ _ _ (reaches_ticks _ _ _ _ R3) R4)).
  rewrite app_nil_r in R. cbn [app] in R. unfold p2 in R. cbn [io_ack tb_ack modify_field] in R.
  destruct Hq as [Hq _]. rewrite Hq in R. unfold block_strobes. eapply reaches_le; [|exact R]. lia.
Qed.

Lemma run_tb_read l rs w :
  settings_ok c -> idle (bench w) -> fresh (TbRead l :: rs) (core w) ->
  exists o a w', serve_req (TbRead l) (abs (bench w)) = Some (o, a) /\
    reaches (span (tb_defer_latency c) + Z.max (span (latency c)) (span (tb_slow_latency c)) + 513 + hold_span c) w o w' /\
    served rs a (tb_wlost (hps (bench w))) w'.
Proof.
  intros Hc Hid Hf. pose proof Hid as (Hst & Hq & Hwr & Hl). pose proof Hc as (Hlat & Hsl & Hrd & _).
  destruct (bench w) as [h p x] eqn:Hb. cbn [hps pins tbx] in *. rewrite <- Hb in Hid.
  unfold serve_req, abs. cbn [hps pins tbx toolbox image n_fetches n_flushes].
  eexists _, _. set (R := u64 (tb_reads h + 1)).
  destruct (every_th (tb_defer_every c) R) eqn:Hev.
  - set (h1 := tb_asked h TBRDEFER (lba h) (tbblk h) R (tb_writes h) (u64 (tb_defers h + 1)) (tb_wdefers h) (cur_tb_latency h) (lba_at_defer h)).
    destruct (idle_tick w (TbRead l) rs h1 x Hid Hf) as (w1 & R1 & Hb1 & Hr1).
    { intros i (E1 & E2 & E3 & E4 & E5). rewrite Hb. cbn [hps tbx]. rewrite poll_disks_none by done.
      unfold poll_tb. rewrite bool_decide_true, E3, E4 by done. cbn [andb tb_reads modify_field]. fold R. by rewrite Hev. }
    rewrite Hb in Hb1. cbn [pins] in Hb1.
    set (h2 := tb_asked h TBRWAIT l (fill l x).1 R (tb_writes h) (u64 (tb_defers h + 1)) (tb_wdefers h) (latency c) (lba_at_defer h)).
    destruct (wait_run (tb_defer_latency c) (fun i h =>
         if negb (tb_rd i) then Some (MkBench (h <| st := IDLE |>) p x)
         else Some (MkBench (h <| lba := tb_lba i |> <| tbblk := (fill (tb_lba i) x).1 |>
                               <| cur_tb_latency := latency c |> <| st := TBRWAIT |> <| t := 0 |>)
                      p (fill (tb_lba i) x).2))
        (TbRead l :: rs) h1 p x w1 (MkBench h2 p (fill l x).2)) as (w2 & R2 & Hb2 & Hr2); try done.
    { intros i j (E1 & E2 & E3 & E4 & E5). by rewrite E4, E5. }
    destruct (run_tb_stream l rs h2 p (fill l x).2 w2) as (w3 & R3 & Hs3); try done.
    { apply fill_length. }
    exists w3. split; [done|]. split; [|exact Hs3].
    eapply reaches_le; [|exact (reaches_trans _ _ _ _ _ _ _ R1 (reaches_trans _ _ _ _ _ _ _ R2 R3))].
    cbn [cur_tb_latency h2 tb_asked]. lia.
  - set (lat := if every_th (tb_slow_every c) R then tb_slow_latency c else latency c).
    set (h1 := tb_asked h TBRWAIT l (fill l x).1 R (tb_writes h) (tb_defers h) (tb_wdefers h) lat (lba_at_defer h)).
    destruct (idle_tick w (TbRead l) rs h1 (fill l x).2 Hid Hf) as (w1 & R1 & Hb1 & Hr1).
    { intros i (E1 & E2 & E3 & E4 & E5). rewrite Hb. cbn [hps tbx]. rewrite poll_disks_none by done.
      unfold poll_tb. rewrite bool_decide_true, E3, E4 by done. cbn [andb tb_reads modify_field]. fold R. by rewrite Hev, E5. }
    rewrite Hb in Hb1. cbn [pins] in Hb1.
    destruct (run_tb_stream l rs h1 p (fill l x).2 w1) as (w3 & R3 & Hs3); try done.
    { apply fill_length. }
    { by apply every_latency. }
    exists w3. split; [done|]. split; [|exact Hs3].
    eapply reaches_le; [|exact (reaches_trans _ _ _ _ _ _ _ R1 R3)].
    unfold span. cbn [cur_tb_latency h1 tb_asked]. unfold lat. clear. destruct (every_th (tb_slow_every c) R); lia.
Qed.

(** The calls that a request takes at most. *)
Definition budget : Z :=
  span (tb_defer_latency c) + span (tb_wdefer_latency c) + Z.max (span (latency c)) (span (tb_slow_latency c)) +
  770 + hold_span c.

Lemma run_request r rs w o a :
  settings_ok c -> req_ok r -> idle (bench w) -> fresh (r :: rs) (core w) -> serve_req r (abs (bench w)) = Some (o, a) ->
  exists w', reaches budget w o w' /\ served rs a (tb_wlost (hps (bench w))) w'.
Proof.
  intros Hc Hr Hid Hf Hserve. pose proof (hold_pos c) as Hhold.
  assert (Hgoal : exists N o' a' w', serve_req r (abs (bench w)) = Some (o', a') /\ reaches N w o' w' /\
    served rs a' (tb_wlost (hps (bench w))) w' /\ N <= budget).
  { unfold budget. destruct r as [s l|s l blk|l blk|l]; cbn [req_ok] in Hr.
    - destruct (run_disk_read s l rs w Hc) as (o' & a' & w' & H1 & H2 & H3); [apply Hr|done|done|].
      eexists _, o', a', w'. split; [done|]. split; [done|]. split; [done|]. unfold span. lia.
    - destruct (run_disk_write s l blk rs w Hc) as (o' & a' & w' & H1 & H2 & H3); [apply Hr|apply Hr|apply Hr|done|done|].
      eexists _, o', a', w'. split; [done|]. split; [done|]. split; [done|]. unfold span. lia.
    - cbn [serve_req] in Hserve. unfold abs in Hserve. cbn [toolbox] in Hserve.
      destruct (request l blk (tbx (bench w))) as [x'|] eqn:E; [|done].
      destruct (run_tb_write l blk rs w x' Hc) as (o' & a' & w' & H1 & H2 & H3); [apply Hr|done..|].
      eexists _, o', a', w'. split; [done|]. split; [done|]. split; [done|]. unfold span. lia.
    - destruct (run_tb_read l rs w Hc) as (o' & a' & w' & H1 & H2 & H3); [done|done|].
      eexists _, o', a', w'. split; [done|]. split; [done|]. split; [done|]. unfold span. lia. }
  destruct Hgoal as (N & o' & a' & w' & H1 & H2 & H3 & HN). rewrite Hserve in H1. injection H1 as <- <-.
  exists w'. split; [by eapply reaches_le|done].
Qed.

Lemma run_requests_served rs w o a :
  settings_ok c -> Forall req_ok rs -> idle (bench w) -> fresh rs (core w) -> serve_all rs (abs (bench w)) = Some (o, a) ->
  exists w', reaches (Z.of_nat (length rs) * budget) w o w' /\ served [] a (tb_wlost (hps (bench w))) w'.
Proof.
  intros Hc Hrs. revert w o a. induction Hrs as [|r rs Hr Hrs IH]; intros w o a Hid Hf Hserve; cbn [serve_all] in Hserve.
  - injection Hserve as <- <-. exists w. split; [by exists 0%nat|]. by split_and!.
  - destruct (serve_req r (abs (bench w))) as [[o1 a1]|] eqn:E1; cbn [mbind option_bind] in Hserve; [|done].
    destruct (run_request r rs w o1 a1 Hc Hr Hid Hf E1) as (w1 & R1 & Hid1 & Hf1 & Ha1 & Hl1).
    destruct (serve_all rs a1) as [[o2 a2]|] eqn:E2; cbn [mbind option_bind] in Hserve; [|done].
    injection Hserve as <- <-. rewrite <- Ha1 in E2.
    destruct (IH w1 o2 a2 Hid1 Hf1 E2) as (w2 & R2 & Hs2). rewrite Hl1 in Hs2.
    exists w2. split; [|exact Hs2]. eapply reaches_le; [|exact (reaches_trans _ _ _ _ _ _ _ R1 R2)].
    cbn [length]. lia.
Qed.

End Phases.

(** C4: the machine serves the requests of the core, one after another.  Against a
    core that keeps the handshake, the machine does in bounded time what the
    abstract host does in one step per request, for every list of disk and Toolbox
    requests: the words strobed to the core are those of the sectors and of the
    response blocks, under the acknowledge of the slot that asked; the image and
    the service receive exactly the blocks that the core sent; and whatever the
    latencies, the slow and the deferred answers and the held acknowledges, no
    write is counted as lost. *)
Theorem hps_refines_host {C} `{Handshake C} (c : Config) (rs : list Req) (w : World C) (o : list Strobe) (a : AbsHost) :
  settings_ok c -> Forall req_ok rs -> idle (bench w) -> ready rs (core w) ->
  serve_all rs (abs (bench w)) = Some (o, a) ->
  exists n w', Z.of_nat n <= Z.of_nat (length rs) * budget c /\ ticks c n w = Some (o, w') /\
    abs (bench w') = a /\ st (hps (bench w')) = IDLE /\ io_ack (pins (bench w')) = 0 /\ tb_ack (pins (bench w')) = false /\
    tb_wlost (hps (bench w')) = tb_wlost (hps (bench w)).
Proof.
  intros Hc Hrs Hid Hr Hserve.
  destruct (run_requests_served c rs w o a Hc Hrs Hid (ready_fresh _ _ Hr) Hserve)
    as (w' & (n & Hn & Ht) & (Hst & [Hio Htb] & _) & _ & Ha & Hl).
  by exists n, w'.
Qed.

(** ** A file over the wire *)

Definition byte_ok (v : Z) : Prop := 0 <= v < 256.

Definition to_req (r : Z * list Z) : Req := TbWrite r.1 r.2.

Lemma serve_requests rs t0 t' a :
  run_requests rs t0 = Some t' -> toolbox a = t0 ->
  serve_all (map to_req rs) a = Some ([], MkAbsHost (image a) (n_fetches a) (n_flushes a) t').
Proof.
  revert t0 a. induction rs as [|[l buf] rs IH]; intros t0 a Hrun Ha; cbn [run_requests] in Hrun.
  - injection Hrun as <-. subst t0. by destruct a.
  - destruct (request l buf t0) as [t1|] eqn:E; cbn [mbind option_bind] in Hrun; [|done].
    cbn [map serve_all to_req serve_req fst snd]. rewrite Ha, E. cbn [mbind option_bind].
    by rewrite (IH t1 (MkAbsHost (image a) (n_fetches a) (n_flushes a) t1) Hrun eq_refl).
Qed.

Lemma pad_ok n l : (length l <= n)%nat -> Forall byte_ok l -> length (pad n l) = n /\ Forall byte_ok (pad n l).
Proof.
  intros Hl Hb. split; [by apply pad_length|]. apply Forall_app. split; [done|].
  apply Forall_replicate. by unfold byte_ok.
Qed.

Lemma block_req_ok l buf : 0 <= l < 2 ^ 32 -> (length buf <= 512)%nat -> Forall byte_ok buf -> req_ok (to_req (l, pad 512 buf)).
Proof. intros Hl Hn Hb. split; [done|]. by apply pad_ok. Qed.

Lemma chunk_reqs_ok blocks off payload :
  length_field blocks payload -> 0 <= off < 2 ^ 24 -> Forall byte_ok payload ->
  Forall req_ok (map to_req (chunk_requests blocks off payload)).
Proof.
  intros Hf Hoff Hb. unfold chunk_requests. rewrite map_app. apply Forall_app. split.
  - apply Forall_forall. intros r Hr. apply list_elem_of_In, in_map_iff in Hr as (x & <- & Hx).
    apply in_map_iff in Hx as (k & <- & Hk). apply in_seq in Hk. unfold tail_block. apply block_req_ok.
    + destruct (chunk_bytes_ok blocks off payload Hf) as [_ Hmax]. unfold tail_count, CHUNK_MAX in *.
      assert (Hd := Nat.div_mod_eq (length payload - 496 + 511) 512). change (2 ^ 32) with 4294967296. lia.
    + rewrite length_take. lia.
    + by apply Forall_take, Forall_drop, Forall_drop.
  - apply Forall_cons. split; [|constructor]. apply block_req_ok; [lia|rewrite length_app, length_take; change (length (send_cdb blocks (if blocks =? 0 then Z.of_nat (length payload) else 0) off)) with 16%nat; lia|].
    apply Forall_app. split; [|by apply Forall_take]. unfold send_cdb, enc16, enc24. cbn [app].
    assert (Hlen : 0 <= (if blocks =? 0 then Z.of_nat (length payload) else 0) < 65536).
    { destruct Hf as [[-> Hf]|[Hf _]]; [cbn; lia|]. destruct (Z.eqb_spec blocks 0); lia. }
    assert (Hblk : 0 <= blocks < 256) by (destruct Hf as [[-> _]|[? _]]; lia).
    repeat (apply Forall_cons; split; [unfold byte_ok; change (2 ^ 24) with 16777216 in Hoff; div_lia|]). constructor.
Qed.

Lemma send_reqs_ok name c data :
  name_ok name -> (1 <= c <= 128)%nat -> Z.of_nat (length data) < 2 ^ 31 -> Forall byte_ok name -> Forall byte_ok data ->
  Forall req_ok (map to_req (send_requests name c data)).
Proof.
  intros [Hn _] Hc Hlen Hbn Hbd. unfold send_requests. cbn [map]. apply Forall_cons. split.
  { apply block_req_ok; [lia|rewrite length_app, length_app, length_replicate; cbn; lia|].
    apply Forall_app. split; [by repeat constructor|]. apply Forall_app. split; [|done].
    by apply Forall_replicate. }
  rewrite map_app. apply Forall_app. split.
  2: { apply Forall_cons. split; [|constructor]. apply block_req_ok; [lia|cbn; lia|by repeat constructor]. }
  apply Forall_forall. intros r Hr. apply list_elem_of_In, in_map_iff in Hr as (x & <- & Hx).
  apply in_concat in Hx as (l & Hl & Hx). apply in_map_iff in Hl as (k & <- & Hk). apply in_seq in Hk.
  assert (Hok : Forall req_ok (map to_req (piece_requests c data k))).
  { apply chunk_reqs_ok; [by apply piece_field| |by apply Forall_take, Forall_drop].
    destruct (piece_count_spec c data ltac:(lia)) as [H1 _].
    change (2 ^ 24) with 16777216. change (2 ^ 31) with 2147483648 in Hlen. nia. }
  rewrite Forall_forall in Hok. apply Hok, list_elem_of_In, in_map, Hx.
Qed.

(** C14: a file sent over the wire is stored exactly, whatever stalls are injected.
    When a core that keeps the handshake sends the requests of a file, the machine
    - with any latency, any pattern of deferred writes, any hold of the
    acknowledge - ends idle within a bound on the clocks, with the file in the
    store of the service under its name, every tail block found in its place and
    no write counted as lost. *)
Theorem wire_send {C} `{Handshake C} (c : Config) (w : World C) (name data : list Z) (blocks : nat) :
  settings_ok c -> idle (bench w) -> tb_ok (tbx (bench w)) -> last_missing (tbx (bench w)) = -1 ->
  name_ok name -> (1 <= blocks <= 128)%nat -> Z.of_nat (length data) < 2 ^ 31 ->
  Forall byte_ok name -> Forall byte_ok data ->
  ready (map to_req (send_requests name blocks data)) (core w) ->
  exists n w', Z.of_nat n <= Z.of_nat (length (send_requests name blocks data)) * budget c /\ ticks c n w = Some ([], w') /\
    st (hps (bench w')) = IDLE /\ upload_name (tbx (bench w')) = name /\ upload (tbx (bench w')) = data /\
    status (tbx (bench w')) = 0 /\ last_missing (tbx (bench w')) = -1 /\
    tb_wlost (hps (bench w')) = tb_wlost (hps (bench w)).
Proof.
  intros Hc Hid Hok Hmiss Hname Hb Hlen Hbn Hbd Hr.
  destruct (send_stored (tbx (bench w)) name data blocks Hok Hmiss Hname Hb Hlen)
    as (t' & Hrun & Hn & Hup & _ & Hst & Hm).
  destruct (run_requests_served c _ w _ _ Hc (send_reqs_ok name blocks data Hname Hb Hlen Hbn Hbd) Hid (ready_fresh _ _ Hr)
    (serve_requests _ _ _ (abs (bench w)) Hrun eq_refl)) as (w' & (n & Hbound & Ht) & (Hs & _) & _ & Ha & Hl).
  assert (Htb : tbx (bench w') = t') by (by injection Ha).
  exists n, w'. rewrite length_map in Hbound. rewrite Htb. by split_and!.
Qed.

(** ** A core that does not wait *)

Lemma service_all_app c ins1 ins2 b : service_all c (ins1 ++ ins2) b = b1 ← service_all c ins1 b; service_all c ins2 b1.
Proof.
  revert b. induction ins1 as [|i ins1 IH]; intros b; [done|]. cbn [app service_all].
  destruct (service c i b) as [b1|]; cbn [mbind option_bind]; [apply IH|done].
Qed.

Lemma defer_calls c h p x ins j :
  int (tb_wdefer_latency c) -> st h = TBWDEFER -> 0 <= j -> j + Z.of_nat (length ins) < span (tb_wdefer_latency c) ->
  service_all c ins (MkBench (at_t h j) p x) = Some (MkBench (at_t h (j + Z.of_nat (length ins))) p x).
Proof.
  intros Hi Hst. revert j. induction ins as [|i ins IH]; intros j Hj Hn; [by rewrite Z.add_0_r|].
  cbn [length service_all] in *. unfold int, span in *. unfold service at 1. cbn [hps st at_t]. rewrite Hst.
  unfold wait_for. cbn [hps t at_t]. rewrite incr_small by lia. cbn [mbind option_bind].
  destruct (Z.leb_spec (tb_wdefer_latency c) (j + 1)); [lia|]. cbn [mbind option_bind].
  transitivity (service_all c ins (MkBench (at_t h (j + 1)) p x)); [reflexivity|]. rewrite IH by lia. do 3 f_equal. lia.
Qed.

(** A deferred write that the core did not hold is counted, and only that one.
    When the machine sleeps over a write, it serves the sector that the core asks
    for when it wakes; the loss is counted if that is another sector than the one
    it slept over, or if the request is gone; and nothing reached the service in
    the meantime. *)
Theorem deferred_write (c : Config) (b : Bench) (i0 i1 : CorePins) (ins : list CorePins) :
  settings_ok c -> idle b -> io_rd i0 = 0 -> io_wr i0 = 0 -> tb_wr i0 = true ->
  every_th (tb_wdefer_every c) (u64 (tb_writes (hps b) + 1)) = true ->
  Z.of_nat (length ins) + 1 = span (tb_wdefer_latency c) ->
  exists b', service_all c (i0 :: ins ++ [i1]) b = Some b' /\ tbx b' = tbx b /\ acks 0 false false (pins b') /\
    (if tb_wr i1 then st (hps b') = TBWWAIT /\ lba (hps b') = tb_lba i1 else st (hps b') = IDLE) /\
    tb_wlost (hps b') = (if tb_wr i1 && (tb_lba i1 =? tb_lba i0) then tb_wlost (hps b) else u64 (tb_wlost (hps b) + 1)).
Proof.
  intros (_ & _ & _ & Hi & _) (Hst & Hq & Hwr & _) Hrd Hwr0 Htb Hev Hn.
  destruct b as [h p x]. cbn [hps pins tbx] in *. cbn [service_all]. unfold service at 1. cbn [hps pins tbx].
  rewrite Hst, poll_disks_none, idle_pins by done. unfold poll_tb. rewrite bool_decide_true, Htb by done.
  cbn [andb tb_writes modify_field]. rewrite Hev. cbn [mbind option_bind].
  set (h1 := _ <| t := 0 |>). change (MkBench h1 p x) with (MkBench (at_t h1 0) p x).
  rewrite service_all_app, defer_calls by (done || (unfold span in *; lia)). cbn [mbind option_bind service_all].
  unfold service. cbn [hps st at_t h1 modify_field]. unfold wait_for. cbn [hps t at_t].
  unfold int, span in *. rewrite incr_small by lia. cbn [mbind option_bind].
  destruct (Z.leb_spec (tb_wdefer_latency c) (0 + Z.of_nat (length ins) + 1)); [|lia].
  assert (Hacks : acks 0 false false p) by (destruct Hq; by split_and!).
  destruct (tb_wr i1); cbn [negb andb mbind option_bind].
  - eexists. split; [reflexivity|]. split; [done|]. split; [exact Hacks|].
    cbn [lba_at_defer at_t modify_field]. by destruct (tb_lba i1 =? _).
  - eexists. split; [reflexivity|]. by split.
Qed.

(** ** A core for the examples: a queue of requests over a buffer of one block. *)

Record Queue := MkQueue { todo : list Req; in_ack : bool; q : Z }.

Definition req_block (r : Req) : list Z :=
  match r with DiskWrite _ _ blk | TbWrite _ blk => blk | _ => [] end.

Definition Queue_posedge (p : Pins) (k : Queue) : Queue :=
  let up := negb (io_ack p =? 0) || tb_ack p in
  match todo k with
  | [] => k
  | r :: rs =>
    if in_ack k then if up then MkQueue (r :: rs) true (word (req_block r) (sd_buff_addr p)) else MkQueue rs false 0
    else MkQueue (r :: rs) up 0
  end.

Definition Queue_pins (k : Queue) : CorePins :=
  match todo k with
  | [] => MkCorePins 0 0 0 0 (q k) (q k) false false 0 (q k)
  | DiskRead s l :: _ => MkCorePins (Z.shiftl 1 s) 0 l l (q k) (q k) false false 0 (q k)
  | DiskWrite s l _ :: _ => MkCorePins 0 (Z.shiftl 1 s) l l (q k) (q k) false false 0 (q k)
  | TbWrite l _ :: _ => MkCorePins 0 0 0 0 (q k) (q k) false true l (q k)
  | TbRead l :: _ => MkCorePins 0 0 0 0 (q k) (q k) true false l (q k)
  end.

#[export] Instance Queue_core : Core Queue :=
  {| posedge := Queue_posedge; negedge := fun _ k => k; core_pins := Queue_pins |}.

Definition slot_ok (r : Req) : Prop :=
  match r with DiskRead s _ | DiskWrite s _ _ => s ∈ [0; 1] | _ => True end.

Definition Queue_ready (rs : list Req) (k : Queue) : Prop := todo k = rs /\ in_ack k = false /\ Forall slot_ok rs.
Definition Queue_busy (r : Req) (rs : list Req) (k : Queue) : Prop :=
  todo k = r :: rs /\ in_ack k = true /\ Forall slot_ok (r :: rs).

Lemma quiet_down p : quiet p -> negb (io_ack p =? 0) || tb_ack p = false.
Proof. intros [-> ->]. done. Qed.

Lemma acked_up r p : slot_ok r -> acked r p -> negb (io_ack p =? 0) || tb_ack p = true.
Proof.
  destruct r as [s l|s l blk|l blk|l]; cbn; intros Hs [Hio Htb]; rewrite Hio, Htb; try done;
    by destruct (slot_cases s Hs) as [->| ->].
Qed.

#[export] Instance Queue_handshake : Handshake Queue.
Proof.
  refine {| ready := Queue_ready; busy := Queue_busy |}; cbn [posedge negedge core_pins Queue_core].
  - intros rs k (E & _). unfold Queue_pins. rewrite E. destruct rs as [|[s l|s l blk|l blk|l] rs]; try done;
      cbn; unfold io_lba; cbn; by destruct (s =? 0).
  - intros rs p k (E & Ea & Hok) Hq. unfold Queue_posedge. rewrite E, Ea, quiet_down by done.
    destruct rs; by split_and!.
  - intros r rs p k (E & Ea & Hok) Ha. unfold Queue_posedge. inversion Hok; subst.
    rewrite E, Ea, (acked_up r) by done. by split_and!.
  - intros r rs p k (E & Ea & Hok) Ha. unfold Queue_posedge. inversion Hok; subst.
    rewrite E, Ea, (acked_up r) by done. by split_and!.
  - intros r rs p k (E & Ea & Hok) Ha. unfold Queue_posedge. inversion Hok; subst.
    rewrite E, Ea, (acked_up r) by done. unfold Queue_pins. cbn [todo q].
    destruct r as [s l|s l blk|l blk|l]; try done. intros _. unfold sd_buff_din. cbn. by destruct (s =? 0).
  - intros r rs p k (E & Ea & Hok) Hq. unfold Queue_posedge. inversion Hok; subst.
    rewrite E, Ea, quiet_down by done. by split_and!.
  - done.
  - done.
Defined.

Lemma ends_mono c ins b (P Q : Bench -> Prop) : ends c ins b P -> (forall b', P b' -> Q b') -> ends c ins b Q.
Proof. unfold ends. intros H HPQ. destruct (service_all c ins b); [by apply HPQ|exact H]. Qed.

(** ** Examples *)

(** Every second write is deferred for 100 calls, the acknowledge is held. *)
Definition stalled : Config := MkConfig 60 2 80 2 90 2 100 30.

Definition example_world (rs : list Req) : World Queue :=
  MkWorld (MkQueue rs false 0) (MkBench (Hps_reset stalled Hps_new) Pins_zero test_service) 0.

Lemma hps_safe_witness :
  ends stalled (replicate 7 (Queue_pins (MkQueue [TbRead 0] false 0))) (MkBench (Hps_reset stalled Hps_new) Pins_zero test_service)
    (fun b => length (tbblk (hps b)) = 512%nat).
Proof.
  assert (Hw : settings_ok stalled) by (unfold settings_ok, int, stalled; cbn; lia).
  refine (ends_mono _ _ _ _ _ (hps_safe stalled Hps_new test_service _ Hw eq_refl) _). intros b Hb. exact (proj1 (proj2 Hb)).
Defined.

Lemma hps_refines_host_witness :
  exists n w', ticks stalled n (example_world [TbWrite 0 (pad 512 [0xD2]); DiskWrite 1 0 (replicate 512 7)]) = Some ([], w') /\
    written (hps (bench w')) = replicate 512 7 /\ resp (tbx (bench w')) = [2].
Proof.
  assert (Hc : settings_ok stalled) by (unfold settings_ok, int, stalled; cbn; lia).
  assert (Hb : forall v, 0 <= v < 256 -> bytes_ok (pad 512 [v])).
  { intros v Hv. split; [done|]. apply Forall_cons. split; [done|]. by apply Forall_replicate. }
  assert (H7 : bytes_ok (replicate 512 7)) by (split; [done|by apply Forall_replicate]).
  destruct (hps_refines_host stalled [TbWrite 0 (pad 512 [0xD2]); DiskWrite 1 0 (replicate 512 7)]
    (example_world [TbWrite 0 (pad 512 [0xD2]); DiskWrite 1 0 (replicate 512 7)])
    [] (MkAbsHost (replicate 512 7) 0 1 (op_count (test_service <| reqs := 1 |>)))) as (n & w' & _ & Ht & Ha & _).
  - exact Hc.
  - repeat constructor; try apply Hb; try apply H7; cbn; lia.
  - by split_and!.
  - split; [done|]. split; [done|]. by repeat constructor.
  - reflexivity.
  - exists n, w'. split; [exact Ht|]. split; [exact (f_equal image Ha)|].
    exact (f_equal (fun a => resp (toolbox a)) Ha).
Defined.

Lemma wire_send_witness :
  exists n w', ticks stalled n (example_world (map to_req (send_requests [65] 1 [7; 8; 9]))) = Some ([], w') /\
    upload (tbx (bench w')) = [7; 8; 9].
Proof.
  destruct (wire_send stalled (example_world (map to_req (send_requests [65] 1 [7; 8; 9]))) [65] [7; 8; 9] 1)
    as (n & w' & _ & Ht & _ & _ & Hup & _).
  - unfold settings_ok, int, stalled. cbn. lia.
  - by split_and!.
  - apply TbHps_new_ok.
  - done.
  - split; [cbn; lia|]. by repeat constructor.
  - lia.
  - done.
  - by repeat constructor.
  - by repeat constructor.
  - split; [done|]. split; [done|]. by repeat constructor.
  - exists n, w'. split; [exact Ht|exact Hup].
Defined.

Lemma deferred_write_witness :
  let i l := Queue_pins (MkQueue [TbWrite l []] false 0) in
  let b := MkBench ((Hps_reset stalled Hps_new) <| tb_writes := 1 |>) Pins_zero test_service in
  exists b', service_all stalled (i 4 :: replicate 99 (i 4) ++ [i 5]) b = Some b' /\
    lba (hps b') = 5 /\ tb_wlost (hps b') = 1.
Proof.
  intros i b.
  destruct (deferred_write stalled b (i 4) (i 5) (replicate 99 (i 4))) as (b' & Hr & _ & _ & [_ Hl] & Hw); try reflexivity.
  - unfold settings_ok, int, stalled. cbn. lia.
  - by split_and!.
  - exists b'. split; [exact Hr|]. split; [exact Hl|exact Hw].
Defined.
