(* ===== verification/ScsiRuns.v ===== *)
(** * The read and write runs of the SCSI bench (scsi_bench.cpp)

    The bench plays the initiator: it drives the registers of the 5380 controller
    and its pseudo-DMA port one bus cycle at a time ([reg_read], [reg_write],
    [dma_read16], [dma_write16]), sends a command by programmed transfer
    ([pio_put], [pio_get]) and reads or writes the data of a READ or WRITE command
    in one of six mixes of widths.

    The device under test is a parameter: its states, the three evaluations and
    its outputs.  A bus cycle runs the clock of the bench, and with it the host
    ([ScsiHps.tick]); everything is a computation in the state of the rig, [None]
    being the undefined behaviour of the host.

    The theorems: every run ends within a bound on the clocks, whatever the device
    does, and leaves the bus released; in every mode a run reads exactly the bytes
    of the command; and a device that delivers the content of the disk passes. *)

From S2P Require Import Prelude Toolbox ScsiHps.

(** ** The device under test *)

Record BusPins := MkBusPins {
  bus_cs : bool;
  dack : bool;
  ior : bool;
  iow : bool;
  bus_rs : Z;
  wdata : Z;
  dma_word : bool;
  dma_longword : bool;
  dma_second_word : bool;
  reset : bool;
  img_mounted : Z;
  img_size : Z;
  tb_mounted : bool }.

#[export] Instance eta_BusPins : Eta BusPins := fun b =>
  MkBusPins (bus_cs b) (dack b) (ior b) (iow b) (bus_rs b) (wdata b) (dma_word b) (dma_longword b)
    (dma_second_word b) (reset b) (img_mounted b) (img_size b) (tb_mounted b).

Class Dut (D : Type) := {
  settle : BusPins -> Pins -> D -> D;
  rise : BusPins -> Pins -> D -> D;
  fall : BusPins -> Pins -> D -> D;
  dut_pins : D -> CorePins;
  rdata : D -> Z;
  dreq : D -> bool }.

(** The device with the pins that the bench drives is a core of the host. *)
#[export] Instance Dut_core {D} `{Dut D} : Core (D * BusPins) :=
  {| posedge p k := (rise k.2 p k.1, k.2); negedge p k := (fall k.2 p k.1, k.2); core_pins k := dut_pins k.1 |}.

Record Rig (D : Type) := MkRig {
  world : World (D * BusPins);
  config : Config;
  csr_patience : Z;
  lcg_state : Z }.
Arguments MkRig {D}.
Arguments world {D}.
Arguments config {D}.
Arguments csr_patience {D}.
Arguments lcg_state {D}.

(** ** Computations *)

Definition M (D A : Type) : Type := Rig D -> option (A * Rig D).

Definition ret {D A} (a : A) : M D A := fun r => Some (a, r).
Definition bind {D A B} (m : M D A) (f : A -> M D B) : M D B := fun r => '(a, r) ← m r; f a r.

Declare Scope rig_scope.
Notation "x <- m ;; k" := (bind m (fun x => k)) (at level 100, m at next level, right associativity) : rig_scope.
Notation "m ;; k" := (bind m (fun _ => k)) (at level 100, right associativity) : rig_scope.
Open Scope rig_scope.

Section Bench.
Context {D : Type} `{Dut D}.

Abbreviation M := (M D).

Definition dut (r : Rig D) : D := (core (world r)).1.
Definition bus (r : Rig D) : BusPins := (core (world r)).2.

Definition put_world (w : World (D * BusPins)) (r : Rig D) : Rig D := MkRig w (config r) (csr_patience r) (lcg_state r).

(** Assignments to the pins of the bus. *)
Definition set_bus (f : BusPins -> BusPins) : M unit := fun r =>
  let w := world r in Some (tt, put_world (MkWorld ((core w).1, f (core w).2) (bench w) (cyc w)) r).

(** [top->eval()] between two edges. *)
Definition eval : M unit := fun r =>
  let w := world r in
  Some (tt, put_world (MkWorld (settle (core w).2 (pins (bench w)) (core w).1, (core w).2) (bench w) (cyc w)) r).

Definition get {A} (f : Rig D -> A) : M A := fun r => Some (f r, r).

Definition clock : M unit := fun r => w ← tick (config r) (world r); Some (tt, put_world w r).

(** [for (int i = 0; i < n; i++) tick();] *)
Fixpoint clocks (n : nat) : M unit := match n with O => ret tt | S n => clock ;; clocks n end.

(** ** Bus cycles *)

Definition bus_release : M unit :=
  set_bus (fun b => b <| bus_cs := false |> <| ior := false |> <| iow := false |> <| dack := false |>
                    <| dma_word := false |> <| dma_longword := false |> <| dma_second_word := false |>).

Definition reg_write (rs v : Z) : M unit :=
  set_bus (fun b => b <| bus_cs := true |> <| dack := false |> <| iow := true |> <| ior := false |>
                    <| bus_rs := rs |> <| wdata := Z.lor (Z.shiftl (u8 v) 8) (u8 v) |>) ;;
  clock ;; clock ;; bus_release ;; clock.

Definition reg_read (rs : Z) : M Z :=
  set_bus (fun b => b <| bus_cs := true |> <| dack := false |> <| ior := true |> <| iow := false |> <| bus_rs := rs |>) ;;
  eval ;;
  v <- get (fun r => u8 (Z.land (rdata (dut r)) 0xff)) ;;
  clock ;; bus_release ;; clock ;; ret v.

Definition DREQ_TIMEOUT : Z := 500000.

(** The wait for DREQ; [n] is the rest of the patience. *)
Fixpoint wait_dreq (n : nat) : M bool :=
  d <- get (fun r => dreq (dut r)) ;;
  if d then ret true
  else match n with
       | O => ret false
       | S O => clock ;; bus_release ;; ret false
       | S n => clock ;; wait_dreq n
       end.

(** The word sampled, and whether it changed under DREQ; [None] after a timeout. *)
Definition dma_read16 (word lw second : bool) (ds gap : Z) : M (option (Z * bool)) :=
  set_bus (fun b => b <| bus_cs := true |> <| dack := true |> <| ior := true |> <| iow := false |> <| bus_rs := 0 |>
                    <| dma_word := word |> <| dma_longword := lw |> <| dma_second_word := second |>) ;;
  clock ;;
  ok <- wait_dreq (Z.to_nat DREQ_TIMEOUT) ;;
  if ok then
    first <- get (fun r => u16 (rdata (dut r))) ;;
    clocks (Z.to_nat ds) ;;
    out <- get (fun r => u16 (rdata (dut r))) ;;
    clock ;; bus_release ;; clocks (Z.to_nat gap) ;;
    ret (Some (out, (0 <? ds) && negb (first =? out)))
  else ret None.

Definition dma_write16 (word : bool) (data : Z) (gap : Z) : M bool :=
  set_bus (fun b => b <| bus_cs := true |> <| dack := true |> <| iow := true |> <| ior := false |> <| bus_rs := 0 |>
                    <| dma_word := word |> <| dma_longword := false |> <| dma_second_word := false |>
                    <| wdata := u16 data |>) ;;
  clock ;;
  ok <- wait_dreq (Z.to_nat DREQ_TIMEOUT) ;;
  if ok then clock ;; bus_release ;; clocks (Z.to_nat gap) ;; ret true
  else ret false.

(** ** Programmed transfer *)

Definition RREG_CDR : Z := 0.
Definition RREG_CSR : Z := 4.
Definition RREG_RST : Z := 7.
Definition WREG_ODR : Z := 0.
Definition WREG_ICR : Z := 1.
Definition WREG_MR : Z := 2.
Definition WREG_TCR : Z := 3.
Definition WREG_DMAS : Z := 5.
Definition WREG_IDMAR : Z := 7.
Definition CSR_BSY : Z := 0x40.
Definition CSR_REQ : Z := 0x20.
Definition ICR_ACK : Z := 0x10.
Definition ICR_SEL : Z := 0x04.
Definition ICR_DATA : Z := 0x01.

Fixpoint poll_csr (mask val : Z) (n : nat) : M bool :=
  match n with
  | O => ret false
  | S n => v <- reg_read RREG_CSR ;; if Z.land v mask =? val then ret true else poll_csr mask val n
  end.

Definition wait_csr (mask val max_polls : Z) : M bool :=
  patience <- get csr_patience ;;
  poll_csr mask val (Z.to_nat (if max_polls <=? 0 then patience else max_polls)).

Definition pio_put (b : Z) : M bool :=
  ok <- wait_csr CSR_REQ CSR_REQ 0 ;;
  if negb ok then ret false
  else
    reg_write WREG_ODR b ;;
    reg_write WREG_ICR (Z.lor ICR_DATA ICR_ACK) ;;
    ok <- wait_csr CSR_REQ 0 0 ;;
    if negb ok then ret false
    else reg_write WREG_ICR ICR_DATA ;; ret true.

Definition pio_get : M Z :=
  ok <- wait_csr CSR_REQ CSR_REQ 0 ;;
  if negb ok then ret (-1)
  else
    v <- reg_read RREG_CDR ;;
    reg_write WREG_ICR ICR_ACK ;;
    ok <- wait_csr CSR_REQ 0 0 ;;
    if negb ok then ret (-1)
    else reg_write WREG_ICR 0 ;; ret v.

(** The bytes of a command. *)
Fixpoint put_all (bs : list Z) : M bool :=
  match bs with
  | [] => ret true
  | b :: bs => ok <- pio_put b ;; if ok then put_all bs else ret false
  end.

Definition reset_hps : M unit := fun r =>
  let w := world r in
  Some (tt, put_world (MkWorld (core w) (MkBench (Hps_reset (config r) (hps (bench w))) Pins_zero (tbx (bench w))) (cyc w)) r).

Definition reset_dut (id_slot : Z) : M unit :=
  bus_release ;;
  set_bus (fun b => b <| img_mounted := 0 |> <| img_size := 0 |> <| tb_mounted := false |>) ;;
  reset_hps ;;
  set_bus (fun b => b <| reset := true |>) ;;
  clocks 8 ;;
  set_bus (fun b => b <| reset := false |>) ;;
  clocks 4 ;;
  set_bus (fun b => b <| img_size := 131072 |> <| img_mounted := Z.shiftl 1 id_slot |>) ;;
  clock ;;
  set_bus (fun b => b <| img_mounted := 0 |>) ;;
  clocks 4.

(** ** The data of a read *)

Inductive Mode := M_BYTE | M_WORD | M_LONG | M_MIX | M_LONGSKEW | M_WORDSKEW.

Definition lcg : M Z := fun r =>
  let s := u32 (lcg_state r * 1664525 + 1013904223) in
  Some (Z.shiftr s 16, MkRig (world r) (config r) (csr_patience r) s).

(** What was read so far, and the timeout. *)
Record Got := MkGot { got : list Z; unstable : Z; aborted : bool }.

#[export] Instance eta_Got : Eta Got := fun g => MkGot (got g) (unstable g) (aborted g).

Definition note (u : bool) (g : Got) : Got := if u then g <| unstable := unstable g + 1 |> else g.
Definition hi (v : Z) : Z := u8 (Z.shiftr v 8).
Definition lo (v : Z) : Z := u8 (Z.land v 0xff).

Definition read_byte (ds gap : Z) (g : Got) : M Got :=
  r <- dma_read16 false false false ds gap ;;
  match r with
  | None => ret (g <| aborted := true |>)
  | Some (v, u) => ret ((note u g) <| got ::= (fun l => l ++ [lo v]) |>)
  end.

Definition read_word (ds gap : Z) (g : Got) : M Got :=
  r <- dma_read16 true false false ds gap ;;
  match r with
  | None => ret (g <| aborted := true |>)
  | Some (v, u) => ret ((note u g) <| got ::= (fun l => l ++ [hi v; lo v]) |>)
  end.

(** Two cycles; [second] gives the pacing of the second one. *)
Definition read_long (ds gap : Z) (second : M (Z * Z)) (g : Got) : M Got :=
  p <- second ;;
  r1 <- dma_read16 true true false ds gap ;;
  match r1 with
  | None => ret (g <| aborted := true |>)
  | Some (v1, u1) =>
    r2 <- dma_read16 true true true p.1 p.2 ;;
    match r2 with
    | None => ret ((note u1 g) <| aborted := true |>)
    | Some (v2, u2) => ret ((note u2 (note u1 g)) <| got ::= (fun l => l ++ [hi v1; lo v1; hi v2; lo v2]) |>)
    end
  end.

(** [while (!aborted && len - d >= least) { step; d += size; }] *)
Fixpoint while_left (fuel : nat) (len least size : Z) (step : Got -> M Got) (d : Z) (g : Got) : M (Z * Got) :=
  if aborted g || (len - d <? least) then ret (d, g)
  else match fuel with
       | O => ret (d, g)
       | S fuel => g <- step g ;; while_left fuel len least size step (d + size) g
       end.

(** [if (!aborted && d < len) step;] *)
Definition if_left (len d : Z) (step : Got -> M Got) (g : Got) : M Got :=
  if aborted g || (len <=? d) then ret g else step g.

(** One access of the mixed mode. *)
Definition mix_step (remain : Z) (g : Got) : M (Z * Got) :=
  a <- lcg ;; b <- lcg ;; c <- lcg ;;
  let pick := a `mod` 3 in
  let jds := b `mod` 4 in
  let jgap := 1 + c `mod` 8 in
  let pick := if (remain <? 4) && (pick =? 2) then 1 else pick in
  let pick := if remain <? 2 then 0 else pick in
  if pick =? 0 then g <- read_byte jds jgap g ;; ret (1, g)
  else if pick =? 1 then g <- read_word jds jgap g ;; ret (2, g)
  else
    g <- read_long jds jgap (a <- lcg ;; b <- lcg ;; ret (a `mod` 4, 1 + b `mod` 8)) g ;; ret (4, g).

Fixpoint mix_loop (fuel : nat) (len d : Z) (g : Got) : M Got :=
  if aborted g || (len <=? d) then ret g
  else match fuel with
       | O => ret g
       | S fuel => s <- mix_step (len - d) g ;; mix_loop fuel len (d + s.1) s.2
       end.

Definition lcg_seed (ds gap hps_lat : Z) : Z :=
  u32 (Z.lxor (Z.lxor (Z.lxor 0xC0FFEE (ds * 7919)) (gap * 104729)) hps_lat).

Definition set_lcg (s : Z) : M unit := fun r => Some (tt, MkRig (world r) (config r) (csr_patience r) s).

Definition read_data (mode : Mode) (len ds gap hps_lat : Z) : M Got :=
  let g := MkGot [] 0 false in
  let n := Z.to_nat len in
  let long := read_long ds gap (ret (ds, gap)) in
  match mode with
  | M_BYTE => s <- while_left n len 1 1 (read_byte ds gap) 0 g ;; ret s.2
  | M_WORD => s <- while_left n len 1 2 (read_word ds gap) 0 g ;; ret s.2
  | M_LONG => s <- while_left n len 1 4 long 0 g ;; ret s.2
  | M_LONGSKEW =>
    g <- read_word ds gap g ;;
    s <- while_left n len 6 4 long (if aborted g then 0 else 2) g ;;
    if_left len s.1 (read_word ds gap) s.2
  | M_WORDSKEW =>
    g <- read_byte ds gap g ;;
    s <- while_left n len 3 2 (read_word ds gap) (if aborted g then 0 else 1) g ;;
    if_left len s.1 (read_byte ds gap) s.2
  | M_MIX => set_lcg (lcg_seed ds gap hps_lat) ;; mix_loop n len 0 g
  end.

(** ** The runs *)

Record RunResult := MkRunResult {
  selected : bool;
  cmd_sent : bool;
  dreq_timeout : bool;
  mismatches : Z;
  first_bad : Z;
  res_unstable : Z;
  res_status : Z;
  res_message : Z;
  completion_ok : bool;
  cycles_used : Z }.

#[local] Instance eta_RunResult : Eta RunResult := fun r =>
  MkRunResult (selected r) (cmd_sent r) (dreq_timeout r) (mismatches r) (first_bad r) (res_unstable r)
    (res_status r) (res_message r) (completion_ok r) (cycles_used r).

Definition RunResult_new : RunResult := MkRunResult false false false 0 (-1) 0 (-1) (-1) false 0.

(** The comparison with the content of the disk: the number of wrong bytes and
    the first of them. *)
Fixpoint verify (d : Z) (l : list Z) (acc : Z * Z) : Z * Z :=
  match l with
  | [] => acc
  | v :: l => verify (d + 1) l (if negb (v =? ramp d) then (acc.1 + 1, if acc.2 <? 0 then d else acc.2) else acc)
  end.

Definition set_latency (l : Z) : M unit := fun r =>
  let c := config r in
  Some (tt, MkRig (world r)
    (MkConfig l (tb_slow_every c) (tb_slow_latency c) (tb_defer_every c) (tb_defer_latency c) (tb_wdefer_every c)
       (tb_wdefer_latency c) (tb_ack_hold c)) (csr_patience r) (lcg_state r)).

(** Reset, selection and the six bytes of a command: whether the target was
    selected and took it. *)
Definition send_command (cmd sectors hps_lat scsi_id id_slot : Z) : M (bool * bool) :=
  reset_dut id_slot ;;
  set_latency hps_lat ;;
  reg_write WREG_ODR (Z.shiftl 1 scsi_id) ;;
  reg_write WREG_ICR (Z.lor ICR_DATA ICR_SEL) ;;
  ok <- wait_csr CSR_BSY CSR_BSY 20000 ;;
  if negb ok then bus_release ;; ret (false, false)
  else
    reg_write WREG_ICR ICR_DATA ;;
    ok <- put_all [cmd; 0; 0; 0; u8 sectors; 0] ;;
    if negb ok then bus_release ;; ret (true, false)
    else ret (true, true).

(** The status and the message byte. *)
Definition finish_run (res : RunResult) : M RunResult :=
  s <- pio_get ;;
  m <- pio_get ;;
  ret (res <| res_status := s |> <| res_message := m |> <| completion_ok := (s =? 0) && (m =? 0) |>).

Definition run_read (mode : Mode) (sectors ds gap hps_lat scsi_id id_slot : Z) : M RunResult :=
  cyc0 <- get (fun r => cyc (world r)) ;;
  sc <- send_command 0x08 sectors hps_lat scsi_id id_slot ;;
  let res := RunResult_new <| selected := sc.1 |> <| cmd_sent := sc.2 |> in
  if negb sc.2 then ret res
  else
    reg_write WREG_ICR 0 ;;
    reg_write WREG_TCR 1 ;;
    reg_write WREG_MR 2 ;;
    reg_write WREG_IDMAR 0 ;;
    g <- read_data mode (sectors * 512) ds gap hps_lat ;;
    let v := verify 0 (got g) (0, -1) in
    let res := res <| dreq_timeout := aborted g |> <| res_unstable := unstable g |>
                   <| mismatches := v.1 |> <| first_bad := v.2 |> in
    res <- (if aborted g then ret res
            else reg_read RREG_RST ;; reg_write WREG_MR 0 ;; finish_run res) ;;
    cyc1 <- get (fun r => cyc (world r)) ;;
    ret (res <| cycles_used := u64 (cyc1 - cyc0) |>).

(** The words of a write, until the first timeout; the result is whether one
    occurred.  The gap is 3. *)
Fixpoint write_data (word : bool) (n : nat) (d : Z) : M bool :=
  match n with
  | O => ret false
  | S n =>
    let low := if word then ramp (d + 1) else ramp d in
    ok <- dma_write16 word (pack (ramp d) low) 3 ;;
    if negb ok then ret true else write_data word n (d + (if word then 2 else 1))
  end.

(** [for (i < 200000 && (top->io_wr || top->io_ack)) tick();] *)
Fixpoint drain (n : nat) : M unit :=
  match n with
  | O => ret tt
  | S n =>
    b <- get (fun r => negb (io_wr (dut_pins (dut r)) =? 0) || negb (io_ack (pins (bench (world r))) =? 0)) ;;
    if b then clock ;; drain n else ret tt
  end.

Definition run_write (word_mode : bool) (sectors gap hps_lat scsi_id id_slot : Z) : M RunResult :=
  cyc0 <- get (fun r => cyc (world r)) ;;
  sc <- send_command 0x0a sectors hps_lat scsi_id id_slot ;;
  let res := RunResult_new <| selected := sc.1 |> <| cmd_sent := sc.2 |> in
  if negb sc.2 then ret res
  else
    reg_write WREG_ICR ICR_DATA ;;
    reg_write WREG_TCR 0 ;;
    reg_write WREG_MR 2 ;;
    reg_write WREG_DMAS 0 ;;
    let len := sectors * 512 in
    timeout <- write_data word_mode (Z.to_nat (if word_mode then sectors * 256 else len)) 0 ;;
    let res := res <| dreq_timeout := timeout |> in
    res <- (if timeout then ret res
            else drain (Z.to_nat 200000) ;; reg_read RREG_RST ;; reg_write WREG_MR 0 ;; reg_write WREG_ICR 0 ;;
                 finish_run res) ;;
    img <- get (fun r => written (hps (bench (world r)))) ;;
    let image := map (fun d => default 0xEE (img !! d)) (seq 0 (Z.to_nat len)) in
    let v := verify 0 image (0, -1) in
    cyc1 <- get (fun r => cyc (world r)) ;;
    ret (res <| mismatches := v.1 |> <| first_bad := v.2 |> <| cycles_used := u64 (cyc1 - cyc0) |>).

End Bench.

(** ** The host during a run

    A read past the end of a file would make the Toolbox host undefined; without
    files, as in these runs, no block that a device writes to it does. *)

Definition no_files (x : TbHps) : Prop := files x = [] /\ get_idx x < 0.

Lemma request_no_files l buf x : no_files x -> exists x', request l buf x = Some x' /\ no_files x'.
Proof.
  intros [Hf Hg]. unfold request. destruct ((1 <=? l) && (l <=? TAIL_BLKS)); [by eexists|].
  destruct (negb (l =? 0)); [by eexists|].
  set (x1 := (x <| reqs := _ |>) <| resp := [] |> <| status := 2 |>). assert (H1 : no_files x1) by done. clearbody x1.
  destruct H1 as [Hf1 Hg1]. destruct (_ =? 0xD2); [by eexists|]. destruct (_ =? 0xD0); [by eexists|].
  destruct (_ =? 0xD1).
  { unfold op_get. set (x2 := if be32 buf 2 =? 0 then _ else x1).
    assert (H2 : no_files x2).
    { unfold x2. destruct (be32 buf 2 =? 0); [|done]. split; [done|].
      change (get_idx (?x <| get_idx := ?v |>)) with v. rewrite Hf1. change (Z.of_nat (length [])) with 0.
      destruct (Z.ltb_spec (byte buf 1) 0); [done|lia]. }
    clearbody x2. destruct (Z.ltb_spec (get_idx x2) 0); [by eexists|]. destruct H2. lia. }
  destruct (_ =? 0xD3); [unfold op_send_prep; destruct (before_nul _); by eexists|].
  destruct (_ =? 0xD4).
  { eexists. split; [reflexivity|]. unfold op_send_data. destruct (negb _); [done|].
    assert (Hd : no_files (diagnose buf x1)).
    { unfold diagnose. cbn zeta. set (l1 := seq 1 _). clearbody l1.
      assert (Hfold : forall x, no_files x -> no_files (fold_left seek_missing l1 x)).
      { induction l1 as [|k l1 IH]; intros y Hy; [done|]. cbn. apply IH. unfold seek_missing.
        destruct (default _ _); [done|]. by destruct (_ <? 0). }
      destruct (Hfold (x1 <| last_missing := -1 |> <| last_missing_cnt := 0 |>)); done. }
    destruct (_ <? _)%nat; exact Hd. }
  destruct (_ =? 0xD5); [|by eexists]. unfold op_send_end. destruct (negb _); by eexists.
Qed.

Definition calm (b : Bench) : Prop :=
  let h := hps b in
  length (tbblk h) = 512%nat /\ int (cur_tb_latency h) /\ no_files (tbx b) /\
  match st h with
  | STREAM | TBRSTREAM => counts 2 h /\ sd_buff_wr (pins b) = Z.odd (t h)
  | WCAP | TBWCAP => counts 3 h /\ sd_buff_wr (pins b) = false
  | WAIT | WWAIT | TBRWAIT | TBWWAIT | TBRDEFER | TBWDEFER | TBAHOLD =>
    0 <= t h < 2 ^ 31 - 1 /\ sd_buff_wr (pins b) = false
  | IDLE | FINISH | TBFINISH => True
  end.

Definition calm_next (r : option Bench) : Prop := exists b', r = Some b' /\ calm b'.

#[local] Arguments fill : simpl never.

(** A successor given by its fields. *)
Ltac calm_step Hs :=
  eexists; split; [reflexivity|];
  split; [cbn; try done|split; [cbn; try done|split; [cbn; try done|
    cbn [hps st start with_st modify_field]; rewrite ?Hs; cbn; try done]]].

Ltac calm_wait Hint Hs Hph :=
  apply (wait_ok calm_next); [exact Hint|exact (proj1 Hph)
  |intros n Hn; calm_step Hs; split; [unfold int, span in *; cbn in *; lia|exact (proj2 Hph)]
  |intros n; cbv beta].

Lemma fill_no_files l x : no_files x -> no_files (fill l x).2.
Proof. done. Qed.

Lemma calm_poll c i h p x :
  settings_ok c -> st h = IDLE -> length (tbblk h) = 512%nat -> int (cur_tb_latency h) -> no_files x ->
  sd_buff_wr p = false ->
  calm (MkBench (poll_tb c i (poll_disks i [0; 1] h) x).1 p (poll_tb c i (poll_disks i [0; 1] h) x).2).
Proof.
  intros Hc Hs Hb Hl Hx Hp.
  assert (Hd : forall ks, let h' := poll_disks i ks h in
    length (tbblk h') = 512%nat /\ int (cur_tb_latency h') /\ (st h' = IDLE \/ (st h' = WAIT \/ st h' = WWAIT) /\ t h' = 0)).
  { induction ks as [|k ks IH]; [by auto|]. cbn [poll_disks].
    destruct (_ =? 1); [by split_and!; auto|]. destruct (_ =? 1); [by split_and!; auto|exact IH]. }
  destruct (Hd [0; 1]) as (H1 & H2 & H3). set (h' := poll_disks i [0; 1] h) in *. clearbody h'.
  unfold poll_tb. destruct (bool_decide (st h' = IDLE) && tb_wr i).
  { cbn zeta. destruct (every_th _ _); cbn [fst snd]; (do 3 (split; [done|])); cbn; (split; [lia|done]). }
  destruct (bool_decide (st h' = IDLE) && tb_rd i).
  - cbn zeta. destruct (every_th _ _); cbn [fst snd].
    + do 3 (split; [done|]). cbn. by split; [lia|].
    + split; [apply fill_length|]. split; [by apply every_latency|]. split; [exact Hx|]. cbn. by split; [lia|].
  - do 3 (split; [done|]). cbn [fst hps]. by destruct H3 as [->|[[-> | ->] ->]].
Qed.

Lemma service_calm c i b : settings_ok c -> calm b -> calm_next (service c i b).
Proof.
  intros Hc (Hb & Hl & Hx & Hph). pose proof Hc as (Hi1 & Hi2 & Hi3 & Hi4 & Hi5).
  destruct b as [h p x]. cbn [hps pins tbx] in *. unfold service. cbn [hps pins tbx]. destruct (st h) eqn:Hs.
  - pose proof (calm_poll c i h (p <| sd_buff_wr := false |> <| io_ack := 0 |> <| tb_ack := false |>) x Hc Hs Hb Hl Hx eq_refl) as H.
    destruct (poll_tb c i _ x) as [h1 x1]. by eexists.
  - calm_wait Hi1 Hs Hph. calm_step Hs. split; [split; cbn; lia|exact (proj2 Hph)].
  - apply (stream_ok calm_next (MkBench h p x) _ _ (io_ack p) (tb_ack p) (proj1 Hph) (conj eq_refl (conj eq_refl (proj2 Hph)))).
    intros h' p' E1 E2 E3 E4 Hor. eexists. split; [reflexivity|]. cbn [hps pins tbx] in *.
    rewrite <- E1 in Hb. rewrite <- E3 in Hl. do 3 (split; [done|]). cbn [hps].
    destruct Hor as [(E5 & Hc' & _ & _ & Hw)|(E5 & _)]; rewrite E5, ?Hs; done.
  - calm_wait Hi1 Hs Hph. calm_step Hs. split; [split; cbn; lia|exact (proj2 Hph)].
  - apply (capture_ok calm_next (MkBench h p x) _ (io_ack p) (tb_ack p) (proj1 Hph) (conj eq_refl (conj eq_refl (proj2 Hph)))).
    + intros h' p' E1 E2 E3 E4 E5 Hc' (_ & _ & Hw). eexists. split; [reflexivity|]. cbn [hps pins tbx] in *.
      rewrite <- E1 in Hb. rewrite <- E3 in Hl. do 3 (split; [done|]). cbn [hps]. by rewrite E4, Hs.
    + cbn [hps pins tbx]. intros Ht3. unfold take_disk_word. cbn [mbind option_bind]. destruct Hph as [[Hw _] Hwr].
      destruct (Z.eqb_spec (wi h + 1) 256) as [E|E]; cbn [wi modify_field];
        rewrite (proj2 (Z.eqb_eq _ _) E) || rewrite (proj2 (Z.eqb_neq _ _) E).
      * calm_step Hs.
      * calm_step Hs. split; [split; cbn; lia|done].
  - destruct (was_write h); calm_step Hs.
  - calm_wait Hi1 Hs Hph. calm_step Hs. split; [split; cbn; lia|exact (proj2 Hph)].
  - apply (capture_ok calm_next (MkBench h p x) _ (io_ack p) (tb_ack p) (proj1 Hph) (conj eq_refl (conj eq_refl (proj2 Hph)))).
    + intros h' p' E1 E2 E3 E4 E5 Hc' (_ & _ & Hw). eexists. split; [reflexivity|]. cbn [hps pins tbx] in *.
      rewrite <- E1 in Hb. rewrite <- E3 in Hl. do 3 (split; [done|]). cbn [hps]. by rewrite E4, Hs.
    + cbn [hps pins tbx]. intros Ht3. unfold take_tb_word. destruct Hph as [[Hw _] Hwr].
      destruct (Z.leb_spec 256 (wi h)); [lia|]. cbn zeta.
      destruct (Z.eqb_spec (wi h + 1) 256) as [E|E]; cbn [wi modify_field];
        rewrite (proj2 (Z.eqb_eq _ _) E) || rewrite (proj2 (Z.eqb_neq _ _) E).
      * destruct (request_no_files (lba h) (<[(Z.to_nat (wi h * 2) + 1)%nat := Z.land (tb_buff_din i) 0xff]>
          (<[Z.to_nat (wi h * 2) := u8 (Z.shiftr (tb_buff_din i) 8)]> (tbblk h))) x Hx) as (x' & Er & Hx').
        cbn [lba tbblk modify_field]. rewrite Er. cbn [mbind option_bind].
        calm_step Hs. by rewrite !length_insert.
      * cbn [mbind option_bind]. calm_step Hs; [by rewrite !length_insert|]. split; [split; cbn; lia|done].
  - calm_wait Hl Hs Hph. calm_step Hs. split; [split; cbn; lia|exact (proj2 Hph)].
  - destruct ((Z.land (t h) 1 =? 0) && (256 <=? wi h)) eqn:Hub.
    { apply andb_prop in Hub as [_ Hub]. apply Z.leb_le in Hub. destruct Hph as [[Hw _] _]. lia. }
    apply (stream_ok calm_next (MkBench h p x) _ _ (io_ack p) (tb_ack p) (proj1 Hph) (conj eq_refl (conj eq_refl (proj2 Hph)))).
    intros h' p' E1 E2 E3 E4 Hor. eexists. split; [reflexivity|]. cbn [hps pins tbx] in *.
    rewrite <- E1 in Hb. rewrite <- E3 in Hl. do 3 (split; [done|]). cbn [hps].
    destruct Hor as [(E5 & Hc' & _ & _ & Hw)|(E5 & _)]; rewrite E5, ?Hs; done.
  - unfold negb. destruct (_ =? 0); calm_step Hs.
  - calm_wait Hi5 Hs Hph. calm_step Hs.
  - calm_wait Hi3 Hs Hph. destruct (tb_rd i); cbn [negb]; calm_step Hs; [apply fill_length|split; [lia|exact (proj2 Hph)]].
  - calm_wait Hi4 Hs Hph. destruct (tb_wr i); cbn [negb]; [|calm_step Hs].
    destruct (negb _); calm_step Hs; (split; [lia|exact (proj2 Hph)]).
Qed.

(** ** Computations that end *)

Section Total.
Context {D : Type} `{Dut D}.
Context (patience : Z).

Definition rig_ok (r : Rig D) : Prop :=
  settings_ok (config r) /\ calm (bench (world r)) /\ csr_patience r = patience /\ 0 <= cyc (world r) < 2 ^ 64.

Definition released (r : Rig D) : Prop :=
  bus_cs (bus r) = false /\ dack (bus r) = false /\ ior (bus r) = false /\ iow (bus r) = false.

(** [m] returns within [N] clocks, with [Q]. *)
Definition ends_in {A} (N : Z) (m : M D A) (r : Rig D) (Q : A -> Rig D -> Prop) : Prop :=
  exists a r' n, m r = Some (a, r') /\ 0 <= n <= N /\ cyc (world r') = u64 (cyc (world r) + n) /\ rig_ok r' /\ Q a r'.

Lemma ends_bind {A B} N1 N2 (m : M D A) (f : A -> M D B) r Q1 Q2 :
  ends_in N1 m r Q1 -> (forall a r', rig_ok r' -> Q1 a r' -> ends_in N2 (f a) r' Q2) -> ends_in (N1 + N2) (bind m f) r Q2.
Proof.
  intros (a & r1 & n1 & E1 & Hn1 & Hc1 & Hok1 & Hq1) Hf.
  destruct (Hf a r1 Hok1 Hq1) as (b & r2 & n2 & E2 & Hn2 & Hc2 & Hok2 & Hq2).
  exists b, r2, (n1 + n2). unfold bind. rewrite E1. split; [exact E2|]. split; [lia|]. split; [|done].
  rewrite Hc2, Hc1. unfold uwrap. rewrite Zplus_mod_idemp_l. f_equal. lia.
Qed.

Lemma ends_weaken {A} N N' (m : M D A) r (Q Q' : A -> Rig D -> Prop) :
  ends_in N m r Q -> N <= N' -> (forall a r', Q a r' -> Q' a r') -> ends_in N' m r Q'.
Proof. intros (a & r' & n & E & Hn & Hc & Hok & Hq) HN HQ. exists a, r', n. split_and!; auto; lia. Qed.

Lemma ends_pure {A} N (m : M D A) a r r' (Q : A -> Rig D -> Prop) :
  0 <= N -> m r = Some (a, r') -> cyc (world r') = cyc (world r) -> rig_ok r -> rig_ok r' -> Q a r' -> ends_in N m r Q.
Proof.
  intros HN E Hc Hok Hok' Hq. exists a, r', 0. split_and!; try done. rewrite Z.add_0_r, Hc. symmetry.
  apply uwrap_small, Hok.
Qed.

Lemma ends_ret {A} N (a : A) r (Q : A -> Rig D -> Prop) : 0 <= N -> rig_ok r -> Q a r -> ends_in N (ret a) r Q.
Proof. intros HN Hok Hq. by eapply ends_pure. Qed.

Lemma ends_get {A} (f : Rig D -> A) r : rig_ok r -> ends_in 0 (get f) r (fun a r' => a = f r /\ r' = r).
Proof. intros Hok. by eapply ends_pure. Qed.

Lemma ends_drive f r : rig_ok r -> ends_in 0 (set_bus f) r (fun _ r' => bus r' = f (bus r)).
Proof. intros Hok. by eapply ends_pure. Qed.

Lemma ends_eval r : rig_ok r -> ends_in 0 eval r (fun _ r' => bus r' = bus r).
Proof. intros Hok. by eapply ends_pure. Qed.

Lemma ends_clock r : rig_ok r -> ends_in 1 clock r (fun _ r' => bus r' = bus r).
Proof.
  intros (Hc & Hcalm & Hp & Hcyc).
  set (k := posedge (pins (bench (world r))) (core (world r))).
  destruct (service_calm (config r) (dut_pins k.1) (bench (world r)) Hc Hcalm) as (b' & E & Hb').
  assert (Ec : clock r = Some (tt, put_world (MkWorld (negedge (pins b') k) b' (u64 (cyc (world r) + 1))) r)).
  { unfold clock, tick. fold k. change (core_pins k) with (dut_pins k.1). by rewrite E. }
  eexists tt, _, 1. split; [exact Ec|]. split; [lia|]. split; [done|].
  split; [|done]. split; [done|]. split; [done|]. split; [done|]. apply uwrap_range. lia.
Qed.

Lemma ends_clocks n r : rig_ok r -> ends_in (Z.of_nat n) (clocks n) r (fun _ r' => bus r' = bus r).
Proof.
  revert r. induction n as [|n IH]; intros r Hok; [by apply ends_ret|]. cbn [clocks].
  replace (Z.of_nat (S n)) with (1 + Z.of_nat n) by lia.
  eapply ends_bind; [by apply ends_clock|]. intros a r1 Hok1 H1.
  eapply ends_weaken; [by apply IH|done|cbn beta]. intros ? r2 H2. by rewrite H2.
Qed.

Lemma ends_release r : rig_ok r -> ends_in 0 bus_release r (fun _ r' => released r').
Proof. intros Hok. eapply ends_weaken; [by apply ends_drive|done|cbn beta]. intros ? r' Hb. unfold released. by rewrite Hb. Qed.

Lemma released_bus r r' : bus r' = bus r -> released r -> released r'.
Proof. unfold released. by intros ->. Qed.

(** The chain of computations, each bounded by its own lemma. *)
Ltac chain lem := eapply ends_bind; [apply lem; assumption|]; cbn beta; intros.

Lemma ends_reg_write rs v r : rig_ok r -> ends_in 3 (reg_write rs v) r (fun _ r' => released r').
Proof.
  intros Hok. unfold reg_write. change 3 with (0 + (1 + (1 + (0 + 1)))).
  chain ends_drive. chain ends_clock. chain ends_clock. chain ends_release.
  eapply ends_weaken; [by apply ends_clock|done|cbn beta]. intros ? r5 E. by eapply released_bus.
Qed.

Lemma ends_reg_read rs r : rig_ok r -> ends_in 2 (reg_read rs) r (fun v r' => released r').
Proof.
  intros Hok. unfold reg_read. change 2 with (0 + (0 + (0 + (1 + (0 + (1 + 0)))))).
  chain ends_drive. chain ends_eval. chain (@ends_get Z). chain ends_clock. chain ends_release. chain ends_clock.
  apply ends_ret; [done|done|]. by eapply released_bus.
Qed.

Lemma ends_wait_dreq n r :
  (0 < n)%nat -> rig_ok r -> ends_in (Z.of_nat n) (wait_dreq n) r (fun ok r' => ok = false -> released r').
Proof.
  intros Hn. revert r. induction n as [|n IH]; intros r Hok; [lia|]. cbn [wait_dreq].
  replace (Z.of_nat (S n)) with (0 + Z.of_nat (S n)) by lia.
  chain (@ends_get bool). destruct H1 as [-> ->]. destruct (dreq (dut r)); [by apply ends_ret; [lia|..]|].
  destruct n as [|n].
  - change (Z.of_nat 1) with (1 + (0 + 0)). chain ends_clock. chain ends_release. by apply ends_ret.
  - replace (Z.of_nat (S (S n))) with (1 + Z.of_nat (S n)) by lia. chain ends_clock. apply IH; [lia|done].
Qed.

(** The clocks of a bus cycle with a sample delay and a gap. *)
Definition cycle_bound (ds gap : Z) : Z := DREQ_TIMEOUT + 2 + Z.max 0 ds + Z.max 0 gap.

Lemma ends_dma_read16 w l s ds gap r :
  rig_ok r -> ends_in (cycle_bound ds gap) (dma_read16 w l s ds gap) r (fun _ r' => released r').
Proof.
  intros Hok. unfold dma_read16, cycle_bound.
  replace (DREQ_TIMEOUT + 2 + Z.max 0 ds + Z.max 0 gap) with
    (0 + (1 + (Z.of_nat (Z.to_nat DREQ_TIMEOUT) + (0 + (Z.of_nat (Z.to_nat ds) + (0 + (1 + (0 + (Z.of_nat (Z.to_nat gap) + 0)))))))))
    by (unfold DREQ_TIMEOUT; lia).
  chain ends_drive. chain ends_clock.
  eapply ends_bind; [apply ends_wait_dreq; [unfold DREQ_TIMEOUT; lia|done]|]. cbn beta. intros ok r3 Hok3 Hrel.
  destruct ok; [|by apply ends_ret; [lia|done|apply Hrel]].
  chain (@ends_get Z). chain ends_clocks. chain (@ends_get Z). chain ends_clock. chain ends_release. chain ends_clocks.
  apply ends_ret; [done|done|]. by eapply released_bus.
Qed.

Lemma ends_dma_write16 w v gap r :
  rig_ok r -> ends_in (cycle_bound 0 gap) (dma_write16 w v gap) r (fun _ r' => released r').
Proof.
  intros Hok. unfold dma_write16, cycle_bound.
  replace (DREQ_TIMEOUT + 2 + Z.max 0 0 + Z.max 0 gap) with
    (0 + (1 + (Z.of_nat (Z.to_nat DREQ_TIMEOUT) + (1 + (0 + (Z.of_nat (Z.to_nat gap) + 0))))))
    by (unfold DREQ_TIMEOUT; lia).
  chain ends_drive. chain ends_clock.
  eapply ends_bind; [apply ends_wait_dreq; [unfold DREQ_TIMEOUT; lia|done]|]. cbn beta. intros ok r3 Hok3 Hrel.
  destruct ok; [|by apply ends_ret; [lia|done|apply Hrel]].
  chain ends_clock. chain ends_release. chain ends_clocks.
  apply ends_ret; [done|done|]. by eapply released_bus.
Qed.

(** ** Programmed transfer and command *)

Ltac weaken lem := eapply ends_weaken; [apply lem; assumption|try lia|cbn beta; intros].

Definition pat : Z := Z.max 0 patience.

Lemma ends_poll_csr mask val n r :
  rig_ok r -> released r -> ends_in (2 * Z.of_nat n) (poll_csr mask val n) r (fun _ r' => released r').
Proof.
  revert r. induction n as [|n IH]; intros r Hok Hrel; [by apply ends_ret|]. cbn [poll_csr].
  replace (2 * Z.of_nat (S n)) with (2 + 2 * Z.of_nat n) by lia.
  chain ends_reg_read. destruct (_ =? val); [by apply ends_ret; [lia|..]|by apply IH].
Qed.

Lemma ends_wait_csr mask val polls r :
  rig_ok r -> released r ->
  ends_in (if polls <=? 0 then 2 * pat else 2 * polls) (wait_csr mask val polls) r (fun _ r' => released r').
Proof.
  intros Hok Hrel. unfold wait_csr. eapply (ends_bind 0); [apply (ends_get csr_patience); exact Hok|].
  cbn beta. intros p r' _ [-> ->].
  weaken ends_poll_csr; [|done]. unfold pat. destruct Hok as (_ & _ & -> & _). destruct (Z.leb_spec polls 0); lia.
Qed.

Lemma ends_pio_put b r :
  rig_ok r -> released r -> ends_in (4 * pat + 9) (pio_put b) r (fun _ r' => released r').
Proof.
  intros Hok Hrel. unfold pio_put. replace (4 * pat + 9) with (2 * pat + (3 + (3 + (2 * pat + 3)))) by lia.
  assert (Hp : 0 <= pat) by (unfold pat; lia).
  chain (ends_wait_csr CSR_REQ CSR_REQ 0). destruct (negb a); [apply ends_ret; [lia|done..]|].
  chain ends_reg_write. chain ends_reg_write. chain (ends_wait_csr CSR_REQ 0 0).
  destruct (negb a2); [apply ends_ret; [lia|done..]|]. replace 3 with (3 + 0) by lia.
  chain ends_reg_write. by apply ends_ret.
Qed.

Lemma ends_pio_get r :
  rig_ok r -> released r -> ends_in (4 * pat + 8) pio_get r (fun _ r' => released r').
Proof.
  intros Hok Hrel. unfold pio_get. replace (4 * pat + 8) with (2 * pat + (2 + (3 + (2 * pat + 3)))) by lia.
  assert (Hp : 0 <= pat) by (unfold pat; lia).
  chain (ends_wait_csr CSR_REQ CSR_REQ 0). destruct (negb a); [apply ends_ret; [lia|done..]|].
  chain ends_reg_read. chain ends_reg_write. chain (ends_wait_csr CSR_REQ 0 0).
  destruct (negb a2); [apply ends_ret; [lia|done..]|]. replace 3 with (3 + 0) by lia.
  chain ends_reg_write. by apply ends_ret.
Qed.

Lemma ends_put_all bs r :
  rig_ok r -> released r -> ends_in (Z.of_nat (length bs) * (4 * pat + 9)) (put_all bs) r (fun _ r' => released r').
Proof.
  revert r. assert (Hp : 0 <= pat) by (unfold pat; lia).
  induction bs as [|b bs IH]; intros r Hok Hrel; [by apply ends_ret|]. cbn [put_all length].
  replace (Z.of_nat (S (length bs)) * (4 * pat + 9)) with (4 * pat + 9 + Z.of_nat (length bs) * (4 * pat + 9)) by lia.
  chain ends_pio_put. destruct a; [by apply IH|apply ends_ret; [nia|done..]].
Qed.

Lemma ends_reset_hps r : rig_ok r -> ends_in 0 reset_hps r (fun _ r' => bus r' = bus r).
Proof.
  intros Hok. pose proof Hok as (Hc & (Hb & _ & Hx & _) & Hp & Hcyc).
  eapply ends_pure; [done|reflexivity|done|done| |done]. split; [exact Hc|]. split; [|done].
  split; [exact Hb|]. split; [apply Hc|]. by split; [exact Hx|].
Qed.

Definition is_released (b : BusPins) : Prop :=
  bus_cs b = false /\ dack b = false /\ ior b = false /\ iow b = false.

Lemma ends_drive_rel f r :
  (forall b, is_released b -> is_released (f b)) -> rig_ok r -> released r -> ends_in 0 (set_bus f) r (fun _ r' => released r').
Proof. intros Hf Hok Hrel. eapply ends_weaken; [by apply ends_drive|done|cbn beta]. intros ? r' E. unfold released. rewrite E. by apply Hf. Qed.

Lemma ends_clocks_rel n r : rig_ok r -> released r -> ends_in (Z.of_nat n) (clocks n) r (fun _ r' => released r').
Proof. intros Hok Hrel. eapply ends_weaken; [by apply ends_clocks|done|cbn beta]. intros ? r' E. by eapply released_bus. Qed.

Ltac driven := eapply (ends_bind 0); [apply ends_drive_rel; [by intros|assumption|assumption]|cbn beta; intros].

Lemma ends_reset_dut slot r : rig_ok r -> ends_in 17 (reset_dut slot) r (fun _ r' => released r').
Proof.
  intros Hok. unfold reset_dut.
  replace 17 with (0 + (0 + (0 + (0 + (Z.of_nat 8 + (0 + (Z.of_nat 4 + (0 + (1 + (0 + Z.of_nat 4)))))))))) by done.
  chain ends_release. driven. chain ends_reset_hps.
  assert (released r'1) by (by eapply released_bus). driven. chain (ends_clocks_rel 8). driven.
  chain (ends_clocks_rel 4). driven. chain (ends_clock).
  assert (released r'7) by (by eapply released_bus). driven. by apply (ends_clocks_rel 4).
Qed.

Lemma ends_set_latency l r :
  int l -> rig_ok r -> released r -> ends_in 0 (set_latency l) r (fun _ r' => released r').
Proof.
  intros Hl Hok Hrel. eapply ends_pure; [done|reflexivity|done|done| |done].
  destruct Hok as ((_ & Hc) & Hok). by split.
Qed.

Definition command_bound : Z := 24 * pat + 40080.

Lemma ends_send_command cmd sectors lat id slot r :
  int lat -> rig_ok r -> ends_in command_bound (send_command cmd sectors lat id slot) r (fun _ r' => released r').
Proof.
  intros Hl Hok. unfold send_command, command_bound. assert (Hp : 0 <= pat) by (unfold pat; lia).
  replace (24 * pat + 40080) with (17 + (0 + (3 + (3 + (2 * 20000 + (3 + (6 * (4 * pat + 9) + 0)))))))  by lia.
  chain ends_reset_dut. chain ends_set_latency. chain ends_reg_write. chain ends_reg_write.
  chain (ends_wait_csr CSR_BSY CSR_BSY 20000).
  destruct (negb a3).
  { eapply ends_weaken with (N := 0 + 0); [|lia|intros ? ? E; exact E].
    eapply ends_bind; [by apply ends_release|]. intros. by apply ends_ret. }
  chain ends_reg_write. eapply ends_bind; [apply ends_put_all; assumption|]. cbn beta. intros.
  destruct (negb a5); [|by apply ends_ret].
  replace 0 with (0 + 0) by lia. eapply ends_bind; [by apply ends_release|]. intros. by apply ends_ret.
Qed.

Lemma ends_complete res r :
  rig_ok r -> released r -> ends_in (8 * pat + 16) (finish_run res) r (fun res' r' => released r' /\
    mismatches res' = mismatches res /\ first_bad res' = first_bad res /\ dreq_timeout res' = dreq_timeout res /\
    cmd_sent res' = cmd_sent res).
Proof.
  intros Hok Hrel. unfold finish_run. replace (8 * pat + 16) with (4 * pat + 8 + (4 * pat + 8 + 0)) by lia.
  chain ends_pio_get. chain ends_pio_get. by apply ends_ret.
Qed.

(** ** The data of a read *)

Definition glen (g : Got) : Z := Z.of_nat (length (got g)).

(** An access of [k] bytes, or the timeout. *)
Definition grown (k : Z) (g g' : Got) : Prop := glen g' = glen g + (if aborted g' then 0 else k).

Definition access (k N : Z) (step : Got -> M D Got) : Prop :=
  forall g r, rig_ok r -> released r -> aborted g = false -> ends_in N (step g) r (fun g' r' => released r' /\ grown k g g').

Lemma note_got u g : got (note u g) = got g /\ aborted (note u g) = aborted g.
Proof. by destruct u. Qed.

Lemma cycle_pos ds gap : 0 <= cycle_bound ds gap.
Proof. unfold cycle_bound, DREQ_TIMEOUT. lia. Qed.

Lemma access_byte ds gap : access 1 (cycle_bound ds gap) (read_byte ds gap).
Proof.
  intros g r Hok Hrel Ha. unfold read_byte. replace (cycle_bound ds gap) with (cycle_bound ds gap + 0) by lia.
  chain ends_dma_read16. destruct a as [[v u]|]; (apply ends_ret; [done|done|split; [done|]]); unfold grown, glen; cbn [got aborted modify_field].
  - destruct (note_got u g) as [-> ->]. rewrite Ha, length_app. cbn. lia.
  - lia.
Qed.

Lemma access_word ds gap : access 2 (cycle_bound ds gap) (read_word ds gap).
Proof.
  intros g r Hok Hrel Ha. unfold read_word. replace (cycle_bound ds gap) with (cycle_bound ds gap + 0) by lia.
  chain ends_dma_read16. destruct a as [[v u]|]; (apply ends_ret; [done|done|split; [done|]]); unfold grown, glen; cbn [got aborted modify_field].
  - destruct (note_got u g) as [-> ->]. rewrite Ha, length_app. cbn. lia.
  - lia.
Qed.

Lemma access_long ds gap ds2 gap2 second :
  (forall r, rig_ok r -> released r -> ends_in 0 second r (fun p r' => released r' /\ p.1 <= ds2 /\ p.2 <= gap2)) ->
  access 4 (cycle_bound ds gap + cycle_bound ds2 gap2) (read_long ds gap second).
Proof.
  intros Hsec g r Hok Hrel Ha. unfold read_long.
  replace (cycle_bound ds gap + cycle_bound ds2 gap2) with (0 + (cycle_bound ds gap + (cycle_bound ds2 gap2 + 0))) by lia.
  eapply ends_bind; [by apply Hsec|]. cbn beta. intros p r1 Hok1 (Hrel1 & Hp1 & Hp2). pose proof (cycle_pos ds2 gap2).
  chain ends_dma_read16. destruct a as [[v1 u1]|].
  2: { apply ends_ret; [lia|done|split; [done|]]. unfold grown, glen. cbn [got aborted modify_field]. rewrite ?Z.add_0_r. by destruct (note_got u1 g) as [-> _] || done. }
  eapply ends_bind.
  { eapply ends_weaken; [by apply (ends_dma_read16 true true true p.1 p.2)|unfold cycle_bound; lia|intros ? ? E; exact E]. }
  cbn beta. intros o r3 Hok3 Hrel3. destruct o as [[v2 u2]|]; (apply ends_ret; [done|done|split; [done|]]); unfold grown, glen; cbn [got aborted modify_field].
  - destruct (note_got u2 (note u1 g)) as [-> ->], (note_got u1 g) as [-> ->]. rewrite Ha, length_app. cbn. lia.
  - destruct (note_got u1 g) as [-> _]. lia.
Qed.

(** The offset is the number of bytes read so far. *)
Definition placed (len d : Z) (g : Got) : Prop :=
  if aborted g then glen g <= len else glen g = d /\ 0 <= d <= len.

Lemma while_left_ends fuel len least size N step d g r :
  access size N step -> 1 <= least -> 1 <= size -> 0 <= N -> len - d <= Z.of_nat fuel ->
  rig_ok r -> released r -> placed len d g -> size <= least \/ (size | len - d) ->
  ends_in (Z.of_nat fuel * N) (while_left fuel len least size step d g) r (fun s r' => released r' /\
    placed len s.1 s.2 /\ (aborted s.2 = false -> len - s.1 < least /\ (size | s.1 - d))).
Proof.
  intros Hstep Hleast Hsize HN. revert d g r.
  induction fuel as [|fuel IH]; intros d g r Hfuel Hok Hrel Hpl Hdiv; cbn [while_left].
  all: destruct (aborted g) eqn:Ha; cbn [orb];
    [apply ends_ret; [lia|done|split; [done|split; [done|]]]; cbn [fst snd]; congruence|].
  all: destruct (Z.ltb_spec (len - d) least);
    [apply ends_ret; [lia|done|split; [done|split; [done|]]]; cbn [fst snd]; intros _; split; [lia|rewrite Z.sub_diag; apply Z.divide_0_r]|].
  - unfold placed in Hpl. rewrite Ha in Hpl. lia.
  - replace (Z.of_nat (S fuel) * N) with (N + Z.of_nat fuel * N) by lia.
    eapply ends_bind; [by apply Hstep|]. cbn beta. intros g1 r1 Hok1 [Hrel1 Hg].
    assert (Hk : size <= len - d).
    { destruct Hdiv as [?|[k Hk]]; [lia|]. assert (0 < len - d) by lia. assert (0 < k) by nia. nia. }
    unfold placed, grown in *. rewrite Ha in Hpl.
    eapply ends_weaken; [apply (IH (d + size) g1 r1)|lia|]; try done; try lia.
    + destruct (aborted g1); lia.
    + destruct Hdiv as [?|Hdiv]; [by left|right]. replace (len - (d + size)) with (len - d - size) by lia.
      apply Z.divide_sub_r; [done|apply Z.divide_refl].
    + cbn beta. intros s r2 (H1 & H2 & H3). split; [done|]. split; [done|]. intros Hs. destruct (H3 Hs) as [H4 [k Hk2]].
      split; [done|]. exists (k + 1). lia.
Qed.

Lemma if_left_ends len d k N step g r :
  access k N step -> 0 <= N -> rig_ok r -> released r -> placed len d g ->
  (aborted g = false -> len - d = k \/ len <= d) ->
  ends_in N (if_left len d step g) r (fun g' r' => released r' /\ placed len len g').
Proof.
  intros Hstep HN Hok Hrel Hpl Hk. unfold if_left, placed in *. destruct (aborted g) eqn:Ha; cbn [orb].
  - apply ends_ret; [done|done|]. by rewrite Ha.
  - destruct (Hk eq_refl) as [Hk'|Hk']; destruct (Z.leb_spec len d); try (apply ends_ret; [done|done|]; rewrite Ha; split; [done|lia]).
    + eapply ends_weaken; [by apply Hstep|lia|cbn beta]. intros g' r' [H1 H2]. split; [done|].
      unfold grown in H2. destruct (aborted g'); lia.
    + lia.
Qed.

(** The generator of the mixed mode. *)
Lemma ends_lcg r : rig_ok r -> released r -> ends_in 0 lcg r (fun _ r' => released r').
Proof. intros Hok Hrel. by eapply ends_pure. Qed.

Definition access_bound (ds gap : Z) : Z := 2 * cycle_bound (Z.max ds 3) (Z.max gap 8).

Lemma mix_step_ends remain ds gap g r :
  1 <= remain -> rig_ok r -> released r -> aborted g = false ->
  ends_in (access_bound ds gap) (mix_step remain g) r (fun s r' => released r' /\ 1 <= s.1 <= remain /\ grown s.1 g s.2).
Proof.
  intros Hrem Hok Hrel Ha. unfold mix_step.
  assert (HB : forall d2 g2, d2 <= 3 -> g2 <= 8 -> cycle_bound d2 g2 <= cycle_bound (Z.max ds 3) (Z.max gap 8))
    by (intros; unfold cycle_bound; lia).
  pose proof (cycle_pos (Z.max ds 3) (Z.max gap 8)) as Hpos.
  replace (access_bound ds gap) with (0 + (0 + (0 + (access_bound ds gap + 0)))) by lia.
  eapply ends_bind; [by apply ends_lcg|]. cbn beta. intros a r1 Hok1 Hrel1.
  eapply ends_bind; [by apply ends_lcg|]. cbn beta. intros b r2 Hok2 Hrel2.
  eapply ends_bind; [by apply ends_lcg|]. cbn beta. intros c r3 Hok3 Hrel3.
  cbv zeta. set (pick := if remain <? 2 then 0 else _).
  assert (Hb := Z.mod_pos_bound b 4 ltac:(lia)). assert (Hc := Z.mod_pos_bound c 8 ltac:(lia)).
  assert (Hpick : (pick = 0 \/ pick = 1 /\ 2 <= remain \/ pick <> 0 /\ pick <> 1 /\ 4 <= remain)).
  { unfold pick. assert (Hm := Z.mod_pos_bound a 3 ltac:(lia)).
    destruct (Z.ltb_spec remain 2); [by left|]. destruct (Z.ltb_spec remain 4); cbn [andb];
      destruct (Z.eqb_spec (a `mod` 3) 2); lia. }
  destruct (Z.eqb_spec pick 0); [|destruct (Z.eqb_spec pick 1)].
  - eapply ends_bind; [eapply ends_weaken; [by apply access_byte| |intros ? ? E; exact E]|].
    { unfold access_bound. specialize (HB (b `mod` 4) (1 + c `mod` 8)). lia. }
    cbn beta. intros g' r4 Hok4 [Hrel4 Hg]. apply ends_ret; [done|done|]. cbn [fst snd]. split_and!; [done|lia|lia|done].
  - eapply ends_bind; [eapply ends_weaken; [by apply access_word| |intros ? ? E; exact E]|].
    { unfold access_bound. specialize (HB (b `mod` 4) (1 + c `mod` 8)). lia. }
    cbn beta. intros g' r4 Hok4 [Hrel4 Hg]. apply ends_ret; [done|done|]. cbn [fst snd]. split_and!; [done|lia|lia|done].
  - eapply ends_bind; [eapply ends_weaken; [apply (access_long _ _ 3 8)| |intros ? ? E; exact E]|]; try done.
    { intros r4 Hok4 Hrel4. change 0 with (0 + (0 + 0)).
      eapply ends_bind; [by apply ends_lcg|]. cbn beta. intros a' r5 Hok5 Hrel5.
      eapply ends_bind; [by apply ends_lcg|]. cbn beta. intros b' r6 Hok6 Hrel6.
      assert (Ha' := Z.mod_pos_bound a' 4 ltac:(lia)). assert (Hb' := Z.mod_pos_bound b' 8 ltac:(lia)).
      apply ends_ret; [done|done|]. cbn [fst snd]. split; [done|lia]. }
    { unfold access_bound. pose proof (HB (b `mod` 4) (1 + c `mod` 8)). pose proof (HB 3 8). lia. }
    cbn beta. intros g' r4 Hok4 [Hrel4 Hg]. apply ends_ret; [done|done|]. cbn [fst snd]. split_and!; [done|lia|lia|done].
Qed.

Lemma mix_loop_ends fuel len d ds gap g r :
  len - d <= Z.of_nat fuel -> rig_ok r -> released r -> placed len d g ->
  ends_in (Z.of_nat fuel * access_bound ds gap) (mix_loop fuel len d g) r (fun g' r' => released r' /\ placed len len g').
Proof.
  pose proof (cycle_pos (Z.max ds 3) (Z.max gap 8)) as Hpos.
  revert d g r. induction fuel as [|fuel IH]; intros d g r Hfuel Hok Hrel Hpl; cbn [mix_loop]; unfold placed in *.
  all: destruct (aborted g) eqn:Ha; cbn [orb]; [apply ends_ret; [unfold access_bound; lia|done|by rewrite Ha]|].
  all: destruct (Z.leb_spec len d);
    [apply ends_ret; [unfold access_bound; lia|done|rewrite Ha; split; [done|lia]]|].
  - lia.
  - replace (Z.of_nat (S fuel) * access_bound ds gap) with (access_bound ds gap + Z.of_nat fuel * access_bound ds gap) by lia.
    eapply ends_bind; [apply mix_step_ends; try done; lia|]. cbn beta. intros s r1 Hok1 (Hrel1 & Hs & Hg).
    apply IH; try done; [lia|]. unfold grown in Hg. destruct (aborted s.2); lia.
Qed.

Lemma access_weaken k N N' step : access k N step -> N <= N' -> access k N' step.
Proof. intros Hs HN g r Hok Hrel Ha. eapply ends_weaken; [by apply Hs|done|done]. Qed.

Lemma access_bound_cycle ds gap : 0 <= cycle_bound ds gap /\ 2 * cycle_bound ds gap <= access_bound ds gap.
Proof. unfold access_bound, cycle_bound, DREQ_TIMEOUT. lia. Qed.

Lemma long_access ds gap : access 4 (access_bound ds gap) (read_long ds gap (ret (ds, gap))).
Proof.
  eapply access_weaken; [apply (access_long ds gap ds gap)|].
  - intros r Hok Hrel. apply ends_ret; [done|done|]. cbn. split; [done|lia].
  - pose proof (access_bound_cycle ds gap). lia.
Qed.

Lemma byte_access ds gap : access 1 (access_bound ds gap) (read_byte ds gap).
Proof. eapply access_weaken; [apply access_byte|]. pose proof (access_bound_cycle ds gap). lia. Qed.

Lemma word_access ds gap : access 2 (access_bound ds gap) (read_word ds gap).
Proof. eapply access_weaken; [apply access_word|]. pose proof (access_bound_cycle ds gap). lia. Qed.

Lemma placed_start len : 0 <= len -> placed len 0 (MkGot [] 0 false).
Proof. intros Hlen. unfold placed, glen. cbn. lia. Qed.

Lemma while_left_aborted fuel len least size (step : Got -> M D Got) d g :
  aborted g = true -> while_left fuel len least size step d g = ret (d, g).
Proof. intros Ha. by destruct fuel; cbn [while_left]; rewrite Ha. Qed.

(** A mode that is one loop. *)
Lemma whole_loop k sectors step ds gap r :
  access k (access_bound ds gap) step -> 1 <= k -> (k | 512) -> 0 <= sectors -> rig_ok r -> released r ->
  ends_in ((sectors * 512 + 2) * access_bound ds gap)
    (s <- while_left (Z.to_nat (sectors * 512)) (sectors * 512) 1 k step 0 (MkGot [] 0 false) ;; ret s.2) r
    (fun g r' => released r' /\ placed (sectors * 512) (sectors * 512) g).
Proof.
  intros Hstep Hk Hdiv Hs Hok Hrel. destruct (access_bound_cycle ds gap).
  assert (En : Z.of_nat (Z.to_nat (sectors * 512)) = sectors * 512) by lia.
  replace ((sectors * 512 + 2) * access_bound ds gap) with
    (Z.of_nat (Z.to_nat (sectors * 512)) * access_bound ds gap + 2 * access_bound ds gap) by (rewrite En; ring).
  eapply ends_bind.
  { apply (while_left_ends _ _ 1 k (access_bound ds gap)); try done; try lia; [by apply placed_start; lia|].
    right. rewrite Z.sub_0_r. by apply Z.divide_mul_r. }
  cbn beta. intros s r1 Hok1 (Hrel1 & Hpl & Hend). apply ends_ret; [lia|done|]. split; [done|].
  unfold placed in *. destruct (aborted s.2); [done|]. destruct (Hend eq_refl). lia.
Qed.

(** A mode with a prefix of [p] bytes before the loop and a tail of as many. *)
Lemma skewed_loop p k least sectors first step ds gap r :
  access p (access_bound ds gap) first -> access k (access_bound ds gap) step ->
  1 <= p < k -> k <= least -> least = k + p -> 2 * p = k -> (k | 512) -> 1 <= sectors -> rig_ok r -> released r ->
  ends_in ((sectors * 512 + 2) * access_bound ds gap)
    (g <- first (MkGot [] 0 false) ;;
     s <- while_left (Z.to_nat (sectors * 512)) (sectors * 512) least k step (if aborted g then 0 else p) g ;;
     if_left (sectors * 512) s.1 first s.2) r
    (fun g r' => released r' /\ placed (sectors * 512) (sectors * 512) g).
Proof.
  intros Hfirst Hstep Hp Hk Hleast Hpk Hdiv Hs Hok Hrel. destruct (access_bound_cycle ds gap). set (len := sectors * 512).
  assert (En : Z.of_nat (Z.to_nat len) = len) by (unfold len; lia).
  replace ((len + 2) * access_bound ds gap) with
    (access_bound ds gap + (Z.of_nat (Z.to_nat len) * access_bound ds gap + access_bound ds gap)) by (rewrite En; ring).
  eapply ends_bind; [by apply Hfirst|]. cbn beta. intros g1 r1 Hok1 [Hrel1 Hg1].
  destruct (aborted g1) eqn:Ha1.
  { rewrite while_left_aborted by done. eapply ends_bind; [apply ends_ret with (Q := fun s r' => s.2 = g1 /\ released r'); [nia|done|done]|].
    cbn beta. intros s r2 Hok2 [-> Hrel2]. unfold if_left. rewrite Ha1. apply ends_ret; [lia|done|]. split; [done|].
    unfold grown, placed, glen in *. rewrite Ha1 in *. cbn [got length] in Hg1. unfold len. lia. }
  assert (Hpl1 : placed len p g1).
  { assert (k <= 512) by (apply Z.divide_pos_le; [lia|done]).
    unfold grown, placed, glen in *. rewrite Ha1 in *. cbn [got length] in Hg1. unfold len. lia. }
  eapply ends_bind.
  { apply (while_left_ends _ len least k (access_bound ds gap)); try done; lia. }
  cbn beta. intros s r2 Hok2 (Hrel2 & Hpl2 & Hend).
  apply (if_left_ends len s.1 p); try done; [lia|]. intros Ha. destruct (Hend Ha) as [Hlt [q Hq]]. left.
  unfold placed in Hpl2. rewrite Ha in Hpl2. destruct Hdiv as [m Hm]. unfold len in *.
  assert (Hr : sectors * 512 - s.1 = (sectors * m - q) * k - p) by (rewrite Hm; lia).
  assert (sectors * m - q = 1) by nia. nia.
Qed.

Lemma read_data_ends mode sectors ds gap lat r :
  1 <= sectors -> rig_ok r -> released r ->
  ends_in ((sectors * 512 + 2) * access_bound ds gap) (read_data mode (sectors * 512) ds gap lat) r
    (fun g r' => released r' /\ placed (sectors * 512) (sectors * 512) g).
Proof.
  intros Hs Hok Hrel. destruct (access_bound_cycle ds gap). destruct mode; unfold read_data; cbv zeta.
  - apply whole_loop; try done; [apply byte_access|by exists 512|lia].
  - apply whole_loop; try done; [apply word_access|by exists 256|lia].
  - apply whole_loop; try done; [apply long_access|by exists 128|lia].
  - assert (En : Z.of_nat (Z.to_nat (sectors * 512)) = sectors * 512) by lia.
    eapply ends_weaken with (N := 0 + Z.of_nat (Z.to_nat (sectors * 512)) * access_bound ds gap); [|rewrite En; nia|intros ? ? E; exact E].
    eapply ends_bind with (Q1 := fun _ r' => released r'); [by eapply ends_pure|]. cbn beta. intros u r1 Hok1 Hrel1.
    apply mix_loop_ends; try done; [lia|apply placed_start; lia].
  - apply (skewed_loop 2 4 6); try done; [apply word_access|apply long_access|by exists 128].
  - apply (skewed_loop 1 2 3); try done; [apply byte_access|apply word_access|by exists 256].
Qed.

(** ** The runs *)

Lemma verify_range d l acc : acc.1 <= (verify d l acc).1 <= acc.1 + Z.of_nat (length l).
Proof.
  revert d acc. induction l as [|v l IH]; intros d acc; cbn [verify length]; [lia|].
  destruct (negb (v =? ramp d)); [specialize (IH (d + 1) (acc.1 + 1, if acc.2 <? 0 then d else acc.2))|specialize (IH (d + 1) acc)];
    cbn [fst] in IH; lia.
Qed.

Definition read_bound (sectors ds gap : Z) : Z :=
  command_bound + (12 + ((sectors * 512 + 2) * access_bound ds gap + (8 * pat + 21))).

(** What the result of a run says. *)
Definition verdict_ok (len : Z) (r : Rig D) (res : RunResult) (r' : Rig D) : Prop :=
  released r' /\ 0 <= mismatches res <= len /\
  (cmd_sent res = true -> cycles_used res = u64 (cyc (world r') - cyc (world r))).

(** The four writes before the data. *)
Lemma ends_four {A} a1 v1 a2 v2 a3 v3 a4 v4 N (m : M D A) r Q :
  rig_ok r -> (forall r', rig_ok r' -> released r' -> ends_in N m r' Q) ->
  ends_in (12 + N) (reg_write a1 v1 ;; reg_write a2 v2 ;; reg_write a3 v3 ;; reg_write a4 v4 ;; m) r Q.
Proof.
  intros Hok Hm. replace (12 + N) with (3 + (3 + (3 + (3 + N)))) by lia.
  chain ends_reg_write. chain ends_reg_write. chain ends_reg_write. chain ends_reg_write. by apply Hm.
Qed.

Lemma ends_run_read mode sectors ds gap lat id slot r :
  1 <= sectors -> int lat -> rig_ok r ->
  ends_in (read_bound sectors ds gap) (run_read mode sectors ds gap lat id slot) r (verdict_ok (sectors * 512) r).
Proof.
  intros Hs Hl Hok. unfold run_read, read_bound. destruct (access_bound_cycle ds gap) as [Hb1 Hb2].
  assert (Hp : 0 <= pat) by (unfold pat; lia).
  eapply (ends_bind 0); [apply (ends_get (fun r => cyc (world r))); exact Hok|]. cbn beta. intros cyc0 r0 Hok0 [-> ->].
  eapply (ends_bind command_bound); [by apply ends_send_command|]. cbn beta. intros sc r1 Hok1 Hrel1. cbv zeta.
  destruct (sc.2) eqn:Hsc; cbn [negb].
  2: { apply ends_ret; [nia|done|]. split; [done|]. cbn. by split; [lia|]. }
  apply ends_four; [done|]. intros r2 Hok2 Hrel2.
  eapply ends_bind; [by apply read_data_ends|]. cbn beta. intros g r3 Hok3 [Hrel3 Hpl].
  pose proof (verify_range 0 (got g) (0, -1)) as Hv. cbn [fst] in Hv. set (v := verify 0 (got g) (0, -1)) in *.
  assert (Hlen : Z.of_nat (length (got g)) <= sectors * 512) by (unfold placed, glen in Hpl; destruct (aborted g); lia).
  set (res := RunResult_new <| selected := sc.1 |> <| cmd_sent := true |> <| dreq_timeout := aborted g |>
    <| res_unstable := unstable g |> <| mismatches := v.1 |> <| first_bad := v.2 |>).
  replace (8 * pat + 21) with (2 + (3 + (8 * pat + 16)) + (0 + 0)) by lia.
  eapply ends_bind with (Q1 := fun res' r' => released r' /\ mismatches res' = v.1 /\ cmd_sent res' = true).
  - destruct (aborted g); [apply ends_ret; [lia|done|done]|]. chain ends_reg_read. chain ends_reg_write.
    eapply ends_weaken; [by apply ends_complete|lia|cbn beta]. intros res' rr (H1' & H2' & _ & _ & H5'). by rewrite H2', H5'.
  - cbn beta. intros res' r4 Hok4 (Hrel4 & Hm & Hcmd).
    eapply (ends_bind 0); [apply (ends_get (fun r => cyc (world r))); exact Hok4|]. cbn beta. intros cyc1 r5 Hok5 [-> ->].
    apply ends_ret; [lia|done|]. split; [done|]. cbn. rewrite Hm. by split; [lia|].
Qed.

Lemma ends_write_data word n d r :
  rig_ok r -> released r -> ends_in (Z.of_nat n * cycle_bound 0 3) (write_data word n d) r (fun _ r' => released r').
Proof.
  pose proof (cycle_pos 0 3). revert d r. induction n as [|n IH]; intros d r Hok Hrel; [by apply ends_ret|]. cbn [write_data].
  replace (Z.of_nat (S n) * cycle_bound 0 3) with (cycle_bound 0 3 + Z.of_nat n * cycle_bound 0 3) by lia.
  cbv zeta. chain ends_dma_write16. destruct (negb a); [apply ends_ret; [lia|done..]|by apply IH].
Qed.

Lemma ends_drain n r : rig_ok r -> released r -> ends_in (Z.of_nat n) (drain n) r (fun _ r' => released r').
Proof.
  revert r. induction n as [|n IH]; intros r Hok Hrel; [by apply ends_ret|]. cbn [drain].
  replace (Z.of_nat (S n)) with (0 + (1 + Z.of_nat n)) by lia. chain (@ends_get bool). destruct H1 as [-> ->].
  destruct (_ || _); [|apply ends_ret; [lia|done..]]. chain ends_clock. apply IH; [done|]. by eapply released_bus.
Qed.

Definition write_bound (sectors : Z) : Z :=
  command_bound + (12 + (sectors * 512 * cycle_bound 0 3 + (8 * pat + 200024))).

Lemma ends_run_write word sectors gap lat id slot r :
  1 <= sectors -> int lat -> rig_ok r ->
  ends_in (write_bound sectors) (run_write word sectors gap lat id slot) r (verdict_ok (sectors * 512) r).
Proof.
  intros Hs Hl Hok. unfold run_write, write_bound. pose proof (cycle_pos 0 3) as Hb.
  assert (Hp : 0 <= pat) by (unfold pat; lia).
  eapply (ends_bind 0); [apply (ends_get (fun r => cyc (world r))); exact Hok|]. cbn beta. intros cyc0 r0 Hok0 [-> ->].
  eapply (ends_bind command_bound); [by apply ends_send_command|]. cbn beta. intros sc r1 Hok1 Hrel1. cbv zeta.
  destruct (sc.2) eqn:Hsc; cbn [negb].
  2: { apply ends_ret; [nia|done|]. split; [done|]. cbn. by split; [lia|]. }
  apply ends_four; [done|]. intros r2 Hok2 Hrel2.
  eapply ends_bind; [eapply ends_weaken; [by apply ends_write_data| |intros ? ? E; exact E]|].
  { destruct word; nia. }
  cbn beta. intros timeout r3 Hok3 Hrel3.
  set (res := RunResult_new <| selected := sc.1 |> <| cmd_sent := true |> <| dreq_timeout := timeout |>).
  replace (8 * pat + 200024) with (Z.of_nat (Z.to_nat 200000) + (2 + (3 + (3 + (8 * pat + 16)))) + (0 + (0 + 0))) by lia.
  eapply ends_bind with (Q1 := fun res' r' => released r' /\ cmd_sent res' = true).
  - destruct timeout; [apply ends_ret; [lia|done|done]|]. eapply ends_bind; [by apply ends_drain|]. cbn beta. intros u r4 Hok4 Hrel4.
    chain ends_reg_read. chain ends_reg_write. chain ends_reg_write.
    eapply ends_weaken; [by apply ends_complete|lia|cbn beta]. intros res' rr (H1' & _ & _ & _ & H5'). by rewrite H5'.
  - cbn beta. intros res' r4 Hok4 (Hrel4 & Hcmd).
    eapply (ends_bind 0); [apply (ends_get (fun r => written (hps (bench (world r))))); exact Hok4|]. cbn beta.
    intros img r5 Hok5 [-> ->].
    eapply (ends_bind 0); [apply (ends_get (fun r => cyc (world r))); exact Hok5|]. cbn beta. intros cyc1 r6 Hok6 [-> ->].
    apply ends_ret; [lia|done|]. split; [done|]. cbn.
    match goal with |- context [verify 0 ?l (0, -1)] => pose proof (verify_range 0 l (0, -1)) as Hv; set (v := verify 0 l (0, -1)) in * end.
    rewrite length_map, length_seq in Hv. cbn [fst] in Hv. by split; [lia|].
Qed.

End Total.

(** C18: every run ends, whatever the device does.  A read run in any mode and a
    write run of either width return on any device, with the host at rest and no
    Toolbox files, as these runs leave it, within a
    number of clocks that depends only on the parameters and the patience: no loop
    waits for a device that hangs.  They leave the bus released and report at most
    as many wrong bytes as the command asked for; and a run that got as far as the
    data counts its own clocks. *)
Theorem runs_end {D} `{Dut D} (patience : Z) (mode : Mode) (word : bool) (sectors ds gap lat id slot : Z) (r : Rig D) :
  rig_ok patience r -> 1 <= sectors -> int lat ->
  ends_in patience (read_bound patience sectors ds gap) (run_read mode sectors ds gap lat id slot) r (verdict_ok (sectors * 512) r) /\
  ends_in patience (write_bound patience sectors) (run_write word sectors gap lat id slot) r (verdict_ok (sectors * 512) r).
Proof. intros Hok Hs Hl. split; [by apply ends_run_read|by apply ends_run_write]. Qed.

(** ** A device that delivers bytes in order *)

Definition with_lcg {D} (s : Z) (r : Rig D) : Rig D := MkRig (world r) (config r) (csr_patience r) s.

(** The pseudo-DMA port of a device whose data are the bytes [f]: every cycle
    gives the bytes at the position it has reached, for any sample delay and any
    gap of at least one clock.  [at_pos d] and [at_mid d]: the next byte is [f d],
    at the start of an access and between the halves of a long one. *)
Class Stream (D : Type) `{Dut D} (f : Z -> Z) := {
  at_pos : Z -> Rig D -> Prop;
  at_mid : Z -> Rig D -> Prop;
  stream_lcg d s r : at_pos d r -> at_pos d (with_lcg s r);
  stream_byte d ds gap r : at_pos d r -> 1 <= gap -> exists v u r',
    dma_read16 false false false ds gap r = Some (Some (v, u), r') /\ lo v = f d /\ at_pos (d + 1) r';
  stream_word d ds gap r : at_pos d r -> 1 <= gap -> exists v u r',
    dma_read16 true false false ds gap r = Some (Some (v, u), r') /\ hi v = f d /\ lo v = f (d + 1) /\ at_pos (d + 2) r';
  stream_first d ds gap r : at_pos d r -> 1 <= gap -> exists v u r',
    dma_read16 true true false ds gap r = Some (Some (v, u), r') /\ hi v = f d /\ lo v = f (d + 1) /\ at_mid (d + 2) r';
  stream_second d ds gap r : at_mid d r -> 1 <= gap -> exists v u r',
    dma_read16 true true true ds gap r = Some (Some (v, u), r') /\ hi v = f d /\ lo v = f (d + 1) /\ at_pos (d + 2) r' }.

Section Reads.
Context {D : Type} `{Stream D f}.

(** The first [d] bytes of the data. *)
Definition bytes_to (d : Z) : list Z := map f (seqZ 0 d).

Lemma bytes_to_add d k : 0 <= d -> 0 <= k -> bytes_to (d + k) = bytes_to d ++ map f (seqZ d k).
Proof. intros Hd Hk. unfold bytes_to. by rewrite seqZ_app, map_app, Z.add_0_l by done. Qed.

Lemma bytes_to_2 d : 0 <= d -> bytes_to (d + 2) = bytes_to d ++ [f d; f (d + 1)].
Proof.
  intros Hd. rewrite bytes_to_add by lia. f_equal. change (seqZ d 2) with [Z.of_nat 0 + d; Z.of_nat 1 + d].
  cbn [map Z.of_nat Pos.of_succ_nat]. by rewrite Z.add_0_l, (Z.add_comm 1).
Qed.

Definition reading (d : Z) (g : Got) (r : Rig D) : Prop :=
  at_pos d r /\ got g = bytes_to d /\ aborted g = false /\ 0 <= d.

Definition reads (k : Z) (step : Got -> M D Got) : Prop :=
  forall d g r, reading d g r -> exists g' r', step g r = Some (g', r') /\ reading (d + k) g' r'.

Lemma reads_byte ds gap : 1 <= gap -> reads 1 (read_byte ds gap).
Proof.
  intros Hgap d g r (Hp & Hg & Ha & Hd). destruct (stream_byte d ds gap r Hp Hgap) as (v & u & r' & E & Hv & Hp').
  eexists _, r'. unfold read_byte, bind. rewrite E. split; [reflexivity|]. split; [done|].
  cbn [got aborted modify_field]. destruct (note_got u g) as [-> ->]. split; [|split; [done|lia]].
  rewrite Hg, Hv, bytes_to_add by lia. done.
Qed.

Lemma reads_word ds gap : 1 <= gap -> reads 2 (read_word ds gap).
Proof.
  intros Hgap d g r (Hp & Hg & Ha & Hd). destruct (stream_word d ds gap r Hp Hgap) as (v & u & r' & E & Hv1 & Hv2 & Hp').
  eexists _, r'. unfold read_word, bind. rewrite E. split; [reflexivity|]. split; [done|].
  cbn [got aborted modify_field]. destruct (note_got u g) as [-> ->]. split; [|split; [done|lia]].
  by rewrite Hg, Hv1, Hv2, bytes_to_2.
Qed.

Lemma reads_long ds gap second :
  1 <= gap ->
  (forall d r, at_pos d r -> exists p r', second r = Some (p, r') /\ at_pos d r' /\ 1 <= p.2) ->
  reads 4 (read_long ds gap second).
Proof.
  intros Hgap Hsec d g r (Hp & Hg & Ha & Hd). destruct (Hsec d r Hp) as ([ds2 gap2] & r0 & E0 & Hp0 & Hg2).
  destruct (stream_first d ds gap r0 Hp0 Hgap) as (v1 & u1 & r1 & E1 & Hv1 & Hv2 & Hp1).
  destruct (stream_second (d + 2) ds2 gap2 r1 Hp1 Hg2) as (v2 & u2 & r2 & E2 & Hv3 & Hv4 & Hp2).
  eexists _, r2. unfold read_long, bind. rewrite E0. cbn [fst snd mbind option_bind]. rewrite E1. cbn [mbind option_bind].
  rewrite E2. cbn [mbind option_bind]. split; [reflexivity|].
  replace (d + 4) with (d + 2 + 2) by lia. split; [done|].
  cbn [got aborted modify_field]. destruct (note_got u2 (note u1 g)) as [-> ->], (note_got u1 g) as [-> ->].
  split; [|split; [done|lia]]. rewrite Hg, Hv1, Hv2, Hv3, Hv4, !bytes_to_2, <- app_assoc by lia. done.
Qed.

Lemma while_left_reads fuel len least size step d g r :
  reads size step -> 1 <= least -> 1 <= size -> len - d <= Z.of_nat fuel -> d <= len ->
  size <= least \/ (size | len - d) -> reading d g r ->
  exists d' g' r', while_left fuel len least size step d g r = Some ((d', g'), r') /\ reading d' g' r' /\
    d' <= len /\ len - d' < least /\ (size | d' - d).
Proof.
  intros Hstep Hleast Hsize. revert d g r. induction fuel as [|fuel IH]; intros d g r Hfuel Hd Hdiv Hr;
    pose proof Hr as (_ & _ & Ha & _); cbn [while_left]; rewrite Ha; cbn [orb].
  all: destruct (Z.ltb_spec (len - d) least); [eexists d, g, r; split; [done|]; split_and!; try done; rewrite Z.sub_diag; apply Z.divide_0_r|].
  - lia.
  - destruct (Hstep d g r Hr) as (g1 & r1 & E1 & Hr1).
    assert (Hk : size <= len - d).
    { destruct Hdiv as [?|[k Hk]]; [lia|]. assert (0 < k) by nia. nia. }
    destruct (IH (d + size) g1 r1) as (d' & g' & r' & E' & Hr' & H1' & H2' & [k Hk']); [lia|lia| |done|].
    { destruct Hdiv as [?|Hdiv]; [by left|right]. replace (len - (d + size)) with (len - d - size) by lia.
      apply Z.divide_sub_r; [done|apply Z.divide_refl]. }
    exists d', g', r'. unfold bind. rewrite E1. split; [exact E'|]. split_and!; try done. exists (k + 1). lia.
Qed.

(** The runs of a mode that finish. *)
Definition delivers (len : Z) (m : M D Got) (r : Rig D) : Prop :=
  exists g r', m r = Some (g, r') /\ reading len g r'.

Lemma whole_reads k sectors step r :
  reads k step -> 1 <= k -> (k | 512) -> 0 <= sectors -> at_pos 0 r ->
  delivers (sectors * 512)
    (s <- while_left (Z.to_nat (sectors * 512)) (sectors * 512) 1 k step 0 (MkGot [] 0 false) ;; ret s.2) r.
Proof.
  intros Hstep Hk Hdiv Hs Hp.
  destruct (while_left_reads (Z.to_nat (sectors * 512)) (sectors * 512) 1 k step 0 (MkGot [] 0 false) r)
    as (d' & g' & r' & E & Hr & H1' & H2' & _); try done; try lia.
  { right. rewrite Z.sub_0_r. by apply Z.divide_mul_r. }
  exists g', r'. unfold bind. rewrite E. split; [done|]. by replace (sectors * 512) with d' by lia.
Qed.

Lemma skewed_reads p k least sectors first step r :
  reads p first -> reads k step -> 1 <= p < k -> least = k + p -> 2 * p = k -> (k | 512) -> 1 <= sectors -> at_pos 0 r ->
  delivers (sectors * 512)
    (g <- first (MkGot [] 0 false) ;;
     s <- while_left (Z.to_nat (sectors * 512)) (sectors * 512) least k step (if aborted g then 0 else p) g ;;
     if_left (sectors * 512) s.1 first s.2) r.
Proof.
  intros Hfirst Hstep Hp Hleast Hpk Hdiv Hs Hpos. set (len := sectors * 512).
  destruct (Hfirst 0 (MkGot [] 0 false) r) as (g1 & r1 & E1 & Hr1); [by split_and!|].
  pose proof Hr1 as (_ & _ & Ha1 & _).
  assert (Hk : k <= 512) by (apply Z.divide_pos_le; [lia|done]).
  destruct (while_left_reads (Z.to_nat len) len least k step p g1 r1) as (d' & g' & r' & E & Hr & H1' & H2' & [q Hq]);
    try done; try (unfold len; lia).
  destruct Hdiv as [m Hm].
  assert (Hlast : len - d' = p).
  { assert (Hr' : len - d' = (sectors * m - q) * k - p) by (unfold len; rewrite Hm; lia).
    assert (sectors * m - q = 1) by nia. nia. }
  destruct (Hfirst d' g' r' Hr) as (g2 & r2 & E2 & Hr2).
  exists g2, r2. unfold bind. rewrite E1. cbn [mbind option_bind]. rewrite Ha1, E. cbn [mbind option_bind fst snd].
  unfold if_left. destruct Hr as (_ & _ & -> & _). cbn [orb]. destruct (Z.leb_spec len d'); [lia|].
  split; [exact E2|]. by replace len with (d' + p) by lia.
Qed.

Lemma lcg_reads d r : at_pos d r -> exists a r', lcg r = Some (a, r') /\ at_pos d r'.
Proof. intros Hp. eexists _, _. split; [reflexivity|]. by apply stream_lcg. Qed.

Lemma mix_step_reads remain d g r :
  1 <= remain -> reading d g r ->
  exists k g' r', mix_step remain g r = Some ((k, g'), r') /\ 1 <= k <= remain /\ reading (d + k) g' r'.
Proof.
  intros Hrem (Hp & Hg). unfold mix_step, bind.
  destruct (lcg_reads d r Hp) as (a & r1 & -> & Hp1). cbn [mbind option_bind].
  destruct (lcg_reads d r1 Hp1) as (b & r2 & -> & Hp2). cbn [mbind option_bind].
  destruct (lcg_reads d r2 Hp2) as (c & r3 & -> & Hp3). cbn [mbind option_bind]. cbv zeta.
  set (pick := if remain <? 2 then 0 else _).
  assert (Hc := Z.mod_pos_bound c 8 ltac:(lia)).
  assert (Hpick : (pick = 0 \/ pick = 1 /\ 2 <= remain \/ pick <> 0 /\ pick <> 1 /\ 4 <= remain)).
  { unfold pick. assert (Hm := Z.mod_pos_bound a 3 ltac:(lia)).
    destruct (Z.ltb_spec remain 2); [by left|]. destruct (Z.ltb_spec remain 4); cbn [andb];
      destruct (Z.eqb_spec (a `mod` 3) 2); lia. }
  destruct (Z.eqb_spec pick 0); [|destruct (Z.eqb_spec pick 1)].
  - destruct (reads_byte (b `mod` 4) (1 + c `mod` 8) ltac:(lia) d g r3) as (g' & r' & -> & Hr'); [by split|].
    exists 1, g', r'. split; [done|]. by split; [lia|].
  - destruct (reads_word (b `mod` 4) (1 + c `mod` 8) ltac:(lia) d g r3) as (g' & r' & -> & Hr'); [by split|].
    exists 2, g', r'. split; [done|]. by split; [lia|].
  - edestruct (reads_long (b `mod` 4) (1 + c `mod` 8)) as (g' & r' & -> & Hr'); [lia| |by split|].
    + intros d1 s Hs. unfold bind. destruct (lcg_reads d1 s Hs) as (x & s1 & -> & Hs1). cbn [mbind option_bind].
      destruct (lcg_reads d1 s1 Hs1) as (y & s2 & -> & Hs2). cbn [mbind option_bind].
      eexists _, s2. split; [done|]. split; [done|]. cbn [snd]. pose proof (Z.mod_pos_bound y 8). lia.
    + exists 4, g', r'. split; [done|]. by split; [lia|].
Qed.

Lemma mix_loop_reads fuel len d g r :
  len - d <= Z.of_nat fuel -> d <= len -> reading d g r -> delivers len (mix_loop fuel len d g) r.
Proof.
  revert d g r. induction fuel as [|fuel IH]; intros d g r Hfuel Hd Hr; pose proof Hr as (_ & _ & Ha & _);
    cbn [mix_loop]; rewrite Ha; cbn [orb].
  all: destruct (Z.leb_spec len d); [exists g, r; split; [done|by replace len with d by lia]|].
  - lia.
  - destruct (mix_step_reads (len - d) d g r) as (k & g1 & r1 & E & Hk & Hr1); [lia|done|].
    destruct (IH (d + k) g1 r1) as (g' & r' & E' & Hr'); [lia|lia|done|].
    exists g', r'. unfold bind. rewrite E. by split.
Qed.

Lemma read_data_delivers mode sectors ds gap lat r :
  1 <= sectors -> 1 <= gap -> at_pos 0 r -> delivers (sectors * 512) (read_data mode (sectors * 512) ds gap lat) r.
Proof.
  intros Hs Hgap Hp.
  assert (Hlong : reads 4 (read_long ds gap (ret (ds, gap)))).
  { apply reads_long; [done|]. intros d s Hs'. by eexists _, s. }
  destruct mode; unfold read_data; cbv zeta.
  - apply whole_reads; try done; [by apply reads_byte|by exists 512|lia].
  - apply whole_reads; try done; [by apply reads_word|by exists 256|lia].
  - apply whole_reads; try done; [by exists 128|lia].
  - unfold bind at 1. cbn [mbind option_bind set_lcg].
    destruct (mix_loop_reads (Z.to_nat (sectors * 512)) (sectors * 512) 0 (MkGot [] 0 false)
      (with_lcg (lcg_seed ds gap lat) r)) as (g' & r' & E & Hr'); [lia|lia|by split_and!; [apply stream_lcg|..]|].
    exists g', r'. by split.
  - apply (skewed_reads 2 4 6); try done; [by apply reads_word|by exists 128].
  - apply (skewed_reads 1 2 3); try done; [by apply reads_byte|by apply reads_word|by exists 256].
Qed.

End Reads.

(** ** The verdict *)

(** The offsets from [d] at which the data differ from the disk. *)
Definition wrong (f : Z -> Z) (d n : Z) : list Z := filter (fun k => f k <> ramp k) (seqZ d n).

Lemma verify_map f (n : nat) d acc :
  0 <= d ->
  verify d (map f (seqZ d (Z.of_nat n))) acc =
    (acc.1 + Z.of_nat (length (wrong f d (Z.of_nat n))),
     if acc.2 <? 0 then default acc.2 (head (wrong f d (Z.of_nat n))) else acc.2).
Proof.
  revert d acc. induction n as [|n IH]; intros d [m k] Hd.
  { cbn. rewrite Z.add_0_r. by destruct (k <? 0). }
  unfold wrong. rewrite seqZ_cons by lia. replace (Z.pred (Z.of_nat (S n))) with (Z.of_nat n) by lia.
  cbn [map verify]. change (Z.succ d) with (d + 1). rewrite IH by lia. unfold wrong.
  destruct (Z.eqb_spec (f d) (ramp d)) as [E|E]; cbn [negb].
  - by rewrite (filter_cons_False (fun k => f k <> ramp k)) by (by intros []).
  - rewrite (filter_cons_True (fun k => f k <> ramp k)) by done. cbn [fst snd length head default].
    f_equal; [lia|]. destruct (Z.ltb_spec k 0); [|by destruct (Z.ltb_spec k 0); [lia|]].
    by destruct (Z.ltb_spec d 0); [lia|].
Qed.

(** C17: all six modes read the same bytes, and the verdict is exact.  On a device
    that delivers the bytes [f] in order, a read of [sectors] sectors in any mix
    of widths - bytes, words, longwords, skewed off the block grid or random -
    collects exactly the bytes [f 0] to [f (512 * sectors - 1)]; the number of
    mismatches is the number of offsets at which [f] differs from the disk, and
    the first of them is the one reported, or -1.  So a device passes in one mode
    exactly if it passes in every mode, and a correct one passes. *)
Theorem reads_exact {D} `{Stream D f} (mode : Mode) (sectors ds gap lat : Z) (r : Rig D) :
  1 <= sectors -> 1 <= gap -> at_pos 0 r ->
  exists g r', read_data mode (sectors * 512) ds gap lat r = Some (g, r') /\
    aborted g = false /\ got g = map f (seqZ 0 (sectors * 512)) /\
    verify 0 (got g) (0, -1) =
      (Z.of_nat (length (wrong f 0 (sectors * 512))), default (-1) (head (wrong f 0 (sectors * 512)))).
Proof.
  intros Hs Hgap Hp. destruct (read_data_delivers mode sectors ds gap lat r Hs Hgap Hp) as (g & r' & E & _ & Hg & Ha & _).
  exists g, r'. split; [done|]. split; [done|]. split; [done|]. rewrite Hg. unfold bytes_to.
  replace (sectors * 512) with (Z.of_nat (Z.to_nat (sectors * 512))) by lia. by apply verify_map.
Qed.

(** ** A device for the examples: a tape of bytes, wrong at one offset. *)

Record Tape := MkTape { t_pos : Z; t_width : Z }.

Definition tape_data (d : Z) : Z := if d =? 700 then 255 - ramp d else ramp d.

Definition tape_rise (b : BusPins) (k : Tape) : Tape :=
  if dack b && ior b then MkTape (t_pos k) (if dma_word b then 2 else 1) else MkTape (t_pos k + t_width k) 0.

Definition tape_rdata (k : Tape) : Z :=
  if t_width k =? 2 then pack (tape_data (t_pos k)) (tape_data (t_pos k + 1)) else tape_data (t_pos k).

#[export] Instance Tape_dut : Dut Tape := {|
  settle _ _ k := k;
  rise b _ k := tape_rise b k;
  fall _ _ k := k;
  dut_pins _ := MkCorePins 0 0 0 0 0 0 false false 0 0;
  rdata := tape_rdata;
  dreq _ := true |}.

Definition tape_at (k : Tape) (r : Rig Tape) : Prop := dut r = k /\ st (hps (bench (world r))) = IDLE.

Lemma tape_clock k r : tape_at k r -> exists r', clock r = Some (tt, r') /\ tape_at (tape_rise (bus r) k) r' /\ bus r' = bus r.
Proof.
  intros [Hk Hs]. unfold clock, tick. cbn [core_pins Dut_core dut_pins Tape_dut]. unfold service. rewrite Hs.
  rewrite poll_disks_none by done. unfold poll_tb. cbn [tb_wr tb_rd]. rewrite !andb_false_r. cbn [mbind option_bind].
  eexists. split; [reflexivity|]. split; [|done]. split; [|exact Hs]. by rewrite <- Hk.
Qed.

Lemma tape_clocks n k r :
  tape_at k r -> tape_rise (bus r) k = k -> exists r', clocks n r = Some (tt, r') /\ tape_at k r' /\ bus r' = bus r.
Proof.
  intros Hk Hstay. revert r Hk Hstay. induction n as [|n IH]; intros r Hk Hstay; [by exists r|].
  destruct (tape_clock k r Hk) as (r1 & E & Hk1 & Hb). rewrite Hstay in Hk1.
  destruct (IH r1 Hk1) as (r2 & E2 & Hk2 & Hb2); [by rewrite Hb|].
  exists r2. cbn [clocks]. unfold bind. rewrite E. cbn [mbind option_bind]. rewrite E2. by rewrite Hb2.
Qed.

Lemma tape_gap n k r :
  tape_at k r -> dack (bus r) = false -> (1 <= n)%nat ->
  exists r', clocks n r = Some (tt, r') /\ tape_at (MkTape (t_pos k + t_width k) 0) r'.
Proof.
  intros Hk Hd Hn. destruct n as [|n]; [lia|]. destruct (tape_clock k r Hk) as (r1 & E & Hk1 & Hb).
  assert (Er : tape_rise (bus r) k = MkTape (t_pos k + t_width k) 0) by (unfold tape_rise; by rewrite Hd).
  rewrite Er in Hk1. destruct (tape_clocks n _ r1 Hk1) as (r2 & E2 & Hk2 & _).
  { unfold tape_rise. rewrite Hb, Hd. cbn. by rewrite Z.add_0_r. }
  exists r2. cbn [clocks]. unfold bind. rewrite E. by split.
Qed.

Lemma bind_some {D A B} (m : M D A) (f : A -> M D B) r a r1 : m r = Some (a, r1) -> bind m f r = f a r1.
Proof. intros E. unfold bind. by rewrite E. Qed.

Lemma bind_inv {D A B} (m : M D A) (f : A -> M D B) r c :
  bind m f r = Some c -> exists a r1, m r = Some (a, r1) /\ f a r1 = Some c.
Proof. unfold bind. intros ([a r1] & E & E')%bind_Some. by exists a, r1. Qed.

Lemma tape_wait n r : wait_dreq (D := Tape) n r = Some (true, r).
Proof. by destruct n. Qed.

Lemma tape_read (w l s : bool) ds gap d r :
  tape_at (MkTape d 0) r -> 1 <= gap ->
  let n := if w then 2 else 1 in
  exists u r', dma_read16 w l s ds gap r = Some (Some (u16 (tape_rdata (MkTape d n)), u), r') /\ tape_at (MkTape (d + n) 0) r'.
Proof.
  intros Hr Hgap. cbn zeta. set (k := MkTape d (if w then 2 else 1)).
  unfold dma_read16. rewrite (bind_some (set_bus _) _ _ _ _ eq_refl). set (r0 := put_world _ r).
  destruct (tape_clock (MkTape d 0) r0 Hr) as (r1 & E1 & Hr1 & Hb1).
  change (tape_rise (bus r0) (MkTape d 0)) with k in Hr1.
  assert (Hstay : tape_rise (bus r1) k = k) by by rewrite Hb1.
  rewrite (bind_some _ _ _ _ _ E1), (bind_some _ _ _ _ _ (tape_wait _ r1)), (bind_some (get _) _ _ _ _ eq_refl).
  destruct (tape_clocks (Z.to_nat ds) k r1 Hr1 Hstay) as (r2 & E2 & Hr2 & Hb2).
  rewrite (bind_some _ _ _ _ _ E2), (bind_some (get _) _ _ _ _ eq_refl).
  destruct (tape_clock k r2 Hr2) as (r3 & E3 & Hr3 & Hb3). rewrite Hb2, Hstay in Hr3.
  rewrite (bind_some _ _ _ _ _ E3), (bind_some bus_release _ _ _ _ eq_refl). set (r4 := put_world _ r3).
  destruct (tape_gap (Z.to_nat gap) k r4 Hr3 eq_refl) as (r5 & E5 & Hr5); [lia|].
  rewrite (bind_some _ _ _ _ _ E5). destruct Hr2 as [Hd2 _]. cbn [rdata Tape_dut]. rewrite Hd2.
  eexists _, r5. split; [reflexivity|exact Hr5].
Qed.

Lemma ramp_byte d : 0 <= ramp d < 256.
Proof. apply (uwrap_range 8). lia. Qed.

Lemma tape_byte d : 0 <= tape_data d < 256.
Proof. unfold tape_data. pose proof (ramp_byte d). destruct (d =? 700); lia. Qed.

Lemma tape_word d : hi (u16 (pack (tape_data d) (tape_data (d + 1)))) = tape_data d /\
  lo (u16 (pack (tape_data d) (tape_data (d + 1)))) = tape_data (d + 1).
Proof.
  pose proof (tape_byte d). pose proof (tape_byte (d + 1)).
  rewrite (uwrap_small 16) by (unfold pack; rewrite be_join by done; lia).
  unfold hi, lo. destruct (pack_split (tape_data d) (tape_data (d + 1))) as [-> ->]; [done..|].
  split; [done|]. by apply uwrap_small.
Qed.

#[export] Instance Tape_stream : Stream Tape tape_data.
Proof.
  refine {| at_pos d r := tape_at (MkTape d 0) r; at_mid d r := tape_at (MkTape d 0) r |}.
  - done.
  - intros d ds gap r Hr Hgap. destruct (tape_read false false false ds gap d r Hr Hgap) as (u & r' & E & Hr').
    eexists _, u, r'. split; [exact E|]. split; [|exact Hr']. cbn. pose proof (tape_byte d).
    unfold lo. rewrite (uwrap_small 16), land_255, Z.mod_small by lia. by apply uwrap_small.
  - intros d ds gap r Hr Hgap. destruct (tape_read true false false ds gap d r Hr Hgap) as (u & r' & E & Hr').
    destruct (tape_word d). eexists _, u, r'. by split; [exact E|].
  - intros d ds gap r Hr Hgap. destruct (tape_read true true false ds gap d r Hr Hgap) as (u & r' & E & Hr').
    destruct (tape_word d). eexists _, u, r'. by split; [exact E|].
  - intros d ds gap r Hr Hgap. destruct (tape_read true true true ds gap d r Hr Hgap) as (u & r' & E & Hr').
    destruct (tape_word d). eexists _, u, r'. by split; [exact E|].
Defined.

(** ** Examples *)

Definition tape_rig : Rig Tape :=
  MkRig (MkWorld (MkTape 0 0, MkBusPins false false false false 0 0 false false false false 0 0 false)
    (MkBench (Hps_reset Config_new Hps_new) Pins_zero (TbHps_new [])) 0) Config_new 50000 0.

Lemma reads_exact_witness :
  exists g r', read_data M_LONGSKEW (2 * 512) 1 3 600 tape_rig = Some (g, r') /\
    verify 0 (got g) (0, -1) = (1, 700).
Proof.
  destruct (reads_exact M_LONGSKEW 2 1 3 600 tape_rig) as (g & r' & E & _ & _ & Hv); [lia|lia|done|].
  exists g, r'. split; [exact E|]. rewrite Hv. by vm_compute.
Defined.

Lemma tape_rig_ok : rig_ok 50000 tape_rig.
Proof.
  split; [unfold settings_ok, int; cbn; lia|]. split; [|by split; [|cbn; lia]]. split; [done|].
  split; [unfold int; cbn; lia|]. split; [|done]. split; [done|cbn; lia].
Qed.

Lemma runs_end_witness :
  ends_in 50000 (read_bound 50000 4 1 3) (run_read M_WORD 4 1 3 600 0 0) tape_rig (verdict_ok (4 * 512) tape_rig).
Proof.
  refine (proj1 (runs_end 50000 M_WORD false 4 1 3 600 0 0 tape_rig _ _ _)).
  - apply tape_rig_ok.
  - lia.
  - unfold int. lia.
Defined.
