(* ===== verification/ScsiCd.v ===== *)
(** * The CD runs of the SCSI bench (scsi_bench.cpp)

    [run_cdvol] writes the volume page of the CD target and reads it back;
    [run_gapcmds] sends it nine commands and checks the replies.  Both are lists of
    tests, each a command by programmed transfer, the bytes of its reply, a status and
    a message, and what is counted as a failure; a transfer that stalls ends the run.
    The texts that are printed are left out.

    The theorems: a run ends whatever the device does, within a bound on the clocks
    ([cd_runs_end]), and the run of the gap commands passes exactly if every exchange
    of it worked and brought the answer that is wanted ([gapcmds_verdict]), the wanted
    answers being a list of their own ([gap_wanted]).  For a device that is a target on
    the bus, the class [Target], the verdict is read off its replies ([gapcmds_target],
    [cdvol_verdict]); the instance is a target with a reply for each command. *)

From S2P Require Import Prelude Toolbox ScsiHps ScsiRuns.

(** ** The tests *)

(** A test: the bytes of the command and of its data, the length of the reply, the
    failures it counts from the reply, the status and the message, and whether one of
    them ends the run. *)
Record CdTest := MkCdTest {
  ct_bytes : list Z; ct_len : nat; ct_check : list Z -> Z -> Z -> Z; ct_abort : bool }.

(** [if (!b) fails++] *)
Definition want (b : bool) : Z := if b then 0 else 1.

Definition good_status (st msg : Z) : bool := (st =? 0) && (msg =? 0).

(** [run_cdvol] *)
Definition msel : list Z :=
  [0x00; 0x00; 0x00; 0x00; 0x0E; 0x0E; 0x04; 0x00; 0x00; 0x00; 75; 75; 0x01; 0x55; 0x02; 0x66; 0x04; 0x11; 0x08; 0x22].
Definition cdb_sel : list Z := [0x15; 0x10; 0; 0; 20; 0].
Definition cdb_sns : list Z := [0x1A; 0x00; 0x0E; 0; 28; 0].
Definition expect_tail : list Z := [0x01; 0x55; 0x02; 0x66; 0x04; 0x11; 0x08; 0x22].

(** [fails] for each byte that differs. *)
Fixpoint wrong_tail (i : nat) (exp got : list Z) : Z :=
  match exp with [] => 0 | e :: exp => want (byte got i =? e) + wrong_tail (S i) exp got end.

Definition vol_select : CdTest :=
  MkCdTest (cdb_sel ++ msel) 0 (fun _ st msg => want (good_status st msg)) true.

Definition vol_sense : CdTest :=
  MkCdTest cdb_sns 28 (fun got st msg =>
    want (byte got 0 =? 27) + want ((byte got 12 =? 0x0E) && (byte got 13 =? 0x0E)) +
    wrong_tail 20 expect_tail got + want (good_status st msg)) false.

(** [run_gapcmds] *)
Definition gap_f2 : CdTest :=
  MkCdTest [0x42; 0x02; 0x40; 0x02; 0; 0; 0; 0; 24; 0] 24 (fun g st msg =>
    want (good_status st msg) + want ((byte g 3 =? 20) && (byte g 4 =? 0x02))) false.

Definition gap_f3 : CdTest :=
  MkCdTest [0x42; 0x02; 0x40; 0x03; 0; 0; 0x05; 0; 24; 0] 24 (fun g st msg =>
    want (good_status st msg) + want ((byte g 3 =? 20) && (byte g 4 =? 0x03) && (byte g 6 =? 0x05))) false.

Definition gap_hdr : CdTest :=
  MkCdTest [0x44; 0x00; 0x00; 0x00; 0x12; 0x34; 0; 0; 8; 0] 8 (fun g st msg =>
    want (good_status st msg) +
    want ((byte g 4 =? 0x00) && (byte g 5 =? 0x00) && (byte g 6 =? 0x12) && (byte g 7 =? 0x34))) false.

Definition gap_msf : CdTest :=
  MkCdTest [0x44; 0x02; 0; 0; 0; 0; 0; 0; 8; 0] 0 (fun _ st _ => want (st =? 0x02)) false.

Definition gap_sns : CdTest :=
  MkCdTest [0x03; 0; 0; 0; 18; 0] 18 (fun g _ _ =>
    want ((Z.land (byte g 2) 0x0F =? 0x05) && (byte g 12 =? 0x24))) false.

Definition gap_p12 : CdTest :=
  MkCdTest [0xA5; 0x00; 0x00; 0x00; 0x00; 0x64; 0; 0; 0; 0x0A; 0; 0] 0 (fun _ st msg => want (good_status st msg)) false.

Definition gap_speed : CdTest :=
  MkCdTest [0xBB; 0; 0x01; 0x76; 0x01; 0x76; 0; 0; 0; 0; 0; 0] 0 (fun _ st msg => want (good_status st msg)) false.

Definition gap_2a : CdTest :=
  MkCdTest [0x1A; 0x00; 0x2A; 0; 38; 0] 38 (fun g st msg =>
    want (good_status st msg) +
    want ((byte g 0 =? 37) && (byte g 12 =? 0x2A) && (byte g 13 =? 0x18)) +
    want ((byte g 16 =? 0x71) && (byte g 19 =? 0x03) && (byte g 22 =? 0x01) && (byte g 23 =? 0x00))) false.

Definition gap_unk : CdTest :=
  MkCdTest (0xAF :: replicate 11 0) 0 (fun _ st _ => want (st =? 0x02)) false.

Definition gap_play : CdTest :=
  MkCdTest [0x45; 0x00; 0x00; 0x00; 0x00; 0x64; 0; 0x00; 0x0A; 0] 0 (fun _ st msg => want (good_status st msg)) false.

Definition gap_tests : list CdTest :=
  [gap_f2; gap_f3; gap_hdr; gap_msf; gap_sns; gap_p12; gap_speed; gap_2a; gap_unk; gap_play].
Definition vol_tests : list CdTest := [vol_select; vol_sense].

(** ** The runs *)

Section Runs.
Context {D : Type} `{Dut D}.

Abbreviation M := (M D).

Definition select_cd : M bool :=
  reg_write WREG_ODR (u8 (Z.shiftl 1 3)) ;;
  reg_write WREG_ICR (Z.lor ICR_DATA ICR_SEL) ;;
  ok <- wait_csr CSR_BSY CSR_BSY 20000 ;;
  if negb ok then ret false else reg_write WREG_ICR ICR_DATA ;; ret true.

(** The bytes of a reply; [None] when the target stalls. *)
Fixpoint get_all (n : nat) : M (option (list Z)) :=
  match n with
  | O => ret (Some [])
  | S n =>
    v <- pio_get ;;
    if v <? 0 then ret None
    else l <- get_all n ;; ret (match l with Some l => Some (u8 v :: l) | None => None end)
  end.

(** Selection, command, release of the data bus, reply, status and message. *)
Definition cd_command (bytes : list Z) (n : nat) : M (option (list Z * Z * Z)) :=
  ok <- select_cd ;;
  if negb ok then ret None
  else
    ok <- put_all bytes ;;
    if negb ok then ret None
    else
      reg_write WREG_ICR 0 ;;
      l <- get_all n ;;
      match l with
      | None => ret None
      | Some l => st <- pio_get ;; msg <- pio_get ;; ret (Some (l, st, msg))
      end.

Fixpoint run_tests (ts : list CdTest) (fails : Z) : M Z :=
  match ts with
  | [] => ret (if fails =? 0 then 0 else 1)
  | t :: ts =>
    r <- cd_command (ct_bytes t) (ct_len t) ;;
    match r with
    | None => ret 1
    | Some (l, st, msg) =>
      let n := ct_check t l st msg in
      if ct_abort t && negb (n =? 0) then ret 1 else run_tests ts (fails + n)
    end
  end.

Definition run_cdvol : M Z := reset_dut 0 ;; run_tests vol_tests 0.
Definition run_gapcmds : M Z := reset_dut 0 ;; run_tests gap_tests 0.

End Runs.

(** ** The runs end *)

Section Ends.
Context {D : Type} `{Dut D} (patience : Z).

Abbreviation ends := (ends_in patience).
Abbreviation pat := (pat patience).

Ltac step lem := eapply ends_bind; [apply lem; assumption|]; cbn beta; intros.

Lemma ends_select_cd r :
  rig_ok patience r -> ends 40009 (select_cd (D := D)) r (fun _ r' => released r').
Proof.
  intros Hok. unfold select_cd. change 40009 with (3 + (3 + (2 * 20000 + (3 + 0)))).
  step ends_reg_write. step ends_reg_write. step (ends_wait_csr patience CSR_BSY CSR_BSY 20000).
  destruct (negb a1); [apply ends_ret; [done|done|done]|]. step ends_reg_write. by apply ends_ret.
Qed.

Lemma ends_get_all n r :
  rig_ok patience r -> released r -> ends (Z.of_nat n * (4 * pat + 8)) (get_all n) r (fun _ r' => released r').
Proof.
  revert r. assert (Hp : 0 <= pat) by (unfold ScsiRuns.pat; lia).
  induction n as [|n IH]; intros r Hok Hrel; [by apply ends_ret|]. cbn [get_all].
  replace (Z.of_nat (S n) * (4 * pat + 8)) with (4 * pat + 8 + (Z.of_nat n * (4 * pat + 8) + 0)) by lia.
  step ends_pio_get. destruct (a <? 0); [apply ends_ret; [nia|done..]|]. step IH. by apply ends_ret.
Qed.

Definition cd_bound (t : CdTest) : Z :=
  40012 + (Z.of_nat (length (ct_bytes t)) + Z.of_nat (ct_len t) + 2) * (4 * pat + 9).

Lemma ends_cd_command t r :
  rig_ok patience r -> ends (cd_bound t) (cd_command (ct_bytes t) (ct_len t)) r (fun _ r' => released r').
Proof.
  intros Hok. assert (Hp : 0 <= pat) by (unfold ScsiRuns.pat; lia). unfold cd_command, cd_bound.
  eapply ends_weaken with
    (N := 40009 + (Z.of_nat (length (ct_bytes t)) * (4 * pat + 9) + (3 + (Z.of_nat (ct_len t) * (4 * pat + 8) +
          ((4 * pat + 8) + ((4 * pat + 8) + 0))))));
    [|lia|cbn beta; intros ? ? Hq; exact Hq].
  step ends_select_cd. destruct (negb a); [apply ends_ret; [nia|done|done]|].
  step ends_put_all. destruct (negb a0); [apply ends_ret; [nia|done|done]|].
  step ends_reg_write. step ends_get_all. destruct a2 as [l|]; [|apply ends_ret; [nia|done|done]].
  step ends_pio_get. step ends_pio_get. by apply ends_ret.
Qed.

Fixpoint tests_bound (ts : list CdTest) : Z := match ts with [] => 0 | t :: ts => cd_bound t + tests_bound ts end.

Lemma tests_bound_nonneg ts : 0 <= tests_bound ts.
Proof.
  assert (Hp : 0 <= pat) by (unfold ScsiRuns.pat; lia).
  induction ts as [|t ts IH]; cbn [tests_bound]; [done|]. unfold cd_bound. nia.
Qed.

Definition cd_verdict (n : Z) (r : Rig D) : Prop := (n = 0 \/ n = 1) /\ released r.

Lemma ends_run_tests ts : forall fails r,
  rig_ok patience r -> released r -> ends (tests_bound ts) (run_tests ts fails) r cd_verdict.
Proof.
  induction ts as [|t ts IH]; intros fails r Hok Hrel; cbn [run_tests tests_bound].
  - apply ends_ret; [done|done|]. split; [|done]. destruct (fails =? 0); auto.
  - step ends_cd_command. pose proof (tests_bound_nonneg ts).
    destruct a as [[[l st] msg]|]; [|by apply ends_ret; [..|split; [right|]]].
    cbn zeta. destruct (ct_abort t && _); [by apply ends_ret; [..|split; [right|]]|]. by apply IH.
Qed.

Lemma ends_reset_tests ts r :
  rig_ok patience r -> ends (17 + tests_bound ts) (reset_dut 0 ;; run_tests ts 0) r cd_verdict.
Proof. intros Hok. step ends_reset_dut. by apply ends_run_tests. Qed.

End Ends.

(** The CD runs end, whatever the device does, with a verdict, the bus released and
    within a number of clocks that depends on the patience of the initiator alone. *)
Theorem cd_runs_end {D} `{Dut D} (patience : Z) (r : Rig D)
    (Hok : rig_ok patience r) :
  ends_in patience (17 + tests_bound patience vol_tests) run_cdvol r cd_verdict /\
  ends_in patience (17 + tests_bound patience gap_tests) run_gapcmds r cd_verdict.
Proof. split; by apply ends_reset_tests. Qed.

Lemma want_nonneg b : 0 <= want b.
Proof. by destruct b. Qed.

Lemma wrong_tail_nonneg exp : forall i got, 0 <= wrong_tail i exp got.
Proof.
  induction exp as [|e exp IH]; intros i got; cbn [wrong_tail]; [done|].
  pose proof (want_nonneg (byte got i =? e)). pose proof (IH (S i) got). lia.
Qed.

(** No test subtracts from the failures. *)
Definition counting (t : CdTest) : Prop := forall l st msg, 0 <= ct_check t l st msg.

Lemma all_counting : Forall counting (vol_tests ++ gap_tests).
Proof.
  repeat constructor; intros l st msg; cbn [ct_check vol_select vol_sense gap_f2 gap_f3 gap_hdr gap_msf gap_sns gap_p12
    gap_speed gap_2a gap_unk gap_play];
    repeat match goal with |- context [want ?b] => pose proof (want_nonneg b); generalize dependent (want b); intros end;
    try (pose proof (wrong_tail_nonneg expect_tail 20 l)); lia.
Qed.

(** ** What a run takes for a success, on any device

    An exchange that works: the target is selected, every byte of the command is taken,
    every byte of the data arrives, and then a status and a message. *)

Section Sessions.
Context {D : Type} `{Dut D}.
Implicit Types r : Rig D.

Definition selects (id polls : Z) r r' : Prop := exists r1 r2 r3,
  reg_write WREG_ODR id r = Some (tt, r1) /\ reg_write WREG_ICR 0x05 r1 = Some (tt, r2) /\
  wait_csr CSR_BSY CSR_BSY polls r2 = Some (true, r3) /\ reg_write WREG_ICR 0x01 r3 = Some (tt, r').

Inductive puts : list Z -> Rig D -> Rig D -> Prop :=
  | puts_nil r : puts [] r r
  | puts_cons b bs r r1 r2 : pio_put b r = Some (true, r1) -> puts bs r1 r2 -> puts (b :: bs) r r2.

Inductive gets : list Z -> Rig D -> Rig D -> Prop :=
  | gets_nil r : gets [] r r
  | gets_cons v vs r r1 r2 : pio_get r = Some (v, r1) -> 0 <= v -> gets vs r1 r2 -> gets (u8 v :: vs) r r2.

Definition exchange (bytes : list Z) (data : list Z) (st msg : Z) r r' : Prop := exists r1 r2 r3 r4 r5,
  selects 0x08 20000 r r1 /\ puts bytes r1 r2 /\ reg_write WREG_ICR 0 r2 = Some (tt, r3) /\ gets data r3 r4 /\
  pio_get r4 = Some (st, r5) /\ pio_get r5 = Some (msg, r').

(** A wanted exchange: the command, the length of the data, and the answer. *)
Definition Wanted : Type := list Z * nat * (list Z -> Z -> Z -> Prop).

Inductive session : list Wanted -> Rig D -> Rig D -> Prop :=
  | session_nil r : session [] r r
  | session_cons bytes (P : list Z -> Z -> Z -> Prop) ws data st msg r r1 r2 :
      exchange bytes data st msg r r1 -> P data st msg -> session ws r1 r2 ->
      session ((bytes, length data, P) :: ws) r r2.

Lemma put_all_puts bs : forall r r', put_all bs r = Some (true, r') -> puts bs r r'.
Proof.
  induction bs as [|b bs IH]; intros r r' E; cbn [put_all] in E; [injection E as <-; constructor|].
  apply bind_inv in E as ([] & r1 & E1 & E2); [|by injection E2]. econstructor; [exact E1|by apply IH].
Qed.

Lemma puts_put_all bs r r' : puts bs r r' -> put_all bs r = Some (true, r').
Proof. induction 1 as [|b bs r r1 r2 E _ IH]; [done|]. cbn [put_all]. by rewrite (bind_some _ _ _ _ _ E). Qed.

Lemma get_all_gets n : forall r l r', get_all n r = Some (Some l, r') -> gets l r r' /\ length l = n.
Proof.
  induction n as [|n IH]; intros r l r' E; cbn [get_all] in E; [injection E as <- <-; by split; [constructor|]|].
  apply bind_inv in E as (v & r1 & E1 & E). destruct (Z.ltb_spec v 0) as [|Hv]; [by injection E|].
  apply bind_inv in E as ([l1|] & r2 & E2 & E); [|by injection E]. injection E as <- <-.
  destruct (IH _ _ _ E2) as [Hg Hl]. split; [by econstructor|cbn; lia].
Qed.

Lemma gets_get_all l r r' : gets l r r' -> get_all (length l) r = Some (Some l, r').
Proof.
  induction 1 as [|v vs r r1 r2 E Hv _ IH]; [done|]. cbn [length get_all]. rewrite (bind_some _ _ _ _ _ E).
  destruct (Z.ltb_spec v 0); [lia|]. by rewrite (bind_some _ _ _ _ _ IH).
Qed.

Lemma select_selects r r' : select_cd r = Some (true, r') <-> selects 0x08 20000 r r'.
Proof.
  unfold select_cd. split.
  - intros E. apply bind_inv in E as ([] & r1 & E1 & E). apply bind_inv in E as ([] & r2 & E2 & E).
    apply bind_inv in E as ([] & r3 & E3 & E); [|by injection E]. cbn [negb] in E.
    apply bind_inv in E as ([] & r4 & E4 & E). injection E as <-. by exists r1, r2, r3.
  - intros (r1 & r2 & r3 & E1 & E2 & E3 & E4). rewrite (bind_some _ _ _ _ _ E1), (bind_some _ _ _ _ _ E2).
    rewrite (bind_some _ _ _ _ _ E3). cbn [negb]. by rewrite (bind_some _ _ _ _ _ E4).
Qed.

Lemma command_exchange bytes n l st msg r r' :
  cd_command bytes n r = Some (Some (l, st, msg), r') <-> exchange bytes l st msg r r' /\ length l = n.
Proof.
  unfold cd_command. split.
  - intros E. apply bind_inv in E as ([] & r1 & E1 & E); [|by injection E]. cbn [negb] in E.
    apply bind_inv in E as ([] & r2 & E2 & E); [|by injection E]. cbn [negb] in E.
    apply bind_inv in E as ([] & r3 & E3 & E). apply bind_inv in E as ([l'|] & r4 & E4 & E); [|by injection E].
    apply bind_inv in E as (st' & r5 & E5 & E). apply bind_inv in E as (msg' & r6 & E6 & E). injection E as <- <- <- <-.
    destruct (get_all_gets _ _ _ _ E4) as [Hg Hl]. split; [|done]. exists r1, r2, r3, r4, r5.
    apply select_selects in E1. by apply put_all_puts in E2.
  - intros ((r1 & r2 & r3 & r4 & r5 & E1 & E2 & E3 & E4 & E5 & E6) & <-).
    apply select_selects in E1. apply puts_put_all in E2. apply gets_get_all in E4.
    rewrite (bind_some _ _ _ _ _ E1). cbn [negb]. rewrite (bind_some _ _ _ _ _ E2). cbn [negb].
    rewrite (bind_some _ _ _ _ _ E3), (bind_some _ _ _ _ _ E4), (bind_some _ _ _ _ _ E5). by rewrite (bind_some _ _ _ _ _ E6).
Qed.

(** A test counts no failure exactly on the wanted answers. *)
Definition test_wants (t : CdTest) (w : Wanted) : Prop :=
  ct_bytes t = w.1.1 /\ ct_len t = w.1.2 /\
  forall g st msg, length g = ct_len t -> ct_check t g st msg = 0 <-> w.2 g st msg.

Lemma tests_session ts ws : Forall2 test_wants ts ws -> Forall counting ts ->
  forall fails r rc r', 0 <= fails -> run_tests ts fails r = Some (rc, r') ->
  rc = 0 <-> fails = 0 /\ session ws r r'.
Proof.
  induction 1 as [|t [[bytes n] P] ts ws (Hb & Hn & HP) _ IH]; intros Hct fails r rc r' Hf E; cbn [run_tests] in E.
  { injection E as <- <-. destruct (Z.eqb_spec fails 0) as [->|Hne]; [|by split; [|intros [? _]]].
    split; [intros _; split; [done|constructor]|done]. }
  inversion_clear Hct as [|? ? Hc Hct']. cbn [fst snd] in Hb, Hn, HP. subst bytes n.
  apply bind_inv in E as (o & r1 & Ec & E).
  assert (Hsess : session ((ct_bytes t, ct_len t, P) :: ws) r r' <->
    exists l st msg, o = Some (l, st, msg) /\ length l = ct_len t /\ P l st msg /\ session ws r1 r').
  { split.
    - intros Hs. remember ((ct_bytes t, ct_len t, P) :: ws) as l0 eqn:E0. remember r as r0 eqn:Er.
      destruct Hs as [|bytes P' ws' data st msg r0 r2 r3 Hex HPd Hs]; [done|]. injection E0 as -> Hlen -> ->. subst r0.
      pose proof (proj2 (command_exchange _ _ _ _ _ _ _) (conj Hex Hlen)) as E2.
      rewrite Ec in E2. injection E2 as -> ->. by exists data, st, msg.
    - intros (l & st & msg & -> & Hl & HPl & Hs). apply command_exchange in Ec as [Hex _].
      rewrite <- Hl. by econstructor. }
  rewrite Hsess. destruct o as [[[l st] msg]|].
  2: { injection E as <- <-. split; [done|]. by intros (_ & ? & ? & ? & ? & _). }
  apply command_exchange in Ec as [_ Hl]. cbn zeta in E. pose proof (Hc l st msg) as Hpos.
  assert (Hz := HP l st msg Hl).
  destruct (ct_abort t && negb (ct_check t l st msg =? 0)) eqn:Eab.
  { injection E as <- <-. apply andb_prop in Eab as [_ Hnz]. apply negb_true_iff, Z.eqb_neq in Hnz. split; [done|].
    intros (_ & l' & st' & msg' & [= <- <- <-] & _ & HPl & _). by destruct Hnz; apply Hz. }
  rewrite (IH Hct' (fails + ct_check t l st msg) r1 rc r' ltac:(lia) E). split.
  - intros [Hs1 Hs2]. split; [lia|]. exists l, st, msg. split_and!; try done. apply Hz. lia.
  - intros (-> & l' & st' & msg' & [= <- <- <-] & _ & HPl & Hs). split; [|done]. apply Hz in HPl. lia.
Qed.

End Sessions.

(** *** The gap commands

    Sub-channel formats 2 and 3, the header in its two forms, the sense data, the
    commands of twelve bytes, the capabilities page, an unknown command, and a play. *)

Definition done_well (st msg : Z) : Prop := st = 0 /\ msg = 0.

Definition gap_wanted : list Wanted := [
  ([0x42; 0x02; 0x40; 0x02; 0; 0; 0; 0; 24; 0], 24%nat, fun g st msg =>
     done_well st msg /\ g !! 3%nat = Some 20 /\ g !! 4%nat = Some 0x02);
  ([0x42; 0x02; 0x40; 0x03; 0; 0; 0x05; 0; 24; 0], 24%nat, fun g st msg =>
     done_well st msg /\ g !! 3%nat = Some 20 /\ g !! 4%nat = Some 0x03 /\ g !! 6%nat = Some 0x05);
  ([0x44; 0; 0; 0; 0x12; 0x34; 0; 0; 8; 0], 8%nat, fun g st msg =>
     done_well st msg /\ drop 4 g = [0; 0; 0x12; 0x34]);
  ([0x44; 0x02; 0; 0; 0; 0; 0; 0; 8; 0], 0%nat, fun _ st _ => st = 2);
  ([0x03; 0; 0; 0; 18; 0], 18%nat, fun g _ _ =>
     (exists b, g !! 2%nat = Some b /\ b `mod` 16 = 5) /\ g !! 12%nat = Some 0x24);
  ([0xA5; 0; 0; 0; 0; 0x64; 0; 0; 0; 0x0A; 0; 0], 0%nat, fun _ st msg => done_well st msg);
  ([0xBB; 0; 0x01; 0x76; 0x01; 0x76; 0; 0; 0; 0; 0; 0], 0%nat, fun _ st msg => done_well st msg);
  ([0x1A; 0; 0x2A; 0; 38; 0], 38%nat, fun g st msg =>
     done_well st msg /\ g !! 0%nat = Some 37 /\ g !! 12%nat = Some 0x2A /\ g !! 13%nat = Some 0x18 /\
     g !! 16%nat = Some 0x71 /\ g !! 19%nat = Some 0x03 /\ g !! 22%nat = Some 0x01 /\ g !! 23%nat = Some 0);
  ([0xAF; 0; 0; 0; 0; 0; 0; 0; 0; 0; 0; 0], 0%nat, fun _ st _ => st = 2);
  ([0x45; 0; 0; 0; 0; 0x64; 0; 0; 0x0A; 0], 0%nat, fun _ st msg => done_well st msg)].

Lemma byte_lookup g i v : (i < length g)%nat -> byte g i = v <-> g !! i = Some v.
Proof.
  intros Hi. unfold byte. destruct (lookup_lt_is_Some_2 g i Hi) as [b ->]. cbn. split; [by intros ->|by intros [= ->]].
Qed.

Lemma want_zero b : want b = 0 <-> b = true.
Proof. by destruct b. Qed.

Lemma want_sum b n : 0 <= n -> want b + n = 0 <-> b = true /\ n = 0.
Proof. intros Hn. destruct b; cbn; split; intros; try done; try lia; by destruct H. Qed.

Lemma good_well st msg : good_status st msg = true <-> done_well st msg.
Proof. unfold good_status, done_well. by rewrite andb_true_iff, !Z.eqb_eq. Qed.

Lemma eight_tail g : length g = 8%nat ->
  drop 4 g = [0; 0; 0x12; 0x34] <-> g !! 4%nat = Some 0 /\ g !! 5%nat = Some 0 /\ g !! 6%nat = Some 0x12 /\ g !! 7%nat = Some 0x34.
Proof.
  intros Hl. do 8 (destruct g as [|? g]; [done|]). destruct g; [|done]. cbn. split; [by intros [= -> -> -> ->]|].
  by intros ([= ->] & [= ->] & [= ->] & [= ->]).
Qed.

#[local] Ltac test_check :=
  split; [reflexivity|]; split; [reflexivity|]; intros g st msg Hlen; cbn [ct_check ct_len fst snd
    gap_f2 gap_f3 gap_hdr gap_msf gap_sns gap_p12 gap_speed gap_2a gap_unk gap_play] in *;
  rewrite <- ?Z.add_assoc;
  repeat first [rewrite want_sum by (first [apply want_nonneg | apply Z.add_nonneg_nonneg; apply want_nonneg]) | rewrite want_zero];
  rewrite ?andb_true_iff, ?good_well, ?Z.eqb_eq; rewrite ?byte_lookup by lia.

Lemma low_five b : Z.land b 0x0F = 5 <-> b `mod` 16 = 5.
Proof. change 0x0F with (Z.ones 4). by rewrite Z.land_ones. Qed.

Lemma gap_tests_want : Forall2 test_wants gap_tests gap_wanted.
Proof.
  repeat apply Forall2_cons_2; try apply Forall2_nil_2.
  all: test_check; try tauto.
  - rewrite eight_tail by done. tauto.
  - rewrite low_five. destruct (lookup_lt_is_Some_2 g 2%nat) as [b Hb]; [lia|]. unfold byte. rewrite Hb. cbn [default].
    split; [intros [Hm H12]; split; [by exists b|done]|]. by intros [(b' & [= <-] & Hm) H12].
Qed.

Lemma gap_counting : Forall counting gap_tests.
Proof. apply (Forall_app counting vol_tests gap_tests), all_counting. Qed.

(** Whatever the device does, the run of the gap commands ends with exit code 0 or 1:
    0 exactly if after the reset each command in turn was selected, taken, and answered
    with all the data, the status and the message that are wanted. *)
Theorem gapcmds_verdict {D} `{Dut D} (patience : Z) (r : Rig D) (Hok : rig_ok patience r) :
  exists rc r', run_gapcmds r = Some (rc, r') /\ (rc = 0 \/ rc = 1) /\
    (rc = 0 <-> exists r1, reset_dut 0 r = Some (tt, r1) /\ session gap_wanted r1 r').
Proof.
  destruct (ends_reset_tests patience gap_tests r Hok) as (rc & r' & n & E & _ & _ & _ & H01 & _).
  pose proof E as (u & r1 & E1 & E2)%bind_inv. destruct u. exists rc, r'. split; [exact E|]. split; [exact H01|].
  rewrite (tests_session _ _ gap_tests_want gap_counting 0 r1 rc r') by done. split.
  - intros [_ Hs]. by exists r1.
  - intros (r1' & E1' & Hs). rewrite E1 in E1'. by injection E1' as <-.
Qed.

(** ** A target that answers commands *)

(** A target with states [T].  [answer s bytes]: having received [bytes] since its
    selection it waits for more ([None]), or sends its reply, data, status and message,
    and goes to another state.  The rig is between commands ([free]), in a command that
    has received some bytes ([taking]), or in a reply of which some are left
    ([sending]). *)
Class Target (D : Type) `{Dut D} (T : Type) := {
  answer : T -> list Z -> option (list Z * T);
  boot : T;
  sane : Rig D -> Prop;
  free : T -> Rig D -> Prop;
  taking : T -> list Z -> Rig D -> Prop;
  sending : T -> list Z -> Rig D -> Prop;
  answer_bytes s l out s' : answer s l = Some (out, s') -> out <> [] /\ Forall (fun b => 0 <= b < 256) out;
  tg_reset slot r : sane r -> exists r', reset_dut slot r = Some (tt, r') /\ free boot r';
  tg_select s r : free s r -> exists r', select_cd r = Some (true, r') /\ taking s [] r';
  tg_put s l b r : taking s l r -> 0 <= b < 256 -> exists r', pio_put b r = Some (true, r') /\
    match answer s (l ++ [b]) with None => taking s (l ++ [b]) r' | Some (out, s') => sending s' out r' end;
  tg_quiet s l r : sending s l r -> exists r', reg_write WREG_ICR 0 r = Some (tt, r') /\ sending s l r';
  tg_get s b l r : sending s (b :: l) r -> exists r', pio_get r = Some (b, r') /\
    match l with [] => free s r' | _ :: _ => sending s l r' end;
  tg_stall s r : free s r -> exists r', pio_get r = Some (-1, r') /\ free s r' }.

(** *** What a run makes of the answers *)

(** The target takes all of a command before it answers. *)
Fixpoint cd_completes {T} (answer : T -> list Z -> option (list Z * T)) (s : T) (pre rest : list Z) : option (list Z * T) :=
  match rest with
  | [] => None
  | [b] => answer s (pre ++ [b])
  | b :: rest => match answer s (pre ++ [b]) with None => cd_completes answer s (pre ++ [b]) rest | Some _ => None end
  end.

(** The answers to the commands of the tests; [None] when one of them is cut short or
    not answered, or answered with more than was asked for. *)
Fixpoint answers {T} (answer : T -> list Z -> option (list Z * T)) (ts : list CdTest) (s : T) : option (list (list Z)) :=
  match ts with
  | [] => Some []
  | t :: ts =>
    '(out, s) ← cd_completes answer s [] (ct_bytes t);
    if (length out <=? ct_len t + 2)%nat then outs ← answers answer ts s; Some (out :: outs) else None
  end.

(** A reply is accepted: all its data are there and nothing in it is counted as a
    failure.  A missing status or message byte is read as -1. *)
Definition accepts (t : CdTest) (out : list Z) : Prop :=
  (ct_len t <= length out)%nat /\
  ct_check t (take (ct_len t) out) (default (-1) (out !! ct_len t)) (default (-1) (out !! S (ct_len t))) = 0.

Section Verdict.
Context {D T : Type} `{Target D T}.

Lemma put_all_completes rest : forall s pre out s' r,
  Forall (fun b => 0 <= b < 256) rest -> taking s pre r -> cd_completes answer s pre rest = Some (out, s') ->
  exists r', put_all rest r = Some (true, r') /\ sending s' out r'.
Proof.
  induction rest as [|b rest IH]; intros s pre out s' r Hb Hr Hc; [done|].
  inversion_clear Hb as [|? ? Hb0 Hbs].
  destruct (tg_put s pre b r Hr Hb0) as (r1 & E1 & H1). cbn [put_all]. rewrite (bind_some _ _ _ _ _ E1). cbn iota.
  destruct rest as [|b' rest]; cbn [cd_completes] in Hc.
  - rewrite Hc in H1. by exists r1.
  - destruct (answer s (pre ++ [b])) as [[out1 s1]|] eqn:Ea; [done|]. by apply (IH s (pre ++ [b])).
Qed.

(** The rig while [l] is left of a reply. *)
Definition replying (s : T) (l : list Z) (r : Rig D) : Prop := match l with [] => free s r | _ :: _ => sending s l r end.

Lemma get_replying s l r :
  replying s l r -> exists r', pio_get r = Some (default (-1) (head l), r') /\ replying s (tl l) r'.
Proof. destruct l as [|b l]; intros Hr; [by apply tg_stall|by apply tg_get]. Qed.

Lemma get_all_replying n : forall s l r,
  Forall (fun b => 0 <= b < 256) l -> replying s l r ->
  exists r', get_all n r = Some (if (n <=? length l)%nat then Some (take n l) else None, r') /\
             ((n <= length l)%nat -> replying s (drop n l) r').
Proof.
  induction n as [|n IH]; intros s l r Hl Hr; [by exists r|]. cbn [get_all].
  destruct (get_replying s l r Hr) as (r1 & E1 & Hr1). rewrite (bind_some _ _ _ _ _ E1).
  destruct l as [|b l]; cbn [head hd_error default tl length Nat.leb] in *.
  { change (-1 <? 0) with true. cbn iota. exists r1. split; [done|lia]. }
  inversion_clear Hl as [|? ? Hb Hl']. rewrite (proj2 (Z.ltb_ge _ _)) by apply Hb.
  destruct (IH s l r1 Hl' Hr1) as (r2 & E2 & Hr2). rewrite (bind_some _ _ _ _ _ E2).
  exists r2. split; [|intros Hn; apply Hr2; lia]. unfold ret.
  destruct (n <=? length l)%nat; [|done]. cbn [take firstn]. by rewrite (uwrap_small 8) by exact Hb.
Qed.

Lemma head_drop {A} n (l : list A) : head (drop n l) = l !! n.
Proof. revert l. induction n as [|n IH]; intros [|x l]; cbn; try done; apply IH. Qed.

Lemma tail_drop {A} n (l : list A) : tl (drop n l) = drop (1 + n) l.
Proof. revert l. induction n as [|n IH]; intros [|x l]; cbn; try done; apply (IH l). Qed.

Lemma completes_bytes bytes : forall s pre out s',
  cd_completes answer s pre bytes = Some (out, s') -> out <> [] /\ Forall (fun b => 0 <= b < 256) out.
Proof.
  induction bytes as [|b bytes IH]; intros s pre out s' Hc; [done|]. cbn [cd_completes] in Hc.
  destruct bytes as [|b' bytes]; [by eapply answer_bytes|].
  destruct (answer s (pre ++ [b])) as [[? ?]|]; [done|]. by apply (IH s (pre ++ [b]) out s').
Qed.

Lemma command_replies bytes n s out s' r :
  Forall (fun b => 0 <= b < 256) bytes -> free s r -> cd_completes answer s [] bytes = Some (out, s') ->
  (length out <= n + 2)%nat ->
  exists r', cd_command bytes n r =
      Some (if (n <=? length out)%nat
            then Some (take n out, default (-1) (out !! n), default (-1) (out !! (1 + n)%nat)) else None, r') /\
    ((n <= length out)%nat -> free s' r').
Proof.
  intros Hb Hr Hc Hn.
  destruct (completes_bytes bytes s [] out s' Hc) as [Hne Hob].
  unfold cd_command. destruct (tg_select s r Hr) as (r1 & E1 & Hr1). rewrite (bind_some _ _ _ _ _ E1). cbn [negb].
  destruct (put_all_completes bytes s [] out s' r1 Hb Hr1 Hc) as (r2 & E2 & Hr2).
  rewrite (bind_some _ _ _ _ _ E2). cbn [negb].
  destruct (tg_quiet s' out r2 Hr2) as (r3 & E3 & Hr3). rewrite (bind_some _ _ _ _ _ E3).
  assert (Hr3' : replying s' out r3) by (by destruct out).
  destruct (get_all_replying n s' out r3 Hob Hr3') as (r4 & E4 & Hr4). rewrite (bind_some _ _ _ _ _ E4).
  destruct (Nat.leb_spec n (length out)) as [Hle|Hgt]; [|by exists r4; split; [|lia]].
  destruct (get_replying s' _ r4 (Hr4 Hle)) as (r5 & E5 & Hr5). rewrite (bind_some _ _ _ _ _ E5).
  destruct (get_replying s' _ r5 Hr5) as (r6 & E6 & Hr6). rewrite (bind_some _ _ _ _ _ E6).
  rewrite !tail_drop, !head_drop in *. exists r6. split; [done|]. intros _.
  rewrite drop_ge in Hr6 by lia. exact Hr6.
Qed.

Lemma tests_answered ts : forall s outs fails r,
  Forall counting ts -> Forall (fun t => Forall (fun b => 0 <= b < 256) (ct_bytes t)) ts ->
  free s r -> 0 <= fails -> answers answer ts s = Some outs ->
  exists rc r', run_tests ts fails r = Some (rc, r') /\ (rc = 0 \/ rc = 1) /\
    (rc = 0 <-> fails = 0 /\ Forall2 accepts ts outs).
Proof.
  induction ts as [|t ts IH]; intros s outs fails r Hct Hcb Hr Hf Ha; cbn [run_tests answers] in *.
  { injection Ha as <-. eexists _, r. split; [reflexivity|].
    destruct (Z.eqb_spec fails 0); split; try tauto; [split; [by split|done]|split; [done|]].
    by intros [? _]. }
  inversion_clear Hct as [|? ? Hc Hct']. inversion_clear Hcb as [|? ? Hb Hcb'].
  destruct (cd_completes answer s [] (ct_bytes t)) as [[out s1]|] eqn:Ec; cbn [mbind option_bind] in Ha; [|done].
  destruct (Nat.leb_spec (length out) (ct_len t + 2)) as [Hlen|]; [|done].
  destruct (answers answer ts s1) as [outs1|] eqn:Ea; [|done]. injection Ha as <-.
  destruct (command_replies (ct_bytes t) (ct_len t) s out s1 r Hb Hr Ec Hlen) as (r1 & E1 & Hr1).
  rewrite (bind_some _ _ _ _ _ E1).
  destruct (Nat.leb_spec (ct_len t) (length out)) as [Hle|Hgt].
  2:{ exists 1, r1. split; [done|]. split; [by right|]. split; [done|]. intros [_ Hall].
      inversion_clear Hall as [|? ? ? ? [Hl _] _]. lia. }
  set (n := ct_check t _ _ _). assert (Hn : 0 <= n) by apply Hc. cbn zeta.
  destruct (ct_abort t && negb (n =? 0)) eqn:Eab.
  { apply andb_prop in Eab as [_ Hnz]. apply negb_true_iff, Z.eqb_neq in Hnz.
    exists 1, r1. split; [done|]. split; [by right|]. split; [done|]. intros [_ Hall].
    inversion_clear Hall as [|? ? ? ? [_ Hz] _]. by destruct Hnz. }
  destruct (IH s1 outs1 (fails + n) r1 Hct' Hcb' (Hr1 Hle) ltac:(lia) Ea) as (rc & r2 & E2 & H01 & Hrc).
  exists rc, r2. split; [exact E2|]. split; [exact H01|]. rewrite Hrc. split.
  - intros [Hs Hall]. split; [lia|]. constructor; [split; [done|]; change (n = 0); lia|done].
  - intros [-> Hall]. inversion_clear Hall as [|? ? ? ? [_ Hz] Hall']. change (n = 0) in Hz. rewrite Hz. by split.
Qed.

Lemma all_bytes : Forall (fun t => Forall (fun b => 0 <= b < 256) (ct_bytes t)) (vol_tests ++ gap_tests).
Proof. repeat constructor; lia. Qed.

(** On a target that takes every command and answers it with no more than was asked
    for, the run of the gap commands ends with exit code 0 exactly if each reply has
    all its data and is the one the test wants, and with 1 otherwise. *)
Theorem gapcmds_target (r : Rig D) (outs : list (list Z))
    (Hr : sane r) (Ha : answers answer gap_tests boot = Some outs) :
  exists rc r', run_gapcmds r = Some (rc, r') /\ (rc = 0 \/ rc = 1) /\ (rc = 0 <-> Forall2 accepts gap_tests outs).
Proof.
  destruct (tg_reset 0 r Hr) as (r1 & E1 & Hr1). unfold run_gapcmds. rewrite (bind_some _ _ _ _ _ E1).
  destruct (tests_answered gap_tests boot outs 0 r1) as (rc & r2 & E2 & H01 & Hrc);
    [apply (Forall_app counting vol_tests gap_tests), all_counting|apply (Forall_app _ vol_tests gap_tests), all_bytes|done..|].
  exists rc, r2. split; [exact E2|]. split; [exact H01|]. rewrite Hrc. tauto.
Qed.

Lemma answers_length ts : forall s outs,
  answers answer ts s = Some outs -> Forall2 (fun t out => (length out <= ct_len t + 2)%nat) ts outs.
Proof.
  induction ts as [|t ts IH]; intros s outs Ha; cbn [answers] in Ha; [by injection Ha as <-|].
  destruct (cd_completes answer s [] (ct_bytes t)) as [[out s1]|]; cbn [mbind option_bind] in Ha; [|done].
  destruct (Nat.leb_spec (length out) (ct_len t + 2)); [|done].
  destruct (answers answer ts s1) as [outs1|] eqn:E; [|done]. injection Ha as <-. constructor; [done|]. by eapply IH.
Qed.

Lemma wrong_tail_0 exp : forall i got,
  wrong_tail i exp got = 0 <-> forall k e, exp !! k = Some e -> byte got (i + k) = e.
Proof.
  induction exp as [|e exp IH]; intros i got; cbn [wrong_tail]; [split; [by intros _ [|k]|done]|].
  pose proof (want_nonneg (byte got i =? e)). pose proof (wrong_tail_nonneg exp (S i) got). split.
  - intros Hz [|k] e' He; cbn in He.
    + injection He as <-. rewrite Nat.add_0_r. apply Z.eqb_eq, want_zero. lia.
    + replace (i + S k)%nat with (S i + k)%nat by lia. apply (proj1 (IH (S i) got)); [lia|done].
  - intros Hall. rewrite (proj2 (IH (S i) got)).
    + rewrite (proj2 (want_zero _)); [done|]. apply Z.eqb_eq. rewrite <- (Nat.add_0_r i). by apply Hall.
    + intros k e' He. replace (S i + k)%nat with (i + S k)%nat by lia. by apply (Hall (S k)).
Qed.

Lemma accepts_select sel : (length sel <= 2)%nat -> accepts vol_select sel <-> sel = [0; 0].
Proof.
  intros Hl. unfold accepts. cbn [ct_len ct_check vol_select]. rewrite want_zero, good_well. unfold done_well. split; [|intros ->; cbn; lia].
  intros (_ & H1 & H2). destruct sel as [|a [|b [|c l]]]; cbn in *; try done; try lia. by subst.
Qed.

Lemma last_two (l : list Z) n : (length l <= n + 2)%nat ->
  default (-1) (l !! n) = 0 -> default (-1) (l !! S n) = 0 -> length l = (n + 2)%nat /\ drop n l = [0; 0].
Proof.
  intros Hl H1 H2. destruct (l !! S n) as [b|] eqn:E2; [|done]. destruct (l !! n) as [a|] eqn:E1; [|done].
  cbn in *. subst. pose proof (lookup_lt_Some _ _ _ E2). split; [lia|].
  rewrite (drop_S _ _ _ E1), (drop_S _ _ _ E2), drop_ge by lia. done.
Qed.

(** A page as it was written: length, page header, ports, status and message. *)
Definition page_echoed (sns : list Z) : Prop :=
  length sns = 30%nat /\ byte sns 0 = 27 /\ byte sns 12 = 0x0E /\ byte sns 13 = 0x0E /\
  take 8 (drop 20 sns) = drop 12 msel /\ drop 28 sns = [0; 0].

Lemma byte_take n l i : (i < n)%nat -> byte (take n l) i = byte l i.
Proof. intros Hi. unfold byte. by rewrite lookup_take_lt. Qed.

Lemma eight_bytes (l : list Z) : (28 <= length l)%nat ->
  take 8 (drop 20 l) = expect_tail <-> forall k e, expect_tail !! k = Some e -> byte l (20 + k) = e.
Proof.
  intros Hl. split.
  - intros E k e He. rewrite <- E in He. apply lookup_take_Some in He as [He _]. rewrite lookup_drop in He.
    unfold byte. by rewrite He.
  - intros Hall. apply list_eq_same_length with (n := 8%nat); [done|rewrite length_take, length_drop; lia|].
    intros k x y Hk Hx Hy. rewrite <- (Hall k y Hy). apply lookup_take_Some in Hx as [Hx _]. rewrite lookup_drop in Hx.
    unfold byte. by rewrite Hx.
Qed.

Lemma accepts_sense sns : (length sns <= 30)%nat -> accepts vol_sense sns <-> page_echoed sns.
Proof.
  intros Hl. unfold accepts, page_echoed. cbn [ct_len ct_check vol_sense]. change (drop 12 msel) with expect_tail.
  set (st := default (-1) (sns !! 28%nat)). set (msg := default (-1) (sns !! 29%nat)).
  rewrite !byte_take by lia.
  pose proof (want_nonneg (byte sns 0 =? 27)). pose proof (want_nonneg ((byte sns 12 =? 14) && (byte sns 13 =? 14))).
  pose proof (wrong_tail_nonneg expect_tail 20 (take 28 sns)). pose proof (want_nonneg (good_status st msg)).
  assert (Ht : wrong_tail 20 expect_tail (take 28 sns) = 0 <->
               forall k e, expect_tail !! k = Some e -> byte sns (20 + k) = e).
  { rewrite wrong_tail_0. split; intros Hall k e He; specialize (Hall k e He); apply lookup_lt_Some in He;
      cbn [length expect_tail] in He; first [rewrite byte_take in Hall by lia|rewrite byte_take by lia]; done. }
  split.
  - intros (Hn & Hz). assert (Hg : want (good_status st msg) = 0) by lia. apply want_zero, good_well in Hg as [Hst Hmsg].
    destruct (last_two sns 28 Hl Hst Hmsg) as [Hlen Hd]. split; [done|].
    assert (E0 : want (byte sns 0 =? 27) = 0) by lia. apply want_zero, Z.eqb_eq in E0.
    assert (E12 : want ((byte sns 12 =? 14) && (byte sns 13 =? 14)) = 0) by lia.
    apply want_zero, andb_prop in E12 as [E12 E13]. apply Z.eqb_eq in E12, E13.
    split_and!; try done. apply eight_bytes; [lia|]. apply Ht. lia.
  - intros (Hlen & E0 & E12 & E13 & E20 & E28). split; [lia|].
    rewrite eight_bytes in E20 by lia. rewrite (proj2 Ht E20), E0, E12, E13.
    assert (Es : sns !! 28%nat = Some 0) by (by rewrite <- (Nat.add_0_r 28), <- lookup_drop, E28).
    assert (Em : sns !! 29%nat = Some 0) by (change 29%nat with (28 + 1)%nat; by rewrite <- lookup_drop, E28).
    unfold st, msg. by rewrite Es, Em.
Qed.

(** And so does the run of the volume page: it passes exactly if the page was
    accepted and is read back with its header, its four ports and a good status. *)
Theorem cdvol_verdict (r : Rig D) (sel sns : list Z)
    (Hr : sane r) (Ha : answers answer vol_tests boot = Some [sel; sns]) :
  exists rc r', run_cdvol r = Some (rc, r') /\ (rc = 0 \/ rc = 1) /\
    (rc = 0 <-> sel = [0; 0] /\ page_echoed sns).
Proof.
  destruct (tg_reset 0 r Hr) as (r1 & E1 & Hr1). unfold run_cdvol. rewrite (bind_some _ _ _ _ _ E1).
  destruct (tests_answered vol_tests boot [sel; sns] 0 r1) as (rc & r2 & E2 & H01 & Hrc);
    [apply (Forall_app counting vol_tests gap_tests), all_counting|apply (Forall_app _ vol_tests gap_tests), all_bytes|done..|].
  exists rc, r2. split; [exact E2|]. split; [exact H01|]. rewrite Hrc.
  pose proof (answers_length _ _ _ Ha) as Hl. inversion_clear Hl as [|? ? ? ? Hl1 Hl']. inversion_clear Hl' as [|? ? ? ? Hl2 _].
  rewrite <- (accepts_select sel Hl1), <- (accepts_sense sns Hl2). split.
  - intros [_ Hall]. inversion_clear Hall as [|? ? ? ? Ha1 Hall']. inversion_clear Hall'. by split.
  - intros [Ha1 Ha2]. split; [done|]. by constructor; [|constructor; [|constructor]].
Qed.
End Verdict.

(** ** A target for the examples

    A small CD target behind the registers of the 5380: it keeps the page that was
    written, and refuses the command that is unknown. *)

Inductive Phase := Free | Taking (l : list Z) | Sending (l : list Z).

Record CdBus := MkCdBus { cd_phase : Phase; cd_page : list Z; cd_odr : Z; cd_ack : bool }.
Record CdDut := MkCdDut { cd_bus : CdBus; cd_rd : Z }.

Definition cdb_length (op : Z) : nat := if op <? 0x20 then 6 else if op <? 0xA0 then 10 else 12.

(** The reply to a whole command, and the page it leaves. *)
Definition cd_reply (page l : list Z) : list Z * list Z :=
  let op := byte l 0 in
  let good (data : list Z) := (data ++ [0; 0], page) in
  let zeros (n : nat) := replicate n 0 in
  if op =? 0x15 then ([0; 0], drop 18 l)
  else if (op =? 0x1A) && (byte l 2 =? 0x0E) then good (27 :: zeros 11%nat ++ [0x0E; 0x0E] ++ zeros 6%nat ++ page)
  else if op =? 0x1A then good (37 :: zeros 11%nat ++ [0x2A; 0x18; 0; 0; 0x71; 0; 0; 0x03; 0; 0; 0x01] ++ zeros 15%nat)
  else if op =? 0x42 then good ([0; 0; 0; 20; byte l 3; 0; byte l 6] ++ zeros 17%nat)
  else if op =? 0x44 then if Z.testbit (byte l 1) 1 then ([2; 0], page) else good [1; 0; 0; 0; 0; 0; byte l 4; byte l 5]
  else if op =? 0xAF then ([2; 0], page)
  else if op =? 0x03 then good ([0x70; 0; 5] ++ zeros 9%nat ++ [0x24] ++ zeros 5%nat)
  else good [].

Definition cd_answer (page l : list Z) : option (list Z * list Z) :=
  let data := if byte l 0 =? 0x15 then Z.to_nat (byte l 4) else O in
  if (5 <=? length l)%nat && (length l =? cdb_length (byte l 0) + data)%nat then let r := cd_reply page l in Some (map u8 r.1, r.2) else None.

(** A rising ACK takes the byte of the initiator, or the next byte of the reply. *)
Definition cd_edge (k : CdBus) : CdBus :=
  match cd_phase k with
  | Free => MkCdBus Free (cd_page k) (cd_odr k) true
  | Taking l =>
    let l := l ++ [cd_odr k] in
    match cd_answer (cd_page k) l with
    | None => MkCdBus (Taking l) (cd_page k) (cd_odr k) true
    | Some (out, page) => MkCdBus (Sending out) page (cd_odr k) true
    end
  | Sending l => MkCdBus (match tl l with [] => Free | l => Sending l end) (cd_page k) (cd_odr k) true
  end.

Definition cd_write (rs v : Z) (k : CdBus) : CdBus :=
  if rs =? WREG_ODR then MkCdBus (cd_phase k) (cd_page k) v (cd_ack k)
  else if rs =? WREG_ICR then
    if Z.testbit v 4 then if cd_ack k then k else cd_edge k
    else
      MkCdBus (match cd_phase k with Free => if Z.testbit v 2 && Z.testbit (cd_odr k) 3 then Taking [] else Free | p => p end)
        (cd_page k) (cd_odr k) false
  else k.

Definition cd_rise (b : BusPins) (k : CdBus) : CdBus :=
  if reset b then MkCdBus Free [] 0 false
  else if bus_cs b && iow b then cd_write (bus_rs b) (u8 (wdata b)) k else k.

Definition cd_read (rs : Z) (k : CdBus) : Z :=
  let busy := match cd_phase k with Free => false | _ => true end in
  if rs =? RREG_CSR then Z.lor (if busy then CSR_BSY else 0) (if busy && negb (cd_ack k) then CSR_REQ else 0)
  else match cd_phase k with Sending (b :: _) => b | _ => 0 end.

#[export] Instance Cd_dut : Dut CdDut := {|
  settle b _ k := MkCdDut (cd_bus k) (cd_read (bus_rs b) (cd_bus k));
  rise b _ k := MkCdDut (cd_rise b (cd_bus k)) (cd_rd k);
  fall _ _ k := k;
  dut_pins _ := MkCorePins 0 0 0 0 0 0 false false 0 0;
  rdata := cd_rd;
  dreq _ := false |}.

Definition cd_at (k : CdBus) (r : Rig CdDut) : Prop :=
  cd_bus (dut r) = k /\ st (hps (bench (world r))) = IDLE /\ 1 <= csr_patience r /\ reset (bus r) = false.

Definition cd_live (r : Rig CdDut) : Prop := 1 <= csr_patience r.

Lemma cd_clock r : st (hps (bench (world r))) = IDLE ->
  exists r', clock r = Some (tt, r') /\ cd_bus (dut r') = cd_rise (bus r) (cd_bus (dut r)) /\ bus r' = bus r /\
    st (hps (bench (world r'))) = IDLE /\ csr_patience r' = csr_patience r.
Proof.
  intros Hs. unfold clock, tick. cbn [core_pins Dut_core dut_pins Cd_dut]. unfold service. rewrite Hs.
  rewrite poll_disks_none by done. unfold poll_tb. cbn [tb_wr tb_rd]. rewrite !andb_false_r. cbn [mbind option_bind].
  eexists. split; [reflexivity|]. by repeat split.
Qed.

Lemma cd_clock_at k r : cd_at k r ->
  exists r', clock r = Some (tt, r') /\ cd_at (cd_rise (bus r) k) r' /\ bus r' = bus r.
Proof.
  intros (Hk & Hs & Hp & Hr). destruct (cd_clock r Hs) as (r' & E & Hd & Hb & Hs' & Hp'). exists r'.
  split; [exact E|]. split; [|done]. subst k. split_and!; try done; [by rewrite Hp'|by rewrite Hb].
Qed.

Lemma cd_write_twice rs v k : cd_write rs v (cd_write rs v k) = cd_write rs v k.
Proof.
  unfold cd_write. destruct (rs =? WREG_ODR); [done|]. destruct (rs =? WREG_ICR); [|done].
  destruct (Z.testbit v 4) eqn:E4.
  - destruct (cd_ack k) eqn:Ea; [by rewrite Ea|]. unfold cd_edge. destruct (cd_phase k) as [|l|l]; try done.
    by destruct (cd_answer _ _) as [[? ?]|].
  - cbn [cd_phase cd_odr]. destruct (cd_phase k); [|done..].
    by destruct (Z.testbit v 2 && Z.testbit (cd_odr k) 3) eqn:E; cbn; rewrite ?E.
Qed.

Lemma double_byte v : 0 <= v < 256 -> u8 (Z.lor (Z.shiftl (u8 v) 8) (u8 v)) = v.
Proof.
  intros Hv. rewrite (uwrap_small 8 v Hv), be_join by done. unfold uwrap. rewrite Z.add_comm, Z_mod_plus_full.
  by apply Z.mod_small.
Qed.

Lemma cd_idle (f : BusPins -> BusPins) k r :
  cd_at k r -> reset (f (bus r)) = false ->
  exists r', set_bus f r = Some (tt, r') /\ cd_at k r' /\ bus r' = f (bus r).
Proof. intros (? & ? & ? & ?) Hf. by eexists. Qed.

Lemma cd_release k r :
  cd_at k r -> exists r', bus_release r = Some (tt, r') /\ cd_at k r' /\ bus_cs (bus r') = false.
Proof. intros (? & ? & ? & ?). by eexists. Qed.

(** A clock with no write on the bus. *)
Lemma cd_clock_quiet k r :
  cd_at k r -> bus_cs (bus r) && iow (bus r) = false ->
  exists r', clock r = Some (tt, r') /\ cd_at k r' /\ bus r' = bus r.
Proof.
  intros Hk Hq. destruct (cd_clock_at k r Hk) as (r' & E & Hk' & Hb). exists r'. split; [exact E|]. split; [|done].
  replace (cd_rise (bus r) k) with k in Hk'; [done|]. unfold cd_rise. by rewrite Hq, (proj2 (proj2 (proj2 Hk))).
Qed.

Lemma cd_reg_write rs v k r :
  cd_at k r -> 0 <= v < 256 -> exists r', reg_write rs v r = Some (tt, r') /\ cd_at (cd_write rs v k) r'.
Proof.
  intros Hk Hv. unfold reg_write.
  edestruct (cd_idle (fun b => b <| bus_cs := true |> <| dack := false |> <| iow := true |> <| ior := false |>
    <| bus_rs := rs |> <| wdata := Z.lor (Z.shiftl (u8 v) 8) (u8 v) |>) k r Hk) as (r1 & E1 & H1 & B1); [apply Hk|].
  rewrite (bind_some _ _ _ _ _ E1).
  assert (Ew : forall j, cd_rise (bus r1) j = cd_write rs v j).
  { intros j. unfold cd_rise. rewrite (proj2 (proj2 (proj2 H1))), B1. cbn. by rewrite double_byte. }
  destruct (cd_clock_at k r1 H1) as (r2 & E2 & H2 & B2). rewrite (bind_some _ _ _ _ _ E2). rewrite Ew in H2.
  destruct (cd_clock_at _ r2 H2) as (r3 & E3 & H3 & B3). rewrite (bind_some _ _ _ _ _ E3).
  rewrite B2, Ew, cd_write_twice in H3. destruct (cd_release _ r3 H3) as (r4 & E4 & H4 & Q4).
  rewrite (bind_some _ _ _ _ _ E4). destruct (cd_clock_quiet _ r4 H4) as (r5 & E5 & H5 & _); [by rewrite Q4|].
  by exists r5.
Qed.

Lemma cd_reg_read rs k r :
  cd_at k r -> exists r', reg_read rs r = Some (u8 (Z.land (cd_read rs k) 0xff), r') /\ cd_at k r'.
Proof.
  intros Hk. unfold reg_read.
  edestruct (cd_idle (fun b => b <| bus_cs := true |> <| dack := false |> <| ior := true |> <| iow := false |>
    <| bus_rs := rs |>) k r Hk) as (r1 & E1 & H1 & B1); [apply Hk|].
  rewrite (bind_some _ _ _ _ _ E1), (bind_some eval _ _ _ _ eq_refl), (bind_some (get _) _ _ _ _ eq_refl).
  set (r2 := put_world _ r1). assert (H2 : cd_at k r2) by exact H1.
  assert (Ev : rdata (dut r2) = cd_read rs k).
  { change (rdata (dut r2)) with (cd_read (bus_rs (bus r1)) (cd_bus (dut r1))). by rewrite B1, (proj1 H1). }
  destruct (cd_clock_quiet k r2 H2) as (r3 & E3 & H3 & B3); [by change (bus r2) with (bus r1); rewrite B1|].
  rewrite (bind_some _ _ _ _ _ E3). destruct (cd_release _ r3 H3) as (r4 & E4 & H4 & Q4).
  rewrite (bind_some _ _ _ _ _ E4). destruct (cd_clock_quiet _ r4 H4) as (r5 & E5 & H5 & _); [by rewrite Q4|].
  rewrite (bind_some _ _ _ _ _ E5). exists r5. by rewrite Ev.
Qed.

(** What the initiator polls for is there at the first poll, or never. *)
Lemma cd_poll mask val n k r :
  cd_at k r -> Z.land (u8 (Z.land (cd_read RREG_CSR k) 0xff)) mask = val -> (1 <= n)%nat ->
  exists r', poll_csr mask val n r = Some (true, r') /\ cd_at k r'.
Proof.
  intros Hk Hv Hn. destruct n as [|n]; [lia|]. cbn [poll_csr].
  destruct (cd_reg_read RREG_CSR k r Hk) as (r1 & E1 & H1). rewrite (bind_some _ _ _ _ _ E1).
  rewrite Hv, Z.eqb_refl. by exists r1.
Qed.

Lemma cd_no_poll mask val n k : forall r,
  cd_at k r -> Z.land (u8 (Z.land (cd_read RREG_CSR k) 0xff)) mask <> val ->
  exists r', poll_csr mask val n r = Some (false, r') /\ cd_at k r'.
Proof.
  induction n as [|n IH]; intros r Hk Hv; cbn [poll_csr]; [by exists r|].
  destruct (cd_reg_read RREG_CSR k r Hk) as (r1 & E1 & H1). rewrite (bind_some _ _ _ _ _ E1).
  rewrite (proj2 (Z.eqb_neq _ _) Hv). by apply IH.
Qed.

Lemma cd_wait mask val k r :
  cd_at k r -> Z.land (u8 (Z.land (cd_read RREG_CSR k) 0xff)) mask = val ->
  forall n, exists r', wait_csr mask val n r = Some (true, r') /\ cd_at k r'.
Proof.
  intros Hk Hv n. unfold wait_csr. rewrite (bind_some (get _) _ _ _ _ eq_refl). apply cd_poll; [done..|].
  destruct Hk as (_ & _ & Hp & _). destruct (Z.leb_spec n 0); lia.
Qed.

Lemma cd_no_wait mask val k r :
  cd_at k r -> Z.land (u8 (Z.land (cd_read RREG_CSR k) 0xff)) mask <> val ->
  exists r', wait_csr mask val 0 r = Some (false, r') /\ cd_at k r'.
Proof. intros Hk Hv. unfold wait_csr. rewrite (bind_some (get _) _ _ _ _ eq_refl). by apply cd_no_poll. Qed.

Lemma cd_clocks_quiet n k : forall r,
  cd_at k r -> bus_cs (bus r) = false ->
  exists r', clocks n r = Some (tt, r') /\ cd_at k r' /\ bus r' = bus r.
Proof.
  induction n as [|n IH]; intros r Hk Hq; [by exists r|]. cbn [clocks].
  destruct (cd_clock_quiet k r Hk) as (r1 & E1 & H1 & B1); [by rewrite Hq|]. rewrite (bind_some _ _ _ _ _ E1).
  destruct (IH r1 H1) as (r2 & E2 & H2 & B2); [by rewrite B1|]. exists r2. by rewrite B2.
Qed.

Definition cd_booted : CdBus := MkCdBus Free [] 0 false.

Lemma cd_clocks_reset n : forall r,
  st (hps (bench (world r))) = IDLE -> reset (bus r) = true -> (n = 0%nat -> cd_bus (dut r) = cd_booted) ->
  exists r', clocks n r = Some (tt, r') /\ cd_bus (dut r') = cd_booted /\ st (hps (bench (world r'))) = IDLE /\
    csr_patience r' = csr_patience r /\ bus r' = bus r.
Proof.
  induction n as [|n IH]; intros r Hs Hr Hz; [exists r; split_and!; auto|]. cbn [clocks].
  destruct (cd_clock r Hs) as (r1 & E1 & D1 & B1 & S1 & P1). rewrite (bind_some _ _ _ _ _ E1).
  destruct (IH r1) as (r2 & E2 & D2 & S2 & P2 & B2); [done|by rewrite B1|intros _; rewrite D1; unfold cd_rise; by rewrite Hr|].
  exists r2. split_and!; congruence.
Qed.

Lemma cd_reset slot r :
  1 <= csr_patience r -> exists r', reset_dut slot r = Some (tt, r') /\ cd_at cd_booted r'.
Proof.
  intros Hp. unfold reset_dut.
  rewrite (bind_some bus_release _ _ _ _ eq_refl), (bind_some (set_bus _) _ _ _ _ eq_refl),
    (bind_some reset_hps _ _ _ _ eq_refl), (bind_some (set_bus _) _ _ _ _ eq_refl).
  match goal with |- context [bind (clocks 8) _ ?r0] => set (r1 := r0) end.
  destruct (cd_clocks_reset 8 r1) as (r2 & E2 & D2 & S2 & P2 & B2); [done..|]. rewrite (bind_some _ _ _ _ _ E2).
  rewrite (bind_some (set_bus _) _ _ _ _ eq_refl).
  match goal with |- context [bind (clocks 4) _ ?r0] => set (r3 := r0) end.
  assert (Hb3 : bus_cs (bus r3) = false) by (change (bus_cs (bus r2) = false); by rewrite B2).
  destruct (cd_clocks_quiet 4 cd_booted r3) as (r4 & E4 & H4 & B4); [split_and!|done|].
  { exact D2. } { exact S2. } { change (1 <= csr_patience r2). by rewrite P2. } { done. }
  rewrite (bind_some _ _ _ _ _ E4).
  edestruct (cd_idle (fun b => b <| img_size := 131072 |> <| img_mounted := Z.shiftl 1 slot |>) _ r4 H4)
    as (r5 & E5 & H5 & B5); [apply H4|]. rewrite (bind_some _ _ _ _ _ E5).
  assert (Hb5 : bus_cs (bus r5) = false) by (rewrite B5; change (bus_cs (bus r4) = false); by rewrite B4).
  destruct (cd_clock_quiet _ r5 H5) as (r6 & E6 & H6 & B6); [by rewrite Hb5|]. rewrite (bind_some _ _ _ _ _ E6).
  edestruct (cd_idle (fun b => b <| img_mounted := 0 |>) _ r6 H6) as (r7 & E7 & H7 & B7); [apply H6|].
  rewrite (bind_some _ _ _ _ _ E7).
  destruct (cd_clocks_quiet 4 _ r7 H7) as (r8 & E8 & H8 & _); [|exists r8; split; [exact E8|exact H8]].
  rewrite B7. change (bus_cs (bus r6) = false). by rewrite B6.
Qed.

Definition cd_free (p : list Z) (r : Rig CdDut) : Prop := exists o a, cd_at (MkCdBus Free p o a) r.
Definition cd_taking (p l : list Z) (r : Rig CdDut) : Prop := exists o, cd_at (MkCdBus (Taking l) p o false) r.
Definition cd_sending (p l : list Z) (r : Rig CdDut) : Prop :=
  Forall (fun b => 0 <= b < 256) l /\ exists o, cd_at (MkCdBus (Sending l) p o false) r.

Lemma cd_put p l b r :
  cd_taking p l r -> 0 <= b < 256 -> exists r', pio_put b r = Some (true, r') /\
  match cd_answer p (l ++ [b]) with None => cd_taking p (l ++ [b]) r' | Some (out, p') => cd_sending p' out r' end.
Proof.
  intros (o & Hk) Hb. unfold pio_put.
  edestruct (cd_wait CSR_REQ CSR_REQ _ r Hk) as (r1 & E1 & H1); [done|]. rewrite (bind_some _ _ _ _ _ E1). cbn [negb].
  destruct (cd_reg_write WREG_ODR b _ r1 H1 Hb) as (r2 & E2 & H2). rewrite (bind_some _ _ _ _ _ E2).
  destruct (cd_reg_write WREG_ICR 17 _ r2 H2) as (r3 & E3 & H3); [lia|].
  rewrite (bind_some (reg_write WREG_ICR _) _ _ _ _ E3). cbn in H3. unfold cd_edge in H3. cbn in H3.
  destruct (cd_answer p (l ++ [b])) as [[out p']|] eqn:Ea.
  + edestruct (cd_wait CSR_REQ 0 _ r3 H3) as (r4 & E4 & H4); [done|]. rewrite (bind_some _ _ _ _ _ E4). cbn [negb].
    destruct (cd_reg_write WREG_ICR 1 _ r4 H4) as (r5 & E5 & H5); [lia|].
    rewrite (bind_some (reg_write WREG_ICR _) _ _ _ _ E5). exists r5. split; [done|]. split; [|by exists b].
    unfold cd_answer in Ea. destruct (_ && _); [|done]. injection Ea as <- <-.
    apply Forall_forall. intros c (a & -> & _)%list_elem_of_fmap. by apply (uwrap_range 8).
  + edestruct (cd_wait CSR_REQ 0 _ r3 H3) as (r4 & E4 & H4); [done|]. rewrite (bind_some _ _ _ _ _ E4). cbn [negb].
    destruct (cd_reg_write WREG_ICR 1 _ r4 H4) as (r5 & E5 & H5); [lia|].
    rewrite (bind_some (reg_write WREG_ICR _) _ _ _ _ E5). exists r5. split; [done|]. by exists b.
Qed.

Lemma cd_get p b l r :
  cd_sending p (b :: l) r -> exists r', pio_get r = Some (b, r') /\
  match l with [] => cd_free p r' | _ :: _ => cd_sending p l r' end.
Proof.
  intros (Hl & o & Hk). inversion_clear Hl as [|? ? Hb Hl']. unfold pio_get.
  edestruct (cd_wait CSR_REQ CSR_REQ _ r Hk) as (r1 & E1 & H1); [done|]. rewrite (bind_some _ _ _ _ _ E1). cbn [negb].
  destruct (cd_reg_read RREG_CDR _ r1 H1) as (r2 & E2 & H2). rewrite (bind_some _ _ _ _ _ E2).
  destruct (cd_reg_write WREG_ICR 16 _ r2 H2) as (r3 & E3 & H3); [lia|].
  rewrite (bind_some (reg_write WREG_ICR _) _ _ _ _ E3). cbn in H3.
  assert (Ev : u8 (Z.land (cd_read RREG_CDR (MkCdBus (Sending (b :: l)) p o false)) 0xff) = b).
  { cbn. rewrite land_255, Z.mod_small by done. by apply uwrap_small. }
  edestruct (cd_wait CSR_REQ 0 _ r3 H3) as (r4 & E4 & H4); [by destruct l|]. rewrite (bind_some _ _ _ _ _ E4). cbn [negb].
  destruct (cd_reg_write WREG_ICR 0 _ r4 H4) as (r5 & E5 & H5); [lia|].
  rewrite (bind_some (reg_write WREG_ICR _) _ _ _ _ E5). exists r5. rewrite Ev. split; [done|].
  destruct l as [|c l]; [exists o, false; exact H5|]. split; [done|]. exists o. exact H5.
Qed.

#[export] Instance Cd_target : Target CdDut (list Z).
Proof.
  refine {| answer := cd_answer; boot := []; sane r := 1 <= csr_patience r;
    free := cd_free; taking := cd_taking; sending := cd_sending |}.
  - intros p l out p'. unfold cd_answer. destruct (_ && _); [|done]. intros [= <- <-]. split.
    + unfold cd_reply. repeat case_match; cbn; done.
    + apply Forall_forall. intros b (a & -> & _)%list_elem_of_fmap. by apply (uwrap_range 8).
  - intros slot r Hp. destruct (cd_reset slot r Hp) as (r' & E & H'). exists r'. split; [exact E|]. by exists 0, false.
  - intros p r (o & a & Hk). unfold select_cd.
    destruct (cd_reg_write WREG_ODR 8 _ r Hk) as (r1 & E1 & H1); [lia|].
    rewrite (bind_some (reg_write WREG_ODR _) _ _ _ _ E1).
    destruct (cd_reg_write WREG_ICR 5 _ r1 H1) as (r2 & E2 & H2); [lia|].
    rewrite (bind_some (reg_write WREG_ICR _) _ _ _ _ E2).
    edestruct (cd_wait CSR_BSY CSR_BSY _ r2 H2) as (r3 & E3 & H3); [done|]. rewrite (bind_some _ _ _ _ _ E3). cbn [negb].
    destruct (cd_reg_write WREG_ICR 1 _ r3 H3) as (r4 & E4 & H4); [lia|].
    rewrite (bind_some (reg_write WREG_ICR _) _ _ _ _ E4). exists r4. split; [done|]. by exists 8.
  - exact cd_put.
  - intros p l r (Hl & o & Hk). destruct (cd_reg_write WREG_ICR 0 _ r Hk) as (r1 & E1 & H1); [lia|].
    exists r1. split; [exact E1|]. split; [done|]. by exists o.
  - exact cd_get.
  - intros p r (o & a & Hk). unfold pio_get.
    edestruct (cd_no_wait CSR_REQ CSR_REQ _ r Hk) as (r1 & E1 & H1); [done|]. rewrite (bind_some _ _ _ _ _ E1).
    exists r1. split; [done|]. by exists o, a.
Defined.

(** ** Examples *)

Definition cd_rig : Rig CdDut :=
  MkRig (MkWorld (MkCdDut (MkCdBus Free [] 0 false) 0, MkBusPins false false false false 0 0 false false false false 0 0 false)
    (MkBench (Hps_reset Config_new Hps_new) Pins_zero (TbHps_new [])) 0) Config_new 50000 0.

Lemma cd_rig_ok : rig_ok 50000 cd_rig.
Proof.
  split; [unfold settings_ok, int; cbn; lia|]. split; [|by split; [|cbn; lia]]. split; [done|].
  split; [unfold int; cbn; lia|]. split; [|done]. split; [done|cbn; lia].
Qed.

Lemma cd_runs_end_witness :
  ends_in 50000 (17 + tests_bound 50000 vol_tests) run_cdvol cd_rig cd_verdict /\
  ends_in 50000 (17 + tests_bound 50000 gap_tests) run_gapcmds cd_rig cd_verdict.
Proof.
  apply (cd_runs_end 50000 cd_rig cd_rig_ok).
Defined.

(** The target of the examples keeps the page, and answers every gap command. *)
Lemma cdvol_verdict_witness : exists r', run_cdvol cd_rig = Some (0, r').
Proof.
  edestruct (cdvol_verdict cd_rig) as (rc & r' & E & _ & Hrc); [cbn; lia|by vm_compute|].
  exists r'. rewrite E. rewrite (proj2 Hrc); [reflexivity|]. clear E Hrc. vm_compute. repeat split.
Defined.

Lemma gapcmds_target_passes : exists r', run_gapcmds cd_rig = Some (0, r').
Proof.
  edestruct (gapcmds_target cd_rig) as (rc & r' & E & _ & Hrc); [cbn; lia|by vm_compute|].
  exists r'. rewrite E. rewrite (proj2 Hrc); [reflexivity|]. clear E Hrc. repeat constructor; vm_compute; lia.
Qed.

(** So the run on it is a session of nothing but wanted exchanges. *)
Lemma gapcmds_verdict_witness :
  exists r1 r', reset_dut 0 cd_rig = Some (tt, r1) /\ session gap_wanted r1 r'.
Proof.
  destruct (gapcmds_verdict 50000 cd_rig cd_rig_ok) as (rc & r' & E & _ & Hrc).
  destruct gapcmds_target_passes as [r2 E2].
  assert (H0 : rc = 0) by (rewrite E in E2; by injection E2).
  destruct (proj1 Hrc H0) as (r1 & E1 & Hs). exists r1, r'. exact (conj E1 Hs).
Defined.
