(* ===== verification/ScsiTb.v ===== *)
(** * The Toolbox runs of the SCSI bench (scsi_bench.cpp)

    The bench as a client of the Toolbox service: it lists the shared folder, uploads
    files in blocks, in chunks of 8 and of 127 blocks and with a short last transfer, and
    fetches files ([run_toolbox]); it does so under a host that holds its acknowledge
    ([run_toolbox_wdog]), answers late ([run_toolbox_slow]), or looks late at a request
    ([run_toolbox_get], [run_toolbox_send]).  A part of a run that ends it with [return 1]
    is [None]; the texts that are printed, and the search for the origin of wrong bytes
    ([tb_get_diag]), are left out.

    The theorems: the service that gets the blocks of an upload, in chunks or in single
    blocks, holds the file, and the checks of the uploads accept it and no other
    ([upload_accepted]); the run of eight parts returns 0 exactly if each of them is a
    series of commands that work and every transfer is exact ([toolbox_passes], against
    the list [toolbox_session]); every run leaves the switches of the host off and the
    patience of the initiator as it was ([runs_restore]). *)

From S2P Require Import Prelude Toolbox ScsiHps ScsiRuns ScsiCd.

(** ** Data *)

Definition CSR_IO : Z := 0x04.

Definition chars (s : String.string) : list Z := (fun c => Z.of_N (Ascii.N_of_ascii c)) <$> String.list_ascii_of_string s.

(** [for (i = 0; i < n; i++) l[i] = ramp(base + i * k);] *)
Definition ramps (base k : Z) (n : nat) : list Z := (fun i => ramp (base + Z.of_nat i * k)) <$> seq 0 n.

(** The bytes that differ, up to the end of the shorter list. *)
Fixpoint bad_bytes (got want : list Z) : Z :=
  match got, want with
  | g :: got, w :: want => (if g =? w then 0 else 1) + bad_bytes got want
  | _, _ => 0
  end.

(** [if (b) fails++] *)
Definition one_if (b : bool) : Z := if b then 1 else 0.

(** The bytes of a command. *)
Definition cdb10 (op b1 b2 b3 b4 b5 b6 : Z) : list Z := [op; b1; b2; b3; b4; b5; b6; 0; 0; 0].
Definition op10 (op : Z) : list Z := cdb10 op 0 0 0 0 0 0.

(** The block number of a SEND DATA. *)
Definition data_cdb (b1 b2 blk b6 : Z) : list Z :=
  cdb10 0xD4 b1 b2 (u8 (Z.shiftr blk 16)) (u8 (Z.shiftr blk 8)) (u8 blk) b6.

(** [uint8_t name[33] = {}; memcpy(name, ...);] *)
Definition name_bytes (s : String.string) : list Z := pad 33 (chars s).

(** [memset(chunk, 0xFF, n); memcpy(chunk, l, valid);] *)
Definition fill_ff (n : nat) (l : list Z) : list Z := l ++ replicate (n - length l) 0xFF.

(** The loop of an upload in chunks of up to [max] blocks: commands and payloads. *)
Fixpoint send_chunks (fuel : nat) (max : Z) (src : list Z) (blk : Z) : list (list Z * list Z) :=
  let SRC := Z.of_nat (length src) in
  if blk * 512 <? SRC then
    match fuel with
    | O => []
    | S fuel =>
      let left := SRC - blk * 512 in
      let blocks := (left + 511) / 512 in
      let blocks := if max <? blocks then max else blocks in
      let bytes := blocks * 512 in
      let valid := if left <? bytes then left else bytes in
      let chunk := fill_ff (Z.to_nat bytes) (take (Z.to_nat valid) (drop (Z.to_nat (blk * 512)) src)) in
      (data_cdb 0 0 blk (u8 blocks), chunk) :: send_chunks fuel max src (blk + blocks)
    end
  else [].

(** The loop of an upload in single blocks: the number of valid bytes is given for the
    last one.  Commands and valid bytes. *)
Fixpoint send_blocks (fuel : nat) (src : list Z) (blk : Z) : list (list Z * list Z) :=
  let SRC := Z.of_nat (length src) in
  if blk * 512 <? SRC then
    match fuel with
    | O => []
    | S fuel =>
      let valid := SRC - blk * 512 in
      let valid := if 512 <? valid then 512 else valid in
      let cdb := if valid =? 512 then data_cdb 0 0 blk 1 else data_cdb (u8 (Z.shiftr valid 8)) (u8 valid) blk 0 in
      (cdb, take (Z.to_nat valid) (drop (Z.to_nat (blk * 512)) src)) :: send_blocks fuel src (blk + 1)
    end
  else [].

(** The whole uploads: a chunk has at least one block. *)
Definition chunks (max : Z) (src : list Z) : list (list Z * list Z) := send_chunks (length src) max src 0.
Definition blocks (src : list Z) : list (list Z * list Z) := send_blocks (length src) src 0.

(** The checks of an upload. *)
Definition exact_upload (src up : list Z) : Z :=
  one_if (negb (length up =? length src)%nat) + one_if (negb (bad_bytes up src =? 0)).
Definition padded_upload (src up : list Z) : Z :=
  if (length up <? length src)%nat then 1 else one_if (negb (bad_bytes up src =? 0)).

(** The check of a response: what the host staged, then what arrived. *)
Definition exact_response (want : nat) (staged got ref : list Z) : Z :=
  if negb (length staged =? want)%nat then 1 else one_if (negb (bad_bytes got ref =? 0)).

(** ** Commands *)

Section Runs.
Context {D : Type} `{Dut D}.

Abbreviation M := (M D).

Definition put_bench (f : Bench -> Bench) : M unit := fun r =>
  let w := world r in Some (tt, put_world (MkWorld (core w) (f (bench w)) (cyc w)) r).
Definition set_tbx (f : TbHps -> TbHps) : M unit := put_bench (fun b => MkBench (hps b) (pins b) (f (tbx b))).
Definition set_hps (f : Hps -> Hps) : M unit := put_bench (fun b => MkBench (f (hps b)) (pins b) (tbx b)).
Definition set_config (f : Config -> Config) : M unit := fun r =>
  Some (tt, MkRig (world r) (f (config r)) (csr_patience r) (lcg_state r)).
Definition set_patience (p : Z) : M unit := fun r => Some (tt, MkRig (world r) (config r) p (lcg_state r)).
Definition get_tbx {A} (f : TbHps -> A) : M A := get (fun r => f (tbx (bench (world r)))).
Definition get_hps {A} (f : Hps -> A) : M A := get (fun r => f (hps (bench (world r)))).

Definition tb_select : M bool :=
  reg_write WREG_ODR 0x01 ;;
  reg_write WREG_ICR (Z.lor ICR_DATA ICR_SEL) ;;
  ok <- wait_csr CSR_BSY CSR_BSY 0 ;;
  if negb ok then ret false else reg_write WREG_ICR ICR_DATA ;; ret true.

(** The status, -1 on a stall, and the bytes that were read. *)
Definition tb_cmd (cdb payload : list Z) (dinlen : nat) : M (Z * list Z) :=
  ok <- tb_select ;;
  if negb ok then ret (-1, [])
  else
    ok <- put_all cdb ;;
    if negb ok then ret (-1, [])
    else
      ok <- put_all payload ;;
      if negb ok then ret (-1, [])
      else
        reg_write WREG_ICR 0 ;;
        l <- get_all dinlen ;;
        match l with
        | None => ret (-1, [])
        | Some l => st <- pio_get ;; msg <- pio_get ;; ret (if negb (msg =? 0) then (-1, []) else (st, l))
        end.

(** A part of a run: [None] is [return 1]. *)
Definition try {A B} (m : M (option A)) (f : A -> M (option B)) : M (option B) :=
  o <- m ;; match o with Some a => f a | None => ret None end.

(** [if (st != 0x00) return 1;] *)
Definition must (cdb payload : list Z) (dinlen : nat) : M (option (list Z)) :=
  r <- tb_cmd cdb payload dinlen ;; ret (if r.1 =? 0 then Some r.2 else None).

Fixpoint must_all (cmds : list (list Z * list Z)) : M (option unit) :=
  match cmds with
  | [] => ret (Some tt)
  | c :: cmds => try (must c.1 c.2 0) (fun _ => must_all cmds)
  end.

(** [for (int i = 0; i < n; i++) fails += ...], a run of tests that goes on. *)
Fixpoint sum_all {A} (l : list A) (f : A -> M Z) : M Z :=
  match l with [] => ret 0 | a :: l => n <- f a ;; m <- sum_all l f ;; ret (n + m) end.

(** The start of a run. *)
Definition tb_start : M unit :=
  reset_dut 0 ;; set_tbx TbHps_reset ;; set_bus (fun b => b <| tb_mounted := true |>) ;; clocks 8.

(** [run_toolbox], part by part. *)

Definition digits2 (i : nat) : list Z := [48 + Z.of_nat i / 10; 48 + Z.of_nat i `mod` 10].

Definition small_file (i : nat) : TbFile :=
  MkTbFile (chars "file_"%string ++ digits2 i ++ chars ".bin"%string) (replicate (i * 37) (u8 (Z.of_nat i))).

Definition shared_folder : list TbFile :=
  (small_file <$> seq 0 13) ++ [MkTbFile (chars "big.bin"%string) (ramps 0x50000 1 (9 * 1000))].

Definition tb_count : M (option Z) :=
  try (must (op10 0xD2) [] 1) (fun din =>
  n <- get_tbx (fun t => Z.of_nat (length (files t))) ;; ret (Some (one_if (negb (byte din 0 =? n))))).

Definition tb_list : M (option Z) :=
  want <- get_tbx (fun t => (length (files t) * 40)%nat) ;;
  try (must (op10 0xD0) [] want) (fun din =>
  staged <- get_tbx resp ;; ret (Some (exact_response want staged din staged))).

(** The preparation, the chunks and the end of an upload. *)
Definition tb_send (name : String.string) (cmds : list (list Z * list Z)) : M (option unit) :=
  try (must (op10 0xD3) (name_bytes name) 0) (fun _ =>
  try (must_all cmds) (fun _ =>
  try (must (op10 0xD5) [] 0) (fun _ => ret (Some tt)))).

Definition tb_send_blocks : M (option Z) :=
  let src := ramps 0x90000 1 1408 in
  try (tb_send "upload.bin"%string ((fun c => (c.1, fill_ff 512 c.2)) <$> blocks src)) (fun _ =>
  up <- get_tbx upload ;; ret (Some (exact_upload src up))).

Definition tb_send_large : M (option Z) :=
  let src := ramps 0xC5000 1 (4096 * 2 + 1536) in
  try (tb_send "large.bin"%string (chunks 8 src)) (fun _ =>
  up <- get_tbx upload ;; ret (Some (padded_upload src up))).

Definition tb_send_huge : M (option Z) :=
  let src := ramps 0x2A000 7 (127 * 512 * 2 + 4096 + 300) in
  try (tb_send "huge.bin"%string (chunks 127 src)) (fun _ =>
  up <- get_tbx upload ;; ret (Some (padded_upload src up))).

Definition tb_get_big : M (option Z) :=
  let fdat := ramps 0x71000 3 (128 * 512) in
  set_tbx (fun t => t <| files ::= (fun fs => fs ++ [MkTbFile (chars "big.get"%string) fdat]) |>) ;;
  idx <- get_tbx (fun t => Z.of_nat (length (files t)) - 1) ;;
  try (must (cdb10 0xD1 (u8 idx) 0 0 0 0 16) [] (128 * 512)%nat) (fun din =>
  staged <- get_tbx resp ;; ret (Some (exact_response (128 * 512) staged din fdat))).

(** A chunk of which only the valid bytes are sent: the target closes the phase. *)
Definition tb_short_chunk (c : list Z * list Z) : M (option Z) :=
  ok <- tb_select ;;
  if negb ok then ret None
  else
    ok <- put_all c.1 ;;
    if negb ok then ret None
    else
      ok <- put_all c.2 ;;
      if negb ok then ret None
      else
        reg_write WREG_ICR 0 ;;
        ok <- wait_csr CSR_IO CSR_IO 200000 ;;
        if negb ok then ret None
        else s2 <- pio_get ;; m2 <- pio_get ;; ret (Some (one_if (negb (s2 =? 0) || negb (m2 =? 0)))).

Fixpoint tb_short_chunks (cmds : list (list Z * list Z)) : M (option Z) :=
  match cmds with
  | [] => ret (Some 0)
  | c :: cmds => try (tb_short_chunk c) (fun n => try (tb_short_chunks cmds) (fun m => ret (Some (n + m))))
  end.

Definition tb_send_short : M (option Z) :=
  let src := ramps 0xA1000 1 700 in
  try (must (op10 0xD3) (name_bytes "short.bin"%string) 0) (fun _ =>
  try (tb_short_chunks (blocks src)) (fun n =>
  st <- tb_cmd (op10 0xD5) [] 0 ;;
  up <- get_tbx upload ;;
  ret (Some (n + one_if (negb (st.1 =? 0)) + one_if (negb (length up =? length src)%nat || negb (bad_bytes up src =? 0)))))).

Definition tb_get_4096 : M (option Z) :=
  try (must (cdb10 0xD1 13 0 0 0 0 1) [] 4096) (fun din =>
  staged <- get_tbx resp ;; ret (Some (exact_response 4096 staged din staged))).

(** The parts in order, until one of them ends the run. *)
Fixpoint all_parts (parts : list (M (option Z))) (fails : Z) : M Z :=
  match parts with
  | [] => ret (one_if (negb (fails =? 0)))
  | p :: parts => o <- p ;; match o with Some n => all_parts parts (fails + n) | None => ret 1 end
  end.

Definition toolbox_parts : list (M (option Z)) :=
  [tb_count; tb_list; tb_send_blocks; tb_send_large; tb_send_huge; tb_get_big; tb_send_short; tb_get_4096].

Definition run_toolbox : M Z :=
  tb_start ;; set_tbx (fun t => t <| files := shared_folder |>) ;; all_parts toolbox_parts 0.

(** The switches of the host. *)
Definition with_ack_hold (v : Z) (c : Config) : Config :=
  MkConfig (latency c) (tb_slow_every c) (tb_slow_latency c) (tb_defer_every c) (tb_defer_latency c)
    (tb_wdefer_every c) (tb_wdefer_latency c) v.
Definition with_slow (every lat : Z) (c : Config) : Config :=
  MkConfig (latency c) every lat (tb_defer_every c) (tb_defer_latency c)
    (tb_wdefer_every c) (tb_wdefer_latency c) (tb_ack_hold c).
Definition with_defer (every lat : Z) (c : Config) : Config :=
  MkConfig (latency c) (tb_slow_every c) (tb_slow_latency c) every lat
    (tb_wdefer_every c) (tb_wdefer_latency c) (tb_ack_hold c).
Definition with_wdefer (every lat : Z) (c : Config) : Config :=
  MkConfig (latency c) (tb_slow_every c) (tb_slow_latency c) (tb_defer_every c) (tb_defer_latency c)
    every lat (tb_ack_hold c).

(** A probe: its result never counts. *)
Definition run_toolbox_wdog : M Z :=
  saved_patience <- get csr_patience ;;
  set_config (with_ack_hold 300000) ;;
  set_patience 3000000 ;;
  run_toolbox ;;
  set_config (with_ack_hold 0) ;;
  set_patience saved_patience ;;
  ret 0.

(** [fails++] when the status is not 0. *)
Definition status_fails (cdb payload : list Z) : M Z :=
  r <- tb_cmd cdb payload 0 ;; ret (one_if (negb (r.1 =? 0))).

(** The file fetched from a host that is late: -1, or the number of wrong bytes. *)
Definition slow_get : M Z :=
  set_tbx (fun t => t <| files ::= (fun fs => fs ++ [MkTbFile (chars "big.bin"%string) (ramps 0xD0000 1 4096)]) |>) ;;
  r <- tb_cmd (cdb10 0xD1 1 0 0 0 0 1) [] 4096 ;;
  staged <- get_tbx resp ;;
  ret (if negb (r.1 =? 0) || negb (length staged =? 4096)%nat then -1 else bad_bytes r.2 staged).

Definition run_toolbox_slow : M Z :=
  tb_start ;;
  set_tbx (fun t => t <| files := [MkTbFile (chars "seed.bin"%string) (replicate 16 0x5A)] |>) ;;
  set_hps (fun h => h <| tb_reads := 0 |>) ;;
  set_config (with_slow 3 786432) ;;
  saved_patience <- get csr_patience ;;
  set_patience 3000000 ;;
  let src := ramps 0xC0000 1 (512 * 6) in
  f1 <- status_fails (op10 0xD3) (name_bytes "stall.bin"%string) ;;
  f2 <- sum_all (seq 0 6) (fun blk =>
    status_fails (data_cdb 0 0 (Z.of_nat blk) 1) (take 512 (drop (blk * 512) src))) ;;
  f3 <- status_fails (op10 0xD5) [] ;;
  up <- get_tbx upload ;;
  let f4 := exact_response (length src) up up src in
  gap_bad <- slow_get ;;
  let fails := f1 + f2 + f3 + f4 + one_if (negb (gap_bad =? 0)) in
  set_config (fun c => with_slow 0 (tb_slow_latency c) c) ;;
  set_patience saved_patience ;;
  ret (one_if (negb (fails =? 0))).

Definition get_name : list Z := chars "rt.bin"%string.
Definition FSZ : nat := 512 * 512.
Definition get_data : list Z := ramps 0x3B0000 1 FSZ.

(** One fetch, in units of 4096 bytes, and its comparison with the file: the bytes wanted,
    those that arrived, and whether the fetch passes. *)
Definition get_want (blocks4k off4k : Z) : list Z :=
  let base := off4k * 4096 in
  let want := blocks4k * 4096 in
  let want := if Z.of_nat FSZ <? base + want then Z.of_nat FSZ - base else want in
  take (Z.to_nat want) (drop (Z.to_nat base) get_data).

Definition get_chunk (blocks4k off4k : Z) : M bool :=
  let want := get_want blocks4k off4k in
  r <- tb_cmd (cdb10 0xD1 0 (u8 (Z.shiftr off4k 24)) (u8 (Z.shiftr off4k 16)) (u8 (Z.shiftr off4k 8)) (u8 off4k)
                (u8 blocks4k)) [] (length want) ;;
  ret ((r.1 =? 0) && (bad_bytes r.2 want =? 0)).

Definition chunk_fails (blocks4k off4k : Z) : M Z := ok <- get_chunk blocks4k off4k ;; ret (one_if (negb ok)).

Definition run_toolbox_get : M Z :=
  tb_start ;;
  set_tbx (fun t => t <| files := [MkTbFile get_name get_data] |>) ;;
  saved_patience <- get csr_patience ;;
  set_patience 1000000 ;;
  a <- sum_all (seqZ 0 6) (fun k => chunk_fails 8 (k * 8)) ;;
  a64 <- chunk_fails 16 48 ;;
  set_hps (fun h => h <| tb_reads := 0 |> <| tb_defers := 0 |>) ;;
  set_config (with_defer 23 400000) ;;
  b <- sum_all (seqZ 0 4) (fun k => chunk_fails 8 (k * 8)) ;;
  set_config (fun c => with_defer 0 (tb_defer_latency c) c) ;;
  defers <- get_hps tb_defers ;;
  let fails := a + a64 + (b + one_if (defers <? 5)) in
  set_patience saved_patience ;;
  ret (one_if (negb (fails =? 0))).

(** The size of the file of [run_toolbox_send]. *)
Definition SEND_SRC : nat := 127 * 512 * 2 + 4096 + 300.

Definition send_src (SRC : nat) : list Z := ramps 0x4C0000 1 SRC.

Definition tb_send_file (name : String.string) (SRC : nat) : M bool :=
  let src := send_src SRC in
  o <- tb_send name (chunks 127 src) ;;
  match o with
  | None => ret false
  | Some _ => up <- get_tbx upload ;; ret (padded_upload src up =? 0)
  end.

Definition run_toolbox_send : M Z :=
  tb_start ;;
  set_tbx (fun t => t <| files := [] |>) ;;
  saved_patience <- get csr_patience ;;
  set_patience 1000000 ;;
  a <- tb_send_file "fast.bin"%string SEND_SRC ;;
  set_tbx TbHps_reset ;;
  set_hps (fun h => h <| tb_writes := 0 |> <| tb_wdefers := 0 |> <| tb_wlost := 0 |>) ;;
  set_config (with_wdefer 29 400000) ;;
  b <- tb_send_file "stall.bin"%string SEND_SRC ;;
  set_config (fun c => with_wdefer 0 (tb_wdefer_latency c) c) ;;
  wdefers <- get_hps tb_wdefers ;;
  let fails := one_if (negb a) + (one_if (negb b) + one_if (wdefers <? 5)) in
  set_patience saved_patience ;;
  ret (one_if (negb (fails =? 0))).

End Runs.

(** ** An upload through the service *)

(** The blocks of a command: the tail of its payload, then the command. *)
Definition command_requests (cdb payload : list Z) : list (Z * list Z) :=
  map (tail_block payload) (seq 1 (tail_count payload)) ++
  [(0, pad 512 (cdb ++ replicate 6 0 ++ take 496 payload))].

Definition upload_requests (name : String.string) (cmds : list (list Z * list Z)) : list (Z * list Z) :=
  command_requests (op10 0xD3) (name_bytes name) ++
  concat (map (fun c => command_requests c.1 c.2) cmds) ++ command_requests (op10 0xD5) [].

(** A file in whole blocks. *)
Definition whole_blocks (src : list Z) : list Z := fill_ff (((length src + 511) / 512) * 512)%nat src.

Lemma ceil_512 n : (n <= (n + 511) / 512 * 512 < n + 512)%nat.
Proof.
  pose proof (Nat.div_mod_eq (n + 511) 512). pose proof (Nat.mod_upper_bound (n + 511) 512 ltac:(lia)). lia.
Qed.

Lemma whole_blocks_length src : length (whole_blocks src) = (((length src + 511) / 512) * 512)%nat.
Proof.
  unfold whole_blocks, fill_ff. rewrite length_app, length_replicate. pose proof (ceil_512 (length src)). lia.
Qed.

Lemma data_cdb_send blk n :
  0 <= blk < 2 ^ 24 -> 0 <= n < 256 -> data_cdb 0 0 blk (u8 n) ++ replicate 6 0 = send_cdb n 0 blk.
Proof.
  intros Hb Hn. unfold data_cdb, cdb10, send_cdb, enc16, enc24. rewrite !Z.shiftr_div_pow2 by lia.
  change (2 ^ 16) with 65536. change (2 ^ 8) with 256. change (2 ^ 24) with 16777216 in Hb.
  rewrite (uwrap_small 8 n) by lia. rewrite (uwrap_small 8 (blk / 65536)); [done|].
  split; [apply Z.div_pos; lia|apply Z.div_lt_upper_bound; lia].
Qed.

Lemma command_chunk blk n payload :
  0 <= blk < 2 ^ 24 -> 1 <= n < 256 ->
  command_requests (data_cdb 0 0 blk (u8 n)) payload = chunk_requests n blk payload.
Proof.
  intros Hb Hn. unfold command_requests, chunk_requests. rewrite (proj2 (Z.eqb_neq n 0)) by lia.
  by rewrite app_assoc, data_cdb_send by lia.
Qed.

(** A chunk is a slice of the file in whole blocks. *)
Lemma chunk_slice src pos n m :
  (pos + n <= length (whole_blocks src))%nat -> m = Nat.min n (length src - pos)%nat -> (pos <= length src)%nat ->
  fill_ff n (take m (drop pos src)) = take n (drop pos (whole_blocks src)).
Proof.
  intros Hn -> Hpos. rewrite whole_blocks_length in Hn. unfold whole_blocks, fill_ff at 2.
  rewrite drop_app_le by done. unfold fill_ff. rewrite length_take, length_drop.
  destruct (Nat.le_gt_cases n (length src - pos)).
  - rewrite Nat.min_l by done. rewrite take_app_le by (rewrite length_drop; lia).
    replace (n - Nat.min n (length src - pos))%nat with 0%nat by lia. cbn. by rewrite app_nil_r.
  - rewrite Nat.min_r by lia. rewrite (take_ge (drop pos src)) by (rewrite length_drop; lia).
    rewrite take_app_ge by (rewrite length_drop; lia). rewrite length_drop, take_replicate. do 2 f_equal. lia.
Qed.

Section Upload.
Context (src : list Z) (max : Z) (Hmax : 1 <= max <= 128) (Hsrc : Z.of_nat (length src) < 2 ^ 31).

Let whole : list Z := whole_blocks src.

(** The upload after the blocks below [blk]. *)
Definition uploaded (blk : Z) (name : list Z) (t : TbHps) : Prop :=
  tb_ok t /\ upload_open t = true /\ upload_name t = name /\ upload t = take (Z.to_nat (blk * 512)) whole.

Lemma chunks_sent fuel name : forall blk t,
  0 <= blk -> Z.of_nat (length src) - blk * 512 <= Z.of_nat fuel -> blk * 512 <= Z.of_nat (length whole) ->
  uploaded blk name t ->
  exists t', run_requests (concat (map (fun c => command_requests c.1 c.2) (send_chunks fuel max src blk))) t = Some t' /\
    tb_ok t' /\ upload_open t' = true /\ upload_name t' = name /\ upload t' = whole.
Proof.
  pose proof (ceil_512 (length src)) as Hceil. pose proof (whole_blocks_length src) as Hwl. fold whole in Hwl.
  assert (Hdone : forall blk t, uploaded blk name t -> Z.of_nat (length src) <= blk * 512 ->
    blk * 512 <= Z.of_nat (length whole) -> 0 <= blk ->
    exists t', Some t = Some t' /\ tb_ok t' /\ upload_open t' = true /\ upload_name t' = name /\ upload t' = whole).
  { intros blk t (Hok & Ho & Hn & Hu) Hle Hw Hb. exists t. split_and!; try done. rewrite Hu. apply take_ge.
    assert (length whole < length src + 512)%nat by lia. assert (Z.of_nat (length whole) mod 512 = 0).
    { rewrite Hwl, Nat2Z.inj_mul. apply Z_mod_mult. } 
    pose proof (Z.div_mod (Z.of_nat (length whole)) 512 ltac:(lia)). lia. }
  induction fuel as [|fuel IH]; intros blk t Hb Hf Hw Hu; cbn [send_chunks].
  { destruct (Z.ltb_spec (blk * 512) (Z.of_nat (length src))); [lia|]. by apply (Hdone blk). }
  destruct (Z.ltb_spec (blk * 512) (Z.of_nat (length src))) as [Hlt|]; [|by apply (Hdone blk)].
  cbn zeta. set (left := Z.of_nat (length src) - blk * 512). set (n0 := (left + 511) / 512).
  assert (Hn0 : left <= n0 * 512 < left + 512).
  { unfold n0. pose proof (Z.div_mod (left + 511) 512 ltac:(lia)). pose proof (Z.mod_pos_bound (left + 511) 512 ltac:(lia)). lia. }
  set (n := if max <? n0 then max else n0). assert (Hn : 1 <= n <= max /\ n <= n0).
  { unfold n. destruct (Z.ltb_spec max n0); lia. }
  assert (Hfit : blk * 512 + n * 512 <= Z.of_nat (length whole)).
  { rewrite Hwl, Nat2Z.inj_mul. 
    assert (Z.of_nat ((length src + 511) / 512) = blk + n0); [|lia].
    unfold n0, left. rewrite Nat2Z.inj_div, Nat2Z.inj_add.
    replace (Z.of_nat (length src) - blk * 512 + 511) with (Z.of_nat (length src) + Z.of_nat 511 + (- blk) * 512) by lia.
    rewrite Z.div_add by lia. change (Z.of_nat 512) with 512. lia. }
  change (2 ^ 31) with 2147483648 in Hsrc.
  cbn [map concat fst snd]. rewrite run_requests_app, command_chunk by lia.
  set (chunk := fill_ff _ _).
  assert (Ec : chunk = take (Z.to_nat (n * 512)) (drop (Z.to_nat (blk * 512)) whole)).
  { apply chunk_slice; [fold whole; lia| |lia]. destruct (Z.ltb_spec left (n * 512)); unfold left in *; lia. }
  assert (Hcl : Z.of_nat (length chunk) = n * 512) by (rewrite Ec, length_take, length_drop; lia).
  destruct Hu as (Hok & Ho & Hnm & Hup).
  destruct (chunk_stored n blk chunk) with (t := t) as (t1 & E1 & Hok1 & Hup1 & _ & _ & Ho1 & Hnm1 & _ & _);
    [right; lia|lia|done|done|]. rewrite E1. cbn [mbind option_bind].
  apply IH; [lia|lia|lia|]. split_and!; [done|done|by rewrite Hnm1|].
  assert (Hpos : Z.to_nat (blk * 512) = length (upload t)) by (rewrite Hup, length_take; lia).
  rewrite Hup1, Hpos, store_append, Hup, Ec, <- take_add. f_equal. lia.
Qed.

(** *** Single blocks *)

(** A command block is judged by its first sixteen bytes and the valid bytes. *)
Lemma send_same b b' t :
  take 16 b = take 16 b' -> byte b 0 = 0xD4 ->
  take (Nat.min (Z.to_nat (chunk_bytes b)) 496) (drop 16 b) = take (Nat.min (Z.to_nat (chunk_bytes b)) 496) (drop 16 b') ->
  request 0 b t = request 0 b' t.
Proof.
  intros Hc H0 Hd. assert (Hb : forall i, (i < 16)%nat -> byte b' i = byte b i).
  { intros i Hi. unfold byte. by rewrite <- (lookup_take_lt b' 16 i), <- (lookup_take_lt b 16 i), Hc. }
  assert (Hn : chunk_bytes b' = chunk_bytes b) by (unfold chunk_bytes, be16; by rewrite !Hb by lia).
  unfold request. change (1 <=? 0) with false. cbn [andb Z.eqb negb]. rewrite Hb, H0 by lia. cbn [Z.eqb Pos.eqb].
  unfold op_send_data, diagnose, be24. by rewrite Hn, <- Hd, !Hb by lia.
Qed.

(** The command of a single block. *)
Definition block_cdb (blk : Z) (p : list Z) : list Z :=
  let valid := Z.of_nat (length p) in
  if valid =? 512 then data_cdb 0 0 blk 1 else data_cdb (u8 (Z.shiftr valid 8)) (u8 valid) blk 0.

Lemma block_cdb_send blk p : 0 <= blk < 2 ^ 24 -> (length p < 512)%nat ->
  block_cdb blk p ++ replicate 6 0 = send_cdb 0 (Z.of_nat (length p)) blk.
Proof.
  intros Hb Hl. unfold block_cdb. destruct (Z.eqb_spec (Z.of_nat (length p)) 512); [lia|].
  unfold data_cdb, cdb10, send_cdb, enc16, enc24. rewrite !Z.shiftr_div_pow2 by lia.
  change (2 ^ 16) with 65536. change (2 ^ 8) with 256. change (2 ^ 24) with 16777216 in Hb.
  rewrite (uwrap_small 8 (blk / 65536)) by (split; [apply Z.div_pos; lia|apply Z.div_lt_upper_bound; lia]).
  rewrite (uwrap_small 8 (Z.of_nat (length p) / 256)); [done|].
  split; [apply Z.div_pos; lia|apply Z.div_lt_upper_bound; lia].
Qed.

(** A block is stored without what fills it up. *)
Lemma block_stored blk p more t :
  tb_ok t -> upload_open t = true -> 0 <= blk < 2 ^ 24 -> (1 <= length p)%nat -> (length (p ++ more) <= 512)%nat ->
  exists t', run_requests (command_requests (block_cdb blk p) (p ++ more)) t = Some t' /\ tb_ok t' /\
    upload t' = store p (Z.to_nat (blk * 512)) (upload t) /\ upload_open t' = true /\ upload_name t' = upload_name t.
Proof.
  intros Hok Ho Hb Hp Hl. rewrite length_app in Hl. destruct (decide (length p = 512%nat)) as [Hfull|Hshort].
  { assert (more = []) as -> by (apply length_zero_iff_nil; lia). rewrite app_nil_r. unfold block_cdb.
    rewrite Hfull. change (Z.of_nat 512 =? 512) with true. cbn iota.
    pose proof (command_chunk blk 1 p Hb ltac:(lia)) as Ec. change (u8 1) with 1 in Ec. rewrite Ec.
    destruct (chunk_stored 1 blk p) with (t := t) as (t' & E & Hok' & Hu & _ & _ & Ho' & Hn & _);
      [right; lia|lia|done|done|]. by exists t'. }
  unfold command_requests. rewrite run_requests_app.
  destruct (tail_requests (p ++ more) (tail_count (p ++ more)) t) as (t1 & E1 & Heq & Hok1 & Htake & _);
    [lia|rewrite length_app; unfold CHUNK_MAX; lia|done|]. rewrite E1. cbn [mbind option_bind run_requests].
  assert (Hf : length_field 0 p) by (left; lia).
  pose proof (proj1 (chunk_bytes_ok 0 blk p Hf)) as Hcb. cbn [Z.eqb] in Hcb.
  rewrite app_assoc, block_cdb_send by lia.
  assert (Hlen16 : length (send_cdb 0 (Z.of_nat (length p)) blk) = 16%nat) by done.
  assert (Es : request 0 (pad 512 (send_cdb 0 (Z.of_nat (length p)) blk ++ take 496 p)) t1 =
               request 0 (pad 512 (send_cdb 0 (Z.of_nat (length p)) blk ++ take 496 (p ++ more))) t1).
  { apply send_same.
  { unfold pad. rewrite <- !app_assoc. by rewrite !take_app_le by (rewrite Hlen16; lia). }
  { done. }
  { rewrite Hcb, Nat2Z.id. unfold pad. rewrite <- !app_assoc, !drop_app_length' by done.
       rewrite !take_app_le by (rewrite length_take, ?length_app; lia).
       rewrite !take_take, Nat.min_l by lia. by rewrite take_app_le by lia. } }
  rewrite <- Es.
  pose proof (command_stored 0 blk p Hf Hb t1 Hok1 ltac:(by rewrite Heq)) as Hcs. cbn [Z.eqb] in Hcs.
  destruct Hcs as (t2 & -> & Hok2 & _ & Hu & _ & Ho2 & Hn2 & _).
  cbn [mbind option_bind]. exists t2. split_and!; try done; [|by rewrite Hn2, Heq].
  rewrite Hu. replace (upload t1) with (upload t) by (by rewrite Heq). unfold store. f_equal.
  rewrite <- (take_drop 496 p) at 3. f_equal.
  set (m := tail_count (p ++ more)) in *.
  assert (Hm : (length p - 496 <= 512 * m)%nat).
  { unfold m, tail_count. rewrite length_app. pose proof (Nat.div_mod_eq (length p + length more - 496 + 511) 512).
    pose proof (Nat.mod_upper_bound (length p + length more - 496 + 511) 512 ltac:(lia)). lia. }
  transitivity (take (length p - 496) (take (512 * m) (tail t1))); [by rewrite take_take, Nat.min_l by lia|].
  rewrite Htake, take_pad by (rewrite length_take, length_drop, length_app; lia).
  rewrite take_take, Nat.min_l by lia. destruct (Nat.le_gt_cases (length p) 496).
  - rewrite (proj2 (Nat.sub_0_le _ _)) by lia. by rewrite (drop_ge p) by lia.
  - rewrite drop_app_le, take_app_le by (rewrite ?length_drop; lia). apply take_ge. rewrite length_drop. lia.
Qed.

Lemma blocks_sent n (Hn : (n <= 512)%nat) fuel name : forall blk t,
  0 <= blk -> Z.of_nat (length src) - blk * 512 <= Z.of_nat fuel ->
  tb_ok t -> upload_open t = true -> upload_name t = name -> upload t = take (Z.to_nat (blk * 512)) src ->
  exists t', run_requests (concat (map (fun c => command_requests c.1 (fill_ff n c.2)) (send_blocks fuel src blk))) t = Some t' /\
    tb_ok t' /\ upload_open t' = true /\ upload_name t' = name /\ upload t' = src.
Proof.
  change (2 ^ 31) with 2147483648 in Hsrc.
  induction fuel as [|fuel IH]; intros blk t Hb Hf Hok Ho Hname Hu; cbn [send_blocks];
    (destruct (Z.ltb_spec (blk * 512) (Z.of_nat (length src))) as [Hlt|Hge];
     [|exists t; split_and!; try done; by rewrite Hu, take_ge by lia]); [lia|].
  cbn zeta. set (left := Z.of_nat (length src) - blk * 512). set (valid := if 512 <? left then 512 else left).
  assert (Hv : valid = Z.min 512 left) by (unfold valid; destruct (Z.ltb_spec 512 left); lia).
  set (p := take (Z.to_nat valid) (drop (Z.to_nat (blk * 512)) src)).
  assert (Hp : Z.of_nat (length p) = valid) by (unfold p; rewrite length_take, length_drop; lia).
  cbn [map concat fst snd]. rewrite run_requests_app.
  replace (if valid =? 512 then _ else _) with (block_cdb blk p) by (unfold block_cdb; by rewrite Hp).
  destruct (block_stored blk p (replicate (n - length p) 0xFF) t) as (t1 & E1 & Hok1 & Hu1 & Ho1 & Hn1);
    [done|done|lia|lia|rewrite length_app, length_replicate; lia|].
  change (fill_ff n p) with (p ++ replicate (n - length p) 0xFF). rewrite E1. cbn [mbind option_bind].
  apply IH; [lia|lia|done|done|by rewrite Hn1|].
  rewrite Hu1. replace (Z.to_nat (blk * 512)) with (length (upload t)) at 1 by (rewrite Hu, length_take; lia).
  rewrite store_append, Hu. destruct (Z.min_spec 512 left) as [[Hl E]|[Hl E]].
  - replace (Z.to_nat ((blk + 1) * 512)) with (Z.to_nat (blk * 512) + Z.to_nat valid)%nat by lia.
    rewrite take_add. reflexivity.
  - rewrite (take_ge src (Z.to_nat ((blk + 1) * 512))) by lia. unfold p.
    rewrite (take_ge (drop _ src)) by (rewrite length_drop; lia). apply take_drop.
Qed.

End Upload.

Lemma pad_pad n m x l : (length x + m <= n)%nat -> (length l <= m)%nat -> pad n (x ++ pad m l) = pad n (x ++ l).
Proof.
  intros Hm Hl. unfold pad. rewrite <- !app_assoc. do 2 f_equal. rewrite !length_app, length_replicate.
  rewrite <- replicate_add. f_equal. lia.
Qed.

Lemma bad_bytes_prefix l more : bad_bytes (l ++ more) l = 0.
Proof. induction l as [|x l IH]; [by destruct more|]. cbn [app bad_bytes]. by rewrite Z.eqb_refl, IH. Qed.

Lemma bad_bytes_nonneg got want : 0 <= bad_bytes got want.
Proof.
  revert want. induction got as [|g got IH]; intros [|w want]; cbn [bad_bytes]; try lia.
  specialize (IH want). destruct (g =? w); lia.
Qed.

Lemma bad_bytes_0 got want : (length want <= length got)%nat -> bad_bytes got want = 0 -> want `prefix_of` got.
Proof.
  revert want. induction got as [|g got IH]; intros [|w want] Hl Hb; cbn [bad_bytes length] in *;
    [done|lia|apply prefix_nil|].
  pose proof (bad_bytes_nonneg got want). destruct (Z.eqb_spec g w) as [->|]; [|lia].
  apply prefix_cons, IH; lia.
Qed.

Lemma bad_bytes_eq got want : length got = length want -> bad_bytes got want = 0 -> got = want.
Proof. intros Hl Hb. symmetry. apply prefix_length_eq; [apply bad_bytes_0; [lia|done]|lia]. Qed.

Lemma one_if_0 b : one_if b = 0 <-> b = false.
Proof. by destruct b. Qed.

Lemma padded_upload_0 src up : padded_upload src up = 0 <-> src `prefix_of` up.
Proof.
  split; [|intros [more ->]; unfold padded_upload; rewrite length_app;
    destruct (Nat.ltb_spec (length src + length more) (length src)); [lia|by rewrite bad_bytes_prefix]].
  unfold padded_upload. destruct (Nat.ltb_spec (length up) (length src)); [done|].
  rewrite one_if_0, negb_false_iff, Z.eqb_eq. by apply bad_bytes_0.
Qed.

Lemma exact_upload_0 src up : exact_upload src up = 0 <-> up = src.
Proof.
  split; [|intros ->; unfold exact_upload; rewrite Nat.eqb_refl; rewrite <- (app_nil_r src) at 1; by rewrite bad_bytes_prefix].
  unfold exact_upload. destruct (Nat.eqb_spec (length up) (length src)); cbn; [|by destruct (negb _)].
  rewrite Z.add_0_l, one_if_0, negb_false_iff, Z.eqb_eq. by apply bad_bytes_eq.
Qed.

(** An upload between its preparation and its end. *)
Definition closed_upload (name : String.string) (u : list Z) (t : TbHps) : Prop :=
  upload_name t = chars name /\ upload t = u /\ status t = 0 /\ upload_open t = false.

Lemma upload_framed (t : TbHps) (name : String.string) (cmds : list (list Z * list Z)) (u : list Z) :
  tb_ok t -> last_missing t = -1 -> name_ok (chars name) ->
  (forall t1, tb_ok t1 -> upload_open t1 = true -> upload_name t1 = chars name -> upload t1 = [] ->
    exists t2, run_requests (concat (map (fun c => command_requests c.1 c.2) cmds)) t1 = Some t2 /\
      tb_ok t2 /\ upload_open t2 = true /\ upload_name t2 = chars name /\ upload t2 = u) ->
  exists t', run_requests (upload_requests name cmds) t = Some t' /\ closed_upload name u t'.
Proof.
  intros Hok Hm Hname Hcmds. unfold upload_requests. rewrite run_requests_app.
  assert (Ep : command_requests (op10 0xD3) (name_bytes name) = [(0, prep_block (chars name))]).
  { unfold command_requests, name_bytes, tail_count. destruct Hname as [Hl _]. rewrite pad_length by lia.
    change ((33 - 496 + 511) / 512)%nat with 0%nat. cbn [seq map app]. do 2 f_equal. rewrite take_ge by (rewrite pad_length; lia).
    unfold prep_block. change ([0xD3] ++ replicate 15 0 ++ chars name) with ((op10 0xD3 ++ replicate 6 0) ++ chars name).
    rewrite app_assoc. apply pad_pad; cbn; lia. }
  rewrite Ep. cbn [run_requests]. destruct (prep_request (chars name) t Hname Hok Hm) as (t1 & -> & Hs & _).
  cbn [mbind option_bind]. rewrite run_requests_app. destruct (Hs []) as (Hok1 & Ho1 & Hu1 & Hn1 & _).
  destruct (Hcmds t1) as (t2 & E2 & Hok2 & Ho2 & Hn2 & Hu2); [done..|]. rewrite E2. cbn [mbind option_bind].
  change (command_requests (op10 0xD5) []) with [(0, end_block)].
  cbn [run_requests]. unfold request. change (1 <=? 0) with false. cbn [andb Z.eqb negb].
  change (byte end_block 0) with 0xD5. cbn [Z.eqb Pos.eqb]. unfold op_send_end.
  change (upload_open (t2 <| reqs := _ |> <| resp := [] |> <| status := 2 |>)) with (upload_open t2).
  rewrite Ho2. cbn [negb mbind option_bind]. eexists. split; [reflexivity|]. by split_and!.
Qed.

(** C15: an upload that reaches the service is accepted.  For any file up to 2 GB and any
    name of the protocol: the commands of the bench for chunks of up to 128 blocks, each
    given to the service as its blocks, leave the file, filled up with 0xFF to whole
    blocks, under that name; the commands for single blocks leave exactly the file,
    however far each block is filled up; and the checks of the uploads count no failure
    on these files, and one on any other. *)
Theorem upload_accepted (t : TbHps) (name : String.string) (src : list Z)
    (Ht : tb_ok t /\ last_missing t = -1) (Hname : name_ok (chars name)) (Hsrc : Z.of_nat (length src) < 2 ^ 31) :
  (forall max, 1 <= max <= 128 -> exists t' k,
    run_requests (upload_requests name (chunks max src)) t = Some t' /\
    closed_upload name (src ++ replicate k 0xFF) t' /\ (k < 512)%nat /\ ((length src + k) mod 512 = 0)%nat /\
    padded_upload src (upload t') = 0) /\
  (forall n, (n <= 512)%nat -> exists t',
    run_requests (upload_requests name ((fun c => (c.1, fill_ff n c.2)) <$> blocks src)) t = Some t' /\
    closed_upload name src t' /\ exact_upload src (upload t') = 0) /\
  (forall up, (exact_upload src up = 0 <-> up = src) /\ (padded_upload src up = 0 <-> src `prefix_of` up)).
Proof.
  destruct Ht as [Hok Hm]. split; [|split; [|intros up; split; [apply exact_upload_0|apply padded_upload_0]]].
  - intros max Hmax. destruct (upload_framed t name (chunks max src) (whole_blocks src)) as (t' & E & Hc); [done..| |].
    { intros t1 Hok1 Ho1 Hn1 Hu1. apply chunks_sent; [done|done|lia|lia|lia|by split_and!]. }
    exists t', (((length src + 511) / 512) * 512 - length src)%nat. split; [exact E|]. split; [exact Hc|].
    pose proof (ceil_512 (length src)). split; [lia|]. split.
    { rewrite (Nat.add_comm (length src)), Nat.sub_add by lia. apply Nat.Div0.mod_mul. }
    destruct Hc as (_ & -> & _). apply padded_upload_0. by eexists.
  - intros n Hn. destruct (upload_framed t name ((fun c => (c.1, fill_ff n c.2)) <$> blocks src) src) as (t' & E & Hc); [done..| |].
    { intros t1 Hok1 Ho1 Hn1 Hu1. change (map ?f (?g <$> ?l)) with (map f (map g l)). rewrite map_map. apply blocks_sent; [done|done|lia|lia|done..]. }
    exists t'. split; [exact E|]. split; [exact Hc|]. destruct Hc as (_ & -> & _). by apply exact_upload_0.
Qed.

(** ** What a run leaves of the settings *)

Create HintDb rig_keeps.

Section Keeps.
Context {D : Type} `{Dut D}.

Definition settings (r : Rig D) : Z * Config := (csr_patience r, config r).

(** A computation that changes neither the patience nor the switches. *)
Definition rig_keeps {A} (m : M D A) : Prop := forall r a r', m r = Some (a, r') -> settings r' = settings r.

Lemma rig_keeps_bind {A B} (m : M D A) (f : A -> M D B) : rig_keeps m -> (forall a, rig_keeps (f a)) -> rig_keeps (bind m f).
Proof. intros Hm Hf r b r' (a & r1 & E1 & E2)%bind_inv. rewrite (Hf a _ _ _ E2). by eapply Hm. Qed.

Lemma rig_keeps_ret {A} (a : A) : rig_keeps (ret a).
Proof. by intros r a' r' [= <- <-]. Qed.

Lemma rig_keeps_get {A} (f : Rig D -> A) : rig_keeps (get f).
Proof. by intros r a r' [= <- <-]. Qed.

Lemma rig_keeps_set_bus f : rig_keeps (set_bus f).
Proof. by intros r a r' [= <- <-]. Qed.

Lemma rig_keeps_eval : rig_keeps eval.
Proof. by intros r a r' [= <- <-]. Qed.

Lemma rig_keeps_put_bench f : rig_keeps (put_bench f).
Proof. by intros r a r' [= <- <-]. Qed.

Lemma rig_keeps_reset_hps : rig_keeps reset_hps.
Proof. by intros r a r' [= <- <-]. Qed.

Lemma rig_keeps_clock : rig_keeps clock.
Proof. intros r a r'. unfold clock. destruct (tick _ _); [|done]. by intros [= <- <-]. Qed.

Lemma rig_keeps_if {A} (b : bool) (m n : M D A) : rig_keeps m -> rig_keeps n -> rig_keeps (if b then m else n).
Proof. by destruct b. Qed.

Lemma rig_keeps_option {A B} (o : option A) (f : A -> M D B) (n : M D B) :
  (forall a, rig_keeps (f a)) -> rig_keeps n -> rig_keeps (match o with Some a => f a | None => n end).
Proof. by destruct o. Qed.

Hint Resolve rig_keeps_bind rig_keeps_ret rig_keeps_get rig_keeps_set_bus rig_keeps_eval rig_keeps_put_bench rig_keeps_reset_hps rig_keeps_clock
  rig_keeps_if rig_keeps_option : rig_keeps.

(** Through the structure of a computation. *)
Ltac rig_keeps :=
  repeat first
    [ apply rig_keeps_ret | apply rig_keeps_get | apply rig_keeps_set_bus | apply rig_keeps_eval | apply rig_keeps_put_bench
    | apply rig_keeps_reset_hps | apply rig_keeps_clock | solve [eauto 2 with rig_keeps]
    | apply rig_keeps_bind; [|intros ?] | apply rig_keeps_if | apply rig_keeps_option; [intros ?|] ].

Lemma rig_keeps_clocks n : rig_keeps (clocks n).
Proof. induction n; cbn [clocks]; rig_keeps. Qed.
Hint Resolve rig_keeps_clocks : rig_keeps.

Lemma rig_keeps_reg_write rs v : rig_keeps (reg_write rs v).
Proof. unfold reg_write, bus_release. rig_keeps. Qed.
Lemma rig_keeps_reg_read rs : rig_keeps (reg_read rs).
Proof. unfold reg_read, bus_release. rig_keeps. Qed.
Hint Resolve rig_keeps_reg_write rig_keeps_reg_read : rig_keeps.

Lemma rig_keeps_poll_csr mask val n : rig_keeps (poll_csr mask val n).
Proof. induction n; cbn [poll_csr]; rig_keeps. Qed.
Hint Resolve rig_keeps_poll_csr : rig_keeps.

Lemma rig_keeps_wait_csr mask val n : rig_keeps (wait_csr mask val n).
Proof. unfold wait_csr. rig_keeps. Qed.
Hint Resolve rig_keeps_wait_csr : rig_keeps.

Lemma rig_keeps_pio_put b : rig_keeps (pio_put b).
Proof. unfold pio_put. rig_keeps. Qed.
Lemma rig_keeps_pio_get : rig_keeps pio_get.
Proof. unfold pio_get. rig_keeps. Qed.
Hint Resolve rig_keeps_pio_put rig_keeps_pio_get : rig_keeps.

Lemma rig_keeps_put_all l : rig_keeps (put_all l).
Proof. induction l; cbn [put_all]; rig_keeps. Qed.
Lemma rig_keeps_get_all n : rig_keeps (get_all n).
Proof. induction n; cbn [get_all]; rig_keeps. Qed.
Hint Resolve rig_keeps_put_all rig_keeps_get_all : rig_keeps.

Lemma rig_keeps_tb_select : rig_keeps tb_select.
Proof. unfold tb_select. rig_keeps. Qed.
Hint Resolve rig_keeps_tb_select : rig_keeps.

Lemma rig_keeps_tb_cmd cdb payload n : rig_keeps (tb_cmd cdb payload n).
Proof. unfold tb_cmd. rig_keeps. Qed.
Lemma rig_keeps_tb_start : rig_keeps tb_start.
Proof. unfold tb_start, reset_dut, bus_release. rig_keeps. Qed.
Hint Resolve rig_keeps_tb_cmd rig_keeps_tb_start : rig_keeps.

Lemma rig_keeps_must cdb payload n : rig_keeps (must cdb payload n).
Proof. unfold must. rig_keeps. Qed.
Hint Resolve rig_keeps_must : rig_keeps.

Lemma rig_keeps_must_all cmds : rig_keeps (must_all cmds).
Proof. induction cmds; cbn [must_all]; unfold try; rig_keeps. Qed.
Lemma rig_keeps_short_chunk c : rig_keeps (tb_short_chunk c).
Proof. unfold tb_short_chunk. rig_keeps. Qed.
Hint Resolve rig_keeps_must_all rig_keeps_short_chunk : rig_keeps.

Lemma rig_keeps_short_chunks cmds : rig_keeps (tb_short_chunks cmds).
Proof. induction cmds; cbn [tb_short_chunks]; unfold try; rig_keeps. Qed.
Hint Resolve rig_keeps_short_chunks : rig_keeps.

Lemma rig_keeps_sum_all {A} (l : list A) f : (forall a, rig_keeps (f a)) -> rig_keeps (sum_all l f).
Proof. intros Hf. induction l; cbn [sum_all]; rig_keeps. Qed.
Hint Resolve rig_keeps_sum_all : rig_keeps.

Lemma rig_keeps_parts parts : Forall rig_keeps parts -> forall fails, rig_keeps (all_parts parts fails).
Proof. induction 1; intros fails; cbn [all_parts]; rig_keeps. Qed.

Lemma toolbox_parts_keep : Forall rig_keeps toolbox_parts.
Proof.
  repeat constructor; unfold tb_count, tb_list, tb_send_blocks, tb_send_large, tb_send_huge, tb_get_big, tb_send_short,
    tb_get_4096, tb_send, try, get_tbx, set_tbx; cbn zeta; rig_keeps.
Qed.

Lemma rig_keeps_run_toolbox : rig_keeps run_toolbox.
Proof.
  unfold run_toolbox, set_tbx. apply rig_keeps_bind; [rig_keeps|intros ?]. apply rig_keeps_bind; [rig_keeps|intros ?].
  apply rig_keeps_parts, toolbox_parts_keep.
Qed.

Lemma rig_keeps_tb_send_file name n : rig_keeps (tb_send_file name n).
Proof. unfold tb_send_file, tb_send, try, get_tbx. cbn zeta. rig_keeps. Qed.
Lemma rig_keeps_chunk_fails b o : rig_keeps (chunk_fails b o).
Proof. unfold chunk_fails, get_chunk. cbn zeta. rig_keeps. Qed.
Lemma rig_keeps_status_fails cdb payload : rig_keeps (status_fails cdb payload).
Proof. unfold status_fails. rig_keeps. Qed.
Lemma rig_keeps_slow_get : rig_keeps slow_get.
Proof. unfold slow_get, set_tbx, get_tbx. rig_keeps. Qed.

(** A step of a run, and the settings after it. *)
Lemma step_keeps {A B} (m : M D A) (f : A -> M D B) r b r' s :
  bind m f r = Some (b, r') -> settings r = s -> rig_keeps m -> exists a r1, f a r1 = Some (b, r') /\ settings r1 = s.
Proof. intros (a & r1 & E1 & E2)%bind_inv Hs Hm. exists a, r1. split; [done|]. rewrite <- Hs. by eapply Hm. Qed.

Lemma step_config {B} g (f : unit -> M D B) r b r' p c :
  bind (set_config g) f r = Some (b, r') -> settings r = (p, c) ->
  exists r1, f tt r1 = Some (b, r') /\ settings r1 = (p, g c).
Proof. intros (a & r1 & [= <- <-] & E2)%bind_inv [= <- <-]. by eexists. Qed.

Lemma step_patience {B} p' (f : unit -> M D B) r b r' p c :
  bind (set_patience p') f r = Some (b, r') -> settings r = (p, c) ->
  exists r1, f tt r1 = Some (b, r') /\ settings r1 = (p', c).
Proof. intros (a & r1 & [= <- <-] & E2)%bind_inv [= <- <-]. by eexists. Qed.

(** The patience is read back. *)
Lemma step_saved {B} (f : Z -> M D B) r b r' p c :
  bind (get csr_patience) f r = Some (b, r') -> settings r = (p, c) -> f p r = Some (b, r').
Proof. intros (a & r1 & [= <- <-] & E2)%bind_inv [= <- <-]. exact E2. Qed.

Lemma verdict_01 (b : bool) : one_if b = 0 \/ one_if b = 1.
Proof. destruct b; auto. Qed.

Lemma parts_verdict (parts : list (M D (option Z))) : forall fails r rc r', all_parts parts fails r = Some (rc, r') -> rc = 0 \/ rc = 1.
Proof.
  induction parts as [|p parts IH]; intros fails r rc r' E; cbn [all_parts] in E.
  - injection E as <- <-. apply verdict_01.
  - apply bind_inv in E as (o & r1 & E1 & E2). destruct o; [by eapply IH|]. injection E2 as <- <-. auto.
Qed.

(** A run ends with a verdict, the patience as it was and the switches changed by [f]. *)
Definition restores (f : Config -> Config) (m : M D Z) : Prop :=
  forall r rc r', m r = Some (rc, r') ->
    (rc = 0 \/ rc = 1) /\ csr_patience r' = csr_patience r /\ config r' = f (config r).

Lemma restores_settings f (m : M D Z) :
  (forall r rc r' p c, m r = Some (rc, r') -> settings r = (p, c) -> (rc = 0 \/ rc = 1) /\ settings r' = (p, f c)) ->
  restores f m.
Proof. intros Hm r rc r' E. destruct (Hm r rc r' _ _ E eq_refl) as [Hv [= Hp Hc]]. by split_and!. Qed.

End Keeps.


Section Restores.
Context {D : Type} `{Dut D}.

#[local] Hint Resolve rig_keeps_tb_start rig_keeps_run_toolbox rig_keeps_tb_send_file rig_keeps_chunk_fails rig_keeps_status_fails rig_keeps_slow_get
  rig_keeps_put_bench rig_keeps_get rig_keeps_sum_all : rig_keeps.

(** The next step of the run in [E]: the settings [Hs] are followed. *)
Ltac follow E Hs :=
  let a := fresh "a" in let r1 := fresh "r1" in let E1 := fresh "E1" in let H1 := fresh "H1" in
  first
    [ pose proof (step_saved _ _ _ _ _ _ E Hs) as E1; clear E; rename E1 into E
    | destruct (step_config _ _ _ _ _ _ _ E Hs) as (r1 & E1 & H1); clear E Hs; rename E1 into E, H1 into Hs
    | destruct (step_patience _ _ _ _ _ _ _ E Hs) as (r1 & E1 & H1); clear E Hs; rename E1 into E, H1 into Hs
    | destruct (step_keeps _ _ _ _ _ _ E Hs) as (a & r1 & E1 & H1); [solve [auto with rig_keeps]|];
      clear E Hs; rename E1 into E, H1 into Hs ];
  cbv beta zeta in E.

Lemma wdog_restores : restores (with_ack_hold 0) run_toolbox_wdog.
Proof.
  apply restores_settings. intros r rc r' p c E Hs. unfold run_toolbox_wdog in E. repeat follow E Hs.
  injection E as <- <-. split; [auto|]. rewrite Hs. done.
Qed.

Lemma slow_restores : restores (with_slow 0 786432) run_toolbox_slow.
Proof.
  apply restores_settings. intros r rc r' p c E Hs. unfold run_toolbox_slow, set_tbx, set_hps, get_tbx in E.
  repeat follow E Hs. injection E as <- <-. split; [apply verdict_01|]. rewrite Hs. done.
Qed.

Lemma get_restores : restores (with_defer 0 400000) run_toolbox_get.
Proof.
  apply restores_settings. intros r rc r' p c E Hs. unfold run_toolbox_get, set_tbx, set_hps, get_hps in E.
  repeat follow E Hs. injection E as <- <-. split; [apply verdict_01|]. rewrite Hs. done.
Qed.

Lemma send_restores : restores (with_wdefer 0 400000) run_toolbox_send.
Proof.
  apply restores_settings. intros r rc r' p c E Hs. unfold run_toolbox_send, set_tbx, set_hps, get_hps in E.
  repeat follow E Hs. injection E as <- <-. split; [apply verdict_01|]. rewrite Hs. done.
Qed.

Lemma toolbox_restores : restores (fun c => c) run_toolbox.
Proof.
  intros r rc r' E. pose proof (rig_keeps_run_toolbox _ _ _ E) as [= Hp Hc]. split; [|by split].
  unfold run_toolbox in E. apply bind_inv in E as (? & ? & _ & (? & ? & _ & E)%bind_inv). by eapply parts_verdict.
Qed.

(** C20: no run leaves a switch behind.  However the device answers, and also where a part ends the run
    early, each Toolbox run ends with the exit code 0 or 1, the patience of the initiator
    as it was, and of the settings of the host only its own latency changed: its switch is
    off, the others are untouched. *)
Theorem runs_restore :
  restores (fun c => c) run_toolbox /\ restores (with_ack_hold 0) run_toolbox_wdog /\
  restores (with_slow 0 786432) run_toolbox_slow /\ restores (with_defer 0 400000) run_toolbox_get /\
  restores (with_wdefer 0 400000) run_toolbox_send.
Proof.
  split_and!; [apply toolbox_restores|apply wdog_restores|apply slow_restores|apply get_restores|apply send_restores].
Qed.

End Restores.

(** ** What a run that passes has seen *)

Section Passes.
Context {D : Type} `{Dut D}.
Implicit Types r : Rig D.

(** A command that works: the target is selected and takes the command and the payload,
    every byte of the reply arrives, and then a good status and a message of 0. *)
Definition tb_exchange (cdb payload din : list Z) r r' : Prop := exists r1 r2 r3 r4 r5 r6,
  selects 0x01 0 r r1 /\ puts cdb r1 r2 /\ puts payload r2 r3 /\ reg_write WREG_ICR 0 r3 = Some (tt, r4) /\
  gets din r4 r5 /\ pio_get r5 = Some (0, r6) /\ pio_get r6 = Some (0, r').

(** One whose data are cut short: the target must turn to its status by itself. *)
Definition tb_short_exchange (cdb payload : list Z) r r' : Prop := exists r1 r2 r3 r4 r5 r6,
  selects 0x01 0 r r1 /\ puts cdb r1 r2 /\ puts payload r2 r3 /\ reg_write WREG_ICR 0 r3 = Some (tt, r4) /\
  wait_csr 0x04 0x04 200000 r4 = Some (true, r5) /\ pio_get r5 = Some (0, r6) /\ pio_get r6 = Some (0, r').

(** Steps one after the other. *)
Fixpoint chained (steps : list (Rig D -> Rig D -> Prop)) r r' : Prop :=
  match steps with [] => r = r' | R :: steps => exists r1, R r r1 /\ chained steps r1 r' end.

(** An upload: the name, the pieces, the end. *)
Definition tb_uploads (name : String.string) (cmds : list (list Z * list Z)) : Rig D -> Rig D -> Prop :=
  chained ([tb_exchange (op10 0xD3) (name_bytes name) []] ++
    ((fun c => tb_exchange c.1 c.2 []) <$> cmds) ++ [tb_exchange (op10 0xD5) [] []]).

Definition the_upload (r : Rig D) : list Z := upload (tbx (bench (world r))).
Definition the_response (r : Rig D) : list Z := resp (tbx (bench (world r))).
Definition file_count (r : Rig D) : nat := length (files (tbx (bench (world r)))).

(** What a run that passes has done: the count; the list, of 40 bytes for each file; the
    uploads; the fetch of a file that was added; the upload with a short last piece; the
    fetch of one unit. *)
Definition toolbox_session : list (Rig D -> Rig D -> Prop) := [
  (fun r r' => tb_exchange (op10 0xD2) [] [Z.of_nat (file_count r')] r r');
  (fun r r' => tb_exchange (op10 0xD0) [] (the_response r') r r' /\ length (the_response r') = (file_count r * 40)%nat);
  (fun r r' => tb_uploads "upload.bin"%string ((fun c => (c.1, fill_ff 512 c.2)) <$> blocks (ramps 0x90000 1 1408)) r r' /\
     the_upload r' = ramps 0x90000 1 1408);
  (fun r r' => tb_uploads "large.bin"%string (chunks 8 (ramps 0xC5000 1 (4096 * 2 + 1536))) r r' /\
     ramps 0xC5000 1 (4096 * 2 + 1536) `prefix_of` the_upload r');
  (fun r r' => tb_uploads "huge.bin"%string (chunks 127 (ramps 0x2A000 7 (127 * 512 * 2 + 4096 + 300))) r r' /\
     ramps 0x2A000 7 (127 * 512 * 2 + 4096 + 300) `prefix_of` the_upload r');
  (fun r r' => exists r1,
     set_tbx (fun t => t <| files ::= (fun fs => fs ++ [MkTbFile (chars "big.get"%string) (ramps 0x71000 3 (128 * 512))]) |>) r
       = Some (tt, r1) /\
     tb_exchange (cdb10 0xD1 (u8 (Z.of_nat (file_count r))) 0 0 0 0 16) [] (ramps 0x71000 3 (128 * 512)) r1 r' /\
     length (the_response r') = (128 * 512)%nat);
  (fun r r' => chained ([tb_exchange (op10 0xD3) (name_bytes "short.bin"%string) []] ++
       ((fun c => tb_short_exchange c.1 c.2) <$> blocks (ramps 0xA1000 1 700)) ++ [tb_exchange (op10 0xD5) [] []]) r r' /\
     the_upload r' = ramps 0xA1000 1 700);
  (fun r r' => tb_exchange (cdb10 0xD1 13 0 0 0 0 1) [] (the_response r') r r' /\ length (the_response r') = 4096%nat) ].

Lemma bind_iff {A B} (m : M D A) (f : A -> M D B) r c :
  bind m f r = Some c <-> exists a r1, m r = Some (a, r1) /\ f a r1 = Some c.
Proof. split; [apply bind_inv|]. intros (a & r1 & E & E'). by rewrite (bind_some _ _ _ _ _ E). Qed.

Lemma try_iff {A B} (m : M D (option A)) (f : A -> M D (option B)) r b r' :
  try m f r = Some (Some b, r') <-> exists a r1, m r = Some (Some a, r1) /\ f a r1 = Some (Some b, r').
Proof.
  unfold try. rewrite bind_iff. split.
  - intros ([a|] & r1 & E1 & E); [|by injection E]. by exists a, r1.
  - intros (a & r1 & E1 & E). by exists (Some a), r1.
Qed.

Lemma tb_select_selects r r' : tb_select r = Some (true, r') <-> selects 0x01 0 r r'.
Proof.
  unfold tb_select, selects. rewrite bind_iff. split.
  - intros ([] & r1 & E1 & ([] & r2 & E2 & (ok & r3 & E3 & E)%bind_inv)%bind_inv). destruct ok; [|by injection E].
    cbn [negb] in E. apply bind_inv in E as ([] & r4 & E4 & E). injection E as <-. by exists r1, r2, r3.
  - intros (r1 & r2 & r3 & E1 & E2 & E3 & E4). exists tt, r1. split; [done|]. apply bind_iff. exists tt, r2. split; [done|].
    rewrite (bind_some _ _ _ _ _ E3). cbn [negb]. by rewrite (bind_some _ _ _ _ _ E4).
Qed.

Lemma tb_cmd_exchange cdb payload n r l r' :
  tb_cmd cdb payload n r = Some ((0, l), r') <-> tb_exchange cdb payload l r r' /\ length l = n.
Proof.
  unfold tb_cmd. split.
  - intros (b1 & r1 & E1 & E)%bind_inv. destruct b1; [|by injection E]. cbn [negb] in E.
    apply bind_inv in E as (b2 & r2 & E2 & E). destruct b2; [|by injection E]. cbn [negb] in E.
    apply bind_inv in E as (b3 & r3 & E3 & E). destruct b3; [|by injection E]. cbn [negb] in E.
    apply bind_inv in E as ([] & r4 & E4 & E). apply bind_inv in E as ([l1|] & r5 & E5 & E); [|by injection E].
    apply bind_inv in E as (s & r6 & E6 & E). apply bind_inv in E as (m & r7 & E7 & E).
    destruct (Z.eqb_spec m 0) as [->|]; [|by injection E]. cbn [negb] in E. injection E as -> <- <-.
    destruct (get_all_gets _ _ _ _ E5) as [Hg Hl]. split; [|done]. exists r1, r2, r3, r4, r5, r6.
    apply tb_select_selects in E1. by apply put_all_puts in E2, E3.
  - intros ((r1 & r2 & r3 & r4 & r5 & r6 & E1 & E2 & E3 & E4 & E5 & E6 & E7) & <-).
    apply tb_select_selects in E1. apply puts_put_all in E2, E3. apply gets_get_all in E5.
    rewrite (bind_some _ _ _ _ _ E1). cbn [negb]. rewrite (bind_some _ _ _ _ _ E2). cbn [negb].
    rewrite (bind_some _ _ _ _ _ E3). cbn [negb]. rewrite (bind_some _ _ _ _ _ E4), (bind_some _ _ _ _ _ E5).
    by rewrite (bind_some _ _ _ _ _ E6), (bind_some _ _ _ _ _ E7).
Qed.

Lemma must_iff cdb payload n r din r' :
  must cdb payload n r = Some (Some din, r') <-> tb_exchange cdb payload din r r' /\ length din = n.
Proof.
  rewrite <- tb_cmd_exchange. unfold must. rewrite bind_iff. split.
  - intros ([st l] & r1 & E1 & E). cbn [fst snd] in E. destruct (Z.eqb_spec st 0) as [->|]; [|by injection E].
    by injection E as <- <-.
  - intros E. by exists (0, din), r'.
Qed.

Lemma must_plain cdb payload r u r' :
  must cdb payload 0 r = Some (Some u, r') <-> u = [] /\ tb_exchange cdb payload [] r r'.
Proof. rewrite must_iff. split; [intros [He ->%length_zero_iff_nil]; done|by intros [-> He]]. Qed.

Lemma chained_app l l' r r' : chained (l ++ l') r r' <-> exists r1, chained l r r1 /\ chained l' r1 r'.
Proof.
  revert r. induction l as [|R l IH]; intros r; cbn [app chained].
  - split; [intros Hc; by exists r|by intros (? & -> & Hc)].
  - setoid_rewrite IH. naive_solver.
Qed.

Lemma must_all_chained cmds r u r' :
  must_all cmds r = Some (Some u, r') <-> chained ((fun c => tb_exchange c.1 c.2 []) <$> cmds) r r'.
Proof.
  revert r. induction cmds as [|c cmds IH]; intros r; cbn [must_all fmap list_fmap chained].
  - destruct u. unfold ret. naive_solver.
  - rewrite try_iff. setoid_rewrite must_plain. setoid_rewrite IH. naive_solver.
Qed.

Lemma tb_send_uploads name cmds r u r' : tb_send name cmds r = Some (Some u, r') <-> tb_uploads name cmds r r'.
Proof.
  unfold tb_send, tb_uploads. rewrite try_iff. cbn [app chained]. setoid_rewrite must_plain. setoid_rewrite try_iff.
  setoid_rewrite must_all_chained. setoid_rewrite try_iff. setoid_rewrite must_plain. setoid_rewrite chained_app.
  cbn [chained]. destruct u. unfold ret. naive_solver.
Qed.

Lemma one_if_nonneg b : 0 <= one_if b.
Proof. by destruct b. Qed.

Lemma exact_nonneg src up : 0 <= exact_upload src up.
Proof.
  unfold exact_upload. pose proof (one_if_nonneg (negb (length up =? length src)%nat)).
  pose proof (one_if_nonneg (negb (bad_bytes up src =? 0))). lia.
Qed.

Lemma padded_nonneg src up : 0 <= padded_upload src up.
Proof. unfold padded_upload. destruct (_ <? _)%nat; [done|apply one_if_nonneg]. Qed.

(** A part counts no failure exactly on its step, and never counts fewer than none. *)
Definition counts (p : M D (option Z)) (R : Rig D -> Rig D -> Prop) : Prop :=
  forall r r', (p r = Some (Some 0, r') <-> R r r') /\ (forall n, p r = Some (Some n, r') -> 0 <= n).

Lemma parts_pass ps Rs : Forall2 counts ps Rs -> forall fails r r', 0 <= fails ->
  all_parts ps fails r = Some (0, r') <-> fails = 0 /\ chained Rs r r'.
Proof.
  induction 1 as [|p R ps Rs Hp Hps IH]; intros fails r r' Hf; cbn [all_parts chained].
  - unfold ret. split; [intros [= E ->]|intros [-> ->]; done].
    apply one_if_0, negb_false_iff, Z.eqb_eq in E. by split.
  - split.
    + intros (o & r1 & E1 & E)%bind_inv. destruct o as [n|]; [|done]. destruct (Hp r r1) as [HR Hn]. specialize (Hn n E1).
      apply IH in E as [Hs Hc]; [|lia]. assert (n = 0) as -> by lia. split; [lia|]. exists r1. by rewrite <- HR.
    + intros (-> & r1 & E1 & Hc). apply (Hp r r1) in E1. rewrite (bind_some _ _ _ _ _ E1). by apply IH.
Qed.

(** A check at the end of a part. *)
Lemma check_counts {A} (m : M D (option A)) (check : A -> Rig D -> Z) (R : A -> Rig D -> Rig D -> Prop) :
  (forall r a r', m r = Some (Some a, r') <-> R a r r') -> (forall a r, 0 <= check a r) ->
  counts (try m (fun a r => Some (Some (check a r), r))) (fun r r' => exists a, R a r r' /\ check a r' = 0).
Proof.
  intros HR Hc r r'. split.
  - rewrite try_iff. setoid_rewrite HR. split.
    + intros (a & r1 & Ha & E). injection E as E <-. by exists a.
    + intros (a & Ha & E). exists a, r'. split; [done|]. by rewrite E.
  - intros n (a & r1 & _ & E)%try_iff. injection E as <- <-. apply Hc.
Qed.

Lemma counts_iff p R R' : counts p R -> (forall r r', R r r' <-> R' r r') -> counts p R'.
Proof. intros Hp HR r r'. rewrite <- HR. apply Hp. Qed.

Lemma count_counts : counts tb_count (fun r r' => tb_exchange (op10 0xD2) [] [Z.of_nat (file_count r')] r r').
Proof.
  eapply counts_iff; [apply (check_counts _ (fun din r => one_if (negb (byte din 0 =? Z.of_nat (file_count r)))));
    [intros; apply must_iff|intros; apply one_if_nonneg]|]. cbn beta. intros r r'.
  setoid_rewrite one_if_0. setoid_rewrite negb_false_iff. setoid_rewrite Z.eqb_eq. split.
  - intros (din & [He Hl] & Hb). destruct din as [|b [|? ?]]; [done| |done]. change (byte [b] 0) with b in Hb. by rewrite <- Hb.
  - intros He. by exists [Z.of_nat (file_count r')].
Qed.

Lemma exact_response_0 want staged din ref : length din = want -> (length staged = want -> length ref = want) ->
  exact_response want staged din ref = 0 <-> length staged = want /\ din = ref.
Proof.
  intros Hd Hr. unfold exact_response. destruct (Nat.eqb_spec (length staged) want) as [Hl|]; cbn [negb]; [|split; [done|by intros [? _]]].
  rewrite one_if_0, negb_false_iff, Z.eqb_eq. split; [intros Hb; split; [done|]; apply bad_bytes_eq; [rewrite Hr by done|]; done|].
  intros [_ ->]. rewrite <- (app_nil_r ref) at 1. apply bad_bytes_prefix.
Qed.

Lemma response_nonneg want staged got ref : 0 <= exact_response want staged got ref.
Proof. unfold exact_response. destruct (negb _); [done|apply one_if_nonneg]. Qed.

(** A fetch that is compared with what the host staged, or with a file. *)
Lemma fetch_counts cdb want (ref : option (list Z)) : (forall l, ref = Some l -> length l = want) ->
  counts (try (must cdb [] want) (fun din => staged <- get_tbx resp ;; ret (Some (exact_response want staged din (default staged ref)))))
    (fun r r' => tb_exchange cdb [] (default (the_response r') ref) r r' /\ length (the_response r') = want).
Proof.
  intros Hr. eapply counts_iff; [apply (check_counts _ (fun din r => exact_response want (the_response r) din (default (the_response r) ref)));
    [intros; apply must_iff|intros; apply response_nonneg]|]. cbn beta. intros r r'.
  assert (Hl : length (the_response r') = want -> length (default (the_response r') ref) = want).
  { destruct ref as [l|]; [intros _; by apply Hr|done]. }
  split.
  - intros (din & [He Hd] & E%exact_response_0); [|done..]. destruct E as [Hs ->]. by split.
  - intros [He Hs]. exists (default (the_response r') ref). split; [split; [done|by apply Hl]|]. apply exact_response_0; auto.
Qed.

Lemma upload_counts name cmds (check : list Z -> Z) (Q : list Z -> Prop) :
  (forall up, 0 <= check up /\ (check up = 0 <-> Q up)) ->
  counts (try (tb_send name cmds) (fun _ => up <- get_tbx upload ;; ret (Some (check up))))
    (fun r r' => tb_uploads name cmds r r' /\ Q (the_upload r')).
Proof.
  intros Hc. eapply counts_iff; [apply (check_counts _ (fun _ r => check (the_upload r)) (fun _ => tb_uploads name cmds));
    [intros; apply tb_send_uploads|intros; apply Hc]|]. cbn beta. intros r r'. setoid_rewrite (proj2 (Hc _)).
  split; [by intros (? & ? & ?)|intros [? ?]; by exists tt].
Qed.

Lemma list_counts :
  counts tb_list (fun r r' => tb_exchange (op10 0xD0) [] (the_response r') r r' /\ length (the_response r') = (file_count r * 40)%nat).
Proof. intros r r'. apply (fetch_counts (op10 0xD0) (file_count r * 40) None); [done]. Qed.

Lemma get_counts :
  counts tb_get_4096 (fun r r' =>
    tb_exchange (cdb10 0xD1 13 0 0 0 0 1) [] (the_response r') r r' /\ length (the_response r') = 4096%nat).
Proof. intros r r'. apply (fetch_counts (cdb10 0xD1 13 0 0 0 0 1) 4096 None); [done]. Qed.

Lemma big_counts m fdat (Hlen : length fdat = m) (name : list Z) :
  let add t := t <| files ::= (fun fs => fs ++ [MkTbFile name fdat]) |> in
  counts (set_tbx add ;; idx <- get_tbx (fun t => Z.of_nat (length (files t)) - 1) ;;
      try (must (cdb10 0xD1 (u8 idx) 0 0 0 0 16) [] m) (fun din =>
      staged <- get_tbx resp ;; ret (Some (exact_response m staged din fdat))))
    (fun r r' => exists r1, set_tbx add r = Some (tt, r1) /\
       tb_exchange (cdb10 0xD1 (u8 (Z.of_nat (file_count r))) 0 0 0 0 16) [] fdat r1 r' /\ length (the_response r') = m).
Proof.
  intros add r r'.
  assert (E : exists r1, set_tbx add r = Some (tt, r1) /\ file_count r1 = (file_count r + 1)%nat).
  { eexists. split; [reflexivity|]. unfold file_count. cbn. by rewrite length_app. }
  destruct E as (r1 & E & Hf). rewrite (bind_some _ _ _ _ _ E).
  rewrite !(bind_some (get_tbx (fun t => Z.of_nat (length (files t)) - 1)) _ r1 (Z.of_nat (file_count r1) - 1) r1) by done.
  replace (Z.of_nat (file_count r1) - 1) with (Z.of_nat (file_count r)) by lia.
  destruct (fetch_counts (cdb10 0xD1 (u8 (Z.of_nat (file_count r))) 0 0 0 0 16) m (Some fdat)) with (r := r1) (r' := r') as [Hz Hn];
    [by intros l [= <-]|]. split; [|exact Hn]. cbn [default] in Hz. rewrite E. etransitivity; [exact Hz|]. split.
  - intros [He Hs]. by exists r1.
  - intros (r1' & [= <-] & He). exact He.
Qed.

Lemma short_chunk_counts c : counts (tb_short_chunk c) (tb_short_exchange c.1 c.2).
Proof.
  intros r r'. unfold tb_short_chunk. split; [split|].
  - intros (b1 & r1 & E1 & E)%bind_inv. destruct b1; [|by injection E]. cbn [negb] in E.
    apply bind_inv in E as (b2 & r2 & E2 & E). destruct b2; [|by injection E]. cbn [negb] in E.
    apply bind_inv in E as (b3 & r3 & E3 & E). destruct b3; [|by injection E]. cbn [negb] in E.
    apply bind_inv in E as ([] & r4 & E4 & E). apply bind_inv in E as (b5 & r5 & E5 & E). destruct b5; [|by injection E].
    cbn [negb] in E. apply bind_inv in E as (s & r6 & E6 & (m & r7 & E7 & E)%bind_inv).
    destruct (Z.eqb_spec s 0) as [->|]; [|by injection E]. destruct (Z.eqb_spec m 0) as [->|]; [|by injection E].
    injection E as <-. exists r1, r2, r3, r4, r5, r6. apply tb_select_selects in E1. by apply put_all_puts in E2, E3.
  - intros (r1 & r2 & r3 & r4 & r5 & r6 & E1 & E2 & E3 & E4 & E5 & E6 & E7).
    apply tb_select_selects in E1. apply puts_put_all in E2, E3.
    rewrite (bind_some _ _ _ _ _ E1). cbn [negb]. rewrite (bind_some _ _ _ _ _ E2). cbn [negb].
    rewrite (bind_some _ _ _ _ _ E3). cbn [negb]. rewrite (bind_some _ _ _ _ _ E4), (bind_some _ _ _ _ _ E5). cbn [negb].
    by rewrite (bind_some _ _ _ _ _ E6), (bind_some _ _ _ _ _ E7).
  - intros n. do 3 (intros ([] & ? & _ & E)%bind_inv; [|by injection E]; revert E; cbn [negb]).
    intros (? & ? & _ & ([] & ? & _ & E)%bind_inv)%bind_inv; [|by injection E]. cbn [negb] in E.
    apply bind_inv in E as (s & ? & _ & (m & ? & _ & E)%bind_inv). injection E as <- <-. apply one_if_nonneg.
Qed.

Lemma short_chunks_counts cmds : counts (tb_short_chunks cmds) (chained ((fun c => tb_short_exchange c.1 c.2) <$> cmds)).
Proof.
  induction cmds as [|c cmds IH]; intros r r'; cbn [tb_short_chunks fmap list_fmap chained].
  { unfold ret. split; [split; [by intros [= ->]|by intros ->]|]. by intros n [= <-]. }
  split.
  - rewrite try_iff. setoid_rewrite try_iff. split.
    + intros (n & r1 & E1 & m & r2 & E2 & E). injection E as E <-.
      pose proof (proj2 (short_chunk_counts c r r1) n E1). pose proof (proj2 (IH r1 r2) m E2).
      assert (n = 0) as -> by lia. assert (m = 0) as -> by lia. exists r1. by rewrite <- (proj1 (short_chunk_counts c r r1)), <- (proj1 (IH r1 r2)).
    + intros (r1 & E1 & E2). apply short_chunk_counts in E1. apply IH in E2. exists 0, r1. split; [done|]. by exists 0, r'.
  - intros n (n1 & r1 & E1 & (m & r2 & E2 & E)%try_iff)%try_iff. injection E as <- <-.
    pose proof (proj2 (short_chunk_counts c r r1) _ E1). pose proof (proj2 (IH r1 r2) _ E2). lia.
Qed.

Lemma short_counts name src :
  counts (try (must (op10 0xD3) (name_bytes name) 0) (fun _ =>
      try (tb_short_chunks (blocks src)) (fun n => st <- tb_cmd (op10 0xD5) [] 0 ;; up <- get_tbx upload ;;
      ret (Some (n + one_if (negb (st.1 =? 0)) + one_if (negb (length up =? length src)%nat || negb (bad_bytes up src =? 0)))))))
    (fun r r' => chained ([tb_exchange (op10 0xD3) (name_bytes name) []] ++
       ((fun c => tb_short_exchange c.1 c.2) <$> blocks src) ++ [tb_exchange (op10 0xD5) [] []]) r r' /\ the_upload r' = src).
Proof.
  assert (Hup : forall up, one_if (negb (length up =? length src)%nat || negb (bad_bytes up src =? 0)) = 0 <-> up = src).
  { intros up. rewrite one_if_0, orb_false_iff, !negb_false_iff, Nat.eqb_eq, Z.eqb_eq. split; [intros []; by apply bad_bytes_eq|].
    intros ->. pose proof (bad_bytes_prefix src []) as Hb. rewrite app_nil_r in Hb. by split. }
  intros r r'. cbn [app chained]. setoid_rewrite chained_app. cbn [chained]. split; [split|].
  - intros (? & r1 & [-> E1]%must_plain & (n & r2 & E2 & ([st l] & r3 & E3 & E)%bind_inv)%try_iff)%try_iff.
    cbn [fst] in E. injection E as E <-. pose proof (proj2 (short_chunks_counts _ _ _) _ E2).
    pose proof (one_if_nonneg (negb (st =? 0))). set (b := negb _ || _) in E. pose proof (one_if_nonneg b).
    assert (n = 0) as -> by lia. assert (Hb : one_if b = 0) by lia. apply Hup in Hb.
    assert (Hst : one_if (negb (st =? 0)) = 0) by lia. apply one_if_0, negb_false_iff, Z.eqb_eq in Hst as ->.
    apply (proj1 (short_chunks_counts _ _ _)) in E2. apply tb_cmd_exchange in E3 as [E3 ->%length_zero_iff_nil].
    split; [|exact Hb]. exists r1. split; [exact E1|]. exists r2. split; [exact E2|]. exists r3. by split.
  - intros ((r1 & E1 & r2 & E2 & r3 & E3 & <-) & Hu). apply try_iff. exists [], r1. split; [by apply must_plain|].
    apply short_chunks_counts in E2. apply try_iff. exists 0, r2. split; [done|].
    assert (E4 : tb_cmd (op10 0xD5) [] 0 r2 = Some ((0, []), r3)) by (by apply tb_cmd_exchange).
    rewrite (bind_some _ _ _ _ _ E4). apply Hup in Hu. unfold get_tbx.
    rewrite (bind_some (get _) _ r3 (the_upload r3) r3) by done. unfold ret. cbn [fst Z.eqb negb]. by rewrite Hu.
  - intros n (? & r1 & _ & (m & r2 & E2 & ([st l] & r3 & E3 & E)%bind_inv)%try_iff)%try_iff. injection E as <- <-.
    pose proof (proj2 (short_chunks_counts _ _ _) _ E2). cbn [fst].
    pose proof (one_if_nonneg (negb (st =? 0))). set (b := negb _ || _). pose proof (one_if_nonneg b). lia.
Qed.

Lemma toolbox_counts : Forall2 counts toolbox_parts toolbox_session.
Proof.
  unfold toolbox_parts, toolbox_session. repeat apply Forall2_cons_2; [..|apply Forall2_nil_2].
  - apply count_counts.
  - apply list_counts.
  - apply (upload_counts _ _ _ (fun up => up = ramps 0x90000 1 1408)). intros up. split; [apply exact_nonneg|apply exact_upload_0].
  - apply (upload_counts _ _ _ (fun up => ramps 0xC5000 1 (4096 * 2 + 1536) `prefix_of` up)).
    intros up. split; [apply padded_nonneg|apply padded_upload_0].
  - apply (upload_counts _ _ _ (fun up => ramps 0x2A000 7 (127 * 512 * 2 + 4096 + 300) `prefix_of` up)).
    intros up. split; [apply padded_nonneg|apply padded_upload_0].
  - apply big_counts. unfold ramps. by rewrite length_fmap, length_seq.
  - apply short_counts.
  - apply get_counts.
Qed.

(** C16: the Toolbox run returns 0 exactly if, after the reset and with the shared folder
    in place, its eight parts are done one after the other: every command is taken and
    ends with a good status, the count and the list are those of the host, each of the
    four uploads has arrived byte for byte, and the two fetches bring the bytes asked for.
    It never returns anything but 0 and 1. *)
Theorem toolbox_passes (r r' : Rig D) (rc : Z) :
  (run_toolbox r = Some (0, r') <->
   exists r1, (tb_start ;; set_tbx (fun t => t <| files := shared_folder |>)) r = Some (tt, r1) /\
     chained toolbox_session r1 r') /\
  (run_toolbox r = Some (rc, r') -> rc = 0 \/ rc = 1).
Proof.
  split.
  - assert (Hp : forall r1, all_parts toolbox_parts 0 r1 = Some (0, r') <-> chained toolbox_session r1 r').
    { intros r1. rewrite (parts_pass _ _ toolbox_counts 0 r1 r') by lia. tauto. }
    unfold run_toolbox. split.
    + intros ([] & r1 & E1 & ([] & r2 & E2 & E)%bind_inv)%bind_inv. exists r2. split; [|by apply Hp].
      apply bind_iff. by exists tt, r1.
    + intros (r2 & ([] & r1 & E1 & E2)%bind_inv & E%Hp). apply bind_iff. exists tt, r1. split; [done|].
      apply bind_iff. by exists tt, r2.
  - intros (? & ? & _ & (? & ? & _ & E)%bind_inv)%bind_inv. by eapply parts_verdict.
Qed.

End Passes.

(** ** Examples *)

Lemma upload_accepted_witness :
  (exists t' k, run_requests (upload_requests "huge.bin"%string (chunks 2 (ramps 0x2A000 7 1300))) test_service = Some t' /\
    closed_upload "huge.bin"%string (ramps 0x2A000 7 1300 ++ replicate k 0xFF) t' /\ (k < 512)%nat) /\
  (exists t', run_requests (upload_requests "huge.bin"%string
      ((fun c => (c.1, fill_ff 512 c.2)) <$> blocks (ramps 0x2A000 7 1300))) test_service = Some t' /\
    closed_upload "huge.bin"%string (ramps 0x2A000 7 1300) t').
Proof.
  destruct (upload_accepted test_service "huge.bin"%string (ramps 0x2A000 7 1300)) as (Hc & Hb & _).
  - split; [apply TbHps_new_ok|reflexivity].
  - split; [cbn; lia|]. repeat constructor; discriminate.
  - unfold ramps. rewrite length_fmap, length_seq. lia.
  - split.
    + destruct (Hc 2 ltac:(lia)) as (t' & k & E & Hu & Hk & _). exact (ex_intro _ t' (ex_intro _ k (conj E (conj Hu Hk)))).
    + destruct (Hb 512%nat ltac:(lia)) as (t' & E & Hu & _). exact (ex_intro _ t' (conj E Hu)).
Defined.
