(* ===== verification/ScsiMain.v ===== *)
(** * The main program of the SCSI bench (scsi_bench.cpp, [main])

    The scan of the arguments, the choice of a run by its name, the single read and write
    runs, and the sweep: reads in six modes at six sampling delays, seven gaps and two
    latencies of the host, then writes of both widths at the gaps.  The printed matrix is
    the list of its cells; the waveform file is left out.

    The theorems: the sweep ends whatever the device does, prints 532 cells and exits with
    0 exactly if none of them is a failure ([sweep_ends]); a cell of the sweep does not tell
    a read with a bad status from a clean one ([cells_blind]). *)

From Stdlib Require Import Ascii.
From S2P Require Import Prelude Console Options Toolbox ScsiHps ScsiRuns ScsiCd ScsiTb.

(** ** The arguments *)

Record SweepOpts := MkSweepOpts {
  sectors : Z; hps_lat : Z; scsi_id : Z; id_slot : Z;
  one_ds : Z; one_gap : Z; one_mode : option cstr; detail : bool; wave : option cstr }.

#[export] Instance eta_SweepOpts : Eta SweepOpts := fun o =>
  MkSweepOpts (sectors o) (hps_lat o) (scsi_id o) (id_slot o) (one_ds o) (one_gap o) (one_mode o) (detail o) (wave o).

Definition SweepOpts_new : SweepOpts := MkSweepOpts 2 600 0 0 (-1) (-1) None false None.

(** [atoi]: 0 without digits; a value that is not an [int] is undefined behaviour. *)
Definition atoi (s : cstr) : option Z :=
  let s := skip_blanks s in
  let '(sign, s) := match s with
                    | c :: rest => if char_val c =? 45 then (-1, rest)
                                   else if char_val c =? 43 then (1, rest) else (1, s)
                    | [] => (1, s)
                    end in
  let v := sign * digits_value s 0 in
  if (- 2 ^ 31 <=? v) && (v <? 2 ^ 31) then Some v else None.

(** An option with a value. *)
Definition value_option (a v : cstr) (o : SweepOpts) : option (option SweepOpts) :=
  let number (set : Z -> SweepOpts) := Some (set <$> atoi v) in
  if arg_is a "--mode" then Some (Some (o <| one_mode := Some v |>))
  else if arg_is a "--ds" then number (fun n => o <| one_ds := n |>)
  else if arg_is a "--gap" then number (fun n => o <| one_gap := n |>)
  else if arg_is a "--sectors" then number (fun n => o <| sectors := n |>)
  else if arg_is a "--hps" then number (fun n => o <| hps_lat := n |>)
  else if arg_is a "--id" then number (fun n => o <| scsi_id := n |>)
  else if arg_is a "--slot" then number (fun n => o <| id_slot := n |>)
  else if arg_is a "--wave" then Some (Some (o <| wave := Some v |>))
  else None.

(** What the scan ends with: the options, the help text, or undefined behaviour. *)
Inductive Scanned := Go (o : SweepOpts) | Help | Undefined.

(** The last argument has no value. *)
Fixpoint scan (args : list cstr) (o : SweepOpts) : Scanned :=
  match args with
  | [] => Go o
  | a :: rest =>
    let flag := if arg_is a "--detail" then scan rest (o <| detail := true |>)
                else if arg_is a "--help" then Help else scan rest o in
    match rest with
    | [] => flag
    | v :: rest' =>
      match value_option a v o with
      | Some (Some o) => scan rest' o
      | Some None => Undefined
      | None => flag
      end
    end
  end.

(** ** The cells of the sweep *)

Inductive Cell := CellT | CellS | CellBad (n : Z) | CellUnstable | CellClean.

Definition read_run_cell (r : RunResult) : Cell :=
  if dreq_timeout r then CellT
  else if negb (selected r) || negb (cmd_sent r) then CellS
  else if negb (mismatches r =? 0) then CellBad (mismatches r)
  else if negb (res_unstable r =? 0) then CellUnstable
  else CellClean.

Definition write_run_cell (r : RunResult) : Cell :=
  if dreq_timeout r then CellT
  else if negb (selected r) || negb (cmd_sent r) then CellS
  else if negb (mismatches r =? 0) then CellBad (mismatches r)
  else CellClean.

(** [total_fail++] *)
Definition cell_fails (c : Cell) : bool := match c with CellT | CellS | CellBad _ => true | _ => false end.

Definition is_bad (c : Cell) : bool := match c with CellBad _ => true | _ => false end.

Definition total_fail (cells : list Cell) : Z := Z.of_nat (length (filter (fun c => cell_fails c = true) cells)).

(** The exit code of a single run. *)
Definition run_code (r : RunResult) : Z :=
  one_if (negb (mismatches r =? 0) || dreq_timeout r || negb (completion_ok r)).

Definition modes : list Mode := [M_BYTE; M_WORD; M_LONG; M_MIX; M_LONGSKEW; M_WORDSKEW].
Definition ds_list : list Z := [0; 1; 2; 3; 4; 6].
Definition gap_list : list Z := [1; 2; 3; 4; 6; 8; 12].
Definition hps_list : list Z := [600; 6000].

(** The cells of a matrix, row by row. *)
Definition ds_gap : list (Z * Z) := ds ← ds_list; (fun g => (ds, g)) <$> gap_list.

Section Main.
Context {D : Type} `{Dut D}.

Abbreviation M := (M D).

(** The cells of a matrix in order, and where the first one with wrong bytes is. *)
Fixpoint matrix {K} (cell : K -> M Cell) (ks : list K) (first_bad : option K) : M (list Cell * option K) :=
  match ks with
  | [] => ret ([], first_bad)
  | k :: ks =>
    c <- cell k ;;
    s <- matrix cell ks (match first_bad with None => if is_bad c then Some k else None | Some _ => first_bad end) ;;
    ret (c :: s.1, s.2)
  end.

(** A matrix, and its first bad cell run again for the details. *)
Definition detailed {K} (run : K -> M RunResult) (cell : RunResult -> Cell) (ks : list K) : M (list Cell) :=
  s <- matrix (fun k => r <- run k ;; ret (cell r)) ks None ;;
  match s.2 with
  | Some k => run k ;; ret s.1
  | None => ret s.1
  end.

(** The matrices of a sweep. *)
Fixpoint matrices {X} (xs : list X) (one : X -> M (list Cell)) : M (list Cell) :=
  match xs with
  | [] => ret []
  | x :: xs => l <- one x ;; ls <- matrices xs one ;; ret (l ++ ls)
  end.

Definition read_matrix (o : SweepOpts) (x : Z * Mode) : M (list Cell) :=
  detailed (fun k => run_read x.2 (sectors o) k.1 k.2 x.1 (scsi_id o) (id_slot o)) read_run_cell ds_gap.

Definition write_matrix (o : SweepOpts) (x : Z * bool) : M (list Cell) :=
  detailed (fun g => run_write x.2 (sectors o) g x.1 (scsi_id o) (id_slot o)) write_run_cell gap_list.

Definition sweep (o : SweepOpts) : M (list Cell) :=
  reads <- matrices (hl ← hps_list; (fun m => (hl, m)) <$> modes) (read_matrix o) ;;
  writes <- matrices (hl ← hps_list; (fun wm => (hl, wm)) <$> [false; true]) (write_matrix o) ;;
  ret (reads ++ writes).

(** ** [main] *)

(** The runs with a name; the result is the exit code. *)
Definition named_run (name : cstr) : option (M Z) :=
  if arg_is name "gapcmds" then Some run_gapcmds
  else if arg_is name "toolbox" then Some run_toolbox
  else if arg_is name "toolboxwdog" then Some run_toolbox_wdog
  else if arg_is name "toolboxslow" then Some run_toolbox_slow
  else if arg_is name "toolboxget" then Some run_toolbox_get
  else if arg_is name "toolboxsend" then Some run_toolbox_send
  else if arg_is name "cdvol" then Some run_cdvol
  else None.

Definition mode_of (name : cstr) : Mode :=
  if arg_is name "byte" then M_BYTE
  else if arg_is name "word" then M_WORD
  else if arg_is name "long" then M_LONG
  else if arg_is name "mix" then M_MIX
  else if arg_is name "longskew" then M_LONGSKEW
  else if arg_is name "wordskew" then M_WORDSKEW
  else M_WORD.

(** The shifts [1 << scsi_id] and [1 << id_slot] and the product [sectors * 512] are
    defined. *)
Definition run_defined (o : SweepOpts) : bool :=
  (0 <=? scsi_id o) && (scsi_id o <? 31) && (0 <=? id_slot o) && (id_slot o <? 31) &&
  (- 2 ^ 31 <=? sectors o * 512) && (sectors o * 512 <? 2 ^ 31).

(** A result, or undefined behaviour. *)
Definition checked {A} (o : SweepOpts) (m : M A) : M A := if run_defined o then m else fun _ => None.

Definition single_write (o : SweepOpts) (wm : bool) : M Z :=
  let gap := if 0 <=? one_gap o then one_gap o else 3 in
  r <- run_write wm (sectors o) gap (hps_lat o) (scsi_id o) (id_slot o) ;; ret (run_code r).

Definition single_read (o : SweepOpts) : M Z :=
  let m := match one_mode o with Some name => mode_of name | None => M_WORD end in
  let ds := if 0 <=? one_ds o then one_ds o else 0 in
  let gap := if 0 <=? one_gap o then one_gap o else 2 in
  r <- run_read m (sectors o) ds gap (hps_lat o) (scsi_id o) (id_slot o) ;; ret (run_code r).

Definition full_sweep (o : SweepOpts) : M Z :=
  cells <- sweep o ;; ret (one_if (negb (total_fail cells =? 0))).

Definition is_mode (o : SweepOpts) (name : String.string) : bool :=
  match one_mode o with Some m => arg_is m name | None => false end.

(** The program after the scan. *)
Definition bench_run (o : SweepOpts) : M Z :=
  match (name ← one_mode o; named_run name) with
  | Some m => m
  | None =>
    if is_mode o "wbyte" || is_mode o "wword" then checked o (single_write o (is_mode o "wword"))
    else if bool_decide (is_Some (one_mode o)) || (0 <=? one_ds o) || (0 <=? one_gap o) then checked o (single_read o)
    else checked o (full_sweep o)
  end.

Definition scsi_bench_main (args : list cstr) : M Z :=
  match scan args SweepOpts_new with
  | Help => ret 0
  | Undefined => fun _ => None
  | Go o => bench_run o
  end.

End Main.

(** ** The sweep ends *)

Definition sum_of {K} (B : K -> Z) (ks : list K) : Z := foldr (fun k n => B k + n) 0 ks.

Lemma sum_of_nonneg {K} (B : K -> Z) ks : (forall k, 0 <= B k) -> 0 <= sum_of B ks.
Proof. intros Hb. induction ks as [|k ks IH]; cbn [sum_of foldr]; [done|]. specialize (Hb k). unfold sum_of in IH. lia. Qed.

Lemma sum_of_in {K} (B : K -> Z) ks k : (forall k, 0 <= B k) -> k ∈ ks -> B k <= sum_of B ks.
Proof.
  intros Hb. induction 1 as [k ks|k x ks Hk IH]; cbn [sum_of foldr].
  - pose proof (sum_of_nonneg B ks Hb). unfold sum_of in *. lia.
  - specialize (Hb x). unfold sum_of in *. lia.
Qed.

Section Ends.
Context {D : Type} `{Dut D} (patience : Z).

Abbreviation ends := (ends_in patience).
Abbreviation ok := (rig_ok patience).

Ltac step lem := eapply ends_bind; [apply lem; assumption|]; cbn beta; intros.

Lemma ends_matrix {K} (cell : K -> M D Cell) (B : K -> Z) :
  (forall k, 0 <= B k) -> (forall k r, ok r -> ends (B k) (cell k) r (fun _ _ => True)) ->
  forall ks fb r, ok r ->
  ends (sum_of B ks) (matrix cell ks fb) r (fun s _ =>
    length s.1 = length ks /\ (s.2 = fb \/ exists k, k ∈ ks /\ s.2 = Some k)).
Proof.
  intros Hb Hc. induction ks as [|k ks IH]; intros fb r Hok; cbn [matrix sum_of foldr].
  - apply ends_ret; [done|done|]. split; [done|by left].
  - change (foldr (fun k n => B k + n) 0 ks) with (sum_of B ks). step Hc.
    replace (sum_of B ks) with (sum_of B ks + 0) by lia. eapply ends_bind; [by apply IH|]. cbn beta.
    intros s r2 Hok2 [Hl Hf]. apply ends_ret; [done|done|]. cbn [fst snd length]. split; [by rewrite Hl|].
    destruct Hf as [->|(k' & Hk & ->)]; [|right; exists k'; split; [by right|done]].
    destruct fb; [by left|]. destruct (is_bad a); [|by left]. right. exists k. split; [by left|done].
Qed.

Lemma ends_detailed {K} (run : K -> M D RunResult) cell (B : K -> Z) ks r :
  (forall k, 0 <= B k) -> (forall k r, ok r -> ends (B k) (run k) r (fun _ _ => True)) -> ok r ->
  ends (sum_of B ks + sum_of B ks) (detailed run cell ks) r (fun l _ => length l = length ks).
Proof.
  intros Hb Hr Hok. unfold detailed.
  assert (Hc : forall k r, ok r -> ends (B k) (a <- run k ;; ret (cell a)) r (fun _ _ => True)).
  { intros k r1 Hok1. replace (B k) with (B k + 0) by lia. step Hr. by apply ends_ret. }
  eapply ends_bind; [by apply (ends_matrix _ B)|]. cbn beta. intros s r1 Hok1 [Hl Hf].
  destruct s as [l [k|]]; cbn [fst snd] in *.
  - destruct Hf as [|(k' & Hk & [= <-])]; [done|]. 
    eapply ends_weaken with (N := B k + 0); [|pose proof (sum_of_in B ks k Hb Hk); lia|intros ? ? Hq; exact Hq].
    step Hr. by apply ends_ret.
  - apply ends_ret; [by apply sum_of_nonneg|done|done].
Qed.

Lemma ends_matrices {X} (one : X -> M D (list Cell)) B n xs :
  Forall (fun x => forall r, ok r -> ends B (one x) r (fun l _ => length l = n)) xs -> forall r, ok r ->
  ends (Z.of_nat (length xs) * B) (matrices xs one) r (fun l _ => length l = (length xs * n)%nat).
Proof.
  induction 1 as [|x xs Ho _ IH]; intros r Hok; cbn [matrices]; [by apply ends_ret|].
  cbn [length]. replace (Z.of_nat (S (length xs)) * B) with (B + (Z.of_nat (length xs) * B + 0)) by lia.
  eapply ends_bind; [by apply Ho|]. cbn beta. intros l r1 Hok1 Hl.
  eapply ends_bind; [by apply IH|]. cbn beta. intros ls r2 Hok2 Hls.
  apply ends_ret; [done|done|]. rewrite length_app. lia.
Qed.

Definition reads_bound (sectors : Z) : Z := sum_of (fun k => read_bound patience sectors k.1 k.2) ds_gap.
Definition writes_bound (sectors : Z) : Z := sum_of (fun _ => write_bound patience sectors) gap_list.
Definition sweep_bound (sectors : Z) : Z :=
  12 * (reads_bound sectors + reads_bound sectors) + 4 * (writes_bound sectors + writes_bound sectors).

Lemma read_bound_nonneg s ds gap : 1 <= s -> 0 <= read_bound patience s ds gap.
Proof.
  intros Hs. unfold read_bound, command_bound. destruct (access_bound_cycle ds gap).
  assert (0 <= pat patience) by (unfold pat; lia). nia.
Qed.

Lemma write_bound_nonneg s : 1 <= s -> 0 <= write_bound patience s.
Proof.
  intros Hs. unfold write_bound, command_bound. pose proof (cycle_pos 0 3).
  assert (0 <= pat patience) by (unfold pat; lia). nia.
Qed.

Lemma sweep_length : length ds_gap = 42%nat /\ length gap_list = 7%nat.
Proof. by split. Qed.

Lemma ends_sweep o r :
  1 <= sectors o -> ok r -> ends (sweep_bound (sectors o)) (sweep o) r (fun cells _ => length cells = 532%nat).
Proof.
  intros Hs Hok. unfold sweep, sweep_bound.
  destruct sweep_length as [Hl1 Hl2].
  change (12 * ?a + 4 * ?b) with (12 * a + (4 * b)).
  replace (12 * (reads_bound (sectors o) + reads_bound (sectors o)) + 4 * (writes_bound (sectors o) + writes_bound (sectors o)))
    with (12 * (reads_bound (sectors o) + reads_bound (sectors o)) +
          (4 * (writes_bound (sectors o) + writes_bound (sectors o)) + 0)) by lia.
  eapply ends_bind.
  { apply (ends_matrices (read_matrix o) _ 42); [|done].
    repeat (apply Forall_cons; split); [..|constructor]; intros r1 Hok1; rewrite <- Hl1;
      (apply ends_detailed; [intros k; by apply read_bound_nonneg| |done]); intros k r2 Hok2;
      (eapply ends_weaken; [apply ends_run_read; [done|unfold int; cbn; lia|done]|apply Z.le_refl|done]). }
  cbn beta. intros reads r1 Hok1 Hrl. eapply ends_bind.
  { apply (ends_matrices (write_matrix o) _ 7); [|done].
    repeat (apply Forall_cons; split); [..|constructor]; intros r2 Hok2; rewrite <- Hl2;
      (apply ends_detailed; [intros k; by apply write_bound_nonneg| |done]); intros k r3 Hok3;
      (eapply ends_weaken; [apply ends_run_write; [done|unfold int; cbn; lia|done]|apply Z.le_refl|done]). }
  cbn beta. intros writes r2 Hok2 Hwl. apply ends_ret; [done|done|].
  rewrite length_app, Hrl, Hwl. done.
Qed.

End Ends.

Lemma total_fail_0 cells : total_fail cells = 0 <-> Forall (fun c => cell_fails c = false) cells.
Proof.
  unfold total_fail. induction cells as [|c cells IH]; [split; [constructor|done]|].
  destruct (cell_fails c) eqn:E.
  - rewrite filter_cons_True by done. split; [cbn; lia|]. intros Hf. inversion_clear Hf. congruence.
  - rewrite filter_cons_False by congruence. rewrite IH. split; [by constructor|]. by inversion_clear 1.
Qed.

(** C21: the sweep ends, whatever the device does.  From a host at rest without Toolbox files, as
    the program starts it, and without arguments it runs every cell
    of the matrices, and the first bad one of each again, within a bound on the clocks
    that depends on the patience of the initiator alone; it has 532 cells, and its exit
    code is 0 exactly if none of them is a failure and 1 otherwise. *)
Theorem sweep_ends {D} `{Dut D} (patience : Z) (r : Rig D) (Hok : rig_ok patience r) :
  exists rc cells r' n, scsi_bench_main [] r = Some (rc, r') /\ sweep SweepOpts_new r = Some (cells, r') /\
    length cells = 532%nat /\ rc = one_if (negb (total_fail cells =? 0)) /\
    (rc = 0 <-> Forall (fun c => cell_fails c = false) cells) /\
    0 <= n <= sweep_bound patience 2 /\ cyc (world r') = u64 (cyc (world r) + n).
Proof.
  destruct (ends_sweep patience SweepOpts_new r ltac:(cbn; lia) Hok) as (cells & r' & n & E & Hn & Hcyc & _ & Hl).
  exists (one_if (negb (total_fail cells =? 0))), cells, r', n.
  assert (Em : scsi_bench_main [] r = full_sweep SweepOpts_new r) by reflexivity.
  split; [rewrite Em; unfold full_sweep; by rewrite (bind_some _ _ _ _ _ E)|].
  split_and!; [exact E|exact Hl|done| |apply Hn|apply Hn|exact Hcyc]. rewrite one_if_0, negb_false_iff, Z.eqb_eq. apply total_fail_0.
Qed.

(** A cell says nothing of the completion: a read whose data are right and whose status is
    not good is a clean cell of the sweep, and a failure as a single run. *)
Lemma cells_blind : exists r, read_run_cell r = CellClean /\ write_run_cell r = CellClean /\ res_status r = 2 /\ run_code r = 1.
Proof. by exists (MkRunResult true true false 0 (-1) 0 2 0 false 0). Qed.

(** ** Examples *)

Lemma sweep_ends_witness : exists rc cells r', scsi_bench_main [] tape_rig = Some (rc, r') /\
  sweep SweepOpts_new tape_rig = Some (cells, r') /\ length cells = 532%nat.
Proof.
  destruct (sweep_ends 50000 tape_rig) as (rc & cells & r' & n & E1 & E2 & Hl & _).
  - apply tape_rig_ok.
  - exists rc, cells, r'. split; [exact E1|]. split; [exact E2|exact Hl].
Defined.

(** The scan: options with a value, a flag, a value that is missing, help. *)
Example scan_examples :
  scan (lit <$> ["--mode"; "long"; "--ds"; "3"; "--detail"; "--gap"; "-4x"; "--hps"]%string) SweepOpts_new
    = Go (SweepOpts_new <| one_mode := Some (lit "long") |> <| one_ds := 3 |> <| detail := true |> <| one_gap := -4 |>) /\
  scan (lit <$> ["--sectors"; "4"; "--help"; "--id"; "3"]%string) SweepOpts_new = Help /\
  scan (lit <$> ["--id"; "4294967296"]%string) SweepOpts_new = Undefined.
Proof. by vm_compute. Qed.
