(* ===== verification/Preboot.v ===== *)
(** * The runtime of the preboot programs (preboot/common/runtime)

    Under src/SingleStepTests/preboot are programs that a Macintosh runs from its
    boot blocks, without an operating system.  This file holds what they share:
    bytes and big-endian words, the memory seen as bytes, the substitutes of the C
    library (freestanding.h), the eject call (eject.c) and the writer of the result
    file (jsonl_writer.c), which gathers a text in batches of 16 KB and hands them to
    the disk driver of the ROM.

    The driver is an argument.  Where a theorem needs what it does, the class [Disk]
    states it: a write stores the bytes of the buffer at the position of its
    parameter block.

    The theorems: decimal output reads back ([f_putul_decimal]); whatever is put,
    committed and flushed, the medium holds the text cut at the capacity of the file
    and padded with zeros, and nothing else has changed ([jw_file]); after a commit
    the text so far is on the medium ([jw_commit_persists]); the first error of the
    driver is kept, and errors do not disturb the writer ([jw_errors]). *)

From S2P Require Import Prelude Toolbox.

(** ** Bytes, words and texts *)

(** The bytes of a string literal; in [quoted] a single quote stands for a double
    one. *)
Definition text (s : string) : list Z :=
  (fun c => Z.of_N (Ascii.N_of_ascii c)) <$> String.list_ascii_of_string s.
Definition quoted (s : string) : list Z := (fun c => if c =? 39 then 34 else c) <$> text s.

Abbreviation s16 := (swrap 16).

Definition word_bytes (v : Z) : list Z := [u8 (Z.shiftr v 8); u8 v].
Definition long_bytes (v : Z) : list Z :=
  [u8 (Z.shiftr v 24); u8 (Z.shiftr v 16); u8 (Z.shiftr v 8); u8 v].

Definition put16 (pos : nat) (v : Z) (pb : list Z) : list Z := overlay pos (word_bytes v) pb.
Definition put32 (pos : nat) (v : Z) (pb : list Z) : list Z := overlay pos (long_bytes v) pb.

Definition get16 (pb : list Z) (pos : nat) : Z := byte pb pos * 256 + byte pb (pos + 1).
Definition get32 (pb : list Z) (pos : nat) : Z := get16 pb pos * 65536 + get16 pb (pos + 2).

#[export] Hint Extern 0 (0 <= _) => lia : core.
#[global] Arguments uwrap : simpl never.
#[global] Arguments swrap : simpl never.

Lemma bytes_word (v : Z) : u8 (Z.shiftr v 8) * 256 + u8 v = u16 v.
Proof.
  unfold uwrap. rewrite Z.shiftr_div_pow2 by lia.
  change (2 ^ 8) with 256; change (2 ^ 16) with 65536. div_lia.
Qed.

Lemma bytes_long (v : Z) :
  (u8 (Z.shiftr v 24) * 256 + u8 (Z.shiftr v 16)) * 65536 + (u8 (Z.shiftr v 8) * 256 + u8 v) = u32 v.
Proof.
  rewrite bytes_word.
  replace (Z.shiftr v 24) with (Z.shiftr (Z.shiftr v 16) 8) by (by rewrite Z.shiftr_shiftr by lia).
  rewrite bytes_word. unfold uwrap. rewrite Z.shiftr_div_pow2 by lia.
  change (2 ^ 16) with 65536; change (2 ^ 32) with 4294967296. div_lia.
Qed.

Lemma s16_u16 (v : Z) : - 32768 <= v < 32768 -> s16 (u16 v) = v.
Proof.
  intros Hv. unfold swrap, uwrap. change (2 ^ (16 - 1)) with 32768; change (2 ^ 16) with 65536. div_lia.
Qed.

Lemma get32_bytes (v : Z) : get32 (long_bytes v) 0 = u32 v.
Proof. exact (bytes_long v). Qed.

Lemma u8_small (v : Z) : 0 <= v < 256 -> u8 v = v.
Proof. exact (uwrap_small 8 v). Qed.

Lemma u32_small (v : Z) : 0 <= v < 4294967296 -> u32 v = v.
Proof. exact (uwrap_small 32 v). Qed.

Lemma fold_left_fmap {A B C} (f : A -> C -> A) (g : B -> C) (l : list B) (a : A) :
  fold_left f (g <$> l) a = fold_left (fun a x => f a (g x)) l a.
Proof. revert a. induction l as [|x l IH]; intros a; [done|]. apply IH. Qed.

(** ** The memory *)

(** The address space as bytes; [poke] stores one, the others keep their value. *)
Definition Mem : Type := Z -> Z.
Definition poke (a v : Z) (m : Mem) : Mem := fun b => if b =? a then u8 v else m b.

Definition rd_w (m : Mem) (a : Z) : Z := m (u32 a) * 256 + m (u32 (a + 1)).
Definition rd_i16 (m : Mem) (a : Z) : Z := s16 (rd_w m a).
Definition rd_l (m : Mem) (a : Z) : Z := rd_w m a * 65536 + rd_w m (a + 2).

Fixpoint f_memset (dst c : Z) (n : nat) (m : Mem) : Mem :=
  match n with O => m | S n => f_memset (u32 (dst + 1)) c n (poke dst c m) end.

Fixpoint f_memcpy (dst src : Z) (n : nat) (m : Mem) : Mem :=
  match n with
  | O => m
  | S n => f_memcpy (u32 (dst + 1)) (u32 (src + 1)) n (poke dst (m src) m)
  end.

(** ** Decimal output *)

(** The digits of a number, the lowest first; [n] bounds their count, the size of
    the buffer. *)
Fixpoint low_digits (n : nat) (v : Z) : list Z :=
  match n with
  | O => []
  | S n => if v =? 0 then [] else 48 + v `mod` 10 :: low_digits n (v / 10)
  end.

Definition f_putul (v : Z) : list Z := if v =? 0 then [48] else rev (low_digits 11 v).

(** The number a text of digits denotes. *)
Definition dec_value (l : list Z) : Z := fold_left (fun a c => a * 10 + (c - 48)) l 0.
Definition is_dec (c : Z) : Prop := 48 <= c < 58.

Lemma dec_value_app (l l' : list Z) :
  dec_value (l ++ l') = dec_value l * 10 ^ Z.of_nat (length l') + dec_value l'.
Proof.
  unfold dec_value. rewrite fold_left_app. generalize (fold_left (fun a c => a * 10 + (c - 48)) l 0).
  induction l' as [|c l' IH] using rev_ind; intros a; cbn; [lia|].
  rewrite !fold_left_app, length_app, Nat2Z.inj_add, Z.pow_add_r, IH by lia. cbn. lia.
Qed.

Lemma low_digits_value (n : nat) (v : Z) :
  0 <= v < 10 ^ Z.of_nat n -> dec_value (rev (low_digits n v)) = v.
Proof.
  revert v. induction n as [|n IH]; intros v Hv; cbn [low_digits]; [cbn in *; lia|].
  destruct (Z.eqb_spec v 0) as [->|Hn]; [done|]. cbn [rev].
  assert (Hp : 10 ^ Z.of_nat (S n) = 10 * 10 ^ Z.of_nat n) by (rewrite <- Z.pow_succ_r by lia; f_equal; lia).
  rewrite dec_value_app, IH by div_lia. cbn. pose proof (Z.div_mod v 10). lia.
Qed.

Lemma low_digits_dec (n : nat) (v : Z) : Forall is_dec (low_digits n v).
Proof.
  revert v. induction n as [|n IH]; intros v; cbn; [constructor|].
  destruct (v =? 0); constructor; [|done]. unfold is_dec. pose proof (Z.mod_pos_bound v 10). lia.
Qed.

Lemma low_digits_length (n k : nat) (v : Z) :
  0 <= v < 10 ^ Z.of_nat k -> (length (low_digits n v) <= k)%nat.
Proof.
  revert v k. induction n as [|n IH]; intros v k Hv; cbn; [lia|].
  destruct (Z.eqb_spec v 0) as [->|Hn]; cbn; [lia|].
  destruct k as [|k]; [cbn in Hv; lia|].
  assert (Hp : 10 ^ Z.of_nat (S k) = 10 * 10 ^ Z.of_nat k) by (rewrite <- Z.pow_succ_r by lia; f_equal; lia).
  pose proof (IH (v / 10) k ltac:(div_lia)). lia.
Qed.

(** The highest digit is not zero. *)
Lemma low_digits_last (n : nat) (v : Z) :
  0 < v < 10 ^ Z.of_nat n -> exists l d, low_digits n v = l ++ [d] /\ 49 <= d < 58.
Proof.
  revert v. induction n as [|n IH]; intros v Hv; cbn in *; [lia|].
  destruct (Z.eqb_spec v 0) as [->|Hn]; [lia|].
  assert (Hp : 10 ^ Z.of_nat (S n) = 10 * 10 ^ Z.of_nat n) by (rewrite <- Z.pow_succ_r by lia; f_equal; lia).
  destruct (Z.eq_dec (v / 10) 0) as [E|E].
  - exists [], (48 + v `mod` 10). rewrite E. split; [by destruct n|]. div_lia.
  - destruct (IH (v / 10)) as (l & d & -> & Hd); [div_lia|]. by exists (48 + v `mod` 10 :: l), d.
Qed.

(** What [f_putul] appends for a 32-bit number is its decimal form: digits that
    read back to the number, at most ten of them, the first not a zero unless it is
    the only one. *)
Theorem f_putul_decimal (v : Z) (Hv : 0 <= v < 2 ^ 32) :
  dec_value (f_putul v) = v /\ Forall is_dec (f_putul v) /\ (1 <= length (f_putul v) <= 10)%nat /\
  (hd 0 (f_putul v) = 48 -> v = 0 /\ length (f_putul v) = 1%nat).
Proof.
  change (2 ^ 32) with 4294967296 in Hv. unfold f_putul. destruct (Z.eqb_spec v 0) as [->|Hn].
  { repeat split; cbn; try lia. repeat constructor; unfold is_dec; lia. }
  destruct (low_digits_last 11 v) as (l & d & E & Hd); [lia|].
  pose proof (low_digits_length 11 10 v ltac:(lia)) as Hl.
  rewrite (low_digits_value 11) by lia. rewrite E in *. rewrite rev_app_distr. cbn.
  rewrite length_app in Hl. cbn in Hl. rewrite length_rev.
  split_and!; [done| |lia..].
  pose proof (low_digits_dec 11 v) as Hf. rewrite E in Hf. apply Forall_app in Hf as [H1 H2].
  inversion_clear H2. constructor; [done|]. by apply Forall_rev.
Qed.

Lemma f_putul_decimal_witness :
  dec_value (f_putul 4294967295) = 4294967295 /\ f_putul 4294967295 = text "4294967295".
Proof. split; [apply (f_putul_decimal 4294967295); lia | reflexivity]. Defined.

(** ** The disk driver *)

(** The _Write trap of the ROM: a parameter block and the bytes at its ioBuffer, to
    the ioResult and the machine afterwards. *)
Class Driver (W : Type) := drv_write : list Z -> list Z -> W -> Z * W.
#[global] Hint Mode Driver ! : typeclass_instances.

Definition PB_OFF_IOVREFNUM : nat := 22.
Definition PB_OFF_IOREFNUM : nat := 24.
Definition PB_OFF_IOBUFFER : nat := 32.
Definition PB_OFF_IOREQCOUNT : nat := 36.
Definition PB_OFF_IOPOSMODE : nat := 44.
Definition PB_OFF_IOPOSOFFSET : nat := 46.
Definition PB_SIZE : nat := 80.

(** What the driver does with a block: mode 1 counts from the start of the drive. *)
Definition pb_refnum (pb : list Z) : Z := s16 (get16 pb PB_OFF_IOREFNUM).
Definition pb_drive (pb : list Z) : Z := s16 (get16 pb PB_OFF_IOVREFNUM).
Definition pb_count (pb : list Z) : Z := get32 pb PB_OFF_IOREQCOUNT.
Definition pb_offset (pb : list Z) : Z := get32 pb PB_OFF_IOPOSOFFSET.

Class Disk (W : Type) `{Driver W} := {
  byte_at : W -> Z -> Z -> Z -> Z;
  drv_write_ok (pb buf : list Z) (w : W) :
    get16 pb PB_OFF_IOPOSMODE = 1 -> pb_count pb = Z.of_nat (length buf) ->
    (drv_write pb buf w).1 = 0;
  drv_write_at (pb buf : list Z) (w : W) (r d o : Z) :
    get16 pb PB_OFF_IOPOSMODE = 1 -> pb_count pb = Z.of_nat (length buf) ->
    byte_at (drv_write pb buf w).2 r d o =
    if bool_decide (r = pb_refnum pb /\ d = pb_drive pb /\
                    pb_offset pb <= o < pb_offset pb + Z.of_nat (length buf))
    then byte buf (Z.to_nat (o - pb_offset pb)) else byte_at w r d o }.

(** ** Ejecting a floppy *)

(** The parameter block of the eject call, 80 bytes by field offset. *)
Definition eject_pb (drive : Z) : list Z :=
  let pb := replicate PB_SIZE 0 in
  let pb := <[22%nat := u8 (Z.land (Z.shiftr drive 8) 255)]> pb in
  let pb := <[23%nat := u8 (Z.land drive 255)]> pb in
  let pb := <[24%nat := 255]> pb in
  let pb := <[25%nat := 251]> pb in
  let pb := <[26%nat := 0]> pb in
  <[27%nat := 7]> pb.

(** The _Control trap is an argument. *)
Definition eject_floppy {A : Type} (trap_control : list Z -> A) (drive : Z) : A :=
  trap_control (eject_pb drive).

Definition CS_CODE : nat := 26.
Definition SONY_REFNUM : Z := -5.

(** The eject call names the drive, the floppy driver and the code 7. *)
Lemma eject_pb_fields (d : Z) :
  - 32768 <= d < 32768 ->
  pb_drive (eject_pb d) = d /\ pb_refnum (eject_pb d) = SONY_REFNUM /\ get16 (eject_pb d) CS_CODE = 7.
Proof.
  intros Hd. split; [|by split].
  change (s16 (u8 (Z.land (Z.shiftr d 8) 255) * 256 + u8 (Z.land d 255)) = d).
  rewrite !land_255. unfold uwrap. change (2 ^ 8) with 256. rewrite !Zmod_mod.
  pose proof (bytes_word d) as Hb. unfold uwrap in Hb. change (2 ^ 8) with 256 in Hb. rewrite Hb.
  by apply s16_u16.
Qed.

(** ** The writer of the result file *)

Record JwCtx := MkJwCtx { refnum : Z; drive : Z; base_offset : Z; max_bytes : Z }.

Definition JW_BATCH_BYTES : Z := 16 * 1024.

Record JsonlWriter := MkJsonlWriter {
  jw_ctx : JwCtx;
  jw_sector : list Z;
  jw_used : Z;
  jw_written : Z;
  jw_last_err : Z }.

#[export] Instance eta_JsonlWriter : Eta JsonlWriter := fun j =>
  MkJsonlWriter (jw_ctx j) (jw_sector j) (jw_used j) (jw_written j) (jw_last_err j).

Section Writer.

Context {W : Type} `{Driver W}.

(** The address of the buffer, which the parameter block carries. *)
Variable sector_addr : Z.

Definition write_pb (c : JwCtx) (sector_idx : Z) : list Z :=
  let pb := replicate PB_SIZE 0 in
  let pb := put16 PB_OFF_IOREFNUM (refnum c) pb in
  let pb := put16 PB_OFF_IOVREFNUM (drive c) pb in
  let pb := put32 PB_OFF_IOBUFFER sector_addr pb in
  let pb := put32 PB_OFF_IOREQCOUNT JW_BATCH_BYTES pb in
  let pb := put16 PB_OFF_IOPOSMODE 1 pb in
  put32 PB_OFF_IOPOSOFFSET (base_offset c + sector_idx * JW_BATCH_BYTES) pb.

Definition driver_write_sector (c : JwCtx) (sector_idx : Z) (buf : list Z) (w : W) : Z * W :=
  drv_write (write_pb c sector_idx) buf w.

Definition jw_init (c : JwCtx) : JsonlWriter :=
  MkJsonlWriter c (replicate (Z.to_nat JW_BATCH_BYTES) 0) 0 0 0.

Definition write_current_batch (s : JsonlWriter * W) : JsonlWriter * W :=
  let '(j, w) := s in
  let j := if jw_used j <? JW_BATCH_BYTES
           then j <| jw_sector ::=
                  overlay (Z.to_nat (jw_used j)) (replicate (Z.to_nat (JW_BATCH_BYTES - jw_used j)) 0) |>
           else j in
  let batch_idx := jw_written j / JW_BATCH_BYTES in
  let '(r, w) := driver_write_sector (jw_ctx j) batch_idx (jw_sector j) w in
  (if negb (r =? 0) && (jw_last_err j =? 0) then j <| jw_last_err := r |> else j, w).

Definition flush_sector (s : JsonlWriter * W) : JsonlWriter * W :=
  let '(j, w) := write_current_batch s in
  (j <| jw_written := u32 (jw_written j + JW_BATCH_BYTES) |> <| jw_used := 0 |>, w).

Definition jw_putc (c : Z) (s : JsonlWriter * W) : JsonlWriter * W :=
  let '(j, w) := s in
  if max_bytes (jw_ctx j) <=? u32 (jw_written j + jw_used j) then s
  else
    let j := j <| jw_sector ::= <[Z.to_nat (jw_used j) := u8 c]> |> <| jw_used ::= Z.add 1 |> in
    if jw_used j =? JW_BATCH_BYTES then flush_sector (j, w) else (j, w).

Definition jw_puts (l : list Z) (s : JsonlWriter * W) : JsonlWriter * W :=
  fold_left (fun s c => jw_putc c s) l s.

Definition jw_putul (v : Z) (s : JsonlWriter * W) : JsonlWriter * W := jw_puts (f_putul v) s.

Definition jw_commit_line (s : JsonlWriter * W) : JsonlWriter * W :=
  if jw_used s.1 =? 0 then s else write_current_batch s.

Definition jw_flush (s : JsonlWriter * W) : JsonlWriter * W :=
  if 0 <? jw_used s.1 then flush_sector s else s.

(** What a program does with its writer. *)
Inductive JwOp := Puts (l : list Z) | Putul (v : Z) | Commit.

Definition jw_op (s : JsonlWriter * W) (o : JwOp) : JsonlWriter * W :=
  match o with
  | Puts l => jw_puts l s
  | Putul v => jw_putul v s
  | Commit => jw_commit_line s
  end.

Definition jw_run (ops : list JwOp) (s : JsonlWriter * W) : JsonlWriter * W := fold_left jw_op ops s.

Definition op_text (o : JwOp) : list Z :=
  match o with Puts l => u8 <$> l | Putul v => f_putul v | Commit => [] end.

(** *** Errors *)

(** The results of the driver reach only [jw_last_err], which keeps the first. *)
Definition same_progress (j j' : JsonlWriter) : Prop :=
  jw_ctx j = jw_ctx j' /\ jw_sector j = jw_sector j' /\ jw_used j = jw_used j' /\
  jw_written j = jw_written j'.

Lemma write_current_batch_err (j : JsonlWriter) (w : W) :
  jw_last_err j <> 0 -> jw_last_err (write_current_batch (j, w)).1 = jw_last_err j.
Proof.
  intros Hj. unfold write_current_batch. cbn zeta.
  set (j1 := if _ <? _ then _ else _).
  assert (E : jw_last_err j1 = jw_last_err j) by (unfold j1; by destruct (_ <? _)).
  destruct (driver_write_sector _ _ _ _) as [r w']. cbn. rewrite E.
  destruct (Z.eqb_spec (jw_last_err j) 0) as [?|_]; [done|]. by rewrite andb_false_r.
Qed.

End Writer.

#[global] Arguments JW_BATCH_BYTES : simpl never.
#[global] Opaque JW_BATCH_BYTES.

Lemma batch_value : JW_BATCH_BYTES = 16384.
Proof. reflexivity. Qed.

(** A driver that keeps its results, for stating which was the first error. *)
Definition Logged (W : Type) : Type := W * list Z.
#[export] Instance logged_driver (W : Type) `{Driver W} : Driver (Logged W) := fun pb buf w =>
  let '(r, w') := drv_write pb buf w.1 in (r, (w', w.2 ++ [r])).

Fixpoint first_error (l : list Z) : Z :=
  match l with [] => 0 | r :: l => if r =? 0 then first_error l else r end.

Lemma first_error_snoc (l : list Z) (r : Z) :
  first_error (l ++ [r]) = if first_error l =? 0 then r else first_error l.
Proof.
  induction l as [|x l IH]; cbn; [by destruct (Z.eqb_spec r 0)|].
  destruct (Z.eqb_spec x 0) as [->|Hx]; [done|]. by apply Z.eqb_neq in Hx as ->.
Qed.

Section Errors.

Context {W W' : Type} `{Driver W} `{Driver W'}.
Variables addr addr' : Z.

Definition in_step (s : JsonlWriter * Logged W) (s' : JsonlWriter * W') : Prop :=
  same_progress s.1 s'.1 /\ jw_last_err s.1 = first_error s.2.2.

Lemma write_batch_in_step s s' :
  in_step s s' -> in_step (write_current_batch addr s) (write_current_batch addr' s').
Proof.
  destruct s as [[c se u wr e] [w l]], s' as [[c' se' u' wr' e'] w'].
  intros [(?&?&?&?) He]. cbn in *. subst. unfold write_current_batch, driver_write_sector. cbn -[overlay].
  destruct (u' <? JW_BATCH_BYTES); cbn -[overlay];
    (unfold drv_write at 1, logged_driver; cbn -[overlay];
     destruct (drv_write _ _ w) as [r w1], (drv_write _ _ w') as [r' w1']; cbn -[overlay];
     destruct (negb (r' =? 0) && (e' =? 0)), (Z.eqb_spec r 0) as [->|Hr]; cbn -[overlay];
     split; cbn; rewrite ?first_error_snoc;
     try (destruct (Z.eqb_spec (first_error l) 0)); by (repeat split)).
Qed.

Lemma flush_in_step s s' : in_step s s' -> in_step (flush_sector addr s) (flush_sector addr' s').
Proof.
  intros Hs%write_batch_in_step. unfold flush_sector.
  destruct (write_current_batch addr s) as [j w], (write_current_batch addr' s') as [j' w'].
  destruct Hs as [(?&?&?&?) He]. split; [|done]. repeat split; cbn in *; congruence.
Qed.

Lemma putc_in_step c s s' : in_step s s' -> in_step (jw_putc addr c s) (jw_putc addr' c s').
Proof.
  destruct s as [[cx se u wr e] [w l]], s' as [[cx' se' u' wr' e'] w'].
  intros [(?&?&?&?) He]. cbn in *. subst. unfold jw_putc. cbn -[insert].
  destruct (_ <=? _); [by repeat split|].
  cbn -[insert]. destruct (_ =? _); [apply flush_in_step|]; by repeat split.
Qed.

Lemma run_in_step ops s s' : in_step s s' -> in_step (jw_run addr ops s) (jw_run addr' ops s').
Proof.
  assert (Hp : forall l s s', in_step s s' -> in_step (jw_puts addr l s) (jw_puts addr' l s')).
  { induction l as [|c l IH]; intros t t' Ht; [done|]. by apply IH, putc_in_step. }
  revert s s'. induction ops as [|[l|v|] ops IH]; intros s s' Hs; cbn; [done|apply IH..].
  - by apply Hp.
  - by apply Hp.
  - pose proof Hs as [(_&_&E&_) _]. unfold jw_commit_line. rewrite <- E.
    destruct (_ =? 0); [done | by apply write_batch_in_step].
Qed.

End Errors.

(** Errors of the driver do not disturb the writer: on any two drivers the same
    puts and commits leave the same buffer and the same counts, and what the writer
    reports is the first result of its driver that is not zero. *)
Theorem jw_errors {W W' : Type} `{Driver W} `{Driver W'} (addr addr' : Z) (c : JwCtx)
    (ops : list JwOp) (w : W) (w' : W') :
  let '(j, (_, results)) := jw_run addr ops (jw_init c, ((w, []) : Logged W)) in
  let '(j', _) := jw_run addr' ops (jw_init c, w') in
  same_progress j j' /\ jw_last_err j = first_error results.
Proof.
  pose proof (run_in_step addr addr' ops (jw_init c, ((w, []) : Logged W)) (jw_init c, w')
    ltac:(by repeat split)) as Hr.
  destruct (jw_run addr ops _) as [j [w1 l]], (jw_run addr' ops _) as [j' w1']. exact Hr.
Qed.

(** ** What is on the medium *)

Definition ctx_ok (c : JwCtx) : Prop :=
  - 32768 <= refnum c < 32768 /\ - 32768 <= drive c < 32768 /\
  0 <= base_offset c /\ 0 <= max_bytes c /\ base_offset c + max_bytes c + 16384 <= 2 ^ 32.

(** The bytes that batches holding [n] bytes take. *)
Definition extent (n : Z) : Z := (n + (JW_BATCH_BYTES - 1)) / JW_BATCH_BYTES * JW_BATCH_BYTES.

Lemma write_pb_fields (addr : Z) (c : JwCtx) (idx : Z) (Hc : ctx_ok c) :
  let pb := write_pb addr c idx in
  get16 pb PB_OFF_IOPOSMODE = 1 /\ pb_count pb = JW_BATCH_BYTES /\
  pb_offset pb = u32 (base_offset c + idx * JW_BATCH_BYTES) /\
  pb_refnum pb = refnum c /\ pb_drive pb = drive c.
Proof.
  destruct Hc as (Hr & Hd & _). cbn zeta.
  assert (E1 : get16 (write_pb addr c idx) PB_OFF_IOPOSMODE = u16 1) by exact (bytes_word 1).
  assert (E2 : pb_count (write_pb addr c idx) = u32 JW_BATCH_BYTES) by exact (bytes_long JW_BATCH_BYTES).
  assert (E3 : pb_offset (write_pb addr c idx) = u32 (base_offset c + idx * JW_BATCH_BYTES))
    by exact (bytes_long (base_offset c + idx * JW_BATCH_BYTES)).
  assert (E4 : pb_refnum (write_pb addr c idx) = s16 (u16 (refnum c)))
    by exact (f_equal (swrap 16) (bytes_word (refnum c))).
  assert (E5 : pb_drive (write_pb addr c idx) = s16 (u16 (drive c)))
    by exact (f_equal (swrap 16) (bytes_word (drive c))).
  rewrite E1, E2, E3, E4, E5, !s16_u16 by done. by rewrite batch_value.
Qed.

Section Medium.

Context {W : Type} `{Disk W}.
Variables (addr : Z) (c : JwCtx) (w0 : W).
Hypothesis Hc : ctx_ok c.

Definition medium (w : W) (o : Z) : Z := byte_at w (refnum c) (drive c) (base_offset c + o).

(** [in_file r d o n]: the position lies in the batches of the first [n] bytes. *)
Definition in_file (r d o n : Z) : Prop :=
  r = refnum c /\ d = drive c /\ base_offset c <= o < base_offset c + extent n.

(** The writer has accepted the bytes [l]. *)
Record Accepted (l : list Z) (j : JsonlWriter) (w : W) : Prop := {
  ac_ctx : jw_ctx j = c;
  ac_len : Z.of_nat (length (jw_sector j)) = JW_BATCH_BYTES;
  ac_used : 0 <= jw_used j <= JW_BATCH_BYTES;
  ac_written : exists k, 0 <= k /\ jw_written j = k * JW_BATCH_BYTES;
  ac_total : Z.of_nat (length l) = jw_written j + jw_used j;
  ac_max : Z.of_nat (length l) <= max_bytes c;
  ac_buf : take (Z.to_nat (jw_used j)) (jw_sector j) = drop (Z.to_nat (jw_written j)) l;
  ac_err : jw_last_err j = 0;
  ac_disk : forall o, 0 <= o < jw_written j -> medium w o = byte l (Z.to_nat o);
  ac_frame : forall r d o, ~ in_file r d o (Z.of_nat (length l)) -> byte_at w r d o = byte_at w0 r d o }.

Lemma extent_batches (k u : Z) :
  0 <= k -> 0 < u <= JW_BATCH_BYTES -> extent (k * JW_BATCH_BYTES + u) = (k + 1) * JW_BATCH_BYTES.
Proof. unfold extent. rewrite batch_value. intros. f_equal. div_lia. Qed.

Lemma extent_mono (n m : Z) : n <= m -> extent n <= extent m.
Proof. unfold extent. rewrite batch_value. intros. div_lia. Qed.

(** The buffer as it is written: the used bytes and zeros behind them. *)
Lemma padded_buffer (l : list Z) (j : JsonlWriter) (w : W) (o : Z) :
  Accepted l j w -> 0 <= o < JW_BATCH_BYTES ->
  byte (if jw_used j <? JW_BATCH_BYTES
        then overlay (Z.to_nat (jw_used j)) (replicate (Z.to_nat (JW_BATCH_BYTES - jw_used j)) 0) (jw_sector j)
        else jw_sector j) (Z.to_nat o) = byte l (Z.to_nat (jw_written j + o)).
Proof.
  intros [E1 E2 E3 (k & Hk & E4) E5 E6 E7 E8 E9 E10] Ho.
  assert (Hl : (length (take (Z.to_nat (jw_used j)) (jw_sector j)) = Z.to_nat (jw_used j))%nat)
    by (rewrite length_take; lia).
  assert (Hin : o < jw_used j -> take (Z.to_nat (jw_used j)) (jw_sector j) !! Z.to_nat o = l !! Z.to_nat (jw_written j + o)).
  { intros Ho'. rewrite E7, lookup_drop. f_equal. lia. }
  unfold byte. destruct (Z.ltb_spec (jw_used j) JW_BATCH_BYTES) as [Hu|Hu].
  - unfold overlay. destruct (Z.lt_ge_cases o (jw_used j)) as [Ho'|Ho'].
    + rewrite lookup_app_l by lia. by rewrite Hin.
    + rewrite lookup_app_r, Hl, lookup_app_l, lookup_replicate_2 by (rewrite ?length_replicate; lia).
      by rewrite lookup_ge_None_2 by lia.
  - rewrite <- Hin by lia. by rewrite take_ge by lia.
Qed.

(** Writing the batch stores the bytes accepted so far, zeros behind them, and
    leaves the writer as it is. *)
Lemma batch_stored (l : list Z) (j : JsonlWriter) (w : W) :
  Accepted l j w -> 0 < jw_used j ->
  let '(j', w') := write_current_batch addr (j, w) in
  Accepted l j' w' /\ jw_used j' = jw_used j /\ jw_written j' = jw_written j /\
  forall o, 0 <= o < jw_written j + JW_BATCH_BYTES -> medium w' o = byte l (Z.to_nat o).
Proof.
  intros Ha Hu. pose proof (padded_buffer l j w) as Hpad.
  pose proof Ha as [E1 E2 E3 (k & Hk & E4) E5 E6 E7 E8 E9 E10].
  unfold write_current_batch. cbn zeta.
  set (sec := if jw_used j <? JW_BATCH_BYTES
        then overlay (Z.to_nat (jw_used j)) (replicate (Z.to_nat (JW_BATCH_BYTES - jw_used j)) 0) (jw_sector j)
        else jw_sector j) in *.
  assert (Ej : (if jw_used j <? JW_BATCH_BYTES
        then j <| jw_sector ::= overlay (Z.to_nat (jw_used j)) (replicate (Z.to_nat (JW_BATCH_BYTES - jw_used j)) 0) |>
        else j) = j <| jw_sector := sec |>) by (unfold sec; destruct j; by destruct (_ <? _)).
  assert (Hsec : Z.of_nat (length sec) = JW_BATCH_BYTES).
  { unfold sec, overlay. destruct (_ <? _); [|done].
    rewrite !length_app, length_take, length_drop, length_replicate. lia. }
  rewrite Ej. clear Ej. cbn -[byte]. rewrite E1.
  destruct (write_pb_fields addr c (jw_written j / JW_BATCH_BYTES) Hc) as (F1 & F2 & F3 & F4 & F5).
  assert (Hoff : pb_offset (write_pb addr c (jw_written j / JW_BATCH_BYTES)) = base_offset c + jw_written j).
  { rewrite F3, E4, Z.div_mul by (rewrite batch_value; lia). apply u32_small.
    destruct Hc as (_ & _ & ? & ? & ?). change (2 ^ 32) with 4294967296 in *. rewrite batch_value in *. lia. }
  unfold driver_write_sector.
  pose proof (drv_write_ok (write_pb addr c (jw_written j / JW_BATCH_BYTES)) sec w F1 ltac:(lia)) as Hr.
  pose proof (fun r d o => drv_write_at (write_pb addr c (jw_written j / JW_BATCH_BYTES)) sec w r d o F1 ltac:(lia)) as Hw.
  destruct (drv_write _ sec w) as [r w']. cbn [fst snd] in Hr, Hw. subst r. cbn [negb Z.eqb andb].
  rewrite F4, F5, Hoff, Hsec in Hw.
  assert (Hdisk : forall o, 0 <= o < jw_written j + JW_BATCH_BYTES -> medium w' o = byte l (Z.to_nat o)).
  { intros o Ho. unfold medium. rewrite Hw. case_bool_decide as Hin.
    - replace (base_offset c + o - (base_offset c + jw_written j)) with (o - jw_written j) by lia.
      rewrite Hpad by (done || lia). f_equal. lia.
    - apply E9. lia. }
  split_and!; [|done..]. split; try done; cbn.
  - exact (ex_intro _ k (conj Hk E4)).
  - unfold sec, overlay. destruct (_ <? _); [|done].
    rewrite take_app_le by (rewrite length_take; lia).
    by rewrite take_take, Nat.min_id.
  - intros o Ho. apply Hdisk. rewrite batch_value. lia.
  - intros r d o Ho. rewrite Hw, bool_decide_eq_false_2; [by apply E10|].
    intros (-> & -> & Hin). apply Ho. unfold in_file. rewrite E5, E4, extent_batches by lia.
    rewrite E4 in Hin. split_and!; [done|done|lia..].
Qed.

Lemma putc_accepted (l : list Z) (x : Z) (s : JsonlWriter * W) :
  Accepted l s.1 s.2 -> jw_used s.1 < JW_BATCH_BYTES ->
  let s' := jw_putc addr x s in
  Accepted (take (Z.to_nat (max_bytes c)) (l ++ [u8 x])) s'.1 s'.2 /\ jw_used s'.1 < JW_BATCH_BYTES.
Proof.
  destruct s as [j w]. cbn [fst snd]. intros Ha Hu.
  pose proof Ha as [E1 E2 E3 (k & Hk & E4) E5 E6 E7 E8 E9 E10].
  destruct Hc as (_ & _ & Hb & Hm & Hlim). rewrite <- batch_value in Hlim. change (2 ^ 32) with 4294967296 in Hlim.
  unfold jw_putc. rewrite u32_small by lia. rewrite E1.
  destruct (Z.leb_spec (max_bytes c) (jw_written j + jw_used j)) as [Hf|Hf].
  { rewrite take_app_le, take_ge by lia. by split. }
  rewrite (take_ge (_ ++ _)) by (rewrite length_app; cbn; lia).
  set (j1 := j <| jw_sector ::= _ |> <| jw_used ::= _ |>).
  assert (Ha1 : Accepted (l ++ [u8 x]) j1 w).
  { assert (Hl1 : Z.of_nat (length (l ++ [u8 x])) = Z.of_nat (length l) + 1) by (rewrite length_app; cbn; lia).
    split; rewrite ?Hl1; cbn -[insert Z.add]; rewrite ?length_insert; try done; try lia.
    - exact (ex_intro _ k (conj Hk E4)).
    - replace (Z.to_nat (1 + jw_used j)) with (S (Z.to_nat (jw_used j))) by lia.
      rewrite (take_S_r _ _ (u8 x)) by (apply list_lookup_insert_eq; lia).
      rewrite take_insert_ge by lia. by rewrite E7, drop_app_le by lia.
    - intros o Ho. rewrite E9 by done. unfold byte. by rewrite lookup_app_l by lia.
    - intros r d o Ho. apply E10. intros (-> & -> & Hin). apply Ho.
      
      pose proof (extent_mono (Z.of_nat (length l)) (Z.of_nat (length l) + 1)).
      split_and!; [done|done|lia..]. }
  assert (Eu : jw_used j1 = 1 + jw_used j) by done.
  destruct (Z.eqb_spec (jw_used j1) JW_BATCH_BYTES) as [Hfull|Hfull]; [|cbn [fst snd]; split; [done|lia]].
  unfold flush_sector. pose proof (batch_stored _ j1 w Ha1 ltac:(lia)) as Hb1.
  destruct (write_current_batch addr (j1, w)) as [j2 w2]. destruct Hb1 as (Ha2 & Eu2 & Ew2 & Hd2).
  cbn [fst snd]. split; [|cbn; rewrite batch_value; lia].
  destruct Ha2 as [F1 F2 F3 (k2 & Hk2 & F4) F5 F6 F7 F8 F9 F10].
  assert (Hwr : u32 (jw_written j2 + JW_BATCH_BYTES) = jw_written j2 + JW_BATCH_BYTES) by (apply u32_small; lia).
  split; cbn; rewrite ?Hwr; try done; try lia.
  - exists (k2 + 1). lia.
  - rewrite take_0, drop_ge by lia. done.
  - intros o Ho. apply Hd2. lia.
Qed.

Lemma puts_accepted (t l : list Z) (s : JsonlWriter * W) :
  Accepted l s.1 s.2 -> jw_used s.1 < JW_BATCH_BYTES ->
  let s' := jw_puts addr t s in
  Accepted (take (Z.to_nat (max_bytes c)) (l ++ (uwrap 8 <$> t))) s'.1 s'.2 /\ jw_used s'.1 < JW_BATCH_BYTES.
Proof.
  revert l s. induction t as [|x t IH]; intros l s Ha Hu.
  { cbn. rewrite app_nil_r, take_ge; [done|]. destruct Ha. lia. }
  destruct (putc_accepted l x s Ha Hu) as [Ha1 Hu1].
  destruct (IH _ _ Ha1 Hu1) as [Ha2 Hu2]. split; [|done].
  match goal with |- Accepted ?a _ _ => match type of Ha2 with Accepted ?b _ _ => replace a with b; [done|] end end.
  rewrite fmap_cons, (cons_middle (u8 x) l (_ <$> t)), (app_assoc l [u8 x]).
  generalize (l ++ [u8 x]) as l1. intros l1.
  destruct (Nat.le_gt_cases (length l1) (Z.to_nat (max_bytes c))) as [Hl|Hl].
  - by rewrite (take_ge l1) by done.
  - rewrite !take_app_le by (rewrite ?length_take; lia). by rewrite take_take, Nat.min_id.
Qed.

Lemma commit_accepted (l : list Z) (s : JsonlWriter * W) :
  Accepted l s.1 s.2 -> jw_used s.1 < JW_BATCH_BYTES ->
  let s' := jw_commit_line addr s in
  Accepted l s'.1 s'.2 /\ jw_used s'.1 < JW_BATCH_BYTES /\
  forall o, 0 <= o < extent (Z.of_nat (length l)) -> medium s'.2 o = byte l (Z.to_nat o).
Proof.
  intros Ha Hu. unfold jw_commit_line. destruct s as [j w]. cbn [fst snd] in *.
  pose proof Ha as [E1 E2 E3 (k & Hk & E4) E5 E6 E7 E8 E9 E10].
  destruct (Z.eqb_spec (jw_used j) 0) as [Hz|Hz]; cbn [fst snd].
  - split_and!; [done..|]. intros o Ho. apply E9. rewrite E5, Hz, E4 in Ho.
    unfold extent in Ho. rewrite E4. revert Ho. rewrite batch_value. intros. div_lia.
  - pose proof (batch_stored l j w Ha ltac:(lia)) as Hb.
    destruct (write_current_batch addr (j, w)) as [j' w']. destruct Hb as (Ha' & Eu & Ew & Hd).
    split_and!; [done|cbn; lia|]. intros o Ho. apply Hd.
    rewrite E5, E4, extent_batches in Ho by lia. lia.
Qed.

(** The text of a run is what its operations put, cut at the capacity. *)
Definition run_text (ops : list JwOp) : list Z := take (Z.to_nat (max_bytes c)) (concat (op_text <$> ops)).

Lemma f_putul_bytes (v : Z) : uwrap 8 <$> f_putul v = f_putul v.
Proof.
  assert (Hf : Forall is_dec (f_putul v)).
  { unfold f_putul. destruct (v =? 0); [repeat constructor; unfold is_dec; lia|].
    apply Forall_rev, low_digits_dec. }
  induction Hf as [|x l Hx _ IH]; [done|]. cbn. rewrite IH. f_equal. apply u8_small. unfold is_dec in Hx. lia.
Qed.

Lemma run_accepted (ops : list JwOp) (l : list Z) (s : JsonlWriter * W) :
  Accepted l s.1 s.2 -> jw_used s.1 < JW_BATCH_BYTES ->
  let s' := jw_run addr ops s in
  Accepted (take (Z.to_nat (max_bytes c)) (l ++ concat (op_text <$> ops))) s'.1 s'.2 /\
  jw_used s'.1 < JW_BATCH_BYTES.
Proof.
  revert l s. induction ops as [|o ops IH]; intros l s Ha Hu.
  { cbn. rewrite app_nil_r, take_ge; [done|]. destruct Ha. lia. }
  assert (Ho : Accepted (take (Z.to_nat (max_bytes c)) (l ++ op_text o)) (jw_op addr s o).1 (jw_op addr s o).2 /\
               jw_used (jw_op addr s o).1 < JW_BATCH_BYTES).
  { destruct o as [t|v|]; cbn [jw_op op_text].
    - by apply puts_accepted.
    - rewrite <- f_putul_bytes. by apply puts_accepted.
    - rewrite app_nil_r, take_ge by (destruct Ha; lia). by destruct (commit_accepted l s Ha Hu) as (? & ? & _). }
  destruct Ho as [Ha1 Hu1]. destruct (IH _ _ Ha1 Hu1) as [Ha2 Hu2]. split; [|done].
  match goal with |- Accepted ?a _ _ => match type of Ha2 with Accepted ?b _ _ => replace a with b; [done|] end end.
  rewrite fmap_cons, concat_cons, (app_assoc l). generalize (l ++ op_text o) as l1. intros l1.
  destruct (Nat.le_gt_cases (length l1) (Z.to_nat (max_bytes c))) as [Hl|Hl].
  - by rewrite (take_ge l1) by done.
  - rewrite !take_app_le by (rewrite ?length_take; lia). by rewrite take_take, Nat.min_id.
Qed.

Lemma init_accepted : Accepted [] (jw_init c) w0.
Proof.
  destruct Hc as (_ & _ & _ & Hm & _).
  split; cbn; rewrite ?length_replicate; try done; try lia; try (by exists 0).
Qed.

Lemma run_init (ops : list JwOp) :
  let s := jw_run addr ops (jw_init c, w0) in
  Accepted (run_text ops) s.1 s.2 /\ jw_used s.1 < JW_BATCH_BYTES.
Proof. apply (run_accepted ops []); [exact init_accepted | cbn; rewrite batch_value; lia]. Qed.

Lemma flush_accepted (l : list Z) (s : JsonlWriter * W) :
  Accepted l s.1 s.2 -> jw_used s.1 < JW_BATCH_BYTES ->
  let '(j, w) := jw_flush addr s in
  let n := Z.of_nat (length l) in
  jw_last_err j = 0 /\
  (forall o, 0 <= o < extent n -> medium w o = byte l (Z.to_nat o)) /\
  (forall r d o, ~ in_file r d o n -> byte_at w r d o = byte_at w0 r d o).
Proof.
  intros Ha Hu. destruct (commit_accepted _ _ Ha Hu) as (Ha' & _ & Hd).
  unfold jw_flush, flush_sector, jw_commit_line in *. destruct s as [j w]. cbn [fst snd] in *.
  assert (Hz : (0 <? jw_used j) = negb (jw_used j =? 0)) by (destruct Ha; zcases; cbn; lia).
  rewrite Hz. destruct (jw_used j =? 0); cbn [negb].
  - destruct Ha'. by split_and!.
  - destruct (write_current_batch addr (j, w)) as [j' w']. destruct Ha'. by split_and!.
Qed.

(** C12: after any puts and commits and a flush at the end, the medium holds in the
    batches of the file the text put, cut at the capacity of the file, and zeros
    behind it; every other byte of every drive is as it was, and no error is
    reported. *)
Theorem jw_file (ops : list JwOp) :
  let '(j, w) := jw_flush addr (jw_run addr ops (jw_init c, w0)) in
  let n := Z.of_nat (length (run_text ops)) in
  jw_last_err j = 0 /\
  (forall o, 0 <= o < extent n -> medium w o = byte (run_text ops) (Z.to_nat o)) /\
  (forall r d o, ~ in_file r d o n -> byte_at w r d o = byte_at w0 r d o).
Proof. destruct (run_init ops) as [Ha Hu]. exact (flush_accepted _ _ Ha Hu). Qed.

(** After a commit the medium holds every byte put so far that the file has room
    for, before any flush. *)
Theorem jw_commit_persists (ops : list JwOp) (o : Z) (Ho : 0 <= o < Z.of_nat (length (run_text ops))) :
  medium (jw_run addr (ops ++ [Commit]) (jw_init c, w0)).2 o = byte (run_text ops) (Z.to_nat o).
Proof.
  destruct (run_init ops) as [Ha Hu]. destruct (commit_accepted _ _ Ha Hu) as (_ & _ & Hd).
  unfold jw_run. rewrite fold_left_app. apply Hd. unfold extent. rewrite batch_value. div_lia.
Qed.

End Medium.

(** A drive that stores what it is told. *)
Definition Store : Type := list (list Z * list Z).
#[export] Instance store_driver : Driver Store := fun pb buf w => (0, (pb, buf) :: w).

Fixpoint store_at (w : Store) (r d o : Z) : Z :=
  match w with
  | [] => 255
  | (pb, buf) :: w =>
      if bool_decide (r = pb_refnum pb /\ d = pb_drive pb /\
                      pb_offset pb <= o < pb_offset pb + Z.of_nat (length buf))
      then byte buf (Z.to_nat (o - pb_offset pb)) else store_at w r d o
  end.

#[export] Instance store_disk : Disk Store.
Proof. by apply (Build_Disk Store _ store_at). Defined.

Definition floppy : JwCtx := MkJwCtx (-5) 1 4096 8.

Lemma jw_file_witness :
  ctx_ok floppy /\
  let '(j, w) := jw_flush 0 (jw_run 0 [Puts (text "len="); Commit; Putul 12345] (jw_init floppy, ([] : Store))) in
  medium floppy w 7 = 52 /\ medium floppy w 8 = 0 /\ byte_at w (-5) 1 4095 = 255.
Proof.
  assert (Hf : ctx_ok floppy) by (unfold ctx_ok; cbn; lia). split; [exact Hf|].
  pose proof (jw_file 0 floppy ([] : Store) Hf [Puts (text "len="); Commit; Putul 12345]) as Hj.
  destruct (jw_flush _ _) as [j w]. destruct Hj as (_ & H1 & H2).
  assert (He : extent (Z.of_nat (length (run_text floppy [Puts (text "len="); Commit; Putul 12345]))) = 16384) by reflexivity.
  rewrite He in H1. split_and!.
  - rewrite (H1 7) by lia. reflexivity.
  - rewrite (H1 8) by lia. reflexivity.
  - rewrite H2; [reflexivity|]. intros (_ & _ & ?). cbn in *. lia.
Defined.

Lemma jw_commit_persists_witness :
  medium floppy (jw_run 0 ([Puts (text "abc")] ++ [Commit]) (jw_init floppy, ([] : Store))).2 2 = 99.
Proof.
  rewrite (jw_commit_persists 0 floppy ([] : Store) ltac:(unfold ctx_ok; cbn; lia) [Puts (text "abc")] 2); [reflexivity|].
  change (0 <= 2 < 3). lia.
Defined.
