(* ===== verification/Display.v ===== *)
(** * The text display of the preboot programs (display_1bpp.c)

    The programs paint text on a frame buffer of one bit per pixel with a font of
    their own: a character is a column of eight bytes, one per line of the screen,
    inverted.  [Screen] is the memory with the row length the program has cached;
    [Config] is what the build chooses, the source of the frame buffer address and of
    the row length.

    The theorems: a painted string can be read back from the screen, cell by cell,
    and nothing outside its cells changes ([paint_reads_back]); a row length taken
    from the ROM is plausible and settled by its first use ([row_bytes_settled]); a
    wipe blackens exactly the rows asked for ([display_wipe_rows]). *)

From S2P Require Import Prelude Toolbox Preboot.

(** ** Configuration and state *)

Inductive RowBytes := ROW_BYTES (n : Z) | ROW_BYTES_AUTO.
Inductive FbBase := ScrnBase | g_display_fb (a : Z).

Record Config := MkConfig { cf_rows : RowBytes; cf_base : FbBase }.

Record Screen := MkScreen { scr_mem : Mem; g_row_bytes : Z }.
#[export] Instance eta_Screen : Eta Screen := fun s => MkScreen (scr_mem s) (g_row_bytes s).

Definition g_font : list Z := [
  0; 0; 0; 0; 0; 0; 0; 0;
  24; 24; 24; 24; 24; 0; 24; 0;
  54; 54; 20; 0; 0; 0; 0; 0;
  20; 20; 127; 20; 127; 20; 20; 0;
  8; 62; 64; 60; 2; 124; 16; 0;
  98; 100; 8; 16; 38; 70; 0; 0;
  48; 72; 48; 82; 76; 50; 0; 0;
  24; 24; 16; 0; 0; 0; 0; 0;
  12; 16; 32; 32; 32; 16; 12; 0;
  48; 8; 4; 4; 4; 8; 48; 0;
  0; 36; 24; 126; 24; 36; 0; 0;
  0; 8; 8; 62; 8; 8; 0; 0;
  0; 0; 0; 0; 0; 24; 24; 16;
  0; 0; 0; 62; 0; 0; 0; 0;
  0; 0; 0; 0; 0; 24; 24; 0;
  2; 4; 8; 16; 32; 64; 0; 0;
  60; 66; 70; 74; 82; 98; 60; 0;
  24; 40; 8; 8; 8; 8; 62; 0;
  60; 66; 2; 12; 48; 64; 126; 0;
  60; 66; 2; 28; 2; 66; 60; 0;
  4; 12; 20; 36; 126; 4; 4; 0;
  126; 64; 124; 2; 2; 66; 60; 0;
  28; 32; 64; 124; 66; 66; 60; 0;
  126; 2; 4; 8; 16; 32; 32; 0;
  60; 66; 66; 60; 66; 66; 60; 0;
  60; 66; 66; 62; 2; 4; 56; 0;
  0; 24; 24; 0; 24; 24; 0; 0;
  0; 24; 24; 0; 24; 24; 16; 0;
  4; 8; 16; 32; 16; 8; 4; 0;
  0; 0; 126; 0; 126; 0; 0; 0;
  32; 16; 8; 4; 8; 16; 32; 0;
  60; 66; 2; 12; 16; 0; 16; 0;
  60; 66; 94; 82; 94; 64; 62; 0;
  60; 66; 66; 126; 66; 66; 66; 0;
  124; 66; 66; 124; 66; 66; 124; 0;
  60; 66; 64; 64; 64; 66; 60; 0;
  120; 68; 66; 66; 66; 68; 120; 0;
  126; 64; 64; 124; 64; 64; 126; 0;
  126; 64; 64; 124; 64; 64; 64; 0;
  60; 66; 64; 78; 66; 66; 60; 0;
  66; 66; 66; 126; 66; 66; 66; 0;
  62; 8; 8; 8; 8; 8; 62; 0;
  2; 2; 2; 2; 2; 66; 60; 0;
  66; 68; 72; 112; 72; 68; 66; 0;
  64; 64; 64; 64; 64; 64; 126; 0;
  66; 102; 90; 66; 66; 66; 66; 0;
  66; 98; 82; 74; 70; 66; 66; 0;
  60; 66; 66; 66; 66; 66; 60; 0;
  124; 66; 66; 124; 64; 64; 64; 0;
  60; 66; 66; 66; 74; 68; 58; 0;
  124; 66; 66; 124; 72; 68; 66; 0;
  60; 66; 64; 60; 2; 66; 60; 0;
  127; 8; 8; 8; 8; 8; 8; 0;
  66; 66; 66; 66; 66; 66; 60; 0;
  66; 66; 66; 66; 66; 36; 24; 0;
  66; 66; 66; 66; 90; 102; 66; 0;
  66; 66; 36; 24; 36; 66; 66; 0;
  66; 66; 66; 60; 24; 24; 24; 0;
  126; 2; 4; 24; 32; 64; 126; 0;
  28; 16; 16; 16; 16; 16; 28; 0;
  64; 32; 16; 8; 4; 2; 0; 0;
  56; 8; 8; 8; 8; 8; 56; 0;
  24; 36; 66; 0; 0; 0; 0; 0;
  0; 0; 0; 0; 0; 0; 0; 126;
  24; 24; 8; 0; 0; 0; 0; 0;
  0; 0; 60; 2; 62; 66; 62; 0;
  64; 64; 124; 66; 66; 66; 124; 0;
  0; 0; 60; 66; 64; 66; 60; 0;
  2; 2; 62; 66; 66; 66; 62; 0;
  0; 0; 60; 66; 126; 64; 60; 0;
  12; 16; 62; 16; 16; 16; 16; 0;
  0; 0; 62; 66; 66; 62; 2; 60;
  64; 64; 124; 66; 66; 66; 66; 0;
  8; 0; 24; 8; 8; 8; 28; 0;
  4; 0; 12; 4; 4; 4; 68; 56;
  64; 64; 68; 72; 112; 72; 68; 0;
  24; 8; 8; 8; 8; 8; 28; 0;
  0; 0; 118; 73; 73; 73; 73; 0;
  0; 0; 124; 66; 66; 66; 66; 0;
  0; 0; 60; 66; 66; 66; 60; 0;
  0; 0; 124; 66; 66; 124; 64; 64;
  0; 0; 62; 66; 66; 62; 2; 2;
  0; 0; 92; 98; 64; 64; 64; 0;
  0; 0; 62; 64; 60; 2; 124; 0;
  16; 16; 62; 16; 16; 18; 12; 0;
  0; 0; 66; 66; 66; 66; 62; 0;
  0; 0; 66; 66; 66; 36; 24; 0;
  0; 0; 66; 66; 73; 73; 54; 0;
  0; 0; 66; 36; 24; 36; 66; 0;
  0; 0; 66; 66; 66; 62; 2; 60;
  0; 0; 126; 4; 24; 32; 126; 0;
  12; 16; 16; 96; 16; 16; 12; 0;
  24; 24; 24; 24; 24; 24; 24; 0;
  48; 8; 8; 6; 8; 8; 48; 0;
  0; 0; 50; 76; 0; 0; 0; 0].

Section Display.

Context (k : Config).

Definition fb_base (s : Screen) : Z :=
  match cf_base k with ScrnBase => rd_l (scr_mem s) 0x0824 | g_display_fb a => u32 a end.

Definition fb_ok (fb : Z) : bool :=
  match cf_base k with
  | ScrnBase => negb (fb =? 0) && (0x00100000 <=? fb)
  | g_display_fb _ => negb (fb =? 0)
  end.

Definition display_row_bytes (s : Screen) : Z * Screen :=
  match cf_rows k with
  | ROW_BYTES n => (u32 n, s)
  | ROW_BYTES_AUTO =>
      let s := if g_row_bytes s =? 0
               then let v := rd_w (scr_mem s) 0x0106 in
                    let v := if (v <? 16) || (4096 <? v) || negb (Z.land v 3 =? 0) then 80 else v in
                    s <| g_row_bytes := v |>
               else s in
      (g_row_bytes s, s)
  end.

(** The character painted for [c]. *)
Definition shown (c : Z) : Z := if (u8 c <? 0x20) || (0x7E <? u8 c) then 63 else u8 c.

Definition glyph (c : Z) : list Z := take 8 (drop (Z.to_nat ((shown c - 0x20) * 8)) g_font).

Fixpoint paint_rows (g : list Z) (fb_ptr stride : Z) (m : Mem) : Mem :=
  match g with
  | [] => m
  | b :: g => paint_rows g (fb_ptr + stride) stride (poke (u32 fb_ptr) (Z.lnot b) m)
  end.

Definition paint_glyph_at (fb_ptr c : Z) (s : Screen) : Screen :=
  let '(stride, s) := display_row_bytes s in
  s <| scr_mem ::= paint_rows (glyph c) fb_ptr stride |>.

(** The characters of [str] up to its end, then blanks, [n] of them in all. *)
Fixpoint paint_chars (n : nat) (str : list Z) (p : Z) (s : Screen) : Screen :=
  match n with
  | O => s
  | S n =>
      match str with
      | c :: str => paint_chars n str (p + 1) (paint_glyph_at p c s)
      | [] => paint_chars n [] (p + 1) (paint_glyph_at p 32 s)
      end
  end.

(** [str] is a C string without its zero. *)
Definition paint_string (row col_byte : Z) (str : list Z) (max_chars : Z) (s : Screen) : Screen :=
  let fb := fb_base s in
  if negb (fb_ok fb) then s
  else
    let '(stride, s) := display_row_bytes s in
    paint_chars (Z.to_nat max_chars) str (u32 (fb + u32 (row * stride) + col_byte)) s.

Fixpoint wipe_longs (n : nat) (p : Z) (m : Mem) : Mem :=
  match n with
  | O => m
  | S n => wipe_longs n (u32 (p + 4))
             (poke (u32 (p + 3)) 255 (poke (u32 (p + 2)) 255 (poke (u32 (p + 1)) 255 (poke p 255 m))))
  end.

Definition display_wipe (rows : Z) (s : Screen) : Screen :=
  let fb := fb_base s in
  let '(stride, s) := display_row_bytes s in
  let longs := u32 (rows * stride) / 4 in
  if negb (fb_ok fb) then s else s <| scr_mem ::= wipe_longs (Z.to_nat longs) fb |>.

(** ** Row length *)

(** The row length read from the ROM is a multiple of four between 16 and 4096,
    80 where the ROM holds anything else, and what it is at its first use it is ever
    after, whatever becomes of the memory. *)
Theorem row_bytes_settled (s : Screen) (m : Mem) (Hk : cf_rows k = ROW_BYTES_AUTO)
    (Hg : g_row_bytes s = 0) :
  let '(v, s1) := display_row_bytes s in
  16 <= v <= 4096 /\ v `mod` 4 = 0 /\ scr_mem s1 = scr_mem s /\
  (let w := rd_w (scr_mem s) 0x0106 in v = if (16 <=? w) && (w <=? 4096) && (w `mod` 4 =? 0) then w else 80) /\
  display_row_bytes (s1 <| scr_mem := m |>) = (v, s1 <| scr_mem := m |>).
Proof.
  unfold display_row_bytes. rewrite Hk, Hg. cbn.
  change 3 with (2 ^ 2 - 1). rewrite land_ones_mod by lia. change (2 ^ 2) with 4.
  set (w := rd_w _ _).
  assert (E : (if (w <? 16) || (4096 <? w) || negb (w `mod` 4 =? 0) then 80 else w)
            = if (16 <=? w) && (w <=? 4096) && (w `mod` 4 =? 0) then w else 80).
  { zcases; cbn; lia. }
  rewrite E. clear E.
  assert (Hv : 16 <= (if (16 <=? w) && (w <=? 4096) && (w `mod` 4 =? 0) then w else 80) <= 4096 /\
    (if (16 <=? w) && (w <=? 4096) && (w `mod` 4 =? 0) then w else 80) `mod` 4 = 0).
  { zcases; cbn; split; done || lia. }
  revert Hv. generalize (if (16 <=? w) && (w <=? 4096) && (w `mod` 4 =? 0) then w else 80). intros v [Hv Hm].
  split_and!; try done; try lia. by destruct (Z.eqb_spec v 0); [lia|].
Qed.

(** ** Painting *)

(** The row length in force, once the display has been used. *)
Definition stride_is (n : Z) (s : Screen) : Prop := display_row_bytes s = (n, s).

Lemma stride_mem (n : Z) (s : Screen) (f : Mem -> Mem) :
  stride_is n s -> stride_is n (s <| scr_mem ::= f |>) .
Proof.
  unfold stride_is, display_row_bytes. destruct s as [m g]; cbn. destruct (cf_rows k); [congruence|].
  destruct (Z.eqb_spec g 0) as [->|Hg]; cbn.
  - intros [= E1 E2]. subst n. rewrite E2 in *. revert E2.
    destruct ((_ <? 16) || _ || _) eqn:Eb; [done|]. intros E2. rewrite E2 in Eb. done.
  - by intros [= ->].
Qed.

Lemma glyph_length (c : Z) : length (glyph c) = 8%nat.
Proof.
  unfold glyph. rewrite length_take, length_drop. change (length g_font) with 760%nat.
  unfold shown. pose proof (uwrap_range 8 c ltac:(lia)) as Hr.
  destruct (_ || _) eqn:E; [lia|]. apply orb_false_iff in E as [E1 E2]. lia.
Qed.

(** What is at [a] after a column of bytes is painted at [p]. *)
Lemma paint_rows_at (g : list Z) (p n : Z) (m : Mem) (a : Z) :
  0 <= p -> 0 < n -> p + Z.of_nat (length g) * n <= 2 ^ 32 ->
  paint_rows g p n m a =
  (if bool_decide (p <= a < p + Z.of_nat (length g) * n /\ (a - p) `mod` n = 0)
   then u8 (Z.lnot (byte g (Z.to_nat ((a - p) / n)))) else m a).
Proof.
  revert p m. induction g as [|b g IH]; intros p m Hp Hn Hlim; cbn [paint_rows].
  { rewrite bool_decide_eq_false_2; [done|]. cbn. lia. }
  cbn [length] in *. rewrite Nat2Z.inj_succ in *.
  rewrite IH by lia. unfold poke. rewrite u32_small by (change (2 ^ 32) with 4294967296 in *; nia).
  destruct (Z.eqb_spec a p) as [->|Ha].
  - rewrite bool_decide_eq_false_2 by lia. rewrite bool_decide_eq_true_2; [|rewrite Z.sub_diag; split; [nia|done]].
    by rewrite Z.sub_diag.
  - replace (a - p) with (a - (p + n) + 1 * n) by lia. rewrite Z.mod_add, Z.div_add by lia.
    destruct (decide (p + n <= a)) as [Hge|Hlt].
    + assert (0 <= (a - (p + n)) / n) by (apply Z.div_pos; lia).
      replace (Z.to_nat ((a - (p + n)) / n + 1)) with (S (Z.to_nat ((a - (p + n)) / n))) by lia.
      destruct (decide (a < p + Z.succ (Z.of_nat (length g)) * n /\ (a - (p + n)) `mod` n = 0)) as [[H1 H2]|Hno].
      * rewrite !bool_decide_eq_true_2 by (split; [nia|done]). done.
      * rewrite !bool_decide_eq_false_2; [done|..]; intros [? ?]; apply Hno; split; done || nia.
    + rewrite !bool_decide_eq_false_2; [done|..]; intros [? Hm]; [|lia].
      replace (a - (p + n)) with (a - p + (-1) * n) in Hm by lia. rewrite Z.mod_add in Hm by lia.
      rewrite Z.mod_small in Hm by lia. lia.
Qed.

(** The character in cell [i] of a field: blank behind the end of the text. *)
Definition cell (str : list Z) (i : Z) : Z := default 32 (str !! Z.to_nat i).

(** [in_cells p n w a]: the address lies in a field of [w] cells at [p]. *)
Definition in_cells (p n w a : Z) : Prop := p <= a /\ (a - p) / n < 8 /\ (a - p) `mod` n < w.

#[export] Instance in_cells_dec (p n w a : Z) : Decision (in_cells p n w a).
Proof. unfold in_cells. apply _. Defined.

Lemma in_cells_step (p n w a : Z) :
  0 < w <= n -> 
  in_cells p n w a <-> (p <= a < p + 8 * n /\ (a - p) `mod` n = 0) \/ in_cells (p + 1) n (w - 1) a.
Proof.
  intros Hw. unfold in_cells.
  destruct (decide (p <= a)) as [Hpa|Hpa]; [|lia].
  pose proof (Z.mod_pos_bound (a - p) n ltac:(lia)) as Hm.
  destruct (decide ((a - p) `mod` n = 0)) as [Hz|Hz].
  - split.
    + intros (_ & Hd & _). left. split; [|done]. pose proof (Z.div_mod (a - p) n ltac:(lia)). nia.
    + intros [[[_ Hlt] _]|(Hge & _ & Hmod)].
      * split_and!; [done| |lia]. apply Z.div_lt_upper_bound; lia.
      * exfalso. assert (E : a - (p + 1) = (n - 1) + ((a - p) / n - 1) * n).
        { pose proof (Z.div_mod (a - p) n ltac:(lia)). lia. }
        rewrite E, Z.mod_add, Z.mod_small in Hmod by lia. lia.
  - assert (Hdm : a - (p + 1) = ((a - p) `mod` n - 1) + (a - p) / n * n).
    { pose proof (Z.div_mod (a - p) n ltac:(lia)). lia. }
    assert (Hge : p + 1 <= a) by (destruct (decide (a = p)) as [->|]; [|lia]; by rewrite Z.sub_diag, Z.mod_0_l in Hz by lia).
    rewrite Hdm, Z.mod_add, Z.div_add, (Z.mod_small (_ - 1)), (Z.div_small (_ - 1)) by lia. lia.
Qed.

(** Decomposition of an address in the field one cell further. *)
Lemma cell_shift (p n a : Z) :
  0 < n -> p <= a -> (a - p) `mod` n <> 0 ->
  (a - (p + 1)) / n = (a - p) / n /\ (a - (p + 1)) `mod` n = (a - p) `mod` n - 1.
Proof.
  intros Hn Hpa Hz. pose proof (Z.mod_pos_bound (a - p) n Hn) as Hm.
  assert (Hdm : a - (p + 1) = ((a - p) `mod` n - 1) + (a - p) / n * n).
  { pose proof (Z.div_mod (a - p) n ltac:(lia)). lia. }
  rewrite Hdm, Z.mod_add, Z.div_add, (Z.mod_small (_ - 1)), (Z.div_small (_ - 1)) by lia. lia.
Qed.

(** The byte of a glyph on the screen. *)
Definition ink (c r : Z) : Z := u8 (Z.lnot (byte (glyph c) (Z.to_nat r))).

Lemma paint_glyph_mem (n p c : Z) (s : Screen) (a : Z) :
  stride_is n s -> 0 <= p -> 0 < n -> p + 8 * n <= 2 ^ 32 ->
  stride_is n (paint_glyph_at p c s) /\
  scr_mem (paint_glyph_at p c s) a =
  if bool_decide (p <= a < p + 8 * n /\ (a - p) `mod` n = 0) then ink c ((a - p) / n) else scr_mem s a.
Proof.
  intros Hs Hp Hn Hlim. unfold paint_glyph_at. rewrite Hs. split; [by apply stride_mem|].
  cbn -[paint_rows]. rewrite paint_rows_at by (rewrite ?glyph_length; done). rewrite glyph_length.
  by change (Z.of_nat 8) with 8.
Qed.

Lemma paint_chars_mem (w : nat) (n p : Z) (str : list Z) (s : Screen) (a : Z) :
  stride_is n s -> 0 <= p -> Z.of_nat w <= n -> 0 < n -> p + Z.of_nat w + 8 * n <= 2 ^ 32 ->
  scr_mem (paint_chars w str p s) a =
  if decide (in_cells p n (Z.of_nat w) a)
  then ink (cell str ((a - p) `mod` n)) ((a - p) / n) else scr_mem s a.
Proof.
  revert p str s. induction w as [|w IH]; intros p str s Hs Hp Hw Hn Hlim.
  { cbn. rewrite decide_False; [done|]. unfold in_cells. pose proof (Z.mod_pos_bound (a - p) n). lia. }
  assert (Hcons : exists c str', paint_chars (S w) str p s = paint_chars w str' (p + 1) (paint_glyph_at p c s) /\
                  c = cell str 0 /\ forall i, 0 <= i -> cell str' i = cell str (i + 1)).
  { destruct str as [|c str]; cbn [paint_chars].
    - exists 32, []. split_and!; [done..|]. by intros.
    - exists c, str. split_and!; [done..|]. intros i Hi. unfold cell.
      by replace (Z.to_nat (i + 1)) with (S (Z.to_nat i)) by lia. }
  destruct Hcons as (c & str' & -> & -> & Hcell).
  rewrite Nat2Z.inj_succ in *.
  destruct (paint_glyph_mem n p (cell str 0) s a) as [_ Ha]; [done|lia..|].
  destruct (paint_glyph_mem n p (cell str 0) s 0) as [Hs' _]; [done|lia..|].
  rewrite IH by (done || lia). rewrite Ha.
  pose proof (in_cells_step p n (Z.succ (Z.of_nat w)) a ltac:(lia)) as Hst.
  replace (Z.succ (Z.of_nat w) - 1) with (Z.of_nat w) in Hst by lia.
  destruct (decide (in_cells (p + 1) n (Z.of_nat w) a)) as [Hin|Hin].
  - rewrite decide_True by (apply Hst; by right). destruct Hin as (Hge & _ & Hmod).
    assert (Hz : (a - p) `mod` n <> 0).
    { intros Hz. pose proof (Z.div_mod (a - p) n ltac:(lia)) as Hdm.
      assert (E : a - (p + 1) = (n - 1) + ((a - p) / n - 1) * n) by lia.
      rewrite E, Z.mod_add, Z.mod_small in Hmod by lia. lia. }
    destruct (cell_shift p n a Hn ltac:(lia) Hz) as [-> ->].
    pose proof (Z.mod_pos_bound (a - p) n Hn). rewrite Hcell by lia. f_equal. f_equal. lia.
  - case_bool_decide as Hc.
    + rewrite decide_True by (apply Hst; by left). by destruct Hc as [_ ->].
    + rewrite decide_False; [done|]. intros Hin'%Hst. tauto.
Qed.

(** ** Reading the screen *)

(** The printable character whose glyph is at [p]. *)
Definition read_cell (m : Mem) (p n : Z) : Z :=
  default 0 (find (fun c => bool_decide (ink c <$> seqZ 0 8 = (fun r => m (p + r * n)) <$> seqZ 0 8)) (seqZ 32 95)).

Definition read_cells (m : Mem) (p n w : Z) : list Z := (fun i => read_cell m (p + i) n) <$> seqZ 0 w.

Lemma font_readable :
  forallb (fun v => bool_decide (find (fun c => bool_decide (ink c <$> seqZ 0 8 = ink v <$> seqZ 0 8)) (seqZ 32 95) = Some v))
    (seqZ 32 95) = true.
Proof. vm_compute. reflexivity. Qed.

Lemma shown_printable (c : Z) : 32 <= shown c < 127.
Proof.
  unfold shown. destruct (_ || _) eqn:E; [lia|]. apply orb_false_iff in E as [E1 E2]. lia.
Qed.

Lemma shown_shown (c : Z) : shown (shown c) = shown c.
Proof.
  pose proof (shown_printable c). unfold shown at 1. rewrite u8_small by lia.
  destruct (_ || _) eqn:E; [|done]. apply orb_true_iff in E. lia.
Qed.

Lemma ink_shown (c r : Z) : ink (shown c) r = ink c r.
Proof. unfold ink, glyph. by rewrite shown_shown. Qed.

Lemma read_ink (m : Mem) (p n c : Z) :
  (forall r, 0 <= r < 8 -> m (p + r * n) = ink c r) -> read_cell m p n = shown c.
Proof.
  intros Hm. pose proof font_readable as Hf. rewrite forallb_forall in Hf.
  pose proof (shown_printable c) as Hp.
  specialize (Hf (shown c)). rewrite <- list_elem_of_In, elem_of_seqZ, bool_decide_eq_true in Hf.
  unfold read_cell. replace ((fun r => m (p + r * n)) <$> seqZ 0 8) with (ink (shown c) <$> seqZ 0 8).
  { by rewrite Hf by lia. }
  apply list_fmap_ext. intros i r Hr. apply list_elem_of_lookup_2, elem_of_seqZ in Hr.
  by rewrite Hm, ink_shown by lia.
Qed.

(** C27: painting a string of at most a row's width shows its characters, a question
    mark for each that cannot be printed and blanks up to the width, so that the text
    can be read back from the frame buffer cell by cell; no other byte of the memory
    changes. *)
Theorem paint_reads_back (row col n w : Z) (str : list Z) (s : Screen)
    (Hfb : fb_ok (fb_base s) = true) (Hn : (display_row_bytes s).1 = n) (Hpos : 0 < n)
    (Hrow : 0 <= row) (Hcol : 0 <= col) (Hb : 0 <= fb_base s) (Hw : 0 <= w <= n)
    (Hlim : fb_base s + row * n + col + w + 8 * n <= 2 ^ 32) :
  let p := fb_base s + row * n + col in
  let s' := paint_string row col str w s in
  read_cells (scr_mem s') p n w = (fun i => shown (cell str i)) <$> seqZ 0 w /\
  forall a, ~ in_cells p n w a -> scr_mem s' a = scr_mem s a.
Proof.
  cbn zeta. unfold paint_string. rewrite Hfb. cbn [negb].
  assert (Hs : stride_is n (display_row_bytes s).2 /\ scr_mem (display_row_bytes s).2 = scr_mem s).
  { revert Hn. unfold stride_is, display_row_bytes. destruct (cf_rows k) as [v|]; [by intros <-|].
    destruct (Z.eqb_spec (g_row_bytes s) 0) as [E|E]; cbn.
    - intros Hn. rewrite Hn. by apply Z.eqb_neq in Hpos as -> || (destruct (Z.eqb_spec n 0); [lia|]).
    - intros <-. by apply Z.eqb_neq in E as ->. }
  destruct (display_row_bytes s) as [v s1]. cbn [fst snd] in *. subst v. destruct Hs as [Hs Hm].
  change (2 ^ 32) with 4294967296 in Hlim.
  rewrite (u32_small (row * n)), u32_small by nia.
  assert (Hmem : forall a, scr_mem (paint_chars (Z.to_nat w) str (fb_base s + row * n + col) s1) a =
    if decide (in_cells (fb_base s + row * n + col) n w a)
    then ink (cell str ((a - (fb_base s + row * n + col)) `mod` n)) ((a - (fb_base s + row * n + col)) / n)
    else scr_mem s1 a).
  { intros a. rewrite (paint_chars_mem _ n) by (done || (change (2 ^ 32) with 4294967296; nia)).
    by rewrite Z2Nat.id by lia. }
  revert Hmem. generalize (fb_base s + row * n + col). intros p Hmem. split.
  - unfold read_cells. apply list_fmap_ext. intros i x Hx. apply list_elem_of_lookup_2, elem_of_seqZ in Hx.
    apply read_ink. intros r Hr. rewrite Hmem.
    replace (p + x + r * n - p) with (x + r * n) by lia.
    rewrite Z.mod_add, Z.div_add, Z.mod_small, Z.div_small by lia.
    rewrite decide_True; [done|]. unfold in_cells.
    replace (p + x + r * n - p) with (x + r * n) by lia.
    rewrite Z.mod_add, Z.div_add, Z.mod_small, Z.div_small by lia. nia.
  - intros a Ha. rewrite Hmem, decide_False by done. by rewrite Hm.
Qed.

(** ** Wiping *)

Lemma wipe_longs_at (c : nat) (p : Z) (m : Mem) (a : Z) :
  0 <= p -> p + 4 * Z.of_nat c <= 2 ^ 32 ->
  wipe_longs c p m a = if bool_decide (p <= a < p + 4 * Z.of_nat c) then 255 else m a.
Proof.
  revert p m. change (2 ^ 32) with 4294967296.
  induction c as [|c IH]; intros p m Hp Hlim; cbn [wipe_longs].
  { by rewrite bool_decide_eq_false_2 by lia. }
  rewrite Nat2Z.inj_succ in *.
  destruct c as [|c]; [|rewrite (u32_small (p + 4)) by lia].
  { cbn. unfold poke. rewrite !u32_small by lia. change (u8 255) with 255.
    zcases; try (by rewrite bool_decide_eq_true_2 by lia). by rewrite bool_decide_eq_false_2 by lia. }
  rewrite IH by lia. unfold poke. rewrite !u32_small by lia. change (u8 255) with 255.
  destruct (decide (p + 4 <= a < p + 4 + 4 * Z.of_nat (S c))) as [Hin|Hin].
  - by rewrite !bool_decide_eq_true_2 by lia.
  - rewrite bool_decide_eq_false_2 by done.
    zcases; try (by rewrite bool_decide_eq_true_2 by lia). by rewrite bool_decide_eq_false_2 by lia.
Qed.

(** A wipe of [rows] rows blackens exactly their bytes, where a row is a whole
    number of longs. *)
Theorem display_wipe_rows (rows n : Z) (s : Screen) (a : Z)
    (Hfb : fb_ok (fb_base s) = true) (Hn : (display_row_bytes s).1 = n) (H4 : n `mod` 4 = 0)
    (Hr : 0 <= rows) (Hpos : 0 <= n) (Hb : 0 <= fb_base s) (Hlim : fb_base s + rows * n < 2 ^ 32) :
  scr_mem (display_wipe rows s) a =
  if bool_decide (fb_base s <= a < fb_base s + rows * n) then 255 else scr_mem s a.
Proof.
  unfold display_wipe. rewrite Hfb. cbn [negb].
  assert (Hm : scr_mem (display_row_bytes s).2 = scr_mem s).
  { unfold display_row_bytes. destruct (cf_rows k); [done|]. by destruct (_ =? 0). }
  destruct (display_row_bytes s) as [v s1]. cbn [fst snd] in *. subst v. cbn -[wipe_longs]. rewrite Hm.
  change (2 ^ 32) with 4294967296 in *. rewrite u32_small by nia.
  assert (E : 4 * (rows * n / 4) = rows * n).
  { pose proof (Z.div_mod n 4 ltac:(lia)) as Hd. rewrite H4 in Hd.
    replace (rows * n) with (rows * (n / 4) * 4) by lia. rewrite Z.div_mul by lia. lia. }
  assert (0 <= rows * n / 4) by (apply Z.div_pos; nia).
  rewrite wipe_longs_at by (rewrite ?Z2Nat.id by lia; change (2 ^ 32) with 4294967296; lia).
  rewrite Z2Nat.id by lia. by rewrite E.
Qed.

End Display.

(** ** Instances *)

(** A Macintosh with its frame buffer at 0xF9000000, 80 bytes a row. *)
Definition mac : Config := MkConfig ROW_BYTES_AUTO ScrnBase.
Definition booted : Screen :=
  MkScreen (fun a => if a =? 0x0824 then 0xF9 else if a =? 0x0107 then 80 else 0) 0.

Lemma row_bytes_settled_witness :
  let '(v, _) := display_row_bytes mac booted in v = 80.
Proof.
  pose proof (row_bytes_settled mac booted (fun _ => 7) eq_refl eq_refl) as Hr.
  destruct (display_row_bytes mac booted) as [v s1]. by destruct Hr as (_ & _ & _ & Hv & _).
Defined.

Lemma paint_reads_back_witness :
  read_cells (scr_mem (paint_string mac 4 2 (text "Done" ++ [7]) 6 booted)) (0xF9000000 + 4 * 80 + 2) 80 6 =
  text "Done? ".
Proof.
  destruct (paint_reads_back mac 4 2 80 6 (text "Done" ++ [7]) booted eq_refl eq_refl ltac:(lia) ltac:(lia) ltac:(lia)
    ltac:(by vm_compute) ltac:(lia) ltac:(by vm_compute)) as [Hr _].
  exact Hr.
Defined.

Lemma display_wipe_rows_witness :
  scr_mem (display_wipe mac 2 booted) (0xF9000000 + 159) = 255 /\
  scr_mem (display_wipe mac 2 booted) (0xF9000000 + 160) = 0.
Proof.
  split.
  - rewrite (display_wipe_rows mac 2 80) by (by vm_compute). reflexivity.
  - rewrite (display_wipe_rows mac 2 80) by (by vm_compute). reflexivity.
Defined.
