(* ===== verification/DiskCopy.v ===== *)
(** * The floppy duplicator (preboot/diskcopy/diskcopy_main.c)

    The program copies an 800 KB floppy: it asks for the mode and a confirmation,
    reads the source into memory in pieces of 32 KB, formats the destination and
    writes the memory to it, with a loop around each step that lets the operator try
    again or give up.

    The floppy driver of the ROM and the operator are arguments.  A look at the
    keyboard ([KEY_DOWN]) takes the next sample of a list, which carries what the
    operator has done to the drives since the last one; a program that has used up
    its samples is waiting for a key ([Waits]).  A processor exception inside a
    transfer returns through the recovery barrier as an error number; outside of the
    barrier control is lost ([Lost]).  What is painted is a list of calls of
    [paint_string], whose effect [Display] gives.

    The class [Floppies] states what the driver does to the disks.  The theorems: a
    copy that completes has written to the destination what the source held when it
    was read ([copy_exact]); a disk that is out of the destination drive once the image
    is in memory, by its place or by an eject that works, is never changed, with one
    drive or two, whatever fails and however often it is tried again
    ([source_untouched], where [Ejects] states what a good eject does);
    nothing is changed before the warning is confirmed ([abort_changes_nothing]). *)

From S2P Require Import Prelude Toolbox Preboot.

(** ** Traps and keys *)

(** A trap either returns its ioResult or raises a processor exception. *)
Inductive trapped := Returned (r : Z) | Faulted (vector : Z).

(** A trap of the Device Manager: its number, the parameter block, the memory it may
    fill and the drives. *)
Class DeviceManager (D : Type) := dm_trap : Z -> list Z -> Mem -> D -> trapped * Mem * D.
#[global] Hint Mode DeviceManager ! : typeclass_instances.

Definition A_READ : Z := 0xA002.
Definition A_WRITE : Z := 0xA003.
Definition A_CONTROL : Z := 0xA004.

(** A sample of the key map: its 16 bytes, and what happened to the drives before. *)
Record Poll (D : Type) := MkPoll { key_map : list Z; act : D -> D }.
Arguments MkPoll {D}.
Arguments key_map {D}.
Arguments act {D}.

Definition down (kc : Z) (km : list Z) : bool :=
  negb (Z.land (byte km (Z.to_nat (Z.shiftr kc 3))) (u8 (Z.shiftl 1 (Z.land kc 7))) =? 0).

Definition KC_1 : Z := 0x12.
Definition KC_2 : Z := 0x13.
Definition KC_RETURN : Z := 0x24.
Definition KC_ESC : Z := 0x35.

Inductive Event := Paint (row col : Z) (str : list Z) (max_chars : Z).

(** ** The machine *)

Record Mach (D : Type) := MkMach {
  ram : Mem;
  dev : D;
  keys : list (Poll D);
  painted : list Event;
  g_last_exc_vector : Z;
  g_handoff_drive : Z }.
Arguments MkMach {D}.
Arguments ram {D}.
Arguments dev {D}.
Arguments keys {D}.
Arguments painted {D}.
Arguments g_last_exc_vector {D}.
Arguments g_handoff_drive {D}.

#[export] Instance eta_Mach D : Eta (Mach D) := fun m =>
  MkMach (ram m) (dev m) (keys m) (painted m) (g_last_exc_vector m) (g_handoff_drive m).

Inductive Res (D A : Type) := Done (a : A) (m : Mach D) | Waits (m : Mach D) | Lost (m : Mach D).
Arguments Done {D A}.
Arguments Waits {D A}.
Arguments Lost {D A}.

Definition M (D A : Type) : Type := Mach D -> Res D A.
Definition ret {D A} (a : A) : M D A := fun m => Done a m.
Definition bind {D A B} (c : M D A) (f : A -> M D B) : M D B := fun m =>
  match c m with Done a m => f a m | Waits m => Waits m | Lost m => Lost m end.

Declare Scope copy_scope.
Notation "x <- c ;; f" := (bind c (fun x => f)) (at level 100, c at next level, right associativity) : copy_scope.
Notation "c ;;; f" := (bind c (fun _ => f)) (at level 100, right associativity) : copy_scope.
#[local] Open Scope copy_scope.

Definition LINE (n : Z) : Z := n * 12.
Definition SECTOR_BYTES : Z := 512.
Definition DISK_BYTES : Z := 819200.
Definition CHUNK_BYTES : Z := 32768.
Definition IOBUF_BASE : Z := 0x00200000.
Definition EXC_ERR_BASE : Z := 30000.

Section Program.

Context {D : Type} `{DeviceManager D}.

Definition paint (row col : Z) (str : list Z) (max_chars : Z) : M D unit := fun m =>
  Done tt (m <| painted ::= (fun l => l ++ [Paint row col str max_chars]) |>).

(** A string literal, painted over [n] cells. *)
Definition paint_lit (row col : Z) (s : string) (n : Z) : M D unit := paint row col (text s) n.

(** Samples are taken until the key is down, or up. *)
Fixpoint spin (kc : Z) (want : bool) (ks : list (Poll D)) (d : D) : bool * (list (Poll D) * D) :=
  match ks with
  | [] => (false, ([], d))
  | k :: ks =>
      let d := act k d in
      if Bool.eqb (down kc (key_map k)) want then (true, (ks, d)) else spin kc want ks d
  end.

Definition spin_until (kc : Z) (want : bool) : M D unit := fun m =>
  let '(ok, (ks, d)) := spin kc want (keys m) (dev m) in
  let m := m <| keys := ks |> <| dev := d |> in
  if ok then Done tt m else Waits m.

Definition wait_key (kc : Z) : M D unit := spin_until kc true ;;; spin_until kc false.

(** The loop that looks at two keys in turn: whether the first was seen. *)
Fixpoint look (a b : Z) (ks : list (Poll D)) (d : D) : option bool * (list (Poll D) * D) :=
  match ks with
  | [] => (None, ([], d))
  | k :: ks =>
      let d := act k d in
      if down a (key_map k) then (Some true, (ks, d))
      else match ks with
           | [] => (None, ([], d))
           | k :: ks =>
               let d := act k d in
               if down b (key_map k) then (Some false, (ks, d)) else look a b ks d
           end
  end.

Definition choose (a b : Z) : M D bool :=
  r <- (fun m =>
    let '(r, (ks, d)) := look a b (keys m) (dev m) in
    let m := m <| keys := ks |> <| dev := d |> in
    match r with Some r => Done r m | None => Waits m end) ;;
  wait_key (if r then a else b) ;;; ret r.

(** *** Transfers *)

Definition pb_init (drive buf offset len : Z) : list Z :=
  let pb := replicate PB_SIZE 0 in
  let pb := put16 PB_OFF_IOREFNUM SONY_REFNUM pb in
  let pb := put16 PB_OFF_IOVREFNUM drive pb in
  let pb := put32 PB_OFF_IOBUFFER buf pb in
  let pb := put32 PB_OFF_IOREQCOUNT len pb in
  let pb := put16 PB_OFF_IOPOSMODE 1 pb in
  put32 PB_OFF_IOPOSOFFSET offset pb.

(** The trap behind the recovery barrier; the handler of the exception stores the
    vector and returns to the barrier. *)
Definition recover (trap : Z) (pb : list Z) : M D Z := fun m =>
  let m := m <| g_last_exc_vector := 0 |> in
  let '(r, mem, d) := dm_trap trap pb (ram m) (dev m) in
  let m := m <| ram := mem |> <| dev := d |> in
  match r with
  | Returned r => Done r m
  | Faulted v => Done (s16 (EXC_ERR_BASE + v)) (m <| g_last_exc_vector := v |>)
  end.

Definition xfer (is_write : bool) (drive buf offset len : Z) : M D Z :=
  recover (if is_write then A_WRITE else A_READ) (pb_init drive buf offset len).

Definition format_pb (drive : Z) : list Z :=
  let pb := replicate PB_SIZE 0 in
  let pb := put16 PB_OFF_IOVREFNUM drive pb in
  let pb := put16 PB_OFF_IOREFNUM SONY_REFNUM pb in
  let pb := <[26%nat := 0]> pb in
  <[27%nat := 6]> pb.

Definition sony_format (drive : Z) : M D Z := recover A_CONTROL (format_pb drive).

(** The eject call has no barrier. *)
Definition eject (drive : Z) : M D Z := fun m =>
  let '(r, mem, d) := eject_floppy (fun pb => dm_trap A_CONTROL pb (ram m) (dev m)) drive in
  let m := m <| ram := mem |> <| dev := d |> in
  match r with Returned r => Done r m | Faulted _ => Lost m end.

(** *** Texts *)

Definition put_dec (v : Z) (width : nat) : list Z :=
  let tmp := if v =? 0 then [48] else low_digits 10 v in
  take width (replicate (width - length tmp) 32 ++ rev tmp).

Fixpoint skip_blanks (l : list Z) : list Z :=
  match l with c :: l' => if c =? 32 then skip_blanks l' else l | [] => [] end.

Definition result_line (label : list Z) (res : Z) : list Z :=
  let v := res in
  let num := skip_blanks (put_dec (u32 (if v <? 0 then - v else v)) 5) in
  take 24 label ++ text "res=" ++ (if v <? 0 then [45] else []) ++
  match num with [] => [48] | _ :: _ => num end.

Definition paint_result (row : Z) (label : string) (res : Z) : M D unit :=
  let line := result_line (text label) res in
  paint row 1 line (Z.of_nat (length line)).

Definition progress_line (phase : list Z) (off : Z) : list Z :=
  let head := take 12 phase in
  head ++ replicate (13 - length head) 32
  ++ filter (fun c => c <> 32) (put_dec (off * 100 / DISK_BYTES) 3) ++ text "% ("
  ++ put_dec (off / SECTOR_BYTES) 4 ++ text "/1600)".

(** *** The copy *)

(** [n] bounds the chunks that are left. *)
Fixpoint transfer_from (n : nat) (is_write : bool) (drive : Z) (phase : string) (prog_row off : Z) : M D Z :=
  match n with
  | O => ret 0
  | S n =>
      if negb (off <? DISK_BYTES) then ret 0
      else
        let chunk := DISK_BYTES - off in
        let chunk := if CHUNK_BYTES <? chunk then CHUNK_BYTES else chunk in
        r <- xfer is_write drive (IOBUF_BASE + off) off chunk ;;
        if negb (r =? 0) then ret r
        else
          let off := off + chunk in
          let line := progress_line (text phase) off in
          paint prog_row 1 line (Z.of_nat (length line)) ;;;
          transfer_from n is_write drive phase prog_row off
  end.

Definition transfer_all (is_write : bool) (drive : Z) (phase : string) (prog_row : Z) : M D Z :=
  transfer_from (Z.to_nat (DISK_BYTES / CHUNK_BYTES) + 1) is_write drive phase prog_row 0.

Definition blank40 : list Z := replicate 40 32.
Definition blank50 : list Z := replicate 50 32.

(** [n] bounds the attempts; each failed one takes a sample of the keys.  The result
    is whether the operator gave up. *)
Fixpoint retry (n : nat) (is_write : bool) (drive : Z) (phase : string) (prog_row msg_row : Z) : M D bool :=
  match n with
  | O => fun m => Waits m
  | S n =>
      r <- transfer_all is_write drive phase prog_row ;;
      if r =? 0 then ret false
      else
        paint_result msg_row (if is_write then "WRITE failed " else "READ failed ") r ;;;
        paint_lit (msg_row + 12) 1 "RETURN=retry  ESC=abort                 " 40 ;;;
        again <- choose KC_RETURN KC_ESC ;;
        if negb again then ret true
        else
          paint msg_row 1 blank40 40 ;;; paint (msg_row + 12) 1 blank40 40 ;;;
          retry n is_write drive phase prog_row msg_row
  end.

Definition transfer_with_retry (is_write : bool) (drive : Z) (phase : string) (prog_row msg_row : Z) : M D bool :=
  fun m => retry (S (length (keys m))) is_write drive phase prog_row msg_row m.

Fixpoint format_try (n : nat) (dst : Z) : M D bool :=
  match n with
  | O => fun m => Waits m
  | S n =>
      paint_lit (LINE 13) 1 "Formatting dest ...                     " 40 ;;;
      fr <- sony_format dst ;;
      if fr =? 0 then
        paint_lit (LINE 13) 1 "Formatting dest ... done                " 40 ;;; ret false
      else
        paint_result (LINE 16) "FORMAT failed " fr ;;;
        paint_lit (LINE 17) 1 "RETURN=retry   ESC=abort                " 40 ;;;
        again <- choose KC_RETURN KC_ESC ;;
        if negb again then ret true
        else paint (LINE 16) 1 blank40 40 ;;; paint (LINE 17) 1 blank40 40 ;;; format_try n dst
  end.

Definition format_loop (dst : Z) : M D bool := fun m => format_try (S (length (keys m))) dst m.

(** *** The main program *)

Fixpoint clear_rows (n : nat) (row : Z) : M D unit :=
  match n with O => ret tt | S n => paint row 1 blank50 50 ;;; clear_rows n (row + 12) end.

Definition src_drive : M D Z := fun m => Done (g_handoff_drive m) m.

Definition ask_mode (src : Z) : M D bool :=
  paint_lit (LINE 0) 1 "DISKCOPY: 800K floppy duplicator" 32 ;;;
  paint_lit (LINE 2) 1 "Boot/source drive:" 18 ;;;
  paint (LINE 2) 20 (put_dec (u32 src) 1) 1 ;;;
  paint_lit (LINE 4) 1 "Choose copy mode:" 17 ;;;
  paint_lit (LINE 5) 1 "  1 = single-drive (swap source then dest)" 42 ;;;
  paint_lit (LINE 6) 1 "  2 = two-drive (source=boot drive, dest=other)" 47 ;;;
  paint_lit (LINE 7) 1 "Press 1 or 2 ..." 16 ;;;
  single <- choose KC_1 KC_2 ;;
  ret (negb single).

Definition dest_drive (two_drive : bool) (src : Z) : Z :=
  if two_drive then (if src =? 1 then 2 else 1) else src.

Definition warning_line (dst : Z) : list Z :=
  text "ALL DATA on DEST drive " ++ put_dec (u32 dst) 1 ++ text " will be ERASED".

(** The warning; whether the operator goes on. *)
Definition confirm (two_drive : bool) (src dst : Z) : M D bool :=
  clear_rows 4 (LINE 4) ;;;
  paint_lit (LINE 4) 1 (if two_drive then "Mode: TWO-DRIVE" else "Mode: SINGLE-DRIVE (swap)") 25 ;;;
  paint_lit (LINE 5) 1 "Source drive:" 13 ;;;
  paint (LINE 5) 15 (put_dec (u32 src) 1) 1 ;;;
  paint_lit (LINE 5) 18 "Dest drive:" 11 ;;;
  paint (LINE 5) 30 (put_dec (u32 dst) 1) 1 ;;;
  paint_lit (LINE 7) 1 "*** WARNING ***" 15 ;;;
  paint (LINE 8) 1 (warning_line dst) (Z.of_nat (length (warning_line dst))) ;;;
  paint_lit (LINE 9) 1 "(destination is low-level formatted first)" 42 ;;;
  paint_lit (LINE 10) 1 "RETURN=continue   ESC=abort" 27 ;;;
  choose KC_RETURN KC_ESC.

(** The source is inserted and read; whether the operator gave up. *)
Definition read_source (two_drive : bool) (src : Z) : M D bool :=
  clear_rows 4 (LINE 7) ;;;
  ej <- eject src ;;
  paint_result (LINE 7) "Eject boot disk " ej ;;;
  (if two_drive then
     paint_lit (LINE 9) 1 "Insert SOURCE in boot drive," 28 ;;;
     paint_lit (LINE 10) 1 "blank DEST in other drive." 26
   else
     paint_lit (LINE 9) 1 "Insert SOURCE disk in the drive." 32 ;;;
     paint_lit (LINE 10) 1 "(destination comes later)" 25) ;;;
  paint_lit (LINE 11) 1 "Press RETURN when ready ..." 27 ;;;
  wait_key KC_RETURN ;;;
  paint (LINE 11) 1 blank40 40 ;;;
  transfer_with_retry false src "Reading" (LINE 13) (LINE 16).

(** The destination is inserted and formatted; whether the operator gave up. *)
Definition prepare_dest (two_drive : bool) (src dst : Z) : M D bool :=
  (if two_drive then ret tt
   else
     ej <- eject src ;;
     paint_result (LINE 11) "Eject source " ej ;;;
     paint_lit (LINE 9) 1 "Insert DEST disk (will be erased).      " 40 ;;;
     paint (LINE 10) 1 blank40 40 ;;;
     paint_lit (LINE 12) 1 "Press RETURN when ready ..." 27 ;;;
     wait_key KC_RETURN ;;;
     paint (LINE 12) 1 blank40 40) ;;;
  format_loop dst.

Definition write_dest (dst : Z) : M D bool := transfer_with_retry true dst "Writing" (LINE 14) (LINE 16).

Definition finish (two_drive : bool) (src dst : Z) : M D unit :=
  (if two_drive then
     e1 <- eject src ;; e2 <- eject dst ;;
     paint_result (LINE 16) "Eject source " e1 ;;; paint_result (LINE 17) "Eject dest " e2
   else e2 <- eject dst ;; paint_result (LINE 16) "Eject dest " e2) ;;;
  paint_lit (LINE 19) 1 "COPY COMPLETE. Power-cycle when done." 37.

Inductive Verdict := Complete | Aborted.

Definition aborted : M D Verdict :=
  paint_lit (LINE 19) 1 "ABORTED. Power-cycle when done." 31 ;;; ret Aborted.

(** The program up to the image in memory; whether there is one. *)
Definition acquire (two_drive : bool) (src dst : Z) : M D bool :=
  go <- confirm two_drive src dst ;;
  if negb go then ret false
  else gave_up <- read_source two_drive src ;; ret (negb gave_up).

(** From the image in memory to the destination; whether the operator gave up. *)
Definition write_image (two_drive : bool) (src dst : Z) : M D bool :=
  gave_up <- prepare_dest two_drive src dst ;;
  if gave_up then ret true else write_dest dst.

Definition copy_session (two_drive : bool) (src dst : Z) : M D Verdict :=
  image <- acquire two_drive src dst ;;
  if negb image then aborted
  else
    gave_up <- write_image two_drive src dst ;;
    if gave_up then aborted else finish two_drive src dst ;;; ret Complete.

Definition bench_main : M D Verdict :=
  src <- src_drive ;;
  two_drive <- ask_mode src ;;
  copy_session two_drive src (dest_drive two_drive src).

End Program.

(** ** What the driver does to the disks *)

Definition pb_buffer (pb : list Z) : Z := get32 pb PB_OFF_IOBUFFER.

(** [disk_in d x] is the disk in drive [x], [content d id] the bytes of a disk,
    wherever it is.  A transfer that reports success has moved all bytes between the
    disk in the drive and the buffer; one that does not may have moved some.  The handlers catch the exceptions 2 to 9. *)
Class Floppies (D : Type) `{DeviceManager D} := {
  disk_in : D -> Z -> option Z;
  content : D -> Z -> Z -> Z;
  fault_vectors t pb mem (d : D) v mem' d' : dm_trap t pb mem d = (Faulted v, mem', d') -> 2 <= v <= 9;
  read_law pb mem d r mem' d' :
    dm_trap A_READ pb mem d = (r, mem', d') ->
    pb_refnum pb = SONY_REFNUM -> get16 pb PB_OFF_IOPOSMODE = 1 ->
    (forall id o, content d' id o = content d id o) /\
    (forall x, disk_in d' x = disk_in d x) /\
    (forall a, ~ pb_buffer pb <= a < pb_buffer pb + pb_count pb -> mem' a = mem a) /\
    (r = Returned 0 -> exists id, disk_in d (pb_drive pb) = Some id /\
       forall i, 0 <= i < pb_count pb -> mem' (pb_buffer pb + i) = content d id (pb_offset pb + i));
  write_law pb mem d r mem' d' :
    dm_trap A_WRITE pb mem d = (r, mem', d') ->
    pb_refnum pb = SONY_REFNUM -> get16 pb PB_OFF_IOPOSMODE = 1 ->
    (forall a, mem' a = mem a) /\
    (forall x, disk_in d' x = disk_in d x) /\
    (forall id o, disk_in d (pb_drive pb) <> Some id -> content d' id o = content d id o) /\
    (r = Returned 0 -> exists id, disk_in d (pb_drive pb) = Some id /\
       forall o, content d' id o = if bool_decide (pb_offset pb <= o < pb_offset pb + pb_count pb)
                                   then mem (pb_buffer pb + (o - pb_offset pb)) else content d id o);
  control_law pb mem d r mem' d' :
    dm_trap A_CONTROL pb mem d = (r, mem', d') ->
    pb_refnum pb = SONY_REFNUM -> get16 pb CS_CODE = 6 \/ get16 pb CS_CODE = 7 ->
    (forall a, mem' a = mem a) /\
    (forall x id, disk_in d' x = Some id -> disk_in d x = Some id) /\
    (forall id o, disk_in d (pb_drive pb) <> Some id \/ get16 pb CS_CODE = 7 ->
       content d' id o = content d id o) }.

(** An eject that reports success leaves the drive empty. *)
Class Ejects (D : Type) `{Floppies D} := eject_law pb mem (d : D) mem' d' :
  dm_trap A_CONTROL pb mem d = (Returned 0, mem', d') ->
  pb_refnum pb = SONY_REFNUM -> get16 pb CS_CODE = 7 -> disk_in d' (pb_drive pb) = None.

Definition drive_ok (x : Z) : Prop := - 32768 <= x < 32768.

Lemma pb_init_fields (x buf off len : Z) :
  drive_ok x -> 0 <= buf < 2 ^ 32 -> 0 <= off < 2 ^ 32 -> 0 <= len < 2 ^ 32 ->
  let pb := pb_init x buf off len in
  pb_refnum pb = SONY_REFNUM /\ get16 pb PB_OFF_IOPOSMODE = 1 /\ pb_drive pb = x /\
  pb_buffer pb = buf /\ pb_offset pb = off /\ pb_count pb = len.
Proof.
  intros Hx Hb Ho Hl. cbn zeta.
  assert (E1 : pb_drive (pb_init x buf off len) = s16 (u16 x)) by exact (f_equal (swrap 16) (bytes_word x)).
  assert (E2 : pb_buffer (pb_init x buf off len) = u32 buf) by exact (bytes_long buf).
  assert (E3 : pb_offset (pb_init x buf off len) = u32 off) by exact (bytes_long off).
  assert (E4 : pb_count (pb_init x buf off len) = u32 len) by exact (bytes_long len).
  rewrite E1, E2, E3, E4, s16_u16, !u32_small by done. done.
Qed.

Lemma format_pb_fields (x : Z) :
  drive_ok x ->
  pb_refnum (format_pb x) = SONY_REFNUM /\ pb_drive (format_pb x) = x /\ get16 (format_pb x) CS_CODE = 6.
Proof.
  intros Hx. split_and!; [done| |done].
  assert (E1 : pb_drive (format_pb x) = s16 (u16 x)) by exact (f_equal (swrap 16) (bytes_word x)).
  by rewrite E1, s16_u16.
Qed.

Section Copy.

Context {D : Type} `{Floppies D}.

(** ** Invariants of a program *)

(** [c] keeps [I], whether it returns, waits for a key or loses control, and what it
    returns satisfies [Q]. *)
Definition keeps {A} (I : Mach D -> Prop) (c : M D A) (Q : A -> Mach D -> Prop) : Prop :=
  forall m, I m -> match c m with
                   | Done a m' => I m' /\ Q a m'
                   | Waits m' | Lost m' => I m'
                   end.

Definition any {A} : A -> Mach D -> Prop := fun _ _ => True.

Lemma keeps_ret {A} I (a : A) : keeps I (ret a) any.
Proof. by intros m Hm. Qed.

Lemma keeps_bind {A B} I (c : M D A) (f : A -> M D B) Q :
  keeps I c any -> (forall a, keeps I (f a) Q) -> keeps I (bind c f) Q.
Proof.
  intros Hk Hf m Hm. unfold bind. specialize (Hk m Hm).
  destruct (c m) as [a m'|m'|m']; [apply Hf, Hk | done..].
Qed.

Lemma keeps_if {A} I (b : bool) (c c' : M D A) Q :
  keeps I c Q -> keeps I c' Q -> keeps I (if b then c else c') Q.
Proof. by destruct b. Qed.

(** An invariant of the machine that does not look at what is painted, is kept by the
    operator, and by the calls of the driver that the program makes. *)
Record stable (I : Mach D -> Prop) (calls : Z -> list Z -> Prop) : Prop := {
  st_paint m l : I m -> I (m <| painted := l |>);
  st_vector m v : I m -> I (m <| g_last_exc_vector := v |>);
  st_poll m k ks : I m -> keys m = k :: ks -> I (m <| keys := ks |> <| dev := act k (dev m) |>);
  st_empty m : I m -> I (m <| keys := [] |>);
  st_trap m t pb r mem d : I m -> calls t pb -> dm_trap t pb (ram m) (dev m) = (r, mem, d) ->
    I (m <| ram := mem |> <| dev := d |>) }.

Section Stable.

Context (I : Mach D -> Prop) (calls : Z -> list Z -> Prop) (HI : stable I calls).

Lemma keeps_paint r c s n : keeps I (paint r c s n) any.
Proof. intros m Hm. split; [|done]. by apply (st_paint _ _ HI). Qed.

Lemma set_again (m : Mach D) (ks ks' : list (Poll D)) (d d' : D) :
  m <| keys := ks |> <| dev := d |> <| keys := ks' |> <| dev := d' |> = m <| keys := ks' |> <| dev := d' |>.
Proof. by destruct m. Qed.

Lemma spin_keeps kc want ks d m :
  I m -> keys m = ks -> dev m = d ->
  let '(_, (ks', d')) := spin kc want ks d in I (m <| keys := ks' |> <| dev := d' |>).
Proof.
  revert d m. induction ks as [|k ks IH]; intros d m Hm Ek Ed; cbn [spin].
  { subst d. pose proof (st_empty _ _ HI m Hm) as Hm'. by destruct m. }
  pose proof (st_poll _ _ HI m k ks Hm Ek) as Hm'. subst d.
  destruct (Bool.eqb _ _); [done|].
  specialize (IH (act k (dev m)) _ Hm' eq_refl eq_refl).
  destruct (spin kc want ks (act k (dev m))) as [? [ks' d']]. by rewrite set_again in IH.
Qed.

Lemma keeps_spin kc want : keeps I (spin_until kc want) any.
Proof.
  intros m Hm. unfold spin_until. pose proof (spin_keeps kc want (keys m) (dev m) m Hm eq_refl eq_refl) as Hs.
  destruct (spin kc want _ _) as [[] [ks d]]; by try split.
Qed.

Lemma keeps_wait kc : keeps I (wait_key kc) any.
Proof. apply keeps_bind; [apply keeps_spin | intros _; apply keeps_spin]. Qed.

Lemma look_keeps a b (n : nat) ks d m :
  (length ks <= n)%nat -> I m -> keys m = ks -> dev m = d ->
  let '(_, (ks', d')) := look a b ks d in I (m <| keys := ks' |> <| dev := d' |>).
Proof.
  revert ks d m. induction n as [|n IH]; intros [|k ks] d m Hl Hm Ek Ed; cbn [look]; cbn in Hl; try lia;
    try (subst d; pose proof (st_empty _ _ HI m Hm) as Hm'; by destruct m).
  pose proof (st_poll _ _ HI m k ks Hm Ek) as Hm'. subst d.
  destruct (down a (key_map k)); [done|]. destruct ks as [|k2 ks].
  { pose proof (st_empty _ _ HI _ Hm') as Hm2. by destruct m. }
  pose proof (st_poll _ _ HI _ k2 ks Hm' eq_refl) as Hm2. cbn in Hm2.
  destruct (down b (key_map k2)); [by destruct m|].
  specialize (IH ks (act k2 (act k (dev m))) (m <| keys := ks |> <| dev := act k2 (act k (dev m)) |>)).
  cbn in Hl. specialize (IH ltac:(lia) ltac:(by destruct m) eq_refl eq_refl).
  destruct (look a b ks _) as [? [ks' d']]. by rewrite set_again in IH.
Qed.

Lemma keeps_choose a b : keeps I (choose a b) any.
Proof.
  apply keeps_bind.
  - intros m Hm. pose proof (look_keeps a b _ (keys m) (dev m) m (le_n _) Hm eq_refl eq_refl) as Hs.
    destruct (look a b _ _) as [[] [ks d]]; by try split.
  - intros r. apply keeps_bind; [apply keeps_wait | intros _; apply keeps_ret].
Qed.

Lemma keeps_recover t pb : calls t pb -> keeps I (recover t pb) any.
Proof.
  intros Hc m Hm. unfold recover. cbn zeta.
  set (m0 := m <| g_last_exc_vector := 0 |>).
  assert (Hm0 : I m0) by by apply (st_vector _ _ HI).
  destruct (dm_trap t pb (ram m0) (dev m0)) as [[r mem] d] eqn:E.
  pose proof (st_trap _ _ HI m0 t pb r mem d Hm0 Hc E) as Hm1.
  destruct r; (split; [|done]); [done | by apply (st_vector _ _ HI)].
Qed.

Lemma keeps_eject x : calls A_CONTROL (eject_pb x) -> keeps I (eject x) any.
Proof.
  intros Hc m Hm. unfold eject, eject_floppy.
  destruct (dm_trap _ _ _ _) as [[r mem] d] eqn:E.
  pose proof (st_trap _ _ HI m _ _ r mem d Hm Hc E) as Hm1. by destruct r; try split.
Qed.

End Stable.

(** ** The calls of the program *)

(** [rd] permits reads, [wr x] writes to and formats of drive [x]. *)
Inductive allowed (rd : Prop) (wr : Z -> Prop) : Z -> list Z -> Prop :=
  | allow_read pb : rd -> pb_refnum pb = SONY_REFNUM -> get16 pb PB_OFF_IOPOSMODE = 1 ->
      allowed rd wr A_READ pb
  | allow_write pb : wr (pb_drive pb) -> pb_refnum pb = SONY_REFNUM -> get16 pb PB_OFF_IOPOSMODE = 1 ->
      allowed rd wr A_WRITE pb
  | allow_format pb : wr (pb_drive pb) -> pb_refnum pb = SONY_REFNUM -> get16 pb CS_CODE = 6 ->
      allowed rd wr A_CONTROL pb
  | allow_eject pb : pb_refnum pb = SONY_REFNUM -> get16 pb CS_CODE = 7 ->
      allowed rd wr A_CONTROL pb.

Ltac keep HI :=
  repeat first
    [ apply (keeps_paint _ _ HI) | apply (keeps_choose _ _ HI) | apply (keeps_wait _ _ HI)
    | apply keeps_ret | apply keeps_if | apply keeps_bind; [|intros ?] ].

Section Allowed.

Context (I : Mach D -> Prop) (rd : Prop) (wr : Z -> Prop) (HI : stable I (allowed rd wr)).

Lemma keeps_eject_ok x : drive_ok x -> keeps I (eject x) any.
Proof.
  intros Hx. apply (keeps_eject _ _ HI). destruct (eject_pb_fields x Hx) as (_ & ? & ?). by apply allow_eject.
Qed.

Lemma keeps_transfer (w : bool) x n phase row off :
  drive_ok x -> (if w then wr x else rd) -> 0 <= off <= DISK_BYTES ->
  keeps I (transfer_from n w x phase row off) any.
Proof.
  intros Hx Hw. revert off. induction n as [|n IH]; intros off Ho; cbn [transfer_from]; [apply keeps_ret|].
  destruct (Z.ltb_spec off DISK_BYTES) as [Hlt|Hge]; cbn [negb]; [|apply keeps_ret].
  set (chunk := if _ <? _ then _ else _).
  assert (Hc : 0 < chunk <= DISK_BYTES - off) by (unfold chunk, CHUNK_BYTES, DISK_BYTES in *; zcases; lia).
  apply keeps_bind; [|intros r; keep HI; apply IH; lia].
  apply (keeps_recover _ _ HI).
  destruct (pb_init_fields x (IOBUF_BASE + off) off chunk Hx) as (E1 & E2 & E3 & _);
    try (unfold IOBUF_BASE, DISK_BYTES in *; lia).
  destruct w; [apply allow_write | apply allow_read]; by rewrite ?E3.
Qed.

Lemma keeps_retry (w : bool) x n phase row msg :
  drive_ok x -> (if w then wr x else rd) -> keeps I (retry n w x phase row msg) any.
Proof.
  intros Hx Hw. induction n as [|n IH]; cbn [retry]; [by intros m Hm|].
  apply keeps_bind; [by apply keeps_transfer|]. intros r. keep HI. exact IH.
Qed.

Lemma keeps_with_retry (w : bool) x phase row msg :
  drive_ok x -> (if w then wr x else rd) -> keeps I (transfer_with_retry w x phase row msg) any.
Proof. intros Hx Hw m Hm. by apply keeps_retry. Qed.

Lemma keeps_format_loop x : drive_ok x -> wr x -> keeps I (format_loop x) any.
Proof.
  intros Hx Hw m Hm. unfold format_loop. generalize (S (length (keys m))) as n. intros n.
  revert m Hm. change (keeps I (format_try n x) any).
  induction n as [|n IH]; cbn [format_try]; [by intros m Hm|]. keep HI; [|exact IH].
  apply (keeps_recover _ _ HI). destruct (format_pb_fields x Hx) as (? & E & ?).
  apply allow_format; by rewrite ?E.
Qed.

Lemma keeps_clear n row : keeps I (clear_rows n row) any.
Proof. revert row. induction n as [|n IH]; intros row; cbn [clear_rows]; keep HI. apply IH. Qed.

Lemma keeps_confirm two src dst : keeps I (confirm two src dst) any.
Proof. unfold confirm. apply keeps_bind; [apply keeps_clear|]. intros _. keep HI. Qed.

Lemma keeps_acquire two src dst : drive_ok src -> rd -> keeps I (acquire two src dst) any.
Proof.
  intros Hs Hr. unfold acquire. apply keeps_bind; [apply keeps_confirm|]. intros go. apply keeps_if; [apply keeps_ret|].
  apply keeps_bind; [|intros; apply keeps_ret]. unfold read_source.
  apply keeps_bind; [apply keeps_clear|]. intros _.
  apply keeps_bind; [by apply keeps_eject_ok|]. intros ej. keep HI. by apply keeps_with_retry.
Qed.

Lemma keeps_prepare two src dst :
  drive_ok src -> drive_ok dst -> wr dst -> keeps I (prepare_dest two src dst) any.
Proof.
  intros Hs Hd Hw. unfold prepare_dest. apply keeps_bind; [|intros _; by apply keeps_format_loop].
  apply keeps_if; [apply keeps_ret|].
  apply keeps_bind; [by apply keeps_eject_ok|]. intros ej. keep HI.
Qed.

Lemma keeps_write_image two src dst :
  drive_ok src -> drive_ok dst -> wr dst -> keeps I (write_image two src dst) any.
Proof.
  intros Hs Hd Hw. unfold write_image. apply keeps_bind; [by apply keeps_prepare|].
  intros g. apply keeps_if; [apply keeps_ret|]. by apply keeps_with_retry.
Qed.

Lemma keeps_finish two src dst : drive_ok src -> drive_ok dst -> keeps I (finish two src dst) any.
Proof.
  intros Hs Hd. unfold finish. apply keeps_bind; [|intros _; keep HI].
  apply keeps_if; repeat (apply keeps_bind; [by apply keeps_eject_ok|intros ?]); keep HI.
Qed.

Lemma keeps_session two src dst :
  drive_ok src -> drive_ok dst -> wr dst -> rd -> keeps I (copy_session two src dst) any.
Proof.
  intros Hs Hd Hw Hr. unfold copy_session. apply keeps_bind; [by apply keeps_acquire|].
  intros im. apply keeps_if; [unfold aborted; keep HI|].
  apply keeps_bind; [by apply keeps_write_image|].
  intros g. apply keeps_if; [unfold aborted; keep HI|].
  apply keeps_bind; [by apply keeps_finish|]. intros _. apply keeps_ret.
Qed.

End Allowed.

(** ** What the operator does *)

(** The operator moves disks, but does not change what is on them. *)
Definition honest (k : Poll D) : Prop := forall d id o, content (act k d) id o = content d id o.

(** The operator does not put disk [id] into drive [x]. *)
Definition spares (x id : Z) (k : Poll D) : Prop :=
  forall d, disk_in d x <> Some id -> disk_in (act k d) x <> Some id.

(** *** No disk changes *)

Definition unchanged (d0 : D) (m : Mach D) : Prop :=
  Forall honest (keys m) /\ forall id o, content (dev m) id o = content d0 id o.

Lemma unchanged_stable d0 : stable (unchanged d0) (allowed True (fun _ => False)).
Proof.
  split; try (intros m l Hm; exact Hm).
  - intros m k ks [Hk Hc] E. rewrite E in Hk. inversion_clear Hk. split; [done|]. intros id o. cbn. congruence.
  - intros m [_ Hc]. split; [constructor | done].
  - intros m t pb r mem d [Hk Hc] Ha E. split; [done|]. intros id o. cbn. rewrite <- Hc.
    destruct Ha as [pb' _ Hr Hp|? []|? []|pb' Hr Hcs].
    + by apply (read_law _ _ _ _ _ _ E).
    + apply (control_law _ _ _ _ _ _ E); auto.
Qed.

(** *** A disk that is kept out of the destination drive *)

Definition spared (x id : Z) (d0 : D) (m : Mach D) : Prop :=
  Forall (fun k => honest k /\ spares x id k) (keys m) /\ disk_in (dev m) x <> Some id /\
  forall o, content (dev m) id o = content d0 id o.

Lemma spared_stable x id d0 : stable (spared x id d0) (allowed True (fun y => y = x)).
Proof.
  split; try (intros m l Hm; exact Hm).
  - intros m k ks (Hk & Hd & Hc) E. rewrite E in Hk. inversion_clear Hk as [|? ? [Hh Hs] Hks].
    split_and!; cbn; [done | by apply Hs | congruence].
  - intros m (_ & Hd & Hc). split_and!; [constructor | done..].
  - intros m t pb r mem d (Hk & Hd & Hc) Ha E.
    split_and!; [done|..|intros o; cbn; rewrite <- Hc]; destruct Ha as [pb' _ Hr Hp|pb' Hx Hr Hp|pb' Hx Hr Hcs|pb' Hr Hcs].
    all: try (cbn; destruct (read_law _ _ _ _ _ _ E Hr Hp) as (? & Hdi & _); rewrite ?Hdi; by auto).
    all: try (cbn; destruct (write_law _ _ _ _ _ _ E Hr Hp) as (_ & Hdi & Hco & _); rewrite ?Hdi; try done; by apply Hco; rewrite Hx).
    all: cbn; destruct (control_law _ _ _ _ _ _ E Hr ltac:(auto)) as (_ & Hdi & Hco);
      try (intros Hin%Hdi; by apply Hd); apply Hco; auto; rewrite Hx; auto.
Qed.

(** *** The image in memory *)

Definition image_is (img : Z -> Z) (m : Mach D) : Prop :=
  forall o, 0 <= o < DISK_BYTES -> ram m (IOBUF_BASE + o) = img o.

Lemma image_stable img : stable (image_is img) (allowed False (fun _ => True)).
Proof.
  split; try (intros m l Hm; exact Hm).
  - by intros m k ks Hm E.
  - by intros m Hm.
  - intros m t pb r mem d Hm Ha E o Ho. cbn. rewrite <- Hm by done.
    destruct Ha as [? []|pb' _ Hr Hp|pb' _ Hr Hcs|pb' Hr Hcs].
    + by apply (write_law _ _ _ _ _ _ E).
    + apply (control_law _ _ _ _ _ _ E); auto.
    + apply (control_law _ _ _ _ _ _ E); auto.
Qed.

(** *** Nothing but the operator's honesty *)

Definition operator (m : Mach D) : Prop := Forall honest (keys m).

Lemma operator_stable rd wr : stable operator (allowed rd wr).
Proof.
  split; try (intros m l Hm; exact Hm).
  - intros m k ks Hk E. unfold operator in *. rewrite E in Hk. by inversion_clear Hk.
  - intros m _. constructor.
  - by intros m t pb r mem d Hm _ _.
Qed.

(** ** What a transfer that succeeds has done *)

Lemma bind_done {A B} (c : M D A) (f : A -> M D B) m b m' :
  bind c f m = Done b m' -> exists a m1, c m = Done a m1 /\ f a m1 = Done b m'.
Proof. unfold bind. destruct (c m) as [a m1|m1|m1]; [|done..]. intros E. by exists a, m1. Qed.

Lemma recover_zero t pb (m m' : Mach D) :
  recover t pb m = Done 0 m' ->
  exists mem d, dm_trap t pb (ram m) (dev m) = (Returned 0, mem, d) /\ ram m' = mem /\ dev m' = d.
Proof.
  unfold recover. destruct m as [rm dv ks pt ve dr]. cbn.
  destruct (dm_trap t pb rm dv) as [[[r|v] mem] d] eqn:E.
  - intros [= -> <-]. by exists mem, d.
  - intros [= Ev]. exfalso. pose proof (fault_vectors _ _ _ _ _ _ _ E) as Hv.
    unfold EXC_ERR_BASE in Ev. rewrite swrap_small in Ev; lia.
Qed.

(** [off] bytes of the image are the first bytes of the disk in drive [x]. *)
Definition loaded (x off : Z) (m : Mach D) : Prop :=
  off = 0 \/ exists id, disk_in (dev m) x = Some id /\
                        forall o, 0 <= o < off -> ram m (IOBUF_BASE + o) = content (dev m) id o.

(** The first [off] bytes of the disk in drive [x] are those of the image. *)
Definition stored (img : Z -> Z) (x off : Z) (m : Mach D) : Prop :=
  image_is img m /\
  (off = 0 \/ exists id, disk_in (dev m) x = Some id /\
                         forall o, 0 <= o < off -> content (dev m) id o = img o).

Lemma read_chunk x off chunk (m m' : Mach D) :
  drive_ok x -> 0 <= off -> 0 <= chunk -> off + chunk <= DISK_BYTES -> loaded x off m ->
  xfer false x (IOBUF_BASE + off) off chunk m = Done 0 m' -> loaded x (off + chunk) m'.
Proof.
  intros Hx Ho Hc Hl Hq (mem & d & E & Em & Ed)%recover_zero.
  destruct (pb_init_fields x (IOBUF_BASE + off) off chunk Hx) as (E1 & E2 & E3 & E4 & E5 & E6);
    try (unfold IOBUF_BASE, DISK_BYTES in *; lia).
  destruct (read_law _ _ _ _ _ _ E E1 E2) as (Hco & Hdi & Hmem & Hok).
  destruct (Hok eq_refl) as (id & Hid & Hb). rewrite E3, E4, E5, E6 in *.
  right. exists id. rewrite Ed, Em, Hdi. split; [done|]. intros o Hr. rewrite Hco.
  destruct (Z.lt_ge_cases o off) as [Hlt|Hge].
  - destruct Hq as [->|(id' & Hid' & Hq)]; [lia|]. assert (id' = id) as -> by congruence.
    rewrite Hmem by lia. apply Hq. lia.
  - replace (IOBUF_BASE + o) with (IOBUF_BASE + off + (o - off)) by lia. rewrite Hb by lia. f_equal. lia.
Qed.

Lemma write_chunk img x off chunk (m m' : Mach D) :
  drive_ok x -> 0 <= off -> 0 <= chunk -> off + chunk <= DISK_BYTES -> stored img x off m ->
  xfer true x (IOBUF_BASE + off) off chunk m = Done 0 m' -> stored img x (off + chunk) m'.
Proof.
  intros Hx Ho Hc Hl [Hi Hq] (mem & d & E & Em & Ed)%recover_zero.
  destruct (pb_init_fields x (IOBUF_BASE + off) off chunk Hx) as (E1 & E2 & E3 & E4 & E5 & E6);
    try (unfold IOBUF_BASE, DISK_BYTES in *; lia).
  destruct (write_law _ _ _ _ _ _ E E1 E2) as (Hmem & Hdi & _ & Hok).
  destruct (Hok eq_refl) as (id & Hid & Hb). rewrite E3, E4, E5, E6 in *.
  split; [intros o Hr; by rewrite Em, Hmem, Hi|].
  right. exists id. rewrite Ed, Hdi. split; [done|]. intros o Hr. rewrite Hb.
  case_bool_decide as Hin.
  - replace (IOBUF_BASE + off + (o - off)) with (IOBUF_BASE + o) by lia. apply Hi. lia.
  - destruct Hq as [->|(id' & Hid' & Hq)]; [lia|]. assert (id' = id) as -> by congruence. apply Hq. lia.
Qed.

(** A property that each chunk extends, and painting leaves, holds of the whole disk
    when the transfer returns zero. *)
Lemma transfer_done (w : bool) x phase row (Q : Z -> Mach D -> Prop) :
  (forall off chunk m m', 0 <= off -> 0 <= chunk -> off + chunk <= DISK_BYTES -> Q off m ->
     xfer w x (IOBUF_BASE + off) off chunk m = Done 0 m' -> Q (off + chunk) m') ->
  (forall off m l, Q off m -> Q off (m <| painted := l |>)) ->
  forall n off m m', 0 <= off <= DISK_BYTES -> DISK_BYTES - off <= Z.of_nat n * CHUNK_BYTES -> Q off m ->
  transfer_from n w x phase row off m = Done 0 m' -> Q DISK_BYTES m'.
Proof.
  intros Hx Hp. induction n as [|n IH]; intros off m m' Ho Hn Hq; cbn [transfer_from].
  { intros [= <-]. by replace DISK_BYTES with off by lia. }
  destruct (Z.ltb_spec off DISK_BYTES) as [Hlt|Hge]; cbn [negb].
  2: { intros [= <-]. by replace DISK_BYTES with off by lia. }
  set (chunk := if _ <? _ then _ else _).
  assert (Hc : 0 < chunk <= DISK_BYTES - off /\ (chunk = CHUNK_BYTES \/ off + chunk = DISK_BYTES))
    by (unfold chunk, CHUNK_BYTES, DISK_BYTES in *; zcases; lia).
  intros (r & m1 & E1 & E2)%bind_done. destruct (Z.eqb_spec r 0) as [->|Hr]; cbn [negb] in E2.
  2: { by injection E2 as -> _. }
  apply bind_done in E2 as (u & m2 & E2 & E3). injection E2 as <- <-.
  eapply IH; [| |by apply Hp, (Hx off chunk m m1); [lia..| |]|exact E3]; unfold CHUNK_BYTES in *; lia.
Qed.

Lemma keeps_done {A} (I : Mach D -> Prop) (c : M D A) Q m a m' :
  keeps I c Q -> I m -> c m = Done a m' -> I m'.
Proof. intros Hk Hm E. specialize (Hk m Hm). rewrite E in Hk. by destruct Hk. Qed.

Lemma retry_done (I : Mach D -> Prop) rd wr (HI : stable I (allowed rd wr)) (w : bool) x phase row msg n m m' :
  drive_ok x -> (if w then wr x else rd) -> I m ->
  retry n w x phase row msg m = Done false m' ->
  exists m1, I m1 /\ transfer_all w x phase row m1 = Done 0 m'.
Proof.
  intros Hx Hw. revert m. induction n as [|n IH]; intros m Hm; cbn [retry]; [done|].
  intros (r & m1 & E1 & E2)%bind_done.
  assert (Hm1 : I m1).
  { eapply keeps_done; [|exact Hm|exact E1]. apply (keeps_transfer I rd wr HI); [done..|unfold DISK_BYTES; lia]. }
  destruct (Z.eqb_spec r 0) as [->|Hr]; [injection E2 as ->; by exists m|].
  set (ask := bind _ _) in E2.
  assert (Hask : exists m2, I m2 /\ retry n w x phase row msg m2 = Done false m').
  { apply bind_done in E2 as (u1 & m2 & E2 & E3).
    apply bind_done in E3 as (u2 & m3 & E3 & E4).
    apply bind_done in E4 as (again & m4 & E4 & E5). destruct again; [|done]. cbn [negb] in E5.
    apply bind_done in E5 as (u5 & m5 & E5 & E6).
    apply bind_done in E6 as (u6 & m6 & E6 & E7).
    exists m6. split; [|exact E7].
    eapply keeps_done; [apply (keeps_paint _ _ HI)| |exact E6].
    eapply keeps_done; [apply (keeps_paint _ _ HI)| |exact E5].
    eapply keeps_done; [apply (keeps_choose _ _ HI)| |exact E4].
    eapply keeps_done; [apply (keeps_paint _ _ HI)| |exact E3].
    eapply keeps_done; [apply (keeps_paint _ _ HI)| |exact E2]. done. }
  destruct Hask as (m2 & Hm2 & E). by apply (IH m2).
Qed.

Lemma chunks_enough : DISK_BYTES - 0 <= Z.of_nat (Z.to_nat (DISK_BYTES / CHUNK_BYTES) + 1) * CHUNK_BYTES.
Proof. by vm_compute. Qed.

Lemma any_stable calls : stable (fun _ : Mach D => True) calls.
Proof. by split. Qed.

Lemma read_loads src (m m' : Mach D) row msg :
  drive_ok src -> transfer_with_retry false src "Reading" row msg m = Done false m' ->
  loaded src DISK_BYTES m'.
Proof.
  intros Hs E.
  destruct (retry_done (fun _ => True) True (fun _ => True) (any_stable _) false src _ _ _ _ _ _ Hs I I E) as (m4 & _ & E4).
  refine (transfer_done false src "Reading" row (loaded src) _ _ _ 0 m4 m' _ chunks_enough _ E4).
  - intros. by eapply read_chunk.
  - by intros off m1 l [->|Hq]; [left|right].
  - unfold DISK_BYTES. lia.
  - by left.
Qed.

(** Where [c] returns [b], [Q] holds afterwards. *)
Definition after {A} (c : M D A) (b : A) (Q : Mach D -> Prop) : Prop :=
  forall m m', c m = Done b m' -> Q m'.

Lemma after_last {A B} (c : M D A) (f : A -> M D B) (b : B) Q :
  (forall a, after (f a) b Q) -> after (bind c f) b Q.
Proof. intros Hf m m' (a & m1 & _ & E)%bind_done. by eapply Hf. Qed.

Lemma source_loads two src : drive_ok src -> after (read_source two src) false (loaded src DISK_BYTES).
Proof.
  intros Hs. unfold read_source. do 7 (apply after_last; intros ?).
  intros m m'. by apply read_loads.
Qed.

Lemma acquire_loads two src dst :
  drive_ok src -> after (acquire two src dst) true (loaded src DISK_BYTES).
Proof.
  intros Hs. unfold acquire. apply after_last. intros go. destruct go; [|by intros m m'].
  intros m m' (g & m2 & E2 & E3)%bind_done. destruct g; [done|]. injection E3 as <-.
  by eapply source_loads.
Qed.

(** Unfolding under the state would evaluate the program; these equations do not. *)
Lemma copy_session_eq two src dst :
  copy_session (D := D) two src dst =
  bind (acquire two src dst) (fun image : bool =>
    if negb image then aborted
    else bind (write_image two src dst) (fun gave_up : bool =>
      if gave_up then aborted else bind (finish two src dst) (fun _ => ret Complete))).
Proof. reflexivity. Qed.

Lemma write_image_eq two src dst :
  write_image (D := D) two src dst =
  bind (prepare_dest two src dst) (fun gave_up : bool => if gave_up then ret true else write_dest dst).
Proof. reflexivity. Qed.

Lemma write_image_stores two src dst img m m' :
  drive_ok src -> drive_ok dst -> image_is img m ->
  write_image two src dst m = Done false m' -> stored img dst DISK_BYTES m'.
Proof.
  intros Hs Hd Hi E. rewrite write_image_eq in E.
  apply bind_done in E as (g & m1 & E1 & E2). destruct g; [done|].
  pose proof (keeps_done _ _ _ _ _ _ (keeps_prepare _ _ _ (image_stable img) two src dst Hs Hd I) Hi E1) as Hi1.
  unfold write_dest, transfer_with_retry in E2.
  destruct (retry_done _ _ _ (image_stable img) true dst _ _ _ _ _ _ Hd I Hi1 E2) as (m2 & Hi2 & E3).
  unfold transfer_all in E3.
  refine (transfer_done true dst "Writing" (LINE 14) (stored img dst) _ _ _ 0 m2 m' _ chunks_enough _ E3).
  - intros. by eapply write_chunk.
  - by intros off m3 l.
  - unfold DISK_BYTES. lia.
  - split; [done | by left].
Qed.

(** C8: a session that reports the copy complete has, in its first part, filled the
    memory from the disk then in the source drive, and has left on the disk that was
    in the destination drive, at the end of the second part, exactly those bytes. *)
Theorem copy_exact two src dst (m m' : Mach D) (Hs : drive_ok src) (Hd : drive_ok dst)
    (Hop : Forall honest (keys m)) (Hrun : copy_session two src dst m = Done Complete m') :
  exists m1 m2 S T,
    acquire two src dst m = Done true m1 /\ write_image two src dst m1 = Done false m2 /\
    disk_in (dev m1) src = Some S /\ disk_in (dev m2) dst = Some T /\
    forall o, 0 <= o < DISK_BYTES -> content (dev m') T o = content (dev m1) S o.
Proof.
  rewrite copy_session_eq in Hrun.
  apply bind_done in Hrun as (im & m1 & E1 & E2). destruct im; [|done]. cbn [negb] in E2.
  apply bind_done in E2 as (g & m2 & E2 & E3). destruct g; [done|].
  apply bind_done in E3 as (u & m3 & E3 & E4). injection E4 as <-.
  destruct (acquire_loads _ _ _ Hs _ _ E1) as [?|(S & HS & Hl)]; [done|].
  destruct (write_image_stores two src dst (content (dev m1) S) m1 m2 Hs Hd Hl E2) as [_ [?|(T & HT & Ht)]]; [done|].
  exists m1, m2, S, T. split_and!; [done..|]. intros o Ho. rewrite <- (Ht o Ho).
  assert (H1 : operator m1) by exact (keeps_done _ _ _ _ _ _
    (keeps_acquire _ _ _ (operator_stable True (fun _ => True)) two src dst Hs I) Hop E1).
  assert (H2 : operator m2) by exact (keeps_done _ _ _ _ _ _
    (keeps_write_image _ _ _ (operator_stable True (fun _ => True)) two src dst Hs Hd I) H1 E2).
  assert (Hu : unchanged (dev m2) m2) by done.
  pose proof (keeps_done _ _ _ _ _ _ (keeps_finish _ _ _ (unchanged_stable (dev m2)) two src dst Hs Hd) Hu E3) as [_ Hc].
  apply Hc.
Qed.

(** *** After the image is in memory *)

(** The drive is empty after an eject that reports success. *)
Lemma eject_empties `{!Ejects D} x (m m' : Mach D) :
  drive_ok x -> eject x m = Done 0 m' ->
  keys m' = keys m /\ disk_in (dev m') x = None /\ forall id o, content (dev m') id o = content (dev m) id o.
Proof.
  intros Hx. destruct (eject_pb_fields x Hx) as (Ex & Er & Ec). unfold eject, eject_floppy.
  destruct (dm_trap _ _ _ _) as [[r mem] d] eqn:E. destruct r as [r|]; [|done]. intros [= -> <-].
  split; [by destruct m|]. split.
  - rewrite <- Ex. by apply (eject_law _ _ _ _ _ E).
  - intros id o. apply (control_law _ _ _ _ _ _ E); auto.
Qed.

(** With one drive the destination is prepared behind an eject. *)
Lemma keeps_swapped (I : Mach D -> Prop) rd wr (HI : stable I (allowed rd wr)) src ej (m m1 : Mach D) :
  drive_ok src -> wr src -> eject src m = Done ej m1 -> I m1 ->
  match write_image false src src m with Done _ m' | Waits m' | Lost m' => I m' end.
Proof.
  intros Hs Hw E Hm.
  assert (Hk : keeps I (g <- ((paint_result (LINE 11) "Eject source " ej ;;;
       paint_lit (LINE 9) 1 "Insert DEST disk (will be erased).      " 40 ;;;
       paint (LINE 10) 1 blank40 40 ;;; paint_lit (LINE 12) 1 "Press RETURN when ready ..." 27 ;;;
       wait_key KC_RETURN ;;; paint (LINE 12) 1 blank40 40) ;;; format_loop src) ;;
     if g then ret true else write_dest src) any).
  { apply keeps_bind; [|intros g; apply keeps_if; [apply keeps_ret|by apply (keeps_with_retry _ _ _ HI)]].
    apply keeps_bind; [keep HI|intros _; by apply (keeps_format_loop _ _ _ HI)]. }
  specialize (Hk m1 Hm). rewrite write_image_eq. unfold prepare_dest. unfold bind at 1 2 3. rewrite E.
  unfold bind at 1 2 in Hk. revert Hk. cbn iota.
  match goal with |- match ?x with _ => _ end -> match ?y with _ => _ end => change y with x; destruct x as [? ?|?|?] end;
    [by intros [? _]|done..].
Qed.

(** Disk [id] is out of the way: it is not in the destination drive, or there is one
    drive and its eject works. *)
Definition out_of_way (two : bool) (src dst id : Z) (m : Mach D) : Prop :=
  disk_in (dev m) dst <> Some id \/ (two = false /\ dst = src /\ exists m', eject src m = Done 0 m').

Lemma write_spares `{!Ejects D} two src dst id (m : Mach D) :
  drive_ok src -> drive_ok dst -> Forall (fun k => honest k /\ spares dst id k) (keys m) -> out_of_way two src dst id m ->
  match write_image two src dst m with Done _ m' | Waits m' | Lost m' => spared dst id (dev m) m' end.
Proof.
  intros Hs Hd Hk [Hin|(-> & -> & m1 & E)].
  - pose proof (keeps_write_image _ _ _ (spared_stable dst id (dev m)) two src dst Hs Hd eq_refl m) as Hw.
    destruct (write_image two src dst m); [apply Hw|apply Hw..]; by split_and!.
  - destruct (eject_empties src m m1 Hs E) as (Ek & Ed & Ec).
    apply (keeps_swapped _ _ _ (spared_stable src id (dev m)) src 0 m m1 Hs eq_refl E). split; [by rewrite Ek|].
    split; [by rewrite Ed|]. intros o. apply Ec.
Qed.

(** C22: the source is not touched.  Whether there are one or two drives: if, once the
    image is in memory, the operator does not put disk [id] into the destination drive,
    and it is not there already or its eject works, then at the end its contents are as
    they were at the beginning, whether the session completes, is given up, waits for a
    key or is lost, and whatever transfers fail on the way.  Before that moment nothing
    is asked of the operator but honesty, and no disk changes. *)
Theorem source_untouched `{!Ejects D} two src dst id (m : Mach D) (Hs : drive_ok src) (Hd : drive_ok dst)
    (Hop : Forall honest (keys m))
    (Haway : forall m1, acquire two src dst m = Done true m1 ->
       Forall (spares dst id) (keys m1) /\ out_of_way two src dst id m1) o :
  match copy_session two src dst m with
  | Done _ m' | Waits m' | Lost m' => content (dev m') id o = content (dev m) id o
  end.
Proof.
  pose proof (keeps_acquire _ _ _ (unchanged_stable (dev m)) two src dst Hs I m) as Ha.
  rewrite copy_session_eq. unfold bind at 1. 
  destruct (acquire two src dst m) as [image m1|m1|m1]; [|by apply Ha..]. destruct Ha as [[Hk1 Hc1] _]; [by split|].
  destruct image; cbn [negb]; [|apply Hc1]. destruct (Haway m1 eq_refl) as [Hsp Hout].
  pose proof (write_spares two src dst id m1 Hs Hd ltac:(apply Forall_and; by split) Hout) as Hw.
  unfold bind at 1. destruct (write_image two src dst m1) as [gave_up m2|m2|m2]; cycle 1;
    [destruct Hw as (_ & _ & Hc); by rewrite Hc, Hc1..|]. rewrite <- Hc1.
  assert (Hf : keeps (spared dst id (dev m1)) (if gave_up then aborted else bind (finish two src dst) (fun _ => ret Complete)) any).
  { apply keeps_if; [unfold aborted; keep (spared_stable dst id (dev m1))|].
    apply keeps_bind; [by apply (keeps_finish _ _ _ (spared_stable dst id (dev m1)))|]. intros _. apply keeps_ret. }
  specialize (Hf m2 Hw). destruct (if gave_up then _ else _) as [v m3|m3|m3]; by apply Hf.
Qed.

(** Up to the moment the image is in memory no disk has changed, so that a session
    given up at the warning or while reading leaves all of them as they were. *)
Theorem abort_changes_nothing two src dst (m : Mach D) (Hs : drive_ok src)
    (Hop : Forall honest (keys m)) id o :
  match acquire two src dst m with
  | Done _ m' | Waits m' | Lost m' => content (dev m') id o = content (dev m) id o
  end.
Proof.
  pose proof (keeps_acquire _ _ _ (unchanged_stable (dev m)) two src dst Hs I m) as Hk.
  destruct (acquire two src dst m) as [v m'|m'|m'].
  - by destruct Hk as [(_ & Hc) _].
  - by destruct Hk as (_ & Hc).
  - by destruct Hk as (_ & Hc).
Qed.

(** ** Waiting *)

(** A program that stops has looked at every sample of the keys, and one that returns
    has taken at least [k] of them. *)
Definition takes {A} (k : nat) (c : M D A) : Prop :=
  forall m, match c m with
            | Done _ m' => (length (keys m') + k <= length (keys m))%nat
            | Waits m' => keys m' = []
            | Lost _ => True
            end.

Lemma takes_bind {A B} j k (c : M D A) (f : A -> M D B) :
  takes j c -> (forall a, takes k (f a)) -> takes (j + k) (bind c f).
Proof.
  intros Hc Hf m. unfold bind. specialize (Hc m). destruct (c m) as [a m1|m1|m1]; [|done..].
  specialize (Hf a m1). destruct (f a m1); [lia | done..].
Qed.

Lemma takes_bind0 {A B} (c : M D A) (f : A -> M D B) :
  takes 0 c -> (forall a, takes 0 (f a)) -> takes 0 (bind c f).
Proof. apply (takes_bind 0 0). Qed.

Lemma takes_less {A} j k (c : M D A) : (j <= k)%nat -> takes k c -> takes j c.
Proof. intros Hj Hc m. specialize (Hc m). destruct (c m); [lia | done..]. Qed.

Lemma takes_ret {A} (a : A) : takes 0 (ret a).
Proof. intros m. cbn. lia. Qed.

Lemma takes_if {A} k (b : bool) (c c' : M D A) : takes k c -> takes k c' -> takes k (if b then c else c').
Proof. by destruct b. Qed.

Lemma takes_paint r c s n : takes 0 (paint r c s n).
Proof. intros m. cbn. lia. Qed.

Lemma takes_spin kc want : takes 1 (spin_until kc want).
Proof.
  assert (Hs : forall ks d, let '(ok, (ks', _)) := spin (D := D) kc want ks d in
            if ok : bool then (length ks' + 1 <= length ks)%nat else ks' = []).
  { induction ks as [|k ks IH]; intros d; cbn [spin]; [done|].
    destruct (Bool.eqb _ _); [cbn; lia|]. specialize (IH (act k d)).
    destruct (spin kc want ks _) as [[] [ks' d']]; [cbn; lia | done]. }
  intros m. unfold spin_until. specialize (Hs (keys m) (dev m)).
  destruct (spin kc want _ _) as [[] [ks' d']]; exact Hs.
Qed.

Lemma takes_wait kc : takes 0 (wait_key kc).
Proof. apply takes_bind0; [|intros _]; eapply takes_less, takes_spin; lia. Qed.

Lemma takes_choose a b : takes 1 (choose a b).
Proof.
  apply (takes_bind 1 0).
  - assert (Hs : forall n ks d, (length ks <= n)%nat -> let '(r, (ks', _)) := look (D := D) a b ks d in
              match r with Some _ => (length ks' + 1 <= length ks)%nat | None => ks' = [] end).
    { induction n as [|n IH]; intros [|k [|k2 ks]] d Hl; cbn in Hl |- *; try lia; try done.
      - destruct (down a (key_map k)); [cbn; lia|done].
      - destruct (down a (key_map k)); [cbn; lia|]. destruct (down b (key_map k2)); [cbn; lia|].
        specialize (IH ks (act k2 (act k d)) ltac:(lia)).
        destruct (look a b ks _) as [[] [ks' d']]; [cbn; lia | done]. }
    intros m. specialize (Hs _ (keys m) (dev m) (le_n _)).
    destruct (look a b _ _) as [[] [ks' d']]; exact Hs.
  - intros r. apply takes_bind0; [apply takes_wait | intros _; apply takes_ret].
Qed.

Lemma takes_recover t pb : takes 0 (recover t pb).
Proof. intros m. unfold recover. cbn zeta. destruct (dm_trap _ _ _ _) as [[[] ?] ?]; cbn; lia. Qed.

Lemma takes_eject x : takes 0 (eject x).
Proof. intros m. unfold eject, eject_floppy. destruct (dm_trap _ _ _ _) as [[[] ?] ?]; cbn; [lia | done]. Qed.

Ltac take_keys :=
  repeat lazymatch goal with
  | |- takes _ (bind _ _) => apply takes_bind0; [|intros ?]
  | |- takes _ (if _ then _ else _) => apply takes_if
  | |- takes _ (paint _ _ _ _) => apply takes_paint
  | |- takes _ (paint_lit _ _ _ _) => apply takes_paint
  | |- takes _ (paint_result _ _ _) => apply takes_paint
  | |- takes _ (wait_key _) => apply takes_wait
  | |- takes _ (recover _ _) => apply takes_recover
  | |- takes _ (xfer _ _ _ _ _) => apply takes_recover
  | |- takes _ (sony_format _) => apply takes_recover
  | |- takes _ (eject _) => apply takes_eject
  | |- takes _ (ret _) => apply takes_ret
  | |- takes _ (choose _ _) => eapply takes_less; [|apply takes_choose]; lia
  end.

Lemma takes_transfer w x n phase row off : takes 0 (transfer_from n w x phase row off).
Proof. revert off. induction n as [|n IH]; intros off; cbn [transfer_from]; take_keys; apply IH. Qed.

(** The same of a loop that has fuel for fewer than [n] samples. *)
Definition within {A} (n : nat) (c : M D A) : Prop :=
  forall m, (length (keys m) < n)%nat ->
    match c m with
    | Done _ m' => (length (keys m') <= length (keys m))%nat
    | Waits m' => keys m' = []
    | Lost _ => True
    end.

Lemma takes_within {A} n (c : M D A) : takes 0 c -> within n c.
Proof. intros Hc m _. specialize (Hc m). destruct (c m); [lia | done..]. Qed.

Lemma within_bind {A B} n (c : M D A) (f : A -> M D B) :
  takes 0 c -> (forall a, within n (f a)) -> within n (bind c f).
Proof.
  intros Hc Hf m Hl. unfold bind. specialize (Hc m). destruct (c m) as [a m1|m1|m1]; [|done..].
  specialize (Hf a m1 ltac:(lia)). destruct (f a m1); [lia | done..].
Qed.

Lemma within_choose {B} n a b (f : bool -> M D B) :
  (forall r, within n (f r)) -> within (S n) (bind (choose a b) f).
Proof.
  intros Hf m Hl. unfold bind. pose proof (takes_choose a b m) as Hc.
  destruct (choose a b m) as [r m1|m1|m1]; [|done..].
  specialize (Hf r m1 ltac:(lia)). destruct (f r m1); [lia | done..].
Qed.

Lemma within_if {A} n (b : bool) (c c' : M D A) : within n c -> within n c' -> within n (if b then c else c').
Proof. by destruct b. Qed.

Lemma retry_within w x n phase row msg : within n (retry n w x phase row msg).
Proof.
  induction n as [|n IH]; [by intros m Hl; lia|]. cbn [retry].
  apply within_bind; [apply takes_transfer|]. intros r. apply within_if; [apply takes_within, takes_ret|].
  do 2 (apply within_bind; [apply takes_paint|]; intros _). apply within_choose. intros again.
  apply within_if; [apply takes_within, takes_ret|].
  do 2 (apply within_bind; [apply takes_paint|]; intros _). exact IH.
Qed.

Lemma format_within x n : within n (format_try n x).
Proof.
  induction n as [|n IH]; [by intros m Hl; lia|]. cbn [format_try].
  apply within_bind; [apply takes_paint|]. intros _.
  apply within_bind; [apply takes_recover|]. intros r.
  apply within_if; [apply takes_within; take_keys|].
  do 2 (apply within_bind; [apply takes_paint|]; intros _). apply within_choose. intros again.
  apply within_if; [apply takes_within, takes_ret|].
  do 2 (apply within_bind; [apply takes_paint|]; intros _). exact IH.
Qed.

Lemma within_takes {A} (f : nat -> M D A) :
  (forall n, within n (f n)) -> takes 0 (fun m => f (S (length (keys m))) m).
Proof. intros Hf m. specialize (Hf (S (length (keys m))) m ltac:(lia)). destruct (f _ m); [lia | done..]. Qed.

Lemma takes_with_retry w x phase row msg : takes 0 (transfer_with_retry w x phase row msg).
Proof. apply (within_takes (fun n => retry n w x phase row msg)). intros n. apply retry_within. Qed.

Lemma takes_format_loop x : takes 0 (format_loop x).
Proof. apply (within_takes (fun n => format_try n x)). intros n. apply format_within. Qed.

Lemma takes_clear n row : takes 0 (clear_rows n row).
Proof. revert row. induction n as [|n IH]; intros row; cbn [clear_rows]; take_keys. apply IH. Qed.

(** The program never stops but for a key: when it waits it has looked at every
    sample of the keyboard there was, through all its loops of waiting and trying
    again. *)
Theorem waits_for_keys (m m' : Mach D) (Hw : bench_main m = Waits m') : keys m' = [].
Proof.
  assert (Ht : takes 0 (bench_main (D := D))).
  { unfold bench_main. apply takes_bind0; [intros m1; cbn; lia|]. intros src.
    apply takes_bind0; [unfold ask_mode, paint_lit; take_keys|]. intros two.
    unfold copy_session. apply takes_bind0; [|intros im; apply takes_if; [unfold aborted, paint_lit; take_keys|]].
    - unfold acquire. apply takes_bind0.
      { unfold confirm, paint_lit. apply takes_bind0; [apply takes_clear|]. intros _. take_keys. }
      intros go. take_keys. unfold read_source, paint_lit, paint_result.
      apply takes_bind0; [apply takes_clear|]. intros _. take_keys. apply takes_with_retry.
    - apply takes_bind0.
      { unfold write_image, prepare_dest, paint_lit, paint_result. take_keys; [apply takes_format_loop | apply takes_with_retry]. }
      intros g. unfold aborted, finish, paint_lit, paint_result. take_keys. }
  specialize (Ht m). by rewrite Hw in Ht.
Qed.

End Copy.

(** ** An instance *)

(** Drives that never fail: the disk in each drive, and the bytes of each disk. *)
Record Drives := MkDrives { slots : Z -> option Z; discs : Z -> Z -> Z }.

Definition put_disk (x : Z) (id : option Z) (d : Drives) : Drives :=
  MkDrives (fun y => if y =? x then id else slots d y) (discs d).

Definition set_disc (id : Z) (f : Z -> Z) (d : Drives) : Drives :=
  MkDrives (slots d) (fun i => if i =? id then f else discs d i).

#[export] Instance drives_manager : DeviceManager Drives := fun t pb mem d =>
  match slots d (pb_drive pb) with
  | None => (Returned (-65), mem, d)
  | Some id =>
      let inside o := (pb_offset pb <=? o) && (o <? pb_offset pb + pb_count pb) in
      if t =? A_READ then
        (Returned 0, (fun a => let i := a - pb_buffer pb in
                               if (0 <=? i) && (i <? pb_count pb) then discs d id (pb_offset pb + i) else mem a), d)
      else if t =? A_WRITE then
        (Returned 0, mem, set_disc id (fun o => if inside o then mem (pb_buffer pb + (o - pb_offset pb)) else discs d id o) d)
      else if get16 pb CS_CODE =? 7 then (Returned 0, mem, put_disk (pb_drive pb) None d)
      else (Returned 0, mem, set_disc id (fun _ => 0) d)
  end.

#[export] Instance drives_floppies : Floppies Drives.
Proof.
  apply (Build_Floppies Drives _ slots discs); unfold dm_trap, drives_manager.
  - intros t pb mem d v mem' d'. destruct (slots d _); [|done]. by repeat destruct (_ =? _).
  - intros pb mem d r mem' d'. cbn [Z.eqb]. destruct (slots d (pb_drive pb)) as [id|] eqn:E; [|by intros [= <- <- <-]].
    intros [= <- <- <-] _ _. split_and!; [done..| |].
    + intros a Ha. destruct ((0 <=? _) && _) eqn:Eb; [|done]. lia.
    + intros _. exists id. split; [done|]. intros i Hi. replace (pb_buffer pb + i - pb_buffer pb) with i by lia.
      destruct ((0 <=? i) && _) eqn:Eb; [done|]. lia.
  - intros pb mem d r mem' d'. destruct (slots d (pb_drive pb)) as [id|] eqn:E; [|by intros [= <- <- <-]].
    intros [= <- <- <-] _ _. split_and!; [done..| |].
    + intros id' o Hn. cbn. destruct (Z.eqb_spec id' id) as [->|]; [done|done].
    + intros _. exists id. split; [done|]. intros o. cbn. rewrite Z.eqb_refl.
      case_bool_decide; destruct (_ && _) eqn:Eb; try done; lia.
  - intros pb mem d r mem' d'. destruct (slots d (pb_drive pb)) as [id|] eqn:E; [|by intros [= <- <- <-]].
    change (A_CONTROL =? A_READ) with false. change (A_CONTROL =? A_WRITE) with false.
    destruct (Z.eqb_spec (get16 pb CS_CODE) 7) as [E7|E7]; intros [= <- <- <-] _ Hcs; split_and!; try done.
    + intros x id'. cbn. by destruct (_ =? _).
    + intros id' o [Hn|?]; [|done]. cbn. destruct (Z.eqb_spec id' id) as [->|]; done.
Defined.

(** *** A copy with one drive *)

Definition no_key : list Z := replicate 16 0.
Definition press (kc : Z) : list Z := <[Z.to_nat (Z.shiftr kc 3) := Z.shiftl 1 (Z.land kc 7)]> no_key.

Definition idle : Poll Drives := MkPoll no_key id.
Definition hit (kc : Z) : list (Poll Drives) := [MkPoll (press kc) id; idle].
Definition insert_hit (x id : Z) : list (Poll Drives) := [MkPoll (press KC_RETURN) (put_disk x (Some id)); idle].

(** The operator confirms, inserts disk 1, waits for the drive, inserts disk 2. *)
Definition one_drive : list (Poll Drives) :=
  MkPoll (press KC_RETURN) id :: hit KC_RETURN ++ insert_hit 1 1 ++ insert_hit 1 2.

Definition start (ks : list (Poll Drives)) : Mach Drives :=
  MkMach (fun _ => 0) (MkDrives (fun _ => None) (fun id o => if id =? 1 then o `mod` 251 else 170)) ks [] 0 1.

Definition completes {D} (r : Res D Verdict) : bool :=
  match r with Done Complete _ => true | _ => false end.

Lemma one_drive_completes : completes (copy_session false 1 1 (start one_drive)) = true.
Proof. vm_compute. reflexivity. Qed.

Lemma honest_key km x i : honest (MkPoll km (put_disk x i)).
Proof. by intros d id o. Qed.

Lemma honest_id km : honest (D := Drives) (MkPoll km id).
Proof. by intros d i o. Qed.

Lemma copy_exact_witness :
  exists m' m1 S T, copy_session false 1 1 (start one_drive) = Done Complete m' /\
    disk_in (dev m1) 1 = Some S /\
    forall o, 0 <= o < DISK_BYTES -> content (dev m') T o = content (dev m1) S o.
Proof.
  pose proof one_drive_completes as Hc.
  destruct (copy_session false 1 1 (start one_drive)) as [[] m'|m'|m'] eqn:E; try discriminate Hc.
  destruct (copy_exact false 1 1 (start one_drive) m' ltac:(unfold drive_ok; lia) ltac:(unfold drive_ok; lia)
    ltac:(repeat (constructor; [first [apply honest_id | apply honest_key]|]); constructor) E)
    as (m1 & m2 & S & T & _ & _ & HS & _ & Hcp).
  exists m', m1, S, T. split; [done|]. split; [exact HS | exact Hcp].
Defined.

#[export] Instance drives_eject : Ejects Drives.
Proof.
  intros pb mem d mem' d'. unfold dm_trap, drives_manager. destruct (slots d (pb_drive pb)) as [id|]; [|done].
  change (A_CONTROL =? A_READ) with false. change (A_CONTROL =? A_WRITE) with false.
  intros E _ E7. rewrite E7 in E. injection E as <- <-. cbn. by rewrite Z.eqb_refl.
Qed.

Lemma spares_key km x i id : i <> id -> spares x id (MkPoll km (put_disk x (Some i))).
Proof. intros Hi d _. cbn. rewrite Z.eqb_refl. congruence. Qed.

(** With one drive: disk 1 is read, and then taken out for disk 2. *)
Lemma source_untouched_witness :
  match copy_session false 1 1 (start one_drive) with
  | Done _ m' | Waits m' | Lost m' => content (dev m') 1 1000 = 247
  end.
Proof.
  assert (Hk : match acquire false 1 1 (start one_drive) with
    | Done true m1 => keys m1 = insert_hit 1 2 /\ match eject 1 m1 with Done 0 _ => True | _ => False end
    | _ => True end) by (vm_compute; by split).
  pose proof (source_untouched false 1 1 1 (start one_drive) ltac:(unfold drive_ok; lia) ltac:(unfold drive_ok; lia)
    ltac:(repeat (constructor; [first [apply honest_id | apply honest_key]|]); constructor)) as Hs.
  assert (Haway : forall m1, acquire false 1 1 (start one_drive) = Done true m1 ->
    Forall (spares 1 1) (keys m1) /\ out_of_way false 1 1 1 m1).
  { intros m1 E. rewrite E in Hk. clear E Hs. destruct Hk as [-> He]. split.
    - constructor; [by apply spares_key|]. constructor; [by intros d Hd|constructor].
    - right. split; [done|]. split; [done|]. destruct (eject 1 m1) as [[| |] m2|m2|m2]; try destruct He.
      exact (ex_intro _ m2 eq_refl). }
  specialize (Hs Haway 1000). destruct (copy_session false 1 1 (start one_drive)); exact Hs.
Defined.

Lemma abort_changes_nothing_witness :
  match acquire false 1 1 (start (hit KC_ESC)) with
  | Done _ m' | Waits m' | Lost m' => content (dev m') 1 1000 = 247
  end.
Proof.
  pose proof (abort_changes_nothing false 1 1 (start (hit KC_ESC)) ltac:(unfold drive_ok; lia)
    ltac:(repeat (constructor; [apply honest_id|]); constructor) 1 1000) as Hs.
  destruct (acquire false 1 1 (start (hit KC_ESC))); exact Hs.
Defined.

Lemma waits_for_keys_witness :
  exists m', bench_main (start (hit KC_2)) = Waits m' /\ keys m' = [].
Proof.
  assert (Hw : match bench_main (start (hit KC_2)) with Waits _ => true | _ => false end = true) by (vm_compute; reflexivity).
  destruct (bench_main (start (hit KC_2))) as [v m'|m'|m'] eqn:E; try discriminate Hw.
  exists m'. split; [reflexivity | exact (waits_for_keys _ _ E)].
Defined.
