(* ===== verification/Drives.v ===== *)
(** * The drives of the machine and its SCSI bus (preboot/iotest)

    The disk bench lists the drives the ROM knows, by walking the drive queue in low
    memory (drive_enum.c), shows the registers of the SCSI controller (scsi_probe.c)
    and asks a target for its sense bytes through the SCSI Manager (scsi_sense.c).

    The theorems: the walk finds the drives of the queue in order and stops on any
    memory, a corrupt one included ([enum_drives_chain], [enum_drives_bounded]); the
    name of a volume is found by its drive ([find_volume_chain]); the register dump
    reads back ([scsi_fmt_reads_back]); every request for sense bytes that has the bus
    gives it back ([sense_frees_bus]), and what the buffer holds when it fails
    ([sense_on_failure]). *)

From stdpp Require Import gmap.
From S2P Require Import Prelude Toolbox Preboot DiskCopy.

(** ** The drive queue *)

Inductive DriveType := DRIVE_TYPE_FLOPPY | DRIVE_TYPE_SCSI | DRIVE_TYPE_CDROM | DRIVE_TYPE_UNKNOWN.
#[export] Instance DriveType_eq_dec : EqDecision DriveType.
Proof. solve_decision. Defined.

Record DriveInfo := MkDriveInfo {
  drive_num : Z;
  di_refnum : Z;
  fs_id : Z;
  blocks : Z;
  di_type : DriveType;
  is_boot : bool;
  di_name : list Z }.

Definition DQE_QLINK : Z := 0.
Definition DQE_QTYPE : Z := 4.
Definition DQE_DRIVE : Z := 6.
Definition DQE_REFNUM : Z := 8.
Definition DQE_FSID : Z := 10.
Definition DQE_DRVSZ : Z := 12.
Definition DQE_DRVSZ2 : Z := 14.
Definition VCB_QLINK : Z := 0.
Definition VCB_VN : Z := 44.
Definition VCB_DRVNUM : Z := 72.

(** A Pascal string as a C string without its zero. *)
Definition pstr_to_cstr (dst_max src_addr : Z) (m : Mem) : list Z :=
  let len := m (u32 src_addr) in
  let len := if dst_max <=? len then dst_max - 1 else len in
  (fun i => m (u32 (src_addr + 1 + i))) <$> seqZ 0 len.

(** [hops] counts down the entries that may still be visited. *)
Fixpoint find_from (hops : nat) (m : Mem) (vcb drive out_max : Z) : list Z :=
  match hops with
  | O => []
  | S hops =>
      if vcb =? 0 then []
      else if s16 (rd_w m (vcb + VCB_DRVNUM)) =? drive then pstr_to_cstr out_max (vcb + VCB_VN) m
      else find_from hops m (rd_l m (vcb + VCB_QLINK)) drive out_max
  end.

Definition find_volume_name (m : Mem) (drive out_max : Z) : list Z :=
  find_from 32 m (rd_l m (0x00000356 + 2)) drive out_max.

Definition classify_refnum (refnum : Z) : DriveType :=
  if refnum =? -5 then DRIVE_TYPE_FLOPPY
  else if refnum =? -41 then DRIVE_TYPE_CDROM
  else DRIVE_TYPE_SCSI.

Definition refnum_name (refnum : Z) : option (list Z) :=
  if refnum =? -5 then Some (text ".Sony")
  else if refnum =? -33 then Some (text ".SCSI")
  else if refnum =? -41 then Some (text ".AppleCD")
  else None.

Definition drive_type_name (t : DriveType) : list Z :=
  text match t with
       | DRIVE_TYPE_FLOPPY => "FLP "
       | DRIVE_TYPE_SCSI => "SCSI"
       | DRIVE_TYPE_CDROM => "CD  "
       | DRIVE_TYPE_UNKNOWN => "?   "
       end.

(** The entry at [dqe], the body of the loop. *)
Definition drive_info (m : Mem) (boot_drive dqe : Z) : DriveInfo :=
  let qtype := rd_w m (dqe + DQE_QTYPE) in
  let num := rd_i16 m (dqe + DQE_DRIVE) in
  let ref := rd_i16 m (dqe + DQE_REFNUM) in
  let size := rd_w m (dqe + DQE_DRVSZ) in
  let size := if qtype =? 1 then Z.lor size (Z.shiftl (rd_w m (dqe + DQE_DRVSZ2)) 16) else size in
  MkDriveInfo num ref (rd_w m (dqe + DQE_FSID)) size (classify_refnum ref) (num =? boot_drive) [].

Fixpoint enum_from (hops : nat) (m : Mem) (boot_drive dqe max_drives n : Z) : list DriveInfo :=
  match hops with
  | O => []
  | S hops =>
      if (dqe =? 0) || negb (n <? max_drives) then []
      else drive_info m boot_drive dqe
           :: enum_from hops m boot_drive (rd_l m (dqe + DQE_QLINK)) max_drives (n + 1)
  end.

Definition enum_drives (m : Mem) (max_drives : Z) : list DriveInfo :=
  enum_from 32 m (rd_i16 m 0x00000210) (rd_l m 0x0000030A) max_drives 0.

(** A queue in memory: each entry begins with the address of the next. *)
Inductive chain (m : Mem) : Z -> list Z -> Prop :=
  | chain_end : chain m 0 []
  | chain_link p l : p <> 0 -> chain m (rd_l m p) l -> chain m p (p :: l).

Lemma enum_from_chain hops m boot max p l n :
  chain m p l -> 0 <= n ->
  enum_from hops m boot p max n = drive_info m boot <$> take (Nat.min hops (Z.to_nat (max - n))) l.
Proof.
  intros Hc. revert hops n. induction Hc as [|p l Hp Hc IH]; intros [|hops] n Hn; cbn [enum_from].
  - done.
  - by rewrite take_nil.
  - done.
  - apply Z.eqb_neq in Hp as ->. cbn [orb].
    destruct (Z.ltb_spec n max) as [Hlt|Hge]; cbn [negb].
    + replace (Nat.min (S hops) (Z.to_nat (max - n))) with (S (Nat.min hops (Z.to_nat (max - (n + 1))))) by lia.
      cbn [take fmap list_fmap]. f_equal. rewrite Z.add_0_r. apply IH. lia.
    + by replace (Nat.min (S hops) (Z.to_nat (max - n))) with 0%nat by lia.
Qed.

(** The drives listed are those of the queue, in its order, up to the number asked
    for and at most 32. *)
Theorem enum_drives_chain (m : Mem) (max : Z) (l : list Z) (Hc : chain m (rd_l m 0x0000030A) l) :
  enum_drives m max = drive_info m (rd_i16 m 0x00000210) <$> take (Nat.min 32 (Z.to_nat max)) l.
Proof. unfold enum_drives. rewrite (enum_from_chain _ _ _ _ _ l) by done. by rewrite Z.sub_0_r. Qed.

Lemma enum_from_length hops m boot p max n :
  0 <= n -> (length (enum_from hops m boot p max n) <= Nat.min hops (Z.to_nat (max - n)))%nat.
Proof.
  revert p n. induction hops as [|hops IH]; intros p n Hn; cbn [enum_from]; [done|].
  destruct (p =? 0); cbn [orb]; [cbn; lia|].
  destruct (Z.ltb_spec n max) as [Hlt|Hge]; cbn [negb length]; [|lia].
  specialize (IH (rd_l m (p + DQE_QLINK)) (n + 1) ltac:(lia)). lia.
Qed.

(** Whatever the memory holds, a queue that runs in a circle included, the walk
    ends and lists no more drives than asked for and no more than 32, none of them with
    a name. *)
Theorem enum_drives_bounded (m : Mem) (max : Z) :
  (length (enum_drives m max) <= Nat.min 32 (Z.to_nat max))%nat /\
  Forall (fun d => di_name d = []) (enum_drives m max).
Proof.
  split.
  - pose proof (enum_from_length 32 m (rd_i16 m 0x00000210) (rd_l m 0x0000030A) max 0 ltac:(lia)) as H.
    by rewrite Z.sub_0_r in H.
  - unfold enum_drives. generalize (rd_l m 0x0000030A) 0. generalize 32%nat as hops.
    induction hops as [|hops IH]; intros p n; cbn [enum_from]; [constructor|].
    destruct (_ || _); constructor; [done | apply IH].
Qed.

(** The volume of a drive in a queue of volumes. *)
Definition volume_of (m : Mem) (drive out_max : Z) (l : list Z) : list Z :=
  match find (fun v => s16 (rd_w m (v + VCB_DRVNUM)) =? drive) l with
  | Some v => pstr_to_cstr out_max (v + VCB_VN) m
  | None => []
  end.

(** The name found for a drive is that of the first volume on it among the first
    32 of the queue, cut to the buffer; it is empty when there is none. *)
Theorem find_volume_chain (m : Mem) (drive out_max : Z) (l : list Z)
    (Hc : chain m (rd_l m 0x00000358) l) (Hmax : 0 < out_max) :
  find_volume_name m drive out_max = volume_of m drive out_max (take 32 l) /\
  Z.of_nat (length (find_volume_name m drive out_max)) < out_max.
Proof.
  unfold find_volume_name. change (0x00000356 + 2) with 0x00000358.
  assert (H : forall hops p l, chain m p l -> find_from hops m p drive out_max = volume_of m drive out_max (take hops l)).
  { induction hops as [|hops IH]; intros p l' Hc'; [done|].
    destruct Hc' as [|p l' Hp Hc']; cbn [find_from]; [done|].
    apply Z.eqb_neq in Hp as ->. unfold volume_of. cbn [take find].
    destruct (_ =? drive); [done|]. rewrite Z.add_0_r. by apply IH. }
  rewrite (H 32%nat _ l Hc). split; [done|]. unfold volume_of. destruct (find _ _) as [v|]; [|cbn; lia].
  unfold pstr_to_cstr. rewrite length_fmap, length_seqZ. destruct (Z.leb_spec out_max (m (u32 (v + VCB_VN)))); lia.
Qed.

(** ** The registers of the SCSI controller *)

Definition NCR5380_BASE : Z := 0x50F10000.
Definition NCR5380_REG (n : Z) : Z := NCR5380_BASE + Z.shiftl n 4.

(** The registers are read through the memory map. *)
Definition scsi_read_ncr5380 (mmio : Mem) : list Z := (fun i => mmio (NCR5380_REG i)) <$> seqZ 0 8.

Definition hex : list Z := text "0123456789ABCDEF".

Definition hex_byte (v : Z) : list Z :=
  [byte hex (Z.to_nat (Z.land (Z.shiftr v 4) 0xF)); byte hex (Z.to_nat (Z.land v 0xF))].

(** The loop from register [i] on. *)
Fixpoint fmt_from (i : Z) (regs : list Z) : list Z :=
  match regs with
  | [] => []
  | v :: regs => hex_byte v ++ (if i <? 7 then [32] else []) ++ fmt_from (i + 1) regs
  end.

(** [dst[23]] is the last cell of the text. *)
Definition scsi_fmt_ncr5380 (regs : list Z) : list Z := take 23 (fmt_from 0 regs) ++ [32].

Definition scsi_probe_format (mmio : Mem) : list Z := scsi_fmt_ncr5380 (scsi_read_ncr5380 mmio).

(** The value of a hexadecimal digit. *)
Definition unhex (c : Z) : Z := if c <? 58 then c - 48 else c - 55.

Fixpoint parse_dump (l : list Z) : list Z :=
  match l with
  | a :: b :: _ :: l => unhex a * 16 + unhex b :: parse_dump l
  | _ => []
  end.

Lemma unhex_hex (d : Z) : 0 <= d < 16 -> unhex (byte hex (Z.to_nat d)) = d.
Proof.
  intros Hd.
  assert (Hall : forallb (fun d => unhex (byte hex (Z.to_nat d)) =? d) (seqZ 0 16) = true) by (vm_compute; reflexivity).
  rewrite forallb_forall in Hall. specialize (Hall d).
  rewrite <- list_elem_of_In, elem_of_seqZ in Hall. apply Z.eqb_eq, Hall. lia.
Qed.

Lemma parse_hex_byte (v c : Z) (l : list Z) :
  0 <= v < 256 -> parse_dump (hex_byte v ++ c :: l) = v :: parse_dump l.
Proof.
  intros Hv. cbn [hex_byte app parse_dump]. rewrite !unhex_hex; cycle 1.
  { change 0xF with (2 ^ 4 - 1). rewrite land_ones_mod by lia. apply Z.mod_pos_bound. lia. }
  { change 0xF with (2 ^ 4 - 1). rewrite land_ones_mod by lia. apply Z.mod_pos_bound. lia. }
  change 0xF with (2 ^ 4 - 1). rewrite !land_ones_mod, Z.shiftr_div_pow2 by lia. change (2 ^ 4) with 16.
  f_equal. div_lia.
Qed.

(** The dump of the registers is 24 characters from which the eight bytes read
    back. *)
Theorem scsi_fmt_reads_back (mmio : Mem) (Hm : forall a, 0 <= mmio a < 256) :
  length (scsi_probe_format mmio) = 24%nat /\
  parse_dump (scsi_probe_format mmio) = scsi_read_ncr5380 mmio.
Proof.
  unfold scsi_probe_format, scsi_read_ncr5380, scsi_fmt_ncr5380.
  change (seqZ 0 8) with [0; 1; 2; 3; 4; 5; 6; 7]. split; [done|].
  change (parse_dump (hex_byte (mmio (NCR5380_REG 0)) ++ 32 :: hex_byte (mmio (NCR5380_REG 1)) ++ 32 ::
    hex_byte (mmio (NCR5380_REG 2)) ++ 32 :: hex_byte (mmio (NCR5380_REG 3)) ++ 32 ::
    hex_byte (mmio (NCR5380_REG 4)) ++ 32 :: hex_byte (mmio (NCR5380_REG 5)) ++ 32 ::
    hex_byte (mmio (NCR5380_REG 6)) ++ 32 :: hex_byte (mmio (NCR5380_REG 7)) ++ 32 :: []) =
    (fun i => mmio (NCR5380_REG i)) <$> [0; 1; 2; 3; 4; 5; 6; 7]).
  by rewrite !parse_hex_byte by done.
Qed.

(** ** Sense bytes *)

(** The calls of the SCSI Manager with their arguments. *)
Inductive SmCall :=
  | SCSIGet | SCSISelect (id : Z) | SCSICmd (cdb : list Z) (len : Z)
  | SCSIRBlind (tib : list Z) | SCSIComplete (timeout_ticks : Z).

(** What a call does: its result, the bytes it transfers, the bus afterwards. *)
Class ScsiManager (B : Type) := sm_trap : SmCall -> B -> trapped * list Z * B.
#[global] Hint Mode ScsiManager ! : typeclass_instances.

Definition TIB_INC : Z := 0.
Definition TIB_STOP : Z := 6.
Definition g_cdb_request_sense : list Z := [0x03; 0x00; 0x00; 0x00; 0x12; 0x00].
Definition SCSI_ID_DEFAULT : Z := 0.
Definition SCSI_SENSE_EXC_BASE : Z := 30000.

Section Sense.

Context {B : Type} `{ScsiManager B}.

(** The bus, the buffer of the caller and the calls made. *)
Record Sense := MkSense { bus : B; out_sense : list Z; calls : list SmCall }.

(** A call; what it transfers overwrites the front of the buffer. *)
Definition call (c : SmCall) (s : Sense) : trapped * Sense :=
  let '(r, bytes, b) := sm_trap c (bus s) in
  (r, MkSense b (overlay 0 (take 18 bytes) (out_sense s)) (calls s ++ [c])).

Definition sense_tib (addr : Z) : list Z := [TIB_INC; 18; addr; TIB_STOP; 0; 0].

(** The label [cleanup]: the command is completed and its result dropped. *)
Definition cleanup (r : Z) (s : Sense) : trapped * Sense :=
  match call (SCSIComplete 60) s with
  | (Returned _, s) => (Returned r, s)
  | (Faulted v, s) => (Faulted v, s)
  end.

Definition scsi_request_sense (addr scsi_id : Z) (s : Sense) : trapped * Sense :=
  let s := MkSense (bus s) (replicate 18 0) (calls s) in
  match call SCSIGet s with
  | (Faulted v, s) => (Faulted v, s)
  | (Returned r, s) =>
      if negb (r =? 0) then (Returned r, s)
      else
        match call (SCSISelect scsi_id) s with
        | (Faulted v, s) => (Faulted v, s)
        | (Returned r, s) =>
            if negb (r =? 0) then cleanup r s
            else
              match call (SCSICmd g_cdb_request_sense 6) s with
              | (Faulted v, s) => (Faulted v, s)
              | (Returned r, s) =>
                  if negb (r =? 0) then cleanup r s
                  else
                    match call (SCSIRBlind (sense_tib addr)) s with
                    | (Faulted v, s) => (Faulted v, s)
                    | (Returned r, s) => cleanup r s
                    end
              end
        end
  end.

(** Behind the recovery barrier: an exception clears the buffer. *)
Definition scsi_request_sense_safe (addr scsi_id : Z) (s : Sense) : Z * Sense :=
  match scsi_request_sense addr scsi_id s with
  | (Returned r, s) => (r, s)
  | (Faulted v, s) =>
      (s16 (SCSI_SENSE_EXC_BASE + v), MkSense (bus s) (replicate 18 0) (calls s))
  end.

Definition is_complete (c : SmCall) : bool := match c with SCSIComplete _ => true | _ => false end.

Ltac sense_cases :=
  repeat match goal with
  | |- context [call ?c ?s] =>
      let r := fresh "r" in let b := fresh "b" in let by' := fresh "bytes" in
      unfold call at 1; destruct (sm_trap c _) as [[[r|r] by'] b];
      cbn [bus out_sense calls app]
  | |- context [negb (?r =? 0)] => destruct (Z.eqb_spec r 0) as [->|?]; cbn [negb]
  | |- context [cleanup ?r ?s] => unfold cleanup at 1
  end.

(** A request without an exception makes the calls in their order, stops at the
    first that fails, returns its result, and completes the command as its last call
    exactly if it has got the bus. *)
Theorem sense_frees_bus (addr scsi_id : Z) (s : Sense) (r : Z) (s' : Sense)
    (Hrun : scsi_request_sense addr scsi_id s = (Returned r, s')) :
  let all := [SCSIGet; SCSISelect scsi_id; SCSICmd g_cdb_request_sense 6; SCSIRBlind (sense_tib addr)] in
  exists k, (1 <= k <= 4)%nat /\
    calls s' = calls s ++ take k all ++ (if decide (k = 1)%nat then [] else [SCSIComplete 60]) /\
    (r = 0 -> k = 4%nat).
Proof.
  revert Hrun. unfold scsi_request_sense. cbn zeta. sense_cases; try discriminate; intros [= <- <-]; cbn [calls].
  all: rewrite <- ?app_assoc; cbn [app].
  all: let fits k := (exists k; split_and!; [lia|lia|by rewrite ?app_nil_r|done || congruence]) in
    first [fits 4%nat | fits 3%nat | fits 2%nat | fits 1%nat].
Qed.

(** After an exception the buffer is zero and the error number tells the vector;
    where the blind read itself reports an error, what it has transferred is still in
    the buffer. *)
Theorem sense_on_failure (addr scsi_id : Z) (s : Sense) :
  (forall v s', scsi_request_sense addr scsi_id s = (Faulted v, s') -> 2 <= v <= 9 ->
    scsi_request_sense_safe addr scsi_id s =
    (SCSI_SENSE_EXC_BASE + v, MkSense (bus s') (replicate 18 0) (calls s'))) /\
  (forall b1 b2 b3 b4 b5 r bytes,
    sm_trap SCSIGet (bus s) = (Returned 0, [], b1) ->
    sm_trap (SCSISelect scsi_id) b1 = (Returned 0, [], b2) ->
    sm_trap (SCSICmd g_cdb_request_sense 6) b2 = (Returned 0, [], b3) ->
    sm_trap (SCSIRBlind (sense_tib addr)) b3 = (Returned r, bytes, b4) ->
    sm_trap (SCSIComplete 60) b4 = (Returned 0, [], b5) ->
    let '(err, s') := scsi_request_sense_safe addr scsi_id s in
    err = r /\ out_sense s' = take 18 bytes ++ replicate (18 - length bytes) 0).
Proof.
  split.
  - intros v s' E Hv. unfold scsi_request_sense_safe. rewrite E. unfold SCSI_SENSE_EXC_BASE.
    by rewrite swrap_small by lia.
  - intros b1 b2 b3 b4 b5 r bytes E1 E2 E3 E4 E5.
    unfold scsi_request_sense_safe, scsi_request_sense, cleanup, call. cbn zeta. cbn [bus out_sense calls].
    rewrite E1. cbn [bus out_sense calls negb Z.eqb]. rewrite E2. cbn [bus out_sense calls negb Z.eqb].
    rewrite E3. cbn [bus out_sense calls negb Z.eqb]. rewrite E4. cbn [bus out_sense calls]. rewrite E5.
    cbn [bus out_sense calls]. split; [done|]. unfold overlay. rewrite !take_nil, !take_0. cbn [app length Nat.add].
    rewrite !drop_0, drop_replicate, length_take. do 2 f_equal. lia.
Qed.

End Sense.

(** ** Instances *)

(** Two drives, the second with a large size, in a queue that ends. *)
Definition low_mem : Mem := fun a =>
  default 0 (list_to_map (M := gmap.gmap Z Z)
    [(0x30C, 0x10); (0x211, 2); (0x1002, 0x20); (0x1007, 1); (0x1008, 0xFF); (0x1009, 0xFB); (0x100D, 0xA0);
     (0x2005, 1); (0x2007, 2); (0x2008, 0xFF); (0x2009, 0xDF); (0x200C, 0x10); (0x200F, 2)] !! a).

Lemma low_mem_chain : chain low_mem (rd_l low_mem 0x0000030A) [0x1000; 0x2000].
Proof.
  change (rd_l low_mem 0x0000030A) with 0x1000.
  apply chain_link; [done|]. change (rd_l low_mem 0x1000) with 0x2000.
  apply chain_link; [done|]. change (rd_l low_mem 0x2000) with 0. apply chain_end.
Defined.

Lemma enum_drives_chain_witness :
  enum_drives low_mem 4 =
  [MkDriveInfo 1 (-5) 0 160 DRIVE_TYPE_FLOPPY false []; MkDriveInfo 2 (-33) 0 135168 DRIVE_TYPE_SCSI true []].
Proof. rewrite (enum_drives_chain low_mem 4 _ low_mem_chain). vm_compute. reflexivity. Defined.

Lemma find_volume_chain_witness :
  find_volume_name (fun a => if a =? 0x35B then 0x60 else if a =? 0x60 + 73 then 3 else if a =? 0x60 + 44 then 2
                             else if a =? 0x60 + 45 then 72 else if a =? 0x60 + 46 then 68 else 0) 3 28 = text "HD".
Proof.
  set (m := fun a => _).
  destruct (find_volume_chain m 3 28 [0x60]) as [-> _]; [|lia|vm_compute; reflexivity].
  change (rd_l m 0x00000358) with 0x60. apply chain_link; [done|]. change (rd_l m 0x60) with 0. apply chain_end.
Defined.

Lemma scsi_fmt_reads_back_witness :
  parse_dump (scsi_probe_format (fun a => a `mod` 256)) = [0; 16; 32; 48; 64; 80; 96; 112].
Proof.
  destruct (scsi_fmt_reads_back (fun a => a `mod` 256)) as [_ ->]; [intros a; apply Z.mod_pos_bound; lia|].
  vm_compute. reflexivity.
Defined.

(** A target that answers with three bytes and an error. *)
#[local] Instance short_target : ScsiManager unit := fun c b =>
  match c with SCSIRBlind _ => (Returned (-36), [112; 0; 5], b) | _ => (Returned 0, [], b) end.

(** One that answers without an error. *)
Definition full_target : ScsiManager bool := fun c b => (Returned 0, [], true).

Lemma sense_frees_bus_witness :
  exists s', scsi_request_sense (H := full_target) 0 3 (MkSense false [] []) = (Returned 0, s') /\
             last (calls s') = Some (SCSIComplete 60).
Proof.
  destruct (scsi_request_sense (H := full_target) 0 3 (MkSense false [] [])) as [r s'] eqn:E.
  assert (r = Returned 0) as -> by (revert E; vm_compute; by intros [= <- _]).
  exists s'. split; [done|].
  destruct (sense_frees_bus (H := full_target) 0 3 (MkSense false [] []) 0 s' E) as (k & _ & -> & Hk).
  rewrite Hk by done. reflexivity.
Defined.

Lemma sense_on_failure_witness :
  (scsi_request_sense_safe 0 0 (MkSense tt [] [])).1 = -36 /\
  take 4 (out_sense (scsi_request_sense_safe 0 0 (MkSense tt [] [])).2) = [112; 0; 5; 0].
Proof.
  destruct (sense_on_failure 0 0 (MkSense tt [] [])) as [_ H].
  specialize (H tt tt tt tt tt (-36) [112; 0; 5] eq_refl eq_refl eq_refl eq_refl eq_refl).
  destruct (scsi_request_sense_safe 0 0 (MkSense tt [] [])) as [err s']. destruct H as [-> Hs].
  split; [reflexivity | cbn [snd]; rewrite Hs; reflexivity].
Defined.
