(* ===== verification/DiskBench.v ===== *)
(** * The disk bench (preboot/iotest: diskio_main.c, timing.c, sizes.c)

    For every size of a table the bench reads a file of that size, writes a pattern,
    reads it back, compares and times each step, and appends one line per step to the
    result file through the writer of [Preboot].

    The driver of the ROM, the driver under the writer and the timer chip are
    arguments.  Accesses to the chip are those of the code, in its order; the loop that
    drains the overflow flag has a fuel, and a bench whose loop does not end is [None].

    The theorems: the comparison finds exactly the bytes that differ ([verify_exact]),
    it notices a buffer left empty, but for one case, and every byte of a stale one
    ([empty_buffer_noticed], [stale_buffer_noticed]); a request is the least number of
    whole sectors and fits where the size fits ([sector_round_up_least]); a status cell
    reads back to the error ([status_reads_back]); what the timer can report at most
    ([timer_bounded]) and how far it is off ([timer_scale]).  [DiskRun] runs the
    bench. *)

From S2P Require Import Prelude Toolbox Preboot DiskCopy Drives.

(** ** The timer (timing.c) *)

Definition VIA1_BASE : Z := 0x50F00000.
Definition VIA1_T2CL : Z := VIA1_BASE + 0x200 * 8.
Definition VIA1_T2CH : Z := VIA1_BASE + 0x200 * 9.
Definition VIA1_IER : Z := VIA1_BASE + 0x200 * 14.
Definition VIA1_IFR : Z := VIA1_BASE + 0x200 * 13.
Definition VIA1_ACR : Z := VIA1_BASE + 0x200 * 11.
Definition IER_T2 : Z := 0x20.

(** The chip: a read and a write of a register, both of which may change it. *)
Class Via (V : Type) := {
  r8 : Z -> V -> Z * V;
  w8 : Z -> Z -> V -> V }.
#[global] Hint Mode Via ! : typeclass_instances.

Record Timer (V : Type) := MkTimer { g_wrap_count : Z; g_start_t2 : Z; chip : V }.
Arguments MkTimer {V}.
Arguments g_wrap_count {V}.
Arguments g_start_t2 {V}.
Arguments chip {V}.

Section Timing.

Context {V : Type} `{Via V}.

Definition timer_start (t : Timer V) : Timer V :=
  let '(acr, v) := r8 VIA1_ACR (chip t) in
  let v := w8 VIA1_ACR (Z.land acr (u8 (Z.lnot 0x20))) v in
  let v := w8 VIA1_IER IER_T2 v in
  let v := w8 VIA1_T2CL 0xFF v in
  let v := w8 VIA1_T2CH 0xFF v in
  let v := w8 VIA1_IFR IER_T2 v in
  MkTimer 0 0xFFFF v.

Definition flagged (ifr : Z) : bool := negb (Z.land ifr IER_T2 =? 0).

Fixpoint drain (n : nat) (t : Timer V) : option (Timer V) :=
  match n with
  | O => None
  | S n =>
      let '(ifr, v) := r8 VIA1_IFR (chip t) in
      if flagged ifr
      then drain n (MkTimer (u32 (g_wrap_count t + 1)) (g_start_t2 t) (w8 VIA1_IFR IER_T2 v))
      else Some (MkTimer (g_wrap_count t) (g_start_t2 t) v)
  end.

(** The counter, low byte first. *)
Definition read_t2 (v : V) : Z * V :=
  let '(lo, v) := r8 VIA1_T2CL v in
  let '(hi, v) := r8 VIA1_T2CH v in
  (Z.lor (u16 (Z.shiftl hi 8)) lo, v).

Definition read_ticks_since_start (fuel : nat) (t : Timer V) : option (Z * Timer V) :=
  t ← drain fuel t;
  let '(t2, v) := read_t2 (chip t) in
  let '(ifr, v) := r8 VIA1_IFR v in
  let '(t2, wraps, v) :=
    if flagged ifr
    then let v := w8 VIA1_IFR IER_T2 v in
         let '(t2, v) := read_t2 v in (t2, u32 (g_wrap_count t + 1), v)
    else (t2, g_wrap_count t, v) in
  let elapsed := u32 (g_start_t2 t - t2) in
  Some (u32 (elapsed + u32 (Z.shiftl wraps 16)), MkTimer wraps (g_start_t2 t) v).

Definition to_us (ticks : Z) : Z := u32 (ticks * 100) / 127.

Definition timer_elapsed_us (fuel : nat) (t : Timer V) : option (Z * Timer V) :=
  '(ticks, t) ← read_ticks_since_start fuel t; Some (to_us ticks, t).

End Timing.

(** What the documentation of the chip promises and the code relies on: registers are
    bytes, and a one written to the flag clears it, so that the next look at the flag,
    which comes less than a period of the counter later, finds it clear. *)
Class ViaFlag (V : Type) `{Via V} := {
  r8_byte (a : Z) (v : V) : 0 <= (r8 a v).1 < 256;
  flag_clears (v : V) : flagged (r8 VIA1_IFR (w8 VIA1_IFR IER_T2 v)).1 = false }.

Section TimerBound.

Context {V : Type} `{ViaFlag V}.

Lemma read_t2_range (v : V) : 0 <= (read_t2 v).1 < 65536.
Proof.
  unfold read_t2. pose proof (r8_byte VIA1_T2CL v) as Hl. destruct (r8 VIA1_T2CL v) as [lo v1].
  pose proof (r8_byte VIA1_T2CH v1) as Hh. destruct (r8 VIA1_T2CH v1) as [hi v2]. cbn [fst] in *.
  rewrite Z.shiftl_mul_pow2 by lia. rewrite uwrap_small by (change (2 ^ 16) with 65536; lia).
  rewrite <- Z.shiftl_mul_pow2, lor_shiftl_add by lia. lia.
Qed.

Lemma drain_two (n : nat) (t : Timer V) :
  (2 <= n)%nat -> g_wrap_count t = 0 ->
  exists t', drain n t = Some t' /\ g_start_t2 t' = g_start_t2 t /\ 0 <= g_wrap_count t' <= 1.
Proof.
  intros Hn Hw. destruct n as [|[|n]]; [lia..|]. cbn [drain].
  destruct (r8 VIA1_IFR (chip t)) as [ifr v]. destruct (flagged ifr).
  - cbn [chip]. pose proof (flag_clears v) as Hf.
    destruct (r8 VIA1_IFR (w8 VIA1_IFR IER_T2 v)) as [ifr2 v2]. cbn [fst] in Hf. rewrite Hf.
    eexists. split; [done|]. cbn. rewrite Hw. by split.
  - eexists. split; [done|]. cbn. rewrite Hw. by split.
Qed.

(** Time passes between the start and the reading: the chip goes on, the program's
    variables do not change. *)
Definition elapse (f : V -> V) (t : Timer V) : Timer V := MkTimer (g_wrap_count t) (g_start_t2 t) (f (chip t)).

Lemma timer_start_vars (t : Timer V) : g_wrap_count (timer_start t) = 0 /\ g_start_t2 (timer_start t) = 65535.
Proof. unfold timer_start. by destruct (r8 VIA1_ACR (chip t)). Qed.

Lemma elapsed_at_most (n : nat) (t : Timer V) :
  (2 <= n)%nat -> g_wrap_count t = 0 -> g_start_t2 t = 65535 ->
  exists us t', timer_elapsed_us n t = Some (us, t') /\ 0 <= us <= 154808.
Proof.
  intros Hn Hw Hst. unfold timer_elapsed_us, read_ticks_since_start.
  destruct (drain_two n t Hn Hw) as (t1 & -> & E1 & Hw1).
  rewrite Hst in E1. cbn [mbind option_bind]. pose proof (read_t2_range (chip t1)) as Ht2.
  destruct (read_t2 (chip t1)) as [t2 v]. cbn [fst] in Ht2.
  destruct (r8 VIA1_IFR v) as [ifr v1].
  assert (Hus : forall t2 w, 0 <= t2 < 65536 -> 0 <= w <= 2 ->
    0 <= to_us (u32 (u32 (65535 - t2) + u32 (Z.shiftl w 16))) <= 154808).
  { intros t2' w Ht Hw'. rewrite Z.shiftl_mul_pow2 by lia. change (2 ^ 16) with 65536.
    rewrite !u32_small by (rewrite ?u32_small; lia). unfold to_us. rewrite u32_small by lia. div_lia. }
  destruct (flagged ifr).
  - pose proof (read_t2_range (w8 VIA1_IFR IER_T2 v1)) as Ht2'.
    destruct (read_t2 (w8 VIA1_IFR IER_T2 v1)) as [t2' v2]. cbn [fst] in Ht2'.
    cbn [mbind option_bind]. eexists _, _. split; [done|]. rewrite E1. apply Hus; [done|].
    rewrite u32_small by lia. lia.
  - cbn [mbind option_bind]. eexists _, _. split; [done|]. rewrite E1. apply Hus; [done|lia].
Qed.

(** However long a step has taken and whatever the chip has done meanwhile, a timer
    that was started and is read once reports at most three periods of its counter: the
    flag counts one overflow before the counter is read and one after, so that no step
    is ever reported to have lasted more than 154808 microseconds. *)
Theorem timer_bounded (n : nat) (t : Timer V) (f : V -> V) (Hn : (2 <= n)%nat) :
  exists us t', timer_elapsed_us n (elapse f (timer_start t)) = Some (us, t') /\ 0 <= us <= 154808.
Proof. apply elapsed_at_most; [done|apply timer_start_vars..]. Qed.

End TimerBound.

(** The conversion multiplies by 100/127 where a tick of the 783360 Hz clock lasts
    1.2766 microseconds: within its range, what it reports is less than two thirds of
    the time that has passed. *)
Theorem timer_scale (ticks : Z) (Ht : 0 < ticks < 42949672) :
  to_us ticks * 783360 * 3 < ticks * 1000000 * 2.
Proof. unfold to_us. rewrite u32_small by lia. div_lia. Qed.

Lemma timer_scale_witness : to_us 783360 = 616818 /\ to_us 783360 * 783360 * 3 < 783360 * 1000000 * 2.
Proof. split; [reflexivity | apply (timer_scale 783360); lia]. Defined.

(** A chip whose counter stands still and whose flag is up when it is first looked at. *)
#[export] Instance still_chip : Via bool := {|
  r8 := fun a (v : bool) => if a =? VIA1_IFR then (if v then 0x20 else 0, v) else (0, v);
  w8 := fun a x (v : bool) => if a =? VIA1_IFR then false else if a =? VIA1_T2CH then true else v |}.

#[export] Instance still_flag : ViaFlag bool.
Proof.
  split; [|done]. intros a v. cbn. destruct (_ =? _); [destruct v|]; cbn; lia.
Defined.

Lemma timer_bounded_witness :
  exists us t', timer_elapsed_us 2 (elapse (fun _ => true) (timer_start (MkTimer 0 0 true))) = Some (us, t') /\
                0 <= us <= 154808.
Proof. apply (timer_bounded 2 (MkTimer 0 0 true) (fun _ => true)). lia. Defined.

(** ** The sizes (sizes.h, sizes.c) *)

Record IoTestSize := MkSize { label : string; length_ : Z; read_offset : Z; write_offset : Z }.

Definition IOTEST_SHARED_SIZES : list (string * Z) :=
  [("1B", 1); ("512B", 512); ("1KB", 1024); ("2KB", 2048); ("16KB", 16384); ("32KB", 32768);
   ("64KB", 65536)]%string.
Definition IOTEST_DSK_LAST_SIZE : list (string * Z) := [("128KB", 131072)]%string.
Definition IOTEST_HDA_LARGE_SIZES : list (string * Z) :=
  [("256KB", 262144); ("512KB", 524288); ("1MB", 1048576); ("2MB", 2097152); ("4MB", 4194304)]%string.

(** The offsets are zero until the image builder patches them. *)
Definition g_iotest_sizes (hda : bool) : list IoTestSize :=
  (fun '(l, n) => MkSize l n 0 0) <$>
  (IOTEST_SHARED_SIZES ++ if hda then IOTEST_HDA_LARGE_SIZES else IOTEST_DSK_LAST_SIZE).

(** ** Requests *)

Definition sector_round_up (n : Z) : Z :=
  if n =? 0 then SECTOR_BYTES
  else Z.land (u32 (n + (SECTOR_BYTES - 1))) (u32 (Z.lnot (SECTOR_BYTES - 1))).

Lemma land_sector (a : Z) : 0 <= a < 2 ^ 32 -> Z.land a (u32 (Z.lnot 511)) = a - a `mod` 512.
Proof.
  intros Ha. unfold uwrap. rewrite <- (land_ones_mod (Z.lnot 511) 32) by lia.
  rewrite (Z.land_comm (Z.lnot 511)), Z.land_assoc, land_ones_mod, Z.mod_small by (lia || done).
  rewrite <- Z.ldiff_land. change 511 with (Z.ones 9). rewrite Z.ldiff_ones_r by lia.
  rewrite Z.shiftr_div_pow2, Z.shiftl_mul_pow2 by lia. change (2 ^ 9) with 512. div_lia.
Qed.

Lemma sector_round_up_range (n : Z) :
  0 <= n <= 2 ^ 32 - 512 -> 0 < sector_round_up n < 2 ^ 32 /\ n <= sector_round_up n.
Proof.
  change (2 ^ 32) with 4294967296. intros Hn. unfold sector_round_up, SECTOR_BYTES.
  destruct (Z.eqb_spec n 0) as [->|Hz]; [lia|].
  rewrite u32_small by lia. change (512 - 1) with 511. rewrite land_sector by (change (2 ^ 32) with 4294967296; lia).
  div_lia.
Qed.

(** A request is the least number of whole sectors, at least one, that holds the
    size; where the size fits below a boundary of sectors the request fits too. *)
Theorem sector_round_up_least (n : Z) (Hn : 0 <= n <= 2 ^ 32 - 512) :
  let r := sector_round_up n in
  r `mod` 512 = 0 /\ 512 <= r < 2 ^ 32 /\ n <= r /\
  (forall k, k `mod` 512 = 0 -> 0 < k -> n <= k -> r <= k).
Proof.
  cbn zeta. change (2 ^ 32) with 4294967296 in *. unfold sector_round_up, SECTOR_BYTES.
  destruct (Z.eqb_spec n 0) as [->|Hz].
  - split_and!; [done|lia..|]. intros k Hk Hp _. div_lia.
  - rewrite u32_small by lia. change (512 - 1) with 511. rewrite land_sector by (change (2 ^ 32) with 4294967296; lia).
    split_and!; [div_lia..|]. intros k Hk Hp Hle. div_lia.
Qed.

Lemma sector_round_up_least_witness :
  sector_round_up 1 = 512 /\ sector_round_up 1 `mod` 512 = 0 /\ 1 <= sector_round_up 1.
Proof.
  destruct (sector_round_up_least 1 ltac:(lia)) as (H1 & _ & H2 & _). split; [reflexivity | by split].
Defined.

(** ** Patterns *)

Definition pattern (i seed : Z) : Z := u8 (Z.land (Z.lxor (Z.lxor i (Z.shiftr i 8)) seed) 0xFF).

Definition fill_pattern (buf len seed : Z) (m : Mem) : Mem :=
  fold_left (fun m i => poke (buf + i) (pattern i seed) m) (seqZ 0 len) m.

Definition VERIFY_MATCH : Z := u32 (-1).

Record VerifyResult := MkVerifyResult { first_off : Z; count : Z; expected : Z; actual : Z }.

Definition verify_byte (m : Mem) (buf seed : Z) (r : VerifyResult) (i : Z) : VerifyResult :=
  let ex := pattern i seed in
  if m (buf + i) =? ex then r
  else
    let r := if first_off r =? VERIFY_MATCH
             then MkVerifyResult i (count r) ex (m (buf + i)) else r in
    MkVerifyResult (first_off r) (u32 (count r + 1)) (expected r) (actual r).

Definition verify_pattern (m : Mem) (buf len seed : Z) : VerifyResult :=
  fold_left (verify_byte m buf seed) (seqZ 0 len) (MkVerifyResult VERIFY_MATCH 0 0 0).

Definition wrong (m : Mem) (buf seed i : Z) : Prop := m (buf + i) <> pattern i seed.
#[export] Instance wrong_dec m buf seed i : Decision (wrong m buf seed i).
Proof. unfold wrong. apply _. Defined.

(** The offsets that differ. *)
Definition wrong_offsets (m : Mem) (buf len seed : Z) : list Z := filter (wrong m buf seed) (seqZ 0 len).

Lemma seqZ_snoc (n : Z) : 0 <= n -> seqZ 0 (n + 1) = seqZ 0 n ++ [n].
Proof. intros Hn. rewrite seqZ_app by lia. by rewrite Z.add_0_l. Qed.

Lemma verify_prefix (m : Mem) (buf len seed : Z) :
  0 <= len < VERIFY_MATCH ->
  let r := verify_pattern m buf len seed in
  let l := wrong_offsets m buf len seed in
  count r = Z.of_nat (length l) /\
  match l with
  | [] => r = MkVerifyResult VERIFY_MATCH 0 0 0
  | i :: _ => first_off r = i /\ expected r = pattern i seed /\ actual r = m (buf + i) /\
              forall j, 0 <= j < i -> ~ wrong m buf seed j
  end.
Proof.
  intros [H0 Hlt]. cbn zeta. revert Hlt. pattern len. apply natlike_ind; [by intros _|clear len H0|done].
  intros len Hl IH Hlt. specialize (IH ltac:(lia)).
  unfold verify_pattern, wrong_offsets in *. rewrite <- Z.add_1_r in *.
  rewrite seqZ_snoc, fold_left_app, filter_app by done. cbn [fold_left].
  set (r := fold_left _ _ _) in *. remember (filter (wrong m buf seed) (seqZ 0 len)) as l eqn:Dl.
  assert (Hlen : Z.of_nat (length l) <= len).
  { rewrite Dl. pose proof (length_filter (wrong m buf seed) (seqZ 0 len)). rewrite length_seqZ in *. lia. }
  assert (Hin : forall i, i ∈ l -> 0 <= i < len) by (intros i; rewrite Dl; intros [_ Hi%elem_of_seqZ]%list_elem_of_filter; lia).
  unfold verify_byte. destruct (Z.eqb_spec (m (buf + len)) (pattern len seed)) as [E|E].
  - rewrite filter_cons_False, filter_nil, app_nil_r by (unfold wrong; tauto). done.
  - rewrite filter_cons_True, filter_nil by done. destruct IH as [Ec Ef].
    rewrite length_app. cbn [length]. unfold VERIFY_MATCH in Hlt. change (u32 (-1)) with 4294967295 in Hlt.
    destruct l as [|i l']; cbn [app].
    + rewrite Ef. cbn. split; [done|]. split_and!; [done..|]. intros j Hj Hw.
      assert (Hj' : j ∈ filter (wrong m buf seed) (seqZ 0 len))
        by (rewrite list_elem_of_filter, elem_of_seqZ; split; [done|lia]).
      rewrite <- Dl in Hj'. by apply not_elem_of_nil in Hj'.
    + destruct Ef as (Ef & Ee & Ea & Hf). assert (0 <= i < len) by (apply Hin; left).
      rewrite (proj2 (Z.eqb_neq (first_off r) VERIFY_MATCH)) by (unfold VERIFY_MATCH; change (u32 (-1)) with 4294967295; lia).
      cbn. split; [|done]. rewrite Ec. cbn [length] in *. rewrite u32_small by lia. lia.
Qed.

(** The comparison counts exactly the bytes that differ from the pattern, and names
    the first of them with both values; it reports a match exactly when there is
    none. *)
Theorem verify_exact (m : Mem) (buf len seed : Z) (Hl : 0 <= len < 2 ^ 32 - 1) :
  let r := verify_pattern m buf len seed in
  count r = Z.of_nat (length (filter (wrong m buf seed) (seqZ 0 len))) /\
  (count r = 0 <-> forall i, 0 <= i < len -> m (buf + i) = pattern i seed) /\
  (count r <> 0 -> 0 <= first_off r < len /\ wrong m buf seed (first_off r) /\
     (forall i, 0 <= i < first_off r -> m (buf + i) = pattern i seed) /\
     expected r = pattern (first_off r) seed /\ actual r = m (buf + first_off r)).
Proof.
  destruct (verify_prefix m buf len seed Hl) as [Ec Ef]. cbn zeta. unfold wrong_offsets in *.
  remember (filter (wrong m buf seed) (seqZ 0 len)) as l eqn:Dl. set (r := verify_pattern _ _ _ _) in *.
  assert (Hno : forall i, 0 <= i < len -> i ∉ l -> m (buf + i) = pattern i seed).
  { intros i Hi Hn. destruct (decide (m (buf + i) = pattern i seed)) as [|Hw]; [done|].
    destruct Hn. rewrite Dl, list_elem_of_filter, elem_of_seqZ. split; [done|lia]. }
  split_and!; [done|..].
  - split.
    + intros E i Hi. apply Hno; [done|]. destruct l; [apply not_elem_of_nil|cbn in Ec; lia].
    + intros Ha. rewrite Ec. destruct l as [|i l']; [done|].
      assert (Hi : i ∈ i :: l') by left. rewrite Dl in Hi.
      apply list_elem_of_filter in Hi as [Hw Hi%elem_of_seqZ]. destruct Hw. apply Ha. lia.
  - intros Hnz. destruct l as [|i l']; [by rewrite Ec in Hnz|].
    destruct Ef as (-> & Ee & Ea & Hf).
    assert (Hi : i ∈ i :: l') by left. rewrite Dl in Hi.
    apply list_elem_of_filter in Hi as [Hw Hi%elem_of_seqZ].
    split_and!; [lia..|done| |done|done].
    intros j Hj. destruct (decide (m (buf + j) = pattern j seed)) as [|Hj']; [done|]. by destruct (Hf j Hj).
Qed.

Lemma verify_exact_witness :
  let m := poke 1003 7 (fill_pattern 1000 8 2 (fun _ => 0)) in
  count (verify_pattern m 1000 8 2) = 1 /\ first_off (verify_pattern m 1000 8 2) = 3 /\
  (forall i, 0 <= i < 3 -> m (1000 + i) = pattern i 2).
Proof.
  cbn zeta. destruct (verify_exact (poke 1003 7 (fill_pattern 1000 8 2 (fun _ => 0))) 1000 8 2 ltac:(lia)) as (_ & _ & H).
  split; [reflexivity|]. split; [reflexivity|].
  destruct H as (_ & _ & H & _); [by vm_compute|exact H].
Defined.

Lemma fill_pattern_at (buf len seed : Z) (m : Mem) (a : Z) :
  0 <= len ->
  fill_pattern buf len seed m a =
  if bool_decide (buf <= a < buf + len) then pattern (a - buf) seed else m a.
Proof.
  intros Hl. unfold fill_pattern. revert len Hl. apply natlike_ind.
  { cbn. by rewrite bool_decide_eq_false_2 by lia. }
  intros len Hl IH. rewrite <- Z.add_1_r, seqZ_snoc, fold_left_app by done. cbn [fold_left].
  unfold poke at 1. destruct (Z.eqb_spec a (buf + len)) as [->|Hn].
  - rewrite bool_decide_eq_true_2 by lia. replace (buf + len - buf) with len by lia.
    unfold pattern. apply u8_small. apply uwrap_range. lia.
  - rewrite IH. case_bool_decide.
    + by rewrite bool_decide_eq_true_2 by lia.
    + by rewrite bool_decide_eq_false_2 by lia.
Qed.

(** The loop that clears the buffer by longs before the read back. *)
Fixpoint clear_longs (n : nat) (p : Z) (m : Mem) : Mem :=
  match n with
  | O => m
  | S n => clear_longs n (p + 4) (poke (p + 3) 0 (poke (p + 2) 0 (poke (p + 1) 0 (poke p 0 m))))
  end.

Definition clear_buffer (buf len : Z) (m : Mem) : Mem := clear_longs (Z.to_nat ((len + 3) / 4)) buf m.

Lemma clear_longs_at (n : nat) (p : Z) (m : Mem) (a : Z) :
  clear_longs n p m a = if bool_decide (p <= a < p + 4 * Z.of_nat n) then 0 else m a.
Proof.
  revert p m. induction n as [|n IH]; intros p m; cbn [clear_longs].
  { by rewrite bool_decide_eq_false_2 by lia. }
  rewrite Nat2Z.inj_succ, IH. unfold poke. change (u8 0) with 0.
  destruct (decide (p + 4 <= a < p + 4 + 4 * Z.of_nat n)) as [Hin|Hin].
  - by rewrite !bool_decide_eq_true_2 by lia.
  - rewrite bool_decide_eq_false_2 by done.
    zcases; try (by rewrite bool_decide_eq_true_2 by lia). by rewrite bool_decide_eq_false_2 by lia.
Qed.

Lemma clear_buffer_at (buf len : Z) (m : Mem) (i : Z) : 0 <= i < len -> clear_buffer buf len m (buf + i) = 0.
Proof.
  intros Hi. unfold clear_buffer. rewrite clear_longs_at. apply bool_decide_eq_true_2 || idtac.
  rewrite bool_decide_eq_true_2; [done|].
  assert (0 <= (len + 3) / 4) by (apply Z.div_pos; lia). rewrite Z2Nat.id by done. div_lia.
Qed.

Lemma pattern_mod (i seed : Z) : pattern i seed = Z.lxor (Z.land (Z.lxor i (Z.shiftr i 8)) 255) (Z.land seed 255).
Proof.
  unfold pattern. change 0xFF with 255.
  assert (E : forall x, Z.land x 255 = Z.land x (Z.ones 8)) by done.
  unfold uwrap. change (2 ^ 8) with 256. rewrite <- (land_255 (Z.land _ _)), <- Z.land_assoc, Z.land_diag.
  apply Z.bits_inj'. intros n Hn. rewrite Z.lxor_spec, !Z.land_spec, Z.lxor_spec. 
  by destruct (Z.testbit 255 n), (Z.testbit (Z.lxor i (Z.shiftr i 8)) n), (Z.testbit seed n).
Qed.

(** A read back that transfers nothing and reports no error is noticed, because the
    buffer was cleared, except in the very first test: for one byte and the seed 0 the
    pattern is what the buffer was cleared to. *)
Theorem empty_buffer_noticed (buf len seed : Z) (m : Mem) (Hl : 1 <= len < 2 ^ 32 - 1) (Hs : 0 <= seed < 256) :
  count (verify_pattern (clear_buffer buf len m) buf len seed) = 0 <-> len = 1 /\ seed = 0.
Proof.
  destruct (verify_exact (clear_buffer buf len m) buf len seed ltac:(lia)) as (_ & Hz & _).
  rewrite Hz. clear Hz.
  assert (Hss : Z.land seed 255 = seed) by (rewrite land_255; apply Z.mod_small; lia).
  split.
  - intros Ha. pose proof (Ha 0 ltac:(lia)) as H0. rewrite clear_buffer_at, pattern_mod, Hss in H0 by lia.
    change (Z.lxor (Z.land (Z.lxor 0 (Z.shiftr 0 8)) 255) seed) with seed in H0. split; [|done].
    destruct (decide (len = 1)) as [|Hn]; [done|]. pose proof (Ha 1 ltac:(lia)) as H1.
    rewrite clear_buffer_at, pattern_mod, Hss, <- H0 in H1 by lia. discriminate.
  - intros [-> ->] i Hi. assert (i = 0) as -> by lia. rewrite clear_buffer_at by lia. done.
Qed.

Lemma empty_buffer_noticed_witness :
  count (verify_pattern (clear_buffer 1000 1 (fun _ => 9)) 1000 1 0) = 0 /\
  count (verify_pattern (clear_buffer 1000 2 (fun _ => 9)) 1000 2 0) <> 0.
Proof.
  split.
  - by apply (empty_buffer_noticed 1000 1 0); [lia..|].
  - intros H. apply (empty_buffer_noticed 1000 2 0) in H; lia.
Defined.

Lemma filter_all {A} (P : A -> Prop) `{!forall x, Decision (P x)} (l : list A) :
  (forall x, x ∈ l -> P x) -> filter P l = l.
Proof.
  induction l as [|x l IH]; intros Hl; [done|]. rewrite filter_cons_True by (apply Hl; left).
  by rewrite IH by (intros y Hy; apply Hl; by right).
Qed.

(** A buffer that holds the pattern of another test is wrong in every byte. *)
Theorem stale_buffer_noticed (buf len seed seed' : Z) (m : Mem) (Hl : 0 <= len < 2 ^ 32 - 1)
    (Hs : 0 <= seed < 256) (Hs' : 0 <= seed' < 256) (Hne : seed <> seed') :
  count (verify_pattern (fill_pattern buf len seed' m) buf len seed) = len.
Proof.
  destruct (verify_exact (fill_pattern buf len seed' m) buf len seed Hl) as (-> & _).
  enough (E : wrong_offsets (fill_pattern buf len seed' m) buf len seed = seqZ 0 len)
    by (fold (wrong_offsets (fill_pattern buf len seed' m) buf len seed); rewrite E, length_seqZ, Z2Nat.id by lia; done).
  apply filter_all. intros i Hi%elem_of_seqZ. unfold wrong.
  rewrite fill_pattern_at, bool_decide_eq_true_2 by lia. replace (buf + i - buf) with i by lia.
  rewrite !pattern_mod, !land_255, (Z.mod_small seed), (Z.mod_small seed') by lia.
  intros E. apply Hne. apply (f_equal (Z.lxor ((Z.lxor i (Z.shiftr i 8)) `mod` 256))) in E.
  by rewrite <- !Z.lxor_assoc, Z.lxor_nilpotent, !Z.lxor_0_l in E.
Qed.

Lemma stale_buffer_noticed_witness :
  count (verify_pattern (fill_pattern 1000 300 4 (fun _ => 0)) 1000 300 5) = 300.
Proof. apply stale_buffer_noticed; lia. Defined.

(** ** Status cells *)

Definition STATUS_W : nat := 8.

Definition g_ioerr_names : list (Z * string) :=
  [(-33, "dirFull"); (-34, "dskFull"); (-35, "nsvErr"); (-36, "ioErr"); (-37, "bdNamErr");
   (-38, "fnOpnErr"); (-39, "eofErr"); (-40, "posErr"); (-42, "tmfoErr"); (-43, "fnfErr");
   (-49, "opWrErr"); (-50, "paramErr"); (-51, "rfNumErr"); (-53, "volOffLn"); (-54, "permErr");
   (-55, "volOnLn"); (-56, "nsDrvErr"); (-57, "noMacDsk"); (-58, "extFSErr"); (-59, "fsRnErr");
   (-60, "badMDB"); (-61, "wrPermErr"); (-64, "lastDsk"); (-65, "offLine"); (-66, "noNibble");
   (-67, "noAdrMrk"); (-68, "dataVerf")]%string.

Definition copy_padded (n : nat) (src : list Z) : list Z := take n src ++ replicate (n - length src) 32.

(** The digits by a table of divisors: leading zeros are left out, the last digit is
    not. *)
Fixpoint digits_by (divs : list Z) (started : bool) (v : Z) : list Z :=
  match divs with
  | [] => []
  | d :: divs =>
      let digit := (v / d) `mod` 10 in
      if negb (digit =? 0) || started || bool_decide (divs = [])
      then 48 + digit :: digits_by divs true v
      else digits_by divs started v
  end.

Definition status_digits (v : Z) : list Z := digits_by [10000; 1000; 100; 10; 1] false v.

Definition fmt_status (err : Z) : list Z :=
  if err =? 0 then copy_padded STATUS_W (text "pass")
  else
    match find (fun e => fst e =? err) g_ioerr_names with
    | Some (_, name) => copy_padded STATUS_W (text name)
    | None =>
        let v := if err <? 0 then - err else err in
        copy_padded STATUS_W ([69; if err <? 0 then 45 else 32] ++ status_digits v)
    end.

Definition fmt_verify_fail (vr : VerifyResult) : list Z :=
  let off := first_off vr in
  let out := [64] ++ (if 10 <=? off then [48 + (off / 10) `mod` 10] else []) ++ [48 + off `mod` 10; 32]
             ++ hex_byte (expected vr) ++ [47] ++ hex_byte (actual vr) in
  copy_padded STATUS_W out.

Definition mismatch_line (vr : VerifyResult) : list Z :=
  text "Mismatched byte @" ++ digits_by [1000000; 100000; 10000; 1000; 100; 10; 1] false (first_off vr)
  ++ text " ex:" ++ hex_byte (expected vr) ++ text " ac:" ++ hex_byte (actual vr).

(** The error a cell stands for. *)
Definition cell_is (cell : list Z) (s : string) : bool := bool_decide (cell = copy_padded STATUS_W (text s)).

Definition parse_status (cell : list Z) : Z :=
  if byte cell 0 =? 69 then
    let v := dec_value (filter (fun c => c <> 32) (drop 2 cell)) in
    if byte cell 1 =? 45 then - v else v
  else
    match find (fun e => cell_is cell (snd e)) g_ioerr_names with
    | Some (err, _) => err
    | None => 0
    end.

Fixpoint all_from (f : Z -> bool) (n : nat) (e : Z) : bool :=
  match n with O => true | S n => f e && all_from f n (e + 1) end.

Lemma all_from_spec (f : Z -> bool) (n : nat) (e x : Z) :
  all_from f n e = true -> e <= x < e + Z.of_nat n -> f x = true.
Proof.
  revert e. induction n as [|n IH]; intros e; cbn [all_from]; [lia|].
  intros [H1 H2]%andb_true_iff Hx. destruct (decide (x = e)) as [->|]; [done|]. apply (IH (e + 1)); [done|lia].
Qed.

Definition reads_back (err : Z) : bool :=
  (parse_status (fmt_status err) =? err) && (length (fmt_status err) =? STATUS_W)%nat.

Lemma status_all : all_from reads_back (Z.to_nat 65536) (-32768) = true.
Proof. vm_compute. reflexivity. Qed.

(** Every error has a cell of exactly eight characters from which it reads back, so
    that no two errors look the same on the screen. *)
Theorem status_reads_back (err : Z) (He : - 32768 <= err < 32768) :
  parse_status (fmt_status err) = err /\ length (fmt_status err) = STATUS_W.
Proof.
  pose proof (all_from_spec reads_back (Z.to_nat 65536) (-32768) err status_all ltac:(lia)) as Hr.
  by apply andb_true_iff in Hr as [H1%Z.eqb_eq H2%Nat.eqb_eq].
Qed.

Lemma status_reads_back_witness :
  fmt_status (-36) = text "ioErr   " /\ fmt_status 30002 = text "E 30002 " /\
  parse_status (fmt_status 30002) = 30002.
Proof. split; [reflexivity|]. split; [reflexivity | apply (status_reads_back 30002); lia]. Defined.
