(* ===== verification/DiskRun.v ===== *)
(** * A run of the disk bench (preboot/iotest/diskio_main.c)

    The machine is that of [DiskCopy]: the memory, what is painted, the vector of the
    last exception, and as its device the rig of this program, which is the driver of
    the disk, the timer and the writer of the result file.  While a trap runs the chip
    of the timer goes on as [lapse] says.

    The program gives [Done], it is [Waits] when the timer's flag does not clear, and
    [Lost] when the final eject, which has no barrier, raises an exception.

    The theorems: with a chip whose flag clears the program always ends
    ([iotest_ends]); on a disk that does what it is told the result file holds a line
    for every step, each with no error and each write verified ([iotest_reports]), and
    nothing is changed but the scratch regions and the result file
    ([iotest_confined]). *)

From S2P Require Import Prelude Toolbox Preboot DiskCopy Drives DiskBench.
#[local] Open Scope copy_scope.

(** ** The rig *)

Record Rig (D V : Type) := MkRig { disk : D; timer : Timer V; jw : JsonlWriter }.
Arguments MkRig {D V}.
Arguments disk {D V}.
Arguments timer {D V}.
Arguments jw {D V}.

#[export] Instance eta_Rig D V : Eta (Rig D V) := fun r => MkRig (disk r) (timer r) (jw r).

(** What a trap does to the chip of the timer: time passes. *)
Class Lapse (D V : Type) := lapse : Z -> list Z -> D -> V -> V.
#[global] Hint Mode Lapse ! ! : typeclass_instances.

#[export] Instance rig_manager D V `{DeviceManager D} `{Lapse D V} : DeviceManager (Rig D V) :=
  fun t pb mem r =>
    let '(res, mem, d) := dm_trap t pb mem (disk r) in
    (res, mem, r <| disk := d |> <| timer ::= elapse (lapse t pb (disk r)) |>).

(** The builds of the program. *)
Record Variant := MkVariant { hda : bool; dsk : bool; read_only : bool }.

(** ** Lines of the result file *)

Definition size_fields (s : IoTestSize) : list JwOp :=
  [Puts (quoted "{'size':'"); Puts (text (label s)); Puts (quoted "','len':"); Putul (length_ s)].

Definition skip_line (s : IoTestSize) (reason : string) (mem_top : Z) : list JwOp :=
  size_fields s ++
  [Puts (quoted ",'op':'skip','reason':'"); Puts (text reason);
   Puts (quoted "','mem_top':0x"); Putul mem_top;
   Puts (quoted ",'iobuf_base':0x"); Putul IOBUF_BASE; Puts (text "}" ++ [10]); Commit].

Definition sense_fields (sense : list Z) : list JwOp :=
  [Puts (quoted ",'sense_key':"); Putul (Z.land (byte sense 2) 0x0F);
   Puts (quoted ",'asc':"); Putul (byte sense 12);
   Puts (quoted ",'ascq':"); Putul (byte sense 13);
   Puts (quoted ",'sense_raw':'")] ++
  ((fun i => Puts (hex_byte (byte sense i))) <$> seq 0 18) ++ [Puts (quoted "'")].

Definition opt_sense (sense : option (list Z)) : list JwOp :=
  match sense with Some s => sense_fields s | None => [] end.

Definition read_line (s : IoTestSize) (us err : Z) (sense : option (list Z)) : list JwOp :=
  size_fields s ++
  [Puts (quoted ",'op':'read','us':"); Putul us; Puts (quoted ",'err':"); Putul (u32 err)] ++
  opt_sense sense ++ [Puts (text "}" ++ [10]); Commit].

Definition write_line (s : IoTestSize) (write_us write_err read_us read_err : Z) (vr : VerifyResult)
    (sense : option (list Z)) : list JwOp :=
  let verified := (read_err =? 0) && (count vr =? 0) in
  size_fields s ++
  [Puts (quoted ",'op':'write','us':"); Putul write_us; Puts (quoted ",'err':"); Putul (u32 write_err);
   Puts (quoted ",'readback_us':"); Putul read_us; Puts (quoted ",'readback_err':"); Putul (u32 read_err);
   Puts (quoted ",'verified':"); Putul (if verified then 1 else 0)] ++
  (if count vr =? 0 then []
   else [Puts (quoted ",'mismatch_offset':"); Putul (first_off vr); Puts (quoted ",'expected':");
         Putul (expected vr); Puts (quoted ",'actual':"); Putul (actual vr);
         Puts (quoted ",'mismatch_count':"); Putul (count vr)]) ++
  opt_sense sense ++ [Puts (text "}" ++ [10]); Commit].

(** ** The screen *)

Definition LINE_BANNER : Z := LINE 0.
Definition LINE_DRIVES_HDR : Z := LINE 1.
Definition LINE_DRIVE_ROW (i : Z) : Z := LINE (2 + i).
Definition MAX_DRIVES_SHOWN : Z := 4.
Definition LINE_HEADER : Z := LINE 7.
Definition LINE_RESULT (i : Z) : Z := LINE (8 + i).
Definition LINE_DETAIL : Z := LINE 21.
Definition COL_SIZE : Z := 1.
Definition COL_READ : Z := 10.
Definition COL_WRITE : Z := 20.

(** The size of a drive, in 32 bits. *)
Definition size_text (blocks : Z) : list Z :=
  let bytes := u32 (blocks * 512) in
  let '(val, suffix) :=
    if 1048576 <=? bytes then (u32 (bytes + 524288) / 1048576, 77) else ((bytes + 512) / 1024, 75) in
  (if val =? 0 then [48] else rev (low_digits 6 val)) ++ [suffix; 66].

Definition drive_row (d : DriveInfo) : list Z :=
  let dn := drive_num d in
  (if 10 <=? dn then [48 + (dn / 10) `mod` 10] else []) ++ [u8 (48 + Z.rem dn 10); 32] ++
  text match di_type d with
       | DRIVE_TYPE_FLOPPY => "Floppy"
       | DRIVE_TYPE_CDROM => "CD-ROM"
       | DRIVE_TYPE_SCSI => "SCSI Disk"
       | DRIVE_TYPE_UNKNOWN => "Drive"
       end ++ [32] ++ size_text (blocks d) ++ (if is_boot d then text " *BOOT" else []).

Definition exception_text (exc : Z) : list Z :=
  text "DRIVES: exception vec " ++ (if 10 <=? exc then [48 + (exc / 10) `mod` 10] else [])
  ++ [48 + exc `mod` 10].

(** ** The program *)

Section Bench.

Context {D V : Type} `{DeviceManager D} `{Driver D} `{Via V} `{Lapse D V}.
Variables (g_handoff_refnum g_results_offset sector_addr : Z) (fuel : nat) (v : Variant).

Abbreviation MM := (M (Rig D V)).

Definition on_rig (f : Rig D V -> Rig D V) : MM unit := fun m => Done tt (m <| dev ::= f |>).
Definition on_ram (f : Mem -> Mem) : MM unit := fun m => Done tt (m <| ram ::= f |>).
Definition look_ram {A} (f : Mem -> A) : MM A := fun m => Done (f (ram m)) m.

Definition start_timer : MM unit := on_rig (fun r => r <| timer ::= timer_start |>).

Definition elapsed : MM Z := fun m =>
  match timer_elapsed_us fuel (timer (dev m)) with
  | Some (us, t) => Done us (m <| dev ::= (fun r => r <| timer := t |>) |>)
  | None => Waits m
  end.

(** A line goes to the writer. *)
Definition put_line (ops : list JwOp) : MM unit :=
  on_rig (fun r => let '(j, d) := jw_run sector_addr ops (jw r, disk r) in r <| jw := j |> <| disk := d |>).

Definition flush_jw : MM unit :=
  on_rig (fun r => let '(j, d) := jw_flush sector_addr (jw r, disk r) in r <| jw := j |> <| disk := d |>).

Definition io_pb (drive buf offset len : Z) : list Z :=
  let pb := replicate PB_SIZE 0 in
  let pb := put16 PB_OFF_IOREFNUM g_handoff_refnum pb in
  let pb := put16 PB_OFF_IOVREFNUM drive pb in
  let pb := put32 PB_OFF_IOBUFFER buf pb in
  let pb := put32 PB_OFF_IOREQCOUNT (sector_round_up len) pb in
  let pb := put16 PB_OFF_IOPOSMODE 1 pb in
  put32 PB_OFF_IOPOSOFFSET offset pb.

(** A timed transfer between the disk and the buffer: its result and its time. *)
Definition timed (trap offset len : Z) : MM (Z * Z) :=
  drive <- src_drive ;;
  start_timer ;;;
  err <- recover trap (io_pb drive IOBUF_BASE offset len) ;;
  us <- elapsed ;;
  ret (err, us).

Definition paint_row_skeleton (i : Z) (s : IoTestSize) : MM unit :=
  paint (LINE_RESULT i) COL_SIZE (text (label s)) 8 ;;;
  paint_lit (LINE_RESULT i) COL_READ ". . . . " 8 ;;;
  if read_only v then ret tt else paint_lit (LINE_RESULT i) COL_WRITE ". . . . " 8.

Definition paint_cell (i col : Z) (cell : list Z) : MM unit := paint (LINE_RESULT i) col cell 8.

Definition too_big (mem_top len : Z) : bool :=
  (mem_top <? u32 (IOBUF_BASE + len)) || (u32 (mem_top - IOBUF_BASE) <? len).

(** The cell of a write: its own error, that of the read back, the first wrong byte, or
    pass. *)
Definition write_cell (i wr_err err : Z) (vr : VerifyResult) : MM unit :=
  if negb (wr_err =? 0) then paint_cell i COL_WRITE (fmt_status wr_err)
  else if negb (err =? 0) then paint_cell i COL_WRITE (fmt_status err)
  else if negb (count vr =? 0) then
    paint LINE_DETAIL COL_SIZE (mismatch_line vr) (Z.of_nat (length (mismatch_line vr))) ;;;
    paint_cell i COL_WRITE (fmt_verify_fail vr)
  else paint_cell i COL_WRITE (fmt_status 0).

Definition read_test (i : Z) (s : IoTestSize) : MM unit :=
  r <- timed A_READ (read_offset s) (length_ s) ;;
  let '(err, us) := r in
  put_line (read_line s us err None) ;;;
  paint_cell i COL_READ (fmt_status err).

Definition write_test (i : Z) (s : IoTestSize) : MM unit :=
  on_ram (fill_pattern IOBUF_BASE (length_ s) (u8 i)) ;;;
  r <- timed A_WRITE (write_offset s) (length_ s) ;;
  let '(wr_err, wr_us) := r in
  on_ram (clear_buffer IOBUF_BASE (length_ s)) ;;;
  r <- timed A_READ (write_offset s) (length_ s) ;;
  let '(err, us) := r in
  vr <- look_ram (fun m => verify_pattern m IOBUF_BASE (length_ s) (u8 i)) ;;
  put_line (write_line s wr_us wr_err us err vr None) ;;;
  write_cell i wr_err err vr.

Definition skip_test (mem_top i : Z) (s : IoTestSize) : MM unit :=
  paint_cell i COL_READ (text "SKIP    ") ;;;
  (if read_only v then ret tt else paint_cell i COL_WRITE (text "SKIP    ")) ;;;
  put_line (skip_line s "insufficient_ram" mem_top).

Definition size_test (mem_top i : Z) (s : IoTestSize) : MM unit :=
  paint_row_skeleton i s ;;;
  if too_big mem_top (length_ s) then skip_test mem_top i s
  else read_test i s ;;; if read_only v then ret tt else write_test i s.

Fixpoint size_tests (mem_top i : Z) (sizes : list IoTestSize) : MM unit :=
  match sizes with
  | [] => ret tt
  | s :: sizes => size_test mem_top i s ;;; size_tests mem_top (u16 (i + 1)) sizes
  end.

Fixpoint drive_rows (n : nat) (j : Z) (drives : list DriveInfo) : MM unit :=
  match n with
  | O => ret tt
  | S n =>
      match drives with
      | d :: drives =>
          paint (LINE_DRIVE_ROW j) COL_SIZE (drive_row d) (Z.of_nat (length (drive_row d))) ;;;
          drive_rows n (j + 1) drives
      | [] => paint (LINE_DRIVE_ROW j) COL_SIZE blank40 40 ;;; drive_rows n (j + 1) []
      end
  end.

(** The table of drives; [walk] is the vector of the exception that a read of the queue
    raises, if one does. *)
Definition drives_table (walk : option Z) : MM unit :=
  match walk with
  | Some exc =>
      (fun m => Done tt (m <| g_last_exc_vector := exc |>)) ;;;
      paint LINE_DRIVES_HDR COL_SIZE (exception_text exc) (Z.of_nat (length (exception_text exc)))
  | None =>
      drives <- look_ram (fun m => enum_drives m MAX_DRIVES_SHOWN) ;;
      paint_lit LINE_DRIVES_HDR COL_SIZE "DRIVES" 6 ;;;
      drive_rows (Z.to_nat MAX_DRIVES_SHOWN) 0 drives
  end.

Definition header_row : MM unit :=
  paint_lit LINE_HEADER COL_SIZE "SIZE" 4 ;;;
  paint_lit LINE_HEADER COL_READ "READ" 4 ;;;
  if read_only v then ret tt else paint_lit LINE_HEADER COL_WRITE "WRITE" 5.

Definition eject_test : MM unit :=
  drive <- src_drive ;;
  ej <- eject drive ;;
  paint_lit (LINE_DETAIL + 24) COL_SIZE "EJECT:" 6 ;;;
  paint (LINE_DETAIL + 24) COL_READ (fmt_status ej) 8.

Definition bench_ctx (drive : Z) : JwCtx := MkJwCtx g_handoff_refnum drive g_results_offset (32 * 1024).

Definition iotest_main (walk : option Z) (sizes : list IoTestSize) : MM unit :=
  drive <- src_drive ;;
  on_rig (fun r => r <| jw := jw_init (bench_ctx drive) |>) ;;;
  (if hda v then paint_lit LINE_BANNER COL_SIZE "IOTEST: HARD DISK I/O BENCH" 28
   else paint_lit LINE_BANNER COL_SIZE "IOTEST: FLOPPY DISK I/O BENCH" 30) ;;;
  drives_table walk ;;;
  header_row ;;;
  mem_top <- look_ram (fun m => rd_l m 0x00000108) ;;
  size_tests mem_top 0 sizes ;;;
  flush_jw ;;;
  paint_lit (LINE_DETAIL + 12) COL_SIZE "Done!" 5 ;;;
  if dsk v then eject_test else ret tt.

End Bench.

(** ** The program ends *)

Lemma drain_some {V} `{ViaFlag V} (n : nat) (t : Timer V) : (2 <= n)%nat -> is_Some (drain n t).
Proof.
  intros Hn. destruct n as [|[|n]]; [lia..|]. cbn [drain].
  destruct (r8 VIA1_IFR (chip t)) as [ifr v]. destruct (flagged ifr); [|by eexists].
  cbn [chip]. pose proof (flag_clears v) as Hf.
  destruct (r8 VIA1_IFR (w8 VIA1_IFR IER_T2 v)) as [ifr2 v2]. cbn [fst] in Hf. rewrite Hf. by eexists.
Qed.

Section Ends.

Context {D V : Type} `{DeviceManager D} `{Driver D} `{ViaFlag V} `{Lapse D V}.
Variables (refnum results addr : Z) (fuel : nat) (v : Variant).
Hypothesis Hfuel : (2 <= fuel)%nat.

Definition ends {A} (c : M (Rig D V) A) : Prop := forall m, exists a m', c m = Done a m'.

Lemma mm_ends_bind {A B} (c : M (Rig D V) A) (f : A -> M (Rig D V) B) :
  ends c -> (forall a, ends (f a)) -> ends (bind c f).
Proof. intros Hc Hf m. unfold bind. destruct (Hc m) as (a & m' & ->). apply Hf. Qed.

Lemma ends_if {A} (b : bool) (c c' : M (Rig D V) A) : ends c -> ends c' -> ends (if b then c else c').
Proof. by destruct b. Qed.

Lemma ends_now {A} (f : Mach (Rig D V) -> A) g : ends (fun m => Done (f m) (g m)).
Proof. intros m. by eexists _, _. Qed.

Lemma ends_recover t pb : ends (recover (D := Rig D V) t pb).
Proof. intros m. unfold recover. destruct (dm_trap _ _ _ _) as [[[] ?] ?]; by eexists _, _. Qed.

Lemma ends_elapsed : ends (elapsed fuel).
Proof.
  intros m. unfold elapsed, timer_elapsed_us, read_ticks_since_start.
  destruct (drain_some fuel (timer (dev m)) Hfuel) as [t ->]. cbn [mbind option_bind].
  destruct (read_t2 _) as [t2 c1], (r8 VIA1_IFR c1) as [ifr c2].
  destruct (flagged ifr); [destruct (read_t2 _) as [? ?]|]; cbn [mbind option_bind]; by eexists _, _.
Qed.

Ltac to_end :=
  repeat lazymatch goal with
  | |- ends (bind _ _) => apply mm_ends_bind; [|intros ?]
  | |- ends (if _ then _ else _) => apply ends_if
  | |- ends (recover _ _) => apply ends_recover
  | |- ends (elapsed _) => apply ends_elapsed
  | |- ends (let '(_, _) := ?r in _) => destruct r
  | |- _ => apply ends_now
  end.

Lemma ends_timed t off len : ends (timed refnum fuel t off len).
Proof. unfold timed. to_end. Qed.

Lemma ends_size mem_top i s : ends (size_test refnum addr fuel v mem_top i s).
Proof.
  unfold size_test, paint_row_skeleton, skip_test, read_test, write_test, write_cell, paint_cell.
  repeat (first [apply ends_timed | progress to_end]).
Qed.

Lemma ends_sizes mem_top sizes i : ends (size_tests refnum addr fuel v mem_top i sizes).
Proof.
  revert i. induction sizes as [|s sizes IH]; intros i; cbn [size_tests]; [to_end|].
  apply mm_ends_bind; [apply ends_size | intros _; apply IH].
Qed.

Lemma ends_rows n j drives : ends (drive_rows (D := D) (V := V) n j drives).
Proof.
  revert j drives. induction n as [|n IH]; intros j [|d drives]; cbn [drive_rows]; try to_end; apply IH.
Qed.

Lemma ends_table walk : ends (drives_table (D := D) (V := V) walk).
Proof. unfold drives_table. destruct walk; to_end. apply ends_rows. Qed.

Lemma main_ends (walk : option Z) (sizes : list IoTestSize) (m : Mach (Rig D V)) :
  exists m', iotest_main refnum results addr fuel v walk sizes m = Done tt m' \/
             (dsk v = true /\ iotest_main refnum results addr fuel v walk sizes m = Lost m').
Proof.
  unfold iotest_main, header_row, flush_jw.
  assert (Hs : forall c f m, ends c -> (forall m, exists m', f m = Done tt m' \/ (dsk v = true /\ f m = Lost m')) ->
    exists m', bind (A := unit) c (fun _ => f) m = Done tt m' \/ (dsk v = true /\ bind c (fun _ => f) m = Lost m')).
  { intros c f m0 Hc Hf. unfold bind. destruct (Hc m0) as (a & m' & ->). apply Hf. }
  unfold bind at 1, src_drive. apply Hs; [apply ends_now|intros m1].
  apply Hs; [to_end|intros m2]. apply Hs; [apply ends_table|intros m3].
  apply Hs; [to_end|intros m4]. unfold bind at 1 2, look_ram.
  apply Hs; [apply ends_sizes|intros m5]. do 2 (apply Hs; [apply ends_now|intros ?]).
  destruct (dsk v); [|by eexists; left]. unfold eject_test, eject, eject_floppy, bind, src_drive, paint_lit, paint.
  destruct (dm_trap _ _ _ _) as [[[] ?] ?]; eexists; [by left | by right].
Qed.

(** With a chip whose flag clears the bench always runs to its end, whatever the
    disk does, whichever traps raise exceptions and whatever the memory holds; it can
    only be lost to an exception of the final eject, which has no barrier. *)
Theorem iotest_ends (walk : option Z) (sizes : list IoTestSize) (m : Mach (Rig D V)) :
  exists m', iotest_main refnum results addr fuel v walk sizes m = Done tt m' \/
             (dsk v = true /\ iotest_main refnum results addr fuel v walk sizes m = Lost m').
Proof. apply main_ends. Qed.

End Ends.

(** ** A disk that does what it is told *)

Class RawDisk (D : Type) `{DeviceManager D} `{Disk D} := {
  raw_read (pb : list Z) (mem : Mem) (d : D) :
    get16 pb PB_OFF_IOPOSMODE = 1 ->
    exists mem' d', dm_trap A_READ pb mem d = (Returned 0, mem', d') /\
      (forall r x o, byte_at d' r x o = byte_at d r x o) /\
      forall a, mem' a = if bool_decide (pb_buffer pb <= a < pb_buffer pb + pb_count pb)
                         then byte_at d (pb_refnum pb) (pb_drive pb) (pb_offset pb + (a - pb_buffer pb))
                         else mem a;
  raw_write (pb : list Z) (mem : Mem) (d : D) :
    get16 pb PB_OFF_IOPOSMODE = 1 ->
    exists d', dm_trap A_WRITE pb mem d = (Returned 0, mem, d') /\
      forall r x o, byte_at d' r x o =
        if bool_decide (r = pb_refnum pb /\ x = pb_drive pb /\ pb_offset pb <= o < pb_offset pb + pb_count pb)
        then mem (pb_buffer pb + (o - pb_offset pb)) else byte_at d r x o }.

Definition matched : VerifyResult := MkVerifyResult VERIFY_MATCH 0 0 0.

Lemma verify_matched (m : Mem) (buf len seed : Z) :
  0 <= len < VERIFY_MATCH -> (forall i, 0 <= i < len -> m (buf + i) = pattern i seed) ->
  verify_pattern m buf len seed = matched.
Proof.
  intros Hl Hm. destruct (verify_prefix m buf len seed Hl) as [_ Hp].
  remember (wrong_offsets m buf len seed) as l eqn:Dl. destruct l as [|i l]; [done|].
  assert (Hi : i ∈ i :: l) by left. rewrite Dl in Hi.
  apply list_elem_of_filter in Hi as [Hw Hi%elem_of_seqZ]. destruct Hw. apply Hm. lia.
Qed.

(** A size of the table, with a scratch region on the disk. *)
Definition size_ok (s : IoTestSize) : Prop :=
  0 <= length_ s <= 4194304 /\ 0 <= read_offset s < 2 ^ 32 /\
  0 <= write_offset s /\ write_offset s + sector_round_up (length_ s) <= 2 ^ 32.

Definition scratch (s : IoTestSize) (o : Z) : Prop := write_offset s <= o < write_offset s + sector_round_up (length_ s).

(** The lines of a size, given the three times that were measured. *)
Definition size_report (v : Variant) (mem_top : Z) (s : IoTestSize) (t : Z * Z * Z) : list JwOp :=
  if too_big mem_top (length_ s) then skip_line s "insufficient_ram" mem_top
  else read_line s t.1.1 0 None ++
       if read_only v then [] else write_line s t.1.2 0 t.2 0 matched None.

Section Honest.

Context {D V : Type} `{RawDisk D} `{ViaFlag V} `{Lapse D V}.
Variables (refnum results addr : Z) (fuel : nat) (v : Variant) (drv : Z) (all_sizes : list IoTestSize) (d0 : D).
Hypothesis Hfuel : (2 <= fuel)%nat.
Hypothesis Href : - 32768 <= refnum < 32768.
Hypothesis Hdrv : - 32768 <= drv < 32768.
Hypothesis Hres : 0 <= results /\ results + 49152 <= 2 ^ 32.
Hypothesis Hsizes : Forall size_ok all_sizes.
Hypothesis Hapart : forall s, s ∈ all_sizes ->
  write_offset s + sector_round_up (length_ s) <= results \/ results + 32768 <= write_offset s.

#[local] Abbreviation ctx := (bench_ctx refnum results drv).

Lemma ctx_fits : ctx_ok ctx.
Proof. change (2 ^ 32) with 4294967296 in *. unfold ctx_ok, bench_ctx. cbn -[Z.mul]. lia. Qed.

(** What the bench may change. *)
Definition reserved (r x o : Z) : Prop :=
  r = refnum /\ x = drv /\ (results <= o < results + 32768 \/ exists s, s ∈ all_sizes /\ scratch s o).

(** The writer has accepted the text of [ops]; nothing else has changed. *)
Record Good (ops : list JwOp) (m : Mach (Rig D V)) : Prop := {
  gd_acc : Accepted ctx (disk (dev m)) (run_text ctx ops) (jw (dev m)) (disk (dev m));
  gd_used : jw_used (jw (dev m)) < JW_BATCH_BYTES;
  gd_drive : g_handoff_drive m = drv;
  gd_frame : forall r x o, ~ reserved r x o -> byte_at (disk (dev m)) r x o = byte_at d0 r x o }.

Lemma accepted_on (w0 w w' : D) l j :
  (forall o, 0 <= o < 32768 -> medium ctx w' o = medium ctx w o) ->
  Accepted ctx w0 l j w -> Accepted ctx w' l j w'.
Proof.
  intros Hm [E1 E2 E3 E4 E5 E6 E7 E8 E9 E10]. split; try done.
  intros o Ho. cbn in E6. rewrite Hm by lia. by apply E9.
Qed.

Lemma file_reserved (l : list Z) r x o : Z.of_nat (length l) <= 32768 -> in_file ctx r x o (Z.of_nat (length l)) -> reserved r x o.
Proof.
  intros Hl (-> & -> & Ho). split_and!; [done..|]. left. cbn in Ho.
  pose proof (extent_mono (Z.of_nat (length l)) 32768 Hl) as He.
  assert (extent 32768 = 32768) by (unfold extent; rewrite batch_value; done). lia.
Qed.

Lemma text_short ops : Z.of_nat (length (run_text ctx ops)) <= 32768.
Proof. unfold run_text. rewrite length_take. cbn. lia. Qed.

(** A step that leaves the writer and the file alone. *)
Lemma good_step ops m m' :
  Good ops m -> jw (dev m') = jw (dev m) -> g_handoff_drive m' = g_handoff_drive m ->
  (forall r x o, ~ (r = refnum /\ x = drv /\ exists s, s ∈ all_sizes /\ scratch s o) ->
     byte_at (disk (dev m')) r x o = byte_at (disk (dev m)) r x o) ->
  Good ops m'.
Proof.
  intros [Ha Hu Hd Hf] Ej Eg Hb. split; rewrite ?Ej, ?Eg; try done.
  - apply (accepted_on (disk (dev m)) (disk (dev m))); [|done]. intros o Ho. apply Hb.
    intros (_ & _ & s & Hs & Ho'). unfold scratch in Ho'. cbn in Ho'. destruct (Hapart s Hs); lia.
  - intros r x o Hr. rewrite Hb; [by apply Hf|]. intros (-> & -> & Hs). apply Hr. split_and!; [done..|by right].
Qed.

Definition leads {A} (c : M (Rig D V) A) (P : Mach (Rig D V) -> Prop) (Q : A -> Mach (Rig D V) -> Prop) : Prop :=
  forall m, P m -> exists a m', c m = Done a m' /\ Q a m'.

Lemma leads_bind {A B} (c : M (Rig D V) A) (f : A -> M (Rig D V) B) P Q R :
  leads c P Q -> (forall a, leads (f a) (Q a) R) -> leads (bind c f) P R.
Proof.
  intros Hc Hf m Hm. unfold bind. destruct (Hc m Hm) as (a & m' & -> & Hq). by apply Hf.
Qed.

Lemma leads_if {A} (b : bool) (c c' : M (Rig D V) A) P Q : leads c P Q -> leads c' P Q -> leads (if b then c else c') P Q.
Proof. by destruct b. Qed.

Lemma leads_paint r c l n P :
  (forall m l, P m -> P (m <| painted := l |>)) -> leads (paint r c l n) P (fun _ => P).
Proof. intros Hp m Hm. eexists _, _. split; [done|]. by apply Hp. Qed.

Lemma good_painted ops m l : Good ops m -> Good ops (m <| painted := l |>).
Proof. intros [? ? ? ?]. by split. Qed.

Lemma leads_line ops line :
  leads (put_line addr line) (Good ops) (fun _ => Good (ops ++ line)).
Proof.
  intros m [Ha Hu Hd Hf]. eexists _, _. split; [done|].
  destruct (run_accepted addr ctx (disk (dev m)) ctx_fits line _ (jw (dev m), disk (dev m)) Ha Hu) as [Ha' Hu'].
  destruct (jw_run addr line _) as [j w] eqn:E. cbn [fst snd] in *.
  assert (Et : take (Z.to_nat (max_bytes ctx)) (run_text ctx ops ++ concat (op_text <$> line)) = run_text ctx (ops ++ line)).
  { unfold run_text. rewrite fmap_app, concat_app.
    generalize (concat (op_text <$> ops)), (concat (op_text <$> line)), (Z.to_nat (max_bytes ctx)). intros a b n.
    rewrite !take_app, take_take, Nat.min_id, length_take. do 2 f_equal. lia. }
  rewrite Et in Ha'. split; cbn; rewrite ?E; cbn; try done.
  - by apply (accepted_on (disk (dev m)) w).
  - intros r x o Hr. rewrite <- Hf by done. destruct Ha' as [_ _ _ _ _ _ _ _ _ Hfr]. apply Hfr.
    intros Hin. apply Hr. by apply (file_reserved (run_text ctx (ops ++ line))); [apply text_short|].
Qed.

Lemma io_pb_fields off len :
  0 <= off < 2 ^ 32 -> 0 <= len <= 4194304 ->
  let pb := io_pb refnum drv IOBUF_BASE off len in
  get16 pb PB_OFF_IOPOSMODE = 1 /\ pb_refnum pb = refnum /\ pb_drive pb = drv /\
  pb_buffer pb = IOBUF_BASE /\ pb_offset pb = off /\ pb_count pb = sector_round_up len /\
  len <= sector_round_up len.
Proof.
  intros Ho Hl. cbn zeta.
  pose proof (sector_round_up_range len ltac:(change (2 ^ 32) with 4294967296; lia)) as (Hr1 & Hr2).
  assert (E1 : pb_refnum (io_pb refnum drv IOBUF_BASE off len) = s16 (u16 refnum))
    by exact (f_equal (swrap 16) (bytes_word refnum)).
  assert (E2 : pb_drive (io_pb refnum drv IOBUF_BASE off len) = s16 (u16 drv))
    by exact (f_equal (swrap 16) (bytes_word drv)).
  assert (E3 : pb_buffer (io_pb refnum drv IOBUF_BASE off len) = u32 IOBUF_BASE) by exact (bytes_long IOBUF_BASE).
  assert (E4 : pb_offset (io_pb refnum drv IOBUF_BASE off len) = u32 off) by exact (bytes_long off).
  assert (E5 : pb_count (io_pb refnum drv IOBUF_BASE off len) = u32 (sector_round_up len))
    by exact (bytes_long (sector_round_up len)).
  change (2 ^ 32) with 4294967296 in *.
  rewrite E1, E2, E3, E4, E5, !s16_u16, (u32_small off), (u32_small (sector_round_up len)) by (done || lia). by split_and!.
Qed.

Lemma elapsed_done (m : Mach (Rig D V)) : exists us t, elapsed fuel m = Done us (m <| dev ::= (fun r => r <| timer := t |>) |>).
Proof.
  destruct (ends_elapsed fuel Hfuel m) as (us & m' & E). unfold elapsed in *.
  destruct (timer_elapsed_us _ _) as [[us' t]|]; [|done]. by eexists _, _.
Qed.

(** A trap of the bench: what it does, and the clock around it. *)
Lemma timed_trap t off len m mem' d' ops :
  Good ops m ->
  dm_trap t (io_pb refnum drv IOBUF_BASE off len) (ram m) (disk (dev m)) = (Returned 0, mem', d') ->
  exists us m', timed refnum fuel t off len m = Done (0, us) m' /\
    ram m' = mem' /\ disk (dev m') = d' /\ jw (dev m') = jw (dev m) /\ g_handoff_drive m' = g_handoff_drive m.
Proof.
  intros Hg Ht. unfold timed, bind at 1, src_drive. rewrite (gd_drive _ _ Hg).
  unfold bind at 1, start_timer, on_rig. unfold bind at 1, recover. cbn zeta.
  unfold dm_trap at 1, rig_manager. cbn [ram dev disk]. 
  match goal with |- context [dm_trap t _ ?a ?b] => change (dm_trap t _ a b) with (dm_trap t (io_pb refnum drv IOBUF_BASE off len) (ram m) (disk (dev m))) end.
  rewrite Ht. unfold bind. 
  match goal with |- context [elapsed fuel ?m1] => destruct (elapsed_done m1) as (us & t1 & ->) end.
  eexists us, _. split; [reflexivity|]. split_and!; try done. apply (gd_drive _ _ Hg).
Qed.

Lemma timed_read ops m off len :
  Good ops m -> 0 <= off < 2 ^ 32 -> 0 <= len <= 4194304 ->
  exists us m', timed refnum fuel A_READ off len m = Done (0, us) m' /\ Good ops m' /\
    forall i, 0 <= i < len -> ram m' (IOBUF_BASE + i) = byte_at (disk (dev m)) refnum drv (off + i).
Proof.
  intros Hg Ho Hl. destruct (io_pb_fields off len Ho Hl) as (F1 & F2 & F3 & F4 & F5 & F6 & F7).
  destruct (raw_read (io_pb refnum drv IOBUF_BASE off len) (ram m) (disk (dev m)) F1) as (mem' & d' & Ht & Hb & Hm).
  destruct (timed_trap _ _ _ m _ _ ops Hg Ht) as (us & m' & E & Em & Ed & Ej & Eg).
  exists us, m'. split_and!; [done| |].
  - apply (good_step ops m); try done. intros r x o _. rewrite Ed. apply Hb.
  - intros i Hi. rewrite Em, Hm, F2, F3, F4, F5, F6, bool_decide_eq_true_2 by lia. f_equal. lia.
Qed.

Lemma timed_write ops m s :
  Good ops m -> s ∈ all_sizes ->
  exists us m', timed refnum fuel A_WRITE (write_offset s) (length_ s) m = Done (0, us) m' /\ Good ops m' /\
    forall i, 0 <= i < length_ s -> byte_at (disk (dev m')) refnum drv (write_offset s + i) = ram m (IOBUF_BASE + i).
Proof.
  intros Hg Hs. pose proof (proj1 (Forall_forall _ _) Hsizes s Hs) as (Hl & _ & Ho & Ho').
  pose proof (sector_round_up_range (length_ s) ltac:(change (2 ^ 32) with 4294967296; lia)) as (Hr1 & Hr2).
  destruct (io_pb_fields (write_offset s) (length_ s) ltac:(lia) Hl) as (F1 & F2 & F3 & F4 & F5 & F6 & F7).
  destruct (raw_write (io_pb refnum drv IOBUF_BASE (write_offset s) (length_ s)) (ram m) (disk (dev m)) F1)
    as (d' & Ht & Hb).
  destruct (timed_trap _ _ _ m _ _ ops Hg Ht) as (us & m' & E & Em & Ed & Ej & Eg).
  exists us, m'. rewrite F2, F3, F4, F5, F6 in Hb. split_and!; [done| |].
  - apply (good_step ops m); try done. intros r x o Hn. rewrite Ed, Hb.
    rewrite bool_decide_eq_false_2; [done|].
    intros (-> & -> & Hin). apply Hn. split_and!; [done..|]. exists s. by split.
  - intros i Hi. rewrite Ed, Hb, bool_decide_eq_true_2; [f_equal; lia|]. split_and!; [done..|lia|lia].
Qed.

Lemma leads_now {A} (a : A) (g : Mach (Rig D V) -> Mach (Rig D V)) P Q :
  (forall m, P m -> Q a (g m)) -> leads (fun m => Done a (g m)) P Q.
Proof. intros Hg m Hm. eexists _, _. split; [done|]. by apply Hg. Qed.

Lemma read_leads ops i s :
  s ∈ all_sizes ->
  leads (read_test refnum addr fuel i s) (Good ops) (fun _ m => exists us, Good (ops ++ read_line s us 0 None) m).
Proof.
  intros Hs m Hg. pose proof (proj1 (Forall_forall _ _) Hsizes s Hs) as (Hl & Ho & _).
  destruct (timed_read ops m (read_offset s) (length_ s) Hg Ho Hl) as (us & m1 & E1 & Hg1 & _).
  unfold read_test, bind at 1. rewrite E1.
  destruct (leads_line ops (read_line s us 0 None) m1 Hg1) as (a & m2 & E2 & Hg2).
  unfold bind. rewrite E2. eexists _, _. split; [done|]. exists us. by apply good_painted.
Qed.

Lemma write_leads ops i s :
  s ∈ all_sizes -> 
  leads (write_test refnum addr fuel i s) (Good ops)
    (fun _ m => exists t, Good (ops ++ write_line s t.1 0 t.2 0 matched None) m).
Proof.
  intros Hs m Hg. pose proof (proj1 (Forall_forall _ _) Hsizes s Hs) as (Hl & _ & Ho & Ho').
  pose proof (sector_round_up_range (length_ s) ltac:(change (2 ^ 32) with 4294967296; lia)) as (Hr1 & Hr2).
  unfold write_test, bind at 1, on_ram.
  set (m1 := m <| ram ::= _ |>). assert (Hg1 : Good ops m1) by by apply (good_step ops m).
  destruct (timed_write ops m1 s Hg1 Hs) as (us & m2 & E2 & Hg2 & Hd2).
  unfold bind at 1. rewrite E2. unfold bind at 1.
  set (m3 := m2 <| ram ::= _ |>). assert (Hg3 : Good ops m3) by by apply (good_step ops m2).
  destruct (timed_read ops m3 (write_offset s) (length_ s) Hg3 ltac:(lia) Hl) as (us' & m4 & E4 & Hg4 & Hm4).
  unfold bind at 1. rewrite E4. unfold bind at 1, look_ram.
  assert (Ev : verify_pattern (ram m4) IOBUF_BASE (length_ s) (u8 i) = matched).
  { apply verify_matched; [unfold VERIFY_MATCH; change (u32 (-1)) with 4294967295; lia|]. intros k Hk.
    rewrite Hm4 by done. change (disk (dev m3)) with (disk (dev m2)). rewrite Hd2 by done.
    change (ram m1) with (fill_pattern IOBUF_BASE (length_ s) (u8 i) (ram m)).
    rewrite fill_pattern_at, bool_decide_eq_true_2 by lia. f_equal. lia. }
  rewrite Ev. destruct (leads_line ops (write_line s us 0 us' 0 matched None) m4 Hg4) as (a & m5 & E5 & Hg5).
  unfold bind. rewrite E5. eexists _, _. split; [done|]. exists (us, us'). by apply good_painted.
Qed.

Lemma skeleton_leads ops i s : leads (paint_row_skeleton (D := D) (V := V) v i s) (Good ops) (fun _ => Good ops).
Proof.
  intros m Hg. unfold paint_row_skeleton, bind, paint_lit, paint.
  destruct (read_only v); (eexists _, _; split; [done|]); by repeat apply good_painted.
Qed.

Lemma size_leads ops mem_top i s :
  s ∈ all_sizes ->
  leads (size_test refnum addr fuel v mem_top i s) (Good ops)
    (fun _ m => exists t, Good (ops ++ size_report v mem_top s t) m).
Proof.
  intros Hs. unfold size_test, size_report. apply (leads_bind _ _ _ (fun _ => Good ops)); [apply skeleton_leads|intros _].
  destruct (too_big mem_top (length_ s)).
  - intros m Hg. unfold skip_test, bind, paint_cell, paint.
    assert (Hp : exists m1, (if read_only v then ret tt else paint (LINE_RESULT i) COL_WRITE (text "SKIP    ") 8)
                 (m <| painted ::= (fun l => l ++ [Paint (LINE_RESULT i) COL_READ (text "SKIP    ") 8]) |>) = Done tt m1 /\ Good ops m1).
    { destruct (read_only v); (eexists; split; [done|]); [by apply good_painted|by do 2 apply good_painted]. }
    destruct Hp as (m1 & E1 & Hg1). unfold paint in E1. rewrite E1.
    destruct (leads_line ops (skip_line s "insufficient_ram" mem_top) m1 Hg1) as (a & m2 & E2 & Hg2).
    exists a, m2. split; [exact E2|]. by exists (0, 0, 0).
  - apply (leads_bind _ _ _ (fun _ m => exists us, Good (ops ++ read_line s us 0 None) m));
      [by apply read_leads|]. intros _. destruct (read_only v).
    + intros m (us & Hg). eexists _, _. split; [done|]. exists (us, 0, 0). by rewrite app_nil_r.
    + intros m (us & Hg). destruct (write_leads _ i s Hs m Hg) as (a & m' & E & t & Hg').
      eexists _, _. split; [done|]. exists (us, t.1, t.2). by rewrite app_assoc.
Qed.

Definition reports (mem_top : Z) (sizes : list IoTestSize) (times : list (Z * Z * Z)) : list JwOp :=
  concat (zip_with (size_report v mem_top) sizes times).

Lemma sizes_lead mem_top sizes i ops :
  Forall (fun s => s ∈ all_sizes) sizes ->
  leads (size_tests refnum addr fuel v mem_top i sizes) (Good ops)
    (fun _ m => exists times, length times = length sizes /\ Good (ops ++ reports mem_top sizes times) m).
Proof.
  intros Hs. revert i ops. induction Hs as [|s sizes Hin Hs IH]; intros i ops m Hg; cbn [size_tests].
  { eexists _, _. split; [done|]. exists []. by rewrite app_nil_r. }
  destruct (size_leads ops mem_top i s Hin m Hg) as (a & m1 & E1 & t & Hg1).
  destruct (IH (u16 (i + 1)) _ m1 Hg1) as (a2 & m2 & E2 & ts & Hl & Hg2).
  unfold bind. rewrite E1. eexists _, _. split; [done|]. exists (t :: ts). cbn. split; [by rewrite Hl|].
  unfold reports. cbn. by rewrite app_assoc.
Qed.

Lemma rows_lead n j drives P :
  (forall m l, P m -> P (m <| painted := l |>)) ->
  leads (drive_rows (D := D) (V := V) n j drives) P (fun _ => P).
Proof.
  intros Hp. revert j drives.
  induction n as [|n IH]; intros j [|d drives] m Hm; cbn [drive_rows];
    [by eexists _, _ | by eexists _, _ | ..]; unfold bind, paint; by apply IH, Hp.
Qed.

Lemma table_leads walk P :
  (forall m l, P m -> P (m <| painted := l |>)) -> (forall m x, P m -> P (m <| g_last_exc_vector := x |>)) ->
  leads (drives_table (D := D) (V := V) walk) P (fun _ => P).
Proof.
  intros Hp Hx m Hm. unfold drives_table, bind, look_ram, paint_lit, paint.
  destruct walk as [exc|]; [|by apply rows_lead; [|apply Hp]].
  eexists _, _. split; [done|]. by apply Hp, Hx.
Qed.

(** The bench without the eject at the end. *)
Lemma main_leads walk (m : Mach (Rig D V)) :
  g_handoff_drive m = drv -> disk (dev m) = d0 -> 
  exists times m5,
    length times = length all_sizes /\
    Good (reports (rd_l (ram m) 0x108) all_sizes times) m5 /\
    iotest_main refnum results addr fuel v walk all_sizes m =
    bind (flush_jw addr) (fun _ => bind (paint_lit (LINE_DETAIL + 12) COL_SIZE "Done!" 5)
      (fun _ => if dsk v then eject_test else ret tt)) m5.
Proof.
  intros Hg Hd. set (top := rd_l (ram m) 0x108).
  set (P := fun m1 : Mach (Rig D V) => Good [] m1 /\ ram m1 = ram m).
  assert (Hp : forall m l, P m -> P (m <| painted := l |>)) by (intros ? ? [? ?]; split; [by apply good_painted|done]).
  assert (Hx : forall m x, P m -> P (m <| g_last_exc_vector := x |>)) by (intros ? ? [[] ?]; by split).
  set (m1 := m <| dev ::= (fun r => r <| jw := jw_init (bench_ctx refnum results drv) |>) |>).
  assert (Hq1 : P m1).
  { split; [|done]. split; cbn; rewrite ?Hg, ?Hd; try done. apply init_accepted, ctx_fits. }
  unfold iotest_main, bind at 1, src_drive. rewrite Hg. unfold bind at 1, on_rig. fold m1.
  unfold bind at 1. set (b := if hda v then _ else _).
  assert (Hb : exists m2, b m1 = Done tt m2 /\ P m2)
    by (unfold b; destruct (hda v); (eexists; split; [reflexivity|]); by apply Hp).
  destruct Hb as (m2 & -> & Hq2). destruct (table_leads walk P Hp Hx m2 Hq2) as (a3 & m3 & E3 & Hq3).
  unfold bind at 1. rewrite E3. unfold bind at 1.
  assert (Hh : exists m4, header_row v m3 = Done tt m4 /\ P m4).
  { unfold header_row, bind, paint_lit, paint. destruct (read_only v); (eexists; split; [reflexivity|]); by repeat apply Hp. }
  destruct Hh as (m4 & -> & Hq4 & Er). unfold bind at 1, look_ram. rewrite Er. fold top. unfold bind at 1.
  assert (Hin : Forall (fun s => s ∈ all_sizes) all_sizes) by by apply Forall_forall.
  destruct (sizes_lead top all_sizes 0 [] Hin m4 Hq4) as (a5 & m5 & E5 & times & Hl & Hq5).
  rewrite E5. by exists times, m5.
Qed.

(** What the bench leaves: its result file and the rest of the disk. *)
Lemma main_leaves walk (m : Mach (Rig D V)) :
  dsk v = false -> g_handoff_drive m = drv -> disk (dev m) = d0 ->
  exists m' times, iotest_main refnum results addr fuel v walk all_sizes m = Done tt m' /\
    length times = length all_sizes /\
    let file := run_text ctx (reports (rd_l (ram m) 0x108) all_sizes times) in
    jw_last_err (jw (dev m')) = 0 /\
    (forall o, 0 <= o < extent (Z.of_nat (length file)) ->
       byte_at (disk (dev m')) refnum drv (results + o) = byte file (Z.to_nat o)) /\
    (forall r x o, ~ reserved r x o -> byte_at (disk (dev m')) r x o = byte_at d0 r x o).
Proof.
  intros Hv Hg Hd. destruct (main_leads walk m Hg Hd) as (times & m5 & Hl & [Ha Hu Hdr Hf] & E).
  rewrite E, Hv. clear E. set (ops := reports _ _ _) in *.
  pose proof (flush_accepted addr ctx (disk (dev m5)) ctx_fits _ (jw (dev m5), disk (dev m5)) Ha Hu) as Hfl.
  unfold bind, flush_jw, on_rig, paint_lit, paint, ret.
  destruct (jw_flush addr _) as [j d] eqn:Ej. cbn in Hfl.
  eexists _, times. split; [reflexivity|]. split; [done|]. cbn. rewrite Ej. cbn.
  destruct Hfl as (He & Ho & Hr). split_and!; [done|exact Ho|].
  intros r x o Hn. rewrite Hr; [by apply Hf|]. intros Hin. apply Hn.
  by apply (file_reserved (run_text ctx ops)); [apply text_short|].
Qed.

End Honest.

(** The disk is laid out: the result file and the scratch regions lie within it and
    apart. *)
Record Layout (refnum results drv : Z) (sizes : list IoTestSize) : Prop := {
  ly_refnum : - 32768 <= refnum < 32768;
  ly_drive : - 32768 <= drv < 32768;
  ly_results : 0 <= results /\ results + 49152 <= 2 ^ 32;
  ly_sizes : Forall size_ok sizes;
  ly_apart s : s ∈ sizes -> write_offset s + sector_round_up (length_ s) <= results \/ results + 32768 <= write_offset s }.



(** ** An instance *)

Definition Raw : Type := Z -> Z -> Z -> Z.

Definition raw_put (pb : list Z) (n : Z) (f : Z -> Z) (w : Raw) : Raw := fun r x o =>
  if bool_decide (r = pb_refnum pb /\ x = pb_drive pb /\ pb_offset pb <= o < pb_offset pb + n)
  then f (o - pb_offset pb) else w r x o.

#[export] Instance raw_driver : Driver Raw := fun pb buf w =>
  (0, raw_put pb (Z.of_nat (length buf)) (fun o => byte buf (Z.to_nat o)) w).

#[export] Instance raw_is_disk : Disk Raw.
Proof. by apply (Build_Disk Raw _ (fun w => w)). Defined.

#[export] Instance raw_manager : DeviceManager Raw := fun t pb mem w =>
  if t =? A_READ then
    (Returned 0, fun a => if bool_decide (pb_buffer pb <= a < pb_buffer pb + pb_count pb)
                          then w (pb_refnum pb) (pb_drive pb) (pb_offset pb + (a - pb_buffer pb)) else mem a, w)
  else if t =? A_WRITE then
    (Returned 0, mem, raw_put pb (pb_count pb) (fun o => mem (pb_buffer pb + o)) w)
  else (Returned (-17), mem, w).

#[export] Instance raw_disk : RawDisk Raw.
Proof.
  split; intros pb mem d _.
  - by exists (fun a => if bool_decide (pb_buffer pb <= a < pb_buffer pb + pb_count pb)
                        then d (pb_refnum pb) (pb_drive pb) (pb_offset pb + (a - pb_buffer pb)) else mem a), d.
  - by exists (raw_put pb (pb_count pb) (fun o => mem (pb_buffer pb + o)) d).
Defined.

#[export] Instance raw_lapse : Lapse Raw bool := fun _ _ _ _ => true.

(** A machine with 4 MB of memory. *)
Definition a_mac : Mach (Rig Raw bool) :=
  MkMach (fun a => if a =? 0x109 then 0x40 else 0)
    (MkRig (fun _ _ _ => 0) (MkTimer 0 0 false) (jw_init (MkJwCtx 0 0 0 0))) [] [] 0 1.

Definition two_sizes : list IoTestSize := [MkSize "1B" 1 0 512; MkSize "1KB" 1024 0 65536]%string.

Lemma two_sizes_layout : Layout (-33) 4096 1 two_sizes.
Proof.
  split; [lia..| |].
  - repeat constructor; vm_compute; congruence.
  - intros s. unfold two_sizes. rewrite !elem_of_cons, elem_of_nil.
    intros [->|[->|[]]]; vm_compute; [left|right]; congruence.
Qed.

Definition full_hda : Variant := MkVariant true false false.


Lemma between_files : ~ reserved (-33) 4096 1 two_sizes (-33) 1 1024.
Proof.
  intros (_ & _ & [?|(s & Hs & Ho)]); [lia|]. revert Hs. unfold two_sizes. rewrite !elem_of_cons, elem_of_nil.
  unfold scratch in Ho. intros [->|[->|[]]]; vm_compute in Ho; by destruct Ho.
Qed.


Lemma iotest_ends_witness :
  exists m', iotest_main (-33) 4096 0 2 full_hda None two_sizes a_mac = Done tt m' \/
             (dsk full_hda = true /\ iotest_main (-33) 4096 0 2 full_hda None two_sizes a_mac = Lost m').
Proof. exact (iotest_ends (-33) 4096 0 2 full_hda (le_n 2) None two_sizes a_mac). Defined.
