(* ===== verification/StepTests.v ===== *)
(** * The CPU test runner (SingleStepTests/tg68k: sim_main.cpp, sim_main_maclc.cpp)

    The runner plays the memory of the CPU core, plants a small program per record of a
    corpus, lets the core run until it has written its condition codes, and compares
    registers and memory with what the record says.

    The core is the class Verilator makes of the hardware sources: an argument, with its
    ports and the registers the runner reaches into.  A record of the corpus is what the
    JSON library makes of a line; the table of programs is generated.  The memory is a
    function of the address.  What the runner prints is a list of bytes per line.

    The two sources differ in how they reach the registers and in what they do with a
    record without a final state; they are two values of [Build].

    The theorems: the planted program and the vectors lie where they should and do not
    touch each other ([plant_layout]); the bus gives back what was written, by lane
    ([bus_reads_back]); what is captured is what the ports show at the first fetch of the
    epilogue and the first write of the condition codes ([capture_first]); a record
    passes exactly when everything that is compared agrees ([verdict_agrees]); the
    counts add up and the exit code is zero exactly when nothing failed
    ([run_counts], [exit_code_zero]); a record without a final state ends the older
    build ([empty_final_ends]). *)

From S2P Require Import Prelude Toolbox Preboot.

(** ** The core *)

Class Core (C : Type) := {
  set_reset : bool -> C -> C;
  set_clkena_in : bool -> C -> C;
  set_clk : bool -> C -> C;
  set_data_in : Z -> C -> C;
  eval : C -> C;
  busstate : C -> Z;
  addr_out : C -> Z;
  data_write : C -> Z;
  nUDS : C -> bool;
  nLDS : C -> bool;
  pc_out : C -> Z;
  sr_out : C -> Z;
  usp_out : C -> Z;
  (** the register file by word, its two stored copies, and the user stack pointer *)
  regfile : Z -> C -> Z;
  poke_regfile : Z -> Z -> C -> C;
  poke_n17490_q : Z -> Z -> C -> C;
  poke_n17492_q : Z -> Z -> C -> C;
  poke_usp : Z -> C -> C }.
#[global] Hint Mode Core ! : typeclass_instances.

Definition BS_FETCH : Z := 0.
Definition BS_IDLE : Z := 1.
Definition BS_READ : Z := 2.
Definition BS_WRITE : Z := 3.

Record Sim (C : Type) := MkSim { top : C; sim_ram : Mem; main_time : Z }.
Arguments MkSim {C}.
Arguments top {C}.
Arguments sim_ram {C}.
Arguments main_time {C}.

#[export] Instance eta_Sim C : Eta (Sim C) := fun s => MkSim (top s) (sim_ram s) (main_time s).

(** ** Memory and bus *)

Definition word_at (a : Z) : Z := Z.land a 0x00FFFFFE.

Definition ram_read16 (m : Mem) (a : Z) : Z :=
  let a := word_at a in Z.lor (u16 (Z.shiftl (m a) 8)) (m (a + 1)).

Definition ram_write16 (a v : Z) (uds lds : bool) (m : Mem) : Mem :=
  let a := word_at a in
  let m := if uds then poke a (u8 (Z.shiftr v 8)) m else m in
  if lds then poke (a + 1) (u8 (Z.land v 0xFF)) m else m.

Section Runner.

Context {C : Type} `{Core C}.

Definition service_bus (s : Sim C) : Sim C :=
  let bs := busstate (top s) in
  if bs =? BS_IDLE then s
  else
    let a := addr_out (top s) in
    if (bs =? BS_FETCH) || (bs =? BS_READ) then s <| top ::= set_data_in (ram_read16 (sim_ram s) a) |>
    else if bs =? BS_WRITE then
      s <| sim_ram ::= ram_write16 a (data_write (top s)) (negb (nUDS (top s))) (negb (nLDS (top s))) |>
    else s.

Definition tick (clkena : bool) (s : Sim C) : Sim C :=
  let s := s <| top ::= (fun c => eval (set_clk false (set_clkena_in clkena c))) |> in
  let s := s <| main_time ::= (fun t => u64 (t + 1)) |> in
  let s := s <| top ::= (fun c => eval (set_clk true c)) |> in
  let s := if clkena then service_bus s else s in
  s <| main_time ::= (fun t => u64 (t + 1)) |>.

Fixpoint ticks (n : nat) (s : Sim C) : Sim C :=
  match n with O => s | S n => ticks n (tick true s) end.

Definition reset_core (s : Sim C) : Sim C :=
  (ticks 32 (s <| top ::= set_reset true |>)) <| top ::= set_reset false |>.

(** ** The two builds *)

Record Build := MkBuild { shadowed : bool; skips_empty : bool }.

Definition set_reg (b : Build) (i v : Z) (c : C) : C :=
  let c := if shadowed b then poke_n17492_q (15 - i) v (poke_n17490_q (15 - i) v c) else c in
  poke_regfile (15 - i) v c.

Definition get_reg (i : Z) (c : C) : Z := regfile (15 - i) c.

(** ** Records and programs *)

(** A state of a record; registers that a record may lack are options. *)
Record Snap := MkSnap {
  sn_d : list Z; sn_a : list Z; sn_ccr : Z; sn_ram : list Z;
  sn_pc : option Z; sn_sr : option Z; sn_usp : option Z }.

Record TestRecord := MkRecord { t_name : list Z; t_initial : Snap; t_final : option Snap }.

Record CpuTestSpec := MkSpec {
  sp_name : list Z; sp_test : list Z; sp_test_len : Z; sp_ccr_mask : Z; sp_hw_unsafe : bool }.

(** The map by name: a later entry replaces an earlier one. *)
Definition find_spec (specs : list CpuTestSpec) (name : list Z) : option CpuTestSpec :=
  find (fun sp => bool_decide (sp_name sp = name)) (rev specs).

Fixpoint put_bytes (a : Z) (l : list Z) (m : Mem) : Mem :=
  match l with [] => m | x :: l => put_bytes (a + 1) l (poke a x m) end.

Definition TEST_START : Z := 0x1004.
Definition move_ccr_addr (sp : CpuTestSpec) : Z := u32 (TEST_START + sp_test_len sp).

Definition put_vectors (target : Z) (m : Mem) : Mem :=
  fold_left (fun m v => put_bytes (v * 4) (long_bytes target) m) (seqZ 2 254) m.

(** The memory of a test. *)
Definition plant (sp : CpuTestSpec) (init : Snap) : Mem :=
  let m : Mem := fun _ => 0 in
  let m := put_bytes 0 (long_bytes (byte (sn_a init) 7)) m in
  let m := put_bytes 4 [0; 0; 0x10; 0] m in
  let m := put_bytes 0x1000 [0x44; 0xFC; 0; u8 (sn_ccr init)] m in
  let m := put_bytes TEST_START (byte (sp_test sp) <$> seq 0 (Z.to_nat (sp_test_len sp))) m in
  let pc := move_ccr_addr sp in
  let m := put_bytes pc [0x42; 0xF9; 0; 0; 0x19; 0] m in
  let m := put_bytes (pc + 6) [0x4E; 0x72; 0x27; 0] m in
  let m := put_vectors pc m in
  put_bytes 0x1800 (byte (sn_ram init) <$> seq 0 64) m.

Definition inject (b : Build) (init : Snap) (c : C) : C :=
  let c := fold_left (fun c r => set_reg b (8 + Z.of_nat r) (u32 (byte (sn_a init) r))
                                   (set_reg b (Z.of_nat r) (u32 (byte (sn_d init) r)) c)) (seq 0 8) c in
  match sn_usp init with Some v => poke_usp (u32 v) c | None => c end.

(** ** Running a test *)

Record Capture := MkCapture {
  saw_test_done : bool; saw_ccr_write : bool; got_pc : Z; got_usp : Z; got_sr : Z }.

Definition no_capture : Capture := MkCapture false false 0 0 0.

#[export] Instance eta_Capture : Eta Capture := fun c =>
  MkCapture (saw_test_done c) (saw_ccr_write c) (got_pc c) (got_usp c) (got_sr c).

Definition even_addr (a : Z) : Z := Z.land a 0xFFFFFFFE.

Definition at_epilogue (target : Z) (c : C) : bool :=
  (busstate c =? BS_FETCH) && (even_addr (addr_out c) =? even_addr target).

Definition at_dump (c : C) : bool := (busstate c =? BS_WRITE) && (even_addr (addr_out c) =? 0x1900).

(** One pass of the loop. *)
Definition capture_step (target : Z) (st : Capture * Sim C) : Capture * Sim C :=
  let '(k, s) := st in
  let s := tick true s in
  let k := if negb (saw_test_done k) && at_epilogue target (top s)
           then ((k) <| saw_test_done := true |>) <| got_pc := pc_out (top s) |> else k in
  if at_dump (top s)
  then (((k) <| saw_ccr_write := true |>) <| got_sr := sr_out (top s) |> <| got_usp := usp_out (top s) |>, ticks 16 s)
  else (k, s).

Fixpoint capture (n : nat) (target : Z) (st : Capture * Sim C) : Capture * Sim C :=
  match n with
  | O => st
  | S n => if saw_ccr_write st.1 then st else capture n target (capture_step target st)
  end.

Definition run_test (b : Build) (sp : CpuTestSpec) (init : Snap) (s : Sim C) : Capture * Sim C :=
  let s := s <| sim_ram := plant sp init |> in
  let s := reset_core s in
  let s := s <| top ::= inject b init |> in
  capture 5000 (move_ccr_addr sp) (no_capture, s).

(** ** The verdict *)

Inductive Failure :=
  | FTimeout
  | FCcr (got exp mask : Z)
  | FD (r got exp : Z)
  | FA (r got exp : Z)
  | FPc (got exp delta : Z)
  | FSr (got exp mask : Z)
  | FUsp (got exp : Z)
  | FRam (i got exp : Z).

Definition check (ok : bool) (f : Failure) : option Failure := if ok then None else Some f.

Fixpoint first_failure (l : list (option Failure)) : option Failure :=
  match l with [] => None | Some f :: _ => Some f | None :: l => first_failure l end.

Definition sr_mask (sp : CpuTestSpec) : Z :=
  let mask := u16 (Z.lnot 0x0700) in
  Z.lor (Z.land mask 0xFFE0) (u16 (Z.land (sp_ccr_mask sp) 0x1F)).

Definition check_ccr (sp : CpuTestSpec) (final : Snap) (s : Sim C) : option Failure :=
  let mask := sp_ccr_mask sp in
  check (Z.land (sim_ram s 0x1901) mask =? Z.land (u8 (sn_ccr final)) mask)
    (FCcr (sim_ram s 0x1901) (u8 (sn_ccr final)) mask).

Definition check_reg (fail : Z -> Z -> Z -> Failure) (off : Z) (l : list Z) (s : Sim C) (r : nat) : option Failure :=
  let got := get_reg (off + Z.of_nat r) (top s) in
  let exp := u32 (byte l r) in
  check (got =? exp) (fail (Z.of_nat r) got exp).

Definition check_pc (init final : Snap) (k : Capture) : option Failure :=
  match saw_test_done k, sn_pc final, sn_pc init with
  | true, Some fpc, Some ipc =>
      let delta := u32 (u32 fpc - u32 ipc) in
      let exp := u32 (TEST_START + delta) in
      check (got_pc k =? exp) (FPc (got_pc k) exp delta)
  | _, _, _ => None
  end.

Definition check_sr (sp : CpuTestSpec) (final : Snap) (k : Capture) : option Failure :=
  match sn_sr final with
  | Some sr =>
      let mask := sr_mask sp in
      check (Z.land (got_sr k) mask =? Z.land (u16 sr) mask)
        (FSr (Z.land (got_sr k) 0xF8FF) (Z.land (u16 sr) 0xF8FF) mask)
  | None => None
  end.

Definition check_usp (final : Snap) (k : Capture) : option Failure :=
  match saw_test_done k, sn_usp final with
  | true, Some usp => check (got_usp k =? u32 usp) (FUsp (got_usp k) (u32 usp))
  | _, _ => None
  end.

Definition check_ram (final : Snap) (s : Sim C) (i : nat) : option Failure :=
  let got := sim_ram s (0x1800 + Z.of_nat i) in
  let exp := u8 (byte (sn_ram final) i) in
  check (got =? exp) (FRam (Z.of_nat i) got exp).

Definition verdict (sp : CpuTestSpec) (init final : Snap) (st : Capture * Sim C) : option Failure :=
  let '(k, s) := st in
  if negb (saw_ccr_write k) then Some FTimeout
  else first_failure
    ([check_ccr sp final s] ++ (check_reg FD 0 (sn_d final) s <$> seq 0 8)
     ++ (check_reg FA 8 (sn_a final) s <$> seq 0 8)
     ++ [check_pc init final k; check_sr sp final k; check_usp final k]
     ++ (check_ram final s <$> seq 0 64)).

(** *** Messages *)

Definition hex_digit (d : Z) : Z := if d <? 10 then 48 + d else 55 + d.
Fixpoint hexw (n : nat) (v : Z) : list Z :=
  match n with O => [] | S n => hexw n (v / 16) ++ [hex_digit (v `mod` 16)] end.
Definition hex_of (n : nat) (v : Z) : list Z := text "0x" ++ hexw n v.

Definition got_expected (what : list Z) (n : nat) (got exp : Z) : list Z :=
  what ++ text ": got " ++ hex_of n got ++ text ", expected " ++ hex_of n exp.

Definition failure_text (f : Failure) : list Z :=
  match f with
  | FTimeout => text "timeout (no CCR dump observed)"
  | FCcr got exp mask => got_expected (text "CCR") 2 got exp ++ text " (mask " ++ hex_of 2 mask ++ text ")"
  | FD r got exp => got_expected (text "D" ++ f_putul r) 8 got exp
  | FA r got exp => got_expected (text "A" ++ f_putul r) 8 got exp
  | FPc got exp delta => got_expected (text "PC") 8 got exp ++ text " (delta " ++ f_putul delta ++ text ")"
  | FSr got exp mask => got_expected (text "SR") 4 got exp ++ text " (IPL+ccr_mask=" ++ hex_of 4 mask ++ text ")"
  | FUsp got exp => got_expected (text "USP") 8 got exp
  | FRam i got exp =>
      got_expected (text "ram[" ++ f_putul i ++ text "] (@$" ++ hexw 4 (0x1800 + i) ++ text ")") 2 got exp
  end.

(** ** The corpus *)

Variable disassemble_68k_ext : Z -> list Z -> list Z.

Definition disasm_at (m : Mem) (pc : Z) : list Z :=
  disassemble_68k_ext pc ((fun i => ram_read16 m (u32 (pc + Z.of_nat i * 2))) <$> seq 0 5).

Record Tally := MkTally {
  passed : Z; failed : Z; skipped : Z; out : list (list Z) }.

#[export] Instance eta_Tally : Eta Tally := fun t => MkTally (passed t) (failed t) (skipped t) (out t).

Definition say (l : list Z) (t : Tally) : Tally := t <| out ::= (fun o => o ++ [l]) |>.

(** The outcome of a line of the corpus: [None] when the program ends with an uncaught
    exception of the JSON library. *)
Definition run_record (b : Build) (specs : list CpuTestSpec) (t : TestRecord) (st : Tally * Sim C)
    : option (Tally * Sim C) :=
  let '(n, s) := st in
  match find_spec specs (t_name t) with
  | None =>
      Some ((say (text "SKIP " ++ t_name t ++ text ": no test bytes in cpu_tests.h") n) <| skipped ::= Z.add 1 |>, s)
  | Some sp =>
      if sp_hw_unsafe sp then Some ((n) <| skipped ::= Z.add 1 |>, s)
      else
        match t_final t with
        | None =>
            if skips_empty b then Some ((n) <| skipped ::= Z.add 1 |>, s)
            else
              let '(k, s) := run_test b sp (t_initial t) s in
              if saw_ccr_write k then None
              else Some (say (text "  instr: " ++ disasm_at (sim_ram s) TEST_START)
                          (say (text "FAIL " ++ t_name t ++ text ": " ++ failure_text FTimeout)
                            ((n) <| failed ::= Z.add 1 |>)), s)
        | Some final =>
            let '(k, s) := run_test b sp (t_initial t) s in
            match verdict sp (t_initial t) final (k, s) with
            | None => Some ((n) <| passed ::= Z.add 1 |>, s)
            | Some f =>
                Some (say (text "  instr: " ++ disasm_at (sim_ram s) TEST_START)
                       (say (text "FAIL " ++ t_name t ++ text ": " ++ failure_text f)
                         ((n) <| failed ::= Z.add 1 |>)), s)
            end
        end
  end.

(** The lines of the file; an empty one is passed over. *)
Fixpoint run_lines (b : Build) (specs : list CpuTestSpec) (ls : list (option TestRecord)) (st : Tally * Sim C)
    : option (Tally * Sim C) :=
  match ls with
  | [] => Some st
  | None :: ls => run_lines b specs ls st
  | Some t :: ls => st ← run_record b specs t st; run_lines b specs ls st
  end.

Definition summary (t : Tally) (fname : list Z) : list Z :=
  f_putul (passed t) ++ text " passed, " ++ f_putul (failed t) ++ text " failed, "
  ++ f_putul (skipped t) ++ text " skipped in " ++ fname.

(** ** The register probe *)

Definition probe_program (m : Mem) : Mem :=
  put_bytes 0x1006 [0x4E; 0x72; 0x27; 0] (put_bytes 0x1000 [0x23; 0xC0; 0; 0; 2; 0]
    (put_bytes 4 [0; 0; 0x10; 0] (put_bytes 0 [0; 0xFF; 0xFF; 0xF8] m))).

(** A line of the bus trace: cycle, state, address and data. *)
Fixpoint probe_trace (n : nat) (i last_addr : Z) (s : Sim C) : list (Z * Z * Z * Z) * Sim C :=
  match n with
  | O => ([], s)
  | S n =>
      let s := tick true s in
      let a := addr_out (top s) in
      let bs := busstate (top s) in
      if negb (bs =? BS_IDLE) && (negb (a =? last_addr) || (bs =? BS_WRITE))
      then let '(l, s') := probe_trace n (i + 1) a s in ((i, bs, a, data_write (top s)) :: l, s')
      else probe_trace n (i + 1) last_addr s
  end.

Definition PROBE : Z := 0xDEADBEEF.

Definition probe_regs (b : Build) (s : Sim C) : Z * (list (Z * Z * Z * Z) * Sim C) :=
  let s := s <| sim_ram ::= probe_program |> in
  let s := reset_core s in
  let s := s <| top ::= set_reg b 0 PROBE |> in
  let '(l, s) := probe_trace 200 0 (u32 (-1)) s in
  let result := rd_l (sim_ram s) 0x200 in
  (if result =? PROBE then 0 else 1, (l, s)).

(** ** The program *)

Definition DEFAULT_CORPUS : list Z := text "../results/cpu/mame_baseline_2026-06-12.json".

(** The arguments after the name of the program; [file] is a file of the corpus, read
    and parsed.  The result is the exit code and what is printed of the corpus. *)
Definition step_main (b : Build) (specs : list CpuTestSpec) (file : list Z -> option (list (option TestRecord)))
    (argv : list (list Z)) (c : C) : option (Z * list (list Z)) :=
  let s := MkSim c (fun _ => 0) 0 in
  let s := s <| top ::= (fun c => set_data_in 0 (set_reset true c)) |> in
  let s := (ticks 32 s) <| top ::= set_reset false |> in
  if bool_decide (head argv = Some (text "--probe-regs")) then Some ((probe_regs b s).1, [])
  else
    let fname := default DEFAULT_CORPUS (head argv) in
    match file fname with
    | None => Some (1, [text "Cannot open " ++ fname])
    | Some ls =>
        '(t, _) ← run_lines b specs ls (MkTally 0 0 0 [], s);
        Some (if negb (failed t =? 0) then 1 else 0, out t ++ [[]; summary t fname])
    end.

End Runner.

Definition maciivi : Build := MkBuild true true.
Definition maclc : Build := MkBuild false false.

(** ** The planted program *)

Lemma put_bytes_at (a : Z) (l : list Z) (m : Mem) (x : Z) :
  put_bytes a l m x = if bool_decide (a <= x < a + Z.of_nat (length l))
                      then u8 (byte l (Z.to_nat (x - a))) else m x.
Proof.
  revert a m. induction l as [|y l IH]; intros a m; cbn [put_bytes length].
  { by rewrite bool_decide_eq_false_2 by lia. }
  rewrite IH, Nat2Z.inj_succ. unfold poke. destruct (Z.eqb_spec x a) as [->|Hn].
  - rewrite bool_decide_eq_false_2, bool_decide_eq_true_2 by lia. by rewrite Z.sub_diag.
  - case_bool_decide.
    + rewrite bool_decide_eq_true_2 by lia. unfold byte.
      replace (Z.to_nat (x - a)) with (S (Z.to_nat (x - (a + 1)))) by lia. done.
    + by rewrite bool_decide_eq_false_2 by lia.
Qed.

Lemma put_vectors_at (target : Z) (m : Mem) (x : Z) :
  put_vectors target m x = if bool_decide (8 <= x < 1024)
                           then u8 (byte (long_bytes target) (Z.to_nat (x `mod` 4))) else m x.
Proof.
  unfold put_vectors. change (seqZ 2 254) with (seqZ 2 (Z.of_nat 254)).
  assert (Hg : forall n, fold_left (fun m v => put_bytes (v * 4) (long_bytes target) m) (seqZ 2 (Z.of_nat n)) m x =
    if bool_decide (8 <= x < 8 + 4 * Z.of_nat n) then u8 (byte (long_bytes target) (Z.to_nat (x `mod` 4))) else m x).
  { induction n as [|n IH]; [cbn; by rewrite bool_decide_eq_false_2 by lia|].
    rewrite Nat2Z.inj_succ, <- Z.add_1_r, seqZ_app, fold_left_app by lia. cbn [fold_left seqZ].
    change (seqZ (2 + Z.of_nat n) 1) with [Z.of_nat 0 + (2 + Z.of_nat n)]. cbn [fold_left]. rewrite Z.add_0_l.
    rewrite put_bytes_at, IH. change (Z.of_nat (length (long_bytes target))) with 4. clear IH.
    case_bool_decide as H1.
    - rewrite bool_decide_eq_true_2 by lia. do 3 f_equal.
      apply (Z.mod_unique_pos _ _ (2 + Z.of_nat n)); lia.
    - case_bool_decide; [by rewrite bool_decide_eq_true_2 by lia | by rewrite bool_decide_eq_false_2 by lia]. }
  exact (Hg 254%nat).
Qed.

Lemma long_bytes_range (v : Z) (i : nat) : u8 (byte (long_bytes v) i) = byte (long_bytes v) i.
Proof. destruct i as [|[|[|[|i]]]]; try (apply u8_small, uwrap_range; lia). by destruct i. Qed.

Ltac settle :=
  repeat first [rewrite bool_decide_eq_false_2 by lia | rewrite bool_decide_eq_true_2 by lia].

(** Where the value of an address of the planted memory comes from. *)
Lemma plant_at (sp : CpuTestSpec) (init : Snap) (x : Z) :
  let pc := move_ccr_addr sp in
  plant sp init x =
  if bool_decide (0x1800 <= x < 0x1840) then u8 (byte (byte (sn_ram init) <$> seq 0 64) (Z.to_nat (x - 0x1800)))
  else if bool_decide (8 <= x < 1024) then u8 (byte (long_bytes pc) (Z.to_nat (x `mod` 4)))
  else if bool_decide (pc + 6 <= x < pc + 10) then u8 (byte [0x4E; 0x72; 0x27; 0] (Z.to_nat (x - (pc + 6))))
  else if bool_decide (pc <= x < pc + 6) then u8 (byte [0x42; 0xF9; 0; 0; 0x19; 0] (Z.to_nat (x - pc)))
  else if bool_decide (TEST_START <= x < TEST_START + Z.of_nat (Z.to_nat (sp_test_len sp)))
       then u8 (byte (byte (sp_test sp) <$> seq 0 (Z.to_nat (sp_test_len sp))) (Z.to_nat (x - TEST_START)))
  else if bool_decide (0x1000 <= x < 0x1004) then u8 (byte [0x44; 0xFC; 0; u8 (sn_ccr init)] (Z.to_nat (x - 0x1000)))
  else if bool_decide (4 <= x < 8) then u8 (byte [0; 0; 0x10; 0] (Z.to_nat (x - 4)))
  else if bool_decide (0 <= x < 4) then u8 (byte (long_bytes (byte (sn_a init) 7)) (Z.to_nat x))
  else 0.
Proof.
  cbn zeta. unfold plant. rewrite put_bytes_at, put_vectors_at, !put_bytes_at.
  rewrite !length_fmap, !length_seq. cbn [length]. change (Z.of_nat 64) with 64.
  rewrite (Z.sub_0_r x).
  repeat match goal with |- context [Z.of_nat (S ?n)] => let k := eval cbv in (Z.of_nat (S n)) in change (Z.of_nat (S n)) with k end.
  replace (move_ccr_addr sp + 6 + 4) with (move_ccr_addr sp + 10) by lia. done.
Qed.

Lemma byte_fmap_seq (l : list Z) (n i : nat) : (i < n)%nat -> byte (byte l <$> seq 0 n) i = byte l i.
Proof. intros Hi. unfold byte at 1. by rewrite list_lookup_fmap, lookup_seq_lt by done. Qed.

(** The memory of a test: the reset vectors with the record's stack and the start of
    the program, the instruction that loads the condition codes, the bytes of the test,
    behind them the epilogue that stores the condition codes and stops, every other
    vector at the epilogue, and the record's scratch bytes; nothing overlaps for any
    test that ends below the scratch bytes. *)
Theorem plant_layout (sp : CpuTestSpec) (init : Snap) (Hlen : 0 <= sp_test_len sp <= 2034) :
  let m := plant sp init in
  let pc := TEST_START + sp_test_len sp in
  rd_l m 0 = u32 (byte (sn_a init) 7) /\ rd_l m 4 = 0x1000 /\
  rd_w m 0x1000 = 0x44FC /\ rd_w m 0x1002 = u8 (sn_ccr init) /\
  (forall i, 0 <= i < sp_test_len sp -> m (TEST_START + i) = u8 (byte (sp_test sp) (Z.to_nat i))) /\
  rd_w m pc = 0x42F9 /\ rd_l m (pc + 2) = 0x1900 /\ rd_l m (pc + 6) = 0x4E722700 /\
  (forall v, 2 <= v < 256 -> rd_l m (v * 4) = pc) /\
  (forall i, 0 <= i < 64 -> m (0x1800 + i) = u8 (byte (sn_ram init) (Z.to_nat i))).
Proof.
  cbn zeta. assert (Epc : move_ccr_addr sp = TEST_START + sp_test_len sp).
  { unfold move_ccr_addr, TEST_START. apply u32_small. lia. }
  assert (Hat : forall x, 0 <= x < 0x10000 -> u32 x = x) by (intros; apply u32_small; lia).
  pose proof (plant_at sp init) as Hp. cbn zeta in Hp. rewrite Epc in Hp. unfold TEST_START in *.
  rewrite !Z2Nat.id in Hp by lia.
  split_and!.
  - unfold rd_l, rd_w. rewrite !Hat, !Hp by lia. settle. rewrite !long_bytes_range. apply bytes_long.
  - unfold rd_l, rd_w. rewrite !Hat, !Hp by lia. settle. done.
  - unfold rd_w. rewrite !Hat, !Hp by lia. settle. done.
  - unfold rd_w. rewrite !Hat, !Hp by lia. settle.
    change (u8 (byte [68; 252; 0; u8 (sn_ccr init)] (Z.to_nat (4098 - 4096)))) with 0.
    change (byte [68; 252; 0; u8 (sn_ccr init)] (Z.to_nat (4098 + 1 - 4096))) with (u8 (sn_ccr init)).
    rewrite u8_small; [done|]. apply uwrap_range. lia.
  - intros i Hi. rewrite Hp. settle. rewrite byte_fmap_seq by lia. do 2 f_equal. lia.
  - unfold rd_w. rewrite !Hat, !Hp by lia. settle.
    replace (4100 + sp_test_len sp - (4100 + sp_test_len sp)) with 0 by lia.
    by replace (4100 + sp_test_len sp + 1 - (4100 + sp_test_len sp)) with 1 by lia.
  - unfold rd_l, rd_w. rewrite !Hat, !Hp by lia. settle.
    replace (4100 + sp_test_len sp + 2 - (4100 + sp_test_len sp)) with 2 by lia.
    replace (4100 + sp_test_len sp + 2 + 1 - (4100 + sp_test_len sp)) with 3 by lia.
    replace (4100 + sp_test_len sp + 2 + 2 - (4100 + sp_test_len sp)) with 4 by lia.
    by replace (4100 + sp_test_len sp + 2 + 2 + 1 - (4100 + sp_test_len sp)) with 5 by lia.
  - unfold rd_l, rd_w. rewrite !Hat, !Hp by lia. settle.
    replace (4100 + sp_test_len sp + 6 - (4100 + sp_test_len sp + 6)) with 0 by lia.
    replace (4100 + sp_test_len sp + 6 + 1 - (4100 + sp_test_len sp + 6)) with 1 by lia.
    replace (4100 + sp_test_len sp + 6 + 2 - (4100 + sp_test_len sp + 6)) with 2 by lia.
    by replace (4100 + sp_test_len sp + 6 + 2 + 1 - (4100 + sp_test_len sp + 6)) with 3 by lia.
  - intros v Hv. unfold rd_l, rd_w. rewrite !Hat, !Hp by lia. settle. rewrite !long_bytes_range.
    replace ((v * 4) `mod` 4) with 0 by (symmetry; div_lia).
    replace ((v * 4 + 1) `mod` 4) with 1 by (symmetry; div_lia).
    replace ((v * 4 + 2) `mod` 4) with 2 by (symmetry; div_lia).
    replace ((v * 4 + 2 + 1) `mod` 4) with 3 by (symmetry; div_lia).
    etransitivity; [apply bytes_long|]. apply Hat. lia.
  - intros i Hi. rewrite Hp. settle. rewrite byte_fmap_seq by lia. do 2 f_equal. lia.
Qed.

Definition moveq : CpuTestSpec := MkSpec (text "MOVEQ #42,D3") [0x76; 0x2A] 2 0xFF false.
Definition a_snap (d3 ccr : Z) : Snap :=
  MkSnap [0; 0; 0; d3; 0; 0; 0; 0] [0; 0; 0; 0; 0; 0; 0; 0x8000] ccr (replicate 64 0) None None None.

Lemma plant_layout_witness :
  rd_l (plant moveq (a_snap 0 31)) 0 = 0x8000 /\ rd_l (plant moveq (a_snap 0 31)) 0x3FC = 0x1006.
Proof.
  destruct (plant_layout moveq (a_snap 0 31) ltac:(cbn; lia)) as (H1 & _ & _ & _ & _ & _ & _ & _ & Hv & _).
  split; [exact H1 | exact (Hv 255 ltac:(lia))].
Defined.

(** ** The bus *)

Lemma word_at_even (a : Z) : word_at a `mod` 2 = 0.
Proof.
  rewrite Zmod_odd, <- Z.bit0_odd. unfold word_at. by rewrite Z.land_spec, andb_false_r.
Qed.

Lemma u8_high (v : Z) : 0 <= v < 65536 -> u8 (Z.shiftr v 8) = v / 256.
Proof. intros Hv. rewrite Z.shiftr_div_pow2 by lia. change (2 ^ 8) with 256. apply u8_small. div_lia. Qed.

Lemma read16_bytes (m : Mem) (a : Z) :
  (forall x, 0 <= m x < 256) -> ram_read16 m a = m (word_at a) * 256 + m (word_at a + 1).
Proof.
  intros Hm. unfold ram_read16. pose proof (Hm (word_at a)). pose proof (Hm (word_at a + 1)).
  rewrite Z.shiftl_mul_pow2 by lia. rewrite uwrap_small by (change (2 ^ 16) with 65536; change (2 ^ 8) with 256; lia).
  by rewrite <- Z.shiftl_mul_pow2, lor_shiftl_add by lia.
Qed.

(** The memory behind the bus: a word that was written is read back by byte lane,
    at every alias of its address in the 24 bits that are decoded, and no other word
    changes. *)
Theorem bus_reads_back (m : Mem) (a b v : Z) (uds lds : bool)
    (Hm : forall x, 0 <= m x < 256) (Hv : 0 <= v < 65536) :
  ram_read16 (ram_write16 a v uds lds m) b =
  if word_at a =? word_at b
  then (if uds then v / 256 else ram_read16 m b / 256) * 256 + (if lds then v `mod` 256 else ram_read16 m b `mod` 256)
  else ram_read16 m b.
Proof.
  assert (Hl : u8 (Z.land v 0xFF) = v `mod` 256) by (rewrite land_255; apply u8_small; div_lia).
  set (m' := ram_write16 a v uds lds m).
  assert (Hat : forall x, m' x = if lds && (x =? word_at a + 1) then v `mod` 256
                                 else if uds && (x =? word_at a) then v / 256 else m x).
  { intros x. unfold m', ram_write16, poke. rewrite !Hl, !(u8_high v) by done.
    assert (u8 (v `mod` 256) = v `mod` 256) by (apply u8_small; div_lia).
    assert (u8 (v / 256) = v / 256) by (apply u8_small; div_lia).
    destruct lds, uds; cbn [andb]; repeat (destruct (_ =? _)); congruence. }
  assert (Hm' : forall x, 0 <= m' x < 256) by (intros x; rewrite Hat; destruct (_ && _); [|destruct (_ && _)]; [div_lia..|apply Hm]).
  rewrite !read16_bytes, !Hat by done. pose proof (word_at_even a). pose proof (word_at_even b).
  pose proof (Hm (word_at b)). pose proof (Hm (word_at b + 1)).
  rewrite (proj2 (Z.eqb_neq (word_at b) (word_at a + 1))), (proj2 (Z.eqb_neq (word_at b + 1) (word_at a))), !andb_false_r by div_lia.
  destruct (Z.eqb_spec (word_at a) (word_at b)) as [E|E].
  - rewrite E, !Z.eqb_refl, !andb_true_r. destruct uds, lds; f_equal; try done; div_lia.
  - rewrite (proj2 (Z.eqb_neq (word_at b) (word_at a))), (proj2 (Z.eqb_neq (word_at b + 1) (word_at a + 1))), !andb_false_r by lia.
    done.
Qed.

Lemma bus_reads_back_witness :
  ram_read16 (ram_write16 0x01001000 0xABCD true false (fun _ => 0x11)) 0x1001 = 0xAB11.
Proof.
  etransitivity; [apply (bus_reads_back (fun _ => 0x11) 0x01001000 0x1001 0xABCD true false); lia | reflexivity].
Defined.

(** ** Capture *)

Section Capture.

Context {C : Type} `{Core C}.

Lemma ticks_add (n k : nat) (s : Sim C) : ticks (n + k) s = ticks k (ticks n s).
Proof. revert s. induction n as [|n IH]; intros s; [done|]. cbn. apply IH. Qed.

Lemma ticks_S (n : nat) (s : Sim C) : ticks (S n) s = tick true (ticks n s).
Proof. replace (S n) with (n + 1)%nat by lia. by rewrite ticks_add. Qed.

(** The core after [n + 1] cycles. *)
Definition core_at (s : Sim C) (n : nat) : C := top (ticks (S n) s).

(** [n] is the first cycle at which [f] holds. *)
Definition first_at (f : C -> bool) (s : Sim C) (n : nat) : Prop :=
  f (core_at s n) = true /\ forall i, (i < n)%nat -> f (core_at s i) = false.

(** The sample of the program counter after [n] cycles. *)
Definition pc_sampled (target : Z) (s : Sim C) (k : Capture) (n : nat) : Prop :=
  if saw_test_done k
  then exists e, (e < n)%nat /\ first_at (at_epilogue target) s e /\ got_pc k = pc_out (core_at s e)
  else forall e, (e < n)%nat -> at_epilogue target (core_at s e) = false.

Lemma capture_from (target : Z) (s : Sim C) (n : nat) : forall (i : nat) (k : Capture),
  saw_ccr_write k = false -> pc_sampled target s k i ->
  (forall j, (j < i)%nat -> at_dump (core_at s j) = false) ->
  let '(k', s') := capture n target (k, ticks i s) in
  if saw_ccr_write k'
  then exists j, (i <= j < i + n)%nat /\ first_at at_dump s j /\ got_sr k' = sr_out (core_at s j) /\
         got_usp k' = usp_out (core_at s j) /\ s' = ticks (S j + 16) s /\ pc_sampled target s k' (S j)
  else (forall j, (j < i + n)%nat -> at_dump (core_at s j) = false) /\ s' = ticks (i + n) s /\
       pc_sampled target s k' (i + n).
Proof.
  induction n as [|n IH]; intros i k Hk Hp Hd; cbn [capture].
  { rewrite Hk, Nat.add_0_r. done. }
  cbn [fst]. rewrite Hk. unfold capture_step. rewrite <- ticks_S. fold (core_at s i).
  match goal with |- context [if ?b then ?x else k] => set (k1 := if b then x else k) end.
  assert (Hk1 : saw_ccr_write k1 = false) by (unfold k1; by destruct (_ && _)).
  assert (Hp1 : pc_sampled target s k1 (S i)).
  { unfold k1, pc_sampled in *. destruct (saw_test_done k) eqn:Ek; cbn [negb andb].
    - rewrite Ek. destruct Hp as (e & He & Hp). exists e. split; [lia|done].
    - destruct (at_epilogue target (core_at s i)) eqn:Ee; cbn.
      + exists i. split; [lia|]. by split.
      + rewrite Ek. intros e He. destruct (decide (e = i)) as [->|]; [done|]. apply Hp. lia. }
  destruct (at_dump (core_at s i)) eqn:Ed.
  - assert (Hend : forall st : Capture * Sim C, saw_ccr_write st.1 = true -> capture n target st = st)
      by (intros st Hst; destruct n; cbn; [done|by rewrite Hst]).
    rewrite Hend by done. cbn [saw_ccr_write]. exists i. split; [lia|]. split; [by split|].
    split; [done|]. split; [done|]. split; [by rewrite ticks_add | exact Hp1].
  - specialize (IH (S i) k1 Hk1 Hp1). rewrite Nat.add_succ_r.
    destruct (capture n target (k1, ticks (S i) s)) as [k' s'].
    assert (Hd1 : forall j, (j < S i)%nat -> at_dump (core_at s j) = false).
    { intros j Hj. destruct (decide (j = i)) as [->|]; [done|]. apply Hd. lia. }
    specialize (IH Hd1). destruct (saw_ccr_write k'); [|exact IH].
    destruct IH as (j & Hj & IH). exists j. split; [lia|done].
Qed.

Lemma capture_spec (target : Z) (n : nat) (s : Sim C) :
  let '(k, s') := capture n target (no_capture, s) in
  if saw_ccr_write k
  then exists j, (j < n)%nat /\ first_at at_dump s j /\ got_sr k = sr_out (core_at s j) /\
         got_usp k = usp_out (core_at s j) /\ s' = ticks (S j + 16) s /\ pc_sampled target s k (S j)
  else (forall j, (j < n)%nat -> at_dump (core_at s j) = false) /\ s' = ticks n s /\ pc_sampled target s k n.
Proof.
  pose proof (capture_from target s n 0 no_capture eq_refl) as Hc. cbn [ticks] in Hc.
  destruct (capture n target (no_capture, s)) as [k s'].
  assert (Hp : pc_sampled target s no_capture 0) by (intros e He; lia).
  specialize (Hc Hp ltac:(intros j Hj; lia)). destruct (saw_ccr_write k); [|exact Hc].
  destruct Hc as (j & Hj & Hc). exists j. split; [lia|exact Hc].
Qed.

(** What is captured.  If within [n] cycles the core writes its condition codes to
    the dump address, the status register and the user stack pointer are those of the
    first such cycle, and the machine is left 16 cycles later; otherwise all [n] cycles
    are run.  The program counter is that of the first fetch of the epilogue up to
    then, if there was one. *)
Theorem capture_first (target : Z) (n : nat) (s : Sim C) :
  let '(k, s') := capture n target (no_capture, s) in
  if saw_ccr_write k
  then exists j, (j < n)%nat /\ first_at at_dump s j /\ got_sr k = sr_out (core_at s j) /\
         got_usp k = usp_out (core_at s j) /\ s' = ticks (S j + 16) s /\ pc_sampled target s k (S j)
  else (forall j, (j < n)%nat -> at_dump (core_at s j) = false) /\ s' = ticks n s /\ pc_sampled target s k n.
Proof. apply capture_spec. Qed.

End Capture.

(** ** The verdict *)

Lemma first_failure_none (l : list (option Failure)) : first_failure l = None <-> Forall (fun o => o = None) l.
Proof.
  induction l as [|[f|] l IH]; cbn; [by split| |].
  - split; [done|]. by inversion 1.
  - rewrite IH, Forall_cons. tauto.
Qed.

Lemma check_none (ok : bool) (f : Failure) : check ok f = None <-> ok = true.
Proof. by destruct ok. Qed.

(** The bits of the status register that a program's mask lets be compared. *)
Definition compared (mask b : Z) : Prop := 0 <= b < 16 /\ ~ 8 <= b <= 10 /\ (b < 5 -> Z.testbit mask b = true).

Lemma sr_mask_bit (sp : CpuTestSpec) (b : Z) :
  0 <= b < 16 -> Z.testbit (sr_mask sp) b = true <-> compared (sp_ccr_mask sp) b.
Proof.
  intros Hb. unfold sr_mask, compared. change (Z.land (u16 (Z.lnot 0x0700)) 0xFFE0) with 63712.
  assert (Hsmall : u16 (Z.land (sp_ccr_mask sp) 0x1F) = Z.land (sp_ccr_mask sp) 0x1F).
  { apply uwrap_small. change 0x1F with (Z.ones 5). rewrite Z.land_ones by lia.
    change (2 ^ 5) with 32; change (2 ^ 16) with 65536. div_lia. }
  rewrite Hsmall, Z.lor_spec, Z.land_spec. clear Hsmall.
  assert (Hc : b = 0 \/ b = 1 \/ b = 2 \/ b = 3 \/ b = 4 \/ b = 5 \/ b = 6 \/ b = 7 \/ b = 8 \/ b = 9 \/ b = 10 \/
               b = 11 \/ b = 12 \/ b = 13 \/ b = 14 \/ b = 15) by lia.
  destruct_or?; subst b;
    repeat match goal with |- context [Z.testbit (Z.pos ?p) ?k] =>
      let v := eval vm_compute in (Z.testbit (Z.pos p) k) in change (Z.testbit (Z.pos p) k) with v end;
    rewrite ?andb_true_r, ?andb_false_r, ?orb_true_l, ?orb_false_l;
    (split; [intros Hm; split_and!; try lia; try done|intros (_ & H1 & H2); try (apply H2; lia); try done; lia]).
Qed.

Section Verdict.

Context {C : Type} `{Core C}.

(** Everything that is compared agrees. *)
Record Agrees (sp : CpuTestSpec) (init final : Snap) (k : Capture) (s : Sim C) : Prop := {
  ag_dump : saw_ccr_write k = true;
  ag_ccr b : 0 <= b < 8 -> Z.testbit (sp_ccr_mask sp) b = true ->
    Z.testbit (sim_ram s 0x1901) b = Z.testbit (u8 (sn_ccr final)) b;
  ag_d r : (r < 8)%nat -> get_reg (Z.of_nat r) (top s) = u32 (byte (sn_d final) r);
  ag_a r : (r < 8)%nat -> get_reg (8 + Z.of_nat r) (top s) = u32 (byte (sn_a final) r);
  ag_pc fpc ipc : saw_test_done k = true -> sn_pc final = Some fpc -> sn_pc init = Some ipc ->
    got_pc k = u32 (TEST_START + (fpc - ipc));
  ag_sr sr b : sn_sr final = Some sr -> compared (sp_ccr_mask sp) b ->
    Z.testbit (got_sr k) b = Z.testbit (u16 sr) b;
  ag_usp usp : saw_test_done k = true -> sn_usp final = Some usp -> got_usp k = u32 usp;
  ag_ram i : (i < 64)%nat -> sim_ram s (0x1800 + Z.of_nat i) = u8 (byte (sn_ram final) i) }.

Lemma land_agree (a b mask n : Z) :
  0 <= n -> (forall i, n <= i -> Z.testbit mask i = false) ->
  Z.land a mask = Z.land b mask <->
  forall i, 0 <= i < n -> Z.testbit mask i = true -> Z.testbit a i = Z.testbit b i.
Proof.
  intros Hn Hmask. split.
  - intros E i Hi Hm. apply (f_equal (fun x => Z.testbit x i)) in E.
    by rewrite !Z.land_spec, Hm, !andb_true_r in E.
  - intros Hb. apply Z.bits_inj'. intros i Hi. rewrite !Z.land_spec.
    destruct (decide (i < n)) as [Hl|Hl]; [|rewrite Hmask by lia; by rewrite !andb_false_r].
    destruct (Z.testbit mask i) eqn:Em; [|by rewrite !andb_false_r]. by rewrite Hb.
Qed.

Lemma high_bits (x n i : Z) : 0 <= x < 2 ^ n -> 0 <= n <= i -> Z.testbit x i = false.
Proof.
  intros Hx Hi. destruct (decide (x = 0)) as [->|Hz]; [apply Z.testbit_0_l|].
  apply Z.bits_above_log2; [lia|]. assert (Z.log2 x < n) by (apply Z.log2_lt_pow2; lia). lia.
Qed.

Lemma regs_agree fail off (l : list Z) (s : Sim C) :
  Forall (fun o => o = None) (check_reg fail off l s <$> seq 0 8) <->
  forall r, (r < 8)%nat -> get_reg (off + Z.of_nat r) (top s) = u32 (byte l r).
Proof.
  rewrite Forall_fmap, Forall_forall. unfold compose, check_reg. cbn zeta.
  setoid_rewrite check_none. setoid_rewrite Z.eqb_eq. setoid_rewrite elem_of_seq.
  split; intros Hr r ?; apply Hr; lia.
Qed.

Lemma sr_mask_high (sp : CpuTestSpec) (i : Z) : 16 <= i -> Z.testbit (sr_mask sp) i = false.
Proof.
  intros Hi. unfold sr_mask. rewrite Z.lor_spec.
  change (Z.land (u16 (Z.lnot 0x0700)) 0xFFE0) with 63712.
  rewrite (high_bits 63712 16) by (change (2 ^ 16) with 65536; lia).
  rewrite (high_bits _ 16); [done| |lia]. apply uwrap_range. lia.
Qed.

(** C13: a test passes exactly when the core has stored its condition codes and
    everything that is compared agrees with the record: the condition codes and the
    status register in the bits the masks let through, all sixteen registers, the
    program counter relative to the start of the test, the user stack pointer where the
    record has one, and the 64 scratch bytes. *)
Theorem verdict_agrees (sp : CpuTestSpec) (init final : Snap) (k : Capture) (s : Sim C)
    (Hmask : 0 <= sp_ccr_mask sp < 256) :
  verdict sp init final (k, s) = None <-> Agrees sp init final k s.
Proof.
  assert (Hccr : check_ccr sp final s = None <-> forall b, 0 <= b < 8 -> Z.testbit (sp_ccr_mask sp) b = true ->
                   Z.testbit (sim_ram s 0x1901) b = Z.testbit (u8 (sn_ccr final)) b).
  { unfold check_ccr. cbn zeta. rewrite check_none, Z.eqb_eq. apply land_agree; [lia|].
    intros i Hi. by apply (high_bits _ 8); [change (2 ^ 8) with 256|lia]. }
  assert (Hsr : check_sr sp final k = None <-> forall sr b, sn_sr final = Some sr -> compared (sp_ccr_mask sp) b ->
                  Z.testbit (got_sr k) b = Z.testbit (u16 sr) b).
  { unfold check_sr. destruct (sn_sr final) as [sr|]; [|done]. cbn zeta. rewrite check_none, Z.eqb_eq.
    rewrite (land_agree _ _ _ 16) by (lia || intros; by apply sr_mask_high).
    split.
    - intros Hb sr' b [= <-] Hc. apply Hb; [apply Hc | by apply sr_mask_bit; [apply Hc|]].
    - intros Hb i Hi Hm. apply Hb; [done | by apply sr_mask_bit]. }
  assert (Hpc : check_pc init final k = None <-> forall fpc ipc, saw_test_done k = true -> sn_pc final = Some fpc ->
                  sn_pc init = Some ipc -> got_pc k = u32 (TEST_START + (fpc - ipc))).
  { unfold check_pc. destruct (saw_test_done k); [|by split]. destruct (sn_pc final) as [f|]; [|by split].
    destruct (sn_pc init) as [i|]; [|by split]. cbn zeta. rewrite check_none, Z.eqb_eq.
    assert (E : u32 (TEST_START + u32 (u32 f - u32 i)) = u32 (TEST_START + (f - i))).
    { unfold uwrap. rewrite Zplus_mod_idemp_r.
      by rewrite (Zplus_mod TEST_START (_ - _)), <- Zminus_mod, <- Zplus_mod. }
    rewrite E. split; [by intros -> ? ? _ [= <-] [= <-] | intros Hp; by apply Hp]. }
  assert (Husp : check_usp final k = None <-> forall usp, saw_test_done k = true -> sn_usp final = Some usp -> got_usp k = u32 usp).
  { unfold check_usp. destruct (saw_test_done k); [|by split]. destruct (sn_usp final) as [u|]; [|by split].
    rewrite check_none, Z.eqb_eq. split; [by intros -> ? _ [= <-] | intros Hp; by apply Hp]. }
  assert (Hram : Forall (fun o => o = None) (check_ram final s <$> seq 0 64) <->
                 forall i, (i < 64)%nat -> sim_ram s (0x1800 + Z.of_nat i) = u8 (byte (sn_ram final) i)).
  { rewrite Forall_fmap, Forall_forall. unfold compose, check_ram. cbn zeta.
    setoid_rewrite check_none. setoid_rewrite Z.eqb_eq. setoid_rewrite elem_of_seq.
    split; intros Hr r ?; apply Hr; lia. }
  unfold verdict. destruct (saw_ccr_write k) eqn:Ek; cbn [negb].
  - rewrite first_failure_none, !Forall_app, !regs_agree, !Forall_cons, Hccr, Hpc, Hsr, Husp, Hram.
    split; [intros ([? _] & ? & ? & (? & ? & ? & _) & ?); by split | intros []; repeat split; try done; constructor].
  - split; [done|]. intros []. congruence.
Qed.

End Verdict.

(** ** The corpus *)

Definition fails (l : list Z) : bool := bool_decide (take 5 l = text "FAIL ").

Section Corpus.

Context {C : Type} `{Core C}.
Variable disassemble_68k_ext : Z -> list Z -> list Z.

Definition ran (t : Tally) : Z := passed t + failed t + skipped t.
Definition failures (t : Tally) : Z := Z.of_nat (length (filter (fun l => fails l = true) (out t))).

Lemma failures_say (l : list Z) (t : Tally) : failures (say l t) = failures t + if fails l then 1 else 0.
Proof.
  unfold failures. change (out (say l t)) with (out t ++ [l]). rewrite filter_app, length_app. destruct (fails l) eqn:E.
  - rewrite filter_cons_True by done. cbn. lia.
  - rewrite filter_cons_False by (by rewrite E). cbn. lia.
Qed.

(** One record: the counts, and the line that is printed exactly when it failed. *)
Lemma record_counts b specs t (st st' : Tally * Sim C) :
  run_record disassemble_68k_ext b specs t st = Some st' ->
  ran st'.1 = ran st.1 + 1 /\ failures st'.1 - failures st.1 = failed st'.1 - failed st.1 /\
  failed st.1 <= failed st'.1 <= failed st.1 + 1.
Proof.
  destruct st as [n s]. unfold run_record. cbn [fst].
  assert (Hf : forall x f (s : Sim C), let n' := say (text "  instr: " ++ disasm_at disassemble_68k_ext (sim_ram s) TEST_START)
                       (say (text "FAIL " ++ x ++ text ": " ++ failure_text f) ((n) <| failed ::= Z.add 1 |>)) in
            ran n' = ran n + 1 /\ failures n' - failures n = failed n' - failed n /\ failed n <= failed n' <= failed n + 1).
  { intros x f s1 n'. unfold n'. rewrite !failures_say.
    assert (E1 : fails (text "  instr: " ++ disasm_at disassemble_68k_ext (sim_ram s1) TEST_START) = false) by done.
    assert (E2 : fails (text "FAIL " ++ x ++ text ": " ++ failure_text f) = true) by done.
    rewrite E1, E2. unfold ran, failures, say. destruct n. cbn. lia. }
  assert (Hs : let n' := (n) <| skipped ::= Z.add 1 |> in
            ran n' = ran n + 1 /\ failures n' - failures n = failed n' - failed n /\ failed n <= failed n' <= failed n + 1)
    by (unfold ran, failures; destruct n; cbn; lia).
  destruct (find_spec specs (t_name t)) as [sp|].
  2:{ intros [= <-]. cbn [fst].
      pose proof (failures_say (text "SKIP " ++ t_name t ++ text ": no test bytes in cpu_tests.h") n) as Hk.
      assert (E1 : fails (text "SKIP " ++ t_name t ++ text ": no test bytes in cpu_tests.h") = false) by done.
      rewrite E1 in Hk. set (n' := say _ n) in *.
      assert (E2 : failures ((n') <| skipped ::= Z.add 1 |>) = failures n') by done.
      assert (E3 : passed n' = passed n /\ failed n' = failed n /\ skipped n' = skipped n) by done.
      rewrite E2, Hk. unfold ran. cbn -[failures say]. lia. }
  destruct (sp_hw_unsafe sp); [by intros [= <-]|]. destruct (t_final t) as [final|].
  - destruct (run_test b sp (t_initial t) s) as [k s1]. destruct (verdict _ _ _ _) as [f|]; intros [= <-]; [exact (Hf (t_name t) f s1)|].
    unfold ran, failures. destruct n. cbn. lia.
  - destruct (skips_empty b); [by intros [= <-]|].
    destruct (run_test b sp (t_initial t) s) as [k s1]. destruct (saw_ccr_write k); [done|]. intros [= <-].
    exact (Hf (t_name t) FTimeout s1).
Qed.

Lemma lines_count b specs ls : forall st st' : Tally * Sim C,
  run_lines disassemble_68k_ext b specs ls st = Some st' ->
  ran st'.1 = ran st.1 + Z.of_nat (length (omap id ls)) /\
  failures st'.1 - failures st.1 = failed st'.1 - failed st.1 /\ failed st.1 <= failed st'.1.
Proof.
  induction ls as [|[t|] ls IH]; intros st st'; cbn [run_lines].
  - intros [= <-]. cbn. lia.
  - destruct (run_record _ b specs t st) as [st1|] eqn:E; [|done]. cbn [mbind option_bind]. intros Hr.
    apply record_counts in E. apply IH in Hr. cbn [omap list_omap id length]. 
    change (omap id (Some t :: ls)) with (t :: omap id ls). cbn [length]. lia.
  - intros Hr. by apply IH in Hr.
Qed.

(** The counts: every record of the file is counted once, as passed, failed or
    skipped, and one line of failure is printed per failed record. *)
Theorem run_counts b specs ls (s : Sim C) (t : Tally) (s' : Sim C)
    (Hr : run_lines disassemble_68k_ext b specs ls (MkTally 0 0 0 [], s) = Some (t, s')) :
  passed t + failed t + skipped t = Z.of_nat (length (omap id ls)) /\ failures t = failed t.
Proof.
  apply lines_count in Hr as (H1 & H2 & _). cbn [fst] in *.
  change (failures (MkTally 0 0 0 [])) with 0 in H2. change (failed (MkTally 0 0 0 [])) with 0 in H2.
  change (ran (MkTally 0 0 0 [])) with 0 in H1. unfold ran in H1. split; lia.
Qed.

Lemma f_putul_head (v : Z) : exists x l, f_putul v = x :: l /\ is_dec x.
Proof.
  unfold f_putul. destruct (v =? 0) eqn:E; [exists 48, []; split; [done | unfold is_dec; lia]|].
  assert (Hd : Forall is_dec (rev (low_digits 11 v))) by apply Forall_rev, low_digits_dec.
  destruct (rev (low_digits 11 v)) as [|x l] eqn:El.
  - apply (f_equal (@length Z)) in El. cbn [low_digits] in El. rewrite E, length_rev in El. done.
  - exists x, l. split; [done|]. by inversion Hd.
Qed.

Lemma summary_no_failure t fname : fails (summary t fname) = false.
Proof.
  unfold summary, fails. apply bool_decide_eq_false_2. destruct (f_putul_head (passed t)) as (x & l & -> & Hx).
  intros Ht. injection Ht as Hx' _. unfold is_dec in Hx. lia.
Qed.

(** The exit code of a run over a corpus is zero exactly when no line that is
    printed reports a failure. *)
Theorem exit_code_zero b specs file argv (c : C) (code : Z) (lines : list (list Z)) (ls : list (option TestRecord))
    (Hargs : head argv <> Some (text "--probe-regs"))
    (Hfile : file (default DEFAULT_CORPUS (head argv)) = Some ls)
    (Hr : step_main disassemble_68k_ext b specs file argv c = Some (code, lines)) :
  code = 0 <-> Forall (fun l => fails l = false) lines.
Proof.
  unfold step_main in Hr. cbv zeta in Hr. rewrite bool_decide_eq_false_2, Hfile in Hr by done.
  destruct (run_lines _ _ _ _ _) as [[t s']|] eqn:E; [|done]. cbn [mbind option_bind] in Hr. injection Hr as <- <-.
  apply lines_count in E as (_ & Hf & Hge). cbn [fst] in *.
  change (failures (MkTally 0 0 0 [])) with 0 in Hf. change (failed (MkTally 0 0 0 [])) with 0 in Hf, Hge.
  rewrite !Forall_app, !Forall_cons, summary_no_failure.
  assert (Hn : failures t = 0 <-> Forall (fun l => fails l = false) (out t)).
  { unfold failures. induction (out t) as [|l o IH]; [by split|]. rewrite Forall_cons.
    destruct (fails l) eqn:El.
    - rewrite filter_cons_True by done. cbn. split; [lia|]. by intros [? _].
    - rewrite filter_cons_False by (by rewrite El). rewrite IH. tauto. }
  rewrite <- Hn. destruct (Z.eqb_spec (failed t) 0) as [Ez|Ez]; cbn; split; try done.
  - intros _. split; [lia|]. done.
  - intros [? _]. lia.
Qed.

(** A record without a final state is skipped; the older build runs it, and when the
    core stores its condition codes it ends with an uncaught exception, whatever
    records follow. *)
Theorem empty_final_ends specs (t : TestRecord) (sp : CpuTestSpec) ls (n : Tally) (s : Sim C)
    (Hsp : find_spec specs (t_name t) = Some sp) (Hsafe : sp_hw_unsafe sp = false) (Hfin : t_final t = None)
    (Hdump : exists j, (j < 5000)%nat /\
       at_dump (core_at ((reset_core (s <| sim_ram := plant sp (t_initial t) |>))
                          <| top ::= inject maclc (t_initial t) |>) j) = true) :
  run_lines disassemble_68k_ext maclc specs (Some t :: ls) (n, s) = None /\
  run_lines disassemble_68k_ext maciivi specs (Some t :: ls) (n, s) =
  run_lines disassemble_68k_ext maciivi specs ls ((n) <| skipped ::= Z.add 1 |>, s).
Proof.
  cbn [run_lines]. unfold run_record. rewrite Hsp, Hsafe, Hfin. cbn [skips_empty maclc maciivi].
  split; [|done]. unfold run_test. cbn zeta.
  pose proof (capture_spec (move_ccr_addr sp) 5000 ((reset_core (s <| sim_ram := plant sp (t_initial t) |>))
                          <| top ::= inject maclc (t_initial t) |>)) as Hc.
  destruct (capture _ _ _) as [k s']. destruct (saw_ccr_write k); [done|].
  destruct Hdump as (j & Hj & Hd). destruct Hc as (Hc & _). by rewrite Hc in Hd.
Qed.

End Corpus.

(** ** An instance *)

(** A core that knows one program: it sets D3, fetches the epilogue and stores the
    condition codes. *)
Record Toy := MkToy { ty_rst : bool; ty_clk : bool; ty_prev : bool; ty_n : nat; ty_regs : Z -> Z }.

Definition toy_edge (c : Toy) : Toy :=
  let n := if ty_rst c then O else S (ty_n c) in
  MkToy (ty_rst c) (ty_clk c) (ty_clk c) n
    (fun w => if (n =? 1)%nat && (w =? 12) then 42 else ty_regs c w).

#[export] Instance toy_core : Core Toy := {|
  set_reset := fun r c => MkToy r (ty_clk c) (ty_prev c) (ty_n c) (ty_regs c);
  set_clkena_in := fun _ c => c;
  set_clk := fun k c => MkToy (ty_rst c) k (ty_prev c) (ty_n c) (ty_regs c);
  set_data_in := fun _ c => c;
  eval := fun c => if ty_clk c && negb (ty_prev c) then toy_edge c
                   else MkToy (ty_rst c) (ty_clk c) (ty_clk c) (ty_n c) (ty_regs c);
  busstate := fun c => match ty_n c with 2%nat => BS_FETCH | 3%nat => BS_WRITE | _ => BS_IDLE end;
  addr_out := fun c => match ty_n c with 2%nat => 0x1006 | _ => 0x1900 end;
  data_write := fun _ => 0; nUDS := fun _ => false; nLDS := fun _ => false;
  pc_out := fun _ => 0x1006; sr_out := fun _ => 0x2700; usp_out := fun _ => 0;
  regfile := fun w c => ty_regs c w;
  poke_regfile := fun w v c =>
    MkToy (ty_rst c) (ty_clk c) (ty_prev c) (ty_n c) (fun x => if x =? w then v else ty_regs c x);
  poke_n17490_q := fun _ _ c => c;
  poke_n17492_q := fun _ _ c => c;
  poke_usp := fun _ c => c |}.

Definition toy : Toy := MkToy false false false 0 (fun _ => 0).
Definition toy_sim : Sim Toy := MkSim toy (fun _ => 0) 0.

Definition good_record : TestRecord := MkRecord (text "MOVEQ #42,D3") (a_snap 0 31) (Some (a_snap 42 0)).
Definition bad_record : TestRecord := MkRecord (text "MOVEQ #42,D3") (a_snap 0 31) (Some (a_snap 43 0)).
Definition empty_record : TestRecord := MkRecord (text "MOVEQ #42,D3") (a_snap 0 31) None.

Definition no_disassembly : Z -> list Z -> list Z := fun _ _ => [].

Definition toy_run (ls : list (option TestRecord)) : option (Z * list (list Z)) :=
  step_main no_disassembly maciivi [moveq] (fun _ => Some ls) [] toy.

Lemma verdict_agrees_witness :
  let '(k, s) := run_test maciivi moveq (a_snap 0 31) toy_sim in
  Agrees moveq (a_snap 0 31) (a_snap 42 0) k s.
Proof.
  destruct (run_test maciivi moveq (a_snap 0 31) toy_sim) as [k s] eqn:E.
  apply (verdict_agrees moveq (a_snap 0 31) (a_snap 42 0) k s); [cbn; lia|].
  rewrite <- E. vm_compute. reflexivity.
Defined.

Lemma run_counts_witness :
  exists t s', run_lines no_disassembly maciivi [moveq] [Some good_record; None; Some bad_record]
                 (MkTally 0 0 0 [], toy_sim) = Some (t, s') /\
    passed t + failed t + skipped t = 2 /\ failures t = failed t.
Proof.
  assert (Hs : (if run_lines no_disassembly maciivi [moveq] [Some good_record; None; Some bad_record]
                     (MkTally 0 0 0 [], toy_sim) is Some _ then true else false) = true) by (vm_compute; reflexivity).
  destruct (run_lines no_disassembly maciivi [moveq] [Some good_record; None; Some bad_record]
    (MkTally 0 0 0 [], toy_sim)) as [[t s']|] eqn:E; [|discriminate Hs].
  exists t, s'. split; [reflexivity|]. exact (run_counts no_disassembly _ _ _ _ _ _ E).
Defined.

Definition code_of (r : option (Z * list (list Z))) : Z := match r with Some (code, _) => code | None => 134 end.
Definition lines_of (r : option (Z * list (list Z))) : list (list Z) := match r with Some (_, ls) => ls | None => [] end.

Lemma exit_code_zero_witness :
  code_of (toy_run [Some good_record]) = 0 /\ code_of (toy_run [Some good_record; Some bad_record]) = 1 /\
  Forall (fun l => fails l = false) (lines_of (toy_run [Some good_record])).
Proof.
  assert (E1 : code_of (toy_run [Some good_record]) = 0) by (vm_compute; reflexivity).
  split; [exact E1|]. split; [vm_compute; reflexivity|].
  destruct (toy_run [Some good_record]) as [[code ls]|] eqn:E; [|vm_compute in E; discriminate].
  apply (exit_code_zero no_disassembly maciivi [moveq] (fun _ => Some [Some good_record]) [] toy code ls
           [Some good_record]); [discriminate|reflexivity|exact E|exact E1].
Defined.

Lemma toy_dumps :
  exists j, (j < 5000)%nat /\
    at_dump (core_at ((reset_core (toy_sim <| sim_ram := plant moveq (a_snap 0 31) |>))
                       <| top ::= inject maclc (a_snap 0 31) |>) j) = true.
Proof. exists 2%nat. split; [lia|]. vm_compute. reflexivity. Qed.

Lemma empty_final_ends_witness :
  run_lines no_disassembly maclc [moveq] [Some empty_record] (MkTally 0 0 0 [], toy_sim) = None.
Proof.
  exact (proj1 (empty_final_ends no_disassembly [moveq] empty_record moveq [] (MkTally 0 0 0 []) toy_sim
                  eq_refl eq_refl eq_refl toy_dumps)).
Defined.
