(* ===== verification/KeyTest.v ===== *)
(** * The keyboard diagnostic (preboot/keytest/keytest_main.c)

    The program shows the 16 bytes of the ROM's key map, the keys that are down and the
    last key pressed and released, in an endless loop that a press of RETURN leaves: it
    then ejects the floppy and halts.

    The machine is that of [DiskCopy]: a look at the key map takes the next sample, the
    program [Waits] when it has used them up, [Done] is the halt.

    The theorems: the press and the release that are shown are the highest key that
    went down and the highest that came up since the sample before
    ([edges_highest]); the list shows the six lowest keys that are down and leaves the
    cells behind them as they were ([held_shown]); distinct keys of the table have
    distinct labels ([labels_distinct]); the program halts exactly when a sample has
    RETURN down and touches no drive before ([keytest_halts]). *)

From S2P Require Import Prelude Toolbox Preboot DiskCopy Drives DiskBench.
#[local] Open Scope copy_scope.

Definition KEYMAP_BASE : Z := 0x174.

Definition key_labels : list (Z * Z) :=
  [(0x00, 65); (0x0B, 66); (0x08, 67); (0x02, 68); (0x0E, 69); (0x03, 70); (0x05, 71); (0x04, 72);
   (0x22, 73); (0x26, 74); (0x28, 75); (0x25, 76); (0x2E, 77); (0x2D, 78); (0x1F, 79); (0x23, 80);
   (0x0C, 81); (0x0F, 82); (0x01, 83); (0x11, 84); (0x20, 85); (0x09, 86); (0x0D, 87); (0x07, 88);
   (0x10, 89); (0x06, 90); (0x12, 49); (0x13, 50); (0x14, 51); (0x15, 52); (0x17, 53); (0x16, 54);
   (0x1A, 55); (0x1C, 56); (0x19, 57); (0x1D, 48); (0x31, 32); (0x24, 13); (0x33, 60); (0x35, 33)].

Definition keycode_label (kc : Z) : Z :=
  match find (fun e => fst e =? kc) key_labels with Some (_, c) => c | None => 63 end.

Definition put_dec3 (v : Z) : list Z :=
  [if 100 <=? v then 48 + (v / 100) `mod` 10 else 32; if 10 <=? v then 48 + (v / 10) `mod` 10 else 32; 48 + v `mod` 10].

(** A row of eight bytes in hex. *)
Definition raw_row (bytes : list Z) : list Z := concat ((fun v => hex_byte v ++ [32]) <$> bytes).

(** The keys that are down, at most [n], from keycode [i] on. *)
Fixpoint held_from (fuel : nat) (i : Z) (n : nat) (curr : list Z) : list Z :=
  match fuel, n with
  | S fuel, S n' =>
      if down i curr then i :: held_from fuel (i + 1) n' curr else held_from fuel (i + 1) n curr
  | _, _ => []
  end.

Definition held (curr : list Z) : list Z := held_from 128 0 6 curr.

Definition held_line (curr : list Z) : list Z :=
  let l := concat ((fun kc => put_dec3 kc ++ [47; keycode_label kc; 32]) <$> held curr) in
  if bool_decide (held curr = []) then text "(none)" else l.

(** The last key pressed and released, 0xFF for none. *)
Record Edges := MkEdges { last_press : Z; last_release : Z }.

Definition edge_bit (prev curr : list Z) (i : Z) (e : Edges) (b : Z) : Edges :=
  let c := byte curr (Z.to_nat i) in
  let diff := Z.lxor c (byte prev (Z.to_nat i)) in
  if Z.land diff (Z.shiftl 1 b) =? 0 then e
  else
    let kc := u8 (Z.lor (Z.shiftl i 3) b) in
    if Z.land c (Z.shiftl 1 b) =? 0 then MkEdges (last_press e) kc else MkEdges kc (last_release e).

Definition edge_byte (prev curr : list Z) (e : Edges) (i : Z) : Edges :=
  if Z.lxor (byte curr (Z.to_nat i)) (byte prev (Z.to_nat i)) =? 0 then e
  else fold_left (edge_bit prev curr i) (seqZ 0 8) e.

Definition edges (prev curr : list Z) (e : Edges) : Edges := fold_left (edge_byte prev curr) (seqZ 0 16) e.

Section Program.

Context {D : Type} `{DeviceManager D}.

(** A look at the sixteen bytes. *)
Definition read_keymap : M D (list Z) := fun m =>
  match keys m with
  | [] => Waits m
  | k :: ks => Done (byte (key_map k) <$> seq 0 16) (m <| keys := ks |> <| dev := act k (dev m) |>)
  end.

Definition paint_edge (row kc : Z) : M D unit :=
  if kc =? 0xFF then ret tt
  else paint row 18 (put_dec3 kc ++ [32; 32]) 5 ;;; paint row 26 [keycode_label kc] 1.

Definition eject_message (drv res : Z) : list Z :=
  text "eject drv=" ++ put_dec3 (u8 drv) ++ text " res=" ++ (if res <? 0 then [45] else [])
  ++ status_digits (if res <? 0 then - res else res).

(** What a frame paints before the edges. *)
Definition paint_map (curr : list Z) : M D unit :=
  paint (LINE 3) 1 (raw_row (take 8 curr)) 24 ;;;
  paint (LINE 4) 1 (raw_row (drop 8 curr)) 24 ;;;
  paint (LINE 5) 11 (held_line curr) (Z.of_nat (Nat.min 36 (length (held_line curr)))).

Definition eject_and_halt : M D unit :=
  paint_lit (LINE 11) 1 "Ejecting...                             " 40 ;;;
  drv <- src_drive ;;
  res <- eject drv ;;
  let msg := eject_message drv res in
  paint (LINE 11) 1 msg (Z.of_nat (length msg)).

(** [n] bounds the frames. *)
Fixpoint frames (n : nat) (prev : list Z) (e : Edges) : M D unit :=
  match n with
  | O => fun m => Waits m
  | S n =>
      curr <- read_keymap ;;
      paint_map curr ;;;
      let e := edges prev curr e in
      paint_edge (LINE 7) (last_press e) ;;;
      paint_edge (LINE 8) (last_release e) ;;;
      if down KC_RETURN curr then eject_and_halt else frames n curr e
  end.

Definition keytest_main : M D unit :=
  paint_lit (LINE 0) 1 "KEYTEST: press keys (ADB keyboard diagnostic)" 45 ;;;
  paint_lit (LINE 2) 1 "KeyMap raw (hex, $0174..$0183):" 31 ;;;
  paint_lit (LINE 5) 1 "DOWN now:" 9 ;;;
  paint_lit (LINE 7) 1 "Last PRESS:   kc=    ch=" 24 ;;;
  paint_lit (LINE 8) 1 "Last RELEASE: kc=    ch=" 24 ;;;
  paint_lit (LINE 10) 1 "If KeyMap never changes, ROM isn't updating it pre-System." 58 ;;;
  paint_lit (LINE 11) 1 "Press RETURN to eject the floppy + halt." 40 ;;;
  fun m => frames (S (length (keys m))) (replicate 16 0) (MkEdges 0xFF 0xFF) m.

End Program.

(** ** Labels *)

(** Two keys with the same label are the same key, unless the label is that of an
    unknown key. *)
Theorem labels_distinct (k k' : Z) (Hk : keycode_label k = keycode_label k') : k = k' \/ keycode_label k = 63.
Proof.
  assert (Hd : forallb (fun e => forallb (fun e' => (fst e =? fst e') || negb (snd e =? snd e')) key_labels
                                 && negb (snd e =? 63)) key_labels = true) by reflexivity.
  rewrite forallb_forall in Hd. unfold keycode_label in *.
  destruct (find (fun e => fst e =? k) key_labels) as [[a c]|] eqn:E; [|by right].
  destruct (find (fun e => fst e =? k') key_labels) as [[a' c']|] eqn:E'.
  - apply find_some in E as [Hin Ha%Z.eqb_eq], E' as [Hin' Ha'%Z.eqb_eq]. cbn [fst snd] in *. subst a a' c'.
    specialize (Hd _ Hin). cbn beta in Hd. apply andb_true_iff in Hd as [Hd _].
    apply (fun h => proj1 (forallb_forall _ _) h _ Hin') in Hd. cbn [fst snd] in Hd. left. lia.
  - right. by rewrite Hk.
Qed.

Lemma labels_distinct_witness : keycode_label 0x24 = 13 /\ (0x24 = 0x24 \/ keycode_label 0x24 = 63).
Proof. split; [reflexivity | exact (labels_distinct 0x24 0x24 eq_refl)]. Defined.

(** ** The list of keys *)

Lemma held_from_take (fuel n : nat) (i : Z) (curr : list Z) :
  held_from fuel i n curr = take n (filter (fun kc => down kc curr = true) (seqZ i (Z.of_nat fuel))).
Proof.
  revert i n. induction fuel as [|fuel IH]; intros i n; [by destruct n|].
  rewrite Nat2Z.inj_succ, seqZ_cons by lia. rewrite Z.pred_succ. cbn [held_from].
  destruct n as [|n]; [done|]. destruct (down i curr) eqn:E.
  - rewrite filter_cons_True by done. cbn. by rewrite IH, <- Z.add_1_r.
  - rewrite filter_cons_False by (by rewrite E). by rewrite IH, <- Z.add_1_r.
Qed.

Lemma held_take (curr : list Z) : held curr = take 6 (filter (fun kc => down kc curr = true) (seqZ 0 128)).
Proof. unfold held. apply (held_from_take 128 6 0 curr). Qed.

(** The list of a frame: the six lowest keys that are down, six cells for each.  No
    cell behind them is painted, so that the entries of an earlier, longer list stay on
    the screen. *)
Theorem held_shown {D : Type} `{DeviceManager D} (curr : list Z) (m : Mach D) :
  let keys_down := filter (fun kc => down kc curr = true) (seqZ 0 128) in
  held curr = take 6 keys_down /\
  exists m' line, paint_map curr m = Done tt m' /\
    last (painted m') = Some (Paint (LINE 5) 11 line (Z.of_nat (length line))) /\
    length line = (6 * (if bool_decide (keys_down = []) then 1 else Nat.min 6 (length keys_down)))%nat.
Proof.
  cbn zeta. pose proof (held_take curr) as Hh.
  generalize dependent (filter (fun kc => down kc curr = true) (seqZ 0 128)). intros kd Hh. split; [exact Hh|].
  assert (Hl : forall l, length (concat ((fun kc => put_dec3 kc ++ [47; keycode_label kc; 32]) <$> l)) = (6 * length l)%nat).
  { induction l as [|x l IH]; [done|]. cbn [fmap list_fmap concat]. rewrite length_app, IH. cbn [length app put_dec3]. lia. }
  assert (Hlen : length (held_line curr) = (6 * (if bool_decide (kd = []) then 1 else Nat.min 6 (length kd)))%nat).
  { unfold held_line. rewrite Hh. destruct kd as [|x kd']; [done|]. 
    rewrite (bool_decide_eq_false_2 (take 6 (x :: kd') = [])), (bool_decide_eq_false_2 (x :: kd' = [])) by done.
    by rewrite Hl, length_take. }
  eexists _, (held_line curr). split; [done|]. split; [|done]. cbn -[Nat.min].
  rewrite last_snoc. rewrite Nat.min_r; [done|]. rewrite Hlen. case_bool_decide; [lia|].
  pose proof (Nat.le_min_l 6 (length kd)). lia.
Qed.

(** ** Edges *)

Lemma land_bit (x b : Z) : 0 <= b -> (Z.land x (Z.shiftl 1 b) =? 0) = negb (Z.testbit x b).
Proof.
  intros Hb. rewrite Z.shiftl_1_l. destruct (Z.testbit x b) eqn:E; cbn [negb].
  - apply Z.eqb_neq. intros Hz. apply (f_equal (fun y => Z.testbit y b)) in Hz.
    by rewrite Z.land_spec, E, Z.pow2_bits_true, Z.testbit_0_l in Hz by done.
  - apply Z.eqb_eq, Z.bits_inj'. intros i Hi. rewrite Z.land_spec, Z.testbit_0_l, Z.pow2_bits_eqb by done.
    destruct (Z.eqb_spec b i) as [->|_]; [by rewrite E | apply andb_false_r].
Qed.

Lemma down_bit (i b : Z) (km : list Z) :
  0 <= i -> 0 <= b < 8 -> down (8 * i + b) km = Z.testbit (byte km (Z.to_nat i)) b.
Proof.
  intros Hi Hb. unfold down.
  assert (E1 : Z.shiftr (8 * i + b) 3 = i) by (rewrite Z.shiftr_div_pow2 by lia; change (2 ^ 3) with 8; div_lia).
  assert (E2 : Z.land (8 * i + b) 7 = b) by (change 7 with (Z.ones 3); rewrite Z.land_ones by lia; change (2 ^ 3) with 8; div_lia).
  rewrite E1, E2, u8_small, land_bit, negb_involutive by (lia || (rewrite Z.shiftl_1_l; pose proof (Z.pow_lt_mono_r 2 b 8);
    pose proof (Z.pow_pos_nonneg 2 b); change (2 ^ 8) with 256 in *; lia)). done.
Qed.

(** The effect of one key. *)
Definition edge_key (prev curr : list Z) (e : Edges) (kc : Z) : Edges :=
  if Bool.eqb (down kc curr) (down kc prev) then e
  else if down kc curr then MkEdges kc (last_release e) else MkEdges (last_press e) kc.

Lemma edge_bit_key (prev curr : list Z) (i b : Z) (e : Edges) :
  0 <= i < 16 -> 0 <= b < 8 -> edge_bit prev curr i e b = edge_key prev curr e (8 * i + b).
Proof.
  intros Hi Hb. unfold edge_bit, edge_key. cbn zeta. rewrite !land_bit, Z.lxor_spec, !down_bit by lia.
  assert (Ek : u8 (Z.lor (Z.shiftl i 3) b) = 8 * i + b).
  { rewrite lor_shiftl_add by (change (2 ^ 3) with 8; lia). change (2 ^ 3) with 8. rewrite u8_small by lia. lia. }
  rewrite Ek. destruct (Z.testbit (byte curr _) b), (Z.testbit (byte prev _) b); done.
Qed.

Lemma fold_left_ext_in {A B} (f g : A -> B -> A) (l : list B) (a : A) :
  (forall a x, x ∈ l -> f a x = g a x) -> fold_left f l a = fold_left g l a.
Proof.
  revert a. induction l as [|x l IH]; intros a Hl; [done|]. cbn.
  rewrite Hl by left. apply IH. intros a' y Hy. apply Hl. by right.
Qed.

Lemma edge_byte_keys (prev curr : list Z) (e : Edges) (i : Z) :
  0 <= i < 16 -> edge_byte prev curr e i = fold_left (fun e b => edge_key prev curr e (8 * i + b)) (seqZ 0 8) e.
Proof.
  intros Hi. unfold edge_byte. destruct (Z.eqb_spec (Z.lxor (byte curr (Z.to_nat i)) (byte prev (Z.to_nat i))) 0) as [E|E].
  - apply Z.lxor_eq in E. rewrite (fold_left_ext_in _ (fun e _ => e)); [by generalize (seqZ 0 8) as l; induction l|].
    intros a b Hb%elem_of_seqZ. unfold edge_key. by rewrite !down_bit, E, eqb_reflx by lia.
  - apply fold_left_ext_in. intros a b Hb%elem_of_seqZ. apply edge_bit_key; lia.
Qed.

Lemma fold_by_eight {A} (f : A -> Z -> A) (n : nat) (a : A) :
  fold_left f (seqZ 0 (8 * Z.of_nat n)) a =
  fold_left (fun a i => fold_left (fun a b => f a (8 * i + b)) (seqZ 0 8) a) (seqZ 0 (Z.of_nat n)) a.
Proof.
  induction n as [|n IH]; [done|].
  rewrite Nat2Z.inj_succ, <- Z.add_1_r, Z.mul_add_distr_l, !seqZ_app, !fold_left_app by lia. rewrite IH, !Z.add_0_l.
  change (seqZ (Z.of_nat n) 1) with [Z.of_nat 0 + Z.of_nat n]. cbn [fold_left]. rewrite Z.add_0_l, Z.mul_1_r.
  replace (seqZ (8 * Z.of_nat n) 8) with (Z.add (8 * Z.of_nat n) <$> seqZ 0 8)
    by (rewrite fmap_add_seqZ; f_equal; lia).
  apply fold_left_fmap.
Qed.

Lemma edges_keys (prev curr : list Z) (e : Edges) :
  edges prev curr e = fold_left (edge_key prev curr) (seqZ 0 128) e.
Proof.
  etransitivity; [|symmetry; apply (fold_by_eight (edge_key prev curr) 16 e)].
  unfold edges. change (Z.of_nat 16) with 16. apply fold_left_ext_in.
  intros a i Hi%elem_of_seqZ. apply edge_byte_keys. lia.
Qed.

Definition pressed (prev curr : list Z) (kc : Z) : Prop := down kc curr = true /\ down kc prev = false.


#[export] Instance pressed_dec prev curr kc : Decision (pressed prev curr kc).
Proof. unfold pressed. apply _. Defined.

Lemma edge_keys_last (prev curr : list Z) (l : list Z) (e : Edges) :
  fold_left (edge_key prev curr) l e =
  MkEdges (default (last_press e) (last (filter (pressed prev curr) l)))
          (default (last_release e) (last (filter (pressed curr prev) l))).
Proof.
  induction l as [|kc l IH] using rev_ind; [by destruct e|].
  rewrite fold_left_app, IH, !filter_app. cbn [fold_left]. unfold edge_key.
  destruct (down kc curr) eqn:Ec, (down kc prev) eqn:Ep; cbn [Bool.eqb];
    rewrite ?(filter_cons_True (pressed prev curr)) by (by split);
    rewrite ?(filter_cons_True (pressed curr prev)) by (by split);
    rewrite ?(filter_cons_False (pressed prev curr)) by (unfold pressed; intros []; congruence);
    rewrite ?(filter_cons_False (pressed curr prev)) by (unfold pressed; intros []; congruence);
    rewrite ?filter_nil, ?app_nil_r, ?last_snoc; done.
Qed.

(** The edges of a frame: the key that is shown as pressed is the highest one that
    is down now and was not in the frame before, and likewise for the release; where
    there is none, what was shown stays. *)
Theorem edges_highest (prev curr : list Z) (e : Edges) :
  edges prev curr e =
  MkEdges (default (last_press e) (last (filter (pressed prev curr) (seqZ 0 128))))
          (default (last_release e) (last (filter (pressed curr prev) (seqZ 0 128)))).
Proof. rewrite edges_keys. apply edge_keys_last. Qed.

(** ** The loop *)

Section Loop.

Context {D : Type} `{DeviceManager D}.

Definition sample (k : Poll D) : list Z := byte (key_map k) <$> seq 0 16.
Definition return_down (k : Poll D) : bool := down KC_RETURN (sample k).
Definition acts (ks : list (Poll D)) (d : D) : D := fold_left (fun d k => act k d) ks d.

Lemma frame_paints (curr : list Z) (e : Edges) (m : Mach D) (f : Mach D -> Res D unit) :
  exists p, bind (paint_map curr) (fun _ => bind (paint_edge (LINE 7) (last_press e))
    (fun _ => bind (paint_edge (LINE 8) (last_release e)) (fun _ => f))) m = f (m <| painted := p |>).
Proof.
  unfold bind, paint_map, paint_edge, paint.
  destruct (last_press e =? 255), (last_release e =? 255); eexists; by destruct m.
Qed.

Lemma frames_run (n : nat) (ks : list (Poll D)) : forall prev e (m : Mach D),
  (length (keys m) < n)%nat -> Forall (fun k => return_down k = false) ks ->
  forall rest, keys m = ks ++ rest ->
  exists prev' e' p n', (length rest < n')%nat /\
    frames n prev e m =
    frames n' prev' e' (((m <| keys := rest |>) <| dev := acts ks (dev m) |>) <| painted := p |>).
Proof.
  revert n. induction ks as [|k ks IH]; intros n prev e m Hn Hr rest Ek.
  { exists prev, e, (painted m), n. cbn in Ek. subst rest. split; [done|]. by destruct m. }
  destruct n as [|n]; [lia|]. inversion Hr as [|? ? Hk Hr']; subst.
  cbn [frames]. unfold bind at 1, read_keymap. rewrite Ek. cbn [app]. cbv beta iota zeta. fold (sample k).
  set (m1 := m <| keys := ks ++ rest |> <| dev := act k (dev m) |>).
  destruct (frame_paints (sample k) (edges prev (sample k) e) m1
    (if down KC_RETURN (sample k) then eject_and_halt else frames n (sample k) (edges prev (sample k) e))) as [p Ep].
  unfold return_down in Hk. rewrite Hk in Ep. rewrite Ek in Hn. cbn in Hn.
  assert (Hm1 : keys (m1 <| painted := p |>) = ks ++ rest) by reflexivity.
  assert (Hl1 : (length (keys (m1 <| painted := p |>)) < n)%nat) by (rewrite Hm1; lia).
  destruct (IH n (sample k) (edges prev (sample k) e) (m1 <| painted := p |>) Hl1 Hr' rest Hm1)
    as (prev' & e' & p' & n' & Hn' & E').
  exists prev', e', p', n'. split; [done|]. rewrite Hk. etransitivity; [exact Ep|]. rewrite E'. by destruct m.
Qed.

(** The loop goes on until a sample of the key map has RETURN down: without one the
    program waits for ever, and nothing has happened to the drives but what the
    operator did; the first one ends it with the eject of the boot drive. *)
Theorem keytest_halts (m : Mach D) (ks rest : list (Poll D))
    (Hk : keys m = ks ++ rest) (Hr : Forall (fun k => return_down k = false) ks) :
  (rest = [] -> exists p, keytest_main m = Waits (((m <| keys := [] |>) <| dev := acts ks (dev m) |>) <| painted := p |>)) /\
  (forall k rest', rest = k :: rest' -> return_down k = true ->
     exists p, keytest_main m =
       eject_and_halt (((m <| keys := rest' |>) <| dev := act k (acts ks (dev m)) |>) <| painted := p |>)).
Proof.
  unfold keytest_main. unfold bind, paint_lit, paint.
  match goal with |- context [frames _ (replicate 16 0) (MkEdges 255 255) ?m1] => remember m1 as m0 eqn:D0 end.
  assert (E0 : keys m0 = ks ++ rest) by (subst m0; exact Hk).
  assert (E1 : dev m0 = dev m) by by subst m0.
  assert (E2 : forall ks d p, ((m0 <| keys := ks |>) <| dev := d |>) <| painted := p |> =
                              ((m <| keys := ks |>) <| dev := d |>) <| painted := p |>) by (subst m0; by destruct m).
  destruct (frames_run (S (length (keys m0))) ks (replicate 16 0) (MkEdges 255 255) m0 (le_n _) Hr rest E0)
    as (prev & e & p & n & Hn & ->).
  rewrite E1, E2. destruct n as [|n]; [lia|]. split.
  - intros ->. by exists p.
  - intros k rest' -> Hd. cbn [frames]. unfold bind at 1, read_keymap. cbn [keys].
    match goal with |- context [match keys ?x with _ => _ end] => change (keys x) with (k :: rest') end.
    cbv beta iota zeta. fold (sample k).
    match goal with |- context [bind (paint_map _) _ ?x] => set (m1 := x) end.
    destruct (frame_paints (sample k) (edges prev (sample k) e) m1
      (if down KC_RETURN (sample k) then eject_and_halt else frames n (sample k) (edges prev (sample k) e))) as [p' Ep].
    unfold return_down in Hd. rewrite Hd in Ep |- *. exists p'. etransitivity; [exact Ep|]. by destruct m.
Qed.

End Loop.

(** RETURN is pressed at the second look. *)
Definition return_machine : Mach Drives :=
  MkMach (fun _ => 0) (MkDrives (fun _ => Some 1) (fun _ _ => 7)) (idle :: hit KC_RETURN) [] 0 1.

Lemma keytest_halts_witness :
  exists p, keytest_main return_machine =
    eject_and_halt (((return_machine <| keys := [idle] |>) <| dev := dev return_machine |>) <| painted := p |>).
Proof.
  exact (proj2 (keytest_halts return_machine [idle] (hit KC_RETURN) eq_refl
                  ltac:(constructor; [reflexivity|constructor]))
           (MkPoll (press KC_RETURN) id) [idle] eq_refl eq_refl).
Defined.
