(* ===== verification/CpuTests.v ===== *)
(** * The corpus of the CPU tests (gen/cpu_tests.h)

    The rows of the table, as they are in the file and in its order, as the benches of
    [CpuBench] and [CpuRun] and the runner of [StepTests] read them, and what those take for
    granted about the table ([cpu_rows_typed]). *)

From Stdlib Require Import Mergesort Orders.
From S2P Require Import Prelude Toolbox Preboot DiskCopy StepTests CpuBench.

(** A row with all its fields. *)
Record CpuRow := CRow {
  cr_name : list Z; cr_preload : list Z; cr_test : list Z; cr_ram : list Z;
  cr_ram_present : bool; cr_privileged : bool; cr_raises : bool; cr_unsafe : bool; cr_ccr_mask : Z }.

(** A row as the benches read it, and as the runner of the core reads it. *)
Definition bench_row (r : CpuRow) : BenchSpec :=
  MkBenchSpec (cr_name r) (cr_preload r) (cr_test r) (cr_ram r) (cr_ram_present r) (cr_privileged r) (cr_raises r) (cr_unsafe r).
Definition step_row (r : CpuRow) : CpuTestSpec :=
  MkSpec (cr_name r) (cr_test r) (Z.of_nat (length (cr_test r))) (cr_ccr_mask r) (cr_unsafe r).

Definition cpu_tests_01 : list CpuRow := [
  CRow (text "MOVEQ #0,D0 (zero)")
    [] [0x70; 0]
    [] false false false false 0xFF;
  CRow (text "MOVEQ #1,D0 (one)")
    [] [0x70; 0x01]
    [] false false false false 0xFF;
  CRow (text "MOVEQ #127,D0 (max_pos)")
    [] [0x70; 0x7F]
    [] false false false false 0xFF;
  CRow (text "MOVEQ #-1,D1 (neg_one)")
    [] [0x72; 0xFF]
    [] false false false false 0xFF;
  CRow (text "MOVEQ #-128,D2 (min_neg)")
    [] [0x74; 0x80]
    [] false false false false 0xFF;
  CRow (text "MOVEQ #42,D3 (answer)")
    [] [0x76; 0x2A]
    [] false false false false 0xFF;
  CRow (text "MOVEQ #90,D4 (fives_alt)")
    [] [0x78; 0x5A]
    [] false false false false 0xFF;
  CRow (text "MOVEQ #-64,D7 (neg_64_into_d7)")
    [] [0x7E; 0xC0]
    [] false false false false 0xFF;
  CRow (text "MOVE.L D0,D1 (0xDEADBEEF)")
    [0x20; 0x3C; 0xDE; 0xAD; 0xBE; 0xEF] [0x22; 0]
    [] false false false false 0xFF;
  CRow (text "MOVE.L D1,D2 (0x00000000)")
    [0x22; 0x3C; 0; 0; 0; 0] [0x24; 0x01]
    [] false false false false 0xFF;
  CRow (text "MOVE.L D2,D3 (0x80000000)")
    [0x24; 0x3C; 0x80; 0; 0; 0] [0x26; 0x02]
    [] false false false false 0xFF;
  CRow (text "MOVE.L D3,D4 (0x7FFFFFFF)")
    [0x26; 0x3C; 0x7F; 0xFF; 0xFF; 0xFF] [0x28; 0x03]
    [] false false false false 0xFF;
  CRow (text "MOVE.L D4,D0 (0x12345678)")
    [0x28; 0x3C; 0x12; 0x34; 0x56; 0x78] [0x20; 0x04]
    [] false false false false 0xFF;
  CRow (text "MOVE.L D7,D5 (0x00000001)")
    [0x2E; 0x3C; 0; 0; 0; 0x01] [0x2A; 0x07]
    [] false false false false 0xFF;
  CRow (text "MOVE.W D0,D1 (0xDEADBEEF)")
    [0x20; 0x3C; 0xDE; 0xAD; 0xBE; 0xEF; 0x22; 0x3C; 0xAA; 0xAA; 0xAA; 0xAA] [0x32; 0]
    [] false false false false 0xFF;
  CRow (text "MOVE.W D1,D2 (0xFFFF8000)")
    [0x22; 0x3C; 0xFF; 0xFF; 0x80; 0; 0x24; 0x3C; 0xAA; 0xAA; 0xAA; 0xAA] [0x34; 0x01]
    [] false false false false 0xFF;
  CRow (text "MOVE.W D3,D4 (0x00007FFF)")
    [0x26; 0x3C; 0; 0; 0x7F; 0xFF; 0x28; 0x3C; 0xAA; 0xAA; 0xAA; 0xAA] [0x38; 0x03]
    [] false false false false 0xFF;
  CRow (text "MOVE.W D5,D7 (0x00000001)")
    [0x2A; 0x3C; 0; 0; 0; 0x01; 0x2E; 0x3C; 0xAA; 0xAA; 0xAA; 0xAA] [0x3E; 0x05]
    [] false false false false 0xFF;
  CRow (text "MOVE.W D7,D0 (0x12340000)")
    [0x20; 0x3C; 0xAA; 0xAA; 0xAA; 0xAA; 0x2E; 0x3C; 0x12; 0x34; 0; 0] [0x30; 0x07]
    [] false false false false 0xFF;
  CRow (text "MOVE.B D0,D1 (0x000000FF)")
    [0x20; 0x3C; 0; 0; 0; 0xFF; 0x22; 0x3C; 0xBB; 0xBB; 0xBB; 0xBB] [0x12; 0]
    [] false false false false 0xFF;
  CRow (text "MOVE.B D2,D3 (0x00000080)")
    [0x24; 0x3C; 0; 0; 0; 0x80; 0x26; 0x3C; 0xBB; 0xBB; 0xBB; 0xBB] [0x16; 0x02]
    [] false false false false 0xFF;
  CRow (text "MOVE.B D4,D5 (0x0000007F)")
    [0x28; 0x3C; 0; 0; 0; 0x7F; 0x2A; 0x3C; 0xBB; 0xBB; 0xBB; 0xBB] [0x1A; 0x04]
    [] false false false false 0xFF;
  CRow (text "MOVE.B D7,D0 (0x00000001)")
    [0x20; 0x3C; 0xBB; 0xBB; 0xBB; 0xBB; 0x2E; 0x3C; 0; 0; 0; 0x01] [0x10; 0x07]
    [] false false false false 0xFF;
  CRow (text "MOVE.L #0x12345678,D0")
    [] [0x20; 0x3C; 0x12; 0x34; 0x56; 0x78]
    [] false false false false 0xFF;
  CRow (text "MOVE.L #0x80000000,D1")
    [] [0x22; 0x3C; 0x80; 0; 0; 0]
    [] false false false false 0xFF;
  CRow (text "MOVE.L #0x7FFFFFFF,D2")
    [] [0x24; 0x3C; 0x7F; 0xFF; 0xFF; 0xFF]
    [] false false false false 0xFF;
  CRow (text "MOVE.L #0xFFFFFFFF,D3")
    [] [0x26; 0x3C; 0xFF; 0xFF; 0xFF; 0xFF]
    [] false false false false 0xFF;
  CRow (text "MOVE.L #0x00000001,D7")
    [] [0x2E; 0x3C; 0; 0; 0; 0x01]
    [] false false false false 0xFF;
  CRow (text "MOVE.L D0,0(A6) (val=0xDEADBEEF)")
    [0x20; 0x3C; 0xDE; 0xAD; 0xBE; 0xEF] [0x2D; 0x40; 0; 0]
    [] false false false false 0xFF;
  CRow (text "MOVE.L D1,4(A6) (val=0x12345678)")
    [0x22; 0x3C; 0x12; 0x34; 0x56; 0x78] [0x2D; 0x41; 0; 0x04]
    [] false false false false 0xFF;
  CRow (text "MOVE.L D7,8(A6) (val=0xFFFFFFFF)")
    [0x2E; 0x3C; 0xFF; 0xFF; 0xFF; 0xFF] [0x2D; 0x47; 0; 0x08]
    [] false false false false 0xFF;
  CRow (text "MOVE.L 0(A6),D0")
    [] [0x20; 0x2E; 0; 0]
    [0xCA; 0xFE; 0xBA; 0xBE; 0x12; 0x34; 0x56; 0x78; 0; 0; 0; 0; 0; 0; 0; 0;
     0; 0; 0; 0; 0; 0; 0; 0; 0; 0; 0; 0; 0; 0; 0; 0;
     0; 0; 0; 0; 0; 0; 0; 0; 0; 0; 0; 0; 0; 0; 0; 0;
     0; 0; 0; 0; 0; 0; 0; 0; 0; 0; 0; 0; 0; 0; 0; 0] true false false false 0xFF;
  CRow (text "MOVE.L 4(A6),D3")
    [] [0x26; 0x2E; 0; 0x04]
    [0xCA; 0xFE; 0xBA; 0xBE; 0x12; 0x34; 0x56; 0x78; 0; 0; 0; 0; 0; 0; 0; 0;
     0; 0; 0; 0; 0; 0; 0; 0; 0; 0; 0; 0; 0; 0; 0; 0;
     0; 0; 0; 0; 0; 0; 0; 0; 0; 0; 0; 0; 0; 0; 0; 0;
     0; 0; 0; 0; 0; 0; 0; 0; 0; 0; 0; 0; 0; 0; 0; 0] true false false false 0xFF;
  CRow (text "MOVE.L 0(A6),D7")
    [] [0x2E; 0x2E; 0; 0]
    [0xCA; 0xFE; 0xBA; 0xBE; 0x12; 0x34; 0x56; 0x78; 0; 0; 0; 0; 0; 0; 0; 0;
     0; 0; 0; 0; 0; 0; 0; 0; 0; 0; 0; 0; 0; 0; 0; 0;
     0; 0; 0; 0; 0; 0; 0; 0; 0; 0; 0; 0; 0; 0; 0; 0;
     0; 0; 0; 0; 0; 0; 0; 0; 0; 0; 0; 0; 0; 0; 0; 0] true false false false 0xFF;
  CRow (text "MOVE.L (A1),D0  A1=scratch+0")
    [0x43; 0xEE; 0; 0] [0x20; 0x11]
    [0xDE; 0xAD; 0xBE; 0xEF; 0; 0; 0; 0; 0; 0; 0; 0; 0; 0; 0; 0;
     0; 0; 0; 0; 0; 0; 0; 0; 0; 0; 0; 0; 0; 0; 0; 0;
     0; 0; 0; 0; 0; 0; 0; 0; 0; 0; 0; 0; 0; 0; 0; 0;
     0; 0; 0; 0; 0; 0; 0; 0; 0; 0; 0; 0; 0; 0; 0; 0] true false false false 0xFF;
  CRow (text "MOVE.L (A2),D3  A2=scratch+0")
    [0x45; 0xEE; 0; 0] [0x26; 0x12]
    [0xDE; 0xAD; 0xBE; 0xEF; 0; 0; 0; 0; 0; 0; 0; 0; 0; 0; 0; 0;
     0; 0; 0; 0; 0; 0; 0; 0; 0; 0; 0; 0; 0; 0; 0; 0;
     0; 0; 0; 0; 0; 0; 0; 0; 0; 0; 0; 0; 0; 0; 0; 0;
     0; 0; 0; 0; 0; 0; 0; 0; 0; 0; 0; 0; 0; 0; 0; 0] true false false false 0xFF;
  CRow (text "MOVE.L (A1)+,D0  A1=scratch+0")
    [0x43; 0xEE; 0; 0] [0x20; 0x19]
    [0x11; 0x22; 0x33; 0x44; 0x55; 0x66; 0x77; 0x88; 0; 0; 0; 0; 0; 0; 0; 0;
     0; 0; 0; 0; 0; 0; 0; 0; 0; 0; 0; 0; 0; 0; 0; 0;
     0; 0; 0; 0; 0; 0; 0; 0; 0; 0; 0; 0; 0; 0; 0; 0;
     0; 0; 0; 0; 0; 0; 0; 0; 0; 0; 0; 0; 0; 0; 0; 0] true false false false 0xFF].

Definition cpu_tests_02 : list CpuRow := [
  CRow (text "MOVE.L -(A2),D3  A2=scratch+8")
    [0x45; 0xEE; 0; 0x08] [0x26; 0x22]
    [0x11; 0x22; 0x33; 0x44; 0x55; 0x66; 0x77; 0x88; 0; 0; 0; 0; 0; 0; 0; 0;
     0; 0; 0; 0; 0; 0; 0; 0; 0; 0; 0; 0; 0; 0; 0; 0;
     0; 0; 0; 0; 0; 0; 0; 0; 0; 0; 0; 0; 0; 0; 0; 0;
     0; 0; 0; 0; 0; 0; 0; 0; 0; 0; 0; 0; 0; 0; 0; 0] true false false false 0xFF;
  CRow (text "ADD.L D1,D0 (#1 0xDEADBEEF,0x12345678)")
    [0x20; 0x3C; 0xDE; 0xAD; 0xBE; 0xEF; 0x22; 0x3C; 0x12; 0x34; 0x56; 0x78] [0xD0; 0x81]
    [] false false false false 0xFF;
  CRow (text "ADD.L D1,D0 (#2 0x80000000,0x80000000)")
    [0x20; 0x3C; 0x80; 0; 0; 0; 0x22; 0x3C; 0x80; 0; 0; 0] [0xD0; 0x81]
    [] false false false false 0xFF;
  CRow (text "ADD.L D1,D0 (#3 0x7FFFFFFF,0x00000001)")
    [0x20; 0x3C; 0x7F; 0xFF; 0xFF; 0xFF; 0x22; 0x3C; 0; 0; 0; 0x01] [0xD0; 0x81]
    [] false false false false 0xFF;
  CRow (text "ADD.W D1,D0 (#1 0xDEADBEEF,0x12345678)")
    [0x20; 0x3C; 0xDE; 0xAD; 0xBE; 0xEF; 0x22; 0x3C; 0x12; 0x34; 0x56; 0x78] [0xD0; 0x41]
    [] false false false false 0xFF;
  CRow (text "ADD.W D1,D0 (#2 0x80000000,0x80000000)")
    [0x20; 0x3C; 0x80; 0; 0; 0; 0x22; 0x3C; 0x80; 0; 0; 0] [0xD0; 0x41]
    [] false false false false 0xFF;
  CRow (text "ADD.W D1,D0 (#3 0x7FFFFFFF,0x00000001)")
    [0x20; 0x3C; 0x7F; 0xFF; 0xFF; 0xFF; 0x22; 0x3C; 0; 0; 0; 0x01] [0xD0; 0x41]
    [] false false false false 0xFF;
  CRow (text "ADD.B D1,D0 (#1 0xDEADBEEF,0x12345678)")
    [0x20; 0x3C; 0xDE; 0xAD; 0xBE; 0xEF; 0x22; 0x3C; 0x12; 0x34; 0x56; 0x78] [0xD0; 0x01]
    [] false false false false 0xFF;
  CRow (text "ADD.B D1,D0 (#2 0x80000000,0x80000000)")
    [0x20; 0x3C; 0x80; 0; 0; 0; 0x22; 0x3C; 0x80; 0; 0; 0] [0xD0; 0x01]
    [] false false false false 0xFF;
  CRow (text "ADD.B D1,D0 (#3 0x7FFFFFFF,0x00000001)")
    [0x20; 0x3C; 0x7F; 0xFF; 0xFF; 0xFF; 0x22; 0x3C; 0; 0; 0; 0x01] [0xD0; 0x01]
    [] false false false false 0xFF;
  CRow (text "SUB.L D1,D0 (#1 0xDEADBEEF,0x12345678)")
    [0x20; 0x3C; 0xDE; 0xAD; 0xBE; 0xEF; 0x22; 0x3C; 0x12; 0x34; 0x56; 0x78] [0x90; 0x81]
    [] false false false false 0xFF;
  CRow (text "SUB.L D1,D0 (#2 0x80000000,0x80000000)")
    [0x20; 0x3C; 0x80; 0; 0; 0; 0x22; 0x3C; 0x80; 0; 0; 0] [0x90; 0x81]
    [] false false false false 0xFF;
  CRow (text "SUB.L D1,D0 (#3 0x7FFFFFFF,0x00000001)")
    [0x20; 0x3C; 0x7F; 0xFF; 0xFF; 0xFF; 0x22; 0x3C; 0; 0; 0; 0x01] [0x90; 0x81]
    [] false false false false 0xFF;
  CRow (text "SUB.W D1,D0 (#1 0xDEADBEEF,0x12345678)")
    [0x20; 0x3C; 0xDE; 0xAD; 0xBE; 0xEF; 0x22; 0x3C; 0x12; 0x34; 0x56; 0x78] [0x90; 0x41]
    [] false false false false 0xFF;
  CRow (text "SUB.W D1,D0 (#2 0x80000000,0x80000000)")
    [0x20; 0x3C; 0x80; 0; 0; 0; 0x22; 0x3C; 0x80; 0; 0; 0] [0x90; 0x41]
    [] false false false false 0xFF;
  CRow (text "SUB.W D1,D0 (#3 0x7FFFFFFF,0x00000001)")
    [0x20; 0x3C; 0x7F; 0xFF; 0xFF; 0xFF; 0x22; 0x3C; 0; 0; 0; 0x01] [0x90; 0x41]
    [] false false false false 0xFF;
  CRow (text "SUB.B D1,D0 (#1 0xDEADBEEF,0x12345678)")
    [0x20; 0x3C; 0xDE; 0xAD; 0xBE; 0xEF; 0x22; 0x3C; 0x12; 0x34; 0x56; 0x78] [0x90; 0x01]
    [] false false false false 0xFF;
  CRow (text "SUB.B D1,D0 (#2 0x80000000,0x80000000)")
    [0x20; 0x3C; 0x80; 0; 0; 0; 0x22; 0x3C; 0x80; 0; 0; 0] [0x90; 0x01]
    [] false false false false 0xFF;
  CRow (text "SUB.B D1,D0 (#3 0x7FFFFFFF,0x00000001)")
    [0x20; 0x3C; 0x7F; 0xFF; 0xFF; 0xFF; 0x22; 0x3C; 0; 0; 0; 0x01] [0x90; 0x01]
    [] false false false false 0xFF;
  CRow (text "AND.L D1,D0 (#1 0xDEADBEEF,0x12345678)")
    [0x20; 0x3C; 0xDE; 0xAD; 0xBE; 0xEF; 0x22; 0x3C; 0x12; 0x34; 0x56; 0x78] [0xC0; 0x81]
    [] false false false false 0xFF;
  CRow (text "AND.L D1,D0 (#2 0x80000000,0x80000000)")
    [0x20; 0x3C; 0x80; 0; 0; 0; 0x22; 0x3C; 0x80; 0; 0; 0] [0xC0; 0x81]
    [] false false false false 0xFF;
  CRow (text "AND.L D1,D0 (#3 0x7FFFFFFF,0x00000001)")
    [0x20; 0x3C; 0x7F; 0xFF; 0xFF; 0xFF; 0x22; 0x3C; 0; 0; 0; 0x01] [0xC0; 0x81]
    [] false false false false 0xFF;
  CRow (text "AND.W D1,D0 (#1 0xDEADBEEF,0x12345678)")
    [0x20; 0x3C; 0xDE; 0xAD; 0xBE; 0xEF; 0x22; 0x3C; 0x12; 0x34; 0x56; 0x78] [0xC0; 0x41]
    [] false false false false 0xFF;
  CRow (text "AND.W D1,D0 (#2 0x80000000,0x80000000)")
    [0x20; 0x3C; 0x80; 0; 0; 0; 0x22; 0x3C; 0x80; 0; 0; 0] [0xC0; 0x41]
    [] false false false false 0xFF;
  CRow (text "AND.W D1,D0 (#3 0x7FFFFFFF,0x00000001)")
    [0x20; 0x3C; 0x7F; 0xFF; 0xFF; 0xFF; 0x22; 0x3C; 0; 0; 0; 0x01] [0xC0; 0x41]
    [] false false false false 0xFF;
  CRow (text "AND.B D1,D0 (#1 0xDEADBEEF,0x12345678)")
    [0x20; 0x3C; 0xDE; 0xAD; 0xBE; 0xEF; 0x22; 0x3C; 0x12; 0x34; 0x56; 0x78] [0xC0; 0x01]
    [] false false false false 0xFF;
  CRow (text "AND.B D1,D0 (#2 0x80000000,0x80000000)")
    [0x20; 0x3C; 0x80; 0; 0; 0; 0x22; 0x3C; 0x80; 0; 0; 0] [0xC0; 0x01]
    [] false false false false 0xFF;
  CRow (text "AND.B D1,D0 (#3 0x7FFFFFFF,0x00000001)")
    [0x20; 0x3C; 0x7F; 0xFF; 0xFF; 0xFF; 0x22; 0x3C; 0; 0; 0; 0x01] [0xC0; 0x01]
    [] false false false false 0xFF;
  CRow (text "OR.L D1,D0 (#1 0xDEADBEEF,0x12345678)")
    [0x20; 0x3C; 0xDE; 0xAD; 0xBE; 0xEF; 0x22; 0x3C; 0x12; 0x34; 0x56; 0x78] [0x80; 0x81]
    [] false false false false 0xFF;
  CRow (text "OR.L D1,D0 (#2 0x80000000,0x80000000)")
    [0x20; 0x3C; 0x80; 0; 0; 0; 0x22; 0x3C; 0x80; 0; 0; 0] [0x80; 0x81]
    [] false false false false 0xFF;
  CRow (text "OR.L D1,D0 (#3 0x7FFFFFFF,0x00000001)")
    [0x20; 0x3C; 0x7F; 0xFF; 0xFF; 0xFF; 0x22; 0x3C; 0; 0; 0; 0x01] [0x80; 0x81]
    [] false false false false 0xFF;
  CRow (text "OR.W D1,D0 (#1 0xDEADBEEF,0x12345678)")
    [0x20; 0x3C; 0xDE; 0xAD; 0xBE; 0xEF; 0x22; 0x3C; 0x12; 0x34; 0x56; 0x78] [0x80; 0x41]
    [] false false false false 0xFF;
  CRow (text "OR.W D1,D0 (#2 0x80000000,0x80000000)")
    [0x20; 0x3C; 0x80; 0; 0; 0; 0x22; 0x3C; 0x80; 0; 0; 0] [0x80; 0x41]
    [] false false false false 0xFF;
  CRow (text "OR.W D1,D0 (#3 0x7FFFFFFF,0x00000001)")
    [0x20; 0x3C; 0x7F; 0xFF; 0xFF; 0xFF; 0x22; 0x3C; 0; 0; 0; 0x01] [0x80; 0x41]
    [] false false false false 0xFF;
  CRow (text "OR.B D1,D0 (#1 0xDEADBEEF,0x12345678)")
    [0x20; 0x3C; 0xDE; 0xAD; 0xBE; 0xEF; 0x22; 0x3C; 0x12; 0x34; 0x56; 0x78] [0x80; 0x01]
    [] false false false false 0xFF;
  CRow (text "OR.B D1,D0 (#2 0x80000000,0x80000000)")
    [0x20; 0x3C; 0x80; 0; 0; 0; 0x22; 0x3C; 0x80; 0; 0; 0] [0x80; 0x01]
    [] false false false false 0xFF;
  CRow (text "OR.B D1,D0 (#3 0x7FFFFFFF,0x00000001)")
    [0x20; 0x3C; 0x7F; 0xFF; 0xFF; 0xFF; 0x22; 0x3C; 0; 0; 0; 0x01] [0x80; 0x01]
    [] false false false false 0xFF].

Definition cpu_tests_03 : list CpuRow := [
  CRow (text "CMP.L D1,D0 (#1 0xDEADBEEF,0x12345678)")
    [0x20; 0x3C; 0xDE; 0xAD; 0xBE; 0xEF; 0x22; 0x3C; 0x12; 0x34; 0x56; 0x78] [0xB0; 0x81]
    [] false false false false 0xFF;
  CRow (text "CMP.L D1,D0 (#2 0x80000000,0x80000000)")
    [0x20; 0x3C; 0x80; 0; 0; 0; 0x22; 0x3C; 0x80; 0; 0; 0] [0xB0; 0x81]
    [] false false false false 0xFF;
  CRow (text "CMP.L D1,D0 (#3 0x7FFFFFFF,0x00000001)")
    [0x20; 0x3C; 0x7F; 0xFF; 0xFF; 0xFF; 0x22; 0x3C; 0; 0; 0; 0x01] [0xB0; 0x81]
    [] false false false false 0xFF;
  CRow (text "CMP.W D1,D0 (#1 0xDEADBEEF,0x12345678)")
    [0x20; 0x3C; 0xDE; 0xAD; 0xBE; 0xEF; 0x22; 0x3C; 0x12; 0x34; 0x56; 0x78] [0xB0; 0x41]
    [] false false false false 0xFF;
  CRow (text "CMP.W D1,D0 (#2 0x80000000,0x80000000)")
    [0x20; 0x3C; 0x80; 0; 0; 0; 0x22; 0x3C; 0x80; 0; 0; 0] [0xB0; 0x41]
    [] false false false false 0xFF;
  CRow (text "CMP.W D1,D0 (#3 0x7FFFFFFF,0x00000001)")
    [0x20; 0x3C; 0x7F; 0xFF; 0xFF; 0xFF; 0x22; 0x3C; 0; 0; 0; 0x01] [0xB0; 0x41]
    [] false false false false 0xFF;
  CRow (text "CMP.B D1,D0 (#1 0xDEADBEEF,0x12345678)")
    [0x20; 0x3C; 0xDE; 0xAD; 0xBE; 0xEF; 0x22; 0x3C; 0x12; 0x34; 0x56; 0x78] [0xB0; 0x01]
    [] false false false false 0xFF;
  CRow (text "CMP.B D1,D0 (#2 0x80000000,0x80000000)")
    [0x20; 0x3C; 0x80; 0; 0; 0; 0x22; 0x3C; 0x80; 0; 0; 0] [0xB0; 0x01]
    [] false false false false 0xFF;
  CRow (text "CMP.B D1,D0 (#3 0x7FFFFFFF,0x00000001)")
    [0x20; 0x3C; 0x7F; 0xFF; 0xFF; 0xFF; 0x22; 0x3C; 0; 0; 0; 0x01] [0xB0; 0x01]
    [] false false false false 0xFF;
  CRow (text "EOR.L D1,D0 (#1 0xDEADBEEF^0x12345678)")
    [0x20; 0x3C; 0xDE; 0xAD; 0xBE; 0xEF; 0x22; 0x3C; 0x12; 0x34; 0x56; 0x78] [0xB3; 0x80]
    [] false false false false 0xFF;
  CRow (text "EOR.L D1,D0 (#2 0x80000000^0x80000000)")
    [0x20; 0x3C; 0x80; 0; 0; 0; 0x22; 0x3C; 0x80; 0; 0; 0] [0xB3; 0x80]
    [] false false false false 0xFF;
  CRow (text "EOR.L D1,D0 (#3 0x7FFFFFFF^0x00000001)")
    [0x20; 0x3C; 0x7F; 0xFF; 0xFF; 0xFF; 0x22; 0x3C; 0; 0; 0; 0x01] [0xB3; 0x80]
    [] false false false false 0xFF;
  CRow (text "ADDI.L #0x0000FFFF,D0")
    [0x20; 0x3C; 0x12; 0x34; 0x56; 0x78] [0x06; 0x80; 0; 0; 0xFF; 0xFF]
    [] false false false false 0xFF;
  CRow (text "ADDI.L #0x80000000,D1")
    [0x22; 0x3C; 0x80; 0; 0; 0] [0x06; 0x81; 0x80; 0; 0; 0]
    [] false false false false 0xFF;
  CRow (text "ADDI.L #0x00000001,D2")
    [0x24; 0x3C; 0xFF; 0xFF; 0xFF; 0xFF] [0x06; 0x82; 0; 0; 0; 0x01]
    [] false false false false 0xFF;
  CRow (text "SUBI.L #0x0000FFFF,D0")
    [0x20; 0x3C; 0x12; 0x34; 0x56; 0x78] [0x04; 0x80; 0; 0; 0xFF; 0xFF]
    [] false false false false 0xFF;
  CRow (text "SUBI.L #0x80000000,D1")
    [0x22; 0x3C; 0x80; 0; 0; 0] [0x04; 0x81; 0x80; 0; 0; 0]
    [] false false false false 0xFF;
  CRow (text "SUBI.L #0x00000001,D2")
    [0x24; 0x3C; 0xFF; 0xFF; 0xFF; 0xFF] [0x04; 0x82; 0; 0; 0; 0x01]
    [] false false false false 0xFF;
  CRow (text "ANDI.L #0x0000FFFF,D0")
    [0x20; 0x3C; 0x12; 0x34; 0x56; 0x78] [0x02; 0x80; 0; 0; 0xFF; 0xFF]
    [] false false false false 0xFF;
  CRow (text "ANDI.L #0x80000000,D1")
    [0x22; 0x3C; 0x80; 0; 0; 0] [0x02; 0x81; 0x80; 0; 0; 0]
    [] false false false false 0xFF;
  CRow (text "ANDI.L #0x00000001,D2")
    [0x24; 0x3C; 0xFF; 0xFF; 0xFF; 0xFF] [0x02; 0x82; 0; 0; 0; 0x01]
    [] false false false false 0xFF;
  CRow (text "ORI.L #0x0000FFFF,D0")
    [0x20; 0x3C; 0x12; 0x34; 0x56; 0x78] [0; 0x80; 0; 0; 0xFF; 0xFF]
    [] false false false false 0xFF;
  CRow (text "ORI.L #0x80000000,D1")
    [0x22; 0x3C; 0x80; 0; 0; 0] [0; 0x81; 0x80; 0; 0; 0]
    [] false false false false 0xFF;
  CRow (text "ORI.L #0x00000001,D2")
    [0x24; 0x3C; 0xFF; 0xFF; 0xFF; 0xFF] [0; 0x82; 0; 0; 0; 0x01]
    [] false false false false 0xFF;
  CRow (text "EORI.L #0x0000FFFF,D0")
    [0x20; 0x3C; 0x12; 0x34; 0x56; 0x78] [0x0A; 0x80; 0; 0; 0xFF; 0xFF]
    [] false false false false 0xFF;
  CRow (text "EORI.L #0x80000000,D1")
    [0x22; 0x3C; 0x80; 0; 0; 0] [0x0A; 0x81; 0x80; 0; 0; 0]
    [] false false false false 0xFF;
  CRow (text "EORI.L #0x00000001,D2")
    [0x24; 0x3C; 0xFF; 0xFF; 0xFF; 0xFF] [0x0A; 0x82; 0; 0; 0; 0x01]
    [] false false false false 0xFF;
  CRow (text "CMPI.L #0x0000FFFF,D0")
    [0x20; 0x3C; 0x12; 0x34; 0x56; 0x78] [0x0C; 0x80; 0; 0; 0xFF; 0xFF]
    [] false false false false 0xFF;
  CRow (text "CMPI.L #0x80000000,D1")
    [0x22; 0x3C; 0x80; 0; 0; 0] [0x0C; 0x81; 0x80; 0; 0; 0]
    [] false false false false 0xFF;
  CRow (text "CMPI.L #0x00000001,D2")
    [0x24; 0x3C; 0xFF; 0xFF; 0xFF; 0xFF] [0x0C; 0x82; 0; 0; 0; 0x01]
    [] false false false false 0xFF;
  CRow (text "MULU.W D1,D0 (#1 Dn=0x00000010 Dm=0x00000004)")
    [0x20; 0x3C; 0; 0; 0; 0x10; 0x22; 0x3C; 0; 0; 0; 0x04] [0xC0; 0xC1]
    [] false false false false 0xFF;
  CRow (text "MULU.W D1,D0 (#2 Dn=0x0000FFFF Dm=0x0000FFFF)")
    [0x20; 0x3C; 0; 0; 0xFF; 0xFF; 0x22; 0x3C; 0; 0; 0xFF; 0xFF] [0xC0; 0xC1]
    [] false false false false 0xFF;
  CRow (text "MULU.W D1,D0 (#3 Dn=0x00008000 Dm=0x00000002)")
    [0x20; 0x3C; 0; 0; 0x80; 0; 0x22; 0x3C; 0; 0; 0; 0x02] [0xC0; 0xC1]
    [] false false false false 0xFF;
  CRow (text "MULS.W D1,D0 (#1 Dn=0x00000010 Dm=0x00000004)")
    [0x20; 0x3C; 0; 0; 0; 0x10; 0x22; 0x3C; 0; 0; 0; 0x04] [0xC1; 0xC1]
    [] false false false false 0xFF;
  CRow (text "MULS.W D1,D0 (#2 Dn=0x0000FFFF Dm=0x0000FFFF)")
    [0x20; 0x3C; 0; 0; 0xFF; 0xFF; 0x22; 0x3C; 0; 0; 0xFF; 0xFF] [0xC1; 0xC1]
    [] false false false false 0xFF;
  CRow (text "MULS.W D1,D0 (#3 Dn=0x00008000 Dm=0x00000002)")
    [0x20; 0x3C; 0; 0; 0x80; 0; 0x22; 0x3C; 0; 0; 0; 0x02] [0xC1; 0xC1]
    [] false false false false 0xFF;
  CRow (text "DIVU.W D1,D0 (#1 Dn=0x00000010 Dm=0x00000004)")
    [0x20; 0x3C; 0; 0; 0; 0x10; 0x22; 0x3C; 0; 0; 0; 0x04] [0x80; 0xC1]
    [] false false false false 0xFF].

Definition cpu_tests_04 : list CpuRow := [
  CRow (text "DIVU.W D1,D0 (#2 Dn=0x0000FFFF Dm=0x0000FFFF)")
    [0x20; 0x3C; 0; 0; 0xFF; 0xFF; 0x22; 0x3C; 0; 0; 0xFF; 0xFF] [0x80; 0xC1]
    [] false false false false 0xFF;
  CRow (text "DIVU.W D1,D0 (#3 Dn=0x00008000 Dm=0x00000002)")
    [0x20; 0x3C; 0; 0; 0x80; 0; 0x22; 0x3C; 0; 0; 0; 0x02] [0x80; 0xC1]
    [] false false false false 0xFF;
  CRow (text "DIVS.W D1,D0 (#1 Dn=0x00000010 Dm=0x00000004)")
    [0x20; 0x3C; 0; 0; 0; 0x10; 0x22; 0x3C; 0; 0; 0; 0x04] [0x81; 0xC1]
    [] false false false false 0xFF;
  CRow (text "DIVS.W D1,D0 (#2 Dn=0x0000FFFF Dm=0x0000FFFF)")
    [0x20; 0x3C; 0; 0; 0xFF; 0xFF; 0x22; 0x3C; 0; 0; 0xFF; 0xFF] [0x81; 0xC1]
    [] false false false false 0xF3;
  CRow (text "DIVS.W D1,D0 (#3 Dn=0x00008000 Dm=0x00000002)")
    [0x20; 0x3C; 0; 0; 0x80; 0; 0x22; 0x3C; 0; 0; 0; 0x02] [0x81; 0xC1]
    [] false false false false 0xFF;
  CRow (text "NEG.L D0 (0x12345678)")
    [0x20; 0x3C; 0x12; 0x34; 0x56; 0x78] [0x44; 0x80]
    [] false false false false 0xFF;
  CRow (text "NEG.W D0 (0x12345678)")
    [0x20; 0x3C; 0x12; 0x34; 0x56; 0x78] [0x44; 0x40]
    [] false false false false 0xFF;
  CRow (text "NEG.B D0 (0x12345678)")
    [0x20; 0x3C; 0x12; 0x34; 0x56; 0x78] [0x44; 0]
    [] false false false false 0xFF;
  CRow (text "NOT.L D0 (0x12345678)")
    [0x20; 0x3C; 0x12; 0x34; 0x56; 0x78] [0x46; 0x80]
    [] false false false false 0xFF;
  CRow (text "NOT.W D0 (0x12345678)")
    [0x20; 0x3C; 0x12; 0x34; 0x56; 0x78] [0x46; 0x40]
    [] false false false false 0xFF;
  CRow (text "NOT.B D0 (0x12345678)")
    [0x20; 0x3C; 0x12; 0x34; 0x56; 0x78] [0x46; 0]
    [] false false false false 0xFF;
  CRow (text "CLR.L D0 (0x12345678)")
    [0x20; 0x3C; 0x12; 0x34; 0x56; 0x78] [0x42; 0x80]
    [] false false false false 0xFF;
  CRow (text "CLR.W D0 (0x12345678)")
    [0x20; 0x3C; 0x12; 0x34; 0x56; 0x78] [0x42; 0x40]
    [] false false false false 0xFF;
  CRow (text "CLR.B D0 (0x12345678)")
    [0x20; 0x3C; 0x12; 0x34; 0x56; 0x78] [0x42; 0]
    [] false false false false 0xFF;
  CRow (text "SWAP D0 (0x12345678)")
    [0x20; 0x3C; 0x12; 0x34; 0x56; 0x78] [0x48; 0x40]
    [] false false false false 0xFF;
  CRow (text "SWAP D3 (0xDEADBEEF)")
    [0x26; 0x3C; 0xDE; 0xAD; 0xBE; 0xEF] [0x48; 0x43]
    [] false false false false 0xFF;
  CRow (text "EXT.W D0 (0x000000FF)")
    [0x20; 0x3C; 0; 0; 0; 0xFF] [0x48; 0x80]
    [] false false false false 0xFF;
  CRow (text "EXT.L D0 (0x0000FFFF)")
    [0x20; 0x3C; 0; 0; 0xFF; 0xFF] [0x48; 0xC0]
    [] false false false false 0xFF;
  CRow (text "EXTB.L D0 (0x00000080)")
    [0x20; 0x3C; 0; 0; 0; 0x80] [0x49; 0xC0]
    [] false false false false 0xFF;
  CRow (text "LEA (A6),A0")
    [] [0x41; 0xD6]
    [] false false false false 0xFF;
  CRow (text "LEA (A6),A1")
    [] [0x43; 0xD6]
    [] false false false false 0xFF;
  CRow (text "LEA (A6),A5")
    [] [0x4B; 0xD6]
    [] false false false false 0xFF;
  CRow (text "LEA 16(A6),A1")
    [] [0x43; 0xEE; 0; 0x10]
    [] false false false false 0xFF;
  CRow (text "BTST.L D1,D0 (bit=3 set in 0x12345678)")
    [0x20; 0x3C; 0x12; 0x34; 0x56; 0x78; 0x22; 0x3C; 0; 0; 0; 0x03] [0x03; 0]
    [] false false false false 0xFF;
  CRow (text "BTST.L D1,D0 (bit=2 clr in 0x12345678)")
    [0x20; 0x3C; 0x12; 0x34; 0x56; 0x78; 0x22; 0x3C; 0; 0; 0; 0x02] [0x03; 0]
    [] false false false false 0xFF;
  CRow (text "BCHG.L D1,D0 (bit=3 set in 0x12345678)")
    [0x20; 0x3C; 0x12; 0x34; 0x56; 0x78; 0x22; 0x3C; 0; 0; 0; 0x03] [0x03; 0x40]
    [] false false false false 0xFF;
  CRow (text "BCHG.L D1,D0 (bit=2 clr in 0x12345678)")
    [0x20; 0x3C; 0x12; 0x34; 0x56; 0x78; 0x22; 0x3C; 0; 0; 0; 0x02] [0x03; 0x40]
    [] false false false false 0xFF;
  CRow (text "BCLR.L D1,D0 (bit=3 set in 0x12345678)")
    [0x20; 0x3C; 0x12; 0x34; 0x56; 0x78; 0x22; 0x3C; 0; 0; 0; 0x03] [0x03; 0x80]
    [] false false false false 0xFF;
  CRow (text "BCLR.L D1,D0 (bit=2 clr in 0x12345678)")
    [0x20; 0x3C; 0x12; 0x34; 0x56; 0x78; 0x22; 0x3C; 0; 0; 0; 0x02] [0x03; 0x80]
    [] false false false false 0xFF;
  CRow (text "BSET.L D1,D0 (bit=3 set in 0x12345678)")
    [0x20; 0x3C; 0x12; 0x34; 0x56; 0x78; 0x22; 0x3C; 0; 0; 0; 0x03] [0x03; 0xC0]
    [] false false false false 0xFF;
  CRow (text "BSET.L D1,D0 (bit=2 clr in 0x12345678)")
    [0x20; 0x3C; 0x12; 0x34; 0x56; 0x78; 0x22; 0x3C; 0; 0; 0; 0x02] [0x03; 0xC0]
    [] false false false false 0xFF;
  CRow (text "BTST #5,D0  (D0=0x20)")
    [0x20; 0x3C; 0; 0; 0; 0x20] [0x08; 0; 0; 0x05]
    [] false false false false 0xFF;
  CRow (text "BSET #31,D0  (D0=0)")
    [0x20; 0x3C; 0; 0; 0; 0] [0x08; 0xC0; 0; 0x1F]
    [] false false false false 0xFF;
  CRow (text "ASL.L #1,D0 (0x80000001)")
    [0x20; 0x3C; 0x80; 0; 0; 0x01] [0xE3; 0x80]
    [] false false false false 0xFF;
  CRow (text "ASL.L #4,D0 (0x12345678)")
    [0x20; 0x3C; 0x12; 0x34; 0x56; 0x78] [0xE9; 0x80]
    [] false false false false 0xFF;
  CRow (text "ASL.L #7,D0 (0xDEADBEEF)")
    [0x20; 0x3C; 0xDE; 0xAD; 0xBE; 0xEF] [0xEF; 0x80]
    [] false false false false 0xFF;
  CRow (text "ASR.L #1,D0 (0x80000001)")
    [0x20; 0x3C; 0x80; 0; 0; 0x01] [0xE2; 0x80]
    [] false false false false 0xFF].

Definition cpu_tests_05 : list CpuRow := [
  CRow (text "ASR.L #4,D0 (0x12345678)")
    [0x20; 0x3C; 0x12; 0x34; 0x56; 0x78] [0xE8; 0x80]
    [] false false false false 0xFF;
  CRow (text "ASR.L #7,D0 (0xDEADBEEF)")
    [0x20; 0x3C; 0xDE; 0xAD; 0xBE; 0xEF] [0xEE; 0x80]
    [] false false false false 0xFF;
  CRow (text "LSL.L #1,D0 (0x80000001)")
    [0x20; 0x3C; 0x80; 0; 0; 0x01] [0xE3; 0x88]
    [] false false false false 0xFF;
  CRow (text "LSL.L #4,D0 (0x12345678)")
    [0x20; 0x3C; 0x12; 0x34; 0x56; 0x78] [0xE9; 0x88]
    [] false false false false 0xFF;
  CRow (text "LSL.L #7,D0 (0xDEADBEEF)")
    [0x20; 0x3C; 0xDE; 0xAD; 0xBE; 0xEF] [0xEF; 0x88]
    [] false false false false 0xFF;
  CRow (text "LSR.L #1,D0 (0x80000001)")
    [0x20; 0x3C; 0x80; 0; 0; 0x01] [0xE2; 0x88]
    [] false false false false 0xFF;
  CRow (text "LSR.L #4,D0 (0x12345678)")
    [0x20; 0x3C; 0x12; 0x34; 0x56; 0x78] [0xE8; 0x88]
    [] false false false false 0xFF;
  CRow (text "LSR.L #7,D0 (0xDEADBEEF)")
    [0x20; 0x3C; 0xDE; 0xAD; 0xBE; 0xEF] [0xEE; 0x88]
    [] false false false false 0xFF;
  CRow (text "ROXL.L #1,D0 (0x80000001)")
    [0x20; 0x3C; 0x80; 0; 0; 0x01] [0xE3; 0x90]
    [] false false false false 0xFF;
  CRow (text "ROXL.L #4,D0 (0x12345678)")
    [0x20; 0x3C; 0x12; 0x34; 0x56; 0x78] [0xE9; 0x90]
    [] false false false false 0xFF;
  CRow (text "ROXL.L #7,D0 (0xDEADBEEF)")
    [0x20; 0x3C; 0xDE; 0xAD; 0xBE; 0xEF] [0xEF; 0x90]
    [] false false false false 0xFF;
  CRow (text "ROXR.L #1,D0 (0x80000001)")
    [0x20; 0x3C; 0x80; 0; 0; 0x01] [0xE2; 0x90]
    [] false false false false 0xFF;
  CRow (text "ROXR.L #4,D0 (0x12345678)")
    [0x20; 0x3C; 0x12; 0x34; 0x56; 0x78] [0xE8; 0x90]
    [] false false false false 0xFF;
  CRow (text "ROXR.L #7,D0 (0xDEADBEEF)")
    [0x20; 0x3C; 0xDE; 0xAD; 0xBE; 0xEF] [0xEE; 0x90]
    [] false false false false 0xFF;
  CRow (text "ROL.L #1,D0 (0x80000001)")
    [0x20; 0x3C; 0x80; 0; 0; 0x01] [0xE3; 0x98]
    [] false false false false 0xFF;
  CRow (text "ROL.L #4,D0 (0x12345678)")
    [0x20; 0x3C; 0x12; 0x34; 0x56; 0x78] [0xE9; 0x98]
    [] false false false false 0xFF;
  CRow (text "ROL.L #7,D0 (0xDEADBEEF)")
    [0x20; 0x3C; 0xDE; 0xAD; 0xBE; 0xEF] [0xEF; 0x98]
    [] false false false false 0xFF;
  CRow (text "ROR.L #1,D0 (0x80000001)")
    [0x20; 0x3C; 0x80; 0; 0; 0x01] [0xE2; 0x98]
    [] false false false false 0xFF;
  CRow (text "ROR.L #4,D0 (0x12345678)")
    [0x20; 0x3C; 0x12; 0x34; 0x56; 0x78] [0xE8; 0x98]
    [] false false false false 0xFF;
  CRow (text "ROR.L #7,D0 (0xDEADBEEF)")
    [0x20; 0x3C; 0xDE; 0xAD; 0xBE; 0xEF] [0xEE; 0x98]
    [] false false false false 0xFF;
  CRow (text "MOVEM.L D0-D3,(A6)")
    [0x20; 0x3C; 0x11; 0x11; 0x11; 0x11; 0x22; 0x3C; 0x22; 0x22; 0x22; 0x22; 0x24; 0x3C; 0x33; 0x33;
     0x33; 0x33; 0x26; 0x3C; 0x44; 0x44; 0x44; 0x44] [0x48; 0xD6; 0; 0x0F]
    [] false false false false 0xFF;
  CRow (text "MOVEM.L (A6),D4-D7")
    [] [0x4C; 0xD6; 0; 0xF0]
    [0xAA; 0xBB; 0xCC; 0xDD; 0x55; 0x66; 0x77; 0x88; 0x11; 0x22; 0x33; 0x44; 0x99; 0x88; 0x77; 0x66;
     0; 0; 0; 0; 0; 0; 0; 0; 0; 0; 0; 0; 0; 0; 0; 0;
     0; 0; 0; 0; 0; 0; 0; 0; 0; 0; 0; 0; 0; 0; 0; 0;
     0; 0; 0; 0; 0; 0; 0; 0; 0; 0; 0; 0; 0; 0; 0; 0] true false false false 0xFF;
  CRow (text "MOVES.L D0,(A1) A1=scratch (privileged)")
    [0x20; 0x3C; 0xCA; 0xFE; 0xF0; 0x0D; 0x43; 0xEE; 0; 0] [0x0E; 0x91; 0x08; 0]
    [] false true false false 0xFF;
  CRow (text "MOVES.B D0,(A1) A1=scratch (privileged)")
    [0x20; 0x3C; 0; 0; 0; 0xA5; 0x43; 0xEE; 0; 0] [0x0E; 0x11; 0x08; 0]
    [] false true false false 0xFF;
  CRow (text "MOVES.W D0,(A1) A1=scratch (privileged)")
    [0x20; 0x3C; 0; 0; 0xBE; 0xEF; 0x43; 0xEE; 0; 0] [0x0E; 0x51; 0x08; 0]
    [] false true false false 0xFF;
  CRow (text "MOVES.L (A1),D0 A1=scratch  ext=$0000 (privileged)")
    [0x20; 0x3C; 0x11; 0x11; 0x11; 0x11; 0x43; 0xEE; 0; 0] [0x0E; 0x91; 0; 0]
    [0xDE; 0xAD; 0xBE; 0xEF; 0; 0; 0; 0; 0; 0; 0; 0; 0; 0; 0; 0;
     0; 0; 0; 0; 0; 0; 0; 0; 0; 0; 0; 0; 0; 0; 0; 0;
     0; 0; 0; 0; 0; 0; 0; 0; 0; 0; 0; 0; 0; 0; 0; 0;
     0; 0; 0; 0; 0; 0; 0; 0; 0; 0; 0; 0; 0; 0; 0; 0] true true false false 0xFF;
  CRow (text "MOVE.W SR,D0 (privileged)")
    [0x20; 0x3C; 0xAA; 0xAA; 0; 0] [0x40; 0xC0]
    [] false true false false 0xFF;
  CRow (text "MOVE.W SR,(A6)  (privileged)")
    [] [0x40; 0xD6]
    [] false true false false 0xFF;
  CRow (text "MOVE.W D0,SR  D0.W=$2700 (privileged)")
    [0x20; 0x3C; 0; 0; 0x27; 0] [0x46; 0xC0]
    [] false true false false 0xFF;
  CRow (text "MOVE.W #$2700,SR (privileged)")
    [] [0x46; 0xFC; 0x27; 0]
    [] false true false false 0xFF;
  CRow (text "ANDI.W #$FFFF,SR  (privileged; no-op)")
    [] [0x02; 0x7C; 0xFF; 0xFF]
    [] false true false false 0xFF;
  CRow (text "ANDI.W #$F8FF,SR  clear T1+M+I (privileged)")
    [] [0x02; 0x7C; 0xF8; 0xFF]
    [] false true false false 0xFF;
  CRow (text "ORI.W #$0700,SR  set IPL=7 (privileged)")
    [] [0; 0x7C; 0x07; 0]
    [] false true false false 0xFF;
  CRow (text "ORI.W #$001F,SR  set all CCR bits (privileged)")
    [] [0; 0x7C; 0; 0x1F]
    [] false true false false 0xFF;
  CRow (text "EORI.W #$0010,SR  toggle X (privileged)")
    [] [0x0A; 0x7C; 0; 0x10]
    [] false true false false 0xFF;
  CRow (text "RTE  simple 8-byte frame to label (privileged)")
    [] [0x41; 0xFA; 0; 0x0E; 0x3F; 0x3C; 0; 0; 0x2F; 0x08; 0x3F; 0x3C; 0x27; 0; 0x4E; 0x73; 0x91; 0xC8]
    [] false true false false 0xFF;
  CRow (text "MOVEC.L SFC,D0  (privileged)")
    [0x20; 0x3C; 0xAA; 0xAA; 0xAA; 0xAA] [0x4E; 0x7A; 0; 0]
    [] false true false false 0xFF].

Definition cpu_tests_06 : list CpuRow := [
  CRow (text "MOVEC.L DFC,D0  (privileged)")
    [0x20; 0x3C; 0xAA; 0xAA; 0xAA; 0xAA] [0x4E; 0x7A; 0; 0x01]
    [] false true false false 0xFF;
  CRow (text "MOVEC.L VBR,D0  (privileged)")
    [0x20; 0x3C; 0xAA; 0xAA; 0xAA; 0xAA] [0x4E; 0x7A; 0x08; 0x01]
    [] false true false false 0xFF;
  CRow (text "MOVEC.L CACR,D0 (privileged)")
    [0x20; 0x3C; 0xAA; 0xAA; 0xAA; 0xAA] [0x4E; 0x7A; 0; 0x02]
    [] false true false false 0xFF;
  CRow (text "MOVEC.L D0,SFC; SFC,D1  round-trip (privileged)")
    [0x20; 0x3C; 0; 0; 0; 0x05; 0x22; 0x3C; 0xAA; 0xAA; 0xAA; 0xAA] [0x4E; 0x7B; 0; 0; 0x4E; 0x7A; 0x10; 0]
    [] false true false false 0xFF;
  CRow (text "MOVEC.L D0,DFC; DFC,D1  round-trip (privileged)")
    [0x20; 0x3C; 0; 0; 0; 0x03; 0x22; 0x3C; 0xAA; 0xAA; 0xAA; 0xAA] [0x4E; 0x7B; 0; 0x01; 0x4E; 0x7A; 0x10; 0x01]
    [] false true false false 0xFF;
  CRow (text "MOVEC.L D0,CACR; CACR,D1  write 0 (privileged)")
    [0x20; 0x3C; 0; 0; 0; 0; 0x22; 0x3C; 0xAA; 0xAA; 0xAA; 0xAA] [0x4E; 0x7B; 0; 0x02; 0x4E; 0x7A; 0x10; 0x02]
    [] false true false false 0xFF;
  CRow (text "MOVEC.L D0,CACR; CACR,D1  write all-ones (030 mask, privileged)")
    [0x20; 0x3C; 0xFF; 0xFF; 0xFF; 0xFF; 0x22; 0x3C; 0xAA; 0xAA; 0xAA; 0xAA] [0x4E; 0x7B; 0; 0x02; 0x4E; 0x7A; 0x10; 0x02]
    [] false true false false 0xFF;
  CRow (text "MOVE.L A0,USP  A0=$DEADBEEF (privileged)")
    [0x41; 0xEE; 0; 0] [0x4E; 0x60]
    [] false true false false 0xFF;
  CRow (text "MOVE.L USP,A1  read back USP (privileged)")
    [0x41; 0xEE; 0; 0] [0x4E; 0x60; 0x4E; 0x69]
    [] false true false false 0xFF;
  CRow (text "MOVE D0,CCR  (D0=0x1F)")
    [0x20; 0x3C; 0; 0; 0; 0x1F] [0x44; 0xC0]
    [] false false false false 0xFF;
  CRow (text "MOVE CCR,D1  (CCR=0x0F)")
    [0x22; 0x3C; 0xFF; 0xFF; 0xFF; 0; 0x44; 0xFC; 0; 0x0F] [0x42; 0xC1]
    [] false false false false 0xFF;
  CRow (text "MULU.L D1,D0 (small 0x00000010*0x00000004)")
    [0x20; 0x3C; 0; 0; 0; 0x10; 0x22; 0x3C; 0; 0; 0; 0x04] [0x4C; 0x01; 0; 0]
    [] false false false false 0xFF;
  CRow (text "MULS.L D1,D0 (small 0x00000010*0x00000004)")
    [0x20; 0x3C; 0; 0; 0; 0x10; 0x22; 0x3C; 0; 0; 0; 0x04] [0x4C; 0x01; 0x08; 0]
    [] false false false false 0xFF;
  CRow (text "MULU.L D1,D0 (midhi 0x12345678*0x00010000)")
    [0x20; 0x3C; 0x12; 0x34; 0x56; 0x78; 0x22; 0x3C; 0; 0x01; 0; 0] [0x4C; 0x01; 0; 0]
    [] false false false false 0xFF;
  CRow (text "MULS.L D1,D0 (midhi 0x12345678*0x00010000)")
    [0x20; 0x3C; 0x12; 0x34; 0x56; 0x78; 0x22; 0x3C; 0; 0x01; 0; 0] [0x4C; 0x01; 0x08; 0]
    [] false false false false 0xFF;
  CRow (text "MULU.L D1,D0 (negneg 0xFFFFFFFE*0xFFFFFFFE)")
    [0x20; 0x3C; 0xFF; 0xFF; 0xFF; 0xFE; 0x22; 0x3C; 0xFF; 0xFF; 0xFF; 0xFE] [0x4C; 0x01; 0; 0]
    [] false false false false 0xFF;
  CRow (text "MULS.L D1,D0 (negneg 0xFFFFFFFE*0xFFFFFFFE)")
    [0x20; 0x3C; 0xFF; 0xFF; 0xFF; 0xFE; 0x22; 0x3C; 0xFF; 0xFF; 0xFF; 0xFE] [0x4C; 0x01; 0x08; 0]
    [] false false false false 0xFF;
  CRow (text "MULU.L D1,D2:D0 (big)")
    [0x20; 0x3C; 0x12; 0x34; 0x56; 0x78; 0x22; 0x3C; 0x10; 0; 0; 0] [0x4C; 0x01; 0x04; 0x02]
    [] false false false false 0xFF;
  CRow (text "MULS.L D1,D2:D0 (big)")
    [0x20; 0x3C; 0x12; 0x34; 0x56; 0x78; 0x22; 0x3C; 0x10; 0; 0; 0] [0x4C; 0x01; 0x0C; 0x02]
    [] false false false false 0xFF;
  CRow (text "MULU.L D1,D2:D0 (negneg)")
    [0x20; 0x3C; 0xFF; 0xFF; 0xFF; 0xFF; 0x22; 0x3C; 0xFF; 0xFF; 0xFF; 0xFF] [0x4C; 0x01; 0x04; 0x02]
    [] false false false false 0xFF;
  CRow (text "MULS.L D1,D2:D0 (negneg)")
    [0x20; 0x3C; 0xFF; 0xFF; 0xFF; 0xFF; 0x22; 0x3C; 0xFF; 0xFF; 0xFF; 0xFF] [0x4C; 0x01; 0x0C; 0x02]
    [] false false false false 0xFF;
  CRow (text "DIVU.L D1,D0:D2 (exact D0=0x00000064/D1=0x00000007)")
    [0x20; 0x3C; 0; 0; 0; 0x64; 0x22; 0x3C; 0; 0; 0; 0x07] [0x4C; 0x41; 0; 0x02]
    [] false false false false 0xFF;
  CRow (text "DIVS.L D1,D0:D2 (exact D0=0x00000064/D1=0x00000007)")
    [0x20; 0x3C; 0; 0; 0; 0x64; 0x22; 0x3C; 0; 0; 0; 0x07] [0x4C; 0x41; 0x08; 0x02]
    [] false false false false 0xFF;
  CRow (text "DIVU.L D1,D0:D2 (big D0=0x12345678/D1=0x00000100)")
    [0x20; 0x3C; 0x12; 0x34; 0x56; 0x78; 0x22; 0x3C; 0; 0; 0x01; 0] [0x4C; 0x41; 0; 0x02]
    [] false false false false 0xFF;
  CRow (text "DIVS.L D1,D0:D2 (big D0=0x12345678/D1=0x00000100)")
    [0x20; 0x3C; 0x12; 0x34; 0x56; 0x78; 0x22; 0x3C; 0; 0; 0x01; 0] [0x4C; 0x41; 0x08; 0x02]
    [] false false false false 0xFF;
  CRow (text "DIVU.L D1,D0:D2 (neg D0=0xFFFFFFF6/D1=0x00000004)")
    [0x20; 0x3C; 0xFF; 0xFF; 0xFF; 0xF6; 0x22; 0x3C; 0; 0; 0; 0x04] [0x4C; 0x41; 0; 0x02]
    [] false false false false 0xFF;
  CRow (text "DIVS.L D1,D0:D2 (neg D0=0xFFFFFFF6/D1=0x00000004)")
    [0x20; 0x3C; 0xFF; 0xFF; 0xFF; 0xF6; 0x22; 0x3C; 0; 0; 0; 0x04] [0x4C; 0x41; 0x08; 0x02]
    [] false false false false 0xFF;
  CRow (text "DIVU.L D1,D0 (quot-only D0=100/D1=7)")
    [0x20; 0x3C; 0; 0; 0; 0x64; 0x22; 0x3C; 0; 0; 0; 0x07] [0x4C; 0x41; 0; 0]
    [] false false false false 0xFF;
  CRow (text "DIVS.L D1,D0 (quot-only D0=-100/D1=7)")
    [0x20; 0x3C; 0xFF; 0xFF; 0xFF; 0x9C; 0x22; 0x3C; 0; 0; 0; 0x07] [0x4C; 0x41; 0x08; 0]
    [] false false false false 0xFF;
  CRow (text "EXTB.L D0 (0x000000FF -> 0xFFFFFFFF)")
    [0x20; 0x3C; 0xAA; 0xBB; 0xCC; 0xFF] [0x49; 0xC0]
    [] false false false false 0xFF;
  CRow (text "EXTB.L D0 (0x0000007F -> 0x0000007F)")
    [0x20; 0x3C; 0xAA; 0xBB; 0xCC; 0x7F] [0x49; 0xC0]
    [] false false false false 0xFF;
  CRow (text "BFTST D0{16:8} (D0=0x12FF5678 -> Z=0,N=1)")
    [0x20; 0x3C; 0x12; 0xFF; 0x56; 0x78] [0xE8; 0xC0; 0x04; 0x08]
    [] false false false false 0xFF;
  CRow (text "BFTST D0{0:16} (D0=0)")
    [0x20; 0x3C; 0; 0; 0; 0] [0xE8; 0xC0; 0; 0x10]
    [] false false false false 0xFF;
  CRow (text "BFEXTU D0{16:8},D1 (D0=0x12FF5678 -> D1=0xFF)")
    [0x20; 0x3C; 0x12; 0xFF; 0x56; 0x78] [0xE9; 0xC0; 0x14; 0x08]
    [] false false false false 0xFF;
  CRow (text "BFEXTU D0{4:12},D2")
    [0x20; 0x3C; 0xAB; 0xCD; 0xEF; 0x12] [0xE9; 0xC0; 0x21; 0x0C]
    [] false false false false 0xFF;
  CRow (text "BFEXTS D0{16:8},D1 (D0=0x12FF5678 -> D1=0xFFFFFFFF)")
    [0x20; 0x3C; 0x12; 0xFF; 0x56; 0x78] [0xEB; 0xC0; 0x14; 0x08]
    [] false false false false 0xFF;
  CRow (text "BFEXTS D0{16:8},D1 (D0=0x12345678 -> D1=0x00000034)")
    [0x20; 0x3C; 0x12; 0x34; 0x56; 0x78] [0xEB; 0xC0; 0x14; 0x08]
    [] false false false false 0xFF].

Definition cpu_tests_07 : list CpuRow := [
  CRow (text "BFCHG D0{16:8} (D0=0x12FF5678)")
    [0x20; 0x3C; 0x12; 0xFF; 0x56; 0x78] [0xEA; 0xC0; 0x04; 0x08]
    [] false false false false 0xFF;
  CRow (text "BFCLR D0{16:8} (D0=0xFFFFFFFF)")
    [0x20; 0x3C; 0xFF; 0xFF; 0xFF; 0xFF] [0xEC; 0xC0; 0x04; 0x08]
    [] false false false false 0xFF;
  CRow (text "BFSET D0{16:8} (D0=0)")
    [0x20; 0x3C; 0; 0; 0; 0] [0xEE; 0xC0; 0x04; 0x08]
    [] false false false false 0xFF;
  CRow (text "BFFFO D0{0:32},D1 (D0=0x00100000 -> D1=11)")
    [0x20; 0x3C; 0; 0x10; 0; 0] [0xED; 0xC0; 0x10; 0]
    [] false false false false 0xFF;
  CRow (text "BFFFO D0{0:32},D1 (D0=0 -> D1=32)")
    [0x20; 0x3C; 0; 0; 0; 0] [0xED; 0xC0; 0x10; 0]
    [] false false false false 0xFF;
  CRow (text "BFINS D1,D0{16:8} (D0=0xFFFFFFFF, D1=0xAA)")
    [0x20; 0x3C; 0xFF; 0xFF; 0xFF; 0xFF; 0x22; 0x3C; 0; 0; 0; 0xAA] [0xEF; 0xC0; 0x14; 0x08]
    [] false false false false 0xFF;
  CRow (text "PACK D1,D0,#0 (D1=0x00003132 -> D0 low byte=0x12)")
    [0x20; 0x3C; 0xAA; 0xBB; 0xCC; 0xDD; 0x22; 0x3C; 0; 0; 0x31; 0x32] [0x81; 0x41; 0; 0]
    [] false false false false 0xFF;
  CRow (text "PACK D1,D0,#0x0100 (D1=0x00003132 -> D0 low byte=0x13)")
    [0x20; 0x3C; 0xAA; 0xBB; 0xCC; 0xDD; 0x22; 0x3C; 0; 0; 0x31; 0x32] [0x81; 0x41; 0x01; 0]
    [] false false false false 0xFF;
  CRow (text "UNPK D1,D0,#0 (D1 low byte=0x12 -> D0 low word=0x0102)")
    [0x20; 0x3C; 0xAA; 0xBB; 0xCC; 0xDD; 0x22; 0x3C; 0; 0; 0; 0x12] [0x81; 0x81; 0; 0]
    [] false false false false 0xFF;
  CRow (text "UNPK D1,D0,#0x3030 (D1 low=0x12 -> D0='12' = 0x3132)")
    [0x20; 0x3C; 0xAA; 0xBB; 0xCC; 0xDD; 0x22; 0x3C; 0; 0; 0; 0x12] [0x81; 0x81; 0x30; 0x30]
    [] false false false false 0xFF;
  CRow (text "MOVE.L (0,A6,D0.L*1),D1 (D0=2)")
    [0x20; 0x3C; 0; 0; 0; 0x02] [0x22; 0x36; 0x08; 0]
    [0x01; 0x02; 0x03; 0x04; 0x05; 0x06; 0x07; 0x08; 0x09; 0x0A; 0x0B; 0x0C; 0x0D; 0x0E; 0x0F; 0x10;
     0x11; 0x12; 0x13; 0x14; 0x15; 0x16; 0x17; 0x18; 0x19; 0x1A; 0x1B; 0x1C; 0x1D; 0x1E; 0x1F; 0x20;
     0x21; 0x22; 0x23; 0x24; 0x25; 0x26; 0x27; 0x28; 0x29; 0x2A; 0x2B; 0x2C; 0x2D; 0x2E; 0x2F; 0x30;
     0x31; 0x32; 0x33; 0x34; 0x35; 0x36; 0x37; 0x38; 0x39; 0x3A; 0x3B; 0x3C; 0x3D; 0x3E; 0x3F; 0x40] true false false false 0xFF;
  CRow (text "MOVE.L (0,A6,D0.L*2),D1 (D0=2)")
    [0x20; 0x3C; 0; 0; 0; 0x02] [0x22; 0x36; 0x0A; 0]
    [0x01; 0x02; 0x03; 0x04; 0x05; 0x06; 0x07; 0x08; 0x09; 0x0A; 0x0B; 0x0C; 0x0D; 0x0E; 0x0F; 0x10;
     0x11; 0x12; 0x13; 0x14; 0x15; 0x16; 0x17; 0x18; 0x19; 0x1A; 0x1B; 0x1C; 0x1D; 0x1E; 0x1F; 0x20;
     0x21; 0x22; 0x23; 0x24; 0x25; 0x26; 0x27; 0x28; 0x29; 0x2A; 0x2B; 0x2C; 0x2D; 0x2E; 0x2F; 0x30;
     0x31; 0x32; 0x33; 0x34; 0x35; 0x36; 0x37; 0x38; 0x39; 0x3A; 0x3B; 0x3C; 0x3D; 0x3E; 0x3F; 0x40] true false false false 0xFF;
  CRow (text "MOVE.L (0,A6,D0.L*4),D1 (D0=2)")
    [0x20; 0x3C; 0; 0; 0; 0x02] [0x22; 0x36; 0x0C; 0]
    [0x01; 0x02; 0x03; 0x04; 0x05; 0x06; 0x07; 0x08; 0x09; 0x0A; 0x0B; 0x0C; 0x0D; 0x0E; 0x0F; 0x10;
     0x11; 0x12; 0x13; 0x14; 0x15; 0x16; 0x17; 0x18; 0x19; 0x1A; 0x1B; 0x1C; 0x1D; 0x1E; 0x1F; 0x20;
     0x21; 0x22; 0x23; 0x24; 0x25; 0x26; 0x27; 0x28; 0x29; 0x2A; 0x2B; 0x2C; 0x2D; 0x2E; 0x2F; 0x30;
     0x31; 0x32; 0x33; 0x34; 0x35; 0x36; 0x37; 0x38; 0x39; 0x3A; 0x3B; 0x3C; 0x3D; 0x3E; 0x3F; 0x40] true false false false 0xFF;
  CRow (text "MOVE.L (0,A6,D0.L*8),D1 (D0=2)")
    [0x20; 0x3C; 0; 0; 0; 0x02] [0x22; 0x36; 0x0E; 0]
    [0x01; 0x02; 0x03; 0x04; 0x05; 0x06; 0x07; 0x08; 0x09; 0x0A; 0x0B; 0x0C; 0x0D; 0x0E; 0x0F; 0x10;
     0x11; 0x12; 0x13; 0x14; 0x15; 0x16; 0x17; 0x18; 0x19; 0x1A; 0x1B; 0x1C; 0x1D; 0x1E; 0x1F; 0x20;
     0x21; 0x22; 0x23; 0x24; 0x25; 0x26; 0x27; 0x28; 0x29; 0x2A; 0x2B; 0x2C; 0x2D; 0x2E; 0x2F; 0x30;
     0x31; 0x32; 0x33; 0x34; 0x35; 0x36; 0x37; 0x38; 0x39; 0x3A; 0x3B; 0x3C; 0x3D; 0x3E; 0x3F; 0x40] true false false false 0xFF;
  CRow (text "MOVE.L (8,A6,D0.L*4),D1 (D0=1)")
    [0x20; 0x3C; 0; 0; 0; 0x01] [0x22; 0x36; 0x0C; 0x08]
    [0x01; 0x02; 0x03; 0x04; 0x05; 0x06; 0x07; 0x08; 0x09; 0x0A; 0x0B; 0x0C; 0x0D; 0x0E; 0x0F; 0x10;
     0x11; 0x12; 0x13; 0x14; 0x15; 0x16; 0x17; 0x18; 0x19; 0x1A; 0x1B; 0x1C; 0x1D; 0x1E; 0x1F; 0x20;
     0x21; 0x22; 0x23; 0x24; 0x25; 0x26; 0x27; 0x28; 0x29; 0x2A; 0x2B; 0x2C; 0x2D; 0x2E; 0x2F; 0x30;
     0x31; 0x32; 0x33; 0x34; 0x35; 0x36; 0x37; 0x38; 0x39; 0x3A; 0x3B; 0x3C; 0x3D; 0x3E; 0x3F; 0x40] true false false false 0xFF;
  CRow (text "TST.L D0 (0x12345678 / pos)")
    [0x20; 0x3C; 0x12; 0x34; 0x56; 0x78] [0x4A; 0x80]
    [] false false false false 0xFF;
  CRow (text "TST.L D0 (0x80000000 / neg)")
    [0x20; 0x3C; 0x80; 0; 0; 0] [0x4A; 0x80]
    [] false false false false 0xFF;
  CRow (text "TST.L D0 (0x00000000 / zero)")
    [0x20; 0x3C; 0; 0; 0; 0] [0x4A; 0x80]
    [] false false false false 0xFF;
  CRow (text "TST.W D0 (0x12345678 / pos)")
    [0x20; 0x3C; 0x12; 0x34; 0x56; 0x78] [0x4A; 0x40]
    [] false false false false 0xFF;
  CRow (text "TST.W D0 (0x80000000 / neg)")
    [0x20; 0x3C; 0x80; 0; 0; 0] [0x4A; 0x40]
    [] false false false false 0xFF;
  CRow (text "TST.W D0 (0x00000000 / zero)")
    [0x20; 0x3C; 0; 0; 0; 0] [0x4A; 0x40]
    [] false false false false 0xFF;
  CRow (text "TST.B D0 (0x12345678 / pos)")
    [0x20; 0x3C; 0x12; 0x34; 0x56; 0x78] [0x4A; 0]
    [] false false false false 0xFF;
  CRow (text "TST.B D0 (0x80000000 / neg)")
    [0x20; 0x3C; 0x80; 0; 0; 0] [0x4A; 0]
    [] false false false false 0xFF;
  CRow (text "TST.B D0 (0x00000000 / zero)")
    [0x20; 0x3C; 0; 0; 0; 0] [0x4A; 0]
    [] false false false false 0xFF;
  CRow (text "ADDQ.L #3,D0 (D0=0x12345678)")
    [0x20; 0x3C; 0x12; 0x34; 0x56; 0x78] [0x56; 0x80]
    [] false false false false 0xFF;
  CRow (text "ADDQ.W #3,D0 (D0=0x12345678)")
    [0x20; 0x3C; 0x12; 0x34; 0x56; 0x78] [0x56; 0x40]
    [] false false false false 0xFF;
  CRow (text "ADDQ.B #3,D0 (D0=0x12345678)")
    [0x20; 0x3C; 0x12; 0x34; 0x56; 0x78] [0x56; 0]
    [] false false false false 0xFF;
  CRow (text "SUBQ.L #3,D0 (D0=0x12345678)")
    [0x20; 0x3C; 0x12; 0x34; 0x56; 0x78] [0x57; 0x80]
    [] false false false false 0xFF;
  CRow (text "SUBQ.W #3,D0 (D0=0x12345678)")
    [0x20; 0x3C; 0x12; 0x34; 0x56; 0x78] [0x57; 0x40]
    [] false false false false 0xFF;
  CRow (text "SUBQ.B #3,D0 (D0=0x12345678)")
    [0x20; 0x3C; 0x12; 0x34; 0x56; 0x78] [0x57; 0]
    [] false false false false 0xFF;
  CRow (text "ADDQ.L #8,D0 (data field = 0 means 8)")
    [0x20; 0x3C; 0x12; 0x34; 0x56; 0x78] [0x50; 0x80]
    [] false false false false 0xFF;
  CRow (text "ADDX.L -(A1),-(A0)  mem+mem with X=1")
    [0x41; 0xEE; 0; 0x08; 0x43; 0xEE; 0; 0x10; 0x44; 0xFC; 0; 0x10] [0xD1; 0x89]
    [0; 0; 0; 0; 0; 0; 0; 0x05; 0; 0; 0; 0; 0; 0; 0; 0x03;
     0; 0; 0; 0; 0; 0; 0; 0; 0; 0; 0; 0; 0; 0; 0; 0;
     0; 0; 0; 0; 0; 0; 0; 0; 0; 0; 0; 0; 0; 0; 0; 0;
     0; 0; 0; 0; 0; 0; 0; 0; 0; 0; 0; 0; 0; 0; 0; 0] true false false false 0xFF;
  CRow (text "SUBX.L -(A1),-(A0)  mem+mem with X=0")
    [0x41; 0xEE; 0; 0x08; 0x43; 0xEE; 0; 0x10] [0x91; 0x89]
    [0; 0; 0; 0; 0; 0; 0; 0x05; 0; 0; 0; 0; 0; 0; 0; 0x03;
     0; 0; 0; 0; 0; 0; 0; 0; 0; 0; 0; 0; 0; 0; 0; 0;
     0; 0; 0; 0; 0; 0; 0; 0; 0; 0; 0; 0; 0; 0; 0; 0;
     0; 0; 0; 0; 0; 0; 0; 0; 0; 0; 0; 0; 0; 0; 0; 0] true false false false 0xFF;
  CRow (text "NEGX.L D0  (D0=0x12345678, X=1)")
    [0x20; 0x3C; 0x12; 0x34; 0x56; 0x78; 0x44; 0xFC; 0; 0x10] [0x40; 0x80]
    [] false false false false 0xFF;
  CRow (text "NEGX.W D0  (D0=0x12345678, X=1)")
    [0x20; 0x3C; 0x12; 0x34; 0x56; 0x78; 0x44; 0xFC; 0; 0x10] [0x40; 0x40]
    [] false false false false 0xFF;
  CRow (text "NEGX.B D0  (D0=0x12345678, X=1)")
    [0x20; 0x3C; 0x12; 0x34; 0x56; 0x78; 0x44; 0xFC; 0; 0x10] [0x40; 0]
    [] false false false false 0xFF;
  CRow (text "ANDI #0x10,CCR  (CCR=0x1F & 0x10 = 0x10)")
    [0x44; 0xFC; 0; 0x1F] [0x02; 0x3C; 0; 0x10]
    [] false false false false 0xFF].

Definition cpu_tests_08 : list CpuRow := [
  CRow (text "ORI #0x08,CCR  (CCR=0x04 | 0x08 = 0x0C)")
    [0x44; 0xFC; 0; 0x04] [0; 0x3C; 0; 0x08]
    [] false false false false 0xFF;
  CRow (text "EORI #0x0F,CCR  (CCR=0x05 ^ 0x0F = 0x0A)")
    [0x44; 0xFC; 0; 0x05] [0x0A; 0x3C; 0; 0x0F]
    [] false false false false 0xFF;
  CRow (text "ASR.L D1,D0  reg-count (D0=0x80000001, D1=3, X=1)")
    [0x20; 0x3C; 0x80; 0; 0; 0x01; 0x22; 0x3C; 0; 0; 0; 0x03; 0x44; 0xFC; 0; 0x10] [0xE2; 0xA0]
    [] false false false false 0xFF;
  CRow (text "LSL.L D1,D0  reg-count (D0=0x80000001, D1=3, X=1)")
    [0x20; 0x3C; 0x80; 0; 0; 0x01; 0x22; 0x3C; 0; 0; 0; 0x03; 0x44; 0xFC; 0; 0x10] [0xE3; 0xA8]
    [] false false false false 0xFF;
  CRow (text "ROR.L D1,D0  reg-count (D0=0x80000001, D1=3, X=1)")
    [0x20; 0x3C; 0x80; 0; 0; 0x01; 0x22; 0x3C; 0; 0; 0; 0x03; 0x44; 0xFC; 0; 0x10] [0xE2; 0xB8]
    [] false false false false 0xFF;
  CRow (text "ROXL.L D1,D0  reg-count (D0=0x80000001, D1=3, X=1)")
    [0x20; 0x3C; 0x80; 0; 0; 0x01; 0x22; 0x3C; 0; 0; 0; 0x03; 0x44; 0xFC; 0; 0x10] [0xE3; 0xB0]
    [] false false false false 0xFF;
  CRow (text "ROXR.L D1,D0  reg-count (D0=0x80000001, D1=3, X=1)")
    [0x20; 0x3C; 0x80; 0; 0; 0x01; 0x22; 0x3C; 0; 0; 0; 0x03; 0x44; 0xFC; 0; 0x10] [0xE2; 0xB0]
    [] false false false false 0xFF;
  CRow (text "ASL.W (A6)  mem-shift, single bit")
    [0x44; 0xFC; 0; 0x10] [0xE1; 0xD6]
    [0x40; 0x01; 0; 0; 0; 0; 0; 0; 0; 0; 0; 0; 0; 0; 0; 0;
     0; 0; 0; 0; 0; 0; 0; 0; 0; 0; 0; 0; 0; 0; 0; 0;
     0; 0; 0; 0; 0; 0; 0; 0; 0; 0; 0; 0; 0; 0; 0; 0;
     0; 0; 0; 0; 0; 0; 0; 0; 0; 0; 0; 0; 0; 0; 0; 0] true false false false 0xFF;
  CRow (text "ASR.W (A6)  mem-shift, single bit")
    [0x44; 0xFC; 0; 0x10] [0xE0; 0xD6]
    [0x40; 0x01; 0; 0; 0; 0; 0; 0; 0; 0; 0; 0; 0; 0; 0; 0;
     0; 0; 0; 0; 0; 0; 0; 0; 0; 0; 0; 0; 0; 0; 0; 0;
     0; 0; 0; 0; 0; 0; 0; 0; 0; 0; 0; 0; 0; 0; 0; 0;
     0; 0; 0; 0; 0; 0; 0; 0; 0; 0; 0; 0; 0; 0; 0; 0] true false false false 0xFF;
  CRow (text "LSL.W (A6)  mem-shift, single bit")
    [0x44; 0xFC; 0; 0x10] [0xE3; 0xD6]
    [0x40; 0x01; 0; 0; 0; 0; 0; 0; 0; 0; 0; 0; 0; 0; 0; 0;
     0; 0; 0; 0; 0; 0; 0; 0; 0; 0; 0; 0; 0; 0; 0; 0;
     0; 0; 0; 0; 0; 0; 0; 0; 0; 0; 0; 0; 0; 0; 0; 0;
     0; 0; 0; 0; 0; 0; 0; 0; 0; 0; 0; 0; 0; 0; 0; 0] true false false false 0xFF;
  CRow (text "LSR.W (A6)  mem-shift, single bit")
    [0x44; 0xFC; 0; 0x10] [0xE2; 0xD6]
    [0x40; 0x01; 0; 0; 0; 0; 0; 0; 0; 0; 0; 0; 0; 0; 0; 0;
     0; 0; 0; 0; 0; 0; 0; 0; 0; 0; 0; 0; 0; 0; 0; 0;
     0; 0; 0; 0; 0; 0; 0; 0; 0; 0; 0; 0; 0; 0; 0; 0;
     0; 0; 0; 0; 0; 0; 0; 0; 0; 0; 0; 0; 0; 0; 0; 0] true false false false 0xFF;
  CRow (text "ROXL.W (A6)  mem-shift, single bit")
    [0x44; 0xFC; 0; 0x10] [0xE5; 0xD6]
    [0x40; 0x01; 0; 0; 0; 0; 0; 0; 0; 0; 0; 0; 0; 0; 0; 0;
     0; 0; 0; 0; 0; 0; 0; 0; 0; 0; 0; 0; 0; 0; 0; 0;
     0; 0; 0; 0; 0; 0; 0; 0; 0; 0; 0; 0; 0; 0; 0; 0;
     0; 0; 0; 0; 0; 0; 0; 0; 0; 0; 0; 0; 0; 0; 0; 0] true false false false 0xFF;
  CRow (text "ROXR.W (A6)  mem-shift, single bit")
    [0x44; 0xFC; 0; 0x10] [0xE4; 0xD6]
    [0x40; 0x01; 0; 0; 0; 0; 0; 0; 0; 0; 0; 0; 0; 0; 0; 0;
     0; 0; 0; 0; 0; 0; 0; 0; 0; 0; 0; 0; 0; 0; 0; 0;
     0; 0; 0; 0; 0; 0; 0; 0; 0; 0; 0; 0; 0; 0; 0; 0;
     0; 0; 0; 0; 0; 0; 0; 0; 0; 0; 0; 0; 0; 0; 0; 0] true false false false 0xFF;
  CRow (text "ROL.W (A6)  mem-shift, single bit")
    [0x44; 0xFC; 0; 0x10] [0xE7; 0xD6]
    [0x40; 0x01; 0; 0; 0; 0; 0; 0; 0; 0; 0; 0; 0; 0; 0; 0;
     0; 0; 0; 0; 0; 0; 0; 0; 0; 0; 0; 0; 0; 0; 0; 0;
     0; 0; 0; 0; 0; 0; 0; 0; 0; 0; 0; 0; 0; 0; 0; 0;
     0; 0; 0; 0; 0; 0; 0; 0; 0; 0; 0; 0; 0; 0; 0; 0] true false false false 0xFF;
  CRow (text "ROR.W (A6)  mem-shift, single bit")
    [0x44; 0xFC; 0; 0x10] [0xE6; 0xD6]
    [0x40; 0x01; 0; 0; 0; 0; 0; 0; 0; 0; 0; 0; 0; 0; 0; 0;
     0; 0; 0; 0; 0; 0; 0; 0; 0; 0; 0; 0; 0; 0; 0; 0;
     0; 0; 0; 0; 0; 0; 0; 0; 0; 0; 0; 0; 0; 0; 0; 0;
     0; 0; 0; 0; 0; 0; 0; 0; 0; 0; 0; 0; 0; 0; 0; 0] true false false false 0xFF;
  CRow (text "BTST D1,(A6)  (D1=7 -> bit 7)")
    [0x22; 0x3C; 0; 0; 0; 0x07] [0x03; 0x16]
    [0x80; 0; 0; 0; 0; 0; 0; 0; 0; 0; 0; 0; 0; 0; 0; 0;
     0; 0; 0; 0; 0; 0; 0; 0; 0; 0; 0; 0; 0; 0; 0; 0;
     0; 0; 0; 0; 0; 0; 0; 0; 0; 0; 0; 0; 0; 0; 0; 0;
     0; 0; 0; 0; 0; 0; 0; 0; 0; 0; 0; 0; 0; 0; 0; 0] true false false false 0xFF;
  CRow (text "BCHG D1,(A6)  (D1=7 -> invert bit 7)")
    [0x22; 0x3C; 0; 0; 0; 0x07] [0x03; 0x56]
    [0x80; 0; 0; 0; 0; 0; 0; 0; 0; 0; 0; 0; 0; 0; 0; 0;
     0; 0; 0; 0; 0; 0; 0; 0; 0; 0; 0; 0; 0; 0; 0; 0;
     0; 0; 0; 0; 0; 0; 0; 0; 0; 0; 0; 0; 0; 0; 0; 0;
     0; 0; 0; 0; 0; 0; 0; 0; 0; 0; 0; 0; 0; 0; 0; 0] true false false false 0xFF;
  CRow (text "BCLR D1,(A6)  (D1=7 -> clear bit 7)")
    [0x22; 0x3C; 0; 0; 0; 0x07] [0x03; 0x96]
    [0x80; 0; 0; 0; 0; 0; 0; 0; 0; 0; 0; 0; 0; 0; 0; 0;
     0; 0; 0; 0; 0; 0; 0; 0; 0; 0; 0; 0; 0; 0; 0; 0;
     0; 0; 0; 0; 0; 0; 0; 0; 0; 0; 0; 0; 0; 0; 0; 0;
     0; 0; 0; 0; 0; 0; 0; 0; 0; 0; 0; 0; 0; 0; 0; 0] true false false false 0xFF;
  CRow (text "BSET D1,(A6)  (D1=0 -> set bit 0)")
    [0x22; 0x3C; 0; 0; 0; 0] [0x03; 0xD6]
    [0x80; 0; 0; 0; 0; 0; 0; 0; 0; 0; 0; 0; 0; 0; 0; 0;
     0; 0; 0; 0; 0; 0; 0; 0; 0; 0; 0; 0; 0; 0; 0; 0;
     0; 0; 0; 0; 0; 0; 0; 0; 0; 0; 0; 0; 0; 0; 0; 0;
     0; 0; 0; 0; 0; 0; 0; 0; 0; 0; 0; 0; 0; 0; 0; 0] true false false false 0xFF;
  CRow (text "BTST #7,(A6)  static, byte ram=0x80")
    [] [0x08; 0x16; 0; 0x07]
    [0x80; 0; 0; 0; 0; 0; 0; 0; 0; 0; 0; 0; 0; 0; 0; 0;
     0; 0; 0; 0; 0; 0; 0; 0; 0; 0; 0; 0; 0; 0; 0; 0;
     0; 0; 0; 0; 0; 0; 0; 0; 0; 0; 0; 0; 0; 0; 0; 0;
     0; 0; 0; 0; 0; 0; 0; 0; 0; 0; 0; 0; 0; 0; 0; 0] true false false false 0xFF;
  CRow (text "BSET #0,(A6)  static, byte ram=0x80 -> 0x81")
    [] [0x08; 0xD6; 0; 0]
    [0x80; 0; 0; 0; 0; 0; 0; 0; 0; 0; 0; 0; 0; 0; 0; 0;
     0; 0; 0; 0; 0; 0; 0; 0; 0; 0; 0; 0; 0; 0; 0; 0;
     0; 0; 0; 0; 0; 0; 0; 0; 0; 0; 0; 0; 0; 0; 0; 0;
     0; 0; 0; 0; 0; 0; 0; 0; 0; 0; 0; 0; 0; 0; 0; 0] true false false false 0xFF;
  CRow (text "BCLR #7,(A6)  static, byte ram=0x80 -> 0x00")
    [] [0x08; 0x96; 0; 0x07]
    [0x80; 0; 0; 0; 0; 0; 0; 0; 0; 0; 0; 0; 0; 0; 0; 0;
     0; 0; 0; 0; 0; 0; 0; 0; 0; 0; 0; 0; 0; 0; 0; 0;
     0; 0; 0; 0; 0; 0; 0; 0; 0; 0; 0; 0; 0; 0; 0; 0;
     0; 0; 0; 0; 0; 0; 0; 0; 0; 0; 0; 0; 0; 0; 0; 0] true false false false 0xFF;
  CRow (text "BCHG #6,(A6)  static, byte ram=0x80 -> 0xC0")
    [] [0x08; 0x56; 0; 0x06]
    [0x80; 0; 0; 0; 0; 0; 0; 0; 0; 0; 0; 0; 0; 0; 0; 0;
     0; 0; 0; 0; 0; 0; 0; 0; 0; 0; 0; 0; 0; 0; 0; 0;
     0; 0; 0; 0; 0; 0; 0; 0; 0; 0; 0; 0; 0; 0; 0; 0;
     0; 0; 0; 0; 0; 0; 0; 0; 0; 0; 0; 0; 0; 0; 0; 0] true false false false 0xFF;
  CRow (text "ABCD -(A1),-(A0)  mem-mem (0x25 + 0x37, X=0)")
    [0x41; 0xEE; 0; 0x04; 0x43; 0xEE; 0; 0x08] [0xC1; 0x09]
    [0; 0; 0; 0x25; 0; 0; 0; 0x37; 0; 0; 0; 0; 0; 0; 0; 0;
     0; 0; 0; 0; 0; 0; 0; 0; 0; 0; 0; 0; 0; 0; 0; 0;
     0; 0; 0; 0; 0; 0; 0; 0; 0; 0; 0; 0; 0; 0; 0; 0;
     0; 0; 0; 0; 0; 0; 0; 0; 0; 0; 0; 0; 0; 0; 0; 0] true false false false 0xFF;
  CRow (text "SBCD -(A1),-(A0)  mem-mem (0x42 - 0x18, X=0)")
    [0x41; 0xEE; 0; 0x04; 0x43; 0xEE; 0; 0x08] [0x81; 0x09]
    [0; 0; 0; 0x42; 0; 0; 0; 0x18; 0; 0; 0; 0; 0; 0; 0; 0;
     0; 0; 0; 0; 0; 0; 0; 0; 0; 0; 0; 0; 0; 0; 0; 0;
     0; 0; 0; 0; 0; 0; 0; 0; 0; 0; 0; 0; 0; 0; 0; 0;
     0; 0; 0; 0; 0; 0; 0; 0; 0; 0; 0; 0; 0; 0; 0; 0] true false false false 0xFF;
  CRow (text "PACK -(A1),-(A0),#0  mem-mem")
    [0x41; 0xEE; 0; 0x04; 0x43; 0xEE; 0; 0x08] [0x81; 0x49; 0; 0]
    [0; 0; 0; 0; 0; 0; 0x31; 0x32; 0; 0; 0; 0; 0; 0; 0; 0;
     0; 0; 0; 0; 0; 0; 0; 0; 0; 0; 0; 0; 0; 0; 0; 0;
     0; 0; 0; 0; 0; 0; 0; 0; 0; 0; 0; 0; 0; 0; 0; 0;
     0; 0; 0; 0; 0; 0; 0; 0; 0; 0; 0; 0; 0; 0; 0; 0] true false false false 0xFF;
  CRow (text "UNPK -(A1),-(A0),#0x3030  mem-mem")
    [0x41; 0xEE; 0; 0x06; 0x43; 0xEE; 0; 0x08] [0x81; 0x89; 0x30; 0x30]
    [0; 0; 0; 0; 0; 0; 0; 0x12; 0; 0; 0; 0; 0; 0; 0; 0;
     0; 0; 0; 0; 0; 0; 0; 0; 0; 0; 0; 0; 0; 0; 0; 0;
     0; 0; 0; 0; 0; 0; 0; 0; 0; 0; 0; 0; 0; 0; 0; 0;
     0; 0; 0; 0; 0; 0; 0; 0; 0; 0; 0; 0; 0; 0; 0; 0] true false false false 0xFF;
  CRow (text "MOVEA.L #0x12345678,A0")
    [] [0x20; 0x7C; 0x12; 0x34; 0x56; 0x78]
    [] false false false false 0xFF;
  CRow (text "MOVEA.W #0xFFFE,A1  (sign-extended to 0xFFFFFFFE)")
    [] [0x32; 0x7C; 0xFF; 0xFE]
    [] false false false false 0xFF;
  CRow (text "MOVE.L (bd.W,A6,D0.W),D1  full-ext, bd=0, D0=8")
    [0x20; 0x3C; 0; 0; 0; 0x08] [0x22; 0x36; 0x01; 0x20; 0; 0]
    [0x01; 0x02; 0x03; 0x04; 0x05; 0x06; 0x07; 0x08; 0x09; 0x0A; 0x0B; 0x0C; 0x0D; 0x0E; 0x0F; 0x10;
     0x11; 0x12; 0x13; 0x14; 0x15; 0x16; 0x17; 0x18; 0x19; 0x1A; 0x1B; 0x1C; 0x1D; 0x1E; 0x1F; 0x20;
     0x21; 0x22; 0x23; 0x24; 0x25; 0x26; 0x27; 0x28; 0x29; 0x2A; 0x2B; 0x2C; 0x2D; 0x2E; 0x2F; 0x30;
     0x31; 0x32; 0x33; 0x34; 0x35; 0x36; 0x37; 0x38; 0x39; 0x3A; 0x3B; 0x3C; 0x3D; 0x3E; 0x3F; 0x40] true false false false 0xFF;
  CRow (text "MOVE.L (bd.L,A6,D0.L*4),D1  full-ext scaled, bd=0, D0=2")
    [0x20; 0x3C; 0; 0; 0; 0x02] [0x22; 0x36; 0x0D; 0x30; 0; 0; 0; 0]
    [0x01; 0x02; 0x03; 0x04; 0x05; 0x06; 0x07; 0x08; 0x09; 0x0A; 0x0B; 0x0C; 0x0D; 0x0E; 0x0F; 0x10;
     0x11; 0x12; 0x13; 0x14; 0x15; 0x16; 0x17; 0x18; 0x19; 0x1A; 0x1B; 0x1C; 0x1D; 0x1E; 0x1F; 0x20;
     0x21; 0x22; 0x23; 0x24; 0x25; 0x26; 0x27; 0x28; 0x29; 0x2A; 0x2B; 0x2C; 0x2D; 0x2E; 0x2F; 0x30;
     0x31; 0x32; 0x33; 0x34; 0x35; 0x36; 0x37; 0x38; 0x39; 0x3A; 0x3B; 0x3C; 0x3D; 0x3E; 0x3F; 0x40] true false false false 0xFF;
  CRow (text "BEQ.B  taken (Z=1)")
    [0x44; 0xFC; 0; 0x04] [0x67; 0x06; 0x1C; 0xBC; 0; 0x01; 0x60; 0x04; 0x1C; 0xBC; 0; 0x02]
    [] false false false false 0xFF;
  CRow (text "BEQ.W  taken (Z=1)")
    [0x44; 0xFC; 0; 0x04] [0x67; 0; 0; 0x08; 0x1C; 0xBC; 0; 0x01; 0x60; 0x04; 0x1C; 0xBC; 0; 0x02]
    [] false false false false 0xFF;
  CRow (text "BNE.B  not-taken (Z=1)")
    [0x44; 0xFC; 0; 0x04] [0x66; 0x06; 0x1C; 0xBC; 0; 0x01; 0x60; 0x04; 0x1C; 0xBC; 0; 0x02]
    [] false false false false 0xFF;
  CRow (text "BNE.W  not-taken (Z=1)")
    [0x44; 0xFC; 0; 0x04] [0x66; 0; 0; 0x08; 0x1C; 0xBC; 0; 0x01; 0x60; 0x04; 0x1C; 0xBC; 0; 0x02]
    [] false false false false 0xFF;
  CRow (text "BMI.B  taken (N=1)")
    [0x44; 0xFC; 0; 0x09] [0x6B; 0x06; 0x1C; 0xBC; 0; 0x01; 0x60; 0x04; 0x1C; 0xBC; 0; 0x02]
    [] false false false false 0xFF;
  CRow (text "BMI.W  taken (N=1)")
    [0x44; 0xFC; 0; 0x09] [0x6B; 0; 0; 0x08; 0x1C; 0xBC; 0; 0x01; 0x60; 0x04; 0x1C; 0xBC; 0; 0x02]
    [] false false false false 0xFF].

Definition cpu_tests_09 : list CpuRow := [
  CRow (text "BPL.B  not-taken (N=1)")
    [0x44; 0xFC; 0; 0x09] [0x6A; 0x06; 0x1C; 0xBC; 0; 0x01; 0x60; 0x04; 0x1C; 0xBC; 0; 0x02]
    [] false false false false 0xFF;
  CRow (text "BPL.W  not-taken (N=1)")
    [0x44; 0xFC; 0; 0x09] [0x6A; 0; 0; 0x08; 0x1C; 0xBC; 0; 0x01; 0x60; 0x04; 0x1C; 0xBC; 0; 0x02]
    [] false false false false 0xFF;
  CRow (text "BCS.B  taken (C=1)")
    [0x44; 0xFC; 0; 0x09] [0x65; 0x06; 0x1C; 0xBC; 0; 0x01; 0x60; 0x04; 0x1C; 0xBC; 0; 0x02]
    [] false false false false 0xFF;
  CRow (text "BCS.W  taken (C=1)")
    [0x44; 0xFC; 0; 0x09] [0x65; 0; 0; 0x08; 0x1C; 0xBC; 0; 0x01; 0x60; 0x04; 0x1C; 0xBC; 0; 0x02]
    [] false false false false 0xFF;
  CRow (text "BCC.B  not-taken (C=1)")
    [0x44; 0xFC; 0; 0x09] [0x64; 0x06; 0x1C; 0xBC; 0; 0x01; 0x60; 0x04; 0x1C; 0xBC; 0; 0x02]
    [] false false false false 0xFF;
  CRow (text "BCC.W  not-taken (C=1)")
    [0x44; 0xFC; 0; 0x09] [0x64; 0; 0; 0x08; 0x1C; 0xBC; 0; 0x01; 0x60; 0x04; 0x1C; 0xBC; 0; 0x02]
    [] false false false false 0xFF;
  CRow (text "BHI.B  not-taken (Z=1)")
    [0x44; 0xFC; 0; 0x04] [0x62; 0x06; 0x1C; 0xBC; 0; 0x01; 0x60; 0x04; 0x1C; 0xBC; 0; 0x02]
    [] false false false false 0xFF;
  CRow (text "BHI.W  not-taken (Z=1)")
    [0x44; 0xFC; 0; 0x04] [0x62; 0; 0; 0x08; 0x1C; 0xBC; 0; 0x01; 0x60; 0x04; 0x1C; 0xBC; 0; 0x02]
    [] false false false false 0xFF;
  CRow (text "BLS.B  taken (Z=1)")
    [0x44; 0xFC; 0; 0x04] [0x63; 0x06; 0x1C; 0xBC; 0; 0x01; 0x60; 0x04; 0x1C; 0xBC; 0; 0x02]
    [] false false false false 0xFF;
  CRow (text "BLS.W  taken (Z=1)")
    [0x44; 0xFC; 0; 0x04] [0x63; 0; 0; 0x08; 0x1C; 0xBC; 0; 0x01; 0x60; 0x04; 0x1C; 0xBC; 0; 0x02]
    [] false false false false 0xFF;
  CRow (text "BRA.B  always-skip")
    [] [0x60; 0x04; 0x1C; 0xBC; 0; 0x01; 0x1C; 0xBC; 0; 0x02]
    [] false false false false 0xFF;
  CRow (text "BRA.W  always-skip")
    [] [0x60; 0; 0; 0x06; 0x1C; 0xBC; 0; 0x01; 0x1C; 0xBC; 0; 0x02]
    [] false false false false 0xFF;
  CRow (text "BSR.W / RTS  round-trip")
    [] [0x60; 0x06; 0x1C; 0xBC; 0; 0x02; 0x4E; 0x75; 0x61; 0; 0xFF; 0xF8; 0x1C; 0xBC; 0; 0x01]
    [] false false false false 0xFF;
  CRow (text "JSR (d16,PC) / RTS  round-trip")
    [] [0x60; 0x06; 0x1C; 0xBC; 0; 0x02; 0x4E; 0x75; 0x4E; 0xBA; 0xFF; 0xF8; 0x1C; 0xBC; 0; 0x01]
    [] false false false false 0xFF;
  CRow (text "JMP (d16,PC) disp=2  no-op (target = next instruction)")
    [] [0x4E; 0xFA; 0; 0x02]
    [] false false false false 0xFF;
  CRow (text "DBF D1,loop  (D1=2 -> counts to -1, scratch[0]=3)")
    [0x22; 0x3C; 0; 0; 0; 0x02] [0x52; 0x16; 0x51; 0xC9; 0xFF; 0xFC]
    [] false false false false 0xFF;
  CRow (text "DBNE D1,loop  (Z=1 so NE always false; counts to -1)")
    [0x22; 0x3C; 0; 0; 0; 0x03; 0x44; 0xFC; 0; 0x04] [0x52; 0x16; 0x56; 0xC9; 0xFF; 0xFC]
    [] false false false false 0xFF;
  CRow (text "DBEQ D1,loop  (Z=1 so EQ true; loop exits immediately)")
    [0x22; 0x3C; 0; 0; 0; 0x03; 0x44; 0xFC; 0; 0x04] [0x52; 0x16; 0x57; 0xC9; 0xFF; 0xFC]
    [] false false false false 0xFF;
  CRow (text "ST D0  (CCR=0x04, Z=1)")
    [0x20; 0x3C; 0xAA; 0xBB; 0xCC; 0; 0x44; 0xFC; 0; 0x04] [0x50; 0xC0]
    [] false false false false 0xFF;
  CRow (text "SF D0  (CCR=0x04, Z=1)")
    [0x20; 0x3C; 0xAA; 0xBB; 0xCC; 0; 0x44; 0xFC; 0; 0x04] [0x51; 0xC0]
    [] false false false false 0xFF;
  CRow (text "SHI D0  (CCR=0x04, Z=1)")
    [0x20; 0x3C; 0xAA; 0xBB; 0xCC; 0; 0x44; 0xFC; 0; 0x04] [0x52; 0xC0]
    [] false false false false 0xFF;
  CRow (text "SLS D0  (CCR=0x04, Z=1)")
    [0x20; 0x3C; 0xAA; 0xBB; 0xCC; 0; 0x44; 0xFC; 0; 0x04] [0x53; 0xC0]
    [] false false false false 0xFF;
  CRow (text "SCC D0  (CCR=0x04, Z=1)")
    [0x20; 0x3C; 0xAA; 0xBB; 0xCC; 0; 0x44; 0xFC; 0; 0x04] [0x54; 0xC0]
    [] false false false false 0xFF;
  CRow (text "SCS D0  (CCR=0x04, Z=1)")
    [0x20; 0x3C; 0xAA; 0xBB; 0xCC; 0; 0x44; 0xFC; 0; 0x04] [0x55; 0xC0]
    [] false false false false 0xFF;
  CRow (text "SNE D0  (CCR=0x04, Z=1)")
    [0x20; 0x3C; 0xAA; 0xBB; 0xCC; 0; 0x44; 0xFC; 0; 0x04] [0x56; 0xC0]
    [] false false false false 0xFF;
  CRow (text "SEQ D0  (CCR=0x04, Z=1)")
    [0x20; 0x3C; 0xAA; 0xBB; 0xCC; 0; 0x44; 0xFC; 0; 0x04] [0x57; 0xC0]
    [] false false false false 0xFF;
  CRow (text "SVC D0  (CCR=0x04, Z=1)")
    [0x20; 0x3C; 0xAA; 0xBB; 0xCC; 0; 0x44; 0xFC; 0; 0x04] [0x58; 0xC0]
    [] false false false false 0xFF;
  CRow (text "SVS D0  (CCR=0x04, Z=1)")
    [0x20; 0x3C; 0xAA; 0xBB; 0xCC; 0; 0x44; 0xFC; 0; 0x04] [0x59; 0xC0]
    [] false false false false 0xFF;
  CRow (text "SPL D0  (CCR=0x04, Z=1)")
    [0x20; 0x3C; 0xAA; 0xBB; 0xCC; 0; 0x44; 0xFC; 0; 0x04] [0x5A; 0xC0]
    [] false false false false 0xFF;
  CRow (text "SMI D0  (CCR=0x04, Z=1)")
    [0x20; 0x3C; 0xAA; 0xBB; 0xCC; 0; 0x44; 0xFC; 0; 0x04] [0x5B; 0xC0]
    [] false false false false 0xFF;
  CRow (text "SGE D0  (CCR=0x04, Z=1)")
    [0x20; 0x3C; 0xAA; 0xBB; 0xCC; 0; 0x44; 0xFC; 0; 0x04] [0x5C; 0xC0]
    [] false false false false 0xFF;
  CRow (text "SLT D0  (CCR=0x04, Z=1)")
    [0x20; 0x3C; 0xAA; 0xBB; 0xCC; 0; 0x44; 0xFC; 0; 0x04] [0x5D; 0xC0]
    [] false false false false 0xFF;
  CRow (text "SGT D0  (CCR=0x04, Z=1)")
    [0x20; 0x3C; 0xAA; 0xBB; 0xCC; 0; 0x44; 0xFC; 0; 0x04] [0x5E; 0xC0]
    [] false false false false 0xFF;
  CRow (text "SLE D0  (CCR=0x04, Z=1)")
    [0x20; 0x3C; 0xAA; 0xBB; 0xCC; 0; 0x44; 0xFC; 0; 0x04] [0x5F; 0xC0]
    [] false false false false 0xFF;
  CRow (text "LINK A0,#-16 / UNLK A0  (net no-op)")
    [0x41; 0xEE; 0; 0x20] [0x4E; 0x50; 0xFF; 0xF0; 0x4E; 0x58]
    [] false false false false 0xFF;
  CRow (text "MOVE.L ([bd.W,A6]),D1  memind no-idx no-od (->DEADCAFE)")
    [] [0x22; 0x36; 0x01; 0x65; 0; 0]
    [0; 0; 0x18; 0x08; 0; 0; 0; 0; 0xDE; 0xAD; 0xCA; 0xFE; 0; 0; 0; 0;
     0; 0; 0; 0; 0; 0; 0; 0; 0; 0; 0; 0; 0; 0; 0; 0;
     0; 0; 0; 0; 0; 0; 0; 0; 0; 0; 0; 0; 0; 0; 0; 0;
     0; 0; 0; 0; 0; 0; 0; 0; 0; 0; 0; 0; 0; 0; 0; 0] true false false false 0xFF;
  CRow (text "MOVE.L ([bd.W,A6],D0.L*2,od.W),D1  postindexed scaled+od (D0=4)")
    [0x20; 0x3C; 0; 0; 0; 0x04] [0x22; 0x36; 0x0B; 0x26; 0; 0; 0; 0]
    [0; 0; 0x18; 0; 0; 0; 0; 0; 0xDE; 0xAD; 0xCA; 0xFE; 0; 0; 0; 0;
     0; 0; 0; 0; 0; 0; 0; 0; 0; 0; 0; 0; 0; 0; 0; 0;
     0; 0; 0; 0; 0; 0; 0; 0; 0; 0; 0; 0; 0; 0; 0; 0;
     0; 0; 0; 0; 0; 0; 0; 0; 0; 0; 0; 0; 0; 0; 0; 0] true false false false 0xFF].

Definition cpu_tests_10 : list CpuRow := [
  CRow (text "MOVE.L ([bd.W,A6,D0.L*2],od.W),D1  preindexed scaled+od (D0=2)")
    [0x20; 0x3C; 0; 0; 0; 0x02] [0x22; 0x36; 0x0B; 0x22; 0; 0; 0; 0]
    [0; 0; 0; 0; 0; 0; 0x18; 0x08; 0x0B; 0xAD; 0xC0; 0xDE; 0; 0; 0; 0;
     0; 0; 0; 0; 0; 0; 0; 0; 0; 0; 0; 0; 0; 0; 0; 0;
     0; 0; 0; 0; 0; 0; 0; 0; 0; 0; 0; 0; 0; 0; 0; 0;
     0; 0; 0; 0; 0; 0; 0; 0; 0; 0; 0; 0; 0; 0; 0; 0] true false false false 0xFF;
  CRow (text "MOVE.L ([bd.L,A6],D0.L*4,od.L),D1  postindexed long+long (D0=2)")
    [0x20; 0x3C; 0; 0; 0; 0x02] [0x22; 0x36; 0x0D; 0x37; 0; 0; 0; 0; 0; 0; 0; 0]
    [0; 0; 0x18; 0; 0; 0; 0; 0; 0xCA; 0xFE; 0xF0; 0x0D; 0; 0; 0; 0;
     0; 0; 0; 0; 0; 0; 0; 0; 0; 0; 0; 0; 0; 0; 0; 0;
     0; 0; 0; 0; 0; 0; 0; 0; 0; 0; 0; 0; 0; 0; 0; 0;
     0; 0; 0; 0; 0; 0; 0; 0; 0; 0; 0; 0; 0; 0; 0; 0] true false false false 0xFF;
  CRow (text "MOVE.L (d16,PC),D1  disp=4 -> reads 0x11223344")
    [] [0x22; 0x3A; 0; 0x04; 0x60; 0x04; 0x11; 0x22; 0x33; 0x44]
    [] false false false false 0xFF;
  CRow (text "MOVE.L (d8,PC,D0.W),D1  brief PC-idx (D0=0, disp=4)")
    [0x20; 0x3C; 0; 0; 0; 0] [0x22; 0x3B; 0; 0x04; 0x60; 0x04; 0x11; 0x22; 0x33; 0x44]
    [] false false false false 0xFF;
  CRow (text "MOVE.L (bd.W,PC,D0.W),D1  full PC-idx (D0=0, bd=6)")
    [0x20; 0x3C; 0; 0; 0; 0] [0x22; 0x3B; 0x01; 0x20; 0; 0x06; 0x60; 0x04; 0x11; 0x22; 0x33; 0x44]
    [] false false false false 0xFF;
  CRow (text "MOVE.L (xxx).W=$1820,D1  abs-short read")
    [] [0x22; 0x38; 0x18; 0x20]
    [0; 0; 0; 0; 0; 0; 0; 0; 0; 0; 0; 0; 0; 0; 0; 0;
     0; 0; 0; 0; 0; 0; 0; 0; 0; 0; 0; 0; 0; 0; 0; 0;
     0x12; 0x34; 0x56; 0x78; 0; 0; 0; 0; 0; 0; 0; 0; 0; 0; 0; 0;
     0; 0; 0; 0; 0; 0; 0; 0; 0; 0; 0; 0; 0; 0; 0; 0] true false false false 0xFF;
  CRow (text "EXG D1,D0  (D1=0xCAFE D0=0xBABE)")
    [0x20; 0x3C; 0; 0; 0xBA; 0xBE; 0x22; 0x3C; 0; 0; 0xCA; 0xFE] [0xC3; 0x40]
    [] false false false false 0xFF;
  CRow (text "EXG A2,A3  (A2=scratch+4 A3=scratch+8)")
    [0x45; 0xEE; 0; 0x04; 0x47; 0xEE; 0; 0x08] [0xC5; 0x4B]
    [] false false false false 0xFF;
  CRow (text "EXG D1,A0  (D1=0xDEADBEEF A0=scratch)")
    [0x22; 0x3C; 0xDE; 0xAD; 0xBE; 0xEF; 0x41; 0xEE; 0; 0] [0xC3; 0x88]
    [] false false false false 0xFF;
  CRow (text "MOVE.W D0,(A6)  (D0=0xAABB1234 -> [A6]=0x1234)")
    [0x20; 0x3C; 0xAA; 0xBB; 0x12; 0x34] [0x3C; 0x80]
    [] false false false false 0xFF;
  CRow (text "MOVE.B D0,(A6)  (D0=0xAABBCCDD -> [A6]=0xDD)")
    [0x20; 0x3C; 0xAA; 0xBB; 0xCC; 0xDD] [0x1C; 0x80]
    [] false false false false 0xFF;
  CRow (text "MOVE.W 0(A6),D0  (reads word 0xAABB)")
    [] [0x30; 0x2E; 0; 0]
    [0xAA; 0xBB; 0xCC; 0xDD; 0; 0; 0; 0; 0; 0; 0; 0; 0; 0; 0; 0;
     0; 0; 0; 0; 0; 0; 0; 0; 0; 0; 0; 0; 0; 0; 0; 0;
     0; 0; 0; 0; 0; 0; 0; 0; 0; 0; 0; 0; 0; 0; 0; 0;
     0; 0; 0; 0; 0; 0; 0; 0; 0; 0; 0; 0; 0; 0; 0; 0] true false false false 0xFF;
  CRow (text "MOVE.B (A1)+,D0  A1=scratch (reads byte 0xAA, A1+=1)")
    [0x43; 0xEE; 0; 0] [0x10; 0x19]
    [0xAA; 0xBB; 0xCC; 0xDD; 0; 0; 0; 0; 0; 0; 0; 0; 0; 0; 0; 0;
     0; 0; 0; 0; 0; 0; 0; 0; 0; 0; 0; 0; 0; 0; 0; 0;
     0; 0; 0; 0; 0; 0; 0; 0; 0; 0; 0; 0; 0; 0; 0; 0;
     0; 0; 0; 0; 0; 0; 0; 0; 0; 0; 0; 0; 0; 0; 0; 0] true false false false 0xFF;
  CRow (text "MOVE.W -(A1),D0  A1=scratch+4 (reads word 0xCCDD, A1-=2)")
    [0x43; 0xEE; 0; 0x04] [0x30; 0x21]
    [0xAA; 0xBB; 0xCC; 0xDD; 0; 0; 0; 0; 0; 0; 0; 0; 0; 0; 0; 0;
     0; 0; 0; 0; 0; 0; 0; 0; 0; 0; 0; 0; 0; 0; 0; 0;
     0; 0; 0; 0; 0; 0; 0; 0; 0; 0; 0; 0; 0; 0; 0; 0;
     0; 0; 0; 0; 0; 0; 0; 0; 0; 0; 0; 0; 0; 0; 0; 0] true false false false 0xFF;
  CRow (text "MOVEM.L D0-D3,-(A1)  predec  A1=scratch+0x20")
    [0x20; 0x3C; 0xAA; 0xAA; 0xAA; 0xAA; 0x22; 0x3C; 0xBB; 0xBB; 0xBB; 0xBB; 0x24; 0x3C; 0xCC; 0xCC;
     0xCC; 0xCC; 0x26; 0x3C; 0xDD; 0xDD; 0xDD; 0xDD; 0x43; 0xEE; 0; 0x20] [0x48; 0xE1; 0xF0; 0]
    [] false false false false 0xFF;
  CRow (text "MOVEM.L (A1)+,D4-D7  postinc  A1=scratch")
    [0x43; 0xEE; 0; 0] [0x4C; 0xD9; 0; 0xF0]
    [0xAA; 0xAA; 0xAA; 0xAA; 0xBB; 0xBB; 0xBB; 0xBB; 0xCC; 0xCC; 0xCC; 0xCC; 0xDD; 0xDD; 0xDD; 0xDD;
     0; 0; 0; 0; 0; 0; 0; 0; 0; 0; 0; 0; 0; 0; 0; 0;
     0; 0; 0; 0; 0; 0; 0; 0; 0; 0; 0; 0; 0; 0; 0; 0;
     0; 0; 0; 0; 0; 0; 0; 0; 0; 0; 0; 0; 0; 0; 0; 0] true false false false 0xFF;
  CRow (text "ADDA.L D0,A0  (D0=0x100, A0=scratch -> A0+=0x100)")
    [0x20; 0x3C; 0; 0; 0x01; 0; 0x41; 0xEE; 0; 0] [0xD1; 0xC0]
    [] false false false false 0xFF;
  CRow (text "SUBA.L D0,A0  (D0=0x10, A0=scratch+0x20 -> A0-=0x10)")
    [0x20; 0x3C; 0; 0; 0; 0x10; 0x41; 0xEE; 0; 0x20] [0x91; 0xC0]
    [] false false false false 0xFF;
  CRow (text "ADDA.W D0,A0  (D0=0xFFFFFFFE sign-ext to .L; A0=scratch+0x20)")
    [0x20; 0x3C; 0xFF; 0xFF; 0xFF; 0xFE; 0x41; 0xEE; 0; 0x20] [0xD0; 0xC0]
    [] false false false false 0xFF;
  CRow (text "CMPA.L D0,A0  (D0=scratch+8, A0=scratch+8 -> Z=1)")
    [0x20; 0x3C; 0; 0; 0x18; 0x08; 0x41; 0xEE; 0; 0x08] [0xB1; 0xC0]
    [] false false false false 0xFF;
  CRow (text "ADDA.L (A1),A0  A0=scratch+0x20, A1=scratch (reads $10)")
    [0x41; 0xEE; 0; 0x20; 0x43; 0xEE; 0; 0] [0xD1; 0xD1]
    [0; 0; 0; 0x10; 0; 0; 0; 0; 0; 0; 0; 0; 0; 0; 0; 0;
     0; 0; 0; 0; 0; 0; 0; 0; 0; 0; 0; 0; 0; 0; 0; 0;
     0; 0; 0; 0; 0; 0; 0; 0; 0; 0; 0; 0; 0; 0; 0; 0;
     0; 0; 0; 0; 0; 0; 0; 0; 0; 0; 0; 0; 0; 0; 0; 0] true false false false 0xFF;
  CRow (text "ASL.W #4,D0  (D0=0x12345678)")
    [0x20; 0x3C; 0x12; 0x34; 0x56; 0x78] [0xE9; 0x40]
    [] false false false false 0xFF;
  CRow (text "ASL.B D1,D0  reg-count (D0=0x000000F0, D1=2)")
    [0x20; 0x3C; 0; 0; 0; 0xF0; 0x22; 0x3C; 0; 0; 0; 0x02] [0xE3; 0x20]
    [] false false false false 0xFF;
  CRow (text "ASR.W #4,D0  (D0=0x12345678)")
    [0x20; 0x3C; 0x12; 0x34; 0x56; 0x78] [0xE8; 0x40]
    [] false false false false 0xFF;
  CRow (text "ASR.B D1,D0  reg-count (D0=0x000000F0, D1=2)")
    [0x20; 0x3C; 0; 0; 0; 0xF0; 0x22; 0x3C; 0; 0; 0; 0x02] [0xE2; 0x20]
    [] false false false false 0xFF;
  CRow (text "LSR.W #4,D0  (D0=0x12345678)")
    [0x20; 0x3C; 0x12; 0x34; 0x56; 0x78] [0xE8; 0x48]
    [] false false false false 0xFF;
  CRow (text "LSR.B D1,D0  reg-count (D0=0x000000F0, D1=2)")
    [0x20; 0x3C; 0; 0; 0; 0xF0; 0x22; 0x3C; 0; 0; 0; 0x02] [0xE2; 0x28]
    [] false false false false 0xFF;
  CRow (text "ROL.W #4,D0  (D0=0x12345678)")
    [0x20; 0x3C; 0x12; 0x34; 0x56; 0x78] [0xE9; 0x58]
    [] false false false false 0xFF;
  CRow (text "ROL.B D1,D0  reg-count (D0=0x000000F0, D1=2)")
    [0x20; 0x3C; 0; 0; 0; 0xF0; 0x22; 0x3C; 0; 0; 0; 0x02] [0xE3; 0x38]
    [] false false false false 0xFF;
  CRow (text "TAS D0  (D0=0x00 -> Z=1, D0.B=0x80)")
    [0x20; 0x3C; 0; 0; 0; 0] [0x4A; 0xC0]
    [] false false false false 0xFF;
  CRow (text "TAS D0  (D0=0x7F -> N=0,Z=0; D0.B=0xFF)")
    [0x20; 0x3C; 0; 0; 0; 0x7F] [0x4A; 0xC0]
    [] false false false false 0xFF;
  CRow (text "TAS D0  (D0=0x80 -> N=1,Z=0; D0.B=0x80)")
    [0x20; 0x3C; 0; 0; 0; 0x80] [0x4A; 0xC0]
    [] false false false false 0xFF;
  CRow (text "TAS (A6)  (ram[0]=0x40 -> N=0,Z=0; ram[0]=0xC0)")
    [] [0x4A; 0xD6]
    [0x40; 0; 0; 0; 0; 0; 0; 0; 0; 0; 0; 0; 0; 0; 0; 0;
     0; 0; 0; 0; 0; 0; 0; 0; 0; 0; 0; 0; 0; 0; 0; 0;
     0; 0; 0; 0; 0; 0; 0; 0; 0; 0; 0; 0; 0; 0; 0; 0;
     0; 0; 0; 0; 0; 0; 0; 0; 0; 0; 0; 0; 0; 0; 0; 0] true false false false 0xFF;
  CRow (text "CMP2.W (A6),D0  in-range  (D0=0x20, bounds[$10,$30])")
    [0x20; 0x3C; 0; 0; 0; 0x20] [0x02; 0xD6; 0; 0]
    [0; 0x10; 0; 0x30; 0; 0; 0; 0; 0; 0; 0; 0; 0; 0; 0; 0;
     0; 0; 0; 0; 0; 0; 0; 0; 0; 0; 0; 0; 0; 0; 0; 0;
     0; 0; 0; 0; 0; 0; 0; 0; 0; 0; 0; 0; 0; 0; 0; 0;
     0; 0; 0; 0; 0; 0; 0; 0; 0; 0; 0; 0; 0; 0; 0; 0] true false false false 0xF7;
  CRow (text "CMP2.W (A6),D0  on-boundary  (D0=0x10 -> Z=1)")
    [0x20; 0x3C; 0; 0; 0; 0x10] [0x02; 0xD6; 0; 0]
    [0; 0x10; 0; 0x30; 0; 0; 0; 0; 0; 0; 0; 0; 0; 0; 0; 0;
     0; 0; 0; 0; 0; 0; 0; 0; 0; 0; 0; 0; 0; 0; 0; 0;
     0; 0; 0; 0; 0; 0; 0; 0; 0; 0; 0; 0; 0; 0; 0; 0;
     0; 0; 0; 0; 0; 0; 0; 0; 0; 0; 0; 0; 0; 0; 0; 0] true false false false 0xF7;
  CRow (text "CMP2.W (A6),D0  out-of-range  (D0=0x100 -> C=1)")
    [0x20; 0x3C; 0; 0; 0x01; 0] [0x02; 0xD6; 0; 0]
    [0; 0x10; 0; 0x30; 0; 0; 0; 0; 0; 0; 0; 0; 0; 0; 0; 0;
     0; 0; 0; 0; 0; 0; 0; 0; 0; 0; 0; 0; 0; 0; 0; 0;
     0; 0; 0; 0; 0; 0; 0; 0; 0; 0; 0; 0; 0; 0; 0; 0;
     0; 0; 0; 0; 0; 0; 0; 0; 0; 0; 0; 0; 0; 0; 0; 0] true false false false 0xF7;
  CRow (text "CHK2.W (A6),D0  in-range  (D0=0x20, no trap)")
    [0x20; 0x3C; 0; 0; 0; 0x20] [0x02; 0xD6; 0x08; 0]
    [0; 0x10; 0; 0x30; 0; 0; 0; 0; 0; 0; 0; 0; 0; 0; 0; 0;
     0; 0; 0; 0; 0; 0; 0; 0; 0; 0; 0; 0; 0; 0; 0; 0;
     0; 0; 0; 0; 0; 0; 0; 0; 0; 0; 0; 0; 0; 0; 0; 0;
     0; 0; 0; 0; 0; 0; 0; 0; 0; 0; 0; 0; 0; 0; 0; 0] true false false false 0xF7].

Definition cpu_tests_11 : list CpuRow := [
  CRow (text "TRAPV  V=0 (no trap, falls through)")
    [0x44; 0xFC; 0; 0] [0x4E; 0x76]
    [] false false false false 0xFF;
  CRow (text "CMP.L (A6),D0  (D0=0x12345678 vs ram=0x12345678 -> Z=1)")
    [0x20; 0x3C; 0x12; 0x34; 0x56; 0x78] [0xB0; 0x96]
    [0x12; 0x34; 0x56; 0x78; 0; 0; 0; 0; 0; 0; 0; 0; 0; 0; 0; 0;
     0; 0; 0; 0; 0; 0; 0; 0; 0; 0; 0; 0; 0; 0; 0; 0;
     0; 0; 0; 0; 0; 0; 0; 0; 0; 0; 0; 0; 0; 0; 0; 0;
     0; 0; 0; 0; 0; 0; 0; 0; 0; 0; 0; 0; 0; 0; 0; 0] true false false false 0xFF;
  CRow (text "ADDQ.L #5,A0  (A0=scratch+0x10 -> +5; CCR unaffected)")
    [0x41; 0xEE; 0; 0x10; 0x44; 0xFC; 0; 0x1F] [0x5A; 0x88]
    [] false false false false 0xFF;
  CRow (text "SUBQ.L #3,A1  (A1=scratch+0x10 -> -3; CCR unaffected)")
    [0x43; 0xEE; 0; 0x10; 0x44; 0xFC; 0; 0x1F] [0x57; 0x89]
    [] false false false false 0xFF;
  CRow (text "ADD.L (A6),D0  mem-src (D0=0x12345678)")
    [0x20; 0x3C; 0x12; 0x34; 0x56; 0x78] [0xD0; 0x96]
    [0; 0x01; 0; 0x02; 0; 0; 0; 0; 0; 0; 0; 0; 0; 0; 0; 0;
     0; 0; 0; 0; 0; 0; 0; 0; 0; 0; 0; 0; 0; 0; 0; 0;
     0; 0; 0; 0; 0; 0; 0; 0; 0; 0; 0; 0; 0; 0; 0; 0;
     0; 0; 0; 0; 0; 0; 0; 0; 0; 0; 0; 0; 0; 0; 0; 0] true false false false 0xFF;
  CRow (text "ADD.W (A6),D0  mem-src (D0=0x12345678)")
    [0x20; 0x3C; 0x12; 0x34; 0x56; 0x78] [0xD0; 0x56]
    [0; 0x01; 0; 0x02; 0; 0; 0; 0; 0; 0; 0; 0; 0; 0; 0; 0;
     0; 0; 0; 0; 0; 0; 0; 0; 0; 0; 0; 0; 0; 0; 0; 0;
     0; 0; 0; 0; 0; 0; 0; 0; 0; 0; 0; 0; 0; 0; 0; 0;
     0; 0; 0; 0; 0; 0; 0; 0; 0; 0; 0; 0; 0; 0; 0; 0] true false false false 0xFF;
  CRow (text "ADD.B (A6),D0  mem-src (D0=0x12345678)")
    [0x20; 0x3C; 0x12; 0x34; 0x56; 0x78] [0xD0; 0x16]
    [0; 0x01; 0; 0x02; 0; 0; 0; 0; 0; 0; 0; 0; 0; 0; 0; 0;
     0; 0; 0; 0; 0; 0; 0; 0; 0; 0; 0; 0; 0; 0; 0; 0;
     0; 0; 0; 0; 0; 0; 0; 0; 0; 0; 0; 0; 0; 0; 0; 0;
     0; 0; 0; 0; 0; 0; 0; 0; 0; 0; 0; 0; 0; 0; 0; 0] true false false false 0xFF;
  CRow (text "SUB.L (A6),D0  mem-src (D0=0x12345678)")
    [0x20; 0x3C; 0x12; 0x34; 0x56; 0x78] [0x90; 0x96]
    [0; 0x01; 0; 0x02; 0; 0; 0; 0; 0; 0; 0; 0; 0; 0; 0; 0;
     0; 0; 0; 0; 0; 0; 0; 0; 0; 0; 0; 0; 0; 0; 0; 0;
     0; 0; 0; 0; 0; 0; 0; 0; 0; 0; 0; 0; 0; 0; 0; 0;
     0; 0; 0; 0; 0; 0; 0; 0; 0; 0; 0; 0; 0; 0; 0; 0] true false false false 0xFF;
  CRow (text "SUB.W (A6),D0  mem-src (D0=0x12345678)")
    [0x20; 0x3C; 0x12; 0x34; 0x56; 0x78] [0x90; 0x56]
    [0; 0x01; 0; 0x02; 0; 0; 0; 0; 0; 0; 0; 0; 0; 0; 0; 0;
     0; 0; 0; 0; 0; 0; 0; 0; 0; 0; 0; 0; 0; 0; 0; 0;
     0; 0; 0; 0; 0; 0; 0; 0; 0; 0; 0; 0; 0; 0; 0; 0;
     0; 0; 0; 0; 0; 0; 0; 0; 0; 0; 0; 0; 0; 0; 0; 0] true false false false 0xFF;
  CRow (text "SUB.B (A6),D0  mem-src (D0=0x12345678)")
    [0x20; 0x3C; 0x12; 0x34; 0x56; 0x78] [0x90; 0x16]
    [0; 0x01; 0; 0x02; 0; 0; 0; 0; 0; 0; 0; 0; 0; 0; 0; 0;
     0; 0; 0; 0; 0; 0; 0; 0; 0; 0; 0; 0; 0; 0; 0; 0;
     0; 0; 0; 0; 0; 0; 0; 0; 0; 0; 0; 0; 0; 0; 0; 0;
     0; 0; 0; 0; 0; 0; 0; 0; 0; 0; 0; 0; 0; 0; 0; 0] true false false false 0xFF;
  CRow (text "AND.L (A6),D0  mem-src (D0=0x12345678)")
    [0x20; 0x3C; 0x12; 0x34; 0x56; 0x78] [0xC0; 0x96]
    [0; 0x01; 0; 0x02; 0; 0; 0; 0; 0; 0; 0; 0; 0; 0; 0; 0;
     0; 0; 0; 0; 0; 0; 0; 0; 0; 0; 0; 0; 0; 0; 0; 0;
     0; 0; 0; 0; 0; 0; 0; 0; 0; 0; 0; 0; 0; 0; 0; 0;
     0; 0; 0; 0; 0; 0; 0; 0; 0; 0; 0; 0; 0; 0; 0; 0] true false false false 0xFF;
  CRow (text "AND.W (A6),D0  mem-src (D0=0x12345678)")
    [0x20; 0x3C; 0x12; 0x34; 0x56; 0x78] [0xC0; 0x56]
    [0; 0x01; 0; 0x02; 0; 0; 0; 0; 0; 0; 0; 0; 0; 0; 0; 0;
     0; 0; 0; 0; 0; 0; 0; 0; 0; 0; 0; 0; 0; 0; 0; 0;
     0; 0; 0; 0; 0; 0; 0; 0; 0; 0; 0; 0; 0; 0; 0; 0;
     0; 0; 0; 0; 0; 0; 0; 0; 0; 0; 0; 0; 0; 0; 0; 0] true false false false 0xFF;
  CRow (text "AND.B (A6),D0  mem-src (D0=0x12345678)")
    [0x20; 0x3C; 0x12; 0x34; 0x56; 0x78] [0xC0; 0x16]
    [0; 0x01; 0; 0x02; 0; 0; 0; 0; 0; 0; 0; 0; 0; 0; 0; 0;
     0; 0; 0; 0; 0; 0; 0; 0; 0; 0; 0; 0; 0; 0; 0; 0;
     0; 0; 0; 0; 0; 0; 0; 0; 0; 0; 0; 0; 0; 0; 0; 0;
     0; 0; 0; 0; 0; 0; 0; 0; 0; 0; 0; 0; 0; 0; 0; 0] true false false false 0xFF;
  CRow (text "OR.L (A6),D0  mem-src (D0=0x12345678)")
    [0x20; 0x3C; 0x12; 0x34; 0x56; 0x78] [0x80; 0x96]
    [0; 0x01; 0; 0x02; 0; 0; 0; 0; 0; 0; 0; 0; 0; 0; 0; 0;
     0; 0; 0; 0; 0; 0; 0; 0; 0; 0; 0; 0; 0; 0; 0; 0;
     0; 0; 0; 0; 0; 0; 0; 0; 0; 0; 0; 0; 0; 0; 0; 0;
     0; 0; 0; 0; 0; 0; 0; 0; 0; 0; 0; 0; 0; 0; 0; 0] true false false false 0xFF;
  CRow (text "OR.W (A6),D0  mem-src (D0=0x12345678)")
    [0x20; 0x3C; 0x12; 0x34; 0x56; 0x78] [0x80; 0x56]
    [0; 0x01; 0; 0x02; 0; 0; 0; 0; 0; 0; 0; 0; 0; 0; 0; 0;
     0; 0; 0; 0; 0; 0; 0; 0; 0; 0; 0; 0; 0; 0; 0; 0;
     0; 0; 0; 0; 0; 0; 0; 0; 0; 0; 0; 0; 0; 0; 0; 0;
     0; 0; 0; 0; 0; 0; 0; 0; 0; 0; 0; 0; 0; 0; 0; 0] true false false false 0xFF;
  CRow (text "OR.B (A6),D0  mem-src (D0=0x12345678)")
    [0x20; 0x3C; 0x12; 0x34; 0x56; 0x78] [0x80; 0x16]
    [0; 0x01; 0; 0x02; 0; 0; 0; 0; 0; 0; 0; 0; 0; 0; 0; 0;
     0; 0; 0; 0; 0; 0; 0; 0; 0; 0; 0; 0; 0; 0; 0; 0;
     0; 0; 0; 0; 0; 0; 0; 0; 0; 0; 0; 0; 0; 0; 0; 0;
     0; 0; 0; 0; 0; 0; 0; 0; 0; 0; 0; 0; 0; 0; 0; 0] true false false false 0xFF;
  CRow (text "ADD.L D0,(A6)  mem-dst (D0=0xCAFEBABE)")
    [0x20; 0x3C; 0xCA; 0xFE; 0xBA; 0xBE] [0xD1; 0x96]
    [0x0A; 0x0B; 0x0C; 0x0D; 0; 0; 0; 0; 0; 0; 0; 0; 0; 0; 0; 0;
     0; 0; 0; 0; 0; 0; 0; 0; 0; 0; 0; 0; 0; 0; 0; 0;
     0; 0; 0; 0; 0; 0; 0; 0; 0; 0; 0; 0; 0; 0; 0; 0;
     0; 0; 0; 0; 0; 0; 0; 0; 0; 0; 0; 0; 0; 0; 0; 0] true false false false 0xFF;
  CRow (text "ADD.W D0,(A6)  mem-dst (D0=0xCAFEBABE)")
    [0x20; 0x3C; 0xCA; 0xFE; 0xBA; 0xBE] [0xD1; 0x56]
    [0x0A; 0x0B; 0x0C; 0x0D; 0; 0; 0; 0; 0; 0; 0; 0; 0; 0; 0; 0;
     0; 0; 0; 0; 0; 0; 0; 0; 0; 0; 0; 0; 0; 0; 0; 0;
     0; 0; 0; 0; 0; 0; 0; 0; 0; 0; 0; 0; 0; 0; 0; 0;
     0; 0; 0; 0; 0; 0; 0; 0; 0; 0; 0; 0; 0; 0; 0; 0] true false false false 0xFF;
  CRow (text "ADD.B D0,(A6)  mem-dst (D0=0xCAFEBABE)")
    [0x20; 0x3C; 0xCA; 0xFE; 0xBA; 0xBE] [0xD1; 0x16]
    [0x0A; 0x0B; 0x0C; 0x0D; 0; 0; 0; 0; 0; 0; 0; 0; 0; 0; 0; 0;
     0; 0; 0; 0; 0; 0; 0; 0; 0; 0; 0; 0; 0; 0; 0; 0;
     0; 0; 0; 0; 0; 0; 0; 0; 0; 0; 0; 0; 0; 0; 0; 0;
     0; 0; 0; 0; 0; 0; 0; 0; 0; 0; 0; 0; 0; 0; 0; 0] true false false false 0xFF;
  CRow (text "SUB.L D0,(A6)  mem-dst (D0=0xCAFEBABE)")
    [0x20; 0x3C; 0xCA; 0xFE; 0xBA; 0xBE] [0x91; 0x96]
    [0x0A; 0x0B; 0x0C; 0x0D; 0; 0; 0; 0; 0; 0; 0; 0; 0; 0; 0; 0;
     0; 0; 0; 0; 0; 0; 0; 0; 0; 0; 0; 0; 0; 0; 0; 0;
     0; 0; 0; 0; 0; 0; 0; 0; 0; 0; 0; 0; 0; 0; 0; 0;
     0; 0; 0; 0; 0; 0; 0; 0; 0; 0; 0; 0; 0; 0; 0; 0] true false false false 0xFF;
  CRow (text "SUB.W D0,(A6)  mem-dst (D0=0xCAFEBABE)")
    [0x20; 0x3C; 0xCA; 0xFE; 0xBA; 0xBE] [0x91; 0x56]
    [0x0A; 0x0B; 0x0C; 0x0D; 0; 0; 0; 0; 0; 0; 0; 0; 0; 0; 0; 0;
     0; 0; 0; 0; 0; 0; 0; 0; 0; 0; 0; 0; 0; 0; 0; 0;
     0; 0; 0; 0; 0; 0; 0; 0; 0; 0; 0; 0; 0; 0; 0; 0;
     0; 0; 0; 0; 0; 0; 0; 0; 0; 0; 0; 0; 0; 0; 0; 0] true false false false 0xFF;
  CRow (text "SUB.B D0,(A6)  mem-dst (D0=0xCAFEBABE)")
    [0x20; 0x3C; 0xCA; 0xFE; 0xBA; 0xBE] [0x91; 0x16]
    [0x0A; 0x0B; 0x0C; 0x0D; 0; 0; 0; 0; 0; 0; 0; 0; 0; 0; 0; 0;
     0; 0; 0; 0; 0; 0; 0; 0; 0; 0; 0; 0; 0; 0; 0; 0;
     0; 0; 0; 0; 0; 0; 0; 0; 0; 0; 0; 0; 0; 0; 0; 0;
     0; 0; 0; 0; 0; 0; 0; 0; 0; 0; 0; 0; 0; 0; 0; 0] true false false false 0xFF;
  CRow (text "AND.L D0,(A6)  mem-dst (D0=0xCAFEBABE)")
    [0x20; 0x3C; 0xCA; 0xFE; 0xBA; 0xBE] [0xC1; 0x96]
    [0x0A; 0x0B; 0x0C; 0x0D; 0; 0; 0; 0; 0; 0; 0; 0; 0; 0; 0; 0;
     0; 0; 0; 0; 0; 0; 0; 0; 0; 0; 0; 0; 0; 0; 0; 0;
     0; 0; 0; 0; 0; 0; 0; 0; 0; 0; 0; 0; 0; 0; 0; 0;
     0; 0; 0; 0; 0; 0; 0; 0; 0; 0; 0; 0; 0; 0; 0; 0] true false false false 0xFF;
  CRow (text "AND.W D0,(A6)  mem-dst (D0=0xCAFEBABE)")
    [0x20; 0x3C; 0xCA; 0xFE; 0xBA; 0xBE] [0xC1; 0x56]
    [0x0A; 0x0B; 0x0C; 0x0D; 0; 0; 0; 0; 0; 0; 0; 0; 0; 0; 0; 0;
     0; 0; 0; 0; 0; 0; 0; 0; 0; 0; 0; 0; 0; 0; 0; 0;
     0; 0; 0; 0; 0; 0; 0; 0; 0; 0; 0; 0; 0; 0; 0; 0;
     0; 0; 0; 0; 0; 0; 0; 0; 0; 0; 0; 0; 0; 0; 0; 0] true false false false 0xFF;
  CRow (text "AND.B D0,(A6)  mem-dst (D0=0xCAFEBABE)")
    [0x20; 0x3C; 0xCA; 0xFE; 0xBA; 0xBE] [0xC1; 0x16]
    [0x0A; 0x0B; 0x0C; 0x0D; 0; 0; 0; 0; 0; 0; 0; 0; 0; 0; 0; 0;
     0; 0; 0; 0; 0; 0; 0; 0; 0; 0; 0; 0; 0; 0; 0; 0;
     0; 0; 0; 0; 0; 0; 0; 0; 0; 0; 0; 0; 0; 0; 0; 0;
     0; 0; 0; 0; 0; 0; 0; 0; 0; 0; 0; 0; 0; 0; 0; 0] true false false false 0xFF;
  CRow (text "OR.L D0,(A6)  mem-dst (D0=0xCAFEBABE)")
    [0x20; 0x3C; 0xCA; 0xFE; 0xBA; 0xBE] [0x81; 0x96]
    [0x0A; 0x0B; 0x0C; 0x0D; 0; 0; 0; 0; 0; 0; 0; 0; 0; 0; 0; 0;
     0; 0; 0; 0; 0; 0; 0; 0; 0; 0; 0; 0; 0; 0; 0; 0;
     0; 0; 0; 0; 0; 0; 0; 0; 0; 0; 0; 0; 0; 0; 0; 0;
     0; 0; 0; 0; 0; 0; 0; 0; 0; 0; 0; 0; 0; 0; 0; 0] true false false false 0xFF;
  CRow (text "OR.W D0,(A6)  mem-dst (D0=0xCAFEBABE)")
    [0x20; 0x3C; 0xCA; 0xFE; 0xBA; 0xBE] [0x81; 0x56]
    [0x0A; 0x0B; 0x0C; 0x0D; 0; 0; 0; 0; 0; 0; 0; 0; 0; 0; 0; 0;
     0; 0; 0; 0; 0; 0; 0; 0; 0; 0; 0; 0; 0; 0; 0; 0;
     0; 0; 0; 0; 0; 0; 0; 0; 0; 0; 0; 0; 0; 0; 0; 0;
     0; 0; 0; 0; 0; 0; 0; 0; 0; 0; 0; 0; 0; 0; 0; 0] true false false false 0xFF;
  CRow (text "OR.B D0,(A6)  mem-dst (D0=0xCAFEBABE)")
    [0x20; 0x3C; 0xCA; 0xFE; 0xBA; 0xBE] [0x81; 0x16]
    [0x0A; 0x0B; 0x0C; 0x0D; 0; 0; 0; 0; 0; 0; 0; 0; 0; 0; 0; 0;
     0; 0; 0; 0; 0; 0; 0; 0; 0; 0; 0; 0; 0; 0; 0; 0;
     0; 0; 0; 0; 0; 0; 0; 0; 0; 0; 0; 0; 0; 0; 0; 0;
     0; 0; 0; 0; 0; 0; 0; 0; 0; 0; 0; 0; 0; 0; 0; 0] true false false false 0xFF;
  CRow (text "EOR.L D0,(A6)  mem-dst (D0=0xCAFEBABE)")
    [0x20; 0x3C; 0xCA; 0xFE; 0xBA; 0xBE] [0xB1; 0x96]
    [0x0F; 0xF0; 0x55; 0xAA; 0; 0; 0; 0; 0; 0; 0; 0; 0; 0; 0; 0;
     0; 0; 0; 0; 0; 0; 0; 0; 0; 0; 0; 0; 0; 0; 0; 0;
     0; 0; 0; 0; 0; 0; 0; 0; 0; 0; 0; 0; 0; 0; 0; 0;
     0; 0; 0; 0; 0; 0; 0; 0; 0; 0; 0; 0; 0; 0; 0; 0] true false false false 0xFF;
  CRow (text "EOR.W D0,(A6)  mem-dst (D0=0xCAFEBABE)")
    [0x20; 0x3C; 0xCA; 0xFE; 0xBA; 0xBE] [0xB1; 0x56]
    [0x0F; 0xF0; 0x55; 0xAA; 0; 0; 0; 0; 0; 0; 0; 0; 0; 0; 0; 0;
     0; 0; 0; 0; 0; 0; 0; 0; 0; 0; 0; 0; 0; 0; 0; 0;
     0; 0; 0; 0; 0; 0; 0; 0; 0; 0; 0; 0; 0; 0; 0; 0;
     0; 0; 0; 0; 0; 0; 0; 0; 0; 0; 0; 0; 0; 0; 0; 0] true false false false 0xFF;
  CRow (text "EOR.B D0,(A6)  mem-dst (D0=0xCAFEBABE)")
    [0x20; 0x3C; 0xCA; 0xFE; 0xBA; 0xBE] [0xB1; 0x16]
    [0x0F; 0xF0; 0x55; 0xAA; 0; 0; 0; 0; 0; 0; 0; 0; 0; 0; 0; 0;
     0; 0; 0; 0; 0; 0; 0; 0; 0; 0; 0; 0; 0; 0; 0; 0;
     0; 0; 0; 0; 0; 0; 0; 0; 0; 0; 0; 0; 0; 0; 0; 0;
     0; 0; 0; 0; 0; 0; 0; 0; 0; 0; 0; 0; 0; 0; 0; 0] true false false false 0xFF;
  CRow (text "ADDI.L #0x12345678,(A6)")
    [] [0x06; 0x96; 0x12; 0x34; 0x56; 0x78]
    [0; 0; 0; 0x10; 0; 0; 0; 0; 0; 0; 0; 0; 0; 0; 0; 0;
     0; 0; 0; 0; 0; 0; 0; 0; 0; 0; 0; 0; 0; 0; 0; 0;
     0; 0; 0; 0; 0; 0; 0; 0; 0; 0; 0; 0; 0; 0; 0; 0;
     0; 0; 0; 0; 0; 0; 0; 0; 0; 0; 0; 0; 0; 0; 0; 0] true false false false 0xFF;
  CRow (text "ADDI.W #0x1234,(A6)")
    [] [0x06; 0x56; 0x12; 0x34]
    [0; 0; 0; 0x10; 0; 0; 0; 0; 0; 0; 0; 0; 0; 0; 0; 0;
     0; 0; 0; 0; 0; 0; 0; 0; 0; 0; 0; 0; 0; 0; 0; 0;
     0; 0; 0; 0; 0; 0; 0; 0; 0; 0; 0; 0; 0; 0; 0; 0;
     0; 0; 0; 0; 0; 0; 0; 0; 0; 0; 0; 0; 0; 0; 0; 0] true false false false 0xFF;
  CRow (text "ADDI.B #0x55,(A6)")
    [] [0x06; 0x16; 0; 0x55]
    [0; 0; 0; 0x10; 0; 0; 0; 0; 0; 0; 0; 0; 0; 0; 0; 0;
     0; 0; 0; 0; 0; 0; 0; 0; 0; 0; 0; 0; 0; 0; 0; 0;
     0; 0; 0; 0; 0; 0; 0; 0; 0; 0; 0; 0; 0; 0; 0; 0;
     0; 0; 0; 0; 0; 0; 0; 0; 0; 0; 0; 0; 0; 0; 0; 0] true false false false 0xFF;
  CRow (text "SUBI.L #0x12345678,(A6)")
    [] [0x04; 0x96; 0x12; 0x34; 0x56; 0x78]
    [0; 0; 0; 0x10; 0; 0; 0; 0; 0; 0; 0; 0; 0; 0; 0; 0;
     0; 0; 0; 0; 0; 0; 0; 0; 0; 0; 0; 0; 0; 0; 0; 0;
     0; 0; 0; 0; 0; 0; 0; 0; 0; 0; 0; 0; 0; 0; 0; 0;
     0; 0; 0; 0; 0; 0; 0; 0; 0; 0; 0; 0; 0; 0; 0; 0] true false false false 0xFF;
  CRow (text "SUBI.W #0x1234,(A6)")
    [] [0x04; 0x56; 0x12; 0x34]
    [0; 0; 0; 0x10; 0; 0; 0; 0; 0; 0; 0; 0; 0; 0; 0; 0;
     0; 0; 0; 0; 0; 0; 0; 0; 0; 0; 0; 0; 0; 0; 0; 0;
     0; 0; 0; 0; 0; 0; 0; 0; 0; 0; 0; 0; 0; 0; 0; 0;
     0; 0; 0; 0; 0; 0; 0; 0; 0; 0; 0; 0; 0; 0; 0; 0] true false false false 0xFF;
  CRow (text "SUBI.B #0x55,(A6)")
    [] [0x04; 0x16; 0; 0x55]
    [0; 0; 0; 0x10; 0; 0; 0; 0; 0; 0; 0; 0; 0; 0; 0; 0;
     0; 0; 0; 0; 0; 0; 0; 0; 0; 0; 0; 0; 0; 0; 0; 0;
     0; 0; 0; 0; 0; 0; 0; 0; 0; 0; 0; 0; 0; 0; 0; 0;
     0; 0; 0; 0; 0; 0; 0; 0; 0; 0; 0; 0; 0; 0; 0; 0] true false false false 0xFF].

Definition cpu_tests_12 : list CpuRow := [
  CRow (text "ANDI.L #0x12345678,(A6)")
    [] [0x02; 0x96; 0x12; 0x34; 0x56; 0x78]
    [0; 0; 0; 0x10; 0; 0; 0; 0; 0; 0; 0; 0; 0; 0; 0; 0;
     0; 0; 0; 0; 0; 0; 0; 0; 0; 0; 0; 0; 0; 0; 0; 0;
     0; 0; 0; 0; 0; 0; 0; 0; 0; 0; 0; 0; 0; 0; 0; 0;
     0; 0; 0; 0; 0; 0; 0; 0; 0; 0; 0; 0; 0; 0; 0; 0] true false false false 0xFF;
  CRow (text "ANDI.W #0x1234,(A6)")
    [] [0x02; 0x56; 0x12; 0x34]
    [0; 0; 0; 0x10; 0; 0; 0; 0; 0; 0; 0; 0; 0; 0; 0; 0;
     0; 0; 0; 0; 0; 0; 0; 0; 0; 0; 0; 0; 0; 0; 0; 0;
     0; 0; 0; 0; 0; 0; 0; 0; 0; 0; 0; 0; 0; 0; 0; 0;
     0; 0; 0; 0; 0; 0; 0; 0; 0; 0; 0; 0; 0; 0; 0; 0] true false false false 0xFF;
  CRow (text "ANDI.B #0x55,(A6)")
    [] [0x02; 0x16; 0; 0x55]
    [0; 0; 0; 0x10; 0; 0; 0; 0; 0; 0; 0; 0; 0; 0; 0; 0;
     0; 0; 0; 0; 0; 0; 0; 0; 0; 0; 0; 0; 0; 0; 0; 0;
     0; 0; 0; 0; 0; 0; 0; 0; 0; 0; 0; 0; 0; 0; 0; 0;
     0; 0; 0; 0; 0; 0; 0; 0; 0; 0; 0; 0; 0; 0; 0; 0] true false false false 0xFF;
  CRow (text "ORI.L #0x12345678,(A6)")
    [] [0; 0x96; 0x12; 0x34; 0x56; 0x78]
    [0; 0; 0; 0x10; 0; 0; 0; 0; 0; 0; 0; 0; 0; 0; 0; 0;
     0; 0; 0; 0; 0; 0; 0; 0; 0; 0; 0; 0; 0; 0; 0; 0;
     0; 0; 0; 0; 0; 0; 0; 0; 0; 0; 0; 0; 0; 0; 0; 0;
     0; 0; 0; 0; 0; 0; 0; 0; 0; 0; 0; 0; 0; 0; 0; 0] true false false false 0xFF;
  CRow (text "ORI.W #0x1234,(A6)")
    [] [0; 0x56; 0x12; 0x34]
    [0; 0; 0; 0x10; 0; 0; 0; 0; 0; 0; 0; 0; 0; 0; 0; 0;
     0; 0; 0; 0; 0; 0; 0; 0; 0; 0; 0; 0; 0; 0; 0; 0;
     0; 0; 0; 0; 0; 0; 0; 0; 0; 0; 0; 0; 0; 0; 0; 0;
     0; 0; 0; 0; 0; 0; 0; 0; 0; 0; 0; 0; 0; 0; 0; 0] true false false false 0xFF;
  CRow (text "ORI.B #0x55,(A6)")
    [] [0; 0x16; 0; 0x55]
    [0; 0; 0; 0x10; 0; 0; 0; 0; 0; 0; 0; 0; 0; 0; 0; 0;
     0; 0; 0; 0; 0; 0; 0; 0; 0; 0; 0; 0; 0; 0; 0; 0;
     0; 0; 0; 0; 0; 0; 0; 0; 0; 0; 0; 0; 0; 0; 0; 0;
     0; 0; 0; 0; 0; 0; 0; 0; 0; 0; 0; 0; 0; 0; 0; 0] true false false false 0xFF;
  CRow (text "EORI.L #0x12345678,(A6)")
    [] [0x0A; 0x96; 0x12; 0x34; 0x56; 0x78]
    [0; 0; 0; 0x10; 0; 0; 0; 0; 0; 0; 0; 0; 0; 0; 0; 0;
     0; 0; 0; 0; 0; 0; 0; 0; 0; 0; 0; 0; 0; 0; 0; 0;
     0; 0; 0; 0; 0; 0; 0; 0; 0; 0; 0; 0; 0; 0; 0; 0;
     0; 0; 0; 0; 0; 0; 0; 0; 0; 0; 0; 0; 0; 0; 0; 0] true false false false 0xFF;
  CRow (text "EORI.W #0x1234,(A6)")
    [] [0x0A; 0x56; 0x12; 0x34]
    [0; 0; 0; 0x10; 0; 0; 0; 0; 0; 0; 0; 0; 0; 0; 0; 0;
     0; 0; 0; 0; 0; 0; 0; 0; 0; 0; 0; 0; 0; 0; 0; 0;
     0; 0; 0; 0; 0; 0; 0; 0; 0; 0; 0; 0; 0; 0; 0; 0;
     0; 0; 0; 0; 0; 0; 0; 0; 0; 0; 0; 0; 0; 0; 0; 0] true false false false 0xFF;
  CRow (text "EORI.B #0x55,(A6)")
    [] [0x0A; 0x16; 0; 0x55]
    [0; 0; 0; 0x10; 0; 0; 0; 0; 0; 0; 0; 0; 0; 0; 0; 0;
     0; 0; 0; 0; 0; 0; 0; 0; 0; 0; 0; 0; 0; 0; 0; 0;
     0; 0; 0; 0; 0; 0; 0; 0; 0; 0; 0; 0; 0; 0; 0; 0;
     0; 0; 0; 0; 0; 0; 0; 0; 0; 0; 0; 0; 0; 0; 0; 0] true false false false 0xFF;
  CRow (text "CMPI.L #0x00001234,(A6)  (Z=1)")
    [] [0x0C; 0x96; 0; 0; 0x12; 0x34]
    [0; 0; 0x12; 0x34; 0; 0; 0; 0; 0; 0; 0; 0; 0; 0; 0; 0;
     0; 0; 0; 0; 0; 0; 0; 0; 0; 0; 0; 0; 0; 0; 0; 0;
     0; 0; 0; 0; 0; 0; 0; 0; 0; 0; 0; 0; 0; 0; 0; 0;
     0; 0; 0; 0; 0; 0; 0; 0; 0; 0; 0; 0; 0; 0; 0; 0] true false false false 0xFF;
  CRow (text "CMPI.W #0x1234,(A6)  (cmp word at A6 = 0x0000)")
    [] [0x0C; 0x56; 0x12; 0x34]
    [0; 0; 0x12; 0x34; 0; 0; 0; 0; 0; 0; 0; 0; 0; 0; 0; 0;
     0; 0; 0; 0; 0; 0; 0; 0; 0; 0; 0; 0; 0; 0; 0; 0;
     0; 0; 0; 0; 0; 0; 0; 0; 0; 0; 0; 0; 0; 0; 0; 0;
     0; 0; 0; 0; 0; 0; 0; 0; 0; 0; 0; 0; 0; 0; 0; 0] true false false false 0xFF;
  CRow (text "CMPI.B #0x00,(A6)  (Z=1)")
    [] [0x0C; 0x16; 0; 0]
    [0; 0; 0x12; 0x34; 0; 0; 0; 0; 0; 0; 0; 0; 0; 0; 0; 0;
     0; 0; 0; 0; 0; 0; 0; 0; 0; 0; 0; 0; 0; 0; 0; 0;
     0; 0; 0; 0; 0; 0; 0; 0; 0; 0; 0; 0; 0; 0; 0; 0;
     0; 0; 0; 0; 0; 0; 0; 0; 0; 0; 0; 0; 0; 0; 0; 0] true false false false 0xFF;
  CRow (text "CMP.L (A1)+,D0  A1=scratch (D0=0x12345678 vs ram -> Z=1)")
    [0x20; 0x3C; 0x12; 0x34; 0x56; 0x78; 0x43; 0xEE; 0; 0] [0xB0; 0x99]
    [0x12; 0x34; 0x56; 0x78; 0; 0; 0; 0; 0; 0; 0; 0; 0; 0; 0; 0;
     0; 0; 0; 0; 0; 0; 0; 0; 0; 0; 0; 0; 0; 0; 0; 0;
     0; 0; 0; 0; 0; 0; 0; 0; 0; 0; 0; 0; 0; 0; 0; 0;
     0; 0; 0; 0; 0; 0; 0; 0; 0; 0; 0; 0; 0; 0; 0; 0] true false false false 0xFF;
  CRow (text "CMP.W -(A1),D0  A1=scratch+2 (D0=0x12345678 vs ram[0..1]=0x1234 -> Z=1)")
    [0x20; 0x3C; 0x12; 0x34; 0x56; 0x78; 0x43; 0xEE; 0; 0x02] [0xB0; 0x61]
    [0x12; 0x34; 0x56; 0x78; 0; 0; 0; 0; 0; 0; 0; 0; 0; 0; 0; 0;
     0; 0; 0; 0; 0; 0; 0; 0; 0; 0; 0; 0; 0; 0; 0; 0;
     0; 0; 0; 0; 0; 0; 0; 0; 0; 0; 0; 0; 0; 0; 0; 0;
     0; 0; 0; 0; 0; 0; 0; 0; 0; 0; 0; 0; 0; 0; 0; 0] true false false false 0xFF;
  CRow (text "CMP.B 3(A6),D0  (D0=0x78 vs ram[3]=0x78 -> Z=1)")
    [0x20; 0x3C; 0; 0; 0; 0x78] [0xB0; 0x2E; 0; 0x03]
    [0x12; 0x34; 0x56; 0x78; 0; 0; 0; 0; 0; 0; 0; 0; 0; 0; 0; 0;
     0; 0; 0; 0; 0; 0; 0; 0; 0; 0; 0; 0; 0; 0; 0; 0;
     0; 0; 0; 0; 0; 0; 0; 0; 0; 0; 0; 0; 0; 0; 0; 0;
     0; 0; 0; 0; 0; 0; 0; 0; 0; 0; 0; 0; 0; 0; 0; 0] true false false false 0xFF;
  CRow (text "BTST D1,(A1)+  A1=scratch, D1=7 -> tests bit 7 of 0x80")
    [0x22; 0x3C; 0; 0; 0; 0x07; 0x43; 0xEE; 0; 0] [0x03; 0x19]
    [0x80; 0; 0; 0; 0; 0; 0; 0; 0; 0; 0; 0; 0; 0; 0; 0;
     0; 0; 0; 0; 0; 0; 0; 0; 0; 0; 0; 0; 0; 0; 0; 0;
     0; 0; 0; 0; 0; 0; 0; 0; 0; 0; 0; 0; 0; 0; 0; 0;
     0; 0; 0; 0; 0; 0; 0; 0; 0; 0; 0; 0; 0; 0; 0; 0] true false false false 0xFF;
  CRow (text "BSET D1,2(A6)  D1=0 -> set bit 0 of ram[2]=0x00")
    [0x22; 0x3C; 0; 0; 0; 0] [0x03; 0xEE; 0; 0x02]
    [0x80; 0; 0; 0; 0; 0; 0; 0; 0; 0; 0; 0; 0; 0; 0; 0;
     0; 0; 0; 0; 0; 0; 0; 0; 0; 0; 0; 0; 0; 0; 0; 0;
     0; 0; 0; 0; 0; 0; 0; 0; 0; 0; 0; 0; 0; 0; 0; 0;
     0; 0; 0; 0; 0; 0; 0; 0; 0; 0; 0; 0; 0; 0; 0; 0] true false false false 0xFF;
  CRow (text "ROL.W (A6)  mem-shift single bit (ram=0x8001 -> 0x0003)")
    [] [0xE7; 0xD6]
    [0x80; 0x01; 0; 0; 0; 0; 0; 0; 0; 0; 0; 0; 0; 0; 0; 0;
     0; 0; 0; 0; 0; 0; 0; 0; 0; 0; 0; 0; 0; 0; 0; 0;
     0; 0; 0; 0; 0; 0; 0; 0; 0; 0; 0; 0; 0; 0; 0; 0;
     0; 0; 0; 0; 0; 0; 0; 0; 0; 0; 0; 0; 0; 0; 0; 0] true false false false 0xFF;
  CRow (text "ROR.W (A6)  mem-shift single bit (ram=0x8001 -> 0xC000)")
    [] [0xE6; 0xD6]
    [0x80; 0x01; 0; 0; 0; 0; 0; 0; 0; 0; 0; 0; 0; 0; 0; 0;
     0; 0; 0; 0; 0; 0; 0; 0; 0; 0; 0; 0; 0; 0; 0; 0;
     0; 0; 0; 0; 0; 0; 0; 0; 0; 0; 0; 0; 0; 0; 0; 0;
     0; 0; 0; 0; 0; 0; 0; 0; 0; 0; 0; 0; 0; 0; 0; 0] true false false false 0xFF;
  CRow (text "BFTST (A6){8:8}  byte ram[1]=0xFF -> N=1,Z=0")
    [] [0xE8; 0xD6; 0x02; 0x08]
    [0x12; 0xFF; 0x56; 0x78; 0; 0; 0; 0; 0; 0; 0; 0; 0; 0; 0; 0;
     0; 0; 0; 0; 0; 0; 0; 0; 0; 0; 0; 0; 0; 0; 0; 0;
     0; 0; 0; 0; 0; 0; 0; 0; 0; 0; 0; 0; 0; 0; 0; 0;
     0; 0; 0; 0; 0; 0; 0; 0; 0; 0; 0; 0; 0; 0; 0; 0] true false false false 0xFF;
  CRow (text "BFEXTU (A6){8:8},D1  -> D1=0xFF")
    [] [0xE9; 0xD6; 0x12; 0x08]
    [0x12; 0xFF; 0x56; 0x78; 0; 0; 0; 0; 0; 0; 0; 0; 0; 0; 0; 0;
     0; 0; 0; 0; 0; 0; 0; 0; 0; 0; 0; 0; 0; 0; 0; 0;
     0; 0; 0; 0; 0; 0; 0; 0; 0; 0; 0; 0; 0; 0; 0; 0;
     0; 0; 0; 0; 0; 0; 0; 0; 0; 0; 0; 0; 0; 0; 0; 0] true false false false 0xFF;
  CRow (text "BFCHG (A6){8:8}  ram[1]=0xFF -> 0x00")
    [] [0xEA; 0xD6; 0x02; 0x08]
    [0x12; 0xFF; 0x56; 0x78; 0; 0; 0; 0; 0; 0; 0; 0; 0; 0; 0; 0;
     0; 0; 0; 0; 0; 0; 0; 0; 0; 0; 0; 0; 0; 0; 0; 0;
     0; 0; 0; 0; 0; 0; 0; 0; 0; 0; 0; 0; 0; 0; 0; 0;
     0; 0; 0; 0; 0; 0; 0; 0; 0; 0; 0; 0; 0; 0; 0; 0] true false false false 0xFF;
  CRow (text "BFCLR (A6){8:8}  ram[1]=0xFF -> 0x00")
    [] [0xEC; 0xD6; 0x02; 0x08]
    [0x12; 0xFF; 0x56; 0x78; 0; 0; 0; 0; 0; 0; 0; 0; 0; 0; 0; 0;
     0; 0; 0; 0; 0; 0; 0; 0; 0; 0; 0; 0; 0; 0; 0; 0;
     0; 0; 0; 0; 0; 0; 0; 0; 0; 0; 0; 0; 0; 0; 0; 0;
     0; 0; 0; 0; 0; 0; 0; 0; 0; 0; 0; 0; 0; 0; 0; 0] true false false false 0xFF;
  CRow (text "BFSET (A6){0:8}  ram[0]=0x12 -> 0xFF")
    [] [0xEE; 0xD6; 0; 0x08]
    [0x12; 0xFF; 0x56; 0x78; 0; 0; 0; 0; 0; 0; 0; 0; 0; 0; 0; 0;
     0; 0; 0; 0; 0; 0; 0; 0; 0; 0; 0; 0; 0; 0; 0; 0;
     0; 0; 0; 0; 0; 0; 0; 0; 0; 0; 0; 0; 0; 0; 0; 0;
     0; 0; 0; 0; 0; 0; 0; 0; 0; 0; 0; 0; 0; 0; 0; 0] true false false false 0xFF;
  CRow (text "BEQ.L  taken (Z=1)")
    [0x44; 0xFC; 0; 0x04] [0x67; 0xFF; 0; 0; 0; 0x0A; 0x1C; 0xBC; 0; 0x01; 0x60; 0x04; 0x1C; 0xBC; 0; 0x02]
    [] false false false false 0xFF;
  CRow (text "BNE.L  not-taken (Z=1)")
    [0x44; 0xFC; 0; 0x04] [0x66; 0xFF; 0; 0; 0; 0x0A; 0x1C; 0xBC; 0; 0x01; 0x60; 0x04; 0x1C; 0xBC; 0; 0x02]
    [] false false false false 0xFF;
  CRow (text "BCS.L  taken (C=1)")
    [0x44; 0xFC; 0; 0x01] [0x65; 0xFF; 0; 0; 0; 0x0A; 0x1C; 0xBC; 0; 0x01; 0x60; 0x04; 0x1C; 0xBC; 0; 0x02]
    [] false false false false 0xFF;
  CRow (text "BVS.L  taken (V=1)")
    [0x44; 0xFC; 0; 0x02] [0x69; 0xFF; 0; 0; 0; 0x0A; 0x1C; 0xBC; 0; 0x01; 0x60; 0x04; 0x1C; 0xBC; 0; 0x02]
    [] false false false false 0xFF;
  CRow (text "BRA.L  always-skip")
    [] [0x60; 0xFF; 0; 0; 0; 0x0A; 0x1C; 0xBC; 0; 0x01; 0x60; 0x04; 0x1C; 0xBC; 0; 0x02]
    [] false false false false 0xFF;
  CRow (text "BSR.L / RTS  round-trip")
    [] [0x60; 0x06; 0x1C; 0xBC; 0; 0x02; 0x4E; 0x75; 0x61; 0xFF; 0xFF; 0xFF; 0xFF; 0xF8; 0x1C; 0xBC; 0; 0x01]
    [] false false false false 0xFF;
  CRow (text "DBT D1,loop  cc=True (immediate exit, D1=3)")
    [0x22; 0x3C; 0; 0; 0; 0x03; 0x44; 0xFC; 0; 0] [0x52; 0x16; 0x50; 0xC9; 0xFF; 0xFC]
    [] false false false false 0xFF;
  CRow (text "DBHI D1,loop  cc=True (immediate exit, D1=3)")
    [0x22; 0x3C; 0; 0; 0; 0x03; 0x44; 0xFC; 0; 0] [0x52; 0x16; 0x52; 0xC9; 0xFF; 0xFC]
    [] false false false false 0xFF;
  CRow (text "DBLS D1,loop  cc=True (immediate exit, D1=3)")
    [0x22; 0x3C; 0; 0; 0; 0x03; 0x44; 0xFC; 0; 0x04] [0x52; 0x16; 0x53; 0xC9; 0xFF; 0xFC]
    [] false false false false 0xFF;
  CRow (text "DBCC D1,loop  cc=True (immediate exit, D1=3)")
    [0x22; 0x3C; 0; 0; 0; 0x03; 0x44; 0xFC; 0; 0] [0x52; 0x16; 0x54; 0xC9; 0xFF; 0xFC]
    [] false false false false 0xFF;
  CRow (text "DBCS D1,loop  cc=True (immediate exit, D1=3)")
    [0x22; 0x3C; 0; 0; 0; 0x03; 0x44; 0xFC; 0; 0x01] [0x52; 0x16; 0x55; 0xC9; 0xFF; 0xFC]
    [] false false false false 0xFF;
  CRow (text "DBVC D1,loop  cc=True (immediate exit, D1=3)")
    [0x22; 0x3C; 0; 0; 0; 0x03; 0x44; 0xFC; 0; 0] [0x52; 0x16; 0x58; 0xC9; 0xFF; 0xFC]
    [] false false false false 0xFF;
  CRow (text "DBVS D1,loop  cc=True (immediate exit, D1=3)")
    [0x22; 0x3C; 0; 0; 0; 0x03; 0x44; 0xFC; 0; 0x02] [0x52; 0x16; 0x59; 0xC9; 0xFF; 0xFC]
    [] false false false false 0xFF].

Definition cpu_tests_13 : list CpuRow := [
  CRow (text "DBPL D1,loop  cc=True (immediate exit, D1=3)")
    [0x22; 0x3C; 0; 0; 0; 0x03; 0x44; 0xFC; 0; 0] [0x52; 0x16; 0x5A; 0xC9; 0xFF; 0xFC]
    [] false false false false 0xFF;
  CRow (text "DBMI D1,loop  cc=True (immediate exit, D1=3)")
    [0x22; 0x3C; 0; 0; 0; 0x03; 0x44; 0xFC; 0; 0x08] [0x52; 0x16; 0x5B; 0xC9; 0xFF; 0xFC]
    [] false false false false 0xFF;
  CRow (text "DBGE D1,loop  cc=True (immediate exit, D1=3)")
    [0x22; 0x3C; 0; 0; 0; 0x03; 0x44; 0xFC; 0; 0] [0x52; 0x16; 0x5C; 0xC9; 0xFF; 0xFC]
    [] false false false false 0xFF;
  CRow (text "DBLT D1,loop  cc=True (immediate exit, D1=3)")
    [0x22; 0x3C; 0; 0; 0; 0x03; 0x44; 0xFC; 0; 0x08] [0x52; 0x16; 0x5D; 0xC9; 0xFF; 0xFC]
    [] false false false false 0xFF;
  CRow (text "DBGT D1,loop  cc=True (immediate exit, D1=3)")
    [0x22; 0x3C; 0; 0; 0; 0x03; 0x44; 0xFC; 0; 0] [0x52; 0x16; 0x5E; 0xC9; 0xFF; 0xFC]
    [] false false false false 0xFF;
  CRow (text "DBLE D1,loop  cc=True (immediate exit, D1=3)")
    [0x22; 0x3C; 0; 0; 0; 0x03; 0x44; 0xFC; 0; 0x04] [0x52; 0x16; 0x5F; 0xC9; 0xFF; 0xFC]
    [] false false false false 0xFF;
  CRow (text "RTR  pop CCR=$07 + PC=(d16,PC) from stack")
    [] [0x48; 0x7A; 0; 0x08; 0x3F; 0x3C; 0; 0x07; 0x4E; 0x77]
    [] false false false false 0xFF;
  CRow (text "BSR.W / RTD #0  round-trip")
    [] [0x60; 0x08; 0x1C; 0xBC; 0; 0x02; 0x4E; 0x74; 0; 0; 0x61; 0; 0xFF; 0xF6]
    [] false false false false 0xFF;
  CRow (text "BSR.W / RTD #4  (A7 net +4 vs RTS; A7 excluded from diff)")
    [] [0x60; 0x08; 0x1C; 0xBC; 0; 0x02; 0x4E; 0x74; 0; 0x04; 0x61; 0; 0xFF; 0xF6]
    [] false false false false 0xFF;
  CRow (text "PEA (A6) ; MOVE.L (A7)+,D0  (D0 should = $00001800)")
    [0x20; 0x3C; 0xDE; 0xAD; 0xBE; 0xEF] [0x48; 0x56; 0x20; 0x1F]
    [] false false false false 0xFF;
  CRow (text "PEA 16(A6) ; MOVE.L (A7)+,D0  (D0 should = $00001810)")
    [0x20; 0x3C; 0xDE; 0xAD; 0xBE; 0xEF] [0x48; 0x6E; 0; 0x10; 0x20; 0x1F]
    [] false false false false 0xFF;
  CRow (text "LINK.L A0,#-32 / UNLK A0  (net no-op, 020+)")
    [0x41; 0xEE; 0; 0x20] [0x48; 0x08; 0xFF; 0xFF; 0xFF; 0xE0; 0x4E; 0x58]
    [] false false false false 0xFF;
  CRow (text "EXC: CHK2.W (A6),D0  out-of-range (D0=0x100, vec 6 / $18)")
    [0x20; 0x3C; 0; 0; 0x01; 0] [0x02; 0xD6; 0x08; 0]
    [0; 0x10; 0; 0x30; 0; 0; 0; 0; 0; 0; 0; 0; 0; 0; 0; 0;
     0; 0; 0; 0; 0; 0; 0; 0; 0; 0; 0; 0; 0; 0; 0; 0;
     0; 0; 0; 0; 0; 0; 0; 0; 0; 0; 0; 0; 0; 0; 0; 0;
     0; 0; 0; 0; 0; 0; 0; 0; 0; 0; 0; 0; 0; 0; 0; 0] true false true false 0xF7;
  CRow (text "ABCD D1,D0  D1=$99 D0=$01 -> $00 with C=1")
    [0x20; 0x3C; 0; 0; 0; 0x01; 0x22; 0x3C; 0; 0; 0; 0x99] [0xC1; 0x01]
    [] false false false false 0xFF;
  CRow (text "SBCD D1,D0  D1=$05 D0=$10 -> $05")
    [0x20; 0x3C; 0; 0; 0; 0x10; 0x22; 0x3C; 0; 0; 0; 0x05] [0x81; 0x01]
    [] false false false false 0xFF;
  CRow (text "NBCD (A6)  ram[0]=$42 -> $58 (10-complement BCD)")
    [] [0x48; 0x16]
    [0x42; 0; 0; 0; 0; 0; 0; 0; 0; 0; 0; 0; 0; 0; 0; 0;
     0; 0; 0; 0; 0; 0; 0; 0; 0; 0; 0; 0; 0; 0; 0; 0;
     0; 0; 0; 0; 0; 0; 0; 0; 0; 0; 0; 0; 0; 0; 0; 0;
     0; 0; 0; 0; 0; 0; 0; 0; 0; 0; 0; 0; 0; 0; 0; 0] true false false false 0xF5;
  CRow (text "MOVE.L (xxx).L=$1820,D1  abs-long read")
    [] [0x20; 0x39; 0; 0; 0x18; 0x20]
    [0; 0; 0; 0; 0; 0; 0; 0; 0; 0; 0; 0; 0; 0; 0; 0;
     0; 0; 0; 0; 0; 0; 0; 0; 0; 0; 0; 0; 0; 0; 0; 0;
     0xCA; 0xFE; 0xF0; 0x0D; 0; 0; 0; 0; 0; 0; 0; 0; 0; 0; 0; 0;
     0; 0; 0; 0; 0; 0; 0; 0; 0; 0; 0; 0; 0; 0; 0; 0] true false false false 0xFF;
  CRow (text "MOVE.L D0,(xxx).L=$1820  abs-long write (D0=0x12345678)")
    [0x20; 0x3C; 0x12; 0x34; 0x56; 0x78] [0x23; 0xC0; 0; 0; 0x18; 0x20]
    [] false false false false 0xFF;
  CRow (text "MOVE.W D0,(xxx).W=$1820  abs-short write (D0=0x12345678 -> word $5678)")
    [0x20; 0x3C; 0x12; 0x34; 0x56; 0x78] [0x31; 0xC0; 0x18; 0x20]
    [] false false false false 0xFF;
  CRow (text "MOVE from CCR,(A6)  (CCR=0x0F -> ram[0..1] = 0x000F)")
    [0x44; 0xFC; 0; 0x0F] [0x42; 0xD6]
    [] false false false false 0xFF;
  CRow (text "MOVE (A6),CCR  reads word 0x001F -> CCR=0x1F")
    [] [0x44; 0xD6]
    [0; 0x1F; 0; 0; 0; 0; 0; 0; 0; 0; 0; 0; 0; 0; 0; 0;
     0; 0; 0; 0; 0; 0; 0; 0; 0; 0; 0; 0; 0; 0; 0; 0;
     0; 0; 0; 0; 0; 0; 0; 0; 0; 0; 0; 0; 0; 0; 0; 0;
     0; 0; 0; 0; 0; 0; 0; 0; 0; 0; 0; 0; 0; 0; 0; 0] true false false false 0xFF;
  CRow (text "TST.B (A6)  ram[0]=0x80 -> N=1,Z=0")
    [] [0x4A; 0x16]
    [0x80; 0; 0; 0x01; 0; 0; 0; 0; 0; 0; 0; 0; 0; 0; 0; 0;
     0; 0; 0; 0; 0; 0; 0; 0; 0; 0; 0; 0; 0; 0; 0; 0;
     0; 0; 0; 0; 0; 0; 0; 0; 0; 0; 0; 0; 0; 0; 0; 0;
     0; 0; 0; 0; 0; 0; 0; 0; 0; 0; 0; 0; 0; 0; 0; 0] true false false false 0xFF;
  CRow (text "TST.W (A6)  ram[0..1]=0x8000 -> N=1,Z=0")
    [] [0x4A; 0x56]
    [0x80; 0; 0; 0x01; 0; 0; 0; 0; 0; 0; 0; 0; 0; 0; 0; 0;
     0; 0; 0; 0; 0; 0; 0; 0; 0; 0; 0; 0; 0; 0; 0; 0;
     0; 0; 0; 0; 0; 0; 0; 0; 0; 0; 0; 0; 0; 0; 0; 0;
     0; 0; 0; 0; 0; 0; 0; 0; 0; 0; 0; 0; 0; 0; 0; 0] true false false false 0xFF;
  CRow (text "TST.L (A6)  ram[0..3]=0x80000001 -> N=1,Z=0")
    [] [0x4A; 0x96]
    [0x80; 0; 0; 0x01; 0; 0; 0; 0; 0; 0; 0; 0; 0; 0; 0; 0;
     0; 0; 0; 0; 0; 0; 0; 0; 0; 0; 0; 0; 0; 0; 0; 0;
     0; 0; 0; 0; 0; 0; 0; 0; 0; 0; 0; 0; 0; 0; 0; 0;
     0; 0; 0; 0; 0; 0; 0; 0; 0; 0; 0; 0; 0; 0; 0; 0] true false false false 0xFF;
  CRow (text "CLR.B (A6)  ram[0]=0x11 -> 0x00")
    [] [0x42; 0x16]
    [0x11; 0x22; 0x33; 0x44; 0; 0; 0; 0; 0; 0; 0; 0; 0; 0; 0; 0;
     0; 0; 0; 0; 0; 0; 0; 0; 0; 0; 0; 0; 0; 0; 0; 0;
     0; 0; 0; 0; 0; 0; 0; 0; 0; 0; 0; 0; 0; 0; 0; 0;
     0; 0; 0; 0; 0; 0; 0; 0; 0; 0; 0; 0; 0; 0; 0; 0] true false false false 0xFF;
  CRow (text "CLR.W (A6)  ram[0..1]=0x1122 -> 0x0000")
    [] [0x42; 0x56]
    [0x11; 0x22; 0x33; 0x44; 0; 0; 0; 0; 0; 0; 0; 0; 0; 0; 0; 0;
     0; 0; 0; 0; 0; 0; 0; 0; 0; 0; 0; 0; 0; 0; 0; 0;
     0; 0; 0; 0; 0; 0; 0; 0; 0; 0; 0; 0; 0; 0; 0; 0;
     0; 0; 0; 0; 0; 0; 0; 0; 0; 0; 0; 0; 0; 0; 0; 0] true false false false 0xFF;
  CRow (text "CLR.L (A6)  ram[0..3]=0x11223344 -> 0x00000000")
    [] [0x42; 0x96]
    [0x11; 0x22; 0x33; 0x44; 0; 0; 0; 0; 0; 0; 0; 0; 0; 0; 0; 0;
     0; 0; 0; 0; 0; 0; 0; 0; 0; 0; 0; 0; 0; 0; 0; 0;
     0; 0; 0; 0; 0; 0; 0; 0; 0; 0; 0; 0; 0; 0; 0; 0;
     0; 0; 0; 0; 0; 0; 0; 0; 0; 0; 0; 0; 0; 0; 0; 0] true false false false 0xFF;
  CRow (text "NEG.L (A6)  ram[0..3]=0x12345678 -> 0xEDCBA988")
    [] [0x44; 0x96]
    [0x12; 0x34; 0x56; 0x78; 0; 0; 0; 0; 0; 0; 0; 0; 0; 0; 0; 0;
     0; 0; 0; 0; 0; 0; 0; 0; 0; 0; 0; 0; 0; 0; 0; 0;
     0; 0; 0; 0; 0; 0; 0; 0; 0; 0; 0; 0; 0; 0; 0; 0;
     0; 0; 0; 0; 0; 0; 0; 0; 0; 0; 0; 0; 0; 0; 0; 0] true false false false 0xFF;
  CRow (text "NOT.W (A6)  ram[0..1]=0x1234 -> 0xEDCB")
    [] [0x46; 0x56]
    [0x12; 0x34; 0x56; 0x78; 0; 0; 0; 0; 0; 0; 0; 0; 0; 0; 0; 0;
     0; 0; 0; 0; 0; 0; 0; 0; 0; 0; 0; 0; 0; 0; 0; 0;
     0; 0; 0; 0; 0; 0; 0; 0; 0; 0; 0; 0; 0; 0; 0; 0;
     0; 0; 0; 0; 0; 0; 0; 0; 0; 0; 0; 0; 0; 0; 0; 0] true false false false 0xFF;
  CRow (text "NEGX.L (A6)  ram=5, X=1 -> 0xFFFFFFFA")
    [0x44; 0xFC; 0; 0x10] [0x40; 0x96]
    [0; 0; 0; 0x05; 0; 0; 0; 0; 0; 0; 0; 0; 0; 0; 0; 0;
     0; 0; 0; 0; 0; 0; 0; 0; 0; 0; 0; 0; 0; 0; 0; 0;
     0; 0; 0; 0; 0; 0; 0; 0; 0; 0; 0; 0; 0; 0; 0; 0;
     0; 0; 0; 0; 0; 0; 0; 0; 0; 0; 0; 0; 0; 0; 0; 0] true false false false 0xFF;
  CRow (text "TAS (A1)+  A1=scratch+1 ram[1]=0x40 -> 0xC0, A1+=1")
    [0x43; 0xEE; 0; 0x01] [0x4A; 0xD9]
    [0; 0x40; 0; 0; 0; 0; 0; 0; 0; 0; 0; 0; 0; 0; 0; 0;
     0; 0; 0; 0; 0; 0; 0; 0; 0; 0; 0; 0; 0; 0; 0; 0;
     0; 0; 0; 0; 0; 0; 0; 0; 0; 0; 0; 0; 0; 0; 0; 0;
     0; 0; 0; 0; 0; 0; 0; 0; 0; 0; 0; 0; 0; 0; 0; 0] true false false false 0xFF;
  CRow (text "ADD.L (A1)+,D0  A1=scratch (D0=0x10)")
    [0x20; 0x3C; 0; 0; 0; 0x10; 0x43; 0xEE; 0; 0] [0xD0; 0x99]
    [0; 0; 0; 0x10; 0; 0; 0; 0; 0; 0; 0; 0; 0; 0; 0; 0;
     0; 0; 0; 0; 0; 0; 0; 0; 0; 0; 0; 0; 0; 0; 0; 0;
     0; 0; 0; 0; 0; 0; 0; 0; 0; 0; 0; 0; 0; 0; 0; 0;
     0; 0; 0; 0; 0; 0; 0; 0; 0; 0; 0; 0; 0; 0; 0; 0] true false false false 0xFF;
  CRow (text "ADD.L -(A1),D0  A1=scratch+4")
    [0x20; 0x3C; 0; 0; 0; 0x10; 0x43; 0xEE; 0; 0x04] [0xD0; 0xA1]
    [0; 0; 0; 0x10; 0; 0; 0; 0; 0; 0; 0; 0; 0; 0; 0; 0;
     0; 0; 0; 0; 0; 0; 0; 0; 0; 0; 0; 0; 0; 0; 0; 0;
     0; 0; 0; 0; 0; 0; 0; 0; 0; 0; 0; 0; 0; 0; 0; 0;
     0; 0; 0; 0; 0; 0; 0; 0; 0; 0; 0; 0; 0; 0; 0; 0] true false false false 0xFF;
  CRow (text "ADD.L 0(A6),D0")
    [0x20; 0x3C; 0; 0; 0; 0x10] [0xD0; 0xAE; 0; 0]
    [0; 0; 0; 0x10; 0; 0; 0; 0; 0; 0; 0; 0; 0; 0; 0; 0;
     0; 0; 0; 0; 0; 0; 0; 0; 0; 0; 0; 0; 0; 0; 0; 0;
     0; 0; 0; 0; 0; 0; 0; 0; 0; 0; 0; 0; 0; 0; 0; 0;
     0; 0; 0; 0; 0; 0; 0; 0; 0; 0; 0; 0; 0; 0; 0; 0] true false false false 0xFF;
  CRow (text "ADD.L #0x12345678,D0")
    [0x20; 0x3C; 0xAA; 0xBB; 0xCC; 0xDD] [0xD0; 0xBC; 0x12; 0x34; 0x56; 0x78]
    [] false false false false 0xFF;
  CRow (text "SUB.L (A1)+,D0  A1=scratch (D0=0x10)")
    [0x20; 0x3C; 0; 0; 0; 0x10; 0x43; 0xEE; 0; 0] [0x90; 0x99]
    [0; 0; 0; 0x10; 0; 0; 0; 0; 0; 0; 0; 0; 0; 0; 0; 0;
     0; 0; 0; 0; 0; 0; 0; 0; 0; 0; 0; 0; 0; 0; 0; 0;
     0; 0; 0; 0; 0; 0; 0; 0; 0; 0; 0; 0; 0; 0; 0; 0;
     0; 0; 0; 0; 0; 0; 0; 0; 0; 0; 0; 0; 0; 0; 0; 0] true false false false 0xFF;
  CRow (text "SUB.L -(A1),D0  A1=scratch+4")
    [0x20; 0x3C; 0; 0; 0; 0x10; 0x43; 0xEE; 0; 0x04] [0x90; 0xA1]
    [0; 0; 0; 0x10; 0; 0; 0; 0; 0; 0; 0; 0; 0; 0; 0; 0;
     0; 0; 0; 0; 0; 0; 0; 0; 0; 0; 0; 0; 0; 0; 0; 0;
     0; 0; 0; 0; 0; 0; 0; 0; 0; 0; 0; 0; 0; 0; 0; 0;
     0; 0; 0; 0; 0; 0; 0; 0; 0; 0; 0; 0; 0; 0; 0; 0] true false false false 0xFF].

Definition cpu_tests_14 : list CpuRow := [
  CRow (text "SUB.L 0(A6),D0")
    [0x20; 0x3C; 0; 0; 0; 0x10] [0x90; 0xAE; 0; 0]
    [0; 0; 0; 0x10; 0; 0; 0; 0; 0; 0; 0; 0; 0; 0; 0; 0;
     0; 0; 0; 0; 0; 0; 0; 0; 0; 0; 0; 0; 0; 0; 0; 0;
     0; 0; 0; 0; 0; 0; 0; 0; 0; 0; 0; 0; 0; 0; 0; 0;
     0; 0; 0; 0; 0; 0; 0; 0; 0; 0; 0; 0; 0; 0; 0; 0] true false false false 0xFF;
  CRow (text "SUB.L #0x12345678,D0")
    [0x20; 0x3C; 0xAA; 0xBB; 0xCC; 0xDD] [0x90; 0xBC; 0x12; 0x34; 0x56; 0x78]
    [] false false false false 0xFF;
  CRow (text "AND.L (A1)+,D0  A1=scratch (D0=0x10)")
    [0x20; 0x3C; 0; 0; 0; 0x10; 0x43; 0xEE; 0; 0] [0xC0; 0x99]
    [0; 0; 0; 0x10; 0; 0; 0; 0; 0; 0; 0; 0; 0; 0; 0; 0;
     0; 0; 0; 0; 0; 0; 0; 0; 0; 0; 0; 0; 0; 0; 0; 0;
     0; 0; 0; 0; 0; 0; 0; 0; 0; 0; 0; 0; 0; 0; 0; 0;
     0; 0; 0; 0; 0; 0; 0; 0; 0; 0; 0; 0; 0; 0; 0; 0] true false false false 0xFF;
  CRow (text "AND.L -(A1),D0  A1=scratch+4")
    [0x20; 0x3C; 0; 0; 0; 0x10; 0x43; 0xEE; 0; 0x04] [0xC0; 0xA1]
    [0; 0; 0; 0x10; 0; 0; 0; 0; 0; 0; 0; 0; 0; 0; 0; 0;
     0; 0; 0; 0; 0; 0; 0; 0; 0; 0; 0; 0; 0; 0; 0; 0;
     0; 0; 0; 0; 0; 0; 0; 0; 0; 0; 0; 0; 0; 0; 0; 0;
     0; 0; 0; 0; 0; 0; 0; 0; 0; 0; 0; 0; 0; 0; 0; 0] true false false false 0xFF;
  CRow (text "AND.L 0(A6),D0")
    [0x20; 0x3C; 0; 0; 0; 0x10] [0xC0; 0xAE; 0; 0]
    [0; 0; 0; 0x10; 0; 0; 0; 0; 0; 0; 0; 0; 0; 0; 0; 0;
     0; 0; 0; 0; 0; 0; 0; 0; 0; 0; 0; 0; 0; 0; 0; 0;
     0; 0; 0; 0; 0; 0; 0; 0; 0; 0; 0; 0; 0; 0; 0; 0;
     0; 0; 0; 0; 0; 0; 0; 0; 0; 0; 0; 0; 0; 0; 0; 0] true false false false 0xFF;
  CRow (text "AND.L #0x12345678,D0")
    [0x20; 0x3C; 0xAA; 0xBB; 0xCC; 0xDD] [0xC0; 0xBC; 0x12; 0x34; 0x56; 0x78]
    [] false false false false 0xFF;
  CRow (text "OR.L (A1)+,D0  A1=scratch (D0=0x10)")
    [0x20; 0x3C; 0; 0; 0; 0x10; 0x43; 0xEE; 0; 0] [0x80; 0x99]
    [0; 0; 0; 0x10; 0; 0; 0; 0; 0; 0; 0; 0; 0; 0; 0; 0;
     0; 0; 0; 0; 0; 0; 0; 0; 0; 0; 0; 0; 0; 0; 0; 0;
     0; 0; 0; 0; 0; 0; 0; 0; 0; 0; 0; 0; 0; 0; 0; 0;
     0; 0; 0; 0; 0; 0; 0; 0; 0; 0; 0; 0; 0; 0; 0; 0] true false false false 0xFF;
  CRow (text "OR.L -(A1),D0  A1=scratch+4")
    [0x20; 0x3C; 0; 0; 0; 0x10; 0x43; 0xEE; 0; 0x04] [0x80; 0xA1]
    [0; 0; 0; 0x10; 0; 0; 0; 0; 0; 0; 0; 0; 0; 0; 0; 0;
     0; 0; 0; 0; 0; 0; 0; 0; 0; 0; 0; 0; 0; 0; 0; 0;
     0; 0; 0; 0; 0; 0; 0; 0; 0; 0; 0; 0; 0; 0; 0; 0;
     0; 0; 0; 0; 0; 0; 0; 0; 0; 0; 0; 0; 0; 0; 0; 0] true false false false 0xFF;
  CRow (text "OR.L 0(A6),D0")
    [0x20; 0x3C; 0; 0; 0; 0x10] [0x80; 0xAE; 0; 0]
    [0; 0; 0; 0x10; 0; 0; 0; 0; 0; 0; 0; 0; 0; 0; 0; 0;
     0; 0; 0; 0; 0; 0; 0; 0; 0; 0; 0; 0; 0; 0; 0; 0;
     0; 0; 0; 0; 0; 0; 0; 0; 0; 0; 0; 0; 0; 0; 0; 0;
     0; 0; 0; 0; 0; 0; 0; 0; 0; 0; 0; 0; 0; 0; 0; 0] true false false false 0xFF;
  CRow (text "OR.L #0x12345678,D0")
    [0x20; 0x3C; 0xAA; 0xBB; 0xCC; 0xDD] [0x80; 0xBC; 0x12; 0x34; 0x56; 0x78]
    [] false false false false 0xFF;
  CRow (text "ADD.L D0,(A1)+  A1=scratch (D0=0x100)")
    [0x20; 0x3C; 0; 0; 0x01; 0; 0x43; 0xEE; 0; 0] [0xD1; 0x99]
    [0x12; 0x34; 0x56; 0x78; 0; 0; 0; 0; 0; 0; 0; 0; 0; 0; 0; 0;
     0; 0; 0; 0; 0; 0; 0; 0; 0; 0; 0; 0; 0; 0; 0; 0;
     0; 0; 0; 0; 0; 0; 0; 0; 0; 0; 0; 0; 0; 0; 0; 0;
     0; 0; 0; 0; 0; 0; 0; 0; 0; 0; 0; 0; 0; 0; 0; 0] true false false false 0xFF;
  CRow (text "SUB.L D0,-(A1)  A1=scratch+4 (D0=0x100)")
    [0x20; 0x3C; 0; 0; 0x01; 0; 0x43; 0xEE; 0; 0x04] [0x91; 0xA1]
    [0x12; 0x34; 0x56; 0x78; 0; 0; 0; 0; 0; 0; 0; 0; 0; 0; 0; 0;
     0; 0; 0; 0; 0; 0; 0; 0; 0; 0; 0; 0; 0; 0; 0; 0;
     0; 0; 0; 0; 0; 0; 0; 0; 0; 0; 0; 0; 0; 0; 0; 0;
     0; 0; 0; 0; 0; 0; 0; 0; 0; 0; 0; 0; 0; 0; 0; 0] true false false false 0xFF;
  CRow (text "AND.L D0,4(A6)  d16 dst")
    [0x20; 0x3C; 0xFF; 0; 0xFF; 0] [0xC1; 0xAE; 0; 0x04]
    [0x12; 0x34; 0x56; 0x78; 0; 0; 0; 0; 0; 0; 0; 0; 0; 0; 0; 0;
     0; 0; 0; 0; 0; 0; 0; 0; 0; 0; 0; 0; 0; 0; 0; 0;
     0; 0; 0; 0; 0; 0; 0; 0; 0; 0; 0; 0; 0; 0; 0; 0;
     0; 0; 0; 0; 0; 0; 0; 0; 0; 0; 0; 0; 0; 0; 0; 0] true false false false 0xFF;
  CRow (text "LSL.L #8,D0 (data field=0 -> count 8) D0=0x80000001")
    [0x20; 0x3C; 0x80; 0; 0; 0x01] [0xE1; 0x88]
    [] false false false false 0xFF;
  CRow (text "ASR.L D1,D0 (cnt=32) D0=0x80000000")
    [0x20; 0x3C; 0x80; 0; 0; 0; 0x22; 0x3C; 0; 0; 0; 0x20] [0xE2; 0xA0]
    [] false false false false 0xFF;
  CRow (text "LSL.L D1,D0 (cnt=33) D0=0xFFFFFFFF")
    [0x20; 0x3C; 0xFF; 0xFF; 0xFF; 0xFF; 0x22; 0x3C; 0; 0; 0; 0x21] [0xE3; 0xA8]
    [] false false false false 0xFF;
  CRow (text "LSR.L D1,D0 (cnt=64 mod64=0; no-op, C=0) D0=0xCAFEBABE")
    [0x20; 0x3C; 0xCA; 0xFE; 0xBA; 0xBE; 0x22; 0x3C; 0; 0; 0; 0x40; 0x44; 0xFC; 0; 0x11] [0xE2; 0xA8]
    [] false false false false 0xFF;
  CRow (text "ROL.L D1,D0 (cnt=64 mod64=0) D0=0x80000001")
    [0x20; 0x3C; 0x80; 0; 0; 0x01; 0x22; 0x3C; 0; 0; 0; 0x40] [0xE3; 0xB8]
    [] false false false false 0xFF;
  CRow (text "ASL.W #4,D0 (V=1 expected) D0=0xFFFF8000")
    [0x20; 0x3C; 0xFF; 0xFF; 0x80; 0] [0xE9; 0x40]
    [] false false false false 0xFF;
  CRow (text "ROXL.L D1,D0 (cnt=0 via mod64; C=X, X unchanged) X=1 D0=0")
    [0x20; 0x3C; 0; 0; 0; 0; 0x22; 0x3C; 0; 0; 0; 0x40; 0x44; 0xFC; 0; 0x10] [0xE3; 0xB0]
    [] false false false false 0xFF;
  CRow (text "BFEXTU D0{D1:D2},D3 dyn off+width (off=8 w=8 -> D3=0xFF)")
    [0x20; 0x3C; 0x12; 0xFF; 0x56; 0x78; 0x22; 0x3C; 0; 0; 0; 0x08; 0x24; 0x3C; 0; 0;
     0; 0x08; 0x26; 0x3C; 0; 0; 0; 0] [0xE9; 0xC0; 0x38; 0x62]
    [] false false false false 0xFF;
  CRow (text "BFINS D3,D0{D1:D2} dyn (off=8,w=8; D3=0xAB -> D0[8:8]=0xAB)")
    [0x20; 0x3C; 0x12; 0xFF; 0x56; 0x78; 0x22; 0x3C; 0; 0; 0; 0x08; 0x24; 0x3C; 0; 0;
     0; 0x08; 0x26; 0x3C; 0; 0; 0; 0xAB] [0xEF; 0xC0; 0x38; 0x62]
    [] false false false false 0xFF;
  CRow (text "BFCHG D0{D1:8} dyn off (D1=16 -> flip D0[16:8])")
    [0x20; 0x3C; 0x12; 0xFF; 0x56; 0x78; 0x22; 0x3C; 0; 0; 0; 0x10] [0xEA; 0xC0; 0x08; 0x48]
    [] false false false false 0xFF;
  CRow (text "BFEXTU (A6){12:16},D1  cross-byte (expects 0xCDCB)")
    [] [0xE9; 0xD6; 0x13; 0x10]
    [0xFE; 0xDC; 0xBA; 0x98; 0x76; 0x54; 0x32; 0x10; 0; 0; 0; 0; 0; 0; 0; 0;
     0; 0; 0; 0; 0; 0; 0; 0; 0; 0; 0; 0; 0; 0; 0; 0;
     0; 0; 0; 0; 0; 0; 0; 0; 0; 0; 0; 0; 0; 0; 0; 0;
     0; 0; 0; 0; 0; 0; 0; 0; 0; 0; 0; 0; 0; 0; 0; 0] true false false false 0xFF;
  CRow (text "BFFFO (A6){0:32},D1  -> D1 = bit# of first set in 0xFEDCBA98")
    [] [0xED; 0xD6; 0x10; 0]
    [0xFE; 0xDC; 0xBA; 0x98; 0x76; 0x54; 0x32; 0x10; 0; 0; 0; 0; 0; 0; 0; 0;
     0; 0; 0; 0; 0; 0; 0; 0; 0; 0; 0; 0; 0; 0; 0; 0;
     0; 0; 0; 0; 0; 0; 0; 0; 0; 0; 0; 0; 0; 0; 0; 0;
     0; 0; 0; 0; 0; 0; 0; 0; 0; 0; 0; 0; 0; 0; 0; 0] true false false false 0xFF;
  CRow (text "MULU.W D1,D0 (max_unsigned 0xFFFF*0xFFFF)")
    [0x20; 0x3C; 0; 0; 0xFF; 0xFF; 0x22; 0x3C; 0; 0; 0xFF; 0xFF] [0xC0; 0xC1]
    [] false false false false 0xFF;
  CRow (text "MULS.W D1,D0 (max_unsigned 0xFFFF*0xFFFF)")
    [0x20; 0x3C; 0; 0; 0xFF; 0xFF; 0x22; 0x3C; 0; 0; 0xFF; 0xFF] [0xC1; 0xC1]
    [] false false false false 0xFF;
  CRow (text "MULU.W D1,D0 (msb_x_msb 0x8000*0x8000)")
    [0x20; 0x3C; 0; 0; 0x80; 0; 0x22; 0x3C; 0; 0; 0x80; 0] [0xC0; 0xC1]
    [] false false false false 0xFF;
  CRow (text "MULS.W D1,D0 (msb_x_msb 0x8000*0x8000)")
    [0x20; 0x3C; 0; 0; 0x80; 0; 0x22; 0x3C; 0; 0; 0x80; 0] [0xC1; 0xC1]
    [] false false false false 0xFF;
  CRow (text "MULU.W D1,D0 (ms_signed 0xFFFF*0x8000)")
    [0x20; 0x3C; 0; 0; 0xFF; 0xFF; 0x22; 0x3C; 0; 0; 0x80; 0] [0xC0; 0xC1]
    [] false false false false 0xFF;
  CRow (text "MULS.W D1,D0 (ms_signed 0xFFFF*0x8000)")
    [0x20; 0x3C; 0; 0; 0xFF; 0xFF; 0x22; 0x3C; 0; 0; 0x80; 0] [0xC1; 0xC1]
    [] false false false false 0xFF;
  CRow (text "MULU.W D1,D0 (x_zero 0x0001*0x0000)")
    [0x20; 0x3C; 0; 0; 0; 0x01; 0x22; 0x3C; 0; 0; 0; 0] [0xC0; 0xC1]
    [] false false false false 0xFF;
  CRow (text "MULS.W D1,D0 (x_zero 0x0001*0x0000)")
    [0x20; 0x3C; 0; 0; 0; 0x01; 0x22; 0x3C; 0; 0; 0; 0] [0xC1; 0xC1]
    [] false false false false 0xFF;
  CRow (text "DIVS.W D1,D0 (neg_div_pos D0=0xFFFFFFF6 /D1=0x00000004)")
    [0x20; 0x3C; 0xFF; 0xFF; 0xFF; 0xF6; 0x22; 0x3C; 0; 0; 0; 0x04] [0x81; 0xC1]
    [] false false false false 0xFF;
  CRow (text "DIVS.W D1,D0 (pos_div_neg D0=0x0000000A /D1=0x0000FFFC)")
    [0x20; 0x3C; 0; 0; 0; 0x0A; 0x22; 0x3C; 0; 0; 0xFF; 0xFC] [0x81; 0xC1]
    [] false false false false 0xFF;
  CRow (text "DIVS.W D1,D0 (neg_div_neg D0=0xFFFFFFF6 /D1=0x0000FFFC)")
    [0x20; 0x3C; 0xFF; 0xFF; 0xFF; 0xF6; 0x22; 0x3C; 0; 0; 0xFF; 0xFC] [0x81; 0xC1]
    [] false false false false 0xFF;
  CRow (text "DIVS.W D1,D0 (overflow D0=0x00010000 /D1=0x00000001)")
    [0x20; 0x3C; 0; 0x01; 0; 0; 0x22; 0x3C; 0; 0; 0; 0x01] [0x81; 0xC1]
    [] false false false false 0xF3].

Definition cpu_tests_15 : list CpuRow := [
  CRow (text "DIVU.W D1,D0 (big_unsigned)")
    [0x20; 0x3C; 0xFF; 0xFF; 0xFF; 0xFF; 0x22; 0x3C; 0; 0; 0; 0x02] [0x80; 0xC1]
    [] false false false false 0xF3;
  CRow (text "DIVU.W D1,D0 (exact_div)")
    [0x20; 0x3C; 0x0F; 0xFE; 0; 0; 0x22; 0x3C; 0; 0; 0x80; 0] [0x80; 0xC1]
    [] false false false false 0xFF;
  CRow (text "MOVEM.L D0/D2/A1/A5,(A6)  mixed mask")
    [0x20; 0x3C; 0xAA; 0xAA; 0xAA; 0xAA; 0x24; 0x3C; 0xBB; 0xBB; 0xBB; 0xBB; 0x43; 0xEE; 0; 0x10; 0x4B; 0xEE; 0; 0x20] [0x48; 0xD6; 0x22; 0x05]
    [] false false false false 0xFF;
  CRow (text "MOVEM.L D4-D6/A0-A2,-(A1) predec mixed")
    [0x28; 0x3C; 0x44; 0x44; 0x44; 0x44; 0x2A; 0x3C; 0x55; 0x55; 0x55; 0x55; 0x2C; 0x3C; 0x66; 0x66;
     0x66; 0x66; 0x41; 0xEE; 0; 0; 0x43; 0xEE; 0; 0x20; 0x45; 0xEE; 0; 0x10] [0x48; 0xE1; 0x0E; 0xE0]
    [] false false false false 0xFF;
  CRow (text "MOVEM.W (A1),D0-D3  A1=scratch (signed sign-ext)")
    [0x43; 0xEE; 0; 0] [0x4C; 0x91; 0; 0x0F]
    [0xFF; 0xFE; 0; 0x01; 0x80; 0; 0x7F; 0xFF; 0; 0; 0; 0; 0; 0; 0; 0;
     0; 0; 0; 0; 0; 0; 0; 0; 0; 0; 0; 0; 0; 0; 0; 0;
     0; 0; 0; 0; 0; 0; 0; 0; 0; 0; 0; 0; 0; 0; 0; 0;
     0; 0; 0; 0; 0; 0; 0; 0; 0; 0; 0; 0; 0; 0; 0; 0] true false false false 0xFF;
  CRow (text "SEQ (A6)  CCR=0x04(Z=1) -> ram[0]=0xFF")
    [0x44; 0xFC; 0; 0x04] [0x57; 0xD6]
    [0xAA; 0; 0; 0; 0; 0; 0; 0; 0; 0; 0; 0; 0; 0; 0; 0;
     0; 0; 0; 0; 0; 0; 0; 0; 0; 0; 0; 0; 0; 0; 0; 0;
     0; 0; 0; 0; 0; 0; 0; 0; 0; 0; 0; 0; 0; 0; 0; 0;
     0; 0; 0; 0; 0; 0; 0; 0; 0; 0; 0; 0; 0; 0; 0; 0] true false false false 0xFF;
  CRow (text "SNE (A6)  CCR=0x04(Z=1) -> ram[0]=0x00")
    [0x44; 0xFC; 0; 0x04] [0x56; 0xD6]
    [0xAA; 0; 0; 0; 0; 0; 0; 0; 0; 0; 0; 0; 0; 0; 0; 0;
     0; 0; 0; 0; 0; 0; 0; 0; 0; 0; 0; 0; 0; 0; 0; 0;
     0; 0; 0; 0; 0; 0; 0; 0; 0; 0; 0; 0; 0; 0; 0; 0;
     0; 0; 0; 0; 0; 0; 0; 0; 0; 0; 0; 0; 0; 0; 0; 0] true false false false 0xFF;
  CRow (text "SLT 2(A6)  CCR=0x08(N=1,V=0 -> LT true) -> ram[2]=0xFF")
    [0x44; 0xFC; 0; 0x08] [0x5D; 0xEE; 0; 0x02]
    [0xAA; 0; 0; 0; 0; 0; 0; 0; 0; 0; 0; 0; 0; 0; 0; 0;
     0; 0; 0; 0; 0; 0; 0; 0; 0; 0; 0; 0; 0; 0; 0; 0;
     0; 0; 0; 0; 0; 0; 0; 0; 0; 0; 0; 0; 0; 0; 0; 0;
     0; 0; 0; 0; 0; 0; 0; 0; 0; 0; 0; 0; 0; 0; 0; 0] true false false false 0xFF;
  CRow (text "CMPM.B (A1)+,(A0)+  A0=scratch+2 A1=scratch (Z=1)")
    [0x41; 0xEE; 0; 0x02; 0x43; 0xEE; 0; 0] [0xB1; 0x09]
    [0x12; 0x99; 0x12; 0x99; 0; 0; 0; 0; 0; 0; 0; 0; 0; 0; 0; 0;
     0; 0; 0; 0; 0; 0; 0; 0; 0; 0; 0; 0; 0; 0; 0; 0;
     0; 0; 0; 0; 0; 0; 0; 0; 0; 0; 0; 0; 0; 0; 0; 0;
     0; 0; 0; 0; 0; 0; 0; 0; 0; 0; 0; 0; 0; 0; 0; 0] true false false false 0xFF;
  CRow (text "CMPM.W (A1)+,(A0)+  Z=1 (compares 0x1299 == 0x1299)")
    [0x41; 0xEE; 0; 0x02; 0x43; 0xEE; 0; 0] [0xB1; 0x49]
    [0x12; 0x99; 0x12; 0x99; 0; 0; 0; 0; 0; 0; 0; 0; 0; 0; 0; 0;
     0; 0; 0; 0; 0; 0; 0; 0; 0; 0; 0; 0; 0; 0; 0; 0;
     0; 0; 0; 0; 0; 0; 0; 0; 0; 0; 0; 0; 0; 0; 0; 0;
     0; 0; 0; 0; 0; 0; 0; 0; 0; 0; 0; 0; 0; 0; 0; 0] true false false false 0xFF;
  CRow (text "MOVEA.W #0x0001,A0  (positive, no sign-ext)")
    [] [0x30; 0x7C; 0; 0x01]
    [] false false false false 0xFF;
  CRow (text "MOVEA.W #0x8000,A0  (sign-ext -> 0xFFFF8000)")
    [] [0x30; 0x7C; 0x80; 0]
    [] false false false false 0xFF;
  CRow (text "MOVEA.W (A1),A0  A1=scratch, word=$8001 -> A0=0xFFFF8001")
    [0x43; 0xEE; 0; 0] [0x30; 0x51]
    [0x80; 0x01; 0; 0; 0; 0; 0; 0; 0; 0; 0; 0; 0; 0; 0; 0;
     0; 0; 0; 0; 0; 0; 0; 0; 0; 0; 0; 0; 0; 0; 0; 0;
     0; 0; 0; 0; 0; 0; 0; 0; 0; 0; 0; 0; 0; 0; 0; 0;
     0; 0; 0; 0; 0; 0; 0; 0; 0; 0; 0; 0; 0; 0; 0; 0] true false false false 0xFF;
  CRow (text "PACK D1,D0,#0xFFFF (D1=0x00003132 -> low byte = low byte of 0x3132+0xFFFF=0x3031 -> 0x01)")
    [0x20; 0x3C; 0xAA; 0xBB; 0xCC; 0xDD; 0x22; 0x3C; 0; 0; 0x31; 0x32] [0x81; 0x41; 0xFF; 0xFF]
    [] false false false false 0xFF;
  CRow (text "UNPK D1,D0,#0x3030 (D1=0xAB -> D0 word = '0A'+nibble 'B' = 0x3041 0x3042? want 0x3A,0x3B)")
    [0x20; 0x3C; 0xAA; 0xBB; 0xCC; 0xDD; 0x22; 0x3C; 0; 0; 0; 0xAB] [0x81; 0x81; 0x30; 0x30]
    [] false false false false 0xFF;
  CRow (text "ABCD -(A1),-(A0)  X=1 (0x15 + 0x27 + 1 = 0x43)")
    [0x41; 0xEE; 0; 0x04; 0x43; 0xEE; 0; 0x08; 0x44; 0xFC; 0; 0x10] [0xC1; 0x09]
    [0; 0; 0; 0x15; 0; 0; 0; 0x27; 0; 0; 0; 0; 0; 0; 0; 0;
     0; 0; 0; 0; 0; 0; 0; 0; 0; 0; 0; 0; 0; 0; 0; 0;
     0; 0; 0; 0; 0; 0; 0; 0; 0; 0; 0; 0; 0; 0; 0; 0;
     0; 0; 0; 0; 0; 0; 0; 0; 0; 0; 0; 0; 0; 0; 0; 0] true false false false 0xFF;
  CRow (text "TST.L A0  (A0=0, 020+) -> Z=1")
    [] [0x4A; 0x88]
    [] false false false false 0xFF;
  CRow (text "TST.W A0  (A0=$FFFFFFFE word part, but TST.W on An only valid 020+)")
    [0x41; 0xEE; 0; 0] [0x4A; 0x48]
    [] false false false false 0xFF;
  CRow (text "LEA (0,A6,D0.W),A0  D0=0x10 -> A0 = scratch + 0x10")
    [0x20; 0x3C; 0; 0; 0; 0x10] [0x41; 0xF6; 0; 0]
    [] false false false false 0xFF;
  CRow (text "PEA (0,A6,D0.W) ; MOVE.L (A7)+,D0 (D0=4 -> push scratch+4)")
    [0x20; 0x3C; 0; 0; 0; 0x04] [0x48; 0x76; 0; 0; 0x20; 0x1F]
    [] false false false false 0xFF;
  CRow (text "LINK A0,#0 / UNLK A0")
    [0x41; 0xEE; 0; 0x20] [0x4E; 0x50; 0; 0; 0x4E; 0x58]
    [] false false false false 0xFF;
  CRow (text "ADDX.L D1,D0  with X=1, overflow (D0=0x7FFFFFFF + D1=0 + 1 -> V=1,N=1)")
    [0x20; 0x3C; 0x7F; 0xFF; 0xFF; 0xFF; 0x22; 0x3C; 0; 0; 0; 0; 0x44; 0xFC; 0; 0x10] [0xD1; 0x81]
    [] false false false false 0xFF;
  CRow (text "SUBX.L D1,D0  with X=1, borrow (D0=0 - D1=0 - 1 -> -1, X=C=N=1)")
    [0x20; 0x3C; 0; 0; 0; 0; 0x22; 0x3C; 0; 0; 0; 0; 0x44; 0xFC; 0; 0x10] [0x91; 0x81]
    [] false false false false 0xFF;
  CRow (text "CMP.B D1,D0  (D0.B=0x80 vs D1.B=0x7F -> V=1,N=0)")
    [0x20; 0x3C; 0; 0; 0; 0x80; 0x22; 0x3C; 0; 0; 0; 0x7F] [0xB0; 0x01]
    [] false false false false 0xFF;
  CRow (text "CMP.W D1,D0  (D0.W=0x8000 vs D1.W=0x7FFF -> V=1)")
    [0x20; 0x3C; 0; 0; 0x80; 0; 0x22; 0x3C; 0; 0; 0x7F; 0xFF] [0xB0; 0x41]
    [] false false false false 0xFF;
  CRow (text "NEG.L D0  (D0=0x80000000 -> V=1,N=1)")
    [0x20; 0x3C; 0x80; 0; 0; 0] [0x44; 0x80]
    [] false false false false 0xFF;
  CRow (text "NEG.B D0  (D0.B=0x80 -> V=1)")
    [0x20; 0x3C; 0xAA; 0; 0; 0x80] [0x44; 0]
    [] false false false false 0xFF;
  CRow (text "BSET #33,D0  (mod 32 = 1; sets bit 1 of D0=0)")
    [0x20; 0x3C; 0; 0; 0; 0] [0x08; 0xC0; 0; 0x21]
    [] false false false false 0xFF;
  CRow (text "BCLR D1,D0  D1=64 mod 32 = 0 (clear bit 0 of 0xFFFFFFFF)")
    [0x20; 0x3C; 0xFF; 0xFF; 0xFF; 0xFF; 0x22; 0x3C; 0; 0; 0; 0x40] [0x03; 0x80]
    [] false false false false 0xFF;
  CRow (text "NOP with CCR=0x1F preload (NOP preserves CCR)")
    [0x44; 0xFC; 0; 0x1F] [0x4E; 0x71]
    [] false false false false 0xFF;
  CRow (text "TST.B (A1)+  ram[0]=0x80 -> N=1; A1+=1")
    [0x43; 0xEE; 0; 0] [0x4A; 0x19]
    [0x80; 0x7F; 0x01; 0; 0; 0; 0; 0; 0; 0; 0; 0; 0; 0; 0; 0;
     0; 0; 0; 0; 0; 0; 0; 0; 0; 0; 0; 0; 0; 0; 0; 0;
     0; 0; 0; 0; 0; 0; 0; 0; 0; 0; 0; 0; 0; 0; 0; 0;
     0; 0; 0; 0; 0; 0; 0; 0; 0; 0; 0; 0; 0; 0; 0; 0] true false false false 0xFF;
  CRow (text "TST.W -(A1)  A1=scratch+4 (predec to scratch+2; word=0x0100)")
    [0x43; 0xEE; 0; 0x04] [0x4A; 0x61]
    [0x80; 0x7F; 0x01; 0; 0; 0; 0; 0; 0; 0; 0; 0; 0; 0; 0; 0;
     0; 0; 0; 0; 0; 0; 0; 0; 0; 0; 0; 0; 0; 0; 0; 0;
     0; 0; 0; 0; 0; 0; 0; 0; 0; 0; 0; 0; 0; 0; 0; 0;
     0; 0; 0; 0; 0; 0; 0; 0; 0; 0; 0; 0; 0; 0; 0; 0] true false false false 0xFF;
  CRow (text "CLR.B (A1)+  A1=scratch (ram[0]=0x80 -> 0; A1+=1)")
    [0x43; 0xEE; 0; 0] [0x42; 0x19]
    [0x80; 0x7F; 0x01; 0; 0; 0; 0; 0; 0; 0; 0; 0; 0; 0; 0; 0;
     0; 0; 0; 0; 0; 0; 0; 0; 0; 0; 0; 0; 0; 0; 0; 0;
     0; 0; 0; 0; 0; 0; 0; 0; 0; 0; 0; 0; 0; 0; 0; 0;
     0; 0; 0; 0; 0; 0; 0; 0; 0; 0; 0; 0; 0; 0; 0; 0] true false false false 0xFF;
  CRow (text "NEG.B (A6)  ram[0]=0x80 -> 0x80 (V=1 -- min neg)")
    [] [0x44; 0x16]
    [0x80; 0x7F; 0x01; 0; 0; 0; 0; 0; 0; 0; 0; 0; 0; 0; 0; 0;
     0; 0; 0; 0; 0; 0; 0; 0; 0; 0; 0; 0; 0; 0; 0; 0;
     0; 0; 0; 0; 0; 0; 0; 0; 0; 0; 0; 0; 0; 0; 0; 0;
     0; 0; 0; 0; 0; 0; 0; 0; 0; 0; 0; 0; 0; 0; 0; 0] true false false false 0xFF;
  CRow (text "NEG.W (A6)  ram[0..1]=0x807F -> 0x7F81")
    [] [0x44; 0x56]
    [0x80; 0x7F; 0x01; 0; 0; 0; 0; 0; 0; 0; 0; 0; 0; 0; 0; 0;
     0; 0; 0; 0; 0; 0; 0; 0; 0; 0; 0; 0; 0; 0; 0; 0;
     0; 0; 0; 0; 0; 0; 0; 0; 0; 0; 0; 0; 0; 0; 0; 0;
     0; 0; 0; 0; 0; 0; 0; 0; 0; 0; 0; 0; 0; 0; 0; 0] true false false false 0xFF;
  CRow (text "NOT.B (A6)  ram[0]=0x80 -> 0x7F")
    [] [0x46; 0x16]
    [0x80; 0x7F; 0x01; 0; 0; 0; 0; 0; 0; 0; 0; 0; 0; 0; 0; 0;
     0; 0; 0; 0; 0; 0; 0; 0; 0; 0; 0; 0; 0; 0; 0; 0;
     0; 0; 0; 0; 0; 0; 0; 0; 0; 0; 0; 0; 0; 0; 0; 0;
     0; 0; 0; 0; 0; 0; 0; 0; 0; 0; 0; 0; 0; 0; 0; 0] true false false false 0xFF;
  CRow (text "NOT.L (A6)  ram[0..3]=0x807F0100 -> 0x7F80FEFF")
    [] [0x46; 0x96]
    [0x80; 0x7F; 0x01; 0; 0; 0; 0; 0; 0; 0; 0; 0; 0; 0; 0; 0;
     0; 0; 0; 0; 0; 0; 0; 0; 0; 0; 0; 0; 0; 0; 0; 0;
     0; 0; 0; 0; 0; 0; 0; 0; 0; 0; 0; 0; 0; 0; 0; 0;
     0; 0; 0; 0; 0; 0; 0; 0; 0; 0; 0; 0; 0; 0; 0; 0] true false false false 0xFF].

Definition cpu_tests_16 : list CpuRow := [
  CRow (text "NEGX.B (A6)  ram[0]=0x05, X=1 -> 0xFA")
    [0x44; 0xFC; 0; 0x10] [0x40; 0x16]
    [0x80; 0x7F; 0x01; 0; 0; 0; 0; 0; 0; 0; 0; 0; 0; 0; 0; 0;
     0; 0; 0; 0; 0; 0; 0; 0; 0; 0; 0; 0; 0; 0; 0; 0;
     0; 0; 0; 0; 0; 0; 0; 0; 0; 0; 0; 0; 0; 0; 0; 0;
     0; 0; 0; 0; 0; 0; 0; 0; 0; 0; 0; 0; 0; 0; 0; 0] true false false false 0xFF;
  CRow (text "NEGX.W (A6)  ram[0..1]=0x807F, X=0 -> 0x7F81")
    [] [0x40; 0x56]
    [0x80; 0x7F; 0x01; 0; 0; 0; 0; 0; 0; 0; 0; 0; 0; 0; 0; 0;
     0; 0; 0; 0; 0; 0; 0; 0; 0; 0; 0; 0; 0; 0; 0; 0;
     0; 0; 0; 0; 0; 0; 0; 0; 0; 0; 0; 0; 0; 0; 0; 0;
     0; 0; 0; 0; 0; 0; 0; 0; 0; 0; 0; 0; 0; 0; 0; 0] true false false false 0xFF;
  CRow (text "ADD.L D1,D0  pos+pos overflow (D0=0x7FFFFFFF + D1=1 -> V=1,N=1)")
    [0x20; 0x3C; 0x7F; 0xFF; 0xFF; 0xFF; 0x22; 0x3C; 0; 0; 0; 0x01] [0xD0; 0x81]
    [] false false false false 0xFF;
  CRow (text "ADD.L D1,D0  neg+neg overflow (D0=0x80000000 + D1=0xFFFFFFFF -> V=1)")
    [0x20; 0x3C; 0x80; 0; 0; 0; 0x22; 0x3C; 0xFF; 0xFF; 0xFF; 0xFF] [0xD0; 0x81]
    [] false false false false 0xFF;
  CRow (text "SUB.L D1,D0  pos-neg overflow (D0=0x7FFFFFFF - D1=0xFFFFFFFF -> V=1)")
    [0x20; 0x3C; 0x7F; 0xFF; 0xFF; 0xFF; 0x22; 0x3C; 0xFF; 0xFF; 0xFF; 0xFF] [0x90; 0x81]
    [] false false false false 0xFF;
  CRow (text "SUB.B D1,D0  signed overflow (D0.B=0x80 - D1.B=1 -> V=1)")
    [0x20; 0x3C; 0xAA; 0; 0; 0x80; 0x22; 0x3C; 0; 0; 0; 0x01] [0x90; 0x01]
    [] false false false false 0xFF;
  CRow (text "ROXL.L #1,D0  X=0 (D0=0x80000000 -> 0; X=1, C=1)")
    [0x20; 0x3C; 0x80; 0; 0; 0; 0x44; 0xFC; 0; 0] [0xE3; 0x90]
    [] false false false false 0xFF;
  CRow (text "ROXL.L #1,D0  X=1 (D0=0 -> 1; X=0, C=0)")
    [0x20; 0x3C; 0; 0; 0; 0; 0x44; 0xFC; 0; 0x10] [0xE3; 0x90]
    [] false false false false 0xFF;
  CRow (text "ROXR.L #1,D0  X=1 (D0=0 -> 0x80000000; X=0)")
    [0x20; 0x3C; 0; 0; 0; 0; 0x44; 0xFC; 0; 0x10] [0xE2; 0x90]
    [] false false false false 0xFF;
  CRow (text "DBF D1,loop  cc=False, D1=2 (3 iter -> scratch[0]=3)")
    [0x22; 0x3C; 0; 0; 0; 0x02; 0x44; 0xFC; 0; 0] [0x52; 0x16; 0x51; 0xC9; 0xFF; 0xFC]
    [] false false false false 0xFF;
  CRow (text "DBHI D1,loop  cc=False, D1=2 (3 iter -> scratch[0]=3)")
    [0x22; 0x3C; 0; 0; 0; 0x02; 0x44; 0xFC; 0; 0x05] [0x52; 0x16; 0x52; 0xC9; 0xFF; 0xFC]
    [] false false false false 0xFF;
  CRow (text "DBVS D1,loop  cc=False, D1=2 (3 iter -> scratch[0]=3)")
    [0x22; 0x3C; 0; 0; 0; 0x02; 0x44; 0xFC; 0; 0] [0x52; 0x16; 0x59; 0xC9; 0xFF; 0xFC]
    [] false false false false 0xFF;
  CRow (text "DBMI D1,loop  cc=False, D1=2 (3 iter -> scratch[0]=3)")
    [0x22; 0x3C; 0; 0; 0; 0x02; 0x44; 0xFC; 0; 0] [0x52; 0x16; 0x5B; 0xC9; 0xFF; 0xFC]
    [] false false false false 0xFF;
  CRow (text "SHI (A6)  CCR=0x00 -> ram[0]=0xFF")
    [0x44; 0xFC; 0; 0] [0x52; 0xD6]
    [0; 0; 0; 0; 0; 0; 0; 0; 0; 0; 0; 0; 0; 0; 0; 0;
     0; 0; 0; 0; 0; 0; 0; 0; 0; 0; 0; 0; 0; 0; 0; 0;
     0; 0; 0; 0; 0; 0; 0; 0; 0; 0; 0; 0; 0; 0; 0; 0;
     0; 0; 0; 0; 0; 0; 0; 0; 0; 0; 0; 0; 0; 0; 0; 0] true false false false 0xFF;
  CRow (text "SLS (A6)  CCR=0x01 -> ram[0]=0xFF")
    [0x44; 0xFC; 0; 0x01] [0x53; 0xD6]
    [0; 0; 0; 0; 0; 0; 0; 0; 0; 0; 0; 0; 0; 0; 0; 0;
     0; 0; 0; 0; 0; 0; 0; 0; 0; 0; 0; 0; 0; 0; 0; 0;
     0; 0; 0; 0; 0; 0; 0; 0; 0; 0; 0; 0; 0; 0; 0; 0;
     0; 0; 0; 0; 0; 0; 0; 0; 0; 0; 0; 0; 0; 0; 0; 0] true false false false 0xFF;
  CRow (text "SVS (A6)  CCR=0x02 -> ram[0]=0xFF")
    [0x44; 0xFC; 0; 0x02] [0x59; 0xD6]
    [0; 0; 0; 0; 0; 0; 0; 0; 0; 0; 0; 0; 0; 0; 0; 0;
     0; 0; 0; 0; 0; 0; 0; 0; 0; 0; 0; 0; 0; 0; 0; 0;
     0; 0; 0; 0; 0; 0; 0; 0; 0; 0; 0; 0; 0; 0; 0; 0;
     0; 0; 0; 0; 0; 0; 0; 0; 0; 0; 0; 0; 0; 0; 0; 0] true false false false 0xFF;
  CRow (text "SGE (A6)  CCR=0x00 -> ram[0]=0xFF")
    [0x44; 0xFC; 0; 0] [0x5C; 0xD6]
    [0; 0; 0; 0; 0; 0; 0; 0; 0; 0; 0; 0; 0; 0; 0; 0;
     0; 0; 0; 0; 0; 0; 0; 0; 0; 0; 0; 0; 0; 0; 0; 0;
     0; 0; 0; 0; 0; 0; 0; 0; 0; 0; 0; 0; 0; 0; 0; 0;
     0; 0; 0; 0; 0; 0; 0; 0; 0; 0; 0; 0; 0; 0; 0; 0] true false false false 0xFF;
  CRow (text "SGT (A6)  CCR=0x00 -> ram[0]=0xFF")
    [0x44; 0xFC; 0; 0] [0x5E; 0xD6]
    [0; 0; 0; 0; 0; 0; 0; 0; 0; 0; 0; 0; 0; 0; 0; 0;
     0; 0; 0; 0; 0; 0; 0; 0; 0; 0; 0; 0; 0; 0; 0; 0;
     0; 0; 0; 0; 0; 0; 0; 0; 0; 0; 0; 0; 0; 0; 0; 0;
     0; 0; 0; 0; 0; 0; 0; 0; 0; 0; 0; 0; 0; 0; 0; 0] true false false false 0xFF;
  CRow (text "SLE (A6)  CCR=0x04 -> ram[0]=0xFF")
    [0x44; 0xFC; 0; 0x04] [0x5F; 0xD6]
    [0; 0; 0; 0; 0; 0; 0; 0; 0; 0; 0; 0; 0; 0; 0; 0;
     0; 0; 0; 0; 0; 0; 0; 0; 0; 0; 0; 0; 0; 0; 0; 0;
     0; 0; 0; 0; 0; 0; 0; 0; 0; 0; 0; 0; 0; 0; 0; 0;
     0; 0; 0; 0; 0; 0; 0; 0; 0; 0; 0; 0; 0; 0; 0; 0] true false false false 0xFF;
  CRow (text "MULS.L D1,D0  pos*pos overflow into 64b (V=1)")
    [0x20; 0x3C; 0; 0x01; 0; 0; 0x22; 0x3C; 0; 0x01; 0; 0] [0x4C; 0x01; 0x08; 0]
    [] false false false false 0xFF;
  CRow (text "MULU.L D1,D0  overflow (0x10000 * 0x10000 = 0x100000000, V=1)")
    [0x20; 0x3C; 0; 0x01; 0; 0; 0x22; 0x3C; 0; 0x01; 0; 0] [0x4C; 0x01; 0; 0]
    [] false false false false 0xFF;
  CRow (text "DIVS.L D1,D2:D0  64b dividend (Dr:Dq = 0:0x10000 / D1=2 -> Dq=0x8000)")
    [0x20; 0x3C; 0; 0x01; 0; 0; 0x22; 0x3C; 0; 0; 0; 0x02; 0x24; 0x3C; 0; 0; 0; 0] [0x4C; 0x41; 0x0C; 0x02]
    [] false false false false 0xFF;
  CRow (text "EXC: DIVS.L D1,D0:D0  divide by zero (vec 5 / $14)")
    [0x20; 0x3C; 0; 0; 0x01; 0; 0x22; 0x3C; 0; 0; 0; 0] [0x4C; 0x41; 0x08; 0]
    [] false false true false 0xFF;
  CRow (text "EXC: DIVU.L D1,D0:D0  divide by zero (vec 5 / $14)")
    [0x20; 0x3C; 0; 0; 0x01; 0; 0x22; 0x3C; 0; 0; 0; 0] [0x4C; 0x41; 0; 0]
    [] false false true false 0xFF;
  CRow (text "ASR.L #1,D0  D0=0x80000000 -> 0xC0000000 (sign-fill)")
    [0x20; 0x3C; 0x80; 0; 0; 0] [0xE2; 0x80]
    [] false false false false 0xFF;
  CRow (text "ASR.L #31,D0 (cnt=8 imm; need Dm for >8). Use #7 -> 0xFF000000")
    [0x20; 0x3C; 0x80; 0; 0; 0] [0xEE; 0x80]
    [] false false false false 0xFF;
  CRow (text "BTST #15,(A6)  (mod 8 = 7; bit 7 of 0x80 -> Z=0)")
    [] [0x08; 0x16; 0; 0x0F]
    [0x80; 0; 0; 0; 0; 0; 0; 0; 0; 0; 0; 0; 0; 0; 0; 0;
     0; 0; 0; 0; 0; 0; 0; 0; 0; 0; 0; 0; 0; 0; 0; 0;
     0; 0; 0; 0; 0; 0; 0; 0; 0; 0; 0; 0; 0; 0; 0; 0;
     0; 0; 0; 0; 0; 0; 0; 0; 0; 0; 0; 0; 0; 0; 0; 0] true false false false 0xFF;
  CRow (text "ADDQ.B #1,D0  (D0.B=0x7F -> 0x80, V=1)")
    [0x20; 0x3C; 0xAA; 0; 0; 0x7F] [0x52; 0]
    [] false false false false 0xFF;
  CRow (text "ADDQ.W #2,D0  (D0.W=0x7FFF -> 0x8001, V=1)")
    [0x20; 0x3C; 0xAA; 0; 0x7F; 0xFF] [0x54; 0x40]
    [] false false false false 0xFF;
  CRow (text "SUBQ.W #5,D0  (D0.W=0x0002 -> 0xFFFD, N=1,X=1,C=1)")
    [0x20; 0x3C; 0xAA; 0; 0; 0x02] [0x5B; 0x40]
    [] false false false false 0xFF;
  CRow (text "ADDQ.B #4,(A6)  byte memory dst (ram[0]=0x10 -> 0x14)")
    [] [0x58; 0x16]
    [0x10; 0; 0; 0; 0; 0; 0; 0; 0; 0; 0; 0; 0; 0; 0; 0;
     0; 0; 0; 0; 0; 0; 0; 0; 0; 0; 0; 0; 0; 0; 0; 0;
     0; 0; 0; 0; 0; 0; 0; 0; 0; 0; 0; 0; 0; 0; 0; 0;
     0; 0; 0; 0; 0; 0; 0; 0; 0; 0; 0; 0; 0; 0; 0; 0] true false false false 0xFF;
  CRow (text "AND.B D0,4(A6)  d16 dst (D0=0x0F)")
    [0x20; 0x3C; 0xAA; 0xBB; 0xCC; 0x0F] [0xC1; 0x2E; 0; 0x04]
    [0xAA; 0xBB; 0xCC; 0xDD; 0; 0; 0; 0; 0; 0; 0; 0; 0; 0; 0; 0;
     0; 0; 0; 0; 0; 0; 0; 0; 0; 0; 0; 0; 0; 0; 0; 0;
     0; 0; 0; 0; 0; 0; 0; 0; 0; 0; 0; 0; 0; 0; 0; 0;
     0; 0; 0; 0; 0; 0; 0; 0; 0; 0; 0; 0; 0; 0; 0; 0] true false false false 0xFF;
  CRow (text "OR.W D0,(A1)+  (D0.W=0x00FF, A1=scratch)")
    [0x20; 0x3C; 0xAA; 0xBB; 0; 0xFF; 0x43; 0xEE; 0; 0] [0x81; 0x59]
    [0xAA; 0xBB; 0xCC; 0xDD; 0; 0; 0; 0; 0; 0; 0; 0; 0; 0; 0; 0;
     0; 0; 0; 0; 0; 0; 0; 0; 0; 0; 0; 0; 0; 0; 0; 0;
     0; 0; 0; 0; 0; 0; 0; 0; 0; 0; 0; 0; 0; 0; 0; 0;
     0; 0; 0; 0; 0; 0; 0; 0; 0; 0; 0; 0; 0; 0; 0; 0] true false false false 0xFF;
  CRow (text "MOVE.L (A1)+,(A0)+  A1=scratch, A0=scratch+8")
    [0x41; 0xEE; 0; 0x08; 0x43; 0xEE; 0; 0] [0x20; 0xD9]
    [0xDE; 0xAD; 0xBE; 0xEF; 0; 0; 0; 0; 0; 0; 0; 0; 0; 0; 0; 0;
     0; 0; 0; 0; 0; 0; 0; 0; 0; 0; 0; 0; 0; 0; 0; 0;
     0; 0; 0; 0; 0; 0; 0; 0; 0; 0; 0; 0; 0; 0; 0; 0;
     0; 0; 0; 0; 0; 0; 0; 0; 0; 0; 0; 0; 0; 0; 0; 0] true false false false 0xFF;
  CRow (text "MOVE.L D0,-(A1)  A1=scratch+8, writes to scratch+4")
    [0x20; 0x3C; 0xCA; 0xFE; 0xBA; 0xBE; 0x43; 0xEE; 0; 0x08] [0x23; 0]
    [0; 0; 0; 0; 0; 0; 0; 0; 0; 0; 0; 0; 0; 0; 0; 0;
     0; 0; 0; 0; 0; 0; 0; 0; 0; 0; 0; 0; 0; 0; 0; 0;
     0; 0; 0; 0; 0; 0; 0; 0; 0; 0; 0; 0; 0; 0; 0; 0;
     0; 0; 0; 0; 0; 0; 0; 0; 0; 0; 0; 0; 0; 0; 0; 0] true false false false 0xFF;
  CRow (text "BTST #2,4(A6)  ram[4]=0x55 -> bit 2 set, Z=0")
    [] [0x08; 0x2E; 0; 0x02; 0; 0x04]
    [0; 0; 0; 0; 0x55; 0; 0; 0; 0; 0; 0; 0; 0; 0; 0; 0;
     0; 0; 0; 0; 0; 0; 0; 0; 0; 0; 0; 0; 0; 0; 0; 0;
     0; 0; 0; 0; 0; 0; 0; 0; 0; 0; 0; 0; 0; 0; 0; 0;
     0; 0; 0; 0; 0; 0; 0; 0; 0; 0; 0; 0; 0; 0; 0; 0] true false false false 0xFF;
  CRow (text "BFINS D1,(A6){0:8}  D1=0x00 -> ram[0]=0x00")
    [0x22; 0x3C; 0; 0; 0; 0] [0xEF; 0xD6; 0x10; 0x08]
    [0xFF; 0xFF; 0; 0; 0; 0; 0; 0; 0; 0; 0; 0; 0; 0; 0; 0;
     0; 0; 0; 0; 0; 0; 0; 0; 0; 0; 0; 0; 0; 0; 0; 0;
     0; 0; 0; 0; 0; 0; 0; 0; 0; 0; 0; 0; 0; 0; 0; 0;
     0; 0; 0; 0; 0; 0; 0; 0; 0; 0; 0; 0; 0; 0; 0; 0] true false false false 0xFF].

Definition cpu_tests_17 : list CpuRow := [
  CRow (text "BFCLR (A6){0:16}  ram[0..1]=0xFFFF -> 0x0000")
    [] [0xEC; 0xD6; 0; 0x10]
    [0xFF; 0xFF; 0; 0; 0; 0; 0; 0; 0; 0; 0; 0; 0; 0; 0; 0;
     0; 0; 0; 0; 0; 0; 0; 0; 0; 0; 0; 0; 0; 0; 0; 0;
     0; 0; 0; 0; 0; 0; 0; 0; 0; 0; 0; 0; 0; 0; 0; 0;
     0; 0; 0; 0; 0; 0; 0; 0; 0; 0; 0; 0; 0; 0; 0; 0] true false false false 0xFF;
  CRow (text "LEA 4(A6,D0.W),A1  D0=2 -> A1 = scratch+6")
    [0x20; 0x3C; 0; 0; 0; 0x02] [0x43; 0xF6; 0; 0x04]
    [] false false false false 0xFF;
  CRow (text "SUBA.W (A1),A0  A0=scratch+0x20, A1=scratch (reads word 0x0010 sign-ext)")
    [0x41; 0xEE; 0; 0x20; 0x43; 0xEE; 0; 0] [0x90; 0xD1]
    [0; 0x10; 0; 0; 0; 0; 0; 0; 0; 0; 0; 0; 0; 0; 0; 0;
     0; 0; 0; 0; 0; 0; 0; 0; 0; 0; 0; 0; 0; 0; 0; 0;
     0; 0; 0; 0; 0; 0; 0; 0; 0; 0; 0; 0; 0; 0; 0; 0;
     0; 0; 0; 0; 0; 0; 0; 0; 0; 0; 0; 0; 0; 0; 0; 0] true false false false 0xFF;
  CRow (text "EXG D7,D0  high/low data regs")
    [0x20; 0x3C; 0x11; 0x11; 0x11; 0x11; 0x2E; 0x3C; 0x77; 0x77; 0x77; 0x77] [0xCF; 0x40]
    [] false false false false 0xFF;
  CRow (text "EXG A5,D2  (D2=0x12345678 A5=scratch+0x10)")
    [0x24; 0x3C; 0x12; 0x34; 0x56; 0x78; 0x4B; 0xEE; 0; 0x10] [0xC5; 0x8D]
    [] false false false false 0xFF;
  CRow (text "ADDA.L #0x100,A0  imm word? No, .L imm. (A0=scratch+0x10 -> +0x100)")
    [0x41; 0xEE; 0; 0x10] [0xD1; 0xFC; 0; 0; 0x01; 0]
    [] false false false false 0xFF;
  CRow (text "TAS d16(A6)  ram[2]=0x00 -> 0x80, Z=1")
    [] [0x4A; 0xEE; 0; 0x02]
    [0; 0; 0; 0; 0; 0; 0; 0; 0; 0; 0; 0; 0; 0; 0; 0;
     0; 0; 0; 0; 0; 0; 0; 0; 0; 0; 0; 0; 0; 0; 0; 0;
     0; 0; 0; 0; 0; 0; 0; 0; 0; 0; 0; 0; 0; 0; 0; 0;
     0; 0; 0; 0; 0; 0; 0; 0; 0; 0; 0; 0; 0; 0; 0; 0] true false false false 0xFF;
  CRow (text "TST.L (d16,PC)  data=0x80000001 -> N=1")
    [] [0x4A; 0xBA; 0; 0x04; 0x60; 0x04; 0x80; 0; 0; 0x01]
    [] false false false false 0xFF;
  CRow (text "NOP x 4  (test prefetch over 4 sequential NOPs)")
    [] [0x4E; 0x71; 0x4E; 0x71; 0x4E; 0x71; 0x4E; 0x71]
    [] false false false false 0xFF;
  CRow (text "ROXL.W #3,D0 (D0=0x12340FE0, X=1)")
    [0x20; 0x3C; 0x12; 0x34; 0x0F; 0xE0; 0x44; 0xFC; 0; 0x10] [0xE7; 0x50]
    [] false false false false 0xFF;
  CRow (text "ROXL.B #5,D0 (D0.B=0x81, X=0)")
    [0x20; 0x3C; 0xAA; 0xBB; 0xCC; 0x81] [0xEB; 0x10]
    [] false false false false 0xFF;
  CRow (text "ROXR.W #3,D0 (D0=0x12340FE0, X=1)")
    [0x20; 0x3C; 0x12; 0x34; 0x0F; 0xE0; 0x44; 0xFC; 0; 0x10] [0xE6; 0x50]
    [] false false false false 0xFF;
  CRow (text "ROXR.B #5,D0 (D0.B=0x81, X=0)")
    [0x20; 0x3C; 0xAA; 0xBB; 0xCC; 0x81] [0xEA; 0x10]
    [] false false false false 0xFF;
  CRow (text "ROL.W #3,D0 (D0=0x12340FE0, X=1)")
    [0x20; 0x3C; 0x12; 0x34; 0x0F; 0xE0; 0x44; 0xFC; 0; 0x10] [0xE7; 0x58]
    [] false false false false 0xFF;
  CRow (text "ROL.B #5,D0 (D0.B=0x81, X=0)")
    [0x20; 0x3C; 0xAA; 0xBB; 0xCC; 0x81] [0xEB; 0x18]
    [] false false false false 0xFF;
  CRow (text "ROR.W #3,D0 (D0=0x12340FE0, X=1)")
    [0x20; 0x3C; 0x12; 0x34; 0x0F; 0xE0; 0x44; 0xFC; 0; 0x10] [0xE6; 0x58]
    [] false false false false 0xFF;
  CRow (text "ROR.B #5,D0 (D0.B=0x81, X=0)")
    [0x20; 0x3C; 0xAA; 0xBB; 0xCC; 0x81] [0xEA; 0x18]
    [] false false false false 0xFF;
  CRow (text "ASL.B D1,D0 (D0.B=0x40 D1=2 -> 0x00 V=1)")
    [0x20; 0x3C; 0x12; 0x34; 0x56; 0x40; 0x22; 0x3C; 0; 0; 0; 0x02] [0xE3; 0x20]
    [] false false false false 0xFF;
  CRow (text "LSR.B D1,D0 (D0.B=0x80 D1=1 -> 0x40)")
    [0x20; 0x3C; 0x12; 0x34; 0x56; 0x80; 0x22; 0x3C; 0; 0; 0; 0x01] [0xE2; 0x28]
    [] false false false false 0xFF;
  CRow (text "ABCD D1,D0 (D0=0x08+D1=0x05 -> 0x13, X=0; low-nibble carry)")
    [0x20; 0x3C; 0; 0; 0; 0x08; 0x22; 0x3C; 0; 0; 0; 0x05] [0xC1; 0x01]
    [] false false false false 0xFF;
  CRow (text "ABCD D1,D0 (D0=0x50+D1=0x60 -> 0x10, C=1; high-nibble carry)")
    [0x20; 0x3C; 0; 0; 0; 0x50; 0x22; 0x3C; 0; 0; 0; 0x60] [0xC1; 0x01]
    [] false false false false 0xFF;
  CRow (text "SBCD D1,D0 (D0=0x10-D1=0x05 -> 0x05; low borrow)")
    [0x20; 0x3C; 0; 0; 0; 0x10; 0x22; 0x3C; 0; 0; 0; 0x05] [0x81; 0x01]
    [] false false false false 0xFF;
  CRow (text "SBCD D1,D0 (D0=0x05-D1=0x10-X=1 -> 0x94 C=1; high+low borrow)")
    [0x20; 0x3C; 0; 0; 0; 0x05; 0x22; 0x3C; 0; 0; 0; 0x10; 0x44; 0xFC; 0; 0x10] [0x81; 0x01]
    [] false false false false 0xFF;
  CRow (text "NBCD D0  (D0=0x00, X=0)")
    [0x20; 0x3C; 0; 0; 0; 0] [0x48; 0]
    [] false false false false 0xF5;
  CRow (text "NBCD D0  (D0=0x99, X=0)")
    [0x20; 0x3C; 0; 0; 0; 0x99] [0x48; 0]
    [] false false false false 0xF5;
  CRow (text "NBCD D0  (D0=0x01, X=0)")
    [0x20; 0x3C; 0; 0; 0; 0x01] [0x48; 0]
    [] false false false false 0xF5;
  CRow (text "BFFFO D0{0:32},D1  D0=0x00000001 (bit0)")
    [0x20; 0x3C; 0; 0; 0; 0x01] [0xED; 0xC0; 0x10; 0]
    [] false false false false 0xFF;
  CRow (text "BFFFO D0{0:32},D1  D0=0x80000000 (bit31)")
    [0x20; 0x3C; 0x80; 0; 0; 0] [0xED; 0xC0; 0x10; 0]
    [] false false false false 0xFF;
  CRow (text "BFFFO D0{0:32},D1  D0=0xFFFFFFFF (all)")
    [0x20; 0x3C; 0xFF; 0xFF; 0xFF; 0xFF] [0xED; 0xC0; 0x10; 0]
    [] false false false false 0xFF;
  CRow (text "BFFFO D0{0:32},D1  D0=0x00000000 (none)")
    [0x20; 0x3C; 0; 0; 0; 0] [0xED; 0xC0; 0x10; 0]
    [] false false false false 0xFF;
  CRow (text "MOVE.L (bd.L,A6_supp,Dn_supp),D1  pure bd.L (=$1800)")
    [] [0x22; 0x36; 0x09; 0xF0; 0; 0; 0x18; 0]
    [0xAB; 0xCD; 0xEF; 0x01; 0; 0; 0; 0; 0; 0; 0; 0; 0; 0; 0; 0;
     0; 0; 0; 0; 0; 0; 0; 0; 0; 0; 0; 0; 0; 0; 0; 0;
     0; 0; 0; 0; 0; 0; 0; 0; 0; 0; 0; 0; 0; 0; 0; 0;
     0; 0; 0; 0; 0; 0; 0; 0; 0; 0; 0; 0; 0; 0; 0; 0] true false false false 0xFF;
  CRow (text "MOVE.L (bd.W,A6,IS=1),D1  no-index, bd=4 -> read scratch+4")
    [] [0x22; 0x36; 0x01; 0x60; 0; 0x04]
    [0; 0; 0; 0; 0x11; 0x22; 0x33; 0x44; 0; 0; 0; 0; 0; 0; 0; 0;
     0; 0; 0; 0; 0; 0; 0; 0; 0; 0; 0; 0; 0; 0; 0; 0;
     0; 0; 0; 0; 0; 0; 0; 0; 0; 0; 0; 0; 0; 0; 0; 0;
     0; 0; 0; 0; 0; 0; 0; 0; 0; 0; 0; 0; 0; 0; 0; 0] true false false false 0xFF;
  CRow (text "BSET #1,4(A6)  static (ram[4]=0x55 -> 0x57)")
    [] [0x08; 0xEE; 0; 0x01; 0; 0x04]
    [0; 0; 0; 0; 0x55; 0; 0; 0; 0; 0; 0; 0; 0; 0; 0; 0;
     0; 0; 0; 0; 0; 0; 0; 0; 0; 0; 0; 0; 0; 0; 0; 0;
     0; 0; 0; 0; 0; 0; 0; 0; 0; 0; 0; 0; 0; 0; 0; 0;
     0; 0; 0; 0; 0; 0; 0; 0; 0; 0; 0; 0; 0; 0; 0; 0] true false false false 0xFF;
  CRow (text "BCLR #6,4(A6)  static (ram[4]=0x55 -> 0x15)")
    [] [0x08; 0xAE; 0; 0x06; 0; 0x04]
    [0; 0; 0; 0; 0x55; 0; 0; 0; 0; 0; 0; 0; 0; 0; 0; 0;
     0; 0; 0; 0; 0; 0; 0; 0; 0; 0; 0; 0; 0; 0; 0; 0;
     0; 0; 0; 0; 0; 0; 0; 0; 0; 0; 0; 0; 0; 0; 0; 0;
     0; 0; 0; 0; 0; 0; 0; 0; 0; 0; 0; 0; 0; 0; 0; 0] true false false false 0xFF;
  CRow (text "BCHG #3,4(A6)  static (ram[4]=0x55 -> 0x5D)")
    [] [0x08; 0x6E; 0; 0x03; 0; 0x04]
    [0; 0; 0; 0; 0x55; 0; 0; 0; 0; 0; 0; 0; 0; 0; 0; 0;
     0; 0; 0; 0; 0; 0; 0; 0; 0; 0; 0; 0; 0; 0; 0; 0;
     0; 0; 0; 0; 0; 0; 0; 0; 0; 0; 0; 0; 0; 0; 0; 0;
     0; 0; 0; 0; 0; 0; 0; 0; 0; 0; 0; 0; 0; 0; 0; 0] true false false false 0xFF;
  CRow (text "MOVE.L #0x12345678,(A6)  (immediate src, mem dst)")
    [] [0x2C; 0xBC; 0x12; 0x34; 0x56; 0x78]
    [] false false false false 0xFF;
  CRow (text "MOVE.W #0xCAFE,d16(A6)  (imm src, d16 dst)")
    [] [0x3D; 0x7C; 0xCA; 0xFE; 0; 0x08]
    [] false false false false 0xFF].

Definition cpu_tests_18 : list CpuRow := [
  CRow (text "CHK.L D1,D0  (D0=5,D1=10 in-bounds, no trap)")
    [0x20; 0x3C; 0; 0; 0; 0x05; 0x22; 0x3C; 0; 0; 0; 0x0A] [0x41; 0x01]
    [] false false false false 0xFF;
  CRow (text "EXC: CHK.L D1,D0  (D0=20 > D1=10, vec 6 / $18)")
    [0x20; 0x3C; 0; 0; 0; 0x14; 0x22; 0x3C; 0; 0; 0; 0x0A] [0x41; 0x01]
    [] false false true false 0xFF;
  CRow (text "TRAPF  (cc=False, never trap)")
    [] [0x51; 0xFC]
    [] false false false false 0xFF;
  CRow (text "EXC: TRAPT  (cc=True, always trap, vec 7)")
    [] [0x50; 0xFC]
    [] false false true false 0xFF;
  CRow (text "TRAPF.W #0  (no trap)")
    [] [0x51; 0xFA; 0; 0]
    [] false false false false 0xFF;
  CRow (text "TRAPF.L #0  (no trap)")
    [] [0x51; 0xFB; 0; 0; 0; 0]
    [] false false false false 0xFF;
  CRow (text "ORI.W #0xFF00,D0  (D0=0x12340056 -> 0x1234FF56)")
    [0x20; 0x3C; 0x12; 0x34; 0; 0x56] [0; 0x40; 0xFF; 0]
    [] false false false false 0xFF;
  CRow (text "ANDI.B #0xF0,D0  (D0=0x12345678 -> 0x12345670)")
    [0x20; 0x3C; 0x12; 0x34; 0x56; 0x78] [0x02; 0; 0; 0xF0]
    [] false false false false 0xFF;
  CRow (text "EORI.W #0xFFFF,D0  (D0.W=0x1234 -> 0xEDCB)")
    [0x20; 0x3C; 0x12; 0x34; 0x12; 0x34] [0x0A; 0x40; 0xFF; 0xFF]
    [] false false false false 0xFF;
  CRow (text "LEA (bd.W=$10,A6,D0.W),A1  (D0=2 -> A1 = scratch+$12)")
    [0x20; 0x3C; 0; 0; 0; 0x02] [0x43; 0xF6; 0x01; 0x20; 0; 0x10]
    [] false false false false 0xFF;
  CRow (text "EXG A0,A7  (A0=scratch A7 unchanged; A7 not diffed)")
    [0x41; 0xEE; 0; 0] [0xC1; 0x4F]
    [] false false false false 0xFF;
  CRow (text "EXG D0,D7  zero+nonzero")
    [0x20; 0x3C; 0; 0; 0; 0; 0x2E; 0x3C; 0xAA; 0xBB; 0xCC; 0xDD] [0xC1; 0x47]
    [] false false false false 0xFF;
  CRow (text "MOVE.L A6,D0  (D0 := A6 = scratch)")
    [] [0x20; 0x0E]
    [] false false false false 0xFF;
  CRow (text "MOVEA.L D0,A1  (A1 := D0=0xABCDEF12)")
    [0x20; 0x3C; 0xAB; 0xCD; 0xEF; 0x12] [0x22; 0x40]
    [] false false false false 0xFF;
  CRow (text "CMP.B (A6),D0  (D0=0x42 vs ram[0]=0x42 -> Z=1)")
    [0x20; 0x3C; 0xAA; 0xBB; 0xCC; 0x42] [0xB0; 0x16]
    [0x42; 0; 0; 0; 0; 0; 0; 0; 0; 0; 0; 0; 0; 0; 0; 0;
     0; 0; 0; 0; 0; 0; 0; 0; 0; 0; 0; 0; 0; 0; 0; 0;
     0; 0; 0; 0; 0; 0; 0; 0; 0; 0; 0; 0; 0; 0; 0; 0;
     0; 0; 0; 0; 0; 0; 0; 0; 0; 0; 0; 0; 0; 0; 0; 0] true false false false 0xFF;
  CRow (text "ADDX.B D1,D0  (D0.B=0xFE+D1.B=2+X=0 -> 0x00, X=C=1)")
    [0x20; 0x3C; 0xAA; 0xBB; 0xCC; 0xFE; 0x22; 0x3C; 0; 0; 0; 0x02] [0xD1; 0x01]
    [] false false false false 0xFF;
  CRow (text "SUBX.W D1,D0  (D0.W=0x1000-D1.W=0x0FFF-X=1 -> 0x0000, Z=1)")
    [0x20; 0x3C; 0x12; 0x34; 0x10; 0; 0x22; 0x3C; 0xAA; 0xBB; 0x0F; 0xFF; 0x44; 0xFC; 0; 0x10] [0x91; 0x41]
    [] false false false false 0xFF;
  CRow (text "ASL.W #1,D0  (D0.W=0x4000 -> 0x8000 V=1,N=1)")
    [0x20; 0x3C; 0xAA; 0xBB; 0x40; 0] [0xE3; 0x40]
    [] false false false false 0xFF;
  CRow (text "ASR.W #1,D0  (D0.W=0x0001 -> 0x0000 Z=1,X=C=1)")
    [0x20; 0x3C; 0xAA; 0xBB; 0; 0x01] [0xE2; 0x40]
    [] false false false false 0xFF;
  CRow (text "BFTST D0{0:32}  D0=0 -> Z=1")
    [0x20; 0x3C; 0; 0; 0; 0] [0xE8; 0xC0; 0; 0]
    [] false false false false 0xFF;
  CRow (text "BFTST D0{0:1}  D0=0xFFFFFFFF -> N=1 (bit 0 = top bit)")
    [0x20; 0x3C; 0xFF; 0xFF; 0xFF; 0xFF] [0xE8; 0xC0; 0; 0x01]
    [] false false false false 0xFF;
  CRow (text "MOVE.B D0,-(A1)  A1=scratch+4 writes byte at scratch+3")
    [0x20; 0x3C; 0xAA; 0xBB; 0xCC; 0xFF; 0x43; 0xEE; 0; 0x04] [0x13; 0]
    [0; 0; 0; 0; 0; 0; 0; 0; 0; 0; 0; 0; 0; 0; 0; 0;
     0; 0; 0; 0; 0; 0; 0; 0; 0; 0; 0; 0; 0; 0; 0; 0;
     0; 0; 0; 0; 0; 0; 0; 0; 0; 0; 0; 0; 0; 0; 0; 0;
     0; 0; 0; 0; 0; 0; 0; 0; 0; 0; 0; 0; 0; 0; 0; 0] true false false false 0xFF;
  CRow (text "MOVE.W D0,-(A1)  A1=scratch+4 writes word at scratch+2")
    [0x20; 0x3C; 0xAA; 0xBB; 0xFE; 0xDC; 0x43; 0xEE; 0; 0x04] [0x33; 0]
    [0; 0; 0; 0; 0; 0; 0; 0; 0; 0; 0; 0; 0; 0; 0; 0;
     0; 0; 0; 0; 0; 0; 0; 0; 0; 0; 0; 0; 0; 0; 0; 0;
     0; 0; 0; 0; 0; 0; 0; 0; 0; 0; 0; 0; 0; 0; 0; 0;
     0; 0; 0; 0; 0; 0; 0; 0; 0; 0; 0; 0; 0; 0; 0; 0] true false false false 0xFF;
  CRow (text "DIVU.L D1,D0:D2  (D2:D0 = $1:00000000 / D1=$10000 -> Dq=$10000 rem=0)")
    [0x20; 0x3C; 0; 0; 0; 0; 0x22; 0x3C; 0; 0x01; 0; 0; 0x24; 0x3C; 0; 0; 0; 0x01] [0x4C; 0x41; 0x04; 0x02]
    [] false false false false 0xFF;
  CRow (text "MOVE.W #0xDEAD,(A1)  A1=scratch")
    [0x43; 0xEE; 0; 0] [0x32; 0xBC; 0xDE; 0xAD]
    [0; 0; 0; 0; 0; 0; 0; 0; 0; 0; 0; 0; 0; 0; 0; 0;
     0; 0; 0; 0; 0; 0; 0; 0; 0; 0; 0; 0; 0; 0; 0; 0;
     0; 0; 0; 0; 0; 0; 0; 0; 0; 0; 0; 0; 0; 0; 0; 0;
     0; 0; 0; 0; 0; 0; 0; 0; 0; 0; 0; 0; 0; 0; 0; 0] true false false false 0xFF;
  CRow (text "ORI.B #0xF0,(A6)  (ram[0]=0x10 -> 0xF0)")
    [] [0; 0x16; 0; 0xF0]
    [0x10; 0; 0; 0; 0; 0; 0; 0; 0; 0; 0; 0; 0; 0; 0; 0;
     0; 0; 0; 0; 0; 0; 0; 0; 0; 0; 0; 0; 0; 0; 0; 0;
     0; 0; 0; 0; 0; 0; 0; 0; 0; 0; 0; 0; 0; 0; 0; 0;
     0; 0; 0; 0; 0; 0; 0; 0; 0; 0; 0; 0; 0; 0; 0; 0] true false false false 0xFF;
  CRow (text "ANDI.B #0x0F,(A6)  (ram[0]=0x10 -> 0x00, Z=1)")
    [] [0x02; 0x16; 0; 0x0F]
    [0x10; 0; 0; 0; 0; 0; 0; 0; 0; 0; 0; 0; 0; 0; 0; 0;
     0; 0; 0; 0; 0; 0; 0; 0; 0; 0; 0; 0; 0; 0; 0; 0;
     0; 0; 0; 0; 0; 0; 0; 0; 0; 0; 0; 0; 0; 0; 0; 0;
     0; 0; 0; 0; 0; 0; 0; 0; 0; 0; 0; 0; 0; 0; 0; 0] true false false false 0xFF;
  CRow (text "LSL.W -(A1)  A1=scratch+4 -> shift word at scratch+2 = 0x4001 -> 0x8002")
    [0x43; 0xEE; 0; 0x04] [0xE3; 0xE1]
    [0; 0; 0x40; 0x01; 0; 0; 0; 0; 0; 0; 0; 0; 0; 0; 0; 0;
     0; 0; 0; 0; 0; 0; 0; 0; 0; 0; 0; 0; 0; 0; 0; 0;
     0; 0; 0; 0; 0; 0; 0; 0; 0; 0; 0; 0; 0; 0; 0; 0;
     0; 0; 0; 0; 0; 0; 0; 0; 0; 0; 0; 0; 0; 0; 0; 0] true false false false 0xFF;
  CRow (text "BSET #4,(A1)+  A1=scratch (ram[0]=0x80 -> 0x90; A1+=1)")
    [0x43; 0xEE; 0; 0] [0x08; 0xD9; 0; 0x04]
    [0x80; 0; 0; 0; 0; 0; 0; 0; 0; 0; 0; 0; 0; 0; 0; 0;
     0; 0; 0; 0; 0; 0; 0; 0; 0; 0; 0; 0; 0; 0; 0; 0;
     0; 0; 0; 0; 0; 0; 0; 0; 0; 0; 0; 0; 0; 0; 0; 0;
     0; 0; 0; 0; 0; 0; 0; 0; 0; 0; 0; 0; 0; 0; 0; 0] true false false false 0xFF;
  CRow (text "MOVE.L D0,D1; MOVE.L D1,D2  (chain)")
    [0x20; 0x3C; 0xDE; 0xAD; 0xBE; 0xEF] [0x22; 0; 0x24; 0x01]
    [] false false false false 0xFF;
  CRow (text "MOVE.L ([bd.W=0,A6],od.W=4),D1  postindexed no-idx (->FEEDFACE)")
    [] [0x22; 0x36; 0x01; 0x66; 0; 0; 0; 0x04]
    [0; 0; 0x18; 0x08; 0; 0; 0; 0; 0; 0; 0; 0; 0xFE; 0xED; 0xFA; 0xCE;
     0; 0; 0; 0; 0; 0; 0; 0; 0; 0; 0; 0; 0; 0; 0; 0;
     0; 0; 0; 0; 0; 0; 0; 0; 0; 0; 0; 0; 0; 0; 0; 0;
     0; 0; 0; 0; 0; 0; 0; 0; 0; 0; 0; 0; 0; 0; 0; 0] true false false false 0xFF;
  CRow (text "ASL.L #1,D0  (D0=0x7FFFFFFF -> 0xFFFFFFFE; C=0,V=1,N=1)")
    [0x20; 0x3C; 0x7F; 0xFF; 0xFF; 0xFF] [0xE3; 0x80]
    [] false false false false 0xFF;
  CRow (text "EXG D5,A5  (D5=0xCAFEBABE A5=scratch+0x10)")
    [0x2A; 0x3C; 0xCA; 0xFE; 0xBA; 0xBE; 0x4B; 0xEE; 0; 0x10] [0xCB; 0x8D]
    [] false false false false 0xFF;
  CRow (text "MOVE.L ([bd.W,A6,D0.L*2]),D1  preindexed null-od (D0=2)")
    [0x20; 0x3C; 0; 0; 0; 0x02] [0x22; 0x36; 0x0B; 0x21; 0; 0]
    [0; 0; 0; 0; 0; 0; 0x18; 0x10; 0; 0; 0; 0; 0; 0; 0; 0;
     0xFA; 0xCE; 0xFE; 0xED; 0; 0; 0; 0; 0; 0; 0; 0; 0; 0; 0; 0;
     0; 0; 0; 0; 0; 0; 0; 0; 0; 0; 0; 0; 0; 0; 0; 0;
     0; 0; 0; 0; 0; 0; 0; 0; 0; 0; 0; 0; 0; 0; 0; 0] true false false false 0xFF;
  CRow (text "MOVE.L ([bd.W,A6,D0.L*2],od.L=4),D1  preindexed long-od")
    [0x20; 0x3C; 0; 0; 0; 0x02] [0x22; 0x36; 0x0B; 0x23; 0; 0; 0; 0; 0; 0x04]
    [0; 0; 0; 0; 0; 0; 0x18; 0x10; 0; 0; 0; 0; 0; 0; 0; 0;
     0; 0; 0; 0; 0xBA; 0xAD; 0xF0; 0x0D; 0; 0; 0; 0; 0; 0; 0; 0;
     0; 0; 0; 0; 0; 0; 0; 0; 0; 0; 0; 0; 0; 0; 0; 0;
     0; 0; 0; 0; 0; 0; 0; 0; 0; 0; 0; 0; 0; 0; 0; 0] true false false false 0xFF;
  CRow (text "MOVE.L ([bd.W,A6],D0.L*2),D1  postindexed null-od (D0=4)")
    [0x20; 0x3C; 0; 0; 0; 0x04] [0x22; 0x36; 0x0B; 0x25; 0; 0]
    [0; 0; 0x18; 0x08; 0; 0; 0; 0; 0; 0; 0; 0; 0; 0; 0; 0;
     0xFA; 0xCE; 0xFE; 0xED; 0; 0; 0; 0; 0; 0; 0; 0; 0; 0; 0; 0;
     0; 0; 0; 0; 0; 0; 0; 0; 0; 0; 0; 0; 0; 0; 0; 0;
     0; 0; 0; 0; 0; 0; 0; 0; 0; 0; 0; 0; 0; 0; 0; 0] true false false false 0xFF;
  CRow (text "EXC: TRAPT.W #0  (always trap, vec 7)")
    [] [0x50; 0xFA; 0; 0]
    [] false false true false 0xFF].

Definition cpu_tests_19 : list CpuRow := [
  CRow (text "EXC: TRAPT.L #0  (always trap, vec 7)")
    [] [0x50; 0xFB; 0; 0; 0; 0]
    [] false false true false 0xFF;
  CRow (text "EXC: TRAPEQ  CCR=0x04 (Z=1) -> trap")
    [0x44; 0xFC; 0; 0x04] [0x57; 0xFC]
    [] false false true false 0xFF;
  CRow (text "TRAPNE  CCR=0x04 (Z=1) -> no trap")
    [0x44; 0xFC; 0; 0x04] [0x56; 0xFC]
    [] false false false false 0xFF;
  CRow (text "MOVEM.W (A1)+,D0-D3  postinc, sign-extends to 32-bit")
    [0x43; 0xEE; 0; 0] [0x4C; 0x99; 0; 0x0F]
    [0xFF; 0xFE; 0; 0x01; 0x80; 0; 0x7F; 0xFF; 0; 0; 0; 0; 0; 0; 0; 0;
     0; 0; 0; 0; 0; 0; 0; 0; 0; 0; 0; 0; 0; 0; 0; 0;
     0; 0; 0; 0; 0; 0; 0; 0; 0; 0; 0; 0; 0; 0; 0; 0;
     0; 0; 0; 0; 0; 0; 0; 0; 0; 0; 0; 0; 0; 0; 0; 0] true false false false 0xFF;
  CRow (text "MOVEM.W D0-D3,-(A1)  predec, .W writes low word of each Dn")
    [0x20; 0x3C; 0xAA; 0xAA; 0x11; 0x11; 0x22; 0x3C; 0xBB; 0xBB; 0x22; 0x22; 0x24; 0x3C; 0xCC; 0xCC;
     0x33; 0x33; 0x26; 0x3C; 0xDD; 0xDD; 0x44; 0x44; 0x43; 0xEE; 0; 0x10] [0x48; 0xA1; 0xF0; 0]
    [] false false false false 0xFF;
  CRow (text "ASL.W (A1)+  A1=scratch+2 (word 0x4001 -> 0x8002, V=1)")
    [0x43; 0xEE; 0; 0x02] [0xE1; 0xD9]
    [0; 0; 0x40; 0x01; 0; 0; 0; 0; 0; 0; 0; 0; 0; 0; 0; 0;
     0; 0; 0; 0; 0; 0; 0; 0; 0; 0; 0; 0; 0; 0; 0; 0;
     0; 0; 0; 0; 0; 0; 0; 0; 0; 0; 0; 0; 0; 0; 0; 0;
     0; 0; 0; 0; 0; 0; 0; 0; 0; 0; 0; 0; 0; 0; 0; 0] true false false false 0xFF;
  CRow (text "LSR.W 2(A6)  (word 0x4001 -> 0x2000, C=1)")
    [] [0xE2; 0xEE; 0; 0x02]
    [0; 0; 0x40; 0x01; 0; 0; 0; 0; 0; 0; 0; 0; 0; 0; 0; 0;
     0; 0; 0; 0; 0; 0; 0; 0; 0; 0; 0; 0; 0; 0; 0; 0;
     0; 0; 0; 0; 0; 0; 0; 0; 0; 0; 0; 0; 0; 0; 0; 0;
     0; 0; 0; 0; 0; 0; 0; 0; 0; 0; 0; 0; 0; 0; 0; 0] true false false false 0xFF;
  CRow (text "BFEXTS (A6){0:16},D1  -> D1 = sign-ext(0xFEDC) = 0xFFFFFEDC")
    [] [0xEB; 0xD6; 0x10; 0x10]
    [0xFE; 0xDC; 0xBA; 0x98; 0; 0; 0; 0; 0; 0; 0; 0; 0; 0; 0; 0;
     0; 0; 0; 0; 0; 0; 0; 0; 0; 0; 0; 0; 0; 0; 0; 0;
     0; 0; 0; 0; 0; 0; 0; 0; 0; 0; 0; 0; 0; 0; 0; 0;
     0; 0; 0; 0; 0; 0; 0; 0; 0; 0; 0; 0; 0; 0; 0; 0] true false false false 0xFF;
  CRow (text "BFINS D1,(A6){4:8}  D1=0x5A -> ram[0..1] bits 4..11 = 0x5A")
    [0x22; 0x3C; 0; 0; 0; 0x5A] [0xEF; 0xD6; 0x11; 0x08]
    [0xFE; 0xDC; 0xBA; 0x98; 0; 0; 0; 0; 0; 0; 0; 0; 0; 0; 0; 0;
     0; 0; 0; 0; 0; 0; 0; 0; 0; 0; 0; 0; 0; 0; 0; 0;
     0; 0; 0; 0; 0; 0; 0; 0; 0; 0; 0; 0; 0; 0; 0; 0;
     0; 0; 0; 0; 0; 0; 0; 0; 0; 0; 0; 0; 0; 0; 0; 0] true false false false 0xFF;
  CRow (text "CMPI.W #0x8000,D0  (D0.W=0x8000 -> Z=1)")
    [0x20; 0x3C; 0xAA; 0xBB; 0x80; 0] [0x0C; 0x40; 0x80; 0]
    [] false false false false 0xFF;
  CRow (text "CMPI.B #0xFF,D0  (D0.B=0xFF -> Z=1)")
    [0x20; 0x3C; 0xAA; 0xBB; 0xCC; 0xFF] [0x0C; 0; 0; 0xFF]
    [] false false false false 0xFF;
  CRow (text "ABCD D1,D0 (D0=0x99+D1=0x99+X=0 -> 0x98 C=1)")
    [0x20; 0x3C; 0; 0; 0; 0x99; 0x22; 0x3C; 0; 0; 0; 0x99] [0xC1; 0x01]
    [] false false false false 0xF5;
  CRow (text "ABCD D1,D0 (D0=0x00+D1=0x00+X=1 -> 0x01)")
    [0x20; 0x3C; 0; 0; 0; 0; 0x22; 0x3C; 0; 0; 0; 0; 0x44; 0xFC; 0; 0x10] [0xC1; 0x01]
    [] false false false false 0xFF;
  CRow (text "SBCD D1,D0 (D0=0x00-D1=0x00-X=0 -> 0x00 Z preserved)")
    [0x20; 0x3C; 0; 0; 0; 0; 0x22; 0x3C; 0; 0; 0; 0] [0x81; 0x01]
    [] false false false false 0xFF;
  CRow (text "TST.W (d16,PC)  data word=0x8000 -> N=1")
    [] [0x4A; 0x7A; 0; 0x04; 0x60; 0x02; 0x80; 0]
    [] false false false false 0xFF;
  CRow (text "TST.B (d16,PC)  data byte=0x80 -> N=1")
    [] [0x4A; 0x3A; 0; 0x04; 0x60; 0x02; 0x80; 0]
    [] false false false false 0xFF;
  CRow (text "CMP.L (d16,PC),D0  D0=0x12345678 vs data=0x12345678 -> Z=1")
    [0x20; 0x3C; 0x12; 0x34; 0x56; 0x78] [0xB0; 0xBA; 0; 0x04; 0x60; 0x04; 0x12; 0x34; 0x56; 0x78]
    [] false false false false 0xFF;
  CRow (text "MOVE.B #0xFF,D0  (D0 := 0xAABBCCFF; only low byte updates)")
    [0x20; 0x3C; 0xAA; 0xBB; 0xCC; 0x11] [0x10; 0x3C; 0; 0xFF]
    [] false false false false 0xFF;
  CRow (text "MOVE.W #0x8000,D0  (D0.W := 0x8000)")
    [0x20; 0x3C; 0x12; 0x34; 0; 0] [0x30; 0x3C; 0x80; 0]
    [] false false false false 0xFF;
  CRow (text "SHI (A1)+  A1=scratch (CCR=0 -> HI true -> ram[0]=0xFF)")
    [0x43; 0xEE; 0; 0] [0x52; 0xD9]
    [0; 0; 0; 0; 0; 0; 0; 0; 0; 0; 0; 0; 0; 0; 0; 0;
     0; 0; 0; 0; 0; 0; 0; 0; 0; 0; 0; 0; 0; 0; 0; 0;
     0; 0; 0; 0; 0; 0; 0; 0; 0; 0; 0; 0; 0; 0; 0; 0;
     0; 0; 0; 0; 0; 0; 0; 0; 0; 0; 0; 0; 0; 0; 0; 0] true false false false 0xFF;
  CRow (text "SCS -(A1)  A1=scratch+2 (CCR=0x01,C=1 -> CS true -> ram[1]=0xFF)")
    [0x43; 0xEE; 0; 0x02; 0x44; 0xFC; 0; 0x01] [0x55; 0xE1]
    [0; 0; 0; 0; 0; 0; 0; 0; 0; 0; 0; 0; 0; 0; 0; 0;
     0; 0; 0; 0; 0; 0; 0; 0; 0; 0; 0; 0; 0; 0; 0; 0;
     0; 0; 0; 0; 0; 0; 0; 0; 0; 0; 0; 0; 0; 0; 0; 0;
     0; 0; 0; 0; 0; 0; 0; 0; 0; 0; 0; 0; 0; 0; 0; 0] true false false false 0xFF;
  CRow (text "MOVE.W (xxx).L=$1804,D0  abs-long word read (0x8000)")
    [0x20; 0x3C; 0xAA; 0xBB; 0xCC; 0xDD] [0x30; 0x39; 0; 0; 0x18; 0x04]
    [0; 0; 0; 0; 0x80; 0; 0; 0; 0; 0; 0; 0; 0; 0; 0; 0;
     0; 0; 0; 0; 0; 0; 0; 0; 0; 0; 0; 0; 0; 0; 0; 0;
     0; 0; 0; 0; 0; 0; 0; 0; 0; 0; 0; 0; 0; 0; 0; 0;
     0; 0; 0; 0; 0; 0; 0; 0; 0; 0; 0; 0; 0; 0; 0; 0] true false false false 0xFF;
  CRow (text "ADDX.B -(A1),-(A0)  predec byte (0x80+0x80+0 -> 0x00 V=1,C=1)")
    [0x41; 0xEE; 0; 0x04; 0x43; 0xEE; 0; 0x08] [0xD1; 0x09]
    [0; 0; 0; 0x80; 0; 0; 0; 0x80; 0; 0; 0; 0; 0; 0; 0; 0;
     0; 0; 0; 0; 0; 0; 0; 0; 0; 0; 0; 0; 0; 0; 0; 0;
     0; 0; 0; 0; 0; 0; 0; 0; 0; 0; 0; 0; 0; 0; 0; 0;
     0; 0; 0; 0; 0; 0; 0; 0; 0; 0; 0; 0; 0; 0; 0; 0] true false false false 0xFF;
  CRow (text "LSR.W (A6)  word=0x0001 -> 0x0000 (Z=1,X=C=1)")
    [] [0xE2; 0xD6]
    [0; 0x01; 0; 0; 0; 0; 0; 0; 0; 0; 0; 0; 0; 0; 0; 0;
     0; 0; 0; 0; 0; 0; 0; 0; 0; 0; 0; 0; 0; 0; 0; 0;
     0; 0; 0; 0; 0; 0; 0; 0; 0; 0; 0; 0; 0; 0; 0; 0;
     0; 0; 0; 0; 0; 0; 0; 0; 0; 0; 0; 0; 0; 0; 0; 0] true false false false 0xFF;
  CRow (text "TST.W A6  (A6.W=0x1800; N=0,Z=0)")
    [] [0x4A; 0x4E]
    [] false false false false 0xFF;
  CRow (text "MOVEA.W (A1),A0  word=0x7FFF -> A0=0x00007FFF")
    [0x43; 0xEE; 0; 0] [0x30; 0x51]
    [0x7F; 0xFF; 0; 0; 0; 0; 0; 0; 0; 0; 0; 0; 0; 0; 0; 0;
     0; 0; 0; 0; 0; 0; 0; 0; 0; 0; 0; 0; 0; 0; 0; 0;
     0; 0; 0; 0; 0; 0; 0; 0; 0; 0; 0; 0; 0; 0; 0; 0;
     0; 0; 0; 0; 0; 0; 0; 0; 0; 0; 0; 0; 0; 0; 0; 0] true false false false 0xFF;
  CRow (text "BCLR D1,(A1)+  A1=scratch (D1=7 -> clear bit 7 of 0xC0 = 0x40)")
    [0x22; 0x3C; 0; 0; 0; 0x07; 0x43; 0xEE; 0; 0] [0x03; 0x99]
    [0xC0; 0; 0; 0; 0; 0; 0; 0; 0; 0; 0; 0; 0; 0; 0; 0;
     0; 0; 0; 0; 0; 0; 0; 0; 0; 0; 0; 0; 0; 0; 0; 0;
     0; 0; 0; 0; 0; 0; 0; 0; 0; 0; 0; 0; 0; 0; 0; 0;
     0; 0; 0; 0; 0; 0; 0; 0; 0; 0; 0; 0; 0; 0; 0; 0] true false false false 0xFF;
  CRow (text "ANDI.W #0xFF00,D0  (D0=0x12345678 -> 0x12345600)")
    [0x20; 0x3C; 0x12; 0x34; 0x56; 0x78] [0x02; 0x40; 0xFF; 0]
    [] false false false false 0xFF;
  CRow (text "ORI.B #0x80,D0  (D0.B=0x01 -> 0x81)")
    [0x20; 0x3C; 0xAA; 0xBB; 0xCC; 0x01] [0; 0; 0; 0x80]
    [] false false false false 0xFF;
  CRow (text "BFEXTU D0{31:1},D1  highest bit (D0=0x80000000 -> D1=1)")
    [0x20; 0x3C; 0x80; 0; 0; 0] [0xE9; 0xC0; 0x10; 0xC1]
    [] false false false false 0xFF;
  CRow (text "BFINS D1,D0{0:32}  full replace (D1=0xCAFEBABE -> D0=0xCAFEBABE)")
    [0x20; 0x3C; 0xFF; 0xFF; 0xFF; 0xFF; 0x22; 0x3C; 0xCA; 0xFE; 0xBA; 0xBE] [0xEF; 0xC0; 0x10; 0]
    [] false false false false 0xFF;
  CRow (text "BFCLR D0{0:32}  full clear (D0=0xFFFFFFFF -> 0)")
    [0x20; 0x3C; 0xFF; 0xFF; 0xFF; 0xFF] [0xEC; 0xC0; 0; 0]
    [] false false false false 0xFF;
  CRow (text "BFSET D0{0:32}  full set (D0=0 -> 0xFFFFFFFF)")
    [0x20; 0x3C; 0; 0; 0; 0] [0xEE; 0xC0; 0; 0]
    [] false false false false 0xFF;
  CRow (text "MULS.L D1,D0 (signed -1 * -1 = 1)")
    [0x20; 0x3C; 0xFF; 0xFF; 0xFF; 0xFF; 0x22; 0x3C; 0xFF; 0xFF; 0xFF; 0xFF] [0x4C; 0x01; 0x08; 0]
    [] false false false false 0xFF;
  CRow (text "MULU.L D1,D0 (0 * any = 0; Z=1)")
    [0x20; 0x3C; 0; 0; 0; 0; 0x22; 0x3C; 0xCA; 0xFE; 0xBA; 0xBE] [0x4C; 0x01; 0; 0]
    [] false false false false 0xFF;
  CRow (text "DIVS.L D1,D0:D2  (D0:Dr=D2 := 0xFFFFFFF6 / 4 -> Dq=-2 rem=-2)")
    [0x20; 0x3C; 0xFF; 0xFF; 0xFF; 0xF6; 0x22; 0x3C; 0; 0; 0; 0x04; 0x24; 0x3C; 0; 0; 0; 0] [0x4C; 0x41; 0x08; 0x02]
    [] false false false false 0xFF;
  CRow (text "MOVE.L 16(A6),D1  positive disp (reads 0x11223344)")
    [] [0x22; 0x2E; 0; 0x10]
    [0; 0; 0; 0; 0; 0; 0; 0; 0; 0; 0; 0; 0; 0; 0; 0;
     0x11; 0x22; 0x33; 0x44; 0; 0; 0; 0; 0; 0; 0; 0; 0; 0; 0; 0;
     0; 0; 0; 0; 0; 0; 0; 0; 0; 0; 0; 0; 0; 0; 0; 0;
     0; 0; 0; 0; 0; 0; 0; 0; 0; 0; 0; 0; 0; 0; 0; 0] true false false false 0xFF].

Definition cpu_tests_20 : list CpuRow := [
  CRow (text "PEA 4(A6) ; MOVE.L (A7)+,D0  (D0 := scratch+4 = $1804)")
    [0x20; 0x3C; 0xDE; 0xAD; 0xBE; 0xEF] [0x48; 0x6E; 0; 0x04; 0x20; 0x1F]
    [] false false false false 0xFF;
  CRow (text "LEA d16(A6,D0.L),A1  D0=2 -> A1 = scratch+disp+2")
    [0x20; 0x3C; 0; 0; 0; 0x02] [0x43; 0xF6; 0x08; 0x08]
    [] false false false false 0xFF;
  CRow (text "TST.B (d8,PC,D0.W)  brief PC-idx")
    [0x20; 0x3C; 0; 0; 0; 0] [0x4A; 0x3B; 0; 0x04; 0x60; 0x02; 0x80; 0]
    [] false false false false 0xFF;
  CRow (text "ADDQ.L #1,D0 x 4  chain")
    [0x20; 0x3C; 0; 0; 0; 0] [0x52; 0x80; 0x52; 0x80; 0x52; 0x80; 0x52; 0x80]
    [] false false false false 0xFF;
  CRow (text "EXC: ILLEGAL  ($4AFC -> vec 4 / $10)")
    [] [0x4A; 0xFC]
    [] false false true false 0xFF;
  CRow (text "EXC: CALLM #0,(A0)  (020-only -> vec 4 on 030)")
    [0x41; 0xEE; 0; 0] [0x06; 0xD0; 0; 0]
    [] false false true false 0xFF;
  CRow (text "EXC: RTM D0  (020-only -> vec 4 on 030; MAME golden known-bad)")
    [] [0x06; 0xC0]
    [] false false true false 0xFF;
  CRow (text "EXC: DIVU.W #0,D0  (vec 5 / $14)")
    [0x20; 0x3C; 0; 0; 0x01; 0] [0x80; 0xFC; 0; 0]
    [] false false true false 0xFF;
  CRow (text "EXC: DIVS.W #0,D0  (vec 5 / $14)")
    [0x20; 0x3C; 0; 0; 0x01; 0] [0x81; 0xFC; 0; 0]
    [] false false true false 0xFF;
  CRow (text "EXC: CHK.W D1,D0  (D0=100 > D1=10, vec 6 / $18)")
    [0x20; 0x3C; 0; 0; 0; 0x64; 0x22; 0x3C; 0; 0; 0; 0x0A] [0x41; 0x81]
    [] false false true false 0xFF;
  CRow (text "EXC: CHK.W D1,D0  (D0=-1 < 0, vec 6 / $18)")
    [0x20; 0x3C; 0xFF; 0xFF; 0xFF; 0xFF; 0x22; 0x3C; 0; 0; 0; 0x64] [0x41; 0x81]
    [] false false true false 0xFF;
  CRow (text "EXC: MOVE #2,CCR ; TRAPV  (V=1, vec 7 / $1C)")
    [] [0x44; 0xFC; 0; 0x02; 0x4E; 0x76]
    [] false false true false 0xFF;
  CRow (text "EXC: TRAP #0  (vec 32 / $80)")
    [] [0x4E; 0x40]
    [] false false true false 0xFF;
  CRow (text "EXC: TRAP #7  (vec 39 / $9C)")
    [] [0x4E; 0x47]
    [] false false true false 0xFF;
  CRow (text "EXC: TRAP #15  (vec 47 / $BC)")
    [] [0x4E; 0x4F]
    [] false false true false 0xFF;
  CRow (text "EXC: JMP (A0) where A0=$1801 (odd, vec 3 / $0C)")
    [0x41; 0xEE; 0; 0x01] [0x4E; 0xD0]
    [] false false true false 0xFF;
  CRow (text "EXC: Line A trap ($A000, vec 10 / $28)")
    [] [0xA0; 0]
    [] false false true true 0xFF;
  CRow (text "DBG: NOP (baseline)")
    [] [0x4E; 0x71]
    [] false false false false 0xFF;
  CRow (text "REPRO cmpb (A2,D2.l),D1 indexed Z")
    [] [0xB2; 0x32; 0x28; 0]
    [] false false false false 0xFF;
  CRow (text "REPRO negb;cmpb (A2,D2.l),D1 indexed Z")
    [] [0x44; 0x01; 0xB2; 0x32; 0x28; 0]
    [] false false false false 0xFF].

Definition cpu_rows : list CpuRow := concat [cpu_tests_01; cpu_tests_02; cpu_tests_03; cpu_tests_04; cpu_tests_05; cpu_tests_06; cpu_tests_07; cpu_tests_08;
  cpu_tests_09; cpu_tests_10; cpu_tests_11; cpu_tests_12; cpu_tests_13; cpu_tests_14; cpu_tests_15; cpu_tests_16;
  cpu_tests_17; cpu_tests_18; cpu_tests_19; cpu_tests_20].
Definition g_cpu_tests : list BenchSpec := bench_row <$> cpu_rows.

(** ** What a row is *)

(** Bytes, whole words, within the arrays of the struct; a preset memory of none or all of
    the 64 scratch bytes. *)
Record cpu_row_typed (r : CpuRow) : Prop := {
  cpu_bytes : Forall is_byte (cr_preload r) /\ Forall is_byte (cr_test r) /\ Forall is_byte (cr_ram r) /\ is_byte (cr_ccr_mask r);
  cpu_lengths : (length (cr_preload r) <= 30)%nat /\ (0 < length (cr_test r) <= 18)%nat /\
    Nat.Even (length (cr_preload r)) /\ Nat.Even (length (cr_test r));
  cpu_ram : length (cr_ram r) = if cr_ram_present r then 64%nat else 0%nat;
  cpu_named : cr_name r <> [] /\ Forall (fun c => 32 <= c < 127 /\ c <> 34 /\ c <> 92) (cr_name r) }.

Definition name_charb (c : Z) : bool := (32 <=? c) && (c <? 127) && negb (c =? 34) && negb (c =? 92).

Definition cpu_row_typedb (r : CpuRow) : bool :=
  (forallb byteb (cr_preload r) && forallb byteb (cr_test r) && forallb byteb (cr_ram r) && byteb (cr_ccr_mask r)) &&
  ((length (cr_preload r) <=? 30)%nat && (0 <? length (cr_test r))%nat && (length (cr_test r) <=? 18)%nat &&
    Nat.even (length (cr_preload r)) && Nat.even (length (cr_test r))) &&
  (length (cr_ram r) =? if cr_ram_present r then 64 else 0)%nat &&
  (negb (length (cr_name r) =? 0)%nat && forallb name_charb (cr_name r)).

Lemma name_charb_spec c : name_charb c = true -> 32 <= c < 127 /\ c <> 34 /\ c <> 92.
Proof. unfold name_charb. rewrite !andb_true_iff, !negb_true_iff, Z.leb_le, Z.ltb_lt, !Z.eqb_neq. lia. Qed.

Lemma cpu_row_typedb_spec r : cpu_row_typedb r = true -> cpu_row_typed r.
Proof.
  unfold cpu_row_typedb. rewrite !andb_true_iff, negb_true_iff, !Nat.leb_le, Nat.ltb_lt, !Nat.eqb_eq, Nat.eqb_neq.
  intros [[[[[[Hp Ht] Hr] Hc] [[[[Lp L0] Lt] Ep] Et]] Hl] [Hn Hk]].
  split; split_and?; try assumption; try (by apply Nat.even_spec).
  1-3: by apply (forallb_Forall_impl _ _ _ byteb_spec).
  - by apply byteb_spec.
  - intros E. by rewrite E in Hn.
  - by apply (forallb_Forall_impl _ _ _ name_charb_spec).
Qed.

Lemma cpu_rows_typedb : forallb cpu_row_typedb cpu_rows = true.
Proof. vm_compute. reflexivity. Qed.

(** ** The names *)

Module KeyOrder <: TotalLeBool.
Definition t := Z.
Definition leb := Z.leb.
Theorem leb_total : forall a b, leb a b = true \/ leb b a = true.
Proof. intros a b. unfold leb. rewrite !Z.leb_le. lia. Qed.
End KeyOrder.
Module KeySort := Sort KeyOrder.

(** A name as a number. *)
Definition name_key (l : list Z) : Z := fold_left (fun a c => a * 256 + c) l 1.

Fixpoint increasing (a : Z) (l : list Z) : bool := match l with [] => true | b :: l => (a <? b) && increasing b l end.

Lemma increasing_above l : forall a x, increasing a l = true -> x ∈ l -> a < x.
Proof.
  induction l as [|b l IH]; intros a x Hi Hx; [by apply elem_of_nil in Hx|]. cbn [increasing] in Hi.
  apply andb_prop in Hi as [Hab Hi]. apply Z.ltb_lt in Hab. apply elem_of_cons in Hx as [->|Hx]; [lia|].
  pose proof (IH b x Hi Hx). lia.
Qed.

Lemma increasing_NoDup l : forall a, increasing a l = true -> NoDup l.
Proof.
  induction l as [|b l IH]; intros a Hi; [by apply NoDup_nil|]. cbn [increasing] in Hi. apply andb_prop in Hi as [_ Hi].
  apply NoDup_cons. split; [|by apply (IH b)]. intros Hb. pose proof (increasing_above l b b Hi Hb). lia.
Qed.

(** Names are distinct when their numbers, sorted, increase. *)
Lemma keys_NoDup (ls : list (list Z)) : increasing 0 (KeySort.sort (name_key <$> ls)) = true -> NoDup ls.
Proof.
  intros Hi. apply (NoDup_fmap_1 name_key). apply increasing_NoDup in Hi.
  by rewrite (KeySort.Permuted_sort (name_key <$> ls)).
Qed.

Lemma cpu_names_distinct : NoDup (cr_name <$> cpu_rows).
Proof. apply keys_NoDup. vm_compute. reflexivity. Qed.

(** With distinct names the table by name finds every row. *)
Lemma find_in {A} (f : A -> bool) (l : list A) (x : A) :
  x ∈ l -> f x = true -> (forall y, y ∈ l -> f y = true -> y = x) -> find f l = Some x.
Proof.
  induction l as [|y l IH]; intros Hx Hf Hu; [by apply elem_of_nil in Hx|]. cbn [find]. destruct (f y) eqn:E.
  - by rewrite (Hu y (list_elem_of_here _ _) E).
  - apply elem_of_cons in Hx as [->|Hx]; [congruence|]. apply IH; [done..|]. intros z Hz. apply Hu. by right.
Qed.

Lemma find_row (rows : list CpuRow) (r : CpuRow) : NoDup (cr_name <$> rows) -> r ∈ rows ->
  find_spec (step_row <$> rows) (cr_name r) = Some (step_row r).
Proof.
  intros Hd Hr. unfold find_spec. apply find_in.
  - apply list_elem_of_In, in_rev; rewrite rev_involutive; apply list_elem_of_In. by apply list_elem_of_fmap_2.
  - by rewrite bool_decide_eq_true.
  - intros y Hy Hn. apply list_elem_of_In, in_rev, list_elem_of_In, list_elem_of_fmap in Hy as (r' & -> & Hr'). apply bool_decide_eq_true in Hn.
    apply list_elem_of_lookup in Hr as [i Hi], Hr' as [j Hj].
    assert (i = j) as <-; [|rewrite Hi in Hj; by injection Hj as ->].
    apply (NoDup_lookup (cr_name <$> rows) i j (cr_name r)); [done|by rewrite list_lookup_fmap, Hi|].
    rewrite list_lookup_fmap, Hj. exact (f_equal Some Hn).
Qed.

(** C24: the table of the CPU tests is what its readers take for granted.  Every row has
    bytes in whole words that fit the arrays of the struct, a preset of none or all of the
    scratch bytes, and a name that needs no escape; no two rows have the same name, so that
    the runner of the core, which finds the bytes of a recorded test by its name, finds
    exactly that row; every program that a bench builds from a row fits its buffer; and in
    the memory of the core's runner the bytes of a row end before the scratch memory. *)
Theorem cpu_rows_typed :
  Forall cpu_row_typed cpu_rows /\ NoDup (cr_name <$> cpu_rows) /\
  (forall r, r ∈ cpu_rows -> find_spec (step_row <$> cpu_rows) (cr_name r) = Some (step_row r)) /\
  (forall prog scratch init final build t, builds prog scratch init final build -> t ∈ g_cpu_tests ->
    (length (code (build t)) <= 1024)%nat) /\
  (forall r, r ∈ cpu_rows -> TEST_START < move_ccr_addr (step_row r) /\ move_ccr_addr (step_row r) + 10 <= 0x1800).
Proof.
  pose proof (forallb_Forall_impl _ _ _ cpu_row_typedb_spec cpu_rows_typedb) as Ht.
  split; [exact Ht|]. split; [exact cpu_names_distinct|]. rewrite Forall_forall in Ht. split_and!.
  - intros r. apply find_row, cpu_names_distinct.
  - intros prog scratch init final build t Hb Hin. apply list_elem_of_fmap in Hin as (r & -> & Hr).
    destruct (cpu_lengths r (Ht r Hr)) as (Hp & [_ Hl] & _). exact (code_length prog scratch init final build (bench_row r) Hb Hp Hl).
  - intros r Hr. destruct (cpu_lengths r (Ht r Hr)) as (_ & Hl & _). unfold move_ccr_addr, TEST_START, step_row. cbn [sp_test_len].
    rewrite u32_small by lia. lia.
Qed.

(** What the benches skip: of the 723 rows one is unsafe, 24 are privileged, and 21 end in
    an exception. *)
Example cpu_rows_counts :
  (length g_cpu_tests, length (List.filter hw_unsafe g_cpu_tests), length (List.filter privileged g_cpu_tests),
   length (List.filter raises_exception g_cpu_tests)) = (723%nat, 1%nat, 24%nat, 21%nat).
Proof. vm_compute. reflexivity. Qed.
