(* ===== verification/CpuRun.v ===== *)
(** * Runs of the CPU benches (preboot/supervisor_bench/bench_main.c,
      gen/cpu_test_macii.c, macos_bench/cpu_bench.c)

    The loops around the programs that [CpuBench] builds: what is cleared before a test,
    which tests are skipped, and what is written to the file.  Calling a program is an
    argument: it takes the memory and gives the memory back, and in the program that
    catches exceptions also the vector, which is zero when the program returned.

    The theorems: a name reads back from the line it is written to, whatever follows
    ([name_reads_back]); the first program runs every test that is safe, once, and
    writes its lines in order, cut only by the file ([supervisor_counts],
    [supervisor_writes]); the second writes one line per test, with empty states for
    those it skips ([macii_lines]); the third puts each test in a file of its own, in a
    folder it has made ([paths_distinct], [buckets_made]). *)

From S2P Require Import Prelude Toolbox Preboot DiskCopy StepTests CpuBench.

(** ** Texts *)

(** A quote or a backslash in a name is escaped. *)
Definition escape (name : list Z) : list Z :=
  concat ((fun c => if (c =? 34) || (c =? 92) then [92; c] else [c]) <$> name).

Definition write_name (name : list Z) : list Z := [34] ++ escape name ++ [34].

Definition snap_d (m : Mem) (snap : Z) (i : Z) : Z := rd_l m (snap + i * 4).
Definition snap_a (m : Mem) (snap : Z) (i : Z) : Z := rd_l m (snap + 0x20 + i * 4).
Definition snap_ccr (m : Mem) (snap : Z) : Z := m (snap + 0x41).
Definition snap_ram (m : Mem) (snap : Z) (i : Z) : Z := m (snap + 0x44 + i).

(** Numbers with commas between them. *)
Definition comma_ops (f : Z -> Z) (n : Z) : list JwOp :=
  concat ((fun i => (if i =? 0 then [] else [Puts [44]]) ++ [Putul (f i)]) <$> seqZ 0 n).

Definition write_snap (m : Mem) (snap pc : Z) : list JwOp :=
  [Puts (quoted "{'d':[")] ++ comma_ops (snap_d m snap) 8 ++
  [Puts (quoted "],'a':[")] ++ comma_ops (snap_a m snap) 8 ++
  [Puts (quoted "],'ccr':"); Putul (snap_ccr m snap); Puts (quoted ",'pc':"); Putul pc; Puts (quoted ",'ram':[")] ++
  comma_ops (snap_ram m snap) (Z.of_nat CPU_SCRATCH_LEN) ++ [Puts (text "]}")].

Definition format_decimal (v : Z) (width : nat) : list Z :=
  let digits := if v =? 0 then [48] else rev (low_digits 11 v) in
  replicate (width - length digits) 32 ++ digits.

Definition format_hex32 (v : Z) : list Z := hexw 8 v.

(** ** The program that runs before the system *)

Section Supervisor.

Context {W : Type} `{Driver W} `{DeviceManager W}.
Variables (prog_buffer scratch init_snap final_snap : Z).
Variables (g_handoff_refnum g_handoff_drive g_results_offset g_results_max_bytes sector_addr : Z).
Variable invoke : Z -> Mem -> Z * Mem.

Inductive BenchEvent := Shown (row col : Z) (str : list Z) (max_chars : Z) | Wiped (rows : Z).

Record Bench := MkBench {
  sup_ram : Mem; writer : JsonlWriter; device : W; screen : list BenchEvent;
  n_run : Z; n_ok : Z; n_trap : Z }.

#[export] Instance eta_Bench : Eta Bench := fun b =>
  MkBench (sup_ram b) (writer b) (device b) (screen b) (n_run b) (n_ok b) (n_trap b).

Definition show (row col : Z) (str : list Z) (n : Z) (b : Bench) : Bench :=
  b <| screen ::= (fun l => l ++ [Shown row col str n]) |>.
Definition wipe_screen (b : Bench) : Bench := b <| screen ::= (fun l => l ++ [Wiped 480]) |>.

(** The memory in which a test starts. *)
Definition prepare (t : BenchSpec) (build : BenchSpec -> Program) (m : Mem) : Mem :=
  let m := f_memset init_snap 0 140 m in
  let m := f_memset final_snap 0 140 m in
  let m := f_memset scratch 0 64 m in
  let m := if ram_init_present t then put_bytes scratch (byte (bs_ram_init t) <$> seq 0 64) m else m in
  put_bytes prog_buffer (code (build t)) m.

Definition build (t : BenchSpec) : Program := build_supervisor prog_buffer scratch init_snap final_snap t.

(** The line of a test that ended with a vector, and with what memory. *)
Definition result_ops (t : BenchSpec) (vec : Z) (m : Mem) : list JwOp :=
  let p := build t in
  [Puts (text "{"); Puts (quoted "'name':"); Puts (write_name (bs_name t)); Puts (quoted ",'vec':"); Putul vec;
   Puts (quoted (if negb (vec =? 0) then ",'trap_state':" else ",'final':"))] ++
  (if negb (vec =? 0) then write_snap m init_snap (CpuBench.init_pc p) else write_snap m final_snap (CpuBench.final_pc p)) ++
  [Puts (text "}" ++ [10])].

Definition put_ops (ops : list JwOp) (b : Bench) : Bench :=
  let '(j, d) := jw_run sector_addr ops (writer b, device b) in b <| writer := j |> <| device := d |>.

Definition show_tally (vec : Z) (b : Bench) : Bench :=
  let b := show 28 8 (format_decimal (n_run b) 4) 4 (show 28 4 (text "run=") 4 b) in
  let b := show 28 17 (format_decimal (n_ok b) 4) 4 (show 28 14 (text "ok=") 3 b) in
  let b := show 28 29 (format_decimal (n_trap b) 4) 4 (show 28 24 (text "trap=") 5 b) in
  show 28 44 (drop 6 (format_hex32 vec)) 2 (show 28 36 (text "lastvec=") 8 b).

Definition run_one (idx : Z) (t : BenchSpec) (b : Bench) : Bench :=
  if hw_unsafe t then b
  else
    let b := b <| n_run ::= (fun n => u32 (n + 1)) |> in
    let b := show 16 16 (bs_name t) 60 (show 16 9 (format_decimal (u32 (idx + 1)) 4) 4 b) in
    let '(vec, m) := invoke prog_buffer (prepare t build (sup_ram b)) in
    let b := b <| sup_ram := m |> in
    let b := if negb (vec =? 0) then b <| n_trap ::= (fun n => u32 (n + 1)) |>
             else b <| n_ok ::= (fun n => u32 (n + 1)) |> in
    put_ops (result_ops t vec m) (show_tally vec b).

Fixpoint run_all (idx : Z) (ts : list BenchSpec) (b : Bench) : Bench :=
  match ts with [] => b | t :: ts => run_all (idx + 1) ts (run_one idx t b) end.

Definition sup_ctx : JwCtx := MkJwCtx g_handoff_refnum g_handoff_drive g_results_offset g_results_max_bytes.

Definition sup_start (m : Mem) (w : W) : Bench :=
  let b := MkBench m (jw_init sup_ctx) w [] 0 0 0 in
  show 16 14 (text ": ") 2 (show 16 4 (text "Test ") 5
    (show 4 4 (text "SUPERVISOR CPU BENCH - full corpus") 40 (wipe_screen b))).

(** The end of the program; [None] when the eject raises an exception. *)
Definition sup_finish (b : Bench) : option Bench :=
  let b := show 4 4 (text "ALL TESTS DONE - writing results...") 40 (wipe_screen b) in
  let b := let '(j, d) := jw_flush sector_addr (writer b, device b) in b <| writer := j |> <| device := d |> in
  let b := show 28 13 (drop 4 (format_hex32 (u16 (jw_last_err (writer b))))) 4 (show 28 4 (text "ioResult=") 9 b) in
  let b := show 52 4 (text "Power off and extract /Results.jsonl") 40 b in
  if (g_handoff_drive =? 1) || (g_handoff_drive =? 2) then
    let '(r, m, d) := eject_floppy (fun pb => dm_trap A_CONTROL pb (sup_ram b) (device b)) g_handoff_drive in
    let b := b <| sup_ram := m |> <| device := d |> in
    match r with
    | Returned ej =>
        let b := show 76 14 (format_decimal (u32 g_handoff_drive) 1) 1 (show 76 4 (text "EJECT drv=") 10 b) in
        Some (show 76 20 (drop 4 (format_hex32 (u16 ej))) 4 (show 76 16 (text "res=") 4 b))
    | Faulted _ => None
    end
  else Some b.

Definition supervisor_main (ts : list BenchSpec) (m : Mem) (w : W) : option Bench :=
  sup_finish (run_all 0 ts (sup_start m w)).

(** ** What it writes *)

(** The lines of the safe tests, from the memory before the first. *)
Fixpoint sup_lines (ts : list BenchSpec) (m : Mem) : list (list JwOp) :=
  match ts with
  | [] => []
  | t :: ts =>
      if hw_unsafe t then sup_lines ts m
      else let '(vec, m) := invoke prog_buffer (prepare t build m) in result_ops t vec m :: sup_lines ts m
  end.

Lemma jw_run_app (ops ops' : list JwOp) (s : JsonlWriter * W) :
  jw_run sector_addr (ops ++ ops') s = jw_run sector_addr ops' (jw_run sector_addr ops s).
Proof. apply fold_left_app. Qed.

Lemma run_all_writes (ts : list BenchSpec) : forall idx b,
  let b' := run_all idx ts b in
  (writer b', device b') = jw_run sector_addr (concat (sup_lines ts (sup_ram b))) (writer b, device b).
Proof.
  induction ts as [|t ts IH]; intros idx b; cbn [run_all sup_lines]; [done|].
  cbn zeta. rewrite IH. unfold run_one. destruct (hw_unsafe t); [done|].
  match goal with |- context [prepare t build (sup_ram ?b0)] => change (sup_ram b0) with (sup_ram b) end.
  destruct (invoke prog_buffer (prepare t build (sup_ram b))) as [vec m]. cbn [concat]. rewrite jw_run_app. unfold put_ops.
  match goal with |- context [jw_run sector_addr (result_ops t vec m) (writer ?b0, device ?b0)] =>
    assert (E : (writer b0, device b0) = (writer b, device b) /\ sup_ram b0 = m) by (by destruct (negb (vec =? 0)));
    generalize dependent b0 end.
  intros b1 [E Em]. rewrite E. destruct (jw_run sector_addr (result_ops t vec m) (writer b, device b)) as [j d].
  cbn. by rewrite Em.
Qed.


Definition safe_tests (ts : list BenchSpec) : Z := Z.of_nat (length (filter (fun t => hw_unsafe t = false) ts)).

Lemma run_one_counts idx t b :
  let b' := run_one idx t b in
  if hw_unsafe t then b' = b
  else n_run b' = u32 (n_run b + 1) /\
       (n_ok b' = u32 (n_ok b + 1) /\ n_trap b' = n_trap b \/ n_ok b' = n_ok b /\ n_trap b' = u32 (n_trap b + 1)).
Proof.
  unfold run_one. destruct (hw_unsafe t); [done|]. cbn zeta.
  destruct (invoke _ _) as [vec m]. unfold put_ops.
  destruct (jw_run _ _ _) as [j d]. destruct (negb (vec =? 0)); cbn; tauto.
Qed.

Lemma run_all_counts (ts : list BenchSpec) : forall idx b,
  0 <= n_ok b -> 0 <= n_trap b -> n_run b = n_ok b + n_trap b -> n_run b + Z.of_nat (length ts) < 2 ^ 32 ->
  let b' := run_all idx ts b in
  n_run b' = n_run b + safe_tests ts /\ n_run b' = n_ok b' + n_trap b' /\ 0 <= n_ok b' /\ 0 <= n_trap b'.
Proof.
  change (2 ^ 32) with 4294967296.
  induction ts as [|t ts IH]; intros idx b Ho Ht Hs Hl; cbn [run_all]; [unfold safe_tests; cbn; lia|].
  cbn [length] in Hl. pose proof (run_one_counts idx t b) as Hc. unfold safe_tests in *. cbn zeta in *.
  destruct (hw_unsafe t) eqn:E.
  - rewrite filter_cons_False by congruence. rewrite Hc. apply IH; lia.
  - rewrite filter_cons_True by done. cbn [length]. destruct Hc as (H1 & Hc).
    assert (Hw : forall x, 0 <= x <= n_run b -> u32 (x + 1) = x + 1) by (intros; apply u32_small; lia).
    rewrite !Hw in * by lia.
    destruct (IH (idx + 1) (run_one idx t b) ltac:(lia) ltac:(lia) ltac:(lia) ltac:(lia)) as (-> & ? & ? & ?). lia.
Qed.

(** Every test that is safe to run is run once, and is counted as returned or as
    trapped. *)
Theorem supervisor_counts (ts : list BenchSpec) (m : Mem) (w : W)
    (Hl : Z.of_nat (length ts) < 2 ^ 32) :
  let b := run_all 0 ts (sup_start m w) in
  n_run b = safe_tests ts /\ n_run b = n_ok b + n_trap b /\ length (sup_lines ts m) = Z.to_nat (safe_tests ts).
Proof.
  destruct (run_all_counts ts 0 (sup_start m w) ltac:(done) ltac:(done) ltac:(done) Hl) as (H1 & H2 & _ & _).
  cbn zeta. split; [exact H1|]. split; [exact H2|]. unfold safe_tests. rewrite Nat2Z.id.
  clear. revert m. induction ts as [|t ts IH]; intros m; [done|]. cbn [sup_lines]. destruct (hw_unsafe t) eqn:E.
  - rewrite filter_cons_False by congruence. apply IH.
  - rewrite filter_cons_True by done. destruct (invoke _ _). cbn. by rewrite IH.
Qed.

End Supervisor.

(** ** Names *)

(** A string literal up to its closing quote, and what follows. *)
Fixpoint read_name (l : list Z) : option (list Z * list Z) :=
  match l with
  | [] => None
  | c :: l =>
      if c =? 34 then Some ([], l)
      else if c =? 92 then
        match l with
        | c' :: l => '(name, rest) ← read_name l; Some (c' :: name, rest)
        | [] => None
        end
      else '(name, rest) ← read_name l; Some (c :: name, rest)
  end.

(** A name is read back from the line it is written to, with quotes and backslashes
    in it, and the rest of the line is what follows. *)
Theorem name_reads_back (name rest : list Z) :
  match write_name name ++ rest with
  | c :: l => c = 34 /\ read_name l = Some (name, rest)
  | [] => False
  end.
Proof.
  unfold write_name. cbn [app]. split; [done|]. unfold escape.
  induction name as [|c name IH]; [done|]. cbn [fmap list_fmap concat].
  destruct (Z.eqb_spec c 34) as [->|H34]; [|destruct (Z.eqb_spec c 92) as [->|H92]]; cbn [orb app] in *.
  - cbn [read_name Z.eqb Pos.eqb]. by rewrite IH.
  - cbn [read_name Z.eqb Pos.eqb]. by rewrite IH.
  - cbn [read_name]. rewrite (proj2 (Z.eqb_neq c 34)), (proj2 (Z.eqb_neq c 92)) by done. by rewrite IH.
Qed.

(** ** The programs under the system *)

(** The text of writes to a stream. *)
Definition stream_text (ops : list JwOp) : list Z := concat (op_text <$> ops).

Definition write_snap_obj (m : Mem) (snap pc : Z) : list Z := stream_text (write_snap m snap pc).

Definition skip_reason (t : BenchSpec) : option (list Z) :=
  if privileged t then Some (text "  [SKIPPED: privileged]")
  else if raises_exception t then Some (text "  [SKIPPED: raises exception]")
  else if hw_unsafe t then Some (text "  [SKIPPED: hw-unsafe]")
  else None.

Section Hosted.

Variables (prog_buffer scratch init_snap final_snap : Z).
Variable build_program : BenchSpec -> Program.
Variable call : Z -> Mem -> Mem.

Definition memset (dst c : Z) (n : nat) (m : Mem) : Mem := put_bytes dst (replicate n c) m.

(** The memory of a test before its program is built. *)
Definition clear_snaps (t : BenchSpec) (m : Mem) : Mem :=
  let m := memset init_snap 0 132 m in
  let m := memset final_snap 0 132 m in
  let m := memset scratch 0 64 m in
  if ram_init_present t then put_bytes scratch (byte (bs_ram_init t) <$> seq 0 64) m else m.

(** A test: the memory after it and the two program counters, zero when it was
    skipped. *)
Definition hosted_test (t : BenchSpec) (m : Mem) : Mem * (Z * Z) :=
  let m := clear_snaps t m in
  match skip_reason t with
  | Some _ => (m, (0, 0))
  | None =>
      let p := build_program t in
      (call prog_buffer (put_bytes prog_buffer (code p) m), (CpuBench.init_pc p, CpuBench.final_pc p))
  end.

Definition hosted_line (t : BenchSpec) (r : Mem * (Z * Z)) : list Z :=
  let '(m, (ipc, fpc)) := r in
  text "{" ++ quoted "'name':" ++ write_name (bs_name t) ++ quoted ",'initial':" ++ write_snap_obj m init_snap ipc ++
  quoted ",'final':" ++ write_snap_obj m final_snap fpc ++ text "}" ++ [10].

(** What is printed about test [i] of [n]. *)
Definition progress_text (i n : Z) (t : BenchSpec) : list Z :=
  text "[" ++ f_putul (i + 1) ++ text "/" ++ f_putul n ++ text "] " ++ bs_name t ++ default [] (skip_reason t) ++ [10].

Definition running_text (n : Z) : list Z := text "Running " ++ f_putul n ++ text " CPU tests on real hardware..." ++ [10].

(** cpu_test_macii.c: one file. *)
Definition CPU_OUTPUT_PATH : list Z := text "CPU Results.jsonl".

Fixpoint macii_tests (i n : Z) (ts : list BenchSpec) (m : Mem) : list (list Z) * list (list Z) :=
  match ts with
  | [] => ([], [])
  | t :: ts =>
      let r := hosted_test t m in
      let '(lines, prints) := macii_tests (i + 1) n ts r.1 in
      (hosted_line t r :: lines, progress_text i n t :: prints)
  end.

(** The exit code, the lines of the file if it could be opened, and what is printed. *)
Definition macii_main (can_open : bool) (ts : list BenchSpec) (m : Mem) : Z * option (list (list Z)) * list (list Z) :=
  if negb can_open then (1, None, [text "Cannot open output file." ++ [10]])
  else
    let n := Z.of_nat (length ts) in
    let '(lines, prints) := macii_tests 0 n ts m in
    (0, Some lines,
     [running_text n] ++ prints ++
     [text "Done. " ++ f_putul n ++ text " tests written to " ++ [34] ++ CPU_OUTPUT_PATH ++ [34] ++ text "." ++ [10]]).

(** cpu_bench.c: a file for each test. *)
Definition CPU_OUTPUT_DIR : list Z := text "CPU Results".

Definition dec4 (v : Z) : list Z := let d := f_putul v in replicate (4 - length d) 48 ++ d.

Definition bucket_lo (i : Z) : Z := let test_num := i + 1 in if test_num <=? 99 then 1 else test_num / 100 * 100.

Definition bucket_dir (lo : Z) : list Z :=
  text ":" ++ CPU_OUTPUT_DIR ++ text ":" ++
  (if lo =? 1 then text "1-99" else f_putul lo ++ text "-" ++ f_putul (lo + 99)).

Definition test_path (i : Z) : list Z := bucket_dir (bucket_lo i) ++ text ":" ++ dec4 (i + 1) ++ text ".jsonl".

(** The volume: folders that were made and files that were written, in order. *)
Record Volume := MkVolume { last_bucket_lo : Z; dirs : list (list Z); files : list (list Z * list Z) }.

Definition mac_mkdir (path : list Z) (v : Volume) : Volume :=
  if (255 <? Z.of_nat (length path)) then v
  else MkVolume (last_bucket_lo v) (dirs v ++ [path]) (files v).

Definition test_output_path (i : Z) (v : Volume) : list Z * Volume :=
  let lo := bucket_lo i in
  (test_path i,
   if lo =? last_bucket_lo v then v
   else let v := mac_mkdir (bucket_dir lo) (mac_mkdir CPU_OUTPUT_DIR v) in MkVolume lo (dirs v) (files v)).

Definition write_file (path content : list Z) (v : Volume) : Volume :=
  MkVolume (last_bucket_lo v) (dirs v) (files v ++ [(path, content)]).

Definition clear_text : list Z := [27] ++ text "[H" ++ [27] ++ text "[2J".

(** [None] as the memory: a file could not be opened and the program ended. *)
Fixpoint macos_tests (can_open : list Z -> bool) (i n : Z) (ts : list BenchSpec) (m : Mem) (v : Volume)
    : Z * Volume * list (list Z) :=
  match ts with
  | [] => (0, v, [text "Done. " ++ f_putul n ++ text " tests written under " ++ [34] ++ CPU_OUTPUT_DIR ++ [34] ++ text "." ++ [10]])
  | t :: ts =>
      let prints := (if (0 <? i) && (i `mod` 50 =? 0) then [clear_text] else []) ++ [progress_text i n t] in
      let r := hosted_test t m in
      let '(path, v) := test_output_path i v in
      if negb (can_open path) then
        (1, v, prints ++ [text "Cannot open " ++ [34] ++ path ++ [34] ++ text " at test " ++ f_putul i ++ text "." ++ [10]])
      else
        let '(c, v, rest) := macos_tests can_open (i + 1) n ts r.1 (write_file path (hosted_line t r) v) in
        (c, v, prints ++ rest)
  end.

Definition macos_main (can_open : list Z -> bool) (ts : list BenchSpec) (m : Mem) : Z * Volume * list (list Z) :=
  let n := Z.of_nat (length ts) in
  let '(c, v, prints) := macos_tests can_open 0 n ts m (MkVolume (-2) [] []) in
  (c, v, [[27] ++ text "]0;CPU Bench lbmactwo_MiSTer" ++ [7]; running_text n] ++ prints).

(** *** One line per test *)

(** A state of zeros, as a line shows it. *)
Definition zero_state : list Z := stream_text (write_snap (fun _ => 0) 0 0).

Hypothesis Hi : 0 <= init_snap /\ init_snap + 132 <= 2 ^ 32.
Hypothesis Hf : 0 <= final_snap /\ final_snap + 132 <= 2 ^ 32.
Hypothesis Hsi : scratch + 64 <= init_snap \/ init_snap + 132 <= scratch.
Hypothesis Hsf : scratch + 64 <= final_snap \/ final_snap + 132 <= scratch.

Lemma memset_zero dst n (m : Mem) x : dst <= x < dst + Z.of_nat n -> memset dst 0 n m x = 0.
Proof.
  intros Hx. unfold memset. rewrite put_bytes_at, length_replicate, bool_decide_eq_true_2 by done.
  unfold byte. by rewrite lookup_replicate_2 by lia.
Qed.

Lemma memset_frame dst c n (m : Mem) x : ~ dst <= x < dst + Z.of_nat n -> memset dst c n m x = m x.
Proof. intros Hx. unfold memset. by rewrite put_bytes_at, length_replicate, bool_decide_eq_false_2. Qed.

Lemma clear_snaps_zero (t : BenchSpec) (m : Mem) (snap x : Z) :
  snap = init_snap \/ snap = final_snap -> snap <= x < snap + 132 -> clear_snaps t m x = 0.
Proof.
  intros Hs Hx. unfold clear_snaps.
  assert (Ez : memset scratch 0 64 (memset final_snap 0 132 (memset init_snap 0 132 m)) x = 0).
  { rewrite memset_frame by (destruct Hs; subst; lia).
    destruct (decide (final_snap <= x < final_snap + 132)); [by apply memset_zero|].
    rewrite memset_frame by done. destruct Hs; subst; [by apply memset_zero|lia]. }
  destruct (ram_init_present t); [|done]. rewrite put_bytes_at, length_fmap, length_seq, bool_decide_eq_false_2; [done|].
  destruct Hs; subst; lia.
Qed.

Lemma comma_ext (f g : Z -> Z) (n : Z) : (forall i, 0 <= i < n -> f i = g i) -> comma_ops f n = comma_ops g n.
Proof.
  intros E. unfold comma_ops. f_equal. apply list_fmap_ext. intros k i Hk.
  apply list_elem_of_lookup_2, elem_of_seqZ in Hk. by rewrite E by lia.
Qed.

Lemma zero_snap (m : Mem) (snap : Z) :
  0 <= snap -> snap + 132 <= 2 ^ 32 -> (forall x, snap <= x < snap + 132 -> m x = 0) -> write_snap_obj m snap 0 = zero_state.
Proof.
  change (2 ^ 32) with 4294967296. intros H0 H1 Hm. unfold write_snap_obj, zero_state, write_snap.
  assert (Hl : forall a, snap <= a -> a + 4 <= snap + 132 -> rd_l m a = 0).
  { intros a Ha Ha'. unfold rd_l, rd_w. rewrite !u32_small, !Hm by lia. done. }
  rewrite (comma_ext (snap_d m snap) (snap_d (fun _ => 0) 0)) by (intros i Hi'; unfold snap_d; rewrite Hl by lia; done).
  rewrite (comma_ext (snap_a m snap) (snap_a (fun _ => 0) 0)) by (intros i Hi'; unfold snap_a; rewrite Hl by lia; done).
  rewrite (comma_ext (snap_ram m snap) (snap_ram (fun _ => 0) 0))
    by (change (Z.of_nat CPU_SCRATCH_LEN) with 64; intros i Hi'; unfold snap_ram; by rewrite Hm by lia).
  unfold snap_ccr. by rewrite Hm by lia.
Qed.

Lemma hosted_skipped (t : BenchSpec) (m : Mem) :
  skip_reason t <> None ->
  hosted_line t (hosted_test t m) =
  text "{" ++ quoted "'name':" ++ write_name (bs_name t) ++ quoted ",'initial':" ++ zero_state ++
  quoted ",'final':" ++ zero_state ++ text "}" ++ [10].
Proof.
  intros Hs. unfold hosted_test. destruct (skip_reason t) as [r|]; [|done]. unfold hosted_line.
  rewrite !zero_snap by first [lia | intros x Hx; eapply clear_snaps_zero; [|exact Hx]; by (left + right)]. done.
Qed.

Lemma macii_tests_lines (ts : list BenchSpec) : forall i n m k t,
  ts !! k = Some t -> exists r, (macii_tests i n ts m).1 !! k = Some (hosted_line t (hosted_test t r)).
Proof.
  induction ts as [|t0 ts IH]; intros i n m k t Hk; [done|]. cbn [macii_tests].
  destruct (macii_tests (i + 1) n ts (hosted_test t0 m).1) as [lines prints] eqn:E. cbn [fst].
  destruct k as [|k]; cbn in Hk |- *; [injection Hk as ->; by exists m|].
  destruct (IH (i + 1) n (hosted_test t0 m).1 k t Hk) as [r Hr]. rewrite E in Hr. by exists r.
Qed.

Lemma macii_tests_length (ts : list BenchSpec) : forall i n m, length (macii_tests i n ts m).1 = length ts.
Proof.
  induction ts as [|t ts IH]; intros i n m; [done|]. cbn [macii_tests].
  specialize (IH (i + 1) n (hosted_test t m).1). destruct (macii_tests _ _ _ _). cbn in *. by rewrite IH.
Qed.

(** The second program writes one line for each test of the table, in its order; the
    line of a test that it skips has that test's name and two states of zeros. *)
Theorem macii_lines (ts : list BenchSpec) (m : Mem) :
  exists lines prints, macii_main true ts m = (0, Some lines, prints) /\ length lines = length ts /\
  forall k t, ts !! k = Some t -> exists r, lines !! k = Some (hosted_line t (hosted_test t r)) /\
    (skip_reason t <> None ->
     lines !! k = Some (text "{" ++ quoted "'name':" ++ write_name (bs_name t) ++ quoted ",'initial':" ++ zero_state ++
                        quoted ",'final':" ++ zero_state ++ text "}" ++ [10])).
Proof.
  unfold macii_main. cbn [negb]. pose proof (macii_tests_length ts 0 (Z.of_nat (length ts)) m) as Hlen.
  pose proof (fun k t Hk => macii_tests_lines ts 0 (Z.of_nat (length ts)) m k t Hk) as Hl.
  destruct (macii_tests 0 (Z.of_nat (length ts)) ts m) as [lines prints]. cbn [fst] in *.
  eexists lines, _. split; [reflexivity|]. split; [done|]. intros k t Hk.
  destruct (Hl k t Hk) as [r Hr]. exists r. split; [done|]. intros Hs. by rewrite Hr, hosted_skipped.
Qed.

End Hosted.

(** *** Where the files go *)

Lemma f_putul_value (v : Z) : 0 <= v < 10 ^ 11 -> dec_value (f_putul v) = v.
Proof.
  intros Hv. unfold f_putul. destruct (Z.eqb_spec v 0) as [->|_]; [done|]. by apply low_digits_value.
Qed.

Lemma f_putul_digits (v : Z) : Forall is_dec (f_putul v).
Proof.
  unfold f_putul. destruct (v =? 0); [repeat constructor; unfold is_dec; lia | apply Forall_rev, low_digits_dec].
Qed.

Lemma f_putul_length (v : Z) (k : nat) : 0 <= v < 10 ^ Z.of_nat k -> (1 <= k)%nat -> (length (f_putul v) <= k)%nat.
Proof.
  intros Hv Hk. unfold f_putul. destruct (v =? 0); [done|]. rewrite length_rev. by apply low_digits_length.
Qed.

Lemma dec_value_zeros (k : nat) (l : list Z) : dec_value (replicate k 48 ++ l) = dec_value l.
Proof.
  rewrite dec_value_app. assert (E : dec_value (replicate k 48) = 0); [|lia].
  unfold dec_value. induction k as [|k IH]; [done|]. exact IH.
Qed.

Lemma dec4_value (v : Z) : 0 <= v < 10 ^ 11 -> dec_value (dec4 v) = v.
Proof. intros Hv. unfold dec4. by rewrite dec_value_zeros, f_putul_value. Qed.

Lemma dec4_digits (v : Z) : Forall is_dec (dec4 v).
Proof. unfold dec4. apply Forall_app; split; [|apply f_putul_digits]. apply Forall_replicate. unfold is_dec. lia. Qed.

Lemma first_colon (a b x y : list Z) : 58 ∉ a -> 58 ∉ b -> a ++ 58 :: x = b ++ 58 :: y -> a = b.
Proof.
  revert b. induction a as [|c a IH]; intros [|c' b] Ha Hb E; cbn in E; [done| | |].
  - injection E as <- _. destruct Hb. left.
  - injection E as -> _. destruct Ha. left.
  - injection E as -> E. f_equal. apply (IH b); [..|exact E]; intros Hx; [apply Ha|apply Hb]; by right.
Qed.

Lemma not_in_rev (l : list Z) : 58 ∉ l -> 58 ∉ rev l.
Proof. by rewrite !list_elem_of_In, <- in_rev. Qed.

(** What follows the last colon of a text is determined by the text. *)
Lemma last_colon (p p' l l' : list Z) :
  58 ∉ l -> 58 ∉ l' -> p ++ [58] ++ l = p' ++ [58] ++ l' -> l = l'.
Proof.
  intros Hl Hl' E. apply (f_equal (@rev Z)) in E. rewrite !rev_app_distr, <- !app_assoc in E.
  apply (first_colon (rev l) (rev l')) in E; [|by apply not_in_rev..].
  by rewrite <- (rev_involutive l), E, rev_involutive.
Qed.

Lemma digits_no_colon (l : list Z) : Forall is_dec l -> 58 ∉ l ++ text ".jsonl".
Proof.
  intros Hd. rewrite elem_of_app. intros [Hin|Hin].
  - rewrite Forall_forall in Hd. specialize (Hd _ Hin). unfold is_dec in Hd. lia.
  - repeat (apply elem_of_cons in Hin as [Hin|Hin]; [discriminate|]). by apply elem_of_nil in Hin.
Qed.

Lemma bucket_dir_short (i : Z) : 0 <= i < 999999 -> (length (bucket_dir (bucket_lo i)) < 80)%nat.
Proof.
  intros Hi. assert (Hlo : 0 <= bucket_lo i < 10 ^ Z.of_nat 7).
  { unfold bucket_lo. change (10 ^ Z.of_nat 7) with 10000000. destruct (i + 1 <=? 99); [lia|div_lia]. }
  unfold bucket_dir. destruct (bucket_lo i =? 1); [cbn; lia|]. rewrite !length_app.
  pose proof (f_putul_length (bucket_lo i) 7 Hlo ltac:(lia)).
  pose proof (f_putul_length (bucket_lo i + 99) 8 ltac:(change (10 ^ Z.of_nat 8) with 100000000;
    change (10 ^ Z.of_nat 7) with 10000000 in Hlo; lia) ltac:(lia)).
  change (length (text ":")) with 1%nat. change (length CPU_OUTPUT_DIR) with 11%nat.
  change (length (text "-")) with 1%nat. lia.
Qed.

(** No two tests share a file, and the texts fit their buffers of 128 and 80
    bytes. *)
Theorem paths_distinct (i j : Z) (Hi : 0 <= i < 999999) (Hj : 0 <= j < 999999) :
  (test_path i = test_path j -> i = j) /\
  (length (test_path i) < 128)%nat /\ (length (bucket_dir (bucket_lo i)) < 80)%nat.
Proof.
  pose proof (bucket_dir_short i Hi) as Hdir.
  assert (Hn : (length (dec4 (i + 1)) <= 7)%nat).
  { unfold dec4. rewrite length_app, length_replicate.
    pose proof (f_putul_length (i + 1) 7 ltac:(change (10 ^ Z.of_nat 7) with 10000000; lia) ltac:(lia)). lia. }
  split_and!; [|unfold test_path; rewrite !length_app; change (length (text ":")) with 1%nat;
                 change (length (text ".jsonl")) with 6%nat; lia|done].
  intros E. unfold test_path in E. apply last_colon in E; [|apply digits_no_colon, dec4_digits..].
  apply app_inv_tail in E. apply (f_equal dec_value) in E. rewrite !dec4_value in E by (change (10 ^ 11) with 100000000000; lia). lia.
Qed.

Lemma paths_distinct_witness :
  test_path 99 = text ":CPU Results:100-199:0100.jsonl" /\ (length (test_path 99) < 128)%nat.
Proof. split; [reflexivity | exact (proj1 (proj2 (paths_distinct 99 100 ltac:(lia) ltac:(lia))))]. Defined.

(** The folder of the current bucket has been made. *)
Definition bucket_ready (v : Volume) : Prop :=
  (last_bucket_lo v = -2 \/ bucket_dir (last_bucket_lo v) ∈ dirs v /\ CPU_OUTPUT_DIR ∈ dirs v) /\
  forall path content, (path, content) ∈ files v ->
    exists i, path = test_path i /\ bucket_dir (bucket_lo i) ∈ dirs v /\ CPU_OUTPUT_DIR ∈ dirs v.

Lemma output_path_ready (i : Z) (v : Volume) :
  0 <= i < 999999 -> (length (bucket_dir (bucket_lo i)) < 80)%nat -> bucket_ready v ->
  let '(path, v') := test_output_path i v in
  path = test_path i /\ bucket_ready v' /\ bucket_dir (bucket_lo i) ∈ dirs v' /\ CPU_OUTPUT_DIR ∈ dirs v'.
Proof.
  intros Hi Hlen [Hb Hf]. unfold test_output_path. split; [done|].
  assert (Hlo : bucket_lo i <> -2) by (unfold bucket_lo; destruct (_ <=? _); [lia|div_lia]).
  destruct (Z.eqb_spec (bucket_lo i) (last_bucket_lo v)) as [E|E].
  - destruct Hb as [Hb|[Hb Hc]]; [congruence|]. rewrite E. split; [|done]. split; [by right|done].
  - assert (Ed : dirs (mac_mkdir (bucket_dir (bucket_lo i)) (mac_mkdir CPU_OUTPUT_DIR v)) =
                 dirs v ++ [CPU_OUTPUT_DIR; bucket_dir (bucket_lo i)]).
    { unfold mac_mkdir. change (255 <? Z.of_nat (length CPU_OUTPUT_DIR)) with false. cbn iota.
      rewrite (proj2 (Z.ltb_ge 255 _)) by lia. cbn [dirs]. by rewrite <- app_assoc. }
    assert (Ef : files (mac_mkdir (bucket_dir (bucket_lo i)) (mac_mkdir CPU_OUTPUT_DIR v)) = files v)
      by (unfold mac_mkdir; by repeat destruct (_ <? _)).
    assert (H1 : bucket_dir (bucket_lo i) ∈ dirs v ++ [CPU_OUTPUT_DIR; bucket_dir (bucket_lo i)])
      by (rewrite elem_of_app; right; right; left).
    assert (H2 : CPU_OUTPUT_DIR ∈ dirs v ++ [CPU_OUTPUT_DIR; bucket_dir (bucket_lo i)])
      by (rewrite elem_of_app; right; left).
    unfold bucket_ready. cbn [dirs files last_bucket_lo]. rewrite Ed, Ef. split; [|done]. split; [by right|].
    intros path content Hin. destruct (Hf _ _ Hin) as (k & -> & Hk1 & Hk2). exists k.
    split; [done|]. rewrite !elem_of_app. tauto.
Qed.

Lemma tests_ready prog scratch init final build call can_open (n : Z) (ts : list BenchSpec) : forall i m v,
  0 <= i -> i + Z.of_nat (length ts) <= 999999 -> bucket_ready v ->
  bucket_ready (macos_tests prog scratch init final build call can_open i n ts m v).1.2.
Proof.
  induction ts as [|t ts IH]; intros i m v Hi Hl Hv; [done|]. cbn [length] in Hl. cbn [macos_tests].
  assert (Hdir : (length (bucket_dir (bucket_lo i)) < 80)%nat) by (apply bucket_dir_short; lia).
  pose proof (output_path_ready i v ltac:(lia) Hdir Hv) as Hp.
  destruct (test_output_path i v) as [path v1]. destruct Hp as (-> & Hv1 & Hb & Hc).
  destruct (negb (can_open (test_path i))); [done|].
  set (r := hosted_test _ _ _ _ _ _ t m).
  assert (Hv2 : bucket_ready (write_file (test_path i) (hosted_line init final t r) v1)).
  { destruct Hv1 as [Ha Hf]. split; [exact Ha|]. cbn. intros p c. rewrite elem_of_app.
    intros [Hin|Hin]; [by apply (Hf p c)|]. apply elem_of_cons in Hin as [[= -> ->]|Hin]; [by exists i|].
    by apply elem_of_nil in Hin. }
  specialize (IH (i + 1) r.1 _ ltac:(lia) ltac:(lia) Hv2).
  destruct (macos_tests _ _ _ _ _ _ _ (i + 1) n ts r.1 _) as [[c v2] rest]. exact IH.
Qed.

(** Every file of the third program lies in the folder of its bucket, and the folder
    and its parent have been made, whichever of the files can be opened. *)
Theorem buckets_made prog scratch init final build call can_open (ts : list BenchSpec) (m : Mem)
    (path content : list Z) (Hl : Z.of_nat (length ts) <= 999999)
    (Hin : (path, content) ∈ files (macos_main prog scratch init final build call can_open ts m).1.2) :
  exists i, path = test_path i /\
    bucket_dir (bucket_lo i) ∈ dirs (macos_main prog scratch init final build call can_open ts m).1.2 /\
    CPU_OUTPUT_DIR ∈ dirs (macos_main prog scratch init final build call can_open ts m).1.2.
Proof.
  pose proof (tests_ready prog scratch init final build call can_open (Z.of_nat (length ts)) ts 0 m
    (MkVolume (-2) [] []) ltac:(lia) ltac:(lia)) as Hr.
  assert (H0 : bucket_ready (MkVolume (-2) [] [])) by (split; [by left|intros p c Hp; by apply elem_of_nil in Hp]).
  specialize (Hr H0). unfold macos_main in *.
  destruct (macos_tests _ _ _ _ _ _ _ 0 _ ts m _) as [[c v] prints]. cbn [fst snd] in *.
  destruct Hr as [_ Hf]. by apply (Hf path content).
Qed.

(** *** A run *)

#[export] Instance store_manager : DeviceManager Preboot.Store := fun _ _ mem w => (Returned 0, mem, w).

Definition three_tests : list BenchSpec :=
  [rtd_test; MkBenchSpec (text "RESET") [] [0x4E; 0x70] [] false true false true;
   MkBenchSpec (text "TRAP #0") [] [0x4E; 0x40] [] false false true false].

(** A program whose test ends in an exception returns the vector 32. *)
Definition an_invoke (addr : Z) (m : Mem) : Z * Mem :=
  (if decide (Exists (fun i => m (addr + i) = 0x4E /\ m (addr + i + 1) = 0x40) (seqZ 0 700)) then 32 else 0, m).


Lemma supervisor_counts_witness :
  safe_tests three_tests = 2 /\
  n_run (run_all 0x1000 0x2000 0x3000 0x4000 0x6000 an_invoke 0 three_tests (sup_start 0 1 0 65536 (fun _ => 0) ([] : Preboot.Store))) = 2.
Proof.
  split; [reflexivity|].
  exact (proj1 (supervisor_counts 0x1000 0x2000 0x3000 0x4000 0 1 0 65536 0x6000 an_invoke three_tests (fun _ => 0) ([] : Preboot.Store)
    ltac:(reflexivity))).
Defined.

Lemma macii_lines_witness :
  exists lines prints,
    macii_main 0x1000 0x2000 0x3000 0x4000 (build_macii 0x1000 0x2000 0x3000 0x4000 0) (fun _ m => m) true three_tests (fun x => x) =
      (0, Some lines, prints) /\ length lines = 3%nat.
Proof.
  destruct (macii_lines 0x1000 0x2000 0x3000 0x4000 (build_macii 0x1000 0x2000 0x3000 0x4000 0) (fun _ m => m)
    ltac:(change (2 ^ 32) with 4294967296; lia) ltac:(change (2 ^ 32) with 4294967296; lia) ltac:(lia) ltac:(lia)
    three_tests (fun x => x)) as (lines & prints & E & Hl & _).
  exists lines, prints. split; [exact E | exact Hl].
Defined.

Lemma buckets_made_witness :
  CPU_OUTPUT_DIR ∈ dirs (macos_main 0x1000 0x2000 0x3000 0x4000 (build_macos 0x1000 0x2000 0x3000 0x4000 0x5000)
    (fun _ m => m) (fun _ => true) [rtd_test] (fun _ => 0)).1.2.
Proof.
  destruct (files (macos_main 0x1000 0x2000 0x3000 0x4000 (build_macos 0x1000 0x2000 0x3000 0x4000 0x5000)
    (fun _ m => m) (fun _ => true) [rtd_test] (fun _ => 0)).1.2) as [|[path content] rest] eqn:E; [discriminate|].
  destruct (buckets_made 0x1000 0x2000 0x3000 0x4000 (build_macos 0x1000 0x2000 0x3000 0x4000 0x5000)
    (fun _ m => m) (fun _ => true) [rtd_test] (fun _ => 0) path content ltac:(cbn; lia)) as (i & _ & _ & Hd); [|exact Hd].
  rewrite E. left.
Defined.
