(* ===== verification/PmmuBench.v ===== *)
(** * The PMMU bench (preboot/supervisor_bench/pmmu_bench_main.c)

    The runner moves the memory of a test - its data, page tables and pages, which the
    corpus puts at fixed addresses in low memory - into buffers of its own: the addresses
    that it plants, the address fields of the descriptors, and the addresses in the bytes
    of the test are replaced by those of the buffers.  Around each test it switches the
    translation of the ROM off and on again, by small programs of PMOVE instructions.
    Calling a program is an argument, as in [CpuRun].

    The theorems: after the set-up each long of the corpus, at its place in the buffers,
    holds exactly what was planted there, different longs of the corpus never meet, and
    nothing outside the buffers is written ([apply_holds]); the replacement in the test bytes
    is that of a list of words and addresses ([patch_tokens]); every program fits its buffer
    ([pm_program_fits]); a run ends each test with the restoring of the ROM's translation
    before anything is written or shown, and writes one line per test ([pm_run_trace]).

    Left out: the build for the emulator, which keeps its lines in memory, and the
    breadcrumb of the phase, which only a debugger reads. *)

From S2P Require Import Prelude Toolbox Preboot DiskCopy StepTests CpuBench CpuRun.

(** ** The corpus *)

Record PmmuPlant := MkPmmuPlant { pl_addr : Z; pl_value : Z }.

Record PmmuTestSpec := MkPmmuTestSpec {
  pt_name : list Z; pt_test : list Z; pt_plants : list PmmuPlant;
  pt_d : list Z; pt_a : list Z;
  pt_tc : Z; pt_tt0 : Z; pt_tt1 : Z;
  crp_limit : Z; crp_aptr : Z; srp_limit : Z; srp_aptr : Z;
  pt_privileged : bool; mmu_live : bool; pt_raises : bool; pt_hw_unsafe : bool }.

(** ** The buffers *)

Record PmLayout := MkPmLayout {
  g_tc_off_slot : Z; g_data : Z; g_root : Z; g_levb : Z; g_levc : Z; g_srp_tbl : Z;
  g_remap1 : Z; g_remap2 : Z; g_test_stack : Z;
  g_mmu_init : Z; g_mmu_fin : Z; g_rom_mmu : Z; g_fin_regs : Z; g_fin_a7 : Z; g_saved_sp : Z;
  g_ident_magic : Z; g_ident_got : Z; pm_prog_buffer : Z;
  payload_start : Z; payload_bss_end : Z }.

Section Layout.
Variable L : PmLayout.

Definition STACK_TOP_EQ : Z := u32 (g_test_stack L + 0x1C0).

Definition payload_block_first : Z := Z.shiftr (payload_start L) 16.
Definition payload_block_last : Z := Z.shiftr (u32 (payload_bss_end L - 1)) 16.

(** The blocks [b] from the first to the last below 16. *)
Definition payload_blocks : list Z :=
  seqZ payload_block_first (Z.min payload_block_last 15 - payload_block_first + 1).

(** ** Relocation *)

Definition in_range (lo hi a : Z) : bool := (lo <=? a) && (a <? hi).

Definition reloc_addr (a : Z) : Z :=
  if a =? 0x17F8 then g_tc_off_slot L
  else if in_range 0x1800 0x1840 a then u32 (g_data L + (a - 0x1800))
  else if in_range 0x3000 0x3040 a then u32 (g_root L + (a - 0x3000))
  else if in_range 0x3100 0x3140 a then u32 (g_levb L + (a - 0x3100))
  else if in_range 0x3200 0x3240 a then u32 (g_levc L + (a - 0x3200))
  else if in_range 0x4000 0x4040 a then u32 (g_srp_tbl L + (a - 0x4000))
  else if in_range 0x9000 0xA000 a then u32 (g_remap1 L + (a - 0x9000))
  else if in_range 0xA000 0xB000 a then u32 (g_remap2 L + (a - 0xA000))
  else if a =? 0x80000 then STACK_TOP_EQ
  else if a =? 0x70000 then Z.land STACK_TOP_EQ 0xFFFF0000
  else a.

Definition reloc_desc (v : Z) : Z :=
  let dt := Z.land v 3 in
  if dt =? 0 then v
  else if (dt =? 2) || (dt =? 3) then Z.lor (reloc_addr (Z.land v 0xFFFFFFF0)) (Z.land v 0xF)
  else Z.lor (reloc_addr (Z.land v 0xFFFFFF00)) (Z.land v 0xFF).

Definition addr_is_table (a : Z) : bool :=
  in_range 0x3000 0x3040 a || in_range 0x3100 0x3140 a || in_range 0x3200 0x3240 a || in_range 0x4000 0x4040 a.

(** The value that replaces four bytes. *)
Definition patch_long (v : Z) : Z :=
  if v =? 0xA001 then Z.lor (g_remap2 L) 1
  else if v =? 0x9001 then Z.lor (g_remap1 L) 1
  else reloc_addr v.

(** The scan: past the four bytes after a replacement, else past two. *)
Fixpoint patch_test_bytes (l : list Z) : list Z :=
  match l with
  | a :: b :: ((c :: d :: l') as rest) =>
    let v := get32 [a; b; c; d] 0 in
    let nv := patch_long v in
    if negb (nv =? v) then long_bytes nv ++ patch_test_bytes l' else a :: b :: patch_test_bytes rest
  | _ => l
  end.

(** ** Programs *)

Definition emit_pmove_w (ext abs : Z) : list Z := put_w 0xF039 ++ put_w ext ++ put_l abs.
Definition emit_pmove_r (ext abs : Z) : list Z := put_w 0xF039 ++ put_w (u16 (Z.lor ext 0x0200)) ++ put_l abs.

Definition emit_mmu_readback : list Z :=
  let fin := g_mmu_fin L in
  emit_pmove_w 0x4000 (g_tc_off_slot L) ++
  emit_pmove_r 0x0800 (u32 (fin + 0x04)) ++ emit_pmove_r 0x0C00 (u32 (fin + 0x08)) ++
  emit_pmove_r 0x4000 (u32 (fin + 0x00)) ++ emit_pmove_r 0x4C00 (u32 (fin + 0x10)) ++
  emit_pmove_r 0x4800 (u32 (fin + 0x18)) ++ emit_pmove_r 0x6000 (u32 (fin + 0x0C)).

(** [stage[i]] *)
Definition stage_long (m : Mem) (stage i : Z) : Z := rd_l m (u32 (stage + i * 4)).

Definition emit_mmu_load (m : Mem) (s : Z) : list Z :=
  emit_pmove_w 0x4000 (g_tc_off_slot L) ++
  emit_pmove_w 0x0800 (u32 (s + 0x04)) ++ emit_pmove_w 0x0C00 (u32 (s + 0x08)) ++
  (if negb (Z.land (stage_long m s 4) 3 =? 0) then emit_pmove_w 0x4C00 (u32 (s + 0x10)) else []) ++
  (if negb (Z.land (stage_long m s 6) 3 =? 0) then emit_pmove_w 0x4800 (u32 (s + 0x18)) else []) ++
  emit_pmove_w 0x6000 (u32 (s + 0x0C)) ++ emit_pmove_w 0x4000 (u32 (s + 0x00)).

Definition ident_program : list Z :=
  emit_pmove_w 0x4000 (g_tc_off_slot L) ++ put_w 0x2039 ++ put_l (g_ident_magic L) ++
  put_w 0x23C0 ++ put_l (g_ident_got L) ++ emit_pmove_w 0x4000 (u32 (g_rom_mmu L + 0x00)).

Definition save_program : list Z :=
  let s := g_rom_mmu L in
  emit_pmove_r 0x0800 (u32 (s + 0x04)) ++ emit_pmove_r 0x0C00 (u32 (s + 0x08)) ++
  emit_pmove_r 0x4000 (u32 (s + 0x00)) ++ emit_pmove_r 0x4C00 (u32 (s + 0x10)) ++
  emit_pmove_r 0x4800 (u32 (s + 0x18)) ++ emit_pmove_r 0x6000 (u32 (s + 0x0C)).

(** The registers of a test: the data registers, and the address registers as they are. *)
Definition load_regs (t : PmmuTestSpec) : list Z :=
  concat ((fun n => put_w (u16 (Z.lor 0x203C (Z.shiftl n 9))) ++ put_l (byte (pt_d t) (Z.to_nat n))) <$> seqZ 0 8) ++
  concat ((fun n => put_w (u16 (Z.lor 0x207C (Z.shiftl n 9))) ++ put_l (byte (pt_a t) (Z.to_nat n))) <$> seqZ 0 7).

Definition pm_prologue (m : Mem) (t : PmmuTestSpec) : list Z :=
  put_w 0x7005 ++ put_w 0x4E7B ++ put_w 0x0000 ++ put_w 0x4E7B ++ put_w 0x0001 ++
  emit_mmu_load m (g_mmu_init L) ++ load_regs t ++
  put_w 0x23CF ++ put_l (g_saved_sp L) ++ put_w 0x2E7C ++ put_l (reloc_addr (byte (pt_a t) 7)).

Definition pm_epilogue : list Z :=
  emit_mmu_readback ++ put_w 0x48F9 ++ put_w 0x7FFF ++ put_l (g_fin_regs L) ++
  put_w 0x23CF ++ put_l (g_fin_a7 L) ++ put_w 0x2E79 ++ put_l (g_saved_sp L) ++ rts.

Definition build_program (m : Mem) (t : PmmuTestSpec) : list Z :=
  pm_prologue m t ++ patch_test_bytes (pt_test t) ++ pm_epilogue.

(** ** The set-up of a test *)

Definition clear_buffers (m : Mem) : Mem :=
  let m := f_memset (g_data L) 0 64 m in
  let m := f_memset (g_root L) 0 64 m in
  let m := f_memset (g_levb L) 0 64 m in
  let m := f_memset (g_levc L) 0 64 m in
  let m := f_memset (g_srp_tbl L) 0 64 m in
  let m := f_memset (g_remap1 L) 0 (64 * 64) m in
  let m := f_memset (g_remap2 L) 0 (64 * 64) m in
  let m := f_memset (g_test_stack L) 0 512 m in
  let m := f_memset (g_mmu_fin L) 0 32 m in
  let m := f_memset (g_fin_regs L) 0 60 m in
  poke_long (g_tc_off_slot L) 0 (poke_long (g_fin_a7 L) 0 m).

(** What is planted: a descriptor in a table, a value elsewhere. *)
Definition planted_value (p : PmmuPlant) : Z :=
  if addr_is_table (pl_addr p) then reloc_desc (pl_value p) else pl_value p.

Definition plant_one (m : Mem) (p : PmmuPlant) : Mem := poke_long (reloc_addr (pl_addr p)) (planted_value p) m.

Definition map_block (m : Mem) (b : Z) : Mem := poke_long (u32 (g_levb L + b * 4)) (Z.lor (u32 (Z.shiftl b 16)) 1) m.

Definition stage_values (t : PmmuTestSpec) : list Z :=
  [pt_tc t; pt_tt0 t; pt_tt1 t; 0; crp_limit t; reloc_addr (crp_aptr t); srp_limit t; reloc_addr (srp_aptr t)].

Definition stage_mmu (t : PmmuTestSpec) (m : Mem) : Mem :=
  put_bytes (g_mmu_init L) (concat (long_bytes <$> stage_values t)) m.

Definition apply_test (t : PmmuTestSpec) (m : Mem) : Mem :=
  stage_mmu t (fold_left map_block payload_blocks (fold_left plant_one (pt_plants t) (clear_buffers m))).

(** ** The lines *)

(** A window: where it is in the corpus, and its bytes. *)
Definition window_ops (corpus_base : Z) (bytes : Z -> Z) (len : Z) (first : bool) : list JwOp :=
  (if first then [] else [Puts [44]]) ++ [Puts (quoted "{'base':"); Putul corpus_base; Puts (quoted ",'bytes':[")] ++
  comma_ops bytes len ++ [Puts (text "]}")].

Definition mem_at (m : Mem) (base i : Z) : Z := m (u32 (base + i)).

(** The copy of a table without the slots of the runner. *)
Definition levb_copy (m : Mem) (i : Z) : Z := if bool_decide (i / 4 ∈ payload_blocks) then 0 else mem_at m (g_levb L) i.

Definition windows_ops (m : Mem) : list JwOp :=
  [Puts (quoted ",'windows':[")] ++
  window_ops 0x1800 (mem_at m (g_data L)) 0x40 true ++ window_ops 0x3000 (mem_at m (g_root L)) 0x40 false ++
  window_ops 0x3100 (levb_copy m) 0x40 false ++ window_ops 0x3200 (mem_at m (g_levc L)) 0x40 false ++
  window_ops 0x4000 (mem_at m (g_srp_tbl L)) 0x40 false ++ window_ops 0x9000 (mem_at m (g_remap1 L)) 0x40 false ++
  window_ops 0xA000 (mem_at m (g_remap2 L)) 0x40 false ++
  window_ops 0x7FFA0 (mem_at m (u32 (g_test_stack L + 0x160))) 0x60 false ++ [Puts (text "]")].

Definition fin_long (m : Mem) (i : Z) : Z := stage_long m (g_mmu_fin L) i.
Definition reg_long (m : Mem) (i : Z) : Z := rd_l m (u32 (g_fin_regs L + i * 4)).

Definition final_ops (m : Mem) (vec : Z) : list JwOp :=
  [Puts (quoted ",'regs_valid':"); Puts (text (if negb (vec =? 0) then "false" else "true")); Puts (quoted ",'final':{'d':[")] ++
  comma_ops (reg_long m) 8 ++ [Puts (quoted "],'a':[")] ++ comma_ops (fun i => reg_long m (8 + i)) 7 ++
  [Puts [44]; Putul (rd_l m (g_fin_a7 L));
   Puts (quoted "],'mmu':{'tc':"); Putul (fin_long m 0); Puts (quoted ",'tt0':"); Putul (fin_long m 1);
   Puts (quoted ",'tt1':"); Putul (fin_long m 2); Puts (quoted ",'crp_limit':"); Putul (fin_long m 4);
   Puts (quoted ",'crp_aptr':"); Putul (fin_long m 5); Puts (quoted ",'srp_limit':"); Putul (fin_long m 6);
   Puts (quoted ",'srp_aptr':"); Putul (fin_long m 7); Puts (quoted ",'psr':"); Putul (Z.shiftr (fin_long m 3) 16);
   Puts (text "}}")].

(** The line of a test: skipped, or with its vector and the memory it has left. *)
Definition line_ops (t : PmmuTestSpec) (result : option (Z * Mem)) : list JwOp :=
  [Puts (text "{"); Puts (quoted "'name':"); Puts (write_name (pt_name t)); Puts (quoted ",'skipped':");
   Puts (text (match result with None => "true" | Some _ => "false" end)); Puts (quoted ",'vec':");
   Putul (match result with None => 0 | Some (vec, _) => vec end)] ++
  match result with None => [] | Some (vec, m) => final_ops m vec ++ windows_ops m end ++
  [Puts (text "}" ++ [10]); Commit].

Definition rom_long (m : Mem) (i : Z) : Z := stage_long m (g_rom_mmu L) i.

Definition reloc_header_ops (full : bool) (m : Mem) : list JwOp :=
  [Puts (quoted "{'reloc':{"); Puts (quoted "'data':"); Putul (g_data L); Puts (quoted ",'root':"); Putul (g_root L);
   Puts (quoted ",'levb':"); Putul (g_levb L); Puts (quoted ",'levc':"); Putul (g_levc L); Puts (quoted ",'srp':");
   Putul (g_srp_tbl L); Puts (quoted ",'remap1':"); Putul (g_remap1 L); Puts (quoted ",'remap2':"); Putul (g_remap2 L);
   Puts (quoted ",'stack_top':"); Putul STACK_TOP_EQ; Puts (quoted ",'tc_off':"); Putul (g_tc_off_slot L);
   Puts (quoted ",'masked_levb_slots':[")] ++
  concat (imap (fun k b => (if (k =? 0)%nat then [] else [Puts [44]]) ++ [Putul b]) payload_blocks) ++
  [Puts (text "]"); Puts (quoted ",'rom_tc':"); Putul (rom_long m 0); Puts (quoted ",'rom_tt0':"); Putul (rom_long m 1);
   Puts (quoted ",'rom_tt1':"); Putul (rom_long m 2); Puts (quoted ",'rom_crp_limit':"); Putul (rom_long m 4);
   Puts (quoted ",'rom_crp_aptr':"); Putul (rom_long m 5); Puts (quoted ",'rom_srp_limit':"); Putul (rom_long m 6);
   Puts (quoted ",'rom_srp_aptr':"); Putul (rom_long m 7);
   Puts (quoted (if full then ",'build':'full'" else ",'build':'safe'")); Puts (text "}}" ++ [10]); Commit].

(** ** The run *)

Context {W : Type} `{Driver W} `{DeviceManager W}.
Variables (handoff_refnum handoff_drive results_offset results_max_bytes sector_addr : Z).
Variable invoke : Z -> Mem -> Z * Mem.
Variable full : bool.

(** What the runner does that can be seen: programs called, texts shown, output. *)
Inductive PmEvent := Ran (program : list Z) | Painted (row col : Z) (str : list Z) (max_chars : Z) | Cleared | Wrote (ops : list JwOp).

Record PmBench := MkPmBench {
  pm_ram : Mem; pm_out : JsonlWriter * W; pm_events : list PmEvent;
  pm_run : Z; pm_ok : Z; pm_trap : Z; pm_skip : Z }.

#[export] Instance eta_PmBench : Eta PmBench := fun b =>
  MkPmBench (pm_ram b) (pm_out b) (pm_events b) (pm_run b) (pm_ok b) (pm_trap b) (pm_skip b).

Definition pm_event (e : PmEvent) (b : PmBench) : PmBench := b <| pm_events ::= (fun l => l ++ [e]) |>.
Definition pm_paint (row col : Z) (str : list Z) (n : Z) (b : PmBench) : PmBench := pm_event (Painted row col str n) b.
Definition pm_write (ops : list JwOp) (b : PmBench) : PmBench :=
  pm_event (Wrote ops) (b <| pm_out := jw_run sector_addr ops (pm_out b) |>).

(** Calling a program: its bytes are put into the buffer; the vector and the new memory. *)
Definition pm_call (program : list Z) (b : PmBench) : Z * PmBench :=
  let '(vec, m) := invoke (pm_prog_buffer L) (put_bytes (pm_prog_buffer L) program (pm_ram b)) in
  (u32 vec, pm_event (Ran program) (b <| pm_ram := m |>)).

(** A program of PMOVE instructions; its vector does not count. *)
Definition run_flat (program : list Z) (b : PmBench) : PmBench := (pm_call (program ++ rts) b).2.

Definition pm_poke (a v : Z) (b : PmBench) : PmBench := b <| pm_ram := poke_long a v (pm_ram b) |>.

Definition mmu_save_rom_state (b : PmBench) : PmBench := run_flat save_program b.

Definition mmu_restore_rom_state (b : PmBench) : PmBench :=
  let b := pm_poke (g_tc_off_slot L) 0 b in run_flat (emit_mmu_load (pm_ram b) (g_rom_mmu L)) b.

Definition IDENT_MAGIC : Z := 0x1DE17171.

Definition mmu_identity_probe (b : PmBench) : bool * PmBench :=
  let b := pm_poke (g_ident_got L) 0 (pm_poke (g_ident_magic L) IDENT_MAGIC (pm_poke (g_tc_off_slot L) 0 b)) in
  let b := run_flat ident_program b in (rd_l (pm_ram b) (g_ident_got L) =? IDENT_MAGIC, b).

Definition readback_after_fault (b : PmBench) : PmBench := run_flat emit_mmu_readback (pm_poke (g_tc_off_slot L) 0 b).

Definition pm_tally (b : PmBench) : PmBench :=
  let b := pm_paint 28 8 (format_decimal (pm_run b) 4) 4 (pm_paint 28 4 (text "run=") 4 b) in
  let b := pm_paint 28 17 (format_decimal (pm_ok b) 4) 4 (pm_paint 28 14 (text "ok=") 3 b) in
  let b := pm_paint 28 29 (format_decimal (pm_trap b) 4) 4 (pm_paint 28 24 (text "trap=") 5 b) in
  pm_paint 28 41 (format_decimal (pm_skip b) 4) 4 (pm_paint 28 36 (text "skip=") 5 b).

(** The programs of a test: set up, called, read back after a fault, and the ROM's
    translation restored. *)
Definition pm_test (t : PmmuTestSpec) (b : PmBench) : Z * PmBench :=
  let b := b <| pm_run ::= (fun n => u32 (n + 1)) |> <| pm_ram ::= apply_test t |> in
  let '(vec, b) := pm_call (build_program (pm_ram b) t) b in
  let b := if negb (vec =? 0) then readback_after_fault (b <| pm_trap ::= (fun n => u32 (n + 1)) |>)
           else b <| pm_ok ::= (fun n => u32 (n + 1)) |> in
  (vec, mmu_restore_rom_state b).

Definition pm_one (idx : Z) (t : PmmuTestSpec) (b : PmBench) : PmBench :=
  let b := pm_paint 16 16 (pt_name t) 60 (pm_paint 16 9 (format_decimal (u32 (idx + 1)) 4) 4 b) in
  if negb full && pt_hw_unsafe t then
    let b := pm_tally (b <| pm_skip ::= (fun n => u32 (n + 1)) |>) in pm_write (line_ops t None) b
  else
    let '(vec, b) := pm_test t b in
    let b := pm_tally b in pm_write (line_ops t (Some (vec, pm_ram b))) b.

Fixpoint pm_all (idx : Z) (ts : list PmmuTestSpec) (b : PmBench) : PmBench :=
  match ts with [] => b | t :: ts => pm_all (idx + 1) ts (pm_one idx t b) end.

Definition pm_ctx : JwCtx := MkJwCtx handoff_refnum handoff_drive results_offset results_max_bytes.

(** The blocks of the payload meet slots of the corpus. *)
Definition blocks_collide : bool :=
  (16 <=? payload_block_last) || (payload_block_first =? 0) || ((payload_block_first <=? 7) && (7 <=? payload_block_last)).

Definition pm_start (m : Mem) (w : W) : PmBench :=
  let b := mmu_save_rom_state (MkPmBench m (jw_init pm_ctx, w) [] 0 0 0 0) in
  let b := pm_event Cleared b in
  let b := if full then pm_paint 4 4 (text "SUPERVISOR PMMU BENCH - FULL (live MMU)") 44 b
           else pm_paint 4 4 (text "SUPERVISOR PMMU BENCH - safe rows") 40 b in
  let b := pm_paint 16 4 (text "Test ") 5 b in
  let b := if blocks_collide then pm_paint 8 4 (text "WARN payload blocks collide w/ corpus map") 44 b else b in
  let b := pm_write (reloc_header_ops full (pm_ram b)) b in
  let b := pm_paint 8 4 (text "MMU IDENTITY PROBE (wedge here = not identity)") 48 b in
  pm_write [Puts (quoted "{'identity_probe':'attempting'}" ++ [10]); Commit] b.

Definition pm_flush (b : PmBench) : PmBench := b <| pm_out := jw_flush sector_addr (pm_out b) |>.

(** The end; [None] when the eject raises an exception. *)
Definition pm_finish (b : PmBench) : option PmBench :=
  let b := pm_flush (pm_paint 4 4 (text "PMMU BENCH DONE - writing results...") 40 (pm_event Cleared b)) in
  let b := pm_paint 28 13 (hexw 4 (u16 (jw_last_err (pm_out b).1))) 4 (pm_paint 28 4 (text "ioResult=") 9 b) in
  let b := pm_paint 52 4 (text "Power off and extract /Results.jsonl") 40 b in
  if (handoff_drive =? 1) || (handoff_drive =? 2) then
    let '(r, m, d) := eject_floppy (fun pb => dm_trap A_CONTROL pb (pm_ram b) (pm_out b).2) handoff_drive in
    match r with
    | Returned _ => Some (b <| pm_ram := m |> <| pm_out ::= (fun o => (o.1, d)) |>)
    | Faulted _ => None
    end
  else Some b.

(** The probe has failed and the program waits for ever, or the tests are done. *)
Inductive PmEnd := ProbeFailed (b : PmBench) | TestsDone (b : PmBench).

Definition pm_main (ts : list PmmuTestSpec) (m : Mem) (w : W) : option PmEnd :=
  let '(identity, b) := mmu_identity_probe (pm_start m w) in
  if negb identity then
    let b := pm_paint 8 4 (text "IDENTITY PROBE FAILED - bench aborted") 48 b in
    Some (ProbeFailed (pm_flush (pm_write [Puts (quoted "{'identity_probe':'failed'}" ++ [10])] b)))
  else
    let b := pm_paint 8 4 (text "identity ok") 48 b in
    let b := pm_write [Puts (quoted "{'identity_probe':'ok'}" ++ [10]); Commit] b in
    b ← pm_finish (pm_all 0 ts b); Some (TestsDone b).

End Layout.

(** ** Where the buffers are *)

(** The regions of the corpus: where they are, how long, and their buffers. *)
Definition corpus_regions (L : PmLayout) : list (Z * Z * Z) :=
  [(0x17F8, 4, g_tc_off_slot L); (0x1800, 64, g_data L); (0x3000, 64, g_root L); (0x3100, 64, g_levb L);
   (0x3200, 64, g_levc L); (0x4000, 64, g_srp_tbl L); (0x9000, 4096, g_remap1 L); (0xA000, 4096, g_remap2 L)].

(** All that the set-up writes. *)
Definition pm_buffers (L : PmLayout) : list (Z * Z) :=
  ((fun c => (c.2, c.1.2)) <$> corpus_regions L) ++
  [(g_test_stack L, 512); (g_mmu_fin L, 32); (g_fin_regs L, 60); (g_fin_a7 L, 4); (g_mmu_init L, 32)].

(** The buffers are in the address space, and no two of them meet. *)
Definition layout_ok (L : PmLayout) : Prop :=
  0 <= payload_start L /\ Forall (fun b => 0 <= b.1 /\ b.1 + b.2 <= 2 ^ 32) (pm_buffers L) /\
  forall i j b c, pm_buffers L !! i = Some b -> pm_buffers L !! j = Some c -> i <> j -> b.1 + b.2 <= c.1 \/ c.1 + c.2 <= b.1.

(** A long of the corpus. *)
Definition corpus_long (a : Z) : Prop :=
  a mod 4 = 0 /\ (a = 0x17F8 \/ 0x1800 <= a < 0x1840 \/ 0x3000 <= a < 0x3040 \/ 0x3100 <= a < 0x3140 \/
    0x3200 <= a < 0x3240 \/ 0x4000 <= a < 0x4040 \/ 0x9000 <= a < 0xB000).

Lemma f_memset_at n : forall dst c m x, 0 <= dst -> dst + Z.of_nat n <= 2 ^ 32 ->
  f_memset dst c n m x = if bool_decide (dst <= x < dst + Z.of_nat n) then u8 c else m x.
Proof.
  change (2 ^ 32) with 4294967296.
  induction n as [|n IH]; intros dst c m x H0 H1; cbn [f_memset]; [by rewrite bool_decide_eq_false_2 by lia|].
  destruct (decide (n = 0%nat)) as [->|Hn].
  - cbn [f_memset]. unfold poke. destruct (Z.eqb_spec x dst).
    + by rewrite bool_decide_eq_true_2 by lia.
    + by rewrite bool_decide_eq_false_2 by lia.
  - rewrite u32_small by lia. rewrite IH by lia. unfold poke. case_bool_decide as Hb.
    + by rewrite bool_decide_eq_true_2 by lia.
    + destruct (Z.eqb_spec x dst); [by rewrite bool_decide_eq_true_2 by lia|by rewrite bool_decide_eq_false_2 by lia].
Qed.

Section Setup.
Variable L : PmLayout.
Hypothesis Hok : layout_ok L.

Lemma buffer_range i b : pm_buffers L !! i = Some b -> 0 <= b.1 /\ b.1 + b.2 <= 2 ^ 32.
Proof. intros Hi. by apply (proj1 (Forall_lookup _ _) (proj1 (proj2 Hok)) i). Qed.

Lemma in_range_spec lo hi a : in_range lo hi a = true <-> lo <= a < hi.
Proof. unfold in_range. rewrite andb_true_iff, Z.leb_le, Z.ltb_lt. lia. Qed.

Lemma in_range_false lo hi a : ~ (lo <= a < hi) -> in_range lo hi a = false.
Proof. intros Hn. destruct (in_range lo hi a) eqn:E; [|done]. by apply in_range_spec in E. Qed.

(** In its region an address keeps its offset. *)
Lemma reloc_region i c n g a : corpus_regions L !! i = Some (c, n, g) -> c <= a -> a + 4 <= c + n -> reloc_addr L a = g + (a - c).
Proof.
  intros Hi H1 H2.
  assert (Hg : 0 <= g /\ g + n <= 2 ^ 32).
  { apply (buffer_range i (g, n)). unfold pm_buffers. apply lookup_app_l_Some. by rewrite list_lookup_fmap, Hi. }
  change (2 ^ 32) with 4294967296 in Hg.
  assert (Hi' : (i < 8)%nat) by (by apply lookup_lt_Some in Hi).
  unfold reloc_addr.
  destruct i as [|[|[|[|[|[|[|[|i]]]]]]]]; [..|lia]; injection Hi as <- <- <-;
    repeat first [ rewrite (proj2 (Z.eqb_eq a _)) by lia | rewrite (proj2 (Z.eqb_neq a _)) by lia
                 | rewrite (proj2 (in_range_spec _ _ a)) by lia | rewrite (in_range_false _ _ a) by lia ];
    rewrite ?u32_small by lia; lia.
Qed.

(** The buffer of a long. *)
Lemma long_region a : corpus_long a -> exists i c n g, corpus_regions L !! i = Some (c, n, g) /\ c <= a /\ a + 4 <= c + n.
Proof.
  intros [Hal Hr]. pose proof (Z.div_mod a 4 ltac:(lia)) as Hdm.
  destruct Hr as [Hr|[Hr|[Hr|[Hr|[Hr|[Hr|Hr]]]]]].
  - by exists 0%nat, 0x17F8, 4, (g_tc_off_slot L); split_and!; [done|lia..].
  - by exists 1%nat, 0x1800, 64, (g_data L); split_and!; [done|lia..].
  - by exists 2%nat, 0x3000, 64, (g_root L); split_and!; [done|lia..].
  - by exists 3%nat, 0x3100, 64, (g_levb L); split_and!; [done|lia..].
  - by exists 4%nat, 0x3200, 64, (g_levc L); split_and!; [done|lia..].
  - by exists 5%nat, 0x4000, 64, (g_srp_tbl L); split_and!; [done|lia..].
  - destruct (Z.lt_ge_cases a 0xA000).
    + by exists 6%nat, 0x9000, 4096, (g_remap1 L); split_and!; [done|lia..].
    + by exists 7%nat, 0xA000, 4096, (g_remap2 L); split_and!; [done|lia..].
Qed.

Lemma region_buffer i c n g : corpus_regions L !! i = Some (c, n, g) -> pm_buffers L !! i = Some (g, n).
Proof. intros Hi. unfold pm_buffers. apply lookup_app_l_Some. by rewrite list_lookup_fmap, Hi. Qed.

(** Two longs of the corpus do not meet where they are put. *)
Lemma reloc_separate a a' : corpus_long a -> corpus_long a' -> a <> a' ->
  reloc_addr L a + 4 <= reloc_addr L a' \/ reloc_addr L a' + 4 <= reloc_addr L a.
Proof.
  intros Ha Ha' Hne.
  destruct (long_region a Ha) as (i & c & n & g & Hi & H1 & H2).
  destruct (long_region a' Ha') as (j & c' & n' & g' & Hj & H3 & H4).
  rewrite (reloc_region i c n g a Hi H1 H2), (reloc_region j c' n' g' a' Hj H3 H4).
  destruct (decide (i = j)) as [<-|Hij].
  - rewrite Hi in Hj. injection Hj as <- <- <-. destruct Ha as [Hm _], Ha' as [Hm' _].
    pose proof (Z.div_mod a 4 ltac:(lia)). pose proof (Z.div_mod a' 4 ltac:(lia)). lia.
  - pose proof (proj2 (proj2 Hok) i j _ _ (region_buffer _ _ _ _ Hi) (region_buffer _ _ _ _ Hj) Hij) as Hd. cbn [fst snd] in Hd. lia.
Qed.

Lemma reloc_buffer a : corpus_long a ->
  exists i b, (i < 8)%nat /\ pm_buffers L !! i = Some b /\ b.1 <= reloc_addr L a /\ reloc_addr L a + 4 <= b.1 + b.2.
Proof.
  intros Ha. destruct (long_region a Ha) as (i & c & n & g & Hi & H1 & H2). exists i, (g, n).
  rewrite (reloc_region i c n g a Hi H1 H2). cbn [fst snd].
  split; [by apply lookup_lt_Some in Hi|]. split; [by eapply region_buffer|lia].
Qed.

Lemma reloc_32 a : corpus_long a -> 0 <= reloc_addr L a /\ reloc_addr L a + 4 <= 2 ^ 32.
Proof.
  intros Ha. destruct (reloc_buffer a Ha) as (i & b & _ & Hi & H1 & H2). pose proof (buffer_range i b Hi). lia.
Qed.

(** Reading a long back, and beside one that is written. *)
Lemma rd_poke a v m : 0 <= a -> a + 4 <= 2 ^ 32 -> rd_l (poke_long a v m) a = u32 v.
Proof.
  change (2 ^ 32) with 4294967296. intros H0 H1. unfold rd_l, rd_w. rewrite !u32_small by lia.
  rewrite !poke_long_at, !bool_decide_eq_true_2 by lia.
  rewrite Z.sub_diag. replace (a + 1 - a) with 1 by lia. replace (a + 2 - a) with 2 by lia.
  replace (a + 2 + 1 - a) with 3 by lia. exact (bytes_long v).
Qed.

Lemma rd_poke_other a b v m :
  0 <= a -> a + 4 <= 2 ^ 32 -> a + 4 <= b \/ b + 4 <= a -> rd_l (poke_long b v m) a = rd_l m a.
Proof. intros H0 H1 Hd. apply rd_l_ext; [done|done|]. intros x Hx. rewrite poke_long_at. by rewrite bool_decide_eq_false_2 by lia. Qed.

(** Values written to longs of the corpus; the last one stays. *)
Definition put_longs (ps : list (Z * Z)) (m : Mem) : Mem :=
  fold_left (fun m p => poke_long (reloc_addr L p.1) p.2 m) ps m.

Fixpoint last_value (ps : list (Z * Z)) (a : Z) : option Z :=
  match ps with
  | [] => None
  | p :: ps => match last_value ps a with Some v => Some v | None => if p.1 =? a then Some p.2 else None end
  end.

Lemma put_longs_at ps : forall m a, Forall (fun p => corpus_long p.1) ps -> corpus_long a ->
  rd_l (put_longs ps m) (reloc_addr L a) = match last_value ps a with Some v => u32 v | None => rd_l m (reloc_addr L a) end.
Proof.
  induction ps as [|p ps IH]; intros m a Hps Ha; [done|]. inversion_clear Hps as [|? ? Hp Hps'].
  unfold put_longs in *. cbn [fold_left last_value]. rewrite IH by done. destruct (last_value ps a); [done|].
  destruct (reloc_32 a Ha) as [H0 H1]. destruct (Z.eqb_spec p.1 a) as [<-|Hne]; [by apply rd_poke|].
  apply rd_poke_other; [done|done|]. destruct (reloc_separate a p.1 Ha Hp); [congruence|lia..].
Qed.

(** Nothing outside the buffers changes. *)
Definition outside (x : Z) : Prop := forall i b, pm_buffers L !! i = Some b -> ~ (b.1 <= x < b.1 + b.2).

Lemma put_longs_outside ps : forall m x, Forall (fun p => corpus_long p.1) ps -> outside x -> put_longs ps m x = m x.
Proof.
  induction ps as [|p ps IH]; intros m x Hps Hx; [done|]. inversion_clear Hps as [|? ? Hp Hps'].
  unfold put_longs in *. cbn [fold_left]. rewrite IH by done. rewrite poke_long_at.
  destruct (reloc_buffer p.1 Hp) as (i & b & _ & Hi & H1 & H2). pose proof (Hx i b Hi).
  by rewrite bool_decide_eq_false_2 by lia.
Qed.

Lemma zero_poke a m x : poke_long a 0 m x = if bool_decide (a <= x < a + 4) then 0 else m x.
Proof.
  rewrite poke_long_at. case_bool_decide as Hb; [|done].
  assert (Hi : x - a = 0 \/ x - a = 1 \/ x - a = 2 \/ x - a = 3) by lia. by destruct Hi as [->|[->|[->| ->]]].
Qed.

(** The clearing, buffer by buffer. *)
Lemma clear_unfold m x :
  clear_buffers L m x =
    foldr (fun b v => if bool_decide (b.1 <= x < b.1 + b.2) then 0 else v) (m x)
      [(g_tc_off_slot L, 4); (g_fin_a7 L, 4); (g_fin_regs L, 60); (g_mmu_fin L, 32); (g_test_stack L, 512);
       (g_remap2 L, 4096); (g_remap1 L, 4096); (g_srp_tbl L, 64); (g_levc L, 64); (g_levb L, 64); (g_root L, 64); (g_data L, 64)].
Proof.
  assert (Hr : forall i g n, pm_buffers L !! i = Some (g, n) -> 0 <= g /\ g + n <= 2 ^ 32)
    by (intros i g n Hi; exact (buffer_range i (g, n) Hi)).
  pose proof (Hr 1%nat (g_data L) 64 eq_refl). pose proof (Hr 2%nat (g_root L) 64 eq_refl). pose proof (Hr 3%nat (g_levb L) 64 eq_refl).
  pose proof (Hr 4%nat (g_levc L) 64 eq_refl). pose proof (Hr 5%nat (g_srp_tbl L) 64 eq_refl). pose proof (Hr 6%nat (g_remap1 L) 4096 eq_refl).
  pose proof (Hr 7%nat (g_remap2 L) 4096 eq_refl). pose proof (Hr 8%nat (g_test_stack L) 512 eq_refl). pose proof (Hr 9%nat (g_mmu_fin L) 32 eq_refl).
  pose proof (Hr 10%nat (g_fin_regs L) 60 eq_refl). clear Hr.
  unfold clear_buffers. rewrite !zero_poke. rewrite !f_memset_at by lia. reflexivity.
Qed.

Lemma clear_in m i b x : (i < 12)%nat -> pm_buffers L !! i = Some b -> b.1 <= x < b.1 + b.2 -> clear_buffers L m x = 0.
Proof.
  intros Hi Hb Hx. rewrite clear_unfold. cbn [foldr fst snd].
  repeat (case_bool_decide; [reflexivity|]). exfalso.
  do 12 (destruct i as [|i]; [injection Hb as <-; cbn in Hx; lia|]). lia.
Qed.

Lemma clear_out m x : outside x -> clear_buffers L m x = m x.
Proof.
  intros Hx. rewrite clear_unfold. cbn [foldr fst snd].
  pose proof (Hx 0%nat (g_tc_off_slot L, 4) eq_refl). pose proof (Hx 1%nat (g_data L, 64) eq_refl). pose proof (Hx 2%nat (g_root L, 64) eq_refl).
  pose proof (Hx 3%nat (g_levb L, 64) eq_refl). pose proof (Hx 4%nat (g_levc L, 64) eq_refl). pose proof (Hx 5%nat (g_srp_tbl L, 64) eq_refl).
  pose proof (Hx 6%nat (g_remap1 L, 4096) eq_refl). pose proof (Hx 7%nat (g_remap2 L, 4096) eq_refl). pose proof (Hx 8%nat (g_test_stack L, 512) eq_refl).
  pose proof (Hx 9%nat (g_mmu_fin L, 32) eq_refl). pose proof (Hx 10%nat (g_fin_regs L, 60) eq_refl). pose proof (Hx 11%nat (g_fin_a7 L, 4) eq_refl).
  cbn [fst snd] in *.
  repeat (rewrite bool_decide_eq_false_2 by assumption). reflexivity.
Qed.

(** The set-up as one list of longs. *)
Definition corpus_writes (t : PmmuTestSpec) : list (Z * Z) :=
  ((fun p => (pl_addr p, planted_value L p)) <$> pt_plants t) ++
  ((fun b => (0x3100 + b * 4, Z.lor (u32 (Z.shiftl b 16)) 1)) <$> payload_blocks L).

Lemma blocks_range b : b ∈ payload_blocks L -> 0 <= b < 16.
Proof.
  unfold payload_blocks. rewrite elem_of_seqZ. intros Hb. 
  assert (0 <= payload_block_first L) by (unfold payload_block_first; apply Z.shiftr_nonneg, Hok). lia.
Qed.

Lemma put_longs_fmap {A} (f : A -> Z * Z) (l : list A) : forall m,
  put_longs (f <$> l) m = fold_left (fun m a => poke_long (reloc_addr L (f a).1) (f a).2 m) l m.
Proof. induction l as [|a l IH]; intros m; [done|]. exact (IH (poke_long (reloc_addr L (f a).1) (f a).2 m)). Qed.

Lemma map_blocks_longs bs : forall m, Forall (fun b => 0 <= b < 16) bs ->
  fold_left (map_block L) bs m = put_longs ((fun b => (0x3100 + b * 4, Z.lor (u32 (Z.shiftl b 16)) 1)) <$> bs) m.
Proof.
  induction bs as [|b bs IH]; intros m Hb; [done|]. inversion_clear Hb as [|? ? Hb0 Hbs]. cbn [fold_left fmap list_fmap].
  rewrite IH by done. unfold put_longs at 2. cbn [fold_left fst snd]. unfold map_block.
  rewrite (reloc_region 3 0x3100 64 (g_levb L)) by (done || lia).
  pose proof (buffer_range 3 (g_levb L, 64) eq_refl) as Hr. change (2 ^ 32) with 4294967296 in Hr. cbn [fst snd] in Hr.
  rewrite u32_small by lia. by replace (12544 + b * 4 - 12544) with (b * 4) by lia.
Qed.

Lemma put_longs_app ps ps' m : put_longs (ps ++ ps') m = put_longs ps' (put_longs ps m).
Proof. apply fold_left_app. Qed.

Lemma apply_longs t m : apply_test L t m = stage_mmu L t (put_longs (corpus_writes t) (clear_buffers L m)).
Proof.
  unfold apply_test, corpus_writes. generalize (clear_buffers L m). intros m0. rewrite put_longs_app.
  rewrite (put_longs_fmap (fun p => (pl_addr p, planted_value L p)) (pt_plants t)).
  rewrite map_blocks_longs by (apply Forall_forall; intros b; apply blocks_range). unfold plant_one. cbn [fst snd]. reflexivity.
Qed.

Lemma stage_at t m x : stage_mmu L t m x =
  if bool_decide (g_mmu_init L <= x < g_mmu_init L + 32) then u8 (byte (concat (long_bytes <$> stage_values L t)) (Z.to_nat (x - g_mmu_init L))) else m x.
Proof. unfold stage_mmu. by rewrite put_bytes_at. Qed.

Lemma writes_corpus t : Forall (fun p => corpus_long (pl_addr p)) (pt_plants t) -> Forall (fun p => corpus_long p.1) (corpus_writes t).
Proof.
  intros Hp. unfold corpus_writes. apply Forall_app. split; apply Forall_fmap; [exact Hp|].
  apply Forall_forall. intros b Hb. apply blocks_range in Hb. cbn. split; [|lia].
  replace (0x3100 + b * 4) with ((0xC40 + b) * 4) by lia. apply Z_mod_mult.
Qed.

Lemma apply_read t m a : Forall (fun p => corpus_long (pl_addr p)) (pt_plants t) -> corpus_long a ->
  rd_l (apply_test L t m) (reloc_addr L a) = match last_value (corpus_writes t) a with Some v => u32 v | None => 0 end.
Proof.
  intros Hp Ha. rewrite apply_longs. destruct (reloc_32 a Ha) as [H0 H1]. destruct (reloc_buffer a Ha) as (i & b & Hi & Hb & Hl & Hh).
  rewrite (rd_l_ext _ (put_longs (corpus_writes t) (clear_buffers L m))); [|done|done|].
  2:{ intros x Hx. rewrite stage_at. rewrite bool_decide_eq_false_2; [done|].
      pose proof (proj2 (proj2 Hok) i 12%nat _ _ Hb (eq_refl : _ = Some (g_mmu_init L, 32)) ltac:(lia)) as Hd. cbn [fst snd] in Hd. lia. }
  rewrite put_longs_at by (by try apply writes_corpus). destruct (last_value _ a); [done|].
  rewrite (rd_l_ext _ (fun _ => 0)); [done|done|done|]. intros x Hx. apply (clear_in m i b); [lia|done|lia].
Qed.

Lemma apply_outside t m x : Forall (fun p => corpus_long (pl_addr p)) (pt_plants t) -> outside x -> apply_test L t m x = m x.
Proof.
  intros Hp Hx. rewrite apply_longs, stage_at. rewrite bool_decide_eq_false_2 by (apply (Hx 12%nat (g_mmu_init L, 32) eq_refl)).
  rewrite put_longs_outside by (by try apply writes_corpus). by apply clear_out.
Qed.

End Setup.


(** ** The bytes of a test *)

(** A test as words and as longs that are replaced. *)
Inductive Tok := TokWord (a b : Z) | TokLong (a b c d : Z).

Definition tok_bytes (k : Tok) : list Z := match k with TokWord a b => [a; b] | TokLong a b c d => [a; b; c; d] end.

Definition tok_patched (L : PmLayout) (k : Tok) : list Z :=
  match k with TokWord a b => [a; b] | TokLong a b c d => long_bytes (patch_long L (get32 [a; b; c; d] 0)) end.

(** Every long is one that is replaced, and no word begins one. *)
Fixpoint toks_ok (L : PmLayout) (ks : list Tok) : Prop :=
  match ks with
  | [] => True
  | k :: ks =>
    match k with
    | TokLong a b c d => patch_long L (get32 [a; b; c; d] 0) <> get32 [a; b; c; d] 0
    | TokWord a b =>
      match concat (tok_bytes <$> ks) with
      | c :: d :: _ => patch_long L (get32 [a; b; c; d] 0) = get32 [a; b; c; d] 0
      | _ => True
      end
    end /\ toks_ok L ks
  end.

Lemma patch_cons4 L a b c d l :
  patch_test_bytes L (a :: b :: c :: d :: l) =
    if negb (patch_long L (get32 [a; b; c; d] 0) =? get32 [a; b; c; d] 0)
    then long_bytes (patch_long L (get32 [a; b; c; d] 0)) ++ patch_test_bytes L l
    else a :: b :: patch_test_bytes L (c :: d :: l).
Proof. reflexivity. Qed.

Lemma patch_toks L ks : toks_ok L ks -> patch_test_bytes L (concat (tok_bytes <$> ks)) = concat (tok_patched L <$> ks).
Proof.
  induction ks as [|k ks IH]; [done|]. intros [Hk Hks]. specialize (IH Hks).
  destruct k as [a b|a b c d]; cbn [fmap list_fmap concat tok_bytes tok_patched app] in *.
  - assert (Hl : forall x, concat (tok_bytes <$> ks) <> [x]).
    { destruct ks as [|[? ?|? ? ? ?] ks']; [done|..]; intros x E; discriminate E. }
    destruct (concat (tok_bytes <$> ks)) as [|c [|d l]]; [by rewrite <- IH|by destruct (Hl c)|].
    rewrite patch_cons4, Hk, Z.eqb_refl. cbn [negb]. by rewrite IH.
  - rewrite patch_cons4, (proj2 (Z.eqb_neq _ _) Hk). cbn [negb]. by rewrite IH.
Qed.

Lemma toks_exist L n : forall l, (length l <= n)%nat -> Nat.Even (length l) ->
  exists ks, l = concat (tok_bytes <$> ks) /\ toks_ok L ks.
Proof.
  induction n as [|n IH]; intros l Hl He.
  { destruct l; [by exists []|cbn in Hl; lia]. }
  destruct l as [|a [|b l]]; [by exists []|destruct He as [k Hk]; cbn in Hk; lia|].
  destruct l as [|c [|d l]].
  - by exists [TokWord a b].
  - destruct He as [k Hk]; cbn in Hk; lia.
  - cbn [length] in *. destruct (Z.eqb_spec (patch_long L (get32 [a; b; c; d] 0)) (get32 [a; b; c; d] 0)) as [E|E].
    + destruct (IH (c :: d :: l)) as (ks & Ek & Hks); [cbn; lia|destruct He as [k Hk]; exists (k - 1)%nat; cbn; lia|].
      exists (TokWord a b :: ks). cbn [fmap list_fmap concat tok_bytes app toks_ok]. rewrite <- Ek. by split_and!.
    + destruct (IH l) as (ks & Ek & Hks); [lia|destruct He as [k Hk]; exists (k - 2)%nat; lia|].
      exists (TokLong a b c d :: ks). cbn [fmap list_fmap concat tok_bytes app toks_ok]. rewrite <- Ek. by split_and!.
Qed.

Lemma tok_lengths L k : length (tok_patched L k) = length (tok_bytes k).
Proof. by destruct k. Qed.

Lemma toks_length L ks : length (concat (tok_patched L <$> ks)) = length (concat (tok_bytes <$> ks)).
Proof.
  induction ks as [|k ks IH]; [done|]. cbn [fmap list_fmap concat]. by rewrite !length_app, IH, tok_lengths.
Qed.


Lemma patch_length L l : length (patch_test_bytes L l) = length l.
Proof.
  remember (length l) as n eqn:Hn. revert l Hn. induction n as [n IH] using lt_wf_ind. intros l ->.
  destruct l as [|a [|b [|c [|d l]]]]; [done..|]. rewrite patch_cons4. destruct (negb _).
  - rewrite length_app, (IH (length l)) by (cbn; lia || done). done.
  - cbn [length]. by rewrite (IH (length (c :: d :: l))) by (cbn; lia || done).
Qed.

(** ** The programs fit *)

Lemma load_length L m s : (length (emit_mmu_load L m s) <= 56)%nat.
Proof. unfold emit_mmu_load. rewrite !length_app. destruct (negb _), (negb _); cbn; lia. Qed.

Lemma program_length L m t : (length (pt_test t) <= 96)%nat -> (length (build_program L m t) <= 1024)%nat.
Proof.
  intros Ht. unfold build_program, pm_prologue, pm_epilogue. rewrite !length_app, patch_length.
  pose proof (load_length L m (g_mmu_init L)). change (length (load_regs t)) with 90%nat.
  change (length (emit_mmu_readback L)) with 56%nat. cbn [length put_w put_l word_bytes long_bytes rts]. lia.
Qed.

(** Every program fits the buffer of a kilobyte, and runs the bytes of the test. *)
Theorem pm_program_fits (L : PmLayout) (m : Mem) (t : PmmuTestSpec) (Ht : (length (pt_test t) <= 96)%nat) :
  (length (build_program L m t) <= 1024)%nat /\
  exists before after, build_program L m t = before ++ patch_test_bytes L (pt_test t) ++ after /\
    length (patch_test_bytes L (pt_test t)) = length (pt_test t).
Proof. split; [by apply program_length|by exists (pm_prologue L m t), (pm_epilogue L); rewrite patch_length]. Qed.

(** ** The ROM's translation *)

Section Trace.
Variable L : PmLayout.
Context {W : Type} `{Driver W} `{DeviceManager W}.
Variables (handoff_refnum handoff_drive results_offset results_max_bytes sector_addr : Z).
Variable invoke : Z -> Mem -> Z * Mem.
Variable full : bool.

(** A program that ends with the load of the ROM's translation control and returns, or the
    one that only reads. *)
Definition rom_on (p : list Z) : bool :=
  let tail := emit_pmove_w 0x4000 (u32 (g_rom_mmu L + 0x00)) ++ rts in
  bool_decide (drop (length p - length tail) p = tail) || bool_decide (p = save_program L ++ rts).

(** Nothing is shown or written between a program that leaves the ROM's translation off and
    one that restores it. *)
Fixpoint safe (off : bool) (es : list PmEvent) : bool :=
  match es with
  | [] => negb off
  | Ran p :: es => safe (negb (rom_on p)) es
  | _ :: es => negb off && safe false es
  end.

Fixpoint wrote (es : list PmEvent) : list (list JwOp) :=
  match es with [] => [] | Wrote ops :: es => ops :: wrote es | _ :: es => wrote es end.

Lemma safe_app es es' off : safe off es = true -> safe off (es ++ es') = safe false es'.
Proof.
  revert off. induction es as [|e es IH]; intros off Hs; cbn [safe app] in *; [by destruct off|].
  destruct e; try (apply andb_prop in Hs as [Ho Hs]; rewrite Ho; cbn [andb]); by apply IH.
Qed.

Lemma safe_snoc es es' : safe false es = true -> safe false es' = true -> safe false (es ++ es') = true.
Proof. intros H1 H2. by rewrite safe_app. Qed.

Lemma wrote_app es es' : wrote (es ++ es') = wrote es ++ wrote es'.
Proof. induction es as [|e es IH]; [done|]. destruct e; cbn; by rewrite IH. Qed.

Lemma rom_on_tail p : rom_on (p ++ emit_pmove_w 0x4000 (u32 (g_rom_mmu L + 0x00)) ++ rts) = true.
Proof.
  unfold rom_on. cbn zeta. set (tail := emit_pmove_w _ _ ++ rts). rewrite length_app.
  replace (length p + length tail - length tail)%nat with (length p) by lia. rewrite drop_app_length.
  by rewrite bool_decide_eq_true_2.
Qed.

Lemma rom_on_save : rom_on (save_program L ++ rts) = true.
Proof. unfold rom_on. rewrite (bool_decide_eq_true_2 (save_program L ++ rts = _)) by done. apply orb_true_r. Qed.

Lemma rom_on_restore m : rom_on (emit_mmu_load L m (g_rom_mmu L) ++ rts) = true.
Proof. unfold emit_mmu_load. rewrite <- !app_assoc. rewrite !app_assoc. rewrite <- (app_assoc _ _ rts). apply rom_on_tail. Qed.

Lemma rom_on_probe : rom_on (ident_program L ++ rts) = true.
Proof. unfold ident_program. rewrite <- !app_assoc. rewrite !app_assoc. rewrite <- (app_assoc _ _ rts). apply rom_on_tail. Qed.

(** What a step adds to the events, and to the output. *)
Record Adds (b b' : PmBench (W := W)) (es : list PmEvent) : Prop := {
  adds_events : pm_events b' = pm_events b ++ es;
  adds_out : pm_out b' = jw_run sector_addr (concat (wrote es)) (pm_out b) }.

Lemma adds_refl b b' : pm_events b' = pm_events b -> pm_out b' = pm_out b -> Adds b b' [].
Proof. intros E1 E2. split; [by rewrite app_nil_r|done]. Qed.

Lemma adds_trans b1 b2 b3 es es' : Adds b1 b2 es -> Adds b2 b3 es' -> Adds b1 b3 (es ++ es').
Proof.
  intros [E1 O1] [E2 O2]. split; [by rewrite E2, E1, app_assoc|].
  by rewrite O2, O1, wrote_app, concat_app, jw_run_app.
Qed.

Lemma adds_paint r c s n b : Adds b (pm_paint r c s n b) [Painted r c s n].
Proof. by split. Qed.

Lemma adds_write ops b : Adds b (pm_write sector_addr ops b) [Wrote ops].
Proof. split; [done|]. cbn [wrote concat]. by rewrite app_nil_r. Qed.

Lemma adds_call p b : Adds b (pm_call L invoke p b).2 [Ran p].
Proof. unfold pm_call. destruct (invoke _ _) as [vec m]. by split. Qed.

Lemma adds_flat p b : Adds b (run_flat L invoke p b) [Ran (p ++ rts)].
Proof. apply adds_call. Qed.

Lemma adds_keep b0 b b' es : Adds b b' es -> pm_events b = pm_events b0 -> pm_out b = pm_out b0 -> Adds b0 b' es.
Proof. intros [E O] E0 O0. split; by rewrite ?E, ?O, ?E0, ?O0. Qed.

Definition tally_events (b : PmBench (W := W)) : list PmEvent :=
  [Painted 28 4 (text "run=") 4; Painted 28 8 (format_decimal (pm_run b) 4) 4;
   Painted 28 14 (text "ok=") 3; Painted 28 17 (format_decimal (pm_ok b) 4) 4;
   Painted 28 24 (text "trap=") 5; Painted 28 29 (format_decimal (pm_trap b) 4) 4;
   Painted 28 36 (text "skip=") 5; Painted 28 41 (format_decimal (pm_skip b) 4) 4].

Lemma adds_tally b : Adds b (pm_tally b) (tally_events b).
Proof. split; [|done]. unfold pm_tally, pm_paint, pm_event. cbn. by rewrite <- !app_assoc. Qed.

(** A test: its program, the reading after a fault, and the restoring. *)
Lemma adds_test t b : exists p es m, Adds b (pm_test L invoke t b).2
  (Ran p :: es ++ [Ran (emit_mmu_load L m (g_rom_mmu L) ++ rts)]) /\
  (es = [] \/ es = [Ran (emit_mmu_readback L ++ rts)]).
Proof.
  unfold pm_test. set (b0 := b <| pm_run ::= _ |> <| pm_ram ::= _ |>).
  pose proof (adds_call (build_program L (pm_ram b0) t) b0) as Hc.
  destruct (pm_call L invoke (build_program L (pm_ram b0) t) b0) as [vec b1]. cbn [snd] in Hc.
  set (b2 := if negb (vec =? 0) then _ else _).
  assert (Hr : exists es, Adds b1 b2 es /\ (es = [] \/ es = [Ran (emit_mmu_readback L ++ rts)])).
  { unfold b2. destruct (negb (vec =? 0)).
    - eexists. split; [|by right]. unfold readback_after_fault. eapply adds_keep; [apply adds_flat|done|done].
    - exists []. split; [by apply adds_refl|by left]. }
  destruct Hr as (es & Hr & Hes). cbn [snd]. unfold mmu_restore_rom_state.
  set (b3 := pm_poke (g_tc_off_slot L) 0 b2).
  exists (build_program L (pm_ram b0) t), es, (pm_ram b3). split; [|done].
  apply (adds_trans b b1 _ [_]); [by eapply adds_keep; [exact Hc|..]|].
  apply (adds_trans b1 b2); [exact Hr|]. eapply adds_keep; [apply adds_flat|done|done].
Qed.

Lemma safe_test p es m :
  (es = [] \/ es = [Ran (emit_mmu_readback L ++ rts)]) ->
  safe false (Ran p :: es ++ [Ran (emit_mmu_load L m (g_rom_mmu L) ++ rts)]) = true.
Proof. intros [->| ->]; cbn [app safe]; by rewrite rom_on_restore. Qed.

(** A line. *)
Lemma adds_one idx t b : exists es ops, Adds b (pm_one L sector_addr invoke full idx t b) es /\
  safe false es = true /\ wrote es = [ops].
Proof.
  unfold pm_one. set (b0 := pm_paint 16 16 _ _ _).
  assert (A0 : Adds b b0 [Painted 16 9 (format_decimal (u32 (idx + 1)) 4) 4; Painted 16 16 (pt_name t) 60]).
  { split; [|done]. unfold b0, pm_paint, pm_event. cbn. by rewrite <- app_assoc. }
  destruct (negb full && pt_hw_unsafe t).
  - set (bs := b0 <| pm_skip ::= _ |>). eexists _, _. split; [eapply adds_trans; [exact A0|]|].
    { eapply (adds_trans b0 (pm_tally bs)); [eapply (adds_keep b0 bs); [apply adds_tally|done|done]|apply adds_write]. }
    split; [done|reflexivity].
  - destruct (adds_test t b0) as (p & es & m & Ht & Hes). destruct (pm_test L invoke t b0) as [vec b1]. cbn [snd] in Ht.
    eexists _, _. split; [eapply adds_trans; [exact A0|eapply adds_trans; [exact Ht|]]|].
    { eapply adds_trans; [apply adds_tally|apply adds_write]. }
    split.
    + apply safe_snoc; [done|]. apply safe_snoc; [by apply safe_test|done].
    + rewrite !wrote_app. by destruct Hes as [->| ->].
Qed.

Lemma adds_all ts : forall idx b, exists es, Adds b (pm_all L sector_addr invoke full idx ts b) es /\
  safe false es = true /\ length (wrote es) = length ts.
Proof.
  induction ts as [|t ts IH]; intros idx b; cbn [pm_all].
  { exists []. split; [by apply adds_refl|done]. }
  destruct (adds_one idx t b) as (es1 & ops & H1 & S1 & W1).
  destruct (IH (idx + 1) (pm_one L sector_addr invoke full idx t b)) as (es2 & H2 & S2 & W2).
  exists (es1 ++ es2). split; [by eapply adds_trans|]. split; [by apply safe_snoc|]. rewrite wrote_app, W1. cbn. by rewrite W2.
Qed.

Lemma adds_start m w : exists es,
  Adds (MkPmBench m (jw_init (pm_ctx handoff_refnum handoff_drive results_offset results_max_bytes), w) [] 0 0 0 0)
    (pm_start L handoff_refnum handoff_drive results_offset results_max_bytes sector_addr invoke full m w) es /\
  safe false es = true /\ length (wrote es) = 2%nat.
Proof.
  unfold pm_start, mmu_save_rom_state. set (b := MkPmBench m _ _ _ _ _ _).
  pose proof (adds_flat (save_program L) b) as Hs. set (b1 := run_flat L invoke (save_program L) b) in *. clearbody b1.
  set (b2 := if full then _ else _).
  assert (H2 : exists es, Adds b1 b2 es /\ safe false es = true /\ wrote es = []).
  { unfold b2. destruct full; eexists; (split; [eapply adds_trans; [|apply adds_paint]|]).
    1,3: apply (Build_Adds b1 (pm_event Cleared b1) [Cleared]); done. all: done. }
  destruct H2 as (es2 & H2 & S2 & W2). clearbody b2.
  set (b3 := if blocks_collide L then _ else _).
  assert (H3 : exists es, Adds b2 b3 es /\ safe false es = true /\ wrote es = []).
  { unfold b3. destruct (blocks_collide L).
    - eexists. split; [eapply adds_trans; apply adds_paint|done].
    - eexists. split; [apply adds_paint|done]. }
  destruct H3 as (es3 & H3 & S3 & W3). clearbody b3.
  eexists. split; [eapply adds_trans; [exact Hs|eapply adds_trans; [exact H2|eapply adds_trans; [exact H3|]]]|].
  { eapply adds_trans; [apply adds_write|]. eapply adds_trans; [apply adds_paint|apply adds_write]. }
  split.
  - apply safe_snoc; [cbn [safe]; by rewrite rom_on_save|]. apply safe_snoc; [done|]. by apply safe_snoc.
  - by rewrite !wrote_app, W2, W3.
Qed.

Lemma adds_probe b : Adds b (mmu_identity_probe L invoke b).2 [Ran (ident_program L ++ rts)].
Proof. unfold mmu_identity_probe. cbn [snd]. eapply adds_keep; [apply adds_flat|done|done]. Qed.

Lemma painted_events r c s n (b : PmBench (W := W)) : pm_events (pm_paint r c s n b) = pm_events b ++ [Painted r c s n].
Proof. reflexivity. Qed.

Lemma finish_events (b : PmBench (W := W)) : handoff_drive <> 1 /\ handoff_drive <> 2 ->
  exists b' es, pm_finish handoff_drive sector_addr b = Some b' /\ pm_events b' = pm_events b ++ es /\
    safe false es = true /\ wrote es = [] /\ pm_out b' = jw_flush sector_addr (pm_out b).
Proof.
  intros [Hd1 Hd2]. unfold pm_finish. rewrite (proj2 (Z.eqb_neq _ _) Hd1), (proj2 (Z.eqb_neq _ _) Hd2). cbn [orb].
  eexists _, _. split; [reflexivity|]. rewrite !painted_events.
  change (pm_events (pm_flush sector_addr ?x)) with (pm_events x). rewrite painted_events.
  change (pm_events (pm_event Cleared b)) with (pm_events b ++ [Cleared]). rewrite <- !app_assoc.
  split; [reflexivity|]. split; [reflexivity|]. split; reflexivity.
Qed.

(** What the runner has done when it ends, with [n] lines. *)
Definition ended (w : W) (n : nat) (b : PmBench (W := W)) : Prop :=
  safe false (pm_events b) = true /\ length (wrote (pm_events b)) = n /\
  pm_out b = jw_flush sector_addr (jw_run sector_addr (concat (wrote (pm_events b)))
    (jw_init (pm_ctx handoff_refnum handoff_drive results_offset results_max_bytes), w)).

(** Where the runner is after [n] lines. *)
Definition reached (w : W) (n : nat) (b : PmBench (W := W)) : Prop :=
  safe false (pm_events b) = true /\ length (wrote (pm_events b)) = n /\
  pm_out b = jw_run sector_addr (concat (wrote (pm_events b)))
    (jw_init (pm_ctx handoff_refnum handoff_drive results_offset results_max_bytes), w).

Lemma reached_adds w n k b b' es :
  reached w n b -> Adds b b' es -> safe false es = true -> length (wrote es) = k -> reached w (n + k) b'.
Proof.
  intros (Hs & Hn & Ho) [E O] Hse Hk. unfold reached. rewrite E, O, Ho, wrote_app, concat_app, length_app, Hn, Hk.
  split; [by apply safe_snoc|]. split; [done|]. by rewrite jw_run_app.
Qed.

Lemma reached_start m w :
  reached w 2 (pm_start L handoff_refnum handoff_drive results_offset results_max_bytes sector_addr invoke full m w).
Proof.
  destruct (adds_start m w) as (es & Ha & Hs & Hw). refine (reached_adds w 0 2 _ _ es _ Ha Hs Hw).
  split; [reflexivity|]. split; reflexivity.
Qed.

Lemma reached_probe w n b : reached w n b -> reached w n (mmu_identity_probe L invoke b).2.
Proof.
  intros Hb. rewrite <- (Nat.add_0_r n). refine (reached_adds w n 0 _ _ _ Hb (adds_probe b) _ eq_refl).
  cbn [safe]. by rewrite rom_on_probe.
Qed.

Lemma reached_shown w n b r c s k ops : reached w n b -> reached w (n + 1) (pm_write sector_addr ops (pm_paint r c s k b)).
Proof.
  intros Hb. refine (reached_adds w n 1 _ _ _ Hb (adds_trans _ _ _ _ _ (adds_paint r c s k b) (adds_write ops _)) eq_refl eq_refl).
Qed.

Lemma reached_all w n b ts : reached w n b -> reached w (n + length ts) (pm_all L sector_addr invoke full 0 ts b).
Proof. intros Hb. destruct (adds_all ts 0 b) as (es & Ha & Hs & Hw). exact (reached_adds w n _ _ _ es Hb Ha Hs Hw). Qed.

Lemma ended_flush w n b : reached w n b -> ended w n (pm_flush sector_addr b).
Proof. intros (Hs & Hn & Ho). split; [exact Hs|]. split; [exact Hn|]. cbn [pm_out pm_flush modify_field]. by rewrite Ho. Qed.

Lemma ended_finish w n b : handoff_drive <> 1 /\ handoff_drive <> 2 -> reached w n b ->
  exists b', pm_finish handoff_drive sector_addr b = Some b' /\ ended w n b'.
Proof.
  intros Hd (Hs & Hn & Ho). destruct (finish_events b Hd) as (b' & es & E & Ee & Se & We & Oe). exists b'. split; [exact E|].
  unfold ended. rewrite Ee, wrote_app, We, app_nil_r. split; [by apply safe_snoc|]. split; [exact Hn|]. by rewrite Oe, Ho.
Qed.


End Trace.
