(* ===== verification/PmmuTests.v ===== *)
(** * The corpus of the PMMU bench (gen/pmmu_tests.h)

    The forty tests that the runner of [PmmuBench] goes through, row by row as they are in
    the file, and what the runner takes for granted about them ([pmmu_rows_typed]). *)

From S2P Require Import Prelude Toolbox Preboot DiskCopy StepTests CpuBench CpuRun PmmuBench.

Definition plants (l : list (Z * Z)) : list PmmuPlant := (fun p => MkPmmuPlant p.1 p.2) <$> l.

(** Moves to and from the registers of the unit. *)
Definition pmove_tests : list PmmuTestSpec := [
  MkPmmuTestSpec (text "PMOVE TC w/r (4K geometry, E=0)")
    [0xF0; 0x39; 0x40; 0x0; 0x0; 0x0; 0x18; 0x0; 0xF0; 0x39; 0x42; 0x0; 0x0; 0x0; 0x18; 0x20]
    (plants [(0x1800, 0xC08840)])
    [0xD0000000; 0xD1010101; 0xD2020202; 0xD3030303; 0xD4040404; 0xD5050505; 0xD6060606; 0xD7070707]
    [0x1800; 0xA1010101; 0xA2020202; 0xA3030303; 0xA4040404; 0xA5050505; 0xA6060606; 0x80000]
    0xC08840 0x0 0x0 0x7FFF0002 0x3000 0x7FFF0002 0x4000 true false false false;
  MkPmmuTestSpec (text "PMOVE TC w/r (256B pages, E=0)")
    [0xF0; 0x39; 0x40; 0x0; 0x0; 0x0; 0x18; 0x0; 0xF0; 0x39; 0x42; 0x0; 0x0; 0x0; 0x18; 0x20]
    (plants [(0x1800, 0x808880)])
    [0xD0000000; 0xD1010101; 0xD2020202; 0xD3030303; 0xD4040404; 0xD5050505; 0xD6060606; 0xD7070707]
    [0x1800; 0xA1010101; 0xA2020202; 0xA3030303; 0xA4040404; 0xA5050505; 0xA6060606; 0x80000]
    0xC08840 0x0 0x0 0x7FFF0002 0x3000 0x7FFF0002 0x4000 true false false false;
  MkPmmuTestSpec (text "PMOVE TC w/r (SRE=1, E=0)")
    [0xF0; 0x39; 0x40; 0x0; 0x0; 0x0; 0x18; 0x0; 0xF0; 0x39; 0x42; 0x0; 0x0; 0x0; 0x18; 0x20]
    (plants [(0x1800, 0x2C08840)])
    [0xD0000000; 0xD1010101; 0xD2020202; 0xD3030303; 0xD4040404; 0xD5050505; 0xD6060606; 0xD7070707]
    [0x1800; 0xA1010101; 0xA2020202; 0xA3030303; 0xA4040404; 0xA5050505; 0xA6060606; 0x80000]
    0xC08840 0x0 0x0 0x7FFF0002 0x3000 0x7FFF0002 0x4000 true false false false;
  MkPmmuTestSpec (text "PMOVE TC w/r (FCL=1, E=0)")
    [0xF0; 0x39; 0x40; 0x0; 0x0; 0x0; 0x18; 0x0; 0xF0; 0x39; 0x42; 0x0; 0x0; 0x0; 0x18; 0x20]
    (plants [(0x1800, 0x1C08840)])
    [0xD0000000; 0xD1010101; 0xD2020202; 0xD3030303; 0xD4040404; 0xD5050505; 0xD6060606; 0xD7070707]
    [0x1800; 0xA1010101; 0xA2020202; 0xA3030303; 0xA4040404; 0xA5050505; 0xA6060606; 0x80000]
    0xC08840 0x0 0x0 0x7FFF0002 0x3000 0x7FFF0002 0x4000 true false false false;
  MkPmmuTestSpec (text "PMOVE TC w/r (zero)")
    [0xF0; 0x39; 0x40; 0x0; 0x0; 0x0; 0x18; 0x0; 0xF0; 0x39; 0x42; 0x0; 0x0; 0x0; 0x18; 0x20]
    (plants [(0x1800, 0x0)])
    [0xD0000000; 0xD1010101; 0xD2020202; 0xD3030303; 0xD4040404; 0xD5050505; 0xD6060606; 0xD7070707]
    [0x1800; 0xA1010101; 0xA2020202; 0xA3030303; 0xA4040404; 0xA5050505; 0xA6060606; 0x80000]
    0xC08840 0x0 0x0 0x7FFF0002 0x3000 0x7FFF0002 0x4000 true false false false;
  MkPmmuTestSpec (text "PMOVE TT0 w/r (disabled)")
    [0xF0; 0x39; 0x8; 0x0; 0x0; 0x0; 0x18; 0x0; 0xF0; 0x39; 0xA; 0x0; 0x0; 0x0; 0x18; 0x20]
    (plants [(0x1800, 0x12340000)])
    [0xD0000000; 0xD1010101; 0xD2020202; 0xD3030303; 0xD4040404; 0xD5050505; 0xD6060606; 0xD7070707]
    [0x1800; 0xA1010101; 0xA2020202; 0xA3030303; 0xA4040404; 0xA5050505; 0xA6060606; 0x80000]
    0xC08840 0x0 0x0 0x7FFF0002 0x3000 0x7FFF0002 0x4000 true false false false;
  MkPmmuTestSpec (text "PMOVE TT0 w/r (enabled, match-all)")
    [0xF0; 0x39; 0x8; 0x0; 0x0; 0x0; 0x18; 0x0; 0xF0; 0x39; 0xA; 0x0; 0x0; 0x0; 0x18; 0x20]
    (plants [(0x1800, 0xFF8777)])
    [0xD0000000; 0xD1010101; 0xD2020202; 0xD3030303; 0xD4040404; 0xD5050505; 0xD6060606; 0xD7070707]
    [0x1800; 0xA1010101; 0xA2020202; 0xA3030303; 0xA4040404; 0xA5050505; 0xA6060606; 0x80000]
    0xC08840 0x0 0x0 0x7FFF0002 0x3000 0x7FFF0002 0x4000 true false false false;
  MkPmmuTestSpec (text "PMOVE TT1 w/r (disabled)")
    [0xF0; 0x39; 0xC; 0x0; 0x0; 0x0; 0x18; 0x0; 0xF0; 0x39; 0xE; 0x0; 0x0; 0x0; 0x18; 0x20]
    (plants [(0x1800, 0x56780000)])
    [0xD0000000; 0xD1010101; 0xD2020202; 0xD3030303; 0xD4040404; 0xD5050505; 0xD6060606; 0xD7070707]
    [0x1800; 0xA1010101; 0xA2020202; 0xA3030303; 0xA4040404; 0xA5050505; 0xA6060606; 0x80000]
    0xC08840 0x0 0x0 0x7FFF0002 0x3000 0x7FFF0002 0x4000 true false false false;
  MkPmmuTestSpec (text "PMOVE TT1 w/r (enabled, match-all)")
    [0xF0; 0x39; 0xC; 0x0; 0x0; 0x0; 0x18; 0x0; 0xF0; 0x39; 0xE; 0x0; 0x0; 0x0; 0x18; 0x20]
    (plants [(0x1800, 0xFF8777)])
    [0xD0000000; 0xD1010101; 0xD2020202; 0xD3030303; 0xD4040404; 0xD5050505; 0xD6060606; 0xD7070707]
    [0x1800; 0xA1010101; 0xA2020202; 0xA3030303; 0xA4040404; 0xA5050505; 0xA6060606; 0x80000]
    0xC08840 0x0 0x0 0x7FFF0002 0x3000 0x7FFF0002 0x4000 true false false false;
  MkPmmuTestSpec (text "PMOVE CRP w/r (DT=2 short table)")
    [0xF0; 0x39; 0x4C; 0x0; 0x0; 0x0; 0x18; 0x0; 0xF0; 0x39; 0x4E; 0x0; 0x0; 0x0; 0x18; 0x20]
    (plants [(0x1800, 0x7FFF0002); (0x1804, 0x3000)])
    [0xD0000000; 0xD1010101; 0xD2020202; 0xD3030303; 0xD4040404; 0xD5050505; 0xD6060606; 0xD7070707]
    [0x1800; 0xA1010101; 0xA2020202; 0xA3030303; 0xA4040404; 0xA5050505; 0xA6060606; 0x80000]
    0xC08840 0x0 0x0 0x7FFF0002 0x3000 0x7FFF0002 0x4000 true false false false;
  MkPmmuTestSpec (text "PMOVE CRP w/r (DT=1 early term)")
    [0xF0; 0x39; 0x4C; 0x0; 0x0; 0x0; 0x18; 0x0; 0xF0; 0x39; 0x4E; 0x0; 0x0; 0x0; 0x18; 0x20]
    (plants [(0x1800, 0x7FFF0001); (0x1804, 0x0)])
    [0xD0000000; 0xD1010101; 0xD2020202; 0xD3030303; 0xD4040404; 0xD5050505; 0xD6060606; 0xD7070707]
    [0x1800; 0xA1010101; 0xA2020202; 0xA3030303; 0xA4040404; 0xA5050505; 0xA6060606; 0x80000]
    0xC08840 0x0 0x0 0x7FFF0002 0x3000 0x7FFF0002 0x4000 true false false false;
  MkPmmuTestSpec (text "PMOVE CRP w/r (DT=3 long table)")
    [0xF0; 0x39; 0x4C; 0x0; 0x0; 0x0; 0x18; 0x0; 0xF0; 0x39; 0x4E; 0x0; 0x0; 0x0; 0x18; 0x20]
    (plants [(0x1800, 0x7FFF0003); (0x1804, 0x3000)])
    [0xD0000000; 0xD1010101; 0xD2020202; 0xD3030303; 0xD4040404; 0xD5050505; 0xD6060606; 0xD7070707]
    [0x1800; 0xA1010101; 0xA2020202; 0xA3030303; 0xA4040404; 0xA5050505; 0xA6060606; 0x80000]
    0xC08840 0x0 0x0 0x7FFF0002 0x3000 0x7FFF0002 0x4000 true false false false;
  MkPmmuTestSpec (text "PMOVE CRP w/r (lower limit L/U=1)")
    [0xF0; 0x39; 0x4C; 0x0; 0x0; 0x0; 0x18; 0x0; 0xF0; 0x39; 0x4E; 0x0; 0x0; 0x0; 0x18; 0x20]
    (plants [(0x1800, 0x80010002); (0x1804, 0x3000)])
    [0xD0000000; 0xD1010101; 0xD2020202; 0xD3030303; 0xD4040404; 0xD5050505; 0xD6060606; 0xD7070707]
    [0x1800; 0xA1010101; 0xA2020202; 0xA3030303; 0xA4040404; 0xA5050505; 0xA6060606; 0x80000]
    0xC08840 0x0 0x0 0x7FFF0002 0x3000 0x7FFF0002 0x4000 true false false false;
  MkPmmuTestSpec (text "PMOVE SRP w/r (DT=2 short table)")
    [0xF0; 0x39; 0x48; 0x0; 0x0; 0x0; 0x18; 0x0; 0xF0; 0x39; 0x4A; 0x0; 0x0; 0x0; 0x18; 0x20]
    (plants [(0x1800, 0x7FFF0002); (0x1804, 0x4000)])
    [0xD0000000; 0xD1010101; 0xD2020202; 0xD3030303; 0xD4040404; 0xD5050505; 0xD6060606; 0xD7070707]
    [0x1800; 0xA1010101; 0xA2020202; 0xA3030303; 0xA4040404; 0xA5050505; 0xA6060606; 0x80000]
    0xC08840 0x0 0x0 0x7FFF0002 0x3000 0x7FFF0002 0x4000 true false false false;
  MkPmmuTestSpec (text "PMOVE SRP w/r (DT=1 early term)")
    [0xF0; 0x39; 0x48; 0x0; 0x0; 0x0; 0x18; 0x0; 0xF0; 0x39; 0x4A; 0x0; 0x0; 0x0; 0x18; 0x20]
    (plants [(0x1800, 0x7FFF0001); (0x1804, 0x0)])
    [0xD0000000; 0xD1010101; 0xD2020202; 0xD3030303; 0xD4040404; 0xD5050505; 0xD6060606; 0xD7070707]
    [0x1800; 0xA1010101; 0xA2020202; 0xA3030303; 0xA4040404; 0xA5050505; 0xA6060606; 0x80000]
    0xC08840 0x0 0x0 0x7FFF0002 0x3000 0x7FFF0002 0x4000 true false false false;
  MkPmmuTestSpec (text "PMOVE PSR w/r (write $FFFF)")
    [0xF0; 0x39; 0x60; 0x0; 0x0; 0x0; 0x18; 0x0; 0xF0; 0x39; 0x62; 0x0; 0x0; 0x0; 0x18; 0x20]
    (plants [(0x1800, 0xFFFF0000)])
    [0xD0000000; 0xD1010101; 0xD2020202; 0xD3030303; 0xD4040404; 0xD5050505; 0xD6060606; 0xD7070707]
    [0x1800; 0xA1010101; 0xA2020202; 0xA3030303; 0xA4040404; 0xA5050505; 0xA6060606; 0x80000]
    0xC08840 0x0 0x0 0x7FFF0002 0x3000 0x7FFF0002 0x4000 true false false false].

(** Flushes, loads and tests of the translation cache. *)
Definition walk_tests : list PmmuTestSpec := [
  MkPmmuTestSpec (text "PFLUSHA")
    [0xF0; 0x0; 0x24; 0x0]
    (plants [(0x3000, 0x1); (0x4000, 0x1)])
    [0xD0000000; 0xD1010101; 0xD2020202; 0xD3030303; 0xD4040404; 0xD5050505; 0xD6060606; 0xD7070707]
    [0x1800; 0xA1010101; 0xA2020202; 0xA3030303; 0xA4040404; 0xA5050505; 0xA6060606; 0x80000]
    0xC08840 0x0 0x0 0x7FFF0002 0x3000 0x7FFF0002 0x4000 true false false false;
  MkPmmuTestSpec (text "PFLUSH #5,#7")
    [0xF0; 0x0; 0x30; 0xF5]
    (plants [(0x3000, 0x1); (0x4000, 0x1)])
    [0xD0000000; 0xD1010101; 0xD2020202; 0xD3030303; 0xD4040404; 0xD5050505; 0xD6060606; 0xD7070707]
    [0x1800; 0xA1010101; 0xA2020202; 0xA3030303; 0xA4040404; 0xA5050505; 0xA6060606; 0x80000]
    0xC08840 0x0 0x0 0x7FFF0002 0x3000 0x7FFF0002 0x4000 true false false false;
  MkPmmuTestSpec (text "PFLUSH #1,#7,(A0)")
    [0xF0; 0x10; 0x38; 0xF1]
    (plants [(0x3000, 0x1); (0x4000, 0x1)])
    [0xD0000000; 0xD1010101; 0xD2020202; 0xD3030303; 0xD4040404; 0xD5050505; 0xD6060606; 0xD7070707]
    [0x1800; 0xA1010101; 0xA2020202; 0xA3030303; 0xA4040404; 0xA5050505; 0xA6060606; 0x80000]
    0xC08840 0x0 0x0 0x7FFF0002 0x3000 0x7FFF0002 0x4000 true false false false;
  MkPmmuTestSpec (text "PLOADW #5,(A0) early-term (U-bit in ROOT[0])")
    [0xF0; 0x10; 0x20; 0x15]
    (plants [(0x3000, 0x1); (0x4000, 0x1)])
    [0xD0000000; 0xD1010101; 0xD2020202; 0xD3030303; 0xD4040404; 0xD5050505; 0xD6060606; 0xD7070707]
    [0x1800; 0xA1010101; 0xA2020202; 0xA3030303; 0xA4040404; 0xA5050505; 0xA6060606; 0x80000]
    0xC08840 0x0 0x0 0x7FFF0002 0x3000 0x7FFF0002 0x4000 true false false false;
  MkPmmuTestSpec (text "PLOADR #5,(A0) 3-level (U-bits down the walk)")
    [0xF0; 0x10; 0x22; 0x15]
    (plants [(0x3000, 0x3102); (0x3100, 0x3202); (0x311C, 0x70001); (0x4000, 0x1); (0x3200, 0x1); (0x3204, 0x1001);
      (0x3208, 0x2001); (0x320C, 0x3001); (0x3210, 0x4001); (0x3214, 0x5001); (0x3218, 0x6001); (0x321C, 0x7001);
      (0x3220, 0x8001); (0x3224, 0x9001); (0x3228, 0xA001); (0x322C, 0xB001); (0x3230, 0xC001); (0x3234, 0xD001);
      (0x3238, 0xE001); (0x323C, 0xF001)])
    [0xD0000000; 0xD1010101; 0xD2020202; 0xD3030303; 0xD4040404; 0xD5050505; 0xD6060606; 0xD7070707]
    [0x1800; 0xA1010101; 0xA2020202; 0xA3030303; 0xA4040404; 0xA5050505; 0xA6060606; 0x80000]
    0xC08840 0x0 0x0 0x7FFF0002 0x3000 0x7FFF0002 0x4000 true false false false;
  MkPmmuTestSpec (text "PTESTR #5,(A0),#7 early-term (N=1)")
    [0xF0; 0x10; 0x9E; 0x15]
    (plants [(0x3000, 0x1); (0x4000, 0x1)])
    [0xD0000000; 0xD1010101; 0xD2020202; 0xD3030303; 0xD4040404; 0xD5050505; 0xD6060606; 0xD7070707]
    [0x1800; 0x0; 0xA2020202; 0xA3030303; 0xA4040404; 0xA5050505; 0xA6060606; 0x80000]
    0xC08840 0x0 0x0 0x7FFF0002 0x3000 0x7FFF0002 0x4000 true false false false;
  MkPmmuTestSpec (text "PTESTR #5,(A0),#0 (ATC probe, empty)")
    [0xF0; 0x10; 0x82; 0x15]
    (plants [(0x3000, 0x1); (0x4000, 0x1)])
    [0xD0000000; 0xD1010101; 0xD2020202; 0xD3030303; 0xD4040404; 0xD5050505; 0xD6060606; 0xD7070707]
    [0x1800; 0x0; 0xA2020202; 0xA3030303; 0xA4040404; 0xA5050505; 0xA6060606; 0x80000]
    0xC08840 0x0 0x0 0x7FFF0002 0x3000 0x7FFF0002 0x4000 true false false false;
  MkPmmuTestSpec (text "PTESTW #5,(A0),#7 early-term")
    [0xF0; 0x10; 0x9C; 0x15]
    (plants [(0x3000, 0x1); (0x4000, 0x1)])
    [0xD0000000; 0xD1010101; 0xD2020202; 0xD3030303; 0xD4040404; 0xD5050505; 0xD6060606; 0xD7070707]
    [0x1800; 0x0; 0xA2020202; 0xA3030303; 0xA4040404; 0xA5050505; 0xA6060606; 0x80000]
    0xC08840 0x0 0x0 0x7FFF0002 0x3000 0x7FFF0002 0x4000 true false false false;
  MkPmmuTestSpec (text "PTESTR #5,(A0),#7 3-level (N=3)")
    [0xF0; 0x10; 0x9E; 0x15]
    (plants [(0x3000, 0x3102); (0x3100, 0x3202); (0x311C, 0x70001); (0x4000, 0x1); (0x3200, 0x1); (0x3204, 0x1001);
      (0x3208, 0x2001); (0x320C, 0x3001); (0x3210, 0x4001); (0x3214, 0x5001); (0x3218, 0x6001); (0x321C, 0x7001);
      (0x3220, 0x8001); (0x3224, 0x9001); (0x3228, 0xA001); (0x322C, 0xB001); (0x3230, 0xC001); (0x3234, 0xD001);
      (0x3238, 0xE001); (0x323C, 0xF001)])
    [0xD0000000; 0xD1010101; 0xD2020202; 0xD3030303; 0xD4040404; 0xD5050505; 0xD6060606; 0xD7070707]
    [0x1800; 0x0; 0xA2020202; 0xA3030303; 0xA4040404; 0xA5050505; 0xA6060606; 0x80000]
    0xC08840 0x0 0x0 0x7FFF0002 0x3000 0x7FFF0002 0x4000 true false false false;
  MkPmmuTestSpec (text "PTESTR #5,(A0),#7,A1 phys writeback")
    [0xF0; 0x10; 0x9F; 0x35]
    (plants [(0x3000, 0x3102); (0x3100, 0x3202); (0x311C, 0x70001); (0x4000, 0x1); (0x3200, 0x1); (0x3204, 0x1001);
      (0x3208, 0x2001); (0x320C, 0x3001); (0x3210, 0x4001); (0x3214, 0x5001); (0x3218, 0x6001); (0x321C, 0x7001);
      (0x3220, 0x8001); (0x3224, 0x9001); (0x3228, 0xA001); (0x322C, 0xB001); (0x3230, 0xC001); (0x3234, 0xD001);
      (0x3238, 0xE001); (0x323C, 0xF001)])
    [0xD0000000; 0xD1010101; 0xD2020202; 0xD3030303; 0xD4040404; 0xD5050505; 0xD6060606; 0xD7070707]
    [0x1800; 0x0; 0xA2020202; 0xA3030303; 0xA4040404; 0xA5050505; 0xA6060606; 0x80000]
    0xC08840 0x0 0x0 0x7FFF0002 0x3000 0x7FFF0002 0x4000 true false false false;
  MkPmmuTestSpec (text "PTESTW #5,(A0),#7 write-protected page (W)")
    [0xF0; 0x10; 0x9C; 0x15]
    (plants [(0x3000, 0x3102); (0x3100, 0x3202); (0x311C, 0x70001); (0x4000, 0x1); (0x3200, 0x1); (0x3204, 0x1001);
      (0x3208, 0x2001); (0x320C, 0x3001); (0x3210, 0x4001); (0x3214, 0x5001); (0x3218, 0x6001); (0x321C, 0x7001);
      (0x3220, 0x9005); (0x3224, 0x9001); (0x3228, 0xA001); (0x322C, 0xB001); (0x3230, 0xC001); (0x3234, 0xD001);
      (0x3238, 0xE001); (0x323C, 0xF001)])
    [0xD0000000; 0xD1010101; 0xD2020202; 0xD3030303; 0xD4040404; 0xD5050505; 0xD6060606; 0xD7070707]
    [0x8010; 0x0; 0xA2020202; 0xA3030303; 0xA4040404; 0xA5050505; 0xA6060606; 0x80000]
    0xC08840 0x0 0x0 0x7FFF0002 0x3000 0x7FFF0002 0x4000 true false false false;
  MkPmmuTestSpec (text "PTESTR #5,(A0),#7 invalid descriptor (I)")
    [0xF0; 0x10; 0x9E; 0x15]
    (plants [(0x3000, 0x3102); (0x3100, 0x3202); (0x311C, 0x70001); (0x4000, 0x1); (0x3200, 0x1); (0x3204, 0x1001);
      (0x3208, 0x2001); (0x320C, 0x3001); (0x3210, 0x4001); (0x3214, 0x5001); (0x3218, 0x6001); (0x321C, 0x7001);
      (0x3220, 0x8001); (0x3224, 0x9001); (0x3228, 0xA001); (0x322C, 0x0); (0x3230, 0xC001); (0x3234, 0xD001);
      (0x3238, 0xE001); (0x323C, 0xF001)])
    [0xD0000000; 0xD1010101; 0xD2020202; 0xD3030303; 0xD4040404; 0xD5050505; 0xD6060606; 0xD7070707]
    [0xB010; 0x0; 0xA2020202; 0xA3030303; 0xA4040404; 0xA5050505; 0xA6060606; 0x80000]
    0xC08840 0x0 0x0 0x7FFF0002 0x3000 0x7FFF0002 0x4000 true false false false;
  MkPmmuTestSpec (text "PTESTR #5,(A0),#7 root limit violation (L)")
    [0xF0; 0x10; 0x9E; 0x15]
    (plants [(0x3000, 0x1); (0x4000, 0x1)])
    [0xD0000000; 0xD1010101; 0xD2020202; 0xD3030303; 0xD4040404; 0xD5050505; 0xD6060606; 0xD7070707]
    [0x1000000; 0x0; 0xA2020202; 0xA3030303; 0xA4040404; 0xA5050505; 0xA6060606; 0x80000]
    0xC08840 0x0 0x0 0x2 0x3000 0x7FFF0002 0x4000 true false false false;
  MkPmmuTestSpec (text "PTESTR #5,(A0),#7 through TT0 (T)")
    [0xF0; 0x10; 0x9E; 0x15]
    (plants [(0x3000, 0x1); (0x4000, 0x1)])
    [0xD0000000; 0xD1010101; 0xD2020202; 0xD3030303; 0xD4040404; 0xD5050505; 0xD6060606; 0xD7070707]
    [0x1800; 0x0; 0xA2020202; 0xA3030303; 0xA4040404; 0xA5050505; 0xA6060606; 0x80000]
    0xC08840 0xFF8777 0x0 0x7FFF0002 0x3000 0x7FFF0002 0x4000 true false false false;
  MkPmmuTestSpec (text "PTESTR #5,(A0),#7 long-format root (DT=3)")
    [0xF0; 0x10; 0x9E; 0x15]
    (plants [(0x3000, 0x7FFF0001); (0x3004, 0x0); (0x4000, 0x1)])
    [0xD0000000; 0xD1010101; 0xD2020202; 0xD3030303; 0xD4040404; 0xD5050505; 0xD6060606; 0xD7070707]
    [0x1800; 0x0; 0xA2020202; 0xA3030303; 0xA4040404; 0xA5050505; 0xA6060606; 0x80000]
    0xC08840 0x0 0x0 0x7FFF0003 0x3000 0x7FFF0002 0x4000 true false false false;
  MkPmmuTestSpec (text "PTESTR #5,(A0),#7 via SRP (SRE=1, WP marks SRP path)")
    [0xF0; 0x10; 0x9E; 0x15]
    (plants [(0x3000, 0x1); (0x4000, 0x5)])
    [0xD0000000; 0xD1010101; 0xD2020202; 0xD3030303; 0xD4040404; 0xD5050505; 0xD6060606; 0xD7070707]
    [0x1800; 0x0; 0xA2020202; 0xA3030303; 0xA4040404; 0xA5050505; 0xA6060606; 0x80000]
    0x2C08840 0x0 0x0 0x7FFF0002 0x3000 0x7FFF0002 0x4000 true false false false].

(** Stores and loads while the translation is on, and its faults. *)
Definition live_tests : list PmmuTestSpec := [
  MkPmmuTestSpec (text "LIVE identity store (early-term map)")
    [0xF0; 0x39; 0x40; 0x0; 0x0; 0x0; 0x18; 0x8; 0x23; 0xC1; 0x0; 0x0; 0x18; 0x30; 0xF0; 0x39; 0x40; 0x0; 0x0; 0x0; 0x17; 0xF8]
    (plants [(0x3000, 0x1); (0x4000, 0x1); (0x1808, 0x80C08840)])
    [0xD0000000; 0xCAFED00D; 0xD2020202; 0xD3030303; 0xD4040404; 0xD5050505; 0xD6060606; 0xD7070707]
    [0x1800; 0xA1010101; 0xA2020202; 0xA3030303; 0xA4040404; 0xA5050505; 0xA6060606; 0x80000]
    0xC08840 0x0 0x0 0x7FFF0002 0x3000 0x7FFF0002 0x4000 true true false true;
  MkPmmuTestSpec (text "LIVE remap store: va $8010 -> pa $9010 (M-bit in LEVC[8])")
    [0xF0; 0x39; 0x40; 0x0; 0x0; 0x0; 0x18; 0x8; 0x23; 0xC1; 0x0; 0x0; 0x80; 0x10; 0xF0; 0x39; 0x40; 0x0; 0x0; 0x0; 0x17; 0xF8]
    (plants [(0x3000, 0x3102); (0x3100, 0x3202); (0x311C, 0x70001); (0x4000, 0x1); (0x3200, 0x1); (0x3204, 0x1001);
      (0x3208, 0x2001); (0x320C, 0x3001); (0x3210, 0x4001); (0x3214, 0x5001); (0x3218, 0x6001); (0x321C, 0x7001);
      (0x3220, 0x9001); (0x3224, 0x9001); (0x3228, 0xA001); (0x322C, 0xB001); (0x3230, 0xC001); (0x3234, 0xD001);
      (0x3238, 0xE001); (0x323C, 0xF001); (0x1808, 0x80C08840)])
    [0xD0000000; 0xFEEDC0DE; 0xD2020202; 0xD3030303; 0xD4040404; 0xD5050505; 0xD6060606; 0xD7070707]
    [0x1800; 0xA1010101; 0xA2020202; 0xA3030303; 0xA4040404; 0xA5050505; 0xA6060606; 0x80000]
    0xC08840 0x0 0x0 0x7FFF0002 0x3000 0x7FFF0002 0x4000 true true false true;
  MkPmmuTestSpec (text "LIVE remap load: va $8020 reads pa $9020 (U-bit, M clear)")
    [0xF0; 0x39; 0x40; 0x0; 0x0; 0x0; 0x18; 0x8; 0x24; 0x39; 0x0; 0x0; 0x80; 0x20; 0xF0; 0x39; 0x40; 0x0; 0x0; 0x0; 0x17; 0xF8]
    (plants [(0x3000, 0x3102); (0x3100, 0x3202); (0x311C, 0x70001); (0x4000, 0x1); (0x3200, 0x1); (0x3204, 0x1001);
      (0x3208, 0x2001); (0x320C, 0x3001); (0x3210, 0x4001); (0x3214, 0x5001); (0x3218, 0x6001); (0x321C, 0x7001);
      (0x3220, 0x9001); (0x3224, 0x9001); (0x3228, 0xA001); (0x322C, 0xB001); (0x3230, 0xC001); (0x3234, 0xD001);
      (0x3238, 0xE001); (0x323C, 0xF001); (0x9020, 0xCAFEBABE); (0x1808, 0x80C08840)])
    [0xD0000000; 0xD1010101; 0x0; 0xD3030303; 0xD4040404; 0xD5050505; 0xD6060606; 0xD7070707]
    [0x1800; 0xA1010101; 0xA2020202; 0xA3030303; 0xA4040404; 0xA5050505; 0xA6060606; 0x80000]
    0xC08840 0x0 0x0 0x7FFF0002 0x3000 0x7FFF0002 0x4000 true true false true;
  MkPmmuTestSpec (text "LIVE ATC stale: edit LEVC[8] without PFLUSH, store again")
    [0xF0; 0x39; 0x40; 0x0; 0x0; 0x0; 0x18; 0x8; 0x23; 0xC1; 0x0; 0x0; 0x80; 0x10; 0x23; 0xFC; 0x0; 0x0; 0xA0; 0x1; 0x0; 0x0; 0x32; 0x20; 0x23; 0xC2; 0x0; 0x0; 0x80; 0x14; 0xF0; 0x39; 0x40; 0x0; 0x0; 0x0; 0x17; 0xF8]
    (plants [(0x3000, 0x3102); (0x3100, 0x3202); (0x311C, 0x70001); (0x4000, 0x1); (0x3200, 0x1); (0x3204, 0x1001);
      (0x3208, 0x2001); (0x320C, 0x3001); (0x3210, 0x4001); (0x3214, 0x5001); (0x3218, 0x6001); (0x321C, 0x7001);
      (0x3220, 0x9001); (0x3224, 0x9001); (0x3228, 0xA001); (0x322C, 0xB001); (0x3230, 0xC001); (0x3234, 0xD001);
      (0x3238, 0xE001); (0x323C, 0xF001); (0x1808, 0x80C08840)])
    [0xD0000000; 0x11111111; 0x22222222; 0xD3030303; 0xD4040404; 0xD5050505; 0xD6060606; 0xD7070707]
    [0x1800; 0xA1010101; 0xA2020202; 0xA3030303; 0xA4040404; 0xA5050505; 0xA6060606; 0x80000]
    0xC08840 0x0 0x0 0x7FFF0002 0x3000 0x7FFF0002 0x4000 true true false true;
  MkPmmuTestSpec (text "LIVE ATC flush: edit LEVC[8] + PFLUSHA, store goes to new pa")
    [0xF0; 0x39; 0x40; 0x0; 0x0; 0x0; 0x18; 0x8; 0x23; 0xC1; 0x0; 0x0; 0x80; 0x10; 0x23; 0xFC; 0x0; 0x0; 0xA0; 0x1; 0x0; 0x0; 0x32; 0x20; 0xF0; 0x0; 0x24; 0x0; 0x23; 0xC2; 0x0; 0x0; 0x80; 0x14; 0xF0; 0x39; 0x40; 0x0; 0x0; 0x0; 0x17; 0xF8]
    (plants [(0x3000, 0x3102); (0x3100, 0x3202); (0x311C, 0x70001); (0x4000, 0x1); (0x3200, 0x1); (0x3204, 0x1001);
      (0x3208, 0x2001); (0x320C, 0x3001); (0x3210, 0x4001); (0x3214, 0x5001); (0x3218, 0x6001); (0x321C, 0x7001);
      (0x3220, 0x9001); (0x3224, 0x9001); (0x3228, 0xA001); (0x322C, 0xB001); (0x3230, 0xC001); (0x3234, 0xD001);
      (0x3238, 0xE001); (0x323C, 0xF001); (0x1808, 0x80C08840)])
    [0xD0000000; 0x33333333; 0x44444444; 0xD3030303; 0xD4040404; 0xD5050505; 0xD6060606; 0xD7070707]
    [0x1800; 0xA1010101; 0xA2020202; 0xA3030303; 0xA4040404; 0xA5050505; 0xA6060606; 0x80000]
    0xC08840 0x0 0x0 0x7FFF0002 0x3000 0x7FFF0002 0x4000 true true false true;
  MkPmmuTestSpec (text "FAULT store to invalid page (berr, frame on stack)")
    [0xF0; 0x39; 0x40; 0x0; 0x0; 0x0; 0x18; 0x8; 0x23; 0xC1; 0x0; 0x0; 0xB0; 0x10; 0xF0; 0x39; 0x40; 0x0; 0x0; 0x0; 0x17; 0xF8]
    (plants [(0x3000, 0x3102); (0x3100, 0x3202); (0x311C, 0x70001); (0x4000, 0x1); (0x3200, 0x1); (0x3204, 0x1001);
      (0x3208, 0x2001); (0x320C, 0x3001); (0x3210, 0x4001); (0x3214, 0x5001); (0x3218, 0x6001); (0x321C, 0x7001);
      (0x3220, 0x8001); (0x3224, 0x9001); (0x3228, 0xA001); (0x322C, 0x0); (0x3230, 0xC001); (0x3234, 0xD001);
      (0x3238, 0xE001); (0x323C, 0xF001); (0x1808, 0x80C08840)])
    [0xD0000000; 0x55555555; 0xD2020202; 0xD3030303; 0xD4040404; 0xD5050505; 0xD6060606; 0xD7070707]
    [0x1800; 0xA1010101; 0xA2020202; 0xA3030303; 0xA4040404; 0xA5050505; 0xA6060606; 0x80000]
    0xC08840 0x0 0x0 0x7FFF0002 0x3000 0x7FFF0002 0x4000 true true true true;
  MkPmmuTestSpec (text "FAULT store to write-protected page (berr)")
    [0xF0; 0x39; 0x40; 0x0; 0x0; 0x0; 0x18; 0x8; 0x23; 0xC1; 0x0; 0x0; 0x80; 0x10; 0xF0; 0x39; 0x40; 0x0; 0x0; 0x0; 0x17; 0xF8]
    (plants [(0x3000, 0x3102); (0x3100, 0x3202); (0x311C, 0x70001); (0x4000, 0x1); (0x3200, 0x1); (0x3204, 0x1001);
      (0x3208, 0x2001); (0x320C, 0x3001); (0x3210, 0x4001); (0x3214, 0x5001); (0x3218, 0x6001); (0x321C, 0x7001);
      (0x3220, 0x9005); (0x3224, 0x9001); (0x3228, 0xA001); (0x322C, 0xB001); (0x3230, 0xC001); (0x3234, 0xD001);
      (0x3238, 0xE001); (0x323C, 0xF001); (0x1808, 0x80C08840)])
    [0xD0000000; 0x66666666; 0xD2020202; 0xD3030303; 0xD4040404; 0xD5050505; 0xD6060606; 0xD7070707]
    [0x1800; 0xA1010101; 0xA2020202; 0xA3030303; 0xA4040404; 0xA5050505; 0xA6060606; 0x80000]
    0xC08840 0x0 0x0 0x7FFF0002 0x3000 0x7FFF0002 0x4000 true true true true;
  MkPmmuTestSpec (text "FAULT PMOVE TC enable with bad geometry (MMU config exc)")
    [0xF0; 0x39; 0x40; 0x0; 0x0; 0x0; 0x18; 0x0]
    (plants [(0x1800, 0x80C08844); (0x3000, 0x1); (0x4000, 0x1)])
    [0xD0000000; 0xD1010101; 0xD2020202; 0xD3030303; 0xD4040404; 0xD5050505; 0xD6060606; 0xD7070707]
    [0x1800; 0xA1010101; 0xA2020202; 0xA3030303; 0xA4040404; 0xA5050505; 0xA6060606; 0x80000]
    0xC08840 0x0 0x0 0x7FFF0002 0x3000 0x7FFF0002 0x4000 true true true true].

Definition g_pmmu_tests : list PmmuTestSpec := pmove_tests ++ walk_tests ++ live_tests.

(** ** What a row is *)

Definition is_long (x : Z) : Prop := 0 <= x < 2 ^ 32.

(** Whole words that fit their array; plants at longs of the corpus; eight registers of each
    kind, and the stack of the corpus; translation off in the control that the prologue
    loads; and what turns it on, or ends in an exception, is marked unsafe. *)
Record row_typed (t : PmmuTestSpec) : Prop := {
  typed_test : Forall is_byte (pt_test t) /\ (length (pt_test t) <= 96)%nat /\ Nat.Even (length (pt_test t));
  typed_plants : Forall (fun p => corpus_long (pl_addr p) /\ is_long (pl_value p)) (pt_plants t) /\ (length (pt_plants t) <= 24)%nat;
  typed_regs : Forall is_long (pt_d t) /\ Forall is_long (pt_a t) /\ length (pt_d t) = 8%nat /\ length (pt_a t) = 8%nat /\
    byte (pt_a t) 7 = 0x80000;
  typed_mmu : Forall is_long [pt_tc t; pt_tt0 t; pt_tt1 t; crp_limit t; crp_aptr t; srp_limit t; srp_aptr t] /\
    Z.testbit (pt_tc t) 31 = false;
  typed_flags : mmu_live t = pt_hw_unsafe t /\ (pt_raises t = true -> pt_hw_unsafe t = true) }.

Definition longb (x : Z) : bool := (0 <=? x) && (x <? 4294967296).

Definition corpus_longb (a : Z) : bool :=
  (a mod 4 =? 0) && ((a =? 0x17F8) || in_range 0x1800 0x1840 a || in_range 0x3000 0x3040 a || in_range 0x3100 0x3140 a ||
    in_range 0x3200 0x3240 a || in_range 0x4000 0x4040 a || in_range 0x9000 0xB000 a).

Definition row_typedb (t : PmmuTestSpec) : bool :=
  (forallb byteb (pt_test t) && (length (pt_test t) <=? 96)%nat && Nat.even (length (pt_test t))) &&
  (forallb (fun p => corpus_longb (pl_addr p) && longb (pl_value p)) (pt_plants t) && (length (pt_plants t) <=? 24)%nat) &&
  (forallb longb (pt_d t) && forallb longb (pt_a t) && (length (pt_d t) =? 8)%nat && (length (pt_a t) =? 8)%nat &&
    (byte (pt_a t) 7 =? 0x80000)) &&
  (forallb longb [pt_tc t; pt_tt0 t; pt_tt1 t; crp_limit t; crp_aptr t; srp_limit t; srp_aptr t] && negb (Z.testbit (pt_tc t) 31)) &&
  (eqb (mmu_live t) (pt_hw_unsafe t) && implb (pt_raises t) (pt_hw_unsafe t)).

Lemma longb_spec x : longb x = true -> is_long x.
Proof. unfold longb, is_long. change (2 ^ 32) with 4294967296. rewrite andb_true_iff, Z.leb_le, Z.ltb_lt. lia. Qed.

Lemma corpus_longb_spec a : corpus_longb a = true -> corpus_long a.
Proof.
  unfold corpus_longb, corpus_long. rewrite andb_true_iff, !orb_true_iff, !in_range_spec, !Z.eqb_eq. lia.
Qed.

Lemma row_typedb_spec t : row_typedb t = true -> row_typed t.
Proof.
  unfold row_typedb. rewrite !andb_true_iff, !Nat.leb_le, !Nat.eqb_eq, Z.eqb_eq, negb_true_iff, eqb_true_iff.
  intros [[[[[[Ht Hn] He] [Hp Hm]] [[[[Hd Ha] Ld] La] H7]] [Hu Htc]] [Hl Hr]].
  split; split_and?; try assumption.
  - by apply (forallb_Forall_impl _ _ _ byteb_spec).
  - by apply Nat.even_spec.
  - refine (forallb_Forall_impl _ _ _ _ Hp). intros p Hc. apply andb_prop in Hc as [Hc1 Hc2].
    split; [by apply corpus_longb_spec|by apply longb_spec].
  - by apply (forallb_Forall_impl _ _ _ longb_spec).
  - by apply (forallb_Forall_impl _ _ _ longb_spec).
  - by apply (forallb_Forall_impl _ _ _ longb_spec).
  - intros E. rewrite E in Hr. exact Hr.
Qed.

Lemma rows_typedb : forallb row_typedb g_pmmu_tests = true.
Proof. vm_compute. reflexivity. Qed.

Lemma rows_typed : Forall row_typed g_pmmu_tests.
Proof. exact (forallb_Forall_impl _ _ _ row_typedb_spec rows_typedb). Qed.

(** C25: the corpus has the shape that the runner takes for granted.  Every row has an even
    number of bytes that fit its array, plants only at longs of the regions that are moved,
    eight registers of each kind with the stack where the runner replaces it, and values of
    32 bits; the translation control that the prologue loads has translation off, and a row
    that turns it on or raises an exception is marked unsafe, so that the safe build never
    turns it on; no two rows have the same name; and so, wherever the buffers are, the
    program of every row fits the buffer for programs and its set-up moves every plant. *)
Theorem pmmu_rows_typed :
  Forall row_typed g_pmmu_tests /\ NoDup (pt_name <$> g_pmmu_tests) /\
  (forall L m, Forall (fun t => (length (build_program L m t) <= 1024)%nat) g_pmmu_tests) /\
  (forall L m, layout_ok L -> Forall (fun t => forall a, corpus_long a ->
     rd_l (apply_test L t m) (reloc_addr L a) = match last_value (corpus_writes L t) a with Some v => u32 v | None => 0 end) g_pmmu_tests).
Proof.
  split; [exact rows_typed|]. split; [|split; intros L m].
  - apply (bool_decide_eq_true_1 (NoDup (pt_name <$> g_pmmu_tests))). vm_compute. reflexivity.
  - refine (Forall_impl _ _ _ rows_typed _). intros t Ht. apply program_length, Ht.
  - intros Hok. refine (Forall_impl _ _ _ rows_typed _). intros t Ht a Ha. apply apply_read; [done| |done].
    refine (Forall_impl _ _ _ (proj1 (typed_plants t Ht)) _). by intros p [Hp _].
Qed.

(** ** A layout *)

(** A payload at 0x40000 with its buffers behind the code. *)
Definition a_layout : PmLayout := {|
  g_tc_off_slot := 0x50000; g_data := 0x50010; g_root := 0x50050; g_levb := 0x50090; g_levc := 0x500D0; g_srp_tbl := 0x50110;
  g_remap1 := 0x51000; g_remap2 := 0x52000; g_test_stack := 0x53000;
  g_mmu_init := 0x53200; g_mmu_fin := 0x53220; g_rom_mmu := 0x53240; g_fin_regs := 0x53260; g_fin_a7 := 0x532A0; g_saved_sp := 0x532A4;
  g_ident_magic := 0x532A8; g_ident_got := 0x532AC; pm_prog_buffer := 0x532B0;
  payload_start := 0x40000; payload_bss_end := 0x54000 |}.

Lemma a_layout_ok : layout_ok a_layout.
Proof.
  split; [cbn; lia|]. split.
  - change (2 ^ 32) with 4294967296. repeat (apply Forall_cons; split; [cbn; lia|]). by apply Forall_nil.
  - intros i j b c Hi Hj Hne. pose proof (lookup_lt_Some _ _ _ Hi) as Li. pose proof (lookup_lt_Some _ _ _ Hj) as Lj.
    change (length (pm_buffers a_layout)) with 13%nat in Li, Lj.
    do 13 (destruct i as [|i]; [injection Hi as <-; do 13 (destruct j as [|j]; [injection Hj as <-; cbn; lia|]); lia|]). lia.
Qed.

(** The row that changes a descriptor behind the translation cache. *)
Definition stale_row : PmmuTestSpec :=
  nth 3 live_tests (MkPmmuTestSpec [] [] [] [] [] 0 0 0 0 0 0 0 false false false false).

Lemma stale_row_in : stale_row ∈ g_pmmu_tests.
Proof. apply (list_elem_of_lookup_2 _ 35). reflexivity. Qed.



