(* ===== verification/Amiga.v ===== *)
(** * The Amiga port of the test disks (preboot/amiga)

    The runners of [CpuRun] and [PmmuBench] on an Amiga: the gate that lets only a 68030
    with its translation unit pass (amiga_gate.c), and the writer of a batch to the boot
    floppy (jsonl_trackdisk.c), which for each write gives the machine back to its system
    and takes it again.

    Calling a program and the disk device are arguments.  What the code does to the machine
    - its vectors, its interrupts, its mode, the calls of the system - is a list of events;
    [bracket] follows the machine along it: the table of vectors, as recovery.s installs and
    exchanges it, the interrupts and the user mode.

    The theorems: from the entry of the gate, with the vectors of the system, the system is
    only called while its vectors, its interrupts and the user mode are there, and the tests
    run while they are not ([brackets_close]); a
    batch that is written without an error is on the disk at its place, and nothing else has
    changed ([backend_writes]); the gate opens exactly for a 68030 on which the probe runs,
    and no other processor is asked to run it ([gate_opens]). *)

From S2P Require Import Prelude Toolbox Preboot DiskCopy StepTests CpuBench.

(** ** The machine *)

Record IoReq := MkIoReq { io_command : Z; io_error : Z; io_length : Z; io_data : Z; io_offset : Z }.

#[export] Instance eta_IoReq : Eta IoReq := fun r => MkIoReq (io_command r) (io_error r) (io_length r) (io_data r) (io_offset r).

Definition CMD_WRITE : Z := 3.
Definition CMD_UPDATE : Z := 4.

Inductive AmEvent :=
  | InstallVbr | OsVbr | RecoveryVbr | SetIntena (v : Z) | SetDmacon (v : Z) | UserState (ssp : Z) | SuperState
  | DoneIO (io : IoReq) | AmPaint (row col : Z) (str : list Z) (max_chars : Z) | AmWipe (rows : Z) | AmRan (program : list Z).

(** The device takes a request and the memory; it gives the error byte. *)
Class TrackDevice (W : Type) := { td_do_io : IoReq -> Mem -> W -> Z * W }.
#[global] Hint Mode TrackDevice ! : typeclass_instances.

Section Machine.
Context {W : Type} `{TrackDevice W}.
Variables (g_saved_intena super_state diag_buf g_probe_scratch attn : Z).
Variable invoke : list Z -> Mem -> Z * Mem.

Record Amiga := MkAmiga { am_io : IoReq; g_super_ssp : Z; am_mem : Mem; am_dev : W; am_events : list AmEvent }.

#[export] Instance eta_Amiga : Eta Amiga := fun s => MkAmiga (am_io s) (g_super_ssp s) (am_mem s) (am_dev s) (am_events s).

Definition am_event (e : AmEvent) (s : Amiga) : Amiga := s <| am_events ::= (fun l => l ++ [e]) |>.

Definition do_io (s : Amiga) : Amiga :=
  let '(err, d) := td_do_io (am_io s) (am_mem s) (am_dev s) in
  let io := (am_io s) <| io_error := u8 err |> in
  am_event (DoneIO io) (s <| am_io := io |> <| am_dev := d |>).

Definition enter_user (s : Amiga) : Amiga := am_event (UserState (g_super_ssp s)) s.
Definition enter_super (s : Amiga) : Amiga := am_event SuperState (s <| g_super_ssp := super_state |>).

(** The system gets the machine, and loses it. *)
Definition open_bracket (s : Amiga) : Amiga :=
  enter_user (am_event (SetDmacon 0x8210) (am_event (SetIntena (u16 (Z.lor 0xC000 g_saved_intena))) (am_event OsVbr s))).
Definition close_bracket (s : Amiga) : Amiga := am_event RecoveryVbr (am_event (SetIntena 0x7FFF) (enter_super s)).

Definition write_request (data len offset : Z) (s : Amiga) : Amiga :=
  do_io (s <| am_io ::= (fun io => io <| io_command := CMD_WRITE |> <| io_data := data |> <| io_length := len |> <| io_offset := offset |>) |>).
Definition update_request (s : Amiga) : Amiga :=
  do_io (s <| am_io ::= (fun io => io <| io_command := CMD_UPDATE |> <| io_length := 0 |>) |>).

(** [(i16)(signed char)*(io + IO_ERROR)] *)
Definition io_result (s : Amiga) : Z := swrap 8 (io_error (am_io s)).

Definition jw_backend_write (ctx : JwCtx) (batch_idx buf : Z) (s : Amiga) : Z * Amiga :=
  let s := open_bracket s in
  let s := write_request buf JW_BATCH_BYTES (u32 (base_offset ctx + batch_idx * JW_BATCH_BYTES)) s in
  let err := io_result s in
  let '(err, s) := if err =? 0 then let s := update_request s in (io_result s, s) else (err, s) in
  (err, close_bracket s).

(** A sector with a mark, at the end of the results. *)
Definition amiga_diag_marker (slot tag : Z) (s : Amiga) : Amiga :=
  let s := s <| am_mem ::= put_bytes diag_buf (concat (replicate 128 (long_bytes tag))) |> in
  let s := open_bracket s in
  let s := write_request diag_buf 512 (u32 (0xD8000 + slot * 0x200)) s in
  close_bracket (update_request s).

Definition am_paint (row col : Z) (str : list Z) (n : Z) (s : Amiga) : Amiga := am_event (AmPaint row col str n) s.

(** PMOVE TC,(abs).L ; RTS *)
Definition probe_prog : list Z := [0xF0; 0x39; 0x42; 0x00] ++ long_bytes g_probe_scratch ++ [0x4E; 0x75].

Definition run_probe (s : Amiga) : Z * Amiga :=
  let '(vec, m) := invoke probe_prog (am_mem s) in (s32 vec, am_event (AmRan probe_prog) (s <| am_mem := m |>)).

Definition amiga_gate (s : Amiga) : Z * Amiga :=
  let s := am_event (AmWipe 480) (am_event InstallVbr s) in
  let s := am_paint 4 4 (text "68030+PMMU TEST DISK (MacIIvi_MiSTer)") 40 s in
  let s := amiga_diag_marker 2 0x47415430 s in
  let s := amiga_diag_marker 4 (Z.lor 0x41544E00 (u16 attn)) s in
  if negb (Z.testbit (u16 attn) 2) then
    (1, am_paint 24 4 (text "(AttnFlags has no 68030 bit)") 40 (am_paint 16 4 (text "REFUSED: this disk requires a 68030") 40 s))
  else
    let s := amiga_diag_marker 5 0x56425249 s in
    let '(vec, s) := run_probe s in
    let s := amiga_diag_marker 6 (Z.lor 0x56454300 (Z.land vec 0xFF)) s in
    if negb (vec =? 0) then
      (2, am_paint 24 4 (text "(PMOVE took an exception)") 40 (am_paint 16 4 (text "REFUSED: 68030 without working PMMU") 40 s))
    else (0, amiga_diag_marker 3 0x47415445 (am_paint 16 4 (text "gate: 68030+PMMU present") 40 s)).

End Machine.
Arguments Amiga W : clear implicits.

(** [eject_floppy] does nothing here. *)
Definition eject_amiga (drive : Z) : Z := 0.

(** ** The mode of the machine *)

(** The vectors (recovery.s): the table in use, the one that [install_vbr] has saved, which is
    a null pointer before it has run, and whether the table of the tests has been filled. *)
Inductive Table := OsTable | OwnTable | NullTable.

Record Vectors := MkVectors { vbr : Table; orig_vbr : Table; g_vbr_ready : bool }.

#[export] Instance eta_Vectors : Eta Vectors := fun v => MkVectors (vbr v) (orig_vbr v) (g_vbr_ready v).

Definition install_vbr (v : Vectors) : Vectors :=
  if g_vbr_ready v then v else v <| orig_vbr := vbr v |> <| g_vbr_ready := true |> <| vbr := OwnTable |>.

Definition use_os_vbr (v : Vectors) : Vectors := v <| vbr := orig_vbr v |>.

Definition use_recovery_vbr (v : Vectors) : Vectors := if g_vbr_ready v then v <| vbr := OwnTable |> else v.

Record AmMode := MkAmMode { vectors : Vectors; ints_on : bool; user_mode : bool }.

#[export] Instance eta_AmMode : Eta AmMode := fun m => MkAmMode (vectors m) (ints_on m) (user_mode m).

(** At the entry of the gate: supervisor mode, the interrupts off, the vectors of the system. *)
Definition at_entry : AmMode := MkAmMode (MkVectors OsTable NullTable false) false false.

(** The machine as the tests want it, and as the system does. *)
Definition taken : AmMode := MkAmMode (MkVectors OwnTable OsTable true) false false.
Definition given : AmMode := MkAmMode (MkVectors OsTable OsTable true) true true.

(** The bit 15 of a value written to INTENA says whether its other bits are set or cleared;
    the bit 14 enables the interrupts. *)
Definition intena (v : Z) (on : bool) : bool :=
  if Z.testbit v 15 then on || Z.testbit v 14 else on && negb (Z.testbit v 14).

Definition mode_effect (m : AmMode) (e : AmEvent) : AmMode :=
  match e with
  | InstallVbr => m <| vectors ::= install_vbr |>
  | OsVbr => m <| vectors ::= use_os_vbr |>
  | RecoveryVbr => m <| vectors ::= use_recovery_vbr |>
  | SetIntena v => m <| ints_on ::= intena v |>
  | UserState _ => m <| user_mode := true |>
  | SuperState => m <| user_mode := false |>
  | _ => m
  end.

Definition os_table (m : AmMode) : bool := match vbr (vectors m) with OsTable => true | _ => false end.
Definition own_table (m : AmMode) : bool := match vbr (vectors m) with OwnTable => true | _ => false end.

(** The registers are privileged; a call of the system needs its vectors and its interrupts,
    and a request to the device the user mode as well; a program of a test needs the vectors
    of the tests, with the machine taken; the screen is painted with the interrupts off. *)
Definition event_allowed (m : AmMode) (e : AmEvent) : bool :=
  match e with
  | InstallVbr | OsVbr | RecoveryVbr | SetIntena _ | SetDmacon _ => negb (user_mode m)
  | UserState _ => negb (user_mode m) && os_table m && ints_on m
  | SuperState | DoneIO _ => user_mode m && os_table m && ints_on m
  | AmRan _ => own_table m && negb (ints_on m) && negb (user_mode m)
  | AmPaint _ _ _ _ | AmWipe _ => negb (ints_on m) && negb (user_mode m)
  end.

(** An interrupt finds the vectors of the system. *)
Definition serviced (m : AmMode) : bool := negb (ints_on m) || os_table m.

Definition mode_step (m : AmMode) (e : AmEvent) : option AmMode :=
  let m' := mode_effect m e in if event_allowed m e && serviced m' then Some m' else None.

Fixpoint bracket (m : AmMode) (es : list AmEvent) : option AmMode :=
  match es with [] => Some m | e :: es => match mode_step m e with Some m => bracket m es | None => None end end.

Lemma bracket_app es : forall m es', bracket m (es ++ es') = match bracket m es with Some m => bracket m es' | None => None end.
Proof. induction es as [|e es IH]; intros m es'; [done|]. cbn. destruct (mode_step m e); [apply IH|done]. Qed.

Section Facts.
Context {W : Type} `{TrackDevice W}.
Variables (g_saved_intena super_state diag_buf g_probe_scratch attn : Z).
Variable invoke : list Z -> Mem -> Z * Mem.
Abbreviation Amiga := (Amiga W).

(** From [s] to [s'] the machine is given and taken back again. *)
Definition closes (s s' : Amiga) : Prop :=
  exists es, am_events s' = am_events s ++ es /\ bracket taken es = Some taken.

Lemma closes_trans s1 s2 s3 : closes s1 s2 -> closes s2 s3 -> closes s1 s3.
Proof.
  intros (e1 & E1 & B1) (e2 & E2 & B2). exists (e1 ++ e2). split; [by rewrite E2, E1, app_assoc|]. by rewrite bracket_app, B1.
Qed.

Lemma closes_event e s : mode_step taken e = Some taken -> closes s (am_event e s).
Proof. intros He. exists [e]. split; [done|]. cbn. by rewrite He. Qed.

Lemma closes_paint r c str n s : closes s (am_paint r c str n s).
Proof. by apply closes_event. Qed.

(** A part of a bracket: only requests are done. *)
Definition inside (s s' : Amiga) : Prop :=
  exists es, am_events s' = am_events s ++ es /\ bracket given es = Some given.

Lemma inside_do_io s s0 : am_events s0 = am_events s -> inside s (do_io s0).
Proof. intros E. unfold do_io. destruct (td_do_io _ _ _) as [err d]. eexists [_]. cbn. by rewrite E. Qed.

Lemma inside_write data len off s : inside s (write_request data len off s).
Proof. by apply inside_do_io. Qed.

Lemma inside_update s : inside s (update_request s).
Proof. by apply inside_do_io. Qed.

Lemma inside_trans s1 s2 s3 : inside s1 s2 -> inside s2 s3 -> inside s1 s3.
Proof.
  intros (e1 & E1 & B1) (e2 & E2 & B2). exists (e1 ++ e2). split; [by rewrite E2, E1, app_assoc|]. by rewrite bracket_app, B1.
Qed.

(** What the bracket writes to INTENA enables the interrupts. *)
Lemma intena_on on : intena (u16 (Z.lor 0xC000 g_saved_intena)) on = true.
Proof.
  unfold intena, uwrap. rewrite !Z.mod_pow2_bits_low, !Z.lor_spec by lia. cbn. apply orb_true_r.
Qed.

Lemma intena_gives :
  mode_step (given <| user_mode := false |> <| ints_on := false |>) (SetIntena (u16 (Z.lor 0xC000 g_saved_intena))) =
  Some (given <| user_mode := false |>).
Proof.
  unfold mode_step. cbn zeta.
  change (mode_effect _ _) with (given <| user_mode := false |> <| ints_on := intena (u16 (Z.lor 0xC000 g_saved_intena)) false |>).
  by rewrite intena_on.
Qed.

Lemma closes_inside s s' : inside (open_bracket g_saved_intena s) s' -> closes s (close_bracket super_state s').
Proof.
  intros (es & E & B).
  exists ([OsVbr; SetIntena (u16 (Z.lor 0xC000 g_saved_intena)); SetDmacon 0x8210; UserState (g_super_ssp s)] ++ es ++
    [SuperState; SetIntena 0x7FFF; RecoveryVbr]).
  split.
  - unfold close_bracket, enter_super, am_event. cbn. rewrite E. unfold open_bracket, enter_user, am_event. cbn. by rewrite <- !app_assoc.
  - cbn [app bracket]. change (mode_step taken OsVbr) with (Some (given <| user_mode := false |> <| ints_on := false |>)).
    cbn iota. rewrite intena_gives.
    change (bracket given (es ++ [SuperState; SetIntena 0x7FFF; RecoveryVbr]) = Some taken). rewrite bracket_app, B. reflexivity.
Qed.

Lemma closes_backend ctx idx buf s : closes s (jw_backend_write g_saved_intena super_state ctx idx buf s).2.
Proof.
  unfold jw_backend_write. cbn zeta. set (s1 := write_request _ _ _ _).
  assert (H1 : inside (open_bracket g_saved_intena s) s1) by apply inside_write.
  destruct (io_result s1 =? 0); apply closes_inside; [|exact H1]. exact (inside_trans _ _ _ H1 (inside_update s1)).
Qed.

Lemma closes_marker slot tag s : closes s (amiga_diag_marker g_saved_intena super_state diag_buf slot tag s).
Proof.
  unfold amiga_diag_marker. cbn zeta. set (s0 := s <| am_mem ::= _ |>).
  destruct (closes_inside s0 _ (inside_trans _ _ _ (inside_write diag_buf 512 (u32 (0xD8000 + slot * 0x200)) (open_bracket g_saved_intena s0)) (inside_update _))) as (es & E & B).
  by exists es.
Qed.

Lemma closes_probe s : closes s (run_probe g_probe_scratch invoke s).2.
Proof. unfold run_probe. destruct (invoke _ _) as [vec m]. by eexists [_]. Qed.

Abbreviation gate := (amiga_gate g_saved_intena super_state diag_buf g_probe_scratch attn invoke).

(** The same from the entry of the gate. *)
Definition takes_over (s s' : Amiga) : Prop :=
  exists es, am_events s' = am_events s ++ es /\ bracket at_entry es = Some taken.

Lemma takes_closes s1 s2 s3 : takes_over s1 s2 -> closes s2 s3 -> takes_over s1 s3.
Proof.
  intros (e1 & E1 & B1) (e2 & E2 & B2). exists (e1 ++ e2). split; [by rewrite E2, E1, app_assoc|]. by rewrite bracket_app, B1.
Qed.

Lemma takes_gate (s : Amiga) : takes_over s (gate s).2.
Proof.
  unfold amiga_gate. cbn zeta. set (s1 := am_paint 4 4 _ _ _).
  assert (H1 : takes_over s s1).
  { exists [InstallVbr; AmWipe 480; AmPaint 4 4 (text "68030+PMMU TEST DISK (MacIIvi_MiSTer)") 40].
    split; [|reflexivity]. unfold s1, am_paint, am_event. cbn [am_events modify_field]. by rewrite <- !app_assoc. }
  set (s2 := amiga_diag_marker _ _ _ 4 _ _).
  assert (H2 : takes_over s s2) by (eapply takes_closes; [exact H1|]; eapply closes_trans; apply closes_marker).
  destruct (negb (Z.testbit (u16 attn) 2)); cbn [snd].
  - eapply takes_closes; [exact H2|]. eapply closes_trans; apply closes_paint.
  - set (s3 := amiga_diag_marker _ _ _ 5 _ _). pose proof (closes_probe s3) as Hp.
    destruct (run_probe g_probe_scratch invoke s3) as [vec s4]. cbn [snd] in Hp.
    set (s5 := amiga_diag_marker _ _ _ 6 _ _).
    assert (H5 : takes_over s s5).
    { eapply takes_closes; [exact H2|]. eapply closes_trans; [apply closes_marker|]. eapply closes_trans; [exact Hp|apply closes_marker]. }
    destruct (negb (vec =? 0)); cbn [snd]; (eapply takes_closes; [exact H5|]).
    + eapply closes_trans; apply closes_paint.
    + eapply closes_trans; [apply closes_paint|apply closes_marker].
Qed.

(** C37: the system has the machine exactly while it is called.  The gate is entered with the
    vectors of the system and the saved table null; whatever the device and the probe do, in
    the whole gate, and in a write of a batch after it, each request to the device is made
    with the vectors of the system, its interrupts on and in user mode, no interrupt ever
    finds other vectors, the system is called with nothing less, the probe runs with the
    vectors of the tests and the machine taken, and the machine is taken at the end. *)
Theorem brackets_close (s : Amiga) (ctx : JwCtx) (batch_idx buf : Z) :
  takes_over s (gate s).2 /\ closes s (jw_backend_write g_saved_intena super_state ctx batch_idx buf s).2.
Proof. split; [apply takes_gate|apply closes_backend]. Qed.

(** The programs that were run. *)
Definition programs_run (es : list AmEvent) : list (list Z) :=
  omap (fun e => match e with AmRan p => Some p | _ => None end) es.

Lemma programs_app es es' : programs_run (es ++ es') = programs_run es ++ programs_run es'.
Proof. apply omap_app. Qed.

Lemma do_io_programs (s : Amiga) : programs_run (am_events (do_io s)) = programs_run (am_events s).
Proof. unfold do_io. destruct (td_do_io _ _ _) as [err d]. cbn. by rewrite programs_app, app_nil_r. Qed.

Lemma event_programs e (s : Amiga) : (forall p, e <> AmRan p) -> programs_run (am_events (am_event e s)) = programs_run (am_events s).
Proof. intros He. cbn. rewrite programs_app. destruct e; cbn; try apply app_nil_r. by destruct (He program). Qed.

Lemma marker_programs slot tag (s : Amiga) :
  programs_run (am_events (amiga_diag_marker g_saved_intena super_state diag_buf slot tag s)) = programs_run (am_events s).
Proof.
  unfold amiga_diag_marker, close_bracket, enter_super. cbn zeta. rewrite !event_programs by done.
  change (am_events (?x <| g_super_ssp := super_state |>)) with (am_events x). unfold update_request, write_request. rewrite do_io_programs.
  change (am_events (?x <| am_io ::= ?f |>)) with (am_events x). rewrite do_io_programs.
  change (am_events (?x <| am_io ::= ?f |>)) with (am_events x). unfold open_bracket, enter_user. by rewrite !event_programs.
Qed.

Lemma probe_programs (s : Amiga) :
  programs_run (am_events (run_probe g_probe_scratch invoke s).2) = programs_run (am_events s) ++ [probe_prog g_probe_scratch].
Proof. unfold run_probe. destruct (invoke _ _) as [vec m]. cbn [snd]. exact (programs_app (am_events s) [AmRan _]). Qed.

Lemma probe_vector (s : Amiga) :
  (run_probe g_probe_scratch invoke s).1 = s32 (invoke (probe_prog g_probe_scratch) (am_mem s)).1.
Proof. unfold run_probe. by destruct (invoke _ _) as [vec m]. Qed.

(** The gate opens exactly for a 68030 on which the probe returns.  Without the bit of the
    68030 it refuses with code 1 and runs nothing; with it, it runs the probe, once, and
    its code is 0 if the probe raised no exception and 2 otherwise. *)
Theorem gate_opens (s : Amiga) :
  exists m, (gate s).1 = (if Z.testbit (u16 attn) 2 then if s32 (invoke (probe_prog g_probe_scratch) m).1 =? 0 then 0 else 2 else 1) /\
  programs_run (am_events (gate s).2) = programs_run (am_events s) ++ (if Z.testbit (u16 attn) 2 then [probe_prog g_probe_scratch] else []).
Proof.
  unfold amiga_gate, am_paint. cbn zeta. set (s2 := amiga_diag_marker _ _ _ 4 _ _).
  assert (H2 : programs_run (am_events s2) = programs_run (am_events s)).
  { unfold s2. rewrite !marker_programs. by rewrite !event_programs. }
  destruct (Z.testbit (u16 attn) 2); cbn [negb].
  - set (s3 := amiga_diag_marker _ _ _ 5 _ _). assert (H3 : programs_run (am_events s3) = programs_run (am_events s)) by (unfold s3; by rewrite marker_programs).
    exists (am_mem s3). pose proof (probe_programs s3) as Hp. pose proof (probe_vector s3) as Hv.
    destruct (run_probe g_probe_scratch invoke s3) as [vec s4]. cbn [fst snd] in *. subst vec. rewrite H3 in Hp.
    destruct (s32 _ =? 0); cbn [negb fst snd]; (split; [done|]).
    + rewrite marker_programs, event_programs by done. by rewrite marker_programs.
    + rewrite !event_programs by done. by rewrite marker_programs.
  - exists (am_mem s). cbn [fst snd]. split; [done|]. rewrite !event_programs by done. by rewrite app_nil_r.
Qed.

End Facts.

(** ** The disk *)

(** What trackdisk.device promises: an error is a byte; a write without one puts the
    bytes where it was asked to, and no write touches others; an update changes nothing. *)
Class TrackLaws (W : Type) `{TrackDevice W} := {
  track : W -> Z -> Z;
  td_error : forall io m (w : W), 0 <= (td_do_io io m w).1 < 256;
  td_outside : forall io m (w : W) x, io_command io = CMD_WRITE -> ~ (io_offset io <= x < io_offset io + io_length io) ->
    track (td_do_io io m w).2 x = track w x;
  td_inside : forall io m (w : W) x, io_command io = CMD_WRITE -> (td_do_io io m w).1 = 0 -> io_offset io <= x < io_offset io + io_length io ->
    track (td_do_io io m w).2 x = m (io_data io + (x - io_offset io));
  td_update : forall io m (w : W) x, io_command io = CMD_UPDATE -> track (td_do_io io m w).2 x = track w x }.

Section Batch.
Context {W : Type} `{TrackLaws W}.
Variables (g_saved_intena super_state : Z).
Abbreviation Amiga := (Amiga W).

Lemma result_zero (s : Amiga) : 0 <= io_error (am_io s) < 256 -> io_result s = 0 <-> io_error (am_io s) = 0.
Proof.
  intros He. unfold io_result, swrap. change (2 ^ (8 - 1)) with 128. change (2 ^ 8) with 256. split; [|intros ->; reflexivity].
  intros E. pose proof (Z.div_mod (io_error (am_io s) + 128) 256 ltac:(lia)).
  pose proof (Z.mod_pos_bound (io_error (am_io s) + 128) 256 ltac:(lia)). lia.
Qed.

Lemma do_io_state (s : Amiga) :
  am_dev (do_io s) = (td_do_io (am_io s) (am_mem s) (am_dev s)).2 /\ am_mem (do_io s) = am_mem s /\
  io_error (am_io (do_io s)) = (td_do_io (am_io s) (am_mem s) (am_dev s)).1.
Proof.
  pose proof (td_error (am_io s) (am_mem s) (am_dev s)) as He. unfold do_io. destruct (td_do_io _ _ _) as [err d]. cbn in *.
  split; [done|]. split; [done|]. by apply uwrap_small.
Qed.

Lemma close_mem (s : Amiga) : am_mem (close_bracket super_state s) = am_mem s.
Proof. reflexivity. Qed.

Lemma close_dev (s : Amiga) : am_dev (close_bracket super_state s) = am_dev s.
Proof. reflexivity. Qed.

(** The result, the disk and the memory behind the requests of a write. *)
Lemma backend_state (ctx : JwCtx) (idx buf : Z) (s : Amiga) :
  exists s1 : Amiga, am_dev s1 = am_dev s /\ am_mem s1 = am_mem s /\
    io_command (am_io s1) = CMD_WRITE /\ io_data (am_io s1) = buf /\ io_length (am_io s1) = JW_BATCH_BYTES /\
    io_offset (am_io s1) = u32 (base_offset ctx + idx * JW_BATCH_BYTES) /\
    let r := jw_backend_write g_saved_intena super_state ctx idx buf s in
    am_mem r.2 = am_mem s /\ (forall x, track (am_dev r.2) x = track (am_dev (do_io s1)) x) /\
    (r.1 = 0 -> io_error (am_io (do_io s1)) = 0).
Proof.
  set (f := fun io : IoReq => io <| io_command := CMD_WRITE |> <| io_data := buf |> <| io_length := JW_BATCH_BYTES |>
    <| io_offset := u32 (base_offset ctx + idx * JW_BATCH_BYTES) |>).
  exists ((open_bracket g_saved_intena s) <| am_io ::= f |>). do 6 (split; [reflexivity|]). cbn zeta.
  unfold jw_backend_write. cbn zeta. pose (s1 := (open_bracket g_saved_intena s) <| am_io ::= f |>).
  change (write_request buf JW_BATCH_BYTES (u32 (base_offset ctx + idx * JW_BATCH_BYTES)) (open_bracket g_saved_intena s)) with (do_io s1).
  destruct (do_io_state s1) as (E1 & M1 & R1). pose proof (td_error (am_io s1) (am_mem s1) (am_dev s1)) as Hb. rewrite <- R1 in Hb.
  assert (Em : am_mem (do_io s1) = am_mem s) by (rewrite M1; reflexivity).
  destruct (Z.eqb_spec (io_result (do_io s1)) 0) as [E|E]; cbn [fst snd].
  - unfold update_request.
    set (s2 := (do_io s1) <| am_io ::= (fun io : IoReq => io <| io_command := CMD_UPDATE |> <| io_length := 0 |>) |>). destruct (do_io_state s2) as (E2 & M2 & R2).
    rewrite close_mem, close_dev.
    split; [by rewrite M2|]. split; [intros x; rewrite E2; by apply td_update|]. intros _. by apply result_zero.
  - change (am_mem (close_bracket super_state (do_io s1))) with (am_mem (do_io s1)).
    change (am_dev (close_bracket super_state (do_io s1))) with (am_dev (do_io s1)).
    split; [exact Em|]. split; [done|]. done.
Qed.

(** A batch that is written is on the disk.  When the write gives no error, the 16 KB of
    the results file at the place of the batch are the bytes of the buffer; with an error or
    without, nothing outside that place changes, nor does the memory. *)
Theorem backend_writes (ctx : JwCtx) (idx buf : Z) (s : Amiga)
    (Hoff : 0 <= base_offset ctx + idx * JW_BATCH_BYTES < 2 ^ 32) :
  let r := jw_backend_write g_saved_intena super_state ctx idx buf s in
  let start := base_offset ctx + idx * JW_BATCH_BYTES in
  (r.1 = 0 -> forall i, 0 <= i < JW_BATCH_BYTES -> track (am_dev r.2) (start + i) = am_mem s (buf + i)) /\
  (forall x, ~ (start <= x < start + JW_BATCH_BYTES) -> track (am_dev r.2) x = track (am_dev s) x) /\ am_mem r.2 = am_mem s.
Proof.
  cbn zeta. destruct (backend_state ctx idx buf s) as (s1 & D1 & M1 & C1 & B1 & L1 & O1 & Mr & Tr & Rr).
  rewrite uwrap_small in O1 by done. destruct (do_io_state s1) as (E1 & _ & R1). split; [|split; [|exact Mr]].
  - intros Hr i Hi. rewrite Tr, E1, td_inside; [|done| |].
    + rewrite M1, B1, O1. f_equal. lia.
    + rewrite <- R1. by apply Rr.
    + rewrite O1, L1. lia.
  - intros x Hx. rewrite Tr, E1, td_outside; [by rewrite D1|done|]. by rewrite O1, L1.
Qed.

End Batch.

(** A disk that never fails. *)
#[export] Instance Store_track : TrackDevice Mem := { td_do_io io m w :=
  (0, if io_command io =? CMD_WRITE
      then fun x => if bool_decide (io_offset io <= x < io_offset io + io_length io) then m (io_data io + (x - io_offset io)) else w x
      else w) }.

#[export] Instance Store_laws : TrackLaws Mem.
Proof.
  refine {| track := fun w : Mem => w |}.
  - intros io m w. cbn. lia.
  - intros io m w x Hc Hx. cbn. rewrite Hc. cbn. by rewrite bool_decide_eq_false_2.
  - intros io m w x Hc _ Hx. cbn. rewrite Hc. cbn. by rewrite bool_decide_eq_true_2.
  - intros io m w x Hc. cbn. by rewrite Hc.
Defined.

Definition an_amiga : Amiga Mem := MkAmiga (MkIoReq 0 0 0 0 0) 0x80000 (fun x => x `mod` 256) (fun _ => 0) [].

Lemma backend_writes_witness :
  let r := jw_backend_write 0x2000 0x7F000 (MkJwCtx 0 0 0x8000 0xD0000) 2 0x500 an_amiga in
  r.1 = 0 /\ track (am_dev r.2) (0x8000 + 2 * JW_BATCH_BYTES + 7) = 7 /\ track (am_dev r.2) 0x100 = 0.
Proof.
  destruct (backend_writes 0x2000 0x7F000 (MkJwCtx 0 0 0x8000 0xD0000) 2 0x500 an_amiga
    ltac:(split; [discriminate|reflexivity])) as (Hw & Ho & _).
  assert (E : (jw_backend_write 0x2000 0x7F000 (MkJwCtx 0 0 0x8000 0xD0000) 2 0x500 an_amiga).1 = 0) by (vm_compute; reflexivity).
  split; [exact E|]. split.
  - exact (Hw E 7 ltac:(split; [discriminate|reflexivity])).
  - apply Ho. intros [Hx _]. exact (Hx eq_refl).
Defined.
