(* ===== verification/AdbBench.v ===== *)
(** * The ADB bench (verilator/adb_bench/sim_adb_main.cpp)

    The bench plays the transactions of a host on the line of the ADB device and leaves the
    judgement to what the device prints.  A bit is a cell, a low and a high phase, and the
    device tells ones from zeros by the length of the high phase; the bench plays the same
    listen command with its payload in faster and slower cells.

    A function of the bench is the list of the calls of [step] that it makes; [play] runs a
    list on the device, which is an argument.  The theorems: whoever measures the high phases
    between the falls of the line and compares them with a threshold between those of a zero
    and a one reads the command and the payload back ([listen_decodes]), for a threshold of
    470 in the six profiles from 80 to 130 percent and in no other ([sweep_margin]); the bench
    ends after a number of clocks that its cells add up to ([bench_clocks]). *)

From S2P Require Import Prelude.

(** ** The device *)

Class AdbDevice (C : Type) := {
  adb_set_reset : bool -> C -> C;
  adb_set_line : Z -> C -> C;
  adb_set_clk : bool -> C -> C;
  adb_eval : C -> C }.
#[global] Hint Mode AdbDevice ! : typeclass_instances.

(** ** The calls *)

(** [tb->reset = b], and [step(cycles, line)]. *)
Inductive AdbCall := SetReset (b : bool) | Step (cycles line : Z).

Definition adb_cell (lo hi : Z) : list AdbCall := [Step lo 0; Step hi 1].

(** The lengths of a zero and of a one. *)
Record Cells := MkCells { lo0 : Z; hi0 : Z; lo1 : Z; hi1 : Z }.

Definition bit_cell (k : Cells) (v b : Z) : list AdbCall :=
  if Z.testbit v b then adb_cell (lo1 k) (hi1 k) else adb_cell (lo0 k) (hi0 k).

(** The bits of [v] from [n - 1] down to 0. *)
Fixpoint bit_cells (n : nat) (k : Cells) (v : Z) : list AdbCall :=
  match n with O => [] | S n => bit_cell k v (Z.of_nat n) ++ bit_cells n k v end.

Definition byte_cells (v : Z) (k : Cells) : list AdbCall := bit_cells 8 k v.

Definition attention : list AdbCall := [Step 6000 1; Step 3500 0; Step 70 1].

Definition listen_r3 (cmd payload : Z) (c p : Cells) : list AdbCall :=
  attention ++ byte_cells cmd c ++ adb_cell (lo0 c) (hi0 c) ++ [Step 1400 1] ++ adb_cell (lo1 p) (hi1 p) ++
  bit_cells 16 p payload ++ adb_cell (lo0 p) (hi0 p) ++ [Step 4000 1].

Definition talk (cmd : Z) (c : Cells) : list AdbCall :=
  attention ++ byte_cells cmd c ++ adb_cell (lo0 c) (hi0 c) ++ [Step 6000 1].

Definition nominal : Cells := MkCells 600 340 340 600.

Definition scaled (pct : Z) : Cells :=
  MkCells (600 * pct / 100) (340 * pct / 100) (340 * pct / 100) (600 * pct / 100).

Definition adb_reset : list AdbCall := [SetReset true; Step 20 1; SetReset false; Step 20 1].

Definition profiles : list Z := (fun i => 60 + 10 * i) <$> seqZ 0 9.

Definition adb_main : list AdbCall :=
  adb_reset ++ listen_r3 0x2B 0x0FFE nominal nominal ++ talk 0xFF nominal ++ talk 0x2F nominal ++
  concat ((fun pct => adb_reset ++ listen_r3 0x2B 0x0FFE nominal (scaled pct) ++ talk 0xFF nominal) <$> profiles).

(** ** Playing *)

Section Play.
Context {C : Type} `{AdbDevice C}.

(** The device and [tcyc]. *)
Definition adb_clock (s : C * Z) : C * Z :=
  (adb_eval (adb_set_clk true (adb_eval (adb_set_clk false s.1))), u64 (s.2 + 1)).

Definition adb_call (s : C * Z) (c : AdbCall) : C * Z :=
  match c with
  | SetReset b => (adb_set_reset b s.1, s.2)
  | Step n line => iterate (Z.to_nat n) adb_clock (adb_set_line line s.1, s.2)
  end.

Definition play (cs : list AdbCall) (s : C * Z) : C * Z := fold_left adb_call cs s.

End Play.

(** ** What the line says *)

(** The lengths of the high phases, each taken at the fall that ends it; [high] is the time
    since the last rise. *)
Fixpoint highs (high : Z) (cs : list AdbCall) : list Z :=
  match cs with
  | [] => []
  | SetReset _ :: cs => highs high cs
  | Step n line :: cs =>
    if line =? 0 then (if 0 <? high then [high] else []) ++ highs 0 cs else highs (high + n) cs
  end.

(** The high phases of the bits of [v]. *)
Fixpoint bit_highs (n : nat) (k : Cells) (v : Z) : list Z :=
  match n with
  | O => []
  | S n => (if Z.testbit v (Z.of_nat n) then hi1 k else hi0 k) :: bit_highs n k v
  end.

(** Bits with the first as the highest. *)
Definition bits_value (l : list bool) : Z := fold_left (fun a (b : bool) => a * 2 + Z.b2z b) l 0.

Definition adb_decode (threshold : Z) (l : list Z) : Z := bits_value ((fun h => threshold <? h) <$> l).


Lemma highs_cell h lo hi cs : 0 < h -> highs h (adb_cell lo hi ++ cs) = h :: highs hi cs.
Proof. intros Hh. cbn. by rewrite (proj2 (Z.ltb_lt _ _) Hh). Qed.

(** Bits with the high phase [h] before them: each fall takes the phase before. *)
Lemma highs_bits n k v : forall h cs, 0 < h -> 0 < hi0 k -> 0 < hi1 k ->
  exists last, highs h (bit_cells n k v ++ cs) = removelast (h :: bit_highs n k v) ++ highs last cs /\ 0 < last /\
    last = List.last (h :: bit_highs n k v) 0.
Proof.
  induction n as [|n IH]; intros h cs Hh H0 H1; [by exists h|].
  cbn [bit_cells bit_highs]. rewrite <- app_assoc. unfold bit_cell.
  destruct (Z.testbit v (Z.of_nat n)); rewrite highs_cell by done.
  - destruct (IH (hi1 k) cs H1 H0 H1) as (last & -> & Hl & ->). by eexists.
  - destruct (IH (hi0 k) cs H0 H0 H1) as (last & -> & Hl & ->). by eexists.
Qed.

Lemma removelast_last (l : list Z) d : l <> [] -> removelast l ++ [List.last l d] = l.
Proof. intros Hl. symmetry. by apply app_removelast_last. Qed.

Lemma highs_bits_fall n k v h lo hi cs : 0 < h -> 0 < hi0 k -> 0 < hi1 k ->
  highs h (bit_cells n k v ++ adb_cell lo hi ++ cs) = h :: bit_highs n k v ++ highs hi cs.
Proof.
  intros Hh H0 H1. destruct (highs_bits n k v h (adb_cell lo hi ++ cs) Hh H0 H1) as (last & -> & Hl & ->).
  rewrite highs_cell by done. change (?a ++ ?x :: ?b) with (a ++ [x] ++ b). rewrite app_assoc.
  by rewrite removelast_last.
Qed.

Lemma highs_listen cmd payload c p : 0 < hi0 c -> 0 < hi1 c -> 0 < hi0 p -> 0 < hi1 p ->
  highs 0 (listen_r3 cmd payload c p) =
    [6000; 70] ++ bit_highs 8 c cmd ++ [hi0 c + 1400; hi1 p] ++ bit_highs 16 p payload.
Proof.
  intros C0 C1 P0 P1. unfold listen_r3, attention, byte_cells. cbn [app highs]. cbn [Z.eqb Z.ltb Z.compare].
  change (0 + 6000) with 6000. change (0 + 70) with 70. cbn [Z.ltb Z.compare Pos.compare Pos.compare_cont app].
  do 1 f_equal. rewrite highs_bits_fall by lia. cbn [highs app]. do 2 f_equal.
  change (1 =? 0) with false. cbn match.
  change (Step (lo1 p) 0 :: Step (hi1 p) 1 :: ?l) with (adb_cell (lo1 p) (hi1 p) ++ l). rewrite highs_cell by lia.
  change (Step (lo0 p) 0 :: Step (hi0 p) 1 :: ?l) with (adb_cell (lo0 p) (hi0 p) ++ l). rewrite highs_bits_fall by lia.
  reflexivity.
Qed.

Lemma bit_highs_length n k v : length (bit_highs n k v) = n.
Proof. induction n as [|n IH]; [done|]. cbn. by rewrite IH. Qed.

(** The bits of a number give it back. *)
Lemma bits_back n v a : 0 <= v -> 0 <= a ->
  fold_left (fun a (b : bool) => a * 2 + Z.b2z b) ((fun i => Z.testbit v (Z.of_nat i)) <$> rev (seq 0 n)) a =
    a * 2 ^ Z.of_nat n + v `mod` 2 ^ Z.of_nat n.
Proof.
  intros Hv. revert a. induction n as [|n IH]; intros a Ha.
  { cbn. rewrite Z.mod_1_r. lia. }
  rewrite seq_S, rev_app_distr. cbn [rev app fmap list_fmap fold_left]. rewrite Nat.add_0_l.
  assert (0 <= Z.b2z (Z.testbit v (Z.of_nat n))) by (by destruct (Z.testbit v (Z.of_nat n))). rewrite IH by lia.
  rewrite Nat2Z.inj_succ, Z.pow_succ_r by lia. set (q := 2 ^ Z.of_nat n). assert (Hq : 0 < q) by (apply Z.pow_pos_nonneg; lia).
  assert (Hm : v `mod` (2 * q) = Z.b2z (Z.testbit v (Z.of_nat n)) * q + v `mod` q).
  { rewrite (Z.mul_comm 2 q), Z.rem_mul_r by lia. rewrite Z.testbit_spec' by lia. fold q. lia. }
  rewrite Hm. ring.
Qed.

Lemma decode_bits th n k v : hi0 k <= th < hi1 k -> 0 <= v < 2 ^ Z.of_nat n -> adb_decode th (bit_highs n k v) = v.
Proof.
  intros Hth Hv. unfold adb_decode, bits_value.
  assert (E : (fun h => th <? h) <$> bit_highs n k v = (fun i => Z.testbit v (Z.of_nat i)) <$> rev (seq 0 n)).
  { clear Hv. induction n as [|n IH]; [done|]. rewrite seq_S, rev_app_distr. cbn [bit_highs rev app fmap list_fmap].
    rewrite Nat.add_0_l. f_equal; [|exact IH].
    destruct (Z.testbit v (Z.of_nat n)); [apply Z.ltb_lt; lia|apply Z.ltb_ge; lia]. }
  rewrite E, bits_back by lia. rewrite Z.mod_small by lia. lia.
Qed.

(** What the bench sends is what a device can read.  In the transaction of a listen
    command the high phases between the falls of the line are the idle time, the sync and
    then a phase for each bit; compared with any threshold that parts the zeros of the
    command from its ones, and those of the payload, the eight phases behind the sync are
    the command and the last sixteen the payload, highest bit first. *)
Theorem listen_decodes (cmd payload th : Z) (c p : Cells)
    (Hc : 0 < hi0 c <= th /\ th < hi1 c) (Hp : 0 < hi0 p <= th /\ th < hi1 p)
    (Hcmd : 0 <= cmd < 256) (Hpay : 0 <= payload < 65536) :
  let phases := highs 0 (listen_r3 cmd payload c p) in
  length phases = 28%nat /\ adb_decode th (take 8 (drop 2 phases)) = cmd /\ adb_decode th (drop 12 phases) = payload.
Proof.
  cbn zeta. rewrite highs_listen by lia. split; [by rewrite !length_app, !bit_highs_length|].
  change (drop 2 ([6000; 70] ++ ?l)) with l.
  rewrite take_app_le by (by rewrite bit_highs_length). rewrite take_ge by (by rewrite bit_highs_length).
  split; [by apply decode_bits; [lia|]|].
  rewrite app_assoc, app_assoc. rewrite drop_app_ge by (rewrite !length_app, bit_highs_length; cbn; lia).
  rewrite !length_app, bit_highs_length. cbn [length Nat.add Nat.sub drop]. by apply decode_bits; [lia|].
Qed.

Lemma listen_decodes_witness :
  adb_decode 470 (take 8 (drop 2 (highs 0 (listen_r3 0x2B 0x0FFE nominal (scaled 80))))) = 0x2B /\
  adb_decode 470 (drop 12 (highs 0 (listen_r3 0x2B 0x0FFE nominal (scaled 80)))) = 0x0FFE.
Proof.
  exact (proj2 (listen_decodes 0x2B 0x0FFE 470 nominal (scaled 80)
    ltac:(repeat split; first [reflexivity | discriminate]) ltac:(repeat split; first [reflexivity | discriminate]) ltac:(lia) ltac:(lia))).
Defined.

(** The profiles of the sweep whose payload a device with the threshold 470 reads. *)
Lemma sweep_margin :
  List.filter (fun pct => adb_decode 470 (drop 12 (highs 0 (listen_r3 0x2B 0x0FFE nominal (scaled pct)))) =? 0x0FFE) profiles =
    [80; 90; 100; 110; 120; 130].
Proof. vm_compute. reflexivity. Qed.

(** ** The clocks *)

Definition call_clocks (c : AdbCall) : Z := match c with SetReset _ => 0 | Step n _ => Z.max 0 n end.

Definition clocks_of (cs : list AdbCall) : Z := foldr Z.add 0 (call_clocks <$> cs).

Lemma iterate_clock {C} `{AdbDevice C} n (s : C * Z) : (iterate n adb_clock s).2 = u64 (s.2 + Z.of_nat n) \/ (n = 0%nat /\ iterate n adb_clock s = s).
Proof.
  induction n as [|n IH]; [by right|]. left. cbn [iterate]. unfold adb_clock at 1. cbn [snd].
  destruct IH as [->|[-> ->]]; [|by cbn]. unfold uwrap. rewrite Zplus_mod_idemp_l. f_equal. lia.
Qed.

(** The bench ends after the clocks of its calls, whatever the device does. *)
Lemma bench_clocks {C} `{AdbDevice C} (cs : list AdbCall) (c : C) (t : Z) :
  0 <= t < 2 ^ 64 -> (play cs (c, t)).2 = u64 (t + clocks_of cs).
Proof.
  revert c t. induction cs as [|x cs IH]; intros c t Ht.
  { unfold clocks_of. cbn. by rewrite Z.add_0_r, uwrap_small. }
  unfold play in *. cbn [fold_left]. unfold clocks_of in *. cbn [fmap list_fmap foldr].
  destruct x as [b|n line]; cbn [adb_call call_clocks]; [by rewrite IH|].
  pose proof (iterate_clock (Z.to_nat n) (adb_set_line line c, t)) as Hn.
  assert (E : (iterate (Z.to_nat n) adb_clock (adb_set_line line c, t)).2 = u64 (t + Z.max 0 n)).
  { destruct Hn as [->|[Hz ->]]; cbn [snd]; [f_equal; lia|]. rewrite uwrap_small; lia. }
  cbn [fst snd]. destruct (iterate _ _ _) as [c' t']. cbn [snd] in E. subst t'.
  rewrite IH by (apply (uwrap_range 64); lia). unfold uwrap. rewrite Zplus_mod_idemp_l. f_equal. lia.
Qed.

Lemma adb_main_clocks : clocks_of adb_main = 668230.
Proof. vm_compute. reflexivity. Qed.
