(* ===== verification/WalkBench.v ===== *)
(** * The benches for the kernel of the processor (verilator: ksw_bench, berr_bench)

    Two small programs for the processor with its translation unit: one switches the
    translation on and jumps through an alias, the other reads from addresses that raise bus
    errors and lets a handler continue behind them.  The bench is the memory, the bus of the
    processor and that of the walker over the tables, and it judges by what the program has
    left in the memory.

    The core is an argument.  A program is the list of the instructions that the source
    emits, one list of bytes each.  The texts that are printed, and what only they need, are
    left out; the option -v of the first bench is not, because it changes when the bench
    gives up.

    The theorems: the memory holds every block that the benches plant, none over another
    ([planted]); every branch of the second program lands on the instruction behind the mark
    that it is to skip, every call and jump between its pages lands on the stub it is meant
    for ([berr_lands]); the first bench reports success exactly if the fourth fetch of the
    alias comes before anything ends the run and the first one was at the right address
    ([ksw_passes]); both end within their limits, with code 0 or 1 ([walk_benches_end]). *)

From S2P Require Import Prelude Toolbox Preboot DiskCopy StepTests.

(** ** The core *)

Class WalkCore (C : Type) := {
  wc_reset : bool -> C -> C;
  wc_clk : bool -> C -> C;
  wc_clkena : bool -> C -> C;
  wc_data_in : Z -> C -> C;
  wc_berr : bool -> C -> C;
  wc_walker_ack : bool -> C -> C;
  wc_walker_data : Z -> C -> C;
  wc_eval : C -> C;
  wc_busstate : C -> Z;
  wc_addr_out : C -> Z;
  wc_data_write : C -> Z;
  wc_nUDS : C -> bool;
  wc_nLDS : C -> bool;
  wc_busy : C -> bool;
  wc_walker_req : C -> bool;
  wc_walker_we : C -> bool;
  wc_walker_addr : C -> Z;
  wc_walker_wdat : C -> Z;
  wc_tc_en : C -> bool;
  wc_addr_log : C -> Z;
  wc_make_berr : C -> bool;
  wc_trap_berr : C -> bool }.
#[global] Hint Mode WalkCore ! : typeclass_instances.

(** ** Memory *)

Definition ram_read32 (m : Mem) (a : Z) : Z :=
  let a := Z.land a 0xFFFFFC in
  Z.lor (Z.lor (Z.lor (u32 (Z.shiftl (m a) 24)) (Z.shiftl (m (a + 1)) 16)) (Z.shiftl (m (a + 2)) 8)) (m (a + 3)).

Definition ram_write8 (a v : Z) (m : Mem) : Mem := poke (Z.land a 0xFFFFFF) v m.

Definition ram_write32 (a v : Z) (m : Mem) : Mem :=
  ram_write8 (a + 3) v (ram_write8 (a + 2) (u8 (Z.shiftr v 8)) (ram_write8 (a + 1) (u8 (Z.shiftr v 16)) (ram_write8 a (u8 (Z.shiftr v 24)) m))).

(** Blocks of bytes, put one after the other. *)
Definition put_blocks (bs : list (Z * list Z)) (m : Mem) : Mem := fold_left (fun m b => put_bytes b.1 b.2 m) bs m.

(** Longs side by side. *)
Definition longs (l : list Z) : list Z := concat (long_bytes <$> l).

(** [move.l #$DEAD0000,($2004).L], [stop]. *)
Definition catcher : list Z := [0x23; 0xFC; 0xDE; 0xAD; 0x00; 0x00; 0x00; 0x00; 0x20; 0x04; 0x4E; 0x72; 0x27; 0x00].

(** The vectors 2 to 255. *)
Definition all_vectors (a : Z) : Z * list Z := (8, longs (replicate 254 a)).

(** A table of 16 long descriptors for pages of a megabyte, with the first words given. *)
Definition root_table (base : Z) (high : Z -> Z) : Z * list Z :=
  (base, longs (concat ((fun i => [high i; u32 (Z.shiftl i 20)]) <$> seqZ 0 16))).

(** The program of the first bench. *)
Definition ksw_program : list (list Z) := [
  [0x2A; 0x7C; 0x40; 0xA0; 0x01; 0x0E];   (* movea.l #$40A0010E,A5 *)
  [0xF0; 0x39; 0x4C; 0x00; 0x00; 0x00; 0x19; 0x00];   (* pmove ($1900).L,CRP *)
  [0xF0; 0x39; 0x40; 0x00; 0x00; 0x00; 0x19; 0x08];   (* pmove ($1908).L,TC *)
  [0x4E; 0x71];   (* nop *)
  [0x4E; 0x71];   (* nop *)
  [0xF0; 0x39; 0x40; 0x00; 0x00; 0x00; 0x19; 0x08];   (* pmove ($1908).L,TC *)
  [0x4E; 0xD5]].   (* jmp (A5) *)

Definition ksw_blocks : list (Z * list Z) :=
  [(0, longs [0x00010000; 0x00001000]);
   (0x1000, concat ksw_program);
   (0x1800, [0x4E; 0x72; 0x27; 0x00]);
   (0x1808, catcher);
   all_vectors 0x1808;
   (0x1900, longs [0x7FFF0003; 0x00003000; 0x80F84500]);
   root_table 0x3000 (fun _ => 0x7FFFFC19);
   (0xA0010E, [0x60; 0xFE])].

(** ** The first bench *)

Section Ksw.
Context {C : Type} `{WalkCore C}.

Record KswSim := MkKswSim { kw_top : C; kw_ram : Mem; kw_time : Z }.

#[export] Instance eta_KswSim : Eta KswSim := fun s => MkKswSim (kw_top s) (kw_ram s) (kw_time s).

(** The bus of the processor, as both benches serve it. *)
Definition ksw_cpu_bus (s : KswSim) : KswSim :=
  let bs := wc_busstate (kw_top s) in
  let a := wc_addr_out (kw_top s) in
  if (bs =? BS_FETCH) || (bs =? BS_READ) then s <| kw_top ::= wc_data_in (ram_read16 (kw_ram s) a) |>
  else if bs =? BS_WRITE then
    s <| kw_ram ::= ram_write16 a (wc_data_write (kw_top s)) (negb (wc_nUDS (kw_top s))) (negb (wc_nLDS (kw_top s))) |>
  else s.

(** A beat of the walker. *)
Definition walker_beat (top : C) (m : Mem) : C * Mem :=
  if wc_walker_we top then (wc_walker_ack true top, ram_write32 (wc_walker_addr top) (wc_walker_wdat top) m)
  else (wc_walker_ack true (wc_walker_data (ram_read32 m (wc_walker_addr top)) top), m).

Definition ksw_service (s : KswSim) : KswSim :=
  let s := ksw_cpu_bus s in
  if wc_walker_req (kw_top s) then
    let '(c, m) := walker_beat (kw_top s) (kw_ram s) in s <| kw_top := c |> <| kw_ram := m |>
  else s <| kw_top ::= wc_walker_ack false |>.

(** [clkena] is off while the walker has the bus. *)
Definition gate (c : C) : C := wc_clkena (negb (wc_busy c || wc_walker_req c)) c.

Definition ksw_tick (s : KswSim) : KswSim :=
  let s := s <| kw_top ::= (fun c => gate (wc_eval (wc_clk false c))) |> in
  let s := ksw_service s in
  let s := s <| kw_top ::= (fun c => wc_eval (wc_clk true (wc_eval c))) |> <| kw_time ::= (fun t => u64 (t + 1)) |> in
  (ksw_service s) <| kw_top ::= wc_eval |>.

Definition ksw_reset (c : C) : KswSim :=
  let c := wc_walker_data 0 (wc_walker_ack false (wc_data_in 0 (wc_reset true c))) in
  (iterate 32 ksw_tick (MkKswSim c (put_blocks ksw_blocks (fun _ => 0)) 0)) <| kw_top ::= wc_reset false |>.

Record KswRun := MkKswRun { mmu_on : bool; jmp_seen : Z; alias_fetched : bool; alias_phys : Z; last_activity : Z }.

#[export] Instance eta_KswRun : Eta KswRun := fun r =>
  MkKswRun (mmu_on r) (jmp_seen r) (alias_fetched r) (alias_phys r) (last_activity r).

Definition ALIAS : Z := 0x40A0010E.

Definition alias_fetch (c : C) : bool := (wc_addr_log c =? ALIAS) && (wc_busstate c =? BS_FETCH).

(** What a cycle notes. *)
Definition ksw_note (g_trace : bool) (cyc : Z) (c : C) (r : KswRun) : KswRun :=
  let r := if g_trace && wc_walker_req c then r <| last_activity := cyc |> else r in
  if wc_busstate c =? BS_IDLE then r
  else
    let r := r <| last_activity := cyc |> in
    let r := if wc_tc_en c && negb (mmu_on r) then r <| mmu_on := true |> else r in
    if alias_fetch c then
      let r := if alias_fetched r then r else r <| alias_fetched := true |> <| alias_phys := wc_addr_out c |> in
      r <| jmp_seen ::= Z.add 1 |>
    else r.

Inductive KswEnd := LoopRuns | FaultHit | Stalled | CyclesUp.

(** What ends the run behind a cycle. *)
Definition ksw_stop (cyc : Z) (s : KswSim) (r : KswRun) : option KswEnd :=
  if 4 <=? jmp_seen r then Some LoopRuns
  else if ram_read32 (kw_ram s) 0x2004 =? 0xDEAD0000 then Some FaultHit
  else if mmu_on r && (1000 <? cyc - last_activity r) then Some Stalled
  else None.

Fixpoint ksw_loop (g_trace : bool) (fuel : nat) (cyc : Z) (s : KswSim) (r : KswRun) : KswEnd * KswSim * KswRun :=
  match fuel with
  | O => (CyclesUp, s, r)
  | S fuel =>
    let s := ksw_tick s in
    let r := ksw_note g_trace cyc (kw_top s) r in
    match ksw_stop cyc s r with
    | Some e => (e, s, r)
    | None => ksw_loop g_trace fuel (cyc + 1) s r
    end
  end.

Definition KSW_CYCLES : nat := Z.to_nat 200000.

Definition ksw_main (g_trace : bool) (c : C) : Z * KswSim :=
  let '(_, s, r) := ksw_loop g_trace KSW_CYCLES 0 (ksw_reset c) (MkKswRun false 0 false 0 0) in
  (if alias_fetched r && (alias_phys r =? 0x00A0010E) && (4 <=? jmp_seen r) then 0 else 1, s).

End Ksw.
Arguments KswSim C : clear implicits.

(** The program of the second bench, up to the jump to the first page boundary. *)
Definition berr_start : list (list Z) := [
  [0x41; 0xF8; 0x20; 0x00];   (* lea $2000.w,A0 *)
  [0x21; 0xC8; 0x00; 0x08];   (* move.l A0,$8.w *)
  [0x21; 0xCF; 0x30; 0x50];   (* move.l A7,$3050.w *)
  [0x4E; 0xF9; 0x00; 0x02; 0xFF; 0xF8]].   (* jmp ($2FFF8).L *)

(** The probes without translation. *)
Definition berr_probes : list (list Z) := [
  [0x4D; 0xF9; 0x00; 0xE0; 0x00; 0x00];   (* lea $E00000,A6 *)
  [0x70; 0x5A];   (* moveq #$5A,D0 *)
  [0x20; 0x2E; 0x00; 0x3C];   (* move.l ($3c,A6),D0 *)
  [0x31; 0xFC; 0xAA; 0xAA; 0x30; 0x00];   (* move.w #$AAAA,$3000.w *)
  [0x21; 0xC0; 0x30; 0x04];   (* move.l D0,$3004.w *)
  [0x43; 0xF9; 0x00; 0xE0; 0x00; 0x40];   (* lea $E00040,A1 *)
  [0x20; 0x51];   (* movea.l (A1),A0 *)
  [0x31; 0xFC; 0xBB; 0xBB; 0x30; 0x08];   (* move.w #$BBBB,$3008.w *)
  [0x41; 0xF8; 0x20; 0x10];   (* lea $2010.w,A0 *)
  [0x21; 0xC8; 0x00; 0x08];   (* move.l A0,$8.w *)
  [0x20; 0x7C; 0x00; 0xE0; 0x00; 0x80];   (* movea.l #$E00080,A0 *)
  [0x72; 0x00];   (* moveq #0,D1 *)
  [0x4A; 0x10];   (* tst.b (A0) *)
  [0x67; 0x08];   (* beq.s +8 *)
  [0x6A; 0x06];   (* bpl.s +6 *)
  [0x31; 0xFC; 0xCC; 0x77; 0x30; 0x18];   (* move.w #$CC77,$3018.w *)
  [0x31; 0xFC; 0xCC; 0xCC; 0x30; 0x0C];   (* move.w #$CCCC,$300C.w *)
  [0x20; 0x7C; 0x00; 0xE0; 0x00; 0xC0];   (* movea.l #$E000C0,A0 *)
  [0x72; 0x00];   (* moveq #0,D1 *)
  [0x08; 0x10; 0x00; 0x06];   (* btst #$6,(A0) *)
  [0x67; 0x08];   (* beq.s +8 *)
  [0x6B; 0x06];   (* bmi.s +6 *)
  [0x31; 0xFC; 0xDD; 0x77; 0x30; 0x1C];   (* move.w #$DD77,$301C.w *)
  [0x31; 0xFC; 0xDD; 0xDD; 0x30; 0x10];   (* move.w #$DDDD,$3010.w *)
  [0x41; 0xF8; 0x20; 0x00];   (* lea $2000.w,A0 *)
  [0x21; 0xC8; 0x00; 0x08];   (* move.l A0,$8.w *)
  [0x20; 0x7C; 0x00; 0xE0; 0x01; 0x40];   (* movea.l #$E00140,A0 *)
  [0x72; 0x01];   (* moveq #1,D1 *)
  [0x4A; 0x10];   (* tst.b (A0) *)
  [0x66; 0x08];   (* bne.s +8 *)
  [0x6B; 0x06];   (* bmi.s +6 *)
  [0x31; 0xFC; 0x11; 0x77; 0x30; 0x24];   (* move.w #$1177,$3024.w *)
  [0x31; 0xFC; 0x11; 0x11; 0x30; 0x20];   (* move.w #$1111,$3020.w *)
  [0x20; 0x7C; 0x00; 0xE0; 0x01; 0x80];   (* movea.l #$E00180,A0 *)
  [0x72; 0xFF];   (* moveq #-1,D1 *)
  [0x00; 0x3C; 0x00; 0x01];   (* ori.b #1,CCR *)
  [0x08; 0x10; 0x00; 0x06];   (* btst #$6,(A0) *)
  [0x66; 0x0A];   (* bne.s +10 *)
  [0x6A; 0x08];   (* bpl.s +8 *)
  [0x64; 0x06];   (* bcc.s +6 *)
  [0x31; 0xFC; 0x22; 0x77; 0x30; 0x2C];   (* move.w #$2277,$302C.w *)
  [0x31; 0xFC; 0x22; 0x22; 0x30; 0x28];   (* move.w #$2222,$3028.w *)
  [0x74; 0x33];   (* moveq #$33,D2 *)
  [0x24; 0x39; 0x00; 0xE0; 0x02; 0x00];   (* move.l $E00200.L,D2 *)
  [0x66; 0x08];   (* bne.s +8 *)
  [0x6B; 0x06];   (* bmi.s +6 *)
  [0x31; 0xFC; 0x33; 0x77; 0x30; 0x38];   (* move.w #$3377,$3038.w *)
  [0x21; 0xC2; 0x30; 0x30];   (* move.l D2,$3030.w *)
  [0x31; 0xFC; 0x33; 0x33; 0x30; 0x34];   (* move.w #$3333,$3034.w *)
  [0x72; 0x01];   (* moveq #1,D1 *)
  [0x4A; 0x39; 0x00; 0xE0; 0x02; 0x40];   (* tst.b $E00240.L *)
  [0x66; 0x08];   (* bne.s +8 *)
  [0x6B; 0x06];   (* bmi.s +6 *)
  [0x31; 0xFC; 0x44; 0x77; 0x30; 0x40];   (* move.w #$4477,$3040.w *)
  [0x31; 0xFC; 0x44; 0x44; 0x30; 0x3C];   (* move.w #$4444,$303C.w *)
  [0x70; 0x00];   (* moveq #0,D0 *)
  [0x78; 0x5A];   (* moveq #$5A,D4 *)
  [0x18; 0x36; 0x00; 0x10];   (* move.b ($10,A6,D0.w),D4 *)
  [0x66; 0x08];   (* bne.s +8 *)
  [0x6B; 0x06];   (* bmi.s +6 *)
  [0x31; 0xFC; 0x55; 0x77; 0x30; 0x48];   (* move.w #$5577,$3048.w *)
  [0x21; 0xC4; 0x30; 0x4C];   (* move.l D4,$304C.w *)
  [0x31; 0xFC; 0x55; 0x55; 0x30; 0x44];   (* move.w #$5555,$3044.w *)
  [0x21; 0xCF; 0x30; 0x54]].   (* move.l A7,$3054.w *)

(** The probes with translation, up to the second boundary. *)
Definition berr_mmu : list (list Z) := [
  [0x21; 0xCF; 0x30; 0x58];   (* move.l A7,$3058.w *)
  [0x41; 0xF8; 0x19; 0x00];   (* lea $1900.w,A0 *)
  [0x21; 0xC8; 0x00; 0x08];   (* move.l A0,$8.w *)
  [0xF0; 0x39; 0x4C; 0x00; 0x00; 0x00; 0x1A; 0x00];   (* pmove ($1A00).L,CRP *)
  [0xF0; 0x39; 0x40; 0x00; 0x00; 0x00; 0x1A; 0x08];   (* pmove ($1A08).L,TC *)
  [0x4E; 0x71];   (* nop *)
  [0x4E; 0x71];   (* nop *)
  [0x4A; 0x38; 0x30; 0x00];   (* tst.b $3000.w *)
  [0x4E; 0x71];   (* nop *)
  [0x4E; 0x71];   (* nop *)
  [0x41; 0xF8; 0x20; 0x00];   (* lea $2000.w,A0 *)
  [0x21; 0xC8; 0x00; 0x08];   (* move.l A0,$8.w *)
  [0x20; 0x7C; 0x00; 0xD0; 0x00; 0x80];   (* movea.l #$D00080,A0 *)
  [0x72; 0x01];   (* moveq #1,D1 *)
  [0x4A; 0x10];   (* tst.b (A0) *)
  [0x66; 0x08];   (* bne.s +8 *)
  [0x6B; 0x06];   (* bmi.s +6 *)
  [0x31; 0xFC; 0x66; 0x77; 0x30; 0x64];   (* move.w #$6677,$3064.w *)
  [0x31; 0xFC; 0x66; 0x66; 0x30; 0x60];   (* move.w #$6666,$3060.w *)
  [0x43; 0xF9; 0x00; 0xD0; 0x01; 0x00];   (* lea $D00100,A1 *)
  [0x7A; 0x77];   (* moveq #$77,D5 *)
  [0x2A; 0x11];   (* move.l (A1),D5 *)
  [0x66; 0x08];   (* bne.s +8 *)
  [0x6B; 0x06];   (* bmi.s +6 *)
  [0x31; 0xFC; 0x77; 0x88; 0x30; 0x6C];   (* move.w #$7788,$306C.w *)
  [0x21; 0xC5; 0x30; 0x70];   (* move.l D5,$3070.w *)
  [0x31; 0xFC; 0x77; 0x77; 0x30; 0x68];   (* move.w #$7777,$3068.w *)
  [0x21; 0xCF; 0x30; 0x74];   (* move.l A7,$3074.w *)
  [0x21; 0xCF; 0x30; 0x84];   (* move.l A7,$3084.w *)
  [0x2E; 0x7C; 0x00; 0x04; 0x80; 0x00];   (* movea.l #$48000,A7 *)
  [0x2F; 0x7C; 0x00; 0x00; 0x19; 0x00; 0xFF; 0xFC];   (* move.l #$1900,(-$4,A7) *)
  [0x4E; 0xF9; 0x00; 0x00; 0xFF; 0xF8]].   (* jmp ($FFF8).L *)

(** The jump to the cold page. *)
Definition berr_cold : list (list Z) := [
  [0x4E; 0xF9; 0x00; 0x01; 0x80; 0x20]].   (* jmp ($18020).L *)

(** The last probe. *)
Definition berr_last : list (list Z) := [
  [0x20; 0x39; 0x00; 0xE0; 0x01; 0x00];   (* move.l $E00100,D0 *)
  [0x31; 0xFC; 0xEE; 0xEE; 0x30; 0x14];   (* move.w #$EEEE,$3014.w *)
  [0x4E; 0x72; 0x27; 0x00]].   (* stop #$2700 *)

Definition berr_program : list (list Z) := berr_start ++ berr_probes ++ berr_mmu ++ berr_cold ++ berr_last.

Definition bytes_of (l : list (list Z)) : Z := Z.of_nat (length (concat l)).

(** Where the stubs jump back to. *)
Definition cont13b : Z := 0x1000 + bytes_of berr_start.
Definition cont_addr : Z := 0x1000 + bytes_of (berr_start ++ berr_probes ++ berr_mmu).
Definition cont13c : Z := cont_addr + bytes_of berr_cold.

Definition jmp (a : Z) : list Z := [0x4E; 0xF9] ++ long_bytes a.

Definition berr_blocks : list (Z * list Z) :=
  [(0, longs [0x00010000; 0x00001000]);
   (0x1900, catcher);
   all_vectors 0x1900;
   (0x1000, concat berr_program);
   (0x1A00, longs [0x7FFF0003; 0x00004000; 0x80F84500]);
   root_table 0x4000 (fun i => if i =? 0xD then 0x7FFFFC18 else 0x7FFFFC19);
   (0x2000, [0x02; 0x6F; 0xFE; 0xFF; 0x00; 0x0A; 0x42; 0xAF; 0x00; 0x2C; 0x4E; 0x73]);
   (0x2010, [0x02; 0x6F; 0xFE; 0xFF; 0x00; 0x0A; 0x70; 0xFF; 0x2F; 0x40; 0x00; 0x2C; 0x4E; 0x73]);
   (0xFFF8, [0x4E; 0x71; 0x4E; 0x71; 0x61; 0x00; 0x01; 0x02]);
   (0x10000, [0x31; 0xFC; 0x7A; 0x7A; 0x30; 0x88; 0x2E; 0x78; 0x30; 0x84] ++ jmp cont_addr);
   (0x10100, [0x21; 0xD7; 0x30; 0x80; 0x4E; 0x75]);
   (0x2FFF8, [0x4E; 0x71; 0x4E; 0x71; 0x61; 0x00; 0x01; 0x02]);
   (0x30000, [0x31; 0xFC; 0x7B; 0x7B; 0x30; 0x8C] ++ jmp cont13b);
   (0x30100, [0x21; 0xD7; 0x30; 0x90; 0x4E; 0x75]);
   (0x18020, [0x61; 0x00; 0x7F; 0xDE; 0x31; 0xFC; 0x7C; 0x7C; 0x30; 0x94] ++ jmp cont13c);
   (0x20000, [0x21; 0xD7; 0x30; 0x98; 0x4E; 0x75])].

(** ** The second bench *)

Section Berr.
Context {C : Type} `{WalkCore C}.
Variable walk_delay : Z.

Record BerrSim := MkBerrSim {
  be_top : C; be_ram : Mem; be_time : Z; berr_pend : bool; wcnt : Z; mberr_edges : Z; mberr_d : bool }.

#[export] Instance eta_BerrSim : Eta BerrSim := fun s =>
  MkBerrSim (be_top s) (be_ram s) (be_time s) (berr_pend s) (wcnt s) (mberr_edges s) (mberr_d s).

Definition bad_addr (a : Z) : bool := (0xE00000 <=? Z.land a 0xFFFFFF) && (Z.land a 0xFFFFFF <? 0xF00000).

Definition berr_cpu_bus (s : BerrSim) : BerrSim :=
  let bs := wc_busstate (be_top s) in
  let a := wc_addr_out (be_top s) in
  if (bs =? BS_FETCH) || (bs =? BS_READ) then
    s <| be_top ::= wc_data_in (if bad_addr a then 0xDEAD else ram_read16 (be_ram s) a) |>
  else if (bs =? BS_WRITE) && negb (bad_addr a) then
    s <| be_ram ::= ram_write16 a (wc_data_write (be_top s)) (negb (wc_nUDS (be_top s))) (negb (wc_nLDS (be_top s))) |>
  else s.

(** An access to a bad address raises the bus error; the core's answer lowers it. *)
Definition berr_line (s : BerrSim) : BerrSim :=
  let bs := wc_busstate (be_top s) in
  let bad := bad_addr (wc_addr_out (be_top s)) in
  let s := if ((bs =? BS_READ) || (bs =? BS_WRITE) || (bs =? BS_FETCH)) && bad then s <| berr_pend := true |> else s in
  let s := if wc_make_berr (be_top s) || wc_trap_berr (be_top s) then s <| berr_pend := false |> else s in
  s <| be_top ::= wc_berr (berr_pend s) |>.

Definition berr_walker (s : BerrSim) : BerrSim :=
  if wc_walker_req (be_top s) then
    if 0 <? wcnt s then s <| wcnt ::= (fun n => n - 1) |> <| be_top ::= wc_walker_ack false |>
    else let '(c, m) := walker_beat (be_top s) (be_ram s) in s <| be_top := c |> <| be_ram := m |> <| wcnt := walk_delay |>
  else s <| be_top ::= wc_walker_ack false |> <| wcnt := walk_delay |>.

Definition berr_service (s : BerrSim) : BerrSim := berr_walker (berr_line (berr_cpu_bus s)).

Definition berr_tick (s : BerrSim) : BerrSim :=
  let s := s <| be_top ::= (fun c => gate (wc_eval (wc_clk false c))) |> in
  let s := berr_service s in
  let s := s <| be_top ::= (fun c => wc_eval (wc_clk true (wc_eval c))) |> <| be_time ::= (fun t => u64 (t + 1)) |> in
  let s := (berr_service s) <| be_top ::= wc_eval |> in
  let made := wc_make_berr (be_top s) in
  let s := if made && negb (mberr_d s) then s <| mberr_edges ::= Z.add 1 |> else s in
  s <| mberr_d := made |>.

Definition berr_reset (c : C) : BerrSim :=
  let c := wc_walker_data 0 (wc_walker_ack false (wc_berr false (wc_data_in 0 (wc_reset true c)))) in
  (iterate 32 berr_tick (MkBerrSim c (put_blocks berr_blocks (fun _ => 0)) 0 false walk_delay 0 false))
    <| be_top ::= wc_reset false |>.

(** Whether the catcher was reached, and the state at the end. *)
Fixpoint berr_loop (fuel : nat) (s : BerrSim) : bool * BerrSim :=
  match fuel with
  | O => (false, s)
  | S fuel =>
    let s := berr_tick s in
    if ram_read32 (be_ram s) 0x2004 =? 0xDEAD0000 then (true, s)
    else if ram_read16 (be_ram s) 0x3014 =? 0xEEEE then (false, iterate 200 berr_tick s)
    else berr_loop fuel s
  end.

Definition BERR_CYCLES : nat := Z.to_nat 300000.

(** The words that the probes leave, and the longs. *)
Definition resume_marks : list (Z * Z) :=
  [(0x3000, 0xAAAA); (0x3008, 0xBBBB); (0x300C, 0xCCCC); (0x3010, 0xDDDD); (0x3020, 0x1111); (0x3028, 0x2222);
   (0x3034, 0x3333); (0x303C, 0x4444); (0x3044, 0x5555); (0x3014, 0xEEEE)].
Definition flag_marks : list (Z * Z) :=
  [(0x3018, 0xCC77); (0x301C, 0xDD77); (0x3024, 0x1177); (0x302C, 0x2277); (0x3038, 0x3377); (0x3040, 0x4477); (0x3048, 0x5577)].
Definition pmmu_marks : list (Z * Z) := [(0x3060, 0x6666); (0x3064, 0x6677); (0x3068, 0x7777); (0x306C, 0x7788)].

Definition marked (m : Mem) (l : list (Z * Z)) : bool := forallb (fun p => ram_read16 m p.1 =? p.2) l.

Definition berr_ok (caught : bool) (s : BerrSim) : bool :=
  let m := be_ram s in
  let long a := ram_read32 m a in
  let resume_ok := marked m resume_marks in
  let flags_ok := marked m flag_marks && (long 0x3030 =? 0) && (long 0x304C =? 0) in
  let pmmu_ok := marked m pmmu_marks && (long 0x3070 =? 0) in
  let a7_ok := (long 0x3054 =? long 0x3050) && (long 0x3074 =? long 0x3058) in
  resume_ok && flags_ok && pmmu_ok && a7_ok && negb caught && (mberr_edges s =? 10) &&
  (long 0x3090 =? 0x30000) && (ram_read16 m 0x308C =? 0x7B7B) && (long 0x3098 =? 0x18024) && (ram_read16 m 0x3094 =? 0x7C7C).

Definition berr_main (c : C) : Z * BerrSim :=
  let '(caught, s) := berr_loop BERR_CYCLES (berr_reset c) in
  (if berr_ok caught s then 0 else 1, s).

End Berr.
Arguments BerrSim C : clear implicits.

(** ** What is planted *)

(** Blocks that do not meet. *)
Definition apart (b c : Z * list Z) : bool :=
  (b.1 + Z.of_nat (length b.2) <=? c.1) || (c.1 + Z.of_nat (length c.2) <=? b.1).

Fixpoint all_apart (bs : list (Z * list Z)) : bool :=
  match bs with [] => true | b :: bs => forallb (apart b) bs && all_apart bs end.

(** The byte [i] of a block is in the memory. *)
Definition holds (m : Mem) (b : Z * list Z) : Prop := forall i, (i < length b.2)%nat -> m (b.1 + Z.of_nat i) = u8 (byte b.2 i).

Lemma put_blocks_other bs : forall m b, forallb (apart b) bs = true -> forall i, (i < length b.2)%nat ->
  put_blocks bs m (b.1 + Z.of_nat i) = m (b.1 + Z.of_nat i).
Proof.
  induction bs as [|c bs IH]; intros m b Ha i Hi; [done|]. cbn [forallb] in Ha. apply andb_prop in Ha as [Hc Ha].
  unfold put_blocks in *. cbn [fold_left]. rewrite (IH _ b Ha i Hi), put_bytes_at.
  apply orb_prop in Hc. rewrite !Z.leb_le in Hc. by rewrite bool_decide_eq_false_2 by lia.
Qed.

Lemma put_blocks_hold bs : forall m, all_apart bs = true -> Forall (holds (put_blocks bs m)) bs.
Proof.
  induction bs as [|b bs IH]; intros m Ha; [done|]. cbn [all_apart] in Ha. apply andb_prop in Ha as [Hb Ha].
  unfold put_blocks in *. cbn [fold_left]. constructor; [|by apply IH].
  intros i Hi. rewrite (put_blocks_other bs _ b Hb i Hi), put_bytes_at. rewrite bool_decide_eq_true_2 by lia.
  do 2 f_equal. lia.
Qed.

(** The benches plant what they mean to.  The memory that each bench starts the
    processor on holds every block that it writes - program, vectors, tables, handlers and
    stubs - byte for byte, none overwritten by another. *)
Theorem planted :
  Forall (holds (put_blocks ksw_blocks (fun _ => 0))) ksw_blocks /\
  Forall (holds (put_blocks berr_blocks (fun _ => 0))) berr_blocks.
Proof. split; apply put_blocks_hold; vm_compute; reflexivity. Qed.

(** *** Branches and calls *)

(** The instructions that a branch over [d] bytes skips. *)
Fixpoint skipped (d : nat) (l : list (list Z)) : option (list (list Z)) :=
  match d, l with
  | O, _ => Some []
  | _, [] => None
  | _, i :: l => if (length i <=? d)%nat then cons i <$> skipped (d - length i) l else None
  end.

Definition is_mark (i : list Z) : bool := (byte i 0 =? 0x31) && (byte i 1 =? 0xFC).

(** A short conditional branch skips whole instructions, and the last is a mark. *)
Definition branch_ok (i : list Z) (rest : list (list Z)) : bool :=
  if (length i =? 2)%nat && (0x62 <=? byte i 0) && (byte i 0 <=? 0x6F) then
    match skipped (Z.to_nat (byte i 1)) rest with Some sk => is_mark (List.last sk []) | None => false end
  else true.

Fixpoint branches_ok (l : list (list Z)) : bool :=
  match l with [] => true | i :: l => branch_ok i l && branches_ok l end.

Definition long_of (m : Mem) (a : Z) : Z := ram_read16 m a * 65536 + ram_read16 m (a + 2).

(** At [a] stands a jump to [b]. *)
Definition jumps_to (m : Mem) (a b : Z) : bool := (ram_read16 m a =? 0x4EF9) && (long_of m (a + 2) =? b).

(** At [a] stands a call of [b]; there the return address is stored at [slot] and popped. *)
Definition calls_peek (m : Mem) (a b slot : Z) : bool :=
  (ram_read16 m a =? 0x6100) && (a + 2 + s16 (ram_read16 m (a + 2)) =? b) &&
  (ram_read16 m b =? 0x21D7) && (ram_read16 m (b + 2) =? slot) && (ram_read16 m (b + 4) =? 0x4E75).

(** The pages of 32 KB. *)
Definition same_page (a b : Z) : bool := a / 0x8000 =? b / 0x8000.

(** The control flow of the second program is the intended one.  Each of its
    conditional branches skips whole instructions up to a mark of the flags; its three
    detours are entered by a jump in the program, call a stub that stores the return
    address, and come back to the instruction behind that jump; the two calls at the end of
    a page have their return address on the next page, and the third stays within its own. *)
Theorem berr_lands :
  let m := put_blocks berr_blocks (fun _ => 0) in
  branches_ok berr_program = true /\
  (jumps_to m (cont13b - 6) 0x2FFF8 && calls_peek m 0x2FFFC 0x30100 0x3090 && jumps_to m 0x30006 cont13b = true /\
   negb (same_page 0x2FFFC (0x2FFFC + 4)) = true) /\
  (jumps_to m (cont_addr - 6) 0xFFF8 && calls_peek m 0xFFFC 0x10100 0x3080 && jumps_to m 0x1000A cont_addr = true /\
   negb (same_page 0xFFFC (0xFFFC + 4)) = true) /\
  (jumps_to m (cont13c - 6) 0x18020 && calls_peek m 0x18020 0x20000 0x3098 && jumps_to m 0x1802A cont13c = true /\
   same_page 0x18020 (0x18020 + 4) = true).
Proof. cbn zeta. split_and!; vm_compute; reflexivity. Qed.

(** ** The first bench *)

Section KswFacts.
Context {C : Type} `{WalkCore C}.
Variables (g_trace : bool) (c : C).

(** The bench after [n] cycles, and what it has noted. *)
Definition ksw_at (n : nat) : KswSim C := iterate n ksw_tick (ksw_reset c).

Fixpoint notes (n : nat) : KswRun :=
  match n with
  | O => MkKswRun false 0 false 0 0
  | S n => ksw_note g_trace (Z.of_nat n) (kw_top (ksw_at (S n))) (notes n)
  end.

Definition ksw_stops (n : nat) : option KswEnd := ksw_stop (Z.of_nat n) (ksw_at (S n)) (notes (S n)).

(** The cycles below [n] in which the alias is fetched. *)
Definition alias_cycles (n : nat) : list nat := List.filter (fun k => alias_fetch (kw_top (ksw_at (S k)))) (seq 0 n).

Lemma alias_cycles_S n :
  alias_cycles (S n) = alias_cycles n ++ (if alias_fetch (kw_top (ksw_at (S n))) then [n] else []).
Proof. unfold alias_cycles. rewrite seq_S, List.filter_app. cbn [List.filter Nat.add]. by destruct (alias_fetch _). Qed.

(** What a cycle notes of the alias. *)
Lemma note_alias cyc (t : C) r :
  let r' := ksw_note g_trace cyc t r in
  jmp_seen r' = jmp_seen r + (if alias_fetch t then 1 else 0) /\
  alias_fetched r' = alias_fetched r || alias_fetch t /\
  alias_phys r' = if negb (alias_fetched r) && alias_fetch t then wc_addr_out t else alias_phys r.
Proof.
  cbn zeta. unfold ksw_note. destruct (alias_fetch t) eqn:Ea.
  - assert (Eb : (wc_busstate t =? BS_IDLE) = false).
    { unfold alias_fetch in Ea. apply andb_prop in Ea as [_ Ea]. apply Z.eqb_eq in Ea. by rewrite Ea. }
    rewrite Eb. destruct (g_trace && _), (wc_tc_en t && _), r as [? ? [] ? ?]; cbn; split_and!; try done; lia.
  - rewrite orb_false_r, andb_false_r, Z.add_0_r. destruct (g_trace && _), (wc_busstate t =? BS_IDLE); try done; destruct (wc_tc_en t && _); done.
Qed.

Lemma notes_alias n :
  jmp_seen (notes n) = Z.of_nat (length (alias_cycles n)) /\
  alias_fetched (notes n) = negb (length (alias_cycles n) =? 0)%nat /\
  alias_phys (notes n) = match alias_cycles n with [] => 0 | k :: _ => wc_addr_out (kw_top (ksw_at (S k))) end.
Proof.
  induction n as [|n (IHj & IHf & IHp)]; [done|]. cbn [notes].
  pose proof (note_alias (Z.of_nat n) (kw_top (ksw_at (S n))) (notes n)) as (-> & -> & ->).
  rewrite IHj, IHf, IHp, alias_cycles_S, length_app. destruct (alias_fetch _).
  - cbn [length]. split; [lia|]. destruct (alias_cycles n); done.
  - cbn [length]. rewrite andb_false_r, orb_false_r, app_nil_r, Nat.add_0_r. split; [lia|done].
Qed.

(** The loop from a cycle on: it ends at the first cycle that stops it, or with its last. *)
Lemma loop_from fuel : forall n,
  let '(e, s, r) := ksw_loop g_trace fuel (Z.of_nat n) (ksw_at n) (notes n) in
  (e = CyclesUp /\ r = notes (n + fuel) /\ forall k, (n <= k < n + fuel)%nat -> ksw_stops k = None) \/
  (exists k, (n <= k < n + fuel)%nat /\ ksw_stops k = Some e /\ r = notes (S k) /\ forall j, (n <= j < k)%nat -> ksw_stops j = None).
Proof.
  induction fuel as [|fuel IH]; intros n; cbn [ksw_loop].
  { left. split; [done|]. rewrite Nat.add_0_r. split; [done|]. intros k Hk. lia. }
  change (ksw_tick (ksw_at n)) with (ksw_at (S n)).
  change (ksw_note g_trace (Z.of_nat n) (kw_top (ksw_at (S n))) (notes n)) with (notes (S n)).
  change (ksw_stop (Z.of_nat n) (ksw_at (S n)) (notes (S n))) with (ksw_stops n). destruct (ksw_stops n) as [e|] eqn:E.
  - right. exists n. split; [lia|]. split; [done|]. split; [done|]. intros j Hj. lia.
  - replace (Z.of_nat n + 1) with (Z.of_nat (S n)) by lia. specialize (IH (S n)).
    destruct (ksw_loop _ _ _ _ _) as [[e s] r]. destruct IH as [(-> & -> & Hk)|(k & Hk & Ek & -> & Hj)].
    + left. split; [done|]. split; [f_equal; lia|]. intros k Hk'. destruct (decide (k = n)) as [->|]; [done|apply Hk; lia].
    + right. exists k. split; [lia|]. split; [done|]. split; [done|]. intros j Hj'.
      destruct (decide (j = n)) as [->|]; [done|apply Hj; lia].
Qed.

Lemma stops_none n : ksw_stops n = None -> (length (alias_cycles (S n)) < 4)%nat.
Proof.
  unfold ksw_stops, ksw_stop. destruct (4 <=? jmp_seen (notes (S n))) eqn:E; [done|]. apply Z.leb_gt in E.
  rewrite (proj1 (notes_alias _)) in E. intros _. lia.
Qed.

Lemma stops_runs n e : ksw_stops n = Some e -> (e = LoopRuns <-> (4 <= length (alias_cycles (S n)))%nat).
Proof.
  unfold ksw_stops, ksw_stop. rewrite (proj1 (notes_alias _)). destruct (4 <=? Z.of_nat _) eqn:E.
  - intros [= <-]. apply Z.leb_le in E. split; [lia|done].
  - apply Z.leb_gt in E. destruct (_ =? _); [intros [= <-]; split; [done|lia]|].
    destruct (_ && _); [intros [= <-]; split; [done|lia]|done].
Qed.

Lemma alias_step n : (length (alias_cycles (S n)) <= S (length (alias_cycles n)))%nat.
Proof. rewrite alias_cycles_S, length_app. destruct (alias_fetch _); cbn; lia. Qed.

(** The number of fetches before the first stop. *)
Lemma alias_before n : (forall k, (k < n)%nat -> ksw_stops k = None) -> (length (alias_cycles n) < 4)%nat.
Proof. intros Hn. destruct n as [|n]; [cbn; lia|]. apply stops_none, Hn. lia. Qed.

(** C36: what success of the first bench means.  It returns 0 exactly if in some cycle below its
    limit the alias is fetched for the fourth time, no cycle before has ended the run - by
    the mark of the catcher or by a thousand cycles without activity after the translation
    was switched on - and the first of the four fetches had the address that the alias
    should translate to on the bus. *)
Theorem ksw_passes :
  (ksw_main g_trace c).1 = 0 <->
  exists n, (n < KSW_CYCLES)%nat /\ (forall k, (k < n)%nat -> ksw_stops k = None) /\
    exists k0 k1 k2, alias_cycles (S n) = [k0; k1; k2; n] /\ wc_addr_out (kw_top (ksw_at (S k0))) = 0x00A0010E.
Proof.
  unfold ksw_main. pose proof (loop_from KSW_CYCLES 0) as Hl.
  change (ksw_at 0) with (ksw_reset c) in Hl. change (notes 0) with (MkKswRun false 0 false 0 0) in Hl.
  change (Z.of_nat 0) with 0 in Hl. destruct (ksw_loop _ _ _ _ _) as [[e s] r]. cbn [fst].
  assert (Hcode : forall k, r = notes k -> (if alias_fetched r && (alias_phys r =? 0xA0010E) && (4 <=? jmp_seen r) then 0 else 1) = 0 <->
    (4 <= length (alias_cycles k))%nat /\ exists k0, head (alias_cycles k) = Some k0 /\ wc_addr_out (kw_top (ksw_at (S k0))) = 0xA0010E).
  { intros k ->. destruct (notes_alias k) as (-> & -> & ->). destruct (alias_cycles k) as [|k0 l].
    - cbn. split; [done|]. intros [Hk _]. lia.
    - cbn [length Nat.eqb negb andb head]. destruct (Z.eqb_spec (wc_addr_out (kw_top (ksw_at (S k0)))) 0xA0010E) as [E|E]; cbn [andb].
      + destruct (Z.leb_spec 4 (Z.of_nat (S (length l)))); [|split; [done|intros [? _]; lia]].
        split; [|done]. intros _. split; [lia|]. by exists k0.
      + split; [done|]. intros (_ & k1 & [= ->] & ?). done. }
  destruct Hl as [(-> & -> & Hk)|(n & Hn & En & -> & Hj)]; rewrite (Hcode _ eq_refl).
  - split.
    + intros [Hlen _]. pose proof (alias_before (0 + KSW_CYCLES) (fun k Hk' => Hk k ltac:(lia))). lia.
    + intros (n & Hn & _ & k0 & k1 & k2 & E & _). pose proof (stops_none n (Hk n ltac:(lia))) as Hs. rewrite E in Hs. cbn in Hs. lia.
  - assert (Hb : (length (alias_cycles n) < 4)%nat) by (apply alias_before; intros k Hk; apply Hj; lia).
    split.
    + intros (Hlen & k0 & Hh & Ha). exists n. split; [lia|]. split; [intros k Hk; apply Hj; lia|].
      pose proof (alias_cycles_S n) as Es. destruct (alias_fetch (kw_top (ksw_at (S n)))).
      * rewrite Es, length_app in Hlen. cbn [length] in Hlen.
        destruct (alias_cycles n) as [|a [|b [|d [|? ?]]]]; cbn [length] in *; try lia.
        rewrite Es in Hh. injection Hh as ->. by exists k0, b, d.
      * rewrite app_nil_r in Es. rewrite Es in Hlen. lia.
    + intros (n' & Hn' & Hj' & k0 & k1 & k2 & E & Ha).
      assert (n' = n) as ->.
      { destruct (lt_eq_lt_dec n' n) as [[Hlt| ->]|Hgt]; [|done|].
        - pose proof (stops_none n' (Hj n' ltac:(lia))) as Hs. rewrite E in Hs. cbn in Hs. lia.
        - rewrite (Hj' n Hgt) in En. discriminate En. }
      rewrite E. split; [cbn; lia|]. by exists k0.
Qed.

End KswFacts.

(** ** Both benches end *)

Section Ends.
Context {C : Type} `{WalkCore C}.
Variable walk_delay : Z.

Lemma ksw_service_time (s : KswSim C) : kw_time (ksw_service s) = kw_time s.
Proof.
  assert (E : kw_time (ksw_cpu_bus s) = kw_time s) by (unfold ksw_cpu_bus; repeat case_match; done).
  unfold ksw_service. destruct (wc_walker_req _); [|done]. by destruct (walker_beat _ _).
Qed.

Lemma ksw_tick_time (s : KswSim C) : kw_time (ksw_tick s) = u64 (kw_time s + 1).
Proof. unfold ksw_tick. cbn. rewrite ksw_service_time. cbn. by rewrite ksw_service_time. Qed.

Lemma berr_service_time (s : BerrSim C) : be_time (berr_service walk_delay s) = be_time s.
Proof.
  unfold berr_service.
  assert (E1 : be_time (berr_cpu_bus s) = be_time s) by (unfold berr_cpu_bus; repeat case_match; done).
  rewrite <- E1. generalize (berr_cpu_bus s). intros s1.
  assert (E2 : be_time (berr_line s1) = be_time s1) by (unfold berr_line; repeat case_match; done).
  rewrite <- E2. generalize (berr_line s1). intros s2. unfold berr_walker. destruct (wc_walker_req _); [|done].
  destruct (0 <? wcnt s2); [done|]. by destruct (walker_beat _ _).
Qed.

Lemma berr_tick_time (s : BerrSim C) : be_time (berr_tick walk_delay s) = u64 (be_time s + 1).
Proof.
  unfold berr_tick. cbn zeta. destruct (_ && _); cbn; rewrite berr_service_time; cbn; by rewrite berr_service_time.
Qed.

Lemma iterate_time {S} (time : S -> Z) (f : S -> S) n s t :
  (forall s, time (f s) = u64 (time s + 1)) -> time s = u64 t -> time (iterate n f s) = u64 (t + Z.of_nat n).
Proof.
  intros Hf Hs. induction n as [|n IH]; [by rewrite Z.add_0_r|]. cbn [iterate]. rewrite Hf, IH.
  unfold uwrap. rewrite Zplus_mod_idemp_l. f_equal. lia.
Qed.

Lemma set_top_time (s : BerrSim C) f : be_time (s <| be_top ::= f |>) = be_time s.
Proof. reflexivity. Qed.

Lemma berr_reset_time (c : C) : be_time (berr_reset walk_delay c) = u64 32.
Proof.
  unfold berr_reset. rewrite set_top_time.
  rewrite (iterate_time be_time (berr_tick walk_delay) 32 _ 0 berr_tick_time); reflexivity.
Qed.

Lemma ksw_reset_time (c : C) : kw_time (ksw_reset c) = u64 32.
Proof.
  unfold ksw_reset. set (s0 := MkKswSim _ _ _). set (s1 := iterate 32 ksw_tick s0). change (kw_time s1 = u64 32).
  apply (iterate_time kw_time ksw_tick 32 s0 0 ksw_tick_time). reflexivity.
Qed.

Lemma ksw_loop_time g_trace fuel : forall cyc (s : KswSim C) r t, kw_time s = u64 t ->
  let '(_, s', _) := ksw_loop g_trace fuel cyc s r in exists n, 0 <= n <= Z.of_nat fuel /\ kw_time s' = u64 (t + n).
Proof.
  induction fuel as [|fuel IH]; intros cyc s r t Ht; cbn [ksw_loop]; [exists 0; split; [lia|by rewrite Z.add_0_r]|].
  assert (E : kw_time (ksw_tick s) = u64 (t + 1)).
  { rewrite ksw_tick_time, Ht. unfold uwrap. by rewrite Zplus_mod_idemp_l. }
  destruct (ksw_stop _ _ _); [exists 1; split; [lia|done]|].
  specialize (IH (cyc + 1) (ksw_tick s) (ksw_note g_trace cyc (kw_top (ksw_tick s)) r) (t + 1) E).
  destruct (ksw_loop _ _ _ _ _) as [[e s'] r']. destruct IH as (n & Hn & ->). exists (n + 1). split; [lia|]. f_equal. lia.
Qed.

Lemma berr_loop_time fuel : forall (s : BerrSim C) t, be_time s = u64 t ->
  exists n, 0 <= n <= Z.of_nat fuel + 200 /\ be_time (berr_loop walk_delay fuel s).2 = u64 (t + n).
Proof.
  induction fuel as [|fuel IH]; intros s t Ht; cbn [berr_loop]; [exists 0; split; [lia|by rewrite Z.add_0_r]|].
  assert (E : be_time (berr_tick walk_delay s) = u64 (t + 1)).
  { rewrite berr_tick_time, Ht. unfold uwrap. by rewrite Zplus_mod_idemp_l. }
  destruct (_ =? _); [exists 1; split; [lia|done]|]. destruct (_ =? _).
  - exists 201. split; [lia|]. cbn [snd]. rewrite (iterate_time be_time _ 200 _ (t + 1) berr_tick_time E). f_equal. lia.
  - destruct (IH _ _ E) as (n & Hn & ->). exists (n + 1). split; [lia|]. f_equal. lia.
Qed.

(** Both benches end, whatever the core does: with the code 0 or 1, after the 32 clocks of
    the reset and at most 200000 clocks, or 300000 and 200 behind the last mark. *)
Theorem walk_benches_end (g_trace : bool) (c : C) :
  (let '(code, s) := ksw_main g_trace c in
   (code = 0 \/ code = 1) /\ exists n, 0 <= n <= 200000 /\ kw_time s = u64 (32 + n)) /\
  (let '(code, s) := berr_main walk_delay c in
   (code = 0 \/ code = 1) /\ exists n, 0 <= n <= 300200 /\ be_time s = u64 (32 + n)).
Proof.
  split.
  - unfold ksw_main. pose proof (ksw_loop_time g_trace KSW_CYCLES 0 (ksw_reset c) (MkKswRun false 0 false 0 0) 32) as Hl.
    destruct (ksw_loop _ _ _ _ _) as [[e s] r]. split; [destruct (_ && _); [by left|by right]|].
    destruct Hl as (n & Hn & ->); [|exists n; split; [unfold KSW_CYCLES in Hn; lia|done]].
    apply ksw_reset_time.
  - unfold berr_main. destruct (berr_loop_time BERR_CYCLES (berr_reset walk_delay c) 32) as (n & Hn & E).
    { by apply berr_reset_time. }
    destruct (berr_loop _ _ _) as [caught s]. split; [destruct (berr_ok _ _); [by left|by right]|].
    exists n. split; [unfold BERR_CYCLES in Hn; lia|exact E].
Qed.

End Ends.
