(* ===== verification/PmmuUnit.v ===== *)
(** * The bench for the translation unit (verilator/pmmu_bench/pmmu_bench.cpp)

    The bench writes the registers of the unit, serves its reads of descriptors from a map,
    and asks it for four translations.

    The unit is an argument: a function of its input pins, the record [PmmuIn], and the
    output pins that the bench reads.  The trace that is printed is left out.

    The theorems: a translation ends with the look at the pins that is the third in a row at
    which the unit is idle again, or with the last of 400, and its result is the address on
    the pins then ([translate_ends]); the bench ends with the code 0 whatever it finds
    ([bench_returns_zero]). *)

From stdpp Require Import gmap.
From S2P Require Import Prelude.

(** ** The unit *)

Record PmmuIn := MkPmmuIn {
  nreset : bool; cpu_reset : bool; clk : bool;
  reg_we : bool; reg_re : bool; reg_sel : Z; reg_wdat : Z; reg_part : Z; reg_fd : Z;
  ptest_req : bool; pflush_req : bool; pload_req : bool; pmmu_fc : Z; pmmu_addr : Z; pmmu_brief : Z;
  req : bool; is_insn : Z; rw : Z; rmw : Z; fc : Z; addr_log : Z;
  mem_ack : bool; mem_berr : bool; mem_rdat : Z; mmu_config_ack : bool; mmudis : bool }.

#[export] Instance eta_PmmuIn : Eta PmmuIn := fun p => MkPmmuIn
  (nreset p) (cpu_reset p) (clk p) (reg_we p) (reg_re p) (reg_sel p) (reg_wdat p) (reg_part p) (reg_fd p)
  (ptest_req p) (pflush_req p) (pload_req p) (pmmu_fc p) (pmmu_addr p) (pmmu_brief p)
  (req p) (is_insn p) (rw p) (rmw p) (fc p) (addr_log p)
  (mem_ack p) (mem_berr p) (mem_rdat p) (mmu_config_ack p) (mmudis p).

Class Pmmu (C : Type) := {
  pmmu_eval : PmmuIn -> C -> C;
  mem_req : C -> bool;
  mem_we : C -> bool;
  mem_addr : C -> Z;
  mem_wdat : C -> Z;
  busy : C -> bool;
  debug_wstate : C -> Z;
  addr_phys : C -> Z }.
#[global] Hint Mode Pmmu ! : typeclass_instances.

(** ** The bench *)

Definition g_mem_default : Z := 0xDEADBEEF.

(** [a & ~3u] *)
Definition long_addr (a : Z) : Z := Z.land a 0xFFFFFFFC.

Definition mem_lookup (g : gmap Z Z) (a : Z) : Z := default g_mem_default (g !! long_addr a).

Section Bench.
Context {C : Type} `{Pmmu C}.

Record PmmuSim := MkPmmuSim { pins : PmmuIn; unit_state : C; g_mem : gmap Z Z; pu_time : Z }.

#[export] Instance eta_PmmuSim : Eta PmmuSim := fun s => MkPmmuSim (pins s) (unit_state s) (g_mem s) (pu_time s).

Definition drive_pins (f : PmmuIn -> PmmuIn) (s : PmmuSim) : PmmuSim := s <| pins ::= f |>.
Definition evaluate (s : PmmuSim) : PmmuSim := s <| unit_state ::= pmmu_eval (pins s) |>.

(** A request of the walker. *)
Definition serve_walker (s : PmmuSim) : PmmuSim :=
  let c := unit_state s in
  if mem_req c then
    let s := if mem_we c then s <| g_mem ::= <[long_addr (mem_addr c) := mem_wdat c]> |>
             else drive_pins (fun p => p <| mem_rdat := mem_lookup (g_mem s) (mem_addr c) |>) s in
    drive_pins (fun p => p <| mem_ack := true |>) s
  else drive_pins (fun p => p <| mem_ack := false |>) s.

Definition pmmu_tick (s : PmmuSim) : PmmuSim :=
  let s := evaluate (drive_pins (fun p => p <| clk := false |>) s) in
  let s := evaluate (serve_walker s) in
  let s := evaluate (drive_pins (fun p => p <| clk := true |>) s) in
  s <| pu_time ::= (fun t => u64 (t + 1)) |>.

Definition pmmu_reg_write (sel val part fd : Z) (s : PmmuSim) : PmmuSim :=
  let s := drive_pins (fun p => p <| reg_sel := sel |> <| reg_wdat := val |> <| reg_part := part |> <| reg_fd := fd |> <| reg_we := true |>) s in
  let s := pmmu_tick s in
  pmmu_tick (drive_pins (fun p => p <| reg_we := false |> <| reg_re := false |>) s).

(** The looks at the pins: the third in a row that finds the walk done ends them. *)
Fixpoint walk_loop (fuel : nat) (saw_busy : bool) (idle_after : nat) (s : PmmuSim) : PmmuSim :=
  match fuel with
  | O => s
  | S fuel =>
    let s := pmmu_tick s in
    let saw_busy := saw_busy || busy (unit_state s) in
    let done := saw_busy && negb (busy (unit_state s)) && (debug_wstate (unit_state s) =? 0) in
    if done then
      if (3 <=? S idle_after)%nat then s else walk_loop fuel saw_busy (S idle_after) s
    else walk_loop fuel saw_busy 0 s
  end.

Definition translate (a f r i : Z) (s : PmmuSim) : Z * PmmuSim :=
  let s := drive_pins (fun p => p <| addr_log := a |> <| fc := f |> <| rw := r |> <| is_insn := i |> <| rmw := 0 |> <| req := true |>) s in
  let s := walk_loop 400 false 0 s in
  let phys := addr_phys (unit_state s) in
  (phys, pmmu_tick (pmmu_tick (drive_pins (fun p => p <| req := false |>) s))).

Definition pmmu_reset (s : PmmuSim) : PmmuSim :=
  let s := drive_pins (fun p => MkPmmuIn false true (clk p) false false 0 0 0 0 false false false 0 0 0
                                    false 0 1 0 0 0 false false 0 false false) s in
  let s := iterate 16 pmmu_tick s in
  iterate 4 pmmu_tick (drive_pins (fun p => p <| nreset := true |> <| cpu_reset := false |>) s).

(** *** The scenarios *)

Definition TC : Z := 0x10.
Definition CRP : Z := 0x13.

Definition oracle_table (s : PmmuSim) : PmmuSim := s <| g_mem := <[0x009FE874 := 0x00A00000]> (<[0x009FE870 := 0x7FFFFC19]> ∅) |>.

Definition write_tc (s : PmmuSim) : PmmuSim := pmmu_reg_write TC 0x80F84500 0 0 s.
Definition write_crp (s : PmmuSim) : PmmuSim := pmmu_reg_write CRP 0x009FE820 0 0 (pmmu_reg_write CRP 0x7FFF0003 1 0 s).

(** A translation of an instruction fetch by the supervisor. *)
Definition fetch (a : Z) (s : PmmuSim) : Z * PmmuSim := translate a 6 1 1 s.

(** The four addresses, those that are expected, the number of failures and the exit code. *)
Definition pmmu_unit_main (s : PmmuSim) : list (Z * Z) * Z * Z * PmmuSim :=
  let s := write_crp (write_tc (oracle_table (pmmu_reset s))) in
  let '(p1, s) := fetch 0x40A0010E s in
  let '(p2, s) := fetch 0x00A41B8E s in
  let s := write_tc (write_crp (oracle_table (pmmu_reset s))) in
  let '(p3, s) := fetch 0x40A0010E s in
  let s := write_tc (write_crp (oracle_table (pmmu_reset s))) in
  let s := (fetch 0x00A08000 (fetch 0x40A04000 s).2).2 in
  let '(p4, s) := fetch 0x40A0010E (write_tc s) in
  let results := [(p1, 0x00A0010E); (p2, 0x00A41B8E); (p3, 0x00A0010E); (p4, 0x00A0010E)] in
  (results, Z.of_nat (length (List.filter (fun r => negb (r.1 =? r.2)) results)), 0, s).

End Bench.
Arguments PmmuSim C : clear implicits.

(** ** A translation *)

Section Walk.
Context {C : Type} `{Pmmu C}.

(** The bench [n] clocks later. *)
Definition look_after (s : PmmuSim C) (n : nat) : PmmuSim C := iterate n pmmu_tick s.

(** The unit has been busy at a look up to [n], and is idle at [n]. *)
Definition was_busy (s : PmmuSim C) (n : nat) : bool := existsb (fun k => busy (unit_state (look_after s k))) (seq 1 n).
Definition settled (s : PmmuSim C) (n : nat) : bool :=
  was_busy s n && negb (busy (unit_state (look_after s n))) && (debug_wstate (unit_state (look_after s n)) =? 0).

(** The looks in a row, up to [n], at which it is settled. *)
Fixpoint settled_run (s : PmmuSim C) (n : nat) : nat :=
  match n with O => O | S n => if settled s (S n) then S (settled_run s n) else O end.

Lemma was_busy_S s n : was_busy s (S n) = was_busy s n || busy (unit_state (look_after s (S n))).
Proof. unfold was_busy. rewrite seq_S, existsb_app. cbn [existsb]. by rewrite orb_false_r. Qed.

Lemma walk_from s fuel : forall k, (forall m, (m <= k)%nat -> (settled_run s m < 3)%nat) ->
  exists n, (k <= n <= k + fuel)%nat /\ walk_loop fuel (was_busy s k) (settled_run s k) (look_after s k) = look_after s n /\
    (settled_run s n = 3%nat \/ n = (k + fuel)%nat) /\ forall m, (m < n)%nat -> (settled_run s m < 3)%nat.
Proof.
  induction fuel as [|fuel IH]; intros k Hk.
  { exists k. split; [lia|]. split; [done|]. split; [right; lia|]. intros m Hm. apply Hk. lia. }
  cbn [walk_loop]. change (pmmu_tick (look_after s k)) with (look_after s (S k)). rewrite <- was_busy_S.
  change (was_busy s (S k) && negb (busy (unit_state (look_after s (S k)))) && (debug_wstate (unit_state (look_after s (S k))) =? 0))
    with (settled s (S k)).
  assert (Hrun : settled_run s (S k) = if settled s (S k) then S (settled_run s k) else O) by done.
  pose proof (Hk k (le_n k)) as Hkk. destruct (settled s (S k)) eqn:E.
  - destruct (3 <=? S (settled_run s k))%nat eqn:E3.
    + apply Nat.leb_le in E3. exists (S k). split; [lia|]. split; [done|]. split; [left; lia|]. intros m Hm. apply Hk. lia.
    + apply Nat.leb_gt in E3.
      destruct (IH (S k)) as (n & Hn & En & He & Hm).
      { intros m Hm. destruct (decide (m = S k)) as [->|]; [lia|apply Hk; lia]. }
      rewrite Hrun in En. exists n. split; [lia|]. split; [exact En|]. split; [destruct He; [by left|right; lia]|exact Hm].
  - destruct (IH (S k)) as (n & Hn & En & He & Hm).
    { intros m Hm. destruct (decide (m = S k)) as [->|]; [lia|apply Hk; lia]. }
    rewrite Hrun in En. exists n. split; [lia|]. split; [exact En|]. split; [destruct He; [by left|right; lia]|exact Hm].
Qed.

(** When a translation is taken as done.  The address that [translate] gives is the one on
    the pins after the first clock at which the unit, having been busy, is seen idle for
    the third time in a row, or after 400 clocks; whatever the unit does, the call ends. *)
Theorem translate_ends (a f r i : Z) (s : PmmuSim C) :
  let s0 := drive_pins (fun p => p <| addr_log := a |> <| fc := f |> <| rw := r |> <| is_insn := i |> <| rmw := 0 |> <| req := true |>) s in
  exists n, (n <= 400)%nat /\ (translate a f r i s).1 = addr_phys (unit_state (look_after s0 n)) /\
    (settled_run s0 n = 3%nat \/ n = 400%nat) /\ forall m, (m < n)%nat -> (settled_run s0 m < 3)%nat.
Proof.
  cbn zeta. set (s0 := drive_pins _ s). destruct (walk_from s0 400 0) as (n & Hn & E & He & Hm).
  { intros m Hm. replace m with 0%nat by lia. cbn. lia. }
  exists n. split; [lia|]. split; [|split; [exact He|exact Hm]].
  unfold translate. fold s0. cbn [fst]. exact (f_equal (fun s => addr_phys (unit_state s)) E).
Qed.

(** ** The clocks *)

(** [s'] is [s] some clocks later, at most [k]. *)
Definition within_ticks (k : Z) (s s' : PmmuSim C) : Prop := exists n, 0 <= n <= k /\ u64 (pu_time s') = u64 (pu_time s + n).

Lemma within_same s s' : pu_time s' = pu_time s -> within_ticks 0 s s'.
Proof. intros E. exists 0. split; [lia|]. by rewrite E, Z.add_0_r. Qed.

Lemma within_trans k l s1 s2 s3 : within_ticks k s1 s2 -> within_ticks l s2 s3 -> within_ticks (k + l) s1 s3.
Proof.
  intros (n & Hn & En) (m & Hm & Em). exists (n + m). split; [lia|]. rewrite Em.
  unfold uwrap in *. rewrite <- Zplus_mod_idemp_l, En, Zplus_mod_idemp_l. f_equal. lia.
Qed.

Lemma within_le k l s s' : within_ticks k s s' -> k <= l -> within_ticks l s s'.
Proof. intros (n & Hn & E) Hl. exists n. split; [lia|exact E]. Qed.

Lemma drive_time f (s : PmmuSim C) : pu_time (drive_pins f s) = pu_time s.
Proof. reflexivity. Qed.

Lemma serve_time (s : PmmuSim C) : pu_time (serve_walker s) = pu_time s.
Proof. unfold serve_walker. destruct (mem_req (unit_state s)), (mem_we (unit_state s)); reflexivity. Qed.

Lemma within_tick (s : PmmuSim C) : within_ticks 1 s (pmmu_tick s).
Proof.
  set (s1 := evaluate (drive_pins (fun p => p <| clk := false |>) s)). exists 1. split; [lia|].
  change (pu_time (pmmu_tick s)) with (u64 (pu_time (serve_walker s1) + 1)). rewrite serve_time.
  change (pu_time s1) with (pu_time s). unfold uwrap. by rewrite Zmod_mod.
Qed.

(** A step that only drives pins, and [k] ticks behind it. *)
Lemma within_look f (s : PmmuSim C) k : within_ticks (Z.of_nat k) s (iterate k pmmu_tick (drive_pins f s)).
Proof.
  induction k as [|k IH]; [by apply within_same, drive_time|]. cbn [iterate].
  refine (within_le _ _ _ _ (within_trans _ _ _ _ _ IH (within_tick _)) _). lia.
Qed.

Lemma within_reg_write sel val part fd (s : PmmuSim C) : within_ticks 2 s (pmmu_reg_write sel val part fd s).
Proof.
  unfold pmmu_reg_write. cbn zeta. refine (within_trans 1 1 _ _ _ (within_look _ s 1) (within_look _ _ 1)).
Qed.

Lemma within_reset (s : PmmuSim C) : within_ticks 20 s (pmmu_reset s).
Proof. unfold pmmu_reset. cbn zeta. exact (within_trans 16 4 _ _ _ (within_look _ s 16) (within_look _ _ 4)). Qed.

Lemma within_fetch a (s : PmmuSim C) : within_ticks 402 s (fetch a s).2.
Proof.
  unfold fetch, translate. set (f := fun p : PmmuIn => _). destruct (walk_from (drive_pins f s) 400 0) as (n & Hn & E & _ & _).
  { intros m Hm. replace m with 0%nat by lia. cbn. lia. }
  cbn zeta. change (walk_loop 400 false 0 (drive_pins f s)) with (walk_loop 400 (was_busy (drive_pins f s) 0) (settled_run (drive_pins f s) 0) (look_after (drive_pins f s) 0)).
  rewrite E. cbn [snd].
  refine (within_trans 400 2 _ _ _ (within_le _ _ _ _ (within_look f s n) _) (within_look _ _ 2)). lia.
Qed.

Lemma within_table (s : PmmuSim C) : within_ticks 20 s (oracle_table (pmmu_reset s)).
Proof. exact (within_trans 20 0 _ _ _ (within_reset s) (within_same _ _ eq_refl)). Qed.

Lemma within_tc (s : PmmuSim C) : within_ticks 2 s (write_tc s).
Proof. apply within_reg_write. Qed.

Lemma within_crp (s : PmmuSim C) : within_ticks 4 s (write_crp s).
Proof. exact (within_trans 2 2 _ _ _ (within_reg_write _ _ _ _ s) (within_reg_write _ _ _ _ _)). Qed.

(** The bench ends with code 0 whatever it has found.  It takes at most 2492 clocks; the
    failures it counts and prints are the translations that differ from what is expected,
    and its exit code does not depend on them. *)
Theorem bench_returns_zero (s : PmmuSim C) :
  let '(results, fails, code, s') := pmmu_unit_main s in
  code = 0 /\ (fails = 0 <-> Forall (fun r => r.1 = r.2) results) /\ 0 <= fails <= 4 /\ within_ticks 2492 s s'.
Proof.
  unfold pmmu_unit_main. cbn zeta.
  pose proof (within_trans _ _ _ _ _ (within_trans _ _ _ _ _ (within_table s) (within_tc _)) (within_crp _)) as W0.
  set (s0 := write_crp _) in *. clearbody s0. pose proof (within_fetch 0x40A0010E s0) as W1. destruct (fetch _ s0) as [p1 s1].
  pose proof (within_fetch 0x00A41B8E s1) as W2. destruct (fetch _ s1) as [p2 s2]. cbn [snd] in *.
  pose proof (within_trans _ _ _ _ _ (within_trans _ _ _ _ _ (within_table s2) (within_crp _)) (within_tc _)) as W3.
  set (s3 := write_tc _) in *. clearbody s3. pose proof (within_fetch 0x40A0010E s3) as W4. destruct (fetch _ s3) as [p3 s4]. cbn [snd] in *.
  pose proof (within_trans _ _ _ _ _ (within_trans _ _ _ _ _ (within_table s4) (within_crp _)) (within_tc _)) as W5.
  set (s5 := write_tc (write_crp _)) in *. clearbody s5.
  pose proof (within_trans _ _ _ _ _ (within_fetch 0x40A04000 s5) (within_fetch 0x00A08000 _)) as W6.
  set (s6 := (fetch 0x00A08000 _).2) in *. clearbody s6. pose proof (within_tc s6) as W7.
  pose proof (within_fetch 0x40A0010E (write_tc s6)) as W8. destruct (fetch _ (write_tc s6)) as [p4 s8]. cbn [snd] in *.
  split; [done|]. split; [|split; [|]].
  - cbn [List.filter fst snd]. rewrite !Forall_cons, Forall_nil. cbn [fst snd].
    destruct (Z.eqb_spec p1 0x00A0010E), (Z.eqb_spec p2 0x00A41B8E), (Z.eqb_spec p3 0x00A0010E), (Z.eqb_spec p4 0x00A0010E);
      cbn; split; try done; try lia; tauto.
  - cbn [List.filter fst snd]. destruct (p1 =? _), (p2 =? _), (p3 =? _), (p4 =? _); cbn; lia.
  - refine (within_le _ _ _ _ (within_trans _ _ _ _ _ (within_trans _ _ _ _ _ (within_trans _ _ _ _ _ (within_trans _ _ _ _ _
      (within_trans _ _ _ _ _ (within_trans _ _ _ _ _ (within_trans _ _ _ _ _ (within_trans _ _ _ _ _ W0 W1) W2) W3) W4) W5) W6) W7) W8) _). lia.
Qed.

End Walk.
